(* ===== verification/_CoqProject ===== *)
-Q . S2P
Prelude.v
RustStd.v
Extern.v
Types.v
Concrete.v
Handler.v
Deserialize.v
SqlEngine.v
Migrations.v
MigrationLoop.v
MigrationData.v
Db.v
ExampleDb.v
SqlFilters.v
SqlSchema.v
SqlUser.v
SqlGroup.v
SqlBackend.v
SqlTcp.v
SqlOpaque.v
Configuration.v
SqlMachine.v
AccessControl.v
LdapUtils.v
LdapUser.v
LdapGroup.v
LdapHandler.v
LdapSql.v
AuthService.v
AuthSession.v
Clients.v
GraphqlQuery.v
GraphqlMutation.v
GraphqlSql.v
StoredTypes.v
TypeSafety.v
HttpServer.v
HttpSql.v
MigrationTool.v
MigrationToolSql.v
Startup.v
Healthcheck.v
WebPage.v
WebApi.v
WebApp.v
WebForms.v
WebSafety.v
WebDirectory.v
WebEdit.v
WebPages.v
WebSql.v
WebReset.v
WebGraphql.v
WebUsers.v
WebDetails.v
Mail.v
WebExamples.v
WebHttp.v
WebHttpExamples.v
