(* ===== verification/Prelude.v ===== *)
(** * LLDAP: a verification development

    LLDAP is a small user directory: one server process that keeps users, groups,
    their attributes and their passwords in a SQL database, answers LDAP searches
    and binds, and serves a GraphQL API and an HTTP login service to its web page.
    This development models the server ([src/server/], with the shared types of
    [src/auth/]), its two command-line clients ([src/set-password/],
    [src/migration-tool/]) and the state of its web page ([src/app/]) as executable
    functions and proves what makes them correct, each alone and together.

    ** How the program is put together, and where each part is

    A request enters through LDAP ([ldap_server.rs], [ldap_handler.rs]), GraphQL
    ([graphql/query.rs], [graphql/mutation.rs]) or HTTP ([auth_service.rs]).  Each
    of them knows who is asking (the identity bound on the connection, or the
    claims of a JWT) and asks [access_control.rs] for a view of the backend which
    only has the operations that identity is allowed.  The view calls the backend
    traits of [domain/handler.rs]; the one implementation is the SQL backend
    ([sql_*_backend_handler.rs], [sql_opaque_handler.rs]), which turns filters into
    SQL conditions and requests into statements.  At start-up [main.rs] reads the
    configuration, obtains the server's private key, creates or migrates the
    tables, and makes sure that the default groups and an administrator exist.

    - [Prelude]: results with the three ends Rust has ([Ok], [Err], panic), the state
      monad [stM] of stateful code with transactions, and the vocabulary of the
      proofs: [preserves], [readonly], [never_panics], with the hint databases [rust],
      [stm] and [calm] and the tactics [stm] and [calm]; lists and sorting; tables
      with unique columns.
    - [RustStd]: what the sources use of the standard library: UTF-8, [str] methods,
      lower case, integers at their width and their parsers, [Debug] of strings.
    - [Extern]: the third-party crates, as classes; [Concrete]: small instances that
      satisfy the laws, so that the witnesses run.
    - [Types] ([domain/types.rs], [domain/error.rs]): identifiers, case-insensitive
      names, serialized values, photos, users and groups.
    - [Handler] ([domain/handler.rs], [domain/schema.rs]): requests, filters, attribute
      schemas; the class [BackendHandler] of the backend traits, and [BackendLaws],
      what its clients rely on (reading writes nothing, a filter restricted to one
      user answers about that user).
    - [Deserialize] ([domain/deserialize.rs]): attribute values from text.
    - [SqlEngine], [Migrations], [MigrationLoop], [MigrationData]
      ([domain/sql_migrations.rs], [domain/sql_tables.rs]): a database whose schema is
      data, the creation of the tables and the migrations to the versions 2 to 10, the
      loop that runs the missing ones, and what they do to the rows.
    - [Db] ([domain/model/*.rs], the schema after the last migration): one finite map
      per table, and the statements the handlers issue with the constraints the
      schema declares; [db_ok] is the integrity they keep.  [ExampleDb]: a small one.
    - [SqlFilters]: filters as conditions, evaluated with SQL's three truth values and
      [LIKE]; [user_matches] and [group_matches] are what the filters mean.
    - [SqlSchema], [SqlUser], [SqlGroup], [SqlTcp], [SqlOpaque]: the operations of the
      SQL backend on schemas, users, groups, tokens and passwords, each one the whole
      handler; [SqlBackend]: the instance of [BackendHandler] with its laws;
      [SqlMachine]: all the writing operations as one transition system.
    - [AccessControl] ([infra/access_control.rs]): permissions, the views as records of
      operations, the lister restricted to one user.
    - [LdapUtils], [LdapUser], [LdapGroup] ([domain/ldap/]), [LdapHandler]
      ([infra/ldap_handler.rs], the message loop of [infra/ldap_server.rs]): names,
      entries, filters and every request, over any backend; [LdapSql]: the same on the
      SQL backend.
    - [AuthService] ([infra/auth_service.rs], [infra/tcp_server.rs]): login, refresh,
      logout, password reset, the check of a JWT; [AuthSession]: on the SQL backend.
    - [GraphqlQuery], [GraphqlMutation]: every query and mutation over any backend;
      [GraphqlSql]: on the SQL backend.
    - [StoredTypes], [TypeSafety]: the types of stored values against the schema, kept by
      every operation of the backend, mutation, LDAP message and login request.
    - [HttpServer] ([infra/tcp_server.rs], the routes and the middleware of
      [infra/auth_service.rs], [infra/graphql/api.rs]): from a raw request to a handler and
      back; the GraphQL engine as a plan of calls of resolvers.  [HttpSql]: on the SQL
      backend.
    - [Mail] ([infra/mail.rs]): what is sent to whom, with the login service's request
      for a new password.
    - [Clients] ([set-password/src/main.rs], [try_login] of
      [migration-tool/src/lldap.rs]): the two clients of the login service, run against
      [AuthService] on the SQL backend.
    - [MigrationTool] ([migration-tool/src/]): reading users and groups from another LDAP
      server and adding them to any [LldapServer]; [MigrationToolSql]: to the SQL
      backend, through the GraphQL mutations.
    - [Configuration] ([infra/configuration.rs], [infra/cli.rs], the metadata row of
      [sql_tables.rs]): options and overrides, the server's key.
    - [Startup] ([main.rs]): the start of the server.  [Healthcheck]
      ([infra/healthcheck.rs]): the probe of the LDAP port.
    - [WebPage] ([app/src/infra/common_component.rs]): a component of the page as a state
      with requests in the background, its messages, and what the user can do with what
      is shown, as a transition system.  [WebApi] ([infra/api.rs], [infra/cookies.rs]):
      the requests and the cookies.  [WebApp] ([components/app.rs], [router.rs]): routes
      and redirections.  [WebForms]: the forms for logging in, passwords, new users,
      groups and attributes.  [WebDirectory]: the lists, the details, and the dialogs
      with the transitions in which they appear and fade.  [WebEdit]:
      the form that edits a user.  [WebSafety], [WebPages]: no page reaches a panic, but
      for those that have one.
    - [WebSql], [WebReset]: pages run against the login service on the SQL backend, for
      any browser that delivers their requests (the class [Delivers]).  [WebGraphql]: the
      documents of [app/queries/] as calls of the resolvers, and what it is to deliver
      them ([DeliversGraphql]); [WebUsers]: creating a user from the page; [WebDetails]:
      editing one.  [WebHttp]: a browser with the cookies of the site that sends raw
      requests to [HttpServer.serve], which discharges both classes.  [WebExamples],
      [WebHttpExamples]: small browsers, and the witnesses.

    ** State

    A handler of the SQL backend is a function on [World]: the database ([Db]), the
    clock, and the stream of random texts with the position of the next one.  An LDAP
    session adds the bound identity; an HTTP handler adds the set of revoked JWTs that
    is kept in memory ([AppState]).  The migrations run on an [Engine], tables with
    their columns; the start joins an [Engine] and a [World].  A page is its component,
    the error shown, the requests in flight with what their answers become, and what was
    shown last; the browser's cookies are behind a class.  Requests of different
    clients are interleaved as whole operations (each writes in one statement or in
    one transaction): [SqlMachine] and [GraphqlSql] have them as steps of a relation
    and prove invariants by induction over their sequences.

    ** What the theorems show

    - Integrity: every state the backend reaches satisfies [db_ok], and no two e-mails or
      group names in it differ by case only ([reachable_db_ok]);
      each operation of the backend is described on every branch, errors included.
    - Types: whatever the clients do, every stored value decodes at the type the schema
      gives its attribute ([stored_values_typed]).
    - Filters: SQL conditions select exactly what a filter means, where it is plain and
      defined ([get_user_filter_expr_correct]), LIKE patterns match substrings
      ([to_sql_filter_correct]), filters coming from LDAP or GraphQL never panic.
    - Listing merges two sorted queries without mixing users ([sql_list_users_correct],
      [sql_list_groups_correct]).
    - Passwords: the password registered is the one accepted ([register_then_bind],
      [ldap_login]); only those allowed change one ([password_change_authorized]).
    - Sessions: the life of a JWT from login to logout ([session_lifecycle],
      [logged_out_stays_out], [refresh_token_lifetime], [reset_step2_correct]).
    - Access: [permissions_correct], [restricted_lister_correct],
      [regular_search_restricted], [unbound_refused], [query_access],
      [mutation_access]; no sequence of mutations locks the first administrator out
      ([admin_not_locked_out]).
    - HTTP: what any request can do to the state is one request to the login service or
      mutations with the rights of the token it presents ([serve_refines],
      [graphql_served]); the requests of the page arrive at the handlers they are meant
      for, with the cookies of their path ([http_serves_page]); without an administrator's token, nothing beyond one's own entry
      ([http_regular_user]).
    - The forgotten password: the mail and its link ([reset_mail_correct]), from the link
      to the new password ([web_reset_correct]).
    - The page: its components never panic, but for the dialogs that delete when a click
      comes twice, the form of a user's details while a request runs, an id beyond 64 bits,
      and the button of the logout ([pages_never_panic]); a password
      is changed as the form says ([web_password_correct]); a user is created as the form
      says, and can log in ([web_user_created]); exactly what was edited is sent
      ([details_saved]), stored and shown again, but for the names ([web_details_saved]); the session outlives a reload ([login_survives_reload]); each user
      lands on the right page ([landing_page]).
    - Schema: the migration loop refines its specification, a relation with one step
      per version and its panics ([init_table_refines]), which terminates ([upgrade_terminates]); the
      data of version 1 arrives at version 10 ([migrate_old_data]).
    - Start: the key is stable across restarts ([server_key_stable]) and cannot change
      by accident ([private_key_pinned]); after a start there is an administrator
      ([accounts_ready], [new_server_ready]); a running server answers its health check
      ([probe_answered]).
    - Clients: the set-password tool changes the password it is asked to, when it may
      ([set_password_correct]); the migration tool logs in as the user it names
      ([try_login_correct]), ends whatever is answered, with three ways to panic
      ([migration_terminates]), and a
      run that is agreed to migrates everything ([migration_complete]).
    - Round trips: [distinguished_name_roundtrip], [attribute_text_roundtrip].
    Theorems about a behaviour that is not what the code means have a doc comment
    that says so ([login_state_registers], [logout_rejects], [modify_other_panics],
    [healthcheck_timeout_passes], [capital_left_out], [delete_twice_panics], ...).

    ** Parameters and their laws

    Code outside the repository is a parameter: [Unicode] tables, chrono, uuid, base64,
    image ([Crates]), bincode ([Bincode], [BincodeStream]), opaque_ke ([OpaqueLib], with
    the protocol's contract [OpaqueLaws]: the login of a registered password succeeds
    with exactly that password), orion ([Orion]), JWT signing ([Jwt]), the hasher
    ([StdHash]), ldap3_proto's decoder ([Ldap3]), figment, serde_json and the key
    generation ([FigmentLib], [KeyLib]), lettre ([MailLib]), the clock and the generators;
    actix's decoders ([HttpLib]) and the GraphQL engine ([Juniper]); for the page, the
    browser ([Browser], [PageLib], with [CookieJar] and [Delivers] for what it does with
    cookies and requests), the encoders of its requests ([WebCodec]) and the validator of
    addresses ([ValidatorLib]).
    Their laws are round trips and the contract above; every theorem that uses one has
    a witness on a concrete instance.  The SQL engine is modelled as SQLite, the
    default: text compares by bytes, [LIKE] and [LOWER] know ASCII only, a failed
    statement changes nothing.

    ** Bounds and fuel

    Integers are [Z] with the width checks the code makes: [i64] for ids and attribute
    values (their parser refuses what does not fit), [u64] for JWT hashes; dates stay
    within chrono's range.  Recursion is structural except for [trim_while], whose
    fuel is the length of the text (each round strips at least one byte), and
    [hex_digits], whose fuel is 8, where the largest code point has 6 digits.  The
    migration loop runs over the list of versions.  The loops of the migration tool
    that ask again ([attempt], [bind_ldap], [get_lldap_user_and_password]) have one
    turn more than there are answers to come, which each turn but the last takes one
    of ([migration_terminates]).  [settle] runs the requests of a page; three answers are
    enough for a change of password or a new user, two for a reset and one for the
    details ([web_password_correct], [web_user_created], [web_reset_correct],
    [web_details_saved]).

    ** Not modelled

    The markup of the page, its styles, and the framework that draws it (yew); the parsing of GraphQL queries (juniper) and of bodies (actix), TLS and
    sockets, the cron scheduler, logging, figment's and clap's parsing: third-party code or
    glue.  Connection failures of the database are not modelled.  [Debug] texts in error
    messages are parameters or shortened. *)

From stdpp Require Export base gmap sets list strings sorting.
From Stdlib Require Export ZArith Lia.

#[global] Open Scope stdpp_scope.
#[global] Set Default Proof Using "Type".

(* ------------------------------------------------------------------ *)
(** ** Results, as Rust has them

    A Rust function returning [Result<A, E>] ends in one of three ways: it
    returns [Ok], it returns [Err], or it panics ([panic!], [assert!],
    [unwrap], [expect], an index out of range). *)

Inductive outcome (E A : Type) : Type :=
| Ok (a : A)
| Err (e : E)
| Panic (msg : string).
Arguments Ok {E A} a.
Arguments Err {E A} e.
Arguments Panic {E A} msg.

Declare Scope rust_scope.
Delimit Scope rust_scope with rust.
#[global] Open Scope rust_scope.

Definition obind {E A B} (m : outcome E A) (f : A -> outcome E B) : outcome E B :=
  match m with
  | Ok a => f a
  | Err e => Err e
  | Panic p => Panic p
  end.

(** [m.map_err(f)] *)
Definition omap_err {E E' A} (f : E -> E') (m : outcome E A) : outcome E' A :=
  match m with
  | Ok a => Ok a
  | Err e => Err (f e)
  | Panic p => Panic p
  end.

(** [m.map(f)] *)
Definition omap_ok {E A B} (f : A -> B) (m : outcome E A) : outcome E B :=
  obind m (fun a => Ok (f a)).

(** [o.ok_or_else(|| e)] *)
Definition ok_or {E A} (e : E) (o : option A) : outcome E A :=
  match o with Some a => Ok a | None => Err e end.

(** [o.expect(msg)] and [o.unwrap()] *)
Definition expect {E A} (msg : string) (o : option A) : outcome E A :=
  match o with Some a => Ok a | None => Panic msg end.

(** [assert!(b)] *)
Definition assert_ {E} (msg : string) (b : bool) : outcome E unit :=
  if b then Ok tt else Panic msg.

Notation "'let?' x ':=' c1 'in' c2" := (obind c1 (fun x => c2))
  (at level 10, x binder, c1 at level 200, c2 at level 200) : rust_scope.
Notation "'let?' ' pat ':=' c1 'in' c2" := (obind c1 (fun x => match x with pat => c2 end))
  (at level 10, pat pattern, c1 at level 200, c2 at level 200) : rust_scope.

Definition is_panic {E A} (m : outcome E A) : Prop := exists p, m = Panic p.
Definition no_panic {E A} (m : outcome E A) : Prop := forall p, m <> Panic p.

(** [iter.map(f).collect::<Result<Vec<_>, _>>()]: stops at the first error. *)
Section TryMap.
Context {E A B : Type} (f : A -> outcome E B).
Fixpoint try_map (l : list A) : outcome E (list B) :=
  match l with
  | [] => Ok []
  | x :: l => let? y := f x in let? ys := try_map l in Ok (y :: ys)
  end.
End TryMap.

(* ------------------------------------------------------------------ *)
(** ** Stateful code: a state monad over outcomes *)

Definition stM (S E A : Type) : Type := S -> outcome E A * S.

Definition sret {S E A} (a : A) : stM S E A := fun s => (Ok a, s).
Definition sthrow {S E A} (e : E) : stM S E A := fun s => (Err e, s).
Definition spanic {S E A} (p : string) : stM S E A := fun s => (Panic p, s).
Definition slift {S E A} (m : outcome E A) : stM S E A := fun s => (m, s).
Definition sget {S E} : stM S E S := fun s => (Ok s, s).
Definition smodify {S E} (f : S -> S) : stM S E unit := fun s => (Ok tt, f s).

Definition sbind {S E A B} (m : stM S E A) (f : A -> stM S E B) : stM S E B :=
  fun s => match m s with
           | (Ok a, s') => f a s'
           | (Err e, s') => (Err e, s')
           | (Panic p, s') => (Panic p, s')
           end.

Definition smap_err {S E E' A} (f : E -> E') (m : stM S E A) : stM S E' A :=
  fun s => let '(r, s') := m s in (omap_err f r, s').

(** [match m.await { Ok(a) => .., Err(e) => .. }]: the result as a value; a
    panic still unwinds. *)
Definition stry {S E E' A} (m : stM S E A) : stM S E' (E + A) :=
  fun s => match m s with
           | (Ok a, s') => (Ok (inr a), s')
           | (Err e, s') => (Ok (inl e), s')
           | (Panic p, s') => (Panic p, s')
           end.

(** [pool.transaction(|t| ..)]: committed on [Ok], rolled back otherwise. *)
Definition transaction {S E A} (m : stM S E A) : stM S E A :=
  fun s => match m s with
           | (Ok a, s') => (Ok a, s')
           | (Err e, _) => (Err e, s)
           | (Panic p, _) => (Panic p, s)
           end.

(** A computation on a component of the state. *)
Definition szoom {S T E A} (get : S -> T) (set : T -> S -> S) (m : stM T E A) : stM S E A :=
  fun s => let '(r, t') := m (get s) in (r, set t' s).

Notation "'let!' x ':=' c1 'in' c2" := (sbind c1 (fun x => c2))
  (at level 10, x binder, c1 at level 200, c2 at level 200) : rust_scope.
Notation "'let!' ' pat ':=' c1 'in' c2" := (sbind c1 (fun x => match x with pat => c2 end))
  (at level 10, pat pattern, c1 at level 200, c2 at level 200) : rust_scope.
Notation "c1 ;; c2" := (sbind c1 (fun _ => c2))
  (at level 100, c2 at level 200, right associativity) : rust_scope.

Section SFor.
Context {S E A : Type} (f : A -> stM S E unit).
(** [for x in l { f(x).await? }] *)
Fixpoint sfor (l : list A) : stM S E unit :=
  match l with
  | [] => sret tt
  | x :: l => f x ;; sfor l
  end.
End SFor.

(* ------------------------------------------------------------------ *)
(** ** Reasoning about stateful code

    [preserves P m]: whatever [m] returns, an invariant [P] of the state
    survives.  [readonly m]: the state is left as it was.  [returns Q m]: every
    [Ok] result of [m] satisfies [Q].  The lemmas are collected in the hint
    database [stm], and the tactic [stm] applies them along the structure of a
    program. *)

Definition preserves {S E A} (P : S -> Prop) (m : stM S E A) : Prop :=
  forall s, P s -> P (snd (m s)).

Definition readonly {S E A} (m : stM S E A) : Prop := forall s, snd (m s) = s.

(** Every outcome is related to the states before and after. *)
Definition ensures {S E A} (m : stM S E A) (R : S -> outcome E A -> S -> Prop) : Prop :=
  forall s, R s (fst (m s)) (snd (m s)).

Lemma obind_ok {E A B} (m : outcome E A) (f : A -> outcome E B) b :
  obind m f = Ok b <-> exists a, m = Ok a /\ f a = Ok b.
Proof. destruct m; simpl; naive_solver. Qed.

Lemma obind_no_panic {E A B} (m : outcome E A) (f : A -> outcome E B) :
  no_panic m -> (forall a, m = Ok a -> no_panic (f a)) -> no_panic (obind m f).
Proof. unfold no_panic. destruct m; simpl; naive_solver. Qed.

Lemma omap_err_no_panic {E E' A} (f : E -> E') (m : outcome E A) :
  no_panic m -> no_panic (omap_err f m).
Proof. unfold no_panic. destruct m; simpl; naive_solver. Qed.

Lemma no_panic_ok {E A} (a : A) : no_panic (Ok (E:=E) a).
Proof. by intros p. Qed.
Lemma no_panic_err {E A} (e : E) : no_panic (Err (A:=A) e).
Proof. by intros p. Qed.
Lemma ok_or_no_panic {E A} (e : E) (o : option A) : no_panic (ok_or e o).
Proof. by destruct o; intros p. Qed.

Create HintDb rust discriminated.
#[export] Hint Resolve no_panic_ok no_panic_err ok_or_no_panic omap_err_no_panic : rust.

Section TryMapFacts.
Context {E A B : Type} (f : A -> outcome E B).

Lemma try_map_ok l ys :
  try_map f l = Ok ys <-> Forall2 (fun x y => f x = Ok y) l ys.
Proof.
  revert ys. induction l as [|x l IH]; intros ys; simpl.
  - split; [intros [= <-]; constructor|]. intros H. by inversion H.
  - rewrite obind_ok. split.
    + intros (y & Hy & (ys' & Hys & [= <-])%obind_ok).
      constructor; [done|]. by apply IH.
    + intros H. inversion H as [|? y ? ys' Hy Hys]; subst.
      exists y. split; [done|]. apply obind_ok. exists ys'. split; [|done]. by apply IH.
Qed.

Lemma try_map_no_panic l :
  (forall x, x ∈ l -> no_panic (f x)) -> no_panic (try_map f l).
Proof.
  induction l as [|x l IH]; intros Hf; simpl; [by auto with rust|].
  apply obind_no_panic; [apply Hf; set_solver|]. intros y _.
  apply obind_no_panic; [apply IH; set_solver|]. auto with rust.
Qed.

Lemma try_map_err l e :
  try_map f l = Err e ->
  exists l1 x l2, l = l1 ++ x :: l2 /\ f x = Err e /\ Forall (fun x => exists y, f x = Ok y) l1.
Proof.
  induction l as [|x l IH]; simpl; [done|].
  destruct (f x) as [y|e'|p] eqn:Hx; simpl; try done.
  - destruct (try_map f l) as [ys|e'|p] eqn:Hl; simpl; try done.
    intros [= ->]. destruct (IH eq_refl) as (l1 & x' & l2 & -> & He & Hf).
    exists (x :: l1), x', l2. eauto.
  - intros [= ->]. exists [], x, l. eauto.
Qed.

Lemma try_map_ext (g : A -> outcome E B) l :
  (forall x, x ∈ l -> f x = g x) -> try_map f l = try_map g l.
Proof.
  induction l as [|x l IH]; intros H; simpl; [done|].
  rewrite (H x) by set_solver. rewrite IH by set_solver. done.
Qed.
End TryMapFacts.

Section Preserves.
Context {S E : Type} (P : S -> Prop).

Lemma preserves_ret {A} (a : A) : preserves P (sret (E:=E) a).
Proof. by intros s. Qed.
Lemma preserves_throw {A} (e : E) : preserves P (sthrow (A:=A) e).
Proof. by intros s. Qed.
Lemma preserves_panic {A} p : preserves P (spanic (E:=E) (A:=A) p).
Proof. by intros s. Qed.
Lemma preserves_lift {A} (m : outcome E A) : preserves P (slift m).
Proof. by intros s. Qed.
Lemma preserves_get : preserves P (sget (E:=E)).
Proof. by intros s. Qed.
Lemma preserves_modify (f : S -> S) :
  (forall s, P s -> P (f s)) -> preserves P (smodify (E:=E) f).
Proof. intros Hf s. apply Hf. Qed.
Lemma preserves_bind {A B} (m : stM S E A) (f : A -> stM S E B) :
  preserves P m -> (forall a, preserves P (f a)) -> preserves P (sbind m f).
Proof.
  intros Hm Hf s Hs. unfold sbind. specialize (Hm s Hs).
  destruct (m s) as [[a|e|p] s']; simpl in *; [by apply Hf|done|done].
Qed.
Lemma preserves_map_err {E' A} (f : E -> E') (m : stM S E A) :
  preserves P m -> preserves P (smap_err f m).
Proof. intros Hm s Hs. specialize (Hm s Hs). unfold smap_err. by destruct (m s). Qed.
Lemma preserves_try {E' A} (m : stM S E A) :
  preserves P m -> preserves P (stry (E':=E') m).
Proof. intros Hm s Hs. specialize (Hm s Hs). unfold stry. by destruct (m s) as [[]]. Qed.
Lemma preserves_transaction {A} (m : stM S E A) :
  preserves P m -> preserves P (transaction m).
Proof. intros Hm s Hs. specialize (Hm s Hs). unfold transaction. by destruct (m s) as [[]]. Qed.
Lemma preserves_for {A} (f : A -> stM S E unit) l :
  (forall x, preserves P (f x)) -> preserves P (sfor f l).
Proof.
  intros Hf. induction l as [|x l IH]; simpl; [apply preserves_ret|].
  by apply preserves_bind; [apply Hf|intros _].
Qed.
Lemma preserves_if {A} (b : bool) (m1 m2 : stM S E A) :
  preserves P m1 -> preserves P m2 -> preserves P (if b then m1 else m2).
Proof. by destruct b. Qed.
End Preserves.

Lemma readonly_preserves {S E A} (m : stM S E A) :
  readonly m <-> forall P : S -> Prop, preserves P m.
Proof.
  split.
  - intros Hm P s Hs. by rewrite Hm.
  - intros Hm s. by apply (Hm (fun s' => s' = s)).
Qed.

Create HintDb stm discriminated.
#[export] Hint Resolve preserves_ret preserves_throw preserves_panic preserves_lift
  preserves_get : stm.

(** Walks down a program and leaves the calls whose preservation is not known. *)
Ltac stm_step :=
  first
    [ progress intros
    | solve [auto with stm]
    | apply preserves_bind
    | apply preserves_map_err
    | apply preserves_try
    | apply preserves_transaction
    | apply preserves_for
    | match goal with
      | |- preserves _ (match ?x with _ => _ end) => destruct x
      end ].
Ltac stm := repeat stm_step.

(** Reading a successful run backwards: [ok_inv] splits a run of a program that
    returned [Ok] into the runs of its parts. *)
Lemma sbind_ok {S E A B} (m : stM S E A) (f : A -> stM S E B) s b s' :
  sbind m f s = (Ok b, s') -> exists a s1, m s = (Ok a, s1) /\ f a s1 = (Ok b, s').
Proof. unfold sbind. destruct (m s) as [[a|e|p] s1]; [eauto|done..]. Qed.

Lemma slift_ok {S E A} (m : outcome E A) (s s' : S) a :
  slift m s = (Ok a, s') -> m = Ok a /\ s' = s.
Proof. unfold slift. by intros [= -> ->]. Qed.

Lemma sret_ok {S E A} (a b : A) (s s' : S) : sret (E:=E) a s = (Ok b, s') -> b = a /\ s' = s.
Proof. unfold sret. by intros [= -> ->]. Qed.

Lemma transaction_ok {S E A} (m : stM S E A) s a s' :
  transaction m s = (Ok a, s') <-> m s = (Ok a, s').
Proof. unfold transaction. by destruct (m s) as [[] ?]. Qed.

Lemma smap_err_ok {S E E' A} (f : E -> E') (m : stM S E A) s a s' :
  smap_err f m s = (Ok a, s') <-> m s = (Ok a, s').
Proof. unfold smap_err. destruct (m s) as [[] ?]; simpl; naive_solver. Qed.

Lemma ok_or_ok {E A} (e : E) (o : option A) a : ok_or e o = Ok a <-> o = Some a.
Proof. destruct o; simpl; naive_solver. Qed.

(** Building a run from the run of its first part. *)
Lemma sbind_run {S E A B} (m : stM S E A) (f : A -> stM S E B) s a s' :
  m s = (Ok a, s') -> sbind m f s = f a s'.
Proof. unfold sbind. by intros ->. Qed.
Lemma sbind_run_err {S E A B} (m : stM S E A) (f : A -> stM S E B) s e s' :
  m s = (Err e, s') -> sbind m f s = (Err e, s').
Proof. unfold sbind. by intros ->. Qed.

(** [never_panics m]: from any state, [m] ends in [Ok] or [Err].  The lemmas are in the
    hint database [calm], and the tactic [calm] walks down a program. *)
Definition never_panics {S E A} (m : stM S E A) : Prop := forall s, no_panic (fst (m s)).

Section NeverPanics.
Context {S E : Type}.
Lemma never_panics_ret {A} (a : A) : never_panics (sret (S:=S) (E:=E) a).
Proof. intros s. apply no_panic_ok. Qed.
Lemma never_panics_throw {A} (e : E) : never_panics (sthrow (S:=S) (A:=A) e).
Proof. intros s. apply no_panic_err. Qed.
Lemma never_panics_get : never_panics (sget (S:=S) (E:=E)).
Proof. intros s. apply no_panic_ok. Qed.
Lemma never_panics_modify f : never_panics (smodify (S:=S) (E:=E) f).
Proof. intros s. apply no_panic_ok. Qed.
Lemma never_panics_lift {A} (m : outcome E A) : no_panic m -> never_panics (slift (S:=S) m).
Proof. by intros Hm s. Qed.
Lemma never_panics_bind {A D} (m : stM S E A) (f : A -> stM S E D) :
  never_panics m -> (forall a, never_panics (f a)) -> never_panics (sbind m f).
Proof.
  intros Hm Hf s. specialize (Hm s). unfold sbind. destruct (m s) as [[a|e|p] s']; cbn in *; [apply Hf|auto with rust|by destruct (Hm p)].
Qed.
Lemma never_panics_try {E' A} (m : stM S E A) : never_panics m -> never_panics (stry (E':=E') m).
Proof.
  intros Hm s p. specialize (Hm s). unfold stry. destruct (m s) as [[a|e|q] s']; cbn in *; [done..|]. by destruct (Hm q).
Qed.
Lemma never_panics_map_err {E' A} (f : E -> E') (m : stM S E A) : never_panics m -> never_panics (smap_err f m).
Proof. intros Hm s. specialize (Hm s). unfold smap_err. destruct (m s) as [[a|e|p] s']; cbn in *; [auto with rust..|by destruct (Hm p)]. Qed.
Lemma never_panics_transaction {A} (m : stM S E A) : never_panics m -> never_panics (transaction m).
Proof. intros Hm s. specialize (Hm s). unfold transaction. by destruct (m s) as [[a|e|p] s']. Qed.
Lemma never_panics_for {A} (f : A -> stM S E unit) l : (forall x, x ∈ l -> never_panics (f x)) -> never_panics (sfor f l).
Proof.
  induction l as [|x l IH]; intros Hf; cbn; [apply never_panics_ret|].
  apply never_panics_bind; [apply Hf; set_solver|]. intros _. apply IH. intros y Hy. apply Hf. set_solver.
Qed.
End NeverPanics.

Create HintDb calm discriminated.
#[export] Hint Resolve never_panics_ret never_panics_throw never_panics_get never_panics_modify : calm.

(** Walks down a program towards its statements. *)
Ltac calm_step :=
  first
    [ progress intros
    | solve [auto with calm]
    | apply never_panics_bind
    | apply never_panics_try
    | apply never_panics_map_err
    | apply never_panics_transaction
    | apply never_panics_for
    | apply never_panics_lift; apply try_map_no_panic
    | match goal with |- never_panics (match ?x with _ => _ end) => destruct x end ].
Ltac calm := repeat calm_step.

(* ------------------------------------------------------------------ *)
(** ** Lists *)

(** [Vec::sort_by]: a stable sort by a comparison [leb]. *)
Section SortBy.
Context {A : Type} (leb : A -> A -> bool).

Fixpoint sort_insert (x : A) (l : list A) : list A :=
  match l with
  | [] => [x]
  | y :: l' => if leb x y then x :: l else y :: sort_insert x l'
  end.

Definition sort_by (l : list A) : list A := foldr sort_insert [] l.

Lemma sort_insert_perm x l : sort_insert x l ≡ₚ x :: l.
Proof.
  induction l as [|y l IH]; simpl; [done|].
  destruct (leb x y); [done|]. rewrite IH. constructor.
Qed.

Lemma sort_by_perm l : sort_by l ≡ₚ l.
Proof. induction l as [|x l IH]; simpl; [done|]. by rewrite sort_insert_perm, IH. Qed.

Lemma elem_of_sort_by x l : x ∈ sort_by l <-> x ∈ l.
Proof. by rewrite sort_by_perm. Qed.

Context (leb_total : forall x y, leb x y = true \/ leb y x = true).
Context (leb_trans : forall x y z, leb x y = true -> leb y z = true -> leb x z = true).

Lemma sort_insert_sorted x l :
  StronglySorted (fun a b => leb a b = true) l ->
  StronglySorted (fun a b => leb a b = true) (sort_insert x l).
Proof using leb_total leb_trans.
  induction 1 as [|y l Hl IH Hy]; simpl; [by repeat constructor|].
  destruct (leb x y) eqn:Hxy.
  - constructor; [by constructor|]. constructor; [done|].
    eapply Forall_impl; [exact Hy|]. simpl. eauto.
  - constructor; [done|]. rewrite sort_insert_perm. constructor; [|done].
    destruct (leb_total x y); congruence.
Qed.

Lemma sort_by_sorted l : StronglySorted (fun a b => leb a b = true) (sort_by l).
Proof using leb_total leb_trans.
  induction l as [|x l IH]; simpl; [constructor|]. by apply sort_insert_sorted.
Qed.
End SortBy.

(** Sorting a sorted list changes nothing. *)
Lemma sort_by_sorted_id {A} (leb : A -> A -> bool) l :
  StronglySorted (fun a b => leb a b = true) l -> sort_by leb l = l.
Proof.
  induction 1 as [|x l Hl IH Hx]; simpl; [done|]. rewrite IH.
  destruct l as [|y l]; simpl; [done|]. by apply Forall_cons in Hx as [-> _].
Qed.

Lemma filter_all {A} (P : A -> Prop) `{!forall x, Decision (P x)} l : Forall P l -> filter P l = l.
Proof. induction 1 as [|x l Hx Hl IH]; [done|]. by rewrite filter_cons, decide_True, IH. Qed.

Lemma filter_none {A} (P : A -> Prop) `{!forall x, Decision (P x)} l :
  Forall (fun x => ~ P x) l -> filter P l = [].
Proof. induction 1 as [|x l Hx Hl IH]; [done|]. by rewrite filter_cons, decide_False. Qed.

Lemma StronglySorted_filter {A} (R : relation A) (P : A -> Prop) `{!forall x, Decision (P x)} l :
  StronglySorted R l -> StronglySorted R (filter P l).
Proof.
  induction 1 as [|x l Hl IH Hx]; [constructor|]. rewrite filter_cons. case_decide; [|done].
  constructor; [done|]. apply Forall_forall. intros y [_ Hy]%list_elem_of_filter.
  rewrite Forall_forall in Hx. auto.
Qed.

(** Filtering keeps the order of a stable sort. *)
Section SortFilter.
Context {A : Type} (leb : A -> A -> bool).
Context (leb_total : forall x y, leb x y = true \/ leb y x = true).
Context (leb_trans : forall x y z, leb x y = true -> leb y z = true -> leb x z = true).
Context (P : A -> Prop) `{!forall x, Decision (P x)}.

Lemma filter_sort_insert x l :
  StronglySorted (fun a b => leb a b = true) l ->
  filter P (sort_insert leb x l) = if decide (P x) then sort_insert leb x (filter P l) else filter P l.
Proof using leb_trans.
  induction 1 as [|y l Hl IH Hy]; [by cbn; case_decide|].
  cbn [sort_insert].
  destruct (leb x y) eqn:Hxy.
  - rewrite filter_cons. case_decide as Hx; [|done].
    assert (Hle : Forall (fun z => leb x z = true) (filter P (y :: l))).
    { apply Forall_forall. intros z [_ Hz]%list_elem_of_filter. apply elem_of_cons in Hz as [->|Hz]; [done|].
      rewrite Forall_forall in Hy. eauto. }
    destruct (filter P (y :: l)) as [|z l']; simpl; [done|]. by apply Forall_cons in Hle as [-> _].
  - rewrite !(filter_cons _ y), IH. do 2 case_decide; simpl; by rewrite ?Hxy.
Qed.

Lemma filter_sort_by l : filter P (sort_by leb l) = sort_by leb (filter P l).
Proof using leb_total leb_trans.
  induction l as [|x l IH]; simpl; [done|].
  rewrite filter_sort_insert by by apply sort_by_sorted. rewrite filter_cons, IH. by case_decide.
Qed.
End SortFilter.

(** [iter.take_while_ref(p)]: what it yields, and what the iterator still holds. *)
Fixpoint take_while_ref {A} (p : A -> bool) (l : list A) : list A * list A :=
  match l with
  | [] => ([], [])
  | a :: l' => if p a then let '(mine, rest) := take_while_ref p l' in (a :: mine, rest) else ([], l)
  end.

(** A loop over [xs] that hands each one the run of [l] with the same key. *)
Section Distribute.
Context {X A K : Type} `{EqDecision K} (kx : X -> K) (ka : A -> K).

Fixpoint distribute (xs : list X) (l : list A) : list (X * list A) :=
  match xs with
  | [] => []
  | x :: xs =>
      let '(mine, rest) := take_while_ref (fun a => bool_decide (ka a = kx x)) l in
      (x, mine) :: distribute xs rest
  end.

(** When both lists are sorted by key, the keys of [xs] differ and cover those
    of [l], everyone gets exactly its own. *)
Context (R : K -> K -> Prop) (R_antisym : forall k k', R k k' -> R k' k -> k = k').

Lemma take_while_ref_sorted x xs l :
  Forall (fun x' => R (kx x) (kx x') /\ kx x <> kx x') xs ->
  StronglySorted (fun a b => R (ka a) (ka b)) l ->
  Forall (fun a => exists x', x' ∈ x :: xs /\ kx x' = ka a) l ->
  take_while_ref (fun a => bool_decide (ka a = kx x)) l
  = (filter (fun a => ka a = kx x) l, filter (fun a => ka a <> kx x) l).
Proof using R_antisym.
  intros Hxs Hl Hc. induction Hl as [|a l Hl IH Ha]; [done|]. apply Forall_cons in Hc as [Hca Hc].
  cbn [take_while_ref]. rewrite !filter_cons. destruct (decide (ka a = kx x)) as [He|He].
  - rewrite bool_decide_eq_true_2, IH by done. rewrite decide_False; naive_solver.
  - rewrite bool_decide_eq_false_2 by done. rewrite decide_True by done.
    assert (Hge : R (kx x) (ka a)).
    { destruct Hca as (x' & [->|Hx']%elem_of_cons & Hk); [done|].
      rewrite Forall_forall in Hxs. destruct (Hxs x' Hx'). congruence. }
    assert (Hall : Forall (fun b => ka b <> kx x) l).
    { eapply Forall_impl; [exact Ha|]. intros b Hb Hk. apply He, R_antisym; [|done]. by rewrite <- Hk. }
    f_equal.
    + by rewrite filter_none.
    + by rewrite filter_all.
Qed.

Lemma distribute_sorted xs l :
  StronglySorted (fun x x' => R (kx x) (kx x') /\ kx x <> kx x') xs ->
  StronglySorted (fun a b => R (ka a) (ka b)) l ->
  Forall (fun a => exists x, x ∈ xs /\ kx x = ka a) l ->
  distribute xs l = map (fun x => (x, filter (fun a => ka a = kx x) l)) xs.
Proof using R_antisym.
  intros Hxs. revert l. induction Hxs as [|x xs Hxs IH Hx]; intros l Hl Hc; simpl; [done|].
  rewrite (take_while_ref_sorted x xs l Hx Hl Hc). f_equal. rewrite IH.
  - apply map_ext_in. intros x' Hx'%base.list_elem_of_In. f_equal.
    rewrite list_filter_filter. apply list_filter_iff. intros a.
    rewrite Forall_forall in Hx. destruct (Hx x' Hx'). split; [by intros [? _]|].
    intros Hk. split; [done|]. congruence.
  - by apply StronglySorted_filter.
  - apply Forall_forall. intros a [Hne Ha]%list_elem_of_filter. rewrite Forall_forall in Hc.
    destruct (Hc a Ha) as (x' & [->|Hx']%elem_of_cons & Hk); [by rewrite Hk in Hne|]. eauto.
Qed.
End Distribute.

(* ------------------------------------------------------------------ *)
(** ** Tables with unique columns *)

(** [fits R k x m]: a row [x] can be stored under the key [k] of the table [m];
    [R] relates two rows that have no unique column in common. *)
Section Tables.
Context `{Countable K} {A : Type} (R : A -> A -> Prop).

Definition fits (k : K) (x : A) (m : gmap K A) : Prop :=
  map_Forall (fun k' x' => k' <> k -> R x x') m.

Definition table_ok (m : gmap K A) : Prop := map_Forall (fun k x => fits k x m) m.

#[global] Instance fits_dec `{!RelDecision R} k x m : Decision (fits k x m).
Proof. unfold fits. apply _. Defined.

Lemma table_ok_empty : table_ok ∅.
Proof. apply map_Forall_empty. Qed.

Lemma table_ok_insert `{!Symmetric R} k x m :
  table_ok m -> fits k x m -> table_ok (<[k := x]> m).
Proof.
  intros Hm Hx k1 x1. rewrite lookup_insert_Some.
  intros [[<- <-]|[Hk H1]] k2 x2; rewrite lookup_insert_Some;
    intros [[<- <-]|[Hk' H2]] Hne; try done.
  - by apply (Hx k2).
  - symmetry. by apply (Hx k1).
  - by apply (Hm k1 x1 H1 k2).
Qed.

Lemma table_ok_delete k m : table_ok m -> table_ok (delete k m).
Proof.
  intros Hm k1 x1 [_ H1]%lookup_delete_Some k2 x2 [_ H2]%lookup_delete_Some Hne.
  by apply (Hm k1 x1 H1 k2).
Qed.
End Tables.
