(* ===== verification/RustStd.v ===== *)
(** * The Rust standard library, as far as the server uses it

    Strings are the bytes of their UTF-8 encoding ([String.string], one [ascii]
    per byte); [Vec<u8>] is [list Byte.byte].  ASCII operations
    ([to_ascii_lowercase], [split], [split_once], [starts_with], ...) work on
    bytes, which is exact on UTF-8; operations on [char]s go through the
    decoder [chars].  The Unicode tables behind [char::to_lowercase] and the
    final-sigma rule of [str::to_lowercase] are data of the standard library:
    they are the parameter [Unicode] here, with their values on ASCII as law.
    Integers of width 64 and 32 are [Z] with their wrap-around written out. *)

From S2P Require Import Prelude.
From Stdlib Require Import Ascii String DecimalString DecimalZ DecimalFacts.
From stdpp Require Import strings list.

#[global] Open Scope stdpp_scope.

(* ------------------------------------------------------------------ *)
(** ** Bytes and ASCII *)

Abbreviation bytes := (list Byte.byte).

#[global] Instance byte_eq_dec : EqDecision Byte.byte := Byte.byte_eq_dec.

(** [String::into_bytes], [str::as_bytes] *)
Definition into_bytes (s : string) : bytes := String.list_byte_of_string s.
Definition string_of_bytes (b : bytes) : string := String.string_of_list_byte b.

Definition is_ascii_upper (c : ascii) : bool :=
  let n := N_of_ascii c in (65 <=? n)%N && (n <=? 90)%N.

(** [u8::to_ascii_lowercase] *)
Definition ascii_lower (c : ascii) : ascii :=
  if is_ascii_upper c then ascii_of_N (N_of_ascii c + 32) else c.

(** [str::to_ascii_lowercase] and [str::make_ascii_lowercase] *)
Fixpoint to_ascii_lowercase (s : string) : string :=
  match s with
  | EmptyString => EmptyString
  | String c s => String (ascii_lower c) (to_ascii_lowercase s)
  end.

(** [str::eq_ignore_ascii_case] *)
Definition eq_ignore_ascii_case (s1 s2 : string) : bool :=
  String.eqb (to_ascii_lowercase s1) (to_ascii_lowercase s2).

Lemma ascii_lower_idemp c : ascii_lower (ascii_lower c) = ascii_lower c.
Proof. destruct c as [[] [] [] [] [] [] [] []]; vm_compute; reflexivity. Qed.

Lemma to_ascii_lowercase_idemp s :
  to_ascii_lowercase (to_ascii_lowercase s) = to_ascii_lowercase s.
Proof. induction s as [|c s IH]; simpl; [done|]. by rewrite ascii_lower_idemp, IH. Qed.

Lemma to_ascii_lowercase_app s1 s2 :
  to_ascii_lowercase (s1 +:+ s2) = to_ascii_lowercase s1 +:+ to_ascii_lowercase s2.
Proof.
  induction s1 as [|c s1 IH]; [done|].
  change (String c s1 +:+ s2) with (String c (s1 +:+ s2)). simpl. rewrite IH. reflexivity.
Qed.

(** A string that [to_ascii_lowercase] leaves alone. *)
Definition is_lower (s : string) : bool := String.eqb s (to_ascii_lowercase s).

Lemma is_lower_spec s : is_lower s = true <-> to_ascii_lowercase s = s.
Proof. unfold is_lower. rewrite String.eqb_eq. split; intros H; symmetry; exact H. Qed.

Lemma is_lower_lowercase s : is_lower (to_ascii_lowercase s) = true.
Proof. apply is_lower_spec, to_ascii_lowercase_idemp. Qed.

Lemma is_lower_cons c s : is_lower (String c s) = true <-> ascii_lower c = c /\ is_lower s = true.
Proof. rewrite !is_lower_spec. simpl. split; [intros [= -> ->]; done|by intros [-> ->]]. Qed.

Lemma is_lower_app s1 s2 :
  is_lower (s1 +:+ s2) = true <-> is_lower s1 = true /\ is_lower s2 = true.
Proof.
  induction s1 as [|c s1 IH]; [naive_solver|].
  change (String c s1 +:+ s2) with (String c (s1 +:+ s2)).
  rewrite !is_lower_cons, IH. naive_solver.
Qed.
#[export] Hint Resolve is_lower_lowercase : rust.

(* ------------------------------------------------------------------ *)
(** ** Splitting *)

(** [s.split(c)] for an ASCII [c]: always at least one piece. *)
Fixpoint split (c : ascii) (s : string) : list string :=
  match s with
  | EmptyString => [EmptyString]
  | String a s =>
      if Ascii.eqb a c then EmptyString :: split c s
      else match split c s with
           | [] => [String a EmptyString]
           | w :: ws => String a w :: ws
           end
  end.

(** [s.split_once(c)] *)
Fixpoint split_once (c : ascii) (s : string) : option (string * string) :=
  match s with
  | EmptyString => None
  | String a s =>
      if Ascii.eqb a c then Some (EmptyString, s)
      else match split_once c s with
           | None => None
           | Some (l, r) => Some (String a l, r)
           end
  end.

Fixpoint contains_char (c : ascii) (s : string) : bool :=
  match s with
  | EmptyString => false
  | String a s => Ascii.eqb a c || contains_char c s
  end.

Lemma split_no_sep c s : contains_char c s = false -> split c s = [s].
Proof.
  induction s as [|a s IH]; simpl; [done|].
  intros [Ha Hs]%orb_false_iff. by rewrite Ha, (IH Hs).
Qed.

Lemma split_app_sep c s1 s2 :
  contains_char c s1 = false -> split c (s1 +:+ String c s2) = s1 :: split c s2.
Proof.
  induction s1 as [|a s1 IH]; intros H.
  - change (EmptyString +:+ String c s2) with (String c s2). simpl. by rewrite Ascii.eqb_refl.
  - simpl in H. change (String a s1 +:+ String c s2) with (String a (s1 +:+ String c s2)). simpl. apply orb_false_iff in H as [Ha Hs]. by rewrite Ha, (IH Hs).
Qed.

Lemma split_once_app c s1 s2 :
  contains_char c s1 = false -> split_once c (s1 +:+ String c s2) = Some (s1, s2).
Proof.
  induction s1 as [|a s1 IH]; intros H.
  - change (EmptyString +:+ String c s2) with (String c s2). simpl. by rewrite Ascii.eqb_refl.
  - simpl in H. change (String a s1 +:+ String c s2) with (String a (s1 +:+ String c s2)). simpl. apply orb_false_iff in H as [Ha Hs]. by rewrite Ha, (IH Hs).
Qed.

Lemma split_lower c s w : is_lower s = true -> w ∈ split c s -> is_lower w = true.
Proof.
  revert w. induction s as [|a s IH]; intros w; simpl.
  - intros _ ->%list_elem_of_singleton. done.
  - rewrite is_lower_cons. intros [Ha Hs]. destruct (Ascii.eqb a c).
    + intros [->|Hw]%elem_of_cons; [done|eauto].
    + destruct (split c s) as [|w' ws] eqn:Hsp.
      * intros ->%list_elem_of_singleton. by apply is_lower_cons.
      * intros [->|Hw]%elem_of_cons; [|apply IH; set_solver].
        apply is_lower_cons. split; [done|]. apply IH; set_solver.
Qed.

(** ** Trimming

    [str::trim] removes the characters with the Unicode property White_Space
    from both ends; the table lists their UTF-8 encodings. *)
Definition whitespace : list (list N) :=
  ([ [0x09]; [0x0A]; [0x0B]; [0x0C]; [0x0D]; [0x20]; [0xC2; 0x85]; [0xC2; 0xA0];
     [0xE1; 0x9A; 0x80]; [0xE2; 0x80; 0x80]; [0xE2; 0x80; 0x81]; [0xE2; 0x80; 0x82];
     [0xE2; 0x80; 0x83]; [0xE2; 0x80; 0x84]; [0xE2; 0x80; 0x85]; [0xE2; 0x80; 0x86];
     [0xE2; 0x80; 0x87]; [0xE2; 0x80; 0x88]; [0xE2; 0x80; 0x89]; [0xE2; 0x80; 0x8A];
     [0xE2; 0x80; 0xA8]; [0xE2; 0x80; 0xA9]; [0xE2; 0x80; 0xAF]; [0xE2; 0x81; 0x9F];
     [0xE3; 0x80; 0x80] ])%N.

Fixpoint strip_codes (p : list N) (s : string) : option string :=
  match p, s with
  | [], _ => Some s
  | n :: p, String c s => if (N_of_ascii c =? n)%N then strip_codes p s else None
  | _, EmptyString => None
  end.

Fixpoint first_stripped (ps : list (list N)) (s : string) : option string :=
  match ps with
  | [] => None
  | p :: ps => match strip_codes p s with Some s' => Some s' | None => first_stripped ps s end
  end.

Fixpoint trim_while (ps : list (list N)) (fuel : nat) (s : string) : string :=
  match fuel with
  | O => s
  | S fuel => match first_stripped ps s with
              | Some s' => trim_while ps fuel s'
              | None => s
              end
  end.

Definition trim_start (s : string) : string := trim_while whitespace (String.length s) s.
Definition trim_end (s : string) : string :=
  String.rev (trim_while (map (@reverse N) whitespace) (String.length s) (String.rev s)).
Definition trim (s : string) : string := trim_end (trim_start s).

(** The fuel of [trim_while] is enough: nothing is left to strip. *)
Lemma strip_codes_length p s s' : strip_codes p s = Some s' -> String.length s = length p + String.length s'.
Proof.
  revert s. induction p as [|n p IH]; intros s; [by intros [= ->]|].
  destruct s as [|c s]; [done|]. cbn [strip_codes]. destruct (_ =? n)%N; [|done]. intros H. simpl. by rewrite (IH _ H).
Qed.
Lemma first_stripped_shorter ps s s' :
  Forall (fun p => p <> []) ps -> first_stripped ps s = Some s' -> String.length s' < String.length s.
Proof.
  induction 1 as [|p ps Hp Hps IH]; simpl; [done|]. destruct (strip_codes p s) as [t|] eqn:Ht; [|exact IH].
  intros [= <-]. apply strip_codes_length in Ht. destruct p; simpl in Ht; [done|lia].
Qed.
Lemma trim_while_done ps fuel s :
  Forall (fun p => p <> []) ps -> String.length s <= fuel -> first_stripped ps (trim_while ps fuel s) = None.
Proof.
  intros Hps. revert s. induction fuel as [|fuel IH]; intros s Hs; simpl.
  - destruct (first_stripped ps s) as [s'|] eqn:He; [|done]. apply (first_stripped_shorter _ _ _ Hps) in He. lia.
  - destruct (first_stripped ps s) as [s'|] eqn:He; [|done]. apply IH. apply (first_stripped_shorter _ _ _ Hps) in He. lia.
Qed.

Lemma strip_codes_lower p s s' : is_lower s = true -> strip_codes p s = Some s' -> is_lower s' = true.
Proof.
  revert s. induction p as [|n p IH]; intros [|c s]; simpl; try naive_solver.
  rewrite is_lower_cons. case_match; naive_solver.
Qed.

Lemma first_stripped_lower ps s s' :
  is_lower s = true -> first_stripped ps s = Some s' -> is_lower s' = true.
Proof.
  intros Hs. induction ps as [|p ps IH]; simpl; [done|].
  destruct (strip_codes p s) eqn:Hp; [|done]. intros [= <-]. by eapply strip_codes_lower.
Qed.

Lemma trim_while_lower ps fuel s : is_lower s = true -> is_lower (trim_while ps fuel s) = true.
Proof.
  revert s. induction fuel as [|fuel IH]; intros s Hs; simpl; [done|].
  destruct (first_stripped ps s) eqn:Hf; [|done]. apply IH. by eapply first_stripped_lower.
Qed.

Lemma rev_app_lower s1 s2 :
  is_lower s1 = true -> is_lower s2 = true -> is_lower (String.rev_app s1 s2) = true.
Proof.
  revert s2. induction s1 as [|c s1 IH]; intros s2; simpl; [done|].
  rewrite is_lower_cons. intros [Hc Hs1] Hs2. apply IH; [done|]. by apply is_lower_cons.
Qed.

Lemma trim_lower s : is_lower s = true -> is_lower (trim s) = true.
Proof.
  intros Hs. unfold trim, trim_end, String.rev. apply rev_app_lower; [|done].
  apply trim_while_lower, rev_app_lower; [|done]. by apply trim_while_lower.
Qed.

(* ------------------------------------------------------------------ *)
(** ** UTF-8 *)

Definition codes (s : string) : list N := N_of_ascii <$> String.list_ascii_of_string s.
Definition of_codes (l : list N) : string := String.string_of_list_ascii (ascii_of_N <$> l).

(** [str::chars] on the bytes of a valid UTF-8 string. *)
Fixpoint utf8_decode (l : list N) : list N :=
  match l with
  | [] => []
  | b0 :: l0 =>
      if (b0 <? 0x80)%N then b0 :: utf8_decode l0
      else match l0 with
      | [] => [0xFFFD%N]
      | b1 :: l1 =>
          if (b0 <? 0xE0)%N then
            N.lor (N.shiftl (N.land b0 0x1F) 6) (N.land b1 0x3F) :: utf8_decode l1
          else match l1 with
          | [] => [0xFFFD%N]
          | b2 :: l2 =>
              if (b0 <? 0xF0)%N then
                N.lor (N.shiftl (N.land b0 0x0F) 12)
                  (N.lor (N.shiftl (N.land b1 0x3F) 6) (N.land b2 0x3F)) :: utf8_decode l2
              else match l2 with
              | [] => [0xFFFD%N]
              | b3 :: l3 =>
                  N.lor (N.shiftl (N.land b0 0x07) 18)
                    (N.lor (N.shiftl (N.land b1 0x3F) 12)
                       (N.lor (N.shiftl (N.land b2 0x3F) 6) (N.land b3 0x3F))) :: utf8_decode l3
              end
          end
      end
  end.

(** [char::encode_utf8] *)
Definition utf8_encode_char (c : N) : list N :=
  if (c <? 0x80)%N then [c]
  else if (c <? 0x800)%N then
    [N.lor 0xC0 (N.shiftr c 6); N.lor 0x80 (N.land c 0x3F)]
  else if (c <? 0x10000)%N then
    [N.lor 0xE0 (N.shiftr c 12); N.lor 0x80 (N.land (N.shiftr c 6) 0x3F);
     N.lor 0x80 (N.land c 0x3F)]
  else
    [N.lor 0xF0 (N.shiftr c 18); N.lor 0x80 (N.land (N.shiftr c 12) 0x3F);
     N.lor 0x80 (N.land (N.shiftr c 6) 0x3F); N.lor 0x80 (N.land c 0x3F)].

Definition chars (s : string) : list N := utf8_decode (codes s).
Definition string_of_chars (l : list N) : string := of_codes (l ≫= utf8_encode_char).

(** [std::str::from_utf8]: the well-formed byte sequences (no overlong
    encoding, no surrogate, nothing above U+10FFFF). *)
Definition in_range (lo hi b : N) : bool := (lo <=? b)%N && (b <=? hi)%N.

Fixpoint utf8_valid (l : list N) : bool :=
  match l with
  | [] => true
  | b0 :: l0 =>
      if (b0 <? 0x80)%N then utf8_valid l0
      else match l0 with
      | [] => false
      | b1 :: l1 =>
          if in_range 0xC2 0xDF b0 then in_range 0x80 0xBF b1 && utf8_valid l1
          else match l1 with
          | [] => false
          | b2 :: l2 =>
              if in_range 0xE0 0xEF b0 then
                (if (b0 =? 0xE0)%N then in_range 0xA0 0xBF b1
                 else if (b0 =? 0xED)%N then in_range 0x80 0x9F b1
                 else in_range 0x80 0xBF b1)
                && in_range 0x80 0xBF b2 && utf8_valid l2
              else match l2 with
              | [] => false
              | b3 :: l3 =>
                  in_range 0xF0 0xF4 b0
                  && (if (b0 =? 0xF0)%N then in_range 0x90 0xBF b1
                      else if (b0 =? 0xF4)%N then in_range 0x80 0x8F b1
                      else in_range 0x80 0xBF b1)
                  && in_range 0x80 0xBF b2 && in_range 0x80 0xBF b3 && utf8_valid l3
              end
          end
      end
  end.

Definition from_utf8 (b : bytes) : option string :=
  let s := string_of_bytes b in
  if utf8_valid (codes s) then Some s else None.

(** The strings all of whose bytes are below 128. *)
Definition is_ascii (s : string) : bool := forallb (fun n => (n <? 128)%N) (codes s).

Lemma codes_cons c s : codes (String c s) = N_of_ascii c :: codes s.
Proof. done. Qed.

Lemma is_ascii_cons c s : is_ascii (String c s) = true <-> (N_of_ascii c < 128)%N /\ is_ascii s = true.
Proof. unfold is_ascii, codes. simpl. rewrite andb_true_iff, N.ltb_lt. done. Qed.

Lemma is_ascii_codes s : is_ascii s = true -> Forall (fun c => (c < 128)%N) (codes s).
Proof.
  induction s as [|c s IH]; [constructor|]. rewrite is_ascii_cons, codes_cons.
  intros [Hc Hs]. constructor; auto.
Qed.

Lemma chars_ascii s : is_ascii s = true -> chars s = codes s.
Proof.
  induction s as [|c s IH]; [done|]. rewrite is_ascii_cons. intros [Hc Hs].
  unfold chars in *. rewrite codes_cons. simpl. apply N.ltb_lt in Hc. by rewrite Hc, IH.
Qed.

Lemma of_codes_codes s : of_codes (codes s) = s.
Proof.
  unfold of_codes. induction s as [|c s IH]; [done|]. rewrite codes_cons. cbn.
  by rewrite ascii_N_embedding, IH.
Qed.

(* ------------------------------------------------------------------ *)
(** ** Lower case *)

(** The Unicode tables of the standard library: [char::to_lowercase] (which may
    yield several characters) and the properties Cased and Case_Ignorable. *)
Class Unicode : Type := {
  char_to_lowercase : N -> list N;
  char_cased : N -> bool;
  char_case_ignorable : N -> bool;
  (* printable and not Grapheme_Extend: [Debug] prints it as it is *)
  char_debug_plain : N -> bool;
}.

Definition ascii_lower_code (c : N) : N := if in_range 65 90 c then (c + 32)%N else c.

Class UnicodeLaws `(U : Unicode) : Prop := {
  char_to_lowercase_ascii c : (c < 128)%N -> char_to_lowercase c = [ascii_lower_code c];
}.

Section Lowercase.
Context `{U : Unicode}.

Definition sigma_upper : N := 0x3A3.
Definition sigma_lower : N := 0x3C3.
Definition sigma_final : N := 0x3C2.

(** [case_ignorable_then_cased]: skip the case-ignorable characters, is the
    next one cased? *)
Fixpoint case_ignorable_then_cased (l : list N) : bool :=
  match l with
  | [] => false
  | c :: l => if char_case_ignorable c then case_ignorable_then_cased l else char_cased c
  end.

(** [before] holds the characters already read, last one first. *)
Fixpoint lower_chars (before l : list N) : list N :=
  match l with
  | [] => []
  | c :: l =>
      (if (c =? sigma_upper)%N then
         [if case_ignorable_then_cased before && negb (case_ignorable_then_cased l)
          then sigma_final else sigma_lower]
       else char_to_lowercase c) ++ lower_chars (c :: before) l
  end.

(** [str::to_lowercase] *)
Definition to_lowercase (s : string) : string := string_of_chars (lower_chars [] (chars s)).

(** [s.chars().flat_map(|c| c.to_lowercase())] *)
Definition lowercase_iter (s : string) : list N := chars s ≫= char_to_lowercase.

Context {UL : UnicodeLaws U}.

Lemma ascii_lower_code_spec c : N_of_ascii (ascii_lower c) = ascii_lower_code (N_of_ascii c).
Proof using Type.
  destruct c as [[] [] [] [] [] [] [] []]; vm_compute; reflexivity.
Qed.

Lemma codes_lowercase s : codes (to_ascii_lowercase s) = ascii_lower_code <$> codes s.
Proof using Type.
  induction s as [|c s IH]; [done|]. 
  change (to_ascii_lowercase (String c s)) with (String (ascii_lower c) (to_ascii_lowercase s)).
  by rewrite !codes_cons, IH, ascii_lower_code_spec.
Qed.

Lemma ascii_lower_code_bound c : (c < 128)%N -> (ascii_lower_code c < 128)%N.
Proof using Type.
  unfold ascii_lower_code, in_range. intros H.
  destruct ((65 <=? c)%N && (c <=? 90)%N) eqn:Hc; [|done].
  apply andb_true_iff in Hc as [?%N.leb_le ?%N.leb_le]. lia.
Qed.

Lemma lowercase_iter_ascii s :
  is_ascii s = true -> lowercase_iter s = codes (to_ascii_lowercase s).
Proof using UL.
  intros Hs. unfold lowercase_iter. rewrite (chars_ascii s Hs), codes_lowercase.
  apply is_ascii_codes in Hs.
  induction Hs as [|c l Hc Hl IH]; [done|].
  by rewrite bind_cons, IH, char_to_lowercase_ascii.
Qed.

Lemma lower_chars_ascii before l :
  Forall (fun c => (c < 128)%N) l -> lower_chars before l = ascii_lower_code <$> l.
Proof using UL.
  intros Hl. revert before. induction Hl as [|c l Hc Hl IH]; intros before; [done|].
  simpl. rewrite IH. destruct (N.eqb_spec c sigma_upper) as [->|_].
  { by unfold sigma_upper in Hc. }
  by rewrite char_to_lowercase_ascii.
Qed.

(** On ASCII strings the Unicode lower case is the ASCII one. *)
Lemma to_lowercase_ascii s : is_ascii s = true -> to_lowercase s = to_ascii_lowercase s.
Proof using UL.
  intros Hs. unfold to_lowercase. rewrite (chars_ascii s Hs).
  assert (Hl : Forall (fun c => (c < 128)%N) (codes s)).
  { by apply is_ascii_codes. }
  rewrite (lower_chars_ascii _ _ Hl), <- codes_lowercase. unfold string_of_chars.
  rewrite <- (of_codes_codes (to_ascii_lowercase s)) at 2. f_equal.
  rewrite codes_lowercase. clear Hs.
  induction Hl as [|c l Hc Hl IH]; [done|]. rewrite fmap_cons, bind_cons, IH.
  unfold utf8_encode_char. apply ascii_lower_code_bound, N.ltb_lt in Hc. by rewrite Hc.
Qed.
End Lowercase.

(** The ASCII rows of the tables, extended with the Greek sigmas: enough for
    concrete runs. *)
Definition ascii_greek_unicode : Unicode := {|
  char_to_lowercase c :=
    if (c =? 0x3A3)%N then [0x3C3%N]
    else if in_range 0x391 0x3A9 c then [(c + 32)%N] else [ascii_lower_code c];
  char_cased c :=
    in_range 65 90 c || in_range 97 122 c || in_range 0x391 0x3A9 c || in_range 0x3B1 0x3C9 c;
  char_case_ignorable c := (c =? 39)%N || (c =? 46)%N || (c =? 58)%N || (c =? 94)%N || (c =? 96)%N;
  char_debug_plain c := in_range 32 126 c || in_range 0x391 0x3C9 c;
|}.

Lemma ascii_greek_unicode_laws : UnicodeLaws ascii_greek_unicode.
Proof.
  constructor. intros c Hc. simpl. unfold in_range.
  destruct (N.eqb_spec c 0x3A3) as [->|_]; [done|].
  destruct (N.leb_spec 0x391 c); [lia|done].
Qed.

(* ------------------------------------------------------------------ *)
(** ** [Debug] of strings *)

Definition hex_digit (n : N) : N := if (n <? 10)%N then (48 + n)%N else (87 + n)%N.
Fixpoint hex_digits (fuel : nat) (n : N) (acc : list N) : list N :=
  match fuel with
  | O => acc
  | S fuel =>
      let acc := hex_digit (n mod 16) :: acc in
      if (n <? 16)%N then acc else hex_digits fuel (n / 16)%N acc
  end.

(** [char::escape_debug] inside a string: [\\t], [\\r], [\\n], the null, the double
    quote and the backslash are escaped, and what does not print is [\\u{..}]. *)
Definition escape_debug `{Unicode} (c : N) : list N :=
  if (c =? 9)%N then [92; 116]%N
  else if (c =? 13)%N then [92; 114]%N
  else if (c =? 10)%N then [92; 110]%N
  else if (c =? 0)%N then [92; 48]%N
  else if (c =? 34)%N || (c =? 92)%N then [92%N; c]
  else if char_debug_plain c then [c]
  else [92; 117; 123]%N ++ hex_digits 8 c [] ++ [125%N].

(** [{:?}] of a [str] *)
Definition debug_str `{Unicode} (s : string) : string :=
  string_of_chars (34%N :: (chars s ≫= escape_debug) ++ [34%N]).

(* ------------------------------------------------------------------ *)
(** ** Comparisons *)

(** Lexicographic comparison of two sequences of characters or bytes. *)
Fixpoint lex_compare (l1 l2 : list N) : comparison :=
  match l1, l2 with
  | [], [] => Eq
  | [], _ :: _ => Lt
  | _ :: _, [] => Gt
  | x :: l1, y :: l2 =>
      match (x ?= y)%N with
      | Eq => lex_compare l1 l2
      | o => o
      end
  end.

Lemma lex_compare_eq l1 l2 : lex_compare l1 l2 = Eq <-> l1 = l2.
Proof.
  revert l2. induction l1 as [|x l1 IH]; intros [|y l2]; simpl; try done.
  destruct (N.compare_spec x y) as [->|H|H].
  - rewrite IH. naive_solver.
  - split; [done|]. intros [= -> ->]. lia.
  - split; [done|]. intros [= -> ->]. lia.
Qed.

Lemma lex_compare_antisym l1 l2 : lex_compare l2 l1 = CompOpp (lex_compare l1 l2).
Proof.
  revert l2. induction l1 as [|x l1 IH]; intros [|y l2]; simpl; try done.
  rewrite N.compare_antisym. destruct (x ?= y)%N; simpl; [apply IH|done|done].
Qed.

Lemma lex_compare_lt_trans l1 l2 l3 :
  lex_compare l1 l2 = Lt -> lex_compare l2 l3 = Lt -> lex_compare l1 l3 = Lt.
Proof.
  revert l2 l3. induction l1 as [|x l1 IH]; intros [|y l2] [|z l3]; simpl; try done.
  destruct (N.compare_spec x y) as [->|H|H]; try done;
    destruct (N.compare_spec y z) as [->|H'|H']; try done.
  - apply IH.
  - intros _ _. destruct (N.compare_spec x z); [lia|done|lia].
  - intros _ _. destruct (N.compare_spec x z); [lia|done|lia].
Qed.

(** [compare_str_case_insensitive]'s order, and [String]'s own [Ord]: bytes. *)
Definition str_compare (s1 s2 : string) : comparison := lex_compare (codes s1) (codes s2).
Definition str_leb (s1 s2 : string) : bool :=
  match str_compare s1 s2 with Gt => false | _ => true end.

Lemma codes_inj s1 s2 : codes s1 = codes s2 -> s1 = s2.
Proof. intros H. by rewrite <- (of_codes_codes s1), <- (of_codes_codes s2), H. Qed.

Lemma str_compare_eq s1 s2 : str_compare s1 s2 = Eq <-> s1 = s2.
Proof.
  unfold str_compare. rewrite lex_compare_eq. split; [apply codes_inj|by intros ->].
Qed.

Section LexLeb.
Context {A : Type} (key : A -> list N).
Definition lex_leb (x y : A) : bool :=
  match lex_compare (key x) (key y) with Gt => false | _ => true end.

Lemma lex_leb_total x y : lex_leb x y = true \/ lex_leb y x = true.
Proof.
  unfold lex_leb. rewrite (lex_compare_antisym (key x) (key y)).
  destruct (lex_compare (key x) (key y)); auto.
Qed.

Lemma lex_leb_trans x y z : lex_leb x y = true -> lex_leb y z = true -> lex_leb x z = true.
Proof.
  unfold lex_leb.
  destruct (lex_compare (key x) (key y)) eqn:Hxy; [..|done];
    destruct (lex_compare (key y) (key z)) eqn:Hyz; try done.
  - apply lex_compare_eq in Hxy, Hyz. rewrite Hxy, Hyz.
    by assert (lex_compare (key z) (key z) = Eq) as -> by by apply lex_compare_eq.
  - apply lex_compare_eq in Hxy. by rewrite Hxy, Hyz.
  - apply lex_compare_eq in Hyz. by rewrite <- Hyz, Hxy.
  - by rewrite (lex_compare_lt_trans _ _ _ Hxy Hyz).
Qed.

Lemma lex_leb_antisym x y : lex_leb x y = true -> lex_leb y x = true -> key x = key y.
Proof.
  unfold lex_leb. rewrite (lex_compare_antisym (key x) (key y)).
  destruct (lex_compare (key x) (key y)) eqn:H; simpl; try done.
  by apply lex_compare_eq in H.
Qed.
End LexLeb.

Lemma str_leb_refl s : str_leb s s = true.
Proof. unfold str_leb. by assert (str_compare s s = Eq) as -> by by apply str_compare_eq. Qed.
Lemma str_leb_total s1 s2 : str_leb s1 s2 = true \/ str_leb s2 s1 = true.
Proof. apply (lex_leb_total codes). Qed.
Lemma str_leb_trans s1 s2 s3 : str_leb s1 s2 = true -> str_leb s2 s3 = true -> str_leb s1 s3 = true.
Proof. apply (lex_leb_trans codes). Qed.
Lemma str_leb_antisym s1 s2 : str_leb s1 s2 = true -> str_leb s2 s1 = true -> s1 = s2.
Proof. intros H1 H2. apply codes_inj. by apply (lex_leb_antisym codes). Qed.

(* ------------------------------------------------------------------ *)
(** ** Machine integers *)

Definition i64_min : Z := (- 2 ^ 63)%Z.
Definition i64_max : Z := (2 ^ 63 - 1)%Z.
Definition in_i64 (z : Z) : bool := (i64_min <=? z)%Z && (z <=? i64_max)%Z.
Definition in_u64 (z : Z) : bool := (0 <=? z)%Z && (z <? 2 ^ 64)%Z.

(** [x as i64] for [x : u64], and [x as u64] for [x : i64]. *)
Definition as_i64 (z : Z) : Z := ((z + 2 ^ 63) mod 2 ^ 64 - 2 ^ 63)%Z.
Definition as_u64 (z : Z) : Z := (z mod 2 ^ 64)%Z.

Lemma as_i64_range z : in_i64 (as_i64 z) = true.
Proof.
  unfold in_i64, as_i64, i64_min, i64_max.
  pose proof (Z.mod_pos_bound (z + 2 ^ 63) (2 ^ 64)). apply andb_true_iff. lia.
Qed.

Lemma as_u64_as_i64 z : in_u64 z = true -> as_u64 (as_i64 z) = z.
Proof.
  unfold in_u64, as_u64, as_i64. intros [H1%Z.leb_le H2%Z.ltb_lt]%andb_true_iff.
  rewrite Zminus_mod_idemp_l. replace (z + 2 ^ 63 - 2 ^ 63)%Z with z by lia.
  by apply Z.mod_small.
Qed.

Lemma as_i64_as_u64 z : in_i64 z = true -> as_i64 (as_u64 z) = z.
Proof.
  unfold in_i64, as_u64, as_i64, i64_min, i64_max. intros [H1%Z.leb_le H2%Z.leb_le]%andb_true_iff.
  rewrite Zplus_mod_idemp_l, Z.mod_small by lia. lia.
Qed.

Lemma as_i64_inj x y : in_u64 x = true -> in_u64 y = true -> as_i64 x = as_i64 y -> x = y.
Proof. intros Hx Hy H. by rewrite <- (as_u64_as_i64 x Hx), <- (as_u64_as_i64 y Hy), H. Qed.

(** [i64::to_string] *)
Definition i64_to_string (z : Z) : string := NilZero.string_of_int (Z.to_int z).

(** [str::parse::<i64>]: an optional sign, at least one digit, only digits, and
    a value that fits. *)
Definition parse_digits (s : string) : option Z :=
  match s with
  | String "+"%char rest => Z.of_uint <$> NilZero.uint_of_string rest
  | _ => Z.of_int <$> NilZero.int_of_string s
  end.

Definition parse_i64 (s : string) : option Z :=
  parse_digits s ≫= fun z => if in_i64 z then Some z else None.

Lemma to_int_nonnil z : Z.to_int z <> Decimal.Pos Decimal.Nil /\ Z.to_int z <> Decimal.Neg Decimal.Nil.
Proof.
  destruct z as [|p|p]; simpl; [done| |];
    pose proof (DecimalPos.Unsigned.to_uint_nonnil p); split; congruence.
Qed.

Lemma uint_string_head d c s : NilZero.string_of_uint d = String c s -> c <> "+"%char.
Proof. by destruct d; simpl; intros [= <- _]. Qed.

Lemma parse_i64_to_string z : in_i64 z = true -> parse_i64 (i64_to_string z) = Some z.
Proof.
  intros Hz. unfold parse_i64, i64_to_string.
  destruct (to_int_nonnil z) as [Hp Hn].
  assert (Hv : NilZero.int_of_string (NilZero.string_of_int (Z.to_int z)) = Some (Z.to_int z)).
  { by apply NilZero.isi. }
  assert (Hh : forall c s, NilZero.string_of_int (Z.to_int z) = String c s -> c <> "+"%char).
  { intros c s. destruct (Z.to_int z); simpl; [apply uint_string_head|by intros [= <- _]]. }
  destruct (NilZero.string_of_int (Z.to_int z)) as [|c s] eqn:Hs; [done|].
  specialize (Hh c s eq_refl).
  assert (Hc : parse_digits (String c s) = Some z).
  { unfold parse_digits. rewrite Hv. simpl. rewrite DecimalZ.of_to.
    by destruct c as [[] [] [] [] [] [] [] []]. }
  rewrite Hc. simpl. by rewrite Hz.
Qed.
