(* ===== verification/Extern.v ===== *)
(** * Third-party crates the server calls

    Each class is the part of a crate's interface the sources use; the model
    takes it as a parameter.  A [..Laws] class states documented behaviour of
    the crate that some theorems rely on.  [NaiveDateTime] (chrono) is the
    number of nanoseconds since the epoch. *)

From S2P Require Import Prelude RustStd.
From Stdlib Require Import Ascii String.

Abbreviation NaiveDateTime := Z.

(** [chrono::Duration], in nanoseconds; dates stay far from chrono's bounds. *)
Definition minutes (n : Z) : Z := (n * 60 * 1000000000)%Z.
Definition days (n : Z) : Z := (n * 86400 * 1000000000)%Z.

(** chrono: RFC 3339 text of a UTC date. *)
Class Chrono : Type := {
  to_rfc3339 : NaiveDateTime -> string;
  parse_from_rfc3339 : string -> option NaiveDateTime;
}.

(** Dates with a four-digit year print and parse back. *)
Class ChronoLaws (C : Chrono) : Type := {
  rfc3339_date : NaiveDateTime -> Prop;
  rfc3339_roundtrip d : rfc3339_date d -> parse_from_rfc3339 (to_rfc3339 d) = Some d;
  rfc3339_nonempty d : to_rfc3339 d <> EmptyString;
}.

(** uuid: [Uuid::new_v3(NAMESPACE_X500, bytes).to_string()] and
    [Uuid::parse_str(s)?.to_string()] (with the error text on failure). *)
Class UuidLib : Type := {
  uuid_new_v3_x500 : bytes -> string;
  uuid_parse_str : string -> string + string;
}.

(** base64, STANDARD engine. *)
Class Base64 : Type := {
  base64_encode : bytes -> string;
  base64_decode : string -> option bytes;
}.

Class Base64Laws (B : Base64) : Prop := {
  base64_roundtrip b : base64_decode (base64_encode b) = Some b;
}.

(** image: does the decoder accept the bytes as a JPEG? *)
Class ImageLib : Type := { jpeg_decodes : bytes -> bool }.

(** sqlx: the text of a [DATETIME] column. *)
Class SqlLib : Type := { sql_datetime : NaiveDateTime -> string }.

(** The hasher of the standard library, whose algorithm is unspecified:
    [DefaultHasher::new()] fed with a [str], a [u64]. *)
Class StdHash : Type := {
  default_hash : string -> Z;
  default_hash_u64 s : in_u64 (default_hash s) = true;
}.

(** Everything [domain/types.rs] uses of the crates above. *)
Class Crates : Type := {
  crates_unicode :: Unicode;
  crates_chrono :: Chrono;
  crates_uuid :: UuidLib;
  crates_base64 :: Base64;
  crates_image :: ImageLib;
}.
