(* ===== verification/Types.v ===== *)
(** * The domain types

    Models [server/src/domain/types.rs], the identifiers of [auth/src/lib.rs]
    ([lldap_auth::types]) and [server/src/domain/error.rs]: case-insensitive
    identifiers, serialized attribute values, users and groups. *)

From S2P Require Import Prelude RustStd Extern.
From Stdlib Require Import Ascii String.
From stdpp Require Import strings list gmap.

(* ------------------------------------------------------------------ *)
(** ** Lower-cased identifiers ([lldap_auth::types]) *)

(** Source: auth/src/lib.rs#struct CaseInsensitiveString *)
Record CaseInsensitiveString := mk_cis { cis_raw : string }.

(** Source: auth/src/lib.rs#fn new *)
Definition cis_new (s : string) : CaseInsensitiveString := mk_cis (to_ascii_lowercase s).

(** Source: auth/src/lib.rs#struct UserId *)
Record UserId := mk_user_id { user_id_0 : CaseInsensitiveString }.

(** Source: auth/src/lib.rs#impl UserId *)
Definition user_id_new (s : string) : UserId := mk_user_id (cis_new s).
Definition user_id_str (u : UserId) : string := cis_raw (user_id_0 u).

(** Source: server/src/domain/types.rs#struct AttributeName *)
Record AttributeName := mk_attribute_name { attribute_name_0 : CaseInsensitiveString }.

(** Source: server/src/domain/types.rs#impl AttributeName *)
Definition attribute_name_new (s : string) : AttributeName := mk_attribute_name (cis_new s).
(** Source: server/src/domain/types.rs#impl std::fmt::Display for AttributeName *)
Definition attribute_name_str (a : AttributeName) : string := cis_raw (attribute_name_0 a).

#[global] Instance cis_eq_dec : EqDecision CaseInsensitiveString.
Proof. solve_decision. Defined.
#[global] Instance user_id_eq_dec : EqDecision UserId.
Proof. solve_decision. Defined.
#[global] Instance attribute_name_eq_dec : EqDecision AttributeName.
Proof. solve_decision. Defined.
#[global] Instance user_id_countable : Countable UserId.
Proof.
  refine (inj_countable' user_id_str (fun s => mk_user_id (mk_cis s)) _).
  by intros [[s]].
Defined.
#[global] Instance attribute_name_countable : Countable AttributeName.
Proof.
  refine (inj_countable' attribute_name_str (fun s => mk_attribute_name (mk_cis s)) _).
  by intros [[s]].
Defined.

(** The constructors of the crate only build lower-case identifiers. *)
Definition user_id_wf (u : UserId) : bool := is_lower (user_id_str u).
Definition attribute_name_wf (a : AttributeName) : bool := is_lower (attribute_name_str a).

Lemma user_id_new_wf s : user_id_wf (user_id_new s) = true.
Proof. apply is_lower_lowercase. Qed.
Lemma user_id_new_str u : user_id_wf u = true -> user_id_new (user_id_str u) = u.
Proof.
  destruct u as [[s]]. unfold user_id_wf, user_id_new, cis_new, user_id_str. simpl.
  by intros ->%is_lower_spec.
Qed.
Lemma attribute_name_new_str a :
  attribute_name_wf a = true -> attribute_name_new (attribute_name_str a) = a.
Proof.
  destruct a as [[s]]. unfold attribute_name_wf, attribute_name_new, cis_new, attribute_name_str.
  simpl. by intros ->%is_lower_spec.
Qed.
Lemma attribute_name_new_wf s : attribute_name_wf (attribute_name_new s) = true.
Proof. apply is_lower_lowercase. Qed.
#[export] Hint Resolve user_id_new_wf attribute_name_new_wf : rust.

(* ------------------------------------------------------------------ *)
(** ** Strings compared without case *)

Section CaseInsensitive.
Context `{U : Unicode}.

(** The loop over the two lower-cased character iterators is [lex_compare].
    Source: server/src/domain/types.rs#fn compare_str_case_insensitive *)
Definition compare_str_case_insensitive (s1 s2 : string) : comparison :=
  lex_compare (lowercase_iter s1) (lowercase_iter s2).

Definition eq_str_case_insensitive (s1 s2 : string) : bool :=
  match compare_str_case_insensitive s1 s2 with Eq => true | _ => false end.

Lemma eq_str_case_insensitive_spec s1 s2 :
  eq_str_case_insensitive s1 s2 = true <-> lowercase_iter s1 = lowercase_iter s2.
Proof.
  unfold eq_str_case_insensitive, compare_str_case_insensitive.
  rewrite <- lex_compare_eq. by destruct (lex_compare _ _).
Qed.

Lemma eq_str_case_insensitive_ascii {UL : UnicodeLaws U} s1 s2 :
  is_ascii s1 = true -> is_ascii s2 = true ->
  eq_str_case_insensitive s1 s2 = true <-> to_ascii_lowercase s1 = to_ascii_lowercase s2.
Proof.
  intros H1 H2. rewrite eq_str_case_insensitive_spec, !lowercase_iter_ascii by done.
  split; [apply codes_inj|by intros ->].
Qed.
End CaseInsensitive.

(** The types the macro makes. *)
Inductive ci_tag := TagLdapObjectClass | TagEmail | TagGroupName.

(** Source: server/src/domain/types.rs#macro_rules! make_case_insensitive_comparable_string *)
Record ci_string (t : ci_tag) := mk_ci { ci_raw : string }.
Arguments mk_ci {t} _.
Arguments ci_raw {t} _.

Abbreviation LdapObjectClass := (ci_string TagLdapObjectClass).
Abbreviation Email := (ci_string TagEmail).
Abbreviation GroupName := (ci_string TagGroupName).

Section CiString.
Context `{U : Unicode} {t : ci_tag}.
Implicit Types x y z : ci_string t.

(** Source: server/src/domain/types.rs#impl Ord for $c *)
Definition ci_cmp x y : comparison := compare_str_case_insensitive (ci_raw x) (ci_raw y).
(** Source: server/src/domain/types.rs#impl PartialEq for $c *)
Definition ci_eqb x y : bool := eq_str_case_insensitive (ci_raw x) (ci_raw y).
Definition ci_leb x y : bool := lex_leb (fun x => lowercase_iter (ci_raw x)) x y.
(** What [Hash] feeds the hasher.
    Source: server/src/domain/types.rs#impl std::hash::Hash for $c *)
Definition ci_hash_input x : string := to_lowercase (ci_raw x).

Definition ci_equiv x y : Prop := ci_eqb x y = true.

#[global] Instance ci_equivalence : Equivalence ci_equiv.
Proof.
  unfold ci_equiv, ci_eqb. split.
  - intros x. by apply eq_str_case_insensitive_spec.
  - intros x y. rewrite !eq_str_case_insensitive_spec. done.
  - intros x y z. rewrite !eq_str_case_insensitive_spec. congruence.
Qed.

#[global] Instance ci_eqb_proper : Proper (ci_equiv ==> ci_equiv ==> eq) ci_eqb.
Proof.
  intros x x' Hx y y' Hy. apply eq_true_iff_eq.
  change (ci_equiv x y <-> ci_equiv x' y'). by rewrite Hx, Hy.
Qed.

#[global] Instance ci_cmp_proper : Proper (ci_equiv ==> ci_equiv ==> eq) ci_cmp.
Proof.
  intros x x' Hx y y' Hy. unfold ci_equiv, ci_eqb in Hx, Hy.
  rewrite eq_str_case_insensitive_spec in Hx, Hy.
  unfold ci_cmp, compare_str_case_insensitive. by rewrite Hx, Hy.
Qed.
End CiString.

#[global] Instance ci_string_eq_dec t : EqDecision (ci_string t).
Proof. solve_decision. Defined.

(* ------------------------------------------------------------------ *)
(** ** Errors ([server/src/domain/error.rs]) *)

(** The database errors the model can produce, by cause. *)
Inductive DbErr :=
| UniqueConstraintViolation (what : string)
| ForeignKeyViolation (what : string)
| RecordNotUpdated
| RecordNotFound (what : string)
| MigrationError (what : string)
| ExecError (what : string).

(** Source: server/src/domain/error.rs#enum DomainError *)
Inductive DomainError :=
| AuthenticationError (msg : string)
| DatabaseError (e : DbErr)
| DatabaseTransactionError (e : DbErr)
| AuthenticationProtocolError (msg : string)
| UnknownCryptoError
| BinarySerializationError (msg : string)
| Base64DecodeError
| EntityNotFound (msg : string)
| InternalError (msg : string).

(** The texts of errors, which derive macros and the crates behind the errors
    make: [{:#}] and [{:#?}]. *)
Class ErrorTexts : Type := {
  domain_error_display : DomainError -> string;
  domain_error_debug : DomainError -> string;
  (* the errors of opaque_ke, [{:#?}] *)
  protocol_error_debug : string;
}.

(* ------------------------------------------------------------------ *)
(** ** anyhow *)

(** An [anyhow::Error]: a message, an error it was made from, or one with a context. *)
Inductive AnyError :=
| Message (s : string)
| FromDbErr (e : DbErr)
| FromDomain (e : DomainError)
| WithContext (s : string) (e : AnyError).
Definition context {A} (s : string) (m : outcome AnyError A) : outcome AnyError A := omap_err (WithContext s) m.
Definition bail {A} (s : string) : outcome AnyError A := Err (Message s).

(* ------------------------------------------------------------------ *)
(** ** Photos, UUIDs *)

(** Source: server/src/domain/types.rs#struct JpegPhoto *)
Record JpegPhoto := mk_jpeg { jpeg_bytes : bytes }.
#[global] Instance jpeg_eq_dec : EqDecision JpegPhoto.
Proof. solve_decision. Defined.

(** Source: server/src/domain/types.rs#struct Uuid *)
Record Uuid := mk_uuid { uuid_str : string }.
#[global] Instance uuid_eq_dec : EqDecision Uuid.
Proof. solve_decision. Defined.

(** Source: server/src/domain/types.rs#impl JpegPhoto *)
Definition jpeg_is_empty (p : JpegPhoto) : bool :=
  match jpeg_bytes p with [] => true | _ => false end.
Definition jpeg_null : JpegPhoto := mk_jpeg [].

Section TypesCrates.
Context `{C : Crates}.

(** Source: server/src/domain/types.rs#impl TryFrom<Vec<u8>> for JpegPhoto *)
Definition jpeg_try_from_bytes (b : bytes) : outcome string JpegPhoto :=
  match b with
  | [] => Ok jpeg_null
  | _ => if jpeg_decodes b then Ok (mk_jpeg b) else Err "invalid JPEG"%string
  end.

(** Source: server/src/domain/types.rs#impl TryFrom<&str> for JpegPhoto *)
Definition jpeg_try_from_str (s : string) : outcome string JpegPhoto :=
  let? b := ok_or "invalid base64"%string (base64_decode s) in
  jpeg_try_from_bytes b.

(** Source: server/src/domain/types.rs#impl From<&JpegPhoto> for String *)
Definition jpeg_to_string (p : JpegPhoto) : string := base64_encode (jpeg_bytes p).

(** Source: server/src/domain/types.rs#fn from_name_and_date *)
Definition uuid_from_name_and_date (name : string) (creation_date : NaiveDateTime) : Uuid :=
  mk_uuid (uuid_new_v3_x500 (into_bytes name ++ into_bytes (to_rfc3339 creation_date))).

(** Source: server/src/domain/types.rs#impl<'a> std::convert::TryFrom<&'a str> for Uuid *)
Definition uuid_try_from (s : string) : outcome string Uuid :=
  match uuid_parse_str s with inl e => Err e | inr u => Ok (mk_uuid u) end.
End TypesCrates.

(* ------------------------------------------------------------------ *)
(** ** Serialized values (bincode)

    [bincode::serialize] and [bincode::deserialize] are directed by the Rust
    type; the types the server stores are the universe [serde_type]. *)

Inductive serde_type :=
| TyString
| TyI64
| TyJpegPhoto
| TyNaiveDateTime
| TyVec (t : serde_type).

Fixpoint serde_interp (t : serde_type) : Type :=
  match t with
  | TyString => string
  | TyI64 => Z
  | TyJpegPhoto => JpegPhoto
  | TyNaiveDateTime => NaiveDateTime
  | TyVec t => list (serde_interp t)
  end.

(** The values of the Rust type: an [i64] fits. *)
Fixpoint serde_valid (t : serde_type) : serde_interp t -> Prop :=
  match t with
  | TyI64 => fun z => in_i64 z = true
  | TyVec t => Forall (serde_valid t)
  | _ => fun _ => True
  end.

Class Bincode : Type := {
  bincode_serialize t : serde_interp t -> bytes;
  bincode_deserialize t : bytes -> option (serde_interp t);
}.

Class BincodeLaws (B : Bincode) : Prop := {
  bincode_roundtrip t (v : serde_interp t) :
    serde_valid t v -> bincode_deserialize t (bincode_serialize t v) = Some v;
}.

(** Source: server/src/domain/types.rs#struct Serialized *)
Record Serialized := mk_serialized { serialized_bytes : bytes }.
#[global] Instance serialized_eq_dec : EqDecision Serialized.
Proof. solve_decision. Defined.

Section Serialized.
Context `{B : Bincode}.

(** Source: server/src/domain/types.rs#impl<'a, T: Serialize + ?Sized> From<&'a T> for Serialized *)
Definition serialized_from (t : serde_type) (v : serde_interp t) : Serialized :=
  mk_serialized (bincode_serialize t v).

(** [convert_to] and [unwrap].
    Source: server/src/domain/types.rs#impl Serialized *)
Definition serialized_unwrap {E} (t : serde_type) (s : Serialized) : outcome E (serde_interp t) :=
  expect "bincode"%string (bincode_deserialize t (serialized_bytes s)).

Lemma serialized_unwrap_from {BL : BincodeLaws B} {E} t v :
  serde_valid t v -> serialized_unwrap (E:=E) t (serialized_from t v) = Ok v.
Proof. intros Hv. unfold serialized_unwrap, serialized_from. simpl. by rewrite bincode_roundtrip. Qed.

(** [NotSet] (no value) for an empty photo.
    Source: server/src/domain/types.rs#impl IntoActiveValue<Serialized> for JpegPhoto *)
Definition jpeg_into_active_value (p : JpegPhoto) : option Serialized :=
  if jpeg_is_empty p then None else Some (serialized_from TyJpegPhoto p).
End Serialized.

(* ------------------------------------------------------------------ *)
(** ** Attributes, users, groups *)

(** Source: server/src/domain/types.rs#enum AttributeType *)
Inductive AttributeType := AString | AInteger | AJpegPhoto | ADateTime.
#[global] Instance attribute_type_eq_dec : EqDecision AttributeType.
Proof. solve_decision. Defined.

(** The Rust type a value of an attribute is stored as. *)
Definition serde_of_attribute (t : AttributeType) (is_list : bool) : serde_type :=
  let t' := match t with
            | AString => TyString
            | AInteger => TyI64
            | AJpegPhoto => TyJpegPhoto
            | ADateTime => TyNaiveDateTime
            end in
  if is_list then TyVec t' else t'.

(** Source: server/src/domain/types.rs#struct AttributeValue *)
Record AttributeValue := mk_attribute_value {
  av_name : AttributeName;
  av_value : Serialized;
}.
#[global] Instance attribute_value_eq_dec : EqDecision AttributeValue.
Proof. solve_decision. Defined.

(** [GroupId(i32)]. *)
Abbreviation GroupId := Z.

(** Source: server/src/domain/types.rs#struct User *)
Record User := mk_user {
  user_user_id : UserId;
  user_email : Email;
  user_display_name : option string;
  user_creation_date : NaiveDateTime;
  user_uuid : Uuid;
  user_attributes : list AttributeValue;
}.

(** Source: server/src/domain/types.rs#struct Group *)
Record Group := mk_group {
  group_id : GroupId;
  group_display_name : GroupName;
  group_creation_date : NaiveDateTime;
  group_uuid : Uuid;
  group_users : list UserId;
  group_attributes : list AttributeValue;
}.

(** Source: server/src/domain/types.rs#struct GroupDetails *)
Record GroupDetails := mk_group_details {
  gd_group_id : GroupId;
  gd_display_name : GroupName;
  gd_creation_date : NaiveDateTime;
  gd_uuid : Uuid;
  gd_attributes : list AttributeValue;
}.

(** Source: server/src/domain/types.rs#struct UserAndGroups *)
Record UserAndGroups := mk_user_and_groups {
  uag_user : User;
  uag_groups : option (list GroupDetails);
}.

(** The columns of the table [users].
    Source: server/src/domain/model/users.rs#enum Column *)
Inductive UserColumn :=
| ColUserId | ColEmail | ColLowercaseEmail | ColDisplayName | ColCreationDate
| ColPasswordHash | ColTotpSecret | ColMfaType | ColUuid.
#[global] Instance user_column_eq_dec : EqDecision UserColumn.
Proof. solve_decision. Defined.

(* ------------------------------------------------------------------ *)
(** ** Properties *)

Section TypesProperties.
Context `{U : Unicode} {UL : UnicodeLaws U} {t : ci_tag}.
Implicit Types x y z : ci_string t.

(** Comparing names without case is a total preorder whose equivalence is
    [==]: [cmp] is antisymmetric in its result, transitive, and [Equal]
    exactly on equal names; and on ASCII names, equal names are those that
    coincide in lower case and they hash alike, as the [Eq]/[Hash] contract
    asks. *)
Theorem ci_string_order x y z :
  ci_cmp y x = CompOpp (ci_cmp x y)
  /\ (ci_cmp x y = Lt -> ci_cmp y z = Lt -> ci_cmp x z = Lt)
  /\ (ci_cmp x y = Eq <-> ci_eqb x y = true)
  /\ (is_ascii (ci_raw x) = true -> is_ascii (ci_raw y) = true ->
      (ci_eqb x y = true <-> to_ascii_lowercase (ci_raw x) = to_ascii_lowercase (ci_raw y))
      /\ (ci_eqb x y = true -> ci_hash_input x = ci_hash_input y)).
Proof using UL.
  split_and!.
  - apply lex_compare_antisym.
  - apply lex_compare_lt_trans.
  - unfold ci_eqb, eq_str_case_insensitive, ci_cmp. by destruct (compare_str_case_insensitive _ _).
  - intros Hx Hy. unfold ci_eqb, ci_hash_input.
    rewrite eq_str_case_insensitive_ascii, !to_lowercase_ascii by done. done.
Qed.
End TypesProperties.

Lemma ci_string_order_witness :
  let x := mk_ci (t:=TagGroupName) "LLDAP_Admin"%string in
  let y := mk_ci "lldap_admin"%string in
  @ci_eqb ascii_greek_unicode _ x y = true
  /\ @ci_hash_input ascii_greek_unicode _ x = @ci_hash_input ascii_greek_unicode _ y.
Proof.
  intros x y. split; [vm_compute; reflexivity|].
  destruct (@ci_string_order ascii_greek_unicode ascii_greek_unicode_laws _ x y y) as (_ & _ & _ & H).
  apply H; vm_compute; reflexivity.
Defined.

(** The contract breaks outside ASCII: [char::to_lowercase] and
    [str::to_lowercase] disagree on a final capital sigma, so two group names
    that are [==] can hash differently. *)
Theorem ci_string_hash_sigma :
  exists x y : GroupName,
    @ci_eqb ascii_greek_unicode _ x y = true
    /\ @ci_hash_input ascii_greek_unicode _ x <> @ci_hash_input ascii_greek_unicode _ y.
Proof.
  (* "ΑΣ" and "ασ" *)
  exists (mk_ci (of_codes [0xCE; 0x91; 0xCE; 0xA3]%N)), (mk_ci (of_codes [0xCE; 0xB1; 0xCF; 0x83]%N)).
  split; vm_compute; [reflexivity|discriminate].
Qed.
