(* ===== verification/Concrete.v ===== *)
(** * Concrete crates, for examples

    Small functions with the laws of [Extern] and [Types], so that the witnesses
    of the theorems run.  They are not the crates' algorithms: dates print as
    ["@" + nanoseconds], base64 is the identity, a JPEG is anything that starts
    with the byte 0xFF, and bincode is the binary code of stdpp's [Countable]. *)

From S2P Require Import Prelude RustStd Extern Types.
From Stdlib Require Import Ascii String.
From stdpp Require Import strings list countable.

Definition concrete_chrono : Chrono := {|
  to_rfc3339 d := String "@"%char (i64_to_string d);
  parse_from_rfc3339 s :=
    match s with String "@"%char s => parse_i64 s | _ => None end;
|}.

Definition concrete_chrono_laws : ChronoLaws concrete_chrono.
Proof.
  refine {| rfc3339_date d := in_i64 d = true |}.
  - intros d Hd. simpl. by apply parse_i64_to_string.
  - done.
Defined.

Definition concrete_crates : Crates := {|
  crates_unicode := ascii_greek_unicode;
  crates_chrono := concrete_chrono;
  crates_uuid := {| uuid_new_v3_x500 := string_of_bytes; uuid_parse_str := inr |};
  crates_base64 := {| base64_encode := string_of_bytes; base64_decode s := Some (into_bytes s) |};
  crates_image := {| jpeg_decodes b :=
    match b with Byte.xff :: _ => true | _ => false end |};
|}.

Definition concrete_hash : StdHash.
Proof.
  refine {| default_hash s :=
    (foldr (fun c acc => Z.of_N c + 257 * acc) 5381 (codes s) mod 2 ^ 64)%Z |}.
  intros s. unfold in_u64. apply andb_true_iff. rewrite Z.leb_le, Z.ltb_lt.
  by apply Z.mod_pos_bound.
Defined.

Definition concrete_sql : SqlLib := {| sql_datetime := i64_to_string |}.

Lemma concrete_base64_laws : Base64Laws (@crates_base64 concrete_crates).
Proof.
  constructor. intros b. simpl. unfold into_bytes, string_of_bytes.
  by rewrite String.list_byte_of_string_of_list_byte.
Qed.

#[global] Instance byte_countable : Countable Byte.byte.
Proof.
  refine (inj_countable Byte.to_N Byte.of_N _). intros b. apply Byte.of_to_N.
Defined.

#[global] Instance jpeg_countable : Countable JpegPhoto.
Proof. refine (inj_countable' jpeg_bytes mk_jpeg _). by intros []. Defined.

Fixpoint serde_eq_dec (t : serde_type) : EqDecision (serde_interp t) :=
  match t with
  | TyString => String.eq_dec
  | TyI64 => Z.eq_dec
  | TyJpegPhoto => jpeg_eq_dec
  | TyNaiveDateTime => Z.eq_dec
  | TyVec t => @list_eq_dec _ (serde_eq_dec t)
  end.

Fixpoint serde_countable (t : serde_type) : @Countable (serde_interp t) (serde_eq_dec t) :=
  match t with
  | TyString => String.countable
  | TyI64 => Z_countable
  | TyJpegPhoto => jpeg_countable
  | TyNaiveDateTime => Z_countable
  | TyVec t => @list_countable _ (serde_eq_dec t) (serde_countable t)
  end.

Fixpoint bits_of_pos (p : positive) : bytes :=
  match p with
  | xH => []
  | xO p => Byte.x00 :: bits_of_pos p
  | xI p => Byte.x01 :: bits_of_pos p
  end.

Fixpoint pos_of_bits (b : bytes) : positive :=
  match b with
  | [] => xH
  | Byte.x00 :: b => xO (pos_of_bits b)
  | _ :: b => xI (pos_of_bits b)
  end.

Lemma pos_of_bits_of_pos p : pos_of_bits (bits_of_pos p) = p.
Proof. induction p as [p IH|p IH|]; simpl; by rewrite ?IH. Qed.

Definition concrete_bincode : Bincode := {|
  bincode_serialize t v := bits_of_pos (@encode _ _ (serde_countable t) v);
  bincode_deserialize t b := @decode _ _ (serde_countable t) (pos_of_bits b);
|}.

Lemma concrete_bincode_laws : BincodeLaws concrete_bincode.
Proof. constructor. intros t v _. simpl. rewrite pos_of_bits_of_pos. apply decode_encode. Qed.

(** Placeholders for the [Display] and [Debug] texts of errors. *)
Definition toy_texts : ErrorTexts := {|
  domain_error_display _ := "error"%string; domain_error_debug _ := "error"%string; protocol_error_debug := "error"%string |}.
