(* ===== verification/Handler.v ===== *)
(** * Requests, filters, schemas and the backend interface

    Models [server/src/domain/handler.rs] and [server/src/domain/schema.rs]: the
    requests the front ends send to the domain, the filters and their SQL
    [LIKE] patterns, the attribute schemas, and the traits a backend
    implements, as type classes over the backend's state. *)

From S2P Require Import Prelude RustStd Extern Types.
From Stdlib Require Import Ascii String.
From stdpp Require Import strings list gmap.

(* ------------------------------------------------------------------ *)
(** ** Requests and filters *)

(** Source: server/src/domain/handler.rs#struct BindRequest *)
Record BindRequest := mk_bind_request { bind_name : UserId; bind_password : string }.

(** Source: server/src/domain/handler.rs#struct SubStringFilter *)
Record SubStringFilter := mk_substring {
  ss_initial : option string;
  ss_any : list string;
  ss_final : option string;
}.

(** Source: server/src/domain/handler.rs#fn to_sql_filter *)
Definition to_sql_filter (f : SubStringFilter) : string :=
  let filter := EmptyString in
  let filter := match ss_initial f with
                | Some s => filter +:+ to_ascii_lowercase s
                | None => filter
                end in
  let filter := filter +:+ "%"%string in
  let filter := foldl (fun acc part => acc +:+ to_ascii_lowercase part +:+ "%"%string) filter (ss_any f) in
  match ss_final f with
  | Some s => filter +:+ to_ascii_lowercase s
  | None => filter
  end.

(** Source: server/src/domain/handler.rs#enum UserRequestFilter *)
#[warnings="-register-all"]
Inductive UserRequestFilter :=
| UAnd (fs : list UserRequestFilter)
| UOr (fs : list UserRequestFilter)
| UNot (f : UserRequestFilter)
| UUserId (u : UserId)
| UUserIdSubString (s : SubStringFilter)
| UEquality (c : UserColumn) (v : string)
| UAttributeEquality (a : AttributeName) (v : Serialized)
| USubString (c : UserColumn) (s : SubStringFilter)
| UMemberOf (g : GroupName)
| UMemberOfId (g : GroupId).

(** Source: server/src/domain/handler.rs#impl From<bool> for UserRequestFilter *)
Definition user_filter_from_bool (b : bool) : UserRequestFilter :=
  if b then UAnd [] else UNot (UAnd []).

(** Source: server/src/domain/handler.rs#enum GroupRequestFilter *)
#[warnings="-register-all"]
Inductive GroupRequestFilter :=
| GAnd (fs : list GroupRequestFilter)
| GOr (fs : list GroupRequestFilter)
| GNot (f : GroupRequestFilter)
| GDisplayName (n : GroupName)
| GDisplayNameSubString (s : SubStringFilter)
| GUuid (u : Uuid)
| GGroupId (g : GroupId)
| GMember (u : UserId)
| GAttributeEquality (a : AttributeName) (v : Serialized).

(** Source: server/src/domain/handler.rs#impl From<bool> for GroupRequestFilter *)
Definition group_filter_from_bool (b : bool) : GroupRequestFilter :=
  if b then GAnd [] else GNot (GAnd []).

(** Source: server/src/domain/handler.rs#struct CreateUserRequest *)
Record CreateUserRequest := mk_create_user {
  cu_user_id : UserId;
  cu_email : Email;
  cu_display_name : option string;
  cu_first_name : option string;
  cu_last_name : option string;
  cu_avatar : option JpegPhoto;
  cu_attributes : list AttributeValue;
}.

(** Source: server/src/domain/handler.rs#struct UpdateUserRequest *)
Record UpdateUserRequest := mk_update_user {
  uu_user_id : UserId;
  uu_email : option Email;
  uu_display_name : option string;
  uu_first_name : option string;
  uu_last_name : option string;
  uu_avatar : option JpegPhoto;
  uu_delete_attributes : list AttributeName;
  uu_insert_attributes : list AttributeValue;
}.

(** Source: server/src/domain/handler.rs#struct CreateGroupRequest *)
Record CreateGroupRequest := mk_create_group {
  cg_display_name : GroupName;
  cg_attributes : list AttributeValue;
}.

(** Source: server/src/domain/handler.rs#struct UpdateGroupRequest *)
Record UpdateGroupRequest := mk_update_group {
  ug_group_id : GroupId;
  ug_display_name : option GroupName;
  ug_delete_attributes : list AttributeName;
  ug_insert_attributes : list AttributeValue;
}.

(* ------------------------------------------------------------------ *)
(** ** Schemas *)

(** Source: server/src/domain/handler.rs#struct AttributeSchema *)
Record AttributeSchema := mk_attribute_schema {
  as_name : AttributeName;
  as_attribute_type : AttributeType;
  as_is_list : bool;
  as_is_visible : bool;
  as_is_editable : bool;
  as_is_hardcoded : bool;
}.

(** Source: server/src/domain/handler.rs#struct CreateAttributeRequest *)
Record CreateAttributeRequest := mk_create_attribute {
  ca_name : AttributeName;
  ca_attribute_type : AttributeType;
  ca_is_list : bool;
  ca_is_visible : bool;
  ca_is_editable : bool;
}.

(** Source: server/src/domain/handler.rs#struct AttributeList *)
Record AttributeList := mk_attribute_list { al_attributes : list AttributeSchema }.

(** Source: server/src/domain/handler.rs#fn get_attribute_schema *)
Definition get_attribute_schema (l : AttributeList) (name : AttributeName) : option AttributeSchema :=
  List.find (fun a => bool_decide (as_name a = name)) (al_attributes l).

(** Source: server/src/domain/handler.rs#fn get_attribute_type *)
Definition get_attribute_type (l : AttributeList) (name : AttributeName) : option (AttributeType * bool) :=
  (fun a => (as_attribute_type a, as_is_list a)) <$> get_attribute_schema l name.

(** Source: server/src/domain/handler.rs#struct Schema *)
Record Schema := mk_schema {
  sc_user_attributes : AttributeList;
  sc_group_attributes : AttributeList;
  sc_extra_user_object_classes : list LdapObjectClass;
  sc_extra_group_object_classes : list LdapObjectClass;
}.

(** Source: server/src/domain/schema.rs#struct PublicSchema *)
Record PublicSchema := mk_public_schema { get_schema : Schema }.

(** [sort_by(|a, b| a.name.cmp(&b.name))]: names are lower-case strings, compared
    by bytes. *)
Definition attribute_leb (a b : AttributeSchema) : bool :=
  lex_leb (fun a => codes (attribute_name_str (as_name a))) a b.

Definition hardcoded (name : string) (t : AttributeType) (editable : bool) : AttributeSchema :=
  mk_attribute_schema (attribute_name_new name) t false true editable true.

(** The slices that [From<Schema>] appends.
    Source: server/src/domain/schema.rs#L38-79 *)
Definition hardcoded_user_attributes : list AttributeSchema :=
  [hardcoded "user_id" AString false; hardcoded "creation_date" ADateTime false;
   hardcoded "mail" AString true; hardcoded "uuid" AString false;
   hardcoded "display_name" AString true].
(** Source: server/src/domain/schema.rs#L84-117 *)
Definition hardcoded_group_attributes : list AttributeSchema :=
  [hardcoded "group_id" AInteger false; hardcoded "creation_date" ADateTime false;
   hardcoded "uuid" AString false; hardcoded "display_name" AString true].

(** Source: server/src/domain/schema.rs#impl From<Schema> for PublicSchema *)
Definition public_schema_from (s : Schema) : PublicSchema :=
  mk_public_schema {|
    sc_user_attributes :=
      mk_attribute_list (sort_by attribute_leb
        (al_attributes (sc_user_attributes s) ++ hardcoded_user_attributes));
    sc_group_attributes :=
      mk_attribute_list (sort_by attribute_leb
        (al_attributes (sc_group_attributes s) ++ hardcoded_group_attributes));
    sc_extra_user_object_classes := sc_extra_user_object_classes s;
    sc_extra_group_object_classes := sc_extra_group_object_classes s;
  |}.

(* ------------------------------------------------------------------ *)
(** ** The backend interface

    One class for the traits whose union is [BackendHandler]; [St] is the state
    behind [&self] (the database). *)

(** Source: server/src/domain/handler.rs#L188-251 *)
Class BackendHandler (St : Type) : Type := {
  bh_get_schema : stM St DomainError Schema;
  bh_list_users : option UserRequestFilter -> bool -> stM St DomainError (list UserAndGroups);
  bh_list_groups : option GroupRequestFilter -> stM St DomainError (list Group);
  bh_get_user_details : UserId -> stM St DomainError User;
  bh_get_user_groups : UserId -> stM St DomainError (list GroupDetails);
  bh_get_group_details : GroupId -> stM St DomainError GroupDetails;
  bh_create_user : CreateUserRequest -> stM St DomainError unit;
  bh_update_user : UpdateUserRequest -> stM St DomainError unit;
  bh_delete_user : UserId -> stM St DomainError unit;
  bh_add_user_to_group : UserId -> GroupId -> stM St DomainError unit;
  bh_remove_user_from_group : UserId -> GroupId -> stM St DomainError unit;
  bh_update_group : UpdateGroupRequest -> stM St DomainError unit;
  bh_create_group : CreateGroupRequest -> stM St DomainError GroupId;
  bh_delete_group : GroupId -> stM St DomainError unit;
  bh_add_user_attribute : CreateAttributeRequest -> stM St DomainError unit;
  bh_add_group_attribute : CreateAttributeRequest -> stM St DomainError unit;
  bh_delete_user_attribute : AttributeName -> stM St DomainError unit;
  bh_delete_group_attribute : AttributeName -> stM St DomainError unit;
  bh_add_user_object_class : LdapObjectClass -> stM St DomainError unit;
  bh_add_group_object_class : LdapObjectClass -> stM St DomainError unit;
  bh_delete_user_object_class : LdapObjectClass -> stM St DomainError unit;
  bh_delete_group_object_class : LdapObjectClass -> stM St DomainError unit;
}.

(** Source: server/src/domain/handler.rs#trait LoginHandler *)
Class LoginHandler (St : Type) : Type := {
  lh_bind : BindRequest -> stM St DomainError unit;
}.

(** What the front ends rely on.  The queries do not write; a listing
    restricted to a user returns only that user, and a listing of the groups of
    a member only groups that have the member. *)
Class BackendLaws {St : Type} (BH : BackendHandler St) : Prop := {
  bh_readonly_schema : readonly bh_get_schema;
  bh_readonly_list_users f b : readonly (bh_list_users f b);
  bh_readonly_list_groups f : readonly (bh_list_groups f);
  bh_readonly_user_details u : readonly (bh_get_user_details u);
  bh_readonly_user_groups u : readonly (bh_get_user_groups u);
  bh_readonly_group_details g : readonly (bh_get_group_details g);
  bh_list_users_only s fs u b l :
    UUserId u ∈ fs -> fst (bh_list_users (Some (UAnd fs)) b s) = Ok l ->
    Forall (fun x => user_user_id (uag_user x) = u) l;
  bh_list_users_id s u b l :
    fst (bh_list_users (Some (UUserId u)) b s) = Ok l ->
    Forall (fun x => user_user_id (uag_user x) = u) l;
  bh_list_groups_member s fs u l :
    GMember u ∈ fs -> fst (bh_list_groups (Some (GAnd fs)) s) = Ok l ->
    Forall (fun g => u ∈ group_users g) l;
  bh_list_groups_one s u l :
    fst (bh_list_groups (Some (GMember u)) s) = Ok l -> Forall (fun g => u ∈ group_users g) l;
}.
