(* ===== verification/Deserialize.v ===== *)
(** * Attribute values between text and the database

    Models [server/src/domain/deserialize.rs] (text to stored value, used by the
    LDAP filters and the GraphQL mutations) and [serialize_attribute] of
    [server/src/infra/graphql/query.rs] (stored value to text).  Errors are the
    outermost message of the [anyhow::Error]. *)

From S2P Require Import Prelude RustStd Extern Types Concrete Handler.
From Stdlib Require Import Ascii String.
From stdpp Require Import strings list.

Section Deserialize.
Context `{C : Crates} `{B : Bincode}.

Definition parse_int (value : string) : outcome string Z :=
  ok_or ("Invalid integer value " +:+ value) (parse_i64 value).
Definition parse_date (value : string) : outcome string NaiveDateTime :=
  ok_or ("Invalid date value " +:+ value) (parse_from_rfc3339 value).
Definition parse_photo (value : string) : outcome string JpegPhoto :=
  omap_err (fun _ => "Provided image is not a valid JPEG"%string) (jpeg_try_from_str value).

(** [value[0]] *)
Definition index0 {E A} (l : list A) : outcome E A :=
  expect "index out of bounds"%string (l !! 0).

(** Source: server/src/domain/deserialize.rs#fn deserialize_attribute_value *)
Definition deserialize_attribute_value (value : list string) (typ : AttributeType)
    (is_list : bool) : outcome string Serialized :=
  if negb is_list && negb (Nat.eqb (length value) 1) then
    Err "Attribute is not a list, but multiple values were provided"%string
  else
    match typ, is_list with
    | AString, false => let? v := index0 value in Ok (serialized_from TyString v)
    | AString, true => Ok (serialized_from (TyVec TyString) value)
    | AInteger, false =>
        let? v := index0 value in let? i := parse_int v in Ok (serialized_from TyI64 i)
    | AInteger, true =>
        let? l := try_map parse_int value in Ok (serialized_from (TyVec TyI64) l)
    | ADateTime, false =>
        let? v := index0 value in let? d := parse_date v in
        Ok (serialized_from TyNaiveDateTime d)
    | ADateTime, true =>
        let? l := try_map parse_date value in Ok (serialized_from (TyVec TyNaiveDateTime) l)
    | AJpegPhoto, false =>
        let? v := index0 value in let? p := parse_photo v in Ok (serialized_from TyJpegPhoto p)
    | AJpegPhoto, true =>
        let? l := try_map parse_photo value in Ok (serialized_from (TyVec TyJpegPhoto) l)
    end.

(** Source: server/src/infra/graphql/query.rs#fn serialize_attribute *)
Definition serialize_attribute {E} (attribute : AttributeValue) (schema : AttributeSchema) :
    outcome E (list string) :=
  let v := av_value attribute in
  match as_attribute_type schema, as_is_list schema with
  | AString, false => let? s := serialized_unwrap TyString v in Ok [s]
  | AInteger, false => let? i := serialized_unwrap TyI64 v in Ok [i64_to_string i]
  | AJpegPhoto, false => let? p := serialized_unwrap TyJpegPhoto v in Ok [jpeg_to_string p]
  | ADateTime, false => let? d := serialized_unwrap TyNaiveDateTime v in Ok [to_rfc3339 d]
  | AString, true => let? l := serialized_unwrap (TyVec TyString) v in Ok l
  | AInteger, true =>
      let? l := serialized_unwrap (TyVec TyI64) v in Ok (map i64_to_string l)
  | AJpegPhoto, true =>
      let? l := serialized_unwrap (TyVec TyJpegPhoto) v in Ok (map jpeg_to_string l)
  | ADateTime, true =>
      let? l := serialized_unwrap (TyVec TyNaiveDateTime) v in Ok (map to_rfc3339 l)
  end.
End Deserialize.

(* ------------------------------------------------------------------ *)
(** ** Round trip *)

(** A parser that reads back what the printer writes. *)
Definition reparses {E A} (parse : string -> outcome E A) (print : A -> string) (s : string) : Prop :=
  forall a, parse s = Ok a -> parse (print a) = Ok a.

Lemma try_map_reparses {E A} (parse : string -> outcome E A) (print : A -> string) l ys :
  Forall (reparses parse print) l -> try_map parse l = Ok ys ->
  try_map parse (map print ys) = Ok ys.
Proof.
  intros Hl Hy. apply try_map_ok in Hy. apply try_map_ok.
  induction Hy as [|x y l ys Hxy Hy IH]; simpl; [constructor|].
  apply Forall_cons in Hl as [Hx Hl]. constructor; auto.
Qed.

Lemma try_map_length {E A B} (f : A -> outcome E B) l ys :
  try_map f l = Ok ys -> length ys = length l.
Proof. intros H%try_map_ok. symmetry. by eapply Forall2_length. Qed.

(** The list case of the round trip, for any scalar. *)
Lemma list_text_roundtrip {E A} (parse : string -> outcome E A) (print : A -> string)
    value l (P : Prop) (Q : list string -> Prop) :
  Forall (reparses parse print) value -> try_map parse value = Ok l ->
  (forall out, try_map parse out = Ok l -> Q out) -> ~ P ->
  exists out, Ok (E:=E) (map print l) = Ok out /\ length out = length value
    /\ (P -> out = value) /\ Q out.
Proof.
  intros Hv Hl HQ HP. exists (map print l). split_and!; [done| |done|].
  - rewrite length_map. by eapply try_map_length.
  - eauto using try_map_reparses.
Qed.

Lemma no_panic_index0 {E A} (l : list A) : length l = 1 -> no_panic (index0 (E:=E) l).
Proof. by destruct l as [|x []]. Qed.

Section RoundTrip.
Context `{C : Crates} `{B : Bincode} {BL : BincodeLaws B} {B6 : Base64Laws crates_base64}
  {CL : ChronoLaws crates_chrono}.

Lemma parse_int_in_i64 s z : parse_int s = Ok z -> in_i64 z = true.
Proof using Type.
  unfold parse_int, parse_i64. destruct (parse_digits s) as [z'|]; [|done]. simpl.
  destruct (in_i64 z') eqn:Hz; [|done]. by intros [= <-].
Qed.

Lemma parse_int_reparses s : reparses parse_int i64_to_string s.
Proof using Type.
  intros z Hz%parse_int_in_i64. unfold parse_int. by rewrite parse_i64_to_string.
Qed.

Lemma parse_photo_reparses s : reparses parse_photo jpeg_to_string s.
Proof using B6.
  intros p. unfold parse_photo, jpeg_try_from_str, jpeg_to_string.
  destruct (base64_decode s) as [b|]; [|done]. rewrite base64_roundtrip. simpl.
  unfold jpeg_try_from_bytes. destruct b as [|b0 b]; [by intros [= <-]|].
  destruct (jpeg_decodes (b0 :: b)) eqn:Hb; [|done]. intros [= <-]. simpl. by rewrite Hb.
Qed.

(** The dates among the values have a printable year. *)
Definition dates_printable (value : list string) : Prop :=
  Forall (fun s => forall d, parse_from_rfc3339 s = Some d -> rfc3339_date d) value.

Lemma parse_date_reparses s :
  (forall d, parse_from_rfc3339 s = Some d -> rfc3339_date d) ->
  reparses parse_date to_rfc3339 s.
Proof using Type.
  intros Hs d. unfold parse_date. destruct (parse_from_rfc3339 s) as [d'|] eqn:Hd; [|done].
  intros [= ->]. by rewrite (rfc3339_roundtrip _ (Hs d eq_refl)).
Qed.

Lemma try_map_parse_int_valid l zs :
  try_map parse_int l = Ok zs -> Forall (fun z => in_i64 z = true) zs.
Proof using Type.
  intros H%try_map_ok. induction H as [|s z l zs Hs H IH]; [constructor|].
  constructor; [by eapply parse_int_in_i64|done].
Qed.

(** C37. Text stored through [deserialize_attribute_value] and read back by
    [serialize_attribute] under the same attribute type is read without
    panic, keeps the number of values, is unchanged for string attributes,
    and is a canonical text of the stored value: storing it again gives the
    same bytes. *)
Theorem attribute_text_roundtrip value typ is_list v name vis edit hard :
  deserialize_attribute_value value typ is_list = Ok v ->
  (typ = ADateTime -> dates_printable value) ->
  exists out,
    serialize_attribute (E:=string) (mk_attribute_value name v)
      (mk_attribute_schema name typ is_list vis edit hard) = Ok out
    /\ length out = length value
    /\ (typ = AString -> out = value)
    /\ deserialize_attribute_value out typ is_list = Ok v.
Proof using BL B6 CL.
  unfold deserialize_attribute_value, serialize_attribute. simpl. intros Hv Hd.
  destruct is_list; simpl in *.
  - destruct typ; simpl in *; [injection Hv as <-|apply obind_ok in Hv as (l & Hl & [= <-])..];
      (rewrite serialized_unwrap_from;
        [|first [by eapply try_map_parse_int_valid|by simpl; apply Forall_forall]]); simpl.
    + eauto.
    + eapply (list_text_roundtrip parse_int i64_to_string); [|exact Hl|by intros ? ->|done].
      apply Forall_forall. intros s _. apply parse_int_reparses.
    + eapply (list_text_roundtrip parse_photo jpeg_to_string); [|exact Hl|by intros ? ->|done].
      apply Forall_forall. intros s _. apply parse_photo_reparses.
    + eapply (list_text_roundtrip parse_date to_rfc3339); [|exact Hl|by intros ? ->|done].
      eapply Forall_impl; [by apply Hd|]. intros s. apply parse_date_reparses.
  - destruct value as [|s [|]]; simpl in *; try done.
    destruct typ; simpl in *.
    + injection Hv as <-. rewrite serialized_unwrap_from by done. simpl. eauto.
    + apply obind_ok in Hv as (z & Hz & [= <-]).
      rewrite serialized_unwrap_from by (by eapply parse_int_in_i64). simpl.
      eexists. split_and!; [done..|]. simpl. by rewrite (parse_int_reparses s z Hz).
    + apply obind_ok in Hv as (p & Hp & [= <-]).
      rewrite serialized_unwrap_from by done. simpl.
      eexists. split_and!; [done..|]. simpl. by rewrite (parse_photo_reparses s p Hp).
    + apply obind_ok in Hv as (d & Hp & [= <-]).
      rewrite serialized_unwrap_from by done. simpl.
      eexists. split_and!; [done..|]. simpl.
      specialize (Hd eq_refl). apply Forall_cons in Hd as [Hd _].
      by rewrite (parse_date_reparses s Hd d Hp).
Qed.

(** A single-valued attribute takes exactly one value, and the function never
    panics: the index is guarded. *)
Lemma deserialize_arity value typ :
  length value <> 1 -> exists e, deserialize_attribute_value value typ false = Err e.
Proof using Type.
  intros Hl. unfold deserialize_attribute_value. simpl.
  destruct (Nat.eqb_spec (length value) 1); [done|]. simpl. eauto.
Qed.

Lemma parse_int_no_panic s : no_panic (parse_int s).
Proof using Type. unfold parse_int. auto with rust. Qed.
Lemma parse_date_no_panic s : no_panic (parse_date s).
Proof using Type. unfold parse_date. auto with rust. Qed.
Lemma parse_photo_no_panic s : no_panic (parse_photo s).
Proof using Type.
  unfold parse_photo, jpeg_try_from_str. apply omap_err_no_panic, obind_no_panic; [auto with rust|].
  intros b _. unfold jpeg_try_from_bytes. destruct b; [|case_match]; auto with rust.
Qed.

Lemma deserialize_no_panic value typ is_list :
  no_panic (deserialize_attribute_value value typ is_list).
Proof using Type.
  unfold deserialize_attribute_value.
  destruct is_list; simpl.
  - destruct typ; [apply no_panic_ok|..]; (apply obind_no_panic; [|auto with rust]);
      apply try_map_no_panic; intros;
      auto using parse_int_no_panic, parse_date_no_panic, parse_photo_no_panic.
  - destruct (Nat.eqb_spec (length value) 1) as [Hl|]; simpl; [|apply no_panic_err].
    destruct typ; (apply obind_no_panic; [by apply no_panic_index0|]); intros; auto with rust;
      (apply obind_no_panic; [|auto with rust]);
      auto using parse_int_no_panic, parse_date_no_panic, parse_photo_no_panic.
Qed.

Lemma parse_int_spec s :
  match parse_int s with
  | Ok z => parse_digits s = Some z /\ in_i64 z = true
  | Err _ => forall z, parse_digits s = Some z -> in_i64 z = false
  | Panic _ => False
  end.
Proof using Type.
  unfold parse_int, parse_i64. destruct (parse_digits s) as [z|]; cbn; [|by intros z].
  destruct (in_i64 z) eqn:Hz; cbn; [done|]. by intros z' [= <-].
Qed.

(** The integers of a list of texts. *)
Lemma try_map_parse_int_spec l :
  match try_map parse_int l with
  | Ok zs => Forall2 (fun s z => parse_digits s = Some z) l zs /\ Forall (fun z => in_i64 z = true) zs
  | Err _ => exists s, s ∈ l /\ forall z, parse_digits s = Some z -> in_i64 z = false
  | Panic _ => False
  end.
Proof using Type.
  induction l as [|s l IH]; cbn [try_map]; [by split|]. pose proof (parse_int_spec s) as Hs.
  destruct (parse_int s) as [z|e|p]; cbn; [|exists s; by split; [left|]|done].
  destruct (try_map parse_int l) as [zs|e|p]; cbn; [| |done].
  - destruct IH as [H1 H2], Hs as [H3 H4]. split; by constructor.
  - destruct IH as (s' & Hin & H'). exists s'. by split; [right|].
Qed.

(** C32. Integers stay in 64 bits.  The value of an integer attribute is accepted
    exactly when every text is the decimal of an integer from -2^63 to 2^63 - 1, with
    exactly one of them unless the attribute is a list; then those integers, and no
    wrapped or truncated ones, are what is stored.  Anything else is an error, never
    a panic. *)
Theorem integers_bounded value is_list :
  match deserialize_attribute_value value AInteger is_list with
  | Ok v => exists zs, Forall2 (fun s z => parse_digits s = Some z) value zs /\ Forall (fun z => in_i64 z = true) zs
      /\ if is_list then v = serialized_from (TyVec TyI64) zs
         else exists z, zs = [z] /\ v = serialized_from TyI64 z
  | Err _ => (is_list = false /\ length value <> 1)
      \/ exists s, s ∈ value /\ forall z, parse_digits s = Some z -> in_i64 z = false
  | Panic _ => False
  end.
Proof using Type.
  unfold deserialize_attribute_value. destruct is_list; cbn [negb andb].
  - pose proof (try_map_parse_int_spec value) as H.
    destruct (try_map parse_int value) as [zs|e|p]; cbn; [destruct H; by exists zs|by right|done].
  - destruct (Nat.eqb_spec (length value) 1) as [Hl|Hl]; cbn [negb]; [|by left].
    destruct value as [|s [|]]; try done. cbn. pose proof (parse_int_spec s) as H.
    destruct (parse_int s) as [z|e|p]; cbn; [|right; exists s; by split; [left|]|done].
    destruct H. exists [z]. split_and!; [by repeat constructor|by repeat constructor|by exists z].
Qed.
End RoundTrip.
#[export] Hint Resolve deserialize_no_panic : rust.

Lemma attribute_text_roundtrip_witness :
  exists v out,
    @deserialize_attribute_value concrete_crates concrete_bincode ["-7"; "+12"]%string AInteger true
      = Ok v
    /\ @serialize_attribute concrete_crates concrete_bincode string
         (mk_attribute_value (attribute_name_new "age") v)
         (mk_attribute_schema (attribute_name_new "age") AInteger true true true false) = Ok out
    /\ @deserialize_attribute_value concrete_crates concrete_bincode out AInteger true = Ok v.
Proof.
  eexists.
  edestruct (@attribute_text_roundtrip concrete_crates concrete_bincode concrete_bincode_laws
    concrete_base64_laws concrete_chrono_laws ["-7"; "+12"]%string AInteger true) as (out & Ho & _ & _ & Hd).
  - vm_compute. reflexivity.
  - discriminate.
  - exists out. split_and!; [vm_compute; reflexivity|exact Ho|exact Hd].
Defined.
