(* ===== verification/SqlEngine.v ===== *)
(** * Statements on a database whose schema changes

    [Db] models the tables as they stand after the last migration.  The
    migrations themselves ([server/src/domain/sql_migrations.rs]) run on older
    schemas and change them, so this file gives a database as data: tables with
    their columns, indexes, foreign keys and rows, and the statements the
    migrations build, as SQLite (the default engine) runs them.  A statement
    that fails changes nothing. *)

From S2P Require Import Prelude RustStd Extern Types.
From Stdlib Require Import Ascii String.
From stdpp Require Import strings list gmap.
#[local] Open Scope rust_scope.

(* ------------------------------------------------------------------ *)
(** ** Tables *)

Inductive SqlValue :=
| SqlNull
| SqlText (s : string)
| SqlInt (n : Z)
| SqlBool (b : bool)
| SqlDateTime (t : NaiveDateTime)
| SqlBlob (b : bytes).
#[global] Instance sql_value_eq_dec : EqDecision SqlValue.
Proof. solve_decision. Defined.

(** The declared types; SQLite stores any value under any of them. *)
Inductive ColumnType :=
| CtString (len : nat)
| CtInteger
| CtSmallInteger
| CtBoolean
| CtDateTime
| CtBinary
| CtBlob (len : option nat).

(** A [ColumnDef] of sea_query. *)
Record ColumnDef := mk_column {
  cd_name : string;
  cd_type : ColumnType;
  cd_not_null : bool;
  cd_primary_key : bool;
  cd_unique : bool;
  cd_auto_increment : bool;
  cd_default : SqlValue;
}.

Record ForeignKey := mk_foreign_key { fk_name : string; fk_from : string; fk_table : string; fk_to : string }.

(** A row gives values to column names; a name it does not give is NULL. *)
Abbreviation Row := (list (string * SqlValue)).

Fixpoint row_get (r : Row) (c : string) : SqlValue :=
  match r with
  | [] => SqlNull
  | (c', v) :: r => if String.eqb c' c then v else row_get r c
  end.
Fixpoint row_set (r : Row) (c : string) (v : SqlValue) : Row :=
  match r with
  | [] => [(c, v)]
  | (c', v') :: r => if String.eqb c' c then (c, v) :: r else (c', v') :: row_set r c v
  end.
Fixpoint row_drop (r : Row) (c : string) : Row :=
  match r with
  | [] => []
  | (c', v') :: r => if String.eqb c' c then r else (c', v') :: row_drop r c
  end.
Definition row_rename (r : Row) (c c' : string) : Row :=
  map (fun kv => (if String.eqb kv.1 c then c' else kv.1, kv.2)) r.

Record SqlTable := mk_sql_table {
  tb_columns : list ColumnDef;
  tb_primary_key : list string;
  tb_unique : list (string * list string);
  tb_foreign_keys : list ForeignKey;
  tb_rows : list Row;
}.

Definition set_rows (rows : list Row) (tb : SqlTable) : SqlTable :=
  mk_sql_table (tb_columns tb) (tb_primary_key tb) (tb_unique tb) (tb_foreign_keys tb) rows.

Definition find_column (tb : SqlTable) (c : string) : option ColumnDef :=
  List.find (fun cd => String.eqb (cd_name cd) c) (tb_columns tb).
Definition has_column (tb : SqlTable) (c : string) : bool := existsb (fun cd => String.eqb (cd_name cd) c) (tb_columns tb).

(** The keys of a unique index; one with a NULL in it conflicts with nothing. *)
Definition index_key (cols : list string) (r : Row) : list SqlValue := map (row_get r) cols.
Definition no_null (key : list SqlValue) : bool := forallb (fun v => bool_decide (v <> SqlNull)) key.
Definition index_keys (cols : list string) (rows : list Row) : list (list SqlValue) :=
  List.filter no_null (map (index_key cols) rows).
Definition distinct_keys (rows : list Row) (cols : list string) : Prop := NoDup (index_keys cols rows).
#[global] Instance distinct_keys_dec rows cols : Decision (distinct_keys rows cols).
Proof. unfold distinct_keys. apply _. Defined.

(** The indexes of a table, the primary key first. *)
Definition tb_indexes (tb : SqlTable) : list (list string) :=
  match tb_primary_key tb with [] => [] | pk => [pk] end ++ map snd (tb_unique tb).

(* ------------------------------------------------------------------ *)
(** ** The database *)

Inductive DatabaseBackend := BackendSqlite | BackendMySql | BackendPostgres.

(** The tables, the clock and the kind of engine. *)
Record Engine := mk_engine {
  en_tables : gmap string SqlTable;
  en_now : NaiveDateTime;
  en_backend : DatabaseBackend;
}.
Definition put_table (name : string) (tb : SqlTable) (s : Engine) : Engine :=
  mk_engine (<[name := tb]> (en_tables s)) (en_now s) (en_backend s).

Abbreviation Exec A := (stM Engine DbErr A).

Definition on_table {A} (name : string) (k : SqlTable -> Exec A) : Exec A := fun s =>
  match en_tables s !! name with
  | Some tb => k tb s
  | None => (Err (ExecError ("no such table: " +:+ name)), s)
  end.
Definition check (what : string) (b : bool) : Exec unit := slift (if b then Ok tt else Err (ExecError what)).
Definition save (name : string) (tb : SqlTable) : Exec unit := smodify (put_table name tb).

(** [CREATE TABLE] *)
Definition create_table (if_not_exists : bool) (name : string) (cols : list ColumnDef) (fks : list ForeignKey)
    (primary_key : list string) : Exec unit := fun s =>
  match en_tables s !! name with
  | Some _ => if if_not_exists then sret tt s else sthrow (ExecError ("table already exists: " +:+ name)) s
  | None =>
      save name (mk_sql_table cols
        (map cd_name (List.filter cd_primary_key cols) ++ primary_key)
        (map (fun cd => (cd_name cd, [cd_name cd])) (List.filter cd_unique cols)) fks []) s
  end.

(** [ALTER TABLE .. ADD COLUMN]: existing rows get the default. *)
Definition with_column (cd : ColumnDef) (tb : SqlTable) : SqlTable :=
  mk_sql_table (tb_columns tb ++ [cd]) (tb_primary_key tb) (tb_unique tb) (tb_foreign_keys tb)
    (map (fun r => r ++ [(cd_name cd, cd_default cd)]) (tb_rows tb)).
Definition add_column (name : string) (cd : ColumnDef) : Exec unit :=
  on_table name (fun tb =>
    check "duplicate column name" (negb (has_column tb (cd_name cd))) ;;
    check "cannot add a NOT NULL column with default value NULL"
      (negb (cd_not_null cd) || bool_decide (cd_default cd <> SqlNull) || bool_decide (tb_rows tb = [])) ;;
    save name (with_column cd tb)).

(** [ALTER TABLE .. RENAME COLUMN]; the indexes follow. *)
Definition renamed (c c' : string) (tb : SqlTable) : SqlTable :=
  let ren x := if String.eqb x c then c' else x in
  mk_sql_table
    (map (fun cd => mk_column (ren (cd_name cd)) (cd_type cd) (cd_not_null cd) (cd_primary_key cd) (cd_unique cd)
                      (cd_auto_increment cd) (cd_default cd)) (tb_columns tb))
    (map ren (tb_primary_key tb)) (map (fun ix => (ix.1, map ren ix.2)) (tb_unique tb))
    (map (fun fk => mk_foreign_key (fk_name fk) (ren (fk_from fk)) (fk_table fk) (fk_to fk)) (tb_foreign_keys tb))
    (map (fun r => row_rename r c c') (tb_rows tb)).
Definition rename_column (name : string) (c c' : string) : Exec unit :=
  on_table name (fun tb =>
    check "no such column" (has_column tb c) ;;
    check "duplicate column name" (negb (has_column tb c')) ;;
    save name (renamed c c' tb)).

(** [ALTER TABLE .. DROP COLUMN], refused for a column that an index or a key uses. *)
Definition without_column (c : string) (tb : SqlTable) : SqlTable :=
  mk_sql_table (List.filter (fun cd => negb (String.eqb (cd_name cd) c)) (tb_columns tb))
    (tb_primary_key tb) (tb_unique tb) (tb_foreign_keys tb) (map (fun r => row_drop r c) (tb_rows tb)).
Definition is_indexed (tb : SqlTable) (c : string) : bool :=
  existsb (existsb (String.eqb c)) (tb_indexes tb) || existsb (fun fk => String.eqb (fk_from fk) c) (tb_foreign_keys tb).
Definition drop_column (name : string) (c : string) : Exec unit :=
  on_table name (fun tb =>
    check "no such column" (has_column tb c) ;;
    check "cannot drop an indexed column" (negb (is_indexed tb c)) ;;
    save name (without_column c tb)).

(** Expressions on the right of a [SET], evaluated on the old row. *)
Inductive SqlExpr :=
| EValue (v : SqlValue)
| EColumn (c : string)
| ELower (c : string).

(** [LOWER(..)] of SQLite folds ASCII letters only. *)
Definition eval_expr (e : SqlExpr) (r : Row) : SqlValue :=
  match e with
  | EValue v => v
  | EColumn c => row_get r c
  | ELower c => match row_get r c with SqlText s => SqlText (to_ascii_lowercase s) | v => v end
  end.
Definition expr_columns (e : SqlExpr) : list string := match e with EValue _ => [] | EColumn c | ELower c => [c] end.

(** [WHERE c = v]; a NULL is equal to nothing. *)
Definition where_holds (cond : option (string * SqlValue)) (r : Row) : bool :=
  match cond with
  | None => true
  | Some (c, v) => bool_decide (row_get r c = v) && bool_decide (v <> SqlNull)
  end.

(** [UPDATE .. SET c = e WHERE ..]: NOT NULL and the indexes that use [c] are checked. *)
Definition updated (c : string) (e : SqlExpr) (cond : option (string * SqlValue)) (rows : list Row) : list Row :=
  map (fun r => if where_holds cond r then row_set r c (eval_expr e r) else r) rows.
Definition required_column (tb : SqlTable) (c : string) : bool :=
  existsb (fun cd => String.eqb (cd_name cd) c && cd_not_null cd) (tb_columns tb).
Definition update_rows (name : string) (c : string) (e : SqlExpr) (cond : option (string * SqlValue)) : Exec unit :=
  on_table name (fun tb =>
    let rows := updated c e cond (tb_rows tb) in
    check "no such column" (forallb (has_column tb) (c :: expr_columns e ++ match cond with Some (w, _) => [w] | None => [] end)) ;;
    check "NOT NULL constraint failed"
      (negb (required_column tb c) || forallb (fun r => bool_decide (row_get r c <> SqlNull)) rows) ;;
    check "UNIQUE constraint failed"
      (forallb (fun cols => negb (existsb (String.eqb c) cols) || bool_decide (distinct_keys rows cols)) (tb_indexes tb)) ;;
    save name (set_rows rows tb)).

(** [INSERT INTO .. (cols) VALUES ..] *)
Definition new_row (tb : SqlTable) (cols : list string) (vs : list SqlValue) : Row :=
  let given := combine cols vs in
  map (fun cd => (cd_name cd,
    if existsb (String.eqb (cd_name cd)) cols then row_get given (cd_name cd) else cd_default cd)) (tb_columns tb).

Definition fk_holds (s : Engine) (fk : ForeignKey) (r : Row) : bool :=
  bool_decide (row_get r (fk_from fk) = SqlNull)
  || match en_tables s !! fk_table fk with
     | Some tb => existsb (fun r' => bool_decide (row_get r' (fk_to fk) = row_get r (fk_from fk))) (tb_rows tb)
     | None => false
     end.

Definition insert_rows (name : string) (cols : list string) (values : list (list SqlValue)) : Exec unit :=
  on_table name (fun tb s =>
    let new := map (new_row tb cols) values in
    let rows := tb_rows tb ++ new in
    (check "no such column" (forallb (has_column tb) cols) ;;
     check "NOT NULL constraint failed"
       (forallb (fun cd => negb (cd_not_null cd) || forallb (fun r => bool_decide (row_get r (cd_name cd) <> SqlNull)) new) (tb_columns tb)) ;;
     check "UNIQUE constraint failed" (forallb (fun cols => bool_decide (distinct_keys rows cols)) (tb_indexes tb)) ;;
     check "FOREIGN KEY constraint failed" (forallb (fun fk => forallb (fk_holds s fk) new) (tb_foreign_keys tb)) ;;
     save name (set_rows rows tb)) s).

(** [CREATE UNIQUE INDEX IF NOT EXISTS] *)
Definition with_index (index : string) (cols : list string) (tb : SqlTable) : SqlTable :=
  mk_sql_table (tb_columns tb) (tb_primary_key tb) (tb_unique tb ++ [(index, cols)]) (tb_foreign_keys tb) (tb_rows tb).
Definition create_unique_index (index name : string) (cols : list string) : Exec unit :=
  on_table name (fun tb =>
    if existsb (fun ix => String.eqb ix.1 index) (tb_unique tb) then sret tt
    else
      check "no such column" (forallb (has_column tb) cols) ;;
      check "UNIQUE constraint failed" (bool_decide (distinct_keys (tb_rows tb) cols)) ;;
      save name (with_index index cols tb)).

(** [DELETE .. WHERE c1 = v1 AND c2 = v2 LIMIT n] (not in SQLite): the first [n]. *)
Fixpoint drop_matching (p : Row -> bool) (n : nat) (rows : list Row) : list Row :=
  match rows, n with
  | [], _ | _, O => rows
  | r :: rows, S n' => if p r then drop_matching p n' rows else r :: drop_matching p n rows
  end.
Definition delete_limit (name : string) (c1 : string) (v1 : SqlValue) (c2 : string) (v2 : SqlValue) (limit : nat) : Exec unit :=
  on_table name (fun tb =>
    save name (set_rows (drop_matching (fun r => where_holds (Some (c1, v1)) r && where_holds (Some (c2, v2)) r) limit (tb_rows tb)) tb)).

(** [SELECT cols FROM name] *)
Definition select_rows (name : string) (cols : list string) : Exec (list Row) :=
  on_table name (fun tb => check "no such column" (forallb (has_column tb) cols) ;; sret (tb_rows tb)).

(* ------------------------------------------------------------------ *)
(** ** Runs of statements that succeed *)

Lemma put_put n tb tb' s : put_table n tb (put_table n tb' s) = put_table n tb s.
Proof. unfold put_table. cbn. by rewrite insert_insert_eq. Qed.
Lemma lookup_put n tb s : en_tables (put_table n tb s) !! n = Some tb.
Proof. apply lookup_insert_eq. Qed.
Lemma lookup_put_ne n n' tb s : n <> n' -> en_tables (put_table n tb s) !! n' = en_tables s !! n'.
Proof. apply lookup_insert_ne. Qed.

Section Runs.
Context (n : string) (tb : SqlTable) (s : Engine) (Hn : en_tables s !! n = Some tb).

Lemma on_table_run {A} (k : SqlTable -> Exec A) : on_table n k s = k tb s.
Proof using Hn. unfold on_table. by rewrite Hn. Qed.
Lemma check_run {A} what b (k : Exec A) : b = true -> (check what b ;; k) s = k s.
Proof using Type. by intros ->. Qed.

Lemma add_column_run cd :
  has_column tb (cd_name cd) = false -> (cd_not_null cd = false \/ cd_default cd <> SqlNull) ->
  add_column n cd s = (Ok tt, put_table n (with_column cd tb) s).
Proof using Hn.
  intros Hc Hd. unfold add_column. rewrite on_table_run, check_run by by rewrite Hc.
  rewrite check_run; [done|]. destruct Hd as [->|Hd]; [done|]. by rewrite (bool_decide_eq_true_2 _ Hd), orb_true_r.
Qed.
Lemma rename_column_run c c' :
  has_column tb c = true -> has_column tb c' = false ->
  rename_column n c c' s = (Ok tt, put_table n (renamed c c' tb) s).
Proof using Hn.
  intros Hc Hc'. unfold rename_column. by rewrite on_table_run, check_run, check_run by by rewrite ?Hc, ?Hc'.
Qed.
Lemma drop_column_run c :
  has_column tb c = true -> is_indexed tb c = false ->
  drop_column n c s = (Ok tt, put_table n (without_column c tb) s).
Proof using Hn.
  intros Hc Hi. unfold drop_column. by rewrite on_table_run, check_run, check_run by by rewrite ?Hc, ?Hi.
Qed.
(** An update of a column no index uses. *)
Lemma update_rows_run c e cond :
  forallb (has_column tb) (c :: expr_columns e ++ match cond with Some (w, _) => [w] | None => [] end) = true ->
  (required_column tb c = false \/ Forall (fun r => row_get r c <> SqlNull) (updated c e cond (tb_rows tb))) ->
  forallb (fun cols => negb (existsb (String.eqb c) cols)) (tb_indexes tb) = true ->
  update_rows n c e cond s = (Ok tt, put_table n (set_rows (updated c e cond (tb_rows tb)) tb) s).
Proof using Hn.
  intros Hc Hr Hi. unfold update_rows. rewrite on_table_run. cbv zeta. rewrite !check_run; try done.
  - rewrite forallb_forall in Hi |- *. intros cols Hcols. by rewrite Hi.
  - destruct Hr as [->|Hr]; [done|]. apply orb_true_iff. right. apply forallb_forall. intros r Hin.
    rewrite Forall_forall in Hr. by apply bool_decide_eq_true, Hr, list_elem_of_In.
Qed.
Lemma insert_rows_run cols vs :
  let new := map (new_row tb cols) vs in
  forallb (has_column tb) cols = true ->
  Forall (fun cd => cd_not_null cd = false \/ Forall (fun r => row_get r (cd_name cd) <> SqlNull) new) (tb_columns tb) ->
  Forall (distinct_keys (tb_rows tb ++ new)) (tb_indexes tb) ->
  Forall (fun fk => Forall (fun r => fk_holds s fk r = true) new) (tb_foreign_keys tb) ->
  insert_rows n cols vs s = (Ok tt, put_table n (set_rows (tb_rows tb ++ new) tb) s).
Proof using Hn.
  intros new Hc Hr Hd Hf. unfold insert_rows. rewrite on_table_run. cbv zeta. fold new. rewrite !check_run; try done.
  - apply forallb_forall. intros fk Hin. apply forallb_forall. intros r Hr'.
    rewrite Forall_forall in Hf. specialize (Hf fk ltac:(by apply list_elem_of_In)).
    rewrite Forall_forall in Hf. by apply Hf, list_elem_of_In.
  - apply forallb_forall. intros cols' Hin. rewrite Forall_forall in Hd. by apply bool_decide_eq_true, Hd, list_elem_of_In.
  - apply forallb_forall. intros cd Hin. rewrite Forall_forall in Hr. apply orb_true_iff.
    destruct (Hr cd ltac:(by apply list_elem_of_In)) as [->|Hr']; [by left|right]. apply forallb_forall. intros r Hin'.
    rewrite Forall_forall in Hr'. by apply bool_decide_eq_true, Hr', list_elem_of_In.
Qed.
Lemma create_unique_index_run index cols :
  existsb (fun ix => String.eqb ix.1 index) (tb_unique tb) = false -> forallb (has_column tb) cols = true ->
  distinct_keys (tb_rows tb) cols ->
  create_unique_index index n cols s = (Ok tt, put_table n (with_index index cols tb) s).
Proof using Hn.
  intros Hi Hc Hd. unfold create_unique_index. rewrite on_table_run, Hi, check_run by done.
  rewrite check_run by by apply bool_decide_eq_true. done.
Qed.
Lemma select_rows_run cols : forallb (has_column tb) cols = true -> select_rows n cols s = (Ok (tb_rows tb), s).
Proof using Hn. intros Hc. unfold select_rows. by rewrite on_table_run, check_run. Qed.
End Runs.

Lemma create_table_run b n s cols fks pk :
  en_tables s !! n = None ->
  create_table b n cols fks pk s
  = (Ok tt, put_table n (mk_sql_table cols (map cd_name (List.filter cd_primary_key cols) ++ pk)
       (map (fun cd => (cd_name cd, [cd_name cd])) (List.filter cd_unique cols)) fks []) s).
Proof. intros Hn. unfold create_table. by rewrite Hn. Qed.
