(* ===== verification/Migrations.v ===== *)
(** * Schema migrations

    Models [server/src/domain/sql_migrations.rs] and [init_table] of
    [server/src/domain/sql_tables.rs]: the creation of the first schema, the
    migrations to the versions 2 to 10, and the loop that runs the missing ones,
    each in a transaction of its own, over the statements of [SqlEngine].
    Tables and columns have the names sea_orm derives from the [Iden] enums. *)

From S2P Require Import Prelude RustStd Extern Types SqlEngine.
From Stdlib Require Import Ascii String.
From stdpp Require Import strings list gmap.
#[local] Open Scope rust_scope.

(* ------------------------------------------------------------------ *)
(** ** Builders *)

Definition column (name : string) : ColumnDef := mk_column name CtInteger false false false false SqlNull.
Definition with_type (t : ColumnType) (c : ColumnDef) : ColumnDef :=
  mk_column (cd_name c) t (cd_not_null c) (cd_primary_key c) (cd_unique c) (cd_auto_increment c) (cd_default c).
Definition string_len (n : nat) : ColumnDef -> ColumnDef := with_type (CtString n).
Definition integer : ColumnDef -> ColumnDef := with_type CtInteger.
Definition small_integer : ColumnDef -> ColumnDef := with_type CtSmallInteger.
Definition boolean : ColumnDef -> ColumnDef := with_type CtBoolean.
Definition date_time : ColumnDef -> ColumnDef := with_type CtDateTime.
Definition binary : ColumnDef -> ColumnDef := with_type CtBinary.
Definition blob (len : option nat) : ColumnDef -> ColumnDef := with_type (CtBlob len).
Definition not_null (c : ColumnDef) : ColumnDef :=
  mk_column (cd_name c) (cd_type c) true (cd_primary_key c) (cd_unique c) (cd_auto_increment c) (cd_default c).
Definition primary_key (c : ColumnDef) : ColumnDef :=
  mk_column (cd_name c) (cd_type c) (cd_not_null c) true (cd_unique c) (cd_auto_increment c) (cd_default c).
Definition unique_key (c : ColumnDef) : ColumnDef :=
  mk_column (cd_name c) (cd_type c) (cd_not_null c) (cd_primary_key c) true (cd_auto_increment c) (cd_default c).
Definition auto_increment (c : ColumnDef) : ColumnDef :=
  mk_column (cd_name c) (cd_type c) (cd_not_null c) (cd_primary_key c) (cd_unique c) true (cd_default c).
Definition default_value (v : SqlValue) (c : ColumnDef) : ColumnDef :=
  mk_column (cd_name c) (cd_type c) (cd_not_null c) (cd_primary_key c) (cd_unique c) (cd_auto_increment c) v.
#[local] Notation "c |> f" := (f c) (at level 50, left associativity, only parsing).
#[local] Open Scope string_scope.

(** Reading a column of a result into a Rust value. *)
Definition get_text (r : Row) (c : string) : outcome DbErr string :=
  match row_get r c with SqlText s => Ok s | _ => Err (ExecError ("not a text: " +:+ c)) end.
Definition get_opt_text (r : Row) (c : string) : outcome DbErr (option string) :=
  match row_get r c with SqlNull => Ok None | SqlText s => Ok (Some s) | _ => Err (ExecError ("not a text: " +:+ c)) end.
Definition get_opt_blob (r : Row) (c : string) : outcome DbErr (option bytes) :=
  match row_get r c with SqlNull => Ok None | SqlBlob b => Ok (Some b) | _ => Err (ExecError ("not a blob: " +:+ c)) end.
Definition get_int (r : Row) (c : string) : outcome DbErr Z :=
  match row_get r c with SqlInt n => Ok n | _ => Err (ExecError ("not an integer: " +:+ c)) end.
Definition get_datetime (r : Row) (c : string) : outcome DbErr NaiveDateTime :=
  match row_get r c with SqlDateTime t => Ok t | _ => Err (ExecError ("not a date: " +:+ c)) end.

(** [.await.is_ok()] *)
Definition is_ok {A} (m : Exec A) : Exec bool :=
  let! r := stry m in sret match r with inl _ => false | inr _ => true end.

(* ------------------------------------------------------------------ *)
(** ** Version 1 *)

(** [struct SchemaVersion(pub i16)]: reading one that does not fit is an error. *)
Abbreviation SchemaVersion := Z.
Definition is_i16 (n : Z) : bool := (-32768 <=? n)%Z && (n <=? 32767)%Z.
Definition get_i16 (r : Row) (c : string) : outcome DbErr Z :=
  let? n := get_int r c in
  if is_i16 n then Ok n else Err (ExecError ("out of range: " +:+ c)).
(** Source: server/src/domain/sql_tables.rs#const LAST_SCHEMA_VERSION *)
Definition LAST_SCHEMA_VERSION : SchemaVersion := 10%Z.

(** Source: server/src/domain/sql_migrations.rs#async fn get_schema_version *)
Definition get_schema_version : Exec (option SchemaVersion) :=
  let! found := stry (select_rows "metadata" ["version"]) in
  sret match found with
       | inr (r :: _) => match get_i16 r "version" with Ok v => Some v | _ => None end
       | _ => None
       end.

(** Source: server/src/domain/sql_migrations.rs#L147-174 *)
Definition v1_create_users : Exec unit :=
  create_table true "users" [
    column "user_id" |> string_len 255 |> not_null |> primary_key;
    column "email" |> string_len 255 |> not_null;
    column "display_name" |> string_len 255 |> not_null;
    column "first_name" |> string_len 255;
    column "last_name" |> string_len 255;
    column "avatar" |> binary;
    column "creation_date" |> date_time |> not_null;
    column "password_hash" |> binary;
    column "totp_secret" |> string_len 64;
    column "mfa_type" |> string_len 64;
    column "uuid" |> string_len 36 |> not_null
  ] [] [].

(** Source: server/src/domain/sql_migrations.rs#L176-198 *)
Definition v1_create_groups : Exec unit :=
  create_table true "groups" [
    column "group_id" |> integer |> auto_increment |> not_null |> primary_key;
    column "display_name" |> string_len 255 |> unique_key |> not_null;
    column "creation_date" |> date_time |> not_null;
    column "uuid" |> string_len 36 |> not_null
  ] [] [].

Section MigrationsCrates.
Context `{C : Crates} `{B : Bincode}.

(** The columns that versions without a schema number did not have.
    Source: server/src/domain/sql_migrations.rs#L200-216 *)
Definition v1_group_creation_date : Exec unit :=
  let! s := sget in
  let! _ := is_ok (add_column "groups"
    (column "creation_date" |> date_time |> not_null |> default_value (SqlDateTime (en_now s)))) in
  sret tt.

(** Source: server/src/domain/sql_migrations.rs#L218-268 *)
Definition v1_group_uuid : Exec unit :=
  let! added := is_ok (add_column "groups" (column "uuid" |> string_len 36 |> not_null |> default_value (SqlText ""))) in
  if added then
    let! rows := select_rows "groups" ["group_id"; "display_name"; "creation_date"] in
    let! results := slift (try_map (fun r =>
      let? group_id := get_int r "group_id" in
      let? display_name := get_text r "display_name" in
      let? creation_date := get_datetime r "creation_date" in
      Ok (group_id, display_name, creation_date)) rows) in
    sfor (fun '(group_id, display_name, creation_date) =>
      update_rows "groups" "uuid" (EValue (SqlText (uuid_str (uuid_from_name_and_date display_name creation_date))))
        (Some ("group_id", SqlInt group_id))) results
  else sret tt.

(** Source: server/src/domain/sql_migrations.rs#L270-317 *)
Definition v1_user_uuid : Exec unit :=
  let! added := is_ok (add_column "users" (column "uuid" |> string_len 36 |> not_null |> default_value (SqlText ""))) in
  if added then
    let! rows := select_rows "users" ["user_id"; "creation_date"] in
    let! results := slift (try_map (fun r =>
      let? user_id := get_text r "user_id" in
      let? creation_date := get_datetime r "creation_date" in
      Ok (user_id, creation_date)) rows) in
    sfor (fun '(user_id, creation_date) =>
      update_rows "users" "uuid" (EValue (SqlText (uuid_str (uuid_from_name_and_date user_id creation_date))))
        (Some ("user_id", SqlText user_id))) results
  else sret tt.

(** Source: server/src/domain/sql_migrations.rs#L319-348 *)
Definition v1_create_memberships : Exec unit :=
  create_table true "memberships" [
    column "user_id" |> string_len 255 |> not_null;
    column "group_id" |> integer |> not_null
  ] [mk_foreign_key "MembershipUserForeignKey" "user_id" "users" "user_id";
     mk_foreign_key "MembershipGroupForeignKey" "group_id" "groups" "group_id"] [].

(** Source: server/src/domain/sql_migrations.rs#L350-371 *)
Definition v1_rename_readonly : Exec unit :=
  let! found := is_ok (select_rows "groups" ["display_name"]) in
  if found then
    update_rows "groups" "display_name" (EValue (SqlText "lldap_password_manager"))
      (Some ("display_name", SqlText "lldap_readonly"))
  else sret tt.

(** Source: server/src/domain/sql_migrations.rs#L373-395 *)
Definition v1_metadata : Exec unit :=
  create_table true "metadata" [column "version" |> small_integer] [] [] ;;
  insert_rows "metadata" ["version"] [[SqlInt 1]] ;;
  let! v := get_schema_version in
  let! v := slift (expect "called `Option::unwrap()` on a `None` value" v) in
  slift (assert_ "assertion `left == right` failed" (bool_decide (v = 1%Z))).

(** Not in a transaction: each statement is committed on its own.
    Source: server/src/domain/sql_migrations.rs#async fn upgrade_to_v1 *)
Definition upgrade_to_v1 : Exec unit :=
  v1_create_users ;;
  v1_create_groups ;;
  v1_group_creation_date ;;
  v1_group_uuid ;;
  v1_user_uuid ;;
  v1_create_memberships ;;
  v1_rename_readonly ;;
  v1_metadata.

(* ------------------------------------------------------------------ *)
(** ** Versions 2 to 4 *)

(** Source: server/src/domain/sql_migrations.rs#async fn replace_column *)
Definition replace_column (table_name column_name : string) (new_column : ColumnDef) (update_values : list (Exec unit)) :
    Exec unit :=
  rename_column table_name column_name "temp_name" ;;
  add_column table_name new_column ;;
  update_rows table_name column_name (EColumn "temp_name") None ;;
  sfor (fun statement => statement) update_values ;;
  drop_column table_name "temp_name".

(** [UPDATE users SET c = NULL WHERE c = ''] *)
Definition empty_to_null (c : string) : Exec unit :=
  update_rows "users" c (EValue SqlNull) (Some (c, SqlText "")).

(** Source: server/src/domain/sql_migrations.rs#async fn migrate_to_v2 *)
Definition migrate_to_v2 : Exec unit :=
  replace_column "users" "display_name" (column "display_name" |> string_len 255) [empty_to_null "display_name"].

(** Source: server/src/domain/sql_migrations.rs#async fn migrate_to_v3 *)
Definition migrate_to_v3 : Exec unit :=
  replace_column "users" "first_name" (column "first_name" |> string_len 255) [empty_to_null "first_name"] ;;
  replace_column "users" "last_name" (column "last_name" |> string_len 255) [empty_to_null "last_name"] ;;
  replace_column "users" "avatar" (column "avatar" |> blob None) [].

(** [WHERE email IN (SELECT email FROM users GROUP BY email HAVING COUNT(email) > 1)] *)
Definition shares_email (rows : list Row) (r : Row) : bool :=
  bool_decide (row_get r "email" <> SqlNull)
  && (1 <? length (List.filter (fun r' => bool_decide (row_get r' "email" = row_get r "email")) rows))%nat.

(** [row.try_get(..).unwrap()] *)
Definition unwrap_get {A} (m : outcome DbErr A) : outcome DbErr A :=
  match m with Err _ => Panic "called `Result::unwrap()` on an `Err` value" | m => m end.

(** The conflicting e-mails with their users, to be logged: the query is expected to
    succeed, and its rows to hold texts.
    Source: server/src/domain/sql_migrations.rs#L540-579 *)
Definition conflicting_emails : Exec (list (string * string)) :=
  let! found := stry (select_rows "users" ["email"; "user_id"]) in
  match found with
  | inl _ => spanic "Could not check duplicate users"
  | inr rows =>
      slift (try_map (fun r =>
        let? user_id := unwrap_get (get_text r "user_id") in
        let? email := unwrap_get (get_text r "email") in
        Ok (user_id, email)) (List.filter (shares_email rows) rows))
  end.

(** When the first index cannot be built the conflicting e-mails are logged and
    the error is returned.
    Source: server/src/domain/sql_migrations.rs#async fn migrate_to_v4 *)
Definition migrate_to_v4 : Exec unit :=
  let! created := stry (create_unique_index "unique-user-email" "users" ["email"]) in
  match created with
  | inl e => conflicting_emails ;; sthrow e
  | inr _ => sret tt
  end ;;
  create_unique_index "unique-user-uuid" "users" ["uuid"] ;;
  create_unique_index "unique-group-uuid" "groups" ["uuid"].

(* ------------------------------------------------------------------ *)
(** ** Version 5: the attribute tables *)

(** Source: server/src/domain/sql_migrations.rs#L611-689 *)
Definition v5_create_schema_tables : Exec unit :=
  create_table false "user_attribute_schema" [
    column "user_attribute_schema_name" |> string_len 64 |> not_null |> primary_key;
    column "user_attribute_schema_type" |> string_len 64 |> not_null;
    column "user_attribute_schema_is_list" |> boolean |> not_null;
    column "user_attribute_schema_is_user_visible" |> boolean |> not_null;
    column "user_attribute_schema_is_user_editable" |> boolean |> not_null;
    column "user_attribute_schema_is_hardcoded" |> boolean |> not_null
  ] [] [] ;;
  create_table false "group_attribute_schema" [
    column "group_attribute_schema_name" |> string_len 64 |> not_null |> primary_key;
    column "group_attribute_schema_type" |> string_len 64 |> not_null;
    column "group_attribute_schema_is_list" |> boolean |> not_null;
    column "group_attribute_schema_is_group_visible" |> boolean |> not_null;
    column "group_attribute_schema_is_group_editable" |> boolean |> not_null;
    column "group_attribute_schema_is_hardcoded" |> boolean |> not_null
  ] [] [].

(** Source: server/src/domain/sql_migrations.rs#L691-788 *)
Definition v5_create_attribute_tables : Exec unit :=
  create_table false "user_attributes" [
    column "user_attribute_user_id" |> string_len 255 |> not_null;
    column "user_attribute_name" |> string_len 64 |> not_null;
    column "user_attribute_value" |> blob None |> not_null
  ] [mk_foreign_key "UserAttributeUserIdForeignKey" "user_attribute_user_id" "users" "user_id";
     mk_foreign_key "UserAttributeNameForeignKey" "user_attribute_name" "user_attribute_schema" "user_attribute_schema_name"]
    ["user_attribute_user_id"; "user_attribute_name"] ;;
  create_table false "group_attributes" [
    column "group_attribute_group_id" |> integer |> not_null;
    column "group_attribute_name" |> string_len 64 |> not_null;
    column "group_attribute_value" |> blob None |> not_null
  ] [mk_foreign_key "GroupAttributeGroupIdForeignKey" "group_attribute_group_id" "groups" "group_id";
     mk_foreign_key "GroupAttributeNameForeignKey" "group_attribute_name" "group_attribute_schema" "group_attribute_schema_name"]
    ["group_attribute_group_id"; "group_attribute_name"].

(** [AttributeType] as a database value: its [Display] text. *)
Definition attribute_type_value (t : AttributeType) : SqlValue :=
  SqlText match t with AString => "String" | AInteger => "Integer" | AJpegPhoto => "JpegPhoto" | ADateTime => "DateTime" end.

(** Source: server/src/domain/sql_migrations.rs#L790-829 *)
Definition v5_insert_schema : Exec unit :=
  insert_rows "user_attribute_schema"
    ["user_attribute_schema_name"; "user_attribute_schema_type"; "user_attribute_schema_is_list";
     "user_attribute_schema_is_user_visible"; "user_attribute_schema_is_user_editable";
     "user_attribute_schema_is_hardcoded"]
    [[SqlText "first_name"; attribute_type_value AString; SqlBool false; SqlBool true; SqlBool true; SqlBool true];
     [SqlText "last_name"; attribute_type_value AString; SqlBool false; SqlBool true; SqlBool true; SqlBool true];
     [SqlText "avatar"; attribute_type_value AJpegPhoto; SqlBool false; SqlBool true; SqlBool true; SqlBool true]].

(** Source: server/src/domain/sql_migrations.rs#struct FullUserDetails *)
Record FullUserDetails := mk_full_user_details {
  fu_user_id : string;
  fu_first_name : option string;
  fu_last_name : option string;
  fu_avatar : option JpegPhoto;
}.

Definition full_user_details (r : Row) : outcome DbErr FullUserDetails :=
  let? user_id := get_text r "user_id" in
  let? first_name := get_opt_text r "first_name" in
  let? last_name := get_opt_text r "last_name" in
  let? avatar := get_opt_blob r "avatar" in
  Ok (mk_full_user_details user_id first_name last_name (mk_jpeg <$> avatar)).

(** The rows pushed to [user_statement] for one user.
    Source: server/src/domain/sql_migrations.rs#L859-882 *)
Definition user_attribute_rows (user : FullUserDetails) : list (list SqlValue) :=
  let row name (v : Serialized) := [SqlText (fu_user_id user); SqlText name; SqlBlob (serialized_bytes v)] in
  match fu_first_name user with Some name => [row "first_name" (serialized_from TyString name)] | None => [] end
  ++ match fu_last_name user with Some name => [row "last_name" (serialized_from TyString name)] | None => [] end
  ++ match fu_avatar user with Some avatar => [row "avatar" (serialized_from TyJpegPhoto avatar)] | None => [] end.

(** [any_user] says whether a row was pushed.
    Source: server/src/domain/sql_migrations.rs#L831-888 *)
Definition v5_move_attributes : Exec unit :=
  let! rows := select_rows "users" ["user_id"; "first_name"; "last_name"; "avatar"] in
  let! users := slift (try_map full_user_details rows) in
  let values := flat_map user_attribute_rows users in
  match values with
  | [] => sret tt
  | _ => insert_rows "user_attributes" ["user_attribute_user_id"; "user_attribute_name"; "user_attribute_value"] values
  end.

(** Source: server/src/domain/sql_migrations.rs#async fn migrate_to_v5 *)
Definition migrate_to_v5 : Exec unit :=
  v5_create_schema_tables ;;
  v5_create_attribute_tables ;;
  v5_insert_schema ;;
  v5_move_attributes ;;
  sfor (drop_column "users") ["first_name"; "last_name"; "avatar"].

(* ------------------------------------------------------------------ *)
(** ** Versions 6 to 10 *)

(** Source: server/src/domain/sql_migrations.rs#async fn migrate_to_v6 *)
Definition migrate_to_v6 : Exec unit :=
  add_column "groups" (column "lowercase_display_name" |> string_len 255 |> not_null |> default_value (SqlText "UNSET")) ;;
  add_column "users" (column "lowercase_email" |> string_len 255 |> not_null |> default_value (SqlText "UNSET")) ;;
  update_rows "groups" "lowercase_display_name" (ELower "display_name") None ;;
  update_rows "users" "lowercase_email" (ELower "email") None.

(** Source: server/src/domain/sql_migrations.rs#async fn migrate_to_v7 *)
Definition migrate_to_v7 : Exec unit :=
  add_column "metadata" (column "private_key_hash" |> blob (Some 32)) ;;
  add_column "metadata" (column "private_key_location" |> string_len 255).

(** The memberships stored more than once, with their number
    ([GROUP BY user_id, group_id HAVING COUNT(user_id) > 1]).
    Source: server/src/domain/sql_migrations.rs#struct MembershipInfo *)
Definition repeated_memberships (rows : list Row) : list (SqlValue * SqlValue * nat) :=
  let key r := (row_get r "user_id", row_get r "group_id") in
  List.filter (fun x => (1 <? x.2)%nat)
    (map (fun k => (k, length (List.filter (fun r => bool_decide (key r = k)) rows))) (remove_dups (map key rows))).

(** Source: server/src/domain/sql_migrations.rs#async fn migrate_to_v8 *)
Definition migrate_to_v8 : Exec unit :=
  let! rows := select_rows "memberships" ["user_id"; "group_id"] in
  let delete_queries := repeated_memberships rows in
  match delete_queries with
  | [] => sret tt
  | _ =>
      let! s := sget in
      match en_backend s with
      | BackendSqlite =>
          sthrow (MigrationError "The Sqlite driver does not support LIMIT in DELETE. Run these queries manually:")
      | BackendMySql | BackendPostgres =>
          sfor (fun '(user_id, group_id, cnt) =>
            delete_limit "memberships" "user_id" user_id "group_id" group_id (cnt - 1)) delete_queries
      end
  end ;;
  create_unique_index "unique-memberships" "memberships" ["user_id"; "group_id"].

(** Source: server/src/domain/sql_migrations.rs#async fn migrate_to_v9 *)
Definition migrate_to_v9 : Exec unit :=
  create_table true "user_object_classes" [
    column "lower_object_class" |> string_len 255 |> not_null |> primary_key;
    column "object_class" |> string_len 255 |> not_null
  ] [] [] ;;
  create_table true "group_object_classes" [
    column "lower_object_class" |> string_len 255 |> not_null |> primary_key;
    column "object_class" |> string_len 255 |> not_null
  ] [] [].

(** The errors are logged and returned.
    Source: server/src/domain/sql_migrations.rs#async fn migrate_to_v10 *)
Definition migrate_to_v10 : Exec unit :=
  create_unique_index "unique-group-id" "groups" ["lowercase_display_name"] ;;
  create_unique_index "unique-user-lower-email" "users" ["lowercase_email"].

(* ------------------------------------------------------------------ *)
(** ** The loop *)

(** Source: server/src/domain/sql_migrations.rs#let migrations = [ *)
Definition migrations : list (Exec unit) :=
  [migrate_to_v2; migrate_to_v3; migrate_to_v4; migrate_to_v5; migrate_to_v6; migrate_to_v7; migrate_to_v8;
   migrate_to_v9; migrate_to_v10].

(** [2..=last] *)
Definition versions_to (last : SchemaVersion) : list SchemaVersion :=
  map Z.of_nat (seq 2 (Z.to_nat last - 1)).

(** One turn: the migration and the new version number, committed together.
    Source: server/src/domain/sql_migrations.rs#L1167-1181 *)
Definition migrate_step (version last_version migration : SchemaVersion) : Exec unit :=
  if (version <? migration)%Z && (migration <=? last_version)%Z then
    transaction (
      let! run := slift (expect "index out of bounds" (migrations !! Z.to_nat (migration - 2))) in
      run ;;
      update_rows "metadata" "version" (EValue (SqlInt migration)) None)
  else sret tt.

(** Source: server/src/domain/sql_migrations.rs#async fn migrate_from_version *)
Definition migrate_from_version (version last_version : SchemaVersion) : Exec unit :=
  match (version ?= last_version)%Z with
  | Lt =>
      slift (assert_ "assertion `left == right` failed"
        (bool_decide (Z.of_nat (length migrations) = LAST_SCHEMA_VERSION - 1)%Z)) ;;
      sfor (migrate_step version last_version) (versions_to last_version)
  | Eq => sret tt
  | Gt => sthrow (MigrationError "DB version downgrading is not supported")
  end.

(** Source: server/src/domain/sql_tables.rs#async fn init_table *)
Definition init_table : Exec unit :=
  let! version := get_schema_version in
  let! version := match version with
                  | Some version => sret version
                  | None => upgrade_to_v1 ;; sret 1%Z
                  end in
  migrate_from_version version LAST_SCHEMA_VERSION.
End MigrationsCrates.
