(* ===== verification/MigrationLoop.v ===== *)
(** * The migration loop

    What [migrate_from_version] and [init_table] of [Migrations] do, whatever the
    data: one committed step per missing version, in order, stopping at the first
    failure with the version of the last step committed. *)

From S2P Require Import Prelude RustStd Extern Types Concrete SqlEngine Migrations.
From Stdlib Require Import Ascii String.
From stdpp Require Import strings list gmap.
#[local] Open Scope rust_scope.
#[local] Open Scope string_scope.

(* ------------------------------------------------------------------ *)
(** ** Statements do not panic, and leave the version alone *)

Section Statements.
Lemma on_table_calm {A} n (k : SqlTable -> Exec A) : (forall tb, never_panics (k tb)) -> never_panics (on_table n k).
Proof. intros Hk s. unfold on_table. destruct (en_tables s !! n); [apply Hk|apply no_panic_err]. Qed.
Lemma check_calm what b : never_panics (check what b).
Proof. apply never_panics_lift. destruct b; auto with rust. Qed.
Lemma save_calm n tb : never_panics (save n tb).
Proof. apply never_panics_modify. Qed.
#[local] Hint Resolve check_calm save_calm : calm.

Lemma create_table_calm b n cols fks pk : never_panics (create_table b n cols fks pk).
Proof. intros s. unfold create_table. destruct (en_tables s !! n), b; intros p; done. Qed.
Lemma add_column_calm n cd : never_panics (add_column n cd).
Proof. apply on_table_calm. calm. Qed.
Lemma rename_column_calm n c c' : never_panics (rename_column n c c').
Proof. apply on_table_calm. calm. Qed.
Lemma drop_column_calm n c : never_panics (drop_column n c).
Proof. apply on_table_calm. calm. Qed.
Lemma update_rows_calm n c e w : never_panics (update_rows n c e w).
Proof. apply on_table_calm. calm. Qed.
Lemma insert_rows_calm n cols vs : never_panics (insert_rows n cols vs).
Proof.
  apply on_table_calm. intros tb s. cbv beta zeta.
  match goal with |- no_panic (fst (?m s)) => assert (Hm : never_panics m) by calm; apply Hm end.
Qed.
Lemma create_unique_index_calm i n cols : never_panics (create_unique_index i n cols).
Proof. apply on_table_calm. calm. Qed.
Lemma delete_limit_calm n c1 v1 c2 v2 k : never_panics (delete_limit n c1 v1 c2 v2 k).
Proof. apply on_table_calm. calm. Qed.
Lemma select_rows_calm n cols : never_panics (select_rows n cols).
Proof. apply on_table_calm. calm. Qed.
End Statements.
#[export] Hint Resolve create_table_calm add_column_calm rename_column_calm drop_column_calm update_rows_calm
  insert_rows_calm create_unique_index_calm delete_limit_calm select_rows_calm : calm.

(** The version the metadata table holds. *)
Definition version_of (s : Engine) : option SchemaVersion :=
  match en_tables s !! "metadata" with
  | Some tb =>
      if has_column tb "version" then
        match tb_rows tb with
        | r :: _ => match row_get r "version" with SqlInt v => if is_i16 v then Some v else None | _ => None end
        | [] => None
        end
      else None
  | None => None
  end.

Lemma get_schema_version_run s : get_schema_version s = (Ok (version_of s), s).
Proof.
  unfold get_schema_version, version_of, select_rows, on_table, check, stry, slift, sret, sbind, get_i16, get_int.
  destruct (en_tables s !! "metadata") as [tb|]; [|done]. cbn [forallb]. rewrite andb_true_r.
  destruct (has_column tb "version"); [|done]. destruct (tb_rows tb) as [|r rs]; [done|]. destruct (row_get r "version") as [| |v| | |]; try done.
  cbn. by destruct (is_i16 v).
Qed.

Section KeepsVersion.
Context (v : SchemaVersion).
Definition at_version (s : Engine) : Prop := version_of s = Some v.

Lemma put_other_version n tb s : n <> "metadata" -> version_of (put_table n tb s) = version_of s.
Proof. intros Hn. unfold version_of, put_table. cbn. by rewrite lookup_insert_ne. Qed.

Lemma on_table_keeps {A} n (k : SqlTable -> Exec A) :
  (forall tb, preserves at_version (k tb)) -> preserves at_version (on_table n k).
Proof. intros Hk s Hs. unfold on_table. destruct (en_tables s !! n); [by apply Hk|done]. Qed.
Lemma check_keeps what b : preserves at_version (check what b).
Proof. apply preserves_lift. Qed.
Lemma save_keeps n tb : n <> "metadata" -> preserves at_version (save n tb).
Proof. intros Hn s Hs. unfold save, smodify, at_version. cbn. by rewrite put_other_version. Qed.
#[local] Hint Resolve check_keeps save_keeps : stm.

Lemma create_table_keeps b n cols fks pk : n <> "metadata" -> preserves at_version (create_table b n cols fks pk).
Proof.
  intros Hn s Hs. unfold create_table. destruct (en_tables s !! n), b; cbn; unfold at_version; by rewrite ?put_other_version.
Qed.
Lemma add_column_keeps n cd : n <> "metadata" -> preserves at_version (add_column n cd).
Proof. intros Hn. apply on_table_keeps. stm. Qed.
Lemma rename_column_keeps n c c' : n <> "metadata" -> preserves at_version (rename_column n c c').
Proof. intros Hn. apply on_table_keeps. stm. Qed.
Lemma drop_column_keeps n c : n <> "metadata" -> preserves at_version (drop_column n c).
Proof. intros Hn. apply on_table_keeps. stm. Qed.
Lemma update_rows_keeps n c e w : n <> "metadata" -> preserves at_version (update_rows n c e w).
Proof. intros Hn. apply on_table_keeps. stm. Qed.
Lemma insert_rows_keeps n cols vs : n <> "metadata" -> preserves at_version (insert_rows n cols vs).
Proof.
  intros Hn. apply on_table_keeps. intros tb s Hs. cbv beta zeta.
  match goal with |- at_version (snd (?m s)) => assert (Hm : preserves at_version m) by stm; by apply Hm end.
Qed.
Lemma create_unique_index_keeps i n cols : n <> "metadata" -> preserves at_version (create_unique_index i n cols).
Proof. intros Hn. apply on_table_keeps. stm. Qed.
Lemma delete_limit_keeps n c1 v1 c2 v2 k : n <> "metadata" -> preserves at_version (delete_limit n c1 v1 c2 v2 k).
Proof. intros Hn. apply on_table_keeps. stm. Qed.
Lemma select_rows_keeps n cols : preserves at_version (select_rows n cols).
Proof. apply on_table_keeps. stm. Qed.

Lemma row_get_app r c v' c' : c' <> c -> row_get (r ++ [(c, v')])%list c' = row_get r c'.
Proof.
  intros Hc. induction r as [|[k x] r IH]; cbn; [|by rewrite IH].
  by destruct (String.eqb_spec c c').
Qed.

(** A column more in the metadata table. *)
Lemma add_metadata_column_keeps cd : cd_name cd <> "version" -> preserves at_version (add_column "metadata" cd).
Proof.
  intros Hc. unfold add_column. intros s Hs. unfold on_table. destruct (en_tables s !! "metadata") as [tb|] eqn:Ht; [|done].
  unfold check, sbind, slift.
  do 2 match goal with |- context [if ?b then Ok tt else _] => destruct b; [|exact Hs] end. unfold at_version, version_of in *. rewrite Ht in Hs. cbn.
  rewrite lookup_insert_eq. cbn. unfold has_column in *. rewrite existsb_app.
  destruct (existsb _ (tb_columns tb)); [|done]. cbn. destruct (tb_rows tb) as [|r rs]; [done|]. cbn. by rewrite row_get_app.
Qed.
End KeepsVersion.
#[export] Hint Extern 1 (preserves (at_version _) (add_column "metadata" _)) => apply add_metadata_column_keeps; discriminate : stm.
#[export] Hint Resolve select_rows_keeps : stm.
#[export] Hint Extern 2 (preserves (at_version _) _) =>
  first [ apply create_table_keeps | apply add_column_keeps | apply rename_column_keeps | apply drop_column_keeps
        | apply update_rows_keeps | apply insert_rows_keeps | apply create_unique_index_keeps
        | apply delete_limit_keeps ]; discriminate : stm.

(** The tables of a new database at the last version: what [Db] models. *)
Definition final_tables : gmap string SqlTable :=
  let text n name := string_len n (column name) in
  let required n name := not_null (text n name) in
  let key n name := primary_key (required n name) in
  let flag name := not_null (boolean (column name)) in
  let schema_table prefix holder rows := mk_sql_table
    [key 64 (prefix ++ "name"); required 64 (prefix ++ "type"); flag (prefix ++ "is_list");
     flag (prefix ++ "is_" ++ holder ++ "_visible"); flag (prefix ++ "is_" ++ holder ++ "_editable"); flag (prefix ++ "is_hardcoded")]
    [prefix ++ "name"] [] [] rows in
  let schema_row name type := combine
    (map (append "user_attribute_schema_") ["name"; "type"; "is_list"; "is_user_visible"; "is_user_editable"; "is_hardcoded"])
    [SqlText name; SqlText type; SqlBool false; SqlBool true; SqlBool true; SqlBool true] in
  let classes := mk_sql_table [key 255 "lower_object_class"; required 255 "object_class"] ["lower_object_class"] [] [] [] in
  list_to_map [
    ("users", mk_sql_table
      [key 255 "user_id"; required 255 "email"; not_null (date_time (column "creation_date")); binary (column "password_hash");
       text 64 "totp_secret"; text 64 "mfa_type"; required 36 "uuid"; text 255 "display_name";
       default_value (SqlText "UNSET") (required 255 "lowercase_email")]
      ["user_id"]
      [("unique-user-email", ["email"]); ("unique-user-uuid", ["uuid"]); ("unique-user-lower-email", ["lowercase_email"])] [] []);
    ("groups", mk_sql_table
      [primary_key (not_null (auto_increment (integer (column "group_id")))); unique_key (required 255 "display_name");
       not_null (date_time (column "creation_date")); required 36 "uuid";
       default_value (SqlText "UNSET") (required 255 "lowercase_display_name")]
      ["group_id"]
      [("display_name", ["display_name"]); ("unique-group-uuid", ["uuid"]); ("unique-group-id", ["lowercase_display_name"])] [] []);
    ("memberships", mk_sql_table [required 255 "user_id"; not_null (integer (column "group_id"))] []
      [("unique-memberships", ["user_id"; "group_id"])]
      [mk_foreign_key "MembershipUserForeignKey" "user_id" "users" "user_id";
       mk_foreign_key "MembershipGroupForeignKey" "group_id" "groups" "group_id"] []);
    ("user_attribute_schema", schema_table "user_attribute_schema_" "user"
      [schema_row "first_name" "String"; schema_row "last_name" "String"; schema_row "avatar" "JpegPhoto"]);
    ("group_attribute_schema", schema_table "group_attribute_schema_" "group" []);
    ("user_attributes", mk_sql_table
      [required 255 "user_attribute_user_id"; required 64 "user_attribute_name"; not_null (blob None (column "user_attribute_value"))]
      ["user_attribute_user_id"; "user_attribute_name"] []
      [mk_foreign_key "UserAttributeUserIdForeignKey" "user_attribute_user_id" "users" "user_id";
       mk_foreign_key "UserAttributeNameForeignKey" "user_attribute_name" "user_attribute_schema" "user_attribute_schema_name"] []);
    ("group_attributes", mk_sql_table
      [not_null (integer (column "group_attribute_group_id")); required 64 "group_attribute_name"; not_null (blob None (column "group_attribute_value"))]
      ["group_attribute_group_id"; "group_attribute_name"] []
      [mk_foreign_key "GroupAttributeGroupIdForeignKey" "group_attribute_group_id" "groups" "group_id";
       mk_foreign_key "GroupAttributeNameForeignKey" "group_attribute_name" "group_attribute_schema" "group_attribute_schema_name"] []);
    ("user_object_classes", classes); ("group_object_classes", classes);
    ("metadata", mk_sql_table
      [small_integer (column "version"); blob (Some 32) (column "private_key_hash"); text 255 "private_key_location"] [] [] []
      [[("version", SqlInt 10); ("private_key_hash", SqlNull); ("private_key_location", SqlNull)]])].

Section Loop.
Context `{C : Crates} `{B : Bincode}.

Lemma get_calm r c : no_panic (get_text r c) /\ no_panic (get_opt_text r c) /\ no_panic (get_opt_blob r c).
Proof. unfold get_text, get_opt_text, get_opt_blob. split_and!; case_match; auto with rust. Qed.
Lemma full_user_details_calm r : no_panic (full_user_details r).
Proof.
  unfold full_user_details. destruct (get_calm r "user_id") as [H1 _], (get_calm r "first_name") as (_ & H2 & _),
    (get_calm r "last_name") as (_ & H3 & _), (get_calm r "avatar") as (_ & _ & H4).
  repeat (apply obind_no_panic; [done|intros ? _]). auto with rust.
Qed.

(** The only migration that can panic is the one to version 4: the index on the e-mails
    cannot be built, and the users in conflict cannot be read. *)
Definition users_readable (s : Engine) : Prop :=
  exists tb, en_tables s !! "users" = Some tb /\ has_column tb "email" = true /\ has_column tb "user_id" = true
    /\ Forall (fun r => no_panic (unwrap_get (get_text r "user_id")) /\
         (row_get r "email" <> SqlNull -> no_panic (unwrap_get (get_text r "email")))) (tb_rows tb).

Lemma conflicting_emails_calm s : users_readable s -> no_panic (fst (conflicting_emails s)).
Proof.
  intros (tb & Ht & He & Hu & Hr). unfold conflicting_emails.
  rewrite (sbind_run _ _ s (inr (tb_rows tb)) s).
  - unfold slift. cbn [fst]. apply try_map_no_panic. intros r [Hin%list_elem_of_In Hs]%list_elem_of_In%filter_In.
    rewrite Forall_forall in Hr. destruct (Hr r Hin) as [H1 H2].
    apply obind_no_panic; [done|intros ? _]. apply obind_no_panic; [|auto with rust]. apply H2.
    unfold shares_email in Hs. by apply andb_true_iff in Hs as [Hs%bool_decide_eq_true _].
  - unfold stry. by rewrite (select_rows_run _ _ _ Ht) by (cbn; by rewrite He, Hu).
Qed.
Lemma create_unique_index_err i n cols e s s' : create_unique_index i n cols s = (Err e, s') -> s' = s.
Proof.
  unfold create_unique_index, on_table, check, save, smodify, sbind, slift. destruct (en_tables s !! n) as [tb|]; [|congruence].
  destruct (existsb _ _); [done|]. do 2 (match goal with |- context [if ?b then Ok tt else _] => destruct b end; [|congruence]). done.
Qed.
Lemma migrate_to_v4_panics s p : fst (migrate_to_v4 s) = Panic p -> ~ users_readable s.
Proof.
  intros Hp Hr. unfold migrate_to_v4 in Hp.
  pose proof (create_unique_index_calm "unique-user-email" "users" ["email"] s) as Hc.
  assert (Hrest : never_panics (create_unique_index "unique-user-uuid" "users" ["uuid"] ;;
    create_unique_index "unique-group-uuid" "groups" ["uuid"])) by calm.
  unfold sbind at 1 2, stry in Hp. destruct (create_unique_index _ _ _ s) as [[[]|e|q] s'] eqn:Hi; cbn in Hp.
  - by destruct (Hrest s' p).
  - apply create_unique_index_err in Hi as ->. pose proof (conflicting_emails_calm s Hr) as He. unfold sbind in Hp.
    destruct (conflicting_emails s) as [[l|e'|q] s2]; cbn in Hp; [done|done|by destruct (He q)].
  - by destruct (Hc q).
Qed.

Lemma migrations_calm v run : v <> 3%Z -> migrations !! Z.to_nat (v + 1 - 2) = Some run -> never_panics run.
Proof.
  assert (H : Forall never_panics [migrate_to_v2; migrate_to_v3; migrate_to_v5; migrate_to_v6; migrate_to_v7; migrate_to_v8;
    migrate_to_v9; migrate_to_v10]).
  { pose proof full_user_details_calm. repeat constructor;
      unfold migrate_to_v2, migrate_to_v3, migrate_to_v5, migrate_to_v6, migrate_to_v7, migrate_to_v8,
        migrate_to_v9, migrate_to_v10, replace_column, empty_to_null, v5_create_schema_tables, v5_create_attribute_tables,
        v5_insert_schema, v5_move_attributes; calm; auto.
    all: set_solver. }
  intros Hv Hr. apply (proj1 (Forall_forall _ _) H).
  assert (Hn : Z.to_nat (v + 1 - 2) <> 2%nat) by lia. revert Hr. generalize (Z.to_nat (v + 1 - 2)) Hn. intros n Hn' Hr.
  do 9 (destruct n as [|n]; [by injection Hr as <-; set_solver|]). done.
Qed.

Lemma migrations_keep v run : run ∈ migrations -> preserves (at_version v) run.
Proof.
  assert (H : Forall (preserves (at_version v)) migrations).
  { repeat constructor;
      unfold migrate_to_v2, migrate_to_v3, migrate_to_v4, migrate_to_v5, migrate_to_v6, migrate_to_v7, migrate_to_v8,
        migrate_to_v9, migrate_to_v10, replace_column, empty_to_null, conflicting_emails, v5_create_schema_tables,
        v5_create_attribute_tables, v5_insert_schema, v5_move_attributes; cbn [sfor]; stm. }
  intros Hr. by apply (proj1 (Forall_forall _ _) H).
Qed.

(* ------------------------------------------------------------------ *)
(** ** One step *)

(** The migration to a version and the new version number. *)
Definition migrate_to (migration : SchemaVersion) : Exec unit :=
  let! run := slift (expect "index out of bounds" (migrations !! Z.to_nat (migration - 2))) in
  run ;;
  update_rows "metadata" "version" (EValue (SqlInt migration)) None.

(** The abstract specification: a database moves from one version to the next
    when the migration to it succeeds. *)
Inductive upgrade : Engine -> Engine -> Prop :=
| upgrade_one v s s' :
    version_of s = Some v -> (v < LAST_SCHEMA_VERSION)%Z -> migrate_to (v + 1)%Z s = (Ok tt, s') -> upgrade s s'.

Lemma migrations_at v : (v < 10)%Z -> exists run, migrations !! Z.to_nat (v + 1 - 2) = Some run /\ run ∈ migrations.
Proof.
  intros Hv. destruct (lookup_lt_is_Some_2 migrations (Z.to_nat (v + 1 - 2))) as [run Hrun]; [cbn; lia|].
  exists run. split; [done|]. by eapply list_elem_of_lookup_2.
Qed.

Lemma row_get_set r c v : row_get (row_set r c v) c = v.
Proof.
  induction r as [|[c' v'] r IH]; cbn; [by rewrite String.eqb_refl|].
  destruct (String.eqb_spec c' c) as [->|Hne]; cbn; [by rewrite String.eqb_refl|]. by rewrite (proj2 (String.eqb_neq _ _) Hne).
Qed.

Lemma version_of_bounds s v : version_of s = Some v -> is_i16 v = true.
Proof.
  unfold version_of. destruct (en_tables s !! "metadata") as [tb|]; [|done]. destruct (has_column tb "version"); [|done].
  destruct (tb_rows tb) as [|r rs]; [done|]. destruct (row_get r "version") as [| |n| | |]; try done.
  destruct (is_i16 n) eqn:Hn; [|done]. by intros [= <-].
Qed.
Lemma set_version_run w v s s' :
  is_i16 v = true -> version_of s = Some w -> update_rows "metadata" "version" (EValue (SqlInt v)) None s = (Ok tt, s') -> version_of s' = Some v.
Proof.
  intros Hv. unfold version_of, update_rows, on_table, check, sbind, slift, save, smodify.
  destruct (en_tables s !! "metadata") as [tb|]; [|done].
  destruct (has_column tb "version") eqn:Hc; [|done]. destruct (tb_rows tb) as [|r rs] eqn:Hr; [done|]. intros _.
  repeat match goal with |- context [if ?b then Ok tt else _] => destruct b; [|done] end. intros [= <-].
  cbn. rewrite lookup_insert_eq. unfold has_column in *. cbn. by rewrite Hc, row_get_set, Hv.
Qed.

Lemma migrate_to_ok v s s' :
  version_of s = Some v -> (v < 10)%Z -> migrate_to (v + 1)%Z s = (Ok tt, s') -> version_of s' = Some (v + 1)%Z.
Proof.
  intros Hs Hv. destruct (migrations_at v Hv) as (run & Hrun & Hin). unfold migrate_to. rewrite Hrun. cbn [expect].
  intros (x & s1 & [= <- <-] & H)%sbind_ok. apply sbind_ok in H as (y & s2 & Hr & H).
  assert (Hb : is_i16 (v + 1) = true) by (apply version_of_bounds in Hs; unfold is_i16 in *; lia).
  apply (set_version_run v _ s2 _ Hb); [|done]. pose proof (migrations_keep v run Hin s Hs) as Hk. by rewrite Hr in Hk.
Qed.

Lemma migrate_to_panics v s p :
  (v < 10)%Z -> fst (migrate_to (v + 1)%Z s) = Panic p -> v = 3%Z /\ ~ users_readable s.
Proof.
  intros Hv. destruct (migrations_at v Hv) as (run & Hrun & _). unfold migrate_to. rewrite Hrun.
  rewrite (sbind_run _ _ s run s) by done. intros Hp. destruct (decide (v = 3%Z)) as [->|Hne].
  - split; [done|]. injection Hrun as <-. unfold sbind in Hp. apply (migrate_to_v4_panics s p).
    destruct (migrate_to_v4 s) as [[[]|e|q] s']; [|done|done].
    by destruct (update_rows_calm "metadata" "version" (EValue (SqlInt 4)) None s' p).
  - exfalso. assert (Hc : never_panics (run ;; update_rows "metadata" "version" (EValue (SqlInt (v + 1))) None))
      by (apply never_panics_bind; [by eapply migrations_calm|auto with calm]).
    by destruct (Hc s p).
Qed.

Lemma migrate_step_skip version last k s :
  (k <= version)%Z -> migrate_step version last k s = (Ok tt, s).
Proof. intros Hk. unfold migrate_step. by rewrite (proj2 (Z.ltb_ge _ _)) by lia. Qed.
Lemma migrate_step_run version last k :
  (version < k)%Z -> (k <= last)%Z -> migrate_step version last k = transaction (migrate_to k).
Proof.
  intros Hk Hl. unfold migrate_step. by rewrite (proj2 (Z.ltb_lt _ _)), (proj2 (Z.leb_le _ _)) by lia.
Qed.

(** What the loop promises, from a version on. *)
Definition loop_spec (v : SchemaVersion) (s : Engine) (res : outcome DbErr unit * Engine) : Prop :=
  let '(r, s') := res in
  rtc upgrade s s'
  /\ exists w, version_of s' = Some w /\ (v <= w <= LAST_SCHEMA_VERSION)%Z
       /\ match r with
          | Ok _ => w = LAST_SCHEMA_VERSION
          | Err e => (w < LAST_SCHEMA_VERSION)%Z /\ fst (migrate_to (w + 1)%Z s') = Err e
          | Panic p => (w < LAST_SCHEMA_VERSION)%Z /\ fst (migrate_to (w + 1)%Z s') = Panic p
          end.

Ltac ver := unfold LAST_SCHEMA_VERSION in *; lia.

Lemma loop_runs version n v s :
  version_of s = Some v -> (1 <= v)%Z -> (version <= v)%Z -> (v + Z.of_nat n = LAST_SCHEMA_VERSION)%Z ->
  loop_spec v s (sfor (migrate_step version LAST_SCHEMA_VERSION) (map Z.of_nat (seq (Z.to_nat (v + 1)) n)) s).
Proof.
  revert v s. induction n as [|n IH]; intros v s Hs H1 Hv Hn; cbn [seq map sfor].
  - cbn. split; [apply rtc_refl|]. exists v. split_and!; [done|ver..].
  - rewrite Z2Nat.id by ver. unfold sbind. rewrite migrate_step_run by ver. unfold transaction.
    destruct (migrate_to (v + 1)%Z s) as [[[]|e|p] s'] eqn:Hm.
    + assert (Hs' := migrate_to_ok v s s' Hs ltac:(ver) Hm). replace (S (Z.to_nat (v + 1))) with (Z.to_nat (v + 1 + 1)) by ver.
      specialize (IH (v + 1)%Z s' Hs' ltac:(ver) ltac:(ver) ltac:(ver)). unfold loop_spec in *.
      destruct (sfor _ _ s') as [r s2]. destruct IH as (Hr & w & Hw & Hle & Hres). split.
      * eapply rtc_l; [|exact Hr]. by apply (upgrade_one v s s' Hs ltac:(ver)).
      * exists w. split_and!; [done|ver..|done].
    + cbv beta iota delta [loop_spec]. split; [apply rtc_refl|]. exists v. split_and!; [done|ver..|by rewrite Hm].
    + cbv beta iota delta [loop_spec]. split; [apply rtc_refl|]. exists v. split_and!; [done|ver..|by rewrite Hm].
Qed.

Lemma versions_split v : (1 <= v <= 10)%Z ->
  versions_to LAST_SCHEMA_VERSION
  = (map Z.of_nat (seq 2 (Z.to_nat (v - 1))) ++ map Z.of_nat (seq (Z.to_nat (v + 1)) (Z.to_nat (10 - v))))%list.
Proof.
  intros Hv. unfold versions_to, LAST_SCHEMA_VERSION. rewrite <- map_app. f_equal.
  replace (Z.to_nat 10 - 1)%nat with (Z.to_nat (v - 1) + Z.to_nat (10 - v))%nat by ver.
  rewrite seq_app. do 2 f_equal. lia.
Qed.

Lemma sfor_app {S E A} (f : A -> stM S E unit) l1 l2 s :
  sfor f (l1 ++ l2)%list s = (sfor f l1 ;; sfor f l2) s.
Proof.
  revert s. induction l1 as [|x l1 IH]; intros s; cbn; [done|]. unfold sbind. destruct (f x s) as [[a|e|p] s']; [|done..].
  rewrite IH. unfold sbind. by destruct (sfor f l1 s') as [[] ?].
Qed.

Lemma skipped_versions version l s : Forall (fun k => (k <= version)%Z) l -> sfor (migrate_step version LAST_SCHEMA_VERSION) l s = (Ok tt, s).
Proof.
  induction 1 as [|k l Hk _ IH]; [done|]. cbn [sfor]. rewrite (sbind_run _ _ s tt s); [done|]. by apply migrate_step_skip.
Qed.

Lemma migrate_from_version_spec v s :
  version_of s = Some v -> (1 <= v <= LAST_SCHEMA_VERSION)%Z -> loop_spec v s (migrate_from_version v LAST_SCHEMA_VERSION s).
Proof.
  intros Hs Hv. unfold migrate_from_version.
  destruct (Z.compare_spec v LAST_SCHEMA_VERSION) as [He|Hlt|Hgt]; [| |ver].
  - cbn. split; [apply rtc_refl|]. exists v. split_and!; [done|ver..|done].
  - rewrite (sbind_run _ _ s tt s) by done. rewrite (versions_split v) by ver. rewrite sfor_app.
    rewrite (sbind_run _ _ s tt s).
    + apply loop_runs; unfold LAST_SCHEMA_VERSION in *; [done|ver..].
    + apply skipped_versions, Forall_forall. intros k (i & -> & Hi%elem_of_seq)%list_elem_of_fmap. ver.
Qed.

Lemma init_table_spec s v :
  version_of s = Some v -> (1 <= v <= LAST_SCHEMA_VERSION)%Z -> loop_spec v s (init_table s).
Proof.
  intros Hs Hv. unfold init_table. rewrite (sbind_run _ _ s (Some v) s) by by rewrite get_schema_version_run, Hs.
  rewrite (sbind_run _ _ s v s) by done. by apply migrate_from_version_spec.
Qed.

Lemma upgrade_version s s' : upgrade s s' ->
  exists v, version_of s = Some v /\ version_of s' = Some (v + 1)%Z /\ (v < LAST_SCHEMA_VERSION)%Z.
Proof. intros [v s1 s2 Hs Hv Hm]. exists v. split_and!; [done|by apply (migrate_to_ok v s1)|done]. Qed.

Lemma upgrade_deterministic s s1 s2 : upgrade s s1 -> upgrade s s2 -> s1 = s2.
Proof. intros H1 H2. destruct H1 as [v s s1 Hs Hv Hm], H2 as [v' s s2 Hs' Hv' Hm']. congruence. Qed.

Lemma last_version_ends s s' : version_of s = Some LAST_SCHEMA_VERSION -> ~ upgrade s s'.
Proof. intros Hs Hu. destruct Hu as [v s s' Hv Hlt _]. replace v with LAST_SCHEMA_VERSION in Hlt by congruence. ver. Qed.

Lemma failed_version_ends s w : version_of s = Some w -> fst (migrate_to (w + 1)%Z s) <> Ok tt -> forall s', ~ upgrade s s'.
Proof. intros Hs He s' Hu. destruct Hu as [v s s' Hv _ Hm]. replace v with w in * by congruence. by rewrite Hm in He. Qed.

(** The steps to the last version are the ones [init_table] takes. *)
Lemma init_table_reaches s v s' :
  version_of s = Some v -> (1 <= v <= LAST_SCHEMA_VERSION)%Z -> rtc upgrade s s' -> version_of s' = Some LAST_SCHEMA_VERSION ->
  init_table s = (Ok tt, s').
Proof.
  intros Hs Hv Hr Hs'. pose proof (init_table_spec s v Hs Hv) as H. unfold loop_spec in H.
  destruct (init_table s) as [r s2]. destruct H as (Hr2 & w & Hw & Hb & Hres).
  assert (Hnf : forall s3, ~ upgrade s2 s3).
  { destruct r as [[]|e|p]; [intros s3; apply last_version_ends; congruence|..];
      (eapply failed_version_ends; [exact Hw|]; by rewrite (proj2 Hres)). }
  assert (s2 = s') as ->.
  { clear Hs Hv Hw Hb Hres. induction Hr as [s|s s1 s' Hu Hr IH].
    - destruct Hr2 as [|? ? ? Hu]; [done|]. by apply last_version_ends in Hu.
    - destruct Hr2 as [|s s1' s2 Hu' Hr2]; [by apply Hnf in Hu|]. rewrite (upgrade_deterministic s s1' s1 Hu' Hu) in Hr2. by apply IH. }
  f_equal. destruct r as [[]|e|p]; [done|..]; destruct Hres as [Hlt _]; replace w with LAST_SCHEMA_VERSION in Hlt by congruence; ver.
Qed.

(* ------------------------------------------------------------------ *)
(** ** Properties *)

(** C10. The loop implements the specification.  From a database at a version
    from 1 to 10, [init_table] takes [upgrade] steps only; it succeeds exactly
    when it reaches version 10, and it fails at a version it has committed, with
    the error of the next migration.  It panics at version 3 only, in the migration
    to version 4, when the index on the e-mails cannot be built and the users in
    conflict cannot be read either: their table or a column of it is missing, or an
    id or an e-mail is no text.  A database newer than the program, as far as its
    version is a 16-bit integer, is refused and left alone. *)
Theorem init_table_refines s v :
  version_of s = Some v -> (1 <= v)%Z ->
  let '(r, s') := init_table s in
  if decide (v <= LAST_SCHEMA_VERSION)%Z then
    rtc upgrade s s'
    /\ exists w, version_of s' = Some w /\ (v <= w <= LAST_SCHEMA_VERSION)%Z
         /\ (r = Ok tt <-> w = LAST_SCHEMA_VERSION)
         /\ (forall e, r = Err e -> fst (migrate_to (w + 1)%Z s') = Err e)
         /\ (forall p, r = Panic p -> w = 3%Z /\ fst (migrate_to 4%Z s') = Panic p /\ ~ users_readable s')
  else s' = s /\ exists e, r = Err e.
Proof.
  intros Hs Hv. case_decide as Hle.
  - pose proof (init_table_spec s v Hs ltac:(ver)) as H. unfold loop_spec in H.
    destruct (init_table s) as [[[]|e|p] s']; destruct H as (Hr & w & Hw & Hb & Hres);
      (split; [done|]); exists w; split_and!; try done; try ver; destruct Hres as [Hlt Hm]; try (split; [done|ver]).
    + by intros e' [= <-].
    + intros p' [= <-]. destruct (migrate_to_panics w s' p ltac:(ver) Hm) as [-> Hu]. by split_and!.
  - unfold init_table. rewrite (sbind_run _ _ s (Some v) s) by by rewrite get_schema_version_run, Hs.
    rewrite (sbind_run _ _ s v s) by done. unfold migrate_from_version.
    rewrite (proj2 (Z.compare_gt_iff _ _)) by lia. split; [done|by eexists].
Qed.


(** A new database.  On an engine without tables, at any time, the schema of
    version 1 is created and migrated to the last one without an error, and the
    tables are exactly those of [final_tables]. *)
Theorem init_table_fresh now be :
  init_table (mk_engine ∅ now be) = (Ok tt, mk_engine final_tables now be)
  /\ init_table (mk_engine final_tables now be) = (Ok tt, mk_engine final_tables now be).
Proof. split; vm_compute; reflexivity. Qed.
End Loop.
