(* ===== verification/MigrationData.v ===== *)
(** * Migrating data

    What the migrations do to the rows of a database at version 1: the users,
    groups and memberships of an old server arrive at the last version with the
    same values, the empty names as NULL, the names and photos as attributes and
    the lower-case columns filled; and the conditions under which that succeeds. *)

From S2P Require Import Prelude RustStd Extern Types Concrete SqlEngine Migrations MigrationLoop.
From Stdlib Require Import Ascii String.
From stdpp Require Import strings list gmap.
#[local] Open Scope rust_scope.
#[local] Open Scope string_scope.

(* ------------------------------------------------------------------ *)
(** ** The rows of version 1 *)

Record OldUser := mk_old_user {
  ou_user_id : string;
  ou_email : string;
  ou_display_name : string;
  ou_first_name : option string;
  ou_last_name : option string;
  ou_avatar : option bytes;
  ou_creation_date : NaiveDateTime;
  ou_password_hash : option bytes;
  ou_totp_secret : option string;
  ou_mfa_type : option string;
  ou_uuid : string;
}.
Record OldGroup := mk_old_group {
  og_group_id : Z;
  og_display_name : string;
  og_creation_date : NaiveDateTime;
  og_uuid : string;
}.

Definition opt_text (o : option string) : SqlValue := match o with Some s => SqlText s | None => SqlNull end.
Definition opt_blob (o : option bytes) : SqlValue := match o with Some b => SqlBlob b | None => SqlNull end.
(** What [UPDATE .. SET c = NULL WHERE c = ''] leaves. *)
Definition non_empty_text (o : option string) : option string := match o with Some "" => None | _ => o end.

(** The columns a user keeps through all versions, before and after the display name. *)
Definition user_kept (u : OldUser) : Row :=
  [("creation_date", SqlDateTime (ou_creation_date u)); ("password_hash", opt_blob (ou_password_hash u));
   ("totp_secret", opt_text (ou_totp_secret u)); ("mfa_type", opt_text (ou_mfa_type u)); ("uuid", SqlText (ou_uuid u))].
Definition user_head (u : OldUser) : Row := [("user_id", SqlText (ou_user_id u)); ("email", SqlText (ou_email u))].
Definition shown_name (u : OldUser) : Row := [("display_name", opt_text (non_empty_text (Some (ou_display_name u))))].

Definition user_row_v1 (u : OldUser) : Row :=
  (user_head u ++ [("display_name", SqlText (ou_display_name u)); ("first_name", opt_text (ou_first_name u));
     ("last_name", opt_text (ou_last_name u)); ("avatar", opt_blob (ou_avatar u))] ++ user_kept u)%list.
Definition user_row_v2 (u : OldUser) : Row :=
  (user_head u ++ [("first_name", opt_text (ou_first_name u));
     ("last_name", opt_text (ou_last_name u)); ("avatar", opt_blob (ou_avatar u))] ++ user_kept u ++ shown_name u)%list.
Definition user_row_v3 (u : OldUser) : Row :=
  (user_head u ++ user_kept u ++ shown_name u ++ [("first_name", opt_text (non_empty_text (ou_first_name u)));
     ("last_name", opt_text (non_empty_text (ou_last_name u))); ("avatar", opt_blob (ou_avatar u))])%list.
Definition user_row_v5 (u : OldUser) : Row := (user_head u ++ user_kept u ++ shown_name u)%list.
Definition user_row_v6 (u : OldUser) : Row :=
  (user_row_v5 u ++ [("lowercase_email", SqlText (to_ascii_lowercase (ou_email u)))])%list.

Definition group_row_v1 (g : OldGroup) : Row :=
  [("group_id", SqlInt (og_group_id g)); ("display_name", SqlText (og_display_name g));
   ("creation_date", SqlDateTime (og_creation_date g)); ("uuid", SqlText (og_uuid g))].
Definition group_row_v6 (g : OldGroup) : Row :=
  (group_row_v1 g ++ [("lowercase_display_name", SqlText (to_ascii_lowercase (og_display_name g)))])%list.

Definition membership_row (m : string * Z) : Row := [("user_id", SqlText m.1); ("group_id", SqlInt m.2)].

(** The definition of a table that [create_table] stores, with some rows. *)
Definition table_of (create : Exec unit) (name : string) (rows : list Row) : SqlTable :=
  match en_tables (snd (create (mk_engine ∅ 0%Z BackendSqlite))) !! name with
  | Some tb => set_rows rows tb
  | None => mk_sql_table [] [] [] [] rows
  end.

Definition users_v1 (us : list OldUser) : SqlTable := table_of v1_create_users "users" (map user_row_v1 us).
Definition groups_v1 (gs : list OldGroup) : SqlTable := table_of v1_create_groups "groups" (map group_row_v1 gs).
Definition memberships_v1 (ms : list (string * Z)) : SqlTable :=
  table_of v1_create_memberships "memberships" (map membership_row ms).
Definition metadata_v1 : SqlTable := mk_sql_table [small_integer (column "version")] [] [] [] [[("version", SqlInt 1)]].

(** A database at version 1. *)
Definition old_database (us : list OldUser) (gs : list OldGroup) (ms : list (string * Z)) (now : NaiveDateTime) : Engine :=
  mk_engine (list_to_map [("users", users_v1 us); ("groups", groups_v1 gs); ("memberships", memberships_v1 ms);
    ("metadata", metadata_v1)]) now BackendSqlite.

(** One statement of a program, on a table just looked up or just written; a second
    write replaces the first. *)
Ltac table_here :=
  match goal with
  | |- en_tables (put_table ?n _ _) !! ?n = _ => apply lookup_put
  | |- en_tables (put_table _ _ _) !! _ = _ => rewrite lookup_put_ne by discriminate; table_here
  | |- en_tables _ !! _ = _ => eassumption
  end.
Ltac side :=
  match goal with
  | |- en_tables _ !! _ = _ => table_here
  | |- _ \/ _ => left; vm_compute; reflexivity
  | |- _ => vm_compute; reflexivity
  end.
Ltac stmt lem := erewrite sbind_run; [|eapply lem; side]; rewrite ?put_put.
Ltac last_stmt lem := erewrite lem; [|side ..]; rewrite ?put_put.

(* ------------------------------------------------------------------ *)
(** ** Versions 2 and 3 *)

(** The table [replace_column] leaves, without its rows, and what becomes of a row. *)
Definition replaced (c : string) (cd : ColumnDef) (tb : SqlTable) : SqlTable :=
  without_column "temp_name" (with_column cd (renamed c "temp_name" tb)).
Definition replaced_row (c : string) (cd : ColumnDef) (nulls : bool) (r : Row) : Row :=
  let r := (row_rename r c "temp_name" ++ [(cd_name cd, cd_default cd)])%list in
  let r := row_set r c (row_get r "temp_name") in
  let r := if nulls && where_holds (Some (c, SqlText "")) r then row_set r c SqlNull else r in
  row_drop r "temp_name".

Lemma replace_column_run c cd (nulls : bool) tb s :
  en_tables s !! "users" = Some tb -> cd_name cd = c -> cd_not_null cd = false ->
  has_column tb c = true -> has_column tb "temp_name" = false ->
  let tb' := with_column cd (renamed c "temp_name" tb) in
  has_column (renamed c "temp_name" tb) c = false ->
  forallb (has_column tb') [c; "temp_name"] = true -> required_column tb' c = false ->
  forallb (fun cols => negb (existsb (String.eqb c) cols)) (tb_indexes tb') = true ->
  is_indexed tb' "temp_name" = false ->
  replace_column "users" c cd (if nulls then [empty_to_null c] else []) s
  = (Ok tt, put_table "users" (set_rows (map (replaced_row c cd nulls) (tb_rows tb)) (replaced c cd tb)) s).
Proof.
  intros Hn Hcd Hnn Hc Ht tb' Hc' Hcols Hreq Hix Hidx. unfold replace_column, empty_to_null. subst c.
  erewrite sbind_run; [|by apply rename_column_run; eauto]. erewrite sbind_run; [|by apply add_column_run; [apply lookup_put|..]; auto].
  fold tb'. rewrite put_put. cbn in Hcols. rewrite !andb_true_iff in Hcols. destruct Hcols as (Hcol & Htmp & _).
  erewrite sbind_run; [|apply update_rows_run; [apply lookup_put|by cbn; rewrite Hcol, Htmp|by left|exact Hix]].
  rewrite put_put. destruct nulls; cbn [sfor].
  - erewrite sbind_run.
    2: { erewrite sbind_run; [|apply update_rows_run; [apply lookup_put|cbn; unfold has_column in *; cbn; by rewrite Hcol|by left|exact Hix]].
         reflexivity. }
    rewrite put_put. erewrite drop_column_run; [|apply lookup_put|exact Htmp|exact Hidx]. rewrite put_put. do 2 f_equal.
    unfold set_rows, without_column, replaced, updated. cbn. f_equal. rewrite !map_map. apply map_ext. intros r. reflexivity.
  - rewrite (sbind_run (sret tt) _ _ tt _ eq_refl). erewrite drop_column_run; [|apply lookup_put|exact Htmp|exact Hidx].
    rewrite put_put. do 2 f_equal. unfold set_rows, without_column, replaced, updated. cbn. f_equal. by rewrite !map_map.
Qed.

Lemma set_rows_twice rows rows' tb : set_rows rows (set_rows rows' tb) = set_rows rows tb.
Proof. reflexivity. Qed.
Lemma replaced_set_rows c cd rows tb :
  set_rows rows (replaced c cd (set_rows [] tb)) = set_rows rows (replaced c cd tb).
Proof. reflexivity. Qed.

Definition display_name_v2 : ColumnDef := string_len 255 (column "display_name").
Definition users_v2 (us : list OldUser) : SqlTable :=
  set_rows (map user_row_v2 us) (replaced "display_name" display_name_v2 (users_v1 [])).
Definition users_v3 (us : list OldUser) : SqlTable :=
  set_rows (map user_row_v3 us)
    (replaced "avatar" (blob None (column "avatar"))
      (replaced "last_name" (string_len 255 (column "last_name"))
        (replaced "first_name" (string_len 255 (column "first_name")) (users_v2 [])))).

(** A table is its definition with its rows. *)
Lemma set_rows_map {A} (f g : A -> Row) l tb tb' :
  set_rows [] tb = set_rows [] tb' -> (forall x, f x = g x) -> set_rows (map f l) tb = set_rows (map g l) tb'.
Proof. intros H Hfg. rewrite (map_ext _ _ Hfg). unfold set_rows in *. by injection H as -> -> -> ->. Qed.

Lemma set_rows_ext tb tb' rows : tb_rows tb = rows -> set_rows [] tb = set_rows [] tb' -> tb = set_rows rows tb'.
Proof. unfold set_rows. intros <- [= H1 H2 H3 H4]. destruct tb. cbn in *. congruence. Qed.

Lemma migrate_to_v2_run us s :
  en_tables s !! "users" = Some (users_v1 us) -> migrate_to_v2 s = (Ok tt, put_table "users" (users_v2 us) s).
Proof.
  intros Hu. unfold migrate_to_v2. rewrite (replace_column_run "display_name" _ true _ s Hu) by (vm_compute; reflexivity).
  do 2 f_equal. change (tb_rows (users_v1 us)) with (map user_row_v1 us). rewrite map_map.
  apply set_rows_map; [vm_compute; reflexivity|]. intros [i e d f l a cd ph t m uu]. destruct d; vm_compute; reflexivity.
Qed.

Lemma migrate_to_v3_run us s :
  en_tables s !! "users" = Some (users_v2 us) -> migrate_to_v3 s = (Ok tt, put_table "users" (users_v3 us) s).
Proof.
  intros Hu. unfold migrate_to_v3.
  erewrite sbind_run; [|apply (replace_column_run "first_name" _ true _ s Hu); vm_compute; reflexivity].
  erewrite sbind_run; [|apply (replace_column_run "last_name" _ true); [apply lookup_put|vm_compute; reflexivity..]].
  erewrite (replace_column_run "avatar" _ false); [|apply lookup_put|vm_compute; reflexivity..].
  rewrite !put_put. do 2 f_equal. cbn [tb_rows set_rows]. change (tb_rows (users_v2 us)) with (map user_row_v2 us). rewrite !map_map.
  apply set_rows_map; [vm_compute; reflexivity|]. intros [i e d f l a cd ph t m uu].
  destruct f as [[]|], l as [[]|], d; vm_compute; reflexivity.
Qed.

(* ------------------------------------------------------------------ *)
(** ** Version 4 *)

Lemma index_keys_map {A} (f : A -> Row) (key : A -> list SqlValue) cols l :
  (forall x, index_key cols (f x) = key x) -> (forall x, no_null (key x) = true) ->
  index_keys cols (map f l) = map key l.
Proof.
  intros Hf Hk. unfold index_keys. rewrite map_map. induction l as [|x l IH]; cbn; [done|]. by rewrite Hf, Hk, IH.
Qed.

(** An index on a text column: the texts differ. *)
Lemma distinct_texts {A} (f : A -> Row) (text : A -> string) c l :
  (forall x, row_get (f x) c = SqlText (text x)) -> NoDup (map text l) -> distinct_keys (map f l) [c].
Proof.
  intros Hf Hl. unfold distinct_keys. rewrite (index_keys_map f (fun x => [SqlText (text x)])); [|intros x; cbn; by rewrite Hf|done].
  change (fun x => [SqlText (text x)]) with (fun x => (fun t => [SqlText t]) (text x)). rewrite <- map_map.
  apply NoDup_fmap; [|done]. by intros a b [= ->].
Qed.

Definition users_v4 (us : list OldUser) : SqlTable :=
  with_index "unique-user-uuid" ["uuid"] (with_index "unique-user-email" ["email"] (users_v3 us)).
Definition groups_v4 (gs : list OldGroup) : SqlTable := with_index "unique-group-uuid" ["uuid"] (groups_v1 gs).

Lemma migrate_to_v4_run us gs s :
  en_tables s !! "users" = Some (users_v3 us) -> en_tables s !! "groups" = Some (groups_v1 gs) ->
  NoDup (map ou_email us) -> NoDup (map ou_uuid us) -> NoDup (map og_uuid gs) ->
  migrate_to_v4 s = (Ok tt, put_table "groups" (groups_v4 gs) (put_table "users" (users_v4 us) s)).
Proof.
  intros Hu Hg He Huu Hgu. unfold migrate_to_v4.
  erewrite sbind_run; [|unfold stry; rewrite (create_unique_index_run _ _ _ Hu); [reflexivity|vm_compute; reflexivity..|by apply (distinct_texts user_row_v3 ou_email)]].
  erewrite sbind_run; [|reflexivity].
  erewrite sbind_run; [|eapply create_unique_index_run; [apply lookup_put|vm_compute; reflexivity..|by apply (distinct_texts user_row_v3 ou_uuid)]].
  rewrite put_put. erewrite create_unique_index_run; [reflexivity|by rewrite lookup_put_ne|vm_compute; reflexivity..|].
  by apply (distinct_texts group_row_v1 og_uuid).
Qed.

(* ------------------------------------------------------------------ *)
(** ** Version 5 *)

Ltac lookup_tables :=
  repeat first [rewrite lookup_put | rewrite lookup_put_ne by discriminate]; first [eassumption | reflexivity].
Ltac decided := refine (@bool_decide_unpack _ _ _); vm_compute; exact I.

Section Version5.
Context `{B : Bincode}.

Definition attribute_row (user_id name : string) (v : Serialized) : Row :=
  [("user_attribute_user_id", SqlText user_id); ("user_attribute_name", SqlText name);
   ("user_attribute_value", SqlBlob (serialized_bytes v))].

(** The values of a user that become attributes. *)
Definition moved_values (u : OldUser) : list (string * Serialized) :=
  (match non_empty_text (ou_first_name u) with Some n => [("first_name", serialized_from TyString n)] | None => [] end
   ++ match non_empty_text (ou_last_name u) with Some n => [("last_name", serialized_from TyString n)] | None => [] end
   ++ match ou_avatar u with Some b => [("avatar", serialized_from TyJpegPhoto (mk_jpeg b))] | None => [] end)%list.
Definition moved_attributes (u : OldUser) : list Row :=
  map (fun kv => attribute_row (ou_user_id u) kv.1 kv.2) (moved_values u).

Definition attribute_tables : Engine :=
  snd ((v5_create_schema_tables ;; v5_create_attribute_tables ;; v5_insert_schema) (mk_engine ∅ 0%Z BackendSqlite)).
Definition attribute_table (n : string) : SqlTable := default (mk_sql_table [] [] [] [] []) (en_tables attribute_tables !! n).
Definition user_attributes_v5 (us : list OldUser) : SqlTable :=
  set_rows (flat_map moved_attributes us) (attribute_table "user_attributes").

Definition users_v5 (us : list OldUser) : SqlTable :=
  set_rows (map user_row_v5 us) (without_column "avatar" (without_column "last_name" (without_column "first_name" (users_v4 [])))).

Definition old_details (u : OldUser) : FullUserDetails :=
  mk_full_user_details (ou_user_id u) (non_empty_text (ou_first_name u)) (non_empty_text (ou_last_name u)) (mk_jpeg <$> ou_avatar u).

Lemma old_details_read u : full_user_details (user_row_v3 u) = Ok (old_details u).
Proof. destruct u as [i e d f l a cd ph t m uu]. destruct f as [[]|], l as [[]|], a; vm_compute; reflexivity. Qed.

Lemma details_read us : try_map full_user_details (map user_row_v3 us) = Ok (map old_details us).
Proof. induction us as [|u us IH]; cbn [map try_map]; [done|]. by rewrite old_details_read, IH. Qed.

Lemma attribute_rows_moved u :
  user_attribute_rows (old_details u)
  = map (fun kv => [SqlText (ou_user_id u); SqlText kv.1; SqlBlob (serialized_bytes kv.2)]) (moved_values u).
Proof. destruct u as [i e d f l a cd ph t m uu]. destruct f as [[]|], l as [[]|], a; reflexivity. Qed.

Lemma moved_names u n v : (n, v) ∈ moved_values u -> n = "first_name" \/ n = "last_name" \/ n = "avatar".
Proof. unfold moved_values. rewrite !elem_of_app. repeat case_match; rewrite ?list_elem_of_singleton; set_solver. Qed.

Lemma moved_names_NoDup u : NoDup (moved_values u).*1.
Proof.
  unfold moved_values. destruct (non_empty_text _), (non_empty_text _), (ou_avatar u); cbn;
    repeat constructor; rewrite ?elem_of_cons, ?elem_of_nil; intuition discriminate.
Qed.

(** The keys of the rows moved differ, since the users do. *)
Definition moved_key (u : OldUser) (n : string) : list SqlValue := [SqlText (ou_user_id u); SqlText n].
Lemma moved_keys_NoDup us :
  NoDup (map ou_user_id us) -> NoDup (flat_map (fun u => map (moved_key u) (moved_values u).*1) us).
Proof.
  induction us as [|u us IH]; cbn [map flat_map]; [constructor|]. intros [Hu Hus]%NoDup_cons. apply NoDup_app. split_and!.
  - apply NoDup_fmap; [|apply moved_names_NoDup]. by intros a b [= ->].
  - intros k (n & -> & _)%list_elem_of_fmap (u' & Hu' & Hk)%base.list_elem_of_In%in_flat_map.
    apply base.list_elem_of_In, list_elem_of_fmap in Hk as (n' & [= He _] & _). apply Hu. rewrite He.
    apply list_elem_of_fmap. exists u'. split; [done|]. by apply base.list_elem_of_In.
  - by apply IH.
Qed.

Definition add_attribute_tables (s : Engine) : Engine :=
  put_table "user_attribute_schema" (attribute_table "user_attribute_schema")
    (put_table "group_attributes" (attribute_table "group_attributes")
      (put_table "user_attributes" (attribute_table "user_attributes")
        (put_table "group_attribute_schema" (attribute_table "group_attribute_schema")
          (put_table "user_attribute_schema" (set_rows [] (attribute_table "user_attribute_schema")) s)))).

Lemma add_attribute_tables_run s :
  Forall (fun n => en_tables s !! n = None)
    ["user_attribute_schema"; "group_attribute_schema"; "user_attributes"; "group_attributes"] ->
  forall k : Exec unit,
  (v5_create_schema_tables ;; v5_create_attribute_tables ;; v5_insert_schema ;; k) s = k (add_attribute_tables s).
Proof.
  rewrite !Forall_cons. intros (H1 & H2 & H3 & H4 & _) k. unfold v5_create_schema_tables, v5_create_attribute_tables, v5_insert_schema.
  erewrite sbind_run.
  2: { erewrite sbind_run; [|by apply create_table_run]. apply create_table_run. lookup_tables. }
  erewrite sbind_run.
  2: { erewrite sbind_run; [|apply create_table_run; lookup_tables]. apply create_table_run. lookup_tables. }
  erewrite sbind_run; [|eapply insert_rows_run; [lookup_tables|vm_compute; reflexivity|decided..]]. reflexivity.
Qed.

(** Writing a table back as it is. *)
Lemma put_same n tb s : en_tables s !! n = Some tb -> put_table n tb s = s.
Proof. intros H. unfold put_table. rewrite insert_id by done. by destruct s. Qed.

Lemma moved_values_rows us :
  map (new_row (attribute_table "user_attributes") ["user_attribute_user_id"; "user_attribute_name"; "user_attribute_value"])
    (flat_map user_attribute_rows (map old_details us)) = flat_map moved_attributes us.
Proof.
  induction us as [|u us IH]; cbn [map flat_map]; [done|]. rewrite map_app, IH, attribute_rows_moved, map_map. f_equal.
Qed.

Lemma moved_row_shape us r : r ∈ flat_map moved_attributes us ->
  exists u n v, u ∈ us /\ (n, v) ∈ moved_values u /\ r = attribute_row (ou_user_id u) n v.
Proof.
  intros (u & Hu & Hr)%base.list_elem_of_In%in_flat_map. apply base.list_elem_of_In, list_elem_of_fmap in Hr as ([n v] & -> & Hv).
  exists u, n, v. split; [by apply base.list_elem_of_In|done].
Qed.

(** The checks of the insertion. *)
Lemma moved_not_null us :
  Forall (fun cd => cd_not_null cd = false
            \/ Forall (fun r => row_get r (cd_name cd) <> SqlNull) (flat_map moved_attributes us))
    (tb_columns (attribute_table "user_attributes")).
Proof.
  change (tb_columns (attribute_table "user_attributes")) with
    [not_null (string_len 255 (column "user_attribute_user_id")); not_null (string_len 64 (column "user_attribute_name"));
     not_null (blob None (column "user_attribute_value"))].
  repeat (apply Forall_cons; split; [right; apply Forall_forall; intros r (u & n & v & _ & _ & ->)%moved_row_shape; discriminate|]).
  constructor.
Qed.

Lemma moved_distinct us :
  NoDup (map ou_user_id us) ->
  Forall (distinct_keys (tb_rows (attribute_table "user_attributes") ++ flat_map moved_attributes us))
    (tb_indexes (attribute_table "user_attributes")).
Proof.
  intros Hid.
  change (tb_indexes (attribute_table "user_attributes")) with [["user_attribute_user_id"; "user_attribute_name"]].
  change (tb_rows (attribute_table "user_attributes")) with (@nil Row). cbn [app]. apply Forall_singleton.
  unfold distinct_keys. replace (index_keys _ _) with (flat_map (fun u => map (moved_key u) (moved_values u).*1) us);
    [by apply moved_keys_NoDup|].
  clear Hid. induction us as [|u us IH]; cbn [flat_map]; [done|]. unfold index_keys in *.
  rewrite map_app, List.filter_app, <- IH. f_equal. unfold moved_attributes. rewrite map_map.
  induction (moved_values u) as [|[n v] l IHl]; cbn; [done|]. by f_equal.
Qed.

Lemma moved_references us s :
  en_tables s !! "users" = Some (users_v4 us) ->
  Forall (fun fk => Forall (fun r => fk_holds (add_attribute_tables s) fk r = true) (flat_map moved_attributes us))
    (tb_foreign_keys (attribute_table "user_attributes")).
Proof.
  intros Hu.
  change (tb_foreign_keys (attribute_table "user_attributes")) with
    [mk_foreign_key "UserAttributeUserIdForeignKey" "user_attribute_user_id" "users" "user_id";
     mk_foreign_key "UserAttributeNameForeignKey" "user_attribute_name" "user_attribute_schema" "user_attribute_schema_name"].
  repeat (apply Forall_cons; split; [apply Forall_forall; intros r (u & n & v & Hin & Hn & ->)%moved_row_shape|]); [..|constructor];
    unfold fk_holds; cbn [fk_from fk_table fk_to row_get attribute_row String.eqb Ascii.eqb Bool.eqb]; apply orb_true_iff; right;
    unfold add_attribute_tables.
  - assert (Ht : en_tables (add_attribute_tables s) !! "users" = Some (users_v4 us)) by (unfold add_attribute_tables; lookup_tables).
    unfold add_attribute_tables in Ht. rewrite Ht. apply existsb_exists. exists (user_row_v3 u).
    split; [|by apply bool_decide_eq_true]. apply base.list_elem_of_In, list_elem_of_fmap. by exists u.
  - rewrite lookup_put. destruct (moved_names u n v Hn) as [->|[->| ->]]; vm_compute; reflexivity.
Qed.

Lemma move_attributes_run us s :
  en_tables s !! "users" = Some (users_v4 us) -> NoDup (map ou_user_id us) ->
  v5_move_attributes (add_attribute_tables s)
  = (Ok tt, put_table "user_attributes" (user_attributes_v5 us) (add_attribute_tables s)).
Proof.
  intros Hu Hid. unfold v5_move_attributes.
  rewrite (sbind_run _ _ _ (map user_row_v3 us) (add_attribute_tables s)).
  2: { erewrite select_rows_run; [|unfold add_attribute_tables; lookup_tables|vm_compute; reflexivity]. reflexivity. }
  rewrite (sbind_run _ _ _ (map old_details us) (add_attribute_tables s)) by (unfold slift; by rewrite details_read).
  assert (Ht : en_tables (add_attribute_tables s) !! "user_attributes" = Some (attribute_table "user_attributes"))
    by (unfold add_attribute_tables; lookup_tables).
  cbv zeta. destruct (flat_map user_attribute_rows (map old_details us)) as [|v vs] eqn:Hvs.
  - rewrite put_same; [done|]. rewrite Ht. pose proof (moved_values_rows us) as Hm. rewrite Hvs in Hm.
    unfold user_attributes_v5. by rewrite <- Hm.
  - rewrite <- Hvs. erewrite insert_rows_run; [|exact Ht|vm_compute; reflexivity|..].
    + rewrite moved_values_rows. reflexivity.
    + rewrite moved_values_rows. apply moved_not_null.
    + rewrite moved_values_rows. by apply moved_distinct.
    + rewrite moved_values_rows. by apply moved_references.
Qed.

Lemma migrate_to_v5_run us s :
  en_tables s !! "users" = Some (users_v4 us) -> NoDup (map ou_user_id us) ->
  Forall (fun n => en_tables s !! n = None)
    ["user_attribute_schema"; "group_attribute_schema"; "user_attributes"; "group_attributes"] ->
  migrate_to_v5 s
  = (Ok tt, put_table "users" (users_v5 us) (put_table "user_attributes" (user_attributes_v5 us) (add_attribute_tables s))).
Proof.
  intros Hu Hid Hnone. unfold migrate_to_v5. rewrite add_attribute_tables_run by done.
  erewrite sbind_run; [|by apply move_attributes_run]. cbn [sfor].
  erewrite sbind_run; [|apply (drop_column_run _ (users_v4 us)); [unfold add_attribute_tables; lookup_tables|vm_compute; reflexivity..]].
  erewrite sbind_run; [|eapply drop_column_run; [apply lookup_put|vm_compute; reflexivity..]]. rewrite put_put.
  erewrite sbind_run; [|eapply drop_column_run; [apply lookup_put|vm_compute; reflexivity..]]. rewrite put_put. do 3 f_equal.
  apply set_rows_ext; [|vm_compute; reflexivity]. cbn [tb_rows without_column].
  change (tb_rows (users_v4 us)) with (map user_row_v3 us). rewrite !map_map. by apply map_ext.
Qed.
End Version5.

(* ------------------------------------------------------------------ *)
(** ** Versions 6 to 10 *)

Definition lowercase_email_def : ColumnDef := default_value (SqlText "UNSET") (not_null (string_len 255 (column "lowercase_email"))).
Definition lowercase_display_name_def : ColumnDef :=
  default_value (SqlText "UNSET") (not_null (string_len 255 (column "lowercase_display_name"))).
Definition users_v6 (us : list OldUser) : SqlTable := set_rows (map user_row_v6 us) (with_column lowercase_email_def (users_v5 [])).
Definition groups_v6 (gs : list OldGroup) : SqlTable :=
  set_rows (map group_row_v6 gs) (with_column lowercase_display_name_def (groups_v4 [])).

Lemma migrate_to_v6_run us gs s :
  en_tables s !! "users" = Some (users_v5 us) -> en_tables s !! "groups" = Some (groups_v4 gs) ->
  migrate_to_v6 s
  = (Ok tt, put_table "users" (users_v6 us) (put_table "groups" (groups_v6 gs)
       (put_table "users" (with_column lowercase_email_def (users_v5 us))
         (put_table "groups" (with_column lowercase_display_name_def (groups_v4 gs)) s)))).
Proof.
  intros Hu Hg. unfold migrate_to_v6.
  erewrite sbind_run; [|apply (add_column_run _ _ _ Hg); [vm_compute; reflexivity|right; discriminate]].
  erewrite sbind_run; [|eapply add_column_run; [lookup_tables|vm_compute; reflexivity|right; discriminate]].
  erewrite sbind_run.
  2: { eapply update_rows_run; [lookup_tables|vm_compute; reflexivity| |vm_compute; reflexivity]. right.
       change (tb_rows _) with (map (fun r => r ++ [("lowercase_display_name", SqlText "UNSET")])%list (map group_row_v1 gs)).
       unfold updated. rewrite !map_map. apply Forall_fmap, Forall_forall. intros g _. discriminate. }
  erewrite update_rows_run; [|lookup_tables|vm_compute; reflexivity| |vm_compute; reflexivity].
  2: { right. change (tb_rows _) with (map (fun r => r ++ [("lowercase_email", SqlText "UNSET")])%list (map user_row_v5 us)).
       unfold updated. rewrite !map_map. apply Forall_fmap, Forall_forall. intros u _. discriminate. }
  do 2 f_equal; [|f_equal].
  - change (tb_rows _) with (map (fun r => r ++ [("lowercase_email", SqlText "UNSET")])%list (map user_row_v5 us)).
    unfold updated. rewrite !map_map. by apply set_rows_map.
  - change (tb_rows _) with (map (fun r => r ++ [("lowercase_display_name", SqlText "UNSET")])%list (map group_row_v1 gs)).
    unfold updated. rewrite !map_map. by apply set_rows_map.
Qed.

Definition metadata_table (cds : list ColumnDef) (v : Z) : SqlTable :=
  mk_sql_table (small_integer (column "version") :: cds) [] [] []
    [("version", SqlInt v) :: map (fun cd => (cd_name cd, SqlNull)) cds].
Definition private_key_columns : list ColumnDef :=
  [blob (Some 32) (column "private_key_hash"); string_len 255 (column "private_key_location")].

Lemma migrate_to_v7_run v s :
  en_tables s !! "metadata" = Some (metadata_table [] v) ->
  migrate_to_v7 s = (Ok tt, put_table "metadata" (metadata_table private_key_columns v) s).
Proof.
  intros Hm. unfold migrate_to_v7.
  erewrite sbind_run; [|apply (add_column_run _ _ _ Hm); [reflexivity|by left]].
  erewrite add_column_run; [|apply lookup_put|reflexivity|by left]. by rewrite put_put.
Qed.

Definition membership_key (r : Row) : SqlValue * SqlValue := (row_get r "user_id", row_get r "group_id").
Lemma membership_count ms k :
  NoDup ms ->
  (length (List.filter (fun r => bool_decide (membership_key r = k)) (map membership_row ms)) <= 1)%nat.
Proof.
  induction 1 as [|m ms Hm Hms IH]; cbn [map List.filter length]; [lia|].
  case_bool_decide as Hk; [|exact IH]. cbn [length].
  assert (Hnone : List.filter (fun r => bool_decide (membership_key r = k)) (map membership_row ms) = []); [|rewrite Hnone; cbn; lia].
  clear IH Hms. induction ms as [|m' ms IH]; [done|]. apply not_elem_of_cons in Hm as [Hne Hm]. cbn [map List.filter].
  rewrite bool_decide_eq_false_2; [by apply IH|]. subst k. unfold membership_key. cbn. intros [= H1 H2]. apply Hne.
  destruct m, m'. cbn in *. congruence.
Qed.

Lemma no_repeated_memberships ms : NoDup ms -> repeated_memberships (map membership_row ms) = [].
Proof.
  intros Hms. unfold repeated_memberships. fold membership_key.
  induction (remove_dups _) as [|k l IH]; cbn [map List.filter]; [done|]. cbn [snd].
  rewrite (proj2 (Nat.ltb_ge _ _)); [exact IH|]. by apply membership_count.
Qed.

Definition memberships_v8 (ms : list (string * Z)) : SqlTable :=
  with_index "unique-memberships" ["user_id"; "group_id"] (memberships_v1 ms).

Lemma migrate_to_v8_run ms s :
  en_tables s !! "memberships" = Some (memberships_v1 ms) -> NoDup ms ->
  migrate_to_v8 s = (Ok tt, put_table "memberships" (memberships_v8 ms) s).
Proof.
  intros Hm Hms. unfold migrate_to_v8.
  rewrite (sbind_run _ _ s (map membership_row ms) s) by (by erewrite select_rows_run by (done || reflexivity)).
  cbv zeta. rewrite no_repeated_memberships by done. rewrite (sbind_run (sret tt) _ s tt s) by done.
  erewrite create_unique_index_run; [reflexivity|exact Hm|vm_compute; reflexivity..|].
  change (tb_rows (memberships_v1 ms)) with (map membership_row ms). unfold distinct_keys.
  rewrite (index_keys_map membership_row (fun m => [SqlText m.1; SqlInt m.2])) by done.
  apply NoDup_fmap; [|done]. intros [a b] [a' b'] [= -> ->]. done.
Qed.

Definition classes_table : SqlTable :=
  mk_sql_table [primary_key (not_null (string_len 255 (column "lower_object_class"))); not_null (string_len 255 (column "object_class"))]
    ["lower_object_class"] [] [] [].

Lemma migrate_to_v9_run s :
  en_tables s !! "user_object_classes" = None -> en_tables s !! "group_object_classes" = None ->
  migrate_to_v9 s = (Ok tt, put_table "group_object_classes" classes_table (put_table "user_object_classes" classes_table s)).
Proof.
  intros Hu Hg. unfold migrate_to_v9.
  erewrite sbind_run; [|by apply create_table_run]. apply create_table_run. lookup_tables.
Qed.

Definition users_v10 (us : list OldUser) : SqlTable := with_index "unique-user-lower-email" ["lowercase_email"] (users_v6 us).
Definition groups_v10 (gs : list OldGroup) : SqlTable := with_index "unique-group-id" ["lowercase_display_name"] (groups_v6 gs).

Lemma migrate_to_v10_run us gs s :
  en_tables s !! "users" = Some (users_v6 us) -> en_tables s !! "groups" = Some (groups_v6 gs) ->
  NoDup (map (fun u => to_ascii_lowercase (ou_email u)) us) ->
  NoDup (map (fun g => to_ascii_lowercase (og_display_name g)) gs) ->
  migrate_to_v10 s = (Ok tt, put_table "users" (users_v10 us) (put_table "groups" (groups_v10 gs) s)).
Proof.
  intros Hu Hg He Hn. unfold migrate_to_v10.
  erewrite sbind_run; [|apply (create_unique_index_run _ _ _ Hg); [vm_compute; reflexivity..|]].
  2: by apply (distinct_texts group_row_v6 (fun g => to_ascii_lowercase (og_display_name g))).
  erewrite create_unique_index_run; [reflexivity|lookup_tables|vm_compute; reflexivity..|].
  by apply (distinct_texts user_row_v6 (fun u => to_ascii_lowercase (ou_email u))).
Qed.

(* ------------------------------------------------------------------ *)
(** ** From version 1 to the last *)

Section AllVersions.
Context `{C : Crates} `{B : Bincode}.

Lemma set_version_write cds v w s :
  en_tables s !! "metadata" = Some (metadata_table cds v) ->
  update_rows "metadata" "version" (EValue (SqlInt w)) None s = (Ok tt, put_table "metadata" (metadata_table cds w) s).
Proof.
  intros Hm. rewrite (update_rows_run _ _ _ Hm); [reflexivity|reflexivity| |reflexivity].
  right. apply Forall_singleton. discriminate.
Qed.

(** A migration that succeeds, and the version it leaves. *)
Lemma migrate_to_run k cds v (run : Exec unit) s s1 :
  migrations !! Z.to_nat (k - 2) = Some run -> run s = (Ok tt, s1) ->
  en_tables s1 !! "metadata" = Some (metadata_table cds v) ->
  migrate_to k s = (Ok tt, put_table "metadata" (metadata_table cds k) s1).
Proof.
  intros Hk Hr Hm. unfold migrate_to. rewrite Hk. rewrite (sbind_run _ _ s run s) by done.
  rewrite (sbind_run _ _ s tt s1) by done. by apply set_version_write with v.
Qed.

(** What keeps a database from reaching the last version: names and identifiers
    that differ only by case, and repeated rows. *)
Record migratable (us : list OldUser) (gs : list OldGroup) (ms : list (string * Z)) : Prop := {
  mig_user_ids : NoDup (map ou_user_id us);
  mig_emails : NoDup (map (fun u => to_ascii_lowercase (ou_email u)) us);
  mig_user_uuids : NoDup (map ou_uuid us);
  mig_group_names : NoDup (map (fun g => to_ascii_lowercase (og_display_name g)) gs);
  mig_group_uuids : NoDup (map og_uuid gs);
  mig_memberships : NoDup ms;
}.

Lemma version_of_metadata cds v s :
  is_i16 v = true -> en_tables s !! "metadata" = Some (metadata_table cds v) -> version_of s = Some v.
Proof. unfold version_of. intros Hv ->. cbn. by rewrite Hv. Qed.

Lemma old_database_tables us gs ms now :
  let t := en_tables (old_database us gs ms now) in
  t !! "users" = Some (users_v1 us) /\ t !! "groups" = Some (groups_v1 gs) /\ t !! "memberships" = Some (memberships_v1 ms)
  /\ t !! "metadata" = Some (metadata_table [] 1)
  /\ Forall (fun n => t !! n = None)
       ["user_attribute_schema"; "group_attribute_schema"; "user_attributes"; "group_attributes";
        "user_object_classes"; "group_object_classes"].
Proof. split_and!; repeat constructor. Qed.
#[local] Opaque old_database.

(** One step of the specification, by the lemma of its migration. *)
Ltac next_version v lem :=
  eapply rtc_l;
    [eapply (upgrade_one v); [eapply version_of_metadata; [reflexivity|lookup_tables]|done|];
     eapply migrate_to_run; [reflexivity|eapply lem; first [lookup_tables|eassumption|idtac]|lookup_tables]|].

Lemma old_database_upgrades us gs ms now :
  migratable us gs ms ->
  exists s', rtc upgrade (old_database us gs ms now) s'
    /\ version_of s' = Some LAST_SCHEMA_VERSION
    /\ set_rows [] <$> en_tables s' = set_rows [] <$> final_tables
    /\ tb_rows <$> en_tables s' !! "users" = Some (map user_row_v6 us)
    /\ tb_rows <$> en_tables s' !! "user_attributes" = Some (flat_map moved_attributes us)
    /\ tb_rows <$> en_tables s' !! "groups" = Some (map group_row_v6 gs)
    /\ tb_rows <$> en_tables s' !! "memberships" = Some (map membership_row ms).
Proof.
  intros [Hid He Huu Hgn Hgu Hms].
  assert (He' : NoDup (map ou_email us)).
  { apply (NoDup_fmap_1 to_ascii_lowercase). by rewrite <- list_fmap_compose. }
  destruct (old_database_tables us gs ms now) as (Hu & Hg & Hm & Hv & Hnone). cbn zeta in *.
  rewrite !Forall_cons in Hnone. destruct Hnone as (Hn1 & Hn2 & Hn3 & Hn4 & Hn5 & Hn6 & _).
  eexists. split.
  { next_version 1%Z migrate_to_v2_run. next_version 2%Z migrate_to_v3_run. next_version 3%Z migrate_to_v4_run.
    next_version 4%Z migrate_to_v5_run. { repeat constructor; lookup_tables. }
    next_version 5%Z migrate_to_v6_run. next_version 6%Z migrate_to_v7_run.
    next_version 7%Z migrate_to_v8_run. next_version 8%Z migrate_to_v9_run. next_version 9%Z migrate_to_v10_run.
    apply rtc_refl. }
  split_and!; vm_compute; reflexivity.
Qed.

(** C9. An old server's data arrives.  A database at version 1 whose user ids,
    UUIDs and memberships are unique, and whose e-mails and group names are unique
    whatever the case of ASCII letters, is migrated to the last version without an
    error.  Its schema is then that of a new database; every user, group and
    membership is there with its values, empty names as NULL and the lower-case
    columns filled in ASCII; and the first names, last names and photos are the
    attributes, one row for each name that was neither NULL nor empty and for each
    photo that was not NULL, an empty one included. *)
Theorem migrate_old_data us gs ms now :
  migratable us gs ms ->
  exists s', init_table (old_database us gs ms now) = (Ok tt, s')
    /\ set_rows [] <$> en_tables s' = set_rows [] <$> final_tables
    /\ tb_rows <$> en_tables s' !! "users" = Some (map user_row_v6 us)
    /\ tb_rows <$> en_tables s' !! "user_attributes" = Some (flat_map moved_attributes us)
    /\ tb_rows <$> en_tables s' !! "groups" = Some (map group_row_v6 gs)
    /\ tb_rows <$> en_tables s' !! "memberships" = Some (map membership_row ms).
Proof.
  intros Hm. destruct (old_database_upgrades us gs ms now Hm) as (s' & Hr & Hv & Hrest). exists s'. split; [|exact Hrest].
  destruct (old_database_tables us gs ms now) as (_ & _ & _ & Hm1 & _). apply (init_table_reaches _ 1%Z); [|unfold LAST_SCHEMA_VERSION; lia|done|done].
  by eapply (version_of_metadata _ 1).
Qed.
End AllVersions.

(* ------------------------------------------------------------------ *)
(** ** Examples *)

Section Examples.
#[local] Existing Instances concrete_crates concrete_bincode.

Definition old_bob : OldUser :=
  mk_old_user "bob" "BOb@bob.com" "" (Some "Bob") (Some "") (Some [Byte.x01]) 5 None None None "u1".
Definition old_eve : OldUser := mk_old_user "eve" "eve@x" "Eve" None None None 6 None None None "u2".
Definition old_best : OldGroup := mk_old_group 1 "BestGroup" 7 "g1".
Definition old_twin : OldUser := mk_old_user "rob" "BOb@bob.com" "Rob" None None None 8 None None None "u3".
Definition old_greek : OldUser := mk_old_user "sig" "Σ@x" "Sig" None None None 9 None None None "u4".

(** Bob loses the empty last name and the empty display name, his first name and photo
    become attributes and his address is lower-cased, as in the tests of [sql_tables.rs]. *)
Lemma migrate_old_data_witness :
  (exists s', init_table (old_database [old_bob; old_eve] [old_best] [("bob", 1%Z)] 0%Z) = (Ok tt, s')
    /\ set_rows [] <$> en_tables s' = set_rows [] <$> final_tables
    /\ tb_rows <$> en_tables s' !! "users" = Some (map user_row_v6 [old_bob; old_eve])
    /\ tb_rows <$> en_tables s' !! "user_attributes" = Some (flat_map moved_attributes [old_bob; old_eve])
    /\ tb_rows <$> en_tables s' !! "groups" = Some (map group_row_v6 [old_best])
    /\ tb_rows <$> en_tables s' !! "memberships" = Some (map membership_row [("bob", 1%Z)]))
  /\ row_get (user_row_v6 old_bob) "display_name" = SqlNull
  /\ row_get (user_row_v6 old_bob) "lowercase_email" = SqlText "bob@bob.com"
  /\ length (moved_attributes old_bob) = 2%nat.
Proof.
  split; [|by vm_compute]. apply (migrate_old_data [old_bob; old_eve] [old_best] [("bob", 1%Z)] 0%Z).
  split; refine (@bool_decide_unpack _ _ _); vm_compute; exact I.
Defined.

(** Two users with one address: version 4 asks for unique addresses, so the database
    stays at version 3 and [init_table] answers with the failure of that migration. *)
Lemma init_table_refines_witness :
  let s := old_database [old_bob; old_twin] [] [] 0%Z in
  (let '(r, s') := init_table s in
   if decide (1 <= LAST_SCHEMA_VERSION)%Z then
     rtc upgrade s s'
     /\ exists w, version_of s' = Some w /\ (1 <= w <= LAST_SCHEMA_VERSION)%Z
          /\ (r = Ok tt <-> w = LAST_SCHEMA_VERSION)
          /\ (forall e, r = Err e -> fst (migrate_to (w + 1)%Z s') = Err e)
          /\ (forall p, r = Panic p -> w = 3%Z /\ fst (migrate_to 4%Z s') = Panic p /\ ~ users_readable s')
   else s' = s /\ exists e, r = Err e)
  /\ version_of (snd (init_table s)) = Some 3%Z.
Proof. intros s. split; [apply (init_table_refines _ 1%Z); [by vm_compute|done]|by vm_compute]. Defined.

(** A user whose id is a blob, in conflict with another: the migration to version 4 does not
    log the two, it panics. *)
Example unreadable_conflict_panics :
  let row id := [("user_id", id); ("email", SqlText "bob@x"); ("uuid", SqlText "u")] in
  let users := mk_sql_table [column "user_id"; column "email"; column "uuid"] [] [] []
                 [row (SqlText "bob"); row (SqlBlob [])] in
  let s := mk_engine {[ "users" := users;
                        "metadata" := mk_sql_table [column "version"] [] [] [] [[("version", SqlInt 3)]] ]} 0 BackendSqlite in
  exists p, init_table s = (Panic p, s).
Proof. eexists. vm_compute. reflexivity. Qed.

(** A version that is no 16-bit integer is taken for none: the first schema is created
    again, and the [unwrap] of the version that is read back panics. *)
Example version_out_of_range_panics :
  let metadata := mk_sql_table [column "version"] [] [] [] [[("version", SqlInt 70000)]] in
  exists p, fst (init_table (mk_engine {[ "metadata" := metadata ]} 0 BackendSqlite)) = Panic p.
Proof. eexists. vm_compute. reflexivity. Qed.

(** The lower-case column a migration fills with the database's [LOWER] is not the one
    the program writes for a new user: outside ASCII they differ. *)
Example migrated_email_not_lowered :
  row_get (user_row_v6 old_greek) "lowercase_email" = SqlText "Σ@x"
  /\ to_lowercase "Σ@x" = "σ@x".
Proof. by vm_compute. Qed.
End Examples.
