(* ===== verification/Db.v ===== *)
(** * The database

    The tables the server keeps, after all migrations, as finite maps keyed by
    their primary keys ([server/src/domain/model/*.rs], the [CREATE TABLE] and
    [CREATE INDEX] statements of [sql_migrations.rs] and [jwt_sql_tables.rs]),
    and the SQL statements the handlers issue, with the constraints those
    definitions declare: primary keys, unique indexes, foreign keys with
    [ON DELETE CASCADE].  A statement that violates a constraint fails and
    changes nothing.  Engine: SQLite (the default), where text compares by
    bytes, [ON CONFLICT DO UPDATE] is applied row by row and an
    [AUTOINCREMENT] key is never reused.  Connection failures are not modelled. *)

From S2P Require Import Prelude RustStd Extern Types Handler.
From Stdlib Require Import Ascii String.
From stdpp Require Import strings list gmap fin_maps.

(* ------------------------------------------------------------------ *)
(** ** Rows *)

(** Table [users]; the key [user_id] is the map's key.
    Source: server/src/domain/model/users.rs#struct Model *)
Record UserRow := mk_user_row {
  ur_email : Email;
  ur_lowercase_email : string;
  ur_display_name : option string;
  ur_creation_date : NaiveDateTime;
  ur_password_hash : option bytes;
  ur_totp_secret : option string;
  ur_mfa_type : option string;
  ur_uuid : Uuid;
}.

(** Table [groups].
    Source: server/src/domain/model/groups.rs#struct Model *)
Record GroupRow := mk_group_row {
  gr_display_name : GroupName;
  gr_lowercase_display_name : string;
  gr_creation_date : NaiveDateTime;
  gr_uuid : Uuid;
}.

(** Tables [user_attribute_schema] and [group_attribute_schema].
    Source: server/src/domain/model/user_attribute_schema.rs#struct Model *)
Record SchemaRow := mk_schema_row {
  sr_attribute_type : AttributeType;
  sr_is_list : bool;
  sr_is_visible : bool;
  sr_is_editable : bool;
  sr_is_hardcoded : bool;
}.

(** Table [jwt_refresh_storage], keyed by the hash as [i64].
    Source: server/src/domain/model/jwt_refresh_storage.rs#struct Model *)
Record RefreshRow := mk_refresh_row { rr_user_id : UserId; rr_expiry_date : NaiveDateTime }.

(** Table [jwt_storage], keyed by the hash as [i64].
    Source: server/src/domain/model/jwt_storage.rs#struct Model *)
Record JwtRow := mk_jwt_row {
  jr_user_id : UserId;
  jr_expiry_date : NaiveDateTime;
  jr_blacklisted : bool;
}.

(** Table [password_reset_tokens], keyed by the token.
    Source: server/src/domain/model/password_reset_tokens.rs#struct Model *)
Record ResetRow := mk_reset_row { pr_user_id : UserId; pr_expiry_date : NaiveDateTime }.

#[global] Instance user_row_eq_dec : EqDecision UserRow.
Proof. solve_decision. Defined.
#[global] Instance group_row_eq_dec : EqDecision GroupRow.
Proof. solve_decision. Defined.
#[global] Instance jwt_row_eq_dec : EqDecision JwtRow.
Proof. solve_decision. Defined.

(* ------------------------------------------------------------------ *)
(** ** Tables *)

Record Db := mk_db {
  db_users : gmap UserId UserRow;
  db_groups : gmap GroupId GroupRow;
  db_groups_seq : Z;
  db_memberships : gset (UserId * GroupId);
  db_user_attributes : gmap (UserId * AttributeName) Serialized;
  db_group_attributes : gmap (GroupId * AttributeName) Serialized;
  db_user_attribute_schema : gmap AttributeName SchemaRow;
  db_group_attribute_schema : gmap AttributeName SchemaRow;
  db_user_object_classes : gmap string LdapObjectClass;
  db_group_object_classes : gmap string LdapObjectClass;
  db_jwt_refresh_storage : gmap Z RefreshRow;
  db_jwt_storage : gmap Z JwtRow;
  db_password_reset_tokens : gmap string ResetRow;
}.

Definition set_users (x : gmap UserId UserRow) (db : Db) : Db :=
  {| db_users := x;
     db_groups := db_groups db;
     db_groups_seq := db_groups_seq db;
     db_memberships := db_memberships db;
     db_user_attributes := db_user_attributes db;
     db_group_attributes := db_group_attributes db;
     db_user_attribute_schema := db_user_attribute_schema db;
     db_group_attribute_schema := db_group_attribute_schema db;
     db_user_object_classes := db_user_object_classes db;
     db_group_object_classes := db_group_object_classes db;
     db_jwt_refresh_storage := db_jwt_refresh_storage db;
     db_jwt_storage := db_jwt_storage db;
     db_password_reset_tokens := db_password_reset_tokens db |}.
Definition set_groups (x : gmap GroupId GroupRow) (db : Db) : Db :=
  {| db_users := db_users db;
     db_groups := x;
     db_groups_seq := db_groups_seq db;
     db_memberships := db_memberships db;
     db_user_attributes := db_user_attributes db;
     db_group_attributes := db_group_attributes db;
     db_user_attribute_schema := db_user_attribute_schema db;
     db_group_attribute_schema := db_group_attribute_schema db;
     db_user_object_classes := db_user_object_classes db;
     db_group_object_classes := db_group_object_classes db;
     db_jwt_refresh_storage := db_jwt_refresh_storage db;
     db_jwt_storage := db_jwt_storage db;
     db_password_reset_tokens := db_password_reset_tokens db |}.
Definition set_groups_seq (x : Z) (db : Db) : Db :=
  {| db_users := db_users db;
     db_groups := db_groups db;
     db_groups_seq := x;
     db_memberships := db_memberships db;
     db_user_attributes := db_user_attributes db;
     db_group_attributes := db_group_attributes db;
     db_user_attribute_schema := db_user_attribute_schema db;
     db_group_attribute_schema := db_group_attribute_schema db;
     db_user_object_classes := db_user_object_classes db;
     db_group_object_classes := db_group_object_classes db;
     db_jwt_refresh_storage := db_jwt_refresh_storage db;
     db_jwt_storage := db_jwt_storage db;
     db_password_reset_tokens := db_password_reset_tokens db |}.
Definition set_memberships (x : gset (UserId * GroupId)) (db : Db) : Db :=
  {| db_users := db_users db;
     db_groups := db_groups db;
     db_groups_seq := db_groups_seq db;
     db_memberships := x;
     db_user_attributes := db_user_attributes db;
     db_group_attributes := db_group_attributes db;
     db_user_attribute_schema := db_user_attribute_schema db;
     db_group_attribute_schema := db_group_attribute_schema db;
     db_user_object_classes := db_user_object_classes db;
     db_group_object_classes := db_group_object_classes db;
     db_jwt_refresh_storage := db_jwt_refresh_storage db;
     db_jwt_storage := db_jwt_storage db;
     db_password_reset_tokens := db_password_reset_tokens db |}.
Definition set_user_attributes (x : gmap (UserId * AttributeName) Serialized) (db : Db) : Db :=
  {| db_users := db_users db;
     db_groups := db_groups db;
     db_groups_seq := db_groups_seq db;
     db_memberships := db_memberships db;
     db_user_attributes := x;
     db_group_attributes := db_group_attributes db;
     db_user_attribute_schema := db_user_attribute_schema db;
     db_group_attribute_schema := db_group_attribute_schema db;
     db_user_object_classes := db_user_object_classes db;
     db_group_object_classes := db_group_object_classes db;
     db_jwt_refresh_storage := db_jwt_refresh_storage db;
     db_jwt_storage := db_jwt_storage db;
     db_password_reset_tokens := db_password_reset_tokens db |}.
Definition set_group_attributes (x : gmap (GroupId * AttributeName) Serialized) (db : Db) : Db :=
  {| db_users := db_users db;
     db_groups := db_groups db;
     db_groups_seq := db_groups_seq db;
     db_memberships := db_memberships db;
     db_user_attributes := db_user_attributes db;
     db_group_attributes := x;
     db_user_attribute_schema := db_user_attribute_schema db;
     db_group_attribute_schema := db_group_attribute_schema db;
     db_user_object_classes := db_user_object_classes db;
     db_group_object_classes := db_group_object_classes db;
     db_jwt_refresh_storage := db_jwt_refresh_storage db;
     db_jwt_storage := db_jwt_storage db;
     db_password_reset_tokens := db_password_reset_tokens db |}.
Definition set_user_attribute_schema (x : gmap AttributeName SchemaRow) (db : Db) : Db :=
  {| db_users := db_users db;
     db_groups := db_groups db;
     db_groups_seq := db_groups_seq db;
     db_memberships := db_memberships db;
     db_user_attributes := db_user_attributes db;
     db_group_attributes := db_group_attributes db;
     db_user_attribute_schema := x;
     db_group_attribute_schema := db_group_attribute_schema db;
     db_user_object_classes := db_user_object_classes db;
     db_group_object_classes := db_group_object_classes db;
     db_jwt_refresh_storage := db_jwt_refresh_storage db;
     db_jwt_storage := db_jwt_storage db;
     db_password_reset_tokens := db_password_reset_tokens db |}.
Definition set_group_attribute_schema (x : gmap AttributeName SchemaRow) (db : Db) : Db :=
  {| db_users := db_users db;
     db_groups := db_groups db;
     db_groups_seq := db_groups_seq db;
     db_memberships := db_memberships db;
     db_user_attributes := db_user_attributes db;
     db_group_attributes := db_group_attributes db;
     db_user_attribute_schema := db_user_attribute_schema db;
     db_group_attribute_schema := x;
     db_user_object_classes := db_user_object_classes db;
     db_group_object_classes := db_group_object_classes db;
     db_jwt_refresh_storage := db_jwt_refresh_storage db;
     db_jwt_storage := db_jwt_storage db;
     db_password_reset_tokens := db_password_reset_tokens db |}.
Definition set_user_object_classes (x : gmap string LdapObjectClass) (db : Db) : Db :=
  {| db_users := db_users db;
     db_groups := db_groups db;
     db_groups_seq := db_groups_seq db;
     db_memberships := db_memberships db;
     db_user_attributes := db_user_attributes db;
     db_group_attributes := db_group_attributes db;
     db_user_attribute_schema := db_user_attribute_schema db;
     db_group_attribute_schema := db_group_attribute_schema db;
     db_user_object_classes := x;
     db_group_object_classes := db_group_object_classes db;
     db_jwt_refresh_storage := db_jwt_refresh_storage db;
     db_jwt_storage := db_jwt_storage db;
     db_password_reset_tokens := db_password_reset_tokens db |}.
Definition set_group_object_classes (x : gmap string LdapObjectClass) (db : Db) : Db :=
  {| db_users := db_users db;
     db_groups := db_groups db;
     db_groups_seq := db_groups_seq db;
     db_memberships := db_memberships db;
     db_user_attributes := db_user_attributes db;
     db_group_attributes := db_group_attributes db;
     db_user_attribute_schema := db_user_attribute_schema db;
     db_group_attribute_schema := db_group_attribute_schema db;
     db_user_object_classes := db_user_object_classes db;
     db_group_object_classes := x;
     db_jwt_refresh_storage := db_jwt_refresh_storage db;
     db_jwt_storage := db_jwt_storage db;
     db_password_reset_tokens := db_password_reset_tokens db |}.
Definition set_jwt_refresh_storage (x : gmap Z RefreshRow) (db : Db) : Db :=
  {| db_users := db_users db;
     db_groups := db_groups db;
     db_groups_seq := db_groups_seq db;
     db_memberships := db_memberships db;
     db_user_attributes := db_user_attributes db;
     db_group_attributes := db_group_attributes db;
     db_user_attribute_schema := db_user_attribute_schema db;
     db_group_attribute_schema := db_group_attribute_schema db;
     db_user_object_classes := db_user_object_classes db;
     db_group_object_classes := db_group_object_classes db;
     db_jwt_refresh_storage := x;
     db_jwt_storage := db_jwt_storage db;
     db_password_reset_tokens := db_password_reset_tokens db |}.
Definition set_jwt_storage (x : gmap Z JwtRow) (db : Db) : Db :=
  {| db_users := db_users db;
     db_groups := db_groups db;
     db_groups_seq := db_groups_seq db;
     db_memberships := db_memberships db;
     db_user_attributes := db_user_attributes db;
     db_group_attributes := db_group_attributes db;
     db_user_attribute_schema := db_user_attribute_schema db;
     db_group_attribute_schema := db_group_attribute_schema db;
     db_user_object_classes := db_user_object_classes db;
     db_group_object_classes := db_group_object_classes db;
     db_jwt_refresh_storage := db_jwt_refresh_storage db;
     db_jwt_storage := x;
     db_password_reset_tokens := db_password_reset_tokens db |}.
Definition set_password_reset_tokens (x : gmap string ResetRow) (db : Db) : Db :=
  {| db_users := db_users db;
     db_groups := db_groups db;
     db_groups_seq := db_groups_seq db;
     db_memberships := db_memberships db;
     db_user_attributes := db_user_attributes db;
     db_group_attributes := db_group_attributes db;
     db_user_attribute_schema := db_user_attribute_schema db;
     db_group_attribute_schema := db_group_attribute_schema db;
     db_user_object_classes := db_user_object_classes db;
     db_group_object_classes := db_group_object_classes db;
     db_jwt_refresh_storage := db_jwt_refresh_storage db;
     db_jwt_storage := db_jwt_storage db;
     db_password_reset_tokens := x |}.

Definition empty_db : Db :=
  mk_db ∅ ∅ 0%Z ∅ ∅ ∅ ∅ ∅ ∅ ∅ ∅ ∅ ∅.

(** What [&self] and the process give a handler: the database, the clock read by
    [Utc::now()] (constant during a call), and the strings the random generator
    yields, with the position of the next one. *)
Record World := mk_world {
  w_db : Db;
  w_now : NaiveDateTime;
  w_rng : nat -> string;
  w_rng_pos : nat;
}.

Definition set_db (db : Db) (w : World) : World :=
  mk_world db (w_now w) (w_rng w) (w_rng_pos w).

Abbreviation SQL A := (stM World DomainError A).

(** [chrono::Utc::now().naive_utc()] *)
Definition utc_now : SQL NaiveDateTime := fun w => (Ok (w_now w), w).

Definition query {A} (f : Db -> A) : SQL A := fun w => (Ok (f (w_db w)), w).
Definition statement {A} (f : Db -> outcome DomainError (A * Db)) : SQL A :=
  fun w => match f (w_db w) with
           | Ok (a, db) => (Ok a, set_db db w)
           | Err e => (Err e, w)
           | Panic p => (Panic p, w)
           end.

(* ------------------------------------------------------------------ *)
(** ** Statements on [users] *)

Definition unique (what : string) : DomainError := DatabaseError (UniqueConstraintViolation what).
Definition foreign_key (what : string) : DomainError := DatabaseError (ForeignKeyViolation what).
Definition not_updated : DomainError := DatabaseError RecordNotUpdated.

Definition guard_ {E} (e : E) (P : Prop) `{Decision P} : outcome E unit :=
  if decide P then Ok tt else Err e.

Lemma guard_ok {E} (e : E) (P : Prop) `{Decision P} x : guard_ e P = Ok x -> P.
Proof. unfold guard_. by case_decide. Qed.

(** The checks a statement passed, from its [Ok] result. *)
Ltac checked H :=
  repeat match type of H with
  | obind (guard_ _ _) _ = Ok _ => apply obind_ok in H as ([] & ?%guard_ok & H)
  end.

(** Two rows that the unique indexes of [users] keep apart
    (the last two since schema version 4).
    Source: server/src/domain/sql_migrations.rs#L582-606 *)
Definition user_rows_differ (r r' : UserRow) : Prop :=
  ur_email r <> ur_email r'
  /\ ur_lowercase_email r <> ur_lowercase_email r'
  /\ ur_uuid r <> ur_uuid r'.
#[global] Instance user_rows_differ_dec : RelDecision user_rows_differ.
Proof. unfold RelDecision, user_rows_differ. apply _. Defined.
#[global] Instance user_rows_differ_sym : Symmetric user_rows_differ.
Proof. intros r r' (? & ? & ?). split_and!; congruence. Qed.

Definition user_unique (u : UserId) (r : UserRow) (db : Db) : Prop :=
  fits user_rows_differ u r (db_users db).
#[global] Instance user_unique_dec u r db : Decision (user_unique u r db).
Proof. unfold user_unique. apply _. Defined.

(** The table and its indexes.
    Source: server/src/domain/sql_migrations.rs#L147-173 *)
Definition insert_user (u : UserId) (r : UserRow) : SQL unit :=
  statement (fun db =>
    let? _ := guard_ (unique "users.user_id") (db_users db !! u = None) in
    let? _ := guard_ (unique "users") (user_unique u r db) in
    Ok (tt, set_users (<[u := r]> (db_users db)) db)).

(** [ActiveModel::update]: when the key is absent, it fails with
    [RecordNotUpdated], or with [RecordNotFound] if no column is set and sea_orm
    only reads the row back. *)
Definition missing_row (noop : bool) : DomainError :=
  if noop then DatabaseError (RecordNotFound "Failed to find updated item") else not_updated.

Definition update_user_row (noop : bool) (u : UserId) (f : UserRow -> UserRow) : SQL unit :=
  statement (fun db =>
    match db_users db !! u with
    | None => Err (missing_row noop)
    | Some r =>
        let? _ := guard_ (unique "users") (user_unique u (f r) db) in
        Ok (tt, set_users (<[u := f r]> (db_users db)) db)
    end).

(** [DELETE FROM users WHERE user_id = u], with the cascades of the five tables
    that refer to [users]; the number of rows deleted. *)
Definition cascade_user (u : UserId) (db : Db) : Db :=
  set_memberships (filter (fun p => p.1 <> u) (db_memberships db))
  (set_user_attributes (filter (fun kv => kv.1.1 <> u) (db_user_attributes db))
  (set_jwt_refresh_storage (filter (fun kv => rr_user_id kv.2 <> u) (db_jwt_refresh_storage db))
  (set_jwt_storage (filter (fun kv => jr_user_id kv.2 <> u) (db_jwt_storage db))
  (set_password_reset_tokens (filter (fun kv => pr_user_id kv.2 <> u) (db_password_reset_tokens db))
  (set_users (delete u (db_users db)) db))))).

Definition delete_user_row (u : UserId) : SQL nat :=
  statement (fun db =>
    match db_users db !! u with
    | None => Ok (0, db)
    | Some _ => Ok (1, cascade_user u db)
    end).

(* ------------------------------------------------------------------ *)
(** ** Statements on [groups] *)

Definition group_rows_differ (r r' : GroupRow) : Prop :=
  gr_display_name r <> gr_display_name r'
  /\ gr_lowercase_display_name r <> gr_lowercase_display_name r'
  /\ gr_uuid r <> gr_uuid r'.
#[global] Instance group_rows_differ_dec : RelDecision group_rows_differ.
Proof. unfold RelDecision, group_rows_differ. apply _. Defined.
#[global] Instance group_rows_differ_sym : Symmetric group_rows_differ.
Proof. intros r r' (? & ? & ?). split_and!; congruence. Qed.

Definition group_unique (g : GroupId) (r : GroupRow) (db : Db) : Prop :=
  fits group_rows_differ g r (db_groups db).
#[global] Instance group_unique_dec g r db : Decision (group_unique g r db).
Proof. unfold group_unique. apply _. Defined.

(** The auto-increment key and the indexes.
    Source: server/src/domain/sql_migrations.rs#L176-197 *)
Definition insert_group (r : GroupRow) : SQL GroupId :=
  statement (fun db =>
    let g := (db_groups_seq db + 1)%Z in
    let? _ := guard_ (unique "groups") (group_unique g r db) in
    Ok (g, set_groups_seq g (set_groups (<[g := r]> (db_groups db)) db))).

Definition update_group_row (noop : bool) (g : GroupId) (f : GroupRow -> GroupRow) : SQL unit :=
  statement (fun db =>
    match db_groups db !! g with
    | None => Err (missing_row noop)
    | Some r =>
        let? _ := guard_ (unique "groups") (group_unique g (f r) db) in
        Ok (tt, set_groups (<[g := f r]> (db_groups db)) db)
    end).

Definition cascade_group (g : GroupId) (db : Db) : Db :=
  set_memberships (filter (fun p => p.2 <> g) (db_memberships db))
  (set_group_attributes (filter (fun kv => kv.1.1 <> g) (db_group_attributes db))
  (set_groups (delete g (db_groups db)) db)).

Definition delete_group_row (g : GroupId) : SQL nat :=
  statement (fun db =>
    match db_groups db !! g with
    | None => Ok (0, db)
    | Some _ => Ok (1, cascade_group g db)
    end).

(* ------------------------------------------------------------------ *)
(** ** Statements on [memberships] *)

(** The composite key and the two foreign keys.
    Source: server/src/domain/sql_migrations.rs#L319-347 *)
Definition insert_membership (u : UserId) (g : GroupId) : SQL unit :=
  statement (fun db =>
    let? _ := guard_ (unique "memberships") ((u, g) ∉ db_memberships db) in
    let? _ := guard_ (foreign_key "MembershipUserForeignKey") (is_Some (db_users db !! u)) in
    let? _ := guard_ (foreign_key "MembershipGroupForeignKey") (is_Some (db_groups db !! g)) in
    Ok (tt, set_memberships ({[(u, g)]} ∪ db_memberships db) db)).

Definition delete_membership (u : UserId) (g : GroupId) : SQL nat :=
  statement (fun db =>
    if decide ((u, g) ∈ db_memberships db)
    then Ok (1, set_memberships (db_memberships db ∖ {[(u, g)]}) db)
    else Ok (0, db)).

(* ------------------------------------------------------------------ *)
(** ** Statements on the attribute tables *)

(** [INSERT INTO user_attributes VALUES ..] of several rows, all or none;
    [upsert] is [ON CONFLICT (user, name) DO UPDATE SET value].
    Source: server/src/domain/model/user_attributes.rs#struct Model *)
Fixpoint put_user_attributes (upsert : bool) (u : UserId) (rows : list (AttributeName * Serialized))
    (db : Db) : outcome DomainError Db :=
  match rows with
  | [] => Ok db
  | (a, v) :: rows =>
      let? _ := guard_ (unique "user_attributes")
                  (upsert = true \/ db_user_attributes db !! (u, a) = None) in
      let? _ := guard_ (foreign_key "UserAttributeUserIdForeignKey") (is_Some (db_users db !! u)) in
      let? _ := guard_ (foreign_key "UserAttributeNameForeignKey")
                  (is_Some (db_user_attribute_schema db !! a)) in
      put_user_attributes upsert u rows
        (set_user_attributes (<[(u, a) := v]> (db_user_attributes db)) db)
  end.

Definition insert_user_attributes (upsert : bool) (u : UserId)
    (rows : list (AttributeName * Serialized)) : SQL unit :=
  statement (fun db => omap_ok (fun db' => (tt, db')) (put_user_attributes upsert u rows db)).

Definition delete_user_attributes (u : UserId) (names : list AttributeName) : SQL unit :=
  statement (fun db => Ok (tt,
    set_user_attributes
      (filter (fun kv => ~ (kv.1.1 = u /\ kv.1.2 ∈ names)) (db_user_attributes db)) db)).

(** Source: server/src/domain/model/group_attributes.rs#struct Model *)
Fixpoint put_group_attributes (upsert : bool) (g : GroupId) (rows : list (AttributeName * Serialized))
    (db : Db) : outcome DomainError Db :=
  match rows with
  | [] => Ok db
  | (a, v) :: rows =>
      let? _ := guard_ (unique "group_attributes")
                  (upsert = true \/ db_group_attributes db !! (g, a) = None) in
      let? _ := guard_ (foreign_key "GroupAttributeGroupIdForeignKey") (is_Some (db_groups db !! g)) in
      let? _ := guard_ (foreign_key "GroupAttributeNameForeignKey")
                  (is_Some (db_group_attribute_schema db !! a)) in
      put_group_attributes upsert g rows
        (set_group_attributes (<[(g, a) := v]> (db_group_attributes db)) db)
  end.

Definition insert_group_attributes (upsert : bool) (g : GroupId)
    (rows : list (AttributeName * Serialized)) : SQL unit :=
  statement (fun db => omap_ok (fun db' => (tt, db')) (put_group_attributes upsert g rows db)).

Definition delete_group_attributes (g : GroupId) (names : list AttributeName) : SQL unit :=
  statement (fun db => Ok (tt,
    set_group_attributes
      (filter (fun kv => ~ (kv.1.1 = g /\ kv.1.2 ∈ names)) (db_group_attributes db)) db)).

(** The value the last of the rows gives to a name. *)
Definition last_value (rows : list (AttributeName * Serialized)) (a : AttributeName) : option Serialized :=
  foldl (fun acc row => if decide (row.1 = a) then Some row.2 else acc) None rows.

(** Writing rows under one key [k] of a table of attributes. *)
Definition write_rows `{Countable K} (k : K) (rows : list (AttributeName * Serialized))
    (m : gmap (K * AttributeName) Serialized) : gmap (K * AttributeName) Serialized :=
  foldl (fun m row => <[(k, row.1) := row.2]> m) m rows.

Lemma last_value_acc rows a acc :
  foldl (fun acc row => if decide (row.1 = a) then Some row.2 else acc) acc rows
  = match last_value rows a with Some v => Some v | None => acc end.
Proof.
  unfold last_value. revert acc. induction rows as [|[a' v] rows IH]; intros acc; simpl; [done|].
  rewrite (IH (if decide (a' = a) then _ else acc)), (IH (if decide (a' = a) then _ else None)).
  by repeat case_match.
Qed.

Lemma last_value_cons a' v rows a :
  last_value ((a', v) :: rows) a
  = match last_value rows a with Some v => Some v | None => if decide (a' = a) then Some v else None end.
Proof. unfold last_value at 1. simpl. by rewrite last_value_acc. Qed.
Lemma last_value_elem rows a v : last_value rows a = Some v -> (a, v) ∈ rows.
Proof.
  induction rows as [|[a' v'] rows IH]; [done|]. rewrite last_value_cons. destruct (last_value rows a); [right; auto|].
  case_decide; [|done]. intros [= ->]. subst. by left.
Qed.

Lemma last_value_None rows a : last_value rows a = None <-> a ∉ rows.*1.
Proof.
  induction rows as [|[a' v] rows IH]; [by split; [intros _; apply not_elem_of_nil|]|].
  rewrite last_value_cons, fmap_cons, not_elem_of_cons, <- IH. simpl.
  destruct (last_value rows a); [naive_solver|]. case_decide; naive_solver.
Qed.

Lemma lookup_write_rows `{Countable K} (k : K) rows m k' a :
  write_rows k rows m !! (k', a)
  = if decide (k' = k) then
      match last_value rows a with Some v => Some v | None => m !! (k', a) end
    else m !! (k', a).
Proof.
  unfold write_rows. revert m. induction rows as [|[a' v] rows IH]; intros m; simpl; [by case_decide|].
  rewrite IH. case_decide as Hk.
  - subst k'. rewrite last_value_cons. destruct (last_value rows a); [done|].
    case_decide as Ha; [by subst; rewrite lookup_insert_eq|by rewrite lookup_insert_ne by congruence].
  - by rewrite lookup_insert_ne by congruence.
Qed.

Lemma put_user_attributes_run upsert u rows db db' :
  put_user_attributes upsert u rows db = Ok db' ->
  db' = set_user_attributes (write_rows u rows (db_user_attributes db)) db.
Proof.
  revert db. induction rows as [|[a v] rows IH]; intros db; simpl; [by destruct db; intros [= <-]|].
  unfold guard_. do 3 (case_decide; simpl; [|done]). intros ->%IH. done.
Qed.

Lemma put_group_attributes_run upsert g rows db db' :
  put_group_attributes upsert g rows db = Ok db' ->
  db' = set_group_attributes (write_rows g rows (db_group_attributes db)) db.
Proof.
  revert db. induction rows as [|[a v] rows IH]; intros db; simpl; [by destruct db; intros [= <-]|].
  unfold guard_. do 3 (case_decide; simpl; [|done]). intros ->%IH. done.
Qed.

Lemma put_user_attributes_no_panic upsert u rows db p : put_user_attributes upsert u rows db <> Panic p.
Proof.
  revert db. induction rows as [|[a v] rows IH]; intros db; simpl; [done|].
  unfold guard_. do 3 (case_decide; simpl; [|done]). apply IH.
Qed.

Lemma put_group_attributes_no_panic upsert g rows db p : put_group_attributes upsert g rows db <> Panic p.
Proof.
  revert db. induction rows as [|[a v] rows IH]; intros db; simpl; [done|].
  unfold guard_. do 3 (case_decide; simpl; [|done]). apply IH.
Qed.

(** When [INSERT] succeeds: the user exists, the names are in the schema, and
    without [ON CONFLICT] they are new and distinct. *)
Definition rows_insertable (upsert : bool) (u : UserId) (rows : list (AttributeName * Serialized)) (db : Db) : Prop :=
  (upsert = true \/ NoDup rows.*1 /\ Forall (fun a => db_user_attributes db !! (u, a) = None) rows.*1)
  /\ is_Some (db_users db !! u)
  /\ Forall (fun a => is_Some (db_user_attribute_schema db !! a)) rows.*1.

Lemma put_user_attributes_total upsert u rows db :
  is_Some (db_users db !! u) ->
  (exists db', put_user_attributes upsert u rows db = Ok db') <-> rows_insertable upsert u rows db.
Proof.
  unfold rows_insertable. intros Hu. revert db Hu. induction rows as [|[a v] rows IH]; intros db Hu.
  { simpl. split; [intros _|by eauto]. split_and!; [right; split; constructor|done|constructor]. }
  cbn [put_user_attributes]. rewrite fmap_cons, !Forall_cons, NoDup_cons. simpl.
  unfold guard_. case_decide as Hup; simpl.
  2:{ split; [by intros [? ?]|]. naive_solver. }
  rewrite decide_True by done. simpl. case_decide as Ha; simpl; [|split; [by intros [? ?]|naive_solver]].
  rewrite IH by done. simpl. split.
  - intros (H & _ & Hs). split_and!; try done. destruct H as [->|[Hnd Hf]]; [by left|].
    destruct Hup as [->|Hup]; [by left|]. right. rewrite Forall_forall in Hf.
    assert (a ∉ rows.*1). { intros Hin%Hf. by rewrite lookup_insert_eq in Hin. }
    split_and!; try done. apply Forall_forall. intros a' Hin. specialize (Hf a' Hin).
    by rewrite lookup_insert_ne in Hf by set_solver.
  - intros (H & _ & [_ Hs]). split_and!; try done.
    destruct H as [->|[[Hn Hnd] [_ Hf]]]; [by left|]. right. split; [done|].
    rewrite Forall_forall in Hf |- *. intros a' Hin.
    rewrite lookup_insert_ne; [by apply Hf|]. intros [= ->]. done.
Qed.

(* ------------------------------------------------------------------ *)
(** ** Statements on the schema tables *)

Definition insert_user_schema (a : AttributeName) (r : SchemaRow) : SQL unit :=
  statement (fun db =>
    let? _ := guard_ (unique "user_attribute_schema") (db_user_attribute_schema db !! a = None) in
    Ok (tt, set_user_attribute_schema (<[a := r]> (db_user_attribute_schema db)) db)).

Definition insert_group_schema (a : AttributeName) (r : SchemaRow) : SQL unit :=
  statement (fun db =>
    let? _ := guard_ (unique "group_attribute_schema") (db_group_attribute_schema db !! a = None) in
    Ok (tt, set_group_attribute_schema (<[a := r]> (db_group_attribute_schema db)) db)).

(** Deleting a schema row cascades to the values stored under it. *)
Definition delete_user_schema (a : AttributeName) : SQL unit :=
  statement (fun db => Ok (tt,
    set_user_attributes (filter (fun kv => kv.1.2 <> a) (db_user_attributes db))
      (set_user_attribute_schema (delete a (db_user_attribute_schema db)) db))).

Definition delete_group_schema (a : AttributeName) : SQL unit :=
  statement (fun db => Ok (tt,
    set_group_attributes (filter (fun kv => kv.1.2 <> a) (db_group_attributes db))
      (set_group_attribute_schema (delete a (db_group_attribute_schema db)) db))).

Definition insert_user_class (key : string) (c : LdapObjectClass) : SQL unit :=
  statement (fun db =>
    let? _ := guard_ (unique "user_object_classes") (db_user_object_classes db !! key = None) in
    Ok (tt, set_user_object_classes (<[key := c]> (db_user_object_classes db)) db)).

Definition insert_group_class (key : string) (c : LdapObjectClass) : SQL unit :=
  statement (fun db =>
    let? _ := guard_ (unique "group_object_classes") (db_group_object_classes db !! key = None) in
    Ok (tt, set_group_object_classes (<[key := c]> (db_group_object_classes db)) db)).

Definition delete_user_class (key : string) : SQL unit :=
  statement (fun db => Ok (tt, set_user_object_classes (delete key (db_user_object_classes db)) db)).

Definition delete_group_class (key : string) : SQL unit :=
  statement (fun db => Ok (tt, set_group_object_classes (delete key (db_group_object_classes db)) db)).

(* ------------------------------------------------------------------ *)
(** ** Statements on the token tables *)

(** Source: server/src/infra/jwt_sql_tables.rs#L40-71 *)
Definition insert_refresh (k : Z) (r : RefreshRow) : SQL unit :=
  statement (fun db =>
    let? _ := guard_ (unique "jwt_refresh_storage") (db_jwt_refresh_storage db !! k = None) in
    let? _ := guard_ (foreign_key "JwtRefreshStorageUserForeignKey")
                (is_Some (db_users db !! rr_user_id r)) in
    Ok (tt, set_jwt_refresh_storage (<[k := r]> (db_jwt_refresh_storage db)) db)).

(** Source: server/src/infra/jwt_sql_tables.rs#L73-110 *)
Definition insert_jwt (k : Z) (r : JwtRow) : SQL unit :=
  statement (fun db =>
    let? _ := guard_ (unique "jwt_storage") (db_jwt_storage db !! k = None) in
    let? _ := guard_ (foreign_key "JwtStorageUserForeignKey")
                (is_Some (db_users db !! jr_user_id r)) in
    Ok (tt, set_jwt_storage (<[k := r]> (db_jwt_storage db)) db)).

(** Source: server/src/infra/jwt_sql_tables.rs#L112-143 *)
Definition insert_reset_token (k : string) (r : ResetRow) : SQL unit :=
  statement (fun db =>
    let? _ := guard_ (unique "password_reset_tokens") (db_password_reset_tokens db !! k = None) in
    let? _ := guard_ (foreign_key "PasswordResetTokensUserForeignKey")
                (is_Some (db_users db !! pr_user_id r)) in
    Ok (tt, set_password_reset_tokens (<[k := r]> (db_password_reset_tokens db)) db)).

(** The three [DELETE]s by a condition on the row; the number of rows is only
    read for reset tokens. *)
Definition keep_refresh (P : Z * RefreshRow -> Prop) `{!forall x, Decision (P x)} : SQL unit :=
  statement (fun db => Ok (tt, set_jwt_refresh_storage (filter P (db_jwt_refresh_storage db)) db)).
Definition keep_jwt (P : Z * JwtRow -> Prop) `{!forall x, Decision (P x)} : SQL unit :=
  statement (fun db => Ok (tt, set_jwt_storage (filter P (db_jwt_storage db)) db)).
Definition keep_reset (P : string * ResetRow -> Prop) `{!forall x, Decision (P x)} : SQL unit :=
  statement (fun db => Ok (tt, set_password_reset_tokens (filter P (db_password_reset_tokens db)) db)).

(** [UPDATE jwt_storage SET blacklisted = TRUE WHERE user_id = u] *)
Definition blacklist_rows (u : UserId) : SQL unit :=
  statement (fun db => Ok (tt, set_jwt_storage
    ((fun r => if decide (jr_user_id r = u)
               then mk_jwt_row (jr_user_id r) (jr_expiry_date r) true else r)
     <$> db_jwt_storage db) db)).

(* ------------------------------------------------------------------ *)
(** ** Integrity

    What the constraints promise of every reachable database, and that the
    lower-case columns follow the names they index. *)

Section Integrity.
Context `{U : Unicode}.

Definition user_row_ok (r : UserRow) : Prop :=
  ur_lowercase_email r = to_lowercase (ci_raw (ur_email r)).
Definition group_row_ok (r : GroupRow) : Prop :=
  gr_lowercase_display_name r = to_lowercase (ci_raw (gr_display_name r)).

Record db_ok (db : Db) : Prop := {
  ok_users : table_ok user_rows_differ (db_users db);
  ok_user_rows : map_Forall (fun _ r => user_row_ok r) (db_users db);
  ok_groups : table_ok group_rows_differ (db_groups db);
  ok_group_rows : map_Forall (fun g r => group_row_ok r /\ (g <= db_groups_seq db)%Z) (db_groups db);
  ok_memberships : forall u g, (u, g) ∈ db_memberships db ->
    is_Some (db_users db !! u) /\ is_Some (db_groups db !! g);
  ok_user_attributes : map_Forall (fun k _ =>
    is_Some (db_users db !! k.1) /\ is_Some (db_user_attribute_schema db !! k.2))
    (db_user_attributes db);
  ok_group_attributes : map_Forall (fun k _ =>
    is_Some (db_groups db !! k.1) /\ is_Some (db_group_attribute_schema db !! k.2))
    (db_group_attributes db);
  ok_refresh : map_Forall (fun _ r => is_Some (db_users db !! rr_user_id r)) (db_jwt_refresh_storage db);
  ok_jwt : map_Forall (fun _ r => is_Some (db_users db !! jr_user_id r)) (db_jwt_storage db);
  ok_reset : map_Forall (fun _ r => is_Some (db_users db !! pr_user_id r)) (db_password_reset_tokens db);
}.

Definition world_ok (w : World) : Prop := db_ok (w_db w).

Lemma empty_db_ok : db_ok empty_db.
Proof. split; simpl; try apply map_Forall_empty. set_solver. Qed.

(** A statement preserves integrity when its function does. *)
Lemma statement_preserves {A} (f : Db -> outcome DomainError (A * Db)) :
  (forall db a db', db_ok db -> f db = Ok (a, db') -> db_ok db') ->
  preserves world_ok (statement f).
Proof.
  intros Hf w Hw. unfold statement. destruct (f (w_db w)) as [[a db']|e|p] eqn:He; [|done..].
  by eapply Hf.
Qed.

(** Rows that stay, when the table they refer to only grows. *)
Lemma is_Some_insert `{Countable K} {A} (m : gmap K A) k x k' :
  is_Some (m !! k') -> is_Some (<[k := x]> m !! k').
Proof. rewrite lookup_insert_is_Some'. auto. Qed.

Lemma is_Some_delete `{Countable K} {A} (m : gmap K A) k k' :
  is_Some (m !! k') -> k <> k' -> is_Some (delete k m !! k').
Proof. rewrite lookup_delete_is_Some. auto. Qed.

Lemma map_Forall_weaken `{Countable K} {A} (P Q : K -> A -> Prop) (m : gmap K A) :
  map_Forall P m -> (forall k x, m !! k = Some x -> P k x -> Q k x) -> map_Forall Q m.
Proof. intros Hm HQ k x Hk. apply HQ; [done|]. by apply Hm. Qed.

Lemma map_Forall_filter `{Countable K} {A} (P : K -> A -> Prop) (Q : K * A -> Prop)
    `{!forall x, Decision (Q x)} (R : K -> A -> Prop) (m : gmap K A) :
  map_Forall P m -> (forall k x, P k x -> Q (k, x) -> R k x) -> map_Forall R (filter Q m).
Proof. intros Hm HQ k x [Hk Hq]%map_lookup_filter_Some. apply HQ; [by apply Hm|done]. Qed.

Lemma put_user_attributes_ok upsert u rows db db' :
  db_ok db -> put_user_attributes upsert u rows db = Ok db' -> db_ok db'.
Proof.
  revert db. induction rows as [|[a v] rows IH]; intros db Hok; simpl; [by intros [= <-]|].
  rewrite obind_ok. intros (_ & _ & H). apply obind_ok in H as (_ & Hu%guard_ok & H).
  apply obind_ok in H as (_ & Ha%guard_ok & H). eapply IH; [|exact H].
  destruct Hok; split; simpl; try done. by apply map_Forall_insert_2.
Qed.

Lemma put_group_attributes_ok upsert g rows db db' :
  db_ok db -> put_group_attributes upsert g rows db = Ok db' -> db_ok db'.
Proof.
  revert db. induction rows as [|[a v] rows IH]; intros db Hok; simpl; [by intros [= <-]|].
  rewrite obind_ok. intros (_ & _ & H). apply obind_ok in H as (_ & Hu%guard_ok & H).
  apply obind_ok in H as (_ & Ha%guard_ok & H). eapply IH; [|exact H].
  destruct Hok; split; simpl; try done. by apply map_Forall_insert_2.
Qed.

Lemma cascade_user_ok u db : db_ok db -> db_ok (cascade_user u db).
Proof.
  intros []. split; simpl; try done.
  - by apply table_ok_delete.
  - by apply map_Forall_delete.
  - intros u' g [Hne H]%elem_of_filter. destruct (ok_memberships0 u' g H). simpl in Hne.
    split; [|done]. by apply is_Some_delete.
  - eapply map_Forall_filter; [done|]. intros k x [] ?. split; [|done]. by apply is_Some_delete.
  - eapply map_Forall_filter; [done|]. intros k x ? ?. by apply is_Some_delete.
  - eapply map_Forall_filter; [done|]. intros k x ? ?. by apply is_Some_delete.
  - eapply map_Forall_filter; [done|]. intros k x ? ?. by apply is_Some_delete.
Qed.

Lemma cascade_group_ok g db : db_ok db -> db_ok (cascade_group g db).
Proof.
  intros []. split; simpl; try done.
  - by apply table_ok_delete.
  - by apply map_Forall_delete.
  - intros u g' [Hne H]%elem_of_filter. destruct (ok_memberships0 u g' H). simpl in Hne.
    split; [done|]. by apply is_Some_delete.
  - eapply map_Forall_filter; [done|]. intros k x [] ?. split; [|done]. by apply is_Some_delete.
Qed.

Lemma set_user_row_ok u r db :
  db_ok db -> user_unique u r db -> user_row_ok r ->
  db_ok (set_users (<[u := r]> (db_users db)) db).
Proof.
  intros [] Hu Hr. split; simpl; try done.
  - by apply table_ok_insert; [apply _|..].
  - by apply map_Forall_insert_2.
  - intros u' g H. destruct (ok_memberships0 u' g H). split; [by apply is_Some_insert|done].
  - eapply map_Forall_weaken; [done|]. intros k x _ []. split; [by apply is_Some_insert|done].
  - eapply map_Forall_weaken; [done|]. intros. by apply is_Some_insert.
  - eapply map_Forall_weaken; [done|]. intros. by apply is_Some_insert.
  - eapply map_Forall_weaken; [done|]. intros. by apply is_Some_insert.
Qed.

Lemma set_group_row_ok g r s db :
  db_ok db -> group_unique g r db -> group_row_ok r -> (db_groups_seq db <= s)%Z -> (g <= s)%Z ->
  db_ok (set_groups_seq s (set_groups (<[g := r]> (db_groups db)) db)).
Proof.
  intros [] Hu Hr Hs Hg. split; simpl; try done.
  - by apply table_ok_insert; [apply _|..].
  - apply map_Forall_insert_2; [by split|]. eapply map_Forall_weaken; [exact ok_group_rows0|].
    intros k x _ []. split; [done|lia].
  - intros u g' H. destruct (ok_memberships0 u g' H). split; [done|by apply is_Some_insert].
  - eapply map_Forall_weaken; [done|]. intros k x _ []. split; [by apply is_Some_insert|done].
Qed.

Lemma query_preserves {A} (f : Db -> A) (P : World -> Prop) : preserves P (query f).
Proof. by intros w. Qed.
Lemma utc_now_preserves (P : World -> Prop) : preserves P utc_now.
Proof. by intros w. Qed.

Ltac statement_ok :=
  apply statement_preserves; intros db ? db' Hok H; cbn beta zeta in H; checked H.

Lemma insert_user_ok u r : user_row_ok r -> preserves world_ok (insert_user u r).
Proof. intros Hr. statement_ok. injection H as <- <-. by apply set_user_row_ok. Qed.

Lemma update_user_row_ok b u f :
  (forall r, user_row_ok r -> user_row_ok (f r)) -> preserves world_ok (update_user_row b u f).
Proof.
  intros Hf. statement_ok. destruct (db_users db !! u) as [r|] eqn:Hu; [|done]. checked H.
  injection H as <- <-. apply set_user_row_ok; [done..|]. apply Hf. by apply (ok_user_rows _ Hok u).
Qed.

Lemma delete_user_row_ok u : preserves world_ok (delete_user_row u).
Proof.
  statement_ok. destruct (db_users db !! u); injection H as <- <-; [by apply cascade_user_ok|done].
Qed.

Lemma insert_group_ok r : group_row_ok r -> preserves world_ok (insert_group r).
Proof. intros Hr. statement_ok. injection H as <- <-. apply set_group_row_ok; try done; lia. Qed.

Lemma update_group_row_ok b g f :
  (forall r, group_row_ok r -> group_row_ok (f r)) -> preserves world_ok (update_group_row b g f).
Proof.
  intros Hf. statement_ok. destruct (db_groups db !! g) as [r|] eqn:Hg; [|done]. checked H.
  injection H as <- <-. destruct (ok_group_rows _ Hok g r Hg).
  by apply (set_group_row_ok g (f r) (db_groups_seq db)); auto with lia.
Qed.

Lemma delete_group_row_ok g : preserves world_ok (delete_group_row g).
Proof.
  statement_ok. destruct (db_groups db !! g); injection H as <- <-; [by apply cascade_group_ok|done].
Qed.

Lemma insert_membership_ok u g : preserves world_ok (insert_membership u g).
Proof.
  statement_ok. injection H as <- <-. destruct Hok. split; simpl; try done.
  intros u' g' [[= -> ->]%elem_of_singleton|Hm]%elem_of_union; auto.
Qed.

Lemma delete_membership_ok u g : preserves world_ok (delete_membership u g).
Proof.
  statement_ok. case_decide; injection H as <- <-; [|done]. destruct Hok. split; simpl; try done.
  intros u' g' [Hm _]%elem_of_difference. auto.
Qed.

Lemma insert_user_attributes_ok b u rows : preserves world_ok (insert_user_attributes b u rows).
Proof.
  statement_ok. apply obind_ok in H as (db'' & H & [= <- <-]). by eapply put_user_attributes_ok.
Qed.

Lemma insert_group_attributes_ok b g rows : preserves world_ok (insert_group_attributes b g rows).
Proof.
  statement_ok. apply obind_ok in H as (db'' & H & [= <- <-]). by eapply put_group_attributes_ok.
Qed.

Lemma delete_user_attributes_ok u names : preserves world_ok (delete_user_attributes u names).
Proof.
  statement_ok. injection H as <- <-. destruct Hok. split; simpl; try done.
  by eapply map_Forall_filter.
Qed.

Lemma delete_group_attributes_ok g names : preserves world_ok (delete_group_attributes g names).
Proof.
  statement_ok. injection H as <- <-. destruct Hok. split; simpl; try done.
  by eapply map_Forall_filter.
Qed.

Lemma insert_user_schema_ok a r : preserves world_ok (insert_user_schema a r).
Proof.
  statement_ok. injection H as <- <-. destruct Hok. split; simpl; try done.
  eapply map_Forall_weaken; [done|]. intros k x _ []. split; [done|by apply is_Some_insert].
Qed.

Lemma insert_group_schema_ok a r : preserves world_ok (insert_group_schema a r).
Proof.
  statement_ok. injection H as <- <-. destruct Hok. split; simpl; try done.
  eapply map_Forall_weaken; [done|]. intros k x _ []. split; [done|by apply is_Some_insert].
Qed.

Lemma delete_user_schema_ok a : preserves world_ok (delete_user_schema a).
Proof.
  statement_ok. injection H as <- <-. destruct Hok. split; simpl; try done.
  eapply map_Forall_filter; [done|]. intros k x [? ?] ?. split; [done|by apply is_Some_delete].
Qed.

Lemma delete_group_schema_ok a : preserves world_ok (delete_group_schema a).
Proof.
  statement_ok. injection H as <- <-. destruct Hok. split; simpl; try done.
  eapply map_Forall_filter; [done|]. intros k x [? ?] ?. split; [done|by apply is_Some_delete].
Qed.

Lemma insert_user_class_ok k c : preserves world_ok (insert_user_class k c).
Proof. statement_ok. injection H as <- <-. by destruct Hok; split. Qed.
Lemma insert_group_class_ok k c : preserves world_ok (insert_group_class k c).
Proof. statement_ok. injection H as <- <-. by destruct Hok; split. Qed.
Lemma delete_user_class_ok k : preserves world_ok (delete_user_class k).
Proof. statement_ok. injection H as <- <-. by destruct Hok; split. Qed.
Lemma delete_group_class_ok k : preserves world_ok (delete_group_class k).
Proof. statement_ok. injection H as <- <-. by destruct Hok; split. Qed.

Lemma insert_refresh_ok k r : preserves world_ok (insert_refresh k r).
Proof.
  statement_ok. injection H as <- <-. destruct Hok. split; simpl; try done.
  by apply map_Forall_insert_2.
Qed.
Lemma insert_jwt_ok k r : preserves world_ok (insert_jwt k r).
Proof.
  statement_ok. injection H as <- <-. destruct Hok. split; simpl; try done.
  by apply map_Forall_insert_2.
Qed.
Lemma insert_reset_token_ok k r : preserves world_ok (insert_reset_token k r).
Proof.
  statement_ok. injection H as <- <-. destruct Hok. split; simpl; try done.
  by apply map_Forall_insert_2.
Qed.

Lemma keep_refresh_ok P `{HP : !forall x, Decision (P x)} : preserves world_ok (keep_refresh P).
Proof.
  statement_ok. injection H as <- <-. destruct Hok. split; simpl; try done.
  by eapply map_Forall_filter.
Qed.
Lemma keep_jwt_ok P `{HP : !forall x, Decision (P x)} : preserves world_ok (keep_jwt P).
Proof.
  statement_ok. injection H as <- <-. destruct Hok. split; simpl; try done.
  by eapply map_Forall_filter.
Qed.
Lemma keep_reset_ok P `{HP : !forall x, Decision (P x)} : preserves world_ok (keep_reset P).
Proof.
  statement_ok. injection H as <- <-. destruct Hok. split; simpl; try done.
  by eapply map_Forall_filter.
Qed.

Lemma blacklist_rows_ok u : preserves world_ok (blacklist_rows u).
Proof.
  statement_ok. injection H as <- <-. destruct Hok. split; simpl; try done.
  intros k r. rewrite lookup_fmap, fmap_Some. intros (r' & Hr & ->).
  specialize (ok_jwt0 k r' Hr). by case_decide.
Qed.
End Integrity.

#[export] Hint Resolve query_preserves utc_now_preserves delete_user_row_ok delete_group_row_ok
  insert_membership_ok delete_membership_ok insert_user_attributes_ok insert_group_attributes_ok
  delete_user_attributes_ok delete_group_attributes_ok insert_user_schema_ok insert_group_schema_ok
  delete_user_schema_ok delete_group_schema_ok insert_user_class_ok insert_group_class_ok
  delete_user_class_ok delete_group_class_ok insert_refresh_ok insert_jwt_ok insert_reset_token_ok
  keep_refresh_ok keep_jwt_ok keep_reset_ok blacklist_rows_ok : stm.

