(* ===== verification/ExampleDb.v ===== *)
(** * A small database, for examples

    Three users, the groups the server creates at startup and one more, built
    by the statements of [Db] from the empty database, so that it satisfies the
    constraints by construction. *)

From S2P Require Import Prelude RustStd Extern Types Concrete Handler Db.
From Stdlib Require Import Ascii String.
From stdpp Require Import strings list gmap.
#[local] Open Scope rust_scope.

#[local] Existing Instance ascii_greek_unicode.

Definition uid_admin : UserId := user_id_new "admin".
Definition uid_bob : UserId := user_id_new "bob".
Definition uid_john : UserId := user_id_new "john".

Definition example_user (name mail : string) (display : option string) : SQL unit :=
  insert_user (user_id_new name)
    (mk_user_row (mk_ci mail) (to_lowercase mail) display 1000 None None None (mk_uuid name)).
Definition example_group (name : string) : SQL GroupId :=
  insert_group (mk_group_row (mk_ci name) (to_lowercase name) 1000 (mk_uuid name)).
Definition example_string_attribute (name : string) : SQL unit :=
  insert_user_schema (attribute_name_new name) (mk_schema_row AString false true true true).

Definition populate : SQL unit :=
  example_string_attribute "first_name" ;;
  example_string_attribute "last_name" ;;
  insert_user_schema (attribute_name_new "avatar") (mk_schema_row AJpegPhoto false true true true) ;;
  example_user "admin" "admin@example.com" (Some "Administrator"%string) ;;
  example_user "bob" "Bob@Example.com" (Some "Bob"%string) ;;
  example_user "john" "john@example.com" None ;;
  let! g1 := example_group "lldap_admin" in
  let! _ := example_group "lldap_password_manager" in
  let! _ := example_group "lldap_strict_readonly" in
  let! g4 := example_group "Best Group" in
  insert_membership uid_admin g1 ;;
  insert_membership uid_bob g4 ;;
  insert_membership uid_john g4 ;;
  insert_user_attributes false uid_bob
    [(attribute_name_new "first_name", @serialized_from concrete_bincode TyString "Bob"%string)].

Definition example_rng (n : nat) : string := of_codes [N.of_nat (97 + n mod 26)].
Definition empty_world : World := mk_world empty_db 2000 example_rng 0.
Definition example_world : World := snd (populate empty_world).
Definition example_db : Db := w_db example_world.

Lemma populate_runs : fst (populate empty_world) = Ok tt.
Proof. vm_compute. reflexivity. Qed.

Lemma example_db_ok : db_ok example_db.
Proof.
  assert (Hp : preserves world_ok populate).
  { unfold populate, example_user, example_group, example_string_attribute.
    stm; try (by apply insert_user_ok); by apply insert_group_ok. }
  apply (Hp empty_world). apply empty_db_ok.
Qed.

Lemma example_world_ok : world_ok example_world.
Proof. apply example_db_ok. Qed.
