(* ===== verification/SqlFilters.v ===== *)
(** * Filters as SQL conditions

    Models [get_user_filter_expr] and [attribute_condition] of
    [server/src/domain/sql_user_backend_handler.rs], and
    [get_group_filter_expr] of [sql_group_backend_handler.rs].  A condition is
    data, as in sea_query; its meaning on a row is that of SQL, with three
    truth values: a comparison with [NULL] is neither true nor false, and a row
    is selected when its condition is true. *)

From S2P Require Import Prelude RustStd Extern Types Handler Db Concrete ExampleDb.
From Stdlib Require Import Ascii String.
From stdpp Require Import strings list gmap.

(* ------------------------------------------------------------------ *)
(** ** Conditions *)

(** sea_query's [Cond], over the simple expressions [A]. *)
#[warnings="-register-all"]
Inductive Cond (A : Type) :=
| CValue (b : bool)
| CExpr (e : A)
| CAll (cs : list (Cond A))
| CAny (cs : list (Cond A))
| CNot (c : Cond A).
Arguments CValue {A} b.
Arguments CExpr {A} e.
Arguments CAll {A} cs.
Arguments CAny {A} cs.
Arguments CNot {A} c.

(** SQL's connectives on [TRUE], [FALSE] and [NULL]. *)
Definition sql_not (x : option bool) : option bool := negb <$> x.
Definition sql_and (x y : option bool) : option bool :=
  match x, y with
  | Some false, _ | _, Some false => Some false
  | Some true, Some true => Some true
  | _, _ => None
  end.
Definition sql_or (x y : option bool) : option bool := sql_not (sql_and (sql_not x) (sql_not y)).

Section EvalCond.
Context {A : Type} (eval : A -> option bool).
Fixpoint eval_cond (c : Cond A) : option bool :=
  match c with
  | CValue b => Some b
  | CExpr e => eval e
  | CAll cs => foldr (fun c acc => sql_and (eval_cond c) acc) (Some true) cs
  | CAny cs => foldr (fun c acc => sql_or (eval_cond c) acc) (Some false) cs
  | CNot c => sql_not (eval_cond c)
  end.
End EvalCond.

(** The row is selected. *)
Definition sql_true (x : option bool) : bool := match x with Some true => true | _ => false end.

(* ------------------------------------------------------------------ *)
(** ** [LIKE]

    SQLite's [LIKE] on the bytes of two UTF-8 strings: [%] is any sequence,
    [_] one character (a byte and the continuation bytes after it), and ASCII
    letters match in either case. *)

Fixpoint skip_continuation (s : list N) : list N :=
  match s with
  | b :: s' => if in_range 0x80 0xBF b then skip_continuation s' else s
  | [] => []
  end.

Fixpoint like (p : list N) : list N -> bool :=
  match p with
  | [] => fun s => match s with [] => true | _ => false end
  | c :: p' =>
      if (c =? 37)%N then
        fix any s := like p' s || match s with [] => false | _ :: s' => any s' end
      else if (c =? 95)%N then
        fun s => match s with [] => false | _ :: s' => like p' (skip_continuation s') end
      else
        fun s => match s with
                 | [] => false
                 | b :: s' => (ascii_lower_code c =? ascii_lower_code b)%N && like p' s'
                 end
  end.

(** [text LIKE pattern] *)
Definition sql_like (text pattern : string) : bool := like (codes pattern) (codes text).

(* ------------------------------------------------------------------ *)
(** ** User filters *)

(** The value of a column: [NULL], text or a blob. *)
Inductive sql_value := VNull | VText (s : string) | VBlob (b : bytes).

Definition v_opt (o : option string) : sql_value :=
  match o with Some s => VText s | None => VNull end.

(** The simple expressions of the conditions on [users]. *)
Inductive UserExpr :=
| EColEq (c : UserColumn) (v : string)
| EColLike (c : UserColumn) (pattern : string)
| ELowerColLike (c : UserColumn) (pattern : string)
| EInAttributes (name : AttributeName) (v : Serialized)
| EInGroupsNamed (lowercase_display_name : string)
| EInGroupsId (g : GroupId).

Section UserFilter.
Context `{U : Unicode} `{SL : SqlLib}.

(** [Value::eq] on an attribute, as a subquery.
    Source: server/src/domain/sql_user_backend_handler.rs#fn attribute_condition *)
Definition attribute_condition (name : AttributeName) (value : Serialized) : Cond UserExpr :=
  CExpr (EInAttributes name value).

(** Source: server/src/domain/sql_user_backend_handler.rs#fn get_user_filter_expr *)
Fixpoint get_user_filter_expr {E} (filter : UserRequestFilter) : outcome E (Cond UserExpr) :=
  match filter with
  | UAnd [] => Ok (CValue true)
  | UAnd fs => let? cs := try_map get_user_filter_expr fs in Ok (CAll cs)
  | UOr [] => Ok (CValue false)
  | UOr fs => let? cs := try_map get_user_filter_expr fs in Ok (CAny cs)
  | UNot f => let? c := get_user_filter_expr f in Ok (CNot c)
  | UUserId user_id => Ok (CExpr (EColEq ColUserId (user_id_str user_id)))
  | UEquality column value =>
      if decide (column = ColUserId) then Panic "User id should be wrapped"
      else if decide (column = ColEmail) then
        Ok (CExpr (EColEq ColLowercaseEmail (to_lowercase value)))
      else Ok (CExpr (EColEq column value))
  | UAttributeEquality column value => Ok (attribute_condition column value)
  | UMemberOf group => Ok (CExpr (EInGroupsNamed (to_lowercase (ci_raw group))))
  | UMemberOfId group_id => Ok (CExpr (EInGroupsId group_id))
  | UUserIdSubString filter => Ok (CExpr (EColLike ColUserId (to_sql_filter filter)))
  | USubString col filter => Ok (CExpr (ELowerColLike col (to_sql_filter filter)))
  end.

(** What a column of the row [r] of the user [u] holds. *)
Definition user_column (u : UserId) (r : UserRow) (c : UserColumn) : sql_value :=
  match c with
  | ColUserId => VText (user_id_str u)
  | ColEmail => VText (ci_raw (ur_email r))
  | ColLowercaseEmail => VText (ur_lowercase_email r)
  | ColDisplayName => v_opt (ur_display_name r)
  | ColCreationDate => VText (sql_datetime (ur_creation_date r))
  | ColPasswordHash => match ur_password_hash r with Some b => VBlob b | None => VNull end
  | ColTotpSecret => v_opt (ur_totp_secret r)
  | ColMfaType => v_opt (ur_mfa_type r)
  | ColUuid => VText (uuid_str (ur_uuid r))
  end.

(** The text SQLite makes of a value for [LIKE] and [lower]. *)
Definition as_text (v : sql_value) : option string :=
  match v with VNull => None | VText s => Some s | VBlob b => Some (string_of_bytes b) end.

(** [col = text] *)
Definition value_eq (v : sql_value) (s : string) : option bool :=
  match v with VNull => None | VText t => Some (String.eqb t s) | VBlob _ => Some false end.

(** The user has a group whose row satisfies [P]. *)
Definition in_group (db : Db) (u : UserId) (P : GroupId -> GroupRow -> bool) : bool :=
  existsb (fun '(u', g) =>
    bool_decide (u' = u) && match db_groups db !! g with Some r => P g r | None => false end)
    (elements (db_memberships db)).

Definition eval_user_expr (db : Db) (u : UserId) (r : UserRow) (e : UserExpr) : option bool :=
  match e with
  | EColEq c v => value_eq (user_column u r c) v
  | EColLike c p => (fun t => sql_like t p) <$> as_text (user_column u r c)
  | ELowerColLike c p =>
      (fun t => sql_like (to_ascii_lowercase t) p) <$> as_text (user_column u r c)
  | EInAttributes a v => Some (bool_decide (db_user_attributes db !! (u, a) = Some v))
  | EInGroupsNamed n => Some (in_group db u (fun _ g => String.eqb (gr_lowercase_display_name g) n))
  | EInGroupsId g => Some (in_group db u (fun g' _ => bool_decide (g' = g)))
  end.

Definition user_selected (db : Db) (c : Cond UserExpr) (u : UserId) (r : UserRow) : bool :=
  sql_true (eval_cond (eval_user_expr db u r) c).
End UserFilter.

(* ------------------------------------------------------------------ *)
(** ** Group filters *)

Inductive GroupExpr :=
| GELowerNameEq (n : string)
| GEIdEq (g : GroupId)
| GEUuidEq (s : string)
| GEMember (u : UserId)
| GELowerNameLike (pattern : string)
| GEInAttributes (name : AttributeName) (v : Serialized).

Section GroupFilter.
Context `{U : Unicode}.

(** Source: server/src/domain/sql_group_backend_handler.rs#fn attribute_condition *)
Definition group_attribute_condition (name : AttributeName) (value : Serialized) : Cond GroupExpr :=
  CExpr (GEInAttributes name value).

(** Source: server/src/domain/sql_group_backend_handler.rs#fn get_group_filter_expr *)
Fixpoint get_group_filter_expr (filter : GroupRequestFilter) : Cond GroupExpr :=
  match filter with
  | GAnd [] => CValue true
  | GAnd fs => CAll (map get_group_filter_expr fs)
  | GOr [] => CValue false
  | GOr fs => CAny (map get_group_filter_expr fs)
  | GNot f => CNot (get_group_filter_expr f)
  | GDisplayName name => CExpr (GELowerNameEq (to_lowercase (ci_raw name)))
  | GGroupId id => CExpr (GEIdEq id)
  | GUuid uuid => CExpr (GEUuidEq (uuid_str uuid))
  | GMember user => CExpr (GEMember user)
  | GDisplayNameSubString filter => CExpr (GELowerNameLike (to_sql_filter filter))
  | GAttributeEquality name value => group_attribute_condition name value
  end.

(** No column of [groups] is nullable: two truth values are enough. *)
Definition eval_group_expr (db : Db) (g : GroupId) (r : GroupRow) (e : GroupExpr) : option bool :=
  Some match e with
  | GELowerNameEq n => String.eqb (gr_lowercase_display_name r) n
  | GEIdEq g' => bool_decide (g = g')
  | GEUuidEq s => String.eqb (uuid_str (gr_uuid r)) s
  | GEMember u => bool_decide ((u, g) ∈ db_memberships db)
  | GELowerNameLike p => sql_like (to_ascii_lowercase (gr_lowercase_display_name r)) p
  | GEInAttributes a v => bool_decide (db_group_attributes db !! (g, a) = Some v)
  end.

Definition group_selected (db : Db) (c : Cond GroupExpr) (g : GroupId) (r : GroupRow) : bool :=
  sql_true (eval_cond (eval_group_expr db g r) c).
End GroupFilter.

(* ------------------------------------------------------------------ *)
(** ** Substring filters

    RFC 4511, 4.5.1.7.2: the initial part, the [any] parts in order and the
    final part occur in the value without overlapping.  Parts and value are
    compared in (ASCII) lower case. *)

Definition fold_codes (s : string) : list N := ascii_lower_code <$> codes s.

Fixpoint parts_match (anys : list string) (final : string) (s : list N) : Prop :=
  match anys with
  | [] => exists g, s = g ++ fold_codes final
  | a :: anys => exists g s', s = g ++ fold_codes a ++ s' /\ parts_match anys final s'
  end.

Definition opt_str (o : option string) : string := default EmptyString o.

Definition ldap_substring (f : SubStringFilter) (value : string) : Prop :=
  exists rest, fold_codes value = fold_codes (opt_str (ss_initial f)) ++ rest
    /\ parts_match (ss_any f) (opt_str (ss_final f)) rest.

(** No part has a [%] or a [_]. *)
Definition plain (s : string) : bool :=
  forallb (fun c => negb (c =? 37)%N && negb (c =? 95)%N) (codes s).
Definition plain_filter (f : SubStringFilter) : bool :=
  plain (opt_str (ss_initial f)) && forallb plain (ss_any f) && plain (opt_str (ss_final f)).

Lemma codes_app s1 s2 : codes (s1 +:+ s2) = codes s1 ++ codes s2.
Proof.
  induction s1 as [|c s1 IH]; [done|].
  change (String c s1 +:+ s2) with (String c (s1 +:+ s2)). rewrite !codes_cons, IH. done.
Qed.

Lemma to_sql_filter_codes f :
  codes (to_sql_filter f)
  = fold_codes (opt_str (ss_initial f)) ++ 37%N ::
      (ss_any f ≫= fun a => fold_codes a ++ [37%N]) ++ fold_codes (opt_str (ss_final f)).
Proof.
  assert (Hfold : forall l acc, codes (foldl (fun acc part => acc +:+ to_ascii_lowercase part +:+ "%") acc l)
    = codes acc ++ (l ≫= fun a => fold_codes a ++ [37%N])).
  { induction l as [|a l IH]; intros acc; [by rewrite app_nil_r|].
    cbn [foldl]. rewrite IH, bind_cons, !codes_app, codes_lowercase. by rewrite <- !(assoc_L (++)). }
  unfold to_sql_filter, opt_str. destruct f as [[i|] anys [z|]]; simpl;
    rewrite ?codes_app, Hfold, ?codes_app, ?codes_lowercase; simpl;
    rewrite <- ?(assoc_L (++)); simpl; by rewrite ?app_nil_r.
Qed.

Lemma like_percent p s : like (37%N :: p) s = true <-> exists g s', s = g ++ s' /\ like p s' = true.
Proof.
  induction s as [|b s IH].
  - simpl. rewrite orb_false_r. split; [by exists [], []|].
    by intros (g & s' & [-> ->]%eq_sym%app_nil & Hs').
  - change (like (37%N :: p) (b :: s)) with (like p (b :: s) || like (37%N :: p) s).
    rewrite orb_true_iff, IH. split.
    + intros [H|(g & s' & -> & H)]; [by exists [], (b :: s)|by exists (b :: g), s'].
    + intros ([|b' g] & s' & He & H); simpl in He; [left; by subst|right].
      injection He as -> ->. by exists g, s'.
Qed.

Lemma ascii_lower_code_cases c :
  ascii_lower_code c = c \/ (65 <= c <= 90 /\ ascii_lower_code c = c + 32)%N.
Proof.
  unfold ascii_lower_code, in_range.
  destruct ((65 <=? c)%N && (c <=? 90)%N) eqn:Hr; [right|by left].
  apply andb_true_iff in Hr as [?%N.leb_le ?%N.leb_le]. lia.
Qed.

Lemma ascii_lower_code_idemp c : ascii_lower_code (ascii_lower_code c) = ascii_lower_code c.
Proof.
  destruct (ascii_lower_code_cases c) as [H|[? H]]; rewrite H; [done|].
  destruct (ascii_lower_code_cases (c + 32)) as [?|[? _]]; [done|lia].
Qed.

Lemma ascii_lower_plain c : c <> 37%N -> c <> 95%N ->
  (ascii_lower_code c =? 37)%N = false /\ (ascii_lower_code c =? 95)%N = false.
Proof. rewrite !N.eqb_neq. destruct (ascii_lower_code_cases c) as [H|[? H]]; rewrite H; lia. Qed.

Lemma like_literal l p s :
  forallb (fun c => negb (c =? 37)%N && negb (c =? 95)%N) l = true ->
  like ((ascii_lower_code <$> l) ++ p) s = true <->
  exists s1 s2, s = s1 ++ s2 /\ ascii_lower_code <$> s1 = ascii_lower_code <$> l /\ like p s2 = true.
Proof.
  revert s. induction l as [|c l IH]; intros s; simpl.
  - intros _. split; [by exists [], s|]. intros (s1 & s2 & -> & Hn%fmap_nil_inv & H). by subst.
  - intros [[Hc1 Hc2]%andb_true_iff Hl]%andb_true_iff.
    apply negb_true_iff, N.eqb_neq in Hc1, Hc2.
    destruct (ascii_lower_plain c Hc1 Hc2) as [-> ->].
    destruct s as [|b s].
    + split; [done|]. by intros ([|??] & s2 & He & Hf & H).
    + rewrite andb_true_iff, N.eqb_eq, IH by done.
      rewrite ascii_lower_code_idemp. split.
      * intros (Hb & s1 & s2 & -> & H1 & H2). exists (b :: s1), s2.
        split_and!; [done| |done]. csimpl. by rewrite Hb, H1.
      * intros ([|b' s1] & s2 & He & Hf & H); simpl in *; [done|].
        injection He as -> ->. injection Hf as -> Hf. split; [done|]. by exists s1, s2.
Qed.

Lemma like_parts anys final s :
  forallb plain anys = true -> plain final = true ->
  like (37%N :: (anys ≫= fun a => fold_codes a ++ [37%N]) ++ fold_codes final) s = true
  <-> parts_match anys final (ascii_lower_code <$> s).
Proof.
  revert s. induction anys as [|a anys IH]; intros s; cbn [forallb].
  - intros _ Hz. change (([] : list string) ≫= _) with (@nil N). rewrite like_percent. cbn [parts_match app].
    rewrite <- (app_nil_r (fold_codes final)). unfold fold_codes. split.
    + intros (g & s' & -> & H). apply like_literal in H as (s1 & s2 & -> & Hs1 & H); [|done].
      destruct s2; [|done]. exists (ascii_lower_code <$> g). by rewrite app_nil_r, fmap_app, Hs1, app_nil_r.
    + intros (g & He). rewrite app_nil_r in He. apply fmap_app_inv in He as (g' & s' & -> & Hs' & ->).
      exists g', s'. split; [done|]. apply like_literal; [done|]. exists s', [].
      by rewrite app_nil_r, Hs'.
  - intros [Ha Hl]%andb_true_iff Hz. rewrite like_percent. cbn [parts_match].
    rewrite bind_cons, <- !(assoc_L (++)). cbn [app]. split.
    + intros (g & s' & -> & H). apply like_literal in H as (s1 & s2 & -> & Hs1 & H); [|done].
      apply IH in H; [|done..]. exists (ascii_lower_code <$> g), (ascii_lower_code <$> s2).
      split; [|done]. unfold fold_codes. by rewrite !fmap_app, Hs1.
    + intros (g & s' & He & H). apply fmap_app_inv in He as (g' & k & -> & He & ->).
      symmetry in He. apply fmap_app_inv in He as (s1 & s2 & Hs1 & -> & ->).
      exists g', (s1 ++ s2). split; [done|]. apply like_literal; [done|]. exists s1, s2.
      split_and!; [done|by symmetry|]. by apply IH.
Qed.

Lemma like_filter f value :
  plain_filter f = true ->
  sql_like value (to_sql_filter f) = true <-> ldap_substring f value.
Proof.
  intros [[Hi Ha]%andb_true_iff Hz]%andb_true_iff.
  unfold sql_like, ldap_substring. rewrite to_sql_filter_codes.
  unfold fold_codes at 1.
  rewrite like_literal by done. split.
  - intros (s1 & s2 & Hv & Hs1 & H). apply like_parts in H; [|done..].
    exists (ascii_lower_code <$> s2). split; [|done]. unfold fold_codes. by rewrite Hv, fmap_app, Hs1.
  - intros (rest & He & H). apply fmap_app_inv in He as (s1 & s2 & Hs1 & -> & ->).
    exists s1, s2. split_and!; [done|by symmetry|]. by apply like_parts.
Qed.

(** The [LIKE] pattern of a substring filter without [%] or [_] selects
    exactly the values RFC 4511 asks for: initial part, [any] parts in order,
    final part, without overlap and without regard to ASCII case. *)
Theorem to_sql_filter_correct f value :
  plain_filter f = true ->
  sql_like value (to_sql_filter f) = true <-> ldap_substring f value.
Proof. apply like_filter. Qed.

Lemma to_sql_filter_correct_witness :
  let f := mk_substring (Some "Bo") ["B"; "x"] (Some "Y") in
  sql_like "boBAxay" (to_sql_filter f) = true /\ ldap_substring f "boBAxay".
Proof.
  split; [vm_compute; reflexivity|].
  apply to_sql_filter_correct; vm_compute; reflexivity.
Defined.

(** The metacharacters of [LIKE] are not escaped: a filter part with a
    [%] or a [_] matches values that do not contain it. *)
Theorem to_sql_filter_unescaped :
  exists f value, sql_like value (to_sql_filter f) = true /\ ~ ldap_substring f value.
Proof.
  exists (mk_substring (Some "a_c") [] None), "abcd"%string.
  split; [vm_compute; reflexivity|]. intros (rest & H & _). vm_compute in H. congruence.
Qed.

(* ------------------------------------------------------------------ *)
(** ** What the filters mean *)

(** Induction on filters, through the lists. *)
Section FilterInduction.
Context (P : UserRequestFilter -> Prop)
  (HAnd : forall fs, Forall P fs -> P (UAnd fs)) (HOr : forall fs, Forall P fs -> P (UOr fs))
  (HNot : forall f, P f -> P (UNot f))
  (HLeaf : forall f, match f with UAnd _ | UOr _ | UNot _ => False | _ => True end -> P f).
Fixpoint user_filter_ind f : P f :=
  let all := fix all fs : Forall P fs :=
    match fs with [] => @List.Forall_nil _ P | f :: fs => @List.Forall_cons _ P f fs (user_filter_ind f) (all fs) end in
  match f with
  | UAnd fs => HAnd fs (all fs)
  | UOr fs => HOr fs (all fs)
  | UNot f => HNot f (user_filter_ind f)
  | f => HLeaf f I
  end.
End FilterInduction.

Section GroupFilterInduction.
Context (P : GroupRequestFilter -> Prop)
  (HAnd : forall fs, Forall P fs -> P (GAnd fs)) (HOr : forall fs, Forall P fs -> P (GOr fs))
  (HNot : forall f, P f -> P (GNot f))
  (HLeaf : forall f, match f with GAnd _ | GOr _ | GNot _ => False | _ => True end -> P f).
Fixpoint group_filter_ind f : P f :=
  let all := fix all fs : Forall P fs :=
    match fs with [] => @List.Forall_nil _ P | f :: fs => @List.Forall_cons _ P f fs (group_filter_ind f) (all fs) end in
  match f with
  | GAnd fs => HAnd fs (all fs)
  | GOr fs => HOr fs (all fs)
  | GNot f => HNot f (group_filter_ind f)
  | f => HLeaf f I
  end.
End GroupFilterInduction.

(** A condition that is never [NULL] and decides [P]. *)
Definition decides (x : option bool) (P : Prop) : Prop :=
  exists b, x = Some b /\ (b = true <-> P).

Lemma decides_iff x (P Q : Prop) : decides x P -> (P <-> Q) -> decides x Q.
Proof. intros (b & -> & Hb) HPQ. exists b. by rewrite <- HPQ. Qed.
Lemma decides_dec (P : Prop) `{Decision P} : decides (Some (bool_decide P)) P.
Proof. exists (bool_decide P). by rewrite bool_decide_eq_true. Qed.
Lemma decides_eqb s1 s2 : decides (Some (String.eqb s1 s2)) (s1 = s2).
Proof. exists (String.eqb s1 s2). by rewrite String.eqb_eq. Qed.
Lemma decides_not x P : decides x P -> decides (sql_not x) (~ P).
Proof.
  intros (b & -> & Hb). exists (negb b). split; [done|]. rewrite negb_true_iff, <- Hb. by destruct b.
Qed.
Lemma decides_and x y P Q : decides x P -> decides y Q -> decides (sql_and x y) (P /\ Q).
Proof.
  intros (b & -> & Hb) (c & -> & Hc). exists (b && c).
  split; [by destruct b, c|]. by rewrite andb_true_iff, Hb, Hc.
Qed.
Lemma decides_or x y P Q : decides x P -> decides y Q -> decides (sql_or x y) (P \/ Q).
Proof.
  intros (b & -> & Hb) (c & -> & Hc). exists (b || c).
  split; [by destruct b, c|]. by rewrite orb_true_iff, Hb, Hc.
Qed.

Lemma decides_all {A} (eval : A -> option bool) cs Ps :
  Forall2 (fun c P => decides (eval_cond eval c) P) cs Ps ->
  decides (eval_cond eval (CAll cs)) (foldr and True Ps).
Proof.
  cbn. induction 1 as [|c P cs Ps Hc H IH]; [by exists true|]. cbn. by apply decides_and.
Qed.
Lemma decides_any {A} (eval : A -> option bool) cs Ps :
  Forall2 (fun c P => decides (eval_cond eval c) P) cs Ps ->
  decides (eval_cond eval (CAny cs)) (foldr or False Ps).
Proof.
  cbn. induction 1 as [|c P cs Ps Hc H IH]; [by exists false|]. cbn. by apply decides_or.
Qed.

Lemma decides_true x P : decides x P -> sql_true x = true <-> P.
Proof. intros (b & -> & Hb). simpl. by destruct b. Qed.

Section Meaning.
Context `{U : Unicode} `{SL : SqlLib}.

(** The user is a member of a group with this property. *)
Definition member_of (db : Db) (u : UserId) (P : GroupId -> GroupRow -> Prop) : Prop :=
  exists g r, (u, g) ∈ db_memberships db /\ db_groups db !! g = Some r /\ P g r.

Definition column_text (u : UserId) (r : UserRow) (c : UserColumn) : option string :=
  match user_column u r c with VText s => Some s | _ => None end.

(** The filter, read as a proposition about the user [u]. *)
Fixpoint user_matches (db : Db) (u : UserId) (r : UserRow) (f : UserRequestFilter) : Prop :=
  match f with
  | UAnd fs => foldr and True (map (user_matches db u r) fs)
  | UOr fs => foldr or False (map (user_matches db u r) fs)
  | UNot f => ~ user_matches db u r f
  | UUserId v => u = v
  | UUserIdSubString s => ldap_substring s (user_id_str u)
  | UEquality ColEmail v => to_lowercase (ci_raw (ur_email r)) = to_lowercase v
  | UEquality c v => column_text u r c = Some v
  | UAttributeEquality a v => db_user_attributes db !! (u, a) = Some v
  | USubString c s => exists t, column_text u r c = Some t /\ ldap_substring s t
  | UMemberOf n =>
      member_of db u (fun _ r => to_lowercase (ci_raw (gr_display_name r)) = to_lowercase (ci_raw n))
  | UMemberOfId g => (u, g) ∈ db_memberships db
  end.

(** The columns the filter reads hold text in this row, its patterns are plain,
    and user ids are not compared through [Equality]. *)
Fixpoint filter_defined (u : UserId) (r : UserRow) (f : UserRequestFilter) : bool :=
  match f with
  | UAnd fs | UOr fs => forallb (filter_defined u r) fs
  | UNot f => filter_defined u r f
  | UEquality c _ => negb (bool_decide (c = ColUserId)) && bool_decide (is_Some (column_text u r c))
  | USubString c s => bool_decide (is_Some (column_text u r c)) && plain_filter s
  | UUserIdSubString s => plain_filter s
  | _ => true
  end.

Lemma in_group_member_of db u P :
  in_group db u P = true <-> member_of db u (fun g r => P g r = true).
Proof.
  unfold in_group, member_of. rewrite existsb_exists. split.
  - intros ([u' g] & Hin%base.list_elem_of_In & [Hu H]%andb_true_iff).
    apply bool_decide_eq_true in Hu as ->. destruct (db_groups db !! g) as [r|] eqn:Hg; [|done].
    exists g, r. split; [by apply elem_of_elements|done].
  - intros (g & r & Hm & Hg & H). exists (u, g). split.
    + by apply base.list_elem_of_In, elem_of_elements.
    + rewrite bool_decide_eq_true_2 by done. by rewrite Hg.
Qed.

Lemma decides_in_group db u P Q :
  (forall g r, (u, g) ∈ db_memberships db -> db_groups db !! g = Some r -> P g r = true <-> Q g r) ->
  decides (Some (in_group db u P)) (member_of db u Q).
Proof.
  intros HPQ. eexists. split; [done|]. rewrite in_group_member_of. unfold member_of.
  split; intros (g & r & Hm & Hg & H); exists g, r; by rewrite ?HPQ in * by done.
Qed.

Lemma decides_like s p : plain_filter p = true ->
  decides (Some (sql_like s (to_sql_filter p))) (ldap_substring p s).
Proof. intros Hp. eexists. split; [done|]. by apply like_filter. Qed.

Lemma ldap_substring_lower p s : ldap_substring p (to_ascii_lowercase s) <-> ldap_substring p s.
Proof.
  unfold ldap_substring. assert (fold_codes (to_ascii_lowercase s) = fold_codes s) as ->; [|done].
  unfold fold_codes. rewrite codes_lowercase, <- list_fmap_compose.
  apply list_fmap_ext. intros _ c _. apply ascii_lower_code_idemp.
Qed.

Lemma column_text_spec u r c t : column_text u r c = Some t <-> user_column u r c = VText t.
Proof. unfold column_text. destruct (user_column u r c); naive_solver. Qed.

(** The translation of a filter decides its meaning. *)
Definition translated (db : Db) (u : UserId) (r : UserRow) (f : UserRequestFilter) : Prop :=
  filter_defined u r f = true ->
  exists c, get_user_filter_expr (E:=DomainError) f = Ok c
    /\ decides (eval_cond (eval_user_expr db u r) c) (user_matches db u r f).

Lemma translated_list db u r fs :
  Forall (translated db u r) fs -> forallb (filter_defined u r) fs = true ->
  exists cs, try_map (get_user_filter_expr (E:=DomainError)) fs = Ok cs
    /\ Forall2 (fun c P => decides (eval_cond (eval_user_expr db u r) c) P) cs
         (map (user_matches db u r) fs).
Proof.
  induction 1 as [|f fs Hf H IH]; simpl; [eauto|]. intros [Hd Hds]%andb_true_iff.
  destruct (Hf Hd) as (c & -> & Hc), (IH Hds) as (cs & -> & Hcs). simpl. eauto.
Qed.

Lemma translated_leaf db u r f :
  db_ok db -> db_users db !! u = Some r ->
  match f with UAnd _ | UOr _ | UNot _ => False | _ => True end -> translated db u r f.
Proof.
  intros Hok Hu Hleaf Hd. destruct f as [| | |v|s|c v|a v|c s|n|g]; try done; cbn in *.
  - eexists. split; [done|]. eapply decides_iff; [apply decides_eqb|].
    unfold user_id_str. destruct u as [[]], v as [[]]. simpl. naive_solver.
  - eexists. split; [done|]. cbn. by apply decides_like.
  - apply andb_true_iff in Hd as [Hc [t Ht]%bool_decide_eq_true].
    apply negb_true_iff, bool_decide_eq_false in Hc. rewrite decide_False by done.
    case_decide as He.
    + subst c. eexists. split; [done|]. cbn. rewrite (ok_user_rows _ Hok u r Hu). apply decides_eqb.
    + eexists. split; [done|]. cbn. apply column_text_spec in Ht as Ht'. rewrite Ht'. cbn.
      eapply decides_iff; [apply decides_eqb|]. destruct c; rewrite ?Ht; naive_solver.
  - eexists. split; [done|]. cbn. apply decides_dec.
  - apply andb_true_iff in Hd as [[t Ht]%bool_decide_eq_true Hs].
    eexists. split; [done|]. cbn. apply column_text_spec in Ht as Ht'. rewrite Ht'. cbn.
    eapply decides_iff; [by apply decides_like|]. rewrite ldap_substring_lower. naive_solver.
  - eexists. split; [done|]. cbn. apply decides_in_group. intros g' r' _ Hg.
    rewrite String.eqb_eq. by destruct (ok_group_rows _ Hok g' r' Hg) as [-> _].
  - eexists. split; [done|]. cbn. eapply decides_iff.
    { apply (decides_in_group _ _ _ (fun g' _ => g' = g)). intros ????. apply bool_decide_eq_true. }
    unfold member_of. split; [by intros (? & ? & ? & ? & ->)|]. intros Hm.
    destruct (ok_memberships _ Hok _ _ Hm) as [_ [r' Hr]]. eauto.
Qed.

Lemma filter_translation db u r f :
  db_ok db -> db_users db !! u = Some r -> filter_defined u r f = true ->
  exists c, get_user_filter_expr (E:=DomainError) f = Ok c
    /\ (user_selected db c u r = true <-> user_matches db u r f).
Proof.
  intros Hok Hu Hd. assert (Ht : translated db u r f).
  { clear Hd. induction f as [fs IH|fs IH|f IH|f Hf] using user_filter_ind.
    - intros Hd. destruct (translated_list _ _ _ _ IH Hd) as (cs & Hcs & H).
      exists (match fs with [] => CValue true | _ => CAll cs end). destruct fs; simpl in *.
      + split; [done|]. by exists true.
      + rewrite Hcs. split; [done|]. exact (decides_all _ _ _ H).
    - intros Hd. destruct (translated_list _ _ _ _ IH Hd) as (cs & Hcs & H).
      exists (match fs with [] => CValue false | _ => CAny cs end). destruct fs; simpl in *.
      + split; [done|]. by exists false.
      + rewrite Hcs. split; [done|]. exact (decides_any _ _ _ H).
    - intros Hd. destruct (IH Hd) as (c & Hc & H). exists (CNot c). simpl. rewrite Hc.
      split; [done|]. by apply decides_not.
    - by apply translated_leaf. }
  destruct (Ht Hd) as (c & Hc & H). exists c. split; [done|]. by apply decides_true.
Qed.

(** C27. A user filter selects in SQL exactly the users it describes.  On a
    database that satisfies its constraints, for a filter that reads no [NULL]
    column of the row, whose substrings have no ["%"] or ["_"] (the code leaves them
    to be wildcards, see [to_sql_filter_unescaped]) and that compares the user's id
    by its own kind of filter (the code panics on the other), the conditions built by [get_user_filter_expr] exist and the
    [WHERE] clause keeps a row precisely when the filter, read as a
    proposition, holds of the user: through conjunctions (the empty one is
    true), disjunctions (the empty one is false), negations, the lower-cased
    e-mail and group names, memberships and substrings. *)
Theorem get_user_filter_expr_correct db u r f :
  db_ok db -> db_users db !! u = Some r -> filter_defined u r f = true ->
  exists c, get_user_filter_expr (E:=DomainError) f = Ok c
    /\ (user_selected db c u r = true <-> user_matches db u r f).
Proof. apply filter_translation. Qed.

(** The group filters: no column is nullable, so every filter has a meaning. *)
Fixpoint group_matches (db : Db) (g : GroupId) (r : GroupRow) (f : GroupRequestFilter) : Prop :=
  match f with
  | GAnd fs => foldr and True (map (group_matches db g r) fs)
  | GOr fs => foldr or False (map (group_matches db g r) fs)
  | GNot f => ~ group_matches db g r f
  | GDisplayName n => to_lowercase (ci_raw (gr_display_name r)) = to_lowercase (ci_raw n)
  | GDisplayNameSubString s => ldap_substring s (to_lowercase (ci_raw (gr_display_name r)))
  | GUuid v => gr_uuid r = v
  | GGroupId v => g = v
  | GMember u => (u, g) ∈ db_memberships db
  | GAttributeEquality a v => db_group_attributes db !! (g, a) = Some v
  end.

Fixpoint group_filter_plain (f : GroupRequestFilter) : bool :=
  match f with
  | GAnd fs | GOr fs => forallb group_filter_plain fs
  | GNot f => group_filter_plain f
  | GDisplayNameSubString s => plain_filter s
  | _ => true
  end.

Lemma group_translated db g r f :
  group_row_ok r -> group_filter_plain f = true ->
  decides (eval_cond (eval_group_expr db g r) (get_group_filter_expr f)) (group_matches db g r f).
Proof.
  intros Hr.
  assert (Hlist : forall fs, Forall (fun f => group_filter_plain f = true ->
      decides (eval_cond (eval_group_expr db g r) (get_group_filter_expr f)) (group_matches db g r f)) fs ->
    forallb group_filter_plain fs = true ->
    Forall2 (fun c P => decides (eval_cond (eval_group_expr db g r) c) P)
      (map get_group_filter_expr fs) (map (group_matches db g r) fs)).
  { induction 1 as [|f' fs Hf H IH]; simpl; [constructor|].
    intros [? ?]%andb_true_iff. constructor; auto. }
  induction f as [fs IH|fs IH|f IH|f Hf] using group_filter_ind; intros Hd.
  - specialize (Hlist fs IH Hd). destruct fs; [by exists true|]. by apply decides_all.
  - specialize (Hlist fs IH Hd). destruct fs; [by exists false|]. by apply decides_any.
  - cbn. by apply decides_not, IH.
  - destruct f as [| | |n|s|v|v|u|a v]; try done; cbn in *; unfold eval_group_expr.
    + rewrite Hr. apply decides_eqb.
    + rewrite Hr. eapply decides_iff; [by apply decides_like|]. by rewrite ldap_substring_lower.
    + eapply decides_iff; [apply decides_eqb|]. destruct (gr_uuid r), v. simpl. naive_solver.
    + apply decides_dec.
    + apply decides_dec.
    + apply decides_dec.
Qed.

(** A group filter with plain patterns selects exactly the groups it
    describes, negations included: the translation has no third truth value. *)
Theorem get_group_filter_expr_correct db g r f :
  db_ok db -> db_groups db !! g = Some r -> group_filter_plain f = true ->
  group_selected db (get_group_filter_expr f) g r = true <-> group_matches db g r f.
Proof.
  intros Hok Hg Hf. apply decides_true, group_translated; [|done].
  by destruct (ok_group_rows _ Hok g r Hg).
Qed.
End Meaning.

Definition example_bob_row : UserRow :=
  mk_user_row (mk_ci "Bob@Example.com") "bob@example.com" (Some "Bob"%string) 1000 None None None (mk_uuid "bob").

Lemma get_user_filter_expr_correct_witness :
  let f := UAnd [UNot (UEquality ColDisplayName "Admin"); UMemberOf (mk_ci "BEST group")] in
  exists c, @get_user_filter_expr ascii_greek_unicode DomainError f = Ok c
    /\ (@user_selected concrete_sql example_db c uid_bob example_bob_row = true
        <-> @user_matches ascii_greek_unicode concrete_sql example_db uid_bob example_bob_row f).
Proof.
  apply (@get_user_filter_expr_correct ascii_greek_unicode concrete_sql);
    [apply example_db_ok|vm_compute; reflexivity..].
Defined.

Lemma get_group_filter_expr_correct_witness :
  let f := GAnd [GNot (GUuid (mk_uuid "x")); GMember uid_bob] in
  let r := mk_group_row (mk_ci "Best Group") "best group" 1000 (mk_uuid "Best Group") in
  group_selected example_db (@get_group_filter_expr ascii_greek_unicode f) 4 r = true
  <-> @group_matches ascii_greek_unicode example_db 4 r f.
Proof.
  apply (@get_group_filter_expr_correct ascii_greek_unicode); [apply example_db_ok|vm_compute; reflexivity..].
Defined.
