(* ===== verification/SqlSchema.v ===== *)
(** * The SQL backend: schema

    Models [server/src/domain/sql_schema_backend_handler.rs]: reading the
    attribute schemas and the extra object classes, and adding and deleting
    them. *)

From S2P Require Import Prelude RustStd Extern Types Handler Db.
From Stdlib Require Import Ascii String.
From stdpp Require Import strings list gmap.
#[local] Open Scope rust_scope.

(** [ORDER BY key ASC] over the rows of a table. *)
Definition order_by {K A} `{Countable K} (key : K * A -> list N) (m : gmap K A) : list (K * A) :=
  sort_by (lex_leb key) (map_to_list m).

Lemma elem_of_order_by {K A} `{Countable K} (key : K * A -> list N) (m : gmap K A) k x :
  (k, x) ∈ order_by key m <-> m !! k = Some x.
Proof. unfold order_by. by rewrite elem_of_sort_by, elem_of_map_to_list. Qed.

Lemma order_by_NoDup {K A} `{Countable K} (key : K * A -> list N) (m : gmap K A) :
  NoDup (order_by key m).*1.
Proof. unfold order_by. rewrite sort_by_perm. apply NoDup_fst_map_to_list. Qed.

Lemma order_by_sorted {K A} `{Countable K} (key : K * A -> list N) (m : gmap K A) :
  StronglySorted (fun a b => lex_leb key a b = true) (order_by key m).
Proof. apply sort_by_sorted; [apply lex_leb_total|apply lex_leb_trans]. Qed.

(** [WHERE] before or after [ORDER BY]: the same rows in the same order, when
    the key tells the selected rows apart. *)
Lemma order_by_filter {K A} `{Countable K} (key : K * A -> list N) (m : gmap K A)
    (P : K * A -> Prop) `{!forall x, Decision (P x)} :
  (forall p q, P p -> P q -> m !! p.1 = Some p.2 -> m !! q.1 = Some q.2 -> key p = key q -> p = q) ->
  filter P (order_by key m) = order_by key (filter P m).
Proof.
  intros Hinj.
  apply (StronglySorted_unique_strong (fun a b => lex_leb key a b = true)).
  - intros [k1 x1] [k2 x2] [HP1 H1%elem_of_order_by]%list_elem_of_filter.
    rewrite elem_of_order_by, map_lookup_filter_Some. intros [H2 HP2] Hle1 Hle2.
    apply Hinj; try done. by apply lex_leb_antisym.
  - apply StronglySorted_filter, order_by_sorted.
  - apply order_by_sorted.
  - apply NoDup_Permutation.
    + apply NoDup_filter, (NoDup_fmap_1 fst), order_by_NoDup.
    + apply (NoDup_fmap_1 fst), order_by_NoDup.
    + intros [k x]. rewrite list_elem_of_filter, !elem_of_order_by, map_lookup_filter_Some. tauto.
Qed.

(** Source: server/src/domain/model/user_attribute_schema.rs#impl From<Model> for AttributeSchema *)
Definition user_attribute_schema_from (m : AttributeName * SchemaRow) : AttributeSchema :=
  let '(name, r) := m in
  mk_attribute_schema name (sr_attribute_type r) (sr_is_list r) (sr_is_visible r)
    (sr_is_editable r) (sr_is_hardcoded r).

(** Source: server/src/domain/model/group_attribute_schema.rs#impl From<Model> for AttributeSchema *)
Definition group_attribute_schema_from (m : AttributeName * SchemaRow) : AttributeSchema :=
  let '(name, r) := m in
  mk_attribute_schema name (sr_attribute_type r) (sr_is_list r) (sr_is_visible r)
    (sr_is_editable r) (sr_is_hardcoded r).

Definition by_attribute_name {A} (m : AttributeName * A) : list N := codes (attribute_name_str m.1).
Definition by_object_class {K} (m : K * LdapObjectClass) : list N := codes (ci_raw m.2).

(** Source: server/src/domain/sql_schema_backend_handler.rs#async fn get_user_attributes *)
Definition get_user_attributes : SQL (list AttributeSchema) :=
  query (fun db => map user_attribute_schema_from (order_by by_attribute_name (db_user_attribute_schema db))).

(** Source: server/src/domain/sql_schema_backend_handler.rs#async fn get_group_attributes *)
Definition get_group_attributes : SQL (list AttributeSchema) :=
  query (fun db => map group_attribute_schema_from (order_by by_attribute_name (db_group_attribute_schema db))).

(** Source: server/src/domain/sql_schema_backend_handler.rs#async fn get_user_object_classes *)
Definition get_user_object_classes : SQL (list LdapObjectClass) :=
  query (fun db => (order_by by_object_class (db_user_object_classes db)).*2).

(** Source: server/src/domain/sql_schema_backend_handler.rs#async fn get_group_object_classes *)
Definition get_group_object_classes : SQL (list LdapObjectClass) :=
  query (fun db => (order_by by_object_class (db_group_object_classes db)).*2).

(** Source: server/src/domain/sql_schema_backend_handler.rs#async fn get_schema_with_transaction *)
Definition get_schema_with_transaction : SQL Schema :=
  let! user_attributes := get_user_attributes in
  let! group_attributes := get_group_attributes in
  let! user_classes := get_user_object_classes in
  let! group_classes := get_group_object_classes in
  sret (mk_schema (mk_attribute_list user_attributes) (mk_attribute_list group_attributes)
          user_classes group_classes).

(** Source: server/src/domain/sql_schema_backend_handler.rs#async fn get_schema *)
Definition sql_get_schema : SQL Schema := transaction get_schema_with_transaction.

Definition schema_row (request : CreateAttributeRequest) : SchemaRow :=
  mk_schema_row (ca_attribute_type request) (ca_is_list request) (ca_is_visible request)
    (ca_is_editable request) false.

(** Source: server/src/domain/sql_schema_backend_handler.rs#async fn add_user_attribute *)
Definition sql_add_user_attribute (request : CreateAttributeRequest) : SQL unit :=
  insert_user_schema (ca_name request) (schema_row request).

(** Source: server/src/domain/sql_schema_backend_handler.rs#async fn add_group_attribute *)
Definition sql_add_group_attribute (request : CreateAttributeRequest) : SQL unit :=
  insert_group_schema (ca_name request) (schema_row request).

(** Source: server/src/domain/sql_schema_backend_handler.rs#async fn delete_user_attribute *)
Definition sql_delete_user_attribute (name : AttributeName) : SQL unit := delete_user_schema name.

(** Source: server/src/domain/sql_schema_backend_handler.rs#async fn delete_group_attribute *)
Definition sql_delete_group_attribute (name : AttributeName) : SQL unit := delete_group_schema name.

(** Source: server/src/domain/sql_schema_backend_handler.rs#async fn add_user_object_class *)
Definition sql_add_user_object_class (name : LdapObjectClass) : SQL unit :=
  insert_user_class (to_ascii_lowercase (ci_raw name)) name.

(** Source: server/src/domain/sql_schema_backend_handler.rs#async fn add_group_object_class *)
Definition sql_add_group_object_class (name : LdapObjectClass) : SQL unit :=
  insert_group_class (to_ascii_lowercase (ci_raw name)) name.

(** Source: server/src/domain/sql_schema_backend_handler.rs#async fn delete_user_object_class *)
Definition sql_delete_user_object_class (name : LdapObjectClass) : SQL unit :=
  delete_user_class (to_ascii_lowercase (ci_raw name)).

(** Source: server/src/domain/sql_schema_backend_handler.rs#async fn delete_group_object_class *)
Definition sql_delete_group_object_class (name : LdapObjectClass) : SQL unit :=
  delete_group_class (to_ascii_lowercase (ci_raw name)).

(* ------------------------------------------------------------------ *)
(** ** Lemmas *)

(** The schema the database holds, as the queries build it. *)
Definition schema_of (db : Db) : Schema :=
  mk_schema
    (mk_attribute_list (map user_attribute_schema_from (order_by by_attribute_name (db_user_attribute_schema db))))
    (mk_attribute_list (map group_attribute_schema_from (order_by by_attribute_name (db_group_attribute_schema db))))
    (order_by by_object_class (db_user_object_classes db)).*2
    (order_by by_object_class (db_group_object_classes db)).*2.

Lemma get_schema_with_transaction_run w : get_schema_with_transaction w = (Ok (schema_of (w_db w)), w).
Proof. done. Qed.

Lemma sql_get_schema_run w : sql_get_schema w = (Ok (schema_of (w_db w)), w).
Proof. done. Qed.

Lemma sql_get_schema_readonly : readonly sql_get_schema.
Proof. by intros w. Qed.

Lemma preserves_get_schema (P : World -> Prop) : preserves P get_schema_with_transaction.
Proof. by intros w. Qed.
#[export] Hint Resolve preserves_get_schema : stm.

(** Looking a name up in the schema is looking its row up in the table. *)
Lemma find_schema_row (f : AttributeName * SchemaRow -> AttributeSchema) (m : gmap AttributeName SchemaRow) name :
  (forall p, as_name (f p) = p.1) ->
  get_attribute_schema (mk_attribute_list (map f (order_by by_attribute_name m))) name
  = (fun r => f (name, r)) <$> m !! name.
Proof.
  intros Hf. unfold get_attribute_schema. simpl.
  destruct (m !! name) as [r|] eqn:Hr; simpl.
  - assert (Hin : (name, r) ∈ order_by by_attribute_name m) by by apply elem_of_order_by.
    pose proof (order_by_NoDup by_attribute_name m) as Hnd.
    induction (order_by by_attribute_name m) as [|[n' r'] l IH]; [by apply not_elem_of_nil in Hin|].
    simpl. rewrite Hf. simpl in *. apply NoDup_cons in Hnd as [Hn Hnd].
    apply elem_of_cons in Hin as [[= <- <-]|Hin]; [by rewrite bool_decide_eq_true_2|].
    rewrite bool_decide_eq_false_2; [by apply IH|]. intros ->. apply Hn.
    apply list_elem_of_fmap. by exists (name, r).
  - destruct (List.find _ _) as [a|] eqn:Ha; [|done].
    apply List.find_some in Ha as [Hin%base.list_elem_of_In Hn%bool_decide_eq_true].
    apply list_elem_of_fmap in Hin as ([n' r'] & -> & Hin%elem_of_order_by).
    rewrite Hf in Hn. simpl in Hn. congruence.
Qed.

Lemma user_schema_lookup db name :
  get_attribute_schema (sc_user_attributes (schema_of db)) name
  = (fun r => user_attribute_schema_from (name, r)) <$> db_user_attribute_schema db !! name.
Proof. apply find_schema_row. by intros []. Qed.

Lemma group_schema_lookup db name :
  get_attribute_schema (sc_group_attributes (schema_of db)) name
  = (fun r => group_attribute_schema_from (name, r)) <$> db_group_attribute_schema db !! name.
Proof. apply find_schema_row. by intros []. Qed.

Lemma user_type_is_some db name :
  is_Some (get_attribute_type (sc_user_attributes (schema_of db)) name)
  <-> is_Some (db_user_attribute_schema db !! name).
Proof. unfold get_attribute_type. by rewrite user_schema_lookup, !fmap_is_Some. Qed.

Lemma group_type_is_some db name :
  is_Some (get_attribute_type (sc_group_attributes (schema_of db)) name)
  <-> is_Some (db_group_attribute_schema db !! name).
Proof. unfold get_attribute_type. by rewrite group_schema_lookup, !fmap_is_Some. Qed.
