(* ===== verification/SqlUser.v ===== *)
(** * The SQL backend: users

    Models [server/src/domain/sql_user_backend_handler.rs]: listing with a
    filter, reading, creating, updating and deleting users, and memberships. *)

From S2P Require Import Prelude RustStd Extern Types Concrete Handler Db ExampleDb SqlFilters SqlSchema.
From Stdlib Require Import Ascii String.
From stdpp Require Import strings list gmap.
#[local] Open Scope rust_scope.

Section SqlUser.
Context `{C : Crates} `{B : Bincode} `{SL : SqlLib}.

(** sea_orm's [ActiveValue]: a column to write, or to leave. *)
Inductive ActiveValue (A : Type) := NotSet | Set_ (v : A).
Arguments NotSet {A}.
Arguments Set_ {A} v.

(** Source: server/src/domain/sql_user_backend_handler.rs#fn to_value *)
Definition to_value (opt_name : option string) : ActiveValue (option string) :=
  match opt_name with
  | None => NotSet
  | Some EmptyString => Set_ None
  | Some name => Set_ (Some name)
  end.

(** Source: server/src/domain/model/users.rs#impl From<Model> for crate::domain::types::User *)
Definition user_from_model (m : UserId * UserRow) : User :=
  mk_user m.1 (ur_email m.2) (ur_display_name m.2) (ur_creation_date m.2) (ur_uuid m.2) [].

(** Source: server/src/domain/model/groups.rs#impl From<Model> for crate::domain::types::GroupDetails *)
Definition group_details_from_model (m : GroupId * GroupRow) : GroupDetails :=
  mk_group_details m.1 (gr_display_name m.2) (gr_creation_date m.2) (gr_uuid m.2) [].

(** Source: server/src/domain/model/user_attributes.rs#impl From<Model> for AttributeValue *)
Definition attribute_value_from_model {K} (m : (K * AttributeName) * Serialized) : AttributeValue :=
  mk_attribute_value m.1.2 m.2.

Definition by_user_id {A} (m : UserId * A) : list N := codes (user_id_str m.1).
Definition by_group_name (m : GroupId * GroupRow) : list N := codes (ci_raw (gr_display_name m.2)).
Definition by_attribute {K} (m : (K * AttributeName) * Serialized) : list N :=
  codes (attribute_name_str m.1.2).
Definition by_attribute_user (m : (UserId * AttributeName) * Serialized) : list N :=
  codes (user_id_str m.1.1).

(** The groups joined to a user through [memberships], by display name.
    Source: server/src/domain/model/memberships.rs#impl Linked for UserToGroup *)
Definition linked_groups (db : Db) (u : UserId) : list (GroupId * GroupRow) :=
  order_by by_group_name (filter (fun p => (u, p.1) ∈ db_memberships db) (db_groups db)).

(** The users a condition selects, by id. *)
Definition select_users (c : Cond UserExpr) (db : Db) : list (UserId * UserRow) :=
  filter (fun p => user_selected db c p.1 p.2 = true) (order_by by_user_id (db_users db)).

(** [SELECT .. FROM user_attributes WHERE user_id IN (SELECT user_id FROM users
    WHERE ..) ORDER BY user_id, attribute_name] *)
Definition select_user_attributes (c : Cond UserExpr) (db : Db) :
    list ((UserId * AttributeName) * Serialized) :=
  filter (fun p => match db_users db !! p.1.1 with
                   | Some r => user_selected db c p.1.1 r
                   | None => false
                   end = true)
    (sort_by (lex_leb by_attribute_user) (order_by by_attribute (db_user_attributes db))).

Definition set_attributes (u : User) (attributes : list AttributeValue) : User :=
  mk_user (user_user_id u) (user_email u) (user_display_name u) (user_creation_date u)
    (user_uuid u) attributes.

(** The loop of [take_while_ref] over the users. *)
Definition populate_attributes (users : list UserAndGroups)
    (attributes : list ((UserId * AttributeName) * Serialized)) : list UserAndGroups :=
  map (fun '(x, mine) =>
         mk_user_and_groups (set_attributes (uag_user x) (map attribute_value_from_model mine))
           (uag_groups x))
    (distribute (fun x => user_user_id (uag_user x)) (fun m => m.1.1) users attributes).

(** Source: server/src/domain/sql_user_backend_handler.rs#async fn list_users *)
Definition sql_list_users (filters : option UserRequestFilter) (_get_groups : bool) :
    SQL (list UserAndGroups) :=
  let! filters := match filters with
                  | Some f => slift (get_user_filter_expr f)
                  | None => sret (CValue true)
                  end in
  let! users := query (fun db =>
    map (fun m => mk_user_and_groups (user_from_model m)
                    (Some (map group_details_from_model (linked_groups db m.1))))
      (select_users filters db)) in
  let! attributes := query (select_user_attributes filters) in
  sret (populate_attributes users attributes).

(** The closure [to_serialized_value]. *)
Definition to_serialized_value (s : option string) : option (ActiveValue Serialized) :=
  match s with
  | None => None
  | Some EmptyString => Some NotSet
  | Some s => Some (Set_ (serialized_from TyString s))
  end.

(** The rows to write and the names to remove, and the closure that extends
    them. *)
Record UserChanges := mk_changes {
  ch_update : list (AttributeName * Serialized);
  ch_remove : list AttributeName;
}.
Definition process_serialized (value : ActiveValue Serialized) (name : AttributeName)
    (ch : UserChanges) : UserChanges :=
  match value with
  | NotSet => mk_changes (ch_update ch) (ch_remove ch ++ [name])
  | Set_ v => mk_changes (ch_update ch ++ [(name, v)]) (ch_remove ch)
  end.
Definition process_opt (value : option (ActiveValue Serialized)) (name : string)
    (ch : UserChanges) : UserChanges :=
  match value with
  | Some v => process_serialized v (attribute_name_new name) ch
  | None => ch
  end.

Definition unknown_attribute (what : string) (name : AttributeName) (op : string) : DomainError :=
  InternalError (what +:+ " attribute name " +:+ attribute_name_str name
    +:+ " doesn't exist in the schema, yet was attempted to be " +:+ op +:+ " the database").

Fixpoint process_inserts (what : string) (schema : AttributeList) (l : list AttributeValue)
    (ch : UserChanges) : outcome DomainError UserChanges :=
  match l with
  | [] => Ok ch
  | a :: l =>
      match get_attribute_type schema (av_name a) with
      | Some _ => process_inserts what schema l (process_serialized (Set_ (av_value a)) (av_name a) ch)
      | None => Err (unknown_attribute what (av_name a) "inserted in")
      end
  end.

Fixpoint process_deletes (what : string) (schema : AttributeList) (l : list AttributeName)
    (ch : UserChanges) : outcome DomainError UserChanges :=
  match l with
  | [] => Ok ch
  | a :: l =>
      match get_attribute_type schema a with
      | Some _ => process_deletes what schema l (mk_changes (ch_update ch) (ch_remove ch ++ [a]))
      | None => Err (unknown_attribute what a "removed from")
      end
  end.

(** The changes a request asks for, before any statement is issued. *)
Definition user_changes (request : UpdateUserRequest) (schema : Schema) : outcome DomainError UserChanges :=
  let ch := mk_changes [] [] in
  let ch := process_opt (to_serialized_value (uu_first_name request)) "first_name" ch in
  let ch := process_opt (to_serialized_value (uu_last_name request)) "last_name" ch in
  let ch := match uu_avatar request with
            | Some avatar =>
                process_serialized
                  (match jpeg_into_active_value avatar with Some v => Set_ v | None => NotSet end)
                  (attribute_name_new "avatar") ch
            | None => ch
            end in
  let? ch := process_inserts "User" (sc_user_attributes schema) (uu_insert_attributes request) ch in
  process_deletes "User" (sc_user_attributes schema) (uu_delete_attributes request) ch.

Definition updated_row (email : option Email) (display_name : ActiveValue (option string))
    (r : UserRow) : UserRow :=
  mk_user_row
    (default (ur_email r) email)
    (match email with Some e => to_lowercase (ci_raw e) | None => ur_lowercase_email r end)
    (match display_name with Set_ d => d | NotSet => ur_display_name r end)
    (ur_creation_date r) (ur_password_hash r) (ur_totp_secret r) (ur_mfa_type r) (ur_uuid r).

Definition is_not_set {A} (v : ActiveValue A) : bool := match v with NotSet => true | _ => false end.

Definition run_if {E A S} (b : bool) (m : stM S E A) (d : A) : stM S E A := if b then m else sret d.
Definition non_empty {A} (l : list A) : bool := match l with [] => false | _ => true end.

(** Source: server/src/domain/sql_user_backend_handler.rs#async fn update_user_with_transaction *)
Definition update_user_with_transaction (request : UpdateUserRequest) : SQL unit :=
  let display_name := to_value (uu_display_name request) in
  let! schema := get_schema_with_transaction in
  let! ch := slift (user_changes request schema) in
  let noop := match uu_email request with None => is_not_set display_name | Some _ => false end in
  update_user_row noop (uu_user_id request) (updated_row (uu_email request) display_name) ;;
  run_if (non_empty (ch_remove ch)) (delete_user_attributes (uu_user_id request) (ch_remove ch)) tt ;;
  run_if (non_empty (ch_update ch)) (insert_user_attributes true (uu_user_id request) (ch_update ch)) tt.

(** Source: server/src/domain/sql_user_backend_handler.rs#async fn update_user *)
Definition sql_update_user (request : UpdateUserRequest) : SQL unit :=
  transaction (update_user_with_transaction request).

(** Source: server/src/domain/sql_user_backend_handler.rs#async fn get_user_details *)
Definition sql_get_user_details (user_id : UserId) : SQL User :=
  let! found := query (fun db => db_users db !! user_id) in
  let! row := slift (ok_or (EntityNotFound (user_id_str user_id)) found) in
  let! attributes := query (fun db =>
    order_by by_attribute (filter (fun p => p.1.1 = user_id) (db_user_attributes db))) in
  sret (set_attributes (user_from_model (user_id, row)) (map attribute_value_from_model attributes)).

(** A set of groups: the order of the list is not specified.
    Source: server/src/domain/sql_user_backend_handler.rs#async fn get_user_groups *)
Definition sql_get_user_groups (user_id : UserId) : SQL (list GroupDetails) :=
  let! found := query (fun db => db_users db !! user_id) in
  let! _ := slift (ok_or (EntityNotFound (user_id_str user_id)) found) in
  query (fun db => map group_details_from_model (linked_groups db user_id)).

Definition opt_attribute (name : string) (v : option Serialized) : list (AttributeName * Serialized) :=
  match v with Some v => [(attribute_name_new name, v)] | None => [] end.

Fixpoint push_attributes (schema : AttributeList) (l : list AttributeValue)
    (acc : list (AttributeName * Serialized)) : outcome DomainError (list (AttributeName * Serialized)) :=
  match l with
  | [] => Ok acc
  | a :: l =>
      match get_attribute_type schema (av_name a) with
      | Some _ => push_attributes schema l (acc ++ [(av_name a, av_value a)])
      | None => Err (InternalError ("Attribute name " +:+ attribute_name_str (av_name a)
          +:+ " doesn't exist in the user schema,
                                    yet was attempted to be inserted in the database"))
      end
  end.

(** Source: server/src/domain/sql_user_backend_handler.rs#async fn create_user *)
Definition sql_create_user (request : CreateUserRequest) : SQL unit :=
  let! now := utc_now in
  let uuid := uuid_from_name_and_date (user_id_str (cu_user_id request)) now in
  let lower_email := to_lowercase (ci_raw (cu_email request)) in
  let new_user := mk_user_row (cu_email request) lower_email
    (match to_value (cu_display_name request) with Set_ d => d | NotSet => None end)
    now None None None uuid in
  let new_user_attributes :=
    opt_attribute "first_name" (serialized_from TyString <$> cu_first_name request)
    ++ opt_attribute "last_name" (serialized_from TyString <$> cu_last_name request)
    ++ opt_attribute "avatar" (serialized_from TyJpegPhoto <$> cu_avatar request) in
  transaction (
    let! schema := get_schema_with_transaction in
    let! new_user_attributes :=
      slift (push_attributes (sc_user_attributes schema) (cu_attributes request) new_user_attributes) in
    insert_user (cu_user_id request) new_user ;;
    run_if (non_empty new_user_attributes)
      (insert_user_attributes false (cu_user_id request) new_user_attributes) tt).

(** Source: server/src/domain/sql_user_backend_handler.rs#async fn delete_user *)
Definition sql_delete_user (user_id : UserId) : SQL unit :=
  let! rows_affected := delete_user_row user_id in
  if Nat.eqb rows_affected 0
  then sthrow (EntityNotFound ("No such user: '" +:+ user_id_str user_id +:+ "'"))
  else sret tt.

(** Source: server/src/domain/sql_user_backend_handler.rs#async fn add_user_to_group *)
Definition sql_add_user_to_group (user_id : UserId) (g : GroupId) : SQL unit :=
  insert_membership user_id g.

(** [GroupId]'s [Debug]. *)
Definition group_id_debug (g : GroupId) : string := "GroupId(" +:+ i64_to_string g +:+ ")".

(** Source: server/src/domain/sql_user_backend_handler.rs#async fn remove_user_from_group *)
Definition sql_remove_user_from_group (user_id : UserId) (g : GroupId) : SQL unit :=
  let! rows_affected := delete_membership user_id g in
  if Nat.eqb rows_affected 0
  then sthrow (EntityNotFound ("No such membership: '" +:+ user_id_str user_id +:+ "' -> "
                               +:+ group_id_debug g))
  else sret tt.
End SqlUser.
Arguments NotSet {A}.
Arguments Set_ {A} v.

(* ------------------------------------------------------------------ *)
(** ** Listing *)

(** Filters in which user ids are not compared through [Equality]: the others
    panic. *)
Fixpoint user_id_wrapped (f : UserRequestFilter) : bool :=
  match f with
  | UAnd fs | UOr fs => forallb user_id_wrapped fs
  | UNot f => user_id_wrapped f
  | UEquality c _ => negb (bool_decide (c = ColUserId))
  | _ => true
  end.

Section SqlUserFacts.
Context `{C : Crates} `{B : Bincode} `{SL : SqlLib}.

(** The translation succeeds or panics. *)
Lemma get_user_filter_expr_no_err {E} f (e : E) : get_user_filter_expr f <> Err e.
Proof.
  assert (Hlist : forall fs, Forall (fun f => forall e : E, get_user_filter_expr f <> Err e) fs ->
    forall e : E, try_map get_user_filter_expr fs <> Err e).
  { induction 1 as [|f' fs Hf _ IH]; intros e'; cbn; [done|]. specialize (Hf e'). specialize (IH e').
    destruct (get_user_filter_expr f') as [c|x|p], (try_map _ fs); try done; intros [= ->]; done. }
  revert e. induction f as [fs IH|fs IH|f IH|f Hf] using user_filter_ind; intros e.
  - specialize (Hlist fs IH e). destruct fs as [|f fs]; [done|].
    cbn [get_user_filter_expr]. destruct (try_map (get_user_filter_expr (E:=E)) (f :: fs)); try done; intros [= ->]; done.
  - specialize (Hlist fs IH e). destruct fs as [|f fs]; [done|].
    cbn [get_user_filter_expr]. destruct (try_map (get_user_filter_expr (E:=E)) (f :: fs)); try done; intros [= ->]; done.
  - specialize (IH e). cbn. unfold obind. destruct (get_user_filter_expr f); try done; intros [= ->]; done.
  - destruct f as [| | |v|s|c v|a v|c s|n|g]; try done; cbn; by repeat case_decide.
Qed.

Lemma get_user_filter_expr_total {E} f :
  user_id_wrapped f = true <-> exists c, get_user_filter_expr (E:=E) f = Ok c.
Proof.
  assert (Hlist : forall fs, Forall (fun f => user_id_wrapped f = true
      <-> exists c, get_user_filter_expr (E:=E) f = Ok c) fs ->
    forallb user_id_wrapped fs = true <-> exists cs, try_map (get_user_filter_expr (E:=E)) fs = Ok cs).
  { induction 1 as [|f' fs Hf H IH]; simpl; [naive_solver|].
    rewrite andb_true_iff, Hf, IH. split.
    - intros [[c ->] [cs ->]]. simpl. eauto.
    - intros [cs (c & Hc & (cs' & Hcs & _)%obind_ok)%obind_ok]. eauto. }
  assert (Hbind : forall (fs : list UserRequestFilter) (k : list (Cond UserExpr) -> Cond UserExpr),
    (exists cs, try_map (get_user_filter_expr (E:=E)) fs = Ok cs)
    <-> exists c, (let? cs := try_map get_user_filter_expr fs in Ok (E:=E) (k cs)) = Ok c).
  { intros fs k. split; [intros [cs ->]; simpl; eauto|].
    intros [c (cs & Hcs & _)%obind_ok]. eauto. }
  induction f as [fs IH|fs IH|f IH|f Hf] using user_filter_ind.
  - cbn [user_id_wrapped]. rewrite (Hlist fs IH), (Hbind fs CAll). destruct fs; [|done]. simpl. naive_solver.
  - cbn [user_id_wrapped]. rewrite (Hlist fs IH), (Hbind fs CAny). destruct fs; [|done]. simpl. naive_solver.
  - cbn. rewrite IH. split; [intros [c ->]; simpl; eauto|]. intros [c (c' & Hc & _)%obind_ok]. eauto.
  - destruct f as [| | |v|s|c v|a v|c s|n|g]; try done; cbn; try (split; eauto; done).
    rewrite negb_true_iff, bool_decide_eq_false. case_decide; [naive_solver|].
    case_decide; naive_solver.
Qed.

(** The user as [get_user_details] reads it, with the groups it is linked to. *)
Definition attributes_of (db : Db) (u : UserId) : list AttributeValue :=
  map attribute_value_from_model (order_by by_attribute (filter (fun p => p.1.1 = u) (db_user_attributes db))).
Definition full_user (db : Db) (m : UserId * UserRow) : User :=
  set_attributes (user_from_model m) (attributes_of db m.1).
Definition full_user_and_groups (db : Db) (m : UserId * UserRow) : UserAndGroups :=
  mk_user_and_groups (full_user db m) (Some (map group_details_from_model (linked_groups db m.1))).

(** User ids are compared as strings. *)
Definition user_id_le (u v : UserId) : Prop := str_leb (user_id_str u) (user_id_str v) = true.

Lemma user_id_le_antisym u v : user_id_le u v -> user_id_le v u -> u = v.
Proof.
  intros H1 H2. pose proof (str_leb_antisym _ _ H1 H2) as H. destruct u as [[s]], v as [[s']]. by cbn in H; subst.
Qed.

Lemma StronglySorted_impl_in {A} (R R' : relation A) l :
  (forall x y, x ∈ l -> y ∈ l -> R x y -> R' x y) -> StronglySorted R l -> StronglySorted R' l.
Proof.
  intros H Hl. induction Hl as [|x l Hl IH Hx]; constructor; [apply IH; set_solver|].
  rewrite Forall_forall in Hx |- *. intros y Hy. apply H; [set_solver..|auto].
Qed.

Lemma StronglySorted_map {A A'} (f : A -> A') (R : relation A) (R' : relation A') l :
  (forall x y, R x y -> R' (f x) (f y)) -> StronglySorted R l -> StronglySorted R' (map f l).
Proof.
  intros H. induction 1 as [|x l Hl IH Hx]; simpl; constructor; [done|].
  apply Forall_forall. intros y (z & -> & Hz)%list_elem_of_fmap. rewrite Forall_forall in Hx. auto.
Qed.

Lemma StronglySorted_NoDup {A K} (k : A -> K) (R : relation A) l :
  NoDup (map k l) -> StronglySorted R l -> StronglySorted (fun x y => R x y /\ k x <> k y) l.
Proof.
  intros Hnd Hl. induction Hl as [|x l Hl IH Hx]; [constructor|]. simpl in Hnd.
  apply NoDup_cons in Hnd as [Hn Hnd]. constructor; [auto|].
  rewrite Forall_forall in Hx |- *. intros y Hy. split; [auto|]. intros He. apply Hn.
  rewrite He. apply list_elem_of_fmap. eauto.
Qed.

Lemma select_users_sorted c db :
  StronglySorted (fun m m' : UserId * UserRow => user_id_le m.1 m'.1 /\ m.1 <> m'.1) (select_users c db).
Proof.
  unfold select_users. apply StronglySorted_filter, StronglySorted_NoDup; [apply order_by_NoDup|].
  apply order_by_sorted.
Qed.

Lemma elem_of_select_users c db u r :
  (u, r) ∈ select_users c db <-> db_users db !! u = Some r /\ user_selected db c u r = true.
Proof. unfold select_users. rewrite list_elem_of_filter, elem_of_order_by. naive_solver. Qed.

(** The attributes of one user, out of the attributes of all. *)
Lemma select_user_attributes_of c db u r :
  db_users db !! u = Some r -> user_selected db c u r = true ->
  map attribute_value_from_model (filter (fun m => m.1.1 = u) (select_user_attributes c db))
  = attributes_of db u.
Proof.
  intros Hu Hsel. unfold select_user_attributes, attributes_of. f_equal.
  rewrite list_filter_filter.
  rewrite (list_filter_iff _ (fun m : (UserId * AttributeName) * Serialized => m.1.1 = u)).
  2:{ intros [[u' a] v]. simpl. split; [naive_solver|]. intros ->. by rewrite Hu. }
  rewrite (filter_sort_by (lex_leb by_attribute_user) (lex_leb_total _) (lex_leb_trans _)).
  rewrite sort_by_sorted_id.
  - apply order_by_filter. intros [[u1 a1] v1] [[u2 a2] v2]. simpl. intros -> -> H1 H2 Ha%codes_inj.
    destruct a1 as [[s1]], a2 as [[s2]]. cbn in Ha; subst. congruence.
  - eapply StronglySorted_impl_in; [|apply StronglySorted_filter, order_by_sorted].
    intros [[u1 a1] v1] [[u2 a2] v2] [H1 _]%list_elem_of_filter [H2 _]%list_elem_of_filter _.
    simpl in *. subst. unfold lex_leb, by_attribute_user. simpl.
    by rewrite (proj2 (lex_compare_eq _ _) eq_refl).
Qed.

(** Every selected attribute row is that of a selected user. *)
Lemma select_user_attributes_cover c db :
  Forall (fun m => exists u r, (u, r) ∈ select_users c db /\ u = m.1.1) (select_user_attributes c db).
Proof.
  apply Forall_forall. intros [[u a] v] [Hsel _]%list_elem_of_filter. simpl in *.
  destruct (db_users db !! u) as [r|] eqn:Hu; [|done]. exists u, r. by rewrite elem_of_select_users.
Qed.

Lemma select_user_attributes_sorted c db :
  StronglySorted (fun m m' : (UserId * AttributeName) * Serialized => user_id_le m.1.1 m'.1.1)
    (select_user_attributes c db).
Proof.
  apply StronglySorted_filter.
  apply (sort_by_sorted (lex_leb by_attribute_user)); [apply lex_leb_total|apply lex_leb_trans].
Qed.

(** The two queries and the merge give every selected user with its own
    attributes. *)
Lemma populate_attributes_spec c db :
  populate_attributes
    (map (fun m => mk_user_and_groups (user_from_model m)
                     (Some (map group_details_from_model (linked_groups db m.1)))) (select_users c db))
    (select_user_attributes c db)
  = map (full_user_and_groups db) (select_users c db).
Proof.
  unfold populate_attributes.
  rewrite (distribute_sorted (fun x => user_user_id (uag_user x)) (fun m => m.1.1) user_id_le user_id_le_antisym).
  - rewrite !map_map. apply map_ext_in. intros [u r] [Hu Hsel]%base.list_elem_of_In%elem_of_select_users.
    simpl. rewrite (select_user_attributes_of c db u r Hu Hsel). done.
  - eapply StronglySorted_map; [|apply select_users_sorted]. intros [u r] [u' r'] H. exact H.
  - apply select_user_attributes_sorted.
  - eapply Forall_impl; [apply select_user_attributes_cover|]. intros m (u & r & Hin & ->).
    eexists (mk_user_and_groups (user_from_model (m.1.1, r)) _). split; [|done].
    apply list_elem_of_fmap. by exists (m.1.1, r).
Qed.

Lemma sql_list_users_run f b w c :
  get_user_filter_expr (E:=DomainError) f = Ok c ->
  sql_list_users (Some f) b w = (Ok (map (full_user_and_groups (w_db w)) (select_users c (w_db w))), w).
Proof.
  intros Hc. unfold sql_list_users, sbind, slift, query, sret. rewrite Hc. cbv beta iota.
  by rewrite populate_attributes_spec.
Qed.

Lemma sql_get_user_details_run u w :
  sql_get_user_details u w
  = (match db_users (w_db w) !! u with
     | Some r => Ok (full_user (w_db w) (u, r))
     | None => Err (EntityNotFound (user_id_str u))
     end, w).
Proof. unfold sql_get_user_details. cbn. by destruct (db_users (w_db w) !! u). Qed.

Lemma elem_of_attributes_of db u a : a ∈ attributes_of db u <-> db_user_attributes db !! (u, av_name a) = Some (av_value a).
Proof.
  unfold attributes_of. rewrite list_elem_of_fmap. split.
  - intros ([[u' a'] x] & -> & Hin%elem_of_order_by). apply map_lookup_filter_Some in Hin as [Hin Hu]. cbn in *. by subst.
  - intros Ha. exists ((u, av_name a), av_value a). split; [by destruct a|]. apply elem_of_order_by. by apply map_lookup_filter_Some.
Qed.

Lemma sql_list_users_readonly f b : readonly (sql_list_users f b).
Proof.
  intros w. unfold sql_list_users. destruct f as [f|]; [|done].
  cbn. unfold sbind, slift. by destruct (get_user_filter_expr f).
Qed.

Lemma selected_matches db u r f c :
  db_ok db -> db_users db !! u = Some r -> filter_defined u r f = true ->
  get_user_filter_expr (E:=DomainError) f = Ok c ->
  user_selected db c u r = true <-> user_matches db u r f.
Proof.
  intros Hok Hu Hd Hc. destruct (filter_translation db u r f Hok Hu Hd) as (c' & Hc' & H).
  rewrite Hc in Hc'. by injection Hc' as ->.
Qed.

Lemma linked_groups_ids db u g :
  db_ok db ->
  (exists d, d ∈ map group_details_from_model (linked_groups db u) /\ gd_group_id d = g)
  <-> (u, g) ∈ db_memberships db.
Proof.
  intros Hok. unfold linked_groups. split.
  - intros (d & ([g' r] & -> & H%elem_of_order_by)%list_elem_of_fmap & <-).
    by apply map_lookup_filter_Some in H as [_ ?].
  - intros Hm. destruct (ok_memberships _ Hok _ _ Hm) as [_ [r Hr]].
    exists (group_details_from_model (g, r)). split; [|done]. apply list_elem_of_fmap.
    eexists. split; [done|]. by apply elem_of_order_by, map_lookup_filter_Some.
Qed.

(** C28. Listing users returns each user the filter describes once, in the order of
    their ids, with the attributes [get_user_details] reads and the groups they are
    members of: merging the two queries with [take_while_ref] gives no user another's
    attributes and loses none.  A user is listed exactly if the filter describes it,
    when the filter reads no [NULL] column of that user's row and its substrings have no
    ["%"] or ["_"], which would be wildcards.  A filter that compares the user's id as a
    column panics, and nothing is written in any case. *)
Theorem sql_list_users_correct f b w :
  world_ok w ->
  if user_id_wrapped f then
    exists l, sql_list_users (Some f) b w = (Ok l, w)
      /\ StronglySorted (fun x y => user_id_le (user_user_id (uag_user x)) (user_user_id (uag_user y))
            /\ user_user_id (uag_user x) <> user_user_id (uag_user y)) l
      /\ (forall x, x ∈ l -> fst (sql_get_user_details (user_user_id (uag_user x)) w) = Ok (uag_user x)
            /\ exists gs, uag_groups x = Some gs
            /\ forall g, (exists d, d ∈ gs /\ gd_group_id d = g)
                 <-> (user_user_id (uag_user x), g) ∈ db_memberships (w_db w))
      /\ (forall u r, db_users (w_db w) !! u = Some r -> filter_defined u r f = true ->
            (exists x, x ∈ l /\ user_user_id (uag_user x) = u) <-> user_matches (w_db w) u r f)
  else exists p, sql_list_users (Some f) b w = (Panic p, w).
Proof.
  intros Hok. destruct (user_id_wrapped f) eqn:Hw.
  2:{ unfold sql_list_users, sbind, slift. pose proof (get_user_filter_expr_no_err (E:=DomainError) f) as He.
      destruct (get_user_filter_expr f) as [c|e|p] eqn:Hc; [|by destruct (He e)|by exists p].
      assert (user_id_wrapped f = true) by (by apply (get_user_filter_expr_total (E:=DomainError)); exists c). congruence. }
  destruct (proj1 (get_user_filter_expr_total (E:=DomainError) f) Hw) as [c Hc].
  exists (map (full_user_and_groups (w_db w)) (select_users c (w_db w))).
  split; [by apply sql_list_users_run|]. split_and!.
  - eapply StronglySorted_map; [|apply select_users_sorted]. intros [u r] [u' r'] H. exact H.
  - intros x ([u r] & -> & [Hu Hsel]%elem_of_select_users)%list_elem_of_fmap. simpl.
    rewrite sql_get_user_details_run, Hu. split; [done|]. eexists. split; [done|].
    intros g. by apply linked_groups_ids.
  - intros u r Hu Hd. rewrite <- (selected_matches _ _ _ _ _ Hok Hu Hd Hc). split.
    + intros (x & ([u' r'] & -> & [Hu' Hsel]%elem_of_select_users)%list_elem_of_fmap & <-). cbn in *. assert (r' = r) as -> by congruence. done.
    + intros Hsel. exists (full_user_and_groups (w_db w) (u, r)). split; [|done].
      apply list_elem_of_fmap. eexists. split; [done|]. by apply elem_of_select_users.
Qed.
End SqlUserFacts.

(* ------------------------------------------------------------------ *)
(** ** Writing *)

Section SqlUserWrites.
Context `{C : Crates} `{B : Bincode} `{SL : SqlLib}.

(** What a request to create a user writes. *)
Definition created_row (request : CreateUserRequest) (now : NaiveDateTime) : UserRow :=
  mk_user_row (cu_email request) (to_lowercase (ci_raw (cu_email request)))
    (match cu_display_name request with Some EmptyString => None | d => d end)
    now None None None (uuid_from_name_and_date (user_id_str (cu_user_id request)) now).
Definition attribute_row (a : AttributeValue) : AttributeName * Serialized := (av_name a, av_value a).
Definition created_attributes (request : CreateUserRequest) : list (AttributeName * Serialized) :=
  opt_attribute "first_name" (serialized_from TyString <$> cu_first_name request)
  ++ opt_attribute "last_name" (serialized_from TyString <$> cu_last_name request)
  ++ opt_attribute "avatar" (serialized_from TyJpegPhoto <$> cu_avatar request)
  ++ map attribute_row (cu_attributes request).

Lemma push_attributes_spec db l acc :
  let r := push_attributes (sc_user_attributes (schema_of db)) l acc in
  (Forall (fun a => is_Some (db_user_attribute_schema db !! av_name a)) l
   /\ r = Ok (acc ++ map attribute_row l))
  \/ (~ Forall (fun a => is_Some (db_user_attribute_schema db !! av_name a)) l /\ exists e, r = Err e).
Proof.
  cbv zeta. revert acc. induction l as [|a l IH]; intros acc; cbn [push_attributes].
  - left. by rewrite app_nil_r.
  - rewrite Forall_cons. pose proof (user_type_is_some db (av_name a)) as Ha.
    destruct (get_attribute_type _ _) as [t|].
    + destruct (IH (acc ++ [(av_name a, av_value a)])) as [[Hl Hr]|[Hl Hr]].
      * left. rewrite Hr, <- (assoc_L (++)). split; [|done]. split; [by apply Ha|done].
      * right. naive_solver.
    + right. split; [|by eauto]. intros [[? ?]%Ha _]. done.
Qed.

Lemma insert_user_run u r w :
  insert_user u r w
  = if decide (db_users (w_db w) !! u = None /\ user_unique u r (w_db w))
    then (Ok tt, set_db (set_users (<[u := r]> (db_users (w_db w))) (w_db w)) w)
    else (Err (unique (if decide (db_users (w_db w) !! u = None) then "users" else "users.user_id")), w).
Proof.
  unfold insert_user, statement, guard_.
  destruct (decide (db_users (w_db w) !! u = None)) as [H1|H1]; simpl.
  - destruct (decide (user_unique u r (w_db w))) as [H2|H2]; simpl.
    + by rewrite decide_True.
    + by rewrite decide_False by tauto.
  - by rewrite decide_False by tauto.
Qed.

Lemma set_db_id w : set_db (w_db w) w = w.
Proof. by destruct w. Qed.

(** A request that violates nothing. *)
Definition can_create (request : CreateUserRequest) (db : Db) (now : NaiveDateTime) : Prop :=
  db_users db !! cu_user_id request = None
  /\ user_unique (cu_user_id request) (created_row request now) db
  /\ NoDup (created_attributes request).*1
  /\ Forall (fun a => is_Some (db_user_attribute_schema db !! a)) (created_attributes request).*1.

(** No attribute without a user. *)
Lemma no_user_no_attribute db u a : db_ok db -> db_users db !! u = None -> db_user_attributes db !! (u, a) = None.
Proof.
  intros Hok Hu. destruct (db_user_attributes db !! (u, a)) eqn:Ha; [|done].
  destruct (ok_user_attributes _ Hok _ _ Ha) as [[? ?] _]. simpl in *. congruence.
Qed.

Lemma insert_created_rows u r rows w :
  world_ok w -> db_users (w_db w) !! u = None ->
  let w1 := set_db (set_users (<[u := r]> (db_users (w_db w))) (w_db w)) w in
  let ok := NoDup rows.*1 /\ Forall (fun a => is_Some (db_user_attribute_schema (w_db w) !! a)) rows.*1 in
  match run_if (non_empty rows) (insert_user_attributes false u rows) tt w1 with
  | (Ok _, w') => ok /\ w_db w' = set_user_attributes (write_rows u rows (db_user_attributes (w_db w))) (w_db w1)
  | (Err _, _) => ~ ok
  | (Panic _, _) => False
  end.
Proof.
  intros Hok Hu w1 ok. unfold run_if. destruct (non_empty rows) eqn:Hne.
  2:{ destruct rows; [|done]. split; [split; constructor|]. simpl. by destruct (w_db w). }
  unfold insert_user_attributes, statement.
  assert (Ht : (exists db', put_user_attributes false u rows (w_db w1) = Ok db')
    <-> rows_insertable false u rows (w_db w1)).
  { apply put_user_attributes_total. simpl. by rewrite lookup_insert_eq. }
  assert (Hi : rows_insertable false u rows (w_db w1) <-> ok).
  { unfold rows_insertable, ok. simpl. rewrite lookup_insert_eq.
    split; [intros ([[=]|[Hn _]] & _ & Hs); by split|]. intros [Hn Hs].
    split_and!; [right; split; [done|]|done|done].
    apply Forall_forall. intros a _. by apply no_user_no_attribute. }
  rewrite Hi in Ht. destruct (put_user_attributes _ _ _ _) as [db'|e|p] eqn:Hp; simpl.
  - split; [naive_solver|]. by apply put_user_attributes_run in Hp.
  - intros [db' Hd]%Ht. done.
  - exfalso. by eapply put_user_attributes_no_panic.
Qed.

Lemma run_set_db {A} (f : Db -> outcome DomainError (A * Db)) w r w' :
  statement f w = (r, w') -> w' = set_db (w_db w') w.
Proof. unfold statement. destruct (f (w_db w)) as [[]| |]; intros [= <- <-]; by destruct w. Qed.

Lemma run_if_insert_set_db b u rows w r w' :
  run_if b (insert_user_attributes false u rows) tt w = (r, w') -> w' = set_db (w_db w') w.
Proof.
  destruct b; simpl; [apply run_set_db|]. intros [= <- <-]. by rewrite set_db_id.
Qed.

Lemma created_attributes_app request :
  created_attributes request
  = (opt_attribute "first_name" (serialized_from TyString <$> cu_first_name request)
     ++ opt_attribute "last_name" (serialized_from TyString <$> cu_last_name request)
     ++ opt_attribute "avatar" (serialized_from TyJpegPhoto <$> cu_avatar request))
    ++ map attribute_row (cu_attributes request).
Proof. unfold created_attributes. by rewrite <- !(assoc_L (++)). Qed.

(** Creating a user succeeds exactly when the id, the e-mail (in either
    case) and the UUID are new, every attribute of the request is in the schema
    and none is given twice.  Then the database gains the row of the request,
    with an empty display name stored as none, and its attributes, and nothing
    else changes; otherwise nothing changes at all.  It never panics. *)
Theorem sql_create_user_correct request w :
  world_ok w ->
  match sql_create_user request w with
  | (Ok _, w') =>
      can_create request (w_db w) (w_now w)
      /\ exists A, w' = set_db (set_user_attributes A
            (set_users (<[cu_user_id request := created_row request (w_now w)]> (db_users (w_db w)))
               (w_db w))) w
        /\ forall u a, A !! (u, a) = if decide (u = cu_user_id request)
                                    then last_value (created_attributes request) a
                                    else db_user_attributes (w_db w) !! (u, a)
  | (Err _, w') => ~ can_create request (w_db w) (w_now w) /\ w' = w
  | (Panic _, _) => False
  end.
Proof.
  intros Hok. unfold sql_create_user, transaction, sbind at 1, utc_now.
  unfold sbind at 1. rewrite get_schema_with_transaction_run. unfold sbind at 1, slift.
  destruct (push_attributes_spec (w_db w) (cu_attributes request)
    (opt_attribute "first_name" (serialized_from TyString <$> cu_first_name request)
     ++ opt_attribute "last_name" (serialized_from TyString <$> cu_last_name request)
     ++ opt_attribute "avatar" (serialized_from TyJpegPhoto <$> cu_avatar request)))
    as [[Hs ->]|[Hs [e ->]]].
  2:{ split; [|done]. intros (_ & _ & _ & H). apply Hs.
      rewrite created_attributes_app, fmap_app, Forall_app in H. destruct H as [_ H].
      apply Forall_forall. intros a Ha. rewrite Forall_forall in H. apply H.
      apply list_elem_of_fmap. exists (attribute_row a). split; [done|].
      apply list_elem_of_fmap. eauto. }
  rewrite <- created_attributes_app. unfold sbind at 1. rewrite insert_user_run.
  replace (mk_user_row _ _ _ _ _ _ _ _) with (created_row request (w_now w)).
  2:{ unfold created_row. f_equal. by destruct (cu_display_name request) as [[]|]. }
  case_decide as Hu.
  2:{ split; [|done]. intros (? & ? & _). tauto. }
  destruct Hu as [Hu Huniq].
  pose proof (insert_created_rows (cu_user_id request) (created_row request (w_now w))
    (created_attributes request) w Hok Hu) as H. cbv zeta in H.
  destruct (run_if _ _ _ _) as [[[]|e|p] w'] eqn:Hrun; [| |done].
  - destruct H as [[Hnd Hsc] Hdb]. split; [done|]. eexists.
    split; [rewrite (run_if_insert_set_db _ _ _ _ _ _ Hrun), Hdb; by destruct w|].
    intros u a. rewrite lookup_write_rows. case_decide; [|done]. subst u.
    rewrite no_user_no_attribute by done. by destruct (last_value _ _).
  - split; [|done]. intros (_ & _ & H1 & H2). by apply H.
Qed.

(** What a request to update a user writes and removes: an empty first or last
    name, or an empty avatar, is a removal. *)
Definition named_value (name : string) (v : option (ActiveValue Serialized)) :
    list (AttributeName * Serialized) * list AttributeName :=
  match v with
  | None => ([], [])
  | Some NotSet => ([], [attribute_name_new name])
  | Some (Set_ v) => ([(attribute_name_new name, v)], [])
  end.
Definition avatar_value (avatar : option JpegPhoto) : option (ActiveValue Serialized) :=
  (fun p => if jpeg_is_empty p then NotSet else Set_ (serialized_from TyJpegPhoto p)) <$> avatar.
Definition named_values (request : UpdateUserRequest) :=
  [named_value "first_name" (to_serialized_value (uu_first_name request));
   named_value "last_name" (to_serialized_value (uu_last_name request));
   named_value "avatar" (avatar_value (uu_avatar request))].
Definition updated_attributes (request : UpdateUserRequest) : list (AttributeName * Serialized) :=
  concat (named_values request).*1 ++ map attribute_row (uu_insert_attributes request).
Definition removed_attributes (request : UpdateUserRequest) : list AttributeName :=
  concat (named_values request).*2 ++ uu_delete_attributes request.

Lemma process_inserts_run what schema l ch ch' :
  process_inserts what schema l ch = Ok ch' ->
  Forall (fun a => is_Some (get_attribute_type schema (av_name a))) l
  /\ ch' = mk_changes (ch_update ch ++ map attribute_row l) (ch_remove ch).
Proof.
  revert ch. induction l as [|a l IH]; intros ch; cbn [process_inserts].
  - intros [= <-]. rewrite app_nil_r. by destruct ch.
  - destruct (get_attribute_type _ _) as [t|] eqn:Ht; [|done]. intros [Hl ->]%IH.
    split; [constructor; [by rewrite Ht|done]|]. simpl. by rewrite <- (assoc_L (++)).
Qed.

Lemma process_deletes_run what schema l ch ch' :
  process_deletes what schema l ch = Ok ch' ->
  Forall (fun a => is_Some (get_attribute_type schema a)) l
  /\ ch' = mk_changes (ch_update ch) (ch_remove ch ++ l).
Proof.
  revert ch. induction l as [|a l IH]; intros ch; cbn [process_deletes].
  - intros [= <-]. rewrite app_nil_r. by destruct ch.
  - destruct (get_attribute_type _ _) as [t|] eqn:Ht; [|done]. intros [Hl ->]%IH.
    split; [constructor; [by rewrite Ht|done]|]. simpl. by rewrite <- (assoc_L (++)).
Qed.

Lemma process_inserts_no_panic what schema l ch p : process_inserts what schema l ch <> Panic p.
Proof. revert ch. induction l as [|a l IH]; intros ch; simpl; [done|]. by destruct (get_attribute_type _ _). Qed.
Lemma process_deletes_no_panic what schema l ch p : process_deletes what schema l ch <> Panic p.
Proof. revert ch. induction l as [|a l IH]; intros ch; simpl; [done|]. by destruct (get_attribute_type _ _). Qed.

Lemma user_changes_run request db ch :
  user_changes request (schema_of db) = Ok ch ->
  ch = mk_changes (updated_attributes request) (removed_attributes request)
  /\ Forall (fun a => is_Some (db_user_attribute_schema db !! av_name a)) (uu_insert_attributes request)
  /\ Forall (fun a => is_Some (db_user_attribute_schema db !! a)) (uu_delete_attributes request).
Proof.
  unfold user_changes. rewrite obind_ok.
  intros (ch' & [Hi ->]%process_inserts_run & [Hd ->]%process_deletes_run). split.
  2:{ split; [eapply Forall_impl; [exact Hi|]|eapply Forall_impl; [exact Hd|]]; intros a;
        apply user_type_is_some. }
  unfold updated_attributes, removed_attributes, named_values, avatar_value, jpeg_into_active_value. simpl.
  destruct (to_serialized_value (uu_first_name request)) as [[|]|],
    (to_serialized_value (uu_last_name request)) as [[|]|], (uu_avatar request) as [av|];
    simpl; try (destruct (jpeg_is_empty av); simpl); rewrite ?app_nil_r; done.
Qed.

Lemma user_changes_no_panic request schema p : user_changes request schema <> Panic p.
Proof.
  unfold user_changes. intros H. destruct (process_inserts _ _ _ _) as [ch|e|p'] eqn:Hi; simpl in H;
    [by eapply process_deletes_no_panic|done|by eapply process_inserts_no_panic].
Qed.

Lemma delete_user_attributes_run u names w :
  run_if (non_empty names) (delete_user_attributes u names) tt w
  = (Ok tt, set_db (set_user_attributes
      (filter (fun kv => ~ (kv.1.1 = u /\ kv.1.2 ∈ names)) (db_user_attributes (w_db w))) (w_db w)) w).
Proof.
  destruct names as [|n names]; [|done]. simpl. unfold sret. f_equal. destruct w as [db now rng pos].
  unfold set_db. simpl. f_equal. destruct db. unfold set_user_attributes. simpl. f_equal. symmetry.
  apply map_filter_id. intros k x _ [_ Hn]. by apply not_elem_of_nil in Hn.
Qed.

Lemma upsert_run u rows w r w' :
  run_if (non_empty rows) (insert_user_attributes true u rows) tt w = (r, w') ->
  match r with
  | Ok _ => w' = set_db (set_user_attributes (write_rows u rows (db_user_attributes (w_db w))) (w_db w)) w
  | Err _ => True
  | Panic _ => False
  end.
Proof.
  destruct rows as [|row rows]; simpl.
  - intros [= <- <-]. destruct w as [db]. by destruct db.
  - unfold insert_user_attributes, statement.
    destruct (put_user_attributes true u (row :: rows) (w_db w)) as [db'|e|p] eqn:Hp; simpl;
      intros [= <- <-]; [|done|by eapply put_user_attributes_no_panic].
    by apply put_user_attributes_run in Hp as ->.
Qed.

(** The value of an attribute after an update: a written value wins over a
    removal. *)
Definition attribute_after (request : UpdateUserRequest) (a : AttributeName) (old : option Serialized) :
    option Serialized :=
  match last_value (updated_attributes request) a with
  | Some v => Some v
  | None => if decide (a ∈ removed_attributes request) then None else old
  end.

Lemma lookup_updated `{Countable K} (u : K) upd (rem : list AttributeName) m k a :
  write_rows u upd (filter (fun kv : (K * AttributeName) * Serialized => ~ (kv.1.1 = u /\ kv.1.2 ∈ rem)) m) !! (k, a)
  = if decide (k = u) then
      match last_value upd a with
      | Some v => Some v
      | None => if decide (a ∈ rem) then None else m !! (k, a)
      end
    else m !! (k, a).
Proof.
  rewrite lookup_write_rows. destruct (decide (k = u)) as [->|Hk].
  - destruct (last_value upd a); [done|]. rewrite map_lookup_filter. destruct (m !! (u, a)); simpl.
    + case_guard as Hg; case_decide; simpl in *; naive_solver.
    + by case_decide.
  - rewrite map_lookup_filter. destruct (m !! (k, a)); simpl; [|done].
    case_guard as Hg; [done|]. simpl in Hg. naive_solver.
Qed.

Lemma update_user_row_run noop u f w :
  match update_user_row noop u f w with
  | (Ok _, w') => exists r, db_users (w_db w) !! u = Some r /\ user_unique u (f r) (w_db w)
      /\ w' = set_db (set_users (<[u := f r]> (db_users (w_db w))) (w_db w)) w
  | (Err _, w') => w' = w
  | (Panic _, _) => False
  end.
Proof.
  unfold update_user_row, statement. destruct (db_users (w_db w) !! u) as [r|]; [|done].
  unfold guard_. case_decide; simpl; eauto.
Qed.

(** Updating a user is all or nothing.  On success the user existed, every
    attribute named by the request is in the schema, the row is changed in the
    e-mail (and its lower-case copy) and the display name only where the
    request says so, and each attribute of the user is the value written, or
    absent if removed, or what it was; every other row of the database is
    untouched.  On failure the database is what it was. *)
Theorem sql_update_user_correct request w :
  match sql_update_user request w with
  | (Ok _, w') =>
      exists r A, db_users (w_db w) !! uu_user_id request = Some r
      /\ Forall (fun a => is_Some (db_user_attribute_schema (w_db w) !! av_name a)) (uu_insert_attributes request)
      /\ Forall (fun a => is_Some (db_user_attribute_schema (w_db w) !! a)) (uu_delete_attributes request)
      /\ w' = set_db (set_user_attributes A
            (set_users (<[uu_user_id request :=
                updated_row (uu_email request) (to_value (uu_display_name request)) r]>
              (db_users (w_db w))) (w_db w))) w
      /\ forall u a, A !! (u, a)
          = if decide (u = uu_user_id request)
            then attribute_after request a (db_user_attributes (w_db w) !! (u, a))
            else db_user_attributes (w_db w) !! (u, a)
  | (Err _, w') => w' = w
  | (Panic _, _) => False
  end.
Proof.
  unfold sql_update_user, transaction, update_user_with_transaction, sbind at 1.
  rewrite get_schema_with_transaction_run. unfold sbind at 1, slift.
  destruct (user_changes _ _) as [ch|e|p] eqn:Hch; [|done|by eapply user_changes_no_panic].
  apply user_changes_run in Hch as (-> & Hi & Hd). simpl. unfold sbind at 1.
  pose proof (update_user_row_run
    (match uu_email request with Some _ => false | None => is_not_set (to_value (uu_display_name request)) end)
    (uu_user_id request) (updated_row (uu_email request) (to_value (uu_display_name request))) w) as Hrow.
  destruct (update_user_row _ _ _ w) as [[[]|e|p] w1]; [|done..].
  destruct Hrow as (r & Hr & _ & ->). unfold sbind. rewrite delete_user_attributes_run.
  destruct (run_if _ _ _ _) as [res w'] eqn:Hrun. apply upsert_run in Hrun.
  destruct res as [[]|e|p]; [|done..]. subst w'.
  exists r, (write_rows (uu_user_id request) (updated_attributes request)
    (filter (fun kv => ~ (kv.1.1 = uu_user_id request /\ kv.1.2 ∈ removed_attributes request))
      (db_user_attributes (w_db w)))).
  split_and!; try done. intros u a. apply lookup_updated.
Qed.

(** An update without attributes of its own fails on the unique columns only. *)
Definition row_after (request : UpdateUserRequest) (r : UserRow) : UserRow :=
  updated_row (uu_email request) (to_value (uu_display_name request)) r.
Lemma sql_update_user_decided request w r :
  db_users (w_db w) !! uu_user_id request = Some r ->
  uu_insert_attributes request = [] -> uu_delete_attributes request = [] ->
  Forall (fun a => is_Some (db_user_attribute_schema (w_db w) !! a)) (updated_attributes request).*1 ->
  if decide (user_unique (uu_user_id request) (row_after request r) (w_db w))
  then exists w', sql_update_user request w = (Ok tt, w') else exists e, sql_update_user request w = (Err e, w).
Proof.
  intros Hu Hi Hd Hs.
  assert (Hch : exists ch, user_changes request (schema_of (w_db w)) = Ok ch)
    by (unfold user_changes; rewrite Hi, Hd; by eexists).
  destruct Hch as [ch Hch]. pose proof (user_changes_run _ _ _ Hch) as (-> & _ & _).
  unfold sql_update_user, transaction, update_user_with_transaction.
  rewrite (sbind_run _ _ w (schema_of (w_db w)) w) by apply get_schema_with_transaction_run.
  rewrite (sbind_run _ _ w (mk_changes (updated_attributes request) (removed_attributes request)) w) by (unfold slift; by rewrite Hch).
  cbn [ch_remove ch_update].
  match goal with |- context [update_user_row ?noop ?u ?f] => assert (Hrow : update_user_row noop u f w
    = if decide (user_unique u (row_after request r) (w_db w))
      then (Ok tt, set_db (set_users (<[u := row_after request r]> (db_users (w_db w))) (w_db w)) w) else (Err (unique "users"), w))
    by (unfold update_user_row, statement; rewrite Hu; fold (row_after request r); unfold guard_; by case_decide) end.
  case_decide as Huniq; [|rewrite (sbind_run_err _ _ _ _ _ Hrow); by eexists].
  rewrite (sbind_run _ _ _ _ _ Hrow), (sbind_run _ _ _ _ _ (delete_user_attributes_run _ _ _)).
  destruct (non_empty (updated_attributes request)); cbn [run_if]; [|by eexists].
  unfold insert_user_attributes, statement.
  match goal with |- context [put_user_attributes true ?u ?rows ?db] =>
    assert (Hrow' : is_Some (db_users db !! u)) by (cbn; rewrite lookup_insert_eq; by eexists);
    destruct (proj2 (put_user_attributes_total true u rows db Hrow')) as [db' ->] end; [|by eexists].
  split; [by left|]. by split.
Qed.

(** Deleting a user removes its row and, by the cascades, its memberships,
    attributes, refresh tokens, registered JWTs and reset tokens, and nothing
    else; deleting an unknown user is an error and changes nothing. *)
Theorem sql_delete_user_correct u w :
  match sql_delete_user u w with
  | (Ok _, w') => is_Some (db_users (w_db w) !! u) /\ w' = set_db (cascade_user u (w_db w)) w
      /\ db_users (w_db w') = delete u (db_users (w_db w))
      /\ db_groups (w_db w') = db_groups (w_db w)
      /\ (forall v g, (v, g) ∈ db_memberships (w_db w') <-> (v, g) ∈ db_memberships (w_db w) /\ v <> u)
      /\ (forall v a, db_user_attributes (w_db w') !! (v, a)
            = if decide (v = u) then None else db_user_attributes (w_db w) !! (v, a))
      /\ (forall k r, db_jwt_storage (w_db w') !! k = Some r
            <-> db_jwt_storage (w_db w) !! k = Some r /\ jr_user_id r <> u)
  | (Err _, w') => db_users (w_db w) !! u = None /\ w' = w
  | (Panic _, _) => False
  end.
Proof.
  unfold sql_delete_user, sbind, delete_user_row, statement.
  destruct (db_users (w_db w) !! u) as [r|] eqn:Hu; simpl; [|by rewrite set_db_id].
  split_and!; try done.
  - intros v g. rewrite elem_of_filter. simpl. naive_solver.
  - intros v a. rewrite map_lookup_filter. destruct (db_user_attributes (w_db w) !! (v, a)); simpl;
      [|by case_decide]. case_guard as Hg; case_decide; simpl in *; done.
  - intros k r'. by rewrite map_lookup_filter_Some.
Qed.
End SqlUserWrites.

Lemma sql_list_users_correct_witness :
  let f := UMemberOf (mk_ci "Best Group") in
  exists l, @sql_list_users concrete_crates concrete_sql (Some f) true example_world = (Ok l, example_world)
    /\ map (fun x => user_user_id (uag_user x)) l = [uid_bob; uid_john]
    /\ Forall (fun x => fst (sql_get_user_details (user_user_id (uag_user x)) example_world)
         = Ok (uag_user x)) l.
Proof.
  intros f.
  destruct (@sql_list_users_correct concrete_crates concrete_sql f true example_world)
    as (l & Hl & _ & Hx & _); [apply example_world_ok|].
  exists l. split; [exact Hl|]. split.
  - vm_compute in Hl. injection Hl as <-. reflexivity.
  - apply Forall_forall. intros x Hin. by destruct (Hx x Hin).
Defined.

Definition example_create : CreateUserRequest :=
  mk_create_user (user_id_new "Patrick") (mk_ci "patrick@example.com") (Some ""%string)
    (Some "Patrick"%string) None None [].

Lemma sql_create_user_correct_witness :
  exists w', @sql_create_user concrete_crates concrete_bincode example_create example_world = (Ok tt, w')
    /\ @can_create concrete_crates concrete_bincode example_create example_db 2000.
Proof.
  pose proof (@sql_create_user_correct concrete_crates concrete_bincode
    example_create example_world example_world_ok) as H.
  destruct (sql_create_user example_create example_world) as [[[]|e|p] w'] eqn:Hrun.
  - exists w'. split; [done|]. apply H.
  - exfalso. vm_compute in Hrun. discriminate.
  - destruct H.
Defined.
