(* ===== verification/SqlGroup.v ===== *)
(** * The SQL backend: groups

    Models [server/src/domain/sql_group_backend_handler.rs]: listing with a
    filter, reading, creating, updating and deleting groups. *)

From S2P Require Import Prelude RustStd Extern Types Concrete Handler Db ExampleDb SqlFilters SqlSchema SqlUser.
From Stdlib Require Import Ascii String.
From stdpp Require Import strings list gmap.
#[local] Open Scope rust_scope.

Section SqlGroup.
Context `{C : Crates}.

(** Source: server/src/domain/model/groups.rs#impl From<Model> for crate::domain::types::Group *)
Definition group_from_model (m : GroupId * GroupRow) : Group :=
  mk_group m.1 (gr_display_name m.2) (gr_creation_date m.2) (gr_uuid m.2) [] [].

(** Source: server/src/domain/model/group_attributes.rs#impl From<Model> for AttributeValue *)
Definition group_attribute_from_model (m : (GroupId * AttributeName) * Serialized) : AttributeValue :=
  mk_attribute_value m.1.2 m.2.

Definition group_id_leb {A} (m m' : GroupId * A) : bool := (m.1 <=? m'.1)%Z.
Definition attribute_group_leb (m m' : (GroupId * AttributeName) * Serialized) : bool := (m.1.1 <=? m'.1.1)%Z.

(** The condition of [list_groups]: the group id is in the subquery. *)
Definition select_groups (c : Cond GroupExpr) (db : Db) : list (GroupId * GroupRow) :=
  filter (fun p => group_selected db c p.1 p.2 = true)
    (sort_by group_id_leb (map_to_list (db_groups db))).

Definition select_group_attributes (c : Cond GroupExpr) (db : Db) :
    list ((GroupId * AttributeName) * Serialized) :=
  filter (fun p => match db_groups db !! p.1.1 with
                   | Some r => group_selected db c p.1.1 r
                   | None => false
                   end = true)
    (sort_by attribute_group_leb (order_by by_attribute (db_group_attributes db))).

(** The members of a group, in the order of the primary key of [memberships]. *)
Definition members (db : Db) (g : GroupId) : list UserId :=
  sort_by (fun u v => str_leb (user_id_str u) (user_id_str v))
    (map fst (filter (fun p => p.2 = g) (elements (db_memberships db)))).

Definition set_group_users (users : list UserId) (g : Group) : Group :=
  mk_group (group_id g) (group_display_name g) (group_creation_date g) (group_uuid g) users (group_attributes g).
Definition set_group_attributes_list (attributes : list AttributeValue) (g : Group) : Group :=
  mk_group (group_id g) (group_display_name g) (group_creation_date g) (group_uuid g) (group_users g) attributes.

(** [groups.sort_by(|g1, g2| g1.display_name.cmp(&g2.display_name))] *)
Definition group_name_leb (g1 g2 : Group) : bool :=
  match ci_cmp (group_display_name g1) (group_display_name g2) with Gt => false | _ => true end.

(** Source: server/src/domain/sql_group_backend_handler.rs#async fn list_groups *)
Definition sql_list_groups (filters : option GroupRequestFilter) : SQL (list Group) :=
  let filters := match filters with
                 | Some f => get_group_filter_expr f
                 | None => CValue true
                 end in
  let! groups := query (fun db =>
    map (fun m => set_group_users (members db m.1) (group_from_model m)) (select_groups filters db)) in
  let! attributes := query (select_group_attributes filters) in
  let groups :=
    map (fun '(g, mine) => set_group_attributes_list (map group_attribute_from_model mine) g)
      (distribute group_id (fun m => m.1.1) groups attributes) in
  sret (sort_by group_name_leb groups).

Definition set_details_attributes (attributes : list AttributeValue) (g : GroupDetails) : GroupDetails :=
  mk_group_details (gd_group_id g) (gd_display_name g) (gd_creation_date g) (gd_uuid g) attributes.

(** Source: server/src/domain/sql_group_backend_handler.rs#async fn get_group_details *)
Definition sql_get_group_details (g : GroupId) : SQL GroupDetails :=
  let! found := query (fun db => db_groups db !! g) in
  let! group_details := slift (ok_or (EntityNotFound (group_id_debug g))
                                 ((fun r => group_details_from_model (g, r)) <$> found)) in
  let! attributes := query (fun db =>
    order_by by_attribute (filter (fun p => p.1.1 = g) (db_group_attributes db))) in
  sret (set_details_attributes (map group_attribute_from_model attributes) group_details).

Definition updated_group_row (display_name : option GroupName) (r : GroupRow) : GroupRow :=
  mk_group_row (default (gr_display_name r) display_name)
    (match display_name with
     | Some n => to_lowercase (ci_raw n)
     | None => gr_lowercase_display_name r
     end)
    (gr_creation_date r) (gr_uuid r).

(** Source: server/src/domain/sql_group_backend_handler.rs#async fn update_group_with_transaction *)
Definition update_group_with_transaction (request : UpdateGroupRequest) : SQL unit :=
  let noop := match ug_display_name request with None => true | Some _ => false end in
  update_group_row noop (ug_group_id request) (updated_group_row (ug_display_name request)) ;;
  let! schema := get_schema_with_transaction in
  let! ch := slift (
    let? ch := process_inserts "Group" (sc_group_attributes schema) (ug_insert_attributes request)
                 (mk_changes [] []) in
    process_deletes "Group" (sc_group_attributes schema) (ug_delete_attributes request) ch) in
  run_if (non_empty (ch_remove ch)) (delete_group_attributes (ug_group_id request) (ch_remove ch)) tt ;;
  run_if (non_empty (ch_update ch)) (insert_group_attributes true (ug_group_id request) (ch_update ch)) tt.

(** Source: server/src/domain/sql_group_backend_handler.rs#async fn update_group *)
Definition sql_update_group (request : UpdateGroupRequest) : SQL unit :=
  transaction (update_group_with_transaction request).

Fixpoint push_group_attributes (schema : AttributeList) (l : list AttributeValue) :
    outcome DomainError (list (AttributeName * Serialized)) :=
  match l with
  | [] => Ok []
  | a :: l =>
      match get_attribute_type schema (av_name a) with
      | Some _ => omap_ok (cons (av_name a, av_value a)) (push_group_attributes schema l)
      | None => Err (InternalError ("Attribute name " +:+ attribute_name_str (av_name a)
          +:+ " doesn't exist in the group schema,
                                    yet was attempted to be inserted in the database"))
      end
  end.

(** Source: server/src/domain/sql_group_backend_handler.rs#async fn create_group *)
Definition sql_create_group (request : CreateGroupRequest) : SQL GroupId :=
  let! now := utc_now in
  let uuid := uuid_from_name_and_date (ci_raw (cg_display_name request)) now in
  let lower_display_name := to_lowercase (ci_raw (cg_display_name request)) in
  let new_group := mk_group_row (cg_display_name request) lower_display_name now uuid in
  transaction (
    let! schema := get_schema_with_transaction in
    let! group_id := insert_group new_group in
    let! new_group_attributes :=
      slift (push_group_attributes (sc_group_attributes schema) (cg_attributes request)) in
    run_if (non_empty new_group_attributes)
      (insert_group_attributes false group_id new_group_attributes) tt ;;
    sret group_id).

(** Source: server/src/domain/sql_group_backend_handler.rs#async fn delete_group *)
Definition sql_delete_group (g : GroupId) : SQL unit :=
  let! rows_affected := delete_group_row g in
  if Nat.eqb rows_affected 0
  then sthrow (EntityNotFound ("No such group: '" +:+ group_id_debug g +:+ "'"))
  else sret tt.
End SqlGroup.

(* ------------------------------------------------------------------ *)
(** ** Listing *)

Section SqlGroupFacts.
Context `{C : Crates}.

Lemma group_id_leb_total {A} (m m' : GroupId * A) : group_id_leb m m' = true \/ group_id_leb m' m = true.
Proof. unfold group_id_leb. rewrite !Z.leb_le. lia. Qed.
Lemma group_id_leb_trans {A} (m1 m2 m3 : GroupId * A) :
  group_id_leb m1 m2 = true -> group_id_leb m2 m3 = true -> group_id_leb m1 m3 = true.
Proof. unfold group_id_leb. rewrite !Z.leb_le. lia. Qed.
Lemma attribute_group_leb_total m m' : attribute_group_leb m m' = true \/ attribute_group_leb m' m = true.
Proof. unfold attribute_group_leb. rewrite !Z.leb_le. lia. Qed.
Lemma attribute_group_leb_trans m1 m2 m3 :
  attribute_group_leb m1 m2 = true -> attribute_group_leb m2 m3 = true -> attribute_group_leb m1 m3 = true.
Proof. unfold attribute_group_leb. rewrite !Z.leb_le. lia. Qed.
Lemma group_name_leb_lex g1 g2 :
  group_name_leb g1 g2 = lex_leb (fun g => lowercase_iter (ci_raw (group_display_name g))) g1 g2.
Proof. done. Qed.

Definition group_attributes_of (db : Db) (g : GroupId) : list AttributeValue :=
  map group_attribute_from_model
    (order_by by_attribute (filter (fun p => p.1.1 = g) (db_group_attributes db))).

(** A group as [get_group_details] reads it, with its members. *)
Definition full_group (db : Db) (m : GroupId * GroupRow) : Group :=
  mk_group m.1 (gr_display_name m.2) (gr_creation_date m.2) (gr_uuid m.2) (members db m.1)
    (group_attributes_of db m.1).

Lemma elem_of_members db u g : u ∈ members db g <-> (u, g) ∈ db_memberships db.
Proof.
  unfold members. rewrite elem_of_sort_by, list_elem_of_fmap. split.
  - by intros ([u' g'] & -> & [<- ?%elem_of_elements]%list_elem_of_filter).
  - intros H. exists (u, g). split; [done|]. apply list_elem_of_filter. by rewrite elem_of_elements.
Qed.

Lemma elem_of_select_groups c db g r :
  (g, r) ∈ select_groups c db <-> db_groups db !! g = Some r /\ group_selected db c g r = true.
Proof.
  unfold select_groups. rewrite list_elem_of_filter, elem_of_sort_by, elem_of_map_to_list. naive_solver.
Qed.

Lemma select_groups_sorted c db :
  StronglySorted (fun m m' : GroupId * GroupRow => (m.1 <= m'.1)%Z /\ m.1 <> m'.1) (select_groups c db).
Proof.
  unfold select_groups. apply StronglySorted_filter, StronglySorted_NoDup.
  - change (map fst ?l) with (l.*1). rewrite (sort_by_perm _ _). apply NoDup_fst_map_to_list.
  - eapply StronglySorted_impl_in; [|apply (sort_by_sorted group_id_leb)].
    + intros x y _ _ H. by apply Z.leb_le.
    + apply group_id_leb_total.
    + apply group_id_leb_trans.
Qed.

Lemma select_group_attributes_of c db g r :
  db_groups db !! g = Some r -> group_selected db c g r = true ->
  map group_attribute_from_model (filter (fun m => m.1.1 = g) (select_group_attributes c db))
  = group_attributes_of db g.
Proof.
  intros Hg Hsel. unfold select_group_attributes, group_attributes_of. f_equal.
  rewrite list_filter_filter.
  rewrite (list_filter_iff _ (fun m : (GroupId * AttributeName) * Serialized => m.1.1 = g)).
  2:{ intros [[g' a] v]. simpl. split; [naive_solver|]. intros ->. by rewrite Hg. }
  rewrite (filter_sort_by attribute_group_leb attribute_group_leb_total attribute_group_leb_trans).
  rewrite sort_by_sorted_id.
  - apply order_by_filter. intros [[g1 a1] v1] [[g2 a2] v2]. simpl. intros -> -> H1 H2 Ha%codes_inj.
    destruct a1 as [[s1]], a2 as [[s2]]. cbn in Ha; subst. congruence.
  - eapply StronglySorted_impl_in; [|apply StronglySorted_filter, order_by_sorted].
    intros [[g1 a1] v1] [[g2 a2] v2] [H1 _]%list_elem_of_filter [H2 _]%list_elem_of_filter _.
    simpl in *. subst. unfold attribute_group_leb. apply Z.leb_refl.
Qed.

Lemma sql_list_groups_run f w :
  let c := match f with Some f => get_group_filter_expr f | None => CValue true end in
  sql_list_groups f w
  = (Ok (sort_by group_name_leb (map (full_group (w_db w)) (select_groups c (w_db w)))), w).
Proof.
  intros c. unfold sql_list_groups, sbind, query, sret. cbv beta iota. fold c.
  rewrite (distribute_sorted group_id (fun m => m.1.1) Z.le (fun k k' => Z.le_antisymm k k')).
  - do 3 f_equal. rewrite !map_map. apply map_ext_in.
    intros [g r] [Hg Hsel]%base.list_elem_of_In%elem_of_select_groups. simpl.
    by rewrite (select_group_attributes_of c (w_db w) g r Hg Hsel).
  - eapply StronglySorted_map; [|apply select_groups_sorted]. intros [g r] [g' r'] H. exact H.
  - apply StronglySorted_filter. eapply StronglySorted_impl_in.
    2: apply (sort_by_sorted attribute_group_leb attribute_group_leb_total attribute_group_leb_trans).
    intros x y _ _ H. by apply Z.leb_le.
  - apply Forall_forall. intros [[g a] v] [Hsel _]%list_elem_of_filter. simpl in *.
    destruct (db_groups (w_db w) !! g) as [r|] eqn:Hg; [|done].
    exists (set_group_users (members (w_db w) g) (group_from_model (g, r))). split; [|done].
    apply list_elem_of_fmap. exists (g, r). split; [done|]. by apply elem_of_select_groups.
Qed.

Lemma sql_list_groups_readonly f : readonly (sql_list_groups f).
Proof. intros w. by rewrite sql_list_groups_run. Qed.

Lemma elem_of_list_groups f w l x :
  fst (sql_list_groups f w) = Ok l ->
  x ∈ l <-> exists g r, db_groups (w_db w) !! g = Some r /\ x = full_group (w_db w) (g, r)
      /\ group_selected (w_db w) (match f with Some f => get_group_filter_expr f | None => CValue true end) g r = true.
Proof.
  rewrite sql_list_groups_run. simpl. intros [= <-].
  rewrite elem_of_sort_by, list_elem_of_fmap. split.
  - intros ([g r] & -> & [Hg Hs]%elem_of_select_groups). eauto.
  - intros (g & r & Hg & -> & Hs). exists (g, r). by rewrite elem_of_select_groups.
Qed.

Lemma sql_get_group_details_run g w :
  sql_get_group_details g w
  = (match db_groups (w_db w) !! g with
     | Some r => Ok (set_details_attributes (group_attributes_of (w_db w) g) (group_details_from_model (g, r)))
     | None => Err (EntityNotFound (group_id_debug g))
     end, w).
Proof. unfold sql_get_group_details. cbn. by destruct (db_groups (w_db w) !! g). Qed.

Lemma selected_group_matches db g r f :
  db_ok db -> db_groups db !! g = Some r -> group_filter_plain f = true ->
  group_selected db (get_group_filter_expr f) g r = true <-> group_matches db g r f.
Proof.
  intros Hok Hg Hf. apply decides_true, group_translated; [|done].
  by destruct (ok_group_rows _ Hok g r Hg).
Qed.

Lemma select_groups_NoDup c db : NoDup (select_groups c db).*1.
Proof.
  unfold select_groups. apply (sublist_NoDup _ ((sort_by group_id_leb (map_to_list (db_groups db))).*1)).
  - rewrite (sort_by_perm group_id_leb _). apply NoDup_fst_map_to_list.
  - apply fmap_sublist, sublist_filter.
Qed.

(** Listing groups returns exactly the groups the filter describes, sorted
    by display name without regard to case, each with its own attributes and
    exactly its members. *)
Theorem sql_list_groups_correct f w :
  world_ok w -> group_filter_plain f = true ->
  exists l, sql_list_groups (Some f) w = (Ok l, w)
    /\ StronglySorted (fun x y => ci_cmp (group_display_name x) (group_display_name y) <> Gt) l
    /\ NoDup (map group_id l)
    /\ (forall x u, x ∈ l -> u ∈ group_users x <-> (u, group_id x) ∈ db_memberships (w_db w))
    /\ (forall x, x ∈ l -> exists d, fst (sql_get_group_details (group_id x) w) = Ok d
          /\ gd_display_name d = group_display_name x /\ gd_attributes d = group_attributes x)
    /\ (forall g, (exists x, x ∈ l /\ group_id x = g)
          <-> exists r, db_groups (w_db w) !! g = Some r /\ group_matches (w_db w) g r f).
Proof.
  intros Hok Hf. eexists. split; [apply sql_list_groups_run|].
  match goal with |- context [sort_by _ ?l] => set (L := l) end.
  assert (Hin : forall x, x ∈ sort_by group_name_leb L <-> exists g r, db_groups (w_db w) !! g = Some r
    /\ x = full_group (w_db w) (g, r) /\ group_matches (w_db w) g r f).
  { intros x. rewrite (elem_of_list_groups (Some f) w) by by rewrite sql_list_groups_run.
    split; intros (g & r & Hg & -> & H); exists g, r; split_and!; try done;
      by apply (selected_group_matches (w_db w) g r f). }
  split_and!.
  - eapply StronglySorted_impl_in; [|apply (sort_by_sorted group_name_leb);
      [apply (lex_leb_total (fun g => lowercase_iter (ci_raw (group_display_name g))))
      |apply (lex_leb_trans (fun g => lowercase_iter (ci_raw (group_display_name g))))]].
    intros x y _ _. unfold group_name_leb. by destruct (ci_cmp _ _).
  - change (map group_id ?l) with (group_id <$> l). rewrite (sort_by_perm _ L). unfold L.
    change (map ?f ?l) with (f <$> l). rewrite <- list_fmap_compose.
    apply (select_groups_NoDup (get_group_filter_expr f)).
  - intros x u (g & r & Hg & -> & _)%Hin. apply elem_of_members.
  - intros x (g & r & Hg & -> & _)%Hin. simpl. rewrite sql_get_group_details_run, Hg. simpl. eauto.
  - intros g. split.
    + intros (x & (g' & r & Hg & -> & Hm)%Hin & <-). eauto.
    + intros (r & Hg & Hm). exists (full_group (w_db w) (g, r)). rewrite Hin. eauto 10.
Qed.
End SqlGroupFacts.

(* ------------------------------------------------------------------ *)
(** ** Writing *)

Section SqlGroupWrites.
Context `{C : Crates}.

Definition created_group_row (request : CreateGroupRequest) (now : NaiveDateTime) : GroupRow :=
  mk_group_row (cg_display_name request) (to_lowercase (ci_raw (cg_display_name request))) now
    (uuid_from_name_and_date (ci_raw (cg_display_name request)) now).

Lemma push_group_attributes_run db l rows :
  push_group_attributes (sc_group_attributes (schema_of db)) l = Ok rows ->
  rows = map attribute_row l
  /\ Forall (fun a => is_Some (db_group_attribute_schema db !! av_name a)) l.
Proof.
  revert rows. induction l as [|a l IH]; intros rows; cbn [push_group_attributes]; [by intros [= <-]|].
  pose proof (group_type_is_some db (av_name a)) as Ha.
  destruct (get_attribute_type _ _) as [t|]; [|done]. unfold omap_ok.
  intros (rows' & [-> Hl]%IH & [= <-])%obind_ok. split; [done|].
  constructor; [by apply Ha|done].
Qed.

Lemma push_group_attributes_no_panic schema l p : push_group_attributes schema l <> Panic p.
Proof.
  induction l as [|a l IH]; simpl; [done|]. destruct (get_attribute_type _ _); [|done].
  unfold omap_ok. by destruct (push_group_attributes schema l).
Qed.

Lemma insert_group_rows_run b upsert g rows w r w' :
  run_if b (insert_group_attributes upsert g rows) tt w = (r, w') ->
  (b = false -> rows = []) ->
  match r with
  | Ok _ => w' = set_db (set_group_attributes (write_rows g rows (db_group_attributes (w_db w))) (w_db w)) w
  | Err _ => True
  | Panic _ => False
  end.
Proof.
  destruct b; simpl; intros Hrun Hb.
  - unfold insert_group_attributes, statement in Hrun.
    destruct (put_group_attributes upsert g rows (w_db w)) as [db'|e|p] eqn:Hp; simpl in Hrun;
      injection Hrun as <- <-; [|done|by eapply put_group_attributes_no_panic].
    by apply put_group_attributes_run in Hp as ->.
  - rewrite Hb by done. injection Hrun as <- <-. destruct w as [db]. by destruct db.
Qed.

Lemma non_empty_false {A} (l : list A) : non_empty l = false -> l = [].
Proof. by destruct l. Qed.

(** Creating a group is all or nothing.  On success the new id is the next
    of the sequence and was never used, the row and the attributes are those of
    the request, every attribute is in the schema, and nothing else changes; on
    failure (a name already used in some case, an unknown or repeated
    attribute) the database, sequence included, is what it was. *)
Theorem sql_create_group_correct request w :
  world_ok w ->
  match sql_create_group request w with
  | (Ok g, w') =>
      g = (db_groups_seq (w_db w) + 1)%Z /\ db_groups (w_db w) !! g = None
      /\ map_Forall (fun _ r => gr_lowercase_display_name r
           <> to_lowercase (ci_raw (cg_display_name request))) (db_groups (w_db w))
      /\ Forall (fun a => is_Some (db_group_attribute_schema (w_db w) !! av_name a)) (cg_attributes request)
      /\ exists A, w' = set_db (set_group_attributes A (set_groups_seq g
             (set_groups (<[g := created_group_row request (w_now w)]> (db_groups (w_db w))) (w_db w)))) w
        /\ forall g' a, A !! (g', a)
            = if decide (g' = g) then last_value (map attribute_row (cg_attributes request)) a
              else db_group_attributes (w_db w) !! (g', a)
  | (Err _, w') => w' = w
  | (Panic _, _) => False
  end.
Proof.
  intros Hok. unfold sql_create_group, transaction, sbind at 1, utc_now.
  unfold sbind at 1. rewrite get_schema_with_transaction_run. unfold sbind at 1, insert_group, statement.
  set (g := (db_groups_seq (w_db w) + 1)%Z).
  change (mk_group_row _ _ _ _) with (created_group_row request (w_now w)).
  assert (Hnew : db_groups (w_db w) !! g = None).
  { destruct (db_groups (w_db w) !! g) as [r|] eqn:Hg; [|done].
    destruct (ok_group_rows _ Hok g r Hg). subst g. lia. }
  unfold guard_. case_decide as Huniq; simpl; [|done].
  unfold sbind at 1, slift.
  destruct (push_group_attributes _ _) as [rows|e|p] eqn:Hp;
    [|done|by eapply push_group_attributes_no_panic].
  apply push_group_attributes_run in Hp as [-> Hs]. unfold sbind, sret.
  destruct (run_if _ _ _ _) as [[[]|e|p] w'] eqn:Hrun;
    apply insert_group_rows_run in Hrun; try apply non_empty_false; try done.
  split_and!; try done.
  - intros g' r' Hg' He. destruct (Huniq g' r' Hg') as (_ & Hl & _); [congruence|].
    apply Hl. simpl. congruence.
  - eexists. split; [exact Hrun|]. intros g' a. rewrite lookup_write_rows. simpl.
    case_decide; [|done]. subst g'. destruct (last_value _ _); [done|].
    destruct (db_group_attributes (w_db w) !! (g, a)) eqn:Ha; [|done].
    destruct (ok_group_attributes _ Hok _ _ Ha) as [[r Hr] _]. simpl in Hr. congruence.
Qed.

Lemma update_group_row_run noop g f w :
  match update_group_row noop g f w with
  | (Ok _, w') => exists r, db_groups (w_db w) !! g = Some r /\ group_unique g (f r) (w_db w)
      /\ w' = set_db (set_groups (<[g := f r]> (db_groups (w_db w))) (w_db w)) w
  | (Err _, w') => w' = w
  | (Panic _, _) => False
  end.
Proof.
  unfold update_group_row, statement. destruct (db_groups (w_db w) !! g) as [r|]; [|done].
  unfold guard_. case_decide; simpl; eauto.
Qed.

Lemma delete_group_attributes_run g names w :
  run_if (non_empty names) (delete_group_attributes g names) tt w
  = (Ok tt, set_db (set_group_attributes
      (filter (fun kv => ~ (kv.1.1 = g /\ kv.1.2 ∈ names)) (db_group_attributes (w_db w))) (w_db w)) w).
Proof.
  destruct names as [|n names]; [|done]. simpl. unfold sret. f_equal. destruct w as [db now rng pos].
  unfold set_db. simpl. f_equal. destruct db. unfold set_group_attributes. simpl. f_equal. symmetry.
  apply map_filter_id. intros k x _ [_ Hn]. by apply not_elem_of_nil in Hn.
Qed.

(** Updating a group is all or nothing.  On success the group existed, the
    display name and its lower-case copy change together and only if the
    request has one, and each attribute is the value written, absent if removed,
    or what it was; nothing else changes.  On failure the database is what it
    was. *)
Theorem sql_update_group_correct request w :
  match sql_update_group request w with
  | (Ok _, w') =>
      exists r A, db_groups (w_db w) !! ug_group_id request = Some r
      /\ Forall (fun a => is_Some (db_group_attribute_schema (w_db w) !! av_name a)) (ug_insert_attributes request)
      /\ Forall (fun a => is_Some (db_group_attribute_schema (w_db w) !! a)) (ug_delete_attributes request)
      /\ w' = set_db (set_group_attributes A (set_groups (<[ug_group_id request :=
                updated_group_row (ug_display_name request) r]> (db_groups (w_db w))) (w_db w))) w
      /\ forall g a, A !! (g, a)
          = if decide (g = ug_group_id request) then
              match last_value (map attribute_row (ug_insert_attributes request)) a with
              | Some v => Some v
              | None => if decide (a ∈ ug_delete_attributes request) then None
                        else db_group_attributes (w_db w) !! (g, a)
              end
            else db_group_attributes (w_db w) !! (g, a)
  | (Err _, w') => w' = w
  | (Panic _, _) => False
  end.
Proof.
  unfold sql_update_group, transaction, update_group_with_transaction, sbind at 1.
  pose proof (update_group_row_run
    (match ug_display_name request with Some _ => false | None => true end)
    (ug_group_id request) (updated_group_row (ug_display_name request)) w) as Hrow.
  destruct (update_group_row _ _ _ w) as [[[]|e|p] w1]; [|done..].
  destruct Hrow as (r & Hr & _ & ->). unfold sbind at 1.
  rewrite get_schema_with_transaction_run. unfold sbind at 1, slift.
  destruct (obind _ _) as [ch|e|p] eqn:Hch; [|done|].
  2:{ destruct (process_inserts _ _ _ _) eqn:Hi; simpl in Hch;
        [by eapply process_deletes_no_panic|done|by eapply process_inserts_no_panic]. }
  apply obind_ok in Hch as (ch' & [Hi ->]%process_inserts_run & [Hd ->]%process_deletes_run).
  simpl. unfold sbind. rewrite delete_group_attributes_run.
  destruct (run_if _ _ _ _) as [[[]|e|p] w'] eqn:Hrun;
    apply insert_group_rows_run in Hrun; try apply non_empty_false; try done.
  exists r. eexists. split_and!; [done| | |exact Hrun|].
  - eapply Forall_impl; [exact Hi|]. intros a. apply group_type_is_some.
  - eapply Forall_impl; [exact Hd|]. intros a. apply group_type_is_some.
  - intros g a. simpl. apply lookup_updated.
Qed.

(** Deleting a group removes its row and, by the cascades, its memberships
    and attributes, and nothing else; the id is not reused.  Deleting an
    unknown group is an error and changes nothing. *)
Theorem sql_delete_group_correct g w :
  match sql_delete_group g w with
  | (Ok _, w') => is_Some (db_groups (w_db w) !! g) /\ w' = set_db (cascade_group g (w_db w)) w
      /\ db_groups (w_db w') = delete g (db_groups (w_db w))
      /\ db_groups_seq (w_db w') = db_groups_seq (w_db w)
      /\ db_users (w_db w') = db_users (w_db w)
      /\ (forall u h, (u, h) ∈ db_memberships (w_db w') <-> (u, h) ∈ db_memberships (w_db w) /\ h <> g)
      /\ (forall h a, db_group_attributes (w_db w') !! (h, a)
            = if decide (h = g) then None else db_group_attributes (w_db w) !! (h, a))
  | (Err _, w') => db_groups (w_db w) !! g = None /\ w' = w
  | (Panic _, _) => False
  end.
Proof.
  unfold sql_delete_group, sbind, delete_group_row, statement.
  destruct (db_groups (w_db w) !! g) as [r|] eqn:Hg; simpl; [|by rewrite set_db_id].
  split_and!; try done.
  - intros u h. rewrite elem_of_filter. simpl. naive_solver.
  - intros h a. rewrite map_lookup_filter. destruct (db_group_attributes (w_db w) !! (h, a)); simpl;
      [|by case_decide]. case_guard as Hc; case_decide; simpl in *; done.
Qed.
End SqlGroupWrites.

(* ------------------------------------------------------------------ *)
(** ** Witnesses *)

Section SqlGroupWitnesses.
#[local] Existing Instances concrete_crates concrete_bincode concrete_sql.

Lemma sql_list_groups_correct_witness :
  let f := GOr [GMember uid_john; GDisplayNameSubString (mk_substring (Some "lldap"%string) [] (Some "admin"%string))] in
  exists l, sql_list_groups (Some f) example_world = (Ok l, example_world)
    /\ map (fun x => ci_raw (group_display_name x)) l = ["Best Group"; "lldap_admin"]%string
    /\ forall x u, x ∈ l -> u ∈ group_users x <-> (u, group_id x) ∈ db_memberships example_db.
Proof.
  intros f. destruct (@sql_list_groups_correct concrete_crates f example_world example_world_ok eq_refl)
    as (l & Hl & _ & _ & Hm & _).
  exists l. split; [exact Hl|]. split; [|exact Hm]. vm_compute in Hl. injection Hl as <-. reflexivity.
Defined.

Definition example_create_group (name : string) : CreateGroupRequest := mk_create_group (mk_ci name) [].

Lemma sql_create_group_correct_witness :
  let run := sql_create_group (example_create_group "New Group") example_world in
  fst run = Ok 5%Z /\ db_groups example_db !! 5%Z = None
  /\ exists e, fst (sql_create_group (example_create_group "NEW group") (snd run)) = Err e.
Proof.
  assert (Hf : fst (sql_create_group (example_create_group "New Group") example_world) = Ok 5%Z)
    by (vm_compute; reflexivity).
  split; [exact Hf|]. split.
  - pose proof (@sql_create_group_correct concrete_crates (example_create_group "New Group") example_world example_world_ok) as H.
    destruct (sql_create_group (example_create_group "New Group") example_world) as [[g|e|p] w'];
      [|discriminate Hf|discriminate Hf]. injection Hf as ->. apply H.
  - eexists. vm_compute. reflexivity.
Defined.
End SqlGroupWitnesses.
