(* ===== verification/SqlBackend.v ===== *)
(** * The SQL backend: the interface, and integrity

    [SqlBackendHandler] as an instance of the traits of
    [server/src/domain/handler.rs], the laws its clients rely on, and the
    preservation of the database's constraints by every operation. *)

From S2P Require Import Prelude RustStd Extern Types Concrete Handler Db ExampleDb SqlFilters SqlSchema SqlUser SqlGroup.
From Stdlib Require Import Ascii String.
From stdpp Require Import strings list gmap.
#[local] Open Scope rust_scope.

Section SqlBackend.
Context `{C : Crates} `{B : Bincode} `{SL : SqlLib}.

(** Source: server/src/domain/sql_backend_handler.rs#L1-20 *)
#[export] Instance SqlBackendHandler : BackendHandler World := {|
  bh_get_schema := sql_get_schema;
  bh_list_users := sql_list_users;
  bh_list_groups := sql_list_groups;
  bh_get_user_details := sql_get_user_details;
  bh_get_user_groups := sql_get_user_groups;
  bh_get_group_details := sql_get_group_details;
  bh_create_user := sql_create_user;
  bh_update_user := sql_update_user;
  bh_delete_user := sql_delete_user;
  bh_add_user_to_group := sql_add_user_to_group;
  bh_remove_user_from_group := sql_remove_user_from_group;
  bh_update_group := sql_update_group;
  bh_create_group := sql_create_group;
  bh_delete_group := sql_delete_group;
  bh_add_user_attribute := sql_add_user_attribute;
  bh_add_group_attribute := sql_add_group_attribute;
  bh_delete_user_attribute := sql_delete_user_attribute;
  bh_delete_group_attribute := sql_delete_group_attribute;
  bh_add_user_object_class := sql_add_user_object_class;
  bh_add_group_object_class := sql_add_group_object_class;
  bh_delete_user_object_class := sql_delete_user_object_class;
  bh_delete_group_object_class := sql_delete_group_object_class;
|}.

(* ------------------------------------------------------------------ *)
(** ** The laws *)

Lemma sql_and_true x y : sql_and x y = Some true <-> x = Some true /\ y = Some true.
Proof. destruct x as [[]|], y as [[]|]; naive_solver. Qed.

Lemma eval_all_true {A} (eval : A -> option bool) cs c :
  eval_cond eval (CAll cs) = Some true -> c ∈ cs -> eval_cond eval c = Some true.
Proof.
  cbn. induction cs as [|c' cs IH]; [by intros _ ?%not_elem_of_nil|]. cbn.
  rewrite sql_and_true. intros [Hc Hcs] [->|Hin]%elem_of_cons; auto.
Qed.

Lemma sql_true_spec x : sql_true x = true <-> x = Some true.
Proof. destruct x as [[]|]; naive_solver. Qed.

Lemma user_id_str_inj u v : user_id_str u = user_id_str v -> u = v.
Proof. destruct u as [[]], v as [[]]. unfold user_id_str. simpl. congruence. Qed.

Lemma user_id_cond db u r v :
  eval_user_expr db u r (EColEq ColUserId (user_id_str v)) = Some true -> u = v.
Proof. cbn. intros [= H%String.eqb_eq]. by apply user_id_str_inj. Qed.

(** What a successful listing holds. *)
Lemma elem_of_list_users f b w l x :
  fst (sql_list_users (Some f) b w) = Ok l -> x ∈ l ->
  exists c u r, get_user_filter_expr (E:=DomainError) f = Ok c
    /\ user_selected (w_db w) c u r = true /\ x = full_user_and_groups (w_db w) (u, r)
    /\ db_users (w_db w) !! u = Some r.
Proof.
  intros Hl Hx. destruct (get_user_filter_expr (E:=DomainError) f) as [c|e|p] eqn:Hc.
  - rewrite (sql_list_users_run f b w c Hc) in Hl. injection Hl as <-.
    apply list_elem_of_fmap in Hx as ([u r] & -> & [Hu Hs]%elem_of_select_users). eauto 10.
  - exfalso. unfold sql_list_users, sbind, slift in Hl. rewrite Hc in Hl. done.
  - exfalso. unfold sql_list_users, sbind, slift in Hl. rewrite Hc in Hl. done.
Qed.

Lemma sql_list_users_only w fs u b l :
  UUserId u ∈ fs -> fst (sql_list_users (Some (UAnd fs)) b w) = Ok l ->
  Forall (fun x => user_user_id (uag_user x) = u) l.
Proof.
  intros Hin Hl. apply Forall_forall. intros x Hx.
  destruct (elem_of_list_users _ _ _ _ _ Hl Hx) as (c & u' & r & Hc & Hs & -> & _). simpl.
  apply sql_true_spec in Hs. destruct fs as [|f fs]; [by apply not_elem_of_nil in Hin|].
  cbn [get_user_filter_expr] in Hc. apply obind_ok in Hc as (cs & Hcs%try_map_ok & [= <-]).
  apply list_elem_of_lookup in Hin as [i Hi].
  destruct (Forall2_lookup_l _ _ _ _ _ Hcs Hi) as (c & Hci & Hc). cbn in Hc. injection Hc as <-.
  apply list_elem_of_lookup_2 in Hci. apply (eval_all_true _ _ _ Hs) in Hci.
  exact (user_id_cond (w_db w) u' r u Hci).
Qed.

Lemma sql_list_users_id w u b l :
  fst (sql_list_users (Some (UUserId u)) b w) = Ok l ->
  Forall (fun x => user_user_id (uag_user x) = u) l.
Proof.
  intros Hl. apply Forall_forall. intros x Hx.
  destruct (elem_of_list_users _ _ _ _ _ Hl Hx) as (c & u' & r & Hc & Hs & -> & _). simpl.
  apply sql_true_spec in Hs. cbn in Hc. injection Hc as <-.
  exact (user_id_cond (w_db w) u' r u Hs).
Qed.

Lemma sql_list_groups_member w fs u l :
  GMember u ∈ fs -> fst (sql_list_groups (Some (GAnd fs)) w) = Ok l ->
  Forall (fun g => u ∈ group_users g) l.
Proof.
  intros Hin Hl. apply Forall_forall. intros x Hx.
  apply (elem_of_list_groups _ _ _ _ Hl) in Hx as (g & r & Hg & -> & Hs). simpl.
  apply elem_of_members. apply sql_true_spec in Hs.
  destruct fs as [|f fs]; [by apply not_elem_of_nil in Hin|]. cbn [get_group_filter_expr] in Hs.
  assert (Hc : get_group_filter_expr (GMember u) ∈ map get_group_filter_expr (f :: fs)).
  { apply list_elem_of_fmap. eauto. }
  apply (eval_all_true _ _ _ Hs) in Hc. cbn in Hc. injection Hc as Hc. by apply bool_decide_eq_true in Hc.
Qed.

Lemma sql_list_groups_one w u l :
  fst (sql_list_groups (Some (GMember u)) w) = Ok l -> Forall (fun g => u ∈ group_users g) l.
Proof.
  intros Hl. apply Forall_forall. intros x Hx.
  apply (elem_of_list_groups _ _ _ _ Hl) in Hx as (g & r & Hg & -> & Hs). simpl.
  apply elem_of_members. apply sql_true_spec in Hs. cbn in Hs. injection Hs as Hs.
  by apply bool_decide_eq_true in Hs.
Qed.

Lemma sql_get_user_details_readonly u : readonly (sql_get_user_details u).
Proof. intros w. by rewrite sql_get_user_details_run. Qed.
Lemma sql_get_group_details_readonly g : readonly (sql_get_group_details g).
Proof. intros w. by rewrite sql_get_group_details_run. Qed.
Lemma sql_get_user_groups_run u w :
  sql_get_user_groups u w
  = (match db_users (w_db w) !! u with
     | Some _ => Ok (map group_details_from_model (linked_groups (w_db w) u))
     | None => Err (EntityNotFound (user_id_str u))
     end, w).
Proof. unfold sql_get_user_groups. cbn. by destruct (db_users (w_db w) !! u). Qed.
Lemma sql_get_user_groups_readonly u : readonly (sql_get_user_groups u).
Proof. intros w. by rewrite sql_get_user_groups_run. Qed.

#[export] Instance sql_backend_laws : BackendLaws SqlBackendHandler.
Proof.
  split.
  - exact sql_get_schema_readonly.
  - exact sql_list_users_readonly.
  - exact sql_list_groups_readonly.
  - exact sql_get_user_details_readonly.
  - exact sql_get_user_groups_readonly.
  - exact sql_get_group_details_readonly.
  - intros s fs u b l. exact (sql_list_users_only s fs u b l).
  - intros s u b l. exact (sql_list_users_id s u b l).
  - intros s fs u l. exact (sql_list_groups_member s fs u l).
  - intros s u l. exact (sql_list_groups_one s u l).
Qed.

(* ------------------------------------------------------------------ *)
(** ** Integrity *)

Lemma run_if_preserves {A} (P : World -> Prop) b (m : SQL A) d :
  preserves P m -> preserves P (run_if b m d).
Proof. destruct b; simpl; auto with stm. Qed.

Lemma sql_create_user_preserves r : preserves world_ok (sql_create_user r).
Proof.
  unfold sql_create_user. stm; try (apply run_if_preserves; by auto with stm).
  by apply insert_user_ok.
Qed.

Lemma sql_update_user_preserves r : preserves world_ok (sql_update_user r).
Proof.
  unfold sql_update_user, update_user_with_transaction. stm; try (apply run_if_preserves; by auto with stm).
  apply update_user_row_ok. intros row Hrow. unfold user_row_ok in *. simpl.
  by destruct (uu_email r).
Qed.

Lemma sql_delete_user_preserves u : preserves world_ok (sql_delete_user u).
Proof. unfold sql_delete_user. stm. Qed.

Lemma sql_remove_user_from_group_preserves u g : preserves world_ok (sql_remove_user_from_group u g).
Proof. unfold sql_remove_user_from_group. stm. Qed.

Lemma sql_create_group_preserves r : preserves world_ok (sql_create_group r).
Proof.
  unfold sql_create_group. stm; try (apply run_if_preserves; by auto with stm).
  by apply insert_group_ok.
Qed.

Lemma sql_update_group_preserves r : preserves world_ok (sql_update_group r).
Proof.
  unfold sql_update_group, update_group_with_transaction. stm; try (apply run_if_preserves; by auto with stm).
  apply update_group_row_ok. intros row Hrow. unfold group_row_ok in *. simpl.
  by destruct (ug_display_name r).
Qed.

Lemma sql_delete_group_preserves g : preserves world_ok (sql_delete_group g).
Proof. unfold sql_delete_group. stm. Qed.

End SqlBackend.

#[export] Hint Resolve sql_create_user_preserves sql_update_user_preserves sql_delete_user_preserves
  sql_remove_user_from_group_preserves sql_create_group_preserves sql_update_group_preserves
  sql_delete_group_preserves : stm.
