(* ===== verification/SqlTcp.v ===== *)
(** * The SQL backend: tokens, and the clean-up job

    Models [server/src/infra/sql_backend_handler.rs] (the trait
    [TcpBackendHandler]: registered JWTs, refresh tokens, password-reset tokens)
    and [cleanup_db] of [server/src/infra/db_cleaner.rs]. *)

From S2P Require Import Prelude RustStd Extern Types Concrete Handler Db ExampleDb SqlFilters SqlSchema SqlUser SqlGroup SqlBackend.
From Stdlib Require Import Ascii String.
From stdpp Require Import strings list gmap fin_map_dom fin_sets.
#[local] Open Scope rust_scope.

(** [None => 0] letters of [Alphanumeric]: the text the generator yields next.
    Source: server/src/infra/sql_backend_handler.rs#fn gen_random_string *)
Definition gen_random_string : SQL string := fun w =>
  (Ok (w_rng w (w_rng_pos w)), mk_world (w_db w) (w_now w) (w_rng w) (S (w_rng_pos w))).

(** Source: server/src/infra/tcp_backend_handler.rs#trait TcpBackendHandler *)
Class TcpBackendHandler (St : Type) : Type := {
  tcp_get_jwt_blacklist : stM St DomainError (gset Z);
  tcp_create_refresh_token : UserId -> stM St DomainError (string * Z);
  tcp_register_jwt : UserId -> Z -> NaiveDateTime -> stM St DomainError unit;
  tcp_check_token : Z -> UserId -> stM St DomainError bool;
  tcp_blacklist_jwts : UserId -> stM St DomainError (gset Z);
  tcp_delete_refresh_token : Z -> stM St DomainError unit;
  tcp_start_password_reset : UserId -> stM St DomainError (option string);
  tcp_get_user_id_for_password_reset_token : string -> stM St DomainError UserId;
  tcp_delete_password_reset_token : string -> stM St DomainError unit;
}.

Section SqlTcp.
Context `{SH : StdHash}.

(** The keys of a table of tokens, [as u64]. *)
Definition hashes {A} (m : gmap Z A) : gset Z := list_to_set (map as_u64 (map fst (map_to_list m))).

(** Source: server/src/infra/sql_backend_handler.rs#async fn get_jwt_blacklist *)
Definition sql_get_jwt_blacklist : SQL (gset Z) :=
  query (fun db => hashes (filter (fun p => jr_blacklisted p.2 = true) (db_jwt_storage db))).

(** Source: server/src/infra/sql_backend_handler.rs#async fn create_refresh_token *)
Definition sql_create_refresh_token (user : UserId) : SQL (string * Z) :=
  let! refresh_token := gen_random_string in
  let refresh_token_hash := default_hash refresh_token in
  let duration := days 30 in
  let! now := utc_now in
  insert_refresh (as_i64 refresh_token_hash) (mk_refresh_row user (now + duration)%Z) ;;
  sret (refresh_token, duration).

(** Source: server/src/infra/sql_backend_handler.rs#async fn register_jwt *)
Definition sql_register_jwt (user : UserId) (jwt_hash : Z) (expiry_date : NaiveDateTime) : SQL unit :=
  insert_jwt (as_i64 jwt_hash) (mk_jwt_row user expiry_date false).

(** Source: server/src/infra/sql_backend_handler.rs#async fn check_token *)
Definition sql_check_token (refresh_token_hash : Z) (user : UserId) : SQL bool :=
  query (fun db => match db_jwt_refresh_storage db !! as_i64 refresh_token_hash with
                   | Some r => bool_decide (rr_user_id r = user)
                   | None => false
                   end).

(** Source: server/src/infra/sql_backend_handler.rs#async fn blacklist_jwts *)
Definition sql_blacklist_jwts (user : UserId) : SQL (gset Z) :=
  let! valid_tokens := query (fun db =>
    hashes (filter (fun p => jr_user_id p.2 = user /\ jr_blacklisted p.2 = false) (db_jwt_storage db))) in
  blacklist_rows user ;;
  sret valid_tokens.

(** Source: server/src/infra/sql_backend_handler.rs#async fn delete_refresh_token *)
Definition sql_delete_refresh_token (refresh_token_hash : Z) : SQL unit :=
  keep_refresh (fun p => p.1 <> as_i64 refresh_token_hash).

(** Source: server/src/infra/sql_backend_handler.rs#async fn start_password_reset *)
Definition sql_start_password_reset (user : UserId) : SQL (option string) :=
  let! found := query (fun db => db_users db !! user) in
  match found with
  | None => sret None
  | Some _ =>
      let! token := gen_random_string in
      let duration := minutes 10 in
      let! now := utc_now in
      insert_reset_token token (mk_reset_row user (now + duration)%Z) ;;
      sret (Some token)
  end.

(** Source: server/src/infra/sql_backend_handler.rs#async fn get_user_id_for_password_reset_token *)
Definition sql_get_user_id_for_password_reset_token (token : string) : SQL UserId :=
  let! now := utc_now in
  let! found := query (fun db => match db_password_reset_tokens db !! token with
                                 | Some r => if (now <? pr_expiry_date r)%Z then Some r else None
                                 | None => None
                                 end) in
  let! row := slift (ok_or (EntityNotFound "Invalid reset token") found) in
  sret (pr_user_id row).

(** Source: server/src/infra/sql_backend_handler.rs#async fn delete_password_reset_token *)
Definition sql_delete_password_reset_token (token : string) : SQL unit :=
  let! found := query (fun db => db_password_reset_tokens db !! token) in
  keep_reset (fun p => p.1 <> token) ;;
  match found with
  | None => sthrow (EntityNotFound ("No such password reset token: '" +:+ token +:+ "'"))
  | Some _ => sret tt
  end.

#[export] Instance SqlTcpHandler : TcpBackendHandler World := {|
  tcp_get_jwt_blacklist := sql_get_jwt_blacklist;
  tcp_create_refresh_token := sql_create_refresh_token;
  tcp_register_jwt := sql_register_jwt;
  tcp_check_token := sql_check_token;
  tcp_blacklist_jwts := sql_blacklist_jwts;
  tcp_delete_refresh_token := sql_delete_refresh_token;
  tcp_start_password_reset := sql_start_password_reset;
  tcp_get_user_id_for_password_reset_token := sql_get_user_id_for_password_reset_token;
  tcp_delete_password_reset_token := sql_delete_password_reset_token;
|}.
End SqlTcp.

(** Errors of the three statements are logged and ignored; without connection
    failures there are none.
    Source: server/src/infra/db_cleaner.rs#async fn cleanup_db *)
Definition cleanup_db : SQL unit :=
  let! now1 := utc_now in
  keep_refresh (fun p => ~ (rr_expiry_date p.2 < now1)%Z) ;;
  let! now2 := utc_now in
  keep_jwt (fun p => ~ (jr_expiry_date p.2 < now2)%Z) ;;
  let! now3 := utc_now in
  keep_reset (fun p => ~ (pr_expiry_date p.2 < now3)%Z).

(* ------------------------------------------------------------------ *)
(** ** Properties *)

Section SqlTcpFacts.
Context `{SH : StdHash}.

(** The world at another moment, with the same database. *)
Definition at_time (t : NaiveDateTime) (w : World) : World := mk_world (w_db w) t (w_rng w) (w_rng_pos w).

(** The keys the server stores come from [u64]s. *)
Lemma elem_of_hashes {A} (m : gmap Z A) h :
  h ∈ hashes m <-> exists k x, m !! k = Some x /\ h = as_u64 k.
Proof.
  unfold hashes. rewrite elem_of_list_to_set, list_elem_of_fmap. split.
  - intros (k & -> & ([k' x] & -> & H%elem_of_map_to_list)%list_elem_of_fmap). eauto.
  - intros (k & x & H & ->). exists k. split; [done|]. apply list_elem_of_fmap.
    exists (k, x). by rewrite elem_of_map_to_list.
Qed.

Lemma blacklisted_after u (m : gmap Z JwtRow) h :
  (exists k r, filter (fun p : Z * JwtRow => jr_blacklisted p.2 = true)
      ((fun r => if decide (jr_user_id r = u) then mk_jwt_row (jr_user_id r) (jr_expiry_date r) true else r) <$> m)
      !! k = Some r /\ h = as_u64 k)
  <-> (exists k r, filter (fun p : Z * JwtRow => jr_blacklisted p.2 = true) m !! k = Some r /\ h = as_u64 k)
      \/ (exists k r, filter (fun p : Z * JwtRow => jr_user_id p.2 = u /\ jr_blacklisted p.2 = false) m !! k = Some r
           /\ h = as_u64 k).
Proof.
  split.
  - intros (k & r & [Hk Hb]%map_lookup_filter_Some & ->). rewrite lookup_fmap in Hk.
    destruct (m !! k) as [r'|] eqn:Hm; [|done]. simpl in *. injection Hk as <-.
    case_decide as Hu; [|left; exists k, r'; by rewrite map_lookup_filter_Some].
    destruct (jr_blacklisted r') eqn:Hb'; [left|right]; exists k, r'; by rewrite map_lookup_filter_Some.
  - intros [(k & r & [Hk Hb]%map_lookup_filter_Some & ->)|(k & r & [Hk [Hu Hb]]%map_lookup_filter_Some & ->)];
      exists k; (eexists; split; [|done]); apply map_lookup_filter_Some; rewrite lookup_fmap, Hk; simpl;
      (split; [done|]); by case_decide.
Qed.

(** Registering a JWT and blacklisting its owner's tokens: after
    [register_jwt] of a new hash, [blacklist_jwts] of that user returns the
    hash, the stored blacklist then contains it (the [u64] survives the trip
    through the [i64] column), and no token of another user is added. *)
Theorem blacklist_jwts_correct u h exp w w1 :
  in_u64 h = true -> sql_register_jwt u h exp w = (Ok tt, w1) ->
  exists new w2 before after,
    sql_blacklist_jwts u w1 = (Ok new, w2)
    /\ fst (sql_get_jwt_blacklist w1) = Ok before /\ fst (sql_get_jwt_blacklist w2) = Ok after
    /\ h ∈ new /\ h ∈ after /\ after = before ∪ new
    /\ (forall k r, db_jwt_storage (w_db w1) !! k = Some r -> jr_user_id r <> u ->
         db_jwt_storage (w_db w2) !! k = Some r).
Proof.
  intros Hh Hreg. unfold sql_register_jwt, insert_jwt, statement in Hreg. unfold guard_ in Hreg.
  destruct (decide (db_jwt_storage (w_db w) !! as_i64 h = None)) as [Hnew|]; [|done]. simpl in Hreg.
  case_decide; [|done]. injection Hreg as <-.
  do 4 eexists. split_and!; [done..| | | |].
  - apply elem_of_hashes. exists (as_i64 h), (mk_jwt_row u exp false).
    rewrite map_lookup_filter_Some. simpl. by rewrite lookup_insert_eq, as_u64_as_i64.
  - apply elem_of_hashes. exists (as_i64 h), (mk_jwt_row u exp true).
    rewrite map_lookup_filter_Some. simpl. rewrite lookup_fmap, lookup_insert_eq. simpl.
    by rewrite decide_True, as_u64_as_i64.
  - apply set_eq. intros h'. rewrite elem_of_union, !elem_of_hashes. apply blacklisted_after.
  - intros k r Hk Hr. simpl in *. rewrite lookup_fmap, Hk. simpl. by rewrite decide_False.
Qed.

(** The three tables after the clean-up job. *)
Lemma cleanup_db_run w :
  cleanup_db w = (Ok tt, set_db
    (set_password_reset_tokens (filter (fun p => ~ (pr_expiry_date p.2 < w_now w)%Z) (db_password_reset_tokens (w_db w)))
    (set_jwt_storage (filter (fun p => ~ (jr_expiry_date p.2 < w_now w)%Z) (db_jwt_storage (w_db w)))
    (set_jwt_refresh_storage (filter (fun p => ~ (rr_expiry_date p.2 < w_now w)%Z) (db_jwt_refresh_storage (w_db w)))
      (w_db w)))) w).
Proof. done. Qed.

(** The clean-up job removes from the three token tables exactly the rows
    whose expiry date has passed (a row that expires at this instant stays),
    and touches nothing else. *)
Theorem cleanup_db_correct w :
  exists db', cleanup_db w = (Ok tt, set_db db' w)
    /\ (forall k r, db_jwt_refresh_storage db' !! k = Some r
          <-> db_jwt_refresh_storage (w_db w) !! k = Some r /\ (w_now w <= rr_expiry_date r)%Z)
    /\ (forall k r, db_jwt_storage db' !! k = Some r
          <-> db_jwt_storage (w_db w) !! k = Some r /\ (w_now w <= jr_expiry_date r)%Z)
    /\ (forall k r, db_password_reset_tokens db' !! k = Some r
          <-> db_password_reset_tokens (w_db w) !! k = Some r /\ (w_now w <= pr_expiry_date r)%Z)
    /\ db_users db' = db_users (w_db w) /\ db_groups db' = db_groups (w_db w)
    /\ db_memberships db' = db_memberships (w_db w)
    /\ db_user_attributes db' = db_user_attributes (w_db w)
    /\ db_group_attributes db' = db_group_attributes (w_db w).
Proof.
  eexists. split; [apply cleanup_db_run|]. split_and!; try done;
    intros k r; simpl; rewrite map_lookup_filter_Some; simpl; by rewrite Z.nlt_ge.
Qed.

(** A refresh token is bound to its user and lives thirty days.  A token
    just created is accepted for that user and refused for any other, at any
    time: [check_token] does not look at the expiry date, which only the
    clean-up job enforces, and a run of that job keeps the token exactly until
    the thirty days are over.  Deleting it makes it refused. *)
Theorem refresh_token_lifetime u w token d w1 :
  sql_create_refresh_token u w = (Ok (token, d), w1) ->
  d = days 30
  /\ (forall v t, fst (sql_check_token (default_hash token) v (at_time t w1)) = Ok (bool_decide (v = u)))
  /\ (forall t, fst (sql_check_token (default_hash token) u (snd (cleanup_db (at_time t w1))))
        = Ok (bool_decide (t <= w_now w + days 30)%Z))
  /\ fst (sql_check_token (default_hash token) u
        (snd (sql_delete_refresh_token (default_hash token) w1))) = Ok false.
Proof.
  unfold sql_create_refresh_token, gen_random_string, sbind, utc_now, insert_refresh, statement, guard_.
  simpl. case_decide as Hnew; simpl; [|done]. case_decide; simpl; [|done].
  intros [= <- <- <-]. split_and!; [done| | |].
  - intros v t. unfold sql_check_token, query. simpl. rewrite lookup_insert_eq. simpl. do 2 f_equal.
    apply bool_decide_ext. naive_solver.
  - intros t. simpl. rewrite map_lookup_filter, lookup_insert_eq. simpl. case_guard as Hg; simpl in *.
    + rewrite !bool_decide_eq_true_2; [done|lia|done].
    + rewrite bool_decide_eq_false_2; [done|lia].
  - unfold sql_check_token, query. simpl. rewrite map_lookup_filter, lookup_insert_eq. simpl.
    case_guard as Hg; [|done]. by destruct Hg.
Qed.

(** A password-reset token names its user for ten minutes and once: until
    the ten minutes are over it is resolved to the user it was made for, from
    then on it is refused, and after [delete_password_reset_token] it is refused
    at any time and cannot be deleted again.  No token is made for an unknown
    user. *)
Theorem reset_token_lifetime u w :
  match sql_start_password_reset u w with
  | (Ok None, w1) => db_users (w_db w) !! u = None /\ w1 = w
  | (Ok (Some token), w1) =>
      is_Some (db_users (w_db w) !! u)
      /\ (forall t, fst (sql_get_user_id_for_password_reset_token token (at_time t w1))
            = if (t <? w_now w + minutes 10)%Z then Ok u else Err (EntityNotFound "Invalid reset token"))
      /\ exists w2, sql_delete_password_reset_token token w1 = (Ok tt, w2)
        /\ (forall t, fst (sql_get_user_id_for_password_reset_token token (at_time t w2))
              = Err (EntityNotFound "Invalid reset token"))
        /\ exists e, fst (sql_delete_password_reset_token token w2) = Err e
  | (Err _, w1) => w_db w1 = w_db w
  | (Panic _, _) => False
  end.
Proof.
  unfold sql_start_password_reset, gen_random_string, sbind, utc_now, insert_reset_token, statement,
    guard_, query, sret. destruct (db_users (w_db w) !! u) as [r|] eqn:Hu; [|done]. simpl.
  case_decide; simpl; [|done]. rewrite Hu. rewrite decide_True by done. simpl.
  split; [done|]. split.
  - intros t. unfold sql_get_user_id_for_password_reset_token, sbind, query, utc_now. simpl.
    rewrite lookup_insert_eq. simpl. by destruct (t <? w_now w + minutes 10)%Z.
  - unfold sql_delete_password_reset_token, sbind, query, keep_reset, statement. simpl.
    rewrite lookup_insert_eq. eexists. split; [done|].
    assert (Hnone : forall m : gmap string ResetRow,
      filter (fun p => p.1 <> w_rng w (w_rng_pos w)) m !! w_rng w (w_rng_pos w) = None).
    { intros m. rewrite map_lookup_filter. destruct (m !! _); [|done]. simpl. by case_guard. }
    split; [|simpl; rewrite Hnone; by eexists].
    intros t. unfold sql_get_user_id_for_password_reset_token, sbind, query, utc_now. simpl. by rewrite Hnone.
Qed.
End SqlTcpFacts.

Lemma blacklist_jwts_correct_witness :
  exists w1 new w2, @sql_register_jwt uid_bob (2 ^ 63 + 5) 3000 example_world = (Ok tt, w1)
    /\ sql_blacklist_jwts uid_bob w1 = (Ok new, w2) /\ (2 ^ 63 + 5)%Z ∈ new.
Proof.
  destruct (@sql_register_jwt uid_bob (2 ^ 63 + 5) 3000 example_world) as [r w1] eqn:Hr.
  assert (r = Ok tt) as ->.
  { change r with (fst (r, w1)). rewrite <- Hr. vm_compute. reflexivity. }
  destruct (blacklist_jwts_correct uid_bob (2 ^ 63 + 5) 3000 example_world w1 ltac:(reflexivity) Hr)
    as (new & w2 & before & after & Hb & _ & _ & Hn & _).
  exists w1, new, w2. split_and!; done.
Defined.

Lemma refresh_token_lifetime_witness :
  exists token w1, @sql_create_refresh_token concrete_hash uid_bob example_world = (Ok (token, days 30), w1)
    /\ fst (sql_check_token (@default_hash concrete_hash token) uid_bob (at_time (days 400) w1)) = Ok true.
Proof.
  destruct (@sql_create_refresh_token concrete_hash uid_bob example_world) as [r w1] eqn:Hr.
  assert (exists token d, r = Ok (token, d)) as (token & d & ->).
  { change r with (fst (r, w1)). rewrite <- Hr. vm_compute. eauto. }
  destruct (@refresh_token_lifetime concrete_hash uid_bob example_world token d w1 Hr) as (-> & Hc & _).
  exists token, w1. split; [done|]. rewrite Hc. by rewrite bool_decide_eq_true_2.
Defined.
