(* ===== verification/SqlOpaque.v ===== *)
(** * Passwords: the OPAQUE handler of the SQL backend

    Models [server/src/domain/sql_opaque_handler.rs], the messages and the
    wrappers of [auth/src/lib.rs] and [auth/src/opaque.rs].  The protocol
    (opaque_ke), the sealing of the server's state (orion) and the byte format
    (bincode) are parameters, with their documented behaviour as laws. *)

From S2P Require Import Prelude RustStd Extern Types Concrete Handler Db ExampleDb SqlFilters SqlSchema SqlUser SqlGroup SqlBackend SqlTcp.
From Stdlib Require Import Ascii String.
From stdpp Require Import strings list gmap.
#[local] Open Scope rust_scope.

(* ------------------------------------------------------------------ *)
(** ** The crates *)

(** opaque_ke, instantiated with [DefaultSuite]; the first argument of a
    randomized function is its randomness, [None] is a protocol error. *)
Class OpaqueLib : Type := {
  ServerSetup : Type;
  ServerRegistration : Type;
  ServerLogin : Type;
  ClientLogin : Type;
  ClientRegistration : Type;
  CredentialRequest : Type;
  CredentialResponse : Type;
  CredentialFinalization : Type;
  RegistrationRequest : Type;
  RegistrationResponse : Type;
  RegistrationUpload : Type;
  registration_serialize : ServerRegistration -> bytes;
  registration_deserialize : bytes -> option ServerRegistration;
  ke_client_login_start : string -> bytes -> option (ClientLogin * CredentialRequest);
  ke_client_login_finish : ClientLogin -> CredentialResponse -> option CredentialFinalization;
  ke_client_registration_start : string -> bytes -> option (ClientRegistration * RegistrationRequest);
  ke_client_registration_finish :
    string -> ClientRegistration -> RegistrationResponse -> option RegistrationUpload;
  ke_server_login_start : string -> ServerSetup -> option ServerRegistration -> CredentialRequest ->
    bytes -> option (ServerLogin * CredentialResponse);
  ke_server_login_finish : ServerLogin -> CredentialFinalization -> option unit;
  ke_server_registration_start : ServerSetup -> RegistrationRequest -> bytes -> option RegistrationResponse;
  ke_server_registration_finish : RegistrationUpload -> ServerRegistration;
}.

(** orion's authenticated encryption. *)
Class Orion : Type := {
  SecretKey : Type;
  secret_key_from_slice : bytes -> option SecretKey;
  aead_seal : string -> SecretKey -> bytes -> option bytes;
  aead_open : SecretKey -> bytes -> option bytes;
}.

Class OrionLaws (O : Orion) : Prop := {
  aead_roundtrip n k m c : aead_seal n k m = Some c -> aead_open k c = Some m;
  aead_seals n k m : m <> [] -> is_Some (aead_seal n k m);
}.

(** bincode on the two [ServerData] structures: a field is read from the front
    of the bytes, and gives back the rest. *)
Class BincodeStream `{OpaqueLib} : Type := {
  put_user_id : UserId -> bytes;
  get_user_id : bytes -> option (UserId * bytes);
  put_server_login : ServerLogin -> bytes;
  get_server_login : bytes -> option (ServerLogin * bytes);
}.

Class BincodeStreamLaws `{OpaqueLib} (BS : BincodeStream) : Prop := {
  get_put_user_id u rest : user_id_wf u = true -> get_user_id (put_user_id u ++ rest) = Some (u, rest);
  put_user_id_nonempty u : put_user_id u <> [];
  get_put_server_login s rest : get_server_login (put_server_login s ++ rest) = Some (s, rest);
}.

(** The protocol's contract for a user's password file: it is produced by
    [registered], it survives storage, and a login against it ends well exactly
    for the password it was made with (OPAQUE's soundness, idealized: no
    collisions). *)
Section OpaqueContract.
Context `{OL : OpaqueLib}.

(** The whole registration, for the identifier [id]. *)
Definition registered (setup : ServerSetup) (id password : bytes) (file : ServerRegistration) : Prop :=
  exists r1 r2 state request response upload,
    ke_client_registration_start r1 password = Some (state, request)
    /\ ke_server_registration_start setup request id = Some response
    /\ ke_client_registration_finish r2 state response = Some upload
    /\ file = ke_server_registration_finish upload.
End OpaqueContract.

Class OpaqueLaws (OL : OpaqueLib) : Prop := {
  registration_roundtrip f : registration_deserialize (registration_serialize f) = Some f;
  registration_runs setup id password r1 r2 : exists state request response upload,
    ke_client_registration_start r1 password = Some (state, request)
    /\ ke_server_registration_start setup request id = Some response
    /\ ke_client_registration_finish r2 state response = Some upload;
  login_runs setup id file password r1 r2 : exists state request slogin response,
    ke_client_login_start r1 password = Some (state, request)
    /\ ke_server_login_start r2 setup (Some file) request id = Some (slogin, response);
  login_iff_password setup id file p p' r1 r2 state request slogin response :
    registered setup id p file ->
    ke_client_login_start r1 p' = Some (state, request) ->
    ke_server_login_start r2 setup (Some file) request id = Some (slogin, response) ->
    is_Some (ke_client_login_finish state response) <-> p' = p;
}.

(** What the handler reads of the configuration. *)
Class OpaqueConfig `{OpaqueLib} : Type := {
  get_server_setup : ServerSetup;
  private_key : bytes;
}.

(* ------------------------------------------------------------------ *)
(** ** Messages *)

Section Messages.
Context `{OL : OpaqueLib}.

(** Source: auth/src/lib.rs#L14-18 *)
Record LoginServerData := mk_login_data { ld_username : UserId; ld_server_login : ServerLogin }.
(** Source: auth/src/lib.rs#struct ClientLoginStartRequest *)
Record ClientLoginStartRequest := mk_login_start {
  ls_username : UserId;
  ls_login_start_request : CredentialRequest;
}.
(** Source: auth/src/lib.rs#struct ServerLoginStartResponse *)
Record ServerLoginStartResponse := mk_login_start_response {
  lr_server_data : string;
  lr_credential_response : CredentialResponse;
}.
(** Source: auth/src/lib.rs#struct ClientLoginFinishRequest *)
Record ClientLoginFinishRequest := mk_login_finish {
  lf_server_data : string;
  lf_credential_finalization : CredentialFinalization;
}.
(** Source: auth/src/lib.rs#struct ClientRegistrationStartRequest *)
Record ClientRegistrationStartRequest := mk_registration_start {
  rs_username : UserId;
  rs_registration_start_request : RegistrationRequest;
}.
(** Source: auth/src/lib.rs#struct ServerRegistrationStartResponse *)
Record ServerRegistrationStartResponse := mk_registration_start_response {
  rr_server_data : string;
  rr_registration_response : RegistrationResponse;
}.
(** Source: auth/src/lib.rs#struct ClientRegistrationFinishRequest *)
Record ClientRegistrationFinishRequest := mk_registration_finish {
  rf_server_data : string;
  rf_registration_upload : RegistrationUpload;
}.
End Messages.

(** Source: server/src/domain/opaque_handler.rs#trait OpaqueHandler *)
Class OpaqueHandler `{OpaqueLib} (St : Type) : Type := {
  oh_login_start : ClientLoginStartRequest -> stM St DomainError ServerLoginStartResponse;
  oh_login_finish : ClientLoginFinishRequest -> stM St DomainError UserId;
  oh_registration_start :
    ClientRegistrationStartRequest -> stM St DomainError ServerRegistrationStartResponse;
  oh_registration_finish : ClientRegistrationFinishRequest -> stM St DomainError unit;
}.

(* ------------------------------------------------------------------ *)
(** ** The handler *)

Section SqlOpaque.
Context `{C : Crates} `{OL : OpaqueLib} `{O : Orion} `{BS : !BincodeStream} `{CF : !OpaqueConfig}.

Definition protocol_error : DomainError := AuthenticationProtocolError "Protocol error".
Definition serialization_error : DomainError := BinarySerializationError "bincode".

Definition lift_ke {A} (o : option A) : SQL A := slift (ok_or protocol_error o).

(** [bincode::serialize] and [bincode::deserialize] of the two structures: the
    fields in order; reading ignores the bytes after the last field. *)
Definition serialize_login_data (d : LoginServerData) : bytes :=
  put_user_id (ld_username d) ++ put_server_login (ld_server_login d).
Definition deserialize_login_data (b : bytes) : option LoginServerData :=
  '(u, b) ← get_user_id b;
  '(s, _) ← get_server_login b;
  Some (mk_login_data u s).
Definition serialize_registration_data (u : UserId) : bytes := put_user_id u.
Definition deserialize_registration_data (b : bytes) : option UserId :=
  fst <$> get_user_id b.

(** The identifier the protocol uses for a user. *)
Definition opaque_id (u : UserId) : bytes := into_bytes (user_id_str u).

(** Source: auth/src/opaque.rs#pub fn start_registration *)
Definition client_start_registration (rng : string) (password : bytes) :=
  ke_client_registration_start rng password.
(** Source: auth/src/opaque.rs#pub fn start_login *)
Definition client_start_login (rng : string) (password : string) :=
  ke_client_login_start rng (into_bytes password).
(** Source: auth/src/opaque.rs#@2 pub fn start_registration *)
Definition server_start_registration (setup : ServerSetup) (request : RegistrationRequest) (username : UserId) :=
  ke_server_registration_start setup request (opaque_id username).
(** Source: auth/src/opaque.rs#@2 pub fn start_login *)
Definition server_start_login (rng : string) (setup : ServerSetup) (file : option ServerRegistration)
    (request : CredentialRequest) (username : UserId) :=
  ke_server_login_start rng setup file request (opaque_id username).

(** Source: server/src/domain/sql_opaque_handler.rs#fn passwords_match *)
Definition passwords_match (password_file_bytes : bytes) (clear_password : string) (setup : ServerSetup)
    (username : UserId) : SQL unit :=
  let! r1 := gen_random_string in
  let! '(state, message) := lift_ke (client_start_login r1 clear_password) in
  let! password_file := lift_ke (registration_deserialize password_file_bytes) in
  let! r2 := gen_random_string in
  let! '(_, response) := lift_ke (server_start_login r2 setup (Some password_file) message username) in
  let! _ := lift_ke (ke_client_login_finish state response) in
  sret tt.

(** Source: server/src/domain/sql_opaque_handler.rs#fn get_orion_secret_key *)
Definition get_orion_secret_key : outcome DomainError SecretKey :=
  ok_or UnknownCryptoError (secret_key_from_slice private_key).

(** Source: server/src/domain/sql_opaque_handler.rs#async fn get_password_file_for_user *)
Definition get_password_file_for_user (user_id : UserId) : SQL (option bytes) :=
  query (fun db => db_users db !! user_id ≫= ur_password_hash).

(** Source: server/src/domain/sql_opaque_handler.rs#async fn bind *)
Definition sql_bind (request : BindRequest) : SQL unit :=
  let failed := sthrow (AuthenticationError (" for user '" +:+ user_id_str (bind_name request) +:+ "'")) in
  let! file := get_password_file_for_user (bind_name request) in
  match file with
  | Some password_hash =>
      let! r := stry (passwords_match password_hash (bind_password request) get_server_setup (bind_name request)) in
      match r with
      | inl _ => failed
      | inr _ => sret tt
      end
  | None => failed
  end.

(** Source: server/src/domain/sql_opaque_handler.rs#async fn login_start *)
Definition sql_login_start (request : ClientLoginStartRequest) : SQL ServerLoginStartResponse :=
  let user_id := ls_username request in
  let! bytes := get_password_file_for_user user_id in
  let! maybe_password_file :=
    match bytes with
    | None => sret None
    | Some b =>
        slift (omap_ok Some (ok_or (InternalError ("Corrupted password file for " +:+ user_id_str user_id))
          (registration_deserialize b)))
    end in
  let! rng := gen_random_string in
  let! '(state, message) := lift_ke (server_start_login rng get_server_setup maybe_password_file
                              (ls_login_start_request request) user_id) in
  let! secret_key := slift get_orion_secret_key in
  let server_data := mk_login_data user_id state in
  let! nonce := gen_random_string in
  let! encrypted_state :=
    slift (ok_or UnknownCryptoError (aead_seal nonce secret_key (serialize_login_data server_data))) in
  sret (mk_login_start_response (base64_encode encrypted_state) message).

(** Opening the state a client sends back. *)
Definition open_server_data {A} (decode : bytes -> option A) (data : string) : outcome DomainError A :=
  let? secret_key := get_orion_secret_key in
  let? sealed := ok_or Base64DecodeError (base64_decode data) in
  let? plain := ok_or UnknownCryptoError (aead_open secret_key sealed) in
  ok_or serialization_error (decode plain).

(** Source: server/src/domain/sql_opaque_handler.rs#async fn login_finish *)
Definition sql_login_finish (request : ClientLoginFinishRequest) : SQL UserId :=
  let! data := slift (open_server_data deserialize_login_data (lf_server_data request)) in
  let! _ := lift_ke (ke_server_login_finish (ld_server_login data) (lf_credential_finalization request)) in
  sret (ld_username data).

(** Source: server/src/domain/sql_opaque_handler.rs#async fn registration_start *)
Definition sql_registration_start (request : ClientRegistrationStartRequest) :
    SQL ServerRegistrationStartResponse :=
  let! message := lift_ke (server_start_registration get_server_setup
                             (rs_registration_start_request request) (rs_username request)) in
  let! secret_key := slift get_orion_secret_key in
  let! nonce := gen_random_string in
  let! encrypted_state :=
    slift (ok_or UnknownCryptoError
      (aead_seal nonce secret_key (serialize_registration_data (rs_username request)))) in
  sret (mk_registration_start_response (base64_encode encrypted_state) message).

Definition set_password_hash (hash : bytes) (r : UserRow) : UserRow :=
  mk_user_row (ur_email r) (ur_lowercase_email r) (ur_display_name r) (ur_creation_date r) (Some hash)
    (ur_totp_secret r) (ur_mfa_type r) (ur_uuid r).

(** Source: server/src/domain/sql_opaque_handler.rs#async fn registration_finish *)
Definition sql_registration_finish (request : ClientRegistrationFinishRequest) : SQL unit :=
  let! username := slift (open_server_data deserialize_registration_data (rf_server_data request)) in
  let password_file := ke_server_registration_finish (rf_registration_upload request) in
  update_user_row false username (set_password_hash (registration_serialize password_file)).

#[export] Instance SqlLoginHandler : LoginHandler World := {| lh_bind := sql_bind |}.
#[export] Instance SqlOpaqueHandler : OpaqueHandler World := {|
  oh_login_start := sql_login_start;
  oh_login_finish := sql_login_finish;
  oh_registration_start := sql_registration_start;
  oh_registration_finish := sql_registration_finish;
|}.

(** Source: server/src/domain/sql_opaque_handler.rs#async fn register_password *)
Definition register_password (username : UserId) (password : string) : SQL unit :=
  let! r1 := gen_random_string in
  let! '(state, message) := lift_ke (client_start_registration r1 (into_bytes password)) in
  let! start_response := oh_registration_start (mk_registration_start username message) in
  let! r2 := gen_random_string in
  let! upload := lift_ke (ke_client_registration_finish r2 state (rr_registration_response start_response)) in
  oh_registration_finish (mk_registration_finish (rr_server_data start_response) upload).
End SqlOpaque.

(* ------------------------------------------------------------------ *)
(** ** Properties *)

Section SqlOpaqueFacts.
Context `{C : Crates} `{OL : OpaqueLib} `{O : Orion} `{BS : !BincodeStream} `{CF : !OpaqueConfig}.
Context {B6 : Base64Laws crates_base64} {LL : OpaqueLaws OL} {OO : OrionLaws O} {BSL : BincodeStreamLaws BS}.

Lemma open_sealed {A} (decode : bytes -> option A) nonce k m c a :
  get_orion_secret_key = Ok k -> aead_seal nonce k m = Some c -> decode m = Some a ->
  open_server_data decode (base64_encode c) = Ok a.
Proof using B6 OO.
  intros Hk Hc Ha. unfold open_server_data. rewrite Hk. simpl. rewrite base64_roundtrip. simpl.
  rewrite (aead_roundtrip _ _ _ _ Hc). simpl. by rewrite Ha.
Qed.

Lemma login_data_roundtrip d :
  user_id_wf (ld_username d) = true -> deserialize_login_data (serialize_login_data d) = Some d.
Proof using BSL.
  intros Hu. unfold deserialize_login_data, serialize_login_data. rewrite get_put_user_id by done. cbn.
  rewrite <- (app_nil_r (put_server_login _)), get_put_server_login. cbn. by destruct d.
Qed.

Lemma registration_data_roundtrip u :
  user_id_wf u = true -> deserialize_registration_data (serialize_registration_data u) = Some u.
Proof using BSL.
  intros Hu. unfold deserialize_registration_data, serialize_registration_data.
  rewrite <- (app_nil_r (put_user_id u)), get_put_user_id by done. done.
Qed.

(** The state of a login also reads as the state of a registration. *)
Lemma login_data_as_registration_data d :
  user_id_wf (ld_username d) = true ->
  deserialize_registration_data (serialize_login_data d) = Some (ld_username d).
Proof using BSL.
  intros Hu. unfold deserialize_registration_data, serialize_login_data.
  by rewrite get_put_user_id.
Qed.

(** Writing a password touches no unique column. *)
Lemma set_password_hash_run u hash r w :
  world_ok w -> db_users (w_db w) !! u = Some r ->
  update_user_row false u (set_password_hash hash) w
  = (Ok tt, set_db (set_users (<[u := set_password_hash hash r]> (db_users (w_db w))) (w_db w)) w).
Proof using Type.
  intros Hok Hu. unfold update_user_row, statement. rewrite Hu. unfold guard_.
  rewrite decide_True; [done|]. intros u' r' Hu' Hne.
  exact (ok_users _ Hok u r Hu u' r' Hu' Hne).
Qed.

Lemma gen_random_string_run w :
  gen_random_string w = (Ok (w_rng w (w_rng_pos w)), mk_world (w_db w) (w_now w) (w_rng w) (S (w_rng_pos w))).
Proof. done. Qed.

(** What a successful [login_start] answers with. *)
Lemma sql_login_start_ok request w resp w1 :
  sql_login_start request w = (Ok resp, w1) ->
  w_db w1 = w_db w /\ exists k nonce state c,
    get_orion_secret_key = Ok k
    /\ aead_seal nonce k (serialize_login_data (mk_login_data (ls_username request) state)) = Some c
    /\ lr_server_data resp = base64_encode c.
Proof using Type.
  intros H. apply sbind_ok in H as (file & wa & [= <- <-] & H).
  apply sbind_ok in H as (mfile & wb & Hf & H).
  assert (wb = w) as ->. { by destruct (db_users (w_db w) !! ls_username request ≫= ur_password_hash);
    [apply slift_ok in Hf as [_ ->]|apply sret_ok in Hf as [_ ->]]. }
  apply sbind_ok in H as (rng & wc & [= <- <-] & H).
  apply sbind_ok in H as ([state message] & wd & [_ ->]%slift_ok & H).
  apply sbind_ok in H as (k & we & [Hk ->]%slift_ok & H).
  apply sbind_ok in H as (nonce & wf & [= <- <-] & H).
  apply sbind_ok in H as (c & wg & [Hc%ok_or_ok ->]%slift_ok & H).
  apply sret_ok in H as [-> ->]. split; [done|]. eauto 10.
Qed.

(** C40. The states that [login_start] seals are not told apart from those of
    [registration_start]: the answer to a login request for a user, which needs
    no authentication, is accepted by [registration_finish] and replaces that
    user's password with the upload of the caller's choice. *)
Theorem login_state_registers request w resp w1 r upload :
  sql_login_start request w = (Ok resp, w1) ->
  world_ok w -> user_id_wf (ls_username request) = true ->
  db_users (w_db w) !! ls_username request = Some r ->
  exists w2,
    sql_registration_finish (mk_registration_finish (lr_server_data resp) upload) w1 = (Ok tt, w2)
    /\ db_users (w_db w2) = <[ls_username request :=
         set_password_hash (registration_serialize (ke_server_registration_finish upload)) r]> (db_users (w_db w)).
Proof using B6 OO BSL.
  intros H Hok Hwf Hu. apply sql_login_start_ok in H as (Hdb & k & nonce & state & c & Hk & Hc & Hd).
  eexists. split.
  - unfold sql_registration_finish. rewrite (sbind_run _ _ _ (ls_username request) w1).
    + apply set_password_hash_run with (r := r); [by unfold world_ok; rewrite Hdb|by rewrite Hdb].
    + unfold slift. simpl. rewrite Hd. erewrite open_sealed; [done..|].
      by apply login_data_as_registration_data.
  - simpl. by rewrite Hdb.
Qed.

Lemma into_bytes_inj s1 s2 : into_bytes s1 = into_bytes s2 -> s1 = s2.
Proof using Type.
  unfold into_bytes. intros H. rewrite <- (String.string_of_list_byte_of_string s1), H.
  apply String.string_of_list_byte_of_string.
Qed.

(** A login against a registered file ends well exactly for its password. *)
Lemma passwords_match_registered setup u p p' file w :
  registered setup (opaque_id u) (into_bytes p) file ->
  exists r w', passwords_match (registration_serialize file) p' setup u w = (r, w')
    /\ (r = Ok tt /\ p' = p \/ (exists e, r = Err e) /\ p' <> p).
Proof using LL.
  intros Hreg. unfold passwords_match. rewrite (sbind_run _ _ _ _ _ (gen_random_string_run w)).
  set (r1 := w_rng w (w_rng_pos w)). set (w1 := mk_world _ _ _ _).
  destruct (login_runs setup (opaque_id u) file (into_bytes p') r1 (w_rng w1 (w_rng_pos w1)))
    as (state & request & slogin & response & H1 & H2).
  rewrite (sbind_run _ _ _ (state, request) w1) by (unfold lift_ke, client_start_login; by rewrite H1).
  rewrite (sbind_run _ _ _ file w1) by (unfold lift_ke; by rewrite registration_roundtrip).
  rewrite (sbind_run _ _ _ _ _ (gen_random_string_run w1)). set (w2 := mk_world _ _ _ (S _)).
  rewrite (sbind_run _ _ _ (slogin, response) w2) by (unfold lift_ke, server_start_login; by rewrite H2).
  pose proof (login_iff_password setup _ file _ _ _ _ _ _ _ _ Hreg H1 H2) as Hiff.
  destruct (ke_client_login_finish state response) as [fin|] eqn:Hf.
  - rewrite (sbind_run _ _ _ fin w2) by done.
    do 2 eexists. split; [done|]. left. split; [done|]. apply into_bytes_inj, Hiff. eauto.
  - rewrite (sbind_run_err _ _ _ protocol_error w2) by done.
    do 2 eexists. split; [done|]. right. split; [by eexists|]. intros ->.
    destruct (proj2 Hiff eq_refl). done.
Qed.

Lemma sql_bind_registered u p p' r file w :
  db_users (w_db w) !! u = Some r -> ur_password_hash r = Some (registration_serialize file) ->
  registered get_server_setup (opaque_id u) (into_bytes p) file ->
  fst (sql_bind (mk_bind_request u p') w)
  = if decide (p' = p) then Ok tt
    else Err (AuthenticationError (" for user '" +:+ user_id_str u +:+ "'")).
Proof using LL.
  intros Hu Hh Hreg. unfold sql_bind, sbind, get_password_file_for_user, query. simpl.
  rewrite Hu. simpl. rewrite Hh. unfold stry.
  destruct (passwords_match_registered get_server_setup u p p' file w Hreg)
    as (res & w' & -> & [[-> ->]|[[e ->] Hne]]); by case_decide.
Qed.

(** The runs of the two registration steps. *)
Lemma sql_registration_start_run u request response k w :
  ke_server_registration_start get_server_setup request (opaque_id u) = Some response ->
  get_orion_secret_key = Ok k ->
  exists c nonce, aead_seal nonce k (serialize_registration_data u) = Some c
    /\ sql_registration_start (mk_registration_start u request) w
    = (Ok (mk_registration_start_response (base64_encode c) response),
       mk_world (w_db w) (w_now w) (w_rng w) (S (w_rng_pos w))).
Proof using OO BSL.
  intros Hs Hk.
  destruct (aead_seals (w_rng w (w_rng_pos w)) k (serialize_registration_data u)) as [c Hc];
    [apply put_user_id_nonempty|].
  exists c, (w_rng w (w_rng_pos w)). split; [done|]. unfold sql_registration_start.
  rewrite (sbind_run _ _ _ response w) by (unfold lift_ke, server_start_registration; simpl; by rewrite Hs).
  rewrite (sbind_run _ _ _ k w) by (unfold slift; by rewrite Hk).
  rewrite (sbind_run _ _ _ _ _ (gen_random_string_run w)).
  erewrite (sbind_run _ _ _ c) by (unfold slift; simpl; by rewrite Hc). done.
Qed.

Lemma sql_registration_finish_run u c nonce k upload r w :
  world_ok w -> user_id_wf u = true -> db_users (w_db w) !! u = Some r -> get_orion_secret_key = Ok k ->
  aead_seal nonce k (serialize_registration_data u) = Some c ->
  sql_registration_finish (mk_registration_finish (base64_encode c) upload) w
  = (Ok tt, set_db (set_users (<[u := set_password_hash (registration_serialize (ke_server_registration_finish upload)) r]>
       (db_users (w_db w))) (w_db w)) w).
Proof using B6 OO BSL.
  intros Hok Hwf Hu Hk Hc. unfold sql_registration_finish. rewrite (sbind_run _ _ _ u w).
  - by apply set_password_hash_run.
  - unfold slift. simpl. erewrite open_sealed; [done..|]. by apply registration_data_roundtrip.
Qed.

(** The password holds as long as the user's row does. *)
Lemma register_password_spec u p r k w :
  world_ok w -> user_id_wf u = true -> db_users (w_db w) !! u = Some r -> get_orion_secret_key = Ok k ->
  exists hash w1,
    register_password u p w = (Ok tt, w1)
    /\ w_db w1 = set_users (<[u := set_password_hash hash r]> (db_users (w_db w))) (w_db w)
    /\ forall p' w2, db_users (w_db w2) !! u = Some (set_password_hash hash r) ->
         fst (sql_bind (mk_bind_request u p') w2)
         = if decide (p' = p) then Ok tt
           else Err (AuthenticationError (" for user '" +:+ user_id_str u +:+ "'")).
Proof using B6 LL OO BSL.
  intros Hok Hwf Hu Hk. unfold register_password.
  rewrite (sbind_run _ _ _ _ _ (gen_random_string_run w)).
  set (r1 := w_rng w (w_rng_pos w)). set (w1 := mk_world _ _ _ _).
  destruct (registration_runs get_server_setup (opaque_id u) (into_bytes p) r1 (w_rng w (S (S (w_rng_pos w)))))
    as (state & request & response & upload & H1 & H2 & H3).
  rewrite (sbind_run _ _ _ (state, request) w1) by (unfold lift_ke, client_start_registration; by rewrite H1).
  destruct (sql_registration_start_run u request response k w1 H2 Hk) as (c & nonce & Hc & Hrun).
  rewrite (sbind_run _ _ _ _ _ Hrun). rewrite (sbind_run _ _ _ _ _ (gen_random_string_run _)).
  erewrite (sbind_run _ _ _ upload) by (unfold lift_ke; simpl; by rewrite H3). simpl.
  erewrite sql_registration_finish_run by done.
  do 2 eexists. split; [done|]. split; [done|]. intros p' w2 Hdb.
  eapply (sql_bind_registered u p p' (set_password_hash _ r) (ke_server_registration_finish upload)).
  - done.
  - done.
  - unfold registered. eauto 15.
Qed.

Lemma register_password_run u p r k w :
  world_ok w -> user_id_wf u = true -> db_users (w_db w) !! u = Some r -> get_orion_secret_key = Ok k ->
  exists hash w1,
    register_password u p w = (Ok tt, w1)
    /\ w_db w1 = set_users (<[u := set_password_hash hash r]> (db_users (w_db w))) (w_db w)
    /\ forall p' w2, db_users (w_db w2) !! u = db_users (w_db w1) !! u ->
         fst (sql_bind (mk_bind_request u p') w2)
         = if decide (p' = p) then Ok tt
           else Err (AuthenticationError (" for user '" +:+ user_id_str u +:+ "'")).
Proof using B6 LL OO BSL.
  intros Hok Hwf Hu Hk. destruct (register_password_spec u p r k w Hok Hwf Hu Hk) as (hash & w1 & H1 & Hdb & Hb).
  exists hash, w1. split_and!; [done..|]. intros p' w2 Hw2. apply Hb. rewrite Hw2, Hdb. cbn. by rewrite lookup_insert_eq.
Qed.

(** C34. A password set through [register_password] is the password: for an
    existing user the registration goes through, it changes that user's row in
    the password only, and from then on [bind] accepts exactly that password,
    whatever the randomness and whatever else has been written, as long as that
    user's row is the one the registration left. *)
Theorem register_then_bind u p r k w :
  world_ok w -> user_id_wf u = true -> db_users (w_db w) !! u = Some r -> get_orion_secret_key = Ok k ->
  exists hash w1,
    register_password u p w = (Ok tt, w1)
    /\ w_db w1 = set_users (<[u := set_password_hash hash r]> (db_users (w_db w))) (w_db w)
    /\ forall p' w2, db_users (w_db w2) !! u = db_users (w_db w1) !! u ->
         fst (sql_bind (mk_bind_request u p') w2)
         = if decide (p' = p) then Ok tt
           else Err (AuthenticationError (" for user '" +:+ user_id_str u +:+ "'")).
Proof using B6 LL OO BSL. apply register_password_run. Qed.
End SqlOpaqueFacts.

(* ------------------------------------------------------------------ *)
(** ** A toy protocol, for examples

    The password file is the password and the session states carry it in the
    clear: nothing is secret, but every law holds. *)

Definition toy_opaque : OpaqueLib := {|
  ServerSetup := unit; ServerRegistration := bytes; ServerLogin := unit;
  ClientLogin := bytes; ClientRegistration := unit;
  CredentialRequest := unit; CredentialResponse := option bytes; CredentialFinalization := unit;
  RegistrationRequest := bytes; RegistrationResponse := bytes; RegistrationUpload := bytes;
  registration_serialize b := b;
  registration_deserialize b := Some b;
  ke_client_login_start _ p := Some (p, tt);
  ke_client_login_finish p f := if decide (f = Some p) then Some tt else None;
  ke_client_registration_start _ p := Some (tt, p);
  ke_client_registration_finish _ _ p := Some p;
  ke_server_login_start _ _ f _ _ := Some (tt, f);
  ke_server_login_finish _ _ := Some tt;
  ke_server_registration_start _ p _ := Some p;
  ke_server_registration_finish p := p;
|}.

Lemma toy_opaque_laws : OpaqueLaws toy_opaque.
Proof.
  split.
  - done.
  - intros. by repeat eexists.
  - intros. by repeat eexists.
  - intros setup id file p p' r1 r2 state request slogin response.
    intros (? & ? & ? & ? & ? & ? & Ha & Hb & Hc & ->) H1 H2. cbn in *. simplify_eq.
    case_decide as Hd; [|split; [by intros [? ?]|congruence]].
    split; [congruence|by eexists].
Qed.

Definition toy_orion : Orion := {|
  SecretKey := bytes;
  secret_key_from_slice b := Some b;
  aead_seal _ _ m := match m with [] => None | _ => Some (Byte.x01 :: m) end;
  aead_open _ c := match c with Byte.x01 :: m => Some m | _ => None end;
|}.

Lemma toy_orion_laws : OrionLaws toy_orion.
Proof. split; cbn; intros n k m; destruct m; try done. by intros c [= <-]. Qed.

Fixpoint toy_put (b : bytes) : bytes :=
  match b with [] => [Byte.x00] | x :: b => Byte.x01 :: x :: toy_put b end.
Fixpoint toy_get (b : bytes) : option (bytes * bytes) :=
  match b with
  | Byte.x00 :: rest => Some ([], rest)
  | _ :: x :: b => '(s, rest) ← toy_get b; Some (x :: s, rest)
  | _ => None
  end.

Definition toy_stream : @BincodeStream toy_opaque := {|
  put_user_id u := toy_put (into_bytes (user_id_str u));
  get_user_id b := '(s, rest) ← toy_get b; Some (user_id_new (string_of_bytes s), rest);
  put_server_login := fun _ : @ServerLogin toy_opaque => [];
  get_server_login b := Some (tt : @ServerLogin toy_opaque, b);
|}.

Lemma toy_get_put b rest : toy_get (toy_put b ++ rest) = Some (b, rest).
Proof. induction b as [|x b IH]; cbn; [done|]. by rewrite IH. Qed.

Lemma toy_stream_laws : @BincodeStreamLaws toy_opaque toy_stream.
Proof.
  split; cbn.
  - intros u rest Hu. rewrite toy_get_put. cbn. unfold string_of_bytes, into_bytes.
    by rewrite String.string_of_list_byte_of_string, user_id_new_str.
  - intros u. by destruct (into_bytes _).
  - intros [] rest. done.
Qed.

Definition toy_config : @OpaqueConfig toy_opaque := {|
  get_server_setup := tt : @ServerSetup toy_opaque; private_key := [] |}.

Definition toy_login_start :=
  @sql_login_start concrete_crates toy_opaque toy_orion toy_stream toy_config
    (@mk_login_start toy_opaque uid_admin tt) example_world.

Definition example_admin_row : UserRow :=
  mk_user_row (mk_ci "admin@example.com") "admin@example.com" (Some "Administrator"%string) 1000 None None None
    (mk_uuid "admin").

Lemma login_state_registers_witness :
  exists resp w1 w2, toy_login_start = (Ok resp, w1)
    /\ @sql_registration_finish concrete_crates toy_opaque toy_orion toy_stream toy_config
         (@mk_registration_finish toy_opaque (lr_server_data resp) (into_bytes "stolen")) w1 = (Ok tt, w2)
    /\ (ur_password_hash <$> db_users (w_db w2) !! uid_admin) = Some (Some (into_bytes "stolen")).
Proof.
  destruct toy_login_start as [res w1] eqn:Hrun.
  assert (exists resp, res = Ok resp) as [resp ->].
  { change res with (fst (res, w1)). rewrite <- Hrun. vm_compute. eauto. }
  destruct (@login_state_registers concrete_crates toy_opaque toy_orion toy_stream toy_config
    concrete_base64_laws toy_orion_laws toy_stream_laws
    (@mk_login_start toy_opaque uid_admin tt) example_world resp w1 example_admin_row (into_bytes "stolen") Hrun)
    as (w2 & H2 & Hdb).
  - apply example_world_ok.
  - reflexivity.
  - vm_compute. reflexivity.
  - exists resp, w1, w2. split_and!; [done|done|]. by rewrite Hdb, lookup_insert_eq.
Defined.

Lemma register_then_bind_witness :
  exists w1, @register_password concrete_crates toy_opaque toy_orion toy_stream toy_config uid_bob "hunter2" example_world
      = (Ok tt, w1)
    /\ fst (@sql_bind toy_opaque toy_config (mk_bind_request uid_bob "hunter2") w1) = Ok tt
    /\ fst (@sql_bind toy_opaque toy_config (mk_bind_request uid_bob "Hunter2")
              (set_db (set_groups ∅ (w_db w1)) w1))
       = Err (AuthenticationError " for user 'bob'").
Proof.
  destruct (@register_then_bind concrete_crates toy_opaque toy_orion toy_stream toy_config
    concrete_base64_laws toy_opaque_laws toy_orion_laws toy_stream_laws
    uid_bob "hunter2" example_bob_row [] example_world) as (hash & w1 & H1 & _ & Hb).
  - apply example_world_ok.
  - reflexivity.
  - vm_compute. reflexivity.
  - reflexivity.
  - exists w1. split_and!; [done| |].
    + rewrite Hb by done. by rewrite decide_True.
    + rewrite Hb by done. by rewrite decide_False.
Defined.
