(* ===== verification/Configuration.v ===== *)
(** * Configuration and the server's private key

    Models [server/src/infra/configuration.rs] with the options of
    [server/src/infra/cli.rs], and the private-key columns of the metadata table
    ([server/src/domain/sql_tables.rs]): the overrides of the command line, where
    the private key comes from, the file it is generated into, and the check that
    it has not changed since the last start.  figment, serde_json, sha2, the OPAQUE
    key generation and the address and URL types of lettre and url are parameters.
    The file system is that of [std::fs], as far as the key file needs it. *)

From S2P Require Import Prelude RustStd Extern Types Concrete SqlEngine Migrations MigrationLoop SqlOpaque.
From Stdlib Require Import Ascii String.
From stdpp Require Import strings list gmap.
#[local] Open Scope rust_scope.
#[local] Open Scope string_scope.

(* ------------------------------------------------------------------ *)
(** ** Where a key comes from *)

(** Source: server/src/domain/sql_tables.rs#pub enum ConfigLocation *)
Inductive ConfigLocation :=
| ConfigFile (path : string)
| EnvironmentVariable (name : string)
| CommandLine.

(** Paths are texts.
    Source: server/src/domain/sql_tables.rs#pub enum PrivateKeyLocation *)
Inductive PrivateKeyLocation :=
| KeySeed (l : ConfigLocation)
| KeyFile (l : ConfigLocation) (path : string)
| DefaultLocation.
#[global] Instance config_location_eq_dec : EqDecision ConfigLocation.
Proof. solve_decision. Defined.
#[global] Instance key_location_eq_dec : EqDecision PrivateKeyLocation.
Proof. solve_decision. Defined.

(** Source: server/src/domain/sql_tables.rs#pub struct PrivateKeyInfo *)
Record PrivateKeyInfo := mk_key_info {
  private_key_hash : bytes;
  private_key_location : PrivateKeyLocation;
}.

(** figment: the metadata of the provider a key was read from. *)
Inductive FigmentSource := SourceFile (path : string) | SourceCode (location : string) | SourceCustom (s : string).
Record FigmentMetadata := mk_figment_metadata { fm_source : option FigmentSource; fm_name : string }.
Class FigmentLib : Type := {
  Figment : Type;
  find_metadata : Figment -> string -> option FigmentMetadata;
}.

(** The types of lettre and url the configuration stores. *)
Class ConfigTypes : Type := { Mailbox : Type; Url : Type }.

(** The key generation: [ServerSetup::new] on a [ChaCha20Rng] made from a seed, or on the
    operating system's generator; its code; [keypair().private()]; SHA-256; the JSON text
    of a location; the [Debug] texts of locations and paths. *)
Class KeyLib `{OpaqueLib} : Type := {
  setup_from_seed : bytes -> ServerSetup;
  setup_from_entropy : string -> ServerSetup;
  setup_serialize : ServerSetup -> bytes;
  setup_deserialize : bytes -> option ServerSetup;
  setup_private : ServerSetup -> bytes;
  sha256 : bytes -> bytes;
  location_to_json : PrivateKeyLocation -> string;
  location_from_json : string -> option PrivateKeyLocation;
  config_location_debug : ConfigLocation -> string;
  location_debug : PrivateKeyLocation -> string;
  path_debug : string -> string;
}.
Class KeyLaws `{OL : OpaqueLib} (K : KeyLib) : Prop := {
  setup_roundtrip s : setup_deserialize (setup_serialize s) = Some s;
  sha256_length b : length (sha256 b) = 32;
  location_roundtrip l : location_from_json (location_to_json l) = Some l;
}.

(* ------------------------------------------------------------------ *)
(** ** The configuration and its overrides *)

(** Source: server/src/infra/cli.rs#pub enum SmtpEncryption *)
Inductive SmtpEncryption := EncryptionNone | EncryptionTls | EncryptionStartTls.

Section Options.
Context `{CT : ConfigTypes}.

(** Source: server/src/infra/configuration.rs#L25-45 *)
Record MailOptions := mk_mail_options {
  enable_password_reset : bool;
  mail_from : option Mailbox;
  reply_to : option Mailbox;
  mail_server : string;
  mail_port : Z;
  mail_user : string;
  mail_password : string;
  smtp_encryption : SmtpEncryption;
  tls_required : option bool;
}.

(** Source: server/src/infra/configuration.rs#L55-64 *)
Record LdapsOptions := mk_ldaps_options {
  ldaps_enabled : bool;
  ldaps_port : Z;
  ldaps_cert_file : string;
  ldaps_key_file : string;
}.

(** Source: server/src/infra/configuration.rs#L47-51 *)
Definition mail_options_default : MailOptions :=
  mk_mail_options false None None "localhost" 587 "" "" EncryptionTls None.
(** Source: server/src/infra/configuration.rs#L66-70 *)
Definition ldaps_options_default : LdapsOptions := mk_ldaps_options false 6360 "cert.pem" "key.pem".

(** [server_setup] is not part of the record: [init] returns it beside.
    Source: server/src/infra/configuration.rs#L74-120 *)
Record Configuration := mk_configuration {
  ldap_host : string;
  ldap_port : Z;
  http_host : string;
  http_port : Z;
  jwt_secret : string;
  ldap_base_dn : string;
  ldap_user_dn : UserId;
  ldap_user_email : string;
  ldap_user_pass : string;
  force_ldap_user_pass_reset : bool;
  force_update_private_key : bool;
  database_url : Url;
  ignored_user_attributes : list AttributeName;
  ignored_group_attributes : list AttributeName;
  verbose : bool;
  key_file : string;
  key_seed : option string;
  smtp_options : MailOptions;
  ldaps_options : LdapsOptions;
  http_url : Url;
}.

(** Source: server/src/infra/cli.rs#pub struct GeneralConfigOpts *)
Record GeneralConfigOpts := mk_general_opts { go_config_file : string; go_verbose : bool }.

(** Source: server/src/infra/cli.rs#pub struct LdapsOpts *)
Record LdapsOpts := mk_ldaps_opts {
  lo_ldaps_enabled : option bool;
  lo_ldaps_port : option Z;
  lo_ldaps_cert_file : option string;
  lo_ldaps_key_file : option string;
}.

(** Source: server/src/infra/cli.rs#pub struct SmtpOpts *)
Record SmtpOpts := mk_smtp_opts {
  so_smtp_enable_password_reset : option bool;
  so_smtp_from : option Mailbox;
  so_smtp_reply_to : option Mailbox;
  so_smtp_server : option string;
  so_smtp_port : option Z;
  so_smtp_user : option string;
  so_smtp_password : option string;
  so_smtp_tls_required : option bool;
  so_smtp_encryption : option SmtpEncryption;
}.

(** Source: server/src/infra/cli.rs#pub struct RunOpts *)
Record RunOpts := mk_run_opts {
  ro_general_config : GeneralConfigOpts;
  ro_server_key_file : option string;
  ro_server_key_seed : option string;
  ro_ldap_host : option string;
  ro_ldap_port : option Z;
  ro_http_host : option string;
  ro_http_port : option Z;
  ro_http_url : option Url;
  ro_database_url : option Url;
  ro_force_ldap_user_pass_reset : option bool;
  ro_force_update_private_key : option bool;
  ro_smtp_opts : SmtpOpts;
  ro_ldaps_opts : LdapsOpts;
}.

(** Source: server/src/infra/cli.rs#pub struct TestEmailOpts *)
Record TestEmailOpts := mk_test_email_opts {
  te_general_config : GeneralConfigOpts;
  te_to : string;
  te_smtp_opts : SmtpOpts;
}.

(** [if let Some(x) = opt { field = x }] *)
Definition overridden {A} (field : A) (opt : option A) : A := default field opt.
Definition some_overridden {A} (field : option A) (opt : option A) : option A :=
  match opt with Some a => Some a | None => field end.

(** Source: server/src/infra/configuration.rs#impl ConfigOverrider for LdapsOpts *)
Definition override_ldaps (o : LdapsOpts) (c : LdapsOptions) : LdapsOptions :=
  mk_ldaps_options (overridden (ldaps_enabled c) (lo_ldaps_enabled o)) (overridden (ldaps_port c) (lo_ldaps_port o))
    (overridden (ldaps_cert_file c) (lo_ldaps_cert_file o)) (overridden (ldaps_key_file c) (lo_ldaps_key_file o)).

(** Source: server/src/infra/configuration.rs#impl ConfigOverrider for SmtpOpts *)
Definition override_smtp (o : SmtpOpts) (c : MailOptions) : MailOptions :=
  mk_mail_options (overridden (enable_password_reset c) (so_smtp_enable_password_reset o))
    (some_overridden (mail_from c) (so_smtp_from o)) (some_overridden (reply_to c) (so_smtp_reply_to o))
    (overridden (mail_server c) (so_smtp_server o)) (overridden (mail_port c) (so_smtp_port o))
    (overridden (mail_user c) (so_smtp_user o)) (overridden (mail_password c) (so_smtp_password o))
    (overridden (smtp_encryption c) (so_smtp_encryption o)) (some_overridden (tls_required c) (so_smtp_tls_required o)).

(** Source: server/src/infra/configuration.rs#impl ConfigOverrider for GeneralConfigOpts *)
Definition override_general (o : GeneralConfigOpts) (v : bool) : bool := if go_verbose o then true else v.

(** [ldap_host] and [http_host] of the options are not used.
    Source: server/src/infra/configuration.rs#impl ConfigOverrider for RunOpts *)
Definition override_run (o : RunOpts) (c : Configuration) : Configuration :=
  mk_configuration (ldap_host c) (overridden (ldap_port c) (ro_ldap_port o))
    (http_host c) (overridden (http_port c) (ro_http_port o))
    (jwt_secret c) (ldap_base_dn c) (ldap_user_dn c) (ldap_user_email c) (ldap_user_pass c)
    (overridden (force_ldap_user_pass_reset c) (ro_force_ldap_user_pass_reset o))
    (overridden (force_update_private_key c) (ro_force_update_private_key o))
    (overridden (database_url c) (ro_database_url o)) (ignored_user_attributes c) (ignored_group_attributes c)
    (override_general (ro_general_config o) (verbose c))
    (overridden (key_file c) (ro_server_key_file o)) (some_overridden (key_seed c) (ro_server_key_seed o))
    (override_smtp (ro_smtp_opts o) (smtp_options c)) (override_ldaps (ro_ldaps_opts o) (ldaps_options c))
    (overridden (http_url c) (ro_http_url o)).

(** Source: server/src/infra/configuration.rs#impl ConfigOverrider for TestEmailOpts *)
Definition override_test_email (o : TestEmailOpts) (c : Configuration) : Configuration :=
  mk_configuration (ldap_host c) (ldap_port c) (http_host c) (http_port c)
    (jwt_secret c) (ldap_base_dn c) (ldap_user_dn c) (ldap_user_email c) (ldap_user_pass c)
    (force_ldap_user_pass_reset c) (force_update_private_key c)
    (database_url c) (ignored_user_attributes c) (ignored_group_attributes c)
    (override_general (te_general_config o) (verbose c)) (key_file c) (key_seed c)
    (override_smtp (te_smtp_opts o) (smtp_options c)) (ldaps_options c) (http_url c).
End Options.

(* ------------------------------------------------------------------ *)
(** ** The key file *)

Record File := mk_file { file_content : bytes; file_mode : Z }.

(** The files by path, which operations the system lets through, and the entropy
    left to draw. *)
Record Machine := mk_machine {
  mc_files : gmap string File;
  mc_readable : string -> bool;
  mc_creatable : string -> bool;
  mc_writable : string -> bool;
  mc_entropy : nat -> string;
  mc_entropy_pos : nat;
}.
Definition set_file (path : string) (f : File) (m : Machine) : Machine :=
  mk_machine (<[path := f]> (mc_files m)) (mc_readable m) (mc_creatable m) (mc_writable m) (mc_entropy m) (mc_entropy_pos m).
Abbreviation Host A := (stM Machine AnyError A).

Definition path_exists (path : string) : Host bool := fun m => (Ok (bool_decide (is_Some (mc_files m !! path))), m).

(** [std::fs::read(path)] *)
Definition read_file (path : string) : Host bytes := fun m =>
  match mc_files m !! path with
  | Some f => if mc_readable m path then (Ok (file_content f), m) else (bail "Permission denied", m)
  | None => (bail "No such file or directory", m)
  end.

(** [0o400] *)
Definition owner_read_only : Z := 256.

(** A new file is empty, with the mode [0o644] of the usual umask.
    Source: server/src/infra/configuration.rs#fn write_to_readonly_file *)
Definition write_to_readonly_file (path : string) (buffer : bytes) : Host unit :=
  let! exists_ := path_exists path in
  slift (assert_ "assertion failed: !path.exists()" (negb exists_)) ;;
  let! m := sget in
  if mc_creatable m path then
    smodify (set_file path (mk_file [] 420)) ;;
    smodify (set_file path (mk_file [] owner_read_only)) ;;
    let! m := sget in
    if mc_writable m path then smodify (set_file path (mk_file buffer owner_read_only))
    else slift (bail "No space left on device")
  else slift (bail "Permission denied").

Section Keys.
Context `{OL : OpaqueLib} `{K : !KeyLib} `{F : FigmentLib}.

(** Source: server/src/infra/configuration.rs#fn stable_hash *)
Definition stable_hash (val : bytes) : bytes := sha256 val.

(** Source: server/src/infra/configuration.rs#fn generate_random_private_key *)
Definition generate_random_private_key : Host ServerSetup := fun m =>
  (Ok (setup_from_entropy (mc_entropy m (mc_entropy_pos m))),
   mk_machine (mc_files m) (mc_readable m) (mc_creatable m) (mc_writable m) (mc_entropy m) (S (mc_entropy_pos m))).

(** Source: server/src/infra/configuration.rs#pub struct ServerSetupConfig *)
Record ServerSetupConfig := mk_setup_config {
  server_setup : ServerSetup;
  setup_location : PrivateKeyLocation;
}.

(** Source: server/src/infra/configuration.rs#enum PrivateKeyLocationOrFigment *)
Inductive PrivateKeyLocationOrFigment :=
| LocationFigment (config : Figment)
| LocationKnown (l : PrivateKeyLocation).

(** Source: server/src/infra/configuration.rs#fn for_key_seed *)
Definition for_key_seed (self : PrivateKeyLocationOrFigment) : outcome AnyError PrivateKeyLocation :=
  match self with
  | LocationFigment config =>
      match find_metadata config "key_seed" with
      | Some (mk_figment_metadata (Some (SourceFile path)) _) => Ok (KeySeed (ConfigFile path))
      | Some (mk_figment_metadata None name) => Ok (KeySeed (EnvironmentVariable name))
      | None | Some (mk_figment_metadata (Some (SourceCode _)) _) => Ok DefaultLocation
      | Some (mk_figment_metadata (Some (SourceCustom _)) _) => Panic "Unexpected config location"
      end
  | LocationKnown (KeyFile _ _) => Panic "Unexpected location"
  | LocationKnown l => Ok l
  end.

(** Source: server/src/infra/configuration.rs#fn for_key_file *)
Definition for_key_file (self : PrivateKeyLocationOrFigment) (server_key_file : string) : outcome AnyError PrivateKeyLocation :=
  match self with
  | LocationFigment config =>
      match find_metadata config "key_file" with
      | Some (mk_figment_metadata (Some (SourceFile path)) _) => Ok (KeyFile (ConfigFile path) server_key_file)
      | Some (mk_figment_metadata None name) => Ok (KeyFile (EnvironmentVariable name) server_key_file)
      | None | Some (mk_figment_metadata (Some (SourceCode _)) _) => Ok DefaultLocation
      | Some (mk_figment_metadata (Some (SourceCustom _)) _) => Panic "Unexpected config location"
      end
  | LocationKnown (KeySeed _) => Panic "Unexpected location"
  | LocationKnown l => Ok l
  end.

(** The messages leave out the advice at their end.
    Source: server/src/infra/configuration.rs#fn get_server_setup<L *)
Definition get_server_setup (file_path seed : string) (location : PrivateKeyLocationOrFigment) : Host ServerSetupConfig :=
  let! exists_ := path_exists file_path in
  if negb (String.eqb seed "") then
    if exists_ then
      slift (bail ("A key_seed was given, but a key file already exists at `" +:+ file_path
        +:+ "`. Which one to use is ambiguous, aborting."))
    else
      let! l := slift (for_key_seed location) in
      sret (mk_setup_config (setup_from_seed (stable_hash (into_bytes seed))) l)
  else if exists_ then
    let! content := smap_err (WithContext ("Could not read key file `" +:+ file_path +:+ "`")) (read_file file_path) in
    let! setup := slift (context ("while parsing the contents of the `" +:+ file_path +:+ "` file")
                           (ok_or (Message "deserialize") (setup_deserialize content))) in
    let! l := slift (for_key_file location file_path) in
    sret (mk_setup_config setup l)
  else
    let! setup := generate_random_private_key in
    smap_err (WithContext ("Could not write the generated server setup to file `" +:+ file_path +:+ "`"))
      (write_to_readonly_file file_path (setup_serialize setup)) ;;
    let! l := slift (for_key_file location file_path) in
    sret (mk_setup_config setup l).

(** What [init] adds to the merged configuration: the overrides of the command line, then
    the server setup.
    Source: server/src/infra/configuration.rs#L515-527 *)
Definition init_configuration `{CT : ConfigTypes} (overrides : Configuration -> Configuration) (figment_config : Figment)
    (config : Configuration) : Host (Configuration * ServerSetupConfig) :=
  let config := overrides config in
  let! setup := get_server_setup (key_file config) (default "" (key_seed config)) (LocationFigment figment_config) in
  sret (config, setup).

(* ------------------------------------------------------------------ *)
(** ** The key the passwords were made with *)

(** [Configuration::get_private_key_info]
    Source: server/src/infra/configuration.rs#pub fn get_private_key_info *)
Definition setup_key_info (s : ServerSetupConfig) : PrivateKeyInfo :=
  mk_key_info (stable_hash (setup_private (server_setup s))) (setup_location s).

(** The messages leave out the advice at their end.
    Source: server/src/infra/configuration.rs#pub fn compare_private_key_hashes *)
Definition compare_private_key_hashes (previous_info : option PrivateKeyInfo) (private_key_info : PrivateKeyInfo) :
    outcome AnyError bool :=
  match previous_info with
  | None => Ok true
  | Some previous_info =>
      if bool_decide (private_key_hash previous_info = private_key_hash private_key_info) then Ok false
      else
        match private_key_location previous_info, private_key_location private_key_info with
        | KeyFile old_location file_path, KeySeed new_location =>
            bail ("The private key is configured to be generated from a seed (from " +:+ config_location_debug new_location
              +:+ "), but it used to come from the file " +:+ path_debug file_path +:+ " (defined in "
              +:+ config_location_debug old_location +:+ ").")
        | DefaultLocation, KeySeed new_location =>
            bail ("The private key is configured to be generated from a seed (from " +:+ config_location_debug new_location
              +:+ "), but it used to come from default key file server_key.")
        | KeyFile old_location old_path, KeyFile new_location new_path =>
            if bool_decide (old_path = new_path) then
              bail ("The contents of the private key file from " +:+ path_debug old_path +:+ " have changed.")
            else
              bail ("The private key file used to be " +:+ path_debug old_path +:+ " (defined in "
                +:+ config_location_debug old_location +:+ "), but now is " +:+ path_debug new_path +:+ " (defined in "
                +:+ config_location_debug new_location +:+ ").")
        | old_location, new_location =>
            bail ("The private key has changed. It used to come from " +:+ location_debug old_location
              +:+ ", but now it comes from " +:+ location_debug new_location +:+ ".")
        end
  end.

(** Reading the hash of a row: [PrivateKeyHash::try_get]. An array of another length panics.
    Source: server/src/domain/sql_tables.rs#impl TryGetable for PrivateKeyHash *)
Definition get_key_hash (r : Row) : outcome DbErr bytes :=
  match row_get r "private_key_hash" with
  | SqlBlob b => if bool_decide (length b = 32) then Ok b else Panic "called `Result::unwrap()` on an `Err` value"
  | _ => Err (ExecError "not a blob")
  end.

(** Source: server/src/domain/sql_tables.rs#pub async fn get_private_key_info *)
Definition get_private_key_info : stM Engine AnyError (option PrivateKeyInfo) :=
  let! rows := smap_err FromDbErr (select_rows "metadata" ["private_key_hash"; "private_key_location"]) in
  match head rows with
  | None => sret None
  | Some r =>
      let! hash := stry (slift (get_key_hash r)) in
      match hash with
      | inr hash =>
          let! text := slift (omap_err FromDbErr (get_text r "private_key_location")) in
          let! l := slift (ok_or (Message "serde_json") (location_from_json text)) in
          sret (Some (mk_key_info hash l))
      | inl _ => sret None
      end
  end.

(** One statement sets both columns, or none of them.
    Source: server/src/domain/sql_tables.rs#pub async fn set_private_key_info *)
Definition set_private_key_info (info : PrivateKeyInfo) : stM Engine AnyError unit :=
  smap_err FromDbErr
    (transaction
      (update_rows "metadata" "private_key_hash" (EValue (SqlBlob (private_key_hash info))) None ;;
       update_rows "metadata" "private_key_location" (EValue (SqlText (location_to_json (private_key_location info)))) None)).

(** The check of [set_up_server].
    Source: server/src/main.rs#L107-125 *)
Definition check_private_key (info : PrivateKeyInfo) (force : bool) : stM Engine AnyError unit :=
  let! previous := get_private_key_info in
  match compare_private_key_hashes previous info, force with
  | Ok false, true =>
      slift (bail "The private key has not changed, but force_update_private_key/LLDAP_FORCE_UPDATE_PRIVATE_KEY is set to true.")
  | Ok true, _ | Err _, true => set_private_key_info info
  | Ok false, false => sret tt
  | Err e, false =>
      sthrow (WithContext "The private key encoding the passwords has changed since last successful startup." e)
  | Panic p, _ => spanic p
  end.
End Keys.

(* ------------------------------------------------------------------ *)
(** ** Facts *)

Lemma path_exists_run path m : path_exists path m = (Ok (bool_decide (is_Some (mc_files m !! path))), m).
Proof. done. Qed.

(** A file is only ever written where there was none, and then it is whole. *)
Lemma write_to_readonly_file_ok path buffer m m' :
  write_to_readonly_file path buffer m = (Ok tt, m') ->
  mc_files m !! path = None /\ mc_files m' = <[path := mk_file buffer owner_read_only]> (mc_files m).
Proof.
  unfold write_to_readonly_file. rewrite (sbind_run _ _ _ _ _ (path_exists_run path m)).
  intros ([] & m1 & [Ha ->]%slift_ok & H)%sbind_ok. case_bool_decide as Hp; [done|].
  apply eq_None_not_Some in Hp. split; [done|]. revert H. unfold sbind at 1, sget at 1. destruct (mc_creatable m path); [|done].
  rewrite !(sbind_run (smodify _) _ _ tt _ eq_refl). rewrite (sbind_run sget _ _ _ _ eq_refl). cbn.
  destruct (mc_writable m path); [|done]. intros [= <-]. cbn. by rewrite !insert_insert_eq.
Qed.

Section KeyFacts.
Context `{OL : OpaqueLib} `{K : !KeyLib} `{F : FigmentLib} `{KL : !KeyLaws K}.

(** The server's setup, read again: the seed without a file, or the file without a seed. *)
Lemma get_server_setup_seeded path seed l config m :
  seed <> "" -> mc_files m !! path = None -> for_key_seed (LocationFigment config) = Ok l ->
  get_server_setup path seed (LocationFigment config) m
  = (Ok (mk_setup_config (setup_from_seed (stable_hash (into_bytes seed))) l), m).
Proof.
  intros Hs Hp Hl. unfold get_server_setup. rewrite (sbind_run _ _ _ _ _ (path_exists_run path m)), Hp.
  rewrite bool_decide_eq_false_2 by by intros []. destruct (String.eqb_spec seed ""); [done|]. cbn [negb].
  by rewrite (sbind_run _ _ _ l m) by by rewrite <- Hl.
Qed.
Lemma get_server_setup_read path f setup l config m :
  mc_files m !! path = Some f -> mc_readable m path = true -> setup_deserialize (file_content f) = Some setup ->
  for_key_file (LocationFigment config) path = Ok l ->
  get_server_setup path "" (LocationFigment config) m = (Ok (mk_setup_config setup l), m).
Proof.
  intros Hp Hr Hd Hl. unfold get_server_setup. rewrite (sbind_run _ _ _ _ _ (path_exists_run path m)), Hp. cbn [String.eqb negb].
  rewrite bool_decide_eq_true_2 by by eexists. rewrite (sbind_run _ _ _ (file_content f) m) by (unfold read_file, smap_err; by rewrite Hp, Hr).
  rewrite (sbind_run _ _ _ setup m) by (unfold slift; by rewrite Hd). by rewrite (sbind_run _ _ _ l m) by by rewrite <- Hl.
Qed.

Lemma read_file_ok path m c m' :
  read_file path m = (Ok c, m') -> m' = m /\ exists f, mc_files m !! path = Some f /\ c = file_content f.
Proof. unfold read_file. destruct (mc_files m !! path) as [f|]; [|done]. destruct (mc_readable m path); [|done]. intros [= <- <-]. eauto. Qed.

(** C13. The server keeps its key.  Whatever key a start obtains, from the seed, from
    the key file or by generating it, the only change it makes to the files is to
    create the key file, whole, readable by its owner alone, when there was neither
    a seed nor a file; and any later start on those files, with the same seed and
    path, obtains the same key and writes nothing. *)
Theorem server_key_stable path seed config m sc m' :
  get_server_setup path seed (LocationFigment config) m = (Ok sc, m') ->
  (mc_files m' = mc_files m
   \/ seed = "" /\ mc_files m !! path = None
      /\ mc_files m' = <[path := mk_file (setup_serialize (server_setup sc)) owner_read_only]> (mc_files m))
  /\ forall m2, mc_files m2 = mc_files m' -> mc_readable m2 path = true ->
       get_server_setup path seed (LocationFigment config) m2 = (Ok sc, m2).
Proof using KL.
  unfold get_server_setup at 1. rewrite (sbind_run _ _ _ _ _ (path_exists_run path m)).
  destruct (String.eqb_spec seed "") as [->|Hs]; cbn [negb]; case_bool_decide as Hp.
  - intros (c & m1 & Hr & H)%sbind_ok. apply smap_err_ok, read_file_ok in Hr as (-> & f & Hf & ->).
    apply sbind_ok in H as (setup & m1 & [Hd ->]%slift_ok & H). unfold context in Hd. 
    apply sbind_ok in H as (l & m1 & [Hl ->]%slift_ok & [-> ->]%sret_ok). split; [by left|]. intros m2 Hm2 Hr2.
    apply (get_server_setup_read path f); [congruence|done| |done]. by destruct (setup_deserialize _); simplify_eq/=.
  - intros (setup & m1 & [= <- <-] & H)%sbind_ok. apply sbind_ok in H as ([] & m1 & Hw & H).
    apply smap_err_ok, write_to_readonly_file_ok in Hw as [Hn Hw]. cbn in Hn, Hw.
    apply sbind_ok in H as (l & m2 & [Hl ->]%slift_ok & [-> ->]%sret_ok). split; [right; by split_and!|]. intros m2 Hm2 Hr2.
    eapply get_server_setup_read; [by rewrite Hm2, Hw, lookup_insert_eq|done|apply setup_roundtrip|done].
  - by intros [? _]%slift_ok.
  - intros (l & m1 & [Hl ->]%slift_ok & [-> ->]%sret_ok)%sbind_ok. split; [by left|]. intros m2 Hm2 _.
    apply get_server_setup_seeded; [done| |done]. rewrite Hm2. by apply eq_None_not_Some.
Qed.

(* ------------------------------------------------------------------ *)
(** ** The stored key *)

(** A metadata table of the last version, with its one row. *)
Definition metadata_ready (s : Engine) : Prop :=
  exists tb r, en_tables s !! "metadata" = Some tb /\ tb_rows tb = [r]
    /\ forallb (has_column tb) ["private_key_hash"; "private_key_location"] = true
    /\ required_column tb "private_key_hash" = false /\ required_column tb "private_key_location" = false
    /\ tb_indexes tb = [].
(** The stored key is [o]. *)
Definition key_state (s : Engine) (o : option PrivateKeyInfo) : Prop := get_private_key_info s = (Ok o, s).

Lemma row_get_set_ne r c c' v : c <> c' -> row_get (row_set r c v) c' = row_get r c'.
Proof.
  intros Hne. induction r as [|[d v'] r IH]; cbn; [by destruct (String.eqb_spec c c')|].
  destruct (String.eqb_spec d c) as [->|Hd]; cbn; [by destruct (String.eqb_spec c c')|]. by destruct (String.eqb_spec d c').
Qed.

(** What is written is what the next start reads. *)
Lemma set_private_key_info_run info s :
  metadata_ready s -> length (private_key_hash info) = 32 ->
  exists s', set_private_key_info info s = (Ok tt, s') /\ metadata_ready s' /\ key_state s' (Some info)
    /\ forall n, n <> "metadata" -> en_tables s' !! n = en_tables s !! n.
Proof using KL.
  intros (tb & r & Hm & Hr & Hc & Hh & Hl & Hi) Hlen. eexists. split.
  { unfold set_private_key_info. apply smap_err_ok, transaction_ok. pose proof Hc as Hc'. cbn in Hc'. rewrite !andb_true_iff in Hc'.
    destruct Hc' as (Hc1 & Hc2 & _).
    erewrite sbind_run; [|apply (update_rows_run _ _ _ Hm); [by cbn; rewrite Hc1|by left|by rewrite Hi]].
    apply update_rows_run; [apply lookup_put|by cbn in *; unfold has_column in *; cbn; rewrite Hc2|by left|by cbn; unfold tb_indexes in *; cbn; rewrite Hi]. }
  set (r' := row_set (row_set r "private_key_hash" (SqlBlob (private_key_hash info))) "private_key_location"
               (SqlText (location_to_json (private_key_location info)))).
  assert (Hrows : updated "private_key_location" (EValue (SqlText (location_to_json (private_key_location info)))) None
            (updated "private_key_hash" (EValue (SqlBlob (private_key_hash info))) None (tb_rows tb)) = [r']) by by rewrite Hr.
  cbn [tb_rows set_rows]. rewrite Hrows, put_put. split_and!.
  - eexists _, r'. split; [apply lookup_put|]. done.
  - unfold key_state, get_private_key_info.
    match goal with |- sbind _ _ (put_table _ ?t _) = _ =>
      rewrite (sbind_run _ _ _ [r'] (put_table "metadata" t s)
        (proj2 (smap_err_ok _ _ _ _ _) (select_rows_run "metadata" t _ (lookup_put _ _ _) _ Hc))) end.
    cbn [head]. unfold sbind, stry, slift, get_key_hash, get_text.
    assert (Hh' : row_get r' "private_key_hash" = SqlBlob (private_key_hash info)) by by unfold r'; rewrite row_get_set_ne, row_get_set.
    assert (Hl' : row_get r' "private_key_location" = SqlText (location_to_json (private_key_location info))) by by unfold r'; rewrite row_get_set.
    rewrite Hh', Hl', bool_decide_eq_true_2 by done. cbn. rewrite location_roundtrip. cbn. by destruct info.
  - intros n Hn. by rewrite lookup_put_ne.
Qed.

(** A start is accepted when no key is stored, or exactly one of two things holds: the key
    is the stored one, or an update is forced. *)
Definition same_key (p info : PrivateKeyInfo) : bool := bool_decide (private_key_hash p = private_key_hash info).
Definition accepted (previous : option PrivateKeyInfo) (info : PrivateKeyInfo) (force : bool) : bool :=
  match previous with None => true | Some p => xorb (same_key p info) force end.
(** The key stored after the check. *)
Definition stored_after (previous : option PrivateKeyInfo) (info : PrivateKeyInfo) (force : bool) : option PrivateKeyInfo :=
  match previous with
  | None => Some info
  | Some p => if negb (same_key p info) && force then Some info else previous
  end.

Lemma compare_different p info :
  private_key_hash p <> private_key_hash info -> exists e, compare_private_key_hashes (Some p) info = Err e.
Proof using Type.
  intros Hne. unfold compare_private_key_hashes. rewrite bool_decide_eq_false_2 by done.
  destruct (private_key_location p), (private_key_location info); try case_bool_decide; by eexists.
Qed.

Lemma check_private_key_spec previous info force s :
  metadata_ready s -> key_state s previous -> length (private_key_hash info) = 32 ->
  let '(r, s') := check_private_key info force s in
  no_panic r /\ (r = Ok tt <-> accepted previous info force = true)
  /\ key_state s' (stored_after previous info force) /\ metadata_ready s'
  /\ (stored_after previous info force = previous -> s' = s)
  /\ forall n, n <> "metadata" -> en_tables s' !! n = en_tables s !! n.
Proof using KL.
  intros Hm Hk Hlen. unfold check_private_key. rewrite (sbind_run _ _ _ _ _ Hk).
  destruct (set_private_key_info_run info s Hm Hlen) as (s1 & Hset & Hm1 & Hk1 & Hn1).
  destruct previous as [p|]; [|cbn; rewrite Hset; by split_and!].
  unfold accepted, stored_after, same_key.
  destruct (decide (private_key_hash p = private_key_hash info)) as [Heq|Hne].
  - cbn. rewrite bool_decide_eq_true_2 by done. by destruct force; cbn; split_and!.
  - destruct (compare_different p info Hne) as [e ->]. rewrite bool_decide_eq_false_2 by done.
    destruct force; cbn; [rewrite Hset|]; split_and!; try done. intros [= ->]. done.
Qed.

(** C11. The key of the passwords cannot change by accident.  A start that finds no
    stored key stores its own; one that finds a stored key goes on exactly when the
    key is the same and no update is forced, or the key differs and an update is
    forced, which stores the new key; any other start is refused, without a panic,
    and leaves the database as it was.  So through any number of starts without the
    flag the stored key and the whole database stay, and every accepted one has the
    stored key. *)
Theorem private_key_pinned previous info force s :
  metadata_ready s -> key_state s previous ->
  (length (private_key_hash info) = 32 ->
   let '(r, s') := check_private_key info force s in
   no_panic r /\ (r = Ok tt <-> accepted previous info force = true)
   /\ key_state s' (stored_after previous info force)
   /\ (stored_after previous info force = previous -> s' = s)
   /\ forall n, n <> "metadata" -> en_tables s' !! n = en_tables s !! n)
  /\ forall p, previous = Some p -> forall infos,
       Forall (fun i => length (private_key_hash i) = 32) infos ->
       forall s', rtc (fun s1 s2 => exists i, i ∈ infos /\ snd (check_private_key i false s1) = s2) s s' ->
         s' = s /\ forall i, i ∈ infos -> fst (check_private_key i false s') = Ok tt -> private_key_hash i = private_key_hash p.
Proof using KL.
  intros Hm Hk. split.
  - intros Hlen. pose proof (check_private_key_spec previous info force s Hm Hk Hlen) as H.
    destruct (check_private_key info force s) as [r s']. destruct H as (H1 & H2 & H3 & _ & H4 & H5). by split_and!.
  - intros p -> infos Hall s' Hr. rewrite Forall_forall in Hall.
    assert (Hstep : forall i, i ∈ infos -> snd (check_private_key i false s) = s
              /\ (fst (check_private_key i false s) = Ok tt -> private_key_hash i = private_key_hash p)).
    { intros i Hi. pose proof (check_private_key_spec (Some p) i false s Hm Hk (Hall i Hi)) as H.
      destruct (check_private_key i false s) as [r s1]. destruct H as (_ & H2 & _ & _ & H4 & _). cbn in *.
      rewrite andb_false_r in H4. split; [by apply H4|]. intros Hok%H2. rewrite xorb_false_r in Hok.
      symmetry. by apply bool_decide_eq_true in Hok. }
    assert (s' = s) as ->.
    { induction Hr as [|s s1 s' (i & Hi & Hs) Hr IH]; [done|]. destruct (Hstep i Hi) as [Hsi _].
      rewrite Hsi in Hs. subst s1. by apply IH. }
    split; [done|]. intros i Hi. by apply Hstep.
Qed.
End KeyFacts.

(* ------------------------------------------------------------------ *)
(** ** Examples *)

Module ToyKeys.
(** A setup is its private key; the hash pads or cuts to 32 bytes. *)
Definition keyed_opaque : OpaqueLib := {|
  ServerSetup := bytes; ServerRegistration := unit; ServerLogin := unit; ClientLogin := unit; ClientRegistration := unit;
  CredentialRequest := unit; CredentialResponse := unit; CredentialFinalization := unit;
  RegistrationRequest := unit; RegistrationResponse := unit; RegistrationUpload := unit;
  registration_serialize _ := []; registration_deserialize _ := None;
  ke_client_login_start _ _ := None; ke_client_login_finish _ _ := None;
  ke_client_registration_start _ _ := None; ke_client_registration_finish _ _ _ := None;
  ke_server_login_start _ _ _ _ _ := None; ke_server_login_finish _ _ := None;
  ke_server_registration_start _ _ _ := None; ke_server_registration_finish _ := tt;
|}.

#[local] Instance config_location_countable : Countable ConfigLocation.
Proof.
  refine (inj_countable' (fun l => match l with ConfigFile p => inl p | EnvironmentVariable n => inr (inl n) | CommandLine => inr (inr tt) end)
    (fun x => match x with inl p => ConfigFile p | inr (inl n) => EnvironmentVariable n | inr (inr _) => CommandLine end) _).
  by intros [].
Defined.
#[local] Instance key_location_countable : Countable PrivateKeyLocation.
Proof.
  refine (inj_countable' (fun l => match l with KeySeed l => inl l | KeyFile l p => inr (inl (l, p)) | DefaultLocation => inr (inr tt) end)
    (fun x => match x with inl l => KeySeed l | inr (inl (l, p)) => KeyFile l p | inr (inr _) => DefaultLocation end) _).
  by intros [].
Defined.

Definition toy_keys : @KeyLib keyed_opaque := {|
  setup_from_seed b := b : @ServerSetup keyed_opaque; setup_from_entropy s := into_bytes s : @ServerSetup keyed_opaque;
  setup_serialize s := s; setup_deserialize b := Some b; setup_private s := s;
  sha256 b := take 32 (b ++ replicate 32 Byte.x00);
  location_to_json l := string_of_bytes (bits_of_pos (encode l));
  location_from_json s := decode (pos_of_bits (into_bytes s));
  config_location_debug _ := "location"; location_debug _ := "location"; path_debug p := p;
|}.
Lemma toy_keys_laws : @KeyLaws keyed_opaque toy_keys.
Proof.
  constructor; [done|..].
  - intros b. cbn [sha256 toy_keys]. rewrite length_take, length_app. cbn [length replicate]. lia.
  - intros l. cbn [location_to_json location_from_json toy_keys]. unfold into_bytes, string_of_bytes.
    by rewrite String.list_byte_of_string_of_list_byte, pos_of_bits_of_pos, decode_encode.
Qed.

Definition no_figment : FigmentLib := {| Figment := unit; find_metadata _ _ := None |}.
Definition no_config : @Figment no_figment := tt.
Definition new_machine : Machine :=
  mk_machine ∅ (fun _ => true) (fun _ => true) (fun _ => true) (fun n => if decide (n = 0) then "secret" else "other") 0.

#[local] Existing Instances keyed_opaque toy_keys toy_keys_laws no_figment.

(** The first start generates the key, the second one, on the same files, reads it. *)
Lemma server_key_stable_witness :
  exists m', get_server_setup "server_key" "" (LocationFigment no_config) new_machine
      = (Ok (mk_setup_config (into_bytes "secret") DefaultLocation), m')
    /\ get_server_setup "server_key" "" (LocationFigment no_config) m' = (Ok (mk_setup_config (into_bytes "secret") DefaultLocation), m')
    /\ mc_files m' = {[ "server_key" := mk_file (into_bytes "secret") 256 ]}.
Proof.
  destruct (get_server_setup "server_key" "" (LocationFigment no_config) new_machine) as [r m'] eqn:H. exists m'.
  assert (r = Ok (mk_setup_config (into_bytes "secret") DefaultLocation)) as -> by (apply (f_equal fst) in H; cbn [fst] in H; rewrite <- H; vm_compute; reflexivity).
  destruct (server_key_stable _ _ _ _ _ _ H) as [Hf Hs]. split; [done|]. split.
  - apply Hs; [done|]. vm_compute in H. by injection H as <-.
  - destruct Hf as [Hf|(_ & _ & ->)]; [|done]. exfalso. vm_compute in H. injection H as <-. discriminate Hf.
Defined.

(** The database a new server has after its migrations. *)
Definition new_engine : Engine := mk_engine final_tables 0%Z BackendSqlite.
Definition key_of (s : string) : PrivateKeyInfo := mk_key_info (stable_hash (into_bytes s)) DefaultLocation.

Lemma new_engine_ready : metadata_ready new_engine.
Proof. eexists _, _. split_and!; vm_compute; reflexivity. Qed.

Lemma private_key_pinned_witness :
  let s1 := snd (check_private_key (key_of "a") false new_engine) in
  key_state s1 (Some (key_of "a"))
  /\ fst (check_private_key (key_of "a") false s1) = Ok tt
  /\ fst (check_private_key (key_of "b") false s1) <> Ok tt
  /\ key_state (snd (check_private_key (key_of "b") true s1)) (Some (key_of "b")).
Proof.
  destruct (private_key_pinned None (key_of "a") false new_engine new_engine_ready eq_refl) as [H _].
  specialize (H ltac:(vm_compute; reflexivity)). cbv zeta.
  destruct (check_private_key (key_of "a") false new_engine) as [r s1] eqn:Hrun. destruct H as (_ & _ & Hk & _). cbn [snd].
  split; [exact Hk|]. vm_compute in Hrun. injection Hrun as <- <-.
  split_and!; [vm_compute; reflexivity|vm_compute; discriminate|].
  match goal with |- key_state (snd (_ ?s)) _ =>
    destruct (private_key_pinned (Some (key_of "a")) (key_of "b") true s) as [H' _] end.
  - eexists _, _. split_and!; vm_compute; reflexivity.
  - exact Hk.
  - specialize (H' ltac:(vm_compute; reflexivity)). revert H'. generalize (check_private_key (key_of "b") true).
    intros f. destruct (f _) as [r' s']. by intros (_ & _ & Hk' & _).
Defined.

(** A seed does not take precedence over an existing key file: the start fails. *)
Example seed_with_file_refused :
  fst (get_server_setup "server_key" "seed" (LocationFigment no_config)
    (snd (get_server_setup "server_key" "" (LocationFigment no_config) new_machine)))
  = bail ("A key_seed was given, but a key file already exists at `server_key`. Which one to use is ambiguous, aborting.").
Proof. by vm_compute. Qed.
End ToyKeys.

(** The hosts given on the command line change nothing. *)
Example host_options_ignored `{CT : ConfigTypes} o h1 h2 c :
  override_run (mk_run_opts (ro_general_config o) (ro_server_key_file o) (ro_server_key_seed o) h1 (ro_ldap_port o) h2
    (ro_http_port o) (ro_http_url o) (ro_database_url o) (ro_force_ldap_user_pass_reset o) (ro_force_update_private_key o)
    (ro_smtp_opts o) (ro_ldaps_opts o)) c = override_run o c.
Proof. reflexivity. Qed.
