(* ===== verification/SqlMachine.v ===== *)
(** * The database as a transition system

    Every operation of the backend that writes, as one step; the states
    reachable from an empty database by any sequence of them, at any times. *)

From S2P Require Import Prelude RustStd Extern Types Concrete Handler Db ExampleDb SqlFilters SqlSchema SqlUser SqlGroup SqlBackend SqlTcp SqlOpaque.
From Stdlib Require Import Ascii String.
From stdpp Require Import strings list gmap.
#[local] Open Scope rust_scope.

Section Machine.
Context `{C : Crates} `{B : Bincode} `{SH : StdHash}
  `{OL : OpaqueLib} `{O : Orion} `{BS : !BincodeStream} `{CF : !OpaqueConfig}.

Definition ignore {A} (m : SQL A) : SQL unit := let! _ := m in sret tt.

Inductive Operation :=
| OpCreateUser (r : CreateUserRequest)
| OpUpdateUser (r : UpdateUserRequest)
| OpDeleteUser (u : UserId)
| OpAddUserToGroup (u : UserId) (g : GroupId)
| OpRemoveUserFromGroup (u : UserId) (g : GroupId)
| OpCreateGroup (r : CreateGroupRequest)
| OpUpdateGroup (r : UpdateGroupRequest)
| OpDeleteGroup (g : GroupId)
| OpAddUserAttribute (r : CreateAttributeRequest)
| OpAddGroupAttribute (r : CreateAttributeRequest)
| OpDeleteUserAttribute (a : AttributeName)
| OpDeleteGroupAttribute (a : AttributeName)
| OpAddUserObjectClass (c : LdapObjectClass)
| OpAddGroupObjectClass (c : LdapObjectClass)
| OpDeleteUserObjectClass (c : LdapObjectClass)
| OpDeleteGroupObjectClass (c : LdapObjectClass)
| OpCreateRefreshToken (u : UserId)
| OpRegisterJwt (u : UserId) (hash : Z) (exp : NaiveDateTime)
| OpBlacklistJwts (u : UserId)
| OpDeleteRefreshToken (hash : Z)
| OpStartPasswordReset (u : UserId)
| OpDeletePasswordResetToken (token : string)
| OpRegistrationFinish (r : ClientRegistrationFinishRequest)
| OpRegisterPassword (u : UserId) (password : string)
| OpCleanup.

Definition run_operation (op : Operation) : SQL unit :=
  match op with
  | OpCreateUser r => sql_create_user r
  | OpUpdateUser r => sql_update_user r
  | OpDeleteUser u => sql_delete_user u
  | OpAddUserToGroup u g => sql_add_user_to_group u g
  | OpRemoveUserFromGroup u g => sql_remove_user_from_group u g
  | OpCreateGroup r => ignore (sql_create_group r)
  | OpUpdateGroup r => sql_update_group r
  | OpDeleteGroup g => sql_delete_group g
  | OpAddUserAttribute r => sql_add_user_attribute r
  | OpAddGroupAttribute r => sql_add_group_attribute r
  | OpDeleteUserAttribute a => sql_delete_user_attribute a
  | OpDeleteGroupAttribute a => sql_delete_group_attribute a
  | OpAddUserObjectClass c => sql_add_user_object_class c
  | OpAddGroupObjectClass c => sql_add_group_object_class c
  | OpDeleteUserObjectClass c => sql_delete_user_object_class c
  | OpDeleteGroupObjectClass c => sql_delete_group_object_class c
  | OpCreateRefreshToken u => ignore (sql_create_refresh_token u)
  | OpRegisterJwt u h e => sql_register_jwt u h e
  | OpBlacklistJwts u => ignore (sql_blacklist_jwts u)
  | OpDeleteRefreshToken h => sql_delete_refresh_token h
  | OpStartPasswordReset u => ignore (sql_start_password_reset u)
  | OpDeletePasswordResetToken t => sql_delete_password_reset_token t
  | OpRegistrationFinish r => sql_registration_finish r
  | OpRegisterPassword u p => register_password u p
  | OpCleanup => cleanup_db
  end.

(** An operation runs, with any outcome, or the clock moves. *)
Inductive step : World -> World -> Prop :=
| step_operation op w : step w (snd (run_operation op w))
| step_clock t w : step w (at_time t w).

Definition initial (w : World) : Prop := w_db w = empty_db.
Definition reachable (w : World) : Prop := exists w0, initial w0 /\ rtc step w0 w.

Lemma world_gen_random_string : preserves world_ok gen_random_string.
Proof. by intros w. Qed.

Lemma set_password_preserves u hash : preserves world_ok (update_user_row false u (set_password_hash hash)).
Proof. apply update_user_row_ok. intros r Hr. exact Hr. Qed.

Lemma registration_finish_preserves r : preserves world_ok (sql_registration_finish r).
Proof. unfold sql_registration_finish. stm. apply set_password_preserves. Qed.

Lemma registration_start_preserves r : preserves world_ok (sql_registration_start r).
Proof. unfold sql_registration_start, lift_ke. stm; apply world_gen_random_string. Qed.

Lemma register_password_preserves u p : preserves world_ok (register_password u p).
Proof.
  pose proof registration_start_preserves. pose proof registration_finish_preserves.
  pose proof world_gen_random_string.
  unfold register_password, lift_ke. cbn [oh_registration_start oh_registration_finish SqlOpaqueHandler].
  stm.
Qed.

Lemma run_operation_preserves op : preserves world_ok (run_operation op).
Proof.
  pose proof world_gen_random_string. pose proof registration_finish_preserves.
  pose proof register_password_preserves.
  destruct op; cbn [run_operation]; unfold ignore, sql_add_user_to_group, sql_add_user_attribute, sql_add_group_attribute,
    sql_delete_user_attribute, sql_delete_group_attribute, sql_add_user_object_class,
    sql_add_group_object_class, sql_delete_user_object_class, sql_delete_group_object_class,
    sql_create_refresh_token, sql_register_jwt, sql_blacklist_jwts, sql_delete_refresh_token,
    sql_start_password_reset, sql_delete_password_reset_token, cleanup_db; stm.
Qed.

(** Two users do not share an e-mail, nor two groups a name, whatever the case. *)
Definition names_unique (db : Db) : Prop :=
  (forall u u' r r', db_users db !! u = Some r -> db_users db !! u' = Some r' ->
     to_lowercase (ci_raw (ur_email r)) = to_lowercase (ci_raw (ur_email r')) -> u = u')
  /\ (forall g g' r r', db_groups db !! g = Some r -> db_groups db !! g' = Some r' ->
     to_lowercase (ci_raw (gr_display_name r)) = to_lowercase (ci_raw (gr_display_name r')) -> g = g').
Lemma db_ok_names_unique db : db_ok db -> names_unique db.
Proof.
  intros Hok. split.
  - intros u u' r r' Hu Hu' He. destruct (decide (u' = u)) as [->|Hne]; [done|].
    pose proof (ok_user_rows _ Hok _ _ Hu) as H1. pose proof (ok_user_rows _ Hok _ _ Hu') as H2. unfold user_row_ok in *.
    destruct (ok_users _ Hok _ _ Hu u' r' Hu' Hne) as (_ & Hl & _). congruence.
  - intros g g' r r' Hg Hg' He. destruct (decide (g' = g)) as [->|Hne]; [done|].
    destruct (ok_group_rows _ Hok _ _ Hg) as [H1 _], (ok_group_rows _ Hok _ _ Hg') as [H2 _]. unfold group_row_ok in *.
    destruct (ok_groups _ Hok _ _ Hg g' r' Hg' Hne) as (_ & Hl & _). congruence.
Qed.

(** C1. Integrity is an invariant.  Starting from an empty database, after any
    sequence of operations, successful or not, at any times and with any
    arguments, the lower-case columns, which the code fills and the database knows
    nothing about, follow the e-mails and the names: together with the unique keys
    on them, no two users have one e-mail and no two groups one name, whatever the
    case.  Group ids never exceed the sequence, and as the database's keys ask, the
    UUIDs of users and of groups are unique, and every membership, attribute and
    token refers to rows that exist. *)
Theorem reachable_db_ok w : reachable w -> db_ok (w_db w) /\ names_unique (w_db w).
Proof.
  intros (w0 & H0 & H). enough (Hw : world_ok w) by (split; [exact Hw|by apply db_ok_names_unique]).
  assert (Hok : world_ok w0) by (unfold world_ok; rewrite H0; apply empty_db_ok).
  clear H0. induction H as [w|w w' w'' [op w1|t w1] Hs IH]; [done| |].
  - by apply IH, run_operation_preserves.
  - by apply IH.
Qed.

End Machine.

Lemma reachable_db_ok_witness :
  let w0 := empty_world in
  let w1 := snd (@sql_create_group concrete_crates (mk_create_group (mk_ci "admins") []) w0) in
  fst (@sql_create_group concrete_crates (mk_create_group (mk_ci "admins") []) w0) = Ok 1%Z
  /\ @db_ok ascii_greek_unicode (w_db w1) /\ @names_unique concrete_crates (w_db w1).
Proof.
  intros w0 w1. split; [vm_compute; reflexivity|].
  apply (@reachable_db_ok concrete_crates concrete_bincode concrete_hash
    toy_opaque toy_orion toy_stream toy_config).
  exists w0. split; [reflexivity|]. eapply rtc_l; [|apply rtc_refl].
  assert (Hw : w1 = snd (@run_operation concrete_crates concrete_bincode concrete_hash
    toy_opaque toy_orion toy_stream toy_config (OpCreateGroup (mk_create_group (mk_ci "admins") [])) w0))
    by (vm_compute; reflexivity).
  rewrite Hw. apply step_operation.
Defined.
