(* ===== verification/AccessControl.v ===== *)
(** * Access control

    Models [server/src/infra/access_control.rs]: the permission levels and what
    they allow, the views of the backend handed out for them, and the lister
    restricted to one user.  A view is a record of the operations its trait
    has, so code that holds a view can use nothing else; [None] is a refusal. *)

From S2P Require Import Prelude RustStd Extern Types Concrete Handler Db ExampleDb SqlFilters SqlSchema SqlUser SqlGroup SqlBackend.
From Stdlib Require Import Ascii String.
From stdpp Require Import strings list gmap.
#[local] Open Scope rust_scope.

(** Source: server/src/infra/access_control.rs#enum Permission *)
Inductive Permission := PermAdmin | PermPasswordManager | PermReadonly | PermRegular.
#[global] Instance permission_eq_dec : EqDecision Permission.
Proof. solve_decision. Defined.

(** Source: server/src/infra/access_control.rs#struct ValidationResults *)
Record ValidationResults := mk_validation { vr_user : UserId; vr_permission : Permission }.

Definition has_permission (v : ValidationResults) (p : Permission) : bool :=
  bool_decide (vr_permission v = p).
Definition is_user (v : ValidationResults) (u : UserId) : bool := bool_decide (vr_user v = u).

(** Source: server/src/infra/access_control.rs#fn is_admin *)
Definition is_admin (v : ValidationResults) : bool := has_permission v PermAdmin.

(** Source: server/src/infra/access_control.rs#fn can_read_all *)
Definition can_read_all (v : ValidationResults) : bool :=
  has_permission v PermAdmin || has_permission v PermReadonly || has_permission v PermPasswordManager.

(** Source: server/src/infra/access_control.rs#fn can_read *)
Definition can_read (v : ValidationResults) (user : UserId) : bool :=
  has_permission v PermAdmin || has_permission v PermPasswordManager || has_permission v PermReadonly
  || is_user v user.

(** Source: server/src/infra/access_control.rs#fn can_change_password *)
Definition can_change_password (v : ValidationResults) (user : UserId) (user_is_admin : bool) : bool :=
  has_permission v PermAdmin || (has_permission v PermPasswordManager && negb user_is_admin)
  || is_user v user.

(** Source: server/src/infra/access_control.rs#fn can_write *)
Definition can_write (v : ValidationResults) (user : UserId) : bool :=
  has_permission v PermAdmin || is_user v user.

(* ------------------------------------------------------------------ *)
(** ** Views *)

(** Source: server/src/infra/access_control.rs#trait UserReadableBackendHandler *)
Record UserReadableBackendHandler (St : Type) := {
  rd_get_user_details : UserId -> stM St DomainError User;
  rd_get_user_groups : UserId -> stM St DomainError (list GroupDetails);
  rd_get_schema : stM St DomainError PublicSchema;
}.
Arguments rd_get_user_details {St} _.
Arguments rd_get_user_groups {St} _.
Arguments rd_get_schema {St} _.

(** Source: server/src/infra/access_control.rs#trait ReadonlyBackendHandler *)
Record ReadonlyBackendHandler (St : Type) := {
  ro_readable : UserReadableBackendHandler St;
  ro_list_users : option UserRequestFilter -> bool -> stM St DomainError (list UserAndGroups);
  ro_list_groups : option GroupRequestFilter -> stM St DomainError (list Group);
  ro_get_group_details : GroupId -> stM St DomainError GroupDetails;
}.
Arguments ro_readable {St} _.
Arguments ro_list_users {St} _.
Arguments ro_list_groups {St} _.
Arguments ro_get_group_details {St} _.

(** Source: server/src/infra/access_control.rs#trait UserWriteableBackendHandler *)
Record UserWriteableBackendHandler (St : Type) := {
  wr_readable : UserReadableBackendHandler St;
  wr_update_user : UpdateUserRequest -> stM St DomainError unit;
}.
Arguments wr_readable {St} _.
Arguments wr_update_user {St} _.

(** Source: server/src/infra/access_control.rs#trait AdminBackendHandler *)
Record AdminBackendHandler (St : Type) := {
  ad_readonly : ReadonlyBackendHandler St;
  ad_writeable : UserWriteableBackendHandler St;
  ad_create_user : CreateUserRequest -> stM St DomainError unit;
  ad_delete_user : UserId -> stM St DomainError unit;
  ad_add_user_to_group : UserId -> GroupId -> stM St DomainError unit;
  ad_remove_user_from_group : UserId -> GroupId -> stM St DomainError unit;
  ad_update_group : UpdateGroupRequest -> stM St DomainError unit;
  ad_create_group : CreateGroupRequest -> stM St DomainError GroupId;
  ad_delete_group : GroupId -> stM St DomainError unit;
  ad_add_user_attribute : CreateAttributeRequest -> stM St DomainError unit;
  ad_add_group_attribute : CreateAttributeRequest -> stM St DomainError unit;
  ad_delete_user_attribute : AttributeName -> stM St DomainError unit;
  ad_delete_group_attribute : AttributeName -> stM St DomainError unit;
  ad_add_user_object_class : LdapObjectClass -> stM St DomainError unit;
  ad_add_group_object_class : LdapObjectClass -> stM St DomainError unit;
  ad_delete_user_object_class : LdapObjectClass -> stM St DomainError unit;
  ad_delete_group_object_class : LdapObjectClass -> stM St DomainError unit;
}.
Arguments ad_readonly {St} _.
Arguments ad_writeable {St} _.
Arguments ad_create_user {St} _.
Arguments ad_delete_user {St} _.
Arguments ad_add_user_to_group {St} _.
Arguments ad_remove_user_from_group {St} _.
Arguments ad_update_group {St} _.
Arguments ad_create_group {St} _.
Arguments ad_delete_group {St} _.
Arguments ad_add_user_attribute {St} _.
Arguments ad_add_group_attribute {St} _.
Arguments ad_delete_user_attribute {St} _.
Arguments ad_delete_group_attribute {St} _.
Arguments ad_add_user_object_class {St} _.
Arguments ad_add_group_object_class {St} _.
Arguments ad_delete_user_object_class {St} _.
Arguments ad_delete_group_object_class {St} _.

Section AccessControl.
Context {St : Type} `{BH : !BackendHandler St} `{U : Unicode}.

(** Source: server/src/infra/access_control.rs#impl<Handler: BackendHandler> UserReadableBackendHandler for Handler *)
Definition readable_view : UserReadableBackendHandler St := {|
  rd_get_user_details := bh_get_user_details;
  rd_get_user_groups := bh_get_user_groups;
  rd_get_schema := let! s := bh_get_schema in sret (public_schema_from s);
|}.

(** Source: server/src/infra/access_control.rs#impl<Handler: BackendHandler> ReadonlyBackendHandler for Handler *)
Definition readonly_view : ReadonlyBackendHandler St := {|
  ro_readable := readable_view;
  ro_list_users := bh_list_users;
  ro_list_groups := bh_list_groups;
  ro_get_group_details := bh_get_group_details;
|}.

(** Source: server/src/infra/access_control.rs#impl<Handler: BackendHandler> UserWriteableBackendHandler for Handler *)
Definition writeable_view : UserWriteableBackendHandler St := {|
  wr_readable := readable_view;
  wr_update_user := bh_update_user;
|}.

(** Source: server/src/infra/access_control.rs#impl<Handler: BackendHandler> AdminBackendHandler for Handler *)
Definition admin_view : AdminBackendHandler St := {|
  ad_readonly := readonly_view;
  ad_writeable := writeable_view;
  ad_create_user := bh_create_user;
  ad_delete_user := bh_delete_user;
  ad_add_user_to_group := bh_add_user_to_group;
  ad_remove_user_from_group := bh_remove_user_from_group;
  ad_update_group := bh_update_group;
  ad_create_group := bh_create_group;
  ad_delete_group := bh_delete_group;
  ad_add_user_attribute := bh_add_user_attribute;
  ad_add_group_attribute := bh_add_group_attribute;
  ad_delete_user_attribute := bh_delete_user_attribute;
  ad_delete_group_attribute := bh_delete_group_attribute;
  ad_add_user_object_class := bh_add_user_object_class;
  ad_add_group_object_class := bh_add_group_object_class;
  ad_delete_user_object_class := bh_delete_user_object_class;
  ad_delete_group_object_class := bh_delete_group_object_class;
|}.

Definition then_some {A} (b : bool) (a : A) : option A := if b then Some a else None.

(** Source: server/src/infra/access_control.rs#fn get_admin_handler *)
Definition get_admin_handler (v : ValidationResults) : option (AdminBackendHandler St) :=
  then_some (is_admin v) admin_view.

(** Source: server/src/infra/access_control.rs#fn get_readonly_handler *)
Definition get_readonly_handler (v : ValidationResults) : option (ReadonlyBackendHandler St) :=
  then_some (can_read_all v) readonly_view.

(** Source: server/src/infra/access_control.rs#fn get_writeable_handler *)
Definition get_writeable_handler (v : ValidationResults) (user_id : UserId) :
    option (UserWriteableBackendHandler St) :=
  then_some (can_write v user_id) writeable_view.

(** Source: server/src/infra/access_control.rs#fn get_readable_handler *)
Definition get_readable_handler (v : ValidationResults) (user_id : UserId) :
    option (UserReadableBackendHandler St) :=
  then_some (can_read v user_id) readable_view.

(** The user the lister is restricted to.
    Source: server/src/infra/access_control.rs#fn get_user_restricted_lister_handler *)
Definition get_user_restricted_lister_handler (v : ValidationResults) : option UserId :=
  if can_read_all v then None else Some (vr_user v).

(** Source: server/src/infra/access_control.rs#fn get_permissions_from_groups *)
Definition get_permissions_from_groups (user_id : UserId) (groups : list GroupName) : ValidationResults :=
  let is_in_group name := existsb (fun g => ci_eqb g (mk_ci name)) groups in
  mk_validation user_id
    (if is_in_group "lldap_admin"%string then PermAdmin
     else if is_in_group "lldap_password_manager"%string then PermPasswordManager
     else if is_in_group "lldap_strict_readonly"%string then PermReadonly
     else PermRegular).

(** Source: server/src/infra/access_control.rs#fn get_permissions_for_user *)
Definition get_permissions_for_user (user_id : UserId) : stM St DomainError ValidationResults :=
  let! user_groups := bh_get_user_groups user_id in
  sret (get_permissions_from_groups user_id (map gd_display_name user_groups)).

(* ------------------------------------------------------------------ *)
(** ** The restricted lister *)

(** Source: server/src/infra/access_control.rs#@3 async fn get_schema *)
Definition restricted_get_schema (user_filter : option UserId) : stM St DomainError Schema :=
  let! schema := bh_get_schema in
  sret match user_filter with
       | None => schema
       | Some _ =>
           let visible l := mk_attribute_list (List.filter as_is_visible (al_attributes l)) in
           mk_schema (visible (sc_user_attributes schema)) (visible (sc_group_attributes schema))
             (sc_extra_user_object_classes schema) (sc_extra_group_object_classes schema)
       end.

(** Source: server/src/infra/access_control.rs#impl<'a, Handler: UserListerBackendHandler + Sync> UserListerBackendHandler *)
Definition restricted_list_users (user_filter : option UserId) (filters : option UserRequestFilter)
    (get_groups : bool) : stM St DomainError (list UserAndGroups) :=
  let user_filter := UUserId <$> user_filter in
  let filters := match filters, user_filter with
                 | None, None => None
                 | None, u => u
                 | f, None => f
                 | Some f, Some u => Some (UAnd [f; u])
                 end in
  bh_list_users filters get_groups.

(** Source: server/src/infra/access_control.rs#impl<'a, Handler: GroupListerBackendHandler + Sync> GroupListerBackendHandler *)
Definition restricted_list_groups (user_filter : option UserId) (filters : option GroupRequestFilter) :
    stM St DomainError (list Group) :=
  let group_filter := GMember <$> user_filter in
  let filters := match filters, group_filter with
                 | None, None => None
                 | None, u => u
                 | f, None => f
                 | Some f, Some u => Some (GAnd [f; u])
                 end in
  bh_list_groups filters.
End AccessControl.

(* ------------------------------------------------------------------ *)
(** ** Properties *)

Section AccessControlFacts.
Context `{U : Unicode}.

Lemma permission_of v p : has_permission v p = true <-> vr_permission v = p.
Proof. apply bool_decide_eq_true. Qed.
Lemma is_user_of v u : is_user v u = true <-> vr_user v = u.
Proof. apply bool_decide_eq_true. Qed.

(** The group gives a permission, compared without case. *)
Definition in_named_group (name : string) (groups : list GroupName) : Prop :=
  exists g, g ∈ groups /\ ci_equiv g (mk_ci name).

Lemma existsb_named name groups :
  existsb (fun g => ci_eqb g (mk_ci name)) groups = true <-> in_named_group name groups.
Proof.
  rewrite existsb_exists. split; intros (g & Hin & H); exists g; split; try done;
    by apply base.list_elem_of_In.
Qed.

(** Permissions come from the groups of the three known names, whatever
    their case and whatever the other groups: the strongest one wins, and
    someone in none of them is a regular user.  What a permission allows follows:
    only an administrator writes others' data, a password manager changes the
    passwords of others unless they are administrators, readers read everything,
    and a regular user reads and writes nothing but itself. *)
Theorem permissions_correct user groups :
  let v := get_permissions_from_groups user groups in
  let others u := u <> user in
  vr_user v = user
  /\ (is_admin v = true <-> in_named_group "lldap_admin" groups)
  /\ (can_read_all v = true <-> in_named_group "lldap_admin" groups
        \/ in_named_group "lldap_password_manager" groups
        \/ in_named_group "lldap_strict_readonly" groups)
  /\ (forall u, others u -> can_write v u = true <-> in_named_group "lldap_admin" groups)
  /\ (forall u, others u -> can_read v u = can_read_all v)
  /\ (forall u adm, others u -> can_change_password v u adm = true
        <-> in_named_group "lldap_admin" groups
            \/ (adm = false /\ in_named_group "lldap_password_manager" groups))
  /\ can_read v user = true /\ can_write v user = true /\ (forall adm, can_change_password v user adm = true).
Proof.
  intros v others. unfold v, get_permissions_from_groups, is_admin, can_read_all, can_read, can_write,
    can_change_password, has_permission, is_user. simpl.
  setoid_rewrite <- existsb_named.
  assert (Hself : bool_decide (user = user) = true) by by apply bool_decide_eq_true_2.
  assert (Hother : forall u, others u -> bool_decide (user = u) = false).
  { intros u Hu. apply bool_decide_eq_false_2. unfold others in Hu. congruence. }
  repeat match goal with |- context [existsb ?f groups] => destruct (existsb f groups) end;
    split_and!; try done; try (by rewrite Hself, ?orb_true_r); try (by cbn; naive_solver);
    intros u; try intros adm; try (by rewrite Hself, ?orb_true_r); intros Hu;
    rewrite Hother by done; try destruct adm; cbn; naive_solver.
Qed.
End AccessControlFacts.

Section RestrictedLister.
Context {St : Type} {BH : BackendHandler St} {BL : BackendLaws BH}.

(** Whoever may not read everything sees only itself.  For any backend
    with the laws of [BackendLaws], the restricted lister of a regular user
    returns, for every filter, no user but that user and no group that does not
    have it as a member, hides the attributes that are not visible, and writes
    nothing; for the other permissions it is the backend's own lister. *)
Theorem restricted_lister_correct v f fg b s :
  let u := get_user_restricted_lister_handler v in
  (can_read_all v = false ->
    (forall l, fst (restricted_list_users u f b s) = Ok l -> Forall (fun x => user_user_id (uag_user x) = vr_user v) l)
    /\ (forall l, fst (restricted_list_groups u fg s) = Ok l -> Forall (fun g => vr_user v ∈ group_users g) l)
    /\ (forall sc, fst (restricted_get_schema u s) = Ok sc ->
          Forall (fun a => as_is_visible a = true)
            (al_attributes (sc_user_attributes sc) ++ al_attributes (sc_group_attributes sc))))
  /\ (can_read_all v = true ->
    restricted_list_users u f b = bh_list_users f b /\ restricted_list_groups u fg = bh_list_groups fg)
  /\ snd (restricted_list_users u f b s) = s /\ snd (restricted_list_groups u fg s) = s.
Proof using BL.
  intros u. split_and!.
  - intros Hv. unfold u, get_user_restricted_lister_handler. rewrite Hv. split_and!.
    + intros l. destruct f as [f'|]; cbn; intros Hl; [|by eapply bh_list_users_id].
      eapply bh_list_users_only; [|exact Hl]. set_solver.
    + intros l. destruct fg as [f'|]; cbn; intros Hl; [|by eapply bh_list_groups_one].
      eapply bh_list_groups_member; [|exact Hl]. set_solver.
    + intros sc. unfold restricted_get_schema, sbind.
      destruct (bh_get_schema s) as [[sc'|e|p] s']; [|done..]. cbn. intros [= <-]. cbn.
      apply Forall_app. split; apply Forall_forall; intros a Ha%base.list_elem_of_In%List.filter_In; tauto.
  - intros Hv. unfold u, get_user_restricted_lister_handler. rewrite Hv.
    split; [by destruct f|by destruct fg].
  - apply bh_readonly_list_users.
  - apply bh_readonly_list_groups.
Qed.
End RestrictedLister.

Lemma restricted_lister_correct_witness :
  let v := mk_validation uid_bob PermRegular in
  let BH := @SqlBackendHandler concrete_crates concrete_bincode concrete_sql in
  exists l, fst (@restricted_list_users World BH (get_user_restricted_lister_handler v)
      (Some (UMemberOf (mk_ci "Best Group"))) true example_world) = Ok l
    /\ length l = 1 /\ Forall (fun x => user_user_id (uag_user x) = uid_bob) l.
Proof.
  intros v BH. destruct (fst (@restricted_list_users World BH (get_user_restricted_lister_handler v)
      (Some (UMemberOf (mk_ci "Best Group"))) true example_world)) as [l|e|p] eqn:Hl.
  - exists l. split; [done|]. split; [vm_compute in Hl; by injection Hl as <-|].
    destruct (@restricted_lister_correct World BH (@sql_backend_laws concrete_crates concrete_bincode concrete_sql)
      v (Some (UMemberOf (mk_ci "Best Group"))) None true example_world) as [H _].
    by apply H.
  - exfalso. vm_compute in Hl. discriminate.
  - exfalso. vm_compute in Hl. discriminate.
Defined.
