(* ===== verification/LdapUtils.v ===== *)
(** * LDAP: names and attributes

    Models [server/src/domain/ldap/utils.rs] and [error.rs]: distinguished
    names, attribute lists, the mapping from LDAP attribute names to fields, and
    the values of custom attributes.  The messages of the [ldap3_proto] crate are
    given as data, with the constructors the server distinguishes. *)

From S2P Require Import Prelude RustStd Extern Types Concrete Handler Deserialize.
From Stdlib Require Import Ascii String.
From stdpp Require Import strings list gmap.
#[local] Open Scope rust_scope.

(* ------------------------------------------------------------------ *)
(** ** [ldap3_proto] *)

Inductive LdapResultCode :=
| LSuccess | LOperationsError | LCompareFalse | LCompareTrue | LNoSuchObject | LInvalidDNSyntax
| LNamingViolation | LUnwillingToPerform | LInvalidCredentials | LInsufficentAccessRights
| LConstraintViolation | LInvalidAttributeSyntax | LInappropriateMatching | LOther.
#[global] Instance ldap_result_code_eq_dec : EqDecision LdapResultCode.
Proof. solve_decision. Defined.

Record LdapSubstringFilter := mk_ldap_substring {
  lsf_initial : option string;
  lsf_any : list string;
  lsf_final : option string;
}.

(** The other constructors (ordering, approximate and extensible matches) are
    told apart only by their [Debug] text. *)
#[warnings="-register-all"]
Inductive LdapFilter :=
| FAnd (fs : list LdapFilter)
| FOr (fs : list LdapFilter)
| FNot (f : LdapFilter)
| FEquality (field value : string)
| FSubstring (field : string) (s : LdapSubstringFilter)
| FPresent (field : string)
| FOther (debug : string).

Inductive LdapSearchScope := ScopeBase | ScopeOneLevel | ScopeSubtree | ScopeChildren.
#[global] Instance ldap_search_scope_eq_dec : EqDecision LdapSearchScope.
Proof. solve_decision. Defined.

Record LdapPartialAttribute := mk_partial_attribute { pa_atype : string; pa_vals : list bytes }.
Record LdapSearchResultEntry := mk_entry { le_dn : string; le_attributes : list LdapPartialAttribute }.

(* ------------------------------------------------------------------ *)
(** ** Errors *)

(** Source: server/src/domain/ldap/error.rs#struct LdapError *)
Record LdapError := mk_ldap_error { er_code : LdapResultCode; er_message : string }.
Abbreviation LdapResult A := (outcome LdapError A).

(** The conversion is field by field.
    Source: server/src/domain/ldap/utils.rs#impl From<LdapSubstringFilter> for SubStringFilter *)
Definition substring_filter_from (f : LdapSubstringFilter) : SubStringFilter :=
  mk_substring (lsf_initial f) (lsf_any f) (lsf_final f).

(* ------------------------------------------------------------------ *)
(** ** Distinguished names *)

(** Between double quotes. *)
Definition quoted (s : string) : string := String "034"%char (s +:+ String "034"%char EmptyString).

Section Names.
Context `{U : Unicode}.

(** Source: server/src/domain/ldap/utils.rs#fn make_dn_pair *)
Definition make_dn_pair (iter : list string) : LdapResult (string * string) :=
  omap_err (mk_ldap_error LInvalidDNSyntax)
    match iter with
    | [] => Err "Empty DN element"%string
    | [_] => Err "Missing DN value"%string
    | [k; v] => Ok (k, v)
    | k :: v :: e :: _ =>
        (* the format string quotes what Debug already quotes *)
        Err ("Too many elements in distinguished name: " +:+ quoted (debug_str k) +:+ ", "
             +:+ quoted (debug_str v) +:+ ", " +:+ quoted (debug_str e))
    end.

(** Source: server/src/domain/ldap/utils.rs#fn parse_distinguished_name *)
Definition parse_distinguished_name (dn : string) : LdapResult (list (string * string)) :=
  let? _ := assert_ "assertion failed: dn == dn.to_ascii_lowercase()" (is_lower dn) in
  try_map (fun s => make_dn_pair (map trim (RustStd.split "="%char s))) (RustStd.split ","%char dn).

Definition lower_pair (p : string * string) : bool := is_lower p.1 && is_lower p.2.

(** Source: server/src/domain/ldap/utils.rs#fn is_subtree *)
Definition is_subtree {E} (subtree base_tree : list (string * string)) : outcome E bool :=
  let? _ := assert_ "assertion failed: k == &k.to_ascii_lowercase()" (forallb lower_pair subtree) in
  let? _ := assert_ "assertion failed: k == &k.to_ascii_lowercase()" (forallb lower_pair base_tree) in
  if Nat.ltb (length subtree) (length base_tree) then Ok false
  else
    let size_diff := length subtree - length base_tree in
    Ok (forallb (fun i => bool_decide (subtree !! (size_diff + i) = base_tree !! i))
          (seq 0 (length base_tree))).

(** [parts[0]] and [parts[1]] are read behind a check of the length.
    Source: server/src/domain/ldap/utils.rs#fn get_id_from_distinguished_name *)
Definition get_id_from_distinguished_name (dn : string) (base_tree : list (string * string))
    (base_dn_str : string) (is_group : bool) : LdapResult string :=
  let? parts := parse_distinguished_name dn in
  let ou := (if is_group then "groups" else "people")%string in
  let unexpected :=
    Err (mk_ldap_error LInvalidDNSyntax
      ("Unexpected DN format. Got " +:+ quoted dn +:+ ", expected: "
        +:+ quoted ("uid=id,ou=" +:+ ou +:+ "," +:+ base_dn_str))) in
  let? subtree := is_subtree parts base_tree in
  if negb subtree then Err (mk_ldap_error LInvalidDNSyntax "Not a subtree of the base tree")
  else if Nat.eqb (length parts) (length base_tree + 2) then
    let? p0 := expect "index out of bounds" (parts !! 0) in
    let? p1 := expect "index out of bounds" (parts !! 1) in
    if negb (String.eqb p1.1 "ou") || negb (String.eqb p1.2 ou)
       || (negb (String.eqb p0.1 "cn") && negb (String.eqb p0.1 "uid"))
    then unexpected
    else Ok p0.2
  else unexpected.

(** Source: server/src/domain/ldap/utils.rs#fn get_user_id_from_distinguished_name *)
Definition get_user_id_from_distinguished_name (dn : string) (base_tree : list (string * string))
    (base_dn_str : string) : LdapResult UserId :=
  omap_ok user_id_new (get_id_from_distinguished_name dn base_tree base_dn_str false).

(** Source: server/src/domain/ldap/utils.rs#fn get_group_id_from_distinguished_name *)
Definition get_group_id_from_distinguished_name (dn : string) (base_tree : list (string * string))
    (base_dn_str : string) : LdapResult GroupName :=
  omap_ok mk_ci (get_id_from_distinguished_name dn base_tree base_dn_str true).
End Names.

(* ------------------------------------------------------------------ *)
(** ** Attribute lists *)

(** Induction on filters, through the lists. *)
Section LdapFilterInduction.
Context (P : LdapFilter -> Prop)
  (HAnd : forall fs, Forall P fs -> P (FAnd fs)) (HOr : forall fs, Forall P fs -> P (FOr fs))
  (HNot : forall f, P f -> P (FNot f))
  (HLeaf : forall f, match f with FAnd _ | FOr _ | FNot _ => False | _ => True end -> P f).
Fixpoint ldap_filter_ind f : P f :=
  let all := fix all fs : Forall P fs :=
    match fs with [] => @List.Forall_nil _ P | f :: fs => @List.Forall_cons _ P f fs (ldap_filter_ind f) (all fs) end in
  match f with
  | FAnd fs => HAnd fs (all fs)
  | FOr fs => HOr fs (all fs)
  | FNot f => HNot f (ldap_filter_ind f)
  | f => HLeaf f I
  end.
End LdapFilterInduction.

(** [iter.unique_by(f)]: the first element of each key. *)
Section UniqueBy.
Context {A K : Type} `{EqDecision K} (key : A -> K).
Fixpoint unique_by (seen : list K) (l : list A) : list A :=
  match l with
  | [] => []
  | x :: l => if decide (key x ∈ seen) then unique_by seen l else x :: unique_by (key x :: seen) l
  end.
End UniqueBy.

(** Source: server/src/domain/ldap/utils.rs#fn expand_attribute_wildcards *)
Definition expand_attribute_wildcards (ldap_attributes all_attribute_keys : list string) : list string :=
  let extra_attributes :=
    if existsb (fun x => String.eqb x "*") ldap_attributes
       || match ldap_attributes with [] => true | _ => false end
    then all_attribute_keys else [] in
  let attributes_out :=
    List.filter (fun s => negb (String.eqb s "*") && negb (String.eqb s "+") && negb (String.eqb s "1.1"))
      ldap_attributes in
  unique_by to_ascii_lowercase [] (attributes_out ++ extra_attributes).

(* ------------------------------------------------------------------ *)
(** ** Fields *)

(** Source: server/src/domain/ldap/utils.rs#enum UserFieldType *)
Inductive UserFieldType :=
| UFNoMatch | UFObjectClass | UFMemberOf | UFDn | UFEntryDn
| UFPrimaryField (c : UserColumn)
| UFAttribute (name : AttributeName) (t : AttributeType) (is_list : bool).

Definition one_of (s : string) (l : list string) : bool := existsb (String.eqb s) l.

(** The patterns of the [match], in order.
    Source: server/src/domain/ldap/utils.rs#fn map_user_field *)
Definition map_user_field (field : AttributeName) (schema : PublicSchema) : UserFieldType :=
  let f := attribute_name_str field in
  if one_of f ["memberof"; "ismemberof"] then UFMemberOf
  else if one_of f ["objectclass"] then UFObjectClass
  else if one_of f ["dn"; "distinguishedname"] then UFDn
  else if one_of f ["entrydn"] then UFEntryDn
  else if one_of f ["uid"; "user_id"; "id"] then UFPrimaryField ColUserId
  else if one_of f ["mail"; "email"] then UFPrimaryField ColEmail
  else if one_of f ["cn"; "displayname"; "display_name"] then UFPrimaryField ColDisplayName
  else if one_of f ["givenname"; "first_name"; "firstname"] then
    UFAttribute (attribute_name_new "first_name") AString false
  else if one_of f ["sn"; "last_name"; "lastname"] then
    UFAttribute (attribute_name_new "last_name") AString false
  else if one_of f ["avatar"; "jpegphoto"] then
    UFAttribute (attribute_name_new "avatar") AJpegPhoto false
  else if one_of f ["creationdate"; "createtimestamp"; "modifytimestamp"; "creation_date"] then
    UFPrimaryField ColCreationDate
  else if one_of f ["entryuuid"; "uuid"] then UFPrimaryField ColUuid
  else match get_attribute_type (sc_user_attributes (get_schema schema)) field with
       | Some (t, is_list) => UFAttribute field t is_list
       | None => UFNoMatch
       end.

(** Source: server/src/domain/ldap/utils.rs#enum GroupFieldType *)
Inductive GroupFieldType :=
| GFNoMatch | GFDisplayName | GFCreationDate | GFObjectClass | GFDn | GFEntryDn | GFMember | GFUuid
| GFAttribute (name : AttributeName) (t : AttributeType) (is_list : bool).

(** Source: server/src/domain/ldap/utils.rs#fn map_group_field *)
Definition map_group_field (field : AttributeName) (schema : PublicSchema) : GroupFieldType :=
  let f := attribute_name_str field in
  if one_of f ["dn"; "distinguishedname"] then GFDn
  else if one_of f ["entrydn"] then GFEntryDn
  else if one_of f ["objectclass"] then GFObjectClass
  else if one_of f ["cn"; "displayname"; "uid"; "display_name"; "id"] then GFDisplayName
  else if one_of f ["creationdate"; "createtimestamp"; "modifytimestamp"; "creation_date"] then GFCreationDate
  else if one_of f ["member"; "uniquemember"] then GFMember
  else if one_of f ["entryuuid"; "uuid"] then GFUuid
  else match get_attribute_type (sc_group_attributes (get_schema schema)) field with
       | Some (t, is_list) => GFAttribute field t is_list
       | None => GFNoMatch
       end.

(** Source: server/src/domain/ldap/utils.rs#struct LdapInfo *)
Record LdapInfo := mk_ldap_info {
  li_base_dn : list (string * string);
  li_base_dn_str : string;
  li_ignored_user_attributes : list AttributeName;
  li_ignored_group_attributes : list AttributeName;
}.

Section CustomAttribute.
Context `{C : Crates} `{B : Bincode}.

(** [extractor] is the list the type parameter selects from the schema.
    Source: server/src/domain/ldap/utils.rs#fn get_custom_attribute *)
Definition get_custom_attribute {E} (extractor : Schema -> AttributeList) (attributes : list AttributeValue)
    (attribute_name : AttributeName) (schema : PublicSchema) : outcome E (option (list bytes)) :=
  let convert_date d := into_bytes (to_rfc3339 d) in
  match get_attribute_type (extractor (get_schema schema)) attribute_name with
  | None => Ok None
  | Some attribute_type =>
      match List.find (fun a => bool_decide (av_name a = attribute_name)) attributes with
      | None => Ok None
      | Some attribute =>
          let v := av_value attribute in
          omap_ok Some
            match attribute_type with
            | (AString, false) => let? s := serialized_unwrap TyString v in Ok [into_bytes s]
            | (AInteger, false) => let? i := serialized_unwrap TyI64 v in Ok [into_bytes (i64_to_string i)]
            | (AJpegPhoto, false) => let? p := serialized_unwrap TyJpegPhoto v in Ok [jpeg_bytes p]
            | (ADateTime, false) => let? d := serialized_unwrap TyNaiveDateTime v in Ok [convert_date d]
            | (AString, true) =>
                let? l := serialized_unwrap (TyVec TyString) v in Ok (map into_bytes l)
            | (AInteger, true) =>
                let? l := serialized_unwrap (TyVec TyI64) v in
                Ok (map (fun i => into_bytes (i64_to_string i)) l)
            | (AJpegPhoto, true) =>
                let? l := serialized_unwrap (TyVec TyJpegPhoto) v in Ok (map jpeg_bytes l)
            | (ADateTime, true) =>
                let? l := serialized_unwrap (TyVec TyNaiveDateTime) v in Ok (map convert_date l)
            end
      end
  end.
End CustomAttribute.

(* ------------------------------------------------------------------ *)
(** ** Properties of names *)

Section NameFacts.
Context `{U : Unicode}.

Lemma contains_char_app c s1 s2 : contains_char c (s1 +:+ s2) = contains_char c s1 || contains_char c s2.
Proof.
  induction s1 as [|a s1 IH]; [done|]. change (String a s1 +:+ s2) with (String a (s1 +:+ s2)).
  simpl. by rewrite IH, orb_assoc.
Qed.

Lemma make_dn_pair_ok l p : make_dn_pair l = Ok p <-> l = [p.1; p.2].
Proof.
  destruct p as [k v]. split; [|by intros ->].
  destruct l as [|a [|b [|c l]]]; simpl; try done. by intros [= -> ->].
Qed.

Lemma make_dn_pair_no_panic l : no_panic (make_dn_pair l).
Proof. unfold make_dn_pair. apply omap_err_no_panic. by destruct l as [|a [|b [|c l]]]; intros p. Qed.

(** The components of a parsed name are in lower case. *)
Lemma parse_distinguished_name_lower dn parts :
  parse_distinguished_name dn = Ok parts -> is_lower dn = true /\ forallb lower_pair parts = true.
Proof.
  unfold parse_distinguished_name, assert_. destruct (is_lower dn) eqn:Hdn; [|done]. simpl.
  intros H%try_map_ok. split; [done|]. apply forallb_forall. intros p Hp%base.list_elem_of_In.
  apply list_elem_of_lookup in Hp as [i Hi].
  destruct (Forall2_lookup_r _ _ _ _ _ H Hi) as (s & Hs & Hpair%make_dn_pair_ok).
  apply list_elem_of_lookup_2 in Hs. apply split_lower in Hs; [|done].
  assert (Hall : forall w, w ∈ map trim (RustStd.split "="%char s) -> is_lower w = true).
  { intros w (w' & -> & Hw')%list_elem_of_fmap. apply trim_lower. by eapply split_lower. }
  rewrite Hpair in Hall. unfold lower_pair. rewrite !Hall by set_solver. done.
Qed.

(** It panics on a name with an upper-case letter, and only then. *)
Lemma parse_distinguished_name_panic dn : is_panic (parse_distinguished_name dn) <-> is_lower dn = false.
Proof.
  unfold parse_distinguished_name, assert_. destruct (is_lower dn) eqn:Hdn; simpl.
  - split; [|done]. intros [p Hp]. exfalso. revert Hp. apply try_map_no_panic.
    intros s _. apply make_dn_pair_no_panic.
  - split; [done|]. intros _. by eexists.
Qed.

Lemma lower_parse_no_panic dn : is_lower dn = true -> no_panic (parse_distinguished_name dn).
Proof.
  intros Hdn p Hp. assert (is_lower dn = false) by (apply parse_distinguished_name_panic; by eexists).
  congruence.
Qed.

Lemma lookups_agree {A} (l1 l2 : list A) n :
  length l1 = n + length l2 ->
  (forall i, i < length l2 -> l1 !! (n + i) = l2 !! i) <-> drop n l1 = l2.
Proof.
  intros Hl. split.
  - intros H. apply list_eq. intros i. rewrite lookup_drop. destruct (decide (i < length l2)); [by apply H|].
    rewrite !lookup_ge_None_2 by lia. done.
  - intros <- i _. by rewrite lookup_drop.
Qed.

Lemma is_subtree_run {E} subtree base :
  forallb lower_pair subtree = true -> forallb lower_pair base = true ->
  is_subtree (E:=E) subtree base
  = Ok (bool_decide (length base <= length subtree /\ drop (length subtree - length base) subtree = base)).
Proof.
  intros Hs Hb. unfold is_subtree, assert_. rewrite Hs, Hb. simpl.
  destruct (Nat.ltb_spec (length subtree) (length base)) as [Hlt|Hge].
  { rewrite bool_decide_eq_false_2; [done|lia]. }
  f_equal. apply eq_true_iff_eq. rewrite forallb_forall, bool_decide_eq_true.
  rewrite <- (lookups_agree subtree base (length subtree - length base)) by lia.
  split.
  - intros H. split; [done|]. intros i Hi. specialize (H i). rewrite bool_decide_eq_true in H.
    apply H, in_seq. lia.
  - intros [_ H] i Hi%in_seq. apply bool_decide_eq_true, H. lia.
Qed.

(** On lower-case names the identifier is found or refused. *)
Lemma get_id_no_panic dn base base_str is_group :
  is_lower dn = true -> forallb lower_pair base = true ->
  no_panic (get_id_from_distinguished_name dn base base_str is_group).
Proof.
  intros Hdn Hb. unfold get_id_from_distinguished_name.
  apply obind_no_panic; [by apply lower_parse_no_panic|].
  intros parts [_ Hp]%parse_distinguished_name_lower. rewrite is_subtree_run by done. cbn [obind].
  case_bool_decide; [|done]. cbn [negb]. destruct (Nat.eqb_spec (length parts) (length base + 2)); [|done].
  destruct parts as [|p0 [|p1 parts]]; simpl in *; [lia..|]. by case_match.
Qed.

(** [is_subtree] decides whether a name lies below another: for
    lower-case names it returns, and it returns true exactly when the base is a
    suffix of the name. *)
Theorem is_subtree_correct subtree base :
  forallb lower_pair subtree = true -> forallb lower_pair base = true ->
  exists b, is_subtree (E:=LdapError) subtree base = Ok b
    /\ (b = true <-> exists prefix, subtree = prefix ++ base).
Proof.
  intros Hs Hb. eexists. split; [by apply is_subtree_run|]. rewrite bool_decide_eq_true. split.
  - intros [Hl Hd]. exists (take (length subtree - length base) subtree).
    by rewrite <- Hd at 2; rewrite take_drop.
  - intros [prefix ->]. rewrite length_app. split; [lia|].
    replace (length prefix + length base - length base) with (length prefix) by lia. by rewrite drop_app_length.
Qed.

(** A name as the server prints it. *)
Definition entry_dn (key id ou base : string) : string :=
  key +:+ "=" +:+ id +:+ ",ou=" +:+ ou +:+ "," +:+ base.

(** An identifier that survives printing in a name. *)
Definition dn_safe (s : string) : Prop :=
  is_lower s = true /\ contains_char ","%char s = false /\ contains_char "="%char s = false /\ trim s = s.

Lemma string_app_assoc (s1 s2 s3 : string) : (s1 +:+ s2) +:+ s3 = s1 +:+ (s2 +:+ s3).
Proof. induction s1 as [|a s1 IH]; [done|]. exact (f_equal (String a) IH). Qed.

Lemma parse_pair key v :
  contains_char "="%char key = false -> contains_char "="%char v = false ->
  make_dn_pair (map trim (RustStd.split "="%char (key +:+ String "="%char v))) = Ok (trim key, trim v).
Proof. intros Hk Hv. by rewrite split_app_sep, split_no_sep. Qed.

Lemma parse_entry_dn key id ou base base_tree :
  dn_safe key -> dn_safe id -> dn_safe ou -> parse_distinguished_name base = Ok base_tree ->
  parse_distinguished_name (entry_dn key id ou base) = Ok ((key, id) :: ("ou"%string, ou) :: base_tree).
Proof.
  intros (Hk1 & Hk2 & Hk3 & Hk4) (Hi1 & Hi2 & Hi3 & Hi4) (Ho1 & Ho2 & Ho3 & Ho4) Hbase.
  destruct (parse_distinguished_name_lower _ _ Hbase) as [Hb _].
  assert (He : entry_dn key id ou base
    = (key +:+ String "="%char id) +:+ String ","%char
        (("ou" +:+ String "="%char ou) +:+ String ","%char base)).
  { unfold entry_dn. rewrite !string_app_assoc. done. }
  unfold parse_distinguished_name in *. rewrite He.
  assert (Hl : is_lower ((key +:+ String "="%char id) +:+ String ","%char
        (("ou" +:+ String "="%char ou) +:+ String ","%char base)) = true).
  { rewrite !is_lower_app, !is_lower_cons, !is_lower_app, !is_lower_cons. done. }
  rewrite Hl. unfold assert_ in *. rewrite Hb in Hbase. simpl in Hbase. simpl.
  rewrite split_app_sep by (rewrite contains_char_app; simpl; by rewrite Hk2, Hi2).
  rewrite split_app_sep by (rewrite contains_char_app; simpl; by rewrite Ho2).
  cbn [try_map]. rewrite parse_pair by done. rewrite Hk4, Hi4. cbn [obind].
  rewrite parse_pair by done. rewrite Ho4, Hbase. done.
Qed.

Lemma read_entry_dn id base base_tree :
  dn_safe id -> parse_distinguished_name base = Ok base_tree ->
  get_user_id_from_distinguished_name (entry_dn "uid" id "people" base) base_tree base = Ok (user_id_new id)
  /\ get_group_id_from_distinguished_name (entry_dn "cn" id "groups" base) base_tree base = Ok (mk_ci id)
  /\ (exists e, get_group_id_from_distinguished_name (entry_dn "uid" id "people" base) base_tree base = Err e)
  /\ (exists e, get_user_id_from_distinguished_name (entry_dn "cn" id "groups" base) base_tree base = Err e).
Proof.
  intros Hid Hbase. destruct (parse_distinguished_name_lower _ _ Hbase) as [_ Hb].
  assert (Hsafe : dn_safe "uid" /\ dn_safe "cn" /\ dn_safe "people" /\ dn_safe "groups")
    by (unfold dn_safe; by vm_compute).
  destruct Hsafe as (Huid & Hcn & Hp & Hg). pose proof (proj1 Hid) as Hi.
  assert (Hsub : forall k ou, is_lower k = true -> is_lower ou = true ->
    is_subtree (E:=LdapError) ((k, id) :: ("ou"%string, ou) :: base_tree) base_tree = Ok true).
  { intros k ou Hk Hou. rewrite is_subtree_run; [|simpl; unfold lower_pair at 1 2; simpl; by rewrite Hk, Hou, Hi, Hb|done].
    f_equal. apply bool_decide_eq_true. simpl length. split; [lia|].
    by replace (S (S (length base_tree)) - length base_tree) with 2 by lia. }
  unfold get_user_id_from_distinguished_name, get_group_id_from_distinguished_name,
    get_id_from_distinguished_name.
  rewrite (parse_entry_dn "uid" id "people" base base_tree), (parse_entry_dn "cn" id "groups" base base_tree)
    by done. cbn [obind]. rewrite !Hsub by done. cbn [obind negb length].
  replace (Nat.eqb (S (S (length base_tree))) (length base_tree + 2)) with true
    by (symmetry; apply Nat.eqb_eq; lia).
  simpl. split_and!; try done; by eexists.
Qed.
(** Names round-trip.  The name the server gives a user's entry (and a
    group's), read back under the configured base, is that user's id (that
    group's name), for every id without [,], [=] or surrounding spaces; and the
    name of a user is not that of a group. *)
Theorem distinguished_name_roundtrip id base base_tree :
  dn_safe id -> parse_distinguished_name base = Ok base_tree ->
  get_user_id_from_distinguished_name (entry_dn "uid" id "people" base) base_tree base = Ok (user_id_new id)
  /\ get_group_id_from_distinguished_name (entry_dn "cn" id "groups" base) base_tree base = Ok (mk_ci id)
  /\ (exists e, get_group_id_from_distinguished_name (entry_dn "uid" id "people" base) base_tree base = Err e)
  /\ (exists e, get_user_id_from_distinguished_name (entry_dn "cn" id "groups" base) base_tree base = Err e).
Proof. apply read_entry_dn. Qed.
End NameFacts.

(* ------------------------------------------------------------------ *)
(** ** Properties of attribute lists *)

Section UniqueByFacts.
Context {A K : Type} `{EqDecision K} (key : A -> K).

Lemma unique_by_elem seen l x : x ∈ unique_by key seen l -> x ∈ l /\ key x ∉ seen.
Proof.
  revert seen. induction l as [|y l IH]; intros seen; simpl; [set_solver|].
  destruct (decide (key y ∈ seen)); [|rewrite elem_of_cons; intros [->|]]; [| |];
    try (intros [? ?]%IH; set_solver); [set_solver|].
  naive_solver set_solver.
Qed.

Lemma unique_by_keys seen l k :
  k ∈ map key (unique_by key seen l) <-> k ∈ map key l /\ k ∉ seen.
Proof.
  revert seen. induction l as [|y l IH]; intros seen; simpl; [set_solver|].
  destruct (decide (key y ∈ seen)) as [Hin|Hin].
  - rewrite IH. set_solver.
  - rewrite map_cons, elem_of_cons, IH, !elem_of_cons.
    destruct (decide (k = key y)) as [->|]; naive_solver.
Qed.

Lemma unique_by_nodup seen l : NoDup (map key (unique_by key seen l)).
Proof.
  revert seen. induction l as [|y l IH]; intros seen; simpl; [constructor|].
  destruct (decide (key y ∈ seen)); [apply IH|]. rewrite map_cons.
  constructor; [|apply IH]. rewrite unique_by_keys. set_solver.
Qed.
End UniqueByFacts.

Definition attribute_wildcard (s : string) : Prop := s = "*"%string \/ s = "+"%string \/ s = "1.1"%string.

Lemma expand_elem attrs keys x :
  x ∈ List.filter (fun s => negb (String.eqb s "*") && negb (String.eqb s "+") && negb (String.eqb s "1.1")) attrs
      ++ (if existsb (fun x => String.eqb x "*") attrs || match attrs with [] => true | _ => false end
          then keys else [])
  <-> (x ∈ attrs /\ ~ attribute_wildcard x) \/ (("*"%string ∈ attrs \/ attrs = []) /\ x ∈ keys).
Proof.
  rewrite elem_of_app, base.list_elem_of_In, filter_In, <- base.list_elem_of_In.
  rewrite !andb_true_iff, !negb_true_iff, !String.eqb_neq. unfold attribute_wildcard.
  assert (Hs : existsb (fun x => String.eqb x "*") attrs = true <-> "*"%string ∈ attrs).
  { rewrite existsb_exists. setoid_rewrite String.eqb_eq. setoid_rewrite <- base.list_elem_of_In. naive_solver. }
  destruct (existsb (fun x => String.eqb x "*") attrs) eqn:He; simpl.
  - assert ("*"%string ∈ attrs) by (by apply Hs). naive_solver.
  - assert ("*"%string ∉ attrs) by (intros ?%Hs; done).
    destruct attrs; [|rewrite elem_of_nil]; naive_solver set_solver.
Qed.

(** [expand_attribute_wildcards] keeps what the client asked for: no
    attribute is returned twice, whatever its case; the attributes returned are,
    up to case, exactly the requested ones other than the wildcards, together
    with all the known ones when the client asked for [*] or for nothing; and a
    wildcard never survives, unless it is itself a known attribute. *)
Theorem expand_attribute_wildcards_correct attrs keys :
  let out := expand_attribute_wildcards attrs keys in
  let asks_all := "*"%string ∈ attrs \/ attrs = [] in
  NoDup (map to_ascii_lowercase out)
  /\ (forall k, k ∈ map to_ascii_lowercase out <->
        (exists a, a ∈ attrs /\ ~ attribute_wildcard a /\ k = to_ascii_lowercase a)
        \/ (asks_all /\ k ∈ map to_ascii_lowercase keys))
  /\ (forall a, a ∈ out -> (a ∈ attrs /\ ~ attribute_wildcard a) \/ (asks_all /\ a ∈ keys)).
Proof.
  cbv zeta. unfold expand_attribute_wildcards. split_and!; [apply unique_by_nodup| |].
  - intros k. rewrite unique_by_keys. rewrite list_elem_of_fmap. setoid_rewrite expand_elem.
    rewrite list_elem_of_fmap. set_solver.
  - intros a [Ha _]%unique_by_elem. by apply expand_elem.
Qed.

Lemma lower_star c : ascii_lower c = "*"%char -> c = "*"%char.
Proof. destruct c as [[] [] [] [] [] [] [] []]; vm_compute; intros H; first [reflexivity|discriminate H]. Qed.

(** A wildcard is never left in an expanded list. *)
Lemma expanded_not_star attrs keys a :
  "*"%string ∉ keys -> a ∈ expand_attribute_wildcards attrs keys -> to_ascii_lowercase a <> "*"%string.
Proof.
  intros Hk [Ha _]%unique_by_elem Hl.
  assert (a = "*"%string) as ->.
  { destruct a as [|c [|]]; try done. cbn in Hl. injection Hl as Hc. by apply lower_star in Hc as ->. }
  apply expand_elem in Ha as [[_ Hw]|[_ ?]]; [|done]. apply Hw. by left.
Qed.

(** The stored values decode at the type the schema gives them. *)
Definition values_decode `{B : Bincode} (al : AttributeList) (attributes : list AttributeValue) : Prop :=
  Forall (fun a =>
    match get_attribute_type al (av_name a) with
    | Some (t, is_list) =>
        is_Some (bincode_deserialize (serde_of_attribute t is_list) (serialized_bytes (av_value a)))
    | None => True
    end) attributes.

Lemma get_custom_attribute_total `{C : Crates} `{B : Bincode} {E} extractor attributes name schema :
  values_decode (extractor (get_schema schema)) attributes ->
  exists v, get_custom_attribute (E:=E) extractor attributes name schema = Ok v.
Proof.
  intros Hv. unfold get_custom_attribute.
  destruct (get_attribute_type _ name) as [[t is_list]|] eqn:Ht; [|eauto].
  destruct (List.find _ attributes) as [a|] eqn:Ha; [|eauto].
  apply List.find_some in Ha as [Hin%base.list_elem_of_In Hname%bool_decide_eq_true].
  unfold values_decode in Hv. rewrite Forall_forall in Hv. specialize (Hv a Hin). rewrite Hname, Ht in Hv.
  unfold serialized_unwrap. destruct t, is_list, Hv as [v Hv]; cbn in Hv |- *; rewrite Hv; cbn; eauto.
Qed.

(* ------------------------------------------------------------------ *)
(** ** Witnesses *)

Section NameWitnesses.
#[local] Existing Instance ascii_greek_unicode.

Lemma is_subtree_correct_witness :
  exists b, is_subtree (E:=LdapError) [("uid", "bob"); ("ou", "people"); ("dc", "com")]%string [("dc", "com")]%string = Ok b
    /\ (b = true <-> exists prefix,
          ([("uid", "bob"); ("ou", "people"); ("dc", "com")]%string : list (string * string))
          = prefix ++ [("dc", "com")]%string).
Proof. apply is_subtree_correct; reflexivity. Defined.

Lemma distinguished_name_roundtrip_witness :
  get_user_id_from_distinguished_name (entry_dn "uid" "bob" "people" "dc=example,dc=com")
    [("dc", "example"); ("dc", "com")]%string "dc=example,dc=com" = Ok (user_id_new "bob").
Proof.
  apply (distinguished_name_roundtrip "bob" "dc=example,dc=com" [("dc", "example"); ("dc", "com")]%string);
    [repeat split; vm_compute; reflexivity | vm_compute; reflexivity].
Defined.
End NameWitnesses.
