(* ===== verification/LdapUser.v ===== *)
(** * LDAP: users

    Models [server/src/domain/ldap/user.rs]: the attributes of a user's entry,
    and the translation of LDAP filters to the filters of the domain. *)

From S2P Require Import Prelude RustStd Extern Types Concrete Handler Deserialize Db ExampleDb SqlFilters LdapUtils.
From Stdlib Require Import Ascii String.
From stdpp Require Import strings list gmap.
#[local] Open Scope rust_scope.

Section LdapUser.
Context `{C : Crates} `{B : Bincode} `{T : ErrorTexts}.

(** The shared end of [get_user_attribute] and [get_group_attribute]. *)
Definition drop_single_empty (values : list bytes) : option (list bytes) :=
  match values with
  | [[]] => None
  | _ => Some values
  end.

(** The [NoMatch] arm of [get_user_attribute] and [get_group_attribute]. *)
Definition unmatched_attribute {E} (extractor : Schema -> AttributeList) (attribute : AttributeName)
    (attributes : list AttributeValue) (ignored : list AttributeName) (schema : PublicSchema) :
    outcome E (option (list bytes)) :=
  let a := attribute_name_str attribute in
  if String.eqb a "1.1" then Ok None
  else if String.eqb a "+" then Ok None
  else if String.eqb a "*" then
    Panic "Matched *, * should have been expanded into attribute list and * removed"
  else if bool_decide (attribute ∈ ignored) then Ok None
  else get_custom_attribute extractor attributes attribute schema.

(** Source: server/src/domain/ldap/user.rs#fn get_user_attribute *)
Definition get_user_attribute {E} (user : User) (attribute : string) (base_dn_str : string)
    (groups : option (list GroupDetails)) (ignored_user_attributes : list AttributeName)
    (schema : PublicSchema) : outcome E (option (list bytes)) :=
  let attribute := attribute_name_new attribute in
  let? attribute_values :=
    match map_user_field attribute schema with
    | UFObjectClass =>
        Ok (Some (map into_bytes (["inetOrgPerson"; "posixAccount"; "mailAccount"; "person"]%string
                  ++ map ci_raw (sc_extra_user_object_classes (get_schema schema)))))
    | UFDn => Ok None
    | UFEntryDn =>
        Ok (Some [into_bytes ("uid=" +:+ user_id_str (user_user_id user) +:+ ",ou=people," +:+ base_dn_str)])
    | UFMemberOf =>
        Ok (Some (map (fun g => into_bytes ("cn=" +:+ ci_raw (gd_display_name g) +:+ ",ou=groups," +:+ base_dn_str))
              (default [] groups)))
    | UFPrimaryField ColUserId => Ok (Some [into_bytes (user_id_str (user_user_id user))])
    | UFPrimaryField ColEmail => Ok (Some [into_bytes (ci_raw (user_email user))])
    | UFPrimaryField (ColLowercaseEmail | ColPasswordHash | ColTotpSecret | ColMfaType) =>
        Panic "Should not get here"
    | UFPrimaryField ColUuid => Ok (Some [into_bytes (uuid_str (user_uuid user))])
    | UFPrimaryField ColDisplayName => Ok ((fun d => [into_bytes d]) <$> user_display_name user)
    | UFPrimaryField ColCreationDate => Ok (Some [into_bytes (to_rfc3339 (user_creation_date user))])
    | UFAttribute attr _ _ => get_custom_attribute sc_user_attributes (user_attributes user) attr schema
    | UFNoMatch =>
        unmatched_attribute sc_user_attributes attribute (user_attributes user) ignored_user_attributes schema
    end in
  Ok (attribute_values ≫= drop_single_empty).

(** Source: server/src/domain/ldap/user.rs#const ALL_USER_ATTRIBUTE_KEYS *)
Definition ALL_USER_ATTRIBUTE_KEYS : list string :=
  ["objectclass"; "uid"; "mail"; "givenname"; "sn"; "cn"; "jpegPhoto"; "createtimestamp"; "entryuuid"]%string.

(** [iter.filter_map(|a| Some(LdapPartialAttribute { atype: a, vals: f(a)? })).collect()] *)
Fixpoint partial_attributes {E} (f : string -> outcome E (option (list bytes))) (l : list string) :
    outcome E (list LdapPartialAttribute) :=
  match l with
  | [] => Ok []
  | a :: l =>
      let? v := f a in
      let? rest := partial_attributes f l in
      Ok match v with Some vals => mk_partial_attribute a vals :: rest | None => rest end
  end.

(** Source: server/src/domain/ldap/user.rs#fn make_ldap_search_user_result_entry *)
Definition make_ldap_search_user_result_entry {E} (user : User) (base_dn_str : string)
    (expanded_attributes : list string) (groups : option (list GroupDetails))
    (ignored_user_attributes : list AttributeName) (schema : PublicSchema) :
    outcome E LdapSearchResultEntry :=
  let dn := "uid=" +:+ user_id_str (user_user_id user) +:+ ",ou=people," +:+ base_dn_str in
  let? attributes :=
    partial_attributes
      (fun a => get_user_attribute user a base_dn_str groups ignored_user_attributes schema)
      expanded_attributes in
  Ok (mk_entry dn attributes).

(** [map_err] of the two functions below; [field] is shown as it is. *)
Definition invalid_attribute_value (field : AttributeName) (e : string) : LdapError :=
  mk_ldap_error LOther ("Invalid value for attribute " +:+ attribute_name_str field +:+ ": " +:+ e).

(** Source: server/src/domain/ldap/user.rs#fn get_user_attribute_equality_filter *)
Definition get_user_attribute_equality_filter (field : AttributeName) (typ : AttributeType)
    (is_list : bool) (value : string) : LdapResult UserRequestFilter :=
  omap_ok (UAttributeEquality field)
    (omap_err (invalid_attribute_value field) (deserialize_attribute_value [value] typ is_list)).

(** [{:?}] of an [AttributeName]. *)
Definition attribute_name_debug (a : AttributeName) : string :=
  "AttributeName(CaseInsensitiveString(" +:+ debug_str (attribute_name_str a) +:+ "))".

(** [contains] with the names' own equality, which ignores case. *)
Definition has_object_class (l : list LdapObjectClass) (c : LdapObjectClass) : bool := existsb (ci_eqb c) l.

(** Source: server/src/domain/ldap/user.rs#fn convert_user_filter *)
Fixpoint convert_user_filter (ldap_info : LdapInfo) (filter : LdapFilter) (schema : PublicSchema) :
    LdapResult UserRequestFilter :=
  match filter with
  | FAnd filters =>
      omap_ok UAnd (try_map (fun f => convert_user_filter ldap_info f schema) filters)
  | FOr filters =>
      omap_ok UOr (try_map (fun f => convert_user_filter ldap_info f schema) filters)
  | FNot filter => omap_ok UNot (convert_user_filter ldap_info filter schema)
  | FEquality field value =>
      let field := attribute_name_new field in
      let value := to_ascii_lowercase value in
      match map_user_field field schema with
      | UFPrimaryField ColUserId => Ok (UUserId (user_id_new value))
      | UFPrimaryField ColEmail => Ok (UEquality ColLowercaseEmail value)
      | UFPrimaryField field => Ok (UEquality field value)
      | UFAttribute field typ is_list => get_user_attribute_equality_filter field typ is_list value
      | UFNoMatch => Ok (user_filter_from_bool false)
      | UFObjectClass =>
          Ok (user_filter_from_bool
                (one_of value ["person"; "inetorgperson"; "posixaccount"; "mailaccount"]%string
                 || has_object_class (sc_extra_user_object_classes (get_schema schema)) (mk_ci value)))
      | UFMemberOf =>
          omap_ok UMemberOf
            (get_group_id_from_distinguished_name value (li_base_dn ldap_info) (li_base_dn_str ldap_info))
      | UFEntryDn | UFDn =>
          match get_user_id_from_distinguished_name value (li_base_dn ldap_info) (li_base_dn_str ldap_info) with
          | Ok u => Ok (UUserId u)
          | Err _ => Ok (user_filter_from_bool false)
          | Panic p => Panic p
          end
      end
  | FPresent field =>
      let field := attribute_name_new field in
      Ok (user_filter_from_bool
            (one_of (attribute_name_str field) ["objectclass"; "dn"; "distinguishedname"]%string
             || match map_user_field field schema with UFNoMatch => false | _ => true end))
  | FSubstring field substring_filter =>
      let field := attribute_name_new field in
      match map_user_field field schema with
      | UFPrimaryField ColUserId => Ok (UUserIdSubString (substring_filter_from substring_filter))
      | UFAttribute _ _ _ | UFObjectClass | UFMemberOf | UFDn | UFEntryDn
      | UFPrimaryField ColCreationDate | UFPrimaryField ColUuid =>
          Err (mk_ldap_error LUnwillingToPerform
                 ("Unsupported user attribute for substring filter: " +:+ attribute_name_debug field))
      | UFNoMatch => Ok (user_filter_from_bool false)
      | UFPrimaryField ColEmail => Ok (USubString ColLowercaseEmail (substring_filter_from substring_filter))
      | UFPrimaryField field => Ok (USubString field (substring_filter_from substring_filter))
      end
  | FOther debug => Err (mk_ldap_error LUnwillingToPerform ("Unsupported user filter: " +:+ debug))
  end.

(** Source: server/src/domain/ldap/user.rs#fn expand_user_attribute_wildcards *)
Definition expand_user_attribute_wildcards (attributes : list string) : list string :=
  expand_attribute_wildcards attributes ALL_USER_ATTRIBUTE_KEYS.

(** [list_users] is the backend's, behind the caller's restrictions.
    Source: server/src/domain/ldap/user.rs#fn get_user_list *)
Definition get_user_list {St} (list_users : option UserRequestFilter -> bool -> stM St DomainError (list UserAndGroups))
    (ldap_info : LdapInfo) (ldap_filter : LdapFilter) (request_groups : bool) (base : string)
    (schema : PublicSchema) : stM St LdapError (list UserAndGroups) :=
  let! filters := slift (convert_user_filter ldap_info ldap_filter schema) in
  smap_err (fun e => mk_ldap_error LOther
      ("Error while searching user " +:+ quoted base +:+ ": " +:+ domain_error_display e))
    (list_users (Some filters) request_groups).

(** The attributes are expanded when there is a user, so [unwrap] never fails.
    Source: server/src/domain/ldap/user.rs#fn convert_users_to_ldap_op *)
Definition convert_users_to_ldap_op {E} (users : list UserAndGroups) (attributes : list string)
    (ldap_info : LdapInfo) (schema : PublicSchema) : outcome E (list LdapSearchResultEntry) :=
  let expanded_attributes :=
    match users with [] => None | _ => Some (expand_user_attribute_wildcards attributes) end in
  try_map (fun u =>
    let? expanded := expect "called `Option::unwrap()` on a `None` value" expanded_attributes in
    make_ldap_search_user_result_entry (uag_user u) (li_base_dn_str ldap_info) expanded (uag_groups u)
      (li_ignored_user_attributes ldap_info) schema) users.
End LdapUser.

(* ------------------------------------------------------------------ *)
(** ** Properties *)

(** The configuration's base was parsed, so it is in lower case. *)
Definition ldap_info_ok (li : LdapInfo) : bool := forallb lower_pair (li_base_dn li).

Section LdapUserFacts.
Context `{C : Crates} `{B : Bincode} `{SL : SqlLib}.

(** The columns an LDAP attribute can name. *)
Definition ldap_column (c : UserColumn) : bool :=
  match c with ColUserId | ColEmail | ColDisplayName | ColCreationDate | ColUuid => true | _ => false end.

Lemma map_user_field_primary f schema c : map_user_field f schema = UFPrimaryField c -> ldap_column c = true.
Proof.
  unfold map_user_field. repeat case_match; try done; by intros [= <-].
Qed.

(** Never a panic, and a filter the SQL backend can express. *)
Definition expressible (m : LdapResult UserRequestFilter) : Prop :=
  no_panic m /\ forall f, m = Ok f -> exists c, get_user_filter_expr (E:=DomainError) f = Ok c.

Lemma expressible_ok f c : get_user_filter_expr (E:=DomainError) f = Ok c -> expressible (Ok f).
Proof. intros H. split; [done|]. intros f' [= <-]. eauto. Qed.
Lemma expressible_err e : expressible (Err e).
Proof. by split. Qed.
Lemma expressible_omap {A} (g : A -> UserRequestFilter) (m : LdapResult A) :
  no_panic m -> (forall a, exists c, get_user_filter_expr (E:=DomainError) (g a) = Ok c) -> expressible (omap_ok g m).
Proof.
  intros Hm Hg. split; [apply obind_no_panic; auto with rust|].
  intros f (a & _ & [= <-])%obind_ok. apply Hg.
Qed.
Lemma bool_filter_expr b : exists c, get_user_filter_expr (E:=DomainError) (user_filter_from_bool b) = Ok c.
Proof. destruct b; by eexists. Qed.
Lemma expressible_bool b : expressible (Ok (user_filter_from_bool b)).
Proof. destruct (bool_filter_expr b) as [c Hc]. by eapply expressible_ok. Qed.
Lemma column_filter_expr c v :
  c <> ColUserId -> exists c', get_user_filter_expr (E:=DomainError) (UEquality c v) = Ok c'.
Proof. intros Hc. cbn. rewrite decide_False by done. case_decide; by eexists. Qed.

Lemma expressible_list li schema fs g :
  Forall (fun f => expressible (convert_user_filter li f schema)) fs ->
  (forall ufs cs, try_map (get_user_filter_expr (E:=DomainError)) ufs = Ok cs ->
     exists c, get_user_filter_expr (E:=DomainError) (g ufs) = Ok c) ->
  expressible (omap_ok g (try_map (fun f => convert_user_filter li f schema) fs)).
Proof.
  intros Hfs Hg. rewrite Forall_forall in Hfs. split.
  - apply obind_no_panic; [|auto with rust]. apply try_map_no_panic. intros f Hf. by apply Hfs.
  - intros f (ufs & Hu%try_map_ok & [= <-])%obind_ok.
    assert (Hcs : exists cs, try_map (get_user_filter_expr (E:=DomainError)) ufs = Ok cs).
    { clear Hg. induction Hu as [|f uf fs ufs Huf Hu IH]; [by eexists|].
      destruct (Hfs f ltac:(set_solver)) as [_ Hc]. destruct (Hc uf Huf) as [c Hc'].
      destruct IH as [cs Hcs]; [intros ? ?; apply Hfs; set_solver|].
      exists (c :: cs). cbn. by rewrite Hc', Hcs. }
    destruct Hcs as [cs Hcs]. eauto.
Qed.

Lemma expressible_leaf li schema f :
  ldap_info_ok li = true -> match f with FAnd _ | FOr _ | FNot _ => False | _ => True end ->
  expressible (convert_user_filter li f schema).
Proof.
  intros Hli Hleaf. destruct f as [| | |field v|field s|field|d]; try done; cbn [convert_user_filter].
  - assert (Hid : forall g, no_panic (get_id_from_distinguished_name (to_ascii_lowercase v) (li_base_dn li) (li_base_dn_str li) g))
      by (intros g; apply get_id_no_panic; [apply is_lower_lowercase|done]).
    destruct (map_user_field _ _) as [| | | | |c|a t il] eqn:Hf; try apply expressible_bool.
    + apply expressible_omap; [|by eexists]. apply obind_no_panic; [apply Hid|auto with rust].
    + destruct (get_user_id_from_distinguished_name _ _ _) as [u|e|p] eqn:Hu;
        [by eapply expressible_ok|apply expressible_bool|exfalso].
      revert Hu. apply obind_no_panic; [apply Hid|auto with rust].
    + destruct (get_user_id_from_distinguished_name _ _ _) as [u|e|p] eqn:Hu;
        [by eapply expressible_ok|apply expressible_bool|exfalso].
      revert Hu. apply obind_no_panic; [apply Hid|auto with rust].
    + apply map_user_field_primary in Hf. destruct c; try done; by eapply expressible_ok.
    + apply expressible_omap; [auto with rust|by eexists].
  - destruct (map_user_field _ _) as [| | | | |c|a t il] eqn:Hf; try apply expressible_bool; try apply expressible_err.
    apply map_user_field_primary in Hf.
    destruct c; try done; try apply expressible_err; by eapply expressible_ok.
  - apply expressible_bool.
Qed.

(** C36. Translating a client's filter is safe.  Whatever filter the client
    sends, and whatever the schema, [convert_user_filter] does not panic (its
    names are lower-cased before the assertions of the name parser), and when it
    returns a filter, [get_user_filter_expr] turns it into SQL without reaching
    its own panic on an unwrapped user id. *)
Theorem convert_user_filter_safe li filter schema :
  ldap_info_ok li = true ->
  no_panic (convert_user_filter li filter schema)
  /\ forall f, convert_user_filter li filter schema = Ok f ->
       exists c, get_user_filter_expr (E:=DomainError) f = Ok c.
Proof.
  intros Hli. change (expressible (convert_user_filter li filter schema)).
  induction filter as [fs IH|fs IH|f IH|f Hf] using ldap_filter_ind.
  - apply expressible_list; [done|]. intros [|u us] cs Hcs; [by eexists|].
    exists (CAll cs). cbn [get_user_filter_expr]. by rewrite Hcs.
  - apply expressible_list; [done|]. intros [|u us] cs Hcs; [by eexists|].
    exists (CAny cs). cbn [get_user_filter_expr]. by rewrite Hcs.
  - destruct IH as [Hp He]. split; cbn; [apply obind_no_panic; auto with rust|].
    intros uf (uf' & Huf & [= <-])%obind_ok. destruct (He uf' Huf) as [c Hc].
    exists (CNot c). cbn. by rewrite Hc.
  - by apply expressible_leaf.
Qed.

(** Searching by name ignores only half of the case.  The value of an
    equality filter is lower-cased but the stored display name is compared as it
    is, so a user whose display name has an upper-case letter is found by no
    filter [(cn=...)], not even by its exact name. *)
Theorem display_name_equality_case li schema value db u r name :
  ur_display_name r = Some name -> is_lower name = false ->
  exists f c, convert_user_filter li (FEquality "cn" value) schema = Ok f
    /\ get_user_filter_expr (E:=DomainError) f = Ok c
    /\ user_selected db c u r = false.
Proof.
  intros Hr Hn. do 2 eexists. split; [reflexivity|]. split; [reflexivity|].
  unfold user_selected. cbn. rewrite Hr. cbn.
  destruct (String.eqb_spec name (to_ascii_lowercase value)) as [->|]; [|done].
  by rewrite is_lower_lowercase in Hn.
Qed.

Lemma get_user_attribute_total {E} user a base groups ignored schema :
  values_decode (sc_user_attributes (get_schema schema)) (user_attributes user) ->
  to_ascii_lowercase a <> "*"%string ->
  exists v, get_user_attribute (E:=E) user a base groups ignored schema = Ok v.
Proof.
  intros Hv Ha. unfold get_user_attribute.
  assert (Hc : forall name, exists v, get_custom_attribute (E:=E) sc_user_attributes (user_attributes user) name schema = Ok v)
    by (intros name; by apply get_custom_attribute_total).
  destruct (map_user_field _ _) as [| | | | |c|n t il] eqn:Hf; cbn [obind]; eauto.
  - unfold unmatched_attribute. repeat (case_match; cbn [obind]; eauto).
    + exfalso. apply Ha. by apply String.eqb_eq.
    + destruct (Hc (attribute_name_new a)) as [v ->]. cbn. eauto.
  - apply map_user_field_primary in Hf. destruct c; try done; cbn; eauto.
  - destruct (Hc n) as [v ->]. cbn. eauto.
Qed.

Lemma partial_attributes_total {E} (f : string -> outcome E (option (list bytes))) l :
  (forall a, a ∈ l -> exists v, f a = Ok v) ->
  exists ps, partial_attributes f l = Ok ps /\ map pa_atype ps `sublist_of` l
    /\ Forall (fun p => f (pa_atype p) = Ok (Some (pa_vals p))) ps.
Proof.
  induction l as [|a l IH]; intros Hf; cbn; [by exists []|].
  destruct (Hf a) as [v Hv]; [set_solver|]. rewrite Hv. cbn.
  destruct IH as (ps & -> & Hs & Hps); [intros; apply Hf; set_solver|]. cbn.
  destruct v as [vals|]; eexists; (split; [done|]); cbn; split.
  - by apply sublist_skip.
  - by constructor.
  - by apply sublist_cons.
  - done.
Qed.

Lemma get_user_attribute_nonempty {E} user a base groups ignored schema vals :
  get_user_attribute (E:=E) user a base groups ignored schema = Ok (Some vals) -> vals <> [[]].
Proof.
  unfold get_user_attribute. intros (v & _ & [= H])%obind_ok. destruct v as [vs|]; [|done]. cbn in H.
  destruct vs as [|[|] [|]]; cbn in H; try done; injection H as <-; done.
Qed.

(** A user whose entry can be printed. *)
Definition user_printable (schema : PublicSchema) (user : User) : Prop :=
  dn_safe (user_id_str (user_user_id user))
  /\ values_decode (sc_user_attributes (get_schema schema)) (user_attributes user).

(** What an entry says of its user. *)
Definition user_entry_ok (li : LdapInfo) (attrs : list string) (x : UserAndGroups) (e : LdapSearchResultEntry) : Prop :=
  get_user_id_from_distinguished_name (le_dn e) (li_base_dn li) (li_base_dn_str li) = Ok (user_user_id (uag_user x))
  /\ map pa_atype (le_attributes e) `sublist_of` expand_user_attribute_wildcards attrs
  /\ Forall (fun p => pa_vals p <> [[]]) (le_attributes e).

Lemma all_user_keys_no_star : "*"%string ∉ ALL_USER_ATTRIBUTE_KEYS.
Proof. apply (bool_decide_unpack _). vm_compute. exact I. Qed.

Lemma make_user_entry_correct li x attrs schema :
  parse_distinguished_name (li_base_dn_str li) = Ok (li_base_dn li) ->
  user_printable schema (uag_user x) ->
  exists e, make_ldap_search_user_result_entry (E:=LdapError) (uag_user x) (li_base_dn_str li)
      (expand_user_attribute_wildcards attrs) (uag_groups x) (li_ignored_user_attributes li) schema = Ok e
    /\ user_entry_ok li attrs x e.
Proof.
  intros Hbase [Hid Hv]. unfold make_ldap_search_user_result_entry.
  destruct (partial_attributes_total (E:=LdapError)
    (fun a => get_user_attribute (uag_user x) a (li_base_dn_str li) (uag_groups x) (li_ignored_user_attributes li) schema)
    (expand_user_attribute_wildcards attrs)) as (ps & Hps & Hsub & Hall).
  { intros a Ha. apply get_user_attribute_total; [done|].
    by apply (expanded_not_star _ _ _ all_user_keys_no_star Ha). }
  rewrite Hps. cbn [obind]. eexists. split; [done|]. unfold user_entry_ok. cbn [le_dn le_attributes]. split_and!; [|done|].
  - destruct (read_entry_dn _ _ _ Hid Hbase) as (H & _). rewrite user_id_new_str in H by apply Hid. exact H.
  - eapply Forall_impl; [exact Hall|]. cbn. intros p. apply get_user_attribute_nonempty.
Qed.

(** The entries sent for users.  When the stored values decode under the
    schema and the ids can be written in a name, every user yields one entry, in
    order, without panic; the entry's name reads back as that user's id; its
    attributes are among the expanded requested ones, in their order and each at
    most once; and none of them is a lone empty value. *)
Theorem convert_users_correct li users attrs schema :
  parse_distinguished_name (li_base_dn_str li) = Ok (li_base_dn li) ->
  Forall (fun x => user_printable schema (uag_user x)) users ->
  exists entries, convert_users_to_ldap_op (E:=LdapError) users attrs li schema = Ok entries
    /\ Forall2 (user_entry_ok li attrs) users entries.
Proof.
  intros Hbase Hus. unfold convert_users_to_ldap_op.
  assert (Hgen : forall o, o = Some (expand_user_attribute_wildcards attrs) -> exists entries,
    try_map (E:=LdapError) (fun u => let? expanded := expect "called `Option::unwrap()` on a `None` value" o in
      make_ldap_search_user_result_entry (uag_user u) (li_base_dn_str li) expanded (uag_groups u)
        (li_ignored_user_attributes li) schema) users = Ok entries
    /\ Forall2 (user_entry_ok li attrs) users entries).
  { intros o ->. cbn [expect obind]. induction Hus as [|x us Hx Hus (es & IH & IHF)]; [by exists []|]. cbn [try_map].
    destruct (make_user_entry_correct li x attrs schema Hbase Hx) as (e & -> & He). cbn. rewrite IH. cbn. eauto. }
  destruct users; [by exists []|]. by apply Hgen.
Qed.
End LdapUserFacts.

(* ------------------------------------------------------------------ *)
(** ** Witnesses *)

Definition example_ldap_info : LdapInfo :=
  mk_ldap_info [("dc", "example"); ("dc", "com")]%string "dc=example,dc=com" [] [].
Definition example_schema : PublicSchema :=
  public_schema_from (mk_schema
    (mk_attribute_list [hardcoded "avatar" AJpegPhoto true; hardcoded "first_name" AString true;
                        hardcoded "last_name" AString true])
    (mk_attribute_list []) [] []).

Section LdapUserWitnesses.
#[local] Existing Instances concrete_crates concrete_bincode concrete_sql.

Definition example_ldap_filter : LdapFilter :=
  FAnd [FEquality "objectClass" "person"; FNot (FEquality "memberOf" "cn=Best Group,ou=groups,dc=example,dc=com");
        FSubstring "mail" (mk_ldap_substring (Some "b"%string) [] None)].

Lemma convert_user_filter_safe_witness :
  exists f, convert_user_filter example_ldap_info example_ldap_filter example_schema = Ok f
    /\ exists c, get_user_filter_expr (E:=DomainError) f = Ok c.
Proof.
  eexists. split; [vm_compute; reflexivity|].
  eapply (convert_user_filter_safe example_ldap_info example_ldap_filter example_schema); vm_compute; reflexivity.
Defined.

Lemma display_name_equality_case_witness :
  exists f c, convert_user_filter example_ldap_info (FEquality "cn" "Bob") example_schema = Ok f
    /\ get_user_filter_expr (E:=DomainError) f = Ok c
    /\ user_selected example_db c uid_bob example_bob_row = false.
Proof. apply (display_name_equality_case _ _ _ _ _ _ "Bob"); vm_compute; reflexivity. Defined.

Definition example_listed_bob : UserAndGroups :=
  mk_user_and_groups
    (mk_user uid_bob (mk_ci "Bob@Example.com") (Some "Bob"%string) 1000 (mk_uuid "bob")
       [mk_attribute_value (attribute_name_new "first_name") (serialized_from TyString "Bob"%string)])
    (Some [mk_group_details 4 (mk_ci "Best Group") 1000 (mk_uuid "Best Group") []]).

Lemma convert_users_correct_witness :
  exists entries,
    convert_users_to_ldap_op (E:=LdapError) [example_listed_bob] ["uid"; "CN"; "*"]%string example_ldap_info example_schema
    = Ok entries
    /\ map le_dn entries = ["uid=bob,ou=people,dc=example,dc=com"]%string.
Proof.
  edestruct (convert_users_correct example_ldap_info [example_listed_bob] ["uid"; "CN"; "*"]%string example_schema)
    as (es & He & _).
  - vm_compute. reflexivity.
  - constructor; [|constructor]. split; [repeat split; vm_compute; reflexivity|].
    constructor; [|constructor]. vm_compute. eexists. reflexivity.
  - exists es. split; [exact He|]. vm_compute in He. injection He as <-. reflexivity.
Defined.
End LdapUserWitnesses.
