(* ===== verification/LdapGroup.v ===== *)
(** * LDAP: groups

    Models [server/src/domain/ldap/group.rs]: the attributes of a group's entry,
    and the translation of LDAP filters to the group filters of the domain. *)

From S2P Require Import Prelude RustStd Extern Types Concrete Handler Deserialize Db ExampleDb SqlFilters LdapUtils LdapUser.
From Stdlib Require Import Ascii String.
From stdpp Require Import strings list gmap.
#[local] Open Scope rust_scope.

Section LdapGroup.
Context `{C : Crates} `{B : Bincode} `{T : ErrorTexts}.

(** Source: server/src/domain/ldap/group.rs#fn get_group_attribute *)
Definition get_group_attribute {E} (group : Group) (base_dn_str : string) (attribute : string)
    (user_filter : option UserId) (ignored_group_attributes : list AttributeName)
    (schema : PublicSchema) : outcome E (option (list bytes)) :=
  let attribute := attribute_name_new attribute in
  let? attribute_values :=
    match map_group_field attribute schema with
    | GFObjectClass =>
        Ok (Some (map into_bytes ("groupOfUniqueNames"%string
                  :: map ci_raw (sc_extra_group_object_classes (get_schema schema)))))
    | GFDn => Ok None
    | GFEntryDn =>
        Ok (Some [into_bytes ("uid=" +:+ ci_raw (group_display_name group) +:+ ",ou=groups," +:+ base_dn_str)])
    | GFDisplayName => Ok (Some [into_bytes (ci_raw (group_display_name group))])
    | GFCreationDate => Ok (Some [into_bytes (to_rfc3339 (group_creation_date group))])
    | GFMember =>
        let users := List.filter (fun u => match user_filter with Some f => bool_decide (u = f) | None => true end)
                       (group_users group) in
        Ok (Some (map (fun u => into_bytes ("uid=" +:+ user_id_str u +:+ ",ou=people," +:+ base_dn_str)) users))
    | GFUuid => Ok (Some [into_bytes (uuid_str (group_uuid group))])
    | GFAttribute attr _ _ => get_custom_attribute sc_group_attributes (group_attributes group) attr schema
    | GFNoMatch =>
        unmatched_attribute sc_group_attributes attribute (group_attributes group) ignored_group_attributes schema
    end in
  Ok (attribute_values ≫= drop_single_empty).

(** Source: server/src/domain/ldap/group.rs#const ALL_GROUP_ATTRIBUTE_KEYS *)
Definition ALL_GROUP_ATTRIBUTE_KEYS : list string :=
  ["objectclass"; "uid"; "cn"; "member"; "uniquemember"; "entryuuid"]%string.

(** Source: server/src/domain/ldap/group.rs#fn expand_group_attribute_wildcards *)
Definition expand_group_attribute_wildcards (attributes : list string) : list string :=
  expand_attribute_wildcards attributes ALL_GROUP_ATTRIBUTE_KEYS.

(** Source: server/src/domain/ldap/group.rs#fn make_ldap_search_group_result_entry *)
Definition make_ldap_search_group_result_entry {E} (group : Group) (base_dn_str : string)
    (expanded_attributes : list string) (user_filter : option UserId)
    (ignored_group_attributes : list AttributeName) (schema : PublicSchema) :
    outcome E LdapSearchResultEntry :=
  let dn := "cn=" +:+ ci_raw (group_display_name group) +:+ ",ou=groups," +:+ base_dn_str in
  let? attributes :=
    partial_attributes
      (fun a => get_group_attribute group base_dn_str a user_filter ignored_group_attributes schema)
      expanded_attributes in
  Ok (mk_entry dn attributes).

(** Source: server/src/domain/ldap/group.rs#fn get_group_attribute_equality_filter *)
Definition get_group_attribute_equality_filter (field : AttributeName) (typ : AttributeType)
    (is_list : bool) (value : string) : LdapResult GroupRequestFilter :=
  omap_ok (GAttributeEquality field)
    (omap_err (invalid_attribute_value field) (deserialize_attribute_value [value] typ is_list)).

(** Source: server/src/domain/ldap/group.rs#fn convert_group_filter *)
Fixpoint convert_group_filter (ldap_info : LdapInfo) (filter : LdapFilter) (schema : PublicSchema) :
    LdapResult GroupRequestFilter :=
  match filter with
  | FEquality field value =>
      let field := attribute_name_new field in
      let value := to_ascii_lowercase value in
      match map_group_field field schema with
      | GFDisplayName => Ok (GDisplayName (mk_ci value))
      | GFUuid =>
          omap_ok GUuid
            (omap_err (fun e => mk_ldap_error LInappropriateMatching ("Invalid UUID: " +:+ e))
               (uuid_try_from value))
      | GFMember =>
          let? user_name :=
            get_user_id_from_distinguished_name value (li_base_dn ldap_info) (li_base_dn_str ldap_info) in
          Ok (GMember user_name)
      | GFObjectClass =>
          Ok (group_filter_from_bool
                (one_of value ["groupofuniquenames"; "groupofnames"]%string
                 || has_object_class (sc_extra_group_object_classes (get_schema schema)) (mk_ci value)))
      | GFDn | GFEntryDn =>
          match get_group_id_from_distinguished_name value (li_base_dn ldap_info) (li_base_dn_str ldap_info) with
          | Ok g => Ok (GDisplayName g)
          | Err _ => Ok (group_filter_from_bool false)
          | Panic p => Panic p
          end
      | GFNoMatch => Ok (group_filter_from_bool false)
      | GFAttribute field typ is_list => get_group_attribute_equality_filter field typ is_list value
      | GFCreationDate =>
          Err (mk_ldap_error LUnwillingToPerform "Creation date filter for groups not supported")
      end
  | FAnd filters =>
      omap_ok GAnd (try_map (fun f => convert_group_filter ldap_info f schema) filters)
  | FOr filters =>
      omap_ok GOr (try_map (fun f => convert_group_filter ldap_info f schema) filters)
  | FNot filter => omap_ok GNot (convert_group_filter ldap_info filter schema)
  | FPresent field =>
      Ok (group_filter_from_bool
            match map_group_field (attribute_name_new field) schema with GFNoMatch => false | _ => true end)
  | FSubstring field substring_filter =>
      let field := attribute_name_new field in
      match map_group_field field schema with
      | GFDisplayName => Ok (GDisplayNameSubString (substring_filter_from substring_filter))
      | GFNoMatch => Ok (group_filter_from_bool false)
      | _ => Err (mk_ldap_error LUnwillingToPerform
               ("Unsupported group attribute for substring filter: " +:+ quoted (attribute_name_str field)))
      end
  | FOther debug => Err (mk_ldap_error LUnwillingToPerform ("Unsupported group filter: " +:+ debug))
  end.

(** Source: server/src/domain/ldap/group.rs#fn get_groups_list *)
Definition get_groups_list {St} (list_groups : option GroupRequestFilter -> stM St DomainError (list Group))
    (ldap_info : LdapInfo) (ldap_filter : LdapFilter) (base : string) (schema : PublicSchema) :
    stM St LdapError (list Group) :=
  let! filters := slift (convert_group_filter ldap_info ldap_filter schema) in
  smap_err (fun e => mk_ldap_error LOther
      ("Error while listing groups " +:+ quoted base +:+ ": " +:+ domain_error_display e))
    (list_groups (Some filters)).

(** Source: server/src/domain/ldap/group.rs#fn convert_groups_to_ldap_op *)
Definition convert_groups_to_ldap_op {E} (groups : list Group) (attributes : list string)
    (ldap_info : LdapInfo) (user_filter : option UserId) (schema : PublicSchema) :
    outcome E (list LdapSearchResultEntry) :=
  let expanded_attributes :=
    match groups with [] => None | _ => Some (expand_group_attribute_wildcards attributes) end in
  try_map (fun g =>
    let? expanded := expect "called `Option::unwrap()` on a `None` value" expanded_attributes in
    make_ldap_search_group_result_entry g (li_base_dn_str ldap_info) expanded user_filter
      (li_ignored_group_attributes ldap_info) schema) groups.
End LdapGroup.

(* ------------------------------------------------------------------ *)
(** ** Properties *)

Section LdapGroupFacts.
Context `{C : Crates} `{B : Bincode}.

Lemma convert_group_filter_no_panic li filter schema :
  ldap_info_ok li = true -> no_panic (convert_group_filter li filter schema).
Proof.
  intros Hli. induction filter as [fs IH|fs IH|f IH|f Hf] using ldap_filter_ind; cbn.
  - rewrite Forall_forall in IH. apply obind_no_panic; [by apply try_map_no_panic|auto with rust].
  - rewrite Forall_forall in IH. apply obind_no_panic; [by apply try_map_no_panic|auto with rust].
  - apply obind_no_panic; auto with rust.
  - destruct f as [| | |field v|field s|field|d]; try done; cbn [convert_group_filter].
    + assert (Hid : forall g, no_panic (get_id_from_distinguished_name (to_ascii_lowercase v) (li_base_dn li) (li_base_dn_str li) g))
        by (intros g; apply get_id_no_panic; [apply is_lower_lowercase|done]).
      assert (Hg : no_panic (get_group_id_from_distinguished_name (to_ascii_lowercase v) (li_base_dn li) (li_base_dn_str li)))
        by (apply obind_no_panic; [apply Hid|auto with rust]).
      destruct (map_group_field _ _); try done.
      * by destruct (get_group_id_from_distinguished_name _ _ _) eqn:Hd; [..|destruct (Hg msg)].
      * by destruct (get_group_id_from_distinguished_name _ _ _) eqn:Hd; [..|destruct (Hg msg)].
      * apply obind_no_panic; [|auto with rust]. apply obind_no_panic; [apply Hid|auto with rust].
      * apply obind_no_panic; [|auto with rust]. apply omap_err_no_panic. unfold uuid_try_from. by case_match.
      * apply obind_no_panic; auto with rust.
    + by case_match.
Qed.

(** Translating a client's group filter is safe: whatever the filter and
    the schema, [convert_group_filter] does not panic, and it is a homomorphism of
    the boolean structure, so that an error in a part is an error of the whole. *)
Theorem convert_group_filter_safe li filter schema :
  ldap_info_ok li = true ->
  no_panic (convert_group_filter li filter schema)
  /\ forall g, convert_group_filter li filter schema = Ok g ->
       match filter with
       | FAnd fs => exists gs, g = GAnd gs /\ Forall2 (fun f g => convert_group_filter li f schema = Ok g) fs gs
       | FOr fs => exists gs, g = GOr gs /\ Forall2 (fun f g => convert_group_filter li f schema = Ok g) fs gs
       | FNot f => exists g', g = GNot g' /\ convert_group_filter li f schema = Ok g'
       | _ => True
       end.
Proof.
  intros Hli. split; [by apply convert_group_filter_no_panic|]. intros g.
  destruct filter as [fs|fs|f| | | |]; try done; cbn; intros (x & Hx & [= <-])%obind_ok;
    try apply try_map_ok in Hx; eauto.
Qed.

Lemma get_group_attribute_total {E} group base a uf ignored schema :
  values_decode (sc_group_attributes (get_schema schema)) (group_attributes group) ->
  to_ascii_lowercase a <> "*"%string ->
  exists v, get_group_attribute (E:=E) group base a uf ignored schema = Ok v.
Proof.
  intros Hv Ha. unfold get_group_attribute.
  assert (Hc : forall name, exists v, get_custom_attribute (E:=E) sc_group_attributes (group_attributes group) name schema = Ok v)
    by (intros name; by apply get_custom_attribute_total).
  destruct (map_group_field _ _) as [| | | | | | | |n t il]; cbn [obind]; eauto.
  - unfold unmatched_attribute. repeat (case_match; cbn [obind]; eauto).
    + exfalso. apply Ha. by apply String.eqb_eq.
    + destruct (Hc (attribute_name_new a)) as [v ->]. cbn. eauto.
  - destruct (Hc n) as [v ->]. cbn. eauto.
Qed.

Lemma all_group_keys_no_star : "*"%string ∉ ALL_GROUP_ATTRIBUTE_KEYS.
Proof. apply (bool_decide_unpack _). vm_compute. exact I. Qed.

(** What a regular user reads of the members of a group. *)
Lemma group_members_restricted {E} group base u ignored schema vals a :
  map_group_field (attribute_name_new a) schema = GFMember ->
  get_group_attribute (E:=E) group base a (Some u) ignored schema = Ok (Some vals) ->
  Forall (fun v => v = into_bytes (entry_dn "uid" (user_id_str u) "people" base)) vals.
Proof.
  intros Ha. unfold get_group_attribute. rewrite Ha. cbn [obind mbind option_bind]. intros [= H].
  assert (Hall : Forall (fun v => v = into_bytes (entry_dn "uid" (user_id_str u) "people" base))
    (map (fun u => into_bytes ("uid=" +:+ user_id_str u +:+ ",ou=people," +:+ base))
       (List.filter (fun u' => bool_decide (u' = u)) (group_users group)))).
  { apply Forall_forall. intros v (u' & -> & Hu)%list_elem_of_fmap.
    apply base.list_elem_of_In, List.filter_In in Hu as [_ ->%bool_decide_eq_true]. done. }
  unfold drop_single_empty in H. repeat case_match; try done; by injection H as <-.
Qed.

(** What an entry says of its group. *)
Definition group_entry_ok (li : LdapInfo) (attrs : list string) (user_filter : option UserId)
    (schema : PublicSchema) (g : Group) (e : LdapSearchResultEntry) : Prop :=
  le_dn e = entry_dn "cn" (ci_raw (group_display_name g)) "groups" (li_base_dn_str li)
  /\ map pa_atype (le_attributes e) `sublist_of` expand_group_attribute_wildcards attrs
  /\ forall u p, user_filter = Some u -> p ∈ le_attributes e ->
       map_group_field (attribute_name_new (pa_atype p)) schema = GFMember ->
       Forall (fun v => v = into_bytes (entry_dn "uid" (user_id_str u) "people" (li_base_dn_str li))) (pa_vals p).

(** The entries sent for groups.  When the stored values decode under the
    schema, every group yields one entry, in order, without panic, named after the
    group; its attributes are among the expanded requested ones, in their order;
    and under the restricted lister of a regular user the members shown are that
    user and no one else. *)
Theorem convert_groups_correct li groups attrs user_filter schema :
  Forall (fun g => values_decode (sc_group_attributes (get_schema schema)) (group_attributes g)) groups ->
  exists entries, convert_groups_to_ldap_op (E:=LdapError) groups attrs li user_filter schema = Ok entries
    /\ Forall2 (group_entry_ok li attrs user_filter schema) groups entries.
Proof.
  intros Hgs. unfold convert_groups_to_ldap_op.
  cut (forall o, o = Some (expand_group_attribute_wildcards attrs) -> exists entries,
    try_map (E:=LdapError) (fun g => let? expanded := expect "called `Option::unwrap()` on a `None` value" o in
      make_ldap_search_group_result_entry g (li_base_dn_str li) expanded user_filter
        (li_ignored_group_attributes li) schema) groups = Ok entries /\ Forall2 (group_entry_ok li attrs user_filter schema) groups entries).
  { intros H. destruct groups; [by exists []|]. by apply H. }
  intros o ->. cbn [expect obind]. induction Hgs as [|g gs Hg Hgs (es & IH & IHF)]; [by exists []|].
  unfold make_ldap_search_group_result_entry in IH |- *. cbn [try_map].
  destruct (partial_attributes_total (E:=LdapError)
    (fun a => get_group_attribute g (li_base_dn_str li) a user_filter (li_ignored_group_attributes li) schema)
    (expand_group_attribute_wildcards attrs)) as (ps & Hps & Hsub & Hall).
  { intros a Ha. apply get_group_attribute_total; [done|].
    by apply (expanded_not_star _ _ _ all_group_keys_no_star Ha). }
  rewrite Hps. cbn [obind]. rewrite IH. cbn [obind]. eexists. split; [done|]. constructor; [|done].
  cbn [le_dn le_attributes]. split_and!; [done..|]. intros u p -> Hp Hm.
  rewrite Forall_forall in Hall. by eapply group_members_restricted, Hall.
Qed.
End LdapGroupFacts.

(* ------------------------------------------------------------------ *)
(** ** Witnesses *)

Section LdapGroupWitnesses.
#[local] Existing Instances concrete_crates concrete_bincode.

Lemma convert_group_filter_safe_witness :
  no_panic (convert_group_filter example_ldap_info
    (FAnd [FEquality "objectclass" "GroupOfNames"; FEquality "member" "uid=Bob,ou=people,dc=example,dc=com"]%string)
    example_schema).
Proof. apply convert_group_filter_safe. vm_compute. reflexivity. Defined.

Definition example_listed_group : Group :=
  mk_group 4 (mk_ci "Best Group") 1000 (mk_uuid "Best Group") [uid_bob; uid_john] [].

Lemma convert_groups_correct_witness :
  exists entries,
    convert_groups_to_ldap_op (E:=LdapError) [example_listed_group] ["cn"; "member"]%string example_ldap_info
      (Some uid_bob) example_schema = Ok entries
    /\ Forall2 (group_entry_ok example_ldap_info ["cn"; "member"]%string (Some uid_bob) example_schema)
         [example_listed_group] entries.
Proof. apply convert_groups_correct. constructor; [constructor|constructor]. Defined.
End LdapGroupWitnesses.
