(* ===== verification/LdapHandler.v ===== *)
(** * LDAP: the protocol handler

    Models [server/src/infra/ldap_handler.rs] and the message loop of
    [server/src/infra/ldap_server.rs]: a session is the identity bound so far and
    the backend's state.  The session's backend is any instance of the traits of
    [Handler] and [SqlOpaque]. *)

From S2P Require Import Prelude RustStd Extern Types Concrete Handler Deserialize Db ExampleDb SqlFilters SqlSchema SqlUser SqlGroup SqlBackend SqlTcp SqlOpaque AccessControl LdapUtils LdapUser LdapGroup.
From Stdlib Require Import Ascii String.
From stdpp Require Import strings list gmap.
#[local] Open Scope rust_scope.

(* ------------------------------------------------------------------ *)
(** ** Messages ([ldap3_proto]) *)

Record LdapResultOp := mk_result_op {
  ro_code : LdapResultCode;
  ro_matcheddn : string;
  ro_message : string;
  ro_referral : list string;
}.

Inductive LdapBindCred := CredSimple (password : string) | CredSASL.
Record LdapBindRequest := mk_ldap_bind { lb_dn : string; lb_cred : LdapBindCred }.

(** The fields the server reads. *)
Record LdapSearchRequest := mk_search {
  sr_base : string;
  sr_scope : LdapSearchScope;
  sr_filter : LdapFilter;
  sr_attrs : list string;
}.

Inductive LdapModifyType := ModAdd | ModDelete | ModReplace.
#[global] Instance ldap_modify_type_eq_dec : EqDecision LdapModifyType.
Proof. solve_decision. Defined.
Record LdapModify := mk_modify { lm_operation : LdapModifyType; lm_modification : LdapPartialAttribute }.
Record LdapModifyRequest := mk_modify_request { mr_dn : string; mr_changes : list LdapModify }.
Record LdapAddRequest := mk_add_request { ar_dn : string; ar_attributes : list LdapPartialAttribute }.
Record LdapCompareRequest := mk_compare_request { cr_dn : string; cr_atype : string; cr_val : bytes }.
Record LdapExtendedRequest := mk_extended_request { er_name : string; er_value : option bytes }.
Record LdapPasswordModifyRequest := mk_password_modify {
  pm_user_identity : option string;
  pm_old_password : option string;
  pm_new_password : option string;
}.

(** The operations the server reads or writes; the others by their [Debug]
    text. *)
Inductive LdapOp :=
| OpBindRequest (r : LdapBindRequest)
| OpBindResponse (r : LdapResultOp)
| OpUnbindRequest
| OpSearchRequest (r : LdapSearchRequest)
| OpSearchResultEntry (e : LdapSearchResultEntry)
| OpSearchResultDone (r : LdapResultOp)
| OpModifyRequest (r : LdapModifyRequest)
| OpModifyResponse (r : LdapResultOp)
| OpAddRequest (r : LdapAddRequest)
| OpAddResponse (r : LdapResultOp)
| OpCompareRequest (r : LdapCompareRequest)
| OpCompareResult (r : LdapResultOp)
| OpExtendedRequest (r : LdapExtendedRequest)
| OpExtendedResponse (r : LdapResultOp)
| OpOther (debug : string).

(** What the crate computes for the handler: the decoding of the password
    modification's payload, and [Debug] texts. *)
Class Ldap3 : Type := {
  parse_password_modify : LdapExtendedRequest -> option LdapPasswordModifyRequest;
  ldap_op_debug : LdapOp -> string;
  modify_type_debug : LdapModifyType -> string;
  utf8_error_debug : bytes -> string;
}.

(** [OsRng], behind the state. *)
Class OsRng (St : Type) : Type := { os_rng : forall E, stM St E string }.
Arguments os_rng {St _ E}.

(* ------------------------------------------------------------------ *)
(** ** Scopes and answers *)

(** Source: server/src/infra/ldap_handler.rs#enum SearchScope *)
Inductive SearchScope :=
| SGlobal | SUsers | SGroups | SUser (f : LdapFilter) | SGroup (f : LdapFilter)
| SUserOuOnly | SGroupOuOnly | SUnknown | SInvalid.

(** Source: server/src/infra/ldap_handler.rs#enum InternalSearchResults *)
Inductive InternalSearchResults :=
| UsersAndGroups (users : list UserAndGroups) (groups : list Group)
| Raw (ops : list LdapOp)
| Empty.

(** Source: server/src/infra/ldap_handler.rs#fn get_search_scope *)
Definition get_search_scope {E} (base_dn dn_parts : list (string * string)) (ldap_scope : LdapSearchScope) :
    outcome E SearchScope :=
  let base_dn_len := length base_dn in
  let is_part i p := match dn_parts !! i with Some q => bool_decide (q = p) | None => false end in
  let people := ("ou", "people")%string in
  let groups := ("ou", "groups")%string in
  let? subtree := is_subtree dn_parts base_dn in
  if negb subtree then Ok SInvalid
  else if Nat.eqb (length dn_parts) base_dn_len then Ok SGlobal
  else if Nat.eqb (length dn_parts) (base_dn_len + 1) && is_part 0 people then
    Ok (if bool_decide (ldap_scope = ScopeBase) then SUserOuOnly else SUsers)
  else if Nat.eqb (length dn_parts) (base_dn_len + 1) && is_part 0 groups then
    Ok (if bool_decide (ldap_scope = ScopeBase) then SGroupOuOnly else SGroups)
  else if Nat.eqb (length dn_parts) (base_dn_len + 2) && is_part 1 people then
    let? p := expect "index out of bounds" (dn_parts !! 0) in Ok (SUser (FEquality p.1 p.2))
  else if Nat.eqb (length dn_parts) (base_dn_len + 2) && is_part 1 groups then
    let? p := expect "index out of bounds" (dn_parts !! 0) in Ok (SGroup (FEquality p.1 p.2))
  else Ok SUnknown.

(** Source: server/src/infra/ldap_handler.rs#fn make_search_request *)
Definition make_search_request (base : string) (filter : LdapFilter) (attrs : list string) : LdapSearchRequest :=
  mk_search base ScopeSubtree filter attrs.

Definition plain_result (code : LdapResultCode) (message : string) : LdapResultOp :=
  mk_result_op code "" message [].
(** Source: server/src/infra/ldap_handler.rs#fn make_search_error *)
Definition make_search_error (code : LdapResultCode) (message : string) : LdapOp :=
  OpSearchResultDone (plain_result code message).
(** Source: server/src/infra/ldap_handler.rs#fn make_search_success *)
Definition make_search_success : LdapOp := make_search_error LSuccess "".
(** Source: server/src/infra/ldap_handler.rs#fn make_add_error *)
Definition make_add_error (code : LdapResultCode) (message : string) : LdapOp :=
  OpAddResponse (plain_result code message).
(** Source: server/src/infra/ldap_handler.rs#fn make_extended_response *)
Definition make_extended_response (code : LdapResultCode) (message : string) : LdapOp :=
  OpExtendedResponse (plain_result code message).
(** Source: server/src/infra/ldap_handler.rs#fn make_modify_response *)
Definition make_modify_response (code : LdapResultCode) (message : string) : LdapOp :=
  OpModifyResponse (plain_result code message).

(** The version is a constant of the build.
    Source: server/src/infra/ldap_handler.rs#fn root_dse_response *)
Definition root_dse_response (version base_dn : string) : LdapOp :=
  let attribute name values := mk_partial_attribute name (map into_bytes values) in
  OpSearchResultEntry (mk_entry ""
    [attribute "objectClass"%string ["top"%string];
     attribute "vendorName"%string ["LLDAP"%string];
     attribute "vendorVersion"%string ["lldap_" +:+ version];
     attribute "supportedLDAPVersion"%string ["3"%string];
     attribute "supportedExtension"%string ["1.3.6.1.4.1.4203.1.11.1"%string];
     attribute "supportedControl"%string [];
     attribute "supportedFeatures"%string ["1.3.6.1.4.1.4203.1.5.1"%string];
     attribute "defaultNamingContext"%string [base_dn];
     attribute "namingContexts"%string [base_dn];
     attribute "isGlobalCatalogReady"%string ["false"%string]]).

(* ------------------------------------------------------------------ *)
(** ** The handler *)

(** The two fields of the handler that the requests read or change; the third
    is the parameter [ldap_info] below.
    Source: server/src/infra/ldap_handler.rs#struct LdapHandler *)
Record LdapSession (St : Type) := mk_session {
  user_info : option ValidationResults;
  backend_state : St;
}.
Arguments mk_session {St} _ _.
Arguments user_info {St} _.
Arguments backend_state {St} _.

(** Source: server/src/infra/ldap_handler.rs#@1 fn new *)
Definition ldap_info_new {E} `{Unicode} (ldap_base_dn : string)
    (ignored_user_attributes ignored_group_attributes : list AttributeName) : outcome E LdapInfo :=
  let ldap_base_dn := to_ascii_lowercase ldap_base_dn in
  match parse_distinguished_name ldap_base_dn with
  | Ok base_dn => Ok (mk_ldap_info base_dn ldap_base_dn ignored_user_attributes ignored_group_attributes)
  | Err _ => Panic ("Invalid value for ldap_base_dn in configuration: " +:+ ldap_base_dn)
  | Panic p => Panic p
  end.

Section LdapHandler.
Context {St : Type} `{BH : !BackendHandler St} `{LH : !LoginHandler St} `{OL : OpaqueLib}
  `{OH : !OpaqueHandler St} `{R : !OsRng St}.
Context `{C : Crates} `{B : Bincode} `{T : ErrorTexts} `{L3 : Ldap3}.
Context (version : string) (ldap_info : LdapInfo).

Abbreviation session A := (stM (LdapSession St) LdapError A).

Definition on_backend {E A} (m : stM St E A) : stM (LdapSession St) E A :=
  szoom backend_state (fun t s => mk_session (user_info s) t) m.
Definition get_user_info {E} : stM (LdapSession St) E (option ValidationResults) :=
  let! s := sget in sret (user_info s).
Definition set_user_info {E} (u : option ValidationResults) : stM (LdapSession St) E unit :=
  smodify (fun s => mk_session u (backend_state s)).

(** [r.unwrap_or_else(f)] *)
Definition sunwrap_or_else {S E E' A} (f : E -> A) (m : stM S E A) : stM S E' A :=
  let! r := stry m in
  sret match r with inl e => f e | inr a => a end.

Definition not_bound : LdapError := mk_ldap_error LInsufficentAccessRights "No user currently bound".

(** Source: server/src/infra/ldap_handler.rs#async fn do_bind *)
Definition do_bind {E} (request : LdapBindRequest) : stM (LdapSession St) E (LdapResultCode * string) :=
  let! dn := stry (slift (get_user_id_from_distinguished_name (to_ascii_lowercase (lb_dn request))
                            (li_base_dn ldap_info) (li_base_dn_str ldap_info))) in
  match dn with
  | inl e => sret (LNamingViolation, er_message e)
  | inr user_id =>
      match lb_cred request with
      | CredSASL => sret (LUnwillingToPerform, "SASL not supported"%string)
      | CredSimple password =>
          let! r := on_backend (stry (lh_bind (mk_bind_request user_id password))) in
          match r with
          | inr _ =>
              let! permissions := on_backend (stry (get_permissions_for_user user_id)) in
              set_user_info match permissions with inr v => Some v | inl _ => None end ;;
              sret (LSuccess, ""%string)
          | inl _ => sret (LInvalidCredentials, ""%string)
          end
      end
  end.

(** The error is the text that the callers show.
    Source: server/src/infra/ldap_handler.rs#async fn change_password *)
Definition change_password (user : UserId) (password : bytes) : stM St string unit :=
  let! r1 := os_rng in
  let! '(state, message) :=
    slift (ok_or protocol_error_debug (client_start_registration r1 password)) in
  let! start_response :=
    smap_err domain_error_debug (oh_registration_start (mk_registration_start user message)) in
  let! r2 := os_rng in
  let! upload := slift (ok_or protocol_error_debug
    (ke_client_registration_finish r2 state (rr_registration_response start_response))) in
  smap_err domain_error_debug
    (oh_registration_finish (mk_registration_finish (rr_server_data start_response) upload)).

(** Is the target an administrator, as the caller may read it?  The lines the
    password modification and the modify request share.
    Source: server/src/infra/ldap_handler.rs#L348-361 *)
Definition target_is_admin (credentials : ValidationResults) (uid : UserId) : session bool :=
  let! readable := slift (expect "Unexpected permission error" (get_readable_handler credentials uid)) in
  let! groups := smap_err (fun e => mk_ldap_error LOperationsError
      ("Internal error while requesting user's groups: " +:+ domain_error_debug e))
    (on_backend (rd_get_user_groups readable uid)) in
  sret (existsb (fun g => ci_eqb (gd_display_name g) (mk_ci "lldap_admin")) groups).

Definition cannot_modify (credentials : ValidationResults) (uid : UserId) : LdapError :=
  mk_ldap_error LInsufficentAccessRights
    ("User `" +:+ user_id_str (vr_user credentials) +:+ "` cannot modify the password of user `"
     +:+ user_id_str uid +:+ "`").
Definition password_error (e : string) : LdapError :=
  mk_ldap_error LOther ("Error while changing the password: " +:+ e).
Definition invalid_username (e : LdapError) : LdapError :=
  mk_ldap_error LInvalidDNSyntax ("Invalid username: " +:+ er_message e).

(** Source: server/src/infra/ldap_handler.rs#async fn do_password_modification *)
Definition do_password_modification (request : LdapPasswordModifyRequest) : session (list LdapOp) :=
  let! info := get_user_info in
  let! credentials := slift (ok_or not_bound info) in
  match pm_user_identity request, pm_new_password request with
  | Some user, Some password =>
      let! uid := slift (omap_err invalid_username
        (get_user_id_from_distinguished_name user (li_base_dn ldap_info) (li_base_dn_str ldap_info))) in
      let! user_is_admin := target_is_admin credentials uid in
      if negb (can_change_password credentials uid user_is_admin) then sthrow (cannot_modify credentials uid)
      else
        smap_err password_error (on_backend (change_password uid (into_bytes password))) ;;
        sret [make_extended_response LSuccess ""]
  | _, _ => sthrow (mk_ldap_error LConstraintViolation "Missing either user_id or password")
  end.

(** Source: server/src/infra/ldap_handler.rs#async fn do_extended_request *)
Definition do_extended_request {E} (request : LdapExtendedRequest) : stM (LdapSession St) E (list LdapOp) :=
  match parse_password_modify request with
  | Some password_request =>
      sunwrap_or_else (fun e => [make_extended_response (er_code e) (er_message e)])
        (do_password_modification password_request)
  | None => sret [make_extended_response LUnwillingToPerform
                    ("Unsupported extended operation: " +:+ er_name request)]
  end.

(** Source: server/src/infra/ldap_handler.rs#async fn handle_modify_change *)
Definition handle_modify_change (user_id : UserId) (credentials : ValidationResults) (user_is_admin : bool)
    (change : LdapModify) : session unit :=
  let m := lm_modification change in
  if negb (String.eqb (to_ascii_lowercase (pa_atype m)) "userpassword")
     || negb (bool_decide (lm_operation change = ModReplace)) then
    sthrow (mk_ldap_error LUnwillingToPerform
      ("Unsupported operation: `" +:+ modify_type_debug (lm_operation change) +:+ "` for `"
       +:+ pa_atype m +:+ "`"))
  else if negb (can_change_password credentials user_id user_is_admin) then
    sthrow (cannot_modify credentials user_id)
  else match pa_vals m with
       | [value] => smap_err password_error (on_backend (change_password user_id value))
       | vals => sthrow (mk_ldap_error LInvalidAttributeSyntax
           ("Wrong number of values for password attribute: " +:+ i64_to_string (Z.of_nat (length vals))))
       end.

(** Source: server/src/infra/ldap_handler.rs#async fn handle_modify_request *)
Definition handle_modify_request (request : LdapModifyRequest) : session (list LdapOp) :=
  let! info := get_user_info in
  let! credentials := slift (ok_or not_bound info) in
  let! uid := slift (omap_err invalid_username
    (get_user_id_from_distinguished_name (mr_dn request) (li_base_dn ldap_info) (li_base_dn_str ldap_info))) in
  let! user_is_admin := target_is_admin credentials uid in
  sfor (handle_modify_change uid credentials user_is_admin) (mr_changes request) ;;
  sret [make_modify_response LSuccess ""].

(** Source: server/src/infra/ldap_handler.rs#async fn do_modify_request *)
Definition do_modify_request {E} (request : LdapModifyRequest) : stM (LdapSession St) E (list LdapOp) :=
  sunwrap_or_else (fun e => [make_modify_response (er_code e) (er_message e)]) (handle_modify_request request).

(* ------------------------------------------------------------------ *)
(** ** Searches *)

Definition ou_entry (base : string) : LdapSearchResultEntry :=
  mk_entry base [mk_partial_attribute "objectClass" (map into_bytes ["top"; "organizationalUnit"]%string)].

(** [backend_handler] is the lister restricted to [lister].
    Source: server/src/infra/ldap_handler.rs#async fn do_search_internal *)
Definition do_search_internal (lister : option UserId) (request : LdapSearchRequest) (schema : PublicSchema) :
    stM St LdapError InternalSearchResults :=
  let! dn_parts := slift (parse_distinguished_name (to_ascii_lowercase (sr_base request))) in
  let! scope := slift (get_search_scope (li_base_dn ldap_info) dn_parts (sr_scope request)) in
  let need_groups := existsb (fun s => String.eqb (to_ascii_lowercase s) "memberof") (sr_attrs request) in
  let get_user_list filter :=
    get_user_list (restricted_list_users lister) ldap_info filter need_groups (sr_base request) schema in
  let get_group_list filter :=
    get_groups_list (restricted_list_groups lister) ldap_info filter (sr_base request) schema in
  match scope with
  | SGlobal =>
      let! users := stry (get_user_list (sr_filter request)) in
      let! groups := stry (get_group_list (sr_filter request)) in
      sret match users, groups with
           | inr users, inl _ => UsersAndGroups users []
           | inl _, inr groups => UsersAndGroups [] groups
           | inl user_error, inl _ => Raw [make_search_error (er_code user_error) (er_message user_error)]
           | inr users, inr groups => UsersAndGroups users groups
           end
  | SUsers => let! users := get_user_list (sr_filter request) in sret (UsersAndGroups users [])
  | SGroups => let! groups := get_group_list (sr_filter request) in sret (UsersAndGroups [] groups)
  | SUser filter =>
      let! users := get_user_list (FAnd [sr_filter request; filter]) in sret (UsersAndGroups users [])
  | SGroup filter =>
      let! groups := get_group_list (FAnd [sr_filter request; filter]) in sret (UsersAndGroups [] groups)
  | SUserOuOnly | SGroupOuOnly =>
      sret (Raw [OpSearchResultEntry (ou_entry (sr_base request))])
  | SUnknown | SInvalid => sret Empty
  end.

(** The answer ends with [SearchResultDone], added when it is not there. *)
Definition close_results (results : list LdapOp) : list LdapOp :=
  match last results with
  | Some (OpSearchResultDone _) => results
  | _ => results ++ [make_search_success]
  end.

(** Source: server/src/infra/ldap_handler.rs#fn do_search( *)
Definition do_search (request : LdapSearchRequest) : session (list LdapOp) :=
  let! info := get_user_info in
  let! user_info := slift (ok_or not_bound info) in
  let lister := get_user_restricted_lister_handler user_info in
  let! schema := smap_err (fun e => mk_ldap_error LOperationsError
      ("Unable to get schema: " +:+ domain_error_display e))
    (on_backend (restricted_get_schema lister)) in
  let schema := public_schema_from schema in
  let! search_results := on_backend (do_search_internal lister request schema) in
  let! results :=
    match search_results with
    | UsersAndGroups users groups =>
        let! us := slift (convert_users_to_ldap_op users (sr_attrs request) ldap_info schema) in
        let! gs := slift (convert_groups_to_ldap_op groups (sr_attrs request) ldap_info lister schema) in
        sret (map OpSearchResultEntry (us ++ gs))
    | Raw raw_results => sret raw_results
    | Empty => sret []
    end in
  sret (close_results results).

(** The two conditions of [do_search_or_dse]. *)
Definition is_root_dse (request : LdapSearchRequest) : bool :=
  String.eqb (sr_base request) "" && bool_decide (sr_scope request = ScopeBase)
  && match sr_filter request with
     | FPresent attribute => String.eqb (to_ascii_lowercase attribute) "objectclass"
     | _ => false
     end.

(** Source: server/src/infra/ldap_handler.rs#fn do_search_or_dse *)
Definition do_search_or_dse (request : LdapSearchRequest) : session (list LdapOp) :=
  if is_root_dse request then sret [root_dse_response version (li_base_dn_str ldap_info); make_search_success]
  else do_search request.

(* ------------------------------------------------------------------ *)
(** ** Creation and comparison *)

(** Source: server/src/infra/ldap_handler.rs#fn parse_attribute *)
Definition parse_attribute (attr : LdapPartialAttribute) : LdapResult (string * bytes) :=
  match pa_vals attr with
  | _ :: _ :: _ => Err (mk_ldap_error LConstraintViolation
                     ("Expected a single value for attribute " +:+ pa_atype attr))
  | [val] => Ok (to_ascii_lowercase (pa_atype attr), val)
  | [] => Err (mk_ldap_error LConstraintViolation
             ("Missing value for attribute " +:+ to_ascii_lowercase (pa_atype attr)))
  end.

(** Source: server/src/infra/ldap_handler.rs#fn decode_attribute_value *)
Definition decode_attribute_value (val : bytes) : LdapResult string :=
  ok_or (mk_ldap_error LConstraintViolation ("Attribute value is invalid UTF-8: " +:+ utf8_error_debug val))
    (from_utf8 val).

(** [o.map(f).transpose()] *)
Definition transpose_map {E A B} (f : A -> outcome E B) (o : option A) : outcome E (option B) :=
  match o with Some a => omap_ok Some (f a) | None => Ok None end.

(** [iter.collect::<HashMap<_, _>>()]: the last of equal keys stays. *)
Definition collect_map {A} (l : list (string * A)) : gmap string A :=
  foldl (fun m p => <[p.1 := p.2]> m) ∅ l.

(** The pairs of an add request and the request they make.
    Source: server/src/infra/ldap_handler.rs#L687-749 *)
Definition create_request_of (user_id : UserId) (request : LdapAddRequest) : LdapResult CreateUserRequest :=
  let? pairs := try_map parse_attribute
    (List.filter (fun a => negb (eq_ignore_ascii_case (pa_atype a) "objectclass")) (ar_attributes request)) in
  let attributes := collect_map pairs in
  let get_attribute name := transpose_map decode_attribute_value (attributes !! name) in
  let? email := transpose_map decode_attribute_value
    match attributes !! "mail"%string with Some v => Some v | None => attributes !! "email"%string end in
  let? display_name := get_attribute "cn"%string in
  let? first_name := get_attribute "givenname"%string in
  let? last_name := get_attribute "sn"%string in
  let? avatar := omap_err (fun e => mk_ldap_error LConstraintViolation ("Invalid JPEG photo: " +:+ e))
    (transpose_map jpeg_try_from_bytes (attributes !! "avatar"%string)) in
  Ok (mk_create_user user_id (mk_ci (default EmptyString email)) display_name first_name last_name avatar []).

(** Source: server/src/infra/ldap_handler.rs#async fn do_create_user *)
Definition do_create_user (request : LdapAddRequest) : session (list LdapOp) :=
  let! info := get_user_info in
  let! backend_handler := slift (ok_or (mk_ldap_error LInsufficentAccessRights "Unauthorized write")
    (info ≫= get_admin_handler)) in
  let! user_id := slift (get_user_id_from_distinguished_name (ar_dn request)
    (li_base_dn ldap_info) (li_base_dn_str ldap_info)) in
  let! create := slift (create_request_of user_id request) in
  smap_err (fun e => mk_ldap_error LOperationsError ("Could not create user: " +:+ domain_error_debug e))
    (on_backend (ad_create_user backend_handler create)) ;;
  sret [make_add_error LSuccess ""].

(** Source: server/src/infra/ldap_handler.rs#async fn do_compare *)
Definition do_compare (request : LdapCompareRequest) : session (list LdapOp) :=
  let req := make_search_request (li_base_dn_str ldap_info) (FEquality "dn" (cr_dn request)) [cr_atype request] in
  let! entries := do_search req in
  if Nat.ltb 2 (length entries) then sthrow (mk_ldap_error LOperationsError "Too many search results")
  else match entries with
       | OpSearchResultEntry entry :: _ =>
           let available := existsb (fun attr => String.eqb (pa_atype attr) (cr_atype request)
             && bool_decide (cr_val request ∈ pa_vals attr)) (le_attributes entry) in
           sret [OpCompareResult (mk_result_op (if available then LCompareTrue else LCompareFalse)
             (cr_dn request) "" [])]
       | OpSearchResultDone _ :: _ =>
           sret [OpCompareResult (mk_result_op LNoSuchObject (li_base_dn_str ldap_info) "" [])]
       | [] => sthrow (mk_ldap_error LOperationsError "Search request returned nothing")
       | _ => sthrow (mk_ldap_error LOperationsError "Unexpected results from search")
       end.

(** No error leaves the handler: the error type is empty.
    Source: server/src/infra/ldap_handler.rs#async fn handle_ldap_message *)
Definition handle_ldap_message (ldap_op : LdapOp) : stM (LdapSession St) Empty_set (option (list LdapOp)) :=
  let some m := let! l := m in sret (Some l) in
  match ldap_op with
  | OpBindRequest request =>
      let! '(code, message) := do_bind request in
      sret (Some [OpBindResponse (plain_result code message)])
  | OpSearchRequest request =>
      some (sunwrap_or_else (fun e => [make_search_error (er_code e) (er_message e)]) (do_search_or_dse request))
  | OpUnbindRequest => set_user_info None ;; sret None
  | OpModifyRequest request => some (do_modify_request request)
  | OpExtendedRequest request => some (do_extended_request request)
  | OpAddRequest request =>
      some (sunwrap_or_else (fun e => [make_add_error (er_code e) (er_message e)]) (do_create_user request))
  | OpCompareRequest request =>
      some (sunwrap_or_else (fun e => [make_search_error (er_code e) (er_message e)]) (do_compare request))
  | op => sret (Some [make_extended_response LUnwillingToPerform ("Unsupported operation: " +:+ ldap_op_debug op)])
  end.

(* ------------------------------------------------------------------ *)
(** ** The connection ([ldap_server.rs]) *)

(** A message: its number and its operation; a response has in addition the
    size of a paged-results control, on [SearchResultDone]. *)
Definition LdapMsg : Type := Z * LdapOp.
Definition LdapResponse : Type := Z * LdapOp * option Z.

(** Source: server/src/infra/ldap_server.rs#async fn handle_ldap_message *)
Definition make_responses (msgid : Z) (result : list LdapOp) : list LdapResponse :=
  let results := Z.of_nat (length result) in
  map (fun response =>
    (msgid, response, match response with OpSearchResultDone _ => Some (results - 1)%Z | _ => None end)) result.

(** One session: the messages are handled in order until an unbind, which
    closes the connection.  The network is left out: [requests] is what the
    client sends, the result what it receives.
    Source: server/src/infra/ldap_server.rs#async fn handle_ldap_stream *)
Fixpoint handle_ldap_stream (requests : list LdapMsg) : stM (LdapSession St) Empty_set (list LdapResponse) :=
  match requests with
  | [] => sret []
  | (msgid, op) :: requests =>
      let! r := handle_ldap_message op in
      match r with
      | None => sret []
      | Some result =>
          let! rest := handle_ldap_stream requests in
          sret (make_responses msgid result ++ rest)
      end
  end.
End LdapHandler.

(* ------------------------------------------------------------------ *)
(** ** Properties *)

Section LdapHandlerFacts.
Context {St : Type} `{BH : !BackendHandler St} `{LH : !LoginHandler St} `{OL : OpaqueLib}
  `{OH : !OpaqueHandler St} `{R : !OsRng St}.
Context `{C : Crates} `{B : Bincode} `{T : ErrorTexts} `{L3 : Ldap3}.
Context (version : string) (li : LdapInfo).
Implicit Type s : LdapSession St.

Abbreviation handle := (handle_ldap_message version li).

Lemma on_backend_run {E A} (m : stM St E A) s :
  on_backend m s = (fst (m (backend_state s)), mk_session (user_info s) (snd (m (backend_state s)))).
Proof. unfold on_backend, szoom. by destruct (m (backend_state s)). Qed.

Lemma sunwrap_run {S E E' A} (f : E -> A) (m : stM S E A) (t : S) :
  sunwrap_or_else (E':=E') f m t
  = (match fst (m t) with Ok a => Ok a | Err e => Ok (f e) | Panic p => Panic p end, snd (m t)).
Proof. unfold sunwrap_or_else, sbind, stry. by destruct (m t) as [[] ?]. Qed.

(** C35. Nothing is answered before a bind.  Without an identity, every
    operation but a bind, an unbind and the query of the root entry leaves the
    session and the backend as they were and is refused: searches, comparisons,
    modifications and additions with [InsufficentAccessRights], extended
    requests with a code other than success. *)
Theorem unbound_refused op s :
  user_info s = None ->
  match op with
  | OpBindRequest _ => True
  | OpUnbindRequest => handle op s = (Ok None, s)
  | OpSearchRequest r =>
      is_root_dse r = false ->
      handle op s = (Ok (Some [make_search_error LInsufficentAccessRights "No user currently bound"]), s)
  | OpCompareRequest _ =>
      handle op s = (Ok (Some [make_search_error LInsufficentAccessRights "No user currently bound"]), s)
  | OpModifyRequest _ =>
      handle op s = (Ok (Some [make_modify_response LInsufficentAccessRights "No user currently bound"]), s)
  | OpAddRequest _ => handle op s = (Ok (Some [make_add_error LInsufficentAccessRights "Unauthorized write"]), s)
  | _ => exists code m, handle op s = (Ok (Some [make_extended_response code m]), s) /\ code <> LSuccess
  end.
Proof.
  destruct s as [u t]. cbn [user_info]. intros ->. destruct op; try done; try (by do 2 eexists).
  - intros Hr. cbn [handle_ldap_message]. unfold do_search_or_dse. by rewrite Hr.
  - cbn [handle_ldap_message]. unfold do_extended_request. destruct (parse_password_modify r); by do 2 eexists.
Qed.

Lemma do_bind_run (E : Type) request s :
  let name := get_user_id_from_distinguished_name (to_ascii_lowercase (lb_dn request)) (li_base_dn li) (li_base_dn_str li) in
  let '(r, s') := do_bind (E:=E) li request s in
  match name, lb_cred request with
  | Err e, _ => r = Ok (LNamingViolation, er_message e) /\ s' = s
  | Ok _, CredSASL => r = Ok (LUnwillingToPerform, "SASL not supported"%string) /\ s' = s
  | Ok u, CredSimple password =>
      match lh_bind (mk_bind_request u password) (backend_state s) with
      | (Err _, t) => r = Ok (LInvalidCredentials, ""%string) /\ s' = mk_session (user_info s) t
      | (Ok _, t) =>
          match bh_get_user_groups u t with
          | (Ok groups, t') =>
              r = Ok (LSuccess, ""%string)
              /\ s' = mk_session (Some (get_permissions_from_groups u (map gd_display_name groups))) t'
          | (Err _, t') => r = Ok (LSuccess, ""%string) /\ s' = mk_session None t'
          | (Panic p, _) => r = Panic p
          end
      | (Panic p, _) => r = Panic p
      end
  | Panic p, _ => r = Panic p
  end.
Proof.
  destruct s as [i t]. cbv zeta.
  unfold do_bind, get_permissions_for_user, sbind, stry, slift, on_backend, szoom, set_user_info, smodify.
  destruct (get_user_id_from_distinguished_name _ _ _) as [u|e|p]; cbn; [|done..].
  destruct (lb_cred request) as [password|]; [|done]. cbn.
  destruct (lh_bind _ t) as [[[]|e|p] t1]; cbn; [|done..].
  by destruct (bh_get_user_groups u t1) as [[groups|e|p] t2].
Qed.

(** What a bind does.  The name is read without case; a name that is not a
    user's, or another method than a password, is refused without calling the
    login handler.  Otherwise the password decides: if it is accepted, the
    session takes the permissions the user's groups give (none when they cannot
    be read); if it is refused, the session keeps the identity it had. *)
Theorem do_bind_correct (E : Type) request s :
  let name := get_user_id_from_distinguished_name (to_ascii_lowercase (lb_dn request)) (li_base_dn li) (li_base_dn_str li) in
  let '(r, s') := do_bind (E:=E) li request s in
  match name, lb_cred request with
  | Err e, _ => r = Ok (LNamingViolation, er_message e) /\ s' = s
  | Ok _, CredSASL => r = Ok (LUnwillingToPerform, "SASL not supported"%string) /\ s' = s
  | Ok u, CredSimple password =>
      match lh_bind (mk_bind_request u password) (backend_state s) with
      | (Err _, t) => r = Ok (LInvalidCredentials, ""%string) /\ s' = mk_session (user_info s) t
      | (Ok _, t) =>
          match bh_get_user_groups u t with
          | (Ok groups, t') =>
              r = Ok (LSuccess, ""%string)
              /\ s' = mk_session (Some (get_permissions_from_groups u (map gd_display_name groups))) t'
          | (Err _, t') => r = Ok (LSuccess, ""%string) /\ s' = mk_session None t'
          | (Panic p, _) => r = Panic p
          end
      | (Panic p, _) => r = Panic p
      end
  | Panic p, _ => r = Panic p
  end.
Proof. apply do_bind_run. Qed.

(* ------------------------------------------------------------------ *)
(** *** Passwords *)

(** One run of [change_password] for [uid], successful or not. *)
Definition password_step (uid : UserId) (t t' : St) : Prop := exists p, t' = snd (change_password uid p t).

(** The group that makes its members administrators. *)
Definition has_admin_group (groups : list GroupDetails) : bool :=
  existsb (fun g => ci_eqb (gd_display_name g) (mk_ci "lldap_admin")) groups.

(** The session bound as [v] may change the password of [uid], and the backend
    has been through changes of that password only. *)
Definition authorized_change (s s' : LdapSession St) : Prop :=
  exists v dn uid groups,
    user_info s = Some v
    /\ get_user_id_from_distinguished_name dn (li_base_dn li) (li_base_dn_str li) = Ok uid
    /\ fst (bh_get_user_groups uid (backend_state s)) = Ok groups
    /\ can_change_password v uid (has_admin_group groups) = true
    /\ user_info s' = user_info s
    /\ rtc (password_step uid) (backend_state s) (backend_state s').

Lemma target_is_admin_run {BL : BackendLaws BH} v uid s :
  (exists groups, fst (bh_get_user_groups uid (backend_state s)) = Ok groups
     /\ can_read v uid = true /\ target_is_admin v uid s = (Ok (has_admin_group groups), s))
  \/ snd (target_is_admin v uid s) = s /\ (forall b, fst (target_is_admin v uid s) <> Ok b).
Proof.
  unfold target_is_admin, get_readable_handler. destruct (can_read v uid) eqn:Hr; [|by right].
  cbn. unfold sbind, slift, smap_err. cbn. rewrite on_backend_run.
  rewrite (bh_readonly_user_groups uid (backend_state s)). destruct s as [u t]; cbn.
  destruct (fst (bh_get_user_groups uid t)) as [groups|e|p]; cbn; [|by right..]. left. by exists groups.
Qed.

Lemma smap_err_snd {S E E' A} (f : E -> E') (m : stM S E A) (t : S) : snd (smap_err f m t) = snd (m t).
Proof. unfold smap_err. by destruct (m t). Qed.

(** The session after the change of one attribute, for someone allowed. *)
Lemma handle_modify_change_steps uid v adm change s :
  let s' := snd (handle_modify_change uid v adm change s) in
  (s' = s \/ can_change_password v uid adm = true) /\ user_info s' = user_info s
  /\ rtc (password_step uid) (backend_state s) (backend_state s').
Proof.
  cbv zeta. unfold handle_modify_change. case_match; [cbn; split_and!; [by left|done|reflexivity]|].
  destruct (can_change_password v uid adm); [|cbn; split_and!; [by left|done|reflexivity]]. cbn [negb].
  destruct (pa_vals (lm_modification change)) as [|p [|]];
    try (cbn; split_and!; [by left|done|reflexivity]).
  rewrite smap_err_snd, on_backend_run. cbn. split_and!; [by right|done|]. apply rtc_once. by exists p.
Qed.

Lemma modify_changes_steps uid v adm changes s :
  let s' := snd (sfor (handle_modify_change uid v adm) changes s) in
  (s' = s \/ can_change_password v uid adm = true) /\ user_info s' = user_info s
  /\ rtc (password_step uid) (backend_state s) (backend_state s').
Proof.
  cbv zeta. revert s. induction changes as [|c cs IH]; intros s; [cbn; split_and!; [by left|done|reflexivity]|].
  cbn [sfor]. unfold sbind. pose proof (handle_modify_change_steps uid v adm c s) as Hc. cbv zeta in Hc.
  destruct (handle_modify_change uid v adm c s) as [[a|e|p] s1]; cbn in Hc; [|done..].
  specialize (IH s1). destruct Hc as (Hs & Hu & Hr), IH as (IHs & IHu & IHr). split_and!.
  - destruct Hs as [->|]; [|by right]. done.
  - by rewrite IHu.
  - by etrans.
Qed.

#[local] Arguments target_is_admin : simpl never.
#[local] Arguments sunwrap_or_else : simpl never.

Lemma authorized_of_steps {BL : BackendLaws BH} v dn uid groups s s' :
  user_info s = Some v ->
  get_user_id_from_distinguished_name dn (li_base_dn li) (li_base_dn_str li) = Ok uid ->
  fst (bh_get_user_groups uid (backend_state s)) = Ok groups ->
  (s' = s \/ can_change_password v uid (has_admin_group groups) = true) -> user_info s' = user_info s ->
  rtc (password_step uid) (backend_state s) (backend_state s') ->
  s' = s \/ authorized_change s s'.
Proof. intros Hv Hd Hg [->|Hc] Hu Hr; [by left|right]. by exists v, dn, uid, groups. Qed.

Lemma do_password_modification_authorized {BL : BackendLaws BH} request s :
  let s' := snd (do_password_modification li request s) in s' = s \/ authorized_change s s'.
Proof.
  cbv zeta. unfold do_password_modification, get_user_info. cbn.
  destruct (user_info s) as [v|] eqn:Hv; [|by left]. cbn.
  destruct (pm_user_identity request) as [dn|]; [|by left].
  destruct (pm_new_password request) as [password|]; [|by left].
  unfold sbind, slift. destruct (get_user_id_from_distinguished_name _ _ _) as [uid|e|p] eqn:Hd; cbn; [|by left..].
  destruct (target_is_admin_run v uid s) as [(groups & Hg & _ & ->)|[Hs Hn]].
  2:{ destruct (target_is_admin v uid s) as [[b|e|p] s1]; cbn in *; [by destruct (Hn b)|by left..]. }
  destruct (can_change_password v uid (has_admin_group groups)) eqn:Hc; cbn [negb]; [|by left].
  match goal with |- context [smap_err ?f ?m s] => pose proof (smap_err_snd f m s) as Hsnd end.
  rewrite on_backend_run in Hsnd. destruct (smap_err _ _ s) as [r s1]. cbn in Hsnd. subst s1.
  apply (authorized_of_steps v dn uid groups); [done..|by right| |].
  - by destruct r.
  - destruct r; cbn; apply rtc_once; by exists (into_bytes password).
Qed.

Lemma handle_modify_request_authorized {BL : BackendLaws BH} request s :
  let s' := snd (handle_modify_request li request s) in s' = s \/ authorized_change s s'.
Proof.
  cbv zeta. unfold handle_modify_request, get_user_info. cbn.
  destruct (user_info s) as [v|] eqn:Hv; [|by left]. cbn.
  unfold sbind, slift. destruct (get_user_id_from_distinguished_name _ _ _) as [uid|e|p] eqn:Hd; cbn; [|by left..].
  destruct (target_is_admin_run v uid s) as [(groups & Hg & _ & ->)|[Hs Hn]].
  2:{ destruct (target_is_admin v uid s) as [[b|e|p] s1]; cbn in *; [by destruct (Hn b)|by left..]. }
  pose proof (modify_changes_steps uid v (has_admin_group groups) (mr_changes request) s) as (H1 & H2 & H3).
  destruct (sfor _ _ s) as [r s1]; cbn in *.
  apply (authorized_of_steps v (mr_dn request) uid groups); [done..| | |]; by destruct r.
Qed.

(** C23. Passwords change only by permission.  For any backend whose queries do
    not write, a modification or an extended request either leaves the session
    and the backend as they were, or the identity bound may change the password
    of the user the name designates (as an administrator, as a password manager
    when that user is not one, or as that user), and all the backend has been
    through is changes of that user's password. *)
Theorem password_change_authorized {BL : BackendLaws BH} op s :
  let s' := snd (handle op s) in
  match op with
  | OpModifyRequest _ | OpExtendedRequest _ => s' = s \/ authorized_change s s'
  | _ => True
  end.
Proof.
  cbv zeta. destruct op; try done; cbn [handle_ldap_message]; unfold do_modify_request, do_extended_request.
  - unfold sbind. rewrite sunwrap_run. pose proof (handle_modify_request_authorized r s) as H. cbv zeta in H.
    by destruct (handle_modify_request li r s) as [[] ?].
  - destruct (parse_password_modify r) as [pr|]; [|by left].
    unfold sbind. rewrite sunwrap_run. pose proof (do_password_modification_authorized pr s) as H. cbv zeta in H.
    by destruct (do_password_modification li pr s) as [[] ?].
Qed.

(** A regular user who names another user in a modify request does not get
    an error but makes the handler panic: the handler it expects for the target
    is refused. *)
Theorem modify_other_panics r v uid s :
  user_info s = Some v -> can_read v uid = false ->
  get_user_id_from_distinguished_name (mr_dn r) (li_base_dn li) (li_base_dn_str li) = Ok uid ->
  handle (OpModifyRequest r) s = (Panic "Unexpected permission error", s).
Proof.
  intros Hv Hr Hd. cbn [handle_ldap_message]. unfold do_modify_request, sunwrap_or_else, handle_modify_request,
    get_user_info, target_is_admin, get_readable_handler, sbind, stry, slift. cbn.
  rewrite Hv, Hd. cbn. by rewrite Hr.
Qed.

(* ------------------------------------------------------------------ *)
(** *** Searches *)

Section Searches.
Context {BL : BackendLaws BH}.

Lemma restricted_list_users_readonly lister f b : readonly (restricted_list_users lister f b).
Proof using BL. unfold restricted_list_users. apply bh_readonly_list_users. Qed.
Lemma restricted_list_groups_readonly lister f : readonly (restricted_list_groups lister f).
Proof using BL. unfold restricted_list_groups. apply bh_readonly_list_groups. Qed.
Lemma restricted_get_schema_readonly lister : readonly (restricted_get_schema lister).
Proof using BL.
  apply readonly_preserves. intros P. unfold restricted_get_schema. stm.
  by apply readonly_preserves, bh_readonly_schema.
Qed.

Lemma do_search_internal_readonly lister r schema : readonly (do_search_internal li lister r schema).
Proof using BL.
  apply readonly_preserves. intros P. unfold do_search_internal, get_user_list, get_groups_list. stm;
    apply readonly_preserves; auto using restricted_list_users_readonly, restricted_list_groups_readonly.
Qed.

Lemma on_backend_readonly {E A} (m : stM St E A) : readonly m -> readonly (on_backend m).
Proof using Type. intros Hm s. rewrite on_backend_run, Hm. by destruct s. Qed.

Lemma do_search_readonly r : readonly (do_search li r).
Proof using BL.
  apply readonly_preserves. intros P. unfold do_search, get_user_info. stm; apply readonly_preserves.
  - apply on_backend_readonly, restricted_get_schema_readonly.
  - apply on_backend_readonly, do_search_internal_readonly.
Qed.

(** What the internal search hands over. *)
Definition internal_results (lister : option UserId) (r : LdapSearchRequest) (t : St) (x : InternalSearchResults) : Prop :=
  match x with
  | UsersAndGroups us gs =>
      (us = [] \/ exists f b, fst (restricted_list_users lister (Some f) b t) = Ok us)
      /\ (gs = [] \/ exists f, fst (restricted_list_groups lister (Some f) t) = Ok gs)
  | Raw ops => ops = [OpSearchResultEntry (ou_entry (sr_base r))] \/ exists c m, ops = [make_search_error c m]
  | Empty => True
  end.

Lemma get_user_list_ok lister f b base schema t us t' :
  get_user_list (restricted_list_users lister) li f b base schema t = (Ok us, t') ->
  t' = t /\ exists f b, fst (restricted_list_users lister (Some f) b t) = Ok us.
Proof using BL.
  unfold get_user_list. intros (uf & t1 & [_ ->]%slift_ok & H%smap_err_ok)%sbind_ok.
  split; [|exists uf, b; by rewrite H].
  pose proof (restricted_list_users_readonly lister (Some uf) b t) as Hr. by rewrite H in Hr.
Qed.

Lemma get_groups_list_ok lister f base schema t gs t' :
  get_groups_list (restricted_list_groups lister) li f base schema t = (Ok gs, t') ->
  t' = t /\ exists f, fst (restricted_list_groups lister (Some f) t) = Ok gs.
Proof using BL.
  unfold get_groups_list. intros (uf & t1 & [_ ->]%slift_ok & H%smap_err_ok)%sbind_ok.
  split; [|exists uf; by rewrite H].
  pose proof (restricted_list_groups_readonly lister (Some uf) t) as Hr. by rewrite H in Hr.
Qed.

Lemma stry_ok {S E E' A} (m : stM S E A) (t : S) (x : E + A) t' :
  stry (E':=E') m t = (Ok x, t') ->
  match x with inr a => m t = (Ok a, t') | inl e => m t = (Err e, t') end.
Proof using Type. unfold stry. destruct (m t) as [[a|e|p] t1]; by intros [= <- <-]. Qed.

Lemma get_user_list_readonly lister f b base schema :
  readonly (get_user_list (restricted_list_users lister) li f b base schema).
Proof using BL.
  apply readonly_preserves. intros P. unfold get_user_list. stm.
  apply readonly_preserves, restricted_list_users_readonly.
Qed.

Lemma do_search_internal_ok lister r schema t x t' :
  do_search_internal li lister r schema t = (Ok x, t') -> internal_results lister r t x.
Proof using BL.
  unfold do_search_internal. intros (parts & t1 & [_ ->]%slift_ok & H)%sbind_ok.
  apply sbind_ok in H as (scope & t2 & [_ ->]%slift_ok & H). destruct scope.
  - apply sbind_ok in H as (us & t3 & Hu%stry_ok & H).
    apply sbind_ok in H as (gs & t4 & Hg%stry_ok & [-> ->]%sret_ok).
    assert (t3 = t) as ->.
    { pose proof (get_user_list_readonly lister (sr_filter r)
        (existsb (fun a => String.eqb (to_ascii_lowercase a) "memberof") (sr_attrs r)) (sr_base r) schema t) as Hr.
      destruct us; by rewrite Hu in Hr. }
    destruct us as [ue|us], gs as [ge|gs]; cbn.
    + right. by do 2 eexists.
    + apply get_groups_list_ok in Hg as [_ ?]. split; [by left|by right].
    + apply get_user_list_ok in Hu as [_ ?]. split; [by right|by left].
    + apply get_groups_list_ok in Hg as [_ ?]. apply get_user_list_ok in Hu as [_ ?]. split; by right.
  - apply sbind_ok in H as (us & t3 & [_ Hu]%get_user_list_ok & [-> ->]%sret_ok). split; [by right|by left].
  - apply sbind_ok in H as (gs & t3 & [_ Hg]%get_groups_list_ok & [-> ->]%sret_ok). split; [by left|by right].
  - apply sbind_ok in H as (us & t3 & [_ Hu]%get_user_list_ok & [-> ->]%sret_ok). split; [by right|by left].
  - apply sbind_ok in H as (gs & t3 & [_ Hg]%get_groups_list_ok & [-> ->]%sret_ok). split; [by left|by right].
  - apply sret_ok in H as [-> _]. by left.
  - apply sret_ok in H as [-> _]. by left.
  - by apply sret_ok in H as [-> _].
  - by apply sret_ok in H as [-> _].
Qed.

(** The names of the entries. *)
Lemma user_entries_dn {E} us attrs schema es :
  convert_users_to_ldap_op (E:=E) us attrs li schema = Ok es ->
  Forall2 (fun x e => le_dn e = entry_dn "uid" (user_id_str (user_user_id (uag_user x))) "people" (li_base_dn_str li))
    us es.
Proof using Type.
  unfold convert_users_to_ldap_op. intros H%try_map_ok. eapply Forall2_impl; [exact H|]. cbn.
  intros x e (ex & _ & He)%obind_ok. apply obind_ok in He as (ps & _ & [= <-]). done.
Qed.
Lemma group_entries_dn {E} gs attrs lister schema es :
  convert_groups_to_ldap_op (E:=E) gs attrs li lister schema = Ok es ->
  Forall2 (fun g e => le_dn e = entry_dn "cn" (ci_raw (group_display_name g)) "groups" (li_base_dn_str li)) gs es.
Proof using Type.
  unfold convert_groups_to_ldap_op. intros H%try_map_ok. eapply Forall2_impl; [exact H|]. cbn.
  intros g e (ex & _ & He)%obind_ok. apply obind_ok in He as (ps & _ & [= <-]). done.
Qed.

Lemma close_entries es : close_results (map OpSearchResultEntry es) = map OpSearchResultEntry es ++ [make_search_success].
Proof using Type.
  unfold close_results. destruct es as [|e es _] using rev_ind; [done|]. rewrite map_app. cbn [map]. by rewrite last_snoc.
Qed.

(** An entry a search may send under a lister: an organizational unit, a user
    the lister returns, a group it returns. *)
Definition listed_entry (lister : option UserId) (r : LdapSearchRequest) (t : St) (e : LdapSearchResultEntry) : Prop :=
  e = ou_entry (sr_base r)
  \/ (exists f b us x, fst (restricted_list_users lister (Some f) b t) = Ok us /\ x ∈ us
       /\ le_dn e = entry_dn "uid" (user_id_str (user_user_id (uag_user x))) "people" (li_base_dn_str li))
  \/ (exists f gs g, fst (restricted_list_groups lister (Some f) t) = Ok gs /\ g ∈ gs
       /\ le_dn e = entry_dn "cn" (ci_raw (group_display_name g)) "groups" (li_base_dn_str li)).

Lemma listed_entries lister r t us gs es es' :
  internal_results lister r t (UsersAndGroups us gs) ->
  Forall2 (fun x e => le_dn e = entry_dn "uid" (user_id_str (user_user_id (uag_user x))) "people" (li_base_dn_str li)) us es ->
  Forall2 (fun g e => le_dn e = entry_dn "cn" (ci_raw (group_display_name g)) "groups" (li_base_dn_str li)) gs es' ->
  Forall (listed_entry lister r t) (es ++ es').
Proof using Type.
  intros [Hu Hg] Hes Hes'. apply Forall_app. split; apply Forall_forall; intros e He.
  - right. left. destruct Hu as [->|(f & b & Hu)]; [inversion Hes; subst; by apply not_elem_of_nil in He|].
    apply list_elem_of_lookup in He as [i Hi]. destruct (Forall2_lookup_r _ _ _ _ _ Hes Hi) as (x & Hx & Hd).
    exists f, b, us, x. split_and!; [done|by eapply list_elem_of_lookup_2|done].
  - right. right. destruct Hg as [->|(f & Hg)]; [inversion Hes'; subst; by apply not_elem_of_nil in He|].
    apply list_elem_of_lookup in He as [i Hi]. destruct (Forall2_lookup_r _ _ _ _ _ Hes' Hi) as (g & Hx & Hd).
    exists f, gs, g. split_and!; [done|by eapply list_elem_of_lookup_2|done].
Qed.

Lemma do_search_ok r s l s' :
  do_search li r s = (Ok l, s') ->
  exists v es d, user_info s = Some v /\ l = map OpSearchResultEntry es ++ [OpSearchResultDone d]
    /\ Forall (listed_entry (get_user_restricted_lister_handler v) r (backend_state s)) es.
Proof using BL.
  unfold do_search, get_user_info. intros (info & s1 & H1 & H)%sbind_ok.
  apply sbind_ok in H1 as (s2 & s3 & [= <- <-] & [-> ->]%sret_ok).
  apply sbind_ok in H as (v & s4 & [Hv%ok_or_ok ->]%slift_ok & H).
  apply sbind_ok in H as (schema & s5 & Hs%smap_err_ok & H).
  pose proof (on_backend_readonly _ (restricted_get_schema_readonly (get_user_restricted_lister_handler v)) s) as Hro.
  rewrite Hs in Hro. cbn in Hro. subst s5.
  apply sbind_ok in H as (x & s6 & Hx & H). rewrite on_backend_run in Hx. injection Hx as Hx <-.
  destruct (do_search_internal li _ r _ _) as [x' t'] eqn:Hi. cbn in Hx. subst x'.
  apply do_search_internal_ok in Hi. apply sbind_ok in H as (results & s7 & Hr & [-> _]%sret_ok). exists v.
  destruct x as [us gs|ops|].
  - apply sbind_ok in Hr as (es & s8 & [Hes%user_entries_dn _]%slift_ok & Hr).
    apply sbind_ok in Hr as (es' & s9 & [Hes'%group_entries_dn _]%slift_ok & [-> _]%sret_ok).
    rewrite close_entries. exists (es ++ es'). eexists. split_and!; [done..|]. by eapply listed_entries.
  - apply sret_ok in Hr as [-> _]. destruct Hi as [->|(c & m & ->)].
    + exists [ou_entry (sr_base r)]. eexists. split_and!; [done..|]. repeat constructor.
    + exists []. eexists. split_and!; [done..|constructor].
  - apply sret_ok in Hr as [-> _]. exists []. eexists. split_and!; [done..|constructor].
Qed.

(** The answer to a search request. *)
Lemma handle_search_cases r s l :
  fst (handle (OpSearchRequest r) s) = Ok (Some l) ->
  (is_root_dse r = true /\ l = [root_dse_response version (li_base_dn_str li); make_search_success])
  \/ (is_root_dse r = false /\ exists e, l = [make_search_error (er_code e) (er_message e)])
  \/ (is_root_dse r = false /\ exists s', do_search li r s = (Ok l, s')).
Proof using Type.
  cbn [handle_ldap_message]. unfold sbind. rewrite sunwrap_run. unfold do_search_or_dse.
  destruct (is_root_dse r); [intros [= <-]; by left|].
  destruct (do_search li r s) as [[l'|e|p] s']; [intros [= <-]; by eauto|intros [= <-]; by eauto|done].
Qed.

Lemma handle_search_answer r s :
  snd (handle (OpSearchRequest r) s) = s
  /\ match fst (handle (OpSearchRequest r) s) with
     | Ok (Some l) => exists es d, l = map OpSearchResultEntry es ++ [OpSearchResultDone d]
     | Ok None => False
     | _ => True
     end.
Proof using BL.
  split.
  - cbn [handle_ldap_message]. unfold sbind. rewrite sunwrap_run. unfold do_search_or_dse.
    destruct (is_root_dse r); [done|]. pose proof (do_search_readonly r s) as Hr.
    by destruct (do_search li r s) as [[] ?].
  - destruct (fst (handle (OpSearchRequest r) s)) as [[l|]|[]|p] eqn:H; [|exfalso|done].
    + destruct (handle_search_cases r s l H) as [[_ ->]|[[_ [e ->]]|[_ [s' Hs]]]].
      * eexists [_], _. reflexivity.
      * by exists [], (plain_result (er_code e) (er_message e)).
      * apply do_search_ok in Hs as (v & es & d & _ & -> & _). eauto.
    + revert H. cbn [handle_ldap_message]. unfold sbind. rewrite sunwrap_run.
      by destruct (do_search_or_dse version li r s) as [[] ?].
Qed.

(** A search writes nothing and its answer is well formed.  For any backend
    whose queries do not write, handling a search request leaves the session and
    the backend as they were, and the answer is a list of entries followed by
    exactly one [SearchResultDone]; the connection stays open. *)
Theorem search_answer r s :
  snd (handle_ldap_message version li (OpSearchRequest r) s) = s
  /\ match fst (handle_ldap_message version li (OpSearchRequest r) s) with
     | Ok (Some l) => exists es d, l = map OpSearchResultEntry es ++ [OpSearchResultDone d]
     | Ok None => False
     | _ => True
     end.
Proof using BL. apply handle_search_answer. Qed.

(** C22. A regular user finds nobody else.  Whatever the base, the scope, the
    filter and the attributes of the search, the entries sent to someone who may
    not read everything are its own, those of groups the backend lists with it as
    a member, the fixed entry of an organizational unit, or, when the search is the
    one for the root entry, that entry alone, which describes the server. *)
Theorem regular_search_restricted r s v es d :
  user_info s = Some v -> can_read_all v = false ->
  fst (handle (OpSearchRequest r) s) = Ok (Some (map OpSearchResultEntry es ++ [OpSearchResultDone d])) ->
  if is_root_dse r then map OpSearchResultEntry es = [root_dse_response version (li_base_dn_str li)]
  else Forall (fun e =>
    e = ou_entry (sr_base r)
    \/ le_dn e = entry_dn "uid" (user_id_str (vr_user v)) "people" (li_base_dn_str li)
    \/ exists f gs g, fst (bh_list_groups f (backend_state s)) = Ok gs /\ g ∈ gs /\ vr_user v ∈ group_users g
         /\ le_dn e = entry_dn "cn" (ci_raw (group_display_name g)) "groups" (li_base_dn_str li)) es.
Proof using BL.
  intros Hv Hr H. assert (Hinj : forall a b : list LdapSearchResultEntry, map OpSearchResultEntry a = map OpSearchResultEntry b -> a = b).
  { intros a b. apply list_fmap_eq_inj. by intros ?? [= ->]. }
  destruct (handle_search_cases r s _ H) as [[-> Hroot]|[[-> [e He]]|[-> [s' Hs]]]].
  { by apply (app_inj_2 _ [_]) in Hroot as [? _]. }
  { apply (app_inj_2 _ []) in He as [He _]; [|done]. apply (Hinj es []) in He as ->. constructor. }
  apply do_search_ok in Hs as (v' & es' & d' & Hv' & He & Hes).
  apply app_inj_2 in He as [<-%Hinj _]; [|done]. rewrite Hv in Hv'. injection Hv' as <-.
  unfold get_user_restricted_lister_handler in Hes. rewrite Hr in Hes.
  eapply Forall_impl; [exact Hes|]. intros e [He|[(f & b & us & x & Hu & Hx & Hn)|(f & gs & g & Hg & Hx & Hn)]].
  - by left.
  - right. left. cbn in Hu. apply bh_list_users_only with (u := vr_user v) in Hu; [|set_solver].
    rewrite Forall_forall in Hu. by rewrite <- (Hu x Hx).
  - right. right. cbn in Hg. exists (Some (GAnd [f; GMember (vr_user v)])), gs, g. split_and!; [done..| |done].
    apply bh_list_groups_member with (u := vr_user v) in Hg; [|set_solver].
    rewrite Forall_forall in Hg. by apply Hg.
Qed.
End Searches.
End LdapHandlerFacts.

(* ------------------------------------------------------------------ *)
(** *** Additions *)

Lemma collect_map_lookup {A} (l : list (string * A)) name :
  collect_map l !! name = snd <$> last (filter (fun p => p.1 = name) l).
Proof.
  induction l as [|[k v] l IH] using rev_ind; [done|].
  unfold collect_map in *. rewrite foldl_snoc, filter_app, filter_cons. cbn.
  destruct (decide (k = name)) as [->|Hk].
  - by rewrite lookup_insert_eq, last_snoc.
  - by rewrite lookup_insert_ne, app_nil_r.
Qed.

Lemma last_filter_Forall2 {A A'} (R : A -> A' -> Prop) (P : A -> Prop) (Q : A' -> Prop)
    `{!forall x, Decision (P x)} `{!forall x, Decision (Q x)} l l' :
  (forall x y, R x y -> P x <-> Q y) -> Forall2 R l l' ->
  option_Forall2 R (last (filter P l)) (last (filter Q l')).
Proof.
  intros HPQ. revert l'. induction l as [|x l IH] using rev_ind; intros l' HF.
  - inversion HF; subst. constructor.
  - apply Forall2_app_inv_l in HF as (l1 & l2 & HF1 & HF2 & ->).
    inversion HF2 as [|? y ? l3 Hxy HF3]; subst. inversion HF3; subst.
    rewrite !filter_app, !filter_cons. cbn. specialize (HPQ x y Hxy).
    destruct (decide (P x)), (decide (Q y)); try tauto.
    + rewrite !last_snoc. by constructor.
    + rewrite !app_nil_r. by apply IH.
Qed.

Lemma filter_implied {A} (P : A -> Prop) `{!forall x, Decision (P x)} (f : A -> bool) l :
  (forall x, P x -> f x = true) -> filter P (List.filter f l) = filter P l.
Proof.
  intros Hf. induction l as [|x l IH]; [done|]. cbn [List.filter]. rewrite (filter_cons _ x l).
  destruct (decide (P x)) as [HP|HP].
  - rewrite (Hf x HP), filter_cons, decide_True by done. by rewrite IH.
  - destruct (f x); [rewrite filter_cons, decide_False by done|]; done.
Qed.

Section Additions.
Context `{C : Crates} `{L3 : Ldap3}.

(** The last attribute of the request with a name, whatever its case. *)
Definition named (rq : LdapAddRequest) (name : string) : option LdapPartialAttribute :=
  last (filter (fun a => to_ascii_lowercase (pa_atype a) = name) (ar_attributes rq)).

(** [o] is the decoded value of that attribute, if there is one. *)
Definition decoded {A} (decode : bytes -> A -> Prop) (rq : LdapAddRequest) (name : string) (o : option A) : Prop :=
  match named rq name with
  | None => o = None
  | Some a => exists v d, pa_vals a = [v] /\ decode v d /\ o = Some d
  end.
Definition as_utf8 (v : bytes) (s : string) : Prop := from_utf8 v = Some s.
Definition as_jpeg (v : bytes) (p : JpegPhoto) : Prop := jpeg_try_from_bytes v = Ok p.

Lemma parse_attribute_ok a p :
  parse_attribute a = Ok p -> pa_vals a = [p.2] /\ p.1 = to_ascii_lowercase (pa_atype a).
Proof using Type. unfold parse_attribute. destruct (pa_vals a) as [|v [|]]; [done| |done]. by intros [= <-]. Qed.

Lemma attributes_named rq pairs name :
  try_map parse_attribute
    (List.filter (fun a => negb (eq_ignore_ascii_case (pa_atype a) "objectclass")) (ar_attributes rq)) = Ok pairs ->
  name <> "objectclass"%string ->
  match named rq name with
  | Some a => exists v, pa_vals a = [v] /\ collect_map pairs !! name = Some v
  | None => collect_map pairs !! name = None
  end.
Proof using Type.
  intros H%try_map_ok Hn. rewrite collect_map_lookup. unfold named.
  rewrite <- (filter_implied (fun a => to_ascii_lowercase (pa_atype a) = name)
    (fun a => negb (eq_ignore_ascii_case (pa_atype a) "objectclass"))).
  2:{ intros a <-. apply negb_true_iff. unfold eq_ignore_ascii_case. by apply String.eqb_neq. }
  assert (Hl : option_Forall2 (fun a p => parse_attribute a = Ok p)
    (last (filter (fun a => to_ascii_lowercase (pa_atype a) = name)
      (List.filter (fun a => negb (eq_ignore_ascii_case (pa_atype a) "objectclass")) (ar_attributes rq))))
    (last (filter (fun p => p.1 = name) pairs))).
  { apply last_filter_Forall2; [|done]. intros a p [_ ->]%parse_attribute_ok. done. }
  inversion Hl as [a p [Hv Hp]%parse_attribute_ok|]; [|done]. exists p.2. split; [done|]. done.
Qed.

Lemma transpose_map_decoded {A E E'} (f : bytes -> outcome E A) (g : E -> E') (decode : bytes -> A -> Prop)
    rq pairs name o :
  try_map parse_attribute
    (List.filter (fun a => negb (eq_ignore_ascii_case (pa_atype a) "objectclass")) (ar_attributes rq)) = Ok pairs ->
  name <> "objectclass"%string -> (forall v a, f v = Ok a -> decode v a) ->
  transpose_map f (collect_map pairs !! name) = Ok o -> decoded decode rq name o.
Proof using Type.
  intros Hp Hn Hf Ho. unfold decoded. pose proof (attributes_named rq pairs name Hp Hn) as H.
  destruct (named rq name) as [a|].
  - destruct H as (v & Hv & Hl). rewrite Hl in Ho. cbn in Ho. apply obind_ok in Ho as (d & Hd & [= <-]).
    exists v, d. auto.
  - rewrite H in Ho. cbn in Ho. by injection Ho as <-.
Qed.

(** What an add request asks for.  When the request is read, every
    attribute other than the object class has one value; the name, the first and
    the last name and the photo of the user to create are the decoded values of
    the {i last} attributes [cn], [givenname], [sn] and [avatar], whatever the case
    of their names; the e-mail is that of [mail], or else of [email], or else
    empty; and no other attribute is taken. *)
Theorem create_request_correct uid rq c :
  create_request_of uid rq = Ok c ->
  cu_user_id c = uid /\ cu_attributes c = []
  /\ decoded as_utf8 rq "cn" (cu_display_name c) /\ decoded as_utf8 rq "givenname" (cu_first_name c)
  /\ decoded as_utf8 rq "sn" (cu_last_name c) /\ decoded as_jpeg rq "avatar" (cu_avatar c)
  /\ (exists mail, cu_email c = mk_ci (default ""%string mail)
       /\ decoded as_utf8 rq (if decide (named rq "mail" = None) then "email" else "mail")%string mail)
  /\ (forall a, a ∈ ar_attributes rq -> to_ascii_lowercase (pa_atype a) <> "objectclass"%string ->
       exists v, pa_vals a = [v]).
Proof using Type.
  unfold create_request_of. intros (pairs & Hp & H)%obind_ok.
  apply obind_ok in H as (mail & Hm & H). apply obind_ok in H as (cn & Hcn & H).
  apply obind_ok in H as (gn & Hgn & H). apply obind_ok in H as (sn & Hsn & H).
  apply obind_ok in H as (av & Hav & [= <-]). cbn.
  assert (Hd : forall v s, decode_attribute_value v = Ok s -> as_utf8 v s).
  { intros v s. unfold decode_attribute_value, as_utf8. by rewrite ok_or_ok. }
  split_and!; try done; try (by eapply (transpose_map_decoded decode_attribute_value id)).
  - eapply (transpose_map_decoded jpeg_try_from_bytes id); [done|done| |].
    + by intros v p.
    + destruct (transpose_map jpeg_try_from_bytes _) as [o|e|p]; [by injection Hav as <-|done..].
  - exists mail. split; [done|]. pose proof (attributes_named rq pairs "mail" Hp ltac:(done)) as Hmail.
    case_decide as Hn.
    + rewrite Hn in Hmail. rewrite Hmail in Hm. by eapply (transpose_map_decoded decode_attribute_value id).
    + destruct (named rq "mail") as [a|] eqn:Ha; [|done]. destruct Hmail as (v & Hv & Hl). rewrite Hl in Hm.
      eapply (transpose_map_decoded decode_attribute_value id); [done|done|done|]. by rewrite Hl.
  - intros a Ha Hn. apply try_map_ok in Hp.
    assert (Hin : a ∈ List.filter (fun a => negb (eq_ignore_ascii_case (pa_atype a) "objectclass")) (ar_attributes rq)).
    { apply base.list_elem_of_In, List.filter_In. split; [by apply base.list_elem_of_In|].
      apply negb_true_iff. unfold eq_ignore_ascii_case. by apply String.eqb_neq. }
    apply list_elem_of_lookup in Hin as [i Hi].
    destruct (Forall2_lookup_l _ _ _ _ _ Hp Hi) as (p & _ & [Hv _]%parse_attribute_ok). eauto.
Qed.
End Additions.

