(* ===== verification/LdapSql.v ===== *)
(** * LDAP over the SQL backend

    The protocol handler of [LdapHandler] run on the database of [Db]: a password
    set through the OPAQUE registration is the one a bind accepts.  The examples
    of the handler's theorems are here too. *)

From S2P Require Import Prelude RustStd Extern Types Concrete Handler Deserialize Db ExampleDb SqlFilters SqlSchema SqlUser SqlGroup SqlBackend SqlTcp SqlOpaque AccessControl LdapUtils LdapUser LdapGroup LdapHandler.
From Stdlib Require Import Ascii String.
From stdpp Require Import strings list gmap.
#[local] Open Scope rust_scope.

(** The operating system's generator is the world's. *)
Definition world_rng : OsRng World := {|
  os_rng E w := (Ok (w_rng w (w_rng_pos w)), mk_world (w_db w) (w_now w) (w_rng w) (S (w_rng_pos w)))
|}.

Section LdapLogin.
Context `{C : Crates} `{B : Bincode} `{SL : SqlLib} `{OL : OpaqueLib} `{O : Orion} `{BS : !BincodeStream}
  `{CF : !OpaqueConfig} `{T : ErrorTexts}.
Context {B6 : Base64Laws crates_base64} {LL : OpaqueLaws OL} {OO : OrionLaws O} {BSL : BincodeStreamLaws BS}.

(** Verifying a password draws randomness and writes nothing. *)
Lemma sql_bind_keeps_db r w : w_db (snd (sql_bind r w)) = w_db w.
Proof using Type.
  assert (H : preserves (fun w' => w_db w' = w_db w) (sql_bind r)).
  { assert (Hr : preserves (fun w' => w_db w' = w_db w) gen_random_string) by (intros w'; done).
    assert (Hq : forall A (f : Db -> A), preserves (fun w' => w_db w' = w_db w) (query f)) by (intros A f w'; done).
    unfold sql_bind, get_password_file_for_user, passwords_match, lift_ke. stm; auto. }
  by apply H.
Qed.

Lemma entry_dn_lower key id ou base :
  is_lower key = true -> is_lower id = true -> is_lower ou = true -> is_lower base = true ->
  to_ascii_lowercase (entry_dn key id ou base) = entry_dn key id ou base.
Proof using Type.
  intros Hk Hi Ho Hb. apply is_lower_spec. unfold entry_dn.
  rewrite !is_lower_app. by split_and!.
Qed.

(** C21. Logging in over LDAP.  Once a password is registered for an existing
    user whose name can be written in a DN (it has no [","] or ["="], and no space at
    its ends: nothing escapes them), as long as the user's row is the one the
    registration left, a simple bind under the user's name succeeds with exactly that
    password; it then gives the session the permissions of the user's groups in
    the database at that time, and any other password leaves the session's identity
    alone. *)
Theorem ldap_login u p r k w li :
  world_ok w -> user_id_wf u = true -> dn_safe (user_id_str u) -> db_users (w_db w) !! u = Some r ->
  get_orion_secret_key = Ok k -> parse_distinguished_name (li_base_dn_str li) = Ok (li_base_dn li) ->
  exists w1, register_password u p w = (Ok tt, w1)
    /\ forall p' info w2, db_users (w_db w2) !! u = db_users (w_db w1) !! u ->
         let '(res, s') := do_bind (E:=Empty_set) li
           (mk_ldap_bind (entry_dn "uid" (user_id_str u) "people" (li_base_dn_str li)) (CredSimple p'))
           (mk_session info w2) in
         if decide (p' = p) then
           res = Ok (LSuccess, ""%string)
           /\ user_info s' = Some (get_permissions_from_groups u
                (map (fun g => gr_display_name g.2) (linked_groups (w_db w2) u)))
         else res = Ok (LInvalidCredentials, ""%string) /\ user_info s' = info.
Proof using B6 LL OO BSL.
  intros Hok Hwf Hdn Hu Hk Hbase. destruct (register_password_run u p r k w Hok Hwf Hu Hk) as (hash & w1 & H1 & Hdb & Hb).
  exists w1. split; [done|]. intros p' info w2 Hw2. specialize (Hb p' w2 Hw2).
  pose proof (do_bind_run li Empty_set
    (mk_ldap_bind (entry_dn "uid" (user_id_str u) "people" (li_base_dn_str li)) (CredSimple p')) (mk_session info w2)) as Hrun.
  cbv zeta in Hrun. cbn [lb_dn lb_cred backend_state user_info] in Hrun.
  rewrite entry_dn_lower in Hrun;
    [|done|apply Hdn|done|by destruct (parse_distinguished_name_lower _ _ Hbase)].
  destruct (read_entry_dn _ _ _ Hdn Hbase) as (Hid & _). rewrite user_id_new_str in Hid by done. rewrite Hid in Hrun.
  destruct (do_bind li _ _) as [res s']. cbn [lh_bind SqlLoginHandler] in Hrun.
  pose proof (sql_bind_keeps_db (mk_bind_request u p') w2) as Hkeep.
  destruct (sql_bind (mk_bind_request u p') w2) as [rb w3]. cbn in Hb, Hkeep. subst rb.
  case_decide; [|by destruct Hrun as [-> ->]].
  cbn [bh_get_user_groups SqlBackendHandler] in Hrun. rewrite sql_get_user_groups_run in Hrun.
  rewrite Hkeep, Hw2, Hdb in Hrun. cbn in Hrun. rewrite lookup_insert_eq in Hrun.
  destruct Hrun as [-> ->]. split; [done|]. cbn. do 2 f_equal. by rewrite map_map.
Qed.
End LdapLogin.

(* ------------------------------------------------------------------ *)
(** ** Witnesses *)

Definition toy_ldap3 : Ldap3 := {|
  parse_password_modify _ := None; ldap_op_debug _ := "op"%string; modify_type_debug _ := "type"%string;
  utf8_error_debug _ := "utf8"%string |}.

Section LdapWitnesses.
#[local] Existing Instances concrete_crates concrete_bincode concrete_sql toy_opaque toy_orion toy_stream toy_config
  world_rng toy_texts toy_ldap3.

Definition toy_handle : LdapOp -> stM (LdapSession World) Empty_set (option (list LdapOp)) :=
  handle_ldap_message "0.5.1" example_ldap_info.

Lemma unbound_refused_witness :
  toy_handle (OpCompareRequest (mk_compare_request "uid=bob,ou=people,dc=example,dc=com" "cn" []))
    (mk_session None example_world)
  = (Ok (Some [make_search_error LInsufficentAccessRights "No user currently bound"]), mk_session None example_world).
Proof.
  apply (unbound_refused "0.5.1" example_ldap_info
    (OpCompareRequest (mk_compare_request "uid=bob,ou=people,dc=example,dc=com" "cn" []))
    (mk_session None example_world)). reflexivity.
Defined.

Definition bob_session : LdapSession World := mk_session (Some (mk_validation uid_bob PermRegular)) example_world.
Definition admin_session : LdapSession World := mk_session (Some (mk_validation uid_admin PermAdmin)) example_world.

Lemma modify_other_panics_witness :
  toy_handle (OpModifyRequest (mk_modify_request "uid=john,ou=people,dc=example,dc=com" [])) bob_session
  = (Panic "Unexpected permission error", bob_session).
Proof.
  apply (modify_other_panics "0.5.1" example_ldap_info _ (mk_validation uid_bob PermRegular) uid_john);
    vm_compute; reflexivity.
Defined.

Definition change_john_password : LdapOp :=
  OpModifyRequest (mk_modify_request "uid=john,ou=people,dc=example,dc=com"
    [mk_modify ModReplace (mk_partial_attribute "userPassword" [into_bytes "hunter2"])]).

Lemma password_change_authorized_witness :
  let s' := snd (toy_handle change_john_password admin_session) in
  (ur_password_hash <$> db_users (w_db (backend_state s')) !! uid_john) = Some (Some (into_bytes "hunter2"))
  /\ (s' = admin_session \/ authorized_change example_ldap_info admin_session s').
Proof.
  cbv zeta. split; [vm_compute; reflexivity|].
  apply (password_change_authorized "0.5.1" example_ldap_info change_john_password admin_session).
Defined.

Definition example_search : LdapSearchRequest :=
  make_search_request "dc=example,dc=com" (FPresent "objectClass") ["cn"; "member"]%string.

Lemma search_answer_witness :
  snd (toy_handle (OpSearchRequest example_search) bob_session) = bob_session
  /\ exists l, fst (toy_handle (OpSearchRequest example_search) bob_session) = Ok (Some l) /\ length l = 3.
Proof.
  split; [apply (search_answer "0.5.1" example_ldap_info example_search bob_session)|].
  eexists. split; vm_compute; reflexivity.
Defined.

(** The names of the entries of an answer. *)
Definition entry_names (l : list LdapOp) : list string :=
  omap (fun op => match op with OpSearchResultEntry e => Some (le_dn e) | _ => None end) l.
Lemma entry_names_of es d : entry_names (map OpSearchResultEntry es ++ [OpSearchResultDone d]) = map le_dn es.
Proof. unfold entry_names. induction es as [|e es IH]; [done|]. cbn. by f_equal. Qed.

Lemma regular_search_restricted_witness :
  exists es d,
    fst (toy_handle (OpSearchRequest example_search) bob_session)
    = Ok (Some (map OpSearchResultEntry es ++ [OpSearchResultDone d]))
    /\ map le_dn es = ["uid=bob,ou=people,dc=example,dc=com"; "cn=Best Group,ou=groups,dc=example,dc=com"]%string
    /\ Forall (fun e =>
      e = ou_entry (sr_base example_search)
      \/ le_dn e = entry_dn "uid" (user_id_str uid_bob) "people" "dc=example,dc=com"
      \/ exists f gs g, fst (bh_list_groups f example_world) = Ok gs /\ g ∈ gs /\ uid_bob ∈ group_users g
           /\ le_dn e = entry_dn "cn" (ci_raw (group_display_name g)) "groups" "dc=example,dc=com") es.
Proof.
  destruct (handle_search_answer "0.5.1" example_ldap_info example_search bob_session) as [_ H].
  destruct (fst (toy_handle (OpSearchRequest example_search) bob_session)) as [[l|]|[]|p] eqn:Hf;
    [|by vm_compute in Hf..].
  unfold toy_handle in Hf. rewrite Hf in H. destruct H as (es & d & ->). exists es, d. split; [done|]. split.
  - rewrite <- (entry_names_of es d). apply (f_equal (fun r => match r with Ok (Some l) => entry_names l | _ => [] end)) in Hf.
    rewrite <- Hf. vm_compute. reflexivity.
  - exact (regular_search_restricted "0.5.1" example_ldap_info example_search bob_session
      (mk_validation uid_bob PermRegular) es d eq_refl eq_refl Hf).
Defined.

Definition example_add : LdapAddRequest :=
  mk_add_request "uid=new,ou=people,dc=example,dc=com"
    [mk_partial_attribute "objectClass" (map into_bytes ["person"; "top"]%string);
     mk_partial_attribute "Mail" [into_bytes "new@example.com"];
     mk_partial_attribute "cn" [into_bytes "First"]; mk_partial_attribute "CN" [into_bytes "Second"]].

Lemma create_request_correct_witness :
  exists c, create_request_of (user_id_new "new") example_add = Ok c
    /\ cu_display_name c = Some "Second"%string /\ decoded as_utf8 example_add "cn" (cu_display_name c).
Proof.
  eexists. split; [vm_compute; reflexivity|]. split; [reflexivity|].
  eapply (create_request_correct (user_id_new "new") example_add). vm_compute. reflexivity.
Defined.

Lemma ldap_login_witness :
  exists w1, register_password uid_admin "secret" example_world = (Ok tt, w1)
    /\ user_info (snd (do_bind (E:=Empty_set) example_ldap_info
         (mk_ldap_bind "uid=admin,ou=people,dc=example,dc=com" (CredSimple "secret")) (mk_session None w1)))
       = Some (mk_validation uid_admin PermAdmin).
Proof.
  destruct (@ldap_login concrete_crates concrete_bincode concrete_sql toy_opaque toy_orion toy_stream toy_config
    concrete_base64_laws toy_opaque_laws toy_orion_laws toy_stream_laws
    uid_admin "secret" example_admin_row [] example_world example_ldap_info) as (w1 & H1 & Hb).
  - apply example_world_ok.
  - reflexivity.
  - repeat split; vm_compute; reflexivity.
  - vm_compute. reflexivity.
  - reflexivity.
  - vm_compute. reflexivity.
  - exists w1. split; [done|]. specialize (Hb "secret"%string None w1 eq_refl).
    change "uid=admin,ou=people,dc=example,dc=com"%string with (entry_dn "uid" (user_id_str uid_admin) "people" (li_base_dn_str example_ldap_info)).
    destruct (do_bind _ _ _) as [res s']. rewrite decide_True in Hb by done. destruct Hb as [_ Hb]. cbn [snd]. rewrite Hb.
    replace w1 with (snd (register_password uid_admin "secret" example_world)) by (by rewrite H1).
    vm_compute. reflexivity.
Defined.

(** A user whose name has a comma is created like any other, and can log in over HTTP;
    the name of the entry that LDAP shows for it names nobody. *)
Example comma_cannot_bind :
  let u := user_id_new "smith,j" in
  let w1 := snd (sql_create_user (mk_create_user u (mk_ci "j@example.com") None None None None []) example_world) in
  let w2 := snd (register_password u "secret" w1) in
  fst (sql_bind (mk_bind_request u "secret") w2) = Ok tt
  /\ exists e, fst (do_bind (E:=Empty_set) example_ldap_info
       (mk_ldap_bind (entry_dn "uid" (user_id_str u) "people" (li_base_dn_str example_ldap_info)) (CredSimple "secret"))
       (mk_session None w2)) = Ok (LNamingViolation, e).
Proof. split; [vm_compute; reflexivity|]. eexists. vm_compute. reflexivity. Qed.
End LdapWitnesses.
