(* ===== verification/AuthService.v ===== *)
(** * Authentication over HTTP

    Models [server/src/infra/auth_service.rs], the error mapping and the state of
    [server/src/infra/tcp_server.rs] and the claims of [auth/src/lib.rs]: logging
    in, refreshing, logging out, resetting a password, and checking the JWT of a
    request.  The parts of a request that the HTTP library extracts (cookies,
    headers, the decoded body) are the arguments of the handlers. *)

From S2P Require Import Prelude RustStd Extern Types Concrete Handler Deserialize Db ExampleDb SqlFilters SqlSchema SqlUser SqlGroup SqlBackend SqlTcp SqlOpaque AccessControl LdapHandler LdapSql.
From Stdlib Require Import Ascii String.
From stdpp Require Import strings list gmap.
#[local] Open Scope rust_scope.

(** Source: auth/src/lib.rs#struct JWTClaims *)
Record JWTClaims := mk_claims {
  cl_exp : NaiveDateTime;
  cl_iat : NaiveDateTime;
  cl_user : string;
  cl_groups : list string;
}.

Inductive AlgorithmType := Hs512 | OtherAlgorithm (debug : string).
#[global] Instance algorithm_eq_dec : EqDecision AlgorithmType.
Proof. solve_decision. Defined.

(** The [jwt] crate with a fixed HMAC key: the text of a signed token, and what
    a token that verifies says. *)
Class Jwt : Type := {
  sign_with_key : AlgorithmType -> JWTClaims -> string;
  verify_with_key : string -> option (AlgorithmType * JWTClaims);
}.
Class JwtLaws (J : Jwt) : Prop := {
  verify_signed c : verify_with_key (sign_with_key Hs512 c) = Some (Hs512, c);
}.

(** [chrono::Utc::now()] and the mail transport, behind the state. *)
Class Clock (St : Type) : Type := { utc_clock : forall E, stM St E NaiveDateTime }.
Arguments utc_clock {St _ E}.
Class Mailer (St : Type) : Type := {
  send_password_reset_email : string -> string -> string -> stM St string unit;
}.

(* ------------------------------------------------------------------ *)
(** ** Errors and responses *)

(** Source: server/src/infra/tcp_server.rs#enum TcpError *)
Inductive TcpError :=
| TcpDomainError (e : DomainError)
| BadRequest (m : string)
| InternalServerError (m : string)
| NotFoundError (m : string)
| UnauthorizedError (m : string).

Record Cookie := mk_cookie { ck_name : string; ck_value : string; ck_max_age_seconds : Z; ck_path : string }.

Inductive Body :=
| NoBody
| TextBody (s : string)
| ServerLoginResponse (token : string) (refresh_token : option string)
| ServerPasswordResetResponse (user_id token : string).

Record HttpResponse := mk_response { hr_status : Z; hr_cookies : list Cookie; hr_body : Body }.

(** [#[error(..)]] of [TcpError]. *)
Definition tcp_error_text `{ErrorTexts} (e : TcpError) : string :=
  match e with
  | TcpDomainError e => "`" +:+ domain_error_display e +:+ "`"
  | BadRequest m => "Bad request: `" +:+ m +:+ "`"
  | InternalServerError m => "Internal server error: `" +:+ m +:+ "`"
  | NotFoundError m => "Not found: `" +:+ m +:+ "`"
  | UnauthorizedError m => "Unauthorized: `" +:+ m +:+ "`"
  end.

(** Source: server/src/infra/tcp_server.rs#fn error_to_http_response *)
Definition error_to_http_response `{ErrorTexts} (error : TcpError) : HttpResponse :=
  mk_response
    match error with
    | TcpDomainError de =>
        match de with
        | AuthenticationError _ | AuthenticationProtocolError _ => 401
        | DatabaseError _ | DatabaseTransactionError _ | InternalError _ | UnknownCryptoError => 500
        | Base64DecodeError | BinarySerializationError _ | EntityNotFound _ => 400
        end
    | BadRequest _ => 400
    | NotFoundError _ => 404
    | InternalServerError _ => 500
    | UnauthorizedError _ => 401
    end%Z [] (TextBody (tcp_error_text error)).

(* ------------------------------------------------------------------ *)
(** ** The handlers *)

(** What the handlers share; the key is in [Jwt], the mail options in [Mailer],
    the path of the server's URL is the parameter [url_path].
    Source: server/src/infra/tcp_server.rs#struct AppState *)
Record AppState (St : Type) := mk_app { app_backend : St; jwt_blacklist : gset Z }.
Arguments mk_app {St} _ _.
Arguments app_backend {St} _.
Arguments jwt_blacklist {St} _.

Definition seconds_per_day : Z := 86400.

Section AuthService.
Context {St : Type} `{BH : !BackendHandler St} `{LH : !LoginHandler St} `{TH : !TcpBackendHandler St}
  `{OL : OpaqueLib} `{OH : !OpaqueHandler St} `{CK : !Clock St} `{ML : !Mailer St}.
Context `{U : Unicode} `{SH : StdHash} `{J : Jwt} `{T : ErrorTexts}.
Context (url_path : string).

Abbreviation app A := (stM (AppState St) TcpError A).

Definition in_backend {E A} (m : stM St E A) : stM (AppState St) E A :=
  szoom app_backend (fun t s => mk_app t (jwt_blacklist s)) m.
(** A call whose [DomainError] the question mark converts. *)
Definition call {A} (m : stM St DomainError A) : app A := smap_err TcpDomainError (in_backend m).

(** [JWTClaims] takes the time twice; [unwrap] panics when the token's hash is
    already registered.
    Source: server/src/infra/auth_service.rs#async fn create_jwt *)
Definition create_jwt {E} (user : UserId) (groups : list GroupDetails) : stM St E string :=
  let! now1 := utc_clock in
  let! now2 := utc_clock in
  let claims := mk_claims (now1 + days 1)%Z now2 (user_id_str user) (map (fun g => ci_raw (gd_display_name g)) groups) in
  let expiry := cl_exp claims in
  let token := sign_with_key Hs512 claims in
  let! r := stry (tcp_register_jwt user (default_hash token) expiry) in
  match r with
  | inr _ => sret token
  | inl _ => spanic "called `Result::unwrap()` on an `Err` value"
  end.

(** Source: server/src/infra/auth_service.rs#fn parse_refresh_token *)
Definition parse_refresh_token (token : string) : outcome TcpError (Z * UserId) :=
  match split_once "+"%char token with
  | None => Err (TcpDomainError (AuthenticationError "Invalid refresh token"))
  | Some (token, u) => Ok (default_hash token, user_id_new u)
  end.

(** [cookie] and [header] are the request's; the header's value is [None] when
    it is not visible ASCII.
    Source: server/src/infra/auth_service.rs#fn get_refresh_token *)
Definition get_refresh_token (cookie : option string) (header : option (option string)) :
    outcome TcpError (Z * UserId) :=
  match cookie, header with
  | Some c, _ => parse_refresh_token c
  | _, Some t =>
      let? t := expect "called `Result::unwrap()` on an `Err` value" t in parse_refresh_token t
  | None, None => Err (TcpDomainError (AuthenticationError "Missing refresh token"))
  end.

(** [path] with a slash at its end. *)
Definition server_path : string :=
  if match String.rev url_path with String c _ => Ascii.eqb c "/"%char | EmptyString => false end
  then url_path else url_path +:+ "/".

Definition token_cookie (token : string) (age : Z) (path : string) : Cookie := mk_cookie "token" token age path.
Definition auth_path : string := server_path +:+ "auth".

(** Source: server/src/infra/auth_service.rs#async fn get_refresh *)
Definition get_refresh (cookie : option string) (header : option (option string)) : app HttpResponse :=
  let! '(refresh_token_hash, user) := slift (get_refresh_token cookie header) in
  let! found := call (tcp_check_token refresh_token_hash user) in
  if negb found then sthrow (TcpDomainError (AuthenticationError "Invalid refresh token"))
  else
    let! groups := call (bh_get_user_groups user) in
    let! token := in_backend (create_jwt user groups) in
    sret (mk_response 200 [token_cookie token seconds_per_day server_path] (ServerLoginResponse token None)).

(** [user_id] is the segment of the path.
    Source: server/src/infra/auth_service.rs#async fn get_password_reset_step1 *)
Definition get_password_reset_step1 (user_id : option string) : app unit :=
  let! user_string := slift (ok_or (BadRequest "Missing user ID") user_id) in
  let! user_results := call (bh_list_users
    (Some (UOr [UUserId (user_id_new user_string); UEquality ColEmail user_string])) false) in
  match user_results with
  | [] => sret tt
  | _ :: _ :: _ => sthrow (InternalServerError "Ambiguous user id or email")
  | [x] =>
      let user := uag_user x in
      let! token := call (tcp_start_password_reset (user_user_id user)) in
      match token with
      | None => sret tt
      | Some token =>
          let! r := in_backend (stry (send_password_reset_email
            (default (user_id_str (user_user_id user)) (user_display_name user)) (ci_raw (user_email user)) token)) in
          match r with
          | inl e => sthrow (InternalServerError ("Could not send email: " +:+ e))
          | inr _ => sret tt
          end
      end
  end.

(** The result of the deletion is ignored.
    Source: server/src/infra/auth_service.rs#async fn get_password_reset_step2 *)
Definition get_password_reset_step2 (token : option string) : app HttpResponse :=
  let! token := slift (ok_or (BadRequest "Missing reset token") token) in
  let! user_id := smap_err (fun _ => NotFoundError "Wrong or expired reset token")
    (in_backend (tcp_get_user_id_for_password_reset_token token)) in
  let! _ := in_backend (stry (tcp_delete_password_reset_token token)) in
  let! jwt := in_backend (create_jwt user_id []) in
  sret (mk_response 200 [token_cookie jwt 300 auth_path] (ServerPasswordResetResponse (user_id_str user_id) jwt)).

(** Source: server/src/infra/auth_service.rs#async fn get_logout *)
Definition get_logout (cookie : option string) (header : option (option string)) : app HttpResponse :=
  let! '(refresh_token_hash, user) := slift (get_refresh_token cookie header) in
  call (tcp_delete_refresh_token refresh_token_hash) ;;
  let! new_blacklisted_jwt_hashes := call (tcp_blacklist_jwts user) in
  smodify (fun s => mk_app (app_backend s) (jwt_blacklist s ∪ new_blacklisted_jwt_hashes)) ;;
  sret (mk_response 200 [token_cookie "" 0 server_path; mk_cookie "refresh_token" "" 0 auth_path] NoBody).

(** Source: server/src/infra/auth_service.rs#async fn opaque_login_start *)
Definition opaque_login_start (request : ClientLoginStartRequest) : app _ := call (oh_login_start request).

(** Source: server/src/infra/auth_service.rs#async fn get_login_successful_response *)
Definition get_login_successful_response (name : UserId) : app HttpResponse :=
  let! groups := call (bh_get_user_groups name) in
  let! '(refresh_token, max_age) := call (tcp_create_refresh_token name) in
  let! token := in_backend (create_jwt name groups) in
  let refresh_token_plus_name := refresh_token +:+ "+" +:+ user_id_str name in
  let num_days := Z.quot max_age (days 1) in
  sret (mk_response 200
    [token_cookie token seconds_per_day server_path;
     mk_cookie "refresh_token" refresh_token_plus_name (num_days * seconds_per_day) auth_path]
    (ServerLoginResponse token (Some refresh_token_plus_name))).

(** Source: server/src/infra/auth_service.rs#async fn opaque_login_finish *)
Definition opaque_login_finish (request : ClientLoginFinishRequest) : app HttpResponse :=
  let! name := call (oh_login_finish request) in
  get_login_successful_response name.

(** Source: server/src/infra/auth_service.rs#async fn simple_login *)
Definition simple_login (username : UserId) (password : string) : app HttpResponse :=
  call (lh_bind (mk_bind_request username password)) ;;
  get_login_successful_response username.

(** Source: server/src/infra/auth_service.rs#async fn post_authorize *)
Definition post_authorize (request : BindRequest) : app HttpResponse :=
  let name := bind_name request in
  call (lh_bind request) ;;
  get_login_successful_response name.

(** The errors are all [401 Unauthorized], with a text.
    Source: server/src/infra/auth_service.rs#fn check_if_token_is_valid *)
Definition check_if_token_is_valid (token_str : string) : stM (AppState St) string ValidationResults :=
  let! '(algorithm, claims) := slift (ok_or "Invalid JWT"%string (verify_with_key token_str)) in
  let! now := in_backend utc_clock in
  if (cl_exp claims <? now)%Z then sthrow "Expired JWT"%string
  else match algorithm with
       | OtherAlgorithm debug =>
           sthrow ("Unsupported JWT algorithm: '" +:+ debug +:+ "'. Supported ones are: ['HS512']")
       | Hs512 =>
           let jwt_hash := default_hash token_str in
           let! state := sget in
           if bool_decide (jwt_hash ∈ jwt_blacklist state) then sthrow "JWT was logged out"%string
           else sret (get_permissions_from_groups (user_id_new (cl_user claims)) (map mk_ci (cl_groups claims)))
       end.

Definition not_authorized : TcpError := UnauthorizedError "Not authorized to change the user's password".

(** [bearer] is the token of the [Authorization] header, [payload] the decoded
    body or the decoder's error.
    Source: server/src/infra/auth_service.rs#async fn opaque_register_start *)
Definition opaque_register_start (bearer : option string) (payload : string + ClientRegistrationStartRequest) :
    app ServerRegistrationStartResponse :=
  let! validation_result :=
    match bearer with
    | None => sthrow not_authorized
    | Some token => smap_err (fun _ => not_authorized) (check_if_token_is_valid token)
    end in
  let! registration_start_request :=
    match payload with inl e => sthrow (BadRequest e) | inr r => sret r end in
  let user_id := rs_username registration_start_request in
  let! groups := call (bh_get_user_groups user_id) in
  let user_is_admin := existsb (fun g => ci_eqb (gd_display_name g) (mk_ci "lldap_admin")) groups in
  if negb (can_change_password validation_result user_id user_is_admin) then sthrow not_authorized
  else call (oh_registration_start registration_start_request).

(** Source: server/src/infra/auth_service.rs#async fn opaque_register_finish *)
Definition opaque_register_finish (request : ClientRegistrationFinishRequest) : app HttpResponse :=
  call (oh_registration_finish request) ;;
  sret (mk_response 200 [] NoBody).

(* ------------------------------------------------------------------ *)
(** ** The routes *)

(** The requests the service answers. *)
Inductive AuthRequest :=
| PostAuthorize (r : BindRequest)
| PostLoginStart (r : ClientLoginStartRequest)
| PostLoginFinish (r : ClientLoginFinishRequest)
| PostSimpleLogin (username : UserId) (password : string)
| GetRefresh (cookie : option string) (header : option (option string))
| GetLogout (cookie : option string) (header : option (option string))
| PostRegisterStart (bearer : option string) (payload : string + ClientRegistrationStartRequest)
| PostRegisterFinish (r : ClientRegistrationFinishRequest)
| PostResetStep1 (user_id : option string)
| GetResetStep2 (token : option string).

(** What is sent back: a response, or the message of the protocol as JSON. *)
Inductive AuthAnswer :=
| Response (r : HttpResponse)
| LoginStartAnswer (r : ServerLoginStartResponse)
| RegistrationStartAnswer (r : ServerRegistrationStartResponse).

(** [.unwrap_or_else(error_to_http_response)] *)
Definition answer {E A} (f : A -> AuthAnswer) (m : app A) : stM (AppState St) E AuthAnswer :=
  let! r := stry m in
  sret match r with inl e => Response (error_to_http_response e) | inr a => f a end.

(** Each route with the [.._handler] it leads to, once the request is decoded
    ([HttpServer] has the decoding).  A route that is not there is not answered by
    this service but by the server's default one; here it has a 404.
    Source: server/src/infra/auth_service.rs#fn configure_server *)
Definition handle_auth_request (enable_password_reset : bool) (r : AuthRequest) :
    stM (AppState St) Empty_set AuthAnswer :=
  match r with
  | PostAuthorize r => answer Response (post_authorize r)
  | PostLoginStart r => answer LoginStartAnswer (opaque_login_start r)
  | PostLoginFinish r => answer Response (opaque_login_finish r)
  | PostSimpleLogin u p => answer Response (simple_login u p)
  | GetRefresh c h => answer Response (get_refresh c h)
  | GetLogout c h => answer Response (get_logout c h)
  | PostRegisterStart b p => answer RegistrationStartAnswer (opaque_register_start b p)
  | PostRegisterFinish r => answer Response (opaque_register_finish r)
  | PostResetStep1 u =>
      if enable_password_reset
      then answer (fun _ => Response (mk_response 200 [] NoBody)) (get_password_reset_step1 u)
      else sret (Response (mk_response 404 [] NoBody))
  | GetResetStep2 t =>
      if enable_password_reset then answer Response (get_password_reset_step2 t)
      else sret (Response (mk_response 404 [] NoBody))
  end.
End AuthService.
