(* ===== verification/AuthSession.v ===== *)
(** * Sessions over HTTP, on the SQL backend

    The handlers of [AuthService] on the database of [Db]: the life of a JWT from
    the login to the logout, the reset of a password, who may start a
    registration, and the agreement of the two blacklists. *)

From S2P Require Import Prelude RustStd Extern Types Concrete Handler Deserialize Db ExampleDb SqlFilters SqlSchema SqlUser SqlGroup SqlBackend SqlTcp SqlOpaque AccessControl LdapHandler LdapSql AuthService.
From Stdlib Require Import Ascii String.
From stdpp Require Import strings list gmap.
#[local] Open Scope rust_scope.

(** The system's clock is the world's. *)
Definition world_clock : Clock World := {| utc_clock E w := (Ok (w_now w), w) |}.

(** The application at another moment. *)
Definition app_at (t : NaiveDateTime) (s : AppState World) : AppState World :=
  mk_app (at_time t (app_backend s)) (jwt_blacklist s).

Section AuthSession.
Context `{C : Crates} `{B : Bincode} `{SL : SqlLib} `{OL : OpaqueLib} `{O : Orion} `{BS : !BincodeStream}
  `{CF : !OpaqueConfig} `{T : ErrorTexts} `{SH : StdHash} `{J : Jwt} `{ML : !Mailer World}.
Context (url_path : string).
#[local] Existing Instance world_clock.
Implicit Type s : AppState World.

Abbreviation db_of s := (w_db (app_backend s)).

Lemma in_backend_run {E A} (m : stM World E A) s :
  in_backend m s = (fst (m (app_backend s)), mk_app (snd (m (app_backend s))) (jwt_blacklist s)).
Proof using Type. unfold in_backend, szoom. by destruct (m (app_backend s)). Qed.

Lemma in_backend_ok {E A} (m : stM World E A) s a s' :
  in_backend m s = (Ok a, s') -> exists w, m (app_backend s) = (Ok a, w) /\ s' = mk_app w (jwt_blacklist s).
Proof using Type.
  rewrite in_backend_run. destruct (m (app_backend s)) as [r w]. cbn. intros [= -> <-]. eauto.
Qed.

Lemma call_ok {A} (m : SQL A) s a s' :
  call m s = (Ok a, s') -> exists w, m (app_backend s) = (Ok a, w) /\ s' = mk_app w (jwt_blacklist s).
Proof using Type. unfold call. rewrite smap_err_ok. apply in_backend_ok. Qed.

Lemma call_run {A} (m : SQL A) s a w :
  m (app_backend s) = (Ok a, w) -> call m s = (Ok a, mk_app w (jwt_blacklist s)).
Proof using Type. intros H. unfold call. apply smap_err_ok. by rewrite in_backend_run, H. Qed.

(* ------------------------------------------------------------------ *)
(** ** Tokens *)

(** The claims of a token made at [now]. *)
Definition claims_at (now : NaiveDateTime) (u : UserId) (groups : list GroupDetails) : JWTClaims :=
  mk_claims (now + days 1)%Z now (user_id_str u) (map (fun g => ci_raw (gd_display_name g)) groups).

Lemma create_jwt_ok {E} u groups w tok w' :
  create_jwt (E:=E) u groups w = (Ok tok, w') ->
  tok = sign_with_key Hs512 (claims_at (w_now w) u groups)
  /\ w' = set_db (set_jwt_storage (<[as_i64 (default_hash tok) := mk_jwt_row u (w_now w + days 1)%Z false]>
             (db_jwt_storage (w_db w))) (w_db w)) w.
Proof using Type.
  unfold create_jwt, sbind, stry. cbn. unfold sql_register_jwt, insert_jwt, statement, guard_.
  case_decide as Hn; [|done]. cbn. case_decide as Hu; [|done]. cbn. by intros [= <- <-].
Qed.

(** What checking a token says, by its claims. *)
Lemma check_token_run tok claims s :
  verify_with_key tok = Some (Hs512, claims) ->
  check_if_token_is_valid tok s
  = (if (cl_exp claims <? w_now (app_backend s))%Z then Err "Expired JWT"%string
     else if bool_decide (default_hash tok ∈ jwt_blacklist s) then Err "JWT was logged out"%string
     else Ok (get_permissions_from_groups (user_id_new (cl_user claims)) (map mk_ci (cl_groups claims))), s).
Proof using Type.
  intros Hv. unfold check_if_token_is_valid, sbind, slift. rewrite Hv. cbn.
  destruct s as [w b]; cbn. destruct (_ <? _)%Z; [done|]. by destruct (bool_decide _).
Qed.

Lemma check_token_keeps tok s : snd (check_if_token_is_valid tok s) = s.
Proof using Type.
  unfold check_if_token_is_valid, sbind, slift. destruct (verify_with_key tok) as [[a c]|]; [|done].
  destruct s as [w b]. cbn. destruct (_ <? _)%Z; [done|]. destruct a; [|done]. by destruct (bool_decide _).
Qed.

Lemma permissions_of_claims {JL : JwtLaws J} now u groups :
  user_id_wf u = true ->
  get_permissions_from_groups (user_id_new (cl_user (claims_at now u groups)))
    (map mk_ci (cl_groups (claims_at now u groups)))
  = get_permissions_from_groups u (map gd_display_name groups).
Proof using Type.
  intros Hu. cbn. rewrite user_id_new_str by done. f_equal. rewrite map_map. apply map_ext.
  intros g. by destruct (gd_display_name g).
Qed.

Lemma parse_refresh_token_of token u :
  contains_char "+"%char token = false -> user_id_wf u = true ->
  parse_refresh_token (token +:+ "+" +:+ user_id_str u) = Ok (default_hash token, u).
Proof using Type.
  intros Ht Hu. unfold parse_refresh_token.
  change ("+" +:+ user_id_str u) with (String "+"%char (user_id_str u)). rewrite split_once_app by done.
  by rewrite user_id_new_str.
Qed.

(** A logout goes through whatever the token before the [+] is, and blacklists
    the tokens of the user named after it. *)
Lemma get_logout_run token u s :
  contains_char "+"%char token = false -> user_id_wf u = true ->
  exists resp s', get_logout url_path (Some (token +:+ "+" +:+ user_id_str u)) None s = (Ok resp, s')
    /\ hr_status resp = 200%Z
    /\ jwt_blacklist s' = jwt_blacklist s
         ∪ hashes (filter (fun p => jr_user_id p.2 = u /\ jr_blacklisted p.2 = false) (db_jwt_storage (db_of s)))
    /\ w_now (app_backend s') = w_now (app_backend s)
    /\ db_of s' = set_jwt_storage ((fun r => if decide (jr_user_id r = u)
               then mk_jwt_row (jr_user_id r) (jr_expiry_date r) true else r) <$> db_jwt_storage (db_of s))
         (set_jwt_refresh_storage (filter (fun p => p.1 <> as_i64 (default_hash token))
            (db_jwt_refresh_storage (db_of s))) (db_of s)).
Proof using Type.
  intros Ht Hu. unfold get_logout, get_refresh_token. rewrite parse_refresh_token_of by done.
  erewrite sbind_run by done. cbv beta iota.
  erewrite sbind_run by (by apply call_run). cbv beta. erewrite sbind_run by (by apply call_run).
  do 2 eexists. split; [done|]. destruct s as [[db now rng pos] bl]. by split_and!.
Qed.

(** Logging out.  Whoever presents a refresh token of the form [x+u], even
    one that was never given out, is answered with success, and from then on
    every JWT of the user [u] that the database holds is refused, at any time:
    the token [x] itself is not checked. *)
Theorem logout_rejects x u token claims row s :
  contains_char "+"%char x = false -> user_id_wf u = true ->
  verify_with_key token = Some (Hs512, claims) ->
  db_jwt_storage (db_of s) !! as_i64 (default_hash token) = Some row ->
  jr_user_id row = u -> jr_blacklisted row = false ->
  exists resp s', get_logout url_path (Some (x +:+ "+" +:+ user_id_str u)) None s = (Ok resp, s')
    /\ forall t, exists e, fst (check_if_token_is_valid token (app_at t s')) = Err e.
Proof using Type.
  intros Hx Hu Hv Hrow Hru Hrb. destruct (get_logout_run x u s Hx Hu) as (resp & s' & Hl & _ & Hb & _ & _).
  exists resp, s'. split; [done|]. intros t. rewrite (check_token_run token claims) by done. cbn [fst].
  case_match; [by eexists|]. rewrite bool_decide_eq_true_2; [by eexists|].
  cbn. rewrite Hb. apply elem_of_union_r, elem_of_hashes. exists (as_i64 (default_hash token)), row.
  rewrite map_lookup_filter_Some. split; [done|]. by rewrite as_u64_as_i64 by apply default_hash_u64.
Qed.

(* ------------------------------------------------------------------ *)
(** ** Logging in *)

(** What a login leaves behind. *)
Record login_result (u : UserId) (s : AppState World) (resp : HttpResponse) (s1 : AppState World)
    (refresh token : string) : Prop := {
  lres_status : hr_status resp = 200%Z;
  lres_body : hr_body resp = ServerLoginResponse token (Some (refresh +:+ "+" +:+ user_id_str u));
  lres_refresh : refresh = w_rng (app_backend s) (w_rng_pos (app_backend s));
  lres_token : token = sign_with_key Hs512
    (claims_at (w_now (app_backend s)) u (map group_details_from_model (linked_groups (db_of s) u)));
  lres_blacklist : jwt_blacklist s1 = jwt_blacklist s;
  lres_now : w_now (app_backend s1) = w_now (app_backend s);
  lres_jwt : db_jwt_storage (db_of s1) !! as_i64 (default_hash token)
    = Some (mk_jwt_row u (w_now (app_backend s) + days 1)%Z false);
  lres_refresh_row : db_jwt_refresh_storage (db_of s1) !! as_i64 (default_hash refresh)
    = Some (mk_refresh_row u (w_now (app_backend s) + days 30)%Z);
  lres_users : db_users (db_of s1) = db_users (db_of s);
  lres_groups : linked_groups (db_of s1) u = linked_groups (db_of s) u;
}.

Lemma create_refresh_ok u w refresh d w' :
  sql_create_refresh_token u w = (Ok (refresh, d), w') ->
  refresh = w_rng w (w_rng_pos w) /\ w_now w' = w_now w
  /\ w_db w' = set_jwt_refresh_storage (<[as_i64 (default_hash refresh) := mk_refresh_row u (w_now w + days 30)%Z]>
       (db_jwt_refresh_storage (w_db w))) (w_db w).
Proof using Type.
  unfold sql_create_refresh_token, gen_random_string, sbind, utc_now, insert_refresh, statement, guard_.
  cbn. case_decide; cbn; [|done]. case_decide; cbn; [|done]. by intros [= <- <- <-].
Qed.

Lemma login_response_ok u s resp s1 :
  get_login_successful_response url_path u s = (Ok resp, s1) ->
  exists refresh token, login_result u s resp s1 refresh token.
Proof using Type.
  unfold get_login_successful_response. intros (groups & sa & (wa & Hg & ->)%call_ok & H)%sbind_ok.
  cbn [bh_get_user_groups SqlBackendHandler] in Hg. rewrite (sql_get_user_groups_run u (app_backend s)) in Hg.
  destruct (db_users (db_of s) !! u) as [r|] eqn:Hu; [|done]. injection Hg as <- <-.
  apply sbind_ok in H as ([refresh d] & sb & (wb & (Hr & Hnow & Hdb)%create_refresh_ok & ->)%call_ok & H).
  apply sbind_ok in H as (token & sc & (wc & (Ht & ->)%create_jwt_ok & ->)%in_backend_ok & H).
  apply sret_ok in H as [-> ->]. exists refresh, token. cbn in *. rewrite Hnow in *.
  split; try done; cbn.
  - by rewrite lookup_insert_eq.
  - rewrite Hdb. cbn. by rewrite lookup_insert_eq.
  - by rewrite Hdb.
  - by rewrite Hdb.
Qed.

(** C2. The life of a session.  After a login of [u] that succeeded, the JWT of
    the response is accepted during one day, with the permissions of the groups
    the user had at the login, and refused afterwards; the refresh token names
    the user.  Presenting it to the logout succeeds, and from then on the JWT is
    refused at any time and the refresh token is worth nothing.  (The random part
    is alphanumeric, and the hash of the new JWT is not blacklisted already.) *)
Theorem session_lifecycle {JL : JwtLaws J} u s resp s1 :
  get_login_successful_response url_path u s = (Ok resp, s1) -> user_id_wf u = true ->
  (forall n, contains_char "+"%char (w_rng (app_backend s) n) = false) ->
  (forall token r, hr_body resp = ServerLoginResponse token r -> default_hash token ∉ jwt_blacklist s) ->
  exists token refresh resp2 s2,
    hr_body resp = ServerLoginResponse token (Some refresh)
    /\ (forall t, fst (check_if_token_is_valid token (app_at t s1))
         = if (w_now (app_backend s) + days 1 <? t)%Z then Err "Expired JWT"%string
           else Ok (get_permissions_from_groups u (map (fun g => gr_display_name g.2) (linked_groups (db_of s) u))))
    /\ get_logout url_path (Some refresh) None s1 = (Ok resp2, s2)
    /\ (forall t, exists e, fst (check_if_token_is_valid token (app_at t s2)) = Err e)
    /\ (forall t, fst (get_refresh url_path (Some refresh) None (app_at t s2))
         = Err (TcpDomainError (AuthenticationError "Invalid refresh token"))).
Proof using Type.
  intros H Hu Hrng Hfresh. destruct (login_response_ok u s resp s1 H) as (refresh & token & L).
  assert (Hv := verify_signed (claims_at (w_now (app_backend s)) u (map group_details_from_model (linked_groups (db_of s) u)))).
  rewrite <- (lres_token _ _ _ _ _ _ L) in Hv.
  assert (Hplus : contains_char "+"%char refresh = false) by (rewrite (lres_refresh _ _ _ _ _ _ L); apply Hrng).
  destruct (get_logout_run refresh u s1 Hplus Hu) as (resp2 & s2 & Hl & _ & Hb & _ & Hdb).
  exists token, (refresh +:+ "+" +:+ user_id_str u), resp2, s2.
  split; [apply (lres_body _ _ _ _ _ _ L)|]. split; [|split; [exact Hl|]; split].
  - intros t. rewrite (check_token_run _ _ _ Hv). cbn [app_at app_backend at_time w_now jwt_blacklist fst].
    rewrite (lres_blacklist _ _ _ _ _ _ L), bool_decide_eq_false_2 by (eapply Hfresh, (lres_body _ _ _ _ _ _ L)).
    rewrite permissions_of_claims by done. rewrite map_map. done.
  - intros t. rewrite (check_token_run _ _ _ Hv). cbn [fst]. case_match; [by eexists|].
    rewrite bool_decide_eq_true_2; [by eexists|]. cbn. rewrite Hb. apply elem_of_union_r, elem_of_hashes.
    do 2 eexists. split; [|by rewrite as_u64_as_i64 by apply (default_hash_u64 token)].
    rewrite map_lookup_filter_Some. split; [apply (lres_jwt _ _ _ _ _ _ L)|done].
  - intros t. unfold get_refresh, get_refresh_token. rewrite parse_refresh_token_of by done.
    erewrite sbind_run by done. cbv beta iota. erewrite sbind_run; [|apply call_run].
    2:{ cbn. unfold sql_check_token, query. cbn. rewrite Hdb. cbn. rewrite map_lookup_filter.
        destruct (db_jwt_refresh_storage (db_of s1) !! as_i64 (default_hash refresh)); cbn; [|done].
        case_guard as Hg; [by destruct Hg|done]. }
    done.
Qed.

(* ------------------------------------------------------------------ *)
(** ** Resetting a password *)

Lemma reset_token_ok token w u w' :
  sql_get_user_id_for_password_reset_token token w = (Ok u, w') ->
  w' = w /\ exists row, db_password_reset_tokens (w_db w) !! token = Some row
    /\ (w_now w < pr_expiry_date row)%Z /\ u = pr_user_id row.
Proof using Type.
  unfold sql_get_user_id_for_password_reset_token, sbind, utc_now, query, slift. cbn.
  destruct (db_password_reset_tokens (w_db w) !! token) as [row|]; cbn; [|done].
  destruct (Z.ltb_spec (w_now w) (pr_expiry_date row)); cbn; [|done]. intros [= <- <-]. eauto.
Qed.

Lemma delete_reset_run token w :
  snd (sql_delete_password_reset_token token w)
  = set_db (set_password_reset_tokens (filter (fun p => p.1 <> token) (db_password_reset_tokens (w_db w))) (w_db w)) w.
Proof using Type.
  unfold sql_delete_password_reset_token, sbind, query, keep_reset, statement. cbn.
  by destruct (db_password_reset_tokens (w_db w) !! token).
Qed.

(** A reset link works once and gives little.  When the second step answers,
    the token was in the database and had not expired; the response names its
    user, its cookie is for the authentication path only and lasts five minutes;
    the JWT in it is accepted during one day as that user {i without any group},
    so with the regular permission even for an administrator; and the same token
    is refused from then on. *)
Theorem reset_step2_correct {JL : JwtLaws J} token s resp s' :
  get_password_reset_step2 url_path (Some token) s = (Ok resp, s') ->
  exists row jwt,
    db_password_reset_tokens (db_of s) !! token = Some row /\ (w_now (app_backend s) < pr_expiry_date row)%Z
    /\ hr_body resp = ServerPasswordResetResponse (user_id_str (pr_user_id row)) jwt
    /\ hr_cookies resp = [mk_cookie "token" jwt 300 (auth_path url_path)]
    /\ (forall t, user_id_wf (pr_user_id row) = true -> default_hash jwt ∉ jwt_blacklist s ->
         fst (check_if_token_is_valid jwt (app_at t s'))
         = if (w_now (app_backend s) + days 1 <? t)%Z then Err "Expired JWT"%string
           else Ok (mk_validation (pr_user_id row) PermRegular))
    /\ (forall t, fst (get_password_reset_step2 url_path (Some token) (app_at t s'))
         = Err (NotFoundError "Wrong or expired reset token")).
Proof using Type.
  unfold get_password_reset_step2. intros (tok & s1 & [[= <-] ->]%slift_ok & H)%sbind_ok.
  apply sbind_ok in H as (u & s2 & (w2 & [-> (row & Hrow & Hexp & ->)]%reset_token_ok & ->)%smap_err_ok%in_backend_ok & H).
  apply sbind_ok in H as (del & s3 & Hdel & H). rewrite in_backend_run in Hdel.
  unfold stry in Hdel. pose proof (delete_reset_run token (app_backend s)) as Hd. cbn [app_backend] in Hdel.
  cbn [tcp_delete_password_reset_token SqlTcpHandler] in Hdel.
  assert (s3 = mk_app (snd (sql_delete_password_reset_token token (app_backend s))) (jwt_blacklist s)) as ->.
  { destruct (sql_delete_password_reset_token token (app_backend s)) as [[] ?]; cbn in *; by injection Hdel as _ <-. }
  clear Hdel. rewrite Hd in H.
  apply sbind_ok in H as (jwt & s4 & (w4 & (Ht & ->)%create_jwt_ok & ->)%in_backend_ok & [-> ->]%sret_ok).
  exists row, jwt. cbn in Ht. split_and!; try done.
  - intros t Hu Hf. assert (Hv := verify_signed (claims_at (w_now (app_backend s)) (pr_user_id row) [])).
    rewrite <- Ht in Hv. rewrite (check_token_run _ _ _ Hv). cbn [app_at app_backend at_time w_now jwt_blacklist fst].
    rewrite bool_decide_eq_false_2 by done. by rewrite permissions_of_claims.
  - intros t. unfold sbind, slift, smap_err. cbn. rewrite in_backend_run. cbn.
    unfold sql_get_user_id_for_password_reset_token, sbind, utc_now, query, slift. cbn.
    rewrite map_lookup_filter, Hrow. cbn. case_guard as Hg; [by destruct Hg|done].
Qed.

(* ------------------------------------------------------------------ *)
(** ** Registering *)

(** A condition on the database and the blacklist that a call cannot break. *)
Lemma in_backend_preserves {E A} (P : Db -> gset Z -> Prop) (m : stM World E A) :
  (forall bl, preserves (fun w => P (w_db w) bl) m) ->
  preserves (fun s => P (db_of s) (jwt_blacklist s)) (in_backend m).
Proof using Type. intros Hm s Hs. rewrite in_backend_run. cbn. by apply (Hm (jwt_blacklist s)). Qed.

Lemma check_token_preserves (P : Db -> gset Z -> Prop) token :
  preserves (fun s => P (db_of s) (jwt_blacklist s)) (check_if_token_is_valid token).
Proof using Type.
  unfold check_if_token_is_valid. stm. apply in_backend_preserves. by intros bl w.
Qed.

Lemma random_preserves (P : Db -> Prop) : preserves (fun w => P (w_db w)) gen_random_string.
Proof using Type. by intros w. Qed.
#[local] Hint Resolve random_preserves : stm.

Lemma http_registration_start_preserves (P : Db -> Prop) r :
  preserves (fun w => P (w_db w)) (sql_registration_start r).
Proof using Type. unfold sql_registration_start, lift_ke. stm. Qed.

Lemma get_user_groups_preserves (P : Db -> Prop) u : preserves (fun w => P (w_db w)) (sql_get_user_groups u).
Proof using Type. intros w. by rewrite sql_get_user_groups_run. Qed.

Lemma opaque_register_start_preserves (P : Db -> gset Z -> Prop) bearer payload :
  preserves (fun s => P (db_of s) (jwt_blacklist s)) (opaque_register_start bearer payload).
Proof using Type.
  pose proof (check_token_preserves P) as Hc.
  assert (Hg : forall u, preserves (fun s => P (db_of s) (jwt_blacklist s)) (call (sql_get_user_groups u))).
  { intros u. apply preserves_map_err, in_backend_preserves. intros bl. apply (get_user_groups_preserves (fun db => P db bl)). }
  unfold opaque_register_start. stm.
  apply in_backend_preserves. intros bl. apply (http_registration_start_preserves (fun db => P db bl)).
Qed.

(** Only someone allowed starts a registration.  A call to the first step
    that is answered carried a JWT that is valid, whose permissions allow to
    change the password of the user the body names, given whether that user is
    an administrator now; and whether answered or not, the step writes nothing in
    the database. *)
Theorem register_start_authorized bearer payload s :
  (forall r s', opaque_register_start bearer payload s = (Ok r, s') ->
     exists token v rq groups, bearer = Some token /\ payload = inr rq
       /\ fst (check_if_token_is_valid token s) = Ok v
       /\ fst (sql_get_user_groups (rs_username rq) (app_backend s)) = Ok groups
       /\ can_change_password v (rs_username rq) (has_admin_group groups) = true)
  /\ db_of (snd (opaque_register_start bearer payload s)) = db_of s.
Proof using Type.
  split.
  - unfold opaque_register_start. intros r s' H.
    apply sbind_ok in H as (v & s1 & Hv & H). destruct bearer as [token|]; [|done].
    rewrite smap_err_ok in Hv. pose proof (check_token_keeps token s) as Hk. rewrite Hv in Hk. cbn in Hk. subst s1.
    apply sbind_ok in H as (rq & s2 & Hrq & H). destruct payload as [e|rq']; [done|].
    apply sret_ok in Hrq as [-> ->].
    apply sbind_ok in H as (groups & s3 & (w3 & Hg & ->)%call_ok & H).
    exists token, v, rq', groups. split_and!; [done|done|by rewrite Hv| |].
    + cbn [bh_get_user_groups SqlBackendHandler] in Hg. by rewrite Hg.
    + unfold has_admin_group. destruct (can_change_password _ _ _); [done|by cbn in H].
  - by apply (opaque_register_start_preserves (fun db _ => db = db_of s)).
Qed.

(* ------------------------------------------------------------------ *)
(** ** The two blacklists

    The server keeps the hashes of the logged-out JWTs in memory, next to the
    [blacklisted] column of the database. *)

(** Every row marked in the database is in the memory's set. *)
Definition covered (db : Db) (bl : gset Z) : Prop :=
  forall k row, db_jwt_storage db !! k = Some row -> jr_blacklisted row = true -> as_u64 k ∈ bl.

Abbreviation keeps_covered m := (forall bl, preserves (fun w => covered (w_db w) bl) m).

(** A statement that leaves the table of JWTs alone. *)
Lemma statement_covered {A} (f : Db -> outcome DomainError (A * Db)) :
  (forall db a db', f db = Ok (a, db') -> db_jwt_storage db' = db_jwt_storage db) -> keeps_covered (statement f).
Proof using Type.
  intros Hf bl w Hw. unfold statement. destruct (f (w_db w)) as [[a db']|e|p] eqn:H; cbn; [|done..].
  unfold covered in *. by rewrite (Hf _ _ _ H).
Qed.

Lemma covered_same {E A} (m : stM World E A) :
  (forall w, db_jwt_storage (w_db (snd (m w))) = db_jwt_storage (w_db w)) -> keeps_covered m.
Proof using Type. intros Hm bl w Hw. unfold covered in *. by rewrite Hm. Qed.

Lemma sql_login_start_covered r : keeps_covered (sql_login_start r).
Proof using Type.
  intros bl. unfold sql_login_start, get_password_file_for_user, lift_ke.
  pose proof (random_preserves (fun db => covered db bl)). stm.
Qed.

Lemma sql_registration_finish_covered r : keeps_covered (sql_registration_finish r).
Proof using Type.
  intros bl. unfold sql_registration_finish. stm. apply statement_covered. intros db x db'.
  destruct (db_users db !! a); [|done]. intros (? & _ & [= <- <-])%obind_ok. done.
Qed.

Lemma sql_create_refresh_covered u : keeps_covered (sql_create_refresh_token u).
Proof using Type.
  intros bl. pose proof (random_preserves (fun db => covered db bl)). unfold sql_create_refresh_token. stm.
  apply statement_covered. intros db x db' (? & _ & (? & _ & [= <- <-])%obind_ok)%obind_ok. done.
Qed.

Lemma sql_start_password_reset_covered u : keeps_covered (sql_start_password_reset u).
Proof using Type.
  intros bl. pose proof (random_preserves (fun db => covered db bl)). unfold sql_start_password_reset. stm.
  apply statement_covered. intros db x db' (? & _ & (? & _ & [= <- <-])%obind_ok)%obind_ok. done.
Qed.

Lemma sql_delete_reset_covered t : keeps_covered (sql_delete_password_reset_token t).
Proof using Type. apply covered_same. intros w. by rewrite delete_reset_run. Qed.

Lemma sql_delete_refresh_covered h : keeps_covered (sql_delete_refresh_token h).
Proof using Type. by apply covered_same. Qed.

Lemma sql_register_jwt_covered u h e : keeps_covered (sql_register_jwt u h e).
Proof using Type.
  intros bl w Hw. unfold sql_register_jwt, insert_jwt, statement. cbv beta.
  match goal with |- context [match ?x with Ok _ => _ | _ => _ end] => destruct x as [[[] db']|er|p] eqn:H end; cbn; [|done..].
  apply obind_ok in H as (? & _ & H). apply obind_ok in H as (? & _ & [= <-]).
  intros k row. cbn. rewrite lookup_insert_Some. intros [[<- <-]|[_ Hk]]; [done|]. by apply Hw.
Qed.

Lemma create_jwt_covered {E} u groups bl : preserves (fun w => covered (w_db w) bl) (create_jwt (E:=E) u groups).
Proof using Type. unfold create_jwt. stm; try apply sql_register_jwt_covered; by intros w. Qed.

Lemma covered_after_logout u db bl :
  covered db bl ->
  covered (set_jwt_storage ((fun r => if decide (jr_user_id r = u)
             then mk_jwt_row (jr_user_id r) (jr_expiry_date r) true else r) <$> db_jwt_storage db) db)
    (bl ∪ hashes (filter (fun p => jr_user_id p.2 = u /\ jr_blacklisted p.2 = false) (db_jwt_storage db))).
Proof using Type.
  intros Hc k row. cbn. rewrite lookup_fmap. destruct (db_jwt_storage db !! k) as [r|] eqn:Hk; [|done]. cbn.
  intros [= <-]. destruct (jr_blacklisted r) eqn:Hb.
  { intros _. apply elem_of_union_l. by apply (Hc k r). }
  case_decide as Hu; [|congruence]. intros _. apply elem_of_union_r, elem_of_hashes. exists k, r.
  by rewrite map_lookup_filter_Some.
Qed.

(** The state of the application, with the two blacklists in agreement. *)
Definition synced s : Prop := covered (db_of s) (jwt_blacklist s).

Lemma in_backend_synced {E A} (m : stM World E A) : keeps_covered m -> preserves synced (in_backend m).
Proof using Type. apply (in_backend_preserves covered). Qed.
Lemma call_synced {A} (m : SQL A) : keeps_covered m -> preserves synced (call m).
Proof using Type. intros Hm. by apply preserves_map_err, in_backend_synced. Qed.

Lemma get_logout_synced c h : preserves synced (get_logout url_path c h).
Proof using Type.
  unfold get_logout. apply preserves_bind; [apply preserves_lift|]. intros [hash u].
  apply preserves_bind; [apply call_synced, sql_delete_refresh_covered|]. intros _ s Hs.
  unfold sbind. erewrite (call_run (tcp_blacklist_jwts u)) by done. cbn. by apply covered_after_logout.
Qed.

Lemma login_response_synced u : preserves synced (get_login_successful_response url_path u).
Proof using Type.
  unfold get_login_successful_response.
  apply preserves_bind; [apply call_synced; intros bl; apply (get_user_groups_preserves (fun db => covered db bl))|].
  intros groups. apply preserves_bind; [apply call_synced, sql_create_refresh_covered|]. intros [refresh d].
  apply preserves_bind; [apply in_backend_synced; intros bl; apply create_jwt_covered|]. stm.
Qed.

Lemma sql_bind_covered r : keeps_covered (sql_bind r).
Proof using Type. apply covered_same. intros w. by rewrite sql_bind_keeps_db. Qed.

(** The mail transport does not write in the database. *)
Context (mail_keeps_db : forall a b c w, w_db (snd (send_password_reset_email a b c w)) = w_db w).

Lemma step1_synced u : preserves synced (get_password_reset_step1 u).
Proof using mail_keeps_db.
  unfold get_password_reset_step1. apply preserves_bind; [apply preserves_lift|]. intros us.
  apply preserves_bind; [apply call_synced, covered_same; intros w; by rewrite bh_readonly_list_users|].
  intros [|x [|]]; [apply preserves_ret| |apply preserves_throw].
  apply preserves_bind; [apply call_synced, sql_start_password_reset_covered|]. intros [token|]; [|apply preserves_ret].
  apply preserves_bind; [|stm]. apply in_backend_synced. intros bl. apply preserves_try.
  apply covered_same. intros w. by rewrite mail_keeps_db.
Qed.

Lemma step2_synced t : preserves synced (get_password_reset_step2 url_path t).
Proof using Type.
  unfold get_password_reset_step2. apply preserves_bind; [apply preserves_lift|]. intros token.
  apply preserves_bind.
  { apply preserves_map_err, in_backend_synced, covered_same. intros w. cbn.
    unfold sql_get_user_id_for_password_reset_token, sbind, utc_now, query, slift.
    by destruct (ok_or _ _). }
  intros u. apply preserves_bind.
  { apply in_backend_synced. intros bl. apply preserves_try, sql_delete_reset_covered. }
  intros _. apply preserves_bind; [apply in_backend_synced; intros bl; apply create_jwt_covered|]. stm.
Qed.

Lemma refresh_synced c h : preserves synced (get_refresh url_path c h).
Proof using Type.
  unfold get_refresh. apply preserves_bind; [apply preserves_lift|]. intros [hash u].
  apply preserves_bind; [by apply call_synced, covered_same|]. intros found. apply preserves_if; [apply preserves_throw|].
  apply preserves_bind; [apply call_synced; intros bl; apply (get_user_groups_preserves (fun db => covered db bl))|].
  intros groups. apply preserves_bind; [apply in_backend_synced; intros bl; apply create_jwt_covered|]. stm.
Qed.

Lemma answer_preserves {E A} P f (m : stM (AppState World) TcpError A) :
  preserves P m -> preserves P (answer (E:=E) f m).
Proof using Type. intros Hm. unfold answer. stm. Qed.

Lemma handle_auth_synced enable r : preserves synced (handle_auth_request url_path enable r).
Proof using mail_keeps_db.
  destruct r; cbn [handle_auth_request]; try (apply preserves_if; [|apply preserves_ret]); apply answer_preserves.
  - apply preserves_bind; [apply call_synced, sql_bind_covered|]. intros _. apply login_response_synced.
  - apply call_synced, sql_login_start_covered.
  - apply preserves_bind; [|intros u; apply login_response_synced]. apply call_synced, covered_same. intros w.
    assert (H : preserves (fun w' => w' = w) (sql_login_finish r)) by (unfold sql_login_finish, lift_ke; stm).
    by rewrite (H w).
  - apply preserves_bind; [apply call_synced, sql_bind_covered|]. intros _. apply login_response_synced.
  - apply refresh_synced.
  - apply get_logout_synced.
  - apply opaque_register_start_preserves.
  - apply preserves_bind; [apply call_synced, sql_registration_finish_covered|]. stm.
  - apply step1_synced.
  - apply step2_synced.
Qed.

(** What can happen to the application: a request to the authentication service,
    the clean-up job, the passing of time, or any other change of the database
    that adds and alters no JWT (the LDAP and GraphQL operations delete some, by
    the cascades). *)
Inductive app_step (enable : bool) : AppState World -> AppState World -> Prop :=
| StepRequest r s : app_step enable s (snd (handle_auth_request url_path enable r s))
| StepCleanup s : app_step enable s (mk_app (snd (cleanup_db (app_backend s))) (jwt_blacklist s))
| StepTime t s : app_step enable s (app_at t s)
| StepOther w s :
    (forall k row, db_jwt_storage (w_db w) !! k = Some row -> db_jwt_storage (db_of s) !! k = Some row) ->
    app_step enable s (mk_app w (jwt_blacklist s)).

(** C26. A logged-out token stays out.  The server starts with the blacklist of
    the database in memory.  However many requests, clean-ups and other changes
    follow, every JWT whose row is marked in the database is refused by the check
    in memory, at any time. *)
Theorem logged_out_stays_out enable bl w s token row :
  fst (sql_get_jwt_blacklist w) = Ok bl -> rtc (app_step enable) (mk_app w bl) s ->
  db_jwt_storage (db_of s) !! as_i64 (default_hash token) = Some row -> jr_blacklisted row = true ->
  exists e, fst (check_if_token_is_valid token s) = Err e.
Proof using mail_keeps_db.
  intros Hbl Hsteps Hrow Hb.
  assert (Hs : synced s).
  { assert (H0 : synced (mk_app w bl)).
    { injection Hbl as <-. intros k r Hk Hr. apply elem_of_hashes. exists k, r. by rewrite map_lookup_filter_Some. }
    clear Hbl Hrow. induction Hsteps as [|s1 s2 s3 Hstep _ IH]; [done|]. apply IH. clear IH.
    destruct Hstep as [r s1|s1|t s1|w' s1 Hw].
    - by apply handle_auth_synced.
    - intros k r Hk Hr. rewrite cleanup_db_run in Hk. cbn in Hk. apply map_lookup_filter_Some in Hk as [Hk _].
      by apply (H0 k r).
    - exact H0.
    - intros k r Hk Hr. by apply (H0 k r); [apply Hw|]. }
  assert (Hin : default_hash token ∈ jwt_blacklist s).
  { specialize (Hs _ row Hrow Hb). by rewrite as_u64_as_i64 in Hs by apply default_hash_u64. }
  unfold check_if_token_is_valid, sbind, slift. destruct (verify_with_key token) as [[a c]|]; [|by eexists].
  destruct s as [w' b]. cbn in *. destruct (_ <? _)%Z; [by eexists|]. destruct a; [|by eexists].
  rewrite bool_decide_eq_true_2 by done. by eexists.
Qed.
End AuthSession.

(* ------------------------------------------------------------------ *)
(** ** Witnesses *)

(** A signature that is only an encoding. *)
Definition claims_tuple (c : JWTClaims) : Z * Z * string * list string := (cl_exp c, cl_iat c, cl_user c, cl_groups c).
Definition toy_jwt : Jwt := {|
  sign_with_key a c := match a with
    | Hs512 => string_of_bytes (bits_of_pos (encode (claims_tuple c)))
    | OtherAlgorithm _ => EmptyString
    end;
  verify_with_key s := '(e, i, u, g) ← decode (pos_of_bits (into_bytes s)); Some (Hs512, mk_claims e i u g);
|}.
Lemma toy_jwt_laws : JwtLaws toy_jwt.
Proof.
  constructor. intros [e i u g]. cbn [verify_with_key sign_with_key toy_jwt]. unfold into_bytes, string_of_bytes.
  rewrite String.list_byte_of_string_of_list_byte, pos_of_bits_of_pos, decode_encode. done.
Qed.
Definition toy_mailer : Mailer World := {| send_password_reset_email _ _ _ := sret tt |}.
Lemma toy_mail_keeps_db a b c w : w_db (snd (@send_password_reset_email World toy_mailer a b c w)) = w_db w.
Proof. done. Qed.

Section AuthWitnesses.
#[local] Existing Instances concrete_crates concrete_bincode concrete_sql concrete_hash toy_opaque toy_orion toy_stream
  toy_config toy_texts toy_jwt toy_mailer world_clock toy_jwt_laws.

Definition example_app : AppState World := mk_app example_world ∅.
Definition example_login : outcome TcpError HttpResponse * AppState World :=
  get_login_successful_response "" uid_admin example_app.

Definition response_token (r : outcome TcpError HttpResponse) : string :=
  match r with
  | Ok r => match hr_body r with ServerLoginResponse t _ => t | ServerPasswordResetResponse _ t => t | _ => EmptyString end
  | _ => EmptyString
  end.

Lemma session_lifecycle_witness :
  exists token refresh, is_admin (mk_validation uid_admin PermAdmin) = true
    /\ fst (check_if_token_is_valid token (app_at 3000 (snd example_login))) = Ok (mk_validation uid_admin PermAdmin)
    /\ exists resp2 s2, get_logout "" (Some refresh) None (snd example_login) = (Ok resp2, s2)
      /\ exists e, fst (check_if_token_is_valid token (app_at 3000 s2)) = Err e.
Proof.
  assert (Hok : exists resp, fst example_login = Ok resp) by (eexists; vm_compute; reflexivity).
  destruct Hok as [resp Hok].
  assert (Hrun : get_login_successful_response "" uid_admin example_app = (Ok resp, snd example_login)).
  { change (get_login_successful_response "" uid_admin example_app) with example_login.
    rewrite (surjective_pairing example_login) at 1. by rewrite Hok. }
  destruct (session_lifecycle "" uid_admin example_app resp (snd example_login) Hrun)
    as (token & refresh & resp2 & s2 & _ & Hc & Hl & Hd & _).
  - reflexivity.
  - intros n. unfold example_app, app_backend. replace (w_rng example_world) with example_rng by (vm_compute; reflexivity).
    unfold example_rng. assert (Hn : forall k, (k < 26)%nat -> contains_char "+"%char (of_codes [N.of_nat (97 + k)]) = false).
    { intros k Hk. do 26 (destruct k as [|k]; [reflexivity|]). lia. }
    apply Hn, Nat.mod_upper_bound. lia.
  - intros token r _. apply not_elem_of_empty.
  - exists token, refresh. split; [reflexivity|]. split; [rewrite Hc; vm_compute; reflexivity|]. eauto.
Defined.

Lemma logout_rejects_witness :
  let token := response_token (fst example_login) in
  exists resp s', get_logout "" (Some "anything+admin"%string) None (snd example_login) = (Ok resp, s')
    /\ exists e, fst (check_if_token_is_valid token (app_at 3000 s')) = Err e.
Proof.
  intros token.
  destruct (logout_rejects "" "anything" uid_admin token (mk_claims (2000 + days 1) 2000 "admin" ["lldap_admin"]%string)
    (mk_jwt_row uid_admin (2000 + days 1) false) (snd example_login)) as (resp & s' & Hl & He);
    try (vm_compute; reflexivity).
  exists resp, s'. split; [exact Hl|]. apply He.
Defined.

Definition example_reset : outcome DomainError (option string) * World := sql_start_password_reset uid_admin example_world.
Definition example_reset_token : string :=
  match fst example_reset with Ok (Some t) => t | _ => EmptyString end.
Definition example_step2 : outcome TcpError HttpResponse * AppState World :=
  get_password_reset_step2 "" (Some example_reset_token) (mk_app (snd example_reset) ∅).

Lemma reset_step2_correct_witness :
  fst (check_if_token_is_valid (response_token (fst example_step2)) (app_at 3000 (snd example_step2)))
    = Ok (mk_validation uid_admin PermRegular)
  /\ fst (get_password_reset_step2 "" (Some example_reset_token) (app_at 3000 (snd example_step2)))
    = Err (NotFoundError "Wrong or expired reset token").
Proof.
  assert (Hok : exists resp, fst example_step2 = Ok resp) by (eexists; vm_compute; reflexivity).
  destruct Hok as [resp Hok].
  assert (Hrun : get_password_reset_step2 "" (Some example_reset_token) (mk_app (snd example_reset) ∅) = (Ok resp, snd example_step2)).
  { change (get_password_reset_step2 "" (Some example_reset_token) (mk_app (snd example_reset) ∅)) with example_step2.
    rewrite (surjective_pairing example_step2) at 1. by rewrite Hok. }
  destruct (reset_step2_correct "" example_reset_token (mk_app (snd example_reset) ∅) resp (snd example_step2) Hrun)
    as (row & jwt & Hrow & _ & Hb & _ & Hc & Hd).
  split; [|apply Hd]. rewrite Hok. unfold response_token. rewrite Hb.
  assert (row = mk_reset_row uid_admin (2000 + minutes 10)) as ->.
  { apply (f_equal (option_map pr_user_id)) in Hrow as Hu. vm_compute in Hrow. injection Hrow as <-. reflexivity. }
  rewrite Hc; [vm_compute; reflexivity|reflexivity|apply not_elem_of_empty].
Defined.

Lemma logged_out_stays_out_witness :
  let token := response_token (fst example_login) in
  let s := snd (handle_auth_request "" true (GetLogout (Some "x+admin"%string) None) (snd example_login)) in
  exists e, fst (check_if_token_is_valid token s) = Err e.
Proof.
  intros token s.
  apply (logged_out_stays_out "" toy_mail_keeps_db true ∅ (app_backend (snd example_login)) s token
    (mk_jwt_row uid_admin (2000 + days 1) true)).
  - vm_compute. reflexivity.
  - apply rtc_once. assert (Hs : mk_app (app_backend (snd example_login)) ∅ = snd example_login) by (vm_compute; reflexivity).
    rewrite Hs. constructor.
  - vm_compute. reflexivity.
  - reflexivity.
Defined.
End AuthWitnesses.
