(* ===== verification/Clients.v ===== *)
(** * Clients of the authentication service

    Models [set-password/src/main.rs] and [try_login] of
    [migration-tool/src/lldap.rs], the two programs that speak the protocol of
    [AuthService] from the other side, and runs them against it: the client's
    steps, the HTTP service, the OPAQUE handler and the database together.  The
    address library and the network are parameters; a request is what the service
    decodes it to. *)

From S2P Require Import Prelude RustStd Extern Types Concrete Handler Deserialize Db ExampleDb SqlFilters SqlSchema SqlUser SqlGroup SqlBackend SqlTcp SqlOpaque AccessControl LdapHandler LdapSql AuthService AuthSession.
From Stdlib Require Import Ascii String.
From stdpp Require Import strings list gmap.
#[local] Open Scope rust_scope.
#[local] Open Scope string_scope.

(** [reqwest::Url]: the scheme, and [path_segments_mut().extend(..)], which fails for an
    address that cannot be a base. *)
Class UrlLib : Type := {
  Url : Type;
  url_eq_dec : EqDecision Url;
  url_scheme : Url -> string;
  extend_path : Url -> list string -> option Url;
}.
#[global] Existing Instance url_eq_dec.

(** Sending a request to an address and reading the answer. *)
Class Http `{OpaqueLib} (A S : Type) : Type := { http_post : A -> AuthRequest -> stM S AnyError AuthAnswer }.

Definition answer_status `{OpaqueLib} (a : AuthAnswer) : Z :=
  match a with Response r => hr_status r | LoginStartAnswer _ | RegistrationStartAnswer _ => 200 end.

(** [response.error_for_status()] *)
Definition error_for_status `{OpaqueLib} (a : AuthAnswer) : outcome AnyError AuthAnswer :=
  if (400 <=? answer_status a)%Z && (answer_status a <? 600)%Z
  then bail ("HTTP status error (" +:+ i64_to_string (answer_status a) +:+ ")") else Ok a.

(** [serde_json::from_str], by the type that is asked for. *)
Definition parse_login_response `{OpaqueLib} (a : AuthAnswer) : outcome AnyError string :=
  match a with
  | Response r => match hr_body r with ServerLoginResponse token _ => Ok token | _ => bail "missing field" end
  | _ => bail "missing field"
  end.
Definition parse_login_start `{OpaqueLib} (a : AuthAnswer) : outcome AnyError ServerLoginStartResponse :=
  match a with LoginStartAnswer r => Ok r | _ => bail "missing field" end.
Definition parse_registration_start `{OpaqueLib} (a : AuthAnswer) : outcome AnyError ServerRegistrationStartResponse :=
  match a with RegistrationStartAnswer r => Ok r | _ => bail "missing field" end.

(** An error of the protocol on the client's side. *)
Definition client_ke {A} (o : option A) : outcome AnyError A := ok_or (Message "Protocol error") o.

(* ------------------------------------------------------------------ *)
(** ** The set-password tool *)

(** Source: set-password/src/main.rs#pub struct CliOpts *)
Record CliOpts `{UrlLib} := mk_cli_opts {
  co_base_url : Url;
  co_admin_username : string;
  co_admin_password : option string;
  co_token : option string;
  co_username : string;
  co_password : string;
  co_bypass_password_policy : bool;
}.

Section SetPassword.
Context `{UL : UrlLib} `{OL : OpaqueLib} {S : Type} `{HT : !Http Url S}.

(** Source: set-password/src/main.rs#fn append_to_url *)
Definition append_to_url (base_url : Url) (path : string) : outcome AnyError Url :=
  expect "called `Result::unwrap()` on an `Err` value" (extend_path base_url (RustStd.split "/"%char path)).

(** Source: set-password/src/main.rs#fn get_token *)
Definition get_token (base_url : Url) (username password : string) : stM S AnyError string :=
  let! url := slift (append_to_url base_url "auth/simple/login") in
  let! response := http_post url (PostSimpleLogin (user_id_new username) password) in
  let! response := slift (error_for_status response) in
  slift (parse_login_response response).

(** The token is in the request.
    Source: set-password/src/main.rs#fn call_server *)
Definition call_server (url : Url) (request : AuthRequest) : stM S AnyError AuthAnswer :=
  let! response := http_post url request in
  slift (error_for_status response).

(** Source: set-password/src/main.rs#pub fn register_start *)
Definition register_start (base_url : Url) (token : string) (request : ClientRegistrationStartRequest) :
    stM S AnyError ServerRegistrationStartResponse :=
  let! url := slift (append_to_url base_url "auth/opaque/register/start") in
  let! data := call_server url (PostRegisterStart (Some token) (inr request)) in
  slift (context "Could not parse response" (parse_registration_start data)).

(** Source: set-password/src/main.rs#pub fn register_finish *)
Definition register_finish (base_url : Url) (token : string) (request : ClientRegistrationFinishRequest) :
    stM S AnyError unit :=
  let! url := slift (append_to_url base_url "auth/opaque/register/finish") in
  let! _ := call_server url (PostRegisterFinish request) in
  sret tt.

(** [anyhow::ensure!] *)
Definition ensure (b : bool) (message : string) : outcome AnyError unit := if b then Ok tt else bail message.

(** [r1] and [r2] are the randomness of the two steps.
    Source: set-password/src/main.rs#fn main *)
Definition set_password (opts : CliOpts) (r1 r2 : string) : stM S AnyError unit :=
  slift (ensure (co_bypass_password_policy opts || (8 <=? length (into_bytes (co_password opts)))%nat)
    "New password is too short, expected at least 8 characters") ;;
  slift (ensure (String.eqb (url_scheme (co_base_url opts)) "http" || String.eqb (url_scheme (co_base_url opts)) "https")
    "Base URL should start with `http://` or `https://`") ;;
  let! token := match co_token opts, co_admin_password opts with
                | Some token, _ => sret token
                | None, Some password =>
                    smap_err (WithContext "While logging in") (get_token (co_base_url opts) (co_admin_username opts) password)
                | None, None => slift (bail "Either the token or the admin password is required")
                end in
  let! '(state, message) := slift (context "Could not initiate password change"
                              (client_ke (client_start_registration r1 (into_bytes (co_password opts))))) in
  let! res := register_start (co_base_url opts) token (mk_registration_start (user_id_new (co_username opts)) message) in
  let! upload := slift (context "Error during password change"
                   (client_ke (ke_client_registration_finish r2 state (rr_registration_response res)))) in
  register_finish (co_base_url opts) token (mk_registration_finish (rr_server_data res) upload).
End SetPassword.

(* ------------------------------------------------------------------ *)
(** ** Logging in from the migration tool *)

Section TryLogin.
Context `{OL : OpaqueLib} {S : Type} `{HT : !Http string S}.

Definition is_success (a : AuthAnswer) : bool := (200 <=? answer_status a)%Z && (answer_status a <? 300)%Z.

(** [rng] is the randomness of the first step.
    Source: migration-tool/src/lldap.rs#fn try_login *)
Definition try_login (rng lldap_server username password : string) : stM S AnyError string :=
  let! '(state, message) := slift (context "Could not initialize login" (client_ke (client_start_login rng password))) in
  let! response := smap_err (WithContext "while trying to login to LLDAP")
    (http_post (lldap_server +:+ "/auth/opaque/login/start") (PostLoginStart (mk_login_start (user_id_new username) message))) in
  if negb (is_success response) then
    slift (bail ("Failed to start logging in to LLDAP: " +:+ i64_to_string (answer_status response)))
  else
    let! login_start_response := slift (parse_login_start response) in
    let! finalization := slift (client_ke (ke_client_login_finish state (lr_credential_response login_start_response))) in
    let! response := http_post (lldap_server +:+ "/auth/opaque/login/finish")
      (PostLoginFinish (mk_login_finish (lr_server_data login_start_response) finalization)) in
    if negb (is_success response) then
      slift (bail ("Failed to finish logging in to LLDAP: " +:+ i64_to_string (answer_status response)))
    else slift (context "Could not parse response" (parse_login_response response)).
End TryLogin.

(* ------------------------------------------------------------------ *)
(** ** The service behind an address *)

(** The path of each request; the service is mounted at [/auth].
    Source: server/src/infra/auth_service.rs#fn configure_server *)
Definition route `{OpaqueLib} (r : AuthRequest) : string :=
  match r with
  | PostAuthorize _ => "auth"
  | PostLoginStart _ => "auth/opaque/login/start"
  | PostLoginFinish _ => "auth/opaque/login/finish"
  | PostSimpleLogin _ _ => "auth/simple/login"
  | GetRefresh _ _ => "auth/refresh"
  | GetLogout _ _ => "auth/logout"
  | PostRegisterStart _ _ => "auth/opaque/register/start"
  | PostRegisterFinish _ => "auth/opaque/register/finish"
  | PostResetStep1 u => "auth/reset/step1/" +:+ default "" u
  | GetResetStep2 t => "auth/reset/step2/" +:+ default "" t
  end.

Section Deployed.
Context `{C : Crates} `{B : Bincode} `{SL : SqlLib} `{OL : OpaqueLib} `{O : Orion} `{BS : !BincodeStream}
  `{CF : !OpaqueConfig} `{T : ErrorTexts} `{SH : StdHash} `{J : Jwt} `{ML : !Mailer World}.
Context (url_path : string) (enable_password_reset : bool) {A : Type} (reaches : A -> AuthRequest -> bool).
#[local] Existing Instance world_clock.

(** An address that reaches nothing is answered with 404; a handler that panics closes
    the connection. *)
#[export] Instance deployed : Http A (AppState World) := {|
  http_post address r := fun s =>
    if reaches address r then
      match handle_auth_request url_path enable_password_reset r s with
      | (Ok a, s') => (Ok a, s')
      | (Err e, s') => match e with end
      | (Panic _, s') => (bail "connection closed before message completed", s')
      end
    else (Ok (Response (mk_response 404 [] NoBody)), s);
|}.

Lemma answer_run {E X} (f : X -> AuthAnswer) (m : stM (AppState World) TcpError X) s x s' :
  m s = (Ok x, s') -> answer (E:=E) f m s = (Ok (f x), s').
Proof using Type. intros H. unfold answer, sbind, stry. by rewrite H. Qed.
Lemma answer_run_err {E X} (f : X -> AuthAnswer) (m : stM (AppState World) TcpError X) s e s' :
  m s = (Err e, s') -> answer (E:=E) f m s = (Ok (Response (error_to_http_response e)), s').
Proof using Type. intros H. unfold answer, sbind, stry. by rewrite H. Qed.
Lemma post_run a r s x s' :
  reaches a r = true -> handle_auth_request url_path enable_password_reset r s = (Ok x, s') ->
  http_post a r s = (Ok x, s').
Proof using Type. intros Ha H. cbn [http_post deployed]. by rewrite Ha, H. Qed.

(** Every error is one for the client. *)
Lemma error_status e : exists m, error_for_status (Response (error_to_http_response e)) = Err m.
Proof using Type. destruct e as [[]| | | |]; by eexists. Qed.

(** Whether the user is in the administrators' group. *)
Definition in_admin_group (db : Db) (u : UserId) : bool :=
  existsb (fun g => ci_eqb (gr_display_name g.2) (mk_ci "lldap_admin")) (linked_groups db u).

Lemma user_groups_run u r s :
  db_users (w_db (app_backend s)) !! u = Some r ->
  call (bh_get_user_groups u) s = (Ok (map group_details_from_model (linked_groups (w_db (app_backend s)) u)), s).
Proof using Type.
  intros Hu. rewrite (call_run _ _ (map group_details_from_model (linked_groups (w_db (app_backend s)) u)) (app_backend s)).
  - by destruct s.
  - cbn [bh_get_user_groups SqlBackendHandler]. by rewrite sql_get_user_groups_run, Hu.
Qed.

(** Asking for a registration: the token is read, then the groups of the user. *)
Lemma register_start_steps tok v u request r s :
  check_if_token_is_valid tok s = (Ok v, s) -> db_users (w_db (app_backend s)) !! u = Some r ->
  opaque_register_start (Some tok) (inr (mk_registration_start u request)) s
  = if can_change_password v u (in_admin_group (w_db (app_backend s)) u)
    then call (sql_registration_start (mk_registration_start u request)) s else (Err not_authorized, s).
Proof using Type.
  intros Hv Hu. unfold opaque_register_start. rewrite (sbind_run _ _ _ v s) by (by apply smap_err_ok).
  rewrite (sbind_run _ _ _ (mk_registration_start u request) s) by done. cbv zeta. cbn [rs_username].
  rewrite (sbind_run _ _ _ _ _ (user_groups_run u r s Hu)). unfold in_admin_group.
  replace (existsb _ (map _ _)) with (existsb (fun g : GroupId * GroupRow => ci_eqb (gr_display_name g.2) (mk_ci "lldap_admin"))
    (linked_groups (w_db (app_backend s)) u)).
  - by destruct (can_change_password _ _ _).
  - induction (linked_groups _ u) as [|g l IH]; cbn; [done|]. by rewrite IH.
Qed.

Context {B6 : Base64Laws crates_base64} {LL : OpaqueLaws OL} {OO : OrionLaws O} {BSL : BincodeStreamLaws BS}.
Context `{UL : UrlLib}.

Lemma register_start_ok tok v u request response r k s :
  check_if_token_is_valid tok s = (Ok v, s) -> db_users (w_db (app_backend s)) !! u = Some r ->
  can_change_password v u (in_admin_group (w_db (app_backend s)) u) = true ->
  ke_server_registration_start get_server_setup request (opaque_id u) = Some response -> get_orion_secret_key = Ok k ->
  exists c nonce w, aead_seal nonce k (serialize_registration_data u) = Some c
    /\ w_db w = w_db (app_backend s)
    /\ opaque_register_start (Some tok) (inr (mk_registration_start u request)) s
       = (Ok (mk_registration_start_response (base64_encode c) response), mk_app w (jwt_blacklist s)).
Proof using OO BSL.
  intros Hv Hu Hc Hs Hk. rewrite (register_start_steps tok v u request r s Hv Hu), Hc.
  destruct (sql_registration_start_run u request response k (app_backend s) Hs Hk) as (c & nonce & Hseal & Hrun).
  exists c, nonce. eexists. split; [done|]. split; [|by apply call_run]. done.
Qed.
End Deployed.

(* ------------------------------------------------------------------ *)
(** ** Setting a password *)

Section SetPasswordFacts.
Context `{C : Crates} `{B : Bincode} `{SL : SqlLib} `{OL : OpaqueLib} `{O : Orion} `{BS : !BincodeStream}
  `{CF : !OpaqueConfig} `{T : ErrorTexts} `{SH : StdHash} `{J : Jwt} `{ML : !Mailer World} `{UL : UrlLib}.
Context {B6 : Base64Laws crates_base64} {LL : OpaqueLaws OL} {OO : OrionLaws O} {BSL : BincodeStreamLaws BS}.
Context (url_path : string) (enable_password_reset : bool) (reaches : Url -> AuthRequest -> bool).
#[local] Existing Instance world_clock.
#[local] Instance service : Http Url (AppState World) := deployed url_path enable_password_reset reaches.

(** The service answers at the routes below [base_url]. *)
Definition mounted (base_url : Url) : Prop :=
  forall r, exists url, extend_path base_url (RustStd.split "/"%char (route r)) = Some url /\ reaches url r = true.

(** A request at its route. *)
Lemma call_server_run base r s x s' :
  mounted base -> handle_auth_request url_path enable_password_reset r s = (Ok x, s') ->
  exists url, append_to_url base (route r) = Ok url /\ http_post url r s = (Ok x, s')
    /\ call_server url r s = (error_for_status x, s').
Proof using Type.
  intros Hm H. destruct (Hm r) as (url & Hu & Hr). exists url. unfold append_to_url. rewrite Hu. split; [done|].
  assert (Hp : http_post url r s = (Ok x, s')) by by apply post_run. split; [done|].
  unfold call_server. by rewrite (sbind_run _ _ _ _ _ Hp).
Qed.

Lemma register_start_run base tok request s x s' :
  mounted base -> opaque_register_start (Some tok) (inr request) s = (Ok x, s') ->
  register_start base tok request s = (Ok x, s').
Proof using Type.
  intros Hm Hx. destruct (call_server_run base (PostRegisterStart (Some tok) (inr request)) s (RegistrationStartAnswer x) s' Hm)
    as (url & Hu & Hp & Hc); [by apply answer_run|].
  unfold register_start. cbn [route] in Hu. rewrite Hu. rewrite (sbind_run _ _ _ url s) by done.
  by rewrite (sbind_run _ _ _ _ _ Hc).
Qed.
Lemma register_start_fails base tok request s e s' :
  mounted base -> opaque_register_start (Some tok) (inr request) s = (Err e, s') ->
  exists m, register_start base tok request s = (Err m, s').
Proof using Type.
  intros Hm Hx. destruct (call_server_run base (PostRegisterStart (Some tok) (inr request)) s
    (Response (error_to_http_response e)) s' Hm) as (url & Hu & Hp & Hc); [by apply answer_run_err|].
  destruct (error_status e) as [m Hs]. exists m. rewrite Hs in Hc. unfold register_start. cbn [route] in Hu. rewrite Hu.
  rewrite (sbind_run _ _ _ url s) by done. by rewrite (sbind_run_err _ _ _ _ _ Hc).
Qed.
Lemma register_finish_run base tok request s s' :
  mounted base -> call (sql_registration_finish request) s = (Ok tt, s') ->
  register_finish base tok request s = (Ok tt, s').
Proof using Type.
  intros Hm Hx. destruct (call_server_run base (PostRegisterFinish request) s (Response (mk_response 200 [] NoBody)) s' Hm)
    as (url & Hu & Hp & Hc).
  - apply answer_run. unfold opaque_register_finish. by rewrite (sbind_run _ _ _ _ _ Hx).
  - unfold register_finish. cbn [route] in Hu. rewrite Hu. rewrite (sbind_run _ _ _ url s) by done.
    by rewrite (sbind_run _ _ _ _ _ Hc).
Qed.

(** C14. The set-password tool sets the password.  Against a service that is mounted at
    its address, with a token, a password that is long enough and the name of an
    existing user: if the token is valid and lets its user change that password, the
    run ends well, that user's row changes in the password only, no other row does,
    and from then on [bind] accepts exactly the new password; if it is not, the run
    ends in an error and nothing has changed. *)
Theorem set_password_correct opts r1 r2 tok r k s :
  let u := user_id_new (co_username opts) in
  co_token opts = Some tok -> co_bypass_password_policy opts = true \/ (8 <= length (into_bytes (co_password opts)))%nat ->
  url_scheme (co_base_url opts) = "http" \/ url_scheme (co_base_url opts) = "https" -> mounted (co_base_url opts) ->
  world_ok (app_backend s) -> db_users (w_db (app_backend s)) !! u = Some r -> get_orion_secret_key = Ok k ->
  match fst (check_if_token_is_valid tok s) with
  | Ok v =>
      if can_change_password v u (in_admin_group (w_db (app_backend s)) u) then
        exists hash s', set_password opts r1 r2 s = (Ok tt, s')
          /\ w_db (app_backend s')
             = set_users (<[u := set_password_hash hash r]> (db_users (w_db (app_backend s)))) (w_db (app_backend s))
          /\ forall p', fst (sql_bind (mk_bind_request u p') (app_backend s'))
             = if decide (p' = co_password opts) then Ok tt
               else Err (AuthenticationError (" for user '" +:+ user_id_str u +:+ "'"))
      else exists e, set_password opts r1 r2 s = (Err e, s)
  | Err _ => exists e, set_password opts r1 r2 s = (Err e, s)
  | Panic _ => False
  end.
Proof using B6 LL OO BSL.
  intros u Htok Hlen Hscheme Hm Hok Hu Hk.
  destruct (registration_runs get_server_setup (opaque_id u) (into_bytes (co_password opts)) r1 r2)
    as (state & request & response & upload & H1 & H2 & H3).
  assert (Hrun : set_password opts r1 r2 s
    = (let! res := register_start (co_base_url opts) tok (mk_registration_start u request) in
       let! upload := slift (context "Error during password change"
                        (client_ke (ke_client_registration_finish r2 state (rr_registration_response res)))) in
       register_finish (co_base_url opts) tok (mk_registration_finish (rr_server_data res) upload)) s).
  { unfold set_password. rewrite (sbind_run _ _ _ tt s).
    2:{ unfold slift, ensure. destruct Hlen as [->|Hl%Nat.leb_le]; [done|]. by rewrite Hl, orb_true_r. }
    rewrite (sbind_run _ _ _ tt s) by (unfold slift, ensure; by destruct Hscheme as [->| ->]).
    rewrite Htok. rewrite (sbind_run _ _ _ tok s) by done.
    rewrite (sbind_run _ _ _ (state, request) s) by (unfold slift, client_start_registration; by rewrite H1). done. }
  rewrite Hrun. clear Hrun. pose proof (check_token_keeps tok s) as Hkeep.
  destruct (check_if_token_is_valid tok s) as [[v|e|p] s0] eqn:Hv; cbn in Hkeep; subst s0; cbn [fst].
  - destruct (can_change_password v u _) eqn:Hc.
    + destruct (register_start_ok tok v u request response r k s Hv Hu Hc H2 Hk) as (c & nonce & w & Hseal & Hw & Hs).
      rewrite (sbind_run _ _ _ _ _ (register_start_run _ _ _ _ _ _ Hm Hs)).
      erewrite (sbind_run _ _ _ upload) by (unfold slift; cbn [rr_registration_response]; by rewrite H3).
      cbn [rr_server_data]. do 2 eexists. split.
      { apply register_finish_run; [done|]. apply call_run. cbn [app_backend].
        eapply sql_registration_finish_run; [by unfold world_ok; rewrite Hw|apply user_id_new_wf|by rewrite Hw|done|done]. }
      cbn [app_backend w_db set_db]. rewrite Hw. split; [done|]. intros p'.
      eapply (sql_bind_registered u (co_password opts) p'); [cbn; by rewrite lookup_insert_eq|done|]. unfold registered. eauto 15.
    + assert (Hs : opaque_register_start (Some tok) (inr (mk_registration_start u request)) s = (Err not_authorized, s))
        by (rewrite (register_start_steps tok v u request r s Hv Hu); by rewrite Hc).
      destruct (register_start_fails _ _ _ _ _ _ Hm Hs) as [m Hf]. exists m. by rewrite (sbind_run_err _ _ _ _ _ Hf).
  - assert (Hs : opaque_register_start (Some tok) (inr (mk_registration_start u request)) s = (Err not_authorized, s))
      by (unfold opaque_register_start, sbind, smap_err; by rewrite Hv).
    destruct (register_start_fails _ _ _ _ _ _ Hm Hs) as [m Hf]. exists m. by rewrite (sbind_run_err _ _ _ _ _ Hf).
  - revert Hv. unfold check_if_token_is_valid, sbind, slift. destruct (verify_with_key tok) as [[a c]|]; [|done].
    cbn. destruct (_ <? _)%Z; [done|]. destruct a; [|done]. by destruct (bool_decide _).
Qed.

(** With the administrator's password, a login comes first. *)
Lemma get_token_run base username password s resp s1 token refresh :
  mounted base -> simple_login url_path (user_id_new username) password s = (Ok resp, s1) ->
  hr_status resp = 200%Z -> hr_body resp = ServerLoginResponse token refresh ->
  get_token base username password s = (Ok token, s1).
Proof using Type.
  intros Hm Hx Hs Hb. destruct (call_server_run base (PostSimpleLogin (user_id_new username) password) s (Response resp) s1 Hm)
    as (url & Hu & Hp & Hc); [by apply answer_run|].
  unfold get_token. cbn [route] in Hu. rewrite Hu. rewrite (sbind_run _ _ _ url s) by done.
  rewrite (sbind_run _ _ _ _ _ Hp). unfold slift, error_for_status, answer_status, sbind. rewrite Hs. cbn. by rewrite Hb.
Qed.
End SetPasswordFacts.

(* ------------------------------------------------------------------ *)
(** ** Logging in *)

Section TryLoginFacts.
Context `{C : Crates} `{B : Bincode} `{SL : SqlLib} `{OL : OpaqueLib} `{O : Orion} `{BS : !BincodeStream}
  `{CF : !OpaqueConfig} `{T : ErrorTexts} `{SH : StdHash} `{J : Jwt} `{ML : !Mailer World}.
Context {B6 : Base64Laws crates_base64} {LL : OpaqueLaws OL} {OO : OrionLaws O} {BSL : BincodeStreamLaws BS} {JL : JwtLaws J}.
Context (url_path : string) (enable_password_reset : bool) (reaches : string -> AuthRequest -> bool).
#[local] Existing Instance world_clock.
#[local] Instance login_service : Http string (AppState World) := deployed url_path enable_password_reset reaches.

(** The service answers at the routes below [server]. *)
Definition mounted_at (server : string) : Prop := forall r, reaches (server +:+ "/" +:+ route r) r = true.

Lemma post_ok server r s x s' :
  mounted_at server -> handle_auth_request url_path enable_password_reset r s = (Ok x, s') ->
  http_post (server +:+ "/" +:+ route r) r s = (Ok x, s').
Proof using Type. intros Hm H. by apply post_run. Qed.

(** The first message, for a user with a password. *)
Lemma sql_login_start_run u request row file k w :
  db_users (w_db w) !! u = Some row -> ur_password_hash row = Some (registration_serialize file) ->
  get_orion_secret_key = Ok k ->
  (forall r2, is_Some (ke_server_login_start r2 get_server_setup (Some file) request (opaque_id u))) ->
  exists w' slogin response c nonce r2,
    sql_login_start (mk_login_start u request) w = (Ok (mk_login_start_response (base64_encode c) response), w')
    /\ ke_server_login_start r2 get_server_setup (Some file) request (opaque_id u) = Some (slogin, response)
    /\ aead_seal nonce k (serialize_login_data (mk_login_data u slogin)) = Some c
    /\ w_db w' = w_db w /\ w_now w' = w_now w.
Proof using LL OO BSL.
  intros Hu Hf Hk Hs. destruct (Hs (w_rng w (w_rng_pos w))) as [[slogin response] Hr].
  destruct (aead_seals (w_rng w (S (w_rng_pos w))) k (serialize_login_data (mk_login_data u slogin))) as [c Hc].
  { unfold serialize_login_data. intros [Hn _]%app_nil. by apply put_user_id_nonempty in Hn. }
  do 3 eexists. exists c. do 2 eexists. split_and!; [|exact Hr|exact Hc| |].
  - unfold sql_login_start. cbn [ls_username ls_login_start_request].
    rewrite (sbind_run _ _ _ (Some (registration_serialize file)) w)
      by (unfold get_password_file_for_user, query; rewrite Hu; cbn; by rewrite Hf).
    rewrite (sbind_run _ _ _ (Some file) w) by (unfold slift; by rewrite registration_roundtrip).
    rewrite (sbind_run _ _ _ _ _ (gen_random_string_run w)).
    erewrite (sbind_run _ _ _ (slogin, response)) by (unfold lift_ke, server_start_login; by rewrite Hr).
    erewrite (sbind_run _ _ _ k) by (unfold slift; by rewrite Hk).
    rewrite (sbind_run _ _ _ _ _ (gen_random_string_run _)).
    erewrite (sbind_run _ _ _ c) by (unfold slift; cbn; by rewrite Hc). done.
  - done.
  - done.
Qed.

(** The last one names the user of the first. *)
Lemma login_finish_user u slogin c nonce k fin w x w' :
  user_id_wf u = true -> get_orion_secret_key = Ok k ->
  aead_seal nonce k (serialize_login_data (mk_login_data u slogin)) = Some c ->
  sql_login_finish (mk_login_finish (base64_encode c) fin) w = (Ok x, w') -> x = u /\ w' = w.
Proof using B6 OO BSL.
  intros Hu Hk Hc. unfold sql_login_finish. cbn [lf_server_data].
  rewrite (sbind_run _ _ _ (mk_login_data u slogin) w).
  2:{ unfold slift. erewrite open_sealed; [done..|]. by apply login_data_roundtrip. }
  intros (a & w1 & [_ ->]%slift_ok & [-> ->]%sret_ok)%sbind_ok. done.
Qed.

(** C25. The login of the migration tool is the user's.  Against a service that is
    mounted at its address, for a user with a password: with another password it ends
    in an error; and when it ends with a token, the service accepts that token for a
    day, with the permissions of the groups of that user. *)
Theorem try_login_correct rng server name p p' row file k s :
  let u := user_id_new name in
  mounted_at server -> db_users (w_db (app_backend s)) !! u = Some row ->
  ur_password_hash row = Some (registration_serialize file) ->
  registered get_server_setup (opaque_id u) (into_bytes p) file -> get_orion_secret_key = Ok k ->
  (p' <> p -> exists e, fst (try_login rng server name p' s) = Err e)
  /\ forall token s', try_login rng server name p' s = (Ok token, s') ->
       default_hash token ∉ jwt_blacklist s ->
       p' = p /\ forall t, fst (check_if_token_is_valid token (app_at t s'))
         = if (w_now (app_backend s) + days 1 <? t)%Z then Err "Expired JWT"
           else Ok (get_permissions_from_groups u (map (fun g => gr_display_name g.2) (linked_groups (w_db (app_backend s)) u))).
Proof using B6 LL OO BSL JL.
  intros u Hm Hu Hf Hreg Hk.
  destruct (login_runs get_server_setup (opaque_id u) file (into_bytes p') rng "") as (state & request & _ & _ & H1 & _).
  assert (Hs : forall r2, is_Some (ke_server_login_start r2 get_server_setup (Some file) request (opaque_id u))).
  { intros r2. destruct (login_runs get_server_setup (opaque_id u) file (into_bytes p') rng r2) as (st & rq & sl & rs & H1' & H2').
    rewrite H1 in H1'. injection H1' as <- <-. by eexists. }
  destruct (sql_login_start_run u request row file k (app_backend s) Hu Hf Hk Hs)
    as (w1 & slogin & response & c & nonce & r2 & Hrun & H2 & Hseal & Hdb & Hnow).
  pose proof (login_iff_password _ _ _ _ _ _ _ _ _ _ _ Hreg H1 H2) as Hiff.
  set (s1 := mk_app w1 (jwt_blacklist s)).
  assert (Hstart : http_post (server +:+ "/auth/opaque/login/start") (PostLoginStart (mk_login_start u request)) s
    = (Ok (LoginStartAnswer (mk_login_start_response (base64_encode c) response)), s1)).
  { apply (post_ok server (PostLoginStart (mk_login_start u request))); [done|]. apply answer_run.
    unfold opaque_login_start. by apply call_run. }
  assert (Hlogin : try_login rng server name p' s = (
    let! finalization := slift (client_ke (ke_client_login_finish state response)) in
    let! response := http_post (server +:+ "/auth/opaque/login/finish")
      (PostLoginFinish (mk_login_finish (base64_encode c) finalization)) in
    if negb (is_success response) then
      slift (bail ("Failed to finish logging in to LLDAP: " +:+ i64_to_string (answer_status response)))
    else slift (context "Could not parse response" (parse_login_response response))) s1).
  { unfold try_login. rewrite (sbind_run _ _ _ (state, request) s)
      by (unfold slift, client_start_login; by rewrite H1). cbv beta iota.
    rewrite (sbind_run _ _ _ _ s1 (proj2 (smap_err_ok _ _ _ _ _) Hstart)). done. }
  rewrite Hlogin. clear Hlogin. destruct (ke_client_login_finish state response) as [fin|].
  - assert (p' = p) as -> by (apply into_bytes_inj, Hiff; by eexists). split; [done|]. intros token s' H Hfresh. split; [done|].
    rewrite (sbind_run _ _ _ fin s1) in H by done. apply sbind_ok in H as (a & s2 & Ha & H).
    destruct (handle_auth_request url_path enable_password_reset (PostLoginFinish (mk_login_finish (base64_encode c) fin)) s1)
      as [ra sa] eqn:Hh.
    cbn [http_post login_service deployed] in Ha.
    rewrite (Hm (PostLoginFinish (mk_login_finish (base64_encode c) fin)) : reaches (server +:+ "/auth/opaque/login/finish") _ = true) in Ha.
    rewrite Hh in Ha. destruct ra as [x|[]|q]; [|done]. injection Ha as -> ->.
    cbn [handle_auth_request] in Hh. unfold answer in Hh. apply sbind_ok in Hh as (res & s3 & Hres & [-> ->]%sret_ok).
    unfold stry in Hres. destruct (opaque_login_finish url_path _ s1) as [[resp|e|q] s4] eqn:Hfin; [| |done]; injection Hres as <- <-.
    2:{ destruct (is_success _) eqn:Hsu in H; [|done]. by destruct e as [[]| | | |]. }
    unfold opaque_login_finish in Hfin. apply sbind_ok in Hfin as (v & s5 & (w5 & Hv & ->)%call_ok & Hresp).
    cbn [oh_login_finish SqlOpaqueHandler app_backend] in Hv.
    apply (login_finish_user u slogin c nonce k fin) in Hv as [-> ->]; [|apply user_id_new_wf|done..].
    change (mk_app (app_backend s1) (jwt_blacklist s1)) with s1 in Hresp.
    destruct (login_response_ok url_path u s1 resp s4 Hresp) as (refresh & tok & L).
    unfold is_success, answer_status in H. rewrite (lres_status _ _ _ _ _ _ L) in H. cbn in H.
    unfold slift in H. rewrite (lres_body _ _ _ _ _ _ L) in H. injection H as <- <-. intros t.
    assert (Hver := verify_signed (claims_at (w_now (app_backend s1)) u
      (map group_details_from_model (linked_groups (w_db (app_backend s1)) u)))).
    rewrite <- (lres_token _ _ _ _ _ _ L) in Hver. rewrite (check_token_run _ _ _ Hver).
    cbn [app_at app_backend at_time w_now jwt_blacklist fst].
    rewrite (lres_blacklist _ _ _ _ _ _ L), bool_decide_eq_false_2 by done.
    rewrite permissions_of_claims by apply user_id_new_wf. rewrite map_map. cbn [s1 app_backend]. by rewrite Hdb, Hnow.
  - split; [intros _; by eexists|]. intros token s'. done.
Qed.
End TryLoginFacts.

(* ------------------------------------------------------------------ *)
(** ** Examples *)

Section Examples.
#[local] Existing Instances concrete_crates concrete_bincode concrete_sql concrete_hash toy_opaque toy_orion toy_stream
  toy_config toy_texts toy_jwt toy_mailer world_clock toy_jwt_laws toy_opaque_laws toy_orion_laws toy_stream_laws
  concrete_base64_laws.

(** Addresses of one host, as the segments of their paths. *)
Definition one_host : UrlLib := {|
  Url := list string; url_eq_dec := _; url_scheme _ := "https"; extend_path base l := Some (base ++ l)%list;
|}.
#[local] Existing Instance one_host.
Definition at_route (url : list string) (r : AuthRequest) : bool := bool_decide (url = RustStd.split "/"%char (route r)).
#[local] Instance example_service : Http Url (AppState World) := deployed "" true at_route.

Lemma example_mounted : mounted at_route [].
Proof. intros r. eexists. split; [done|]. by apply bool_decide_eq_true. Qed.

Definition bob_opts (token admin_password : option string) : CliOpts :=
  mk_cli_opts _ [] "admin" admin_password token "Bob" "new password" false.
Definition example_token : string := response_token (fst example_login).
Definition bob_changed := set_password (bob_opts (Some example_token) None) "r1" "r2" example_app.

Lemma set_password_correct_witness :
  fst bob_changed = Ok tt /\ fst (sql_bind (mk_bind_request uid_bob "new password") (app_backend (snd bob_changed))) = Ok tt.
Proof.
  pose proof (set_password_correct "" true at_route (bob_opts (Some example_token) None) "r1" "r2" example_token example_bob_row []
    example_app eq_refl ltac:(right; vm_compute; repeat constructor) ltac:(right; reflexivity) example_mounted) as H.
  assert (Hv : fst (check_if_token_is_valid example_token example_app) = Ok (mk_validation uid_admin PermAdmin))
    by (vm_compute; reflexivity).
  rewrite Hv in H.
  assert (Hc : can_change_password (mk_validation uid_admin PermAdmin) (user_id_new "Bob")
    (in_admin_group (w_db (app_backend example_app)) (user_id_new "Bob")) = true) by (vm_compute; reflexivity).
  cbn [co_username bob_opts] in H. rewrite Hc in H. destruct H as (hash & s' & Hrun & _ & Hb).
  - exact example_world_ok.
  - vm_compute. reflexivity.
  - reflexivity.
  - assert (bob_changed = (Ok tt, s')) as -> by exact Hrun. split; [done|]. cbn [snd]. rewrite Hb. by rewrite decide_True.
Defined.

(** A user without the right to, and a token that is none. *)
Example set_password_denied :
  (exists e, set_password (bob_opts (Some "forged") None) "r1" "r2" example_app = (Err e, example_app))
  /\ (exists e, fst (set_password (bob_opts None (Some "wrong")) "r1" "r2" example_app) = Err e)
  /\ fst (set_password (bob_opts None None) "r1" "r2" example_app)
     = bail "Either the token or the admin password is required".
Proof. split_and!; [eexists|eexists|]; vm_compute; reflexivity. Qed.

(** The login of the migration tool, as bob with his new password. *)
Definition at_address (url : string) (r : AuthRequest) : bool := String.eqb url ("http://lldap/" +:+ route r).
Definition bob_file : ServerRegistration := into_bytes "new password".
Definition bob_app : AppState World := mk_app (set_db (set_users
  (<[uid_bob := set_password_hash bob_file example_bob_row]> (db_users example_db)) example_db) example_world) ∅.
#[local] Instance example_login_service : Http string (AppState World) := deployed "" true at_address.

Lemma try_login_correct_witness :
  (exists e, fst (try_login "rng" "http://lldap" "BOB" "old password" bob_app) = Err e)
  /\ exists token s', try_login "rng" "http://lldap" "BOB" "new password" bob_app = (Ok token, s')
    /\ fst (check_if_token_is_valid token (app_at 3000 s')) = Ok (mk_validation uid_bob PermRegular).
Proof.
  assert (H : forall p', (p' <> "new password" -> exists e, fst (try_login "rng" "http://lldap" "BOB" p' bob_app) = Err e)
    /\ forall token s', try_login "rng" "http://lldap" "BOB" p' bob_app = (Ok token, s') ->
       default_hash token ∉ jwt_blacklist bob_app ->
       p' = "new password" /\ forall t, fst (check_if_token_is_valid token (app_at t s'))
         = if (w_now (app_backend bob_app) + days 1 <? t)%Z then Err "Expired JWT"
           else Ok (get_permissions_from_groups (user_id_new "BOB")
             (map (fun g => gr_display_name g.2) (linked_groups (w_db (app_backend bob_app)) (user_id_new "BOB"))))).
  { intros p'. apply (try_login_correct (O := toy_orion) (BS := toy_stream) "" true at_address "rng" "http://lldap" "BOB" "new password" p'
      (set_password_hash bob_file example_bob_row) bob_file []).
    - intros r. apply String.eqb_refl.
    - vm_compute. reflexivity.
    - reflexivity.
    - exists "r1", "r2". by repeat eexists.
    - reflexivity. }
  split; [by apply H|].
  assert (exists token, fst (try_login "rng" "http://lldap" "BOB" "new password" bob_app) = Ok token) as [token Ht]
    by (eexists; vm_compute; reflexivity).
  exists token, (snd (try_login "rng" "http://lldap" "BOB" "new password" bob_app)).
  assert (Hrun : try_login "rng" "http://lldap" "BOB" "new password" bob_app
    = (Ok token, snd (try_login "rng" "http://lldap" "BOB" "new password" bob_app)))
    by (rewrite <- Ht; apply surjective_pairing).
  split; [exact Hrun|]. destruct (proj2 (H "new password") _ _ Hrun) as [_ Hc]; [apply not_elem_of_empty|].
  rewrite Hc. vm_compute. reflexivity.
Defined.
End Examples.
