(* ===== verification/GraphqlQuery.v ===== *)
(** * GraphQL: queries

    Models [server/src/infra/graphql/query.rs] and the context of
    [server/src/infra/graphql/api.rs]: the filters of the API, the resolvers of
    the top-level queries, and the objects they build.  The error of a resolver is
    the message of its [FieldError]; the GraphQL engine (juniper) is not modelled,
    each resolver is a function of its arguments. *)

From S2P Require Import Prelude RustStd Extern Types Concrete Handler Deserialize Db ExampleDb SqlFilters SqlSchema SqlUser SqlGroup SqlBackend AccessControl LdapUtils LdapUser.
From Stdlib Require Import Ascii String.
From stdpp Require Import strings list gmap.
#[local] Open Scope rust_scope.

(** urlencoding: percent-decoding; [None] when the result is not UTF-8. *)
Class UrlEncoding : Type := { url_decode : string -> option string }.

(* ------------------------------------------------------------------ *)
(** ** Filters *)

(** Source: server/src/infra/graphql/query.rs#struct EqualityConstraint *)
Record EqualityConstraint := mk_equality { ec_field : string; ec_value : string }.

(** Source: server/src/infra/graphql/query.rs#struct RequestFilter *)
#[warnings="-register-all"]
Inductive RequestFilter := mk_request_filter {
  rf_any : option (list RequestFilter);
  rf_all : option (list RequestFilter);
  rf_not : option RequestFilter;
  rf_eq : option EqualityConstraint;
  rf_member_of : option string;
  rf_member_of_id : option GroupId;
}.

Section Filters.
Context `{C : Crates} `{B : Bincode}.

(** Source: server/src/infra/graphql/query.rs#fn try_into_domain_filter *)
Fixpoint try_into_domain_filter (f : RequestFilter) (schema : PublicSchema) : outcome string UserRequestFilter :=
  match f with
  | mk_request_filter any all not eq member_of member_of_id =>
      match eq, any, all, not, member_of, member_of_id with
      | Some eq, None, None, None, None, None =>
          match map_user_field (attribute_name_new (ec_field eq)) schema with
          | UFNoMatch => Err ("Unknown request filter: " +:+ ec_field eq)
          | UFPrimaryField ColUserId => Ok (UUserId (user_id_new (ec_value eq)))
          | UFPrimaryField column => Ok (UEquality column (ec_value eq))
          | UFAttribute name typ false =>
              let? value := omap_err (fun _ => "While deserializing attribute " +:+ attribute_name_str name)
                (deserialize_attribute_value [ec_value eq] typ false) in
              Ok (UAttributeEquality name value)
          | UFAttribute _ _ true => Err "Equality not supported for list fields"%string
          | UFMemberOf => Ok (UMemberOf (mk_ci (ec_value eq)))
          | UFObjectClass | UFDn | UFEntryDn => Err "Ldap fields not supported in request filter"%string
          end
      | None, Some any, None, None, None, None =>
          omap_ok UOr (try_map (fun f => try_into_domain_filter f schema) any)
      | None, None, Some all, None, None, None =>
          omap_ok UAnd (try_map (fun f => try_into_domain_filter f schema) all)
      | None, None, None, Some not, None, None => omap_ok UNot (try_into_domain_filter not schema)
      | None, None, None, None, Some group, None => Ok (UMemberOf (mk_ci group))
      | None, None, None, None, None, Some group_id => Ok (UMemberOfId group_id)
      | None, None, None, None, None, None => Err "No field specified in request filter"%string
      | _, _, _, _, _, _ => Err "Multiple fields specified in request filter"%string
      end
  end.
End Filters.

(* ------------------------------------------------------------------ *)
(** ** Objects *)

(** Source: server/src/infra/graphql/query.rs#struct AttributeValue *)
Record GqlAttributeValue := mk_gql_attribute { ga_attribute : AttributeValue; ga_schema : AttributeSchema }.

(** Source: server/src/infra/graphql/query.rs#struct Group *)
Record GqlGroup := mk_gql_group {
  gg_group_id : GroupId;
  gg_display_name : string;
  gg_creation_date : NaiveDateTime;
  gg_uuid : string;
  gg_attributes : list GqlAttributeValue;
  gg_schema : PublicSchema;
}.

(** Source: server/src/infra/graphql/query.rs#struct User *)
Record GqlUser := mk_gql_user {
  gu_user : User;
  gu_attributes : list GqlAttributeValue;
  gu_schema : PublicSchema;
  gu_groups : option (list GqlGroup);
}.

(** Source: server/src/infra/graphql/query.rs#fn from_schema *)
Definition from_schema (a : AttributeValue) (schema : AttributeList) : outcome string GqlAttributeValue :=
  match get_attribute_schema schema (av_name a) with
  | Some s => Ok (mk_gql_attribute a s)
  | None => Err ("Unknown attribute " +:+ attribute_name_str (av_name a))
  end.

(** [std::mem::take] leaves the domain user without attributes.
    Source: server/src/infra/graphql/query.rs#fn from_user *)
Definition from_user (user : User) (schema : PublicSchema) : outcome string GqlUser :=
  let attributes := user_attributes user in
  let user := mk_user (user_user_id user) (user_email user) (user_display_name user) (user_creation_date user)
    (user_uuid user) [] in
  let? attributes := try_map (fun a => from_schema a (sc_user_attributes (get_schema schema))) attributes in
  Ok (mk_gql_user user attributes schema None).

(** Source: server/src/infra/graphql/query.rs#fn from_group *)
Definition from_group (group : Group) (schema : PublicSchema) : outcome string GqlGroup :=
  let? attributes := try_map (fun a => from_schema a (sc_group_attributes (get_schema schema))) (group_attributes group) in
  Ok (mk_gql_group (group_id group) (ci_raw (group_display_name group)) (group_creation_date group)
        (uuid_str (group_uuid group)) attributes schema).

(** Source: server/src/infra/graphql/query.rs#fn from_group_details *)
Definition from_group_details (group_details : GroupDetails) (schema : PublicSchema) : outcome string GqlGroup :=
  let? attributes := try_map (fun a => from_schema a (sc_group_attributes (get_schema schema))) (gd_attributes group_details) in
  Ok (mk_gql_group (gd_group_id group_details) (ci_raw (gd_display_name group_details)) (gd_creation_date group_details)
        (uuid_str (gd_uuid group_details)) attributes schema).

(** Source: server/src/infra/graphql/query.rs#fn from_user_and_groups *)
Definition from_user_and_groups (x : UserAndGroups) (schema : PublicSchema) : outcome string GqlUser :=
  let? user := from_user (uag_user x) schema in
  match uag_groups x with
  | Some groups =>
      let? groups := try_map (fun g => from_group_details g schema) groups in
      Ok (mk_gql_user (gu_user user) (gu_attributes user) (gu_schema user) (Some groups))
  | None => Ok user
  end.

(** Source: server/src/infra/graphql/query.rs#struct AttributeList *)
Record GqlAttributeList := mk_gql_attribute_list {
  gl_attributes : AttributeList;
  gl_extra_classes : list LdapObjectClass;
}.

(** The object of an attribute schema is the domain's; its fields are the record's.
    Source: server/src/infra/graphql/query.rs#fn attributes(&self) -> Vec<AttributeSchema<Handler>> *)
Definition list_attributes (l : GqlAttributeList) : list AttributeSchema := al_attributes (gl_attributes l).

(** Source: server/src/infra/graphql/query.rs#fn extra_ldap_object_classes *)
Definition extra_ldap_object_classes (l : GqlAttributeList) : list string := map ci_raw (gl_extra_classes l).

(** Source: server/src/infra/graphql/query.rs#struct Schema *)
Record GqlSchema := mk_gql_schema { gs_schema : PublicSchema }.

(** Source: server/src/infra/graphql/query.rs#fn user_schema *)
Definition user_schema (s : GqlSchema) : GqlAttributeList :=
  mk_gql_attribute_list (sc_user_attributes (get_schema (gs_schema s))) (sc_extra_user_object_classes (get_schema (gs_schema s))).

(** Source: server/src/infra/graphql/query.rs#fn group_schema *)
Definition group_schema (s : GqlSchema) : GqlAttributeList :=
  mk_gql_attribute_list (sc_group_attributes (get_schema (gs_schema s))) (sc_extra_group_object_classes (get_schema (gs_schema s))).

Section Fields.
Context `{C : Crates} `{B : Bincode}.

(** [self.user.attributes.iter().find(..).map(|a| a.value.unwrap())] *)
Definition find_attribute {E} (t : serde_type) (name : string) (u : GqlUser) : outcome E (option (serde_interp t)) :=
  match List.find (fun a => String.eqb (attribute_name_str (av_name a)) name) (user_attributes (gu_user u)) with
  | Some a => omap_ok Some (serialized_unwrap t (av_value a))
  | None => Ok None
  end.

(** Source: server/src/infra/graphql/query.rs#fn first_name *)
Definition first_name {E} (u : GqlUser) : outcome E string :=
  omap_ok (default EmptyString) (find_attribute TyString "first_name" u).
(** Source: server/src/infra/graphql/query.rs#fn last_name *)
Definition last_name {E} (u : GqlUser) : outcome E string :=
  omap_ok (default EmptyString) (find_attribute TyString "last_name" u).
(** Source: server/src/infra/graphql/query.rs#fn avatar *)
Definition avatar {E} (u : GqlUser) : outcome E (option string) :=
  omap_ok (option_map jpeg_to_string) (find_attribute TyJpegPhoto "avatar" u).
(** Source: server/src/infra/graphql/query.rs#@1 fn display_name *)
Definition display_name (u : GqlUser) : string := default EmptyString (user_display_name (gu_user u)).

(** The fields that are read off the objects.
    Source: server/src/infra/graphql/query.rs#L286-288 *)
Definition user_id_field (u : GqlUser) : string := user_id_str (user_user_id (gu_user u)).
(** Source: server/src/infra/graphql/query.rs#L290-292 *)
Definition email_field (u : GqlUser) : string := ci_raw (user_email (gu_user u)).
(** Source: server/src/infra/graphql/query.rs#L324-326 *)
Definition user_creation_date_field (u : GqlUser) : NaiveDateTime := user_creation_date (gu_user u).
(** Source: server/src/infra/graphql/query.rs#L328-330 *)
Definition user_uuid_field (u : GqlUser) : string := uuid_str (user_uuid (gu_user u)).
(** Source: server/src/infra/graphql/query.rs#fn value *)
Definition attribute_value {E} (a : GqlAttributeValue) : outcome E (list string) :=
  serialize_attribute (ga_attribute a) (ga_schema a).
End Fields.

(* ------------------------------------------------------------------ *)
(** ** Resolvers *)

Section Queries.
Context {St : Type} `{BH : !BackendHandler St} `{C : Crates} `{B : Bincode} `{T : ErrorTexts} `{UE : UrlEncoding}.
(** The permissions of the caller, from [struct Context] of [api.rs]. *)
Context (validation_result : ValidationResults).

Abbreviation field A := (stM St string A).

(** The question mark on a call to the backend. *)
Definition domain {A} (m : stM St DomainError A) : field A := smap_err domain_error_display m.

(** Source: server/src/infra/graphql/query.rs#async fn get_schema *)
Definition query_get_schema : field PublicSchema :=
  let! s := domain (restricted_get_schema (get_user_restricted_lister_handler validation_result)) in
  sret (public_schema_from s).

(** Source: server/src/infra/graphql/query.rs#async fn schema *)
Definition query_schema : field GqlSchema :=
  let! s := query_get_schema in sret (mk_gql_schema s).

(** Source: server/src/infra/graphql/query.rs#async fn user *)
Definition query_user (user_id : string) : field GqlUser :=
  let! user_id := slift (ok_or "Invalid user parameter"%string (url_decode user_id)) in
  let user_id := user_id_new user_id in
  let! handler := slift (ok_or "Unauthorized access to user data"%string (get_readable_handler validation_result user_id)) in
  let! schema := query_get_schema in
  let! user := domain (rd_get_user_details handler user_id) in
  slift (from_user user schema).

(** Source: server/src/infra/graphql/query.rs#async fn users *)
Definition query_users (filters : option RequestFilter) : field (list GqlUser) :=
  let! handler := slift (ok_or "Unauthorized access to user list"%string (get_readonly_handler validation_result)) in
  let! schema := query_get_schema in
  let! filters := slift match filters with
                        | Some f => omap_ok Some (try_into_domain_filter f schema)
                        | None => Ok None
                        end in
  let! users := domain (ro_list_users handler filters false) in
  slift (try_map (fun u => from_user_and_groups u schema) users).

(** Source: server/src/infra/graphql/query.rs#async fn groups(context *)
Definition query_groups : field (list GqlGroup) :=
  let! handler := slift (ok_or "Unauthorized access to group list"%string (get_readonly_handler validation_result)) in
  let! schema := query_get_schema in
  let! domain_groups := domain (ro_list_groups handler None) in
  slift (try_map (fun g => from_group g schema) domain_groups).

(** Source: server/src/infra/graphql/query.rs#async fn group *)
Definition query_group (group_id : GroupId) : field GqlGroup :=
  let! handler := slift (ok_or "Unauthorized access to group data"%string (get_readonly_handler validation_result)) in
  let! schema := query_get_schema in
  let! group_details := domain (ro_get_group_details handler group_id) in
  slift (from_group_details group_details schema).

(** Groups in the byte order of their names. *)
Definition group_name_leb (g1 g2 : GqlGroup) : bool := str_leb (gg_display_name g1) (gg_display_name g2).

(** Source: server/src/infra/graphql/query.rs#async fn groups(&self *)
Definition user_groups_field (u : GqlUser) : field (list GqlGroup) :=
  match gu_groups u with
  | Some groups => sret groups
  | None =>
      let! handler := slift (expect "We shouldn't be able to get there without readable permission"
        (get_readable_handler validation_result (user_user_id (gu_user u)))) in
      let! domain_groups := domain (rd_get_user_groups handler (user_user_id (gu_user u))) in
      let! groups := slift (try_map (fun g => from_group_details g (gu_schema u)) domain_groups) in
      sret (sort_by group_name_leb groups)
  end.

(** Source: server/src/infra/graphql/query.rs#async fn users(&self *)
Definition group_users_field (g : GqlGroup) : field (list GqlUser) :=
  let! handler := slift (ok_or "Unauthorized access to group data"%string (get_readonly_handler validation_result)) in
  let! domain_users := domain (ro_list_users handler (Some (UMemberOfId (gg_group_id g))) false) in
  slift (try_map (fun u => from_user_and_groups u (gg_schema g)) domain_users).
End Queries.

(* ------------------------------------------------------------------ *)
(** ** Properties *)

Section RequestFilterInduction.
Context (P : RequestFilter -> Prop)
  (H : forall any all not eq m i,
    (forall l, any = Some l -> Forall P l) -> (forall l, all = Some l -> Forall P l) ->
    (forall f, not = Some f -> P f) -> P (mk_request_filter any all not eq m i)).
Fixpoint request_filter_ind f : P f :=
  let list_ind := fix go fs : Forall P fs :=
    match fs with [] => @List.Forall_nil _ P | f :: fs => @List.Forall_cons _ P f fs (request_filter_ind f) (go fs) end in
  match f with
  | mk_request_filter any all not eq m i =>
      H any all not eq m i
        (match any return forall l, any = Some l -> Forall P l with
         | Some l0 => fun l E => match E in _ = o return match o with Some l => Forall P l | None => True end with eq_refl => list_ind l0 end
         | None => fun l E => match E with end
         end)
        (match all return forall l, all = Some l -> Forall P l with
         | Some l0 => fun l E => match E in _ = o return match o with Some l => Forall P l | None => True end with eq_refl => list_ind l0 end
         | None => fun l E => match E with end
         end)
        (match not return forall f, not = Some f -> P f with
         | Some f0 => fun f E => match E in _ = o return match o with Some f => P f | None => True end with eq_refl => request_filter_ind f0 end
         | None => fun f E => match E with end
         end)
  end.
End RequestFilterInduction.

Section GraphqlQueryFacts.
Context {St : Type} {BH : BackendHandler St} `{C : Crates} `{B : Bincode} `{T : ErrorTexts} `{UE : UrlEncoding}.

(** Never a panic, and a filter the SQL backend can express. *)
Definition request_expressible (m : outcome string UserRequestFilter) : Prop :=
  no_panic m /\ forall f, m = Ok f -> exists c, get_user_filter_expr (E:=DomainError) f = Ok c.

Lemma request_list_expressible schema l g :
  Forall (fun f => request_expressible (try_into_domain_filter f schema)) l ->
  (forall ufs cs, try_map (get_user_filter_expr (E:=DomainError)) ufs = Ok cs ->
     exists c, get_user_filter_expr (E:=DomainError) (g ufs) = Ok c) ->
  request_expressible (omap_ok g (try_map (fun f => try_into_domain_filter f schema) l)).
Proof.
  intros Hl Hg. split.
  - apply obind_no_panic; [|auto with rust]. apply try_map_no_panic. rewrite Forall_forall in Hl. intros f Hf. by apply Hl.
  - intros f (ufs & Hu%try_map_ok & [= <-])%obind_ok.
    assert (Hcs : exists cs, try_map (get_user_filter_expr (E:=DomainError)) ufs = Ok cs).
    { clear Hg. induction Hu as [|x uf l ufs Huf Hu IH]; [by eexists|]. apply Forall_cons in Hl as [[_ Hx] Hl].
      destruct (Hx uf Huf) as [c Hc], (IH Hl) as [cs Hcs]. exists (c :: cs). cbn. by rewrite Hc, Hcs. }
    destruct Hcs as [cs Hcs]. eauto.
Qed.

Lemma eq_filter_expressible eq schema :
  request_expressible (try_into_domain_filter (mk_request_filter None None None (Some eq) None None) schema).
Proof.
  cbn [try_into_domain_filter]. destruct (map_user_field _ _) as [| | | | |c|a t il] eqn:Hf; try by split.
  - split; [done|]. intros f [= <-]. by eexists.
  - apply map_user_field_primary in Hf. destruct c; try done; split; try done; intros f [= <-]; by eexists.
  - destruct il; [by split|]. split.
    + apply obind_no_panic; [|auto with rust]. auto with rust.
    + intros f (v & _ & [= <-])%obind_ok. by eexists.
Qed.

(** The filters of the API are safe: whatever filter a client sends and
    whatever the schema, it is translated or refused without a panic, and a
    translated filter is one that [get_user_filter_expr] turns into SQL; a filter
    with no field or with more than one is refused. *)
Theorem request_filter_safe f schema :
  no_panic (try_into_domain_filter f schema)
  /\ (forall uf, try_into_domain_filter f schema = Ok uf ->
        exists c, get_user_filter_expr (E:=DomainError) uf = Ok c)
  /\ let 'mk_request_filter any all not eq m i := f in
     (is_Some any /\ is_Some all \/ is_Some eq /\ is_Some m \/ is_Some not /\ is_Some i
      \/ (any = None /\ all = None /\ not = None /\ eq = None /\ m = None /\ i = None)) ->
     exists e, try_into_domain_filter f schema = Err e.
Proof.
  assert (H : request_expressible (try_into_domain_filter f schema)).
  { induction f as [any all not eq m i Hany Hall Hnot] using request_filter_ind.
    destruct eq as [eq|], any as [any|], all as [all|], not as [not|], m as [m|], i as [i|]; try (by split);
      try apply eq_filter_expressible.
    - apply request_list_expressible; [by apply Hany|]. intros [|u us] cs Hcs; [by eexists|].
      exists (CAny cs). cbn [get_user_filter_expr]. by rewrite Hcs.
    - apply request_list_expressible; [by apply Hall|]. intros [|u us] cs Hcs; [by eexists|].
      exists (CAll cs). cbn [get_user_filter_expr]. by rewrite Hcs.
    - destruct (Hnot not eq_refl) as [Hp He]. split; cbn; [apply obind_no_panic; auto with rust|].
      intros uf (uf' & Huf & [= <-])%obind_ok. destruct (He uf' Huf) as [c Hc]. exists (CNot c). cbn. by rewrite Hc.
    - split; [done|]. intros uf [= <-]. by eexists.
    - split; [done|]. intros uf [= <-]. by eexists. }
  split_and!; [apply H|apply H|]. destruct f as [any all not eq m i].
  destruct eq as [eq|], any as [any|], all as [all|], not as [not|], m as [m|], i as [i|]; cbn; intros Hc;
    try (by eexists); exfalso; unfold is_Some in Hc; naive_solver.
Qed.

Section Access.
Context {BL : BackendLaws BH} (v : ValidationResults).

Lemma query_get_schema_readonly : readonly (query_get_schema v).
Proof using BL.
  apply readonly_preserves. intros P. unfold query_get_schema, restricted_get_schema, domain. stm.
  by apply readonly_preserves, bh_readonly_schema.
Qed.

(** Code that first asks for a view runs with that view or not at all. *)
Lemma with_view_preserves {V A} (P : St -> Prop) e (o : option V) (view : V) (k : V -> stM St string A) :
  (forall h, o = Some h -> h = view) -> preserves P (k view) -> preserves P (let! h := slift (ok_or e o) in k h).
Proof using Type.
  intros Ho Hk s Hs. unfold sbind, slift. destruct o as [h|]; [|done]. cbn. rewrite (Ho h eq_refl). by apply Hk.
Qed.
Lemma readonly_handler_is h : get_readonly_handler v = Some h -> h = readonly_view.
Proof using Type. unfold get_readonly_handler, then_some. case_match; congruence. Qed.
Lemma readable_handler_is u h : get_readable_handler v u = Some h -> h = readable_view.
Proof using Type. unfold get_readable_handler, then_some. case_match; congruence. Qed.

Lemma queries_readonly uid f gid g :
  readonly (query_user v uid) /\ readonly (query_users v f) /\ readonly (query_groups v)
  /\ readonly (query_group v gid) /\ readonly (group_users_field v g).
Proof using BL.
  assert (Hs := query_get_schema_readonly). rewrite readonly_preserves in Hs.
  split_and!; apply readonly_preserves; intros P; specialize (Hs P).
  - unfold query_user. apply preserves_bind; [apply preserves_lift|]. intros u.
    apply with_view_preserves with (view := readable_view); [apply readable_handler_is|]. stm.
    by apply readonly_preserves, bh_readonly_user_details.
  - apply with_view_preserves with (view := readonly_view); [apply readonly_handler_is|]. stm.
    by apply readonly_preserves, bh_readonly_list_users.
  - apply with_view_preserves with (view := readonly_view); [apply readonly_handler_is|]. stm.
    by apply readonly_preserves, bh_readonly_list_groups.
  - apply with_view_preserves with (view := readonly_view); [apply readonly_handler_is|]. stm.
    by apply readonly_preserves, bh_readonly_group_details.
  - apply with_view_preserves with (view := readonly_view); [apply readonly_handler_is|]. stm.
    by apply readonly_preserves, bh_readonly_list_users.
Qed.

(** C33. What a query may read.  The top-level queries and the users of a group
    write nothing; those about everyone are refused to a caller who may not read
    everything, and the one about a user to a caller who may not read that user. *)
Theorem query_access s :
  (forall uid f gid g, snd (query_user v uid s) = s /\ snd (query_users v f s) = s /\ snd (query_groups v s) = s
     /\ snd (query_group v gid s) = s /\ snd (group_users_field v g s) = s)
  /\ (can_read_all v = false -> forall f gid g,
        (exists e, query_users v f s = (Err e, s)) /\ (exists e, query_groups v s = (Err e, s))
        /\ (exists e, query_group v gid s = (Err e, s)) /\ (exists e, group_users_field v g s = (Err e, s)))
  /\ (forall raw uid, url_decode raw = Some uid -> can_read v (user_id_new uid) = false ->
        query_user v raw s = (Err "Unauthorized access to user data"%string, s)).
Proof using BL.
  split_and!.
  - intros uid f gid g. destruct (queries_readonly uid f gid g) as (H1 & H2 & H3 & H4 & H5). by split_and!.
  - intros Hr f gid g. unfold query_users, query_groups, query_group, group_users_field, get_readonly_handler.
    rewrite Hr. split_and!; by eexists.
  - intros raw uid Hd Hr. unfold query_user, sbind, slift. rewrite Hd. cbn. unfold get_readable_handler. by rewrite Hr.
Qed.

#[local] Arguments sort_by : simpl never.
#[local] Arguments hardcoded_user_attributes : simpl never.
#[local] Arguments public_schema_from : simpl never.

(** A hidden value locks its owner out.  The attributes of a user are all
    returned by the backend, but a caller who may not read everything gets the
    schema of the visible ones only: a user with a value for an attribute that is
    not visible cannot query itself, the whole query fails. *)
Theorem hidden_attribute_blocks_user raw uid user a sc s :
  url_decode raw = Some uid -> vr_user v = user_id_new uid -> can_read_all v = false ->
  bh_get_schema s = (Ok sc, s) -> fst (bh_get_user_details (user_id_new uid) s) = Ok user ->
  a ∈ user_attributes user ->
  Forall (fun x => as_name x = av_name a -> as_is_visible x = false) (al_attributes (sc_user_attributes sc)) ->
  Forall (fun x => as_name x <> av_name a) hardcoded_user_attributes ->
  exists e, fst (query_user v raw s) = Err e.
Proof using BL.
  intros Hd Hv Hr Hs Hu Ha Hvis Hhard. unfold query_user, sbind, slift. rewrite Hd. cbn.
  unfold get_readable_handler, can_read. rewrite (proj2 (is_user_of v _) Hv), orb_true_r. cbn.
  unfold query_get_schema, restricted_get_schema, domain, get_user_restricted_lister_handler. rewrite Hr.
  unfold sbind, smap_err. rewrite Hs. cbn.
  pose proof (bh_readonly_user_details (user_id_new uid) s) as Hro.
  destruct (bh_get_user_details (user_id_new uid) s) as [r s']. cbn in Hu, Hro. subst r s'. cbn.
  unfold from_user. destruct (try_map _ (user_attributes user)) as [l|e|p] eqn:Hl; cbn; [exfalso|by eexists|exfalso].
  - apply try_map_ok in Hl. apply list_elem_of_lookup in Ha as [i Hi].
    destruct (Forall2_lookup_l _ _ _ _ _ Hl Hi) as (y & _ & Hy). revert Hy. unfold from_schema, get_attribute_schema, public_schema_from. cbn.
    destruct (List.find _ _) as [x|] eqn:Hx; [|done]. intros _.
    apply List.find_some in Hx as [Hin%base.list_elem_of_In Hname%bool_decide_eq_true].
    rewrite elem_of_sort_by, elem_of_app in Hin. rewrite Forall_forall in Hvis, Hhard.
    destruct Hin as [Hin|Hin]; [|by apply (Hhard x)].
    apply base.list_elem_of_In, List.filter_In in Hin as [Hin%base.list_elem_of_In Hvx]. by rewrite (Hvis x Hin Hname) in Hvx.
  - revert Hl. apply try_map_no_panic. intros x _. unfold from_schema. by case_match.
Qed.
End Access.

(** The names and the photo are lost.  [from_user] takes the attributes out
    of the domain user before [first_name], [last_name] and [avatar] look for them
    there: whatever the user, the API answers with empty names and no photo. *)
Theorem user_names_lost user schema u :
  from_user user schema = Ok u ->
  first_name (E:=string) u = Ok ""%string /\ last_name (E:=string) u = Ok ""%string /\ avatar (E:=string) u = Ok None.
Proof. unfold from_user. by intros (l & _ & [= <-])%obind_ok. Qed.
End GraphqlQueryFacts.
