(* ===== verification/GraphqlMutation.v ===== *)
(** * GraphQL: mutations

    Models [server/src/infra/graphql/mutation.rs]: the inputs of the API, the
    check and conversion of attribute values, and one definition per mutation,
    over the views that [AccessControl] hands out to the caller.  A mutation of
    the API is a value of [Mutation], run by [run_mutation]. *)

From S2P Require Import Prelude RustStd Extern Types Concrete Handler Deserialize Db ExampleDb SqlFilters SqlSchema SqlUser SqlGroup SqlBackend AccessControl GraphqlQuery.
From Stdlib Require Import Ascii String.
From stdpp Require Import strings list gmap.
#[local] Open Scope rust_scope.

(* ------------------------------------------------------------------ *)
(** ** Inputs *)

(** Source: server/src/infra/graphql/mutation.rs#struct AttributeValue *)
Record AttributeValueInput := mk_attribute_input { ai_name : string; ai_value : list string }.

(** Source: server/src/infra/graphql/mutation.rs#struct CreateUserInput *)
Record CreateUserInput := mk_create_user_input {
  cui_id : string;
  cui_email : string;
  cui_display_name : option string;
  cui_first_name : option string;
  cui_last_name : option string;
  cui_avatar : option string;
  cui_attributes : option (list AttributeValueInput);
}.

(** Source: server/src/infra/graphql/mutation.rs#struct CreateGroupInput *)
Record CreateGroupInput := mk_create_group_input {
  cgi_display_name : string;
  cgi_attributes : option (list AttributeValueInput);
}.

(** Source: server/src/infra/graphql/mutation.rs#struct UpdateUserInput *)
Record UpdateUserInput := mk_update_user_input {
  uui_id : string;
  uui_email : option string;
  uui_display_name : option string;
  uui_first_name : option string;
  uui_last_name : option string;
  uui_avatar : option string;
  uui_remove_attributes : option (list string);
  uui_insert_attributes : option (list AttributeValueInput);
}.

(** Source: server/src/infra/graphql/mutation.rs#struct UpdateGroupInput *)
Record UpdateGroupInput := mk_update_group_input {
  ugi_id : GroupId;
  ugi_display_name : option string;
  ugi_remove_attributes : option (list string);
  ugi_insert_attributes : option (list AttributeValueInput);
}.

(** Source: server/src/infra/graphql/mutation.rs#struct Success *)
Record Success := mk_success { su_ok : bool }.

(** Source: server/src/infra/graphql/mutation.rs#@2 fn new *)
Definition success_new : Success := mk_success true.

(* ------------------------------------------------------------------ *)
(** ** Conversions *)

Section Conversions.
Context `{C : Crates} `{B : Bincode}.

(** Source: server/src/infra/graphql/mutation.rs#fn deserialize_attribute *)
Definition deserialize_attribute (attribute_schema : AttributeList) (attribute : AttributeValueInput)
    (is_admin : bool) : outcome string AttributeValue :=
  let attribute_name := attribute_name_new (ai_name attribute) in
  let? attribute_schema := ok_or ("Attribute " +:+ ai_name attribute +:+ " is not defined in the schema")
    (get_attribute_schema attribute_schema attribute_name) in
  if negb is_admin && negb (as_is_editable attribute_schema) then
    Err ("Permission denied: Attribute " +:+ ai_name attribute +:+ " is not editable by regular users")
  else
    let? deserialized_values := omap_err (fun _ => "While deserializing attribute " +:+ ai_name attribute)
      (deserialize_attribute_value (ai_value attribute) (as_attribute_type attribute_schema) (as_is_list attribute_schema)) in
    Ok (mk_attribute_value attribute_name deserialized_values).

(** The avatar of an input, the same lines in [create_user] and [update_user].
    Source: server/src/infra/graphql/mutation.rs#L137-144 *)
Definition decode_avatar (avatar : option string) : outcome string (option JpegPhoto) :=
  match avatar with
  | None => Ok None
  | Some text =>
      let? b := ok_or "Invalid base64 image"%string (base64_decode text) in
      let? p := omap_err (fun _ => "Provided image is not a valid JPEG"%string) (jpeg_try_from_bytes b) in
      Ok (Some p)
  end.

(** [.unwrap_or_default().into_iter().map(deserialize_attribute).collect()] *)
Definition deserialize_attributes (schema : AttributeList) (l : option (list AttributeValueInput)) (is_admin : bool) :
    outcome string (list AttributeValue) :=
  try_map (fun a => deserialize_attribute schema a is_admin) (default [] l).
End Conversions.

(* ------------------------------------------------------------------ *)
(** ** Mutations *)

Section Mutations.
Context {St : Type} `{BH : !BackendHandler St} `{C : Crates} `{B : Bincode} `{T : ErrorTexts}.
Context (validation_result : ValidationResults).

Abbreviation field A := (stM St string A).

(** [context.get_admin_handler().ok_or_else(field_error_callback(..))] *)
Definition admin_or (message : string) : field (AdminBackendHandler St) :=
  slift (ok_or message (get_admin_handler validation_result)).

(** The methods that a view inherits from the one below it. *)
Definition ad_get_schema (h : AdminBackendHandler St) := rd_get_schema (ro_readable (ad_readonly h)).
Definition ad_get_user_details (h : AdminBackendHandler St) := rd_get_user_details (ro_readable (ad_readonly h)).
Definition ad_get_group_details (h : AdminBackendHandler St) := ro_get_group_details (ad_readonly h).

(** Source: server/src/infra/graphql/mutation.rs#async fn create_user *)
Definition create_user (user : CreateUserInput) : field GqlUser :=
  let! handler := admin_or "Unauthorized user creation" in
  let user_id := user_id_new (cui_id user) in
  let! avatar := slift (decode_avatar (cui_avatar user)) in
  let! schema := domain (ad_get_schema handler) in
  let! attributes := slift (deserialize_attributes (sc_user_attributes (get_schema schema)) (cui_attributes user) true) in
  domain (ad_create_user handler {|
    cu_user_id := user_id;
    cu_email := mk_ci (cui_email user);
    cu_display_name := cui_display_name user;
    cu_first_name := cui_first_name user;
    cu_last_name := cui_last_name user;
    cu_avatar := avatar;
    cu_attributes := attributes |}) ;;
  let! user_details := domain (ad_get_user_details handler user_id) in
  slift (from_user user_details schema).

(** The function behind both mutations that create a group.
    Source: server/src/infra/graphql/mutation.rs#@2 async fn create_group_with_details *)
Definition create_group_with_details (request : CreateGroupInput) : field GqlGroup :=
  let! handler := admin_or "Unauthorized group creation" in
  let! schema := domain (ad_get_schema handler) in
  let! attributes := slift (deserialize_attributes (sc_group_attributes (get_schema schema)) (cgi_attributes request) true) in
  let! group_id := domain (ad_create_group handler (mk_create_group (mk_ci (cgi_display_name request)) attributes)) in
  let! group_details := domain (ad_get_group_details handler group_id) in
  slift (from_group_details group_details schema).

(** Source: server/src/infra/graphql/mutation.rs#async fn create_group *)
Definition create_group (name : string) : field GqlGroup :=
  create_group_with_details (mk_create_group_input name (Some [])).

(** The request that an input stands for, once its avatar and attributes are decoded.
    Source: server/src/infra/graphql/mutation.rs#UpdateUserRequest { *)
Definition update_request (user : UpdateUserInput) (avatar : option JpegPhoto) (insert_attributes : list AttributeValue) :
    UpdateUserRequest := {|
  uu_user_id := user_id_new (uui_id user);
  uu_email := mk_ci <$> uui_email user;
  uu_display_name := uui_display_name user;
  uu_first_name := uui_first_name user;
  uu_last_name := uui_last_name user;
  uu_avatar := avatar;
  uu_delete_attributes := map attribute_name_new (default [] (uui_remove_attributes user));
  uu_insert_attributes := insert_attributes |}.

(** Source: server/src/infra/graphql/mutation.rs#async fn update_user *)
Definition update_user (user : UpdateUserInput) : field Success :=
  let user_id := user_id_new (uui_id user) in
  let! handler := slift (ok_or "Unauthorized user update"%string (get_writeable_handler validation_result user_id)) in
  let is_admin := is_admin validation_result in
  let! avatar := slift (decode_avatar (uui_avatar user)) in
  let! schema := domain (rd_get_schema (wr_readable handler)) in
  let! insert_attributes :=
    slift (deserialize_attributes (sc_user_attributes (get_schema schema)) (uui_insert_attributes user) is_admin) in
  domain (wr_update_user handler (update_request user avatar insert_attributes)) ;;
  sret success_new.

(** Source: server/src/infra/graphql/mutation.rs#async fn update_group *)
Definition update_group (group : UpdateGroupInput) : field Success :=
  let! handler := admin_or "Unauthorized group update" in
  if bool_decide (ugi_id group = 1%Z) && bool_decide (is_Some (ugi_display_name group)) then
    sthrow "Cannot change lldap_admin group name"%string
  else
    let! schema := domain (ad_get_schema handler) in
    let! insert_attributes :=
      slift (deserialize_attributes (sc_group_attributes (get_schema schema)) (ugi_insert_attributes group) true) in
    domain (ad_update_group handler {|
      ug_group_id := ugi_id group;
      ug_display_name := mk_ci <$> ugi_display_name group;
      ug_delete_attributes := map attribute_name_new (default [] (ugi_remove_attributes group));
      ug_insert_attributes := insert_attributes |}) ;;
    sret success_new.

(** Source: server/src/infra/graphql/mutation.rs#async fn add_user_to_group *)
Definition add_user_to_group (user_id : string) (group_id : GroupId) : field Success :=
  let! handler := admin_or "Unauthorized group membership modification" in
  domain (ad_add_user_to_group handler (user_id_new user_id) group_id) ;;
  sret success_new.

(** Source: server/src/infra/graphql/mutation.rs#async fn remove_user_from_group *)
Definition remove_user_from_group (user_id : string) (group_id : GroupId) : field Success :=
  let! handler := admin_or "Unauthorized group membership modification" in
  let user_id := user_id_new user_id in
  if bool_decide (vr_user validation_result = user_id) && bool_decide (group_id = 1%Z) then
    sthrow "Cannot remove admin rights for current user"%string
  else
    domain (ad_remove_user_from_group handler user_id group_id) ;;
    sret success_new.

(** Source: server/src/infra/graphql/mutation.rs#async fn delete_user *)
Definition delete_user (user_id : string) : field Success :=
  let user_id := user_id_new user_id in
  let! handler := admin_or "Unauthorized user deletion" in
  if bool_decide (vr_user validation_result = user_id) then sthrow "Cannot delete current user"%string
  else
    domain (ad_delete_user handler user_id) ;;
    sret success_new.

(** Source: server/src/infra/graphql/mutation.rs#async fn delete_group *)
Definition delete_group (group_id : GroupId) : field Success :=
  let! handler := admin_or "Unauthorized group deletion" in
  if bool_decide (group_id = 1%Z) then sthrow "Cannot delete admin group"%string
  else
    domain (ad_delete_group handler group_id) ;;
    sret success_new.

(** Source: server/src/infra/graphql/mutation.rs#async fn add_user_attribute *)
Definition add_user_attribute (name : string) (attribute_type : AttributeType) (is_list is_visible is_editable : bool) :
    field Success :=
  let! handler := admin_or "Unauthorized attribute creation" in
  domain (ad_add_user_attribute handler
    (mk_create_attribute (attribute_name_new name) attribute_type is_list is_visible is_editable)) ;;
  sret success_new.

(** Source: server/src/infra/graphql/mutation.rs#async fn add_group_attribute *)
Definition add_group_attribute (name : string) (attribute_type : AttributeType) (is_list is_visible is_editable : bool) :
    field Success :=
  let! handler := admin_or "Unauthorized attribute creation" in
  domain (ad_add_group_attribute handler
    (mk_create_attribute (attribute_name_new name) attribute_type is_list is_visible is_editable)) ;;
  sret success_new.

(** The checks before an attribute is deleted. *)
Definition deletable (attributes : AttributeList) (name : AttributeName) : outcome string unit :=
  let? attribute_schema := ok_or ("Attribute " +:+ attribute_name_str name +:+ " is not defined in the schema")
    (get_attribute_schema attributes name) in
  if as_is_hardcoded attribute_schema then
    Err ("Permission denied: Attribute " +:+ attribute_name_str name +:+ " cannot be deleted")
  else Ok tt.

(** Source: server/src/infra/graphql/mutation.rs#async fn delete_user_attribute *)
Definition delete_user_attribute (name : string) : field Success :=
  let name := attribute_name_new name in
  let! handler := admin_or "Unauthorized attribute deletion" in
  let! schema := domain (ad_get_schema handler) in
  slift (deletable (sc_user_attributes (get_schema schema)) name) ;;
  domain (ad_delete_user_attribute handler name) ;;
  sret success_new.

(** Source: server/src/infra/graphql/mutation.rs#async fn delete_group_attribute *)
Definition delete_group_attribute (name : string) : field Success :=
  let name := attribute_name_new name in
  let! handler := admin_or "Unauthorized attribute deletion" in
  let! schema := domain (ad_get_schema handler) in
  slift (deletable (sc_group_attributes (get_schema schema)) name) ;;
  domain (ad_delete_group_attribute handler name) ;;
  sret success_new.

(** Source: server/src/infra/graphql/mutation.rs#async fn add_user_object_class *)
Definition add_user_object_class (name : string) : field Success :=
  let! handler := admin_or "Unauthorized object class addition" in
  domain (ad_add_user_object_class handler (mk_ci name)) ;;
  sret success_new.

(** Source: server/src/infra/graphql/mutation.rs#async fn add_group_object_class *)
Definition add_group_object_class (name : string) : field Success :=
  let! handler := admin_or "Unauthorized object class addition" in
  domain (ad_add_group_object_class handler (mk_ci name)) ;;
  sret success_new.

(** Source: server/src/infra/graphql/mutation.rs#async fn delete_user_object_class *)
Definition delete_user_object_class (name : string) : field Success :=
  let! handler := admin_or "Unauthorized object class deletion" in
  domain (ad_delete_user_object_class handler (mk_ci name)) ;;
  sret success_new.

(** Source: server/src/infra/graphql/mutation.rs#async fn delete_group_object_class *)
Definition delete_group_object_class (name : string) : field Success :=
  let! handler := admin_or "Unauthorized object class deletion" in
  domain (ad_delete_group_object_class handler (mk_ci name)) ;;
  sret success_new.
End Mutations.

(* ------------------------------------------------------------------ *)
(** ** The mutation type *)

(** A field of the top-level mutation object, with its arguments. *)
Inductive Mutation :=
| MCreateUser (user : CreateUserInput)
| MCreateGroup (name : string)
| MCreateGroupWithDetails (request : CreateGroupInput)
| MUpdateUser (user : UpdateUserInput)
| MUpdateGroup (group : UpdateGroupInput)
| MAddUserToGroup (user_id : string) (group_id : GroupId)
| MRemoveUserFromGroup (user_id : string) (group_id : GroupId)
| MDeleteUser (user_id : string)
| MDeleteGroup (group_id : GroupId)
| MAddUserAttribute (name : string) (t : AttributeType) (is_list is_visible is_editable : bool)
| MAddGroupAttribute (name : string) (t : AttributeType) (is_list is_visible is_editable : bool)
| MDeleteUserAttribute (name : string)
| MDeleteGroupAttribute (name : string)
| MAddUserObjectClass (name : string)
| MAddGroupObjectClass (name : string)
| MDeleteUserObjectClass (name : string)
| MDeleteGroupObjectClass (name : string).

Inductive MutationResult :=
| MutationUser (u : GqlUser)
| MutationGroup (g : GqlGroup)
| MutationSuccess (s : Success).

(** The resolver of each field.
    Source: server/src/infra/graphql/mutation.rs#L123-127 *)
Definition run_mutation {St : Type} `{BH : !BackendHandler St} `{C : Crates} `{B : Bincode} `{T : ErrorTexts}
    (v : ValidationResults) (m : Mutation) : stM St string MutationResult :=
  let user x := let! u := x in sret (MutationUser u) in
  let group x := let! g := x in sret (MutationGroup g) in
  let success x := let! s := x in sret (MutationSuccess s) in
  match m with
  | MCreateUser r => user (create_user v r)
  | MCreateGroup name => group (create_group v name)
  | MCreateGroupWithDetails r => group (create_group_with_details v r)
  | MUpdateUser r => success (update_user v r)
  | MUpdateGroup r => success (update_group v r)
  | MAddUserToGroup u g => success (add_user_to_group v u g)
  | MRemoveUserFromGroup u g => success (remove_user_from_group v u g)
  | MDeleteUser u => success (delete_user v u)
  | MDeleteGroup g => success (delete_group v g)
  | MAddUserAttribute n t l vi e => success (add_user_attribute v n t l vi e)
  | MAddGroupAttribute n t l vi e => success (add_group_attribute v n t l vi e)
  | MDeleteUserAttribute n => success (delete_user_attribute v n)
  | MDeleteGroupAttribute n => success (delete_group_attribute v n)
  | MAddUserObjectClass n => success (add_user_object_class v n)
  | MAddGroupObjectClass n => success (add_group_object_class v n)
  | MDeleteUserObjectClass n => success (delete_user_object_class v n)
  | MDeleteGroupObjectClass n => success (delete_group_object_class v n)
  end.

(* ------------------------------------------------------------------ *)
(** ** Properties, for any backend *)

Section MutationFacts.
Context {St : Type} {BH : BackendHandler St} `{C : Crates} `{B : Bincode} `{T : ErrorTexts}.

(** Nothing happened, and the client is told so. *)
Definition refused {A} (m : stM St string A) (s : St) : Prop := snd (m s) = s /\ exists e, fst (m s) = Err e.

Lemma refused_bind {A D} (m : stM St string A) (k : A -> stM St string D) s : refused m s -> refused (sbind m k) s.
Proof. unfold refused, sbind. destruct (m s) as [[a|e|p] s']; cbn; naive_solver. Qed.

Lemma refused_run {A} (m m' : stM St string A) s : m s = m' s -> refused m' s -> refused m s.
Proof. unfold refused. by intros ->. Qed.

Lemma refused_throw {A} e s : refused (sthrow (A:=A) e) s.
Proof. split; [done|by eexists]. Qed.

Lemma admin_refused {A} v msg (k : _ -> stM St string A) s :
  is_admin v = false -> refused (sbind (admin_or v msg) k) s.
Proof.
  intros Hv. apply refused_bind. unfold admin_or, get_admin_handler. rewrite Hv. split; [done|by eexists].
Qed.

Lemma admin_granted {A} v msg (k : _ -> stM St string A) s :
  is_admin v = true -> sbind (admin_or v msg) k s = k admin_view s.
Proof. intros Hv. unfold admin_or, get_admin_handler. by rewrite Hv. Qed.

(** What [deserialize_attributes] lets through. *)
Definition editable_in (l : AttributeList) (a : AttributeValue) : Prop :=
  exists x, get_attribute_schema l (av_name a) = Some x /\ as_is_editable x = true.

Lemma deserialized_editable l inputs out :
  deserialize_attributes l inputs false = Ok out -> Forall (editable_in l) out.
Proof.
  unfold deserialize_attributes. intros H%try_map_ok. induction H as [|a y inp out Ha _ IH]; constructor; [|done].
  unfold deserialize_attribute in Ha. apply obind_ok in Ha as (x & Hx%ok_or_ok & Ha). cbn in Ha.
  destruct (as_is_editable x) eqn:He; [|done]. cbn in Ha. apply obind_ok in Ha as (vals & _ & [= <-]).
  exists x. done.
Qed.

Lemma deserialize_attribute_no_panic l a adm : no_panic (deserialize_attribute l a adm).
Proof.
  unfold deserialize_attribute. apply obind_no_panic; [auto with rust|]. intros x _. case_match; [auto with rust|].
  apply obind_no_panic; [|auto with rust]. apply omap_err_no_panic, deserialize_no_panic.
Qed.

Context {BL : BackendLaws BH}.

(** An update either stops before the backend is called or is one call of it. *)
Lemma update_user_steps v r s :
  can_write v (user_id_new (uui_id r)) = true ->
  snd (update_user v r s) = s
  \/ exists sc ins av, fst (bh_get_schema s) = Ok sc
       /\ deserialize_attributes (sc_user_attributes (get_schema (public_schema_from sc))) (uui_insert_attributes r)
            (is_admin v) = Ok ins
       /\ snd (update_user v r s) = snd (bh_update_user (update_request r av ins) s).
Proof using BL.
  intros Hw. unfold update_user. rewrite (sbind_run _ _ s writeable_view s)
    by (unfold slift, get_writeable_handler; by rewrite Hw).
  destruct (decode_avatar (uui_avatar r)) as [av|e|p] eqn:Ha; [|by left..].
  rewrite (sbind_run _ _ s av s) by done. cbn [rd_get_schema wr_readable writeable_view readable_view].
  pose proof (bh_readonly_schema s) as Hro.
  destruct (bh_get_schema s) as [[sc|e|p] s'] eqn:Hs; cbn in Hro; subst s';
    [|left; unfold sbind, domain, smap_err; by rewrite Hs..].
  rewrite (sbind_run _ _ s (public_schema_from sc) s) by (unfold sbind, domain, smap_err; by rewrite Hs).
  destruct (deserialize_attributes _ _ _) as [ins|e|p] eqn:Hins; [|by left..].
  rewrite (sbind_run _ _ s ins s) by done. right. exists sc, ins, av. split_and!; [done|done|].
  unfold sbind, domain, smap_err. cbn [wr_update_user writeable_view].
  by destruct (bh_update_user (update_request r av ins) s) as [[] ?].
Qed.

(** Who may change what.  A caller who is no administrator changes nothing
    through any of the mutations but [updateUser] on itself: every other one is
    refused before the backend is called.  What its own update does is one call of
    the backend, on its own entry, and every attribute it inserts is one that the
    schema lets users edit. *)
Theorem mutation_access v m s :
  is_admin v = false ->
  refused (run_mutation v m) s
  \/ exists r, m = MUpdateUser r /\ user_id_new (uui_id r) = vr_user v
       /\ (snd (run_mutation v m s) = s
           \/ exists req sc, fst (bh_get_schema s) = Ok sc /\ uu_user_id req = vr_user v
                /\ Forall (editable_in (sc_user_attributes (get_schema (public_schema_from sc)))) (uu_insert_attributes req)
                /\ snd (run_mutation v m s) = snd (bh_update_user req s)).
Proof using BL.
  intros Hv. destruct m; cbn [run_mutation]; try (left; apply refused_bind; apply admin_refused; exact Hv).
  destruct (can_write v (user_id_new (uui_id user))) eqn:Hw.
  2: { left. apply refused_bind, refused_bind. unfold get_writeable_handler. rewrite Hw. split; [done|by eexists]. }
  right. exists user. split; [done|].
  assert (Hu : user_id_new (uui_id user) = vr_user v).
  { unfold can_write in Hw. unfold is_admin in Hv. rewrite Hv in Hw. symmetry. by apply is_user_of. }
  split; [done|]. destruct (update_user_steps v user s Hw) as [Hs|(sc & ins & av & Hsc & Hins & Hs)].
  - left. unfold sbind. by destruct (update_user v user s) as [[] ?].
  - right. eexists _, sc. split; [exact Hsc|]. split; [|split]; cycle 2.
    + unfold sbind. transitivity (snd (update_user v user s)); [by destruct (update_user v user s) as [[] ?]|]. exact Hs.
    + exact Hu.
    + rewrite Hv in Hins. by apply deserialized_editable in Hins.
Qed.

(** What the API protects from everyone, administrators included. *)
Definition not_deletable (attributes : AttributeList) (name : string) : Prop :=
  forall x, get_attribute_schema attributes (attribute_name_new name) = Some x -> as_is_hardcoded x = true.
Definition reserved (v : ValidationResults) (m : Mutation) (sc : Schema) : Prop :=
  let sc := get_schema (public_schema_from sc) in
  match m with
  | MDeleteUser u => user_id_new u = vr_user v
  | MRemoveUserFromGroup u g => user_id_new u = vr_user v /\ g = 1%Z
  | MDeleteGroup g => g = 1%Z
  | MUpdateGroup r => ugi_id r = 1%Z /\ is_Some (ugi_display_name r)
  | MDeleteUserAttribute n => not_deletable (sc_user_attributes sc) n
  | MDeleteGroupAttribute n => not_deletable (sc_group_attributes sc) n
  | _ => False
  end.

Lemma refused_deletion {A} l n (k : unit -> stM St string A) s :
  not_deletable l n -> refused (sbind (slift (deletable l (attribute_name_new n))) k) s.
Proof.
  unfold not_deletable, deletable. intros H. apply refused_bind. unfold refused, slift. cbn.
  destruct (get_attribute_schema _ _) as [x|]; cbn; [rewrite (H x eq_refl)|]; eauto.
Qed.

Lemma domain_schema_run {A} (k : PublicSchema -> stM St string A) sc s :
  fst (bh_get_schema s) = Ok sc ->
  sbind (domain (ad_get_schema admin_view)) k s = k (public_schema_from sc) s.
Proof using BL.
  intros Hsc. apply sbind_run. pose proof (bh_readonly_schema s) as Hro. unfold domain, smap_err, ad_get_schema. cbn.
  unfold sbind. destruct (bh_get_schema s) as [r s']. cbn in *. by subst.
Qed.

(** What nobody may change.  Deleting oneself, leaving the group of the
    administrators, deleting or renaming that group, and deleting an attribute
    that is hardcoded or not in the schema are refused to every caller, an
    administrator included, and leave the backend as it was. *)
Theorem reserved_refused v m sc s :
  fst (bh_get_schema s) = Ok sc -> reserved v m sc -> refused (run_mutation v m) s.
Proof using BL.
  intros Hsc Hr. destruct (is_admin v) eqn:Hv.
  2: destruct m; try done; apply refused_bind, admin_refused, Hv.
  destruct m; try done; apply refused_bind; cbn [reserved] in Hr.
  - eapply refused_run; [by apply admin_granted|]. cbv zeta. destruct Hr as [H1 H2]. rewrite !bool_decide_eq_true_2 by done.
    apply refused_throw.
  - eapply refused_run; [by apply admin_granted|]. cbv zeta. destruct Hr as [H1 H2]. rewrite !bool_decide_eq_true_2 by done.
    apply refused_throw.
  - eapply refused_run; [by apply admin_granted|]. rewrite bool_decide_eq_true_2 by done. apply refused_throw.
  - eapply refused_run; [by apply admin_granted|]. rewrite bool_decide_eq_true_2 by done. apply refused_throw.
  - eapply refused_run; [by apply admin_granted|]. eapply refused_run; [by apply domain_schema_run|].
    by apply refused_deletion.
  - eapply refused_run; [by apply admin_granted|]. eapply refused_run; [by apply domain_schema_run|].
    by apply refused_deletion.
Qed.
End MutationFacts.
