(* ===== verification/GraphqlSql.v ===== *)
(** * GraphQL mutations on the SQL database

    The mutations of [GraphqlMutation] run by the SQL backend: what no sequence
    of them can take away, and the examples of the theorems of the two GraphQL
    files. *)

From S2P Require Import Prelude RustStd Extern Types Concrete Handler Deserialize Db ExampleDb SqlFilters SqlSchema SqlUser SqlGroup SqlBackend SqlTcp AccessControl GraphqlQuery GraphqlMutation.
From Stdlib Require Import Ascii String.
From stdpp Require Import strings list gmap.
#[local] Open Scope rust_scope.

Section AdminGroup.
Context `{C : Crates} `{B : Bincode} `{SL : SqlLib} `{T : ErrorTexts}.

(** The group created first has the name [n]; with [Some u], moreover, the user
    [u] exists and is a member of it. *)
Record rooted (n : GroupName) (member : option UserId) (db : Db) : Prop := {
  rooted_seq : (1 <= db_groups_seq db)%Z;
  rooted_group : exists r, db_groups db !! 1%Z = Some r /\ gr_display_name r = n;
  rooted_member u : member = Some u -> is_Some (db_users db !! u) /\ (u, 1%Z) ∈ db_memberships db;
}.

Context (n : GroupName) (member : option UserId).
Definition world_rooted (w : World) : Prop := rooted n member (w_db w).

Lemma statement_rooted {A} (f : Db -> outcome DomainError (A * Db)) :
  (forall db a db', rooted n member db -> f db = Ok (a, db') -> rooted n member db') ->
  preserves world_rooted (statement f).
Proof.
  intros Hf w Hw. unfold statement. destruct (f (w_db w)) as [[a db']|e|p] eqn:He; [|done..].
  by eapply Hf.
Qed.

(** A statement on other tables. *)
Lemma other_tables_rooted {A} (f : Db -> outcome DomainError (A * Db)) :
  (forall db a db', f db = Ok (a, db') -> db_groups db' = db_groups db /\ db_groups_seq db' = db_groups_seq db
     /\ db_users db' = db_users db /\ db_memberships db' = db_memberships db) ->
  preserves world_rooted (statement f).
Proof.
  intros Hf. apply statement_rooted. intros db a db' [Hs Hg Hm] H. destruct (Hf _ _ _ H) as (E1 & E2 & E3 & E4).
  split; rewrite ?E1, ?E2; [done..|]. intros u Hu. rewrite E3, E4. by apply Hm.
Qed.

Ltac other_tables :=
  apply other_tables_rooted; intros db ? db' H; cbn beta zeta in H; checked H; by injection H as <- <-.
Ltac rooted_statement :=
  apply statement_rooted; intros db ? db' [Hseq Hgroup Hmember] H; cbn beta zeta in H; checked H.

Lemma insert_user_rooted u r : preserves world_rooted (insert_user u r).
Proof.
  rooted_statement. injection H as <- <-. split; cbn; [done..|]. intros u' Hu'. destruct (Hmember u' Hu') as [Hx ?].
  split; [by apply is_Some_insert|done].
Qed.
Lemma update_user_row_rooted b u f : preserves world_rooted (update_user_row b u f).
Proof.
  rooted_statement. destruct (db_users db !! u); [|done]. checked H. injection H as <- <-.
  split; cbn; [done..|]. intros u' Hu'. destruct (Hmember u' Hu') as [Hx ?]. split; [by apply is_Some_insert|done].
Qed.
Lemma delete_user_row_rooted u : member <> Some u -> preserves world_rooted (delete_user_row u).
Proof.
  intros Hu. rooted_statement. destruct (db_users db !! u); injection H as <- <-; [|done]. split; cbn; [done..|].
  intros u' Hu'. destruct (Hmember u' Hu') as [Hx Hin]. assert (u' <> u) by congruence.
  split; [by rewrite lookup_delete_ne|]. by apply elem_of_filter.
Qed.
Lemma insert_group_rooted r : preserves world_rooted (insert_group r).
Proof.
  rooted_statement. injection H as <- <-. split; cbn; [lia| |done].
  destruct Hgroup as (r1 & Hr1 & Hn). exists r1. by rewrite lookup_insert_ne by lia.
Qed.
Lemma update_group_row_rooted b g f :
  (g <> 1%Z \/ forall r, gr_display_name (f r) = gr_display_name r) -> preserves world_rooted (update_group_row b g f).
Proof.
  intros Hf. rooted_statement. destruct (db_groups db !! g) as [r|] eqn:Hr; [|done]. checked H. injection H as <- <-.
  split; cbn; [done| |done]. destruct Hgroup as (r1 & Hr1 & Hn). destruct (decide (g = 1%Z)) as [->|Hg].
  - exists (f r). rewrite lookup_insert_eq. split; [done|]. destruct Hf as [Hf|Hf]; [done|]. rewrite Hf. congruence.
  - exists r1. by rewrite lookup_insert_ne.
Qed.
Lemma delete_group_row_rooted g : g <> 1%Z -> preserves world_rooted (delete_group_row g).
Proof.
  intros Hg. rooted_statement. destruct (db_groups db !! g); injection H as <- <-; [|done]. split; cbn; [done| |].
  - destruct Hgroup as (r1 & Hr1 & Hn). exists r1. by rewrite lookup_delete_ne.
  - intros u Hu. destruct (Hmember u Hu). split; [done|]. by apply elem_of_filter.
Qed.
Lemma insert_membership_rooted u g : preserves world_rooted (insert_membership u g).
Proof.
  rooted_statement. injection H as <- <-. split; cbn; [done..|]. intros u' Hu'. destruct (Hmember u' Hu'). set_solver.
Qed.
Lemma delete_membership_rooted u g :
  (member <> Some u \/ g <> 1%Z) -> preserves world_rooted (delete_membership u g).
Proof.
  intros Hu. rooted_statement. case_decide; injection H as <- <-; [|done]. split; cbn; [done..|].
  intros u' Hu'. destruct (Hmember u' Hu'). split; [done|]. apply elem_of_difference. split; [done|].
  intros Hin%elem_of_singleton. naive_solver.
Qed.

Lemma insert_user_attributes_rooted b u rows : preserves world_rooted (insert_user_attributes b u rows).
Proof.
  apply other_tables_rooted. intros db a db' (db'' & ->%put_user_attributes_run & [= <- <-])%obind_ok. done.
Qed.
Lemma insert_group_attributes_rooted b g rows : preserves world_rooted (insert_group_attributes b g rows).
Proof.
  apply other_tables_rooted. intros db a db' (db'' & ->%put_group_attributes_run & [= <- <-])%obind_ok. done.
Qed.
Lemma delete_user_attributes_rooted u names : preserves world_rooted (delete_user_attributes u names).
Proof. other_tables. Qed.
Lemma delete_group_attributes_rooted g names : preserves world_rooted (delete_group_attributes g names).
Proof. other_tables. Qed.
Lemma insert_user_schema_rooted a r : preserves world_rooted (insert_user_schema a r).
Proof. other_tables. Qed.
Lemma insert_group_schema_rooted a r : preserves world_rooted (insert_group_schema a r).
Proof. other_tables. Qed.
Lemma delete_user_schema_rooted a : preserves world_rooted (delete_user_schema a).
Proof. other_tables. Qed.
Lemma delete_group_schema_rooted a : preserves world_rooted (delete_group_schema a).
Proof. other_tables. Qed.
Lemma insert_user_class_rooted k c : preserves world_rooted (insert_user_class k c).
Proof. other_tables. Qed.
Lemma insert_group_class_rooted k c : preserves world_rooted (insert_group_class k c).
Proof. other_tables. Qed.
Lemma delete_user_class_rooted k : preserves world_rooted (delete_user_class k).
Proof. other_tables. Qed.
Lemma delete_group_class_rooted k : preserves world_rooted (delete_group_class k).
Proof. other_tables. Qed.
#[local] Hint Resolve insert_user_rooted update_user_row_rooted insert_group_rooted
  insert_membership_rooted insert_user_attributes_rooted insert_group_attributes_rooted
  delete_user_attributes_rooted delete_group_attributes_rooted insert_user_schema_rooted insert_group_schema_rooted
  delete_user_schema_rooted delete_group_schema_rooted insert_user_class_rooted insert_group_class_rooted
  delete_user_class_rooted delete_group_class_rooted preserves_get_schema run_if_preserves : stm.

(** The operations of the backend that a mutation reaches. *)
Lemma sql_create_user_rooted r : preserves world_rooted (sql_create_user r).
Proof. unfold sql_create_user. stm. Qed.
Lemma sql_update_user_rooted r : preserves world_rooted (sql_update_user r).
Proof. unfold sql_update_user, update_user_with_transaction. stm. Qed.
Lemma sql_delete_user_rooted u : member <> Some u -> preserves world_rooted (sql_delete_user u).
Proof. intros Hu. pose proof (delete_user_row_rooted u Hu). unfold sql_delete_user. stm. Qed.
Lemma sql_remove_user_from_group_rooted u g :
  (member <> Some u \/ g <> 1%Z) -> preserves world_rooted (sql_remove_user_from_group u g).
Proof. intros Hu. pose proof (delete_membership_rooted u g Hu). unfold sql_remove_user_from_group. stm. Qed.
Lemma sql_create_group_rooted r : preserves world_rooted (sql_create_group r).
Proof. unfold sql_create_group. stm. Qed.
Lemma sql_update_group_rooted r :
  (ug_group_id r <> 1%Z \/ ug_display_name r = None) -> preserves world_rooted (sql_update_group r).
Proof.
  intros Hr. unfold sql_update_group, update_group_with_transaction. apply preserves_transaction, preserves_bind.
  - apply update_group_row_rooted. destruct Hr as [Hr| ->]; [by left|by right].
  - stm.
Qed.
Lemma sql_delete_group_rooted g : g <> 1%Z -> preserves world_rooted (sql_delete_group g).
Proof. intros Hg. pose proof (delete_group_row_rooted g Hg). unfold sql_delete_group. stm. Qed.

(** Asking for the administrator's view, then using it. *)
Lemma admin_preserves {A} v msg (k : _ -> stM World string A) (P : World -> Prop) :
  preserves P (k admin_view) -> preserves P (sbind (admin_or v msg) k).
Proof.
  intros Hk w Hw. destruct (is_admin v) eqn:Hv; [rewrite admin_granted by done; by apply Hk|].
  destruct (admin_refused v msg k w Hv) as [-> _]. done.
Qed.

(** The run of a call to the backend. *)
Lemma field_run {A} (m : SQL A) w r w' : m w = (r, w') -> domain m w = (omap_err domain_error_display r, w').
Proof. unfold domain, smap_err. by intros ->. Qed.
Lemma domain_preserves {A} (m : SQL A) (P : World -> Prop) : preserves P m -> preserves P (domain m).
Proof. apply preserves_map_err. Qed.

Lemma schema_preserves (P : World -> Prop) : preserves P (domain (ad_get_schema admin_view)).
Proof.
  unfold domain, ad_get_schema. cbn. apply preserves_map_err, preserves_bind; [|auto with stm].
  by apply readonly_preserves, sql_get_schema_readonly.
Qed.
Lemma user_details_preserves u (P : World -> Prop) : preserves P (domain (ad_get_user_details admin_view u)).
Proof. by apply domain_preserves, readonly_preserves, sql_get_user_details_readonly. Qed.
Lemma group_details_preserves g (P : World -> Prop) : preserves P (domain (ad_get_group_details admin_view g)).
Proof. by apply domain_preserves, readonly_preserves, sql_get_group_details_readonly. Qed.

#[local] Hint Resolve sql_create_user_rooted sql_update_user_rooted sql_create_group_rooted domain_preserves
  schema_preserves user_details_preserves group_details_preserves : stm.

Lemma update_user_rooted v r : preserves world_rooted (update_user v r).
Proof.
  intros w Hw. destruct (can_write v (user_id_new (uui_id r))) eqn:Hv.
  - destruct (update_user_steps v r w Hv) as [->|(sc & ins & av & _ & _ & ->)]; [done|]. by apply sql_update_user_rooted.
  - unfold update_user, get_writeable_handler. by rewrite Hv.
Qed.
Lemma update_group_rooted v r : preserves world_rooted (update_group v r).
Proof.
  apply admin_preserves. destruct (decide (ugi_id r = 1%Z)) as [Hi|Hi], (ugi_display_name r) as [name|] eqn:Hn.
  1: rewrite !bool_decide_eq_true_2 by done; apply preserves_throw.
  all: rewrite andb_comm; try rewrite (bool_decide_eq_false_2 (is_Some None)) by (by intros []);
    try rewrite (bool_decide_eq_false_2 (_ = 1%Z)) by done; rewrite ?andb_false_r; cbn [andb];
    (apply preserves_bind; [apply schema_preserves|intros sc]); (apply preserves_bind; [apply preserves_lift|intros ins]);
    (apply preserves_bind; [|auto with stm]); apply domain_preserves, sql_update_group_rooted; cbn; rewrite ?Hn; auto.
Qed.
Lemma remove_user_from_group_rooted v u g :
  (forall u, member = Some u -> vr_user v = u) -> preserves world_rooted (remove_user_from_group v u g).
Proof.
  intros Hv. apply admin_preserves. cbv zeta. case_match eqn:Hc; [apply preserves_throw|].
  apply andb_false_iff in Hc. rewrite !bool_decide_eq_false in Hc.
  apply preserves_bind; [|auto with stm]. apply domain_preserves, sql_remove_user_from_group_rooted. naive_solver.
Qed.
Lemma delete_user_rooted v u :
  (forall u, member = Some u -> vr_user v = u) -> preserves world_rooted (delete_user v u).
Proof.
  intros Hv. apply admin_preserves. case_bool_decide; [apply preserves_throw|].
  apply preserves_bind; [|auto with stm]. apply domain_preserves, sql_delete_user_rooted. naive_solver.
Qed.
Lemma delete_group_rooted v g : preserves world_rooted (delete_group v g).
Proof.
  apply admin_preserves. case_bool_decide; [apply preserves_throw|].
  apply preserves_bind; [|auto with stm]. by apply domain_preserves, sql_delete_group_rooted.
Qed.

Ltac schema_operation :=
  stm; cbn; unfold sql_add_user_attribute, sql_add_group_attribute, sql_delete_user_attribute,
    sql_delete_group_attribute, sql_add_user_object_class, sql_add_group_object_class,
    sql_delete_user_object_class, sql_delete_group_object_class; stm.

(** A mutation by [member], or by anyone when there is none to protect. *)
Lemma run_mutation_rooted v m :
  (forall u, member = Some u -> vr_user v = u) -> preserves world_rooted (run_mutation v m).
Proof.
  intros Hv. destruct m; cbn [run_mutation]; (apply preserves_bind; [|auto with stm]);
    [| | |apply update_user_rooted|apply update_group_rooted| |apply remove_user_from_group_rooted; naive_solver
     |apply delete_user_rooted; naive_solver|apply delete_group_rooted|..];
    apply admin_preserves; schema_operation.
Qed.

(** A caller runs a mutation, with any outcome, or the clock moves. *)
Inductive mutation_step : World -> World -> Prop :=
| step_mutation v m w : (forall u, member = Some u -> vr_user v = u) -> mutation_step w (snd (run_mutation v m w))
| step_time t w : mutation_step w (at_time t w).

Lemma mutation_steps_rooted w w' : rtc mutation_step w w' -> world_rooted w -> world_rooted w'.
Proof.
  induction 1 as [w|w w1 w2 Hs _ IH]; [done|]. intros Hw. apply IH. destruct Hs as [v m w Hv|t w]; [|done].
  by apply run_mutation_rooted.
Qed.
End AdminGroup.

Section AdminStays.
Context `{C : Crates} `{B : Bincode} `{SL : SqlLib} `{T : ErrorTexts}.

(** The rights [get_permissions_for_user] computes for a member of the group. *)
Lemma rooted_is_admin n u w :
  ci_equiv n (mk_ci "lldap_admin") -> world_rooted n (Some u) w ->
  exists v, fst (get_permissions_for_user u w) = Ok v /\ vr_user v = u /\ is_admin v = true.
Proof.
  intros Hn [_ (r & Hr & Hname) Hm]. destruct (Hm u eq_refl) as [[row Hu] Hin].
  unfold get_permissions_for_user, sbind. cbn [bh_get_user_groups SqlBackendHandler].
  rewrite sql_get_user_groups_run, Hu. cbn. eexists. split; [done|]. split; [done|].
  unfold is_admin, has_permission. apply bool_decide_eq_true. cbn.
  rewrite (proj2 (existsb_named _ _)); [done|]. exists n. split; [|done].
  apply list_elem_of_fmap. exists (group_details_from_model (1%Z, r)). split; [by rewrite <- Hname|].
  apply list_elem_of_fmap. exists (1%Z, r). split; [done|]. unfold linked_groups.
  apply elem_of_order_by. by apply map_lookup_filter_Some.
Qed.

(** C4. No mutation takes the administrators' group away.  Whatever mutations
    anyone runs, with any rights, successful or not, the first group keeps existing
    under its name; and whatever one of its members runs, that member exists, is
    in the group, and is found to be an administrator. *)
Theorem admin_not_locked_out n u w w' :
  ci_equiv n (mk_ci "lldap_admin") ->
  (rooted n None (w_db w) -> rtc (mutation_step None) w w' -> rooted n None (w_db w'))
  /\ (rooted n (Some u) (w_db w) -> rtc (mutation_step (Some u)) w w' ->
      exists v, fst (get_permissions_for_user u w') = Ok v /\ vr_user v = u /\ is_admin v = true).
Proof.
  intros Hn. split.
  - intros Hw Hs. by apply (mutation_steps_rooted n None w w').
  - intros Hw Hs. apply (rooted_is_admin n); [done|]. by apply (mutation_steps_rooted n (Some u) w w').
Qed.
End AdminStays.

(* ------------------------------------------------------------------ *)
(** ** Examples *)

Section Examples.
#[local] Existing Instances concrete_crates concrete_bincode concrete_sql toy_texts.

(** Percent-decoding of texts without an escape. *)
Definition plain_url : UrlEncoding := {| url_decode s := Some s |}.
#[local] Existing Instance plain_url.

Definition bob_regular : ValidationResults := mk_validation uid_bob PermRegular.
Definition admin_admin : ValidationResults := mk_validation uid_admin PermAdmin.

Lemma request_filter_safe_example :
  try_into_domain_filter
    (mk_request_filter None (Some [mk_request_filter None None None (Some (mk_equality "id" "Bob")) None None;
                                   mk_request_filter None None (Some (mk_request_filter None None None None None (Some 4%Z))) None None None])
       None None None None) (public_schema_from (schema_of example_db))
  = Ok (UAnd [UUserId uid_bob; UNot (UMemberOfId 4%Z)]).
Proof. vm_compute. reflexivity. Qed.

Lemma query_access_witness :
  can_read_all bob_regular = false
  /\ (exists e, query_users bob_regular None example_world = (Err e, example_world))
  /\ query_user bob_regular "admin" example_world = (Err "Unauthorized access to user data"%string, example_world).
Proof.
  destruct (@query_access World SqlBackendHandler _ _ _ plain_url sql_backend_laws bob_regular example_world)
    as (_ & H2 & H3).
  split; [reflexivity|]. split.
  - apply (H2 eq_refl None 1%Z (mk_gql_group 1%Z "" 0%Z "" [] (public_schema_from (schema_of example_db)))).
  - by apply (H3 "admin"%string "admin"%string).
Defined.

(** A member of nothing renames itself, and is refused an attribute that is not editable. *)
Definition rename_bob (id : string) : UpdateUserInput :=
  mk_update_user_input id None (Some "Bobby"%string) None None None None None.

Lemma mutation_access_witness :
  is_admin bob_regular = false /\ refused (run_mutation bob_regular (MUpdateUser (rename_bob "admin"))) example_world.
Proof.
  split; [reflexivity|].
  destruct (@mutation_access World SqlBackendHandler _ _ _ sql_backend_laws bob_regular
    (MUpdateUser (rename_bob "admin")) example_world eq_refl) as [H|(r & [= <-] & Hu & _)]; [exact H|].
  exfalso. vm_compute in Hu. discriminate.
Defined.

(** An attribute that users cannot edit, and a value of it that an administrator gave to bob. *)
Definition badge_world : World :=
  snd ((let! _ := run_mutation admin_admin (MAddUserAttribute "badge" AString false true false) in
        run_mutation admin_admin (MUpdateUser (mk_update_user_input "bob" None None None None None None
          (Some [mk_attribute_input "badge" ["b7"%string]])))) example_world).
Definition badge_value (w : World) : option Serialized :=
  db_user_attributes (w_db w) !! (uid_bob, attribute_name_new "badge").
Definition bob_updates (remove : option (list string)) (insert : option (list AttributeValueInput)) :=
  run_mutation bob_regular (MUpdateUser (mk_update_user_input "bob" None None None None None remove insert)) badge_world.

(** A regular user may not change an attribute that is not editable, but may
    remove it: [remove_attributes] is not checked. *)
Example own_removal_unchecked :
  is_Some (badge_value badge_world)
  /\ fst (bob_updates None (Some [mk_attribute_input "badge" ["b8"%string]]))
     = Err "Permission denied: Attribute badge is not editable by regular users"%string
  /\ fst (bob_updates (Some ["badge"%string]) None) = Ok (MutationSuccess success_new)
  /\ badge_value (snd (bob_updates (Some ["badge"%string]) None)) = None.
Proof. split; [vm_compute; eauto|]. split_and!; vm_compute; reflexivity. Qed.

Lemma reserved_refused_witness :
  is_admin admin_admin = true
  /\ reserved admin_admin (MDeleteUserAttribute "MAIL") (schema_of example_db)
  /\ refused (run_mutation admin_admin (MDeleteUserAttribute "MAIL")) example_world.
Proof.
  assert (Hr : reserved admin_admin (MDeleteUserAttribute "MAIL") (schema_of example_db)).
  { intros x. vm_compute. intros [= <-]. reflexivity. }
  split; [reflexivity|]. split; [exact Hr|].
  apply (@reserved_refused World SqlBackendHandler _ _ _ sql_backend_laws admin_admin
    (MDeleteUserAttribute "MAIL") (schema_of example_db) example_world); [vm_compute; reflexivity|exact Hr].
Defined.

Lemma admin_not_locked_out_witness :
  let w' := snd (run_mutation admin_admin (MDeleteUser "bob") example_world) in
  fst (run_mutation admin_admin (MDeleteUser "bob") example_world) = Ok (MutationSuccess success_new)
  /\ exists v, fst (get_permissions_for_user uid_admin w') = Ok v /\ vr_user v = uid_admin /\ is_admin v = true.
Proof.
  intros w'. split; [vm_compute; reflexivity|].
  apply (proj2 (admin_not_locked_out (mk_ci "lldap_admin") uid_admin example_world w' ltac:(reflexivity))).
  - split; [vm_compute; discriminate|eexists; split; [vm_compute; reflexivity|reflexivity]|].
    intros u [= <-]. split; [vm_compute; eauto|]. by apply (bool_decide_eq_true_1 (_ ∈ _)).
  - eapply rtc_l; [|apply rtc_refl]. apply step_mutation. by intros u [= <-].
Defined.
End Examples.
