(* ===== verification/StoredTypes.v ===== *)
(** * Stored values have the type of their attribute

    The value of an attribute is stored as bytes; what they are bytes of is written in
    another table, the schema.  Here: what it means that the schema tells the truth
    about the values, and that the operations of the SQL backend and the GraphQL
    mutations keep it so. *)

From S2P Require Import Prelude RustStd Extern Types Concrete Handler Deserialize LdapUtils Db ExampleDb SqlFilters SqlSchema SqlUser SqlGroup SqlBackend SqlTcp SqlOpaque SqlMachine AccessControl GraphqlQuery GraphqlMutation GraphqlSql.
From Stdlib Require Import Ascii String.
From stdpp Require Import strings list gmap.
#[local] Open Scope rust_scope.

(* ------------------------------------------------------------------ *)
(** ** Types of values *)

Section Types.
Context `{C : Crates} `{B : Bincode} {BL : BincodeLaws B}.

(** The Rust type behind an attribute's type. *)
Definition stored_type (t : AttributeType) (is_list : bool) : serde_type :=
  let t := match t with
           | AString => TyString
           | AInteger => TyI64
           | AJpegPhoto => TyJpegPhoto
           | ADateTime => TyNaiveDateTime
           end in
  if is_list then TyVec t else t.
Definition has_type (t : AttributeType) (is_list : bool) (v : Serialized) : Prop :=
  is_Some (bincode_deserialize (stored_type t is_list) (serialized_bytes v)).

Lemma serialized_typed t is_list x :
  serde_valid (stored_type t is_list) x -> has_type t is_list (serialized_from (stored_type t is_list) x).
Proof using BL. intros Hx. unfold has_type, serialized_from. cbn. by rewrite bincode_roundtrip. Qed.

(** A value of its type is read. *)
Lemma typed_prints {E} a s :
  has_type (as_attribute_type s) (as_is_list s) (av_value a) -> exists out, serialize_attribute (E := E) a s = Ok out.
Proof using Type.
  intros [x Hx]. unfold serialize_attribute, serialized_unwrap.
  destruct (as_attribute_type s), (as_is_list s); cbn in Hx; rewrite Hx; cbn; eauto.
Qed.

(** What is parsed under a type has it. *)
Lemma parsed_typed value t is_list v : deserialize_attribute_value value t is_list = Ok v -> has_type t is_list v.
Proof using BL.
  unfold deserialize_attribute_value. destruct is_list; cbn [negb andb].
  - destruct t; intros H; [injection H as <-|apply obind_ok in H as (l & Hl & [= <-])..].
    + apply (serialized_typed AString true). by apply Forall_forall.
    + apply (serialized_typed AInteger true). by apply (try_map_parse_int_valid value).
    + apply (serialized_typed AJpegPhoto true). by apply Forall_forall.
    + apply (serialized_typed ADateTime true). by apply Forall_forall.
  - destruct value as [|x []]; cbn; try done. destruct t; cbn; [intros [= <-]|intros (y & Hy & [= <-])%obind_ok..].
    + by apply (serialized_typed AString false).
    + apply (serialized_typed AInteger false). by eapply parse_int_in_i64.
    + by apply (serialized_typed AJpegPhoto false).
    + by apply (serialized_typed ADateTime false).
Qed.

(** A value that may be stored under a name: if the schema knows the name, the value has
    its type. *)
Abbreviation schema_table := (gmap AttributeName SchemaRow).
Definition row_has_type (r : SchemaRow) : Serialized -> Prop := has_type (sr_attribute_type r) (sr_is_list r).
Definition may_store (schema : schema_table) (a : AttributeName) (v : Serialized) : Prop :=
  forall r, schema !! a = Some r -> row_has_type r v.
(** And the values that are. *)
Definition values_typed `{Countable K} (schema : schema_table) (values : gmap (K * AttributeName) Serialized) : Prop :=
  map_Forall (fun k v => exists r, schema !! k.2 = Some r /\ row_has_type r v) values.

(** The attributes that the requests name, which no mutation deletes. *)
Definition core_attributes : list (string * AttributeType) :=
  [("first_name", AString); ("last_name", AString); ("avatar", AJpegPhoto)]%string.
Definition core (schema : schema_table) : Prop := forall name t, (name, t) ∈ core_attributes ->
  exists r, schema !! attribute_name_new name = Some r /\ sr_attribute_type r = t /\ sr_is_list r = false /\ sr_is_hardcoded r = true.

Lemma core_may_store schema name t v :
  core schema -> (name, t) ∈ core_attributes -> has_type t false v -> may_store schema (attribute_name_new name) v.
Proof using Type.
  intros Hc Hin Hv r Hr. destruct (Hc name t Hin) as (r' & Hr' & Ht & Hl & _). rewrite Hr in Hr'. injection Hr' as <-.
  unfold row_has_type. by rewrite Ht, Hl.
Qed.

(** Schemas that grow, and values that go. *)
Lemma values_typed_insert `{Countable K} (schema : schema_table) (values : gmap (K * AttributeName) Serialized) a r :
  schema !! a = None -> values_typed schema values -> values_typed (<[a := r]> schema) values.
Proof using Type.
  intros Ha Hv k v Hk. destruct (Hv k v Hk) as (r' & Hr' & Ht). exists r'. split; [|done].
  rewrite lookup_insert_ne; [done|]. congruence.
Qed.
Lemma values_typed_delete `{Countable K} (schema : schema_table) (values : gmap (K * AttributeName) Serialized) a :
  values_typed schema values -> values_typed (delete a schema) (filter (fun kv => kv.1.2 <> a) values).
Proof using Type.
  intros Hv k v [Hk Hne]%map_lookup_filter_Some. destruct (Hv k v Hk) as (r' & Hr' & Ht). exists r'. split; [|done].
  rewrite lookup_delete_ne; [done|]. cbn in Hne. congruence.
Qed.
Lemma values_typed_filter `{Countable K} (schema : schema_table) (values : gmap (K * AttributeName) Serialized)
    (P : (K * AttributeName) * Serialized -> Prop) `{!forall x, Decision (P x)} :
  values_typed schema values -> values_typed schema (filter P values).
Proof using Type. intros Hv k v [Hk _]%map_lookup_filter_Some. by apply Hv. Qed.
Lemma values_typed_put `{Countable K} (schema : schema_table) (values : gmap (K * AttributeName) Serialized) k a v :
  is_Some (schema !! a) -> may_store schema a v -> values_typed schema values -> values_typed schema (<[(k, a) := v]> values).
Proof using Type.
  intros [r Hr] Hm Hv. apply map_Forall_insert_2; [|done]. exists r. split; [done|]. by apply Hm.
Qed.
End Types.

(* ------------------------------------------------------------------ *)
(** ** The statements *)

Section Statements.
Context `{C : Crates} `{B : Bincode} {BL : BincodeLaws B}.
Context (us gs : gmap AttributeName SchemaRow).

(** The schema is this one, and it says what the values are. *)
Record typed_db (db : Db) : Prop := {
  typed_user_schema : db_user_attribute_schema db = us;
  typed_group_schema : db_group_attribute_schema db = gs;
  typed_users : values_typed us (db_user_attributes db);
  typed_groups : values_typed gs (db_group_attributes db);
}.
Definition typed (w : World) : Prop := typed_db (w_db w).

Lemma statement_typed {A} (f : Db -> outcome DomainError (A * Db)) :
  (forall db a db', typed_db db -> f db = Ok (a, db') -> typed_db db') -> preserves typed (statement f).
Proof using Type.
  intros Hf w Hw. unfold statement. destruct (f (w_db w)) as [[a db']|e|p] eqn:He; [|done..]. by eapply Hf.
Qed.
(** A statement on other tables. *)
Lemma other_tables_typed {A} (f : Db -> outcome DomainError (A * Db)) :
  (forall db a db', f db = Ok (a, db') ->
     db_user_attribute_schema db' = db_user_attribute_schema db /\ db_group_attribute_schema db' = db_group_attribute_schema db
     /\ db_user_attributes db' = db_user_attributes db /\ db_group_attributes db' = db_group_attributes db) ->
  preserves typed (statement f).
Proof using Type.
  intros Hf. apply statement_typed. intros db a db' [H1 H2 H3 H4] H. destruct (Hf _ _ _ H) as (E1 & E2 & E3 & E4).
  split; by rewrite ?E1, ?E2, ?E3, ?E4.
Qed.
(** One that deletes values. *)
Lemma deleting_typed {A} (f : Db -> outcome DomainError (A * Db)) :
  (forall db a db', f db = Ok (a, db') ->
     db_user_attribute_schema db' = db_user_attribute_schema db /\ db_group_attribute_schema db' = db_group_attribute_schema db
     /\ (db_user_attributes db' ⊆ db_user_attributes db) /\ (db_group_attributes db' ⊆ db_group_attributes db)) ->
  preserves typed (statement f).
Proof using Type.
  intros Hf. apply statement_typed. intros db a db' [H1 H2 H3 H4] H. destruct (Hf _ _ _ H) as (E1 & E2 & E3 & E4).
  split; [by rewrite E1|by rewrite E2|intros k v Hk; eapply H3, lookup_weaken; eassumption|intros k v Hk; eapply H4, lookup_weaken; eassumption].
Qed.

(** Inserting values that may be stored. *)
Definition rows_ok (schema : gmap AttributeName SchemaRow) (rows : list (AttributeName * Serialized)) : Prop :=
  Forall (fun row => may_store schema row.1 row.2) rows.

Lemma put_user_typed upsert u rows db db' :
  rows_ok us rows -> typed_db db -> put_user_attributes upsert u rows db = Ok db' -> typed_db db'.
Proof using Type.
  revert db. induction rows as [|[a v] rows IH]; intros db Hr Hdb H; cbn in H; [by injection H as <-|].
  apply Forall_cons in Hr as [Ha Hr]. checked H. eapply IH; [exact Hr| |exact H]. destruct Hdb as [E1 E2 E3 E4].
  split; cbn; [done..| |done]. apply values_typed_put; [by rewrite <- E1|done|done].
Qed.
Lemma put_group_typed upsert g rows db db' :
  rows_ok gs rows -> typed_db db -> put_group_attributes upsert g rows db = Ok db' -> typed_db db'.
Proof using Type.
  revert db. induction rows as [|[a v] rows IH]; intros db Hr Hdb H; cbn in H; [by injection H as <-|].
  apply Forall_cons in Hr as [Ha Hr]. checked H. eapply IH; [exact Hr| |exact H]. destruct Hdb as [E1 E2 E3 E4].
  split; cbn; [done..|]. apply values_typed_put; [by rewrite <- E2|done|done].
Qed.
Lemma insert_user_attributes_typed b u rows : rows_ok us rows -> preserves typed (insert_user_attributes b u rows).
Proof using Type.
  intros Hr. apply statement_typed. intros db a db' Hdb (x & Hx & [= <- <-])%obind_ok. by eapply put_user_typed.
Qed.
Lemma insert_group_attributes_typed b g rows : rows_ok gs rows -> preserves typed (insert_group_attributes b g rows).
Proof using Type.
  intros Hr. apply statement_typed. intros db a db' Hdb (x & Hx & [= <- <-])%obind_ok. by eapply put_group_typed.
Qed.

#[local] Ltac other := apply other_tables_typed; intros db ? db' H; cbn beta zeta in H; checked H; by injection H as <- <-.
#[local] Ltac deleting := apply deleting_typed; intros db ? db' H; cbn beta zeta in H; checked H;
  repeat match type of H with match ?x with _ => _ end = _ => destruct x; [|try done] end;
  try (injection H as <- <-); split_and!; try done; cbn; apply map_filter_subseteq.

Lemma insert_user_typed u r : preserves typed (insert_user u r).
Proof using Type. other. Qed.
Lemma insert_group_typed r : preserves typed (insert_group r).
Proof using Type. other. Qed.
Lemma insert_membership_typed u g : preserves typed (insert_membership u g).
Proof using Type. other. Qed.
Lemma insert_user_class_typed k c : preserves typed (insert_user_class k c).
Proof using Type. other. Qed.
Lemma insert_group_class_typed k c : preserves typed (insert_group_class k c).
Proof using Type. other. Qed.
Lemma delete_user_class_typed k : preserves typed (delete_user_class k).
Proof using Type. other. Qed.
Lemma delete_group_class_typed k : preserves typed (delete_group_class k).
Proof using Type. other. Qed.
Lemma insert_refresh_typed k r : preserves typed (insert_refresh k r).
Proof using Type. other. Qed.
Lemma insert_jwt_typed k r : preserves typed (insert_jwt k r).
Proof using Type. other. Qed.
Lemma insert_reset_typed k r : preserves typed (insert_reset_token k r).
Proof using Type. other. Qed.
Lemma keep_refresh_typed P `{HP : !forall x, Decision (P x)} : preserves typed (keep_refresh P).
Proof using Type. other. Qed.
Lemma keep_jwt_typed P `{HP : !forall x, Decision (P x)} : preserves typed (keep_jwt P).
Proof using Type. other. Qed.
Lemma keep_reset_typed P `{HP : !forall x, Decision (P x)} : preserves typed (keep_reset P).
Proof using Type. other. Qed.
Lemma blacklist_rows_typed u : preserves typed (blacklist_rows u).
Proof using Type. other. Qed.
Lemma update_user_row_typed b u f : preserves typed (update_user_row b u f).
Proof using Type.
  apply other_tables_typed. intros db a db' H. destruct (db_users db !! u); [|done]. checked H. by injection H as <- <-.
Qed.
Lemma update_group_row_typed b g f : preserves typed (update_group_row b g f).
Proof using Type.
  apply other_tables_typed. intros db a db' H. destruct (db_groups db !! g); [|done]. checked H. by injection H as <- <-.
Qed.
Lemma delete_membership_typed u g : preserves typed (delete_membership u g).
Proof using Type. apply other_tables_typed. intros db a db' H. cbn in H. case_decide; by injection H as <- <-. Qed.
Lemma delete_user_row_typed u : preserves typed (delete_user_row u).
Proof using Type. deleting. Qed.
Lemma delete_group_row_typed g : preserves typed (delete_group_row g).
Proof using Type. deleting. Qed.
Lemma delete_user_attributes_typed u names : preserves typed (delete_user_attributes u names).
Proof using Type. deleting. Qed.
Lemma delete_group_attributes_typed g names : preserves typed (delete_group_attributes g names).
Proof using Type. deleting. Qed.
End Statements.

(* ------------------------------------------------------------------ *)
(** ** The operations of the backend *)

Section Operations.
Context `{C : Crates} `{B : Bincode} {BL : BincodeLaws B} `{SL : SqlLib}.
Context (us gs : gmap AttributeName SchemaRow).
Abbreviation typed := (typed us gs).
Definition attributes_ok (schema : gmap AttributeName SchemaRow) (l : list AttributeValue) : Prop :=
  Forall (fun a => may_store schema (av_name a) (av_value a)) l.

Lemma preserves_bind_lift {S E A A'} (P : S -> Prop) (m : outcome E A) (f : A -> stM S E A') :
  (forall a, m = Ok a -> preserves P (f a)) -> preserves P (sbind (slift m) f).
Proof using Type. intros Hf s Hs. unfold sbind, slift. destruct m as [a|e|p]; [|done..]. by apply Hf. Qed.
Lemma schema_read_typed {A} (k : Schema -> SQL A) :
  (forall db, preserves typed (k (schema_of db))) -> preserves typed (sbind get_schema_with_transaction k).
Proof using Type. intros Hk w Hw. apply (Hk (w_db w) w Hw). Qed.

Lemma attribute_rows_ok schema l : attributes_ok schema l -> rows_ok schema (map attribute_row l).
Proof using Type. intros Hl. by apply Forall_map. Qed.

Lemma core_rows_ok name t (v : option (serde_interp (stored_type t false))) :
  core us -> (name, t) ∈ core_attributes -> (forall x, v = Some x -> serde_valid (stored_type t false) x) ->
  rows_ok us (opt_attribute name (serialized_from (stored_type t false) <$> v)).
Proof using BL.
  intros Hc Hin Hv. destruct v as [x|]; [|by constructor]. constructor; [|by constructor].
  eapply core_may_store; [done..|]. apply serialized_typed. by apply Hv.
Qed.

Lemma sql_create_user_typed request :
  core us -> attributes_ok us (cu_attributes request) -> preserves typed (sql_create_user request).
Proof using BL.
  intros Hc Ha. unfold sql_create_user. apply preserves_bind; [by intros w|]. intros now.
  apply preserves_transaction, schema_read_typed. intros db. apply preserves_bind_lift. intros rows Hrows.
  apply preserves_bind; [apply insert_user_typed|]. intros _. apply run_if_preserves, insert_user_attributes_typed.
  destruct (push_attributes_spec db (cu_attributes request)
    (opt_attribute "first_name" (serialized_from TyString <$> cu_first_name request)
     ++ opt_attribute "last_name" (serialized_from TyString <$> cu_last_name request)
     ++ opt_attribute "avatar" (serialized_from TyJpegPhoto <$> cu_avatar request))) as [[_ Hr]|[_ [e Hr]]];
    rewrite Hr in Hrows; [|done]. injection Hrows as <-. rewrite <- !(assoc_L (++)).
  repeat apply Forall_app_2; [by apply (core_rows_ok _ AString); [done|set_solver|]..| | ].
  - apply (core_rows_ok _ AJpegPhoto); [done|set_solver|done].
  - by apply attribute_rows_ok.
Qed.

Lemma updated_rows_ok request :
  core us -> attributes_ok us (uu_insert_attributes request) -> rows_ok us (updated_attributes request).
Proof using BL.
  intros Hc Ha. unfold updated_attributes. apply Forall_app_2; [|by apply attribute_rows_ok].
  assert (Hnamed : forall name t (v : option (ActiveValue Serialized)), (name, t) ∈ core_attributes ->
    (forall x, v = Some (SqlUser.Set_ x) -> has_type t false x) -> rows_ok us (named_value name v).1).
  { intros name t v Hin Hv. destruct v as [[|x]|]; [by constructor| |by constructor].
    constructor; [|by constructor]. eapply core_may_store; [done..|by apply Hv]. }
  assert (Hs : forall s x, to_serialized_value s = Some (SqlUser.Set_ x) -> has_type AString false x).
  { intros [[|c s]|] x; [done| |done]. intros [= <-]. by apply (serialized_typed AString false). }
  unfold named_values. cbn [concat fmap list_fmap]. repeat apply Forall_app_2; [..|by constructor].
  - eapply (Hnamed _ AString); [set_solver|apply Hs].
  - eapply (Hnamed _ AString); [set_solver|apply Hs].
  - eapply (Hnamed _ AJpegPhoto); [set_solver|]. intros x Hx. unfold avatar_value in Hx.
    destruct (uu_avatar request) as [p|]; cbn in Hx; [|done]. destruct (jpeg_is_empty p); [done|]. injection Hx as <-.
    by apply (serialized_typed AJpegPhoto false).
Qed.
Lemma sql_update_user_typed request :
  core us -> attributes_ok us (uu_insert_attributes request) -> preserves typed (sql_update_user request).
Proof using BL.
  intros Hc Ha. unfold sql_update_user, update_user_with_transaction. apply preserves_transaction, schema_read_typed.
  intros db. apply preserves_bind_lift. intros ch [-> _]%user_changes_run.
  apply preserves_bind; [apply update_user_row_typed|]. intros _.
  apply preserves_bind; [apply run_if_preserves, delete_user_attributes_typed|]. intros _.
  by apply run_if_preserves, insert_user_attributes_typed, updated_rows_ok.
Qed.

Lemma sql_create_group_typed request : attributes_ok gs (cg_attributes request) -> preserves typed (sql_create_group request).
Proof using Type.
  intros Ha. unfold sql_create_group. apply preserves_bind; [by intros w|]. intros now.
  apply preserves_transaction, schema_read_typed. intros db. apply preserves_bind; [apply insert_group_typed|].
  intros g. apply preserves_bind_lift. intros rows [-> _]%push_group_attributes_run.
  apply preserves_bind; [|intros _; apply preserves_ret].
  by apply run_if_preserves, insert_group_attributes_typed, attribute_rows_ok.
Qed.
Lemma sql_update_group_typed request :
  attributes_ok gs (ug_insert_attributes request) -> preserves typed (sql_update_group request).
Proof using Type.
  intros Ha. unfold sql_update_group, update_group_with_transaction.
  apply preserves_transaction, preserves_bind; [apply update_group_row_typed|]. intros _.
  apply schema_read_typed. intros db. apply preserves_bind_lift.
  intros ch (ch' & [_ ->]%process_inserts_run & [_ ->]%process_deletes_run)%obind_ok. cbn.
  apply preserves_bind; [apply run_if_preserves, delete_group_attributes_typed|]. intros _.
  by apply run_if_preserves, insert_group_attributes_typed, attribute_rows_ok.
Qed.

#[local] Hint Resolve insert_user_typed insert_group_typed insert_membership_typed insert_user_class_typed insert_group_class_typed
  delete_user_class_typed delete_group_class_typed insert_refresh_typed insert_jwt_typed insert_reset_typed
  keep_refresh_typed keep_jwt_typed keep_reset_typed blacklist_rows_typed update_user_row_typed update_group_row_typed
  delete_membership_typed delete_user_row_typed delete_group_row_typed : stm.

Lemma sql_delete_user_typed u : preserves typed (sql_delete_user u).
Proof using Type. unfold sql_delete_user. stm. Qed.
Lemma sql_delete_group_typed g : preserves typed (sql_delete_group g).
Proof using Type. unfold sql_delete_group. stm. Qed.
Lemma sql_remove_user_from_group_typed u g : preserves typed (sql_remove_user_from_group u g).
Proof using Type. unfold sql_remove_user_from_group. stm. Qed.

End Operations.

(** Some schema with the attributes that requests name tells the truth about the values. *)
Definition well_typed `{B : Bincode} (w : World) : Prop := exists us gs, core us /\ typed us gs w.

Section Schema.
Context `{C : Crates} `{B : Bincode} {BL : BincodeLaws B} `{SL : SqlLib}.

(** What keeps every schema keeps some. *)
Lemma typed_well_typed {E A} (m : stM World E A) :
  (forall us gs, core us -> preserves (typed us gs) m) -> preserves well_typed m.
Proof using Type. intros Hm w (us & gs & Hc & Hw). exists us, gs. split; [done|]. by apply Hm. Qed.

Lemma core_insert us a r : us !! a = None -> core us -> core (<[a := r]> us).
Proof using Type.
  intros Ha Hc name t Hin. destruct (Hc name t Hin) as (r' & Hr' & Ht). exists r'. split; [|done].
  rewrite lookup_insert_ne; [done|]. congruence.
Qed.
Lemma core_delete us a r : us !! a = Some r -> sr_is_hardcoded r = false -> core us -> core (delete a us).
Proof using Type.
  intros Ha Hh Hc name t Hin. destruct (Hc name t Hin) as (r' & Hr' & Ht & Hl & Hh'). exists r'. split; [|done].
  rewrite lookup_delete_ne; [done|]. congruence.
Qed.

Lemma insert_user_schema_typed a r : preserves well_typed (insert_user_schema a r).
Proof using Type.
  intros w (us & gs & Hc & Hw). unfold insert_user_schema, statement, guard_. case_decide as Ha; [|by exists us, gs]. cbn.
  destruct Hw as [H1 H2 H3 H4]. exists (<[a := r]> us), gs. rewrite H1 in Ha. split; [by apply core_insert|].
  split; cbn; [by rewrite H1|done|by apply values_typed_insert|done].
Qed.
Lemma insert_group_schema_typed a r : preserves well_typed (insert_group_schema a r).
Proof using Type.
  intros w (us & gs & Hc & Hw). unfold insert_group_schema, statement, guard_. case_decide as Ha; [|by exists us, gs]. cbn.
  destruct Hw as [H1 H2 H3 H4]. exists us, (<[a := r]> gs). rewrite H2 in Ha. split; [done|].
  split; cbn; [done|by rewrite H2|done|by apply values_typed_insert].
Qed.
Lemma delete_user_schema_typed us gs a w :
  core (delete a us) -> typed us gs w -> well_typed (snd (delete_user_schema a w)).
Proof using Type.
  intros Hc [H1 H2 H3 H4]. exists (delete a us), gs. split; [done|].
  split; cbn; [by rewrite H1|done|by apply values_typed_delete|done].
Qed.
Lemma delete_group_schema_typed a : preserves well_typed (delete_group_schema a).
Proof using Type.
  intros w (us & gs & Hc & [H1 H2 H3 H4]). exists us, (delete a gs). split; [done|].
  split; cbn; [done|by rewrite H2|done|by apply values_typed_delete].
Qed.
End Schema.

(* ------------------------------------------------------------------ *)
(** ** The schema that is looked at *)

Section PublicSchema.

Lemma find_filter {A} (f : A -> bool) l : find f l = head (filter (fun x => f x = true) l).
Proof. induction l as [|x l IH]; [done|]. rewrite filter_cons. cbn [find]. case_decide as Hx; [by rewrite Hx|]. by destruct (f x). Qed.
Lemma find_app {A} (f : A -> bool) l1 l2 : find f (l1 ++ l2) = match find f l1 with Some x => Some x | None => find f l2 end.
Proof. induction l1 as [|x l1 IH]; [done|]. cbn. by destruct (f x). Qed.

(** The lookup by name in a list sorted by name. *)
Lemma find_sorted (a : AttributeName) l :
  find (fun x => bool_decide (as_name x = a)) (sort_by attribute_leb l) = find (fun x => bool_decide (as_name x = a)) l.
Proof.
  rewrite !find_filter. unfold attribute_leb. rewrite (filter_sort_by _ (lex_leb_total _) (lex_leb_trans _)).
  rewrite sort_by_sorted_id; [done|].
  assert (H : Forall (fun x => as_name x = a) (filter (fun x => bool_decide (as_name x = a) = true) l)).
  { apply Forall_forall. by intros x [?%bool_decide_eq_true _]%list_elem_of_filter. }
  induction H as [|x l' Hx Hl IH]; constructor; [done|]. eapply Forall_impl; [exact Hl|]. cbn. intros y Hy.
  unfold lex_leb. by rewrite Hx, Hy, (proj2 (lex_compare_eq _ _) eq_refl).
Qed.

(** The attribute of the public schema: the row of the database if there is one. *)
Lemma public_user_attribute db a :
  get_attribute_schema (sc_user_attributes (get_schema (public_schema_from (schema_of db)))) a
  = match db_user_attribute_schema db !! a with
    | Some r => Some (user_attribute_schema_from (a, r))
    | None => get_attribute_schema (mk_attribute_list hardcoded_user_attributes) a
    end.
Proof.
  unfold get_attribute_schema. cbn [get_schema public_schema_from sc_user_attributes al_attributes schema_of].
  rewrite find_sorted, find_app. pose proof (user_schema_lookup db a) as H. unfold get_attribute_schema in H. cbn in H.
  rewrite H. by destruct (db_user_attribute_schema db !! a).
Qed.
Lemma public_group_attribute db a :
  get_attribute_schema (sc_group_attributes (get_schema (public_schema_from (schema_of db)))) a
  = match db_group_attribute_schema db !! a with
    | Some r => Some (group_attribute_schema_from (a, r))
    | None => get_attribute_schema (mk_attribute_list hardcoded_group_attributes) a
    end.
Proof.
  unfold get_attribute_schema. cbn [get_schema public_schema_from sc_group_attributes al_attributes schema_of].
  rewrite find_sorted, find_app. pose proof (group_schema_lookup db a) as H. unfold get_attribute_schema in H. cbn in H.
  rewrite H. by destruct (db_group_attribute_schema db !! a).
Qed.
End PublicSchema.

(* ------------------------------------------------------------------ *)
(** ** GraphQL *)

Section Graphql.
Context `{C : Crates} `{B : Bincode} {BL : BincodeLaws B} `{SL : SqlLib} `{T : ErrorTexts}.

Lemma hardcoded_is_hardcoded a x :
  get_attribute_schema (mk_attribute_list hardcoded_user_attributes) a = Some x -> as_is_hardcoded x = true.
Proof using Type.
  intros [H _]%List.find_some. cbn in H. by repeat (destruct H as [<-|H]; [done|]).
Qed.

(** Inputs are parsed under the type of the schema. *)
Lemma deserialized_ok schema rows l adm out :
  (forall a r, rows !! a = Some r -> exists s, get_attribute_schema schema a = Some s
     /\ as_attribute_type s = sr_attribute_type r /\ as_is_list s = sr_is_list r) ->
  deserialize_attributes schema l adm = Ok out -> attributes_ok rows out.
Proof using BL.
  intros Hs H. unfold deserialize_attributes in H. apply try_map_ok in H.
  induction H as [|i a inputs out Ha _ IH]; constructor; [|done]. unfold deserialize_attribute in Ha.
  apply obind_ok in Ha as (s & Hget%ok_or_ok & Ha). cbv zeta in Ha. case_match; [done|].
  apply obind_ok in Ha as (v & Hv & [= <-]). cbn. intros r Hr. destruct (Hs _ r Hr) as (s' & Hs' & Ht & Hl).
  rewrite Hget in Hs'. injection Hs' as <-. unfold row_has_type. rewrite <- Ht, <- Hl.
  destruct (deserialize_attribute_value _ _ _) as [v'|e|p] eqn:Hd; [|done..]. cbn in Hv. injection Hv as <-.
  by eapply parsed_typed.
Qed.
Lemma deserialized_user_ok us gs db l adm out :
  typed_db us gs db ->
  deserialize_attributes (sc_user_attributes (get_schema (public_schema_from (schema_of db)))) l adm = Ok out ->
  attributes_ok us out.
Proof using BL.
  intros Hdb. apply deserialized_ok. intros a r Hr. rewrite public_user_attribute, (typed_user_schema _ _ _ Hdb), Hr. by eexists.
Qed.
Lemma deserialized_group_ok us gs db l adm out :
  typed_db us gs db ->
  deserialize_attributes (sc_group_attributes (get_schema (public_schema_from (schema_of db)))) l adm = Ok out ->
  attributes_ok gs out.
Proof using BL.
  intros Hdb. apply deserialized_ok. intros a r Hr. rewrite public_group_attribute, (typed_group_schema _ _ _ Hdb), Hr. by eexists.
Qed.

(** The public schema is read, then used. *)
Lemma public_schema_typed {A} us gs (k : PublicSchema -> stM World string A) :
  (forall db, typed_db us gs db -> preserves (typed us gs) (k (public_schema_from (schema_of db)))) ->
  preserves (typed us gs) (sbind (domain (ad_get_schema admin_view)) k).
Proof using Type.
  intros Hk w Hw. rewrite (domain_schema_run k (schema_of (w_db w)) w) by done. by apply (Hk (w_db w)).
Qed.

Lemma create_user_typed v r : preserves well_typed (create_user v r).
Proof using BL.
  apply typed_well_typed. intros us gs Hc. apply admin_preserves. cbv zeta.
  apply preserves_bind; [apply preserves_lift|]. intros av. apply public_schema_typed. intros db Hdb.
  apply preserves_bind_lift. intros attributes Ha.
  apply preserves_bind; [apply domain_preserves, sql_create_user_typed; [done|by eapply deserialized_user_ok]|].
  intros _. apply preserves_bind; [apply user_details_preserves|]. intros u. apply preserves_lift.
Qed.
Lemma create_group_typed v r : preserves well_typed (create_group_with_details v r).
Proof using BL.
  apply typed_well_typed. intros us gs Hc. apply admin_preserves. apply public_schema_typed. intros db Hdb.
  apply preserves_bind_lift. intros attributes Ha.
  apply preserves_bind; [apply domain_preserves, sql_create_group_typed; by eapply deserialized_group_ok|].
  intros g. apply preserves_bind; [apply group_details_preserves|]. intros d. apply preserves_lift.
Qed.
Lemma update_user_typed v r : preserves well_typed (update_user v r).
Proof using BL.
  apply typed_well_typed. intros us gs Hc w Hw. destruct (can_write v (user_id_new (uui_id r))) eqn:Hv.
  - destruct (update_user_steps v r w Hv) as [->|(sc & ins & av & Hsc & Hins & ->)]; [done|].
    injection Hsc as <-. apply sql_update_user_typed; [done| |done]. by eapply deserialized_user_ok.
  - unfold update_user, get_writeable_handler. by rewrite Hv.
Qed.
Lemma update_group_typed v r : preserves well_typed (update_group v r).
Proof using BL.
  apply typed_well_typed. intros us gs Hc. apply admin_preserves. apply preserves_if; [apply preserves_throw|].
  apply public_schema_typed. intros db Hdb. apply preserves_bind_lift. intros attributes Ha.
  apply preserves_bind; [apply domain_preserves, sql_update_group_typed; by eapply deserialized_group_ok|].
  intros _. apply preserves_ret.
Qed.
(** Only an attribute that is not hardcoded is deleted. *)
Lemma delete_user_attribute_typed v name : preserves well_typed (delete_user_attribute v name).
Proof using Type.
  apply admin_preserves. intros w Hw. rewrite (domain_schema_run _ (schema_of (w_db w)) w) by done.
  unfold deletable. rewrite public_user_attribute. destruct Hw as (us & gs & Hc & Hw).
  rewrite (typed_user_schema _ _ _ Hw). set (a := attribute_name_new name).
  assert (Hk : forall m : stM World string Success, snd (m w) = w -> well_typed (snd (m w))) by (intros m ->; by exists us, gs).
  destruct (us !! a) as [r|] eqn:Hr.
  - cbn [ok_or obind user_attribute_schema_from as_is_hardcoded]. destruct (sr_is_hardcoded r) eqn:Hh; [by apply Hk|].
    rewrite (sbind_run _ _ w tt w) by done.
    apply (delete_user_schema_typed us gs a w); [by eapply core_delete|done].
  - destruct (get_attribute_schema _ _) as [x|] eqn:Hx; [|by apply Hk]. cbn [ok_or obind].
    rewrite (hardcoded_is_hardcoded _ _ Hx). by apply Hk.
Qed.

(** One call of the backend. *)
#[local] Ltac backend_call :=
  apply preserves_bind; [|intros; apply preserves_ret]; apply domain_preserves;
  first [apply insert_user_schema_typed|apply insert_group_schema_typed|apply delete_group_schema_typed
        |apply typed_well_typed; intros us gs _;
         first [apply insert_membership_typed|apply sql_remove_user_from_group_typed|apply sql_delete_user_typed
               |apply sql_delete_group_typed|apply insert_user_class_typed|apply insert_group_class_typed
               |apply delete_user_class_typed|apply delete_group_class_typed]].

(** Every mutation keeps the types of what is stored. *)
Lemma run_mutation_typed v m : preserves well_typed (run_mutation v m).
Proof using BL.
  destruct m; cbn [run_mutation]; (apply preserves_bind; [|intros; apply preserves_ret]);
    [apply create_user_typed|apply create_group_typed|apply create_group_typed|apply update_user_typed
    |apply update_group_typed|..|apply delete_user_attribute_typed| | | | |];
    apply admin_preserves; cbv zeta; try (apply preserves_if; [apply preserves_throw|]); try backend_call.
  apply preserves_bind; [apply schema_preserves|]. intros sc. apply preserves_bind; [apply preserves_lift|].
  intros _. backend_call.
Qed.
End Graphql.
