(* ===== verification/TypeSafety.v ===== *)
(** * The server keeps the types of what is stored

    [StoredTypes] for the LDAP messages and the requests to the login service, and so
    for every sequence of what the clients of the server do; what that means for the
    readers, which decode the values with an [unwrap]. *)

From S2P Require Import Prelude RustStd Extern Types Concrete Handler Deserialize LdapUtils Db ExampleDb SqlFilters SqlSchema SqlUser SqlGroup SqlBackend SqlTcp SqlOpaque SqlMachine AccessControl LdapHandler LdapSql AuthService AuthSession GraphqlQuery GraphqlMutation GraphqlSql StoredTypes.
From Stdlib Require Import Ascii String.
From stdpp Require Import strings list gmap.
#[local] Open Scope rust_scope.

(* ------------------------------------------------------------------ *)
(** ** LDAP *)

Section Ldap.
Context `{C : Crates} `{B : Bincode} {BL : BincodeLaws B} `{SL : SqlLib} `{OL : OpaqueLib} `{O : Orion} `{BS : !BincodeStream}
  `{CF : !OpaqueConfig} `{T : ErrorTexts} `{L3 : Ldap3}.
#[local] Existing Instance world_rng.
Context (version : string) (li : LdapInfo).

Abbreviation session_typed := (fun s : LdapSession World => well_typed (backend_state s)).
Lemma on_backend_typed {E A} (m : stM World E A) : preserves well_typed m -> preserves session_typed (on_backend m).
Proof using Type.
  intros Hm s Hs. unfold on_backend, szoom. pose proof (Hm _ Hs) as H. by destruct (m (backend_state s)).
Qed.

(** The passwords are in another table. *)
Lemma random_typed : preserves well_typed gen_random_string.
Proof using Type. by intros w. Qed.
Lemma registration_start_typed r : preserves well_typed (sql_registration_start r).
Proof using Type. unfold sql_registration_start, lift_ke. pose proof random_typed. stm. Qed.
Lemma registration_finish_typed r : preserves well_typed (sql_registration_finish r).
Proof using Type. unfold sql_registration_finish. stm. apply typed_well_typed. intros. apply update_user_row_typed. Qed.
Lemma bind_typed r : preserves well_typed (sql_bind r).
Proof using Type. intros w Hw. unfold well_typed, typed. by rewrite sql_bind_keeps_db. Qed.
Lemma user_groups_typed u : preserves well_typed (sql_get_user_groups u).
Proof using Type. intros w Hw. by rewrite sql_get_user_groups_run. Qed.
Lemma change_password_typed u p : preserves well_typed (change_password u p).
Proof using Type.
  assert (Hr : forall E, preserves well_typed (@os_rng World _ E)) by (by intros E w).
  unfold change_password. cbn [oh_registration_start oh_registration_finish SqlOpaqueHandler].
  pose proof registration_start_typed. pose proof registration_finish_typed.
  apply preserves_bind; [apply Hr|]. intros r1. apply preserves_bind; [apply preserves_lift|]. intros [st message].
  apply preserves_bind; [by apply preserves_map_err|]. intros response. apply preserves_bind; [apply Hr|]. intros r2.
  apply preserves_bind; [apply preserves_lift|]. intros upload. by apply preserves_map_err.
Qed.

Lemma do_create_user_typed r : preserves session_typed (do_create_user li r).
Proof using BL.
  unfold do_create_user, get_user_info. apply preserves_bind; [stm|]. intros info.
  apply preserves_bind_lift. intros h Hh%ok_or_ok. destruct info as [v|]; [|done].
  unfold get_admin_handler in Hh. cbn in Hh. destruct (is_admin v); [|done]. injection Hh as <-.
  apply preserves_bind; [apply preserves_lift|]. intros u. apply preserves_bind_lift. intros create Hc.
  apply preserves_bind; [|intros; apply preserves_ret]. apply preserves_map_err, on_backend_typed, typed_well_typed.
  intros us gs Hcore. apply sql_create_user_typed; [done|]. unfold create_request_of in Hc.
  repeat (apply obind_ok in Hc as (? & _ & Hc)). injection Hc as <-. by constructor.
Qed.

(** Every LDAP message keeps them, whoever is bound. *)
Lemma ldap_message_typed op : preserves session_typed (handle_ldap_message version li op).
Proof using BL.
  pose proof bind_typed. pose proof change_password_typed. pose proof do_create_user_typed. pose proof sql_backend_laws as HL.
  assert (Hs : forall r, preserves session_typed (do_search li r)).
  { intros r. apply readonly_preserves. by eapply do_search_readonly. }
  assert (Ht : forall v u, preserves session_typed (target_is_admin v u)).
  { intros v u s Hs'. by destruct (target_is_admin_run v u s) as [(? & _ & _ & ->)|[-> _]]. }
  destruct op; cbn [handle_ldap_message];
    unfold sunwrap_or_else, do_bind, get_user_info, set_user_info, do_search_or_dse, do_modify_request, handle_modify_request,
      handle_modify_change, do_extended_request, do_password_modification, do_compare; stm.
  - apply on_backend_typed, preserves_try, bind_typed.
  - apply on_backend_typed, preserves_try. unfold get_permissions_for_user. apply preserves_bind; [|intros; apply preserves_ret].
    apply user_groups_typed.
  - by apply preserves_modify.
  - by apply preserves_modify.
  - by apply on_backend_typed.
  - by apply on_backend_typed.
Qed.
End Ldap.

(* ------------------------------------------------------------------ *)
(** ** HTTP *)

Section Http.
Context `{C : Crates} `{B : Bincode} {BL : BincodeLaws B} `{SL : SqlLib} `{OL : OpaqueLib} `{O : Orion} `{BS : !BincodeStream}
  `{CF : !OpaqueConfig} `{T : ErrorTexts} `{SH : StdHash} `{J : Jwt} `{ML : !Mailer World}.
#[local] Existing Instance world_clock.
Context (url_path : string).
Context (mail_keeps_db : forall a b c w, w_db (snd (send_password_reset_email a b c w)) = w_db w).

Abbreviation app_typed := (fun s : AppState World => well_typed (app_backend s)).
Lemma in_backend_typed {E A} (m : stM World E A) : preserves well_typed m -> preserves app_typed (in_backend m).
Proof using Type. intros Hm s Hs. rewrite in_backend_run. by apply Hm. Qed.
Lemma call_typed {A} (m : SQL A) : preserves well_typed m -> preserves app_typed (call m).
Proof using Type. intros Hm. by apply preserves_map_err, in_backend_typed. Qed.
Lemma same_db_typed {E A} (m : stM World E A) : (forall w, w_db (snd (m w)) = w_db w) -> preserves well_typed m.
Proof using Type. intros Hm w Hw. unfold well_typed, typed. by rewrite Hm. Qed.

#[local] Ltac backend := apply typed_well_typed; intros us gs _;
  first [apply insert_refresh_typed|apply insert_jwt_typed|apply insert_reset_typed|apply keep_refresh_typed
        |apply keep_jwt_typed|apply keep_reset_typed|apply blacklist_rows_typed].
Lemma create_refresh_typed u : preserves well_typed (sql_create_refresh_token u).
Proof using Type. unfold sql_create_refresh_token. pose proof random_typed. stm. backend. Qed.
Lemma start_reset_typed u : preserves well_typed (sql_start_password_reset u).
Proof using Type. unfold sql_start_password_reset. pose proof random_typed. stm. backend. Qed.
Lemma create_jwt_typed {E} u groups : preserves well_typed (create_jwt (E := E) u groups).
Proof using Type. unfold create_jwt, tcp_register_jwt, sql_register_jwt. stm; try backend; by intros w. Qed.
Lemma blacklist_jwts_typed u : preserves well_typed (sql_blacklist_jwts u).
Proof using Type. unfold sql_blacklist_jwts. stm. backend. Qed.
Lemma delete_reset_typed t : preserves well_typed (sql_delete_password_reset_token t).
Proof using Type. unfold sql_delete_password_reset_token. stm; backend. Qed.
Lemma login_start_typed r : preserves well_typed (sql_login_start r).
Proof using Type. unfold sql_login_start, get_password_file_for_user, lift_ke. pose proof random_typed. stm. Qed.
Lemma login_finish_typed r : preserves well_typed (sql_login_finish r).
Proof using Type. unfold sql_login_finish, lift_ke. stm. Qed.
Lemma login_response_typed u : preserves app_typed (get_login_successful_response url_path u).
Proof using Type.
  unfold get_login_successful_response. apply preserves_bind; [apply call_typed, user_groups_typed|]. intros groups.
  apply preserves_bind; [apply call_typed, create_refresh_typed|]. intros [refresh d].
  apply preserves_bind; [apply in_backend_typed, create_jwt_typed|]. stm.
Qed.

Lemma register_start_typed b p : preserves app_typed (opaque_register_start b p).
Proof using Type.
  intros s Hs. unfold well_typed, typed. destruct (register_start_authorized b p s) as [_ H]. by rewrite H.
Qed.

Lemma logout_typed c h : preserves app_typed (get_logout url_path c h).
Proof using Type.
  unfold get_logout. apply preserves_bind; [apply preserves_lift|]. intros [hash u].
  apply preserves_bind; [apply call_typed; backend|]. intros _.
  apply preserves_bind; [apply call_typed, blacklist_jwts_typed|].
  intros hashes. apply preserves_bind; [by apply preserves_modify|]. stm.
Qed.
Lemma refresh_typed c h : preserves app_typed (get_refresh url_path c h).
Proof using Type.
  unfold get_refresh. apply preserves_bind; [apply preserves_lift|]. intros [hash u].
  apply preserves_bind; [by apply call_typed, same_db_typed|]. intros found. apply preserves_if; [apply preserves_throw|].
  apply preserves_bind; [apply call_typed, user_groups_typed|]. intros groups.
  apply preserves_bind; [apply in_backend_typed, create_jwt_typed|]. stm.
Qed.
Lemma reset_step1_typed u : preserves app_typed (get_password_reset_step1 u).
Proof using mail_keeps_db.
  unfold get_password_reset_step1. apply preserves_bind; [apply preserves_lift|]. intros us.
  apply preserves_bind; [apply call_typed, same_db_typed; intros w; by rewrite bh_readonly_list_users|].
  intros [|x [|]]; [apply preserves_ret| |apply preserves_throw].
  apply preserves_bind; [apply call_typed, start_reset_typed|]. intros [token|]; [|apply preserves_ret].
  apply preserves_bind; [|stm]. apply in_backend_typed, preserves_try, same_db_typed. intros w. by rewrite mail_keeps_db.
Qed.
Lemma reset_step2_typed t : preserves app_typed (get_password_reset_step2 url_path t).
Proof using Type.
  unfold get_password_reset_step2. apply preserves_bind; [apply preserves_lift|]. intros token.
  apply preserves_bind.
  { apply preserves_map_err, in_backend_typed, same_db_typed. intros w. cbn.
    unfold sql_get_user_id_for_password_reset_token, sbind, utc_now, query, slift. by destruct (ok_or _ _). }
  intros u. apply preserves_bind.
  { apply in_backend_typed, preserves_try, delete_reset_typed. }
  intros _. apply preserves_bind; [apply in_backend_typed, create_jwt_typed|]. stm.
Qed.

(** Every request to the login service keeps them. *)
Lemma auth_request_typed enable r : preserves app_typed (handle_auth_request url_path enable r).
Proof using mail_keeps_db.
  destruct r; cbn [handle_auth_request]; try (apply preserves_if; [|apply preserves_ret]); apply answer_preserves.
  - apply preserves_bind; [apply call_typed, bind_typed|]. intros _. apply login_response_typed.
  - apply call_typed, login_start_typed.
  - apply preserves_bind; [apply call_typed, login_finish_typed|]. intros u. apply login_response_typed.
  - apply preserves_bind; [apply call_typed, bind_typed|]. intros _. apply login_response_typed.
  - apply refresh_typed.
  - apply logout_typed.
  - apply register_start_typed.
  - apply preserves_bind; [apply call_typed, registration_finish_typed|]. stm.
  - apply reset_step1_typed.
  - apply reset_step2_typed.
Qed.
End Http.

(* ------------------------------------------------------------------ *)
(** ** Reading *)

Section Reading.
Context `{C : Crates} `{B : Bincode} {BL : BincodeLaws B} `{SL : SqlLib} `{T : ErrorTexts} `{UE : UrlEncoding}.

(** The field [value] of every attribute of an object has an answer. *)
Definition printable (l : list GqlAttributeValue) : Prop := Forall (fun a => exists out, attribute_value (E := string) a = Ok out) l.
(** The values of a list are of the types in a table. *)
Definition list_typed (rows : gmap AttributeName SchemaRow) (l : list AttributeValue) : Prop :=
  Forall (fun a => exists r, rows !! av_name a = Some r /\ row_has_type r (av_value a)) l.
(** A schema gives the attributes of a table their types. *)
Definition agrees (schema : AttributeList) (rows : gmap AttributeName SchemaRow) : Prop :=
  forall a x r, get_attribute_schema schema a = Some x -> rows !! a = Some r ->
    as_attribute_type x = sr_attribute_type r /\ as_is_list x = sr_is_list r.

Lemma typed_printable schema rows l out :
  agrees schema rows -> list_typed rows l -> try_map (fun a => from_schema a schema) l = Ok out -> printable out.
Proof using Type.
  intros Ha Hl H%try_map_ok. induction H as [|a x l out Hx _ IH]; [by constructor|].
  apply Forall_cons in Hl as [(r & Hr & Ht) Hl]. constructor; [|by apply IH].
  unfold from_schema in Hx. destruct (get_attribute_schema schema (av_name a)) as [s|] eqn:Hs; [|done]. injection Hx as <-.
  destruct (Ha _ _ _ Hs Hr) as [H1 H2]. apply typed_prints. cbn. by rewrite H1, H2.
Qed.

(** The values under one key of a table. *)
Lemma rows_typed `{Countable K} (rows : gmap AttributeName SchemaRow) (values : gmap (K * AttributeName) Serialized) (k : K)
    (order : list ((K * AttributeName) * Serialized)) :
  values_typed rows values -> (forall m, m ∈ order -> values !! m.1 = Some m.2) ->
  list_typed rows (map attribute_value_from_model order).
Proof using Type.
  intros Hv Ho. apply Forall_map, Forall_forall. intros [[k' a] v] Hin. apply (Hv (k', a) v). by apply (Ho _ Hin).
Qed.
Lemma attributes_of_typed us gs db u : typed_db us gs db -> list_typed us (attributes_of db u).
Proof using Type.
  intros Hdb. eapply (rows_typed us (db_user_attributes db) u); [apply Hdb|]. intros [k v] Hin.
  apply elem_of_order_by, map_lookup_filter_Some in Hin. cbn. tauto.
Qed.
Lemma group_attributes_of_typed us gs db g : typed_db us gs db -> list_typed gs (group_attributes_of db g).
Proof using Type.
  intros Hdb. eapply (rows_typed gs (db_group_attributes db) g); [apply Hdb|]. intros [k v] Hin.
  apply elem_of_order_by, map_lookup_filter_Some in Hin. cbn. tauto.
Qed.

(** The whole schema agrees with the tables. *)
Lemma public_agrees us gs db :
  typed_db us gs db ->
  agrees (sc_user_attributes (get_schema (public_schema_from (schema_of db)))) us
  /\ agrees (sc_group_attributes (get_schema (public_schema_from (schema_of db)))) gs.
Proof using Type.
  intros [H1 H2 _ _]. split; intros a x r.
  - rewrite public_user_attribute, H1. intros Hx Hr. rewrite Hr in Hx. by injection Hx as <-.
  - rewrite public_group_attribute, H2. intros Hx Hr. rewrite Hr in Hx. by injection Hx as <-.
Qed.

(** What a viewer sees of the schema; an attribute that is hidden from some viewers must
    not have the name of a field that every user has. *)
Definition seen_schema (v : ValidationResults) (db : Db) : Schema :=
  match get_user_restricted_lister_handler v with
  | None => schema_of db
  | Some _ =>
      let visible l := mk_attribute_list (List.filter as_is_visible (al_attributes l)) in
      mk_schema (visible (sc_user_attributes (schema_of db))) (visible (sc_group_attributes (schema_of db)))
        (sc_extra_user_object_classes (schema_of db)) (sc_extra_group_object_classes (schema_of db))
  end.
Definition not_shadowed (db : Db) : Prop := forall a r,
  db_user_attribute_schema db !! a = Some r -> sr_is_visible r = false ->
  get_attribute_schema (mk_attribute_list hardcoded_user_attributes) a = None.

Lemma query_get_schema_run v w : query_get_schema v w = (Ok (public_schema_from (seen_schema v (w_db w))), w).
Proof using Type. unfold query_get_schema, seen_schema. by destruct (get_user_restricted_lister_handler v). Qed.

Lemma seen_agrees us gs db v :
  typed_db us gs db -> can_read_all v = true \/ not_shadowed db ->
  agrees (sc_user_attributes (get_schema (public_schema_from (seen_schema v db)))) us.
Proof using Type.
  intros Hdb Hv. destruct (public_agrees us gs db Hdb) as [Hall _]. destruct (can_read_all v) eqn:Hr.
  { unfold seen_schema, get_user_restricted_lister_handler. by rewrite Hr. }
  destruct Hv as [|Hs]; [done|]. unfold seen_schema, get_user_restricted_lister_handler. rewrite Hr. intros a x r Hx Hrow.
  unfold get_attribute_schema in Hx. cbn [get_schema public_schema_from sc_user_attributes al_attributes] in Hx.
  rewrite find_sorted, find_app in Hx.
  assert (Hin : user_attribute_schema_from (a, r) ∈ al_attributes (sc_user_attributes (schema_of db))).
  { apply list_elem_of_fmap. exists (a, r). split; [done|]. apply elem_of_order_by. by rewrite (typed_user_schema _ _ _ Hdb). }
  destruct (find _ (List.filter _ _)) as [y|] eqn:Hy.
  - injection Hx as <-. apply List.find_some in Hy as [[Hy _]%List.filter_In Ha%bool_decide_eq_true].
    apply list_elem_of_In, list_elem_of_fmap in Hy as ([a' r'] & -> & Hy%elem_of_order_by). cbn in Ha. subst a'.
    rewrite (typed_user_schema _ _ _ Hdb), Hrow in Hy. by injection Hy as <-.
  - destruct (sr_is_visible r) eqn:Hvis.
    + pose proof (List.find_none _ _ Hy (user_attribute_schema_from (a, r))) as Hn. cbn in Hn.
      rewrite bool_decide_eq_true_2 in Hn by done. discriminate Hn. apply List.filter_In. split; [|done].
      by apply list_elem_of_In.
    + rewrite <- (typed_user_schema _ _ _ Hdb) in Hrow. specialize (Hs a r Hrow Hvis).
      unfold get_attribute_schema in Hs. cbn [al_attributes] in Hs. congruence.
Qed.

Lemma from_user_printable sc us u out :
  agrees (sc_user_attributes (get_schema sc)) us -> list_typed us (user_attributes u) -> from_user u sc = Ok out ->
  printable (gu_attributes out).
Proof using Type. intros Ha Hl (l & Hl' & [= <-])%obind_ok. by eapply typed_printable. Qed.

Lemma query_user_prints us gs v id w u w' :
  typed us gs w -> can_read_all v = true \/ not_shadowed (w_db w) -> query_user v id w = (Ok u, w') -> printable (gu_attributes u).
Proof using Type.
  intros Hw Hv H. unfold query_user in H. apply sbind_ok in H as (i & w1 & [_ ->]%slift_ok & H). cbv zeta in H.
  apply sbind_ok in H as (h & w2 & [Hh%ok_or_ok ->]%slift_ok & H). rewrite (sbind_run _ _ _ _ _ (query_get_schema_run v w)) in H.
  apply sbind_ok in H as (d & w3 & Hd & [Hu ->]%slift_ok).
  assert (h = readable_view) as -> by (unfold get_readable_handler in Hh; destruct (can_read v _); [by injection Hh as <-|done]).
  unfold domain in Hd. apply smap_err_ok in Hd. cbn [rd_get_user_details readable_view] in Hd.
  change (bh_get_user_details ?x w) with (sql_get_user_details x w) in Hd. rewrite sql_get_user_details_run in Hd.
  destruct (db_users (w_db w) !! _) as [row|]; [|done]. injection Hd as <- <-.
  refine (from_user_printable _ us _ _ _ _ Hu); [by eapply (seen_agrees us gs)|by eapply (attributes_of_typed us gs)].
Qed.

(** The lists, which only those who see everything are given. *)
Lemma list_users_typed us gs f b w l w' :
  typed us gs w -> sql_list_users f b w = (Ok l, w') ->
  Forall (fun x => list_typed us (user_attributes (uag_user x))
    /\ Forall (fun g => gd_attributes g = []) (default [] (uag_groups x))) l.
Proof using Type.
  intros Hw H. assert (exists c, l = map (full_user_and_groups (w_db w)) (select_users c (w_db w))) as [c ->].
  { destruct f as [f|].
    - destruct (get_user_filter_expr (E := DomainError) f) as [c|e|p] eqn:Hc; [|unfold sql_list_users, sbind, slift in H; by rewrite Hc in H..].
      rewrite (sql_list_users_run f b w c Hc) in H. injection H as <- _. by exists c.
    - unfold sql_list_users, sbind, sret, query in H. rewrite populate_attributes_spec in H. injection H as <- _. by exists (CValue true). }
  apply Forall_map, Forall_forall. intros [u r] _. split; [by eapply attributes_of_typed|].
  cbn. apply Forall_map, Forall_forall. by intros [g gr] _.
Qed.

Definition group_printable (g : GqlGroup) : Prop := printable (gg_attributes g).
Definition user_printable (u : GqlUser) : Prop := printable (gu_attributes u) /\ Forall group_printable (default [] (gu_groups u)).

Lemma query_users_print us gs v f w l w' : typed us gs w -> query_users v f w = (Ok l, w') -> Forall user_printable l.
Proof using Type.
  intros Hw H. unfold query_users in H. apply sbind_ok in H as (h & w1 & [Hh%ok_or_ok ->]%slift_ok & H).
  assert (Hall : can_read_all v = true) by (unfold get_readonly_handler in Hh; by destruct (can_read_all v)).
  assert (h = readonly_view) as -> by (unfold get_readonly_handler in Hh; rewrite Hall in Hh; by injection Hh as <-).
  rewrite (sbind_run _ _ _ _ _ (query_get_schema_run v w)) in H.
  apply sbind_ok in H as (fs & w2 & [_ ->]%slift_ok & H). apply sbind_ok in H as (us' & w3 & Hl & [Hm ->]%slift_ok).
  unfold domain in Hl. apply smap_err_ok in Hl. apply (list_users_typed us gs fs false w us' w3 Hw) in Hl.
  apply try_map_ok in Hm. induction Hm as [|x u us' l Hx _ IH]; [by constructor|].
  apply Forall_cons in Hl as [[Hu Hg] Hl]. constructor; [|by apply IH]. unfold from_user_and_groups in Hx.
  apply obind_ok in Hx as (gu & Hgu & Hx).
  assert (Hp : printable (gu_attributes gu)) by (refine (from_user_printable _ us _ _ _ Hu Hgu); eapply (seen_agrees us gs); eauto).
  destruct (uag_groups x) as [groups|]; [|injection Hx as <-; split; [done|]].
  - apply obind_ok in Hx as (ggs & Hggs%try_map_ok & [= <-]). split; [done|]. cbn. cbn in Hg.
    induction Hggs as [|g gg groups ggs Hgg _ IHg]; [by constructor|]. apply Forall_cons in Hg as [Hg Hgs].
    constructor; [|by apply IHg]. unfold from_group_details in Hgg. rewrite Hg in Hgg. injection Hgg as <-. by constructor.
  - unfold from_user in Hgu. apply obind_ok in Hgu as (? & _ & [= <-]). by constructor.
Qed.

Lemma seen_group_agrees us gs db v :
  typed_db us gs db -> can_read_all v = true ->
  agrees (sc_group_attributes (get_schema (public_schema_from (seen_schema v db)))) gs.
Proof using Type.
  intros Hdb Hall. unfold seen_schema, get_user_restricted_lister_handler. rewrite Hall. by destruct (public_agrees us gs db Hdb).
Qed.
Lemma query_groups_print us gs v w l w' : typed us gs w -> query_groups v w = (Ok l, w') -> Forall group_printable l.
Proof using Type.
  intros Hw H. unfold query_groups in H. apply sbind_ok in H as (h & w1 & [Hh%ok_or_ok ->]%slift_ok & H).
  assert (Hall : can_read_all v = true) by (unfold get_readonly_handler in Hh; by destruct (can_read_all v)).
  assert (h = readonly_view) as -> by (unfold get_readonly_handler in Hh; rewrite Hall in Hh; by injection Hh as <-).
  rewrite (sbind_run _ _ _ _ _ (query_get_schema_run v w)) in H.
  apply sbind_ok in H as (groups & w2 & Hl & [Hm ->]%slift_ok). unfold domain in Hl. apply smap_err_ok in Hl.
  change (ro_list_groups readonly_view None w) with (sql_list_groups None w) in Hl.
  assert (Hg : forall g, g ∈ groups -> list_typed gs (group_attributes g)).
  { intros g Hg. assert (Hf : fst (sql_list_groups None w) = Ok groups) by (by rewrite Hl).
    apply (elem_of_list_groups None w groups g Hf) in Hg as (i & r & _ & -> & _). cbn. by eapply (group_attributes_of_typed us gs). }
  apply try_map_ok in Hm. clear Hl. induction Hm as [|g gg groups l Hgg _ IH]; [by constructor|].
  constructor; [|apply IH; intros; apply Hg; by right]. unfold from_group in Hgg.
  apply obind_ok in Hgg as (attrs & Hattrs & [= <-]). unfold group_printable. cbn.
  refine (typed_printable _ gs _ _ _ _ Hattrs); [by eapply (seen_group_agrees us gs)|apply Hg; by left].
Qed.
Lemma query_group_prints us gs v i w g w' : typed us gs w -> query_group v i w = (Ok g, w') -> group_printable g.
Proof using Type.
  intros Hw H. unfold query_group in H. apply sbind_ok in H as (h & w1 & [Hh%ok_or_ok ->]%slift_ok & H).
  assert (Hall : can_read_all v = true) by (unfold get_readonly_handler in Hh; by destruct (can_read_all v)).
  assert (h = readonly_view) as -> by (unfold get_readonly_handler in Hh; rewrite Hall in Hh; by injection Hh as <-).
  rewrite (sbind_run _ _ _ _ _ (query_get_schema_run v w)) in H.
  apply sbind_ok in H as (d & w2 & Hd & [Hg ->]%slift_ok). unfold domain in Hd. apply smap_err_ok in Hd.
  change (ro_get_group_details readonly_view i w) with (sql_get_group_details i w) in Hd. rewrite sql_get_group_details_run in Hd.
  destruct (db_groups (w_db w) !! i) as [r|]; [|done]. injection Hd as <- <-. unfold from_group_details in Hg.
  apply obind_ok in Hg as (attrs & Hattrs & [= <-]). unfold group_printable. cbn.
  refine (typed_printable _ gs _ _ _ _ Hattrs); [by eapply (seen_group_agrees us gs)|by eapply (group_attributes_of_typed us gs)].
Qed.
End Reading.

(* ------------------------------------------------------------------ *)
(** ** The server *)

Section Server.
Context `{C : Crates} `{B : Bincode} {BL : BincodeLaws B} `{SL : SqlLib} `{OL : OpaqueLib} `{O : Orion} `{BS : !BincodeStream}
  `{CF : !OpaqueConfig} `{T : ErrorTexts} `{L3 : Ldap3} `{SH : StdHash} `{J : Jwt} `{ML : !Mailer World} `{UE : UrlEncoding}.
#[local] Existing Instance world_clock.
#[local] Existing Instance world_rng.
Context (url_path version : string) (li : LdapInfo) (enable_password_reset : bool).
Context (mail_keeps_db : forall a b c w, w_db (snd (send_password_reset_email a b c w)) = w_db w).

(** What the clients of the server do to its database: mutations and LDAP messages of
    anyone, requests to the login service, and the clean-up. *)
Inductive server_step : World -> World -> Prop :=
| by_graphql v m w : server_step w (snd (run_mutation v m w))
| by_ldap user op w : server_step w (backend_state (snd (handle_ldap_message version li op (mk_session user w))))
| by_http blacklist r w : server_step w (app_backend (snd (handle_auth_request url_path enable_password_reset r (mk_app w blacklist))))
| by_cleanup w : server_step w (snd (cleanup_db w))
| by_time t w : server_step w (at_time t w).

Lemma server_step_typed w w' : server_step w w' -> well_typed w -> well_typed w'.
Proof using BL mail_keeps_db.
  intros [v m w1|user op w1|bl r w1|w1|t w1] Hw.
  - by apply run_mutation_typed.
  - by apply (ldap_message_typed version li op (mk_session user w1)).
  - by apply (auth_request_typed url_path mail_keeps_db enable_password_reset r (mk_app w1 bl)).
  - rewrite cleanup_db_run. destruct Hw as (us & gs & Hc & [H1 H2 H3 H4]). exists us, gs. split; [done|by split].
  - destruct Hw as (us & gs & Hc & [H1 H2 H3 H4]). exists us, gs. split; [done|by split].
Qed.

(** C5. Every stored value has the type of its attribute, and is read as such.  From a
    database in which the schema tells the truth about the values and has the first
    name, the last name and the avatar as they are created, any number of GraphQL
    mutations, LDAP messages and requests to the login service, by anyone, and of
    clean-ups leads to one where every value of a user or of a group decodes at the type
    that the schema has for its attribute.  In such a database no value makes the
    [unwrap] of a GraphQL answer panic, as long as no attribute that is hidden from
    regular users has the name of a field that every user has. *)
Theorem stored_values_typed w w' :
  well_typed w -> rtc server_step w w' ->
  (forall u a v, db_user_attributes (w_db w') !! (u, a) = Some v ->
     exists r, db_user_attribute_schema (w_db w') !! a = Some r /\ has_type (sr_attribute_type r) (sr_is_list r) v)
  /\ (forall g a v, db_group_attributes (w_db w') !! (g, a) = Some v ->
     exists r, db_group_attribute_schema (w_db w') !! a = Some r /\ has_type (sr_attribute_type r) (sr_is_list r) v)
  /\ forall v,
       (forall id u w'', can_read_all v = true \/ not_shadowed (w_db w') ->
          query_user v id w' = (Ok u, w'') -> printable (gu_attributes u))
       /\ (forall f l w'', query_users v f w' = (Ok l, w'') -> Forall user_printable l)
       /\ (forall l w'', query_groups v w' = (Ok l, w'') -> Forall group_printable l)
       /\ (forall i g w'', query_group v i w' = (Ok g, w'') -> group_printable g).
Proof using BL mail_keeps_db.
  intros Hw Hs. assert (Hw' : well_typed w').
  { clear - Hw Hs BL mail_keeps_db. induction Hs as [|w1 w2 w3 H _ IH]; [done|]. by eapply IH, server_step_typed. }
  destruct Hw' as (us & gs & _ & Ht). split_and!.
  - intros u a v Hv. rewrite (typed_user_schema _ _ _ Ht). by apply (typed_users _ _ _ Ht (u, a)).
  - intros g a v Hv. rewrite (typed_group_schema _ _ _ Ht). by apply (typed_groups _ _ _ Ht (g, a)).
  - intros v. split_and!; intros; [by eapply query_user_prints|by eapply query_users_print|by eapply query_groups_print
      |by eapply query_group_prints].
Qed.
End Server.

(* ------------------------------------------------------------------ *)
(** ** Examples *)

Section Examples.
#[local] Existing Instances concrete_crates concrete_bincode concrete_sql concrete_hash toy_opaque toy_orion toy_stream toy_config
  toy_texts toy_jwt toy_mailer toy_ldap3 plain_url world_clock world_rng concrete_bincode_laws.

Lemma example_well_typed : well_typed example_world.
Proof.
  exists (db_user_attribute_schema example_db), (db_group_attribute_schema example_db). split.
  - intros name t Hin. unfold core_attributes in Hin.
    repeat (apply elem_of_cons in Hin as [[= -> ->]|Hin]; [eexists; split; [vm_compute; reflexivity|done]|]). by apply not_elem_of_nil in Hin.
  - split; [done..| |].
    + assert (H : db_user_attributes (w_db example_world)
        = {[(uid_bob, attribute_name_new "first_name") := serialized_from TyString "Bob"%string]}) by (vm_compute; reflexivity).
      rewrite H. intros k v [<- <-]%lookup_singleton_Some. eexists. split; [vm_compute; reflexivity|].
      by apply (serialized_typed AString false).
    + assert (H : db_group_attributes (w_db example_world) = ∅) by (vm_compute; reflexivity). rewrite H. apply map_Forall_empty.
Qed.

(** An attribute of a given visibility, and its value for bob. *)
Definition number_world (name : string) (visible : bool) : World :=
  snd (run_mutation admin_admin (MUpdateUser (mk_update_user_input "bob" None None None None None None
         (Some [mk_attribute_input name ["12"%string]])))
    (snd (run_mutation admin_admin (MAddUserAttribute name AInteger false visible false) example_world))).
Definition number_steps name visible :
  rtc (server_step "" "" (mk_ldap_info [] "" [] []) true) example_world (number_world name visible) :=
  rtc_l _ _ _ _ (by_graphql _ _ _ _ admin_admin _ _) (rtc_once _ _ (by_graphql _ _ _ _ admin_admin _ _)).

Lemma stored_values_typed_witness :
  exists v u, db_user_attributes (w_db (number_world "age" true)) !! (uid_bob, attribute_name_new "age") = Some v
    /\ has_type AInteger false v
    /\ fst (query_user admin_admin "bob" (number_world "age" true)) = Ok u /\ printable (gu_attributes u)
    /\ length (gu_attributes u) = 2.
Proof.
  destruct (stored_values_typed "" "" (mk_ldap_info [] "" [] []) true toy_mail_keeps_db example_world (number_world "age" true)
    example_well_typed (number_steps "age" true)) as (Hu & _ & Hv).
  destruct (Hu uid_bob (attribute_name_new "age") (serialized_from TyI64 12%Z)) as (r & Hr & Ht); [vm_compute; reflexivity|].
  assert (r = mk_schema_row AInteger false true false false) as ->.
  { assert (Hr' : Some r = Some (mk_schema_row AInteger false true false false)) by (rewrite <- Hr; vm_compute; reflexivity). congruence. }
  destruct (query_user admin_admin "bob" (number_world "age" true)) as [[u|e|p] w''] eqn:Hq;
    [|exfalso; vm_compute in Hq; discriminate Hq..].
  exists (serialized_from TyI64 12%Z), u. split; [vm_compute; reflexivity|]. split; [exact Ht|]. split; [done|].
  split; [by eapply (proj1 (Hv admin_admin)); [left; reflexivity|exact Hq]|]. vm_compute in Hq. by injection Hq as <- <-.
Defined.

(** An attribute that is hidden from regular users, named as the field for the address
    that everyone has: for bob, the bytes of the number are taken for a text (the
    encoding of the example reads some text from them; bincode refuses those that are
    too short, and [unwrap] panics). *)
Example shadowed_attribute_misread :
  exists u u', fst (query_user admin_admin "bob" (number_world "mail" false)) = Ok u
    /\ fst (query_user bob_regular "bob" (number_world "mail" false)) = Ok u'
    /\ map (fun a => attribute_value (E := string) a) (gu_attributes u) = [Ok ["Bob"%string]; Ok ["12"%string]]
    /\ map (fun a => attribute_value (E := string) a) (gu_attributes u') = [Ok ["Bob"%string]; Ok [""%string]].
Proof. do 2 eexists. split_and!; vm_compute; reflexivity. Qed.
End Examples.
