(* ===== verification/HttpServer.v ===== *)
(** * The HTTP server: routes, extraction, the GraphQL endpoint

    Models the routing and the pages of [server/src/infra/tcp_server.rs], the routes
    and the middleware of [server/src/infra/auth_service.rs] and the endpoint of
    [server/src/infra/graphql/api.rs]: what a raw request leads to.  The request is
    what actix has read of it; the decoders of bodies and headers are parameters.
    The GraphQL engine is a parameter too, but what it can do is not: a request is
    planned as a tree of calls of the resolvers, and the server runs the tree. *)

From S2P Require Import Prelude RustStd Extern Types Concrete Handler Deserialize Db ExampleDb SqlFilters SqlSchema SqlUser SqlGroup SqlBackend SqlTcp SqlOpaque AccessControl LdapHandler LdapSql AuthService GraphqlQuery GraphqlMutation.
From Stdlib Require Import Ascii String.
From stdpp Require Import strings list gmap.
#[local] Open Scope rust_scope.
#[local] Open Scope string_scope.

(* ------------------------------------------------------------------ *)
(** ** Requests and answers *)

Inductive Method := GET | POST | OtherMethod (name : string).

(** The segments of the path; a header is [None] when it is missing, and the refresh
    token's text is when it is not visible ASCII. *)
Record HttpRequest := mk_http_request {
  rq_method : Method;
  rq_path : list string;
  rq_query_string : string;
  rq_authorization : option string;
  rq_refresh_token : option (option string);
  rq_content_type : string;
  rq_cookies : list (string * string);
  rq_payload : string;
}.

(** [req.cookie(name)] *)
Definition request_cookie (name : string) (req : HttpRequest) : option string :=
  snd <$> List.find (fun c => String.eqb (fst c) name) (rq_cookies req).

(** [headers_mut().insert(AUTHORIZATION, value)] *)
Definition set_authorization (value : string) (req : HttpRequest) : HttpRequest :=
  mk_http_request (rq_method req) (rq_path req) (rq_query_string req) (Some value) (rq_refresh_token req)
    (rq_content_type req) (rq_cookies req) (rq_payload req).

(** What is sent back: an answer of the login service, a text, a file of the page, or
    an error. *)
Inductive HttpAnswer `{OpaqueLib} :=
| AuthAnswered (a : AuthAnswer)
| Answered (status : Z) (content_type body : string)
| FileAnswer (file : string)
| Failed (r : HttpResponse).
Arguments AuthAnswered {_} _.
Arguments Answered {_} _ _ _.
Arguments FileAnswer {_} _.
Arguments Failed {_} _.
Definition http_status `{OpaqueLib} (a : HttpAnswer) : option Z :=
  match a with
  | AuthAnswered (Response r) | Failed r => Some (hr_status r)
  | AuthAnswered _ => Some 200%Z
  | Answered status _ _ => Some status
  | FileAnswer _ => None
  end.

(** [s.replace(pat, to)] for a pattern that is not empty: from left to right, without
    overlaps; [skip] characters belong to an occurrence that was replaced. *)
Fixpoint replace_from (pat to : string) (skip : nat) (s : string) : string :=
  match skip, s with
  | _, EmptyString => EmptyString
  | S skip, String _ rest => replace_from pat to skip rest
  | O, String c rest =>
      if String.prefix pat s then to +:+ replace_from pat to (String.length pat - 1) rest
      else String c (replace_from pat to 0 rest)
  end.
Definition replace_text (pat to s : string) : string := replace_from pat to 0 s.

(* ------------------------------------------------------------------ *)
(** ** GraphQL requests *)

(** What the engine works with: [variables] are JSON values. *)
Class GraphqlJson : Type := { InputValue : Type; variables_from_str : string -> option InputValue }.

Record GraphQLRequest `{GraphqlJson} := mk_graphql_request {
  gq_query : string;
  gq_operation_name : option string;
  gq_variables : option InputValue;
}.
Arguments mk_graphql_request {_} _ _ _.
Inductive GraphQLBatchRequest `{GraphqlJson} := Single (r : GraphQLRequest) | Batch (l : list GraphQLRequest).
Arguments Single {_} _.
Arguments Batch {_} _.

(** Source: server/src/infra/graphql/api.rs#struct GetGraphQLRequest *)
Record GetGraphQLRequest := mk_get_graphql { gg_query : string; gg_operation_name : option string; gg_variables : option string }.

(** [unwrap] panics on variables that are no JSON.
    Source: server/src/infra/graphql/api.rs#L130-143 *)
Definition graphql_request_from `{GraphqlJson} {E} (get_req : GetGraphQLRequest) : outcome E GraphQLRequest :=
  let? variables := match gg_variables get_req with
                    | None => Ok None
                    | Some s => omap_ok Some (expect "called `Result::unwrap()` on an `Err` value" (variables_from_str s))
                    end in
  Ok (mk_graphql_request (gg_query get_req) (gg_operation_name get_req) variables).

(** The resolvers that the engine calls while it executes a request.  The fields that
    are projections of their object are read without a call. *)
Inductive Resolver : Type -> Type :=
| RMutation (m : Mutation) : Resolver MutationResult
| RUser (user_id : string) : Resolver GqlUser
| RUsers (filters : option RequestFilter) : Resolver (list GqlUser)
| RGroups : Resolver (list GqlGroup)
| RGroup (group_id : GroupId) : Resolver GqlGroup
| RSchema : Resolver GqlSchema
| RUserGroups (u : GqlUser) : Resolver (list GqlGroup)
| RGroupUsers (g : GqlGroup) : Resolver (list GqlUser)
| RFirstName (u : GqlUser) : Resolver string
| RLastName (u : GqlUser) : Resolver string
| RAvatar (u : GqlUser) : Resolver (option string)
| RAttributeValue (a : GqlAttributeValue) : Resolver (list string).

(** The response of the engine: its JSON, unless that fails, and [is_ok]. *)
Record GraphqlReply := mk_graphql_reply { gp_json : option string; gp_is_ok : bool }.

(** The calls that the execution of a request makes, in order; each may depend on what
    was answered before. *)
Inductive Plan : Type :=
| Reply (r : GraphqlReply)
| Resolve {A : Type} (r : Resolver A) (k : string + A -> Plan).

(** juniper: a request, once it is parsed and checked against the schema, as the plan
    of its execution. *)
Class Juniper `{GraphqlJson} : Type := {
  plan_request : GraphQLRequest -> Plan;
  plan_batch : GraphQLBatchRequest -> Plan;
  playground_source : string -> string;
  graphiql_source : string -> string;
}.

(** actix's decoders, each with the error response that it fails with. *)
Class HttpLib `{OL : OpaqueLib} `{GJ : GraphqlJson} : Type := {
  header_value_from_str : string -> option string;
  bearer_from_request : option string -> HttpResponse + string;
  json_bind : HttpRequest -> HttpResponse + BindRequest;
  json_simple_login : HttpRequest -> HttpResponse + (UserId * string);
  json_login_start : HttpRequest -> HttpResponse + ClientLoginStartRequest;
  json_login_finish : HttpRequest -> HttpResponse + ClientLoginFinishRequest;
  json_registration_start : HttpRequest -> string + ClientRegistrationStartRequest;
  json_registration_finish : HttpRequest -> HttpResponse + ClientRegistrationFinishRequest;
  payload_text : HttpRequest -> HttpResponse + string;
  json_graphql : string -> HttpResponse + GraphQLBatchRequest;
  query_graphql : string -> HttpResponse + GetGraphQLRequest;
  content_type_error : HttpResponse;
  serialize_error : HttpResponse;
  method_not_allowed : HttpResponse;
  resource_not_found : HttpResponse;
  not_routed : HttpRequest -> HttpResponse;
  read_file : string -> HttpResponse + string;
  serve_directory : string -> list string -> HttpRequest -> HttpAnswer;
}.

(* ------------------------------------------------------------------ *)
(** ** Routing, as actix does it

    A service matches a path or not; among the services of a scope the first one that
    matches has the request, and the application's default service has what none
    matches.  A resource that matches answers 405 to the methods that it has no route
    for. *)

#[global] Instance method_eq_dec : EqDecision Method.
Proof. solve_decision. Defined.

(** The segments of a resource's path. *)
Inductive Segment := Lit (s : string) | Param.
Fixpoint match_path (pattern : list Segment) (path : list string) : option (list string) :=
  match pattern, path with
  | [], [] => Some []
  | Lit l :: pattern, s :: path => if String.eqb l s then match_path pattern path else None
  | Param :: pattern, s :: path => if String.eqb s "" then None else cons s <$> match_path pattern path
  | _, _ => None
  end.
Fixpoint strip_scope (prefix path : list string) : option (list string) :=
  match prefix, path with
  | [], _ => Some path
  | l :: prefix, s :: path => if String.eqb l s then strip_scope prefix path else None
  | _ :: _, [] => None
  end.

Section Routing.
Context {R : Type}.

Definition Service : Type := list string -> HttpRequest -> option R.
(** A route: the method, or any, and the handler of the parameters of the path. *)
Definition Route : Type := option Method * (list string -> HttpRequest -> R).
Definition get_route (f : HttpRequest -> R) : Route := (Some GET, fun _ => f).
Definition post_route (f : HttpRequest -> R) : Route := (Some POST, fun _ => f).
Definition any_route (f : HttpRequest -> R) : Route := (None, fun _ => f).

Fixpoint find_route (not_allowed : R) (routes : list Route) (args : list string) (req : HttpRequest) : R :=
  match routes with
  | [] => not_allowed
  | (m, f) :: routes => if bool_decide (m = None \/ m = Some (rq_method req)) then f args req else find_route not_allowed routes args req
  end.
Definition resource (not_allowed : R) (pattern : list Segment) (routes : list Route) : Service := fun path req =>
  (fun args => find_route not_allowed routes args req) <$> match_path pattern path.

Fixpoint dispatch (services : list Service) (default : HttpRequest -> R) (path : list string) (req : HttpRequest) : R :=
  match services with
  | [] => default req
  | service :: services =>
      match service path req with
      | Some r => r
      | None => dispatch services default path req
      end
  end.
(** [web::scope(prefix).wrap(middleware)] *)
Definition scope (prefix : list string) (middleware : (HttpRequest -> R) -> HttpRequest -> R) (services : list Service)
    (default : HttpRequest -> R) : Service := fun path req =>
  (fun rest => middleware (dispatch services default rest) req) <$> strip_scope prefix path.

(** What every route and the default service answer to a request, the server does. *)
Definition answers (P : HttpRequest -> R -> Prop) (service : Service) : Prop := forall path req r, service path req = Some r -> P req r.
Definition route_answers (P : HttpRequest -> R -> Prop) (route : Route) : Prop := forall args req, P req (snd route args req).
Lemma dispatch_answers (P : HttpRequest -> R -> Prop) services default path req :
  Forall (answers P) services -> (forall req, P req (default req)) -> P req (dispatch services default path req).
Proof using Type.
  intros Hs Hd. induction Hs as [|s services H _ IH]; cbn; [done|]. destruct (s path req) as [r|] eqn:Hr; [by eapply H|done].
Qed.
Lemma resource_answers (P : HttpRequest -> R -> Prop) not_allowed pattern routes :
  (forall req, P req not_allowed) -> Forall (route_answers P) routes -> answers P (resource not_allowed pattern routes).
Proof using Type.
  intros Hn Hr path req r. unfold resource. destruct (match_path pattern path) as [args|]; [|done]. cbn. intros [= <-].
  induction Hr as [|[m f] routes H _ IH]; cbn; [done|]. case_bool_decide; [apply H|done].
Qed.
Lemma scope_answers (P Q : HttpRequest -> R -> Prop) prefix middleware services default :
  (forall f req, (forall req, P req (f req)) -> Q req (middleware f req)) ->
  Forall (answers P) services -> (forall req, P req (default req)) ->
  answers Q (scope prefix middleware services default).
Proof using Type.
  intros Hm Hs Hd path req r. unfold scope. destruct (strip_scope prefix path) as [rest|]; [|done]. cbn. intros [= <-].
  apply Hm. intros req'. by apply dispatch_answers.
Qed.
End Routing.

(* ------------------------------------------------------------------ *)
(** ** The GraphQL endpoint *)

Section Graphql.
Context {St : Type} `{BH : !BackendHandler St} `{C : Crates} `{B : Bincode} `{T : ErrorTexts} `{UE : UrlEncoding}.

(** The context of the resolvers; the handler is the state they run on.
    Source: server/src/infra/graphql/api.rs#pub struct Context *)
Record Context := mk_context { cx_validation_result : ValidationResults }.

Definition run_resolver (context : Context) {A} (r : Resolver A) : stM St string A :=
  let v := cx_validation_result context in
  match r in Resolver A return stM St string A with
  | RMutation m => run_mutation v m
  | RUser user_id => query_user v user_id
  | RUsers filters => query_users v filters
  | RGroups => query_groups v
  | RGroup group_id => query_group v group_id
  | RSchema => query_schema v
  | RUserGroups u => user_groups_field v u
  | RGroupUsers g => group_users_field v g
  | RFirstName u => slift (first_name u)
  | RLastName u => slift (last_name u)
  | RAvatar u => slift (avatar u)
  | RAttributeValue a => slift (attribute_value a)
  end.

(** An error of a resolver is a value for the engine; a panic is none. *)
Fixpoint run_plan (context : Context) (p : Plan) : stM St HttpResponse GraphqlReply :=
  match p with
  | Reply r => sret r
  | Resolve r k => let! x := stry (run_resolver context r) in run_plan context (k x)
  end.

Context `{OL : OpaqueLib} `{GJ : GraphqlJson} `{JP : !Juniper} `{HL : !HttpLib} `{SH : StdHash} `{J : Jwt} `{CK : !Clock St}.

Definition lift_error {St' A} (x : HttpResponse + A) : stM St' HttpResponse A :=
  match x with inl e => sthrow e | inr a => sret a end.

(** The status and the body of a response of the engine. *)
Definition graphql_answer (reply : GraphqlReply) : stM St HttpResponse HttpAnswer :=
  let! body := slift (ok_or serialize_error (gp_json reply)) in
  sret (Answered (if gp_is_ok reply then 200 else 400)%Z "application/json" body).

(** Source: server/src/infra/graphql/api.rs#pub async fn get_graphql_handler *)
Definition get_graphql_handler (context : Context) (req : HttpRequest) : stM St HttpResponse HttpAnswer :=
  let! get_req := lift_error (query_graphql (rq_query_string req)) in
  let! req := slift (graphql_request_from get_req) in
  let! gql_response := run_plan context (plan_request req) in
  graphql_answer gql_response.

(** Source: server/src/infra/graphql/api.rs#pub async fn post_graphql_handler *)
Definition post_graphql_handler (context : Context) (req : HttpRequest) : stM St HttpResponse HttpAnswer :=
  let! req :=
    if String.eqb (rq_content_type req) "application/json" then
      let! body := lift_error (payload_text req) in
      lift_error (json_graphql body)
    else if String.eqb (rq_content_type req) "application/graphql" then
      let! body := lift_error (payload_text req) in
      sret (Single (mk_graphql_request body None None))
    else sthrow content_type_error in
  let! gql_batch_response := run_plan context (plan_batch req) in
  graphql_answer gql_batch_response.

(** [ErrorUnauthorized(text)] *)
Definition unauthorized (text : string) : HttpResponse := mk_response 401 [] (TextBody text).

(** Source: server/src/infra/graphql/api.rs#async fn graphql_route *)
Definition graphql_route (req : HttpRequest) : stM (AppState St) HttpResponse HttpAnswer :=
  let! bearer := lift_error (bearer_from_request (rq_authorization req)) in
  let! validation_result := smap_err unauthorized (check_if_token_is_valid bearer) in
  let context := mk_context validation_result in
  match rq_method req with
  | POST => in_backend (post_graphql_handler context req)
  | GET => in_backend (get_graphql_handler context req)
  | OtherMethod _ => sthrow resource_not_found
  end.

(** Source: server/src/infra/graphql/api.rs#async fn graphiql_route *)
Definition graphiql_route : HttpAnswer := Answered 200 "text/html; charset=utf-8" (graphiql_source "/api/graphql").
(** Source: server/src/infra/graphql/api.rs#async fn playground_route *)
Definition playground_route : HttpAnswer := Answered 200 "text/html; charset=utf-8" (playground_source "/api/graphql").

(** A resource that answers 405 to other methods. *)
Definition web_resource (pattern : list Segment) (routes : list Route) : Service :=
  resource (sthrow (S := AppState St) (A := HttpAnswer) method_not_allowed) pattern routes.

(** Source: server/src/infra/graphql/api.rs#pub fn configure_endpoint *)
Definition configure_endpoint : list Service :=
  [web_resource [Lit "graphql"] [post_route graphql_route; get_route graphql_route];
   web_resource [Lit "graphql"; Lit "playground"] [get_route (fun _ => sret playground_route)];
   web_resource [Lit "graphql"; Lit "graphiql"] [get_route (fun _ => sret graphiql_route)]].

(** The middleware of two scopes: a cookie replaces the header, unless its value cannot
    be one.
    Source: server/src/infra/auth_service.rs#fn call *)
Definition cookie_to_header {E} (service : HttpRequest -> stM (AppState St) E HttpAnswer) (req : HttpRequest) :
    stM (AppState St) E HttpAnswer :=
  match request_cookie "token" req with
  | Some token_cookie =>
      match header_value_from_str ("Bearer " +:+ token_cookie) with
      | Some header_value => service (set_authorization header_value req)
      | None => sret (Failed (mk_response 400 [] (TextBody "Invalid token cookie")))
      end
  | None => service req
  end.
End Graphql.

(* ------------------------------------------------------------------ *)
(** ** The login service *)

Section Auth.
Context {St : Type} `{BH : !BackendHandler St} `{LH : !LoginHandler St} `{TH : !TcpBackendHandler St}
  `{OL : OpaqueLib} `{OH : !OpaqueHandler St} `{CK : !Clock St} `{ML : !Mailer St}.
Context `{C : Crates} `{SH : StdHash} `{J : Jwt} `{T : ErrorTexts} `{GJ : GraphqlJson} `{HL : !HttpLib}.
Context (url_path : string).

Abbreviation served := (stM (AppState St) HttpResponse HttpAnswer).

(** The handler's answer, its errors included. *)
Definition auth_answer {A} (f : A -> AuthAnswer) (m : stM (AppState St) TcpError A) : served :=
  let! a := answer f m in sret (AuthAnswered a).

(** Source: server/src/infra/auth_service.rs#async fn get_refresh_handler *)
Definition get_refresh_handler (request : HttpRequest) : served :=
  auth_answer Response (get_refresh url_path (request_cookie "refresh_token" request) (rq_refresh_token request)).

(** Source: server/src/infra/auth_service.rs#async fn get_password_reset_step1_handler *)
Definition get_password_reset_step1_handler (match_info : list string) (request : HttpRequest) : served :=
  auth_answer (fun _ => Response (mk_response 200 [] NoBody)) (get_password_reset_step1 (head match_info)).

(** Source: server/src/infra/auth_service.rs#async fn get_password_reset_step2_handler *)
Definition get_password_reset_step2_handler (match_info : list string) (request : HttpRequest) : served :=
  auth_answer Response (get_password_reset_step2 url_path (head match_info)).

(** Source: server/src/infra/auth_service.rs#async fn get_logout_handler *)
Definition get_logout_handler (request : HttpRequest) : served :=
  auth_answer Response (get_logout url_path (request_cookie "refresh_token" request) (rq_refresh_token request)).

(** [opaque_login_start] answers itself; its body is decoded first. *)
Definition opaque_login_start_handler (request : HttpRequest) : served :=
  let! request := lift_error (json_login_start request) in
  auth_answer LoginStartAnswer (opaque_login_start request).

(** Source: server/src/infra/auth_service.rs#async fn opaque_login_finish_handler *)
Definition opaque_login_finish_handler (request : HttpRequest) : served :=
  let! request := lift_error (json_login_finish request) in
  auth_answer Response (opaque_login_finish url_path request).

(** Source: server/src/infra/auth_service.rs#async fn simple_login_handler *)
Definition simple_login_handler (request : HttpRequest) : served :=
  let! '(username, password) := lift_error (json_simple_login request) in
  auth_answer Response (simple_login url_path username password).

(** Source: server/src/infra/auth_service.rs#async fn post_authorize_handler *)
Definition post_authorize_handler (request : HttpRequest) : served :=
  let! request := lift_error (json_bind request) in
  auth_answer Response (post_authorize url_path request).

(** Source: server/src/infra/auth_service.rs#async fn opaque_register_start_handler *)
Definition opaque_register_start_handler (request : HttpRequest) : served :=
  auth_answer RegistrationStartAnswer
    (opaque_register_start match bearer_from_request (rq_authorization request) with inl _ => None | inr t => Some t end
       (json_registration_start request)).

(** Source: server/src/infra/auth_service.rs#async fn opaque_register_finish_handler *)
Definition opaque_register_finish_handler (request : HttpRequest) : served :=
  let! request := lift_error (json_registration_finish request) in
  auth_answer Response (opaque_register_finish request).

(** Source: server/src/infra/auth_service.rs#pub fn configure_server *)
Definition configure_server (enable_password_reset : bool) (default_service : HttpRequest -> served) : list Service :=
  ([web_resource [] [post_route post_authorize_handler];
    web_resource [Lit "opaque"; Lit "login"; Lit "start"] [post_route opaque_login_start_handler];
    web_resource [Lit "opaque"; Lit "login"; Lit "finish"] [post_route opaque_login_finish_handler];
    web_resource [Lit "simple"; Lit "login"] [post_route simple_login_handler];
    web_resource [Lit "refresh"] [get_route get_refresh_handler];
    web_resource [Lit "logout"] [get_route get_logout_handler];
    scope ["opaque"; "register"] cookie_to_header
      [web_resource [Lit "start"] [post_route opaque_register_start_handler];
       web_resource [Lit "finish"] [post_route opaque_register_finish_handler]] default_service]
   ++ if enable_password_reset then
        [web_resource [Lit "reset"; Lit "step1"; Param] [(Some POST, get_password_reset_step1_handler)];
         web_resource [Lit "reset"; Lit "step2"; Param] [(Some GET, get_password_reset_step2_handler)]]
      else [])%list.
End Auth.

(* ------------------------------------------------------------------ *)
(** ** The server *)

Section Server.
Context {St : Type} `{BH : !BackendHandler St} `{LH : !LoginHandler St} `{TH : !TcpBackendHandler St}
  `{OL : OpaqueLib} `{OH : !OpaqueHandler St} `{CK : !Clock St} `{ML : !Mailer St}.
Context `{C : Crates} `{B : Bincode} `{SH : StdHash} `{J : Jwt} `{T : ErrorTexts} `{UE : UrlEncoding} `{GJ : GraphqlJson}
  `{JP : !Juniper} `{HL : !HttpLib}.
Context (url_path : string).

Abbreviation served := (stM (AppState St) HttpResponse HttpAnswer).

(** [<base href="..">] *)
Definition base_element (href : string) : string :=
  let quote := String "034"%char EmptyString in "<base href=" +:+ quote +:+ href +:+ quote +:+ ">".

(** Source: server/src/infra/tcp_server.rs#async fn index *)
Definition index : served :=
  let! file := lift_error (read_file "./app/index.html") in
  let file := if negb (String.eqb url_path "/")
              then replace_text (base_element "/") (base_element (url_path +:+ "/")) file else file in
  sret (Answered 200 "text/html; charset=utf-8" file).

(** Source: server/src/infra/tcp_server.rs#async fn main_js_handler *)
Definition main_js_handler : served :=
  let! file := lift_error (read_file "./app/static/main.js") in
  let file := if negb (String.eqb url_path "/") then replace_text "/pkg/" (url_path +:+ "/pkg/") file else file in
  sret (Answered 200 "text/javascript" file).

(** Source: server/src/infra/tcp_server.rs#async fn wasm_handler() *)
Definition wasm_handler : served := sret (FileAnswer "./app/pkg/lldap_app_bg.wasm").
(** Source: server/src/infra/tcp_server.rs#async fn wasm_handler_compressed *)
Definition wasm_handler_compressed : served := sret (FileAnswer "./app/pkg/lldap_app_bg.wasm.gz").

(** The page is the answer to whatever has no route; what is not a [GET] has none. *)
Definition default_service (req : HttpRequest) : served :=
  match rq_method req with GET => index | _ => sthrow (not_routed req) end.

(** [Files::new(path, directory)] *)
Definition files (path : list string) (directory : string) : @Service served := fun p req =>
  (fun rest => sret (serve_directory directory rest req)) <$> strip_scope path p.

(** Whether a route that is given to the application itself matches is for its method
    to say, too.
    Source: server/src/infra/tcp_server.rs#fn http_config *)
Definition http_config (enable_password_reset : bool) (req : HttpRequest) : served :=
  dispatch
    [(fun path req =>
        if bool_decide (path = ["health"] /\ rq_method req = GET) then Some (sret (Answered 200 "" "")) else None);
     scope ["auth"] id (configure_server url_path enable_password_reset default_service) default_service;
     scope ["api"] cookie_to_header configure_endpoint default_service;
     web_resource [Lit "pkg"; Lit "lldap_app_bg.wasm.gz"] [any_route (fun _ => wasm_handler_compressed)];
     web_resource [Lit "pkg"; Lit "lldap_app_bg.wasm"] [any_route (fun _ => wasm_handler)];
     web_resource [Lit "static"; Lit "main.js"] [any_route (fun _ => main_js_handler)];
     files ["pkg"] "./app/pkg";
     files ["static"] "./app/static";
     files ["static"; "fonts"] "./app/static/fonts"]
    default_service (rq_path req) req.

(** The response to a request, errors included. *)
Definition serve (enable_password_reset : bool) (req : HttpRequest) : stM (AppState St) Empty_set HttpAnswer :=
  let! r := stry (http_config enable_password_reset req) in
  sret match r with inl e => Failed e | inr a => a end.
End Server.

(* ------------------------------------------------------------------ *)
(** ** What the execution of a GraphQL request can do *)

Section PlanFacts.
Context {St : Type} {BH : BackendHandler St} {BL : BackendLaws BH} `{C : Crates} `{B : Bincode} `{T : ErrorTexts} `{UE : UrlEncoding}.
Context (v : ValidationResults).

(** A mutation run with the rights [v]. *)
Definition mutated_by (s s' : St) : Prop := exists m, s' = snd (run_mutation v m s).

Lemma stry_state {S E E' A} (m : stM S E A) s : snd (stry (E' := E') m s) = snd (m s).
Proof using Type. unfold stry. by destruct (m s) as [[]]. Qed.

Lemma user_groups_readonly u : readonly (user_groups_field v u).
Proof using BL.
  apply readonly_preserves. intros P. unfold user_groups_field, domain. case_match; [apply preserves_ret|].
  intros s Hs. unfold get_readable_handler. destruct (can_read v _); [|done]. cbn [expect].
  revert s Hs. change (preserves P (let! domain_groups := smap_err domain_error_display (bh_get_user_groups (user_user_id (gu_user u))) in
    let! groups := slift (try_map (fun g => from_group_details g (gu_schema u)) domain_groups) in
    sret (E := string) (sort_by group_name_leb groups))). stm.
  by apply readonly_preserves, bh_readonly_user_groups.
Qed.

(** A resolver that is no mutation writes nothing. *)
Lemma resolver_steps {A} (r : Resolver A) s : rtc mutated_by s (snd (run_resolver (mk_context v) r s)).
Proof using BL.
  pose (no_group := mk_gql_group 0 "" 0%Z "" [] (public_schema_from (mk_schema (mk_attribute_list []) (mk_attribute_list []) [] []))).
  assert (Hro : forall m : stM St string A, readonly m -> rtc mutated_by s (snd (m s))) by (intros m Hm; by rewrite Hm).
  destruct r as [m|uid|f| |g| |u|g|u|u|u|a]; cbn [run_resolver cx_validation_result]; [by apply rtc_once; exists m|..];
    apply Hro; try (by intros s').
  - apply (queries_readonly v uid None 0%Z no_group).
  - apply (queries_readonly v "" f 0%Z no_group).
  - apply (queries_readonly v "" None 0%Z no_group).
  - apply (queries_readonly v "" None g no_group).
  - apply readonly_preserves. intros P. unfold query_schema. stm. by apply readonly_preserves, bh_readonly_schema.
  - apply user_groups_readonly.
  - apply (queries_readonly v "" None 0%Z g).
Qed.

Lemma run_plan_steps p s : rtc mutated_by s (snd (run_plan (mk_context v) p s)).
Proof using BL.
  revert s. induction p as [r|A r k IH]; intros s; [done|]. cbn [run_plan]. unfold sbind.
  pose proof (resolver_steps r s) as Hr. rewrite <- (stry_state (E' := HttpResponse)) in Hr.
  destruct (stry (run_resolver (mk_context v) r) s) as [[x|e|pa] s1] eqn:Hx; cbn in *; [|done..].
  etrans; [exact Hr|]. apply IH.
Qed.
End PlanFacts.
