(* ===== verification/HttpSql.v ===== *)
(** * The HTTP server on the SQL database

    What any raw request can do to the state: at most what one request to the login
    service does, or a sequence of mutations with the rights of a token that is valid;
    and what follows for those who are no administrators. *)

From S2P Require Import Prelude RustStd Extern Types Concrete Handler Deserialize LdapUtils Db ExampleDb SqlFilters SqlSchema SqlUser SqlGroup SqlBackend SqlTcp SqlOpaque AccessControl LdapHandler LdapSql AuthService AuthSession GraphqlQuery GraphqlMutation GraphqlSql StoredTypes TypeSafety HttpServer.
From Stdlib Require Import Ascii String.
From stdpp Require Import strings list gmap.
#[local] Open Scope rust_scope.
#[local] Open Scope string_scope.

(** What the middleware relies on: what is read from the header it writes. *)
Class HttpLaws `{OL : OpaqueLib} `{GJ : GraphqlJson} (HL : HttpLib) : Prop := {
  bearer_is_cookie c h t :
    header_value_from_str ("Bearer " +:+ c) = Some h -> bearer_from_request (Some h) = inr t -> t = c;
}.

Section HttpSql.
Context `{C : Crates} `{B : Bincode} `{SL : SqlLib} `{OL : OpaqueLib} `{O : Orion} `{BS : !BincodeStream}
  `{CF : !OpaqueConfig} `{T : ErrorTexts} `{SH : StdHash} `{J : Jwt} `{ML : !Mailer World} `{UE : UrlEncoding}
  `{GJ : GraphqlJson} `{JP : !Juniper} `{HL : !HttpLib}.
#[local] Existing Instance world_clock.
Context (url_path : string) (enable_password_reset : bool).
Implicit Type s : AppState World.

Abbreviation serve := (serve url_path enable_password_reset).
Abbreviation auth_request := (handle_auth_request url_path enable_password_reset).

(* ------------------------------------------------------------------ *)
(** ** What a request can do *)

(** The token that the GraphQL endpoint finds in a request: the cookie's, or else the
    header's. *)
Definition header_token (header : option string) : option string :=
  match bearer_from_request header with inr t => Some t | inl _ => None end.
Definition presented_token (req : HttpRequest) : option string :=
  match request_cookie "token" req with
  | Some c => match header_value_from_str ("Bearer " +:+ c) with Some h => header_token (Some h) | None => None end
  | None => header_token (rq_authorization req)
  end.

(** The request as the endpoint sees it. *)
Definition translated (req : HttpRequest) : HttpRequest :=
  match c ← request_cookie "token" req; header_value_from_str ("Bearer " +:+ c) with
  | Some h => set_authorization h req
  | None => req
  end.
Lemma cookie_to_header_run {E} (f : HttpRequest -> stM (AppState World) E HttpAnswer) req t :
  presented_token req = Some t ->
  cookie_to_header f req = f (translated req) /\ header_token (rq_authorization (translated req)) = Some t.
Proof using Type.
  unfold presented_token, cookie_to_header, translated. destruct (request_cookie "token" req) as [c|]; [|done].
  cbn. by destruct (header_value_from_str _).
Qed.
Lemma translated_same req : rq_method (translated req) = rq_method req /\ rq_content_type (translated req) = rq_content_type req
  /\ rq_query_string (translated req) = rq_query_string req.
Proof using Type. unfold translated. by destruct (_ ≫= _). Qed.

(** What a request to the GraphQL endpoint can do, given its token: nothing, or
    mutations with the rights of a token that is valid. *)
Inductive graphql_effect (token : option string) s : AppState World -> Prop :=
| graphql_nothing : graphql_effect token s s
| graphql_mutations t v w' :
    token = Some t -> fst (check_if_token_is_valid t s) = Ok v -> rtc (mutated_by v) (app_backend s) w' ->
    graphql_effect token s (mk_app w' (jwt_blacklist s)).
(** And any request: one under [/auth], what one request to the login service does. *)
Inductive http_effect (req : HttpRequest) s : AppState World -> Prop :=
| http_nothing : http_effect req s s
| http_graphql s' : head (rq_path req) = Some "api" -> graphql_effect (presented_token req) s s' -> http_effect req s s'
| http_auth r : head (rq_path req) = Some "auth" -> http_effect req s (snd (auth_request r s)).

Abbreviation answer_of := (stM (AppState World) HttpResponse HttpAnswer).
(** The effect of an answer, as a property of the routes. *)
Definition has_effect (effect : AppState World -> AppState World -> Prop) (m : answer_of) : Prop := forall s, effect s (snd (m s)).

Lemma lifted_effect {A} effect (x : HttpResponse + A) (k : A -> answer_of) :
  (forall s, effect s s) -> (forall a, has_effect effect (k a)) -> has_effect effect (let! a := lift_error x in k a).
Proof using Type. intros He Hk s. destruct x as [e|a]; [apply He|apply Hk]. Qed.
Lemma nothing_effect effect (m : answer_of) : (forall s, effect s s) -> readonly m -> has_effect effect m.
Proof using Type. intros He Hm s. by rewrite Hm. Qed.
Lemma default_effect effect req : (forall s, effect s s) -> has_effect effect (default_service url_path req).
Proof using Type.
  intros He. unfold default_service. destruct (rq_method req); try (by apply nothing_effect). by apply lifted_effect.
Qed.
Lemma cookie_effect effect (f : HttpRequest -> answer_of) req :
  (forall s, effect s s) -> (forall req, has_effect effect (f req)) -> has_effect effect (cookie_to_header f req).
Proof using Type.
  intros He Hf s. unfold cookie_to_header. destruct (request_cookie _ _); [|apply Hf].
  destruct (header_value_from_str _); [apply Hf|apply He].
Qed.

(** The login service. *)
Definition auth_effect s s' : Prop := s' = s \/ exists r, s' = snd (auth_request r s).
Lemma auth_effect_refl s : auth_effect s s.
Proof using Type. by left. Qed.

Lemma answer_state {E A} (f : A -> AuthAnswer) (m : stM (AppState World) TcpError A) s : snd (answer (E := E) f m s) = snd (m s).
Proof using Type. unfold answer, sbind, stry. by destruct (m s) as [[]]. Qed.
Lemma auth_answer_effect {A} (f : A -> AuthAnswer) (m : stM (AppState World) TcpError A) r :
  auth_request r = answer f m -> has_effect auth_effect (auth_answer f m).
Proof using Type.
  intros Hr s. right. exists r. rewrite Hr, (answer_state (E := Empty_set)), <- (answer_state (E := HttpResponse) f m s).
  unfold auth_answer, sbind. by destruct (answer f m s) as [[]].
Qed.

Lemma auth_scope_effect :
  answers (fun _ => has_effect auth_effect)
    (scope ["auth"] id (configure_server url_path enable_password_reset (default_service url_path)) (default_service url_path)).
Proof using Type.
  apply (scope_answers (fun _ => has_effect auth_effect)); [auto| |intros req; by apply default_effect, auth_effect_refl].
  assert (Hr : forall pattern routes, Forall (route_answers (fun _ => has_effect auth_effect)) routes ->
    answers (fun _ => has_effect auth_effect) (web_resource pattern routes)).
  { intros pattern routes H. apply resource_answers; [|done]. intros _ s. apply auth_effect_refl. }
  assert (Hd : forall A (x : HttpResponse + A) (k : A -> answer_of),
    (forall a, has_effect auth_effect (k a)) -> has_effect auth_effect (let! a := lift_error x in k a))
    by (intros; by apply lifted_effect; [apply auth_effect_refl|]).
  unfold configure_server. apply Forall_app_2.
  - repeat (apply Forall_cons_2 || apply Forall_nil_2).
    7: { apply (scope_answers (fun _ => has_effect auth_effect)).
         - intros f req Hf. apply cookie_effect; [apply auth_effect_refl|done].
         - repeat (apply Forall_cons_2 || apply Forall_nil_2); apply Hr, Forall_singleton; intros args req; cbn.
           + by eapply (auth_answer_effect _ _ (PostRegisterStart _ _)).
           + apply Hd. intros r. by eapply (auth_answer_effect _ _ (PostRegisterFinish r)).
         - intros req. apply default_effect, auth_effect_refl. }
    all: apply Hr, Forall_singleton; intros args req; cbn.
    + apply Hd. intros r. by eapply (auth_answer_effect _ _ (PostAuthorize r)).
    + apply Hd. intros r. by eapply (auth_answer_effect _ _ (PostLoginStart r)).
    + apply Hd. intros r. by eapply (auth_answer_effect _ _ (PostLoginFinish r)).
    + apply Hd. intros [u p]. by eapply (auth_answer_effect _ _ (PostSimpleLogin u p)).
    + by eapply (auth_answer_effect _ _ (GetRefresh _ _)).
    + by eapply (auth_answer_effect _ _ (GetLogout _ _)).
  - destruct enable_password_reset eqn:Hb; [|apply Forall_nil_2].
    repeat (apply Forall_cons_2 || apply Forall_nil_2); apply Hr, Forall_singleton; intros args req; cbn.
    + apply (auth_answer_effect _ _ (PostResetStep1 (head args))). cbn. by rewrite Hb.
    + apply (auth_answer_effect _ _ (GetResetStep2 (head args))). cbn. by rewrite Hb.
Qed.

(** The GraphQL endpoint. *)
Lemma lift_error_readonly {S A} (x : HttpResponse + A) : readonly (lift_error (St' := S) x).
Proof using Type. by destruct x. Qed.
Definition mutates v {E A} (m : stM World E A) : Prop := forall w, rtc (mutated_by v) w (snd (m w)).
Lemma mutates_readonly v {E A} (m : stM World E A) : readonly m -> mutates v m.
Proof using Type. intros Hm w. by rewrite Hm. Qed.
Lemma mutates_bind v {E A D} (m : stM World E A) (k : A -> stM World E D) :
  mutates v m -> (forall a, mutates v (k a)) -> mutates v (sbind m k).
Proof using Type.
  intros Hm Hk w. unfold sbind. specialize (Hm w). destruct (m w) as [[a|e|p] w1]; cbn in *; [|done..]. etrans; [exact Hm|apply Hk].
Qed.
Lemma graphql_answer_mutates v r : mutates v (graphql_answer (St := World) r).
Proof using Type. apply mutates_readonly. intros w. unfold graphql_answer. by destruct (gp_json r). Qed.
Lemma run_plan_mutates v p : mutates v (run_plan (mk_context v) p).
Proof using Type. intros w. apply run_plan_steps. Qed.

Lemma get_graphql_mutates v req : mutates v (get_graphql_handler (mk_context v) req).
Proof using Type.
  apply mutates_bind; [apply mutates_readonly, lift_error_readonly|]. intros get_req.
  apply mutates_bind; [by apply mutates_readonly|]. intros r.
  apply mutates_bind; [apply run_plan_mutates|apply graphql_answer_mutates].
Qed.
Lemma post_graphql_mutates v req : mutates v (post_graphql_handler (mk_context v) req).
Proof using Type.
  apply mutates_bind; [apply mutates_readonly|].
  - intros w. repeat case_match; try done; unfold sbind; rewrite (surjective_pairing (lift_error (payload_text req) w)), lift_error_readonly;
      destruct (fst _); try done. apply lift_error_readonly.
  - intros r. apply mutates_bind; [apply run_plan_mutates|apply graphql_answer_mutates].
Qed.

Lemma graphql_route_effect req : has_effect (graphql_effect (header_token (rq_authorization req))) (graphql_route req).
Proof using Type.
  intros s. unfold graphql_route, header_token. destruct (bearer_from_request _) as [e|t]; [constructor|].
  unfold sbind at 1. cbn [lift_error sret]. unfold sbind, smap_err.
  pose proof (check_token_keeps t s) as Hk. destruct (check_if_token_is_valid t s) as [[v|e|p] s1] eqn:Hv; cbn in Hk; subst s1; [|constructor..].
  cbn [omap_err]. destruct (rq_method req); [..|constructor]; rewrite in_backend_run;
    (eapply graphql_mutations; [done|by rewrite Hv|]); [apply get_graphql_mutates|apply post_graphql_mutates].
Qed.

Lemma api_effect path req :
  has_effect (graphql_effect (header_token (rq_authorization req))) (dispatch configure_endpoint (default_service url_path) path req).
Proof using Type.
  apply (dispatch_answers (fun req => has_effect (graphql_effect (header_token (rq_authorization req))))).
  - assert (Hr : forall pattern routes,
      Forall (route_answers (fun req => has_effect (graphql_effect (header_token (rq_authorization req))))) routes ->
      answers (fun req => has_effect (graphql_effect (header_token (rq_authorization req)))) (web_resource pattern routes)).
    { intros pattern routes H. apply resource_answers; [|done]. intros req' s. constructor. }
    repeat (apply Forall_cons_2 || apply Forall_nil_2); apply Hr; repeat (apply Forall_cons_2 || apply Forall_nil_2);
      intros args req'; cbn; [apply graphql_route_effect..| |]; intros s; constructor.
  - intros req'. apply default_effect. constructor.
Qed.
Lemma api_scope_effect :
  answers (fun req => has_effect (graphql_effect (presented_token req)))
    (scope ["api"] cookie_to_header configure_endpoint (default_service url_path)).
Proof using Type.
  intros path req r. unfold scope. destruct (strip_scope _ path) as [rest|]; [|done]. cbn. intros [= <-].
  unfold cookie_to_header, presented_token. destruct (request_cookie "token" req) as [c|]; [|apply api_effect].
  destruct (header_value_from_str _) as [h|]; [|intros s; constructor]. apply (api_effect rest (set_authorization h req)).
Qed.
Lemma scope_prefix p middleware services default path req (r : answer_of) :
  scope [p] middleware services default path req = Some r -> head path = Some p.
Proof using Type.
  unfold scope. destruct path as [|x path]; [done|]. cbn. destruct (String.eqb p x) eqn:Hp; [|done]. by apply String.eqb_eq in Hp as ->.
Qed.

Lemma page_resource pattern (m : answer_of) path req r :
  readonly m -> web_resource pattern [any_route (fun _ => m)] path req = Some r -> readonly r.
Proof using Type.
  intros Hm. apply (resource_answers (fun _ => readonly)); [by intros req' s|]. apply Forall_singleton. by intros args req'.
Qed.
Lemma files_readonly prefix directory path req (r : answer_of) : files prefix directory path req = Some r -> readonly r.
Proof using Type. unfold files. destruct (strip_scope _ _); [|done]. by intros [= <-] s. Qed.
Lemma page_readonly name (k : string -> answer_of) : (forall file, readonly (k file)) -> readonly (let! file := lift_error (read_file name) in k file).
Proof using Type. intros Hk s. destruct (read_file name); [done|apply Hk]. Qed.

Lemma http_config_effect req : has_effect (http_effect req) (http_config url_path enable_password_reset req).
Proof using Type.
  assert (Hn : forall m : answer_of, readonly m -> has_effect (http_effect req) m).
  { intros m Hm. apply nothing_effect; [|done]. intros s. apply http_nothing. }
  unfold http_config. cbn [dispatch]. case_bool_decide as Hh; [by apply Hn|]. clear Hh.
  destruct (scope ["auth"] _ _ _ _ _) as [r|] eqn:Hr.
  { intros s. destruct (auth_scope_effect _ _ _ Hr s) as [-> |[a ->]]; [apply http_nothing|]. by eapply http_auth, scope_prefix. }
  clear Hr. destruct (scope ["api"] _ _ _ _ _) as [r|] eqn:Hr.
  { intros s. apply http_graphql; [by eapply scope_prefix|]. by apply (api_scope_effect _ _ _ Hr). }
  clear Hr. assert (Hjs : readonly (main_js_handler url_path)) by by apply page_readonly.
  repeat match goal with
         | |- has_effect _ (match ?x with _ => _ end) =>
             let Hr := fresh "Hr" in destruct x as [r|] eqn:Hr; [solve [eapply Hn, page_resource; [|exact Hr]; done | by eapply Hn, files_readonly]|clear Hr]
         end.
  apply default_effect, http_nothing.
Qed.

Lemma serve_state req s : snd (serve req s) = snd (http_config url_path enable_password_reset req s).
Proof using Type. unfold HttpServer.serve, sbind, stry. by destruct (http_config _ _ req s) as [[] ?]. Qed.

(** What the server does at the address of the GraphQL endpoint. *)
Lemma serve_graphql req s :
  rq_path req = ["api"; "graphql"] ->
  http_config url_path enable_password_reset req s =
    cookie_to_header (fun req => match rq_method req with OtherMethod _ => sthrow method_not_allowed | _ => graphql_route req end) req s.
Proof using Type.
  intros Hp. unfold http_config. rewrite Hp. cbn [dispatch]. rewrite bool_decide_eq_false_2 by naive_solver.
  unfold scope at 1 2. cbn. unfold cookie_to_header.
  assert (Hm : forall req', (if bool_decide (Some POST = None \/ Some POST = Some (rq_method req')) then graphql_route req' else
    if bool_decide (Some GET = None \/ Some GET = Some (rq_method req')) then graphql_route req' else sthrow method_not_allowed)
    = match rq_method req' with OtherMethod _ => sthrow method_not_allowed | _ => graphql_route req' end).
  { intros req'. by destruct (rq_method req'); repeat case_bool_decide; try naive_solver. }
  destruct (request_cookie "token" req); [destruct (header_value_from_str _)|]; by rewrite ?Hm.
Qed.

Lemma check_token_no_panic t s : no_panic (fst (check_if_token_is_valid t s)).
Proof using Type.
  intros p. unfold check_if_token_is_valid, sbind, slift. destruct (verify_with_key t) as [[a claims]|]; [|done]. cbn.
  unfold in_backend, szoom. cbn. case_match; [done|]. destruct a; [|done]. cbn. by case_bool_decide.
Qed.

(** The token decides, wherever it comes from. *)
Lemma graphql_route_refused req s :
  (forall t v, header_token (rq_authorization req) = Some t -> fst (check_if_token_is_valid t s) <> Ok v) ->
  exists r, graphql_route req s = (Err r, s).
Proof using Type.
  unfold graphql_route, header_token. intros Hn. destruct (bearer_from_request _) as [e|t]; [by exists e|].
  unfold sbind at 1. cbn [lift_error sret]. unfold sbind, smap_err. specialize (Hn t). pose proof (check_token_keeps t s) as Hk.
  pose proof (check_token_no_panic t s) as Hp.
  destruct (check_if_token_is_valid t s) as [[v|e|p] s1]; cbn in *; subst s1; [by destruct (Hn v)|by eexists|by destruct (Hp p)].
Qed.
Lemma graphql_route_run req s t v :
  header_token (rq_authorization req) = Some t -> fst (check_if_token_is_valid t s) = Ok v ->
  graphql_route req s = match rq_method req with
                        | POST => in_backend (post_graphql_handler (mk_context v) req) s
                        | GET => in_backend (get_graphql_handler (mk_context v) req) s
                        | OtherMethod _ => (Err resource_not_found, s)
                        end.
Proof using Type.
  unfold graphql_route, header_token. destruct (bearer_from_request _) as [e|t']; [done|]. intros [= ->] Hv.
  unfold sbind at 1. cbn [lift_error sret]. unfold sbind, smap_err. pose proof (check_token_keeps t s) as Hk.
  destruct (check_if_token_is_valid t s) as [r s1]. cbn in *. subst. cbn. by destruct (rq_method req).
Qed.

(** C7. What a request can do.  Whatever the bytes of a request, the state after it is
    the one before; or, under [/auth], the one that one request to the login service
    leads to; or, under [/api], the one after mutations that were all run with the
    rights of one token, which the request presented and which is valid.  The token is
    the one in the cookie, when there is one, and only otherwise the header's; and
    without a valid token the GraphQL endpoint answers with an error. *)
Theorem serve_refines {HP : HttpLaws HL} req s :
  let s' := snd (serve req s) in
  (s' = s
   \/ (head (rq_path req) = Some "auth" /\ exists r, s' = snd (auth_request r s))
   \/ (head (rq_path req) = Some "api" /\ exists t v, presented_token req = Some t /\ fst (check_if_token_is_valid t s) = Ok v
        /\ jwt_blacklist s' = jwt_blacklist s /\ rtc (mutated_by v) (app_backend s) (app_backend s')))
  /\ (forall c t, request_cookie "token" req = Some c -> presented_token req = Some t -> t = c)
  /\ (rq_path req = ["api"; "graphql"] -> (forall t v, presented_token req = Some t -> fst (check_if_token_is_valid t s) <> Ok v) ->
      exists r, serve req s = (Ok (Failed r), s)).
Proof using Type.
  split_and!.
  - rewrite serve_state. destruct (http_config_effect req s) as [|s' Hp [|t v w' Ht Hv Hw]|r Hp]; [by left..| |].
    + right. right. split; [done|]. by exists t, v.
    + right. left. split; [done|]. by exists r.
  - intros c t Hc. unfold presented_token, header_token. rewrite Hc. destruct (header_value_from_str _) as [h|] eqn:Hh; [|done].
    destruct (bearer_from_request _) eqn:Hb; [done|]. intros [= <-]. by eapply bearer_is_cookie.
  - intros Hp Hn. unfold HttpServer.serve, sbind at 1, stry. rewrite (serve_graphql req s Hp).
    unfold cookie_to_header, presented_token in *. destruct (request_cookie "token" req) as [c|];
      [destruct (header_value_from_str _) as [h|]; [|by eexists]|].
    all: cbn [rq_method set_authorization]; destruct (rq_method req); try (by eexists).
    all: match goal with |- context [graphql_route ?r ?st] => destruct (graphql_route_refused r st Hn) as [e ->]; by exists e end.
Qed.

Lemma graphql_answer_run reply json w :
  gp_json reply = Some json ->
  graphql_answer (St := World) reply w = (Ok (Answered (if gp_is_ok reply then 200 else 400) "application/json" json), w).
Proof using Type. intros Hj. unfold graphql_answer. by rewrite Hj. Qed.
Lemma get_graphql_run ctx req query reply w w' json :
  query_graphql (rq_query_string req) = inr (mk_get_graphql query None None) ->
  run_plan ctx (plan_request (mk_graphql_request query None None)) w = (Ok reply, w') -> gp_json reply = Some json ->
  get_graphql_handler ctx req w = (Ok (Answered (if gp_is_ok reply then 200 else 400) "application/json" json), w').
Proof using Type.
  intros Hq Hrun Hj. unfold get_graphql_handler. rewrite Hq. cbn [lift_error].
  rewrite (sbind_run _ _ w (mk_get_graphql query None None) w) by done.
  rewrite (sbind_run _ _ w (mk_graphql_request query None None) w) by done. rewrite (sbind_run _ _ _ _ _ Hrun).
  by apply graphql_answer_run.
Qed.
Lemma post_graphql_run ctx req query reply w w' json :
  rq_content_type req = "application/graphql" -> payload_text req = inr query ->
  run_plan ctx (plan_batch (Single (mk_graphql_request query None None))) w = (Ok reply, w') -> gp_json reply = Some json ->
  post_graphql_handler ctx req w = (Ok (Answered (if gp_is_ok reply then 200 else 400) "application/json" json), w').
Proof using Type.
  intros Hct Hq Hrun Hj. unfold post_graphql_handler. rewrite Hct. cbn [String.eqb Ascii.eqb Bool.eqb].
  rewrite (sbind_run _ _ w (Single (mk_graphql_request query None None)) w) by (cbn; by rewrite Hq).
  rewrite (sbind_run _ _ _ _ _ Hrun). by apply graphql_answer_run.
Qed.

(** A request with a valid token is executed, with its rights.  When the token that
    a request to the GraphQL endpoint presents is valid, the engine's plan for the query
    of the request is run with the rights of that token, and its reply is the response:
    200 with the engine's JSON, or 400 if it reports that the execution failed; the
    blacklist stays as it was. *)
Theorem graphql_served req s token v query reply w' json :
  rq_path req = ["api"; "graphql"] -> presented_token req = Some token -> fst (check_if_token_is_valid token s) = Ok v ->
  match rq_method req with
  | POST => rq_content_type req = "application/graphql" /\ payload_text (translated req) = inr query
            /\ run_plan (mk_context v) (plan_batch (Single (mk_graphql_request query None None))) (app_backend s) = (Ok reply, w')
  | GET => query_graphql (rq_query_string req) = inr (mk_get_graphql query None None)
           /\ run_plan (mk_context v) (plan_request (mk_graphql_request query None None)) (app_backend s) = (Ok reply, w')
  | OtherMethod _ => False
  end ->
  gp_json reply = Some json ->
  serve req s = (Ok (Answered (if gp_is_ok reply then 200 else 400) "application/json" json), mk_app w' (jwt_blacklist s)).
Proof using Type.
  intros Hp Hpt Hv Hm Hj. unfold HttpServer.serve, sbind at 1, stry. rewrite (serve_graphql req s Hp).
  match goal with |- context [cookie_to_header ?f req] => destruct (cookie_to_header_run f req token Hpt) as [-> Ht] end.
  destruct (translated_same req) as (Em & Ec & Eq). rewrite Em.
  destruct (rq_method req) eqn:Hq; [| |done]; rewrite (graphql_route_run _ s token v Ht Hv), !in_backend_run, Em.
  - destruct Hm as [Hqs Hrun]. rewrite <- Eq in Hqs. by rewrite (get_graphql_run _ _ query reply _ w' json Hqs Hrun Hj).
  - destruct Hm as (Hct & Hqs & Hrun). rewrite <- Ec in Hct. by rewrite (post_graphql_run _ _ query reply _ w' json Hct Hqs Hrun Hj).
Qed.

(* ------------------------------------------------------------------ *)
(** ** Requests of those who are no administrators *)

(** What is left of the user [u] alone: of the whole database only values and the row of
    [u] differ, of the row only the address and the display name, and a value that the
    schema does not let users edit is the one it was, or gone.  The three attributes that
    a request to update a user has fields for are exempt: the code does not look up
    whether users edit them. *)
Definition row_identity (r : UserRow) := (ur_creation_date r, ur_password_hash r, ur_totp_secret r, ur_mfa_type r, ur_uuid r).
Definition named_attributes : list AttributeName := map attribute_name_new ["first_name"; "last_name"; "avatar"].
Definition only_own (u : UserId) (db db' : Db) : Prop :=
  exists A U, db' = set_user_attributes A (set_users U db)
    /\ (forall u', u' <> u -> U !! u' = db_users db !! u')
    /\ row_identity <$> U !! u = row_identity <$> db_users db !! u
    /\ (forall u' a, u' <> u -> A !! (u', a) = db_user_attributes db !! (u', a))
    /\ (forall a r, db_user_attribute_schema db !! a = Some r -> sr_is_editable r = false -> a ∉ named_attributes ->
          A !! (u, a) = db_user_attributes db !! (u, a) \/ A !! (u, a) = None).

Lemma only_own_refl u db : only_own u db db.
Proof using Type. exists (db_user_attributes db), (db_users db). split_and!; try done; [by destruct db|by left]. Qed.
Lemma only_own_trans u db1 db2 db3 : only_own u db1 db2 -> only_own u db2 db3 -> only_own u db1 db3.
Proof using Type.
  intros (A1 & U1 & -> & H1 & H2 & H3 & H4) (A2 & U2 & -> & K1 & K2 & K3 & K4). cbn in *. exists A2, U2. split_and!.
  - done.
  - intros u' Hu. by rewrite K1, H1.
  - by rewrite K2.
  - intros u' a Hu. by rewrite K3, H3.
  - intros a r Hr He Hn. destruct (K4 a r Hr He Hn) as [-> |]; [by apply (H4 a r)|by right].
Qed.

Lemma named_value_names name v a x : (a, x) ∈ (named_value name v).1 -> a = attribute_name_new name.
Proof using Type. destruct v as [[]|]; cbn; set_solver. Qed.

Lemma own_update_only_own v (m : Mutation) (w : World) :
  is_admin v = false -> only_own (vr_user v) (w_db w) (w_db (snd (run_mutation v m w))).
Proof using Type.
  intros Hv. destruct (mutation_access v m w Hv) as [[-> _]|(r & -> & Hu & [-> |(req & sc & Hsc & Hid & Hed & ->)])];
    [apply only_own_refl..|].
  assert (sc = schema_of (w_db w)) as -> by (change (Ok (E := DomainError) (schema_of (w_db w)) = Ok sc) in Hsc; congruence). clear Hsc.
  change (bh_update_user req w) with (sql_update_user req w).
  pose proof (sql_update_user_correct req w) as Hok. destruct (sql_update_user req w) as [[[]|e|p] w'];
    [|subst w'; apply only_own_refl|done].
  destruct Hok as (row & A & Hrow & Hins & _ & -> & HA). rewrite Hid in *.
  eexists A, _. split; [done|]. split_and!.
  - intros u' Hu'. by rewrite lookup_insert_ne.
  - by rewrite lookup_insert_eq, Hrow.
  - intros u' a Hu'. by rewrite HA, decide_False.
  - intros a r' Hr He Hn. rewrite HA, decide_True by done. unfold attribute_after.
    destruct (last_value _ a) as [x|] eqn:Hx; [exfalso|case_decide; auto].
    apply last_value_elem in Hx. unfold updated_attributes in Hx. apply elem_of_app in Hx as [Hx|Hx].
    + apply Hn. unfold named_values in Hx. cbn [fmap list_fmap concat] in Hx.
      rewrite !elem_of_app in Hx. destruct Hx as [Hx|[Hx|[Hx|Hx]]]; [apply named_value_names in Hx as ->; set_solver..|set_solver].
    + apply list_elem_of_fmap in Hx as (av & [= -> ->] & Hav). rewrite Forall_forall in Hed.
      destruct (Hed av Hav) as (y & Hy & Hye). rewrite public_user_attribute, Hr in Hy.
      injection Hy as <-. cbn in Hye. congruence.
Qed.

Lemma mutations_only_own v (w w' : World) : is_admin v = false -> rtc (mutated_by v) w w' -> only_own (vr_user v) (w_db w) (w_db w').
Proof using Type.
  intros Hv H. induction H as [w|w w1 w2 [m ->] _ IH]; [apply only_own_refl|].
  eapply only_own_trans; [by apply own_update_only_own|exact IH].
Qed.

(** C6. What a request without an administrator's token can change.  A request that is
    not one to the login service and presents no token, or one that is not valid,
    changes nothing.  With the token of someone who is no administrator, whatever query
    is sent, of the whole database only that user's values and row can differ: not the
    user's password, nor anyone else's data, nor a group, a membership or the schema;
    and of the values that the schema says users do not edit, none gets a new value
    (it can only be removed), except that the first name, the last name and the avatar,
    which the update of a user names itself, are written whatever the schema says of
    them (every database that the migrations make says that users edit them). *)
Theorem http_regular_user req s :
  head (rq_path req) <> Some "auth" ->
  (forall t v, presented_token req = Some t -> fst (check_if_token_is_valid t s) = Ok v -> is_admin v = false) ->
  let s' := snd (serve req s) in
  ((forall t v, presented_token req = Some t -> fst (check_if_token_is_valid t s) <> Ok v) -> s' = s)
  /\ jwt_blacklist s' = jwt_blacklist s
  /\ forall t v, presented_token req = Some t -> fst (check_if_token_is_valid t s) = Ok v ->
       only_own (vr_user v) (w_db (app_backend s)) (w_db (app_backend s')).
Proof using Type.
  intros Hp Hreg. cbv zeta. rewrite serve_state.
  destruct (http_config_effect req s) as [|s' _ [|t v w' Ht Hv Hw]|r Hp']; [| | |done].
  1,2: by split_and!; [..|intros; apply only_own_refl].
  split_and!; [|done|].
  - intros Hn. by destruct (Hn t v).
  - intros t' v' Ht' Hv'. assert (t' = t) as -> by congruence. assert (v' = v) as -> by congruence.
    apply mutations_only_own; [by eapply Hreg|done].
Qed.
End HttpSql.

(* ------------------------------------------------------------------ *)
(** ** Examples *)

Section Examples.
#[local] Existing Instances concrete_crates concrete_bincode concrete_sql concrete_hash toy_opaque toy_orion toy_stream toy_config
  toy_texts toy_jwt toy_mailer plain_url world_clock.

(** Variables are the text of an empty object. *)
Definition toy_graphql_json : GraphqlJson := {|
  InputValue := unit;
  variables_from_str s := if String.eqb s "{}" then Some tt else None;
|}.
#[local] Existing Instance toy_graphql_json.

(** An engine that knows two queries, and the mutation that renames bob. *)
Definition toy_plan (q : string) : Plan :=
  let reply text ok := Reply (mk_graphql_reply (Some text) ok) in
  if String.eqb q "bob" then
    Resolve (RUser "bob") (fun x => match x with inl e => reply e false | inr u => reply (display_name u) true end)
  else if String.eqb q "rename" then
    Resolve (RMutation (MUpdateUser (rename_bob "bob"))) (fun x =>
      match x with inl e => reply e false | inr _ => reply "done" true end)
  else reply "syntax error" false.
Definition toy_juniper : Juniper := {|
  plan_request r := toy_plan (gq_query r);
  plan_batch b := match b with Single r => toy_plan (gq_query r) | Batch _ => Reply (mk_graphql_reply None false) end;
  playground_source url := url;
  graphiql_source url := url;
|}.
#[local] Existing Instance toy_juniper.

Fixpoint strip_text (prefix s : string) : option string :=
  match prefix, s with
  | EmptyString, _ => Some s
  | String a prefix, String b s => if Ascii.eqb a b then strip_text prefix s else None
  | String _ _, EmptyString => None
  end.
Definition toy_error : HttpResponse := mk_response 400 [] NoBody.
Definition toy_pages (name : string) : HttpResponse + string :=
  if String.eqb name "./app/index.html" then inr ("<head>" +:+ base_element "/" +:+ "</head>") else inl toy_error.
Definition toy_http : HttpLib := {|
  header_value_from_str s := Some s;
  bearer_from_request h := match h ≫= strip_text "Bearer " with Some t => inr t | None => inl (mk_response 401 [] NoBody) end;
  json_bind _ := inl toy_error;
  json_simple_login _ := inl toy_error;
  json_login_start _ := inl toy_error;
  json_login_finish _ := inl toy_error;
  json_registration_start _ := inl "no JSON";
  json_registration_finish _ := inl toy_error;
  payload_text req := inr (rq_payload req);
  json_graphql _ := inl toy_error;
  query_graphql s := inr match RustStd.split_once "&"%char s with
                         | Some (q, v) => mk_get_graphql q None (Some v)
                         | None => mk_get_graphql s None None
                         end;
  content_type_error := toy_error;
  serialize_error := toy_error;
  method_not_allowed := mk_response 405 [] NoBody;
  resource_not_found := mk_response 404 [] NoBody;
  not_routed _ := mk_response 404 [] NoBody;
  read_file := toy_pages;
  serve_directory _ _ _ := Failed toy_error;
|}.
#[local] Existing Instance toy_http.

Lemma strip_text_app p s : strip_text p (p +:+ s) = Some s.
Proof.
  induction p as [|a p IH]; [done|]. change (String a p +:+ s) with (String a (p +:+ s)). cbn. by rewrite Ascii.eqb_refl.
Qed.
Lemma toy_http_laws : HttpLaws toy_http.
Proof.
  constructor. intros c h t [= <-]. change (bearer_from_request (HttpLib := toy_http) (Some ("Bearer " +:+ c)))
    with (match strip_text "Bearer " ("Bearer " +:+ c) with Some t => inr t | None => inl (mk_response 401 [] NoBody) end).
  rewrite strip_text_app. congruence.
Qed.
#[local] Existing Instance toy_http_laws.

Definition bob_login : outcome TcpError HttpResponse * AppState World :=
  get_login_successful_response "" uid_bob example_app.
Definition bob_token : string := response_token (fst bob_login).
Definition api_request (m : Method) (cookie : option string) (query payload : string) : HttpRequest :=
  mk_http_request m ["api"; "graphql"] query (Some "Bearer something else") None "application/graphql"
    match cookie with Some t => [("token", t)] | None => [] end payload.

Lemma serve_refines_witness :
  presented_token (api_request POST (Some bob_token) "" "rename") = Some bob_token
  /\ exists r, serve "" true (api_request POST None "" "rename") (snd bob_login) = (Ok (Failed r), snd bob_login).
Proof.
  destruct (serve_refines "" true (api_request POST None "" "rename") (snd bob_login)) as (_ & _ & Hf).
  split; [vm_compute; reflexivity|]. apply Hf; [reflexivity|]. intros t v Ht. vm_compute in Ht. injection Ht as <-. vm_compute. congruence.
Defined.

Lemma graphql_served_witness :
  exists w', serve "" true (api_request POST (Some bob_token) "" "rename") (snd bob_login)
    = (Ok (Answered 200 "application/json" "done"), mk_app w' ∅)
  /\ ur_display_name <$> db_users (w_db w') !! uid_bob = Some (Some "Bobby").
Proof.
  pose (w' := snd (run_mutation bob_regular (MUpdateUser (rename_bob "bob")) (app_backend (snd bob_login)))).
  exists w'. split; [|vm_compute; reflexivity].
  apply (graphql_served "" true (api_request POST (Some bob_token) "" "rename") (snd bob_login) bob_token bob_regular "rename"
    (mk_graphql_reply (Some "done") true) w' "done"); [reflexivity|vm_compute; reflexivity|vm_compute; reflexivity| |reflexivity].
  split; [reflexivity|]. split; [reflexivity|]. vm_compute. reflexivity.
Defined.

Lemma http_regular_user_witness :
  let s' := snd (serve "" true (api_request POST (Some bob_token) "" "rename") (snd bob_login)) in
  only_own uid_bob (w_db (app_backend (snd bob_login))) (w_db (app_backend s')).
Proof.
  destruct (http_regular_user "" true (api_request POST (Some bob_token) "" "rename") (snd bob_login)) as (_ & _ & H).
  - vm_compute. congruence.
  - intros t v Ht Hv. assert (t = bob_token) as -> by (vm_compute in Ht; vm_compute; congruence).
    assert (v = bob_regular) as -> by (vm_compute in Hv; vm_compute; congruence). reflexivity.
  - apply (H bob_token bob_regular); vm_compute; reflexivity.
Defined.

(** A [GET] whose [variables] are no JSON kills the handler. *)
Example malformed_variables_panic :
  exists p, fst (serve "" true (api_request GET (Some bob_token) "bob&x" "") (snd bob_login)) = Panic p
  /\ fst (serve "" true (api_request GET (Some bob_token) "bob&{}" "") (snd bob_login)) = Ok (Answered 200 "application/json" "Bob").
Proof. eexists. split; vm_compute; reflexivity. Qed.

(** The page's address, for the URLs [http://host/lldap] and [http://host/lldap/]. *)
Example base_path_doubled :
  let page url := fst (serve url true (mk_http_request GET ["login"] "" None None "" [] "") example_app) in
  page "/lldap" = Ok (Answered 200 "text/html; charset=utf-8" ("<head>" +:+ base_element "/lldap/" +:+ "</head>"))
  /\ page "/lldap/" = Ok (Answered 200 "text/html; charset=utf-8" ("<head>" +:+ base_element "/lldap//" +:+ "</head>")).
Proof. split; vm_compute; reflexivity. Qed.
End Examples.
