(* ===== verification/MigrationTool.v ===== *)
(** * The migration tool

    Models [migration-tool/src/]: reading users and groups from another LDAP server
    and adding them, with their memberships, to LLDAP through its GraphQL API.  The
    LDAP library, the HTTP client and the terminal library are parameters: an LDAP
    client is the function that answers searches, the LLDAP server any instance of
    [LldapServer], and the terminal the answers its user will give, of which a prompt
    takes the next one its validation accepts.  What is printed is left out. *)

From S2P Require Import Prelude RustStd Extern Types GraphqlMutation.
From Stdlib Require Import Ascii String.
From stdpp Require Import strings list gmap.
#[local] Open Scope rust_scope.
#[local] Open Scope string_scope.

(* ------------------------------------------------------------------ *)
(** ** Texts *)

(** [s.find(pat)], [s.contains(pat)], [s.starts_with(pat)], [s.ends_with(pat)] and
    [s.trim_start_matches(pat)]. *)
Definition str_find (pat s : string) : option nat := String.index 0 pat s.
Definition str_contains (pat s : string) : bool := bool_decide (is_Some (str_find pat s)).
Definition starts_with (pat s : string) : bool := String.prefix pat s.
Definition ends_with (pat s : string) : bool :=
  (String.length pat <=? String.length s)%nat
  && String.eqb (String.substring (String.length s - String.length pat) (String.length pat) s) pat.
Definition trim_start_matches (pat s : string) : string := trim_while [codes pat] (String.length s) s.

(** Source: migration-tool/src/ldap.rs#pub fn check_host_exists *)
Fixpoint check_host_exists (to_socket_addrs : string -> bool) (url : string) (protocol_and_port : list (string * Z)) :
    string + option string :=
  match protocol_and_port with
  | [] => inr None
  | (protocol, port) :: rest =>
      if starts_with protocol url then
        let trimmed_url := trim_start_matches protocol url in
        if to_socket_addrs trimmed_url then inr (Some url)
        else
          let new_url := trimmed_url +:+ ":" +:+ i64_to_string port in
          if to_socket_addrs new_url then inr (Some (protocol +:+ new_url))
          else inl ("Could not resolve host: '" +:+ trimmed_url +:+ "'")
      else check_host_exists to_socket_addrs url rest
  end.

(** Source: migration-tool/src/ldap.rs#fn autocomplete_domain_suffix *)
Definition autocomplete_domain_suffix (input domain : string) : list string :=
  (flat_map (fun part =>
     if negb (starts_with "d" part) then []
     else if starts_with part domain then [input +:+ trim_start_matches part domain] else []) (RustStd.split ","%char input)
   ++ [input])%list.

(** The name under the domain that an answer stands for.
    Source: migration-tool/src/ldap.rs#L281-286 *)
Definition under_domain (domain answer : string) : string :=
  if negb (ends_with domain answer) then (if String.eqb answer "" then answer else answer +:+ ",") +:+ domain else answer.

(** The domain of a bind name, ["dc=example,dc=com"].
    Source: migration-tool/src/ldap.rs#L430-430 *)
Definition domain_of_bind_dn (bind_dn : string) : outcome AnyError string :=
  let? i := expect "Could not find domain?!" (str_find ",dc=" bind_dn) in
  Ok (String.substring (i + 1) (String.length bind_dn - (i + 1)) bind_dn).

(* ------------------------------------------------------------------ *)
(** ** Entries of the other LDAP server *)

(** [ldap3::SearchEntry]: attributes whose values are all UTF-8, and the others. *)
Record SearchEntry := mk_search_entry {
  se_dn : string;
  se_attrs : gmap string (list string);
  se_bin_attrs : gmap string (list bytes);
}.

(** A connection: the domain, and the answers to searches, by base, filter and attributes. *)
Record LdapClient := mk_ldap_client {
  lc_domain : string;
  lc_search : string -> string -> list string -> outcome AnyError (list SearchEntry);
}.

(** Source: migration-tool/src/lldap.rs#pub struct User *)
Record ToolUser := mk_tool_user {
  tu_user_input : CreateUserInput;
  tu_password : option string;
  tu_dn : string;
}.
(** Source: migration-tool/src/ldap.rs#pub struct LdapGroup *)
Record LdapGroup := mk_ldap_group { lg_name : string; lg_members : list string }.

(** [ldap3::LdapConn]: whether a bind succeeds, and the answers to the searches of the
    user who is bound. *)
Record LdapConn := mk_ldap_conn {
  conn_simple_bind : string -> string -> bool;
  conn_search : string -> string -> string -> list string -> outcome AnyError (list SearchEntry);
}.

(** [r.or_else(|_| r')] *)
Definition or_else {E A} (r r' : outcome E A) : outcome E A := match r with Err _ => r' | r => r end.
Definition opt_or_else {A} (o o' : option A) : option A := match o with Some a => Some a | None => o' end.

Section Entries.
Context `{C : Crates}.

(** Source: migration-tool/src/ldap.rs#impl TryFrom<ResultEntry> for User *)
Definition user_of_entry (entry : SearchEntry) : outcome AnyError ToolUser :=
  let get_required_attribute attr : outcome AnyError string :=
    let? u := ok_or (Message ("Missing " +:+ attr +:+ " for user")) (se_attrs entry !! attr) in
    ok_or (Message ("Too many " +:+ attr +:+ "s")) (head u) in
  let? id := or_else (or_else (get_required_attribute "uid") (get_required_attribute "sAMAccountName"))
               (get_required_attribute "userPrincipalName") in
  let? email := context ("for user '" +:+ id +:+ "'")
                  (or_else (get_required_attribute "mail") (get_required_attribute "rfc822mailbox")) in
  let get_optional_attribute attr : option string :=
    match (se_attrs entry !! attr) ≫= (fun v : list string => head v) with Some s => if String.eqb s "" then None else Some s | None => None end in
  let last_name := opt_or_else (get_optional_attribute "sn") (get_optional_attribute "surname") in
  let display_name :=
    opt_or_else (get_optional_attribute "cn") (opt_or_else (get_optional_attribute "commonName")
      (opt_or_else (get_optional_attribute "name") (get_optional_attribute "displayName"))) in
  let first_name := get_optional_attribute "givenName" in
  let photos : option (list bytes) :=
    opt_or_else (map into_bytes <$> (se_attrs entry !! "jpegPhoto")) (se_bin_attrs entry !! "jpegPhoto") in
  let avatar : option bytes := photos ≫= (fun v : list bytes => match head v with Some [] => None | b => b end) in
  let password := opt_or_else (get_optional_attribute "userPassword") (get_optional_attribute "password") in
  Ok (mk_tool_user
        (mk_create_user_input id email display_name first_name last_name (base64_encode <$> avatar) None)
        password (se_dn entry)).

(** An attribute without values panics.
    Source: migration-tool/src/ldap.rs#impl TryFrom<ResultEntry> for LdapGroup *)
Definition group_of_entry (entry : SearchEntry) : outcome AnyError LdapGroup :=
  let get_required_attribute attr : outcome AnyError string :=
    let? u := ok_or (Message ("Missing " +:+ attr +:+ " for user")) (se_attrs entry !! attr) in
    if (1 <? length u)%nat then Err (Message ("Too many " +:+ attr +:+ "s"))
    else expect "called `Option::unwrap()` on a `None` value" (head u) in
  let? name := or_else (or_else (or_else (get_required_attribute "cn") (get_required_attribute "commonName"))
                 (get_required_attribute "displayName")) (get_required_attribute "name") in
  let members := default [] (opt_or_else (se_attrs entry !! "member") (se_attrs entry !! "uniqueMember")) in
  Ok (mk_ldap_group name members).
End Entries.

(* ------------------------------------------------------------------ *)
(** ** The terminal *)

Inductive Choice := Skip | Retry | SkipGroup | SkipAll | Abort.
#[global] Instance choice_eq_dec : EqDecision Choice.
Proof. solve_decision. Defined.

(** The answers to come, by kind of question, as [prompt_one] returns them (a default is
    filled in). *)
Record Terminal := mk_terminal {
  tm_confirms : list bool;
  tm_texts : list string;
  tm_choices : list Choice;
}.

(** The LLDAP server and the terminal. *)
Record ToolState (S : Type) := mk_tool_state { ts_server : S; ts_terminal : Terminal }.
Arguments mk_tool_state {S} _ _.
Arguments ts_server {S} _.
Arguments ts_terminal {S} _.

(** A group as the query [list_groups] returns it.
    Source: migration-tool/src/lldap.rs#pub type LldapGroup *)
Record LldapGroup := mk_lldap_group { ll_id : Z; ll_display_name : string; ll_users : list string }.

(** The GraphQL requests the tool posts. *)
Class LldapServer (S : Type) : Type := {
  post_create_user : CreateUserInput -> stM S AnyError string;
  post_create_group : string -> stM S AnyError Z;
  post_add_user_to_group : string -> Z -> stM S AnyError unit;
  post_list_users : stM S AnyError (list string);
  post_list_groups : stM S AnyError (list LldapGroup);
}.

(** [GraphQLClient::post], when the answer arrives: an error of the resolver leaves no data.
    Source: migration-tool/src/lldap.rs#pub fn post *)
Definition post {S A} (field : stM S string A) : stM S AnyError A :=
  smap_err (fun e => WithContext "GraphQL error from an LLDAP response" (Message ("Errors: [" +:+ e +:+ "]"))) field.

(** The first answer that is accepted; the ones before it are not. *)
Fixpoint next_accepted {A} (accept : A -> bool) (l : list A) : option (A * list A) :=
  match l with
  | [] => None
  | a :: l => if accept a then Some (a, l) else next_accepted accept l
  end.

Section Tool.
Context {S : Type} `{LS : !LldapServer S} `{C : Crates}.
Abbreviation Tool A := (stM (ToolState S) AnyError A).

Definition on_server {A} (m : stM S AnyError A) : Tool A :=
  szoom ts_server (fun t s => mk_tool_state t (ts_terminal s)) m.

(** [prompt_one(question)]: an error when the terminal is closed. *)
Definition prompt_confirm : Tool bool := fun s =>
  let t := ts_terminal s in
  match tm_confirms t with
  | [] => (bail "terminal closed", s)
  | b :: l => (Ok b, mk_tool_state (ts_server s) (mk_terminal l (tm_texts t) (tm_choices t)))
  end.
Definition prompt_text (validate : string -> bool) : Tool string := fun s =>
  let t := ts_terminal s in
  match next_accepted validate (tm_texts t) with
  | None => (bail "terminal closed", mk_tool_state (ts_server s) (mk_terminal (tm_confirms t) [] (tm_choices t)))
  | Some (a, l) => (Ok a, mk_tool_state (ts_server s) (mk_terminal (tm_confirms t) l (tm_choices t)))
  end.
Definition prompt_select (choices : list Choice) : Tool Choice := fun s =>
  let t := ts_terminal s in
  match next_accepted (fun c => bool_decide (c ∈ choices)) (tm_choices t) with
  | None => (bail "terminal closed", mk_tool_state (ts_server s) (mk_terminal (tm_confirms t) (tm_texts t) []))
  | Some (a, l) => (Ok a, mk_tool_state (ts_server s) (mk_terminal (tm_confirms t) (tm_texts t) l))
  end.

(** Source: migration-tool/src/main.rs#fn ask_generic_confirmation *)
Definition ask_generic_confirmation : Tool bool := prompt_confirm.

(* ------------------------------------------------------------------ *)
(** ** Connecting *)

(** The other LDAP servers that the tool can reach, and the names they listen to.  A name
    is resolved, and a server connected to, when an answer is validated and again once it
    is accepted: the second time may fail although the first did not. *)
Class LdapNetwork : Type := {
  to_socket_addrs : string -> bool;
  ldap_conn_accepted : string -> bool;
  to_socket_addrs_again : string -> bool;
  ldap_conn_new : string -> outcome AnyError LdapConn;
}.

Definition ldap_protocols : list (string * Z) := [("ldap://", 389%Z); ("ldaps://", 636%Z)].
Definition http_protocols : list (string * Z) := [("http://", 17170%Z); ("https://", 17170%Z)].

(** [check_host_exists(..).unwrap().unwrap()] *)
Definition unwrap_host (r : string + option string) : outcome AnyError string :=
  let? o := match r with
            | inr o => Ok o
            | inl _ => Panic "called `Result::unwrap()` on an `Err` value"
            end in
  expect "called `Option::unwrap()` on a `None` value" o.

Section Connections.
Context `{N : LdapNetwork}.

(** Whether the answer is accepted, where [probe] tries the address it stands for. *)
Definition host_accepted (protocols : list (string * Z)) (probe : string -> bool) (url : string) : bool :=
  match check_host_exists to_socket_addrs url protocols with
  | inr (Some url) => probe url
  | _ => false
  end.

(** Source: migration-tool/src/ldap.rs#fn get_ldap_url *)
Definition get_ldap_url : Tool string :=
  let! answer := prompt_text (host_accepted ldap_protocols ldap_conn_accepted) in
  slift (unwrap_host (check_host_exists to_socket_addrs_again answer ldap_protocols)).

(** Asks again as long as the server refuses; each round takes two of the answers left.
    Source: migration-tool/src/ldap.rs#fn bind_ldap *)
Fixpoint bind_ldap (fuel : nat) (ldap_connection : LdapConn) : Tool string :=
  match fuel with
  | O => spanic "out of fuel"
  | Datatypes.S fuel =>
      let! binddn := prompt_text (fun dn => str_contains "," dn && str_contains "=" dn) in
      let! password := prompt_text (fun p => negb (String.eqb p "")) in
      if conn_simple_bind ldap_connection binddn password then sret binddn else bind_ldap fuel ldap_connection
  end.

(** Source: migration-tool/src/ldap.rs#pub fn get_ldap_connection *)
Definition get_ldap_connection : Tool LdapClient :=
  let! url := get_ldap_url in
  let! ldap_connection := slift (ldap_conn_new url) in
  let! bind_dn := fun s => bind_ldap (Datatypes.S (length (tm_texts (ts_terminal s)))) ldap_connection s in
  let! domain := slift (domain_of_bind_dn bind_dn) in
  sret (mk_ldap_client domain (conn_search ldap_connection bind_dn)).

(** The server is LLDAP when it refuses the request; [status] is the one of its answer.
    Source: migration-tool/src/lldap.rs#fn get_lldap_server *)
Definition get_lldap_server (graphql_status : string -> option Z) : Tool string :=
  let! answer := prompt_text (host_accepted http_protocols (fun url => bool_decide (graphql_status url = Some 401%Z))) in
  slift (unwrap_host (check_host_exists to_socket_addrs_again answer http_protocols)).

(** Source: migration-tool/src/lldap.rs#pub fn get_lldap_user_and_password *)
Fixpoint get_lldap_user_and_password (fuel : nat) (try_login : string -> string -> stM S AnyError string) : Tool string :=
  match fuel with
  | O => spanic "out of fuel"
  | Datatypes.S fuel =>
      let! username := prompt_text (fun _ => true) in
      let! password := prompt_text (fun p => negb (String.eqb p "")) in
      let! r := stry (on_server (try_login username password)) in
      match r with
      | inr token => sret token
      | inl _ => get_lldap_user_and_password fuel try_login
      end
  end.

(** The address and the token of the session.
    Source: migration-tool/src/lldap.rs#pub fn get_lldap_client *)
Definition get_lldap_client (graphql_status : string -> option Z)
    (try_login : string -> string -> string -> stM S AnyError string) : Tool (string * string) :=
  let! lldap_server := get_lldap_server graphql_status in
  let! token := fun s => get_lldap_user_and_password (Datatypes.S (length (tm_texts (ts_terminal s)))) (try_login lldap_server) s in
  sret (lldap_server, token).
End Connections.

(* ------------------------------------------------------------------ *)
(** ** Reading the other server *)

Inductive OuType := OuUser | OuGroup.

(** Source: migration-tool/src/ldap.rs#fn detect_ou *)
Definition detect_ou (ldap : LdapClient) (domain : string) (for_type : OuType) :
    outcome AnyError (option string * list string) :=
  let? ous := lc_search ldap domain "(objectClass=organizationalUnit)" ["dn"] in
  let is_ou dn := match for_type with
                  | OuUser => str_contains "user" dn || str_contains "people" dn || str_contains "person" dn
                  | OuGroup => str_contains "group" dn
                  end in
  let all_ous := map se_dn ous in
  Ok (foldl (fun detected dn => if is_ou dn then Some dn else detected) None all_ous, all_ous).

Definition user_filter : string :=
  "(|(objectClass=inetOrgPerson)(objectClass=person)(objectClass=mailAccount)(objectClass=posixAccount)(objectClass=user)(objectClass=organizationalPerson))".
Definition user_attributes_read : list string :=
  ["uid"; "sAMAccountName"; "userPrincipalName"; "mail"; "rfc822mailbox"; "givenName"; "sn"; "surname"; "cn";
   "commonName"; "displayName"; "name"; "userPassword"].
Definition group_filter : string :=
  "(|(objectClass=group)(objectClass=groupOfNames)(objectClass=groupOfUniqueNames))".
Definition group_attributes_read : list string := ["cn"; "commonName"; "displayName"; "name"; "member"; "uniqueMember"].

(** The place that was detected is the default answer of the prompt, and with the others
    it completes what is typed.
    Source: migration-tool/src/ldap.rs#pub fn get_users *)
Definition get_users (ldap : LdapClient) : Tool (list ToolUser) :=
  let domain := lc_domain ldap in
  let! '(maybe_user_ou, all_ous) := slift (detect_ou ldap domain OuUser) in
  let! answer := prompt_text (str_contains "=") in
  let user_ou := under_domain domain answer in
  let! users := slift (lc_search ldap user_ou user_filter user_attributes_read) in
  slift (try_map user_of_entry users).

(** Source: migration-tool/src/ldap.rs#pub fn get_groups *)
Definition get_groups (ldap : LdapClient) : Tool (list LdapGroup) :=
  let domain := lc_domain ldap in
  let! '(maybe_group_ou, all_ous) := slift (detect_ou ldap domain OuGroup) in
  let! answer := prompt_text (str_contains "=") in
  let group_ou := under_domain domain answer in
  let! groups := slift (lc_search ldap group_ou group_filter group_attributes_read) in
  slift (try_map group_of_entry groups).

(* ------------------------------------------------------------------ *)
(** ** Adding to LLDAP *)

(** The loop around one request: until it succeeds or its user gives up.  [skip] says
    that errors are skipped without a question; the result is the answer, if any,
    with the choice made.  Each turn after the first takes one answer.
    Source: migration-tool/src/lldap.rs#L239-278 *)
Fixpoint attempt {A} (fuel : nat) (request : stM S AnyError A) (choices : list Choice) (skip : bool) :
    Tool (option A * option Choice) :=
  match fuel with
  | O => spanic "out of fuel"
  | Datatypes.S fuel =>
      let! r := stry (on_server request) in
      match r with
      | inr a => sret (Some a, None)
      | inl e =>
          if skip then sret (None, None)
          else
            let! choice := prompt_select choices in
            match choice with
            | Retry => attempt fuel request choices skip
            | Abort => sthrow e
            | c => sret (None, Some c)
            end
      end
  end.
(** As many turns as there are answers left, and one. *)
Definition attempts {A} (request : stM S AnyError A) (choices : list Choice) (skip : bool) :
    Tool (option A * option Choice) := fun s =>
  attempt (Datatypes.S (length (tm_choices (ts_terminal s)))) request choices skip s.

(** The rest of the users; [skip_all] and the ids known so far.
    Source: migration-tool/src/lldap.rs#pub fn insert_users_into_lldap *)
Fixpoint insert_users_into_lldap (users : list ToolUser) (existing_users : list string) (skip_all : bool) :
    Tool (list string) :=
  match users with
  | [] => sret existing_users
  | user :: users =>
      let! '(response, choice) :=
        attempts (smap_err (WithContext ("while creating user '" +:+ cui_id (tu_user_input user) +:+ "'"))
                    (post_create_user (tu_user_input user)))
          [Skip; Retry; SkipAll; Abort] skip_all in
      insert_users_into_lldap users
        (match response with Some id => existing_users ++ [id] | None => existing_users end)%list
        (skip_all || bool_decide (choice = Some SkipAll))
  end.

(** The loop over the groups to add.
    Source: migration-tool/src/lldap.rs#L297-341 *)
Fixpoint insert_new_groups (new_groups : list LdapGroup) (lldap_groups : list LldapGroup) (skip_all : bool) :
    Tool (list LldapGroup) :=
  match new_groups with
  | [] => sret lldap_groups
  | group :: new_groups =>
      let! '(response, choice) :=
        attempts (smap_err (WithContext ("while creating group '" +:+ lg_name group +:+ "'")) (post_create_group (lg_name group)))
          [Skip; Retry; SkipAll; Abort] skip_all in
      insert_new_groups new_groups
        (match response with Some id => lldap_groups ++ [mk_lldap_group id (lg_name group) []] | None => lldap_groups end)%list
        (skip_all || bool_decide (choice = Some SkipAll))
  end.
(** The groups whose name, as it is written, LLDAP does not have.
    Source: migration-tool/src/lldap.rs#L291-296 *)
Definition new_groups_of (groups : list LdapGroup) (lldap_groups : list LldapGroup) : list LdapGroup :=
  filter (fun g => lg_name g ∉ map ll_display_name lldap_groups) groups.
(** Source: migration-tool/src/lldap.rs#pub fn insert_groups_into_lldap *)
Definition insert_groups_into_lldap (groups : list LdapGroup) (lldap_groups : list LldapGroup) : Tool (list LldapGroup) :=
  insert_new_groups (new_groups_of groups lldap_groups) lldap_groups false.

(** Source: migration-tool/src/lldap.rs#pub fn get_lldap_users *)
Definition get_lldap_users : Tool (list string) := on_server post_list_users.
(** Source: migration-tool/src/lldap.rs#pub fn get_lldap_groups *)
Definition get_lldap_groups : Tool (list LldapGroup) := on_server post_list_groups.

(** [HashMap::from_iter]: the last value of a key counts. *)
Definition hash_map {A} (l : list (string * A)) : gmap string A := list_to_map (reverse l).

(** The members of the group [name]; [skip_all] and [skip_group], and whether to skip everything
    from here on.
    Source: migration-tool/src/lldap.rs#L391-450 *)
Fixpoint insert_members (name : string) (group : LldapGroup) (members : list string) (dn_resolver : gmap string string)
    (existing_users : list string) (skip_all skip_group : bool) : Tool bool :=
  match members with
  | [] => sret skip_all
  | dn :: members =>
      match dn_resolver !! dn with
      | None => insert_members name group members dn_resolver existing_users skip_all skip_group
      | Some user =>
          if bool_decide (user ∈ ll_users group) || negb (bool_decide (user ∈ existing_users))
          then insert_members name group members dn_resolver existing_users skip_all skip_group
          else
            let! '(_, choice) :=
              attempts (smap_err (WithContext ("while adding user '" +:+ user +:+ "' to group '" +:+ name +:+ "'"))
                          (post_add_user_to_group user (ll_id group)))
                [Skip; Retry; SkipGroup; SkipAll; Abort] (skip_all || skip_group) in
            insert_members name group members dn_resolver existing_users
              (skip_all || bool_decide (choice = Some SkipAll)) (skip_group || bool_decide (choice = Some SkipGroup))
      end
  end.

(** Source: migration-tool/src/lldap.rs#L387-452 *)
Fixpoint insert_memberships (groups : list LdapGroup) (existing_groups : gmap string LldapGroup)
    (dn_resolver : gmap string string) (existing_users : list string) (skip_all : bool) : Tool unit :=
  match groups with
  | [] => sret tt
  | group :: groups =>
      let! skip_all := match existing_groups !! lg_name group with
                       | Some lldap_group => insert_members (lg_name group) lldap_group (lg_members group) dn_resolver existing_users skip_all false
                       | None => sret skip_all
                       end in
      insert_memberships groups existing_groups dn_resolver existing_users skip_all
  end.

(** Source: migration-tool/src/lldap.rs#pub fn insert_group_memberships_into_lldap *)
Definition insert_group_memberships_into_lldap (ldap_users : list ToolUser) (ldap_groups : list LdapGroup)
    (existing_users : list string) (existing_groups : list LldapGroup) : Tool unit :=
  let existing_groups := hash_map (map (fun g => (ll_display_name g, g)) existing_groups) in
  let dn_resolver := hash_map (map (fun u => (tu_dn u, cui_id (tu_user_input u))) ldap_users) in
  insert_memberships ldap_groups existing_groups dn_resolver existing_users false.

(* ------------------------------------------------------------------ *)
(** ** The program *)

(** The users LLDAP does not have, compared as they are written.
    Source: migration-tool/src/main.rs#L24-30 *)
Definition new_users_of (users : list ToolUser) (existing_users : list string) : list ToolUser :=
  filter (fun u => cui_id (tu_user_input u) ∉ existing_users) users.

(** Source: migration-tool/src/main.rs#fn get_users_to_add *)
Definition get_users_to_add (users : list ToolUser) (existing_users : list string) : Tool (option (list ToolUser)) :=
  let input_users := new_users_of users existing_users in
  match input_users with
  | [] => sret None
  | _ => let! proceed := ask_generic_confirmation in sret (if proceed : bool then Some input_users else None)
  end.

(** Source: migration-tool/src/main.rs#fn should_insert_groups *)
Definition should_insert_groups (input_groups : list LdapGroup) (existing_groups : list LldapGroup) : Tool bool :=
  match new_groups_of input_groups existing_groups with
  | [] => sret false
  | _ => ask_generic_confirmation
  end.

(** Source: migration-tool/src/main.rs#fn migrate_groups *)
Definition migrate_groups (ldap : LdapClient) : Tool (option (list LdapGroup * list LldapGroup)) :=
  let! import := ask_generic_confirmation in
  if (import : bool) then
    let! existing_groups := get_lldap_groups in
    let! ldap_groups := get_groups ldap in
    let! insert := should_insert_groups ldap_groups existing_groups in
    let! existing_groups := if (insert : bool) then insert_groups_into_lldap ldap_groups existing_groups else sret existing_groups in
    sret (Some (ldap_groups, existing_groups))
  else sret None.

(** Source: migration-tool/src/main.rs#fn migrate_users *)
Definition migrate_users (ldap : LdapClient) : Tool (option (list ToolUser * list string)) :=
  let! import := ask_generic_confirmation in
  if (import : bool) then
    let! existing_users := get_lldap_users in
    let! users := get_users ldap in
    let! users_to_add := get_users_to_add users existing_users in
    let! existing_users := match users_to_add with
                           | Some users_to_add => insert_users_into_lldap users_to_add existing_users false
                           | None => sret existing_users
                           end in
    sret (Some (users, existing_users))
  else sret None.

(** Source: migration-tool/src/main.rs#fn migrate_memberships *)
Definition migrate_memberships (user_list : option (list ToolUser * list string))
    (group_list : option (list LdapGroup * list LldapGroup)) (ldap : LdapClient) : Tool unit :=
  let! ldap_users := match user_list with Some (u, _) => sret u | None => get_users ldap end in
  let! ldap_groups := match group_list with Some (g, _) => sret g | None => get_groups ldap end in
  let! existing_groups := match group_list with Some (_, g) => sret g | None => get_lldap_groups end in
  let! existing_users := match user_list with Some (_, u) => sret u | None => get_lldap_users end in
  insert_group_memberships_into_lldap ldap_users ldap_groups existing_users existing_groups.

(** [main] once the two connections are made.
    Source: migration-tool/src/main.rs#L197-206 *)
Definition run_tool (ldap : LdapClient) : Tool unit :=
  let! user_list := migrate_users ldap in
  let! group_list := migrate_groups ldap in
  let! import := ask_generic_confirmation in
  if (import : bool) then migrate_memberships user_list group_list ldap else sret tt.

(** The requests of the session go to the server that was chosen.
    Source: migration-tool/src/main.rs#fn main *)
Definition main `{N : LdapNetwork} (graphql_status : string -> option Z)
    (try_login : string -> string -> string -> stM S AnyError string) : Tool unit :=
  let! ready := ask_generic_confirmation in
  if (ready : bool) then
    let! ldap_connection := get_ldap_connection in
    get_lldap_client graphql_status try_login ;;
    run_tool ldap_connection
  else sret tt.
End Tool.

(* ------------------------------------------------------------------ *)
(** ** What a run promises *)

(** What a server shows of its state, by the ids it stores; [server_ok] is an invariant
    of it. *)
Class LldapView (S : Type) : Type := {
  server_ok : S -> Prop;
  stored_id : string -> string;
  has_user : S -> string -> Prop;
  has_group : S -> Z -> string -> Prop;
  is_member : S -> string -> Z -> Prop;
}.

(** Nothing is lost between two states. *)
Record grown {S} `{LldapView S} (s s' : S) : Prop := {
  grown_users u : has_user s u -> has_user s' u;
  grown_groups i n : has_group s i n -> has_group s' i n;
  grown_members u i : is_member s u i -> is_member s' u i;
  grown_ok : server_ok s';
}.
Definition grows {S} `{LldapView S} (s s' : S) : Prop := server_ok s -> grown s s'.

#[export] Instance grows_preorder {S} `{LldapView S} : PreOrder (grows (S:=S)).
Proof.
  split; [by split|]. intros s1 s2 s3 H12 H23 Hok. destruct (H12 Hok) as [? ? ? Hok']. destruct (H23 Hok').
  split; auto.
Qed.

(** A listed group is one the server has, with members it has. *)
Definition listed {S} `{LldapView S} (s : S) (g : LldapGroup) : Prop :=
  has_group s (ll_id g) (ll_display_name g) /\ Forall (fun u => is_member s u (ll_id g)) (ll_users g).

(** The requests that the tool sends add what they ask for when they succeed, and
    take nothing away whatever they answer. *)
Class LldapServerLaws {S} (LS : LldapServer S) (LV : LldapView S) : Prop := {
  create_user_grows u s : grows s (snd (post_create_user u s));
  create_user_ok u s id s' : post_create_user u s = (Ok id, s') -> id = stored_id (cui_id u) /\ has_user s' id;
  create_group_grows n s : grows s (snd (post_create_group n s));
  create_group_ok n s i s' : post_create_group n s = (Ok i, s') -> has_group s' i n;
  add_member_grows u i s : grows s (snd (post_add_user_to_group u i s));
  add_member_ok u i s s' : post_add_user_to_group u i s = (Ok tt, s') -> is_member s' (stored_id u) i;
  list_users_readonly : readonly post_list_users;
  list_users_ok s l : server_ok s -> fst (post_list_users s) = Ok l -> Forall (fun u => has_user s u /\ stored_id u = u) l;
  list_groups_readonly : readonly post_list_groups;
  list_groups_ok s l : server_ok s -> fst (post_list_groups s) = Ok l -> Forall (listed s) l;
}.

(** Answers that agree to every step and skip nothing. *)
Definition willing (t : Terminal) : Prop :=
  Forall (fun b => b = true) (tm_confirms t) /\ Forall (fun c => c = Retry \/ c = Abort) (tm_choices t).

(** The users, and the groups, that a search of the other server gives. *)
Definition users_of `{Crates} (ldap : LdapClient) (users : list ToolUser) : Prop :=
  exists base entries, lc_search ldap base user_filter user_attributes_read = Ok entries
    /\ try_map user_of_entry entries = Ok users.
Definition groups_of (ldap : LdapClient) (groups : list LdapGroup) : Prop :=
  exists base entries, lc_search ldap base group_filter group_attributes_read = Ok entries
    /\ try_map group_of_entry entries = Ok groups.

Lemma next_accepted_suffix {A} (accept : A -> bool) l a l' :
  next_accepted accept l = Some (a, l') -> accept a = true /\ exists k : list A, l = (k ++ a :: l')%list.
Proof.
  induction l as [|b l IH]; cbn; [done|]. destruct (accept b) eqn:Hb.
  - intros [= <- <-]. split; [done|]. by exists [].
  - intros [Ha [k ->]]%IH. split; [done|]. by exists (b :: k).
Qed.

Section RunFacts.
Context {S : Type} `{LS : !LldapServer S} `{LV : !LldapView S} {LL : LldapServerLaws LS LV} `{C : Crates}.
Abbreviation Tool A := (stM (ToolState S) AnyError A).

(** From [s0] on, the server has grown, and the answers are as willing. *)
Definition advanced (s0 s : ToolState S) : Prop :=
  grows (ts_server s0) (ts_server s) /\ (willing (ts_terminal s0) -> willing (ts_terminal s)).
#[local] Instance advanced_preorder : PreOrder advanced.
Proof. split; [by split|]. intros ??? [? ?] [? ?]. split; [by etrans|auto]. Qed.

(** Where a run that is agreed to starts. *)
Definition ready (s : ToolState S) : Prop := willing (ts_terminal s) /\ server_ok (ts_server s).
Lemma advanced_ready s0 s : advanced s0 s -> ready s0 -> ready s /\ grown (ts_server s0) (ts_server s).
Proof. intros [Hg Hw] [Hw0 Hok]. pose proof (Hg Hok) as Hgr. split; [|done]. split; [auto|apply Hgr]. Qed.

Definition advances {A} (m : Tool A) : Prop := forall s0, preserves (advanced s0) m.

Lemma advances_run {A} (m : Tool A) s r s' : advances m -> m s = (r, s') -> advanced s s'.
Proof. intros Hm E. change s' with (snd (r, s')). rewrite <- E. by apply Hm. Qed.

Lemma advances_server {A} (m : stM S AnyError A) : (forall s, grows s (snd (m s))) -> advances (on_server m).
Proof.
  intros Hm s0 s Hs. etrans; [exact Hs|]. unfold on_server, szoom.
  specialize (Hm (ts_server s)). destruct (m (ts_server s)) as [r s']. by split.
Qed.

Lemma advances_confirm : advances prompt_confirm.
Proof.
  intros s0 s Hs. etrans; [exact Hs|]. unfold prompt_confirm. destruct (tm_confirms (ts_terminal s)) as [|b l] eqn:E; [done|].
  split; [done|]. unfold willing. rewrite E. intros [Hc ?]. apply Forall_cons in Hc as [_ Hc]. done.
Qed.
Lemma advances_text validate : advances (prompt_text validate).
Proof.
  intros s0 s Hs. etrans; [exact Hs|]. unfold prompt_text. by destruct (next_accepted _ _) as [[a l]|].
Qed.
Lemma advances_select choices : advances (prompt_select choices).
Proof.
  intros s0 s Hs. etrans; [exact Hs|]. unfold prompt_select. destruct (next_accepted _ _) as [[a l]|] eqn:E.
  - apply next_accepted_suffix in E as [_ [k Hk]]. split; [done|]. unfold willing. rewrite Hk. cbn.
    intros [? Hl]. rewrite Forall_app, Forall_cons in Hl. naive_solver.
  - split; [done|]. intros [? _]. by split.
Qed.

Lemma advances_attempts {A} (request : stM S AnyError A) choices skip :
  (forall s, grows s (snd (request s))) -> advances (attempts request choices skip).
Proof.
  intros Hr s0 s. unfold attempts. generalize (Datatypes.S (length (tm_choices (ts_terminal s)))). intros fuel.
  revert s. change (preserves (advanced s0) (attempt fuel request choices skip)).
  pose proof (advances_server request Hr s0). pose proof (advances_select choices s0).
  induction fuel as [|fuel IH]; cbn [attempt]; [auto with stm|]. stm.
Qed.

Lemma on_server_ok {A} (m : stM S AnyError A) s a s' :
  on_server m s = (Ok a, s') -> m (ts_server s) = (Ok a, ts_server s') /\ ts_terminal s' = ts_terminal s.
Proof. unfold on_server, szoom. destruct (m (ts_server s)) as [r sv]. by intros [= -> <-]. Qed.

(** A willing user lets a request fail only by giving up. *)
Lemma attempts_willing {A} (request : stM S AnyError A) choices s r c s' :
  willing (ts_terminal s) -> attempts request choices false s = (Ok (r, c), s') ->
  c = None /\ exists a sv, r = Some a /\ request sv = (Ok a, ts_server s').
Proof.
  unfold attempts. generalize (Datatypes.S (length (tm_choices (ts_terminal s)))). intros fuel. revert s.
  induction fuel as [|fuel IH]; intros s Hw; cbn [attempt]; [done|].
  intros (x & s1 & Hx & Hk)%sbind_ok. unfold stry, on_server, szoom in Hx.
  destruct (request (ts_server s)) as [[a|e|p] sv] eqn:Hr; [| |done]; injection Hx as <- <-.
  - apply sret_ok in Hk as [[= -> ->] ->]. eauto.
  - apply sbind_ok in Hk as (choice & s2 & Hc & Hk). unfold prompt_select in Hc. cbn [ts_terminal] in Hc.
    destruct (next_accepted _ _) as [[d l]|] eqn:E; [|done]. injection Hc as -> <-.
    apply next_accepted_suffix in E as [_ [k E]]. destruct Hw as [Hconf Hw]. rewrite E, Forall_app, Forall_cons in Hw.
    destruct Hw as (_ & [-> | ->] & Hl); [|done]. by apply IH in Hk; [|split].
Qed.

Lemma prompt_confirm_willing (s : ToolState S) b s' :
  willing (ts_terminal s) -> ask_generic_confirmation s = (Ok b, s') -> b = true /\ ts_server s' = ts_server s /\ willing (ts_terminal s').
Proof.
  intros [Hc Hw]. unfold ask_generic_confirmation, prompt_confirm.
  destruct (tm_confirms (ts_terminal s)) as [|d l] eqn:E; [done|]. intros [= <- <-].
  apply Forall_cons in Hc as [-> Hc]. done.
Qed.

(** Each part of the program. *)
Lemma advances_insert_users users existing skip : advances (insert_users_into_lldap users existing skip).
Proof using LL.
  intros s0. revert existing skip. induction users as [|u users IH]; intros; cbn [insert_users_into_lldap]; [auto with stm|].
  apply preserves_bind; [|intros [r c]; apply IH]. apply advances_attempts. intros s.
  unfold smap_err. pose proof (create_user_grows (tu_user_input u) s) as Hg. by destruct (post_create_user _ s).
Qed.
Lemma advances_insert_groups groups known skip : advances (insert_new_groups groups known skip).
Proof using LL.
  intros s0. revert known skip. induction groups as [|g groups IH]; intros; cbn [insert_new_groups]; [auto with stm|].
  apply preserves_bind; [|intros [r c]; apply IH]. apply advances_attempts. intros s.
  unfold smap_err. pose proof (create_group_grows (lg_name g) s) as Hg. by destruct (post_create_group _ s).
Qed.
Lemma advances_insert_members name g members dns existing skip_all skip :
  advances (insert_members name g members dns existing skip_all skip).
Proof using LL.
  intros s0. revert skip_all skip. induction members as [|dn members IH]; intros; cbn [insert_members]; [auto with stm|].
  destruct (dns !! dn) as [u|]; [|apply IH]. case_match; [apply IH|].
  apply preserves_bind; [|intros [r c]; apply IH]. apply advances_attempts. intros s.
  unfold smap_err. pose proof (add_member_grows u (ll_id g) s) as Hg. by destruct (post_add_user_to_group _ _ s).
Qed.
Lemma advances_insert_memberships groups known dns existing skip :
  advances (insert_memberships groups known dns existing skip).
Proof using LL.
  intros s0. revert skip. induction groups as [|g groups IH]; intros; cbn [insert_memberships]; [auto with stm|].
  apply preserves_bind; [|intros; apply IH]. destruct (known !! lg_name g); [apply advances_insert_members|auto with stm].
Qed.
Lemma grows_readonly {A} (m : stM S AnyError A) : readonly m -> forall s, grows s (snd (m s)).
Proof. intros Hm s. by rewrite Hm. Qed.
Lemma advances_list_users : advances get_lldap_users.
Proof using LL. apply advances_server, grows_readonly, list_users_readonly. Qed.
Lemma advances_list_groups : advances get_lldap_groups.
Proof using LL. apply advances_server, grows_readonly, list_groups_readonly. Qed.
Lemma advances_get_users ldap : advances (get_users ldap).
Proof. intros s0. pose proof (fun f => advances_text f s0). unfold get_users. stm. Qed.
Lemma advances_get_groups ldap : advances (get_groups ldap).
Proof. intros s0. pose proof (fun f => advances_text f s0). unfold get_groups. stm. Qed.

(** Under willing answers, a request is repeated until it succeeds. *)
Lemma attempts_done {A} (request : stM S AnyError A) f choices s r c s' :
  willing (ts_terminal s) -> attempts (smap_err f request) choices false s = (Ok (r, c), s') ->
  c = None /\ exists a sv, r = Some a /\ request sv = (Ok a, ts_server s').
Proof.
  intros Hw H. apply attempts_willing in H as (-> & a & sv & -> & H); [|done].
  apply smap_err_ok in H. eauto.
Qed.

Lemma insert_users_done users existing s l s' :
  ready s -> insert_users_into_lldap users existing false s = (Ok l, s') ->
  Forall (has_user (ts_server s)) existing ->
  Forall (has_user (ts_server s')) l /\ existing ⊆ l
  /\ Forall (fun u => stored_id (cui_id (tu_user_input u)) ∈ l) users.
Proof using LL.
  revert existing s. induction users as [|u users IH]; intros existing s Hw; cbn [insert_users_into_lldap].
  - intros [-> ->]%sret_ok He. done.
  - intros ([r c] & s1 & H1 & H2)%sbind_ok He.
    assert (Ha : advanced s s1).
    { eapply advances_run; [|exact H1]. apply advances_attempts. intros sv. unfold smap_err.
      pose proof (create_user_grows (tu_user_input u) sv) as Hg. by destruct (post_create_user _ sv). }
    apply attempts_done in H1 as (-> & id & sv & -> & Hr); [|apply Hw].
    apply create_user_ok in Hr as [-> Hu]. apply advanced_ready in Ha as [Hw1 [Hgu _ _ _]]; [|done].
    apply IH in H2 as (Hl & Hsub & Hus); [|done|].
    + split; [done|]. split; [set_solver|]. constructor; [set_solver|done].
    + apply Forall_app. split; [by eapply Forall_impl|]. by apply Forall_singleton.
Qed.

Lemma listed_grows (s s' : S) g : grown s s' -> listed s g -> listed s' g.
Proof. intros [_ Hg Hm _] [? Hu]. split; [auto|]. eapply Forall_impl; [exact Hu|]. cbn. auto. Qed.

Lemma insert_groups_done groups known s l s' :
  ready s -> insert_new_groups groups known false s = (Ok l, s') ->
  Forall (listed (ts_server s)) known ->
  Forall (listed (ts_server s')) l /\ known ⊆ l /\ Forall (fun g => lg_name g ∈ map ll_display_name l) groups.
Proof using LL.
  revert known s. induction groups as [|g groups IH]; intros known s Hw; cbn [insert_new_groups].
  - intros [-> ->]%sret_ok Hk. done.
  - intros ([r c] & s1 & H1 & H2)%sbind_ok Hk.
    assert (Ha : advanced s s1).
    { eapply advances_run; [|exact H1]. apply advances_attempts. intros sv. unfold smap_err.
      pose proof (create_group_grows (lg_name g) sv) as Hg. by destruct (post_create_group _ sv). }
    apply attempts_done in H1 as (-> & i & sv & -> & Hr); [|apply Hw].
    apply create_group_ok in Hr. apply advanced_ready in Ha as [Hw1 Hgr]; [|done].
    apply IH in H2 as (Hl & Hsub & Hgs); [|done|].
    + split; [done|]. split; [set_solver|]. constructor; [|done].
      apply list_elem_of_fmap. exists (mk_lldap_group i (lg_name g) []). split; [done|]. set_solver.
    + apply Forall_app. split; [eapply Forall_impl; [exact Hk|]; intros x; by apply listed_grows|].
      by apply Forall_singleton.
Qed.

Lemma insert_members_done name g members dns existing s b s' :
  ready s -> insert_members name g members dns existing false false s = (Ok b, s') ->
  Forall (fun u => is_member (ts_server s) u (ll_id g)) (ll_users g) ->
  b = false /\ forall dn u, dn ∈ members -> dns !! dn = Some u -> u ∈ existing -> stored_id u = u ->
    is_member (ts_server s') u (ll_id g).
Proof using LL.
  intros Hw H Hg. revert s Hw H Hg. induction members as [|dn members IH]; intros s Hw; cbn [insert_members].
  - intros [-> ->]%sret_ok _. split; [done|]. by intros ?? ?%not_elem_of_nil.
  - destruct (dns !! dn) as [u|] eqn:Hdn; [|intros H Hg; apply IH in H as [-> H]; set_solver].
    destruct (bool_decide (u ∈ ll_users g) || negb (bool_decide (u ∈ existing))) eqn:Hskip.
    + intros H Hg. pose proof (advances_run _ _ _ _ (advances_insert_members name g members dns existing false false) H) as Ha.
      apply advanced_ready in Ha as [_ Hgr]; [|done].
      apply IH in H as [-> H]; [|done..]. split; [done|]. intros dn' u' [->|Hin]%elem_of_cons Hd He Hst; [|eauto].
      rewrite Hdn in Hd. injection Hd as <-. apply orb_true_iff in Hskip as [Hu|Hu].
      * apply bool_decide_eq_true in Hu. rewrite Forall_forall in Hg. by eapply grown_members, Hg.
      * by rewrite bool_decide_eq_true_2 in Hu.
    + intros ([r c] & s1 & H1 & H2)%sbind_ok Hg.
      assert (Ha : advanced s s1).
      { eapply advances_run; [|exact H1]. apply advances_attempts. intros sv. unfold smap_err.
        pose proof (add_member_grows u (ll_id g) sv) as Hgr. by destruct (post_add_user_to_group _ _ sv). }
      apply attempts_done in H1 as (-> & [] & sv & -> & Hr); [|apply Hw]. apply add_member_ok in Hr.
      apply advanced_ready in Ha as [Hw1 Hgr]; [|done]. cbn in H2.
      pose proof (advances_run _ _ _ _ (advances_insert_members name g members dns existing false false) H2) as Ha'.
      apply advanced_ready in Ha' as [_ Hgr']; [|done]. apply IH in H2 as [-> H]; [|done|].
      * split; [done|]. intros dn' u' [->|Hin]%elem_of_cons Hd He Hst; [|eauto].
        rewrite Hdn in Hd. injection Hd as <-. rewrite Hst in Hr. by eapply grown_members.
      * eapply Forall_impl; [exact Hg|]. cbn. intros x. by apply grown_members.
Qed.

Lemma insert_memberships_done groups known dns existing s s' :
  ready s -> insert_memberships groups known dns existing false s = (Ok tt, s') ->
  map_Forall (fun _ g => listed (ts_server s) g) known ->
  forall g k dn u, g ∈ groups -> known !! lg_name g = Some k -> dn ∈ lg_members g -> dns !! dn = Some u ->
    u ∈ existing -> stored_id u = u -> is_member (ts_server s') u (ll_id k).
Proof using LL.
  revert s. induction groups as [|g groups IH]; intros s Hw; cbn [insert_memberships].
  - intros _ _ ???? ?%not_elem_of_nil. done.
  - intros (b & s1 & H1 & H2)%sbind_ok Hk g' k dn u Hin Hg' Hdn Hu He Hst.
    assert (Hs1 : advanced s s1).
    { destruct (known !! lg_name g); [|by apply sret_ok in H1 as [_ ->]].
      eapply advances_run; [apply advances_insert_members|exact H1]. }
    assert (b = false) as ->.
    { destruct (known !! lg_name g) as [k'|] eqn:Hk'; [|by apply sret_ok in H1 as [-> _]].
      apply insert_members_done in H1 as [-> _]; [done..|]. apply (Hk _ _ Hk'). }
    apply advanced_ready in Hs1 as [Hw1 Hgr]; [|done]. apply elem_of_cons in Hin as [->|Hin].
    + rewrite Hg' in H1. apply insert_members_done in H1 as [_ H1]; [|done|apply (Hk _ _ Hg')].
      pose proof (advances_run _ _ _ _ (advances_insert_memberships groups known dns existing false) H2) as Ha'.
      apply advanced_ready in Ha' as [_ Hgr']; [|done]. eapply grown_members; [done|]. eauto.
    + eapply (IH s1); eauto. eapply map_Forall_impl; [exact Hk|]. cbn. intros ??. by apply listed_grows.
Qed.

Lemma hash_map_lookup {A} (l : list (string * A)) k x : hash_map l !! k = Some x -> (k, x) ∈ l.
Proof. intros H%elem_of_list_to_map_2. by rewrite <- elem_of_reverse. Qed.
Lemma hash_map_is_Some {A} (l : list (string * A)) k : k ∈ l.*1 -> is_Some (hash_map l !! k).
Proof.
  intros Hk. destruct (hash_map l !! k) eqn:E; [by eexists|]. apply not_elem_of_list_to_map_2 in E.
  rewrite fmap_reverse, elem_of_reverse in E. done.
Qed.
Lemma hash_map_unique {A} (l : list (string * A)) k x : NoDup l.*1 -> (k, x) ∈ l -> hash_map l !! k = Some x.
Proof.
  intros Hn Hx. apply elem_of_list_to_map_1; [|by rewrite elem_of_reverse].
  rewrite fmap_reverse. by rewrite (reverse_Permutation l.*1).
Qed.

Lemma prompt_text_server validate (s : ToolState S) a s' :
  prompt_text validate s = (Ok a, s') -> ts_server s' = ts_server s /\ (willing (ts_terminal s) -> willing (ts_terminal s')).
Proof. unfold prompt_text. destruct (next_accepted _ _) as [[x l]|]; [|done]. by intros [= <- <-]. Qed.

Lemma get_users_done ldap (s : ToolState S) users s' :
  get_users ldap s = (Ok users, s') ->
  users_of ldap users /\ ts_server s' = ts_server s /\ (willing (ts_terminal s) -> willing (ts_terminal s')).
Proof.
  unfold get_users. intros ([ou ous] & s1 & [_ ->]%slift_ok & H)%sbind_ok.
  apply sbind_ok in H as (a & s2 & Ha%prompt_text_server & H).
  apply sbind_ok in H as (l & s3 & [Hl ->]%slift_ok & [Hu ->]%slift_ok). split; [|done]. by eexists _, l.
Qed.
Lemma get_groups_done ldap (s : ToolState S) groups s' :
  get_groups ldap s = (Ok groups, s') ->
  groups_of ldap groups /\ ts_server s' = ts_server s /\ (willing (ts_terminal s) -> willing (ts_terminal s')).
Proof.
  unfold get_groups. intros ([ou ous] & s1 & [_ ->]%slift_ok & H)%sbind_ok.
  apply sbind_ok in H as (a & s2 & Ha%prompt_text_server & H).
  apply sbind_ok in H as (l & s3 & [Hl ->]%slift_ok & [Hu ->]%slift_ok). split; [|done]. by eexists _, l.
Qed.

Lemma get_lldap_users_done (s : ToolState S) l s' :
  server_ok (ts_server s) ->
  get_lldap_users s = (Ok l, s') -> ts_server s' = ts_server s /\ ts_terminal s' = ts_terminal s
  /\ Forall (fun u => has_user (ts_server s) u /\ stored_id u = u) l.
Proof using LL.
  intros Hok [H Ht]%on_server_ok. pose proof (list_users_readonly (ts_server s)) as Hro. rewrite H in Hro. cbn in Hro.
  rewrite Hro. split; [done|]. split; [done|]. apply list_users_ok; [done|]. by rewrite H.
Qed.
Lemma get_lldap_groups_done (s : ToolState S) l s' :
  server_ok (ts_server s) ->
  get_lldap_groups s = (Ok l, s') -> ts_server s' = ts_server s /\ ts_terminal s' = ts_terminal s
  /\ Forall (listed (ts_server s)) l.
Proof using LL.
  intros Hok [H Ht]%on_server_ok. pose proof (list_groups_readonly (ts_server s)) as Hro. rewrite H in Hro. cbn in Hro.
  rewrite Hro. split; [done|]. split; [done|]. apply list_groups_ok; [done|]. by rewrite H.
Qed.

(** The two lists of a step, agreed to. *)
Lemma migrate_users_done ldap (s : ToolState S) r s' :
  ready s -> migrate_users ldap s = (Ok r, s') ->
  ready s' /\ exists users l, r = Some (users, l) /\ users_of ldap users
    /\ Forall (has_user (ts_server s')) l /\ Forall (fun u => stored_id (cui_id (tu_user_input u)) ∈ l) users.
Proof using LL.
  intros [Hw Hok] (b & s1 & (-> & E1 & Hw1)%prompt_confirm_willing & H)%sbind_ok; [|done].
  rewrite <- E1 in Hok. apply sbind_ok in H as (ex & s2 & (E2 & T2 & He)%get_lldap_users_done & H); [|done].
  apply sbind_ok in H as (users & s3 & (Hu & E3 & Hw3)%get_users_done & H). rewrite T2 in Hw3. specialize (Hw3 Hw1).
  rewrite <- E2, <- E3 in He. rewrite <- E2, <- E3 in Hok. assert (Hr3 : ready s3) by done.
  assert (Hold : forall u, u ∈ users -> u ∈ new_users_of users ex \/ stored_id (cui_id (tu_user_input u)) ∈ ex).
  { intros u Hin. unfold new_users_of. rewrite list_elem_of_filter.
    destruct (decide (cui_id (tu_user_input u) ∈ ex)) as [Hx|]; [|tauto].
    rewrite Forall_forall in He. right. by destruct (He _ Hx) as [_ ->]. }
  assert (He' : Forall (has_user (ts_server s3)) ex) by (eapply Forall_impl; [exact He|]; by intros x []).
  apply sbind_ok in H as (add & s4 & H4 & H). unfold get_users_to_add in H4.
  destruct (new_users_of users ex) as [|u0 new] eqn:Hnew.
  - apply sret_ok in H4 as [-> ->]. apply sbind_ok in H as (l & s5 & [-> ->]%sret_ok & [-> ->]%sret_ok).
    split; [done|]. exists users, ex. split_and!; [done..|]. apply Forall_forall. intros u [Hin|Hin]%Hold; [|done].
    by apply not_elem_of_nil in Hin.
  - apply sbind_ok in H4 as (b & s4' & (-> & E4 & Hw4)%prompt_confirm_willing & [-> ->]%sret_ok); [|done].
    rewrite <- E4 in He', Hok. assert (Hr4 : ready s4') by done. apply sbind_ok in H as (l & s5 & H5 & [-> ->]%sret_ok).
    pose proof (advances_run _ _ _ _ (advances_insert_users _ _ _) H5) as Ha. apply advanced_ready in Ha as [Hr5 _]; [|done].
    apply insert_users_done in H5 as (Hl & Hsub & Hall); [|done..].
    split; [done|]. exists users, l. split_and!; [done..|]. apply Forall_forall. rewrite Forall_forall in Hall.
    intros u [Hin|Hin]%Hold; [by apply Hall|by apply Hsub].
Qed.

Lemma migrate_groups_done ldap (s : ToolState S) r s' :
  ready s -> migrate_groups ldap s = (Ok r, s') ->
  ready s' /\ grown (ts_server s) (ts_server s')
  /\ exists groups l, r = Some (groups, l) /\ groups_of ldap groups
    /\ Forall (listed (ts_server s')) l /\ Forall (fun g => lg_name g ∈ map ll_display_name l) groups.
Proof using LL.
  intros [Hw Hok] (b & s1 & (-> & E1 & Hw1)%prompt_confirm_willing & H)%sbind_ok; [|done].
  apply sbind_ok in H as (ex & s2 & (E2 & T2 & He)%get_lldap_groups_done & H); [|by rewrite E1].
  apply sbind_ok in H as (groups & s3 & (Hg & E3 & Hw3)%get_groups_done & H). rewrite T2 in Hw3. specialize (Hw3 Hw1).
  rewrite <- E2, <- E3 in He. rewrite <- E1, <- E2, <- E3 in Hok |- *. clear s1 s2 E1 E2 E3 T2 Hw1 Hw.
  assert (Hr3 : ready s3) by done. assert (Hrefl : grown (ts_server s3) (ts_server s3)) by (by split).
  assert (Hold : forall g, g ∈ groups -> g ∈ new_groups_of groups ex \/ lg_name g ∈ map ll_display_name ex).
  { intros g Hin. unfold new_groups_of. rewrite list_elem_of_filter.
    destruct (decide (lg_name g ∈ map ll_display_name ex)); [by right|by left]. }
  apply sbind_ok in H as (b & s4 & H4 & H). unfold should_insert_groups in H4. unfold insert_groups_into_lldap in H.
  destruct (new_groups_of groups ex) as [|g0 new] eqn:Hnew.
  - apply sret_ok in H4 as [-> ->]. apply sbind_ok in H as (l & s5 & [-> ->]%sret_ok & [-> ->]%sret_ok).
    split; [done|]. split; [done|]. exists groups, ex. split_and!; [done..|]. apply Forall_forall.
    intros g [Hin|Hin]%Hold; [|done]. by apply not_elem_of_nil in Hin.
  - apply prompt_confirm_willing in H4 as (-> & E4 & Hw4); [|done].
    rewrite <- E4 in He, Hok |- *. assert (Hr4 : ready s4) by done. apply sbind_ok in H as (l & s5 & H5 & [-> ->]%sret_ok).
    pose proof (advances_run _ _ _ _ (advances_insert_groups _ _ _) H5) as Ha. apply advanced_ready in Ha as [Hr5 Hgr]; [|done].
    apply insert_groups_done in H5 as (Hl & Hsub & Hall); [|done..].
    split; [done|]. split; [done|]. exists groups, l. split_and!; [done..|]. apply Forall_forall. rewrite Forall_forall in Hall.
    intros g [Hin|Hin]%Hold; [by apply Hall|]. apply list_elem_of_fmap in Hin as (k & -> & Hk).
    apply list_elem_of_fmap. exists k. split; [done|]. by apply Hsub.
Qed.

(** C24. A willing run of the migration tool migrates everything.  If its user agrees
    to every step, never skips a failed request, and the run ends well, then every
    user that the search of the other server gave is in LLDAP, every group is there
    under its name, and every user is a member of the groups that list its DN: of
    those whose id LLDAP stores as it is written, when no two users share a DN. *)
Theorem migration_complete ldap (s : ToolState S) s' :
  ready s -> run_tool ldap s = (Ok tt, s') ->
  exists users groups, users_of ldap users /\ groups_of ldap groups
    /\ (forall u, u ∈ users -> has_user (ts_server s') (stored_id (cui_id (tu_user_input u))))
    /\ forall g, g ∈ groups -> exists i, has_group (ts_server s') i (lg_name g)
      /\ (NoDup (map tu_dn users) -> forall u, u ∈ users -> tu_dn u ∈ lg_members g ->
            stored_id (cui_id (tu_user_input u)) = cui_id (tu_user_input u) ->
            is_member (ts_server s') (cui_id (tu_user_input u)) i).
Proof using LL.
  intros Hw (ul & s1 & (Hw1 & users & l & -> & Hu & Hl & Hin)%migrate_users_done & H)%sbind_ok; [|done].
  apply sbind_ok in H as (gl & s2 & (Hw2 & Hgr & groups & k & -> & Hg & Hk & Hgin)%migrate_groups_done & H); [|done].
  apply sbind_ok in H as (b & s3 & (-> & E3 & Hw3)%prompt_confirm_willing & H); [|apply Hw2].
  assert (Hr3 : ready s3) by (split; [done|rewrite E3; apply Hw2]).
  unfold migrate_memberships in H. repeat (apply sbind_ok in H as (? & ? & [-> ->]%sret_ok & H)).
  unfold insert_group_memberships_into_lldap in H.
  pose proof (advances_run _ _ _ _ (advances_insert_memberships _ _ _ _ _) H) as Ha.
  apply advanced_ready in Ha as [_ Hgr']; [|done]. rewrite E3 in Hgr'.
  set (known := hash_map (map (fun g => (ll_display_name g, g)) k)) in H.
  assert (Hkn : forall n x, known !! n = Some x -> n = ll_display_name x /\ listed (ts_server s2) x).
  { intros n x Hx%hash_map_lookup. apply list_elem_of_fmap in Hx as (x' & [= -> ->] & Hx). rewrite Forall_forall in Hk. auto. }
  pose proof (insert_memberships_done _ known _ _ _ _ Hr3 H) as Hm.
  exists users, groups. split_and!; [done..| |].
  - intros u Hx. rewrite !Forall_forall in *. apply (grown_users _ _ Hgr'), (grown_users _ _ Hgr), Hl, Hin, Hx.
  - intros g Hx. rewrite Forall_forall in Hgin. specialize (Hgin g Hx).
    assert (is_Some (known !! lg_name g)) as [x Hkx].
    { apply hash_map_is_Some. by rewrite <- list_fmap_compose. }
    destruct (Hkn _ _ Hkx) as [En [Hlx _]]. exists (ll_id x). split; [rewrite En; by apply (grown_groups _ _ Hgr')|].
    intros Hn u Hux Hdn Hst. eapply Hm; [|done|done|done| |by rewrite <- Hst; rewrite Forall_forall in Hin; apply Hin|done].
    + rewrite E3. intros n y Hy. by destruct (Hkn n y Hy).
    + apply hash_map_unique; [by rewrite <- list_fmap_compose|]. apply list_elem_of_fmap. by exists u.
Qed.
End RunFacts.

(* ------------------------------------------------------------------ *)
(** ** A run ends *)

(** Requests that end in an answer or an error. *)
Class LldapServerCalm {S} (LS : LldapServer S) : Prop := {
  create_user_calm u : never_panics (post_create_user u);
  create_group_calm n : never_panics (post_create_group n);
  add_member_calm u i : never_panics (post_add_user_to_group u i);
  list_users_calm : never_panics post_list_users;
  list_groups_calm : never_panics post_list_groups;
}.

(** The groups that are found have a value for each of their attributes. *)
Definition groups_valued (search : string -> string -> list string -> outcome AnyError (list SearchEntry)) : Prop :=
  forall b a l, search b group_filter a = Ok l -> Forall (fun e => map_Forall (fun _ v => v <> []) (se_attrs e)) l.
(** Searches end, and find such groups. *)
Record ldap_calm (search : string -> string -> list string -> outcome AnyError (list SearchEntry)) : Prop := {
  search_no_panic b f a : no_panic (search b f a);
  search_valued : groups_valued search;
}.

(** The host of an answer was found when the answer was validated, and not the second time. *)
Definition host_lost `{N : LdapNetwork} (protocols : list (string * Z)) (answer : string) : Prop :=
  (exists url, check_host_exists to_socket_addrs answer protocols = inr (Some url))
  /\ exists e, check_host_exists to_socket_addrs_again answer protocols = inl e.

Section Termination.
Context {S : Type} `{LS : !LldapServer S} {LC : LldapServerCalm LS} `{C : Crates}.
Abbreviation Tool A := (stM (ToolState S) AnyError A).

Lemma never_panics_server {A} (m : stM S AnyError A) : never_panics m -> never_panics (on_server m).
Proof. intros Hm s. unfold on_server, szoom. specialize (Hm (ts_server s)). by destruct (m (ts_server s)). Qed.

Lemma prompt_confirm_calm : never_panics (S:=ToolState S) prompt_confirm.
Proof. intros s. unfold prompt_confirm. by destruct (tm_confirms _). Qed.
Lemma prompt_text_calm validate : never_panics (S:=ToolState S) (prompt_text validate).
Proof. intros s. unfold prompt_text. by destruct (next_accepted _ _) as [[a l]|]. Qed.
Lemma slift_calm {A} (m : outcome AnyError A) : no_panic m -> never_panics (S:=ToolState S) (slift m).
Proof. apply never_panics_lift. Qed.

(** A loop that takes at least one answer of some kind in each turn ends. *)
Lemma attempts_calm {A} (request : stM S AnyError A) choices skip :
  never_panics request -> never_panics (attempts request choices skip).
Proof.
  intros Hr. enough (H : forall fuel s, (length (tm_choices (ts_terminal s)) < fuel)%nat ->
    no_panic (fst (attempt fuel request choices skip s))) by (intros s; apply H; lia).
  induction fuel as [|fuel IH]; intros s Hlt; cbn [attempt]; [lia|].
  unfold sbind at 1, stry, on_server, szoom. specialize (Hr (ts_server s)).
  destruct (request (ts_server s)) as [[a|e|p] sv]; cbn in Hr; [done| |by destruct (Hr p)].
  destruct skip; [done|]. unfold sbind, prompt_select. cbn [ts_terminal].
  destruct (next_accepted _ _) as [[c l]|] eqn:E; [|done].
  apply next_accepted_suffix in E as [_ [k E]]. rewrite E, length_app in Hlt. cbn in Hlt.
  destruct c; try done. apply IH. cbn. lia.
Qed.

Lemma bind_ldap_calm conn fuel s :
  (length (tm_texts (ts_terminal s)) < fuel)%nat -> no_panic (fst (bind_ldap (S:=S) fuel conn s)).
Proof.
  revert s. induction fuel as [|fuel IH]; intros s Hlt; cbn [bind_ldap]; [lia|].
  unfold sbind at 1, prompt_text at 1. destruct (next_accepted _ _) as [[dn l]|] eqn:E; [|done].
  unfold sbind, prompt_text. cbn [ts_terminal tm_texts]. destruct (next_accepted _ l) as [[pw l']|] eqn:E'; [|done].
  destruct (conn_simple_bind conn dn pw); [done|]. apply IH. cbn.
  apply next_accepted_suffix in E as [_ [k E]], E' as [_ [k' ->]]. rewrite E in Hlt.
  rewrite !length_app in Hlt. cbn in Hlt. rewrite length_app in Hlt. cbn in Hlt. lia.
Qed.
Lemma lldap_login_calm try_login fuel s :
  (forall u p, never_panics (try_login u p)) ->
  (length (tm_texts (ts_terminal s)) < fuel)%nat ->
  no_panic (fst (get_lldap_user_and_password (S:=S) fuel try_login s)).
Proof.
  intros Hl. revert s. induction fuel as [|fuel IH]; intros s Hlt; cbn [get_lldap_user_and_password]; [lia|].
  unfold sbind at 1, prompt_text at 1. destruct (next_accepted _ _) as [[u l]|] eqn:E; [|done].
  unfold sbind at 1, prompt_text. cbn [ts_terminal tm_texts]. destruct (next_accepted _ l) as [[pw l']|] eqn:E'; [|done].
  unfold sbind, stry, on_server, szoom. cbn [ts_server ts_terminal]. specialize (Hl u pw (ts_server s)).
  destruct (try_login u pw (ts_server s)) as [[t|e|p] sv]; cbn in Hl; [done| |by destruct (Hl p)].
  apply IH. cbn. apply next_accepted_suffix in E as [_ [k E]], E' as [_ [k' ->]]. rewrite E in Hlt.
  rewrite !length_app in Hlt. cbn in Hlt. rewrite length_app in Hlt. cbn in Hlt. lia.
Qed.

Lemma user_of_entry_calm e : no_panic (user_of_entry e).
Proof.
  assert (Hreq : forall attr, no_panic (let? u := ok_or (Message ("Missing " +:+ attr +:+ " for user")) (se_attrs e !! attr) in
    ok_or (Message ("Too many " +:+ attr +:+ "s")) (head u))).
  { intros attr. apply obind_no_panic; auto with rust. }
  assert (Hor : forall A (r r' : outcome AnyError A), no_panic r -> no_panic r' -> no_panic (or_else r r')) by by intros ? [].
  unfold user_of_entry. cbv zeta. apply obind_no_panic; [auto|intros id _].
  apply obind_no_panic; [|auto with rust]. unfold context. apply omap_err_no_panic. auto.
Qed.

Lemma group_of_entry_calm e : map_Forall (fun _ v => v <> []) (se_attrs e) -> no_panic (group_of_entry e).
Proof.
  intros He.
  assert (Hreq : forall attr, no_panic (let? u := ok_or (Message ("Missing " +:+ attr +:+ " for user")) (se_attrs e !! attr) in
    if (1 <? length u)%nat then Err (Message ("Too many " +:+ attr +:+ "s"))
    else expect "called `Option::unwrap()` on a `None` value" (head u))).
  { intros attr. apply obind_no_panic; [auto with rust|]. intros u Hu%ok_or_ok. case_match; [auto with rust|].
    specialize (He _ _ Hu). by destruct u. }
  assert (Hor : forall A (r r' : outcome AnyError A), no_panic r -> no_panic r' -> no_panic (or_else r r')) by by intros ? [].
  unfold group_of_entry. cbv zeta. apply obind_no_panic; [auto 6|]. auto with rust.
Qed.

#[local] Hint Resolve prompt_confirm_calm prompt_text_calm never_panics_server user_of_entry_calm : calm.

Lemma detect_ou_calm ldap d t : ldap_calm (lc_search ldap) -> no_panic (detect_ou ldap d t).
Proof. intros [Hs _]. unfold detect_ou. apply obind_no_panic; [apply Hs|auto with rust]. Qed.
Lemma get_users_calm ldap : ldap_calm (lc_search ldap) -> never_panics (S:=ToolState S) (get_users ldap).
Proof.
  intros Hs. pose proof (fun A => slift_calm (A:=A)). pose proof (search_no_panic _ Hs).
  pose proof (fun d t => detect_ou_calm ldap d t Hs). unfold get_users. calm; auto.
Qed.
Lemma get_groups_calm ldap : ldap_calm (lc_search ldap) -> never_panics (S:=ToolState S) (get_groups ldap).
Proof.
  intros Hs. unfold get_groups. apply never_panics_bind; [by apply slift_calm, detect_ou_calm|intros [ou ous]].
  apply never_panics_bind; [auto with calm|intros answer]. intros s. unfold sbind, slift. destruct (lc_search _ _ _ _) as [l|e|p] eqn:Hl; [|done|by destruct (search_no_panic _ Hs _ _ _ p Hl)].
  cbn. apply try_map_no_panic. intros e He. apply group_of_entry_calm.
  pose proof (search_valued _ Hs _ _ _ Hl) as Hv. rewrite Forall_forall in Hv. by apply Hv.
Qed.

Lemma insert_users_calm users existing skip : never_panics (insert_users_into_lldap users existing skip).
Proof using LC.
  revert existing skip. induction users as [|u users IH]; intros; cbn [insert_users_into_lldap]; [auto with calm|].
  apply never_panics_bind; [|intros [r c]; apply IH]. apply attempts_calm, never_panics_map_err, create_user_calm.
Qed.
Lemma insert_groups_calm groups known skip : never_panics (insert_new_groups groups known skip).
Proof using LC.
  revert known skip. induction groups as [|g groups IH]; intros; cbn [insert_new_groups]; [auto with calm|].
  apply never_panics_bind; [|intros [r c]; apply IH]. apply attempts_calm, never_panics_map_err, create_group_calm.
Qed.
Lemma insert_members_calm name g members dns existing skip_all skip :
  never_panics (insert_members name g members dns existing skip_all skip).
Proof using LC.
  revert skip_all skip. induction members as [|dn members IH]; intros; cbn [insert_members]; [auto with calm|].
  destruct (dns !! dn) as [u|]; [|apply IH]. case_match; [apply IH|].
  apply never_panics_bind; [|intros [r c]; apply IH]. apply attempts_calm, never_panics_map_err, add_member_calm.
Qed.
Lemma insert_memberships_calm groups known dns existing skip :
  never_panics (insert_memberships groups known dns existing skip).
Proof using LC.
  revert skip. induction groups as [|g groups IH]; intros; cbn [insert_memberships]; [auto with calm|].
  apply never_panics_bind; [|intros; apply IH]. destruct (known !! lg_name g); [apply insert_members_calm|auto with calm].
Qed.

Lemma run_tool_calm ldap : ldap_calm (lc_search ldap) -> never_panics (run_tool ldap).
Proof using LC.
  intros Hs. pose proof (get_users_calm ldap Hs). pose proof (get_groups_calm ldap Hs).
  assert (never_panics get_lldap_users) by (apply never_panics_server, list_users_calm).
  assert (never_panics get_lldap_groups) by (apply never_panics_server, list_groups_calm).
  pose proof insert_users_calm. pose proof insert_groups_calm. pose proof insert_memberships_calm.
  unfold run_tool, migrate_users, migrate_groups, migrate_memberships, get_users_to_add, should_insert_groups,
    insert_groups_into_lldap, insert_group_memberships_into_lldap, ask_generic_confirmation.
  calm; auto.
Qed.

(** An answer is one of those to come, and accepted; the others stay. *)
Lemma prompt_text_ok validate (s : ToolState S) a s' :
  prompt_text validate s = (Ok a, s') ->
  validate a = true /\ a ∈ tm_texts (ts_terminal s) /\ tm_texts (ts_terminal s') ⊆ tm_texts (ts_terminal s).
Proof.
  unfold prompt_text. destruct (next_accepted _ _) as [[x l]|] eqn:E; [|done]. intros [= <- <-].
  apply next_accepted_suffix in E as [? [k E]]. rewrite E. cbn. split; [done|].
  split; [apply elem_of_app; right; left|intros y Hy; apply elem_of_app; right; by right].
Qed.

Definition host_prompt `{N : LdapNetwork} (protocols : list (string * Z)) probe : Tool string :=
  let! answer := prompt_text (host_accepted protocols probe) in
  slift (unwrap_host (check_host_exists to_socket_addrs_again answer protocols)).

(** Whether an answer names a protocol does not depend on what can be resolved. *)
Lemma check_host_protocol f g url protocols :
  check_host_exists f url protocols = inr None -> check_host_exists g url protocols = inr None.
Proof.
  induction protocols as [|[p n] l IH]; cbn; [done|]. destruct (starts_with p url); [|done]. by repeat case_match.
Qed.

(** A panic comes from the first part or from the rest. *)
Lemma sbind_panic_or {A B} (m : Tool A) (k : A -> Tool B) s p :
  fst (sbind m k s) = Panic p -> fst (m s) = Panic p \/ exists a s', m s = (Ok a, s') /\ fst (k a s') = Panic p.
Proof. unfold sbind. destruct (m s) as [[a|e|q] s']; cbn; [eauto|done|left; congruence]. Qed.
Lemma sbind_panic {A B} (m : Tool A) (k : A -> Tool B) s p :
  never_panics m -> fst (sbind m k s) = Panic p -> exists a s', m s = (Ok a, s') /\ fst (k a s') = Panic p.
Proof. intros Hm [H|H]%sbind_panic_or; [by destruct (Hm s p)|done]. Qed.

(** What was accepted unwraps if the host is found again. *)
Lemma host_prompt_panic `{N : LdapNetwork} protocols probe (s : ToolState S) p :
  fst (host_prompt protocols probe s) = Panic p ->
  p = "called `Result::unwrap()` on an `Err` value"
  /\ exists answer, answer ∈ tm_texts (ts_terminal s) /\ host_lost protocols answer.
Proof.
  intros (a & s1 & (Ha & Hin & _)%prompt_text_ok & H)%sbind_panic; [|apply prompt_text_calm]. cbn in H.
  unfold host_accepted in Ha. destruct (check_host_exists to_socket_addrs a protocols) as [|[url|]] eqn:Hc; [done| |done].
  destruct (check_host_exists to_socket_addrs_again a protocols) as [e|[url'|]] eqn:Hc'; [|done|].
  - injection H as <-. split; [done|]. exists a. split; [done|]. split; by eexists.
  - by rewrite (check_host_protocol _ to_socket_addrs _ _ Hc') in Hc.
Qed.
Lemma host_prompt_texts `{N : LdapNetwork} protocols probe (s : ToolState S) url s' :
  host_prompt protocols probe s = (Ok url, s') -> tm_texts (ts_terminal s') ⊆ tm_texts (ts_terminal s).
Proof. by intros (a & s1 & (_ & _ & H)%prompt_text_ok & [_ ->]%slift_ok)%sbind_ok. Qed.

Lemma bind_ldap_typed conn fuel (s : ToolState S) dn s' :
  bind_ldap fuel conn s = (Ok dn, s') -> dn ∈ tm_texts (ts_terminal s).
Proof.
  revert s. induction fuel as [|fuel IH]; intros s; cbn [bind_ldap]; [done|].
  intros (d & s1 & (_ & Hd & H1)%prompt_text_ok & H)%sbind_ok.
  apply sbind_ok in H as (pw & s2 & (_ & _ & H2)%prompt_text_ok & H).
  destruct (conn_simple_bind _ _ _); [by apply sret_ok in H as [-> _]|]. apply IH in H. by apply H1, H2.
Qed.

Lemma bind_ldap_texts conn fuel (s : ToolState S) dn s' :
  bind_ldap fuel conn s = (Ok dn, s') -> tm_texts (ts_terminal s') ⊆ tm_texts (ts_terminal s).
Proof.
  revert s. induction fuel as [|fuel IH]; intros s; cbn [bind_ldap]; [done|].
  intros (d & s1 & (_ & _ & H1)%prompt_text_ok & H)%sbind_ok.
  apply sbind_ok in H as (pw & s2 & (_ & _ & H2)%prompt_text_ok & H).
  etrans; [|exact H1]. etrans; [|exact H2]. destruct (conn_simple_bind _ _ _); [by apply sret_ok in H as [_ ->]|by apply IH in H].
Qed.

(** How the two connections panic. *)
Lemma get_ldap_connection_panic `{N : LdapNetwork} (s : ToolState S) p :
  (forall url, no_panic (ldap_conn_new url)) ->
  fst (get_ldap_connection s) = Panic p ->
  (p = "Could not find domain?!" /\ exists bind_dn, bind_dn ∈ tm_texts (ts_terminal s) /\ str_find ",dc=" bind_dn = None)
  \/ (p = "called `Result::unwrap()` on an `Err` value"
      /\ exists answer, answer ∈ tm_texts (ts_terminal s) /\ host_lost ldap_protocols answer).
Proof.
  intros Hnew [H|(url & s1 & Hu%host_prompt_texts & H)]%sbind_panic_or; [right; by apply host_prompt_panic in H|left].
  apply sbind_panic in H as (conn & s2 & [_ ->]%slift_ok & H); [|apply slift_calm, Hnew].
  apply sbind_panic in H as (dn & s3 & Hdn%bind_ldap_typed & H); [|intros s3; apply bind_ldap_calm; lia].
  unfold sbind, slift, domain_of_bind_dn in H. destruct (str_find ",dc=" dn) as [i|] eqn:Hf; [done|]. cbn in H.
  split; [congruence|]. exists dn. split; [by apply Hu|done].
Qed.
Lemma get_ldap_connection_ok `{N : LdapNetwork} (s : ToolState S) ldap s' :
  get_ldap_connection s = (Ok ldap, s') ->
  (exists url conn dn, ldap_conn_new url = Ok conn /\ lc_search ldap = conn_search conn dn)
  /\ tm_texts (ts_terminal s') ⊆ tm_texts (ts_terminal s).
Proof.
  intros (url & s1 & Hu%host_prompt_texts & H)%sbind_ok. apply sbind_ok in H as (conn & s2 & [Hc ->]%slift_ok & H).
  apply sbind_ok in H as (dn & s3 & Hdn%bind_ldap_texts & H). apply sbind_ok in H as (dom & s4 & [_ ->]%slift_ok & [-> ->]%sret_ok).
  split; [by exists url, conn, dn|by etrans].
Qed.
Lemma get_lldap_client_panic `{N : LdapNetwork} graphql_status try_login (s : ToolState S) p :
  (forall url u pw, never_panics (try_login url u pw)) ->
  fst (get_lldap_client graphql_status try_login s) = Panic p ->
  p = "called `Result::unwrap()` on an `Err` value"
  /\ exists answer, answer ∈ tm_texts (ts_terminal s) /\ host_lost http_protocols answer.
Proof.
  intros Hl [H|(url & s1 & _ & H)]%sbind_panic_or; [by apply host_prompt_panic in H|].
  apply sbind_panic in H as (t & s2 & _ & H); [done|]. intros s2. apply lldap_login_calm; [auto|lia].
Qed.

End Termination.
