(* ===== verification/MigrationToolSql.v ===== *)
(** * The migration tool against the SQL database

    The server of [MigrationTool] as the GraphQL resolvers run by an administrator
    on the SQL backend, the laws that the tool's theorem rests on, and the examples
    of that file. *)

From S2P Require Import Prelude RustStd Extern Types Concrete Handler Deserialize Db ExampleDb SqlFilters SqlSchema SqlUser SqlGroup SqlBackend AccessControl GraphqlQuery GraphqlMutation GraphqlSql MigrationTool.
From Stdlib Require Import Ascii String.
From stdpp Require Import strings list gmap.
#[local] Open Scope rust_scope.

Section SqlServer.
Context `{C : Crates} `{B : Bincode} `{SL : SqlLib} `{T : ErrorTexts} `{UE : UrlEncoding}.
(** The rights of the session. *)
Context (v : ValidationResults).

(** The fields that the queries of the tool select. *)
Definition selected_users (g : GqlGroup) : stM World string LldapGroup :=
  let! users := group_users_field v g in
  sret (mk_lldap_group (gg_group_id g) (gg_display_name g) (map user_id_field users)).
Fixpoint select_groups_users (l : list GqlGroup) : stM World string (list LldapGroup) :=
  match l with
  | [] => sret []
  | g :: l => let! x := selected_users g in let! xs := select_groups_users l in sret (x :: xs)
  end.

#[export] Instance sql_server : LldapServer World := {
  post_create_user r := post (let! u := create_user v r in sret (user_id_field u));
  post_create_group n := post (let! g := create_group v n in sret (gg_group_id g));
  post_add_user_to_group u i := post (let! _ := add_user_to_group v u i in sret tt);
  post_list_users := post (let! l := query_users v None in sret (map user_id_field l));
  post_list_groups := post (let! l := query_groups v in select_groups_users l);
}.

(** Groups are numbered below the sequence, and ids are stored in lower case. *)
#[export] Instance sql_view : LldapView World := {
  server_ok w := map_Forall (fun g _ => (g <= db_groups_seq (w_db w))%Z) (db_groups (w_db w))
    /\ map_Forall (fun u _ => user_id_wf u = true) (db_users (w_db w));
  stored_id s := user_id_str (user_id_new s);
  has_user w u := is_Some (db_users (w_db w) !! user_id_new u);
  has_group w i n := exists r, db_groups (w_db w) !! i = Some r /\ ci_raw (gr_display_name r) = n;
  is_member w u i := (user_id_new u, i) ∈ db_memberships (w_db w);
}.

(** A statement that adds to the tables the tool sees. *)
Lemma statement_grows {A} (f : Db -> outcome DomainError (A * Db)) w0 :
  (forall w a db', server_ok w -> f (w_db w) = Ok (a, db') -> grown w (set_db db' w)) ->
  preserves (grows w0) (statement f).
Proof.
  intros Hf w Hw. etrans; [exact Hw|]. intros Hok. unfold statement.
  destruct (f (w_db w)) as [[a db']|e|p] eqn:E; [|by split..]. by eapply Hf.
Qed.

Ltac growing_statement :=
  apply statement_grows; intros w ? db' [Hseq Hwf] H; cbn beta zeta in H; checked H.

Lemma insert_user_grows w0 u r : user_id_wf u = true -> preserves (grows w0) (insert_user u r).
Proof.
  intros Hu. growing_statement. injection H as _ <-. split; cbn; [|done|done|].
  - intros x [y Hy]. by apply is_Some_insert.
  - split; [done|]. by apply map_Forall_insert_2.
Qed.
Lemma insert_group_grows w0 r : preserves (grows w0) (insert_group r).
Proof.
  growing_statement. injection H as _ <-. split; cbn; [done| |done|].
  - intros i n (row & Hi & Hn). exists row. split; [|done]. rewrite lookup_insert_ne; [done|].
    specialize (Hseq _ _ Hi). cbn in Hseq. lia.
  - split; [|done]. apply map_Forall_insert_2; [lia|]. eapply map_Forall_impl; [exact Hseq|]. intros i x Hx. cbn in *. lia.
Qed.
Lemma insert_membership_grows w0 u g : preserves (grows w0) (insert_membership u g).
Proof. growing_statement. injection H as _ <-. split; cbn; [done|done| |done]. set_solver. Qed.
Lemma insert_user_attributes_grows w0 b u rows : preserves (grows w0) (insert_user_attributes b u rows).
Proof.
  apply statement_grows. intros w a db' Hok (db'' & ->%put_user_attributes_run & [= <- <-])%obind_ok. by split.
Qed.
Lemma insert_group_attributes_grows w0 b g rows : preserves (grows w0) (insert_group_attributes b g rows).
Proof.
  apply statement_grows. intros w a db' Hok (db'' & ->%put_group_attributes_run & [= <- <-])%obind_ok. by split.
Qed.
#[local] Hint Resolve insert_group_grows insert_membership_grows insert_user_attributes_grows
  insert_group_attributes_grows preserves_get_schema run_if_preserves : stm.

Lemma sql_create_user_grows w0 r : user_id_wf (cu_user_id r) = true -> preserves (grows w0) (sql_create_user r).
Proof. intros Hu. pose proof (fun row => insert_user_grows w0 _ row Hu). unfold sql_create_user. stm. Qed.
Lemma sql_create_group_grows w0 r : preserves (grows w0) (sql_create_group r).
Proof. unfold sql_create_group. stm. Qed.

(** The requests, on a database. *)
Lemma admin_create_group_grows w0 r : preserves (grows w0) (domain (ad_create_group admin_view r)).
Proof. apply domain_preserves, sql_create_group_grows. Qed.
#[local] Hint Resolve admin_create_group_grows schema_preserves user_details_preserves
  group_details_preserves user_id_new_wf : stm.

Lemma create_user_keeps w0 r : preserves (grows w0) (create_user v r).
Proof. apply admin_preserves. stm. apply insert_user_grows, user_id_new_wf. Qed.
Lemma create_group_keeps w0 n : preserves (grows w0) (create_group v n).
Proof. apply admin_preserves. stm. Qed.
Lemma add_user_keeps w0 u i : preserves (grows w0) (add_user_to_group v u i).
Proof. apply admin_preserves, preserves_bind; [|auto with stm]. apply domain_preserves, insert_membership_grows. Qed.

Lemma post_grows {A} (m : stM World string A) w :
  (forall w0, preserves (grows w0) m) -> grows w (snd (post m w)).
Proof. intros Hm. unfold post. apply preserves_map_err; [apply Hm|done]. Qed.

(** Reading a run of an administrator's request backwards. *)
Lemma domain_ok {A} (m : SQL A) w a w' : domain m w = (Ok a, w') -> m w = (Ok a, w').
Proof. apply smap_err_ok. Qed.
Lemma admin_ok {A} msg (k : _ -> stM World string A) w a w' :
  sbind (admin_or v msg) k w = (Ok a, w') -> k admin_view w = (Ok a, w').
Proof.
  unfold admin_or, get_admin_handler. destruct (is_admin v) eqn:Hv; [by unfold sbind, slift|done].
Qed.
Lemma from_user_id u schema x : from_user u schema = Ok x -> user_user_id (gu_user x) = user_user_id u.
Proof. by intros (l & _ & [= <-])%obind_ok. Qed.

Lemma created_user_ok r w x w' :
  create_user v r w = (Ok x, w') ->
  user_user_id (gu_user x) = user_id_new (cui_id r) /\ is_Some (db_users (w_db w') !! user_id_new (cui_id r)).
Proof.
  intros H%admin_ok. apply sbind_ok in H as (av & w1 & _ & H). apply sbind_ok in H as (sc & w2 & _ & H).
  apply sbind_ok in H as (l & w3 & _ & H). apply sbind_ok in H as ([] & w4 & _ & H).
  apply sbind_ok in H as (d & w5 & Hd%domain_ok & [Hx%from_user_id ->]%slift_ok).
  change (sql_get_user_details (user_id_new (cui_id r)) w4 = (Ok d, w5)) in Hd. rewrite sql_get_user_details_run in Hd. destruct (db_users (w_db w4) !! _) eqn:Hu; [|done].
  injection Hd as <- <-. rewrite Hu. split; [done|by eexists].
Qed.

Lemma inserted_group_ok r w g w' : insert_group r w = (Ok g, w') -> db_groups (w_db w') !! g = Some r.
Proof.
  unfold insert_group, statement. destruct (obind _ _) as [[g' db']|e|p] eqn:E; [|done..].
  intros [= -> <-]. cbn beta zeta in E. checked E. injection E as <- <-. apply lookup_insert_eq.
Qed.
Lemma sql_create_group_ok request w g w' :
  sql_create_group request w = (Ok g, w') ->
  exists r, db_groups (w_db w') !! g = Some r /\ gr_display_name r = cg_display_name request.
Proof.
  unfold sql_create_group. intros (now & w1 & _ & H)%sbind_ok. rewrite transaction_ok in H.
  apply sbind_ok in H as (sc & w2 & _ & H). apply sbind_ok in H as (g' & w3 & Hg%inserted_group_ok & H).
  apply sbind_ok in H as (l & w4 & [_ ->]%slift_ok & H). apply sbind_ok in H as ([] & w5 & H & [<- ->]%sret_ok).
  match type of Hg with _ = Some ?r => exists r end. split; [|done]. rewrite <- Hg. destruct (non_empty l); cbn in H; [|by injection H as <-].
  unfold insert_group_attributes, statement in H. destruct (put_group_attributes _ _ _ _) as [db'|e|p] eqn:Hp; [|done..].
  injection H as <-. by apply put_group_attributes_run in Hp as ->.
Qed.
Lemma created_group_ok n w x w' :
  create_group v n w = (Ok x, w') ->
  exists r, db_groups (w_db w') !! gg_group_id x = Some r /\ ci_raw (gr_display_name r) = n.
Proof.
  intros H%admin_ok. apply sbind_ok in H as (sc & w1 & _ & H). apply sbind_ok in H as (l & w2 & _ & H).
  apply sbind_ok in H as (g & w3 & Hg%domain_ok & H). apply sbind_ok in H as (d & w4 & Hd%domain_ok & [Hx ->]%slift_ok).
  apply sql_create_group_ok in Hg as (r & Hr & Hn).
  change (sql_get_group_details g w3 = (Ok d, w4)) in Hd. rewrite sql_get_group_details_run, Hr in Hd.
  injection Hd as <- <-. apply obind_ok in Hx as (attrs & _ & [= <-]). cbn. exists r. by rewrite Hn.
Qed.
Lemma added_member_ok u i w x w' : add_user_to_group v u i w = (Ok x, w') -> (user_id_new u, i) ∈ db_memberships (w_db w').
Proof.
  intros H%admin_ok. apply sbind_ok in H as ([] & w1 & H%domain_ok & [_ ->]%sret_ok).
  change (insert_membership (user_id_new u) i w = (Ok tt, w1)) in H. unfold insert_membership, statement in H.
  destruct (obind _ _) as [[[] db']|e|p] eqn:E; [|done..]. injection H as <-. cbn beta zeta in E. checked E.
  injection E as <-. cbn. set_solver.
Qed.

(** The lists. *)
Lemma sbind_readonly {S E A A'} (m : stM S E A) (k : A -> stM S E A') :
  readonly m -> (forall a, readonly (k a)) -> readonly (sbind m k).
Proof.
  intros Hm Hk s. specialize (Hm s). unfold sbind. destruct (m s) as [[a|e|p] s']; cbn in *; subst; [apply Hk|done..].
Qed.
Lemma post_readonly {A} (m : stM World string A) : readonly m -> readonly (post m).
Proof. intros Hm w. unfold post, smap_err. specialize (Hm w). by destruct (m w). Qed.
Lemma group_users_readonly g : readonly (group_users_field v g).
Proof using UE. apply (queries_readonly v "" None 0%Z g). Qed.
Lemma select_groups_users_readonly l : readonly (select_groups_users l).
Proof using UE.
  induction l as [|g l IH]; cbn; [done|]. apply sbind_readonly; [|intros x; by apply sbind_readonly].
  apply sbind_readonly; [apply group_users_readonly|done].
Qed.

(** A view of the read-only rights is the backend's. *)
Lemma readonly_view_ok {A} msg (k : _ -> stM World string A) w a w' :
  sbind (slift (ok_or msg (get_readonly_handler v))) k w = (Ok a, w') -> k readonly_view w = (Ok a, w').
Proof.
  destruct (get_readonly_handler v) as [h|] eqn:Hv; [|done]. by apply readonly_handler_is in Hv as ->.
Qed.
Lemma schema_state w sc w' : query_get_schema v w = (Ok sc, w') -> w' = w.
Proof. intros H. pose proof (query_get_schema_readonly v w) as Hro. by rewrite H in Hro. Qed.

Lemma from_user_and_groups_id x sc y :
  from_user_and_groups x sc = Ok y -> user_user_id (gu_user y) = user_user_id (uag_user x).
Proof.
  intros (u & Hu%from_user_id & H)%obind_ok. destruct (uag_groups x); [|by injection H as <-].
  by apply obind_ok in H as (gs & _ & [= <-]).
Qed.
Lemma listed_users_ids us sc l :
  try_map (fun x => from_user_and_groups x sc) us = Ok l ->
  Forall (fun y => exists x, x ∈ us /\ user_user_id (gu_user y) = user_user_id (uag_user x)) l.
Proof.
  intros H%try_map_ok. apply Forall_forall. intros y Hy. apply list_elem_of_lookup in Hy as [i Hi].
  destruct (Forall2_lookup_r _ _ _ _ _ H Hi) as (x & Hx & Hxy%from_user_and_groups_id).
  exists x. split; [by eapply list_elem_of_lookup_2|done].
Qed.

Lemma query_users_ids w l w' :
  query_users v None w = (Ok l, w') -> Forall (fun x => is_Some (db_users (w_db w) !! user_user_id (gu_user x))) l.
Proof.
  intros H%readonly_view_ok. apply sbind_ok in H as (sc & w1 & ->%schema_state & H).
  apply sbind_ok in H as (f & w2 & [[= <-] ->]%slift_ok & H).
  apply sbind_ok in H as (us & w3 & Hus%domain_ok & [Hl%listed_users_ids ->]%slift_ok).
  change (sql_list_users None false w = (Ok us, w3)) in Hus.
  unfold sql_list_users, sbind, query, sret in Hus. rewrite populate_attributes_spec in Hus. injection Hus as <- <-.
  eapply Forall_impl; [exact Hl|]. cbn. intros y (x & Hx & ->).
  apply list_elem_of_fmap in Hx as ([u r] & -> & [Hu _]%elem_of_select_users). cbn. by eexists.
Qed.

Lemma group_members_ids g w l w' :
  group_users_field v g w = (Ok l, w') ->
  w' = w /\ Forall (fun x => (user_user_id (gu_user x), gg_group_id g) ∈ db_memberships (w_db w)
                     /\ is_Some (db_users (w_db w) !! user_user_id (gu_user x))) l.
Proof.
  intros H%readonly_view_ok. apply sbind_ok in H as (us & w1 & Hus%domain_ok & [Hl%listed_users_ids ->]%slift_ok).
  change (sql_list_users (Some (UMemberOfId (gg_group_id g))) false w = (Ok us, w1)) in Hus.
  rewrite (sql_list_users_run _ _ _ (CExpr (EInGroupsId (gg_group_id g)))) in Hus by done. injection Hus as <- <-.
  split; [done|]. eapply Forall_impl; [exact Hl|]. cbn. intros y (x & Hx & ->).
  apply list_elem_of_fmap in Hx as ([u r] & -> & [Hu Hs]%elem_of_select_users). cbn.
  apply sql_true_spec in Hs. injection Hs as Hs. apply in_group_member_of in Hs as (g' & row & Hm & Hg & Heq).
  apply bool_decide_eq_true in Heq as ->. split; [done|by eexists].
Qed.

Lemma query_groups_rows w l w' :
  query_groups v w = (Ok l, w') ->
  w' = w /\ Forall (fun g => exists r, db_groups (w_db w) !! gg_group_id g = Some r
                       /\ ci_raw (gr_display_name r) = gg_display_name g) l.
Proof.
  intros H%readonly_view_ok. apply sbind_ok in H as (sc & w1 & ->%schema_state & H).
  apply sbind_ok in H as (gs & w2 & Hgs%domain_ok & [Hl%try_map_ok ->]%slift_ok).
  change (sql_list_groups None w = (Ok gs, w2)) in Hgs.
  assert (w2 = w) as -> by (pose proof (sql_list_groups_readonly None w) as Hro; by rewrite Hgs in Hro).
  split; [done|]. apply Forall_forall. intros y Hy. apply list_elem_of_lookup in Hy as [i Hi].
  destruct (Forall2_lookup_r _ _ _ _ _ Hl Hi) as (x & Hx & Hxy). apply list_elem_of_lookup_2 in Hx.
  apply (elem_of_list_groups None w gs) in Hx as (g & r & Hg & -> & _); [|by rewrite Hgs].
  apply obind_ok in Hxy as (attrs & _ & [= <-]). cbn. by exists r.
Qed.

Lemma selected_groups_listed w gs l w' :
  server_ok w -> select_groups_users gs w = (Ok l, w') ->
  Forall (fun g => exists r, db_groups (w_db w) !! gg_group_id g = Some r
                       /\ ci_raw (gr_display_name r) = gg_display_name g) gs ->
  w' = w /\ Forall (listed w) l.
Proof.
  intros [_ Hwf]. revert l w'. induction gs as [|g gs IH]; intros l w'; cbn [select_groups_users]; [by intros [-> ->]%sret_ok|].
  intros (x & w1 & Hx & H)%sbind_ok Hgs. apply Forall_cons in Hgs as [Hg Hgs].
  apply sbind_ok in Hx as (us & w2 & [-> Hus]%group_members_ids & [-> ->]%sret_ok).
  apply sbind_ok in H as (xs & w3 & Hxs & [-> ->]%sret_ok). apply IH in Hxs as [-> Hxs]; [|done].
  split; [done|]. constructor; [|done]. split; [done|]. cbn. apply Forall_fmap. eapply Forall_impl; [exact Hus|].
  cbn. intros y [Hm [r Hr]]. unfold user_id_field. rewrite user_id_new_str; [done|]. by apply (Hwf _ _ Hr).
Qed.

(** The SQL backend keeps the promises of [LldapServerLaws]. *)
#[export] Instance sql_server_laws : LldapServerLaws sql_server sql_view.
Proof using UE.
  split.
  - intros r w. apply post_grows. intros w0. pose proof (create_user_keeps w0 r). stm.
  - intros r w id w' H. apply smap_err_ok in H. apply sbind_ok in H as (x & w1 & [Hid Hx]%created_user_ok & [-> ->]%sret_ok).
    unfold user_id_field. rewrite Hid. split; [done|].
    change (is_Some (db_users (w_db w1) !! user_id_new (user_id_str (user_id_new (cui_id r))))).
    by rewrite user_id_new_str by apply user_id_new_wf.
  - intros n w. apply post_grows. intros w0. pose proof (create_group_keeps w0 n). stm.
  - intros n w i w' H. apply smap_err_ok in H. by apply sbind_ok in H as (x & w1 & Hx%created_group_ok & [-> ->]%sret_ok).
  - intros u i w. apply post_grows. intros w0. pose proof (add_user_keeps w0 u i). stm.
  - intros u i w w' H. apply smap_err_ok in H. apply sbind_ok in H as (x & w1 & Hx%added_member_ok & [_ ->]%sret_ok).
    change ((user_id_new (user_id_str (user_id_new u)), i) ∈ db_memberships (w_db w1)). by rewrite user_id_new_str by apply user_id_new_wf.
  - apply post_readonly, sbind_readonly; [|done]. apply (queries_readonly v "" None 0%Z (mk_gql_group 0 "" 0 "" [] (public_schema_from (schema_of empty_db)))).
  - intros w l [_ Hwf] H. cbn in H. destruct (post _ w) as [r w'] eqn:E. cbn in H. subst r. apply smap_err_ok in E.
    apply sbind_ok in E as (us & w1 & Hus%query_users_ids & [-> ->]%sret_ok). apply Forall_fmap.
    eapply Forall_impl; [exact Hus|]. intros x [r Hr]. cbv beta in *.
    change (is_Some (db_users (w_db w) !! user_id_new (user_id_field x))
            /\ user_id_str (user_id_new (user_id_field x)) = user_id_field x).
    unfold user_id_field. rewrite user_id_new_str by by apply (Hwf _ _ Hr). split; [by eexists|done].
  - apply post_readonly, sbind_readonly; [|apply select_groups_users_readonly].
    apply (queries_readonly v "" None 0%Z (mk_gql_group 0 "" 0 "" [] (public_schema_from (schema_of empty_db)))).
  - intros w l Hok H. cbn in H. destruct (post _ w) as [r w'] eqn:E. cbn in H. subst r. apply smap_err_ok in E.
    apply sbind_ok in E as (gs & w1 & [-> Hgs]%query_groups_rows & H). by apply selected_groups_listed in H as [_ H].
Qed.

(* ------------------------------------------------------------------ *)
(** ** The requests end *)

Lemma statement_calm {A} (f : Db -> outcome DomainError (A * Db)) : (forall db, no_panic (f db)) -> never_panics (statement f).
Proof. intros Hf w. unfold statement. specialize (Hf (w_db w)). destruct (f (w_db w)) as [[a db]|e|p]; [done..|by destruct (Hf p)]. Qed.
Lemma guard_no_panic {E} (e : E) (P : Prop) `{Decision P} : no_panic (guard_ e P).
Proof. unfold guard_. case_decide; auto with rust. Qed.
Ltac calm_statement :=
  apply statement_calm; intros db; cbv zeta;
  repeat (apply obind_no_panic; [apply guard_no_panic|intros _ _]); auto with rust.

Lemma insert_user_calm u r : never_panics (insert_user u r).
Proof. calm_statement. Qed.
Lemma insert_group_calm r : never_panics (insert_group r).
Proof. calm_statement. Qed.
Lemma insert_membership_calm u g : never_panics (insert_membership u g).
Proof. calm_statement. Qed.
Lemma insert_user_attributes_calm b u rows : never_panics (insert_user_attributes b u rows).
Proof. apply statement_calm. intros db. apply obind_no_panic; [|auto with rust]. intros p. apply put_user_attributes_no_panic. Qed.
Lemma insert_group_attributes_calm b g rows : never_panics (insert_group_attributes b g rows).
Proof. apply statement_calm. intros db. apply obind_no_panic; [|auto with rust]. intros p. apply put_group_attributes_no_panic. Qed.
Lemma run_if_calm {A} b (m : SQL A) d : never_panics m -> never_panics (run_if b m d).
Proof. intros Hm. destruct b; cbn; auto with calm. Qed.
Lemma get_schema_calm : never_panics get_schema_with_transaction.
Proof. by intros w. Qed.
Lemma push_attributes_no_panic schema l acc : no_panic (push_attributes schema l acc).
Proof. revert acc. induction l as [|a l IH]; intros acc; cbn; [auto with rust|]. case_match; auto with rust. Qed.
Lemma utc_now_calm : never_panics utc_now.
Proof. by intros w. Qed.
#[local] Hint Resolve insert_user_calm insert_group_calm insert_membership_calm insert_user_attributes_calm
  insert_group_attributes_calm run_if_calm get_schema_calm utc_now_calm : calm.

Lemma sql_create_user_calm r : never_panics (sql_create_user r).
Proof. unfold sql_create_user. calm. apply never_panics_lift, push_attributes_no_panic. Qed.
Lemma sql_create_group_calm r : never_panics (sql_create_group r).
Proof. unfold sql_create_group. calm. apply never_panics_lift. intros p. apply push_group_attributes_no_panic. Qed.

Lemma from_schema_no_panic a l : no_panic (from_schema a l).
Proof. unfold from_schema. by case_match. Qed.
Lemma from_user_no_panic u sc : no_panic (from_user u sc).
Proof. apply obind_no_panic; [|auto with rust]. apply try_map_no_panic. intros. apply from_schema_no_panic. Qed.
Lemma from_group_details_no_panic g sc : no_panic (from_group_details g sc).
Proof. apply obind_no_panic; [|auto with rust]. apply try_map_no_panic. intros. apply from_schema_no_panic. Qed.
Lemma from_group_no_panic g sc : no_panic (from_group g sc).
Proof. apply obind_no_panic; [|auto with rust]. apply try_map_no_panic. intros. apply from_schema_no_panic. Qed.
Lemma from_user_and_groups_no_panic x sc : no_panic (from_user_and_groups x sc).
Proof.
  apply obind_no_panic; [apply from_user_no_panic|]. intros u _. destruct (uag_groups x); [|auto with rust].
  apply obind_no_panic; [|auto with rust]. apply try_map_no_panic. intros. apply from_group_details_no_panic.
Qed.
Lemma decode_avatar_no_panic a : no_panic (decode_avatar a).
Proof.
  destruct a as [t|]; [|done]. apply obind_no_panic; [auto with rust|]. intros b _.
  apply obind_no_panic; [|auto with rust]. apply omap_err_no_panic. unfold jpeg_try_from_bytes. by repeat case_match.
Qed.
Lemma deserialize_attributes_no_panic sc l adm : no_panic (deserialize_attributes sc l adm).
Proof. apply try_map_no_panic. intros. apply deserialize_attribute_no_panic. Qed.
Lemma domain_calm {A} (m : SQL A) : never_panics m -> never_panics (domain m).
Proof. apply never_panics_map_err. Qed.
Lemma user_details_calm u : never_panics (sql_get_user_details u).
Proof. intros w. rewrite sql_get_user_details_run. by destruct (db_users (w_db w) !! u). Qed.
Lemma group_details_calm g : never_panics (sql_get_group_details g).
Proof. intros w. rewrite sql_get_group_details_run. by destruct (db_groups (w_db w) !! g). Qed.
Lemma sql_list_users_calm f b :
  (forall f', f = Some f' -> exists c, get_user_filter_expr (E:=DomainError) f' = Ok c) -> never_panics (sql_list_users f b).
Proof.
  intros Hf w. destruct f as [f|]; [|done]. destruct (Hf f eq_refl) as [c Hc]. by rewrite (sql_list_users_run _ _ _ c Hc).
Qed.
Lemma admin_calm {A} msg (k : _ -> stM World string A) : never_panics (k admin_view) -> never_panics (sbind (admin_or v msg) k).
Proof.
  intros Hk w. unfold admin_or, get_admin_handler. destruct (is_admin v); [apply Hk|done].
Qed.
Lemma readonly_calm {A} msg (k : _ -> stM World string A) :
  never_panics (k readonly_view) -> never_panics (sbind (slift (ok_or msg (get_readonly_handler v))) k).
Proof.
  intros Hk w. destruct (get_readonly_handler v) as [h|] eqn:Hv; [apply readonly_handler_is in Hv as ->; apply Hk|done].
Qed.
#[local] Hint Resolve user_details_calm group_details_calm sql_create_user_calm sql_create_group_calm domain_calm : calm.
Lemma query_schema_calm : never_panics (query_get_schema v).
Proof. by intros w. Qed.
Lemma create_user_field_calm r : never_panics (create_user v r).
Proof.
  apply admin_calm. apply never_panics_bind; [apply never_panics_lift, decode_avatar_no_panic|intros av].
  apply never_panics_bind; [by intros w|intros sc].
  apply never_panics_bind; [apply never_panics_lift, deserialize_attributes_no_panic|intros l].
  apply never_panics_bind; [apply domain_calm, sql_create_user_calm|intros _].
  apply never_panics_bind; [apply domain_calm, user_details_calm|intros d]. apply never_panics_lift, from_user_no_panic.
Qed.
Lemma create_group_field_calm n : never_panics (create_group v n).
Proof.
  apply admin_calm. apply never_panics_bind; [by intros w|intros sc].
  apply never_panics_bind; [apply never_panics_lift, deserialize_attributes_no_panic|intros l].
  apply never_panics_bind; [apply domain_calm, sql_create_group_calm|intros g].
  apply never_panics_bind; [apply domain_calm, group_details_calm|intros d]. apply never_panics_lift, from_group_details_no_panic.
Qed.
Lemma query_users_calm : never_panics (query_users v None).
Proof.
  apply readonly_calm. apply never_panics_bind; [apply query_schema_calm|intros sc].
  apply (never_panics_bind (domain (sql_list_users None false))
           (fun us => slift (try_map (fun u => from_user_and_groups u sc) us))).
  - apply domain_calm, sql_list_users_calm. by intros f.
  - intros us. apply never_panics_lift, try_map_no_panic. intros. apply from_user_and_groups_no_panic.
Qed.
Lemma group_users_calm g : never_panics (group_users_field v g).
Proof.
  apply readonly_calm. apply never_panics_bind; [|intros us; apply never_panics_lift, try_map_no_panic; intros; apply from_user_and_groups_no_panic].
  apply domain_calm, sql_list_users_calm. intros f [= <-]. by eexists.
Qed.
Lemma query_groups_calm : never_panics (query_groups v).
Proof.
  apply readonly_calm. apply never_panics_bind; [apply query_schema_calm|intros sc].
  apply never_panics_bind; [|intros us; apply never_panics_lift, try_map_no_panic; intros; apply from_group_no_panic].
  apply domain_calm. intros w. change (no_panic (fst (sql_list_groups None w))). by rewrite sql_list_groups_run.
Qed.

#[export] Instance sql_server_calm : LldapServerCalm sql_server.
Proof.
  assert (Hp : forall A (m : stM World string A), never_panics m -> never_panics (post m)) by (intros; by apply never_panics_map_err).
  split.
  - intros r. apply Hp, never_panics_bind; [apply create_user_field_calm|auto with calm].
  - intros n. apply Hp, never_panics_bind; [apply create_group_field_calm|auto with calm].
  - intros u i. apply Hp, never_panics_bind; [|auto with calm]. apply admin_calm, never_panics_bind; [|auto with calm].
    apply domain_calm, insert_membership_calm.
  - apply Hp, never_panics_bind; [apply query_users_calm|auto with calm].
  - apply Hp, never_panics_bind; [apply query_groups_calm|]. intros l. induction l as [|g l IH]; cbn; [auto with calm|].
    apply never_panics_bind; [|intros; apply never_panics_bind; auto with calm].
    apply never_panics_bind; [apply group_users_calm|auto with calm].
Qed.
End SqlServer.

(* ------------------------------------------------------------------ *)
(** ** Examples *)

Section Examples.
#[local] Existing Instances concrete_crates concrete_bincode concrete_sql toy_texts plain_url.

(** Another server, with bob, who LLDAP knows, and Carol, in a group of its own and
    one that LLDAP has. *)
Definition old_user (uid mail dn : string) : SearchEntry :=
  mk_search_entry dn (<["uid"%string := [uid]]> (<["mail"%string := [mail]]> (<["cn"%string := [uid]]> ∅))) ∅.
Definition old_group (name : string) (members : list string) : SearchEntry :=
  mk_search_entry ("cn=" +:+ name) (<["cn"%string := [name]]> (<["member"%string := members]> ∅)) ∅.
Definition bob_dn : string := "uid=bob,ou=people,dc=example,dc=com".
Definition carol_dn : string := "uid=carol,ou=people,dc=example,dc=com".
Definition old_ldap (carol : string) : LdapClient := mk_ldap_client "dc=example,dc=com" (fun base filter attributes =>
  Ok (if String.eqb filter user_filter then [old_user "bob" "bob@example.com" bob_dn; old_user carol "carol@example.com" carol_dn]
      else if String.eqb filter group_filter then [old_group "sailors" [bob_dn; carol_dn]]
      else [])).
Definition typed : Terminal := mk_terminal [true; true; true; true; true] ["ou=people"%string; "ou=groups"%string] [].
Definition migrated (carol : string) :=
  run_tool (LS := sql_server admin_admin) (old_ldap carol) (mk_tool_state example_world typed).
Definition members_of (w : World) (g : GroupId) : list string :=
  map (fun m => user_id_str m.1) (filter (fun m : UserId * GroupId => m.2 = g) (elements (db_memberships (w_db w)))).

(** With her id in lower case, carol joins the new group; as ["Carol"], she is created
    as ["carol"], is then not found among the users that LLDAP has, and is left out
    without a message. *)
Example capital_left_out :
  fst (migrated "carol") = Ok tt /\ members_of (ts_server (snd (migrated "carol"))) 5 = ["carol"; "bob"]%string
  /\ fst (migrated "Carol") = Ok tt /\ members_of (ts_server (snd (migrated "Carol"))) 5 = ["bob"]%string
  /\ is_Some (db_users (w_db (ts_server (snd (migrated "Carol")))) !! user_id_new "Carol").
Proof. split_and!; vm_compute; eauto. Qed.

Lemma migration_complete_witness :
  exists i, is_member (LldapView := sql_view) (ts_server (snd (migrated "carol"))) "carol" i.
Proof.
  destruct (migration_complete (LS := sql_server admin_admin) (LV := sql_view) (LL := sql_server_laws admin_admin)
    (old_ldap "carol") (mk_tool_state example_world typed) (snd (migrated "carol"))) as (users & groups & Hu & Hg & _ & H).
  - split; [split; repeat constructor|]. split; apply (bool_decide_eq_true_1 (map_Forall _ _)); vm_compute; reflexivity.
  - vm_compute. reflexivity.
  - destruct Hu as (b & es & [= <-] & [= <-]), Hg as (b' & es' & [= <-] & [= <-]).
    destruct (H (mk_ldap_group "sailors" [bob_dn; carol_dn])) as (i & _ & Hm); [left|]. exists i.
    apply (Hm ltac:(apply (bool_decide_eq_true_1 (NoDup _)); vm_compute; reflexivity)
      (mk_tool_user (mk_create_user_input "carol" "carol@example.com" (Some "carol"%string) None None None None) None carol_dn)).
    + right. left.
    + right. left.
    + vm_compute. reflexivity.
Defined.

(** A network of one server, which refuses nobody. *)
Definition one_server : LdapNetwork := {|
  to_socket_addrs _ := true;
  ldap_conn_accepted _ := true;
  to_socket_addrs_again _ := true;
  ldap_conn_new _ := Ok (mk_ldap_conn (fun _ _ => true) (fun _ => lc_search (old_ldap "carol")));
|}.
(** A network whose names are resolved once only, and one whose server has a group with an
    attribute without values. *)
Definition forgetful_network : LdapNetwork := {|
  to_socket_addrs _ := true;
  ldap_conn_accepted _ := true;
  to_socket_addrs_again _ := false;
  ldap_conn_new := @ldap_conn_new one_server;
|}.
Definition hollow_group : LdapNetwork := {|
  to_socket_addrs _ := true;
  ldap_conn_accepted _ := true;
  to_socket_addrs_again _ := true;
  ldap_conn_new _ := Ok (mk_ldap_conn (fun _ _ => true) (fun _ _ _ _ => Ok [mk_search_entry "cn=crew,dc=old" {[ "cn" := [] ]} ∅]));
|}.
Definition agreeing : Terminal :=
  mk_terminal [true; false; true]
    ["ldap://old"%string; "cn=admin,dc=old"%string; "secret"%string; "http://new"%string; "admin"%string; "secret"%string; "ou=groups"%string] [].
Example host_lost_panics :
  fst (main (LS := sql_server admin_admin) (N := forgetful_network) (fun _ => Some 401%Z) (fun _ _ _ => sret "token"%string)
         (mk_tool_state example_world agreeing))
  = Panic "called `Result::unwrap()` on an `Err` value".
Proof. vm_compute. reflexivity. Qed.
Example hollow_group_panics :
  fst (main (LS := sql_server admin_admin) (N := hollow_group) (fun _ => Some 401%Z) (fun _ _ _ => sret "token"%string)
         (mk_tool_state example_world agreeing))
  = Panic "called `Option::unwrap()` on a `None` value".
Proof. vm_compute. reflexivity. Qed.

Definition active_directory : Terminal :=
  mk_terminal [true] ["ldap://old"%string; "CN=admin,DC=example,DC=com"%string; "secret"%string] [].

End Examples.
