(* ===== verification/Startup.v ===== *)
(** * Start-up

    Models the start of the server ([server/src/main.rs]): the tables, the check of
    the private key, the default groups and the administrator.  The sockets, the
    scheduler and the logs that follow are not modelled, nor are the tables of
    [jwt_sql_tables.rs], created next to the others; the state is the database in
    the two forms of this development, [Engine] for its schema and its metadata row,
    [World] for the rows of the other tables. *)

From S2P Require Import Prelude RustStd Extern Types Concrete Handler Db ExampleDb SqlFilters SqlSchema SqlUser SqlGroup SqlBackend SqlTcp SqlOpaque SqlMachine SqlEngine Migrations Configuration AccessControl GraphqlSql.
From Stdlib Require Import Ascii String.
From stdpp Require Import strings list gmap.
#[local] Open Scope rust_scope.
#[local] Open Scope string_scope.

Section Startup.
Context `{C : Crates} `{B : Bincode} `{SL : SqlLib} `{OL : OpaqueLib} `{O : Orion} `{BS : !BincodeStream} `{CF : !OpaqueConfig}
  `{CT : ConfigTypes} `{K : !KeyLib}.

(** [?] on a backend's result in a function that returns [anyhow::Result]. *)
Definition domain {A} (m : SQL A) : stM World AnyError A := smap_err FromDomain m.

Definition named_groups (name : string) : SQL (list Group) := sql_list_groups (Some (GDisplayName (mk_ci name))).

(** Source: server/src/main.rs#async fn create_admin_user *)
Definition create_admin_user (config : Configuration) : stM World AnyError unit :=
  let pass_length := length (into_bytes (ldap_user_pass config)) in
  slift (assert_ "Minimum password length is 8 characters" (8 <=? pass_length)%nat) ;;
  smap_err (WithContext "Error creating admin user") (domain (
    sql_create_user (mk_create_user (ldap_user_dn config) (mk_ci (ldap_user_email config)) (Some "Administrator")
      None None None []) ;;
    register_password (ldap_user_dn config) (ldap_user_pass config))) ;;
  let! groups := domain (named_groups "lldap_admin") in
  slift (assert_ "assertion `left == right` failed" (length groups =? 1)%nat) ;;
  let! group := slift (expect "index out of bounds" (head groups)) in
  smap_err (WithContext "Error adding admin user to group")
    (domain (sql_add_user_to_group (ldap_user_dn config) (group_id group))).

(** Source: server/src/main.rs#async fn ensure_group_exists *)
Definition ensure_group_exists (group_name : string) : stM World AnyError unit :=
  let! groups := domain (named_groups group_name) in
  match groups with
  | [] =>
      let! _ := smap_err (WithContext ("while creating " +:+ group_name +:+ " group"))
                  (domain (sql_create_group (mk_create_group (mk_ci group_name) []))) in
      sret tt
  | _ => sret tt
  end.

(** An error of the listing counts as no administrator. *)
Definition admin_present : stM World AnyError bool :=
  let! admins := stry (sql_list_users (Some (UMemberOf (mk_ci "lldap_admin"))) false) in
  sret (match admins with inr admins => non_empty admins | inl _ => false end).

Definition default_groups : list string := ["lldap_admin"; "lldap_password_manager"; "lldap_strict_readonly"].

(** The part of [set_up_server] between the check of the key and the sockets.
    Source: server/src/main.rs#L126-162 *)
Definition set_up_accounts (config : Configuration) : stM World AnyError unit :=
  ensure_group_exists "lldap_admin" ;;
  ensure_group_exists "lldap_password_manager" ;;
  ensure_group_exists "lldap_strict_readonly" ;;
  let! present := admin_present in
  (if negb present then
     smap_err (WithContext "while creating the admin user")
       (smap_err (WithContext "Error setting up admin login/account") (create_admin_user config))
   else if force_ldap_user_pass_reset config then
     smap_err (WithContext ("while resetting admin password for " +:+ user_id_str (ldap_user_dn config)))
       (domain (register_password (ldap_user_dn config) (ldap_user_pass config)))
   else sret tt) ;;
  if force_update_private_key config || force_ldap_user_pass_reset config
  then slift (bail "Restart the server without --force-update-private-key or --force-ldap-user-pass-reset to continue.")
  else sret tt.

(** The database: its schema and metadata, and its rows. *)
Record Server := mk_server { sv_engine : Engine; sv_world : World }.
Definition on_engine {A} (m : stM Engine AnyError A) : stM Server AnyError A :=
  szoom sv_engine (fun e s => mk_server e (sv_world s)) m.
Definition on_world {A} (m : stM World AnyError A) : stM Server AnyError A :=
  szoom sv_world (fun w s => mk_server (sv_engine s) w) m.

(** The connection is there, and the JWT tables, which have no migrations, are part of [World].
    Source: server/src/main.rs#async fn setup_sql_tables *)
Definition setup_sql_tables : stM Server AnyError unit :=
  on_engine (smap_err (WithContext "while creating base tables") (smap_err FromDbErr init_table)).

(** Up to the sockets.
    Source: server/src/main.rs#L102-162 *)
Definition set_up_server (config : Configuration) (setup : ServerSetupConfig) : stM Server AnyError unit :=
  setup_sql_tables ;;
  on_engine (check_private_key (setup_key_info setup) (force_update_private_key config)) ;;
  on_world (set_up_accounts config).

(* ------------------------------------------------------------------ *)
(** ** The default groups *)

(** A group with this name, whatever its case. *)
Definition has_name (name : string) (r : GroupRow) : Prop := gr_lowercase_display_name r = to_lowercase name.
Definition has_group (name : string) (db : Db) : Prop := exists g r, db_groups db !! g = Some r /\ has_name name r.
Definition has_admin (db : Db) : Prop :=
  exists u g r, (u, g) ∈ db_memberships db /\ db_groups db !! g = Some r /\ has_name "lldap_admin" r.

Lemma selected_by_name db name g r :
  group_selected db (get_group_filter_expr (GDisplayName (mk_ci name))) g r = true <-> has_name name r.
Proof using Type.
  unfold group_selected, has_name. cbn [get_group_filter_expr eval_cond eval_group_expr sql_true ci_raw].
  rewrite <- String.eqb_eq. by destruct (String.eqb _ _).
Qed.

Lemma named_groups_run name w :
  exists l, named_groups name w = (Ok l, w) /\ NoDup (map group_id l)
    /\ forall x, x ∈ l <-> exists g r, db_groups (w_db w) !! g = Some r /\ x = full_group (w_db w) (g, r) /\ has_name name r.
Proof using Type.
  unfold named_groups. eexists. split; [apply sql_list_groups_run|]. split.
  { change (map group_id ?l) with (group_id <$> l). rewrite (sort_by_perm group_name_leb _).
    change (map ?f ?l) with (f <$> l). rewrite <- list_fmap_compose. apply select_groups_NoDup. }
  intros x.
  rewrite (elem_of_list_groups (Some (GDisplayName (mk_ci name))) w) by by rewrite sql_list_groups_run.
  split; intros (g & r & Hg & Hx & Hn); exists g, r; (split; [done|]).
  - split; [done|]. by apply selected_by_name in Hn.
  - by rewrite selected_by_name.
Qed.

Lemma domain_run {A} (m : SQL A) w a w' : m w = (Ok a, w') -> domain m w = (Ok a, w').
Proof using Type. unfold domain, smap_err. by intros ->. Qed.

(** A group without attributes: the only thing that can fail is its row. *)
Lemma create_plain_group_run name w :
  sql_create_group (mk_create_group (mk_ci name) []) w
  = let g := (db_groups_seq (w_db w) + 1)%Z in
    let r := created_group_row (mk_create_group (mk_ci name) []) (w_now w) in
    if decide (group_unique g r (w_db w))
    then (Ok g, set_db (set_groups_seq g (set_groups (<[g := r]> (db_groups (w_db w))) (w_db w))) w)
    else (Err (unique "groups"), w).
Proof using Type.
  unfold sql_create_group, transaction, sbind at 1, utc_now. unfold sbind at 1. rewrite get_schema_with_transaction_run.
  unfold sbind at 1, insert_group, statement. change (mk_group_row _ _ _ _) with (created_group_row (mk_create_group (mk_ci name) []) (w_now w)).
  cbv zeta. unfold guard_. case_decide; [|done]. cbn. by destruct w as [[] ? ? ?].
Qed.

(** The world after the group was created. *)
Definition with_group (name : string) (w : World) : World :=
  let g := (db_groups_seq (w_db w) + 1)%Z in
  set_db (set_groups_seq g (set_groups (<[g := created_group_row (mk_create_group (mk_ci name) []) (w_now w)]>
    (db_groups (w_db w))) (w_db w))) w.

Lemma ensure_group_exists_found name w : has_group name (w_db w) -> ensure_group_exists name w = (Ok tt, w).
Proof using Type.
  intros (g & r & Hg & Hn). destruct (named_groups_run name w) as (l & Hl & _ & Hin). unfold ensure_group_exists.
  rewrite (sbind_run _ _ _ _ _ (domain_run _ _ _ _ Hl)). destruct l; [|done].
  exfalso. apply (not_elem_of_nil (full_group (w_db w) (g, r))), Hin. eauto.
Qed.

Lemma ensure_group_exists_missing name w :
  ~ has_group name (w_db w) ->
  group_unique (db_groups_seq (w_db w) + 1)%Z (created_group_row (mk_create_group (mk_ci name) []) (w_now w)) (w_db w) ->
  ensure_group_exists name w = (Ok tt, with_group name w).
Proof using Type.
  intros Hno Hu. destruct (named_groups_run name w) as (l & Hl & _ & Hin). unfold ensure_group_exists.
  rewrite (sbind_run _ _ _ _ _ (domain_run _ _ _ _ Hl)). destruct l as [|x l].
  2: { destruct (proj1 (Hin x) (list_elem_of_here _ _)) as (g & r & Hg & _ & Hn). destruct Hno. by exists g, r. }
  pose proof (create_plain_group_run name w) as Hrun. cbv zeta in Hrun. rewrite decide_True in Hrun by done.
  unfold sbind, smap_err, domain, smap_err. by rewrite Hrun.
Qed.

(** Groups are only added; users, their passwords and memberships stay. *)
Definition groups_added (db db' : Db) : Prop :=
  db_groups db ⊆ db_groups db' /\ db_users db' = db_users db /\ db_memberships db' = db_memberships db.
#[local] Instance groups_added_preorder : PreOrder groups_added.
Proof using Type.
  split; [by intros db|]. intros db1 db2 db3 (H1 & H2 & H3) (H4 & H5 & H6). split_and!; [by etrans|congruence..].
Qed.

Lemma has_group_added name db db' : groups_added db db' -> has_group name db -> has_group name db'.
Proof using Type. intros (Hs & _) (g & r & Hg & Hn). exists g, r. split; [by eapply lookup_weaken|done]. Qed.
Lemma has_admin_added db db' : groups_added db db' -> has_admin db -> has_admin db'.
Proof using Type.
  intros (Hs & _ & Hm) (u & g & r & Hu & Hg & Hn). exists u, g, r. split_and!; [by rewrite Hm|by eapply lookup_weaken|done].
Qed.

Lemma new_group_id db : db_ok db -> db_groups db !! (db_groups_seq db + 1)%Z = None.
Proof using Type.
  intros Hok. destruct (db_groups db !! _) as [r|] eqn:Hg; [|done]. destruct (ok_group_rows _ Hok _ r Hg). lia.
Qed.

(** What a call of [ensure_group_exists] does, found or not. *)
Lemma ensure_group_exists_spec name w :
  world_ok w ->
  let '(r, w') := ensure_group_exists name w in
  world_ok w' /\ no_panic r /\ groups_added (w_db w) (w_db w') /\ (r = Ok tt -> has_group name (w_db w')).
Proof using Type.
  intros Hok. destruct (named_groups_run name w) as (l & Hl & _ & Hin).
  destruct l as [|x l].
  - unfold ensure_group_exists. rewrite (sbind_run _ _ _ _ _ (domain_run _ _ _ _ Hl)).
    pose proof (sql_create_group_preserves (mk_create_group (mk_ci name) []) w Hok) as Hok'.
    pose proof (create_plain_group_run name w) as Hrun. cbv zeta in Hrun.
    unfold sbind, smap_err, domain, smap_err. rewrite Hrun in Hok' |- *. case_decide; cbn in *.
    + split_and!; [done|auto with rust| |].
      * split_and!; [by apply insert_subseteq, new_group_id|done..].
      * intros _. eexists _, _. split; [apply lookup_insert_eq|done].
    + split_and!; [done|auto with rust|done|done].
  - rewrite ensure_group_exists_found.
    + destruct (proj1 (Hin x) (list_elem_of_here _ _)) as (g & r & Hg & _ & Hn).
      split_and!; [done|auto with rust|done|]. intros _. by exists g, r.
    + destruct (proj1 (Hin x) (list_elem_of_here _ _)) as (g & r & Hg & _ & Hn). by exists g, r.
Qed.

(* ------------------------------------------------------------------ *)
(** ** The administrator *)

Lemma admin_present_run w :
  world_ok w -> exists b, admin_present w = (Ok b, w) /\ (b = true <-> has_admin (w_db w)).
Proof using Type.
  intros Hok. unfold admin_present, sbind, stry.
  rewrite (sql_list_users_run (UMemberOf (mk_ci "lldap_admin")) false w _ eq_refl). eexists. split; [done|].
  set (c := CExpr _).
  assert (Hsel : forall u r, user_selected (w_db w) c u r = true <->
            member_of (w_db w) u (fun _ gr => has_name "lldap_admin" gr)).
  { intros u r. unfold user_selected, c. cbn [eval_cond eval_user_expr].
    apply decides_true, decides_in_group. intros g gr _ _. apply String.eqb_eq. }
  split.
  - destruct (select_users c (w_db w)) as [|[u r] l] eqn:Hl; [done|]. intros _.
    destruct (proj1 (elem_of_select_users c (w_db w) u r)) as [_ Hs]; [rewrite Hl; constructor|].
    apply Hsel in Hs as (g & gr & Hm & Hg & Hn). by exists u, g, gr.
  - intros (u & g & gr & Hm & Hg & Hn). destruct (ok_memberships _ Hok u g Hm) as [[r Hu] _].
    assert (Hin : (u, r) ∈ select_users c (w_db w)).
    { apply elem_of_select_users. split; [done|]. apply Hsel. by exists g, gr. }
    destruct (select_users c (w_db w)); [by apply elem_of_nil in Hin|done].
Qed.

(** Programs that leave the groups and the memberships alone. *)
Definition same_groups (db db' : Db) : Prop :=
  db_groups db' = db_groups db /\ db_memberships db' = db_memberships db.

Lemma statement_same_groups {A} db0 (f : Db -> outcome DomainError (A * Db)) :
  (forall db a db', f db = Ok (a, db') -> same_groups db db') -> preserves (fun w => same_groups db0 (w_db w)) (statement f).
Proof using Type.
  intros Hf w [Hg Hm]. unfold statement. destruct (f (w_db w)) as [[a db']|e|p] eqn:He; [|done..].
  destruct (Hf _ _ _ He). cbn. unfold same_groups. split; congruence.
Qed.

Lemma register_password_same_groups db0 u p : preserves (fun w => same_groups db0 (w_db w)) (register_password u p).
Proof using Type.
  assert (Hr : preserves (fun w => same_groups db0 (w_db w)) gen_random_string) by by intros w.
  unfold register_password, oh_registration_start, oh_registration_finish, lift_ke. cbn [SqlOpaqueHandler].
  unfold sql_registration_start, sql_registration_finish, lift_ke. stm.
  apply statement_same_groups. intros db b db' H. destruct (db_users db !! _); [|done]. checked H. by injection H as <- <-.
Qed.

(** The administrator's account, before it has a password. *)
Definition admin_request (config : Configuration) : CreateUserRequest :=
  mk_create_user (ldap_user_dn config) (mk_ci (ldap_user_email config)) (Some "Administrator") None None None [].
Definition with_user (config : Configuration) (w : World) : World :=
  set_db (set_users (<[ldap_user_dn config := created_row (admin_request config) (w_now w)]> (db_users (w_db w))) (w_db w)) w.

Lemma create_admin_row_run config w :
  let row_fits := db_users (w_db w) !! ldap_user_dn config = None
                  /\ user_unique (ldap_user_dn config) (created_row (admin_request config) (w_now w)) (w_db w) in
  (row_fits -> sql_create_user (admin_request config) w = (Ok tt, with_user config w))
  /\ (~ row_fits -> exists e, sql_create_user (admin_request config) w = (Err e, w)).
Proof using Type.
  assert (Hrun : sql_create_user (admin_request config) w
    = transaction (insert_user (ldap_user_dn config) (created_row (admin_request config) (w_now w)) ;; sret tt) w).
  { unfold sql_create_user, sbind at 1, utc_now, transaction. unfold sbind at 1. rewrite get_schema_with_transaction_run. done. }
  rewrite Hrun. unfold transaction, sbind. rewrite insert_user_run.
  split; intros Hf; [by rewrite decide_True|rewrite decide_False by done; by eexists].
Qed.

(** Integrity and the absence of panics for the steps of [create_admin_user]. *)
Lemma register_password_calm u p : never_panics (register_password u p).
Proof using Type.
  assert (Hr : never_panics gen_random_string) by (intros w; apply no_panic_ok).
  assert (Hk : forall A e (o : option A), never_panics (slift (S:=World) (E:=DomainError) (ok_or e o))).
  { intros. apply never_panics_lift, ok_or_no_panic. }
  assert (Hs : no_panic get_orion_secret_key) by apply ok_or_no_panic.
  unfold register_password, oh_registration_start, oh_registration_finish, lift_ke. cbn.
  unfold sql_registration_start, sql_registration_finish, lift_ke. calm.
  - by apply never_panics_lift.
  - apply never_panics_lift. unfold open_server_data. do 3 (apply obind_no_panic; [auto with rust|intros ? _]). auto with rust.
  - intros w. unfold update_user_row, statement. destruct (db_users (w_db w) !! _); [|apply no_panic_err].
    unfold guard_. by case_decide.
Qed.

(** The account with its password: all steps before the membership. *)
Definition create_account (config : Configuration) : SQL unit :=
  sql_create_user (admin_request config) ;; register_password (ldap_user_dn config) (ldap_user_pass config).

Lemma create_account_spec config w :
  world_ok w ->
  let '(r, w1) := create_account config w in world_ok w1 /\ same_groups (w_db w) (w_db w1) /\ no_panic r.
Proof using Type.
  intros Hok.
  assert (H1 : preserves world_ok (create_account config)) by (apply preserves_bind; [apply sql_create_user_preserves|intros _; apply register_password_preserves]).
  destruct (create_admin_row_run config w) as [Hyes Hno]. unfold create_account, sbind. specialize (H1 w Hok).
  unfold create_account, sbind in H1.
  destruct (decide (db_users (w_db w) !! ldap_user_dn config = None
    /\ user_unique (ldap_user_dn config) (created_row (admin_request config) (w_now w)) (w_db w))) as [Hf|Hf].
  - rewrite (Hyes Hf) in *.
    pose proof (register_password_same_groups (w_db w) (ldap_user_dn config) (ldap_user_pass config) (with_user config w) ltac:(done)) as Hs.
    pose proof (register_password_calm (ldap_user_dn config) (ldap_user_pass config) (with_user config w)) as Hc.
    by destruct (register_password _ _ _) as [r w1].
  - destruct (Hno Hf) as [e He]. rewrite He in *. split_and!; [done|done|auto with rust].
Qed.

(** No two groups share a name. *)
Lemma named_groups_one name db l g r :
  db_ok db -> db_groups db !! g = Some r -> has_name name r -> NoDup (map group_id l) ->
  (forall x, x ∈ l <-> exists g r, db_groups db !! g = Some r /\ x = full_group db (g, r) /\ has_name name r) ->
  l = [full_group db (g, r)].
Proof using Type.
  intros Hok Hg Hn Hnd Hin.
  assert (Hall : forall x, x ∈ l -> x = full_group db (g, r)).
  { intros x (g' & r' & Hg' & -> & Hn')%Hin. destruct (decide (g' = g)) as [->|Hne]; [congruence|].
    destruct (ok_groups _ Hok g r Hg g' r' Hg' Hne) as (_ & Hd & _). unfold has_name in *. congruence. }
  assert (Hx : full_group db (g, r) ∈ l) by (apply Hin; eauto).
  destruct l as [|x l]; [by apply elem_of_nil in Hx|]. rewrite (Hall x) in * by constructor. f_equal.
  destruct l as [|y l]; [done|]. exfalso. rewrite (Hall y) in Hnd by by right; left.
  cbn in Hnd. apply NoDup_cons in Hnd as [Hnd _]. apply Hnd. by left.
Qed.

Lemma insert_membership_cases u g w :
  let '(r, w') := insert_membership u g w in
  no_panic r /\ db_groups (w_db w') = db_groups (w_db w)
  /\ (r = Ok tt -> (u, g) ∈ db_memberships (w_db w') /\ db_groups (w_db w') = db_groups (w_db w)).
Proof using Type.
  unfold insert_membership, statement, guard_. case_decide; cbn; [|split_and!; done].
  case_decide; cbn; [|split_and!; done]. case_decide; cbn; [|split_and!; done].
  split_and!; [auto with rust|done|]. intros _. split; [set_solver|done].
Qed.

Lemma insert_membership_run u g w :
  (u, g) ∉ db_memberships (w_db w) -> is_Some (db_users (w_db w) !! u) -> is_Some (db_groups (w_db w) !! g) ->
  insert_membership u g w = (Ok tt, set_db (set_memberships ({[(u, g)]} ∪ db_memberships (w_db w)) (w_db w)) w).
Proof using Type.
  intros Hn Hu Hg. unfold insert_membership, statement, guard_. by rewrite !decide_True by done.
Qed.

Lemma create_admin_user_spec config w :
  world_ok w -> has_group "lldap_admin" (w_db w) ->
  let '(r, w') := create_admin_user config w in
  world_ok w' /\ db_groups (w_db w') = db_groups (w_db w)
  /\ (is_panic r -> (length (into_bytes (ldap_user_pass config)) < 8)%nat)
  /\ (r = Ok tt -> has_admin (w_db w')).
Proof using Type.
  intros Hok Hg. unfold create_admin_user. cbv zeta. destruct (8 <=? _)%nat eqn:Hlen; cbn [assert_].
  2: { apply Nat.leb_gt in Hlen. cbn. by split_and!. }
  rewrite (sbind_run (slift (Ok tt)) _ w tt w eq_refl).
  change (sql_create_user _ ;; register_password _ _) with (create_account config).
  pose proof (create_account_spec config w Hok) as Hacc.
  destruct (create_account config w) as [[[]|e|p] w1] eqn:Hrun; destruct Hacc as (Hok1 & [Hg1 Hm1] & Hnp).
  2: { unfold sbind, smap_err, domain, smap_err. rewrite Hrun. cbn. split_and!; try done. by intros []. }
  2: by destruct (Hnp p).
  rewrite (sbind_run _ _ w tt w1) by (by apply smap_err_ok, domain_run).
  destruct (named_groups_run "lldap_admin" w1) as (l & Hl & Hnd & Hin).
  rewrite (sbind_run _ _ w1 l w1) by by apply domain_run.
  destruct Hg as (g & r & Hgr & Hn). rewrite <- Hg1 in Hgr.
  pose proof (named_groups_one "lldap_admin" (w_db w1) l g r Hok1 Hgr Hn Hnd Hin) as ->.
  rewrite (sbind_run _ _ w1 tt w1) by done. rewrite (sbind_run _ _ w1 (full_group (w_db w1) (g, r)) w1) by done.
  cbn [group_id full_group]. unfold sql_add_user_to_group, smap_err, domain, smap_err.
  match goal with |- context [insert_membership ?u ?g' w1] =>
    pose proof (insert_membership_ok u g' w1 Hok1) as Hok2; pose proof (insert_membership_cases u g' w1) as Hc;
    destruct (insert_membership u g' w1) as [r' w2] end.
  destruct Hc as (Hnp' & Hg2 & Hm2). cbn [snd fst] in *. cbv beta iota.
  split_and!; [done|congruence| |].
  - intros [p Hp]. destruct r' as [[]|e|q]; [done..|by destruct (Hnp' q)].
  - intros Hr'. assert (r' = Ok tt) as Hr2 by by destruct r' as [[]| |]. destruct (Hm2 Hr2) as [Hin2 Hg3].
    exists (ldap_user_dn config), g, r. split_and!; [done|by rewrite Hg3|done].
Qed.

(* ------------------------------------------------------------------ *)
(** ** The accounts after a start *)

(** The part of [set_up_accounts] after the groups. *)
Definition accounts_after_groups (config : Configuration) : stM World AnyError unit :=
  let! present := admin_present in
  (if negb present then
     smap_err (WithContext "while creating the admin user")
       (smap_err (WithContext "Error setting up admin login/account") (create_admin_user config))
   else if force_ldap_user_pass_reset config then
     smap_err (WithContext ("while resetting admin password for " +:+ user_id_str (ldap_user_dn config)))
       (domain (register_password (ldap_user_dn config) (ldap_user_pass config)))
   else sret tt) ;;
  if force_update_private_key config || force_ldap_user_pass_reset config
  then slift (bail "Restart the server without --force-update-private-key or --force-ldap-user-pass-reset to continue.")
  else sret tt.

Definition forced (config : Configuration) : bool := force_update_private_key config || force_ldap_user_pass_reset config.

(** When everything is there, a start without flags does nothing. *)
Lemma set_up_accounts_again config w :
  world_ok w -> Forall (fun n => has_group n (w_db w)) default_groups -> has_admin (w_db w) -> forced config = false ->
  set_up_accounts config w = (Ok tt, w).
Proof using Type.
  intros Hok Hg Ha Hf. unfold default_groups in Hg. rewrite !Forall_cons in Hg. destruct Hg as (H1 & H2 & H3 & _). unfold set_up_accounts.
  do 3 (rewrite (sbind_run _ _ w tt w) by by apply ensure_group_exists_found).
  destruct (admin_present_run w Hok) as (b & Hb & Hiff). rewrite (sbind_run _ _ _ _ _ Hb). rewrite (proj2 Hiff Ha).
  unfold forced in Hf. cbn [negb]. rewrite Hf. apply orb_false_iff in Hf as [_ ->]. done.
Qed.

Lemma sbind_of {S E A D} (m : stM S E A) (f : A -> stM S E D) s :
  sbind m f s = match m s with (Ok a, s') => f a s' | (Err e, s') => (Err e, s') | (Panic p, s') => (Panic p, s') end.
Proof using Type. done. Qed.

Lemma accounts_after_groups_spec config w :
  world_ok w -> has_group "lldap_admin" (w_db w) ->
  let '(r, w') := accounts_after_groups config w in
  world_ok w' /\ db_groups (w_db w') = db_groups (w_db w)
  /\ (r = Ok tt -> has_admin (w_db w') /\ forced config = false)
  /\ (is_panic r -> ~ has_admin (w_db w) /\ (length (into_bytes (ldap_user_pass config)) < 8)%nat)
  /\ (has_admin (w_db w) -> force_ldap_user_pass_reset config = false -> w' = w).
Proof using Type.
  intros Hok Hg. unfold accounts_after_groups. destruct (admin_present_run w Hok) as (b & Hb & Hiff).
  rewrite (sbind_run _ _ _ _ _ Hb). destruct b; cbn [negb].
  - assert (Ha : has_admin (w_db w)) by by apply Hiff. unfold forced. destruct (force_ldap_user_pass_reset config); cbn [orb].
    + rewrite orb_true_r. rewrite sbind_of. unfold smap_err at 1, domain, smap_err at 1.
      pose proof (register_password_preserves (ldap_user_dn config) (ldap_user_pass config) w Hok) as Hp.
      pose proof (register_password_same_groups (w_db w) (ldap_user_dn config) (ldap_user_pass config) w ltac:(done)) as [Hs _].
      pose proof (register_password_calm (ldap_user_dn config) (ldap_user_pass config) w) as Hc.
      destruct (register_password _ _ w) as [[[]|e|p] w1]; cbn in *; [| |by destruct (Hc p)];
        (split_and!; [done|done|done|by intros []|done]).
    + rewrite orb_false_r. rewrite (sbind_run _ _ w tt w) by done. destruct (force_update_private_key config); cbn;
        split_and!; try done; by intros [].
  - assert (Ha : ~ has_admin (w_db w)) by (by intros H%Hiff). rewrite sbind_of. unfold smap_err.
    pose proof (create_admin_user_spec config w Hok Hg) as H.
    destruct (create_admin_user config w) as [[[]|e|p] w1]; destruct H as (H1 & H2 & H3 & H4); cbn.
    + unfold forced. destruct (_ || _); cbn; split_and!; try done; try (by intros []). intros _. split; [by apply H4|done].
    + split_and!; try done. by intros [].
    + split_and!; try done. intros _. split; [done|]. apply H3. by eexists.
Qed.

(** C12. After a start.  A start that succeeds leaves a database, with its integrity
    intact, that has the three default groups and at least one member of the
    administrators' group, and starting again changes nothing.  Where an
    administrator exists and no reset is asked for, no user, password or membership
    is touched, whether the start succeeds or not.  The only panic is the one for a
    configured password shorter than 8 bytes, when there is no administrator. *)
Theorem accounts_ready config w :
  world_ok w ->
  let '(r, w') := set_up_accounts config w in
  world_ok w'
  /\ (r = Ok tt ->
        Forall (fun n => has_group n (w_db w')) default_groups /\ has_admin (w_db w')
        /\ set_up_accounts config w' = (Ok tt, w'))
  /\ (has_admin (w_db w) -> force_ldap_user_pass_reset config = false -> groups_added (w_db w) (w_db w'))
  /\ (is_panic r -> ~ has_admin (w_db w) /\ (length (into_bytes (ldap_user_pass config)) < 8)%nat).
Proof using Type.
  intros Hok0. unfold set_up_accounts at 1. rewrite sbind_of.
  pose proof (ensure_group_exists_spec "lldap_admin" w Hok0) as H.
  destruct (ensure_group_exists "lldap_admin" w) as [[[]|e|p] w1]; destruct H as (Hok1 & Hp & Hg1 & Hn1);
    [|split_and!; try done; by intros []|by destruct (Hp p)].
  rewrite sbind_of. pose proof (ensure_group_exists_spec "lldap_password_manager" w1 Hok1) as H. clear Hp.
  destruct (ensure_group_exists _ w1) as [[[]|e|p] w2]; destruct H as (Hok2 & Hp & Hg2 & Hn2);
    [|split_and!; try done; [by intros _ _; etrans|by intros []]|by destruct (Hp p)].
  rewrite sbind_of. pose proof (ensure_group_exists_spec "lldap_strict_readonly" w2 Hok2) as H. clear Hp.
  destruct (ensure_group_exists _ w2) as [[[]|e|p] w3]; destruct H as (Hok3 & Hp & Hg3 & Hn3);
    [|split_and!; try done; [by intros _ _; etrans; [exact Hg1|etrans]|by intros []]|by destruct (Hp p)].
  specialize (Hn1 eq_refl). specialize (Hn2 eq_refl). specialize (Hn3 eq_refl).
  assert (Hadd : groups_added (w_db w) (w_db w3)) by (etrans; [exact Hg1|etrans; [exact Hg2|exact Hg3]]).
  assert (Hall : Forall (fun n => has_group n (w_db w3)) default_groups).
  { repeat constructor; [|by apply (has_group_added _ (w_db w2))|done].
    apply (has_group_added _ (w_db w2)); [done|]. by apply (has_group_added _ (w_db w1)). }
  pose proof (accounts_after_groups_spec config w3 Hok3) as H. specialize (H (Forall_inv Hall)).
  change (sbind admin_present _ w3) with (accounts_after_groups config w3).
  destruct (accounts_after_groups config w3) as [r w']. destruct H as (Hok4 & Hsame & Hr & Hpan & Hkeep). split_and!.
  - done.
  - intros He. destruct (Hr He) as [Ha Hf].
    assert (Hall' : Forall (fun n => has_group n (w_db w')) default_groups).
    { eapply Forall_impl; [exact Hall|]. intros n. unfold has_group. by rewrite Hsame. }
    split_and!; [done..|]. by apply set_up_accounts_again.
  - intros Ha Hf. by rewrite (Hkeep (has_admin_added _ _ Hadd Ha) Hf).
  - intros Hpp. destruct (Hpan Hpp) as [Hna Hlen]. split; [|done]. intros Ha. by apply Hna, (has_admin_added (w_db w)).
Qed.

(* ------------------------------------------------------------------ *)
(** ** A new server *)

Lemma with_group_ok name w :
  world_ok w ->
  group_unique (db_groups_seq (w_db w) + 1)%Z (created_group_row (mk_create_group (mk_ci name) []) (w_now w)) (w_db w) ->
  world_ok (with_group name w).
Proof using Type.
  intros Hok Hu. pose proof (sql_create_group_preserves (mk_create_group (mk_ci name) []) w Hok) as H.
  rewrite create_plain_group_run in H. cbv zeta in H. by rewrite decide_True in H.
Qed.

(** The rows of the groups created at one time differ when names and UUIDs do. *)
Definition group_row_of (now : NaiveDateTime) (name : string) : GroupRow :=
  created_group_row (mk_create_group (mk_ci name) []) now.
Lemma group_rows_of_differ now n1 n2 :
  to_lowercase n1 <> to_lowercase n2 -> gr_uuid (group_row_of now n1) <> gr_uuid (group_row_of now n2) ->
  group_rows_differ (group_row_of now n1) (group_row_of now n2).
Proof using Type. intros Hn Hu. split_and!; [|done|done]. cbn. intros [= ->]. done. Qed.

(** A database without users whose groups are [names], in the order of their ids. *)
Record has_only (names : list string) (w : World) : Prop := {
  only_ok : world_ok w;
  only_users : db_users (w_db w) = ∅;
  only_seq : db_groups_seq (w_db w) = Z.of_nat (length names);
  only_groups g r : db_groups (w_db w) !! g = Some r <->
    exists i n, g = Z.of_nat (S i) /\ names !! i = Some n /\ r = group_row_of (w_now w) n;
}.

(** Creating the next one. *)
Lemma ensure_next_group names name w :
  has_only names w -> Forall (fun n => to_lowercase n <> to_lowercase name) names ->
  Forall (fun n => gr_uuid (group_row_of (w_now w) n) <> gr_uuid (group_row_of (w_now w) name)) names ->
  exists w', ensure_group_exists name w = (Ok tt, w') /\ has_only (names ++ [name]) w' /\ w_now w' = w_now w.
Proof using Type.
  intros [Hok Hu Hs Hg] Hn Hi. exists (with_group name w). rewrite Forall_forall in Hn, Hi.
  assert (Huniq : group_unique (db_groups_seq (w_db w) + 1)%Z (group_row_of (w_now w) name) (w_db w)).
  { intros g r (i & n & -> & Hin%list_elem_of_lookup_2 & ->)%Hg _.
    apply group_rows_of_differ; [by apply not_eq_sym, Hn|by apply not_eq_sym, Hi]. }
  split; [apply ensure_group_exists_missing; [|exact Huniq]|split; [|done]].
  - intros (g & r & (i & n & -> & Hin%list_elem_of_lookup_2 & ->)%Hg & Hname). by apply (Hn n Hin).
  - split; [by apply with_group_ok|done|cbn; rewrite Hs, length_app; cbn; lia|].
    intros g r. cbn. rewrite Hs, lookup_insert_Some, Hg. setoid_rewrite lookup_app_Some. split.
    + intros [[<- <-]|[Hne (i & n & -> & Hin & ->)]].
      * exists (length names), name. split_and!; [lia| |done]. right. by rewrite Nat.sub_diag.
      * exists i, n. by split_and!; [|left|].
    + intros (i & n & -> & [Hin|[Hle Hin]] & ->).
      * right. pose proof (lookup_lt_Some _ _ _ Hin). split; [lia|]. by exists i, n.
      * left. apply list_lookup_singleton_Some in Hin as [Hi0 <-]. split; [lia|done].
Qed.

Context {UL : UnicodeLaws crates_unicode} {B6 : Base64Laws crates_base64} {LL : OpaqueLaws OL} {OO : OrionLaws O}
  {BSL : BincodeStreamLaws BS}.

Lemma default_names_differ : NoDup (map to_lowercase default_groups).
Proof using UL. cbn [default_groups map]. rewrite !to_lowercase_ascii by done. apply (bool_decide_unpack _). by vm_compute. Qed.

(** The three groups of a new database, in order. *)
Lemma default_groups_created w :
  has_only [] w -> NoDup (map (fun n => gr_uuid (group_row_of (w_now w) n)) default_groups) ->
  exists w3, has_only default_groups w3 /\ w_now w3 = w_now w
    /\ forall config, set_up_accounts config w = accounts_after_groups config w3.
Proof using UL.
  intros H0 Hu. pose proof default_names_differ as Hn. unfold default_groups in *. cbn [map] in *.
  rewrite !NoDup_cons, !not_elem_of_cons in Hn. rewrite !NoDup_cons, !not_elem_of_cons in Hu. destruct Hn as ((Hn1 & Hn2 & _) & (Hn3 & _) & _).
  destruct Hu as ((Hu1 & Hu2 & _) & (Hu3 & _) & _).
  destruct (ensure_next_group [] "lldap_admin" w H0) as (w1 & R1 & H1 & Hw1); [by constructor..|].
  destruct (ensure_next_group _ "lldap_password_manager" w1 H1) as (w2 & R2 & H2 & Hw2).
  { by repeat constructor. }
  { rewrite Hw1. by repeat constructor. }
  destruct (ensure_next_group _ "lldap_strict_readonly" w2 H2) as (w3 & R3 & H3 & Hw3).
  { by repeat constructor. }
  { rewrite Hw2, Hw1. by repeat constructor. }
  exists w3. split_and!; [exact H3|congruence|]. intros config. unfold set_up_accounts.
  by rewrite (sbind_run _ _ _ _ _ R1), (sbind_run _ _ _ _ _ R2), (sbind_run _ _ _ _ _ R3).
Qed.

(** The administrator of a new database. *)
Lemma first_admin_created config k w :
  has_only default_groups w -> user_id_wf (ldap_user_dn config) = true ->
  (8 <= length (into_bytes (ldap_user_pass config)))%nat -> get_orion_secret_key = Ok k ->
  exists hash row w', create_admin_user config w = (Ok tt, w')
    /\ rooted (mk_ci "lldap_admin") (Some (ldap_user_dn config)) (w_db w')
    /\ db_users (w_db w') !! ldap_user_dn config = Some (set_password_hash hash row)
    /\ forall p' w2, db_users (w_db w2) !! ldap_user_dn config = Some (set_password_hash hash row) ->
         fst (sql_bind (mk_bind_request (ldap_user_dn config) p') w2)
         = if decide (p' = ldap_user_pass config) then Ok tt
           else Err (AuthenticationError (" for user '" +:+ user_id_str (ldap_user_dn config) +:+ "'")).
Proof using UL B6 LL OO BSL.
  intros [Hok Hu Hs Hg] Hwf Hlen Hk.
  set (u := ldap_user_dn config) in *. set (row := created_row (admin_request config) (w_now w)).
  destruct (create_admin_row_run config w) as [Hrow _].
  assert (Hfits : db_users (w_db w) !! u = None /\ user_unique u row (w_db w)).
  { split; [by rewrite Hu|]. intros u' r'. by rewrite Hu. }
  specialize (Hrow Hfits).
  assert (Hok1 : world_ok (with_user config w)).
  { pose proof (sql_create_user_preserves (admin_request config) w Hok) as H. by rewrite Hrow in H. }
  destruct (register_password_spec u (ldap_user_pass config) row k (with_user config w) Hok1 Hwf) as (hash & w1 & R1 & Hdb & Hb);
    [by apply lookup_insert_eq|done|].
  assert (Hg1 : db_groups (w_db w1) !! 1%Z = Some (group_row_of (w_now w) "lldap_admin")).
  { rewrite Hdb. cbn. apply Hg. by exists 0%nat, "lldap_admin". }
  assert (Hok2 : world_ok w1).
  { pose proof (register_password_preserves u (ldap_user_pass config) _ Hok1) as H. by rewrite R1 in H. }
  assert (Hmem : db_memberships (w_db w1) = ∅).
  { rewrite Hdb. cbn. apply elem_of_equiv_empty_L. intros [u' g'] Hin. destruct (ok_memberships _ Hok _ _ Hin) as [[? Hx] _].
    by rewrite Hu in Hx. }
  exists hash, row. eexists. split; [|split; [|split; [|exact Hb]]].
  - unfold create_admin_user. cbv zeta. rewrite (proj2 (Nat.leb_le _ _)) by done.
    rewrite (sbind_run _ _ w tt w) by done. rewrite (sbind_run _ _ w tt w1).
    2: { apply smap_err_ok, domain_run. change (mk_create_user _ _ _ _ _ _ _) with (admin_request config).
         by rewrite (sbind_run _ _ _ _ _ Hrow). }
    destruct (named_groups_run "lldap_admin" w1) as (l & Hl & Hnd & Hin). rewrite (sbind_run _ _ _ _ _ (domain_run _ _ _ _ Hl)).
    rewrite (named_groups_one "lldap_admin" (w_db w1) l 1%Z _ Hok2 Hg1 eq_refl Hnd Hin).
    rewrite (sbind_run _ _ w1 tt w1) by done. rewrite (sbind_run _ _ w1 (full_group (w_db w1) (1%Z, group_row_of (w_now w) "lldap_admin")) w1) by done.
    apply smap_err_ok, domain_run. unfold sql_add_user_to_group. cbn [group_id full_group]. apply insert_membership_run.
    + set_solver.
    + rewrite Hdb. eexists. cbn. apply lookup_insert_eq.
    + by eexists.
  - split; cbn.
    + rewrite Hdb. cbn. rewrite Hs. done.
    + eexists. split; [exact Hg1|done].
    + intros u' [= <-]. split; [rewrite Hdb; cbn; by rewrite lookup_insert_eq|set_solver].
  - cbn. rewrite Hdb. apply lookup_insert_eq.
Qed.

End Startup.

(* ------------------------------------------------------------------ *)
(** ** Examples *)

Section StartupWitnesses.
Definition toy_config_types : ConfigTypes := {| Mailbox := string; Url := string |}.
#[local] Existing Instances concrete_crates concrete_bincode concrete_sql toy_opaque toy_orion toy_stream toy_config
  toy_config_types.

Definition example_config (password : string) (force_reset : bool) : Configuration :=
  mk_configuration "0.0.0.0" 3890 "0.0.0.0" 17170 "secretjwtsecret" "dc=example,dc=com" uid_admin "admin@example.com"
    password force_reset false "sqlite://users.db?mode=rwc" [] [] false "server_key" None
    mail_options_default ldaps_options_default "http://localhost".

(** The example database has its groups and its administrator: nothing to do. *)
Lemma accounts_ready_witness :
  set_up_accounts (example_config "password" false) example_world = (Ok tt, example_world)
  /\ has_admin example_db.
Proof.
  pose proof (accounts_ready (example_config "password" false) example_world example_world_ok) as H.
  assert (Hrun : set_up_accounts (example_config "password" false) example_world = (Ok tt, example_world)) by by vm_compute.
  rewrite Hrun in H. destruct H as (_ & H & _). destruct (H eq_refl) as (_ & Ha & Hagain). by split.
Defined.

(** Without an administrator a short password is a panic, after the groups were created. *)
Example short_password_panics :
  fst (set_up_accounts (example_config "hunter2" false) empty_world) = Panic "Minimum password length is 8 characters"
  /\ db_groups_seq (w_db (snd (set_up_accounts (example_config "hunter2" false) empty_world))) = 3%Z.
Proof. split; by vm_compute. Qed.


(** A user of the configured name outside the administrators' group: the start is refused. *)
Example stranded_admin_refused :
  let lost := snd (sql_remove_user_from_group uid_admin 1%Z example_world) in
  ~ has_admin (w_db lost) /\ exists e, fst (set_up_accounts (example_config "password" false) lost) = Err e.
Proof.
  cbv zeta. split; [|eexists; by vm_compute]. 
  destruct (admin_present_run (snd (sql_remove_user_from_group uid_admin 1%Z example_world))) as (b & Hb & Hiff).
  - apply sql_remove_user_from_group_preserves, example_world_ok.
  - intros Ha%Hiff. subst b. apply (f_equal fst) in Hb. by vm_compute in Hb.
Qed.
End StartupWitnesses.
