(* ===== verification/Healthcheck.v ===== *)
(** * Health check

    Models the probe of the LDAP port in [server/src/infra/healthcheck.rs] and the
    verdict of [run_healthcheck] in [server/src/main.rs].  A connection is the list
    of messages the server sends back, each one decoded or not; sockets, TLS and the
    HTTP client are not modelled, their results are data. *)

From S2P Require Import Prelude RustStd Extern Types Concrete Handler Db ExampleDb SqlFilters SqlSchema SqlUser SqlGroup SqlBackend SqlTcp SqlOpaque AccessControl LdapUtils LdapUser LdapGroup LdapHandler LdapSql Configuration.
From Stdlib Require Import Ascii String.
From stdpp Require Import strings list gmap.
#[local] Open Scope rust_scope.
#[local] Open Scope string_scope.

(** The answers of a connection: a message, or one the decoder refuses. *)
Abbreviation Answers := (list (option LdapMsg)).

(** The search the probe sends.
    Source: server/src/infra/healthcheck.rs#L25-38 *)
Definition probe : LdapMsg :=
  (0%Z, OpSearchRequest (mk_search "" ScopeBase (FPresent "objectClass") ["supportedExtension"])).

(** [requests.next().await.ok_or_else(no_answer)?], then the decoder's result. *)
Definition next_answer (answers : Answers) (undecoded : AnyError) : outcome AnyError (LdapMsg * Answers) :=
  match answers with
  | [] => bail "No answer from LDAP server"
  | None :: _ => Err undecoded
  | Some msg :: rest => Ok (msg, rest)
  end.

(** Source: server/src/infra/healthcheck.rs#async fn check_ldap_endpoint *)
Definition check_ldap_endpoint (answers : Answers) : outcome AnyError unit :=
  let invalid_answer := "Invalid answer from LDAP server" in
  let? '(msg, answers) := next_answer answers (WithContext invalid_answer (Message "codec")) in
  let? _ := match msg.2 with
            | OpSearchResultEntry (mk_entry dn attributes) =>
                if String.eqb dn ""
                   && existsb (fun a => String.eqb (pa_atype a) "objectClass"
                                        && bool_decide (pa_vals a = [into_bytes "top"])) attributes
                then Ok tt else bail invalid_answer
            | _ => bail invalid_answer
            end in
  let? '(msg, answers) := next_answer answers (Message "codec") in
  match msg.2 with OpSearchResultDone _ => Ok tt | _ => bail invalid_answer end.

(** The result of one check, or its timeout. *)
Definition Timed : Type := option (AnyError + unit).

(** [flat_map] over a timed result yields what is inside it, and nothing for a timeout.
    Source: server/src/main.rs#L215-228 *)
Definition healthcheck_verdict (ldap ldaps api : Timed) : outcome AnyError unit :=
  let failure := existsb (fun r => match r with inl _ => true | inr _ => false end) (omap id [ldap; ldaps; api]) in
  if failure then bail "Healthcheck failed" else Ok tt.

(* ------------------------------------------------------------------ *)
(** ** Properties *)

(** What a client receives on a connection, when nothing is lost. *)
Definition received (responses : list LdapResponse) : Answers := map (fun r => Some r.1) responses.

Section Probe.
Context {St : Type} `{BH : !BackendHandler St} `{LH : !LoginHandler St} `{OH : OpaqueHandler St} `{R : !OsRng St}.
Context `{C : Crates} `{B : Bincode} `{T : ErrorTexts} `{L3 : Ldap3}.

Lemma check_ldap_endpoint_ok answers :
  check_ldap_endpoint answers = Ok tt <->
  exists id1 id2 attributes a result rest,
    answers = Some (id1, OpSearchResultEntry (mk_entry "" attributes)) :: Some (id2, OpSearchResultDone result) :: rest
    /\ a ∈ attributes /\ pa_atype a = "objectClass" /\ pa_vals a = [into_bytes "top"].
Proof using Type.
  unfold check_ldap_endpoint. split.
  - destruct answers as [|[[id1 op]|] answers]; [done| |done]. cbn [next_answer obind snd]. destruct op; try done. destruct e as [dn attributes].
    destruct (_ && _) eqn:Hc; [|done]. apply andb_true_iff in Hc as [->%String.eqb_eq (a & Ha & Hm)%existsb_exists].
    apply andb_true_iff in Hm as [Ht%String.eqb_eq Hv%bool_decide_eq_true]. cbn [obind].
    destruct answers as [|[[id2 op]|] answers]; [done| |done]. cbn [next_answer obind snd]. destruct op; try done. intros _.
    do 6 eexists. split; [done|]. by apply list_elem_of_In in Ha.
  - intros (id1 & id2 & attributes & a & result & rest & -> & Ha & Ht & Hv). cbn [next_answer obind snd].
    rewrite String.eqb_refl. cbn [andb]. rewrite (proj2 (existsb_exists _ _)); [done|]. exists a.
    split; [by apply list_elem_of_In|]. by rewrite Ht, Hv, String.eqb_refl, bool_decide_eq_true_2.
Qed.

(** C31. A running server is found alive.  Whatever the backend, the base name and the
    identity bound so far, the LDAP server answers the probe of the health check with
    two messages that the check accepts, without a panic and without touching its
    state; and the check accepts nothing else than a root entry with the object class
    [top] followed by the end of the search. *)
Theorem probe_answered version li (s : LdapSession St) :
  (exists responses, handle_ldap_stream version li [probe] s = (Ok responses, s)
     /\ length responses = 2 /\ check_ldap_endpoint (received responses) = Ok tt)
  /\ forall answers, check_ldap_endpoint answers = Ok tt ->
       exists id1 id2 attributes a result rest,
         answers = Some (id1, OpSearchResultEntry (mk_entry "" attributes)) :: Some (id2, OpSearchResultDone result) :: rest
         /\ a ∈ attributes /\ pa_atype a = "objectClass" /\ pa_vals a = [into_bytes "top"].
Proof using Type.
  split; [|intros answers; apply check_ldap_endpoint_ok].
  assert (Hrun : handle_ldap_message version li (OpSearchRequest (mk_search "" ScopeBase (FPresent "objectClass") ["supportedExtension"])) s
    = (Ok (Some [root_dse_response version (li_base_dn_str li); make_search_success]), s)) by by vm_compute.
  eexists. split.
  { unfold probe. cbn [handle_ldap_stream]. rewrite (sbind_run _ _ _ _ _ Hrun). done. }
  split; [done|]. by vm_compute.
Qed.
End Probe.

(** A check that times out does not count as a failure: with no answer at all the
    health check succeeds, and it fails only when a check ends with an error in time. *)
Lemma healthcheck_timeout_passes :
  healthcheck_verdict None None None = Ok tt
  /\ forall ldap ldaps api, healthcheck_verdict ldap ldaps api <> Ok tt <->
       exists e, Some (inl e) ∈ [ldap; ldaps; api].
Proof.
  split; [done|]. intros ldap ldaps api. unfold healthcheck_verdict, bail.
  destruct (existsb _ _) eqn:He.
  - split; [intros _|done]. apply existsb_exists in He as ([e|] & Hin & Hr); [|done].
    apply list_elem_of_In, list_elem_of_omap in Hin as (t & Ht & Hid). exists e. cbn in Hid. by subst.
  - split; [done|]. intros (e & Hin). exfalso. rewrite <- not_true_iff_false, existsb_exists in He. apply He.
    exists (inl e). split; [|done]. apply list_elem_of_In, list_elem_of_omap. by exists (Some (inl e)).
Qed.
