(* ===== verification/WebPage.v ===== *)
(** * The components of the web page

    Models [app/src/infra/common_component.rs], which every component of the page
    is built on: the error that is shown, the flag that says a request is running,
    the requests sent in the background, and the step that handles a message.  The
    framework around it (yew) is the transition relation of the second part: the
    browser shows what the last rendering saw, the user acts on the controls that
    are shown enabled, an answer arrives whenever it wants. *)

From S2P Require Import Prelude RustStd Extern Types.
From Stdlib Require Import Ascii String.
From stdpp Require Import strings list.
#[local] Open Scope rust_scope.
#[local] Open Scope string_scope.

(* ------------------------------------------------------------------ *)
(** ** The state of a component, and what a handler may do *)

Section CommonComponent.
Context {Call : Type -> Type} {Com Msg Out : Type}.

(** A request in the background, with what becomes of its answer, an error or the data. *)
Record Future := mk_future { fu_resp : Type; fu_call : Call fu_resp; fu_callback : AnyError + fu_resp -> Msg }.

(** What the last rendering saw: the component, its error, whether a request was running. *)
Record Shown := mk_shown { sh_com : Com; sh_error : option AnyError; sh_running : bool }.

(** The component's own fields with its [CommonComponentParts], and around them the
    requests that are running, what is on the screen, how much randomness was used and
    what was done outside of the component.
    Source: app/src/infra/common_component.rs#pub struct CommonComponentParts *)
Record Page := mk_page {
  pg_com : Com;
  pg_error : option AnyError;
  pg_running : bool;
  pg_futures : list Future;
  pg_shown : Shown;
  pg_random : nat;
  pg_out : list Out;
}.

Definition set_com (c : Com) (p : Page) : Page :=
  mk_page c (pg_error p) (pg_running p) (pg_futures p) (pg_shown p) (pg_random p) (pg_out p).
Definition set_error (e : option AnyError) (p : Page) : Page :=
  mk_page (pg_com p) e (pg_running p) (pg_futures p) (pg_shown p) (pg_random p) (pg_out p).
Definition set_futures (running : bool) (l : list Future) (p : Page) : Page :=
  mk_page (pg_com p) (pg_error p) running l (pg_shown p) (pg_random p) (pg_out p).
Definition add_out (o : Out) (p : Page) : Page :=
  mk_page (pg_com p) (pg_error p) (pg_running p) (pg_futures p) (pg_shown p) (pg_random p) (pg_out p ++ [o])%list.

Definition use_random (p : Page) : Page :=
  mk_page (pg_com p) (pg_error p) (pg_running p) (pg_futures p) (pg_shown p) (S (pg_random p)) (pg_out p).

(** Source: app/src/infra/common_component.rs#pub fn create *)
Definition new_page (c : Com) : Page := mk_page c None false [] (mk_shown c None false) 0 [].

(** [Component::view] reads the component, the error and [is_task_running]. *)
Definition render (p : Page) : Page :=
  mk_page (pg_com p) (pg_error p) (pg_running p) (pg_futures p)
    (mk_shown (pg_com p) (pg_error p) (pg_running p)) (pg_random p) (pg_out p).

Abbreviation handler A := (stM Page AnyError A).

(** [response?] *)
Definition question {A} (r : AnyError + A) : handler A :=
  match r with inl e => sthrow e | inr a => sret a end.
(** [response.context(..)?] *)
Definition question_context {A} (s : string) (r : AnyError + A) : handler A :=
  match r with inl e => sthrow (WithContext s e) | inr a => sret a end.

Definition self : handler Com := let! p := sget in sret (pg_com p).
Definition put_self (c : Com) : handler unit := smodify (set_com c).
(** [ctx.link().history().unwrap().push(..)], [ctx.props().callback.emit(..)] *)
Definition output {E} (o : Out) : stM Page E unit := smodify (add_out o).

(** [rand::rngs::OsRng] *)
Definition draw (rng : nat -> string) : handler string :=
  fun p => (Ok (rng (pg_random p)), use_random p).

(** Source: app/src/infra/common_component.rs#pub fn call_backend *)
Definition call_backend {E R} (c : Call R) (callback : AnyError + R -> Msg) : stM Page E unit :=
  let! p := sget in
  slift (assert_ "assertion failed: !*running" (negb (pg_running p))) ;;
  smodify (set_futures true (pg_futures p ++ [mk_future R c callback])%list).

Context (handle_msg : Msg -> handler bool).

(** Source: app/src/infra/common_component.rs#pub fn update *)
Definition update {E} (msg : Msg) : stM Page E bool :=
  smodify (set_error None) ;;
  let! r := stry (handle_msg msg) in
  match r with
  | inl e =>
      smodify (set_error (Some e)) ;;
      let! p := sget in
      slift (assert_ "assertion failed: !*com.mut_common().is_task_running" (negb (pg_running p))) ;;
      sret true
  | inr b => sret b
  end.

(** Source: app/src/infra/common_component.rs#pub fn update_and_report_error *)
Definition update_and_report_error {E} (msg : Msg) (report_fn : AnyError -> Out) : stM Page E bool :=
  let! should_render := update msg in
  let! p := sget in
  match pg_error p with
  | Some e => smodify (set_error None) ;; output (report_fn e) ;; sret true
  | None => sret should_render
  end.
End CommonComponent.
Arguments Future : clear implicits.
Arguments mk_future {Call Msg fu_resp} _ _.
Arguments Shown : clear implicits.
Arguments Page : clear implicits.

(* ------------------------------------------------------------------ *)
(** ** The framework *)

(** What a component gives the framework: the page it starts with, the step that
    handles a message, and its view as the controls it offers.  [on_event ev shown c]
    is what the control [ev] does when [shown] is on the screen: the new fields of the
    component (the forms are edited in place) and the message that is sent; [None]
    when there is no such control or it is disabled. *)
Class Component (Call : Type -> Type) (Com Msg Out Event : Type) : Type := {
  create : Page Call Com Msg Out;
  component_update : Msg -> stM (Page Call Com Msg Out) Empty_set bool;
  on_event : Event -> Shown Com -> Com -> option (Com * option Msg);
}.

Section Framework.
Context {Call : Type -> Type} {Com Msg Out Event : Type} {CP : Component Call Com Msg Out Event}.
Abbreviation page := (Page Call Com Msg Out).
Implicit Types p : page.

(** A message is handled, and the page rendered again if the component asks for it. *)
Definition deliver (msg : Msg) (p : page) : outcome Empty_set page :=
  match component_update msg p with
  | (Ok should_render, p') => Ok (if should_render : bool then render p' else p')
  | (Err e, _) => match e with end
  | (Panic m, _) => Panic m
  end.

(** The user acts on a control. *)
Definition fire (ev : Event) (p : page) : option (outcome Empty_set page) :=
  match on_event ev (pg_shown p) (pg_com p) with
  | None => None
  | Some (c, None) => Some (Ok (set_com c p))
  | Some (c, Some msg) => Some (deliver msg (set_com c p))
  end.

(** The answer of a request: the flag is cleared, the callback makes the message. *)
Definition resume {R} (callback : AnyError + R -> Msg) (answer : AnyError + R) (rest : list (Future Call Msg)) (p : page) : outcome Empty_set page :=
  deliver (callback answer) (set_futures false rest p).

Inductive step : page -> outcome Empty_set page -> Prop :=
| step_event ev p r : fire ev p = Some r -> step p r
| step_answer R (c : Call R) callback (answer : AnyError + R) l1 l2 p :
    pg_futures p = (l1 ++ mk_future c callback :: l2)%list ->
    step p (resume callback answer (l1 ++ l2) p)
| step_render p : step p (Ok (render p)).

Inductive reachable : page -> Prop :=
| reach_create : reachable (render create)
| reach_step p p' : reachable p -> step p (Ok p') -> reachable p'.

(** An invariant of the pages: it holds at the start, and no step from a page that has
    it panics or loses it. *)
Record page_invariant (I : page -> Prop) : Prop := {
  inv_create : I (render create);
  inv_render p : I p -> I (render p);
  inv_event ev p r : I p -> fire ev p = Some r -> exists p', r = Ok p' /\ I p';
  inv_answer p R (c : Call R) callback (answer : AnyError + R) l1 l2 :
    I p -> pg_futures p = (l1 ++ mk_future c callback :: l2)%list ->
    exists p', resume callback answer (l1 ++ l2) p = Ok p' /\ I p';
}.

Lemma invariant_step I p r : page_invariant I -> I p -> step p r -> exists p', r = Ok p' /\ I p'.
Proof.
  intros [_ Hr He Ha] Hp Hs. revert Hp. destruct Hs as [ev p r H|R c cb a l1 l2 p H|p]; intros Hp;
    [by eapply He|by eapply Ha|by eauto].
Qed.
Lemma invariant_reachable I p : page_invariant I -> reachable p -> I p.
Proof.
  intros HI. induction 1 as [|p p' _ IH Hs]; [apply HI|].
  by destruct (invariant_step I p (Ok p') HI IH Hs) as (q & [= ->] & Hq).
Qed.
Lemma invariant_safe I p m : page_invariant I -> reachable p -> ~ step p (Panic m).
Proof.
  intros HI Hp Hs. by destruct (invariant_step I p _ HI (invariant_reachable I p HI Hp) Hs) as (q & ? & _).
Qed.
End Framework.

(* ------------------------------------------------------------------ *)
(** ** At most one request *)

Section OneRequest.
Context {Call : Type -> Type} {Com Msg Out : Type}.
Implicit Types p : Page Call Com Msg Out.

(** The flag says whether a request is running, and there is never more than one. *)
Definition one_request p : Prop := length (pg_futures p) = if pg_running p then 1%nat else 0%nat.

Lemma one_request_call {E R} (c : Call R) cb : preserves one_request (call_backend (Com:=Com) (Out:=Out) (E:=E) (Msg:=Msg) c cb).
Proof.
  intros p Hp. unfold call_backend, sbind, sget, slift, assert_. destruct (pg_running p) eqn:Hr; cbn; [done|].
  revert Hp. unfold one_request. rewrite Hr. cbn. rewrite length_app. cbn. lia.
Qed.
Lemma one_request_output {E} o : preserves one_request (output (Com:=Com) (Call:=Call) (Msg:=Msg) (Out:=Out) (E:=E) o).
Proof. by apply preserves_modify. Qed.
Lemma one_request_put c : preserves one_request (put_self (Call:=Call) (Msg:=Msg) (Out:=Out) c).
Proof. by apply preserves_modify. Qed.
Lemma one_request_error e : preserves one_request (smodify (E:=AnyError) (set_error (Com:=Com) (Call:=Call) (Msg:=Msg) (Out:=Out) e)).
Proof. by apply preserves_modify. Qed.
Lemma one_request_self : preserves one_request (self (Com:=Com) (Call:=Call) (Msg:=Msg) (Out:=Out)).
Proof. by intros p. Qed.
Lemma one_request_draw rng : preserves one_request (draw (Com:=Com) (Call:=Call) (Msg:=Msg) (Out:=Out) rng).
Proof. by intros p. Qed.
Lemma one_request_question {A} (r : AnyError + A) :
  preserves one_request (question (Call:=Call) (Com:=Com) (Msg:=Msg) (Out:=Out) r).
Proof. destruct r; apply preserves_throw || apply preserves_ret. Qed.
Lemma one_request_question_context {A} s (r : AnyError + A) :
  preserves one_request (question_context (Call:=Call) (Com:=Com) (Msg:=Msg) (Out:=Out) s r).
Proof. destruct r; apply preserves_throw || apply preserves_ret. Qed.
#[local] Hint Resolve one_request_call one_request_output : stm.

Lemma one_request_update {E} (handle : Msg -> stM (Page Call Com Msg Out) AnyError bool) msg :
  (forall m, preserves one_request (handle m)) -> preserves one_request (update (E:=E) handle msg).
Proof.
  intros H. unfold update. apply preserves_bind; [by apply preserves_modify|]. intros _.
  apply preserves_bind; [by apply preserves_try|]. intros [e|b]; [|by stm].
  apply preserves_bind; [by apply preserves_modify|]. stm.
Qed.
Lemma one_request_update_report {E} (handle : Msg -> stM (Page Call Com Msg Out) AnyError bool) msg f :
  (forall m, preserves one_request (handle m)) -> preserves one_request (update_and_report_error (E:=E) handle msg f).
Proof.
  intros H. unfold update_and_report_error. apply preserves_bind; [by apply one_request_update|]. intros b.
  apply preserves_bind; [by stm|]. intros p. destruct (pg_error p); [|by stm].
  apply preserves_bind; [by apply preserves_modify|]. stm.
Qed.
End OneRequest.

Section OneRequestRun.
Context {Call : Type -> Type} {Com Msg Out Event : Type} {CP : Component Call Com Msg Out Event}.
Context (component_disciplined : forall m, preserves one_request (component_update m)).

(** A component whose handlers go through [call_backend] never has two requests running,
    and its flag tells. *)
Lemma reachable_one_request p : one_request create -> reachable p -> one_request p.
Proof using component_disciplined.
  assert (Hd : forall m p p', one_request p -> deliver m p = Ok p' -> one_request p').
  { intros m q q' Hq. unfold deliver. pose proof (component_disciplined m q Hq) as H.
    destruct (component_update m q) as [[b|[]|]]; [|done]. cbn in H. intros [= <-]. by destruct b. }
  intros Hc. induction 1 as [|q q' _ IH Hs]; [done|].
  inversion Hs as [ev q0 r H|R c cb a l1 l2 q0 H|q0]; subst; [| |done].
  - unfold fire in H. destruct (on_event _ _ _) as [[c [m|]]|]; [|by injection H as <-|done].
    injection H as H. by apply (Hd m (set_com c q)).
  - unfold resume in *. eapply Hd; [|done]. unfold one_request in *. cbn. rewrite H in IH.
    rewrite length_app in IH. rewrite length_app. cbn in IH. destruct (pg_running q); lia.
Qed.
End OneRequestRun.
#[export] Hint Resolve one_request_call one_request_output one_request_put one_request_error one_request_self one_request_draw
  one_request_question one_request_question_context : stm.

(* ------------------------------------------------------------------ *)
(** ** Proofs about handlers

    [wp m Q s]: from [s], [m] does not panic, and its result and last state satisfy
    [Q].  The tactic [wp] walks down a handler. *)

Definition wp {S E A} (m : stM S E A) (Q : E + A -> S -> Prop) (s : S) : Prop :=
  match m s with
  | (Ok a, s') => Q (inr a) s'
  | (Err e, s') => Q (inl e) s'
  | (Panic _, _) => False
  end.

Section Wp.
Context {S E : Type}.
Lemma wp_ret {A} (a : A) Q (s : S) : Q (inr a) s -> wp (E := E) (sret a) Q s.
Proof. done. Qed.
Lemma wp_throw {A} (e : E) Q (s : S) : Q (inl e) s -> wp (A := A) (sthrow e) Q s.
Proof. done. Qed.
Lemma wp_get Q (s : S) : Q (inr s) s -> wp (E := E) sget Q s.
Proof. done. Qed.
Lemma wp_modify f Q (s : S) : Q (inr tt) (f s) -> wp (E := E) (smodify f) Q s.
Proof. done. Qed.
Lemma wp_bind {A B} (m : stM S E A) (f : A -> stM S E B) Q s :
  wp m (fun r s' => match r with inr a => wp (f a) Q s' | inl e => Q (inl e) s' end) s -> wp (sbind m f) Q s.
Proof. unfold wp, sbind. by destruct (m s) as [[a|e|p] s']. Qed.
Lemma wp_try {E' A} (m : stM S E A) Q s : wp m (fun r s' => Q (inr r) s') s -> wp (E := E') (stry m) Q s.
Proof. unfold wp, stry. by destruct (m s) as [[a|e|p] s']. Qed.
Lemma wp_context {A} (c : string) (o : option A) Q (s : S) :
  match o with Some a => Q (inr a) s | None => Q (inl (WithContext c (Message "Protocol error"))) s end ->
  wp (slift (context c (ok_or (Message "Protocol error") o))) Q s.
Proof. by destruct o. Qed.
Lemma wp_ok_or {A} (e : E) (o : option A) Q (s : S) :
  match o with Some a => Q (inr a) s | None => Q (inl e) s end -> wp (slift (ok_or e o)) Q s.
Proof. by destruct o. Qed.
Lemma wp_expect {A} m (o : option A) Q (s : S) :
  match o with Some a => Q (inr a) s | None => False end -> wp (E := E) (slift (expect m o)) Q s.
Proof. by destruct o. Qed.
Lemma wp_mono {A} (m : stM S E A) (Q Q' : E + A -> S -> Prop) s :
  wp m Q s -> (forall r s', Q r s' -> Q' r s') -> wp m Q' s.
Proof. unfold wp. destruct (m s) as [[a|e|p] s']; auto. Qed.
End Wp.

Section WpPage.
Context {Call : Type -> Type} {Com Msg Out Event : Type}.
Implicit Types p : Page Call Com Msg Out.

Lemma wp_self Q p : Q (inr (pg_com p)) p -> wp self Q p.
Proof. done. Qed.
Lemma wp_draw rng Q p : Q (inr (rng (pg_random p))) (use_random p) -> wp (draw rng) Q p.
Proof. done. Qed.
Lemma wp_call_backend {E R} (c : Call R) cb Q p :
  pg_running p = false ->
  Q (inr tt) (set_futures true (pg_futures p ++ [mk_future c cb])%list p) -> wp (E := E) (call_backend c cb) Q p.
Proof. intros Hr H. unfold wp, call_backend, sbind, sget, slift, assert_. by rewrite Hr. Qed.
Lemma wp_question {A} (r : AnyError + A) Q p :
  match r with inr a => Q (inr a) p | inl e => Q (inl e) p end -> wp (question r) Q p.
Proof. by destruct r. Qed.
Lemma wp_question_context {A} c (r : AnyError + A) Q p :
  match r with inr a => Q (inr a) p | inl e => Q (inl (WithContext c e)) p end -> wp (question_context c r) Q p.
Proof. by destruct r. Qed.

(** A message is handled without a panic when an error leaves no request running. *)
Lemma wp_update {E} (handle : Msg -> stM (Page Call Com Msg Out) AnyError bool) m Q p :
  wp (handle m) (fun r p' => match r with
                             | inr b => Q (inr b) p'
                             | inl e => pg_running p' = false /\ Q (inr true) (set_error (Some e) p')
                             end) (set_error None p) ->
  wp (E := E) (update handle m) Q p.
Proof.
  intros H. unfold update. apply wp_bind, wp_modify, wp_bind, wp_try. eapply wp_mono; [exact H|].
  intros [e|b] p'; [|done]. intros [Hr HQ]. apply wp_bind, wp_modify, wp_bind, wp_get, wp_bind.
  unfold wp, slift, assert_. cbn. by rewrite Hr.
Qed.
Lemma wp_update_report {E} (handle : Msg -> stM (Page Call Com Msg Out) AnyError bool) m f Q p :
  wp (update (E := E) handle m) (fun r p' =>
    match r with
    | inr b => match pg_error p' with
               | Some e => Q (inr true) (add_out (f e) (set_error None p'))
               | None => Q (inr b) p'
               end
    | inl e => Q (inl e) p'
    end) p ->
  wp (E := E) (update_and_report_error handle m f) Q p.
Proof.
  intros H. unfold update_and_report_error. apply wp_bind. eapply wp_mono; [exact H|].
  intros [e|b] p'; [done|]. intros HQ. apply wp_bind, wp_get. destruct (pg_error p'); [|done].
  by apply wp_bind, wp_modify, wp_bind, wp_modify, wp_ret.
Qed.

Context {CP : Component Call Com Msg Out Event}.

(** The message [m] is handled without a panic, and [I] holds once the page is rendered. *)
Definition delivers (I : Page Call Com Msg Out -> Prop) (m : Msg) p : Prop :=
  wp (component_update m) (fun r p' => match r with
                                       | inr b => I (if b : bool then render p' else p')
                                       | inl e => False
                                       end) p.

(** What to prove of an invariant of a component that has at most one request. *)
Record page_rule (I : Page Call Com Msg Out -> Prop) : Prop := {
  rule_disciplined m : preserves one_request (component_update m);
  rule_one : one_request create;
  rule_create : I (render create);
  rule_render p : I p -> I (render p);
  rule_event p ev c m : I p -> one_request p -> on_event ev (pg_shown p) (pg_com p) = Some (c, Some m) ->
    delivers I m (set_com c p);
  rule_edit p ev c : I p -> on_event ev (pg_shown p) (pg_com p) = Some (c, None) -> I (set_com c p);
  rule_answer p R (c : Call R) cb answer : I p -> pg_futures p = [mk_future c cb] -> pg_running p = true ->
    delivers I (cb answer) (set_futures false [] p);
}.

Lemma delivers_step I m p :
  (forall m, preserves one_request (component_update m)) -> one_request p -> delivers I m p ->
  exists p', deliver m p = Ok p' /\ one_request p' /\ I p'.
Proof.
  intros Hd Hp. unfold delivers, wp, deliver. specialize (Hd m p Hp).
  destruct (component_update m p) as [[b|[]|] p'] eqn:Hu; [|done]. intros HI. eexists. split; [done|]. split; [|exact HI].
  cbn in Hd. by destruct b.
Qed.

(** The same of a component that may panic, but only when the user does what [P] says. *)
Record page_rule_but (P : Event -> Page Call Com Msg Out -> bool) (I : Page Call Com Msg Out -> Prop) : Prop := {
  but_disciplined m : preserves one_request (component_update m);
  but_one : one_request create;
  but_create : I (render create);
  but_render p : I p -> I (render p);
  but_event p ev c m : I p -> one_request p -> on_event ev (pg_shown p) (pg_com p) = Some (c, Some m) ->
    if P ev p then forall p', deliver m (set_com c p) = Ok p' -> I p' else delivers I m (set_com c p);
  but_edit p ev c : I p -> on_event ev (pg_shown p) (pg_com p) = Some (c, None) -> I (set_com c p);
  but_answer p R (c : Call R) cb answer : I p -> pg_futures p = [mk_future c cb] -> pg_running p = true ->
    delivers I (cb answer) (set_futures false [] p);
}.

Lemma rule_but_step P I p r :
  page_rule_but P I -> one_request p /\ I p -> step p r ->
  match r with
  | Ok p' => one_request p' /\ I p'
  | Err _ => False
  | Panic m => exists ev, P ev p = true /\ fire ev p = Some (Panic m)
  end.
Proof.
  intros [Hd Ho Hc Hr He Hf Ha] Hp Hs. revert Hp. destruct Hs as [ev p r H|R c cb answer l1 l2 p Hl|p]; intros [H1 H2].
  - unfold fire in H. destruct (on_event _ _ _) as [[c [m|]]|] eqn:Hev; [| |done].
    + injection H as <-. specialize (He p ev c m H2 H1 Hev). destruct (P ev p) eqn:HP.
      * unfold deliver in He |- *. pose proof (Hd m (set_com c p) H1) as Hone.
        destruct (component_update m (set_com c p)) as [[b|[]|msg] p'] eqn:Hu.
        -- split; [by destruct b|by apply He].
        -- exists ev. split; [done|]. unfold fire. rewrite Hev. unfold deliver. by rewrite Hu.
      * by destruct (delivers_step I m (set_com c p) Hd H1 He) as (p' & -> & ?).
    + injection H as <-. split; [done|by eapply Hf].
  - unfold one_request in H1. rewrite Hl, length_app in H1. cbn in H1.
    destruct (pg_running p) eqn:Hrun; [|lia]. destruct l1, l2; cbn in H1; try lia.
    by destruct (delivers_step I (cb answer) (set_futures false [] p) Hd eq_refl (Ha p R c cb answer H2 Hl Hrun)) as (p' & Hp' & ?);
      unfold resume; cbn [app]; rewrite Hp'.
  - split; [done|by apply Hr].
Qed.
Lemma rule_but_reachable P I p : page_rule_but P I -> reachable p -> one_request p /\ I p.
Proof.
  intros HI. induction 1 as [|p p' _ IH Hs]; [by split; apply HI|].
  exact (rule_but_step P I p (Ok p') HI IH Hs).
Qed.

Lemma rule_invariant I : page_rule I -> page_invariant (fun p => one_request p /\ I p).
Proof.
  intros [Hd Ho Hc Hr He Hf Ha]. constructor.
  - done.
  - intros p [H1 H2]. split; [done|by apply Hr].
  - intros ev p r [H1 H2]. unfold fire. destruct (on_event _ _ _) as [[c [m|]]|] eqn:Hev; [| |done].
    + intros [= <-]. apply delivers_step; [done..|]. by eapply He.
    + intros [= <-]. eexists. split; [done|]. split; [done|]. by eapply Hf.
  - intros p R c cb answer l1 l2 [H1 H2] Hl. unfold one_request in H1. rewrite Hl, length_app in H1. cbn in H1.
    destruct (pg_running p) eqn:Hrun; [|lia]. destruct l1, l2; cbn in H1; try lia. apply delivers_step; [done|done|].
    by apply (Ha p R c cb).
Qed.
End WpPage.

Ltac head_of t := lazymatch t with ?f _ => head_of f | _ => t end.
Ltac wp_step :=
  lazymatch goal with
  | |- wp (sbind _ _) _ _ => apply wp_bind
  | |- wp (sret _) _ _ => apply wp_ret
  | |- wp (sthrow _) _ _ => apply wp_throw
  | |- wp sget _ _ => apply wp_get
  | |- wp (spanic _) _ _ => change False
  | |- wp self _ _ => apply wp_self
  | |- wp (smodify _) _ _ => apply wp_modify
  | |- wp (put_self _) _ _ => apply wp_modify
  | |- wp (output _) _ _ => apply wp_modify
  | |- wp (draw _) _ _ => apply wp_draw
  | |- wp (slift (bail _)) _ _ => apply wp_throw
  | |- wp (slift (context _ _)) _ _ => apply wp_context
  | |- wp (slift (ok_or _ _)) _ _ => apply wp_ok_or
  | |- wp (slift (expect _ _)) _ _ => apply wp_expect
  | |- wp (slift _) _ _ => apply (wp_ok_or (Message "Protocol error"))
  | |- wp (question _) _ _ => apply wp_question
  | |- wp (question_context _ _) _ _ => apply wp_question_context
  | |- wp (call_backend _ _) _ _ => apply wp_call_backend; [try reflexivity|]
  | |- wp (update _ _) _ _ => apply wp_update
  | |- wp (update_and_report_error _ _ _) _ _ => apply wp_update_report
  | |- wp (match ?x with _ => _ end) _ _ => destruct x eqn:?
  | |- wp ?m _ _ => let h := head_of m in unfold h
  | |- match ?x with _ => _ end => destruct x eqn:?
  end; cbv beta iota.
Ltac wp := repeat wp_step.

(** The answers that are waited for are ones the component is prepared for. *)
Definition awaits {Call Com Msg Out} (expected : Com -> Msg -> Prop) (p : Page Call Com Msg Out) : Prop :=
  Forall (fun f => forall answer, expected (pg_com p) (fu_callback f answer)) (pg_futures p).

(** While a request runs, the last rendering knows. *)
Definition locked {Call Com Msg Out} (p : Page Call Com Msg Out) : Prop :=
  pg_running p = true -> sh_running (pg_shown p) = true.

Lemma idle_futures {Call Com Msg Out} (p : Page Call Com Msg Out) : one_request p -> pg_running p = false -> pg_futures p = [].
Proof. unfold one_request. intros H Hr. rewrite Hr in H. by destruct (pg_futures p). Qed.
Lemma locked_render {Call Com Msg Out} (p : Page Call Com Msg Out) : locked (render p).
Proof. by intros H. Qed.
Lemma locked_idle {Call Com Msg Out} (p : Page Call Com Msg Out) : pg_running p = false -> locked p.
Proof. unfold locked. by intros ->. Qed.
Lemma unlocked_idle {Call Com Msg Out} (p : Page Call Com Msg Out) :
  locked p -> sh_running (pg_shown p) = false -> pg_running p = false.
Proof. unfold locked. intros H Hs. destruct (pg_running p); [|done]. rewrite Hs in H. naive_solver. Qed.
#[export] Hint Resolve locked_render locked_idle : core.

(** The run of a message from the run of its handler. *)
Section Runs.
Context {Call : Type -> Type} {Com Msg Out Event : Type} {CP : Component Call Com Msg Out Event}.
Context (handle : Msg -> stM (Page Call Com Msg Out) AnyError bool).
Context (Hcp : forall m, component_update m = update handle m).
Lemma deliver_ok m p b p' :
  handle m (set_error None p) = (Ok b, p') -> deliver m p = Ok (if b then render p' else p').
Proof using Hcp. intros H. unfold deliver. rewrite Hcp. unfold update, sbind, stry, smodify. by rewrite H. Qed.
Lemma deliver_err m p e p' :
  handle m (set_error None p) = (Err e, p') -> pg_running p' = false ->
  deliver m p = Ok (render (set_error (Some e) p')).
Proof using Hcp.
  intros H Hr. unfold deliver. rewrite Hcp. unfold update, sbind, stry, smodify. rewrite H. unfold sget, slift, assert_. cbn.
  by rewrite Hr.
Qed.
End Runs.
