(* ===== verification/WebApi.v ===== *)
(** * The web page's access to the server

    Models [app/src/infra/api.rs] and [app/src/infra/cookies.rs]: the requests of the
    page, each an address, a method and a body, what is made of the answers, and the
    two cookies the page keeps for itself.  The browser (sending a request, the
    document's cookies) and the decoding of a JWT without its key are parameters. *)

From S2P Require Import Prelude RustStd Extern Types Concrete Handler Deserialize LdapUtils Db ExampleDb SqlFilters SqlSchema SqlUser SqlGroup SqlBackend SqlTcp SqlOpaque AccessControl LdapHandler LdapSql AuthService AuthSession Clients GraphqlQuery GraphqlMutation.
From Stdlib Require Import Ascii String.
From stdpp Require Import strings list gmap.
#[local] Open Scope rust_scope.
#[local] Open Scope string_scope.

(* ------------------------------------------------------------------ *)
(** ** The GraphQL requests *)

(** The rows that the selections of [app/queries/] answer with. *)
Record CreatedUser := mk_created_user { cu_id : string; cu_creation_date : NaiveDateTime }.
Record CreatedGroup := mk_created_group { cg_id : GroupId; cg_display_name : string }.
Record WebGroup := mk_web_group { wg_id : GroupId; wg_display_name : string }.
Record ListedGroup := mk_listed_group { lg_id : GroupId; lg_display_name : string; lg_creation_date : NaiveDateTime }.
Record Member := mk_member { me_id : string; me_display_name : string }.
Record ListedUser := mk_listed_user {
  lu_id : string;
  lu_email : string;
  lu_display_name : string;
  lu_first_name : string;
  lu_last_name : string;
  lu_creation_date : NaiveDateTime;
}.
Record UserPage := mk_user_page {
  up_id : string;
  up_email : string;
  up_display_name : string;
  up_first_name : string;
  up_last_name : string;
  up_avatar : option string;
  up_creation_date : NaiveDateTime;
  up_uuid : string;
  up_groups : list WebGroup;
}.
Record GroupPage := mk_group_page {
  gp_id : GroupId;
  gp_display_name : string;
  gp_creation_date : NaiveDateTime;
  gp_uuid : string;
  gp_users : list Member;
}.
Record UserSchemaRow := mk_web_schema_row {
  sr_name : string;
  sr_type : AttributeType;
  sr_is_list : bool;
  sr_is_visible : bool;
  sr_is_editable : bool;
  sr_is_hardcoded : bool;
}.
Record GroupSchemaRow := mk_group_schema_row {
  gsr_name : string;
  gsr_type : AttributeType;
  gsr_is_list : bool;
  gsr_is_visible : bool;
  gsr_is_hardcoded : bool;
}.
#[global] Instance web_group_eq_dec : EqDecision WebGroup.
Proof. solve_decision. Defined.
#[global] Instance member_eq_dec : EqDecision Member.
Proof. solve_decision. Defined.

(** A query with its variables, indexed by the data it answers with. *)
Inductive Query : Type -> Type :=
| CreateUser (user : CreateUserInput) : Query CreatedUser
| CreateGroup (name : string) : Query CreatedGroup
| UpdateUser (user : UpdateUserInput) : Query Success
| DeleteUserQuery (user : string) : Query Success
| DeleteGroupQuery (group_id : GroupId) : Query Success
| AddUserToGroup (user : string) (group : GroupId) : Query Success
| RemoveUserFromGroup (user : string) (group : GroupId) : Query Success
| GetGroupList : Query (list ListedGroup)
| GetGroupDetails (id : GroupId) : Query GroupPage
| GetUserDetails (id : string) : Query UserPage
| ListUsersQuery (filters : option RequestFilter) : Query (list ListedUser)
| ListUserNames (filters : option RequestFilter) : Query (list Member)
| GetUserAttributesSchema : Query (list UserSchemaRow)
| GetGroupAttributesSchema : Query (list GroupSchemaRow)
| CreateUserAttribute (name : string) (attribute_type : AttributeType) (is_list is_visible is_editable : bool) : Query Success
| CreateGroupAttribute (name : string) (attribute_type : AttributeType) (is_list is_visible : bool) : Query Success
| DeleteUserAttributeQuery (name : string) : Query Success
| DeleteGroupAttributeQuery (name : string) : Query Success.

(** [graphql_client::Response] *)
Record GraphqlResponse (R : Type) := mk_graphql_response { gr_data : option R; gr_errors : option (list string) }.
Arguments mk_graphql_response {R} _ _.
Arguments gr_data {R} _.
Arguments gr_errors {R} _.

(** What the server sends: a status, a text, and what it decodes to. *)
Record GraphqlAnswer (R : Type) := mk_graphql_answer { ga_status : Z; ga_text : string; ga_json : option (GraphqlResponse R) }.
Arguments mk_graphql_answer {R} _ _ _.
Arguments ga_status {R} _.
Arguments ga_text {R} _.
Arguments ga_json {R} _.

(* ------------------------------------------------------------------ *)
(** ** The browser *)

(** Source: app/src/infra/api.rs#enum RequestType *)
Inductive RequestType (Body : Type) := Get | Post (b : Body).
Arguments Get {Body}.
Arguments Post {Body} b.

Section Api.
Context `{OL : OpaqueLib}.

(** The bodies the page sends to the login service. *)
Inductive AuthBody :=
| LoginStartBody (r : ClientLoginStartRequest)
| LoginFinishBody (r : ClientLoginFinishRequest)
| RegisterStartBody (r : ClientRegistrationStartRequest)
| RegisterFinishBody (r : ClientRegistrationFinishRequest)
| TextJson (s : string).

(** Sending a request with the cookies of the site and reading the answer, and the
    cookies of the document.  A body is what it decodes to. *)
Class Browser (S : Type) : Type := {
  send : string -> RequestType AuthBody -> stM S AnyError AuthAnswer;
  send_graphql : forall R, string -> Query R -> stM S AnyError (GraphqlAnswer R);
  document_cookie : stM S AnyError string;
  set_document_cookie : string -> stM S AnyError unit;
}.
(** [yew_router::utils::base_url().unwrap_or_default()], [url_escape::encode_query],
    [DateTime::to_rfc2822], [response.status_text()], [response.text()] and
    [jwt::Token::parse_unverified]. *)
Class PageLib : Type := {
  base_url : string;
  encode_query : string -> string;
  to_rfc2822 : NaiveDateTime -> string;
  status_text : Z -> string;
  answer_text : AuthAnswer -> string;
  parse_unverified : string -> option JWTClaims;
}.
End Api.

(* ------------------------------------------------------------------ *)
(** ** Cookies *)

Section Cookies.
Context `{OL : OpaqueLib} {S : Type} `{BR : !Browser S} `{PL : !PageLib}.

(** Source: app/src/infra/cookies.rs#pub fn set_cookie *)
Definition set_cookie (cookie_name value : string) (expiration : NaiveDateTime) : stM S AnyError unit :=
  set_document_cookie (cookie_name +:+ "=" +:+ value +:+ "; expires=" +:+ to_rfc2822 expiration
    +:+ "; sameSite=Strict; path=" +:+ base_url +:+ "/").

(** The search in the text of the document's cookies. *)
Fixpoint find_cookie (cookie_name : string) (l : list string) : option string :=
  match l with
  | [] => None
  | c :: l =>
      match split_once "="%char c with
      | Some (name, value) =>
          if String.eqb (trim name) cookie_name && negb (String.eqb value "") then Some value
          else find_cookie cookie_name l
      | None => find_cookie cookie_name l
      end
  end.

(** Source: app/src/infra/cookies.rs#pub fn get_cookie *)
Definition get_cookie (cookie_name : string) : stM S AnyError (option string) :=
  let! cookies := document_cookie in
  sret (find_cookie cookie_name (RustStd.split ";"%char cookies)).

(** [Utc.with_ymd_and_hms(1970, 1, 1, 0, 0, 0)]
    Source: app/src/infra/cookies.rs#pub fn delete_cookie *)
Definition delete_cookie (cookie_name : string) : stM S AnyError unit :=
  let! c := get_cookie cookie_name in
  match c with
  | Some _ => set_cookie cookie_name "" 0%Z
  | None => sret tt
  end.
End Cookies.

(* ------------------------------------------------------------------ *)
(** ** The service *)

Section HostService.
Context `{OL : OpaqueLib} {S : Type} `{BR : !Browser S} `{PL : !PageLib}.

(** What an answer that is no success becomes. *)
Definition failed (error_message : string) (status : Z) (text : string) : AnyError :=
  Message (error_message +:+ "[" +:+ i64_to_string status +:+ " " +:+ status_text status +:+ "]: " +:+ text).

(** [response.ok()] *)
Definition response_ok (status : Z) : bool := (200 <=? status)%Z && (status <=? 299)%Z.

(** Source: app/src/infra/api.rs#async fn call_server *)
Definition host_call_server (url : string) (body : RequestType AuthBody) (error_message : string) : stM S AnyError AuthAnswer :=
  let! response := send url body in
  if response_ok (answer_status response) then sret response
  else sthrow (failed error_message (answer_status response) (answer_text response)).

(** Source: app/src/infra/api.rs#async fn call_server_json_with_error_message *)
Definition call_server_json {A} (parse : AuthAnswer -> outcome AnyError A) (url : string) (request : RequestType AuthBody)
    (error_message : string) : stM S AnyError A :=
  let! data := host_call_server url request error_message in
  slift (context "Could not parse response" (parse data)).

(** Source: app/src/infra/api.rs#async fn call_server_empty_response_with_error_message *)
Definition call_server_empty (url : string) (request : RequestType AuthBody) (error_message : string) : stM S AnyError unit :=
  host_call_server url request error_message ;; sret tt.

(** Source: app/src/infra/api.rs#fn get_claims_from_jwt *)
Definition get_claims_from_jwt (jwt : string) : outcome AnyError JWTClaims :=
  ok_or (Message "Could not parse the token") (parse_unverified jwt).

(** The outcome of the second cookie is inside the [map], and is not looked at.
    Source: app/src/infra/api.rs#fn set_cookies_from_jwt *)
Definition set_cookies_from_jwt (token : string) : stM S AnyError (string * bool) :=
  let! jwt_claims := slift (context "Could not parse JWT" (get_claims_from_jwt token)) in
  let is_admin := existsb (String.eqb "lldap_admin") (cl_groups jwt_claims) in
  smap_err (WithContext "Error setting cookie") (
    set_cookie "user_id" (cl_user jwt_claims) (cl_exp jwt_claims) ;;
    (let! _ := stry (set_cookie "is_admin" (if is_admin then "true" else "false") (cl_exp jwt_claims)) in
     sret (cl_user jwt_claims, is_admin))).

(** Source: app/src/infra/api.rs#pub async fn graphql_query *)
Definition graphql_query {R} (request_body : Query R) (error_message : string) : stM S AnyError R :=
  let! response := send_graphql R (base_url +:+ "/api/graphql") request_body in
  if negb (response_ok (ga_status response)) then sthrow (failed error_message (ga_status response) (ga_text response))
  else
    let! '(mk_graphql_response data errors) :=
      slift (context "Could not parse response" (ok_or (Message "invalid type") (ga_json response))) in
    slift (ok_or (Message ("Errors: [" +:+ String.concat ", " (default [] errors) +:+ "]")) data).

(** Source: app/src/infra/api.rs#pub async fn login_start *)
Definition login_start (request : ClientLoginStartRequest) : stM S AnyError ServerLoginStartResponse :=
  call_server_json parse_login_start (base_url +:+ "/auth/opaque/login/start") (Post (LoginStartBody request))
    "Could not start authentication: ".

(** Source: app/src/infra/api.rs#pub async fn login_finish *)
Definition login_finish (request : ClientLoginFinishRequest) : stM S AnyError (string * bool) :=
  let! token := call_server_json parse_login_response (base_url +:+ "/auth/opaque/login/finish") (Post (LoginFinishBody request))
    "Could not finish authentication" in
  set_cookies_from_jwt token.

(** Source: app/src/infra/api.rs#pub async fn register_start *)
Definition host_register_start (request : ClientRegistrationStartRequest) : stM S AnyError ServerRegistrationStartResponse :=
  call_server_json parse_registration_start (base_url +:+ "/auth/opaque/register/start") (Post (RegisterStartBody request))
    "Could not start registration: ".

(** Source: app/src/infra/api.rs#pub async fn register_finish *)
Definition host_register_finish (request : ClientRegistrationFinishRequest) : stM S AnyError unit :=
  call_server_empty (base_url +:+ "/auth/opaque/register/finish") (Post (RegisterFinishBody request))
    "Could not finish registration".

(** Source: app/src/infra/api.rs#pub async fn refresh *)
Definition refresh : stM S AnyError (string * bool) :=
  let! token := call_server_json parse_login_response (base_url +:+ "/auth/refresh") Get "Could not start authentication: " in
  set_cookies_from_jwt token.

(** Source: app/src/infra/api.rs#pub async fn logout *)
Definition logout : stM S AnyError unit := call_server_empty (base_url +:+ "/auth/logout") Get "Could not logout".

(** Source: app/src/infra/api.rs#pub async fn reset_password_step1 *)
Definition reset_password_step1 (username : string) : stM S AnyError unit :=
  call_server_empty (base_url +:+ "/auth/reset/step1/" +:+ encode_query username) (Post (TextJson ""))
    "Could not initiate password reset".

(** [ServerPasswordResetResponse]'s [user_id] and [token]. *)
Definition parse_reset_response (a : AuthAnswer) : outcome AnyError (string * string) :=
  match a with
  | Response r => match hr_body r with ServerPasswordResetResponse u t => Ok (u, t) | _ => bail "missing field" end
  | _ => bail "missing field"
  end.

(** Source: app/src/infra/api.rs#pub async fn reset_password_step2 *)
Definition reset_password_step2 (token : string) : stM S AnyError (string * string) :=
  call_server_json parse_reset_response (base_url +:+ "/auth/reset/step2/" +:+ token) Get "Could not validate token".

(** Source: app/src/infra/api.rs#pub async fn probe_password_reset *)
Definition probe_password_reset : stM S AnyError bool :=
  let! response := send (base_url +:+ "/auth/reset/step1/lldap_unlikely_very_long_user_name") Get in
  sret (negb (answer_status response =? 404)%Z).

(** The requests of the components, and the function of [HostService] behind each. *)
Inductive Call : Type -> Type :=
| CallLoginStart (r : ClientLoginStartRequest) : Call ServerLoginStartResponse
| CallLoginFinish (r : ClientLoginFinishRequest) : Call (string * bool)
| CallRegisterStart (r : ClientRegistrationStartRequest) : Call ServerRegistrationStartResponse
| CallRegisterFinish (r : ClientRegistrationFinishRequest) : Call unit
| CallRefresh : Call (string * bool)
| CallLogout : Call unit
| CallResetStep1 (username : string) : Call unit
| CallResetStep2 (token : string) : Call (string * string)
| CallProbe : Call bool
| CallGraphql {R} (q : Query R) (error_message : string) : Call R.

Definition serve {R} (c : Call R) : stM S AnyError R :=
  match c with
  | CallLoginStart r => login_start r
  | CallLoginFinish r => login_finish r
  | CallRegisterStart r => host_register_start r
  | CallRegisterFinish r => host_register_finish r
  | CallRefresh => refresh
  | CallLogout => logout
  | CallResetStep1 u => reset_password_step1 u
  | CallResetStep2 t => reset_password_step2 t
  | CallProbe => probe_password_reset
  | CallGraphql q m => graphql_query q m
  end.
End HostService.

(* ------------------------------------------------------------------ *)
(** ** What is written is what is read *)

(** The text of a document's cookies. *)
Definition cookie_text (jar : list (string * string)) : string :=
  String.concat "; " (map (fun c => c.1 +:+ "=" +:+ c.2) jar).
Definition jar_get (name : string) (jar : list (string * string)) : option string :=
  match find (fun c => String.eqb c.1 name) jar with
  | Some (_, v) => if String.eqb v "" then None else Some v
  | None => None
  end.

(** A name and a value that the text of the cookies can hold. *)
Record cookie_ok (c : string * string) : Prop := {
  cookie_name_plain : contains_char "="%char c.1 = false /\ contains_char ";"%char c.1 = false;
  cookie_name_trimmed : trim c.1 = c.1;
  cookie_value_plain : contains_char ";"%char c.2 = false;
}.

Lemma trim_space s : trim (" " +:+ s) = trim s.
Proof. done. Qed.

Lemma cookie_piece_plain c : cookie_ok c -> contains_char ";"%char (c.1 +:+ "=" +:+ c.2) = false.
Proof. intros [[_ H1] _ H2]. by rewrite !contains_char_app, H1, H2. Qed.

(** The pieces of the text: the first one starts right away, the others after a space. *)
Lemma split_cookie_text c jar :
  Forall cookie_ok (c :: jar) ->
  RustStd.split ";"%char (cookie_text (c :: jar))
  = (c.1 +:+ "=" +:+ c.2) :: map (fun c => " " +:+ c.1 +:+ "=" +:+ c.2) jar.
Proof.
  revert c. induction jar as [|d jar IH]; intros c [Hc Hj]%Forall_cons.
  - cbn. apply split_no_sep. by apply cookie_piece_plain.
  - change (cookie_text (c :: d :: jar)) with ((c.1 +:+ "=" +:+ c.2) +:+ String ";"%char (" " +:+ cookie_text (d :: jar))).
    rewrite split_app_sep by by apply cookie_piece_plain.
    change (RustStd.split ";"%char (" " +:+ cookie_text (d :: jar))) with
      (match RustStd.split ";"%char (cookie_text (d :: jar)) with [] => [" "] | w :: ws => (" " +:+ w) :: ws end).
    by rewrite (IH d Hj).
Qed.

Lemma find_cookie_cons name prefix c l :
  prefix = "" \/ prefix = " " -> cookie_ok c ->
  find_cookie name ((prefix +:+ c.1 +:+ "=" +:+ c.2) :: l)
  = if String.eqb c.1 name && negb (String.eqb c.2 "") then Some c.2 else find_cookie name l.
Proof.
  destruct c as [n v]. intros Hp [[Hn1 _] Hn2 _]. cbn [fst snd] in *.
  assert (Ht : trim (prefix +:+ n) = n) by (destruct Hp as [->| ->]; [done|by rewrite trim_space]).
  assert (Hs : split_once "="%char (prefix +:+ n +:+ "=" +:+ v) = Some (prefix +:+ n, v)).
  { replace (prefix +:+ n +:+ "=" +:+ v) with ((prefix +:+ n) +:+ String "="%char v)
      by (destruct Hp as [->| ->]; done).
    apply split_once_app. rewrite contains_char_app, Hn1. by destruct Hp as [->| ->]. }
  cbn [find_cookie]. by rewrite Hs, Ht.
Qed.

Lemma jar_get_cons name c jar :
  c.1 ∉ jar.*1 ->
  jar_get name (c :: jar) = if String.eqb c.1 name && negb (String.eqb c.2 "") then Some c.2 else jar_get name jar.
Proof.
  destruct c as [n v]. cbn [fst snd]. intros Hn. unfold jar_get at 1. cbn [find fst].
  destruct (String.eqb n name) eqn:He; cbn [andb]; [|done].
  apply String.eqb_eq in He as ->. destruct (String.eqb v "") eqn:Hv; cbn [negb]; [|done].
  unfold jar_get. destruct (find _ jar) as [[n' v']|] eqn:Hf; [|done].
  apply find_some in Hf as [Hin Heq%String.eqb_eq]. cbn in Heq. subst n'. destruct Hn.
  apply list_elem_of_fmap. exists (name, v'). split; [done|]. by apply list_elem_of_In.
Qed.

(** [get_cookie] finds what the jar has. *)
Lemma find_cookie_text name jar :
  Forall cookie_ok jar -> NoDup jar.*1 ->
  find_cookie name (RustStd.split ";"%char (cookie_text jar)) = jar_get name jar.
Proof.
  destruct jar as [|c jar]; [done|]. intros Hok Hnd. rewrite (split_cookie_text c jar Hok).
  apply Forall_cons in Hok as [Hc Hok]. apply NoDup_cons in Hnd as [Hni Hnd].
  pose proof (find_cookie_cons name "" c) as H1. cbn [app String.append] in H1. rewrite H1, (jar_get_cons name c jar Hni) by auto.
  destruct (_ && _); [done|]. clear c Hc Hni H1. induction jar as [|c jar IH]; [done|].
  apply Forall_cons in Hok as [Hc Hok]. apply NoDup_cons in Hnd as [Hni Hnd]. cbn [map].
  rewrite (find_cookie_cons name " " c) by auto. rewrite (jar_get_cons name c jar Hni).
  destruct (_ && _); [done|]. by apply IH.
Qed.

Section CookieJar.
Context `{OL : OpaqueLib} {S : Type} `{BR : !Browser S} `{PL : !PageLib}.

Definition jar_remove (name : string) (jar : list (string * string)) : list (string * string) :=
  filter (fun c => c.1 <> name) jar.
Definition jar_put (name value : string) (jar : list (string * string)) : list (string * string) :=
  (jar_remove name jar ++ [(name, value)])%list.

(** What a browser does with the cookies of a document: it lists those that have not
    expired, a cookie that is set replaces the one with its name, and one that is set
    with a date in the past is gone.  [ok] is an invariant of the browser's state. *)
Class CookieJar (jar : S -> list (string * string)) (alive : NaiveDateTime -> S -> Prop) (ok : S -> Prop) : Prop := {
  jar_reads s : document_cookie s = (Ok (cookie_text (jar s)), s);
  jar_wf s : ok s -> Forall cookie_ok (jar s) /\ NoDup (jar s).*1;
  jar_writes name value expiration s : ok s -> cookie_ok (name, value) -> alive expiration s ->
    exists s', set_cookie name value expiration s = (Ok tt, s') /\ ok s' /\ jar s' = jar_put name value (jar s)
      /\ forall e, alive e s -> alive e s';
  jar_expires name s : ok s -> cookie_ok (name, "") ->
    exists s', set_cookie name "" 0%Z s = (Ok tt, s') /\ ok s' /\ jar s' = jar_remove name (jar s);
}.
Context {jar : S -> list (string * string)} {alive : NaiveDateTime -> S -> Prop} {ok : S -> Prop} {CJ : CookieJar jar alive ok}.

Lemma get_cookie_run name s : ok s -> get_cookie name s = (Ok (jar_get name (jar s)), s).
Proof using CJ.
  intros Hok. unfold get_cookie. rewrite (sbind_run _ _ _ _ _ (jar_reads s)). unfold sret.
  destruct (jar_wf s Hok) as [H1 H2]. by rewrite find_cookie_text.
Qed.

Lemma find_app_none {A} (f : A -> bool) l1 l2 : find f l1 = None -> find f (l1 ++ l2) = find f l2.
Proof. induction l1 as [|x l1 IH]; cbn; [done|]. by destruct (f x). Qed.
Lemma jar_get_put name name' value l :
  value <> "" -> jar_get name (jar_put name' value l) = if String.eqb name' name then Some value else jar_get name l.
Proof.
  intros Hv. unfold jar_put, jar_remove, jar_get. destruct (String.eqb name' name) eqn:He.
  - apply String.eqb_eq in He as ->. rewrite find_app_none.
    + cbn. rewrite String.eqb_refl. by apply String.eqb_neq in Hv as ->.
    + induction l as [|[n v] l IH]; [done|]. cbn. destruct (decide _) as [Hn|Hn]; [|exact IH]. cbn in *.
      by apply String.eqb_neq in Hn as ->.
  - induction l as [|[n v] l IH]; cbn; [by rewrite He|]. destruct (decide _) as [Hn|Hn]; cbn in *.
    + by destruct (String.eqb n name).
    + destruct (String.eqb n name) eqn:Hn'; [|exact IH]. apply String.eqb_eq in Hn' as ->.
      apply dec_stable in Hn as ->. by rewrite String.eqb_refl in He.
Qed.
Lemma jar_get_remove name l : jar_get name (jar_remove name l) = None.
Proof.
  unfold jar_remove, jar_get. induction l as [|[n v] l IH]; [done|]. cbn. destruct (decide _) as [Hn|Hn]; [|exact IH].
  cbn in *. by apply String.eqb_neq in Hn as ->.
Qed.

Lemma delete_cookie_run name s :
  ok s -> cookie_ok (name, "") -> exists s', delete_cookie name s = (Ok tt, s') /\ ok s' /\ jar_get name (jar s') = None.
Proof using CJ.
  intros Hok Hn. unfold delete_cookie. rewrite (sbind_run _ _ _ _ _ (get_cookie_run name s Hok)).
  destruct (jar_get name (jar s)) eqn:Hg; [|by eauto].
  destruct (jar_expires name s Hok Hn) as (s' & Hs & Hok' & Hj). exists s'. by rewrite Hj, jar_get_remove.
Qed.

Lemma plain_cookie_ok name value :
  contains_char "="%char name = false -> contains_char ";"%char name = false -> trim name = name ->
  contains_char ";"%char value = false -> cookie_ok (name, value).
Proof. intros ? ? ? ?. by constructor. Qed.

(** The two cookies of a login are in the jar afterwards. *)
Lemma set_cookies_run token claims s :
  ok s -> parse_unverified token = Some claims -> contains_char ";"%char (cl_user claims) = false -> cl_user claims <> "" ->
  alive (cl_exp claims) s ->
  let admin := existsb (String.eqb "lldap_admin") (cl_groups claims) in
  exists s', set_cookies_from_jwt token s = (Ok (cl_user claims, admin), s') /\ ok s'
    /\ jar_get "user_id" (jar s') = Some (cl_user claims)
    /\ jar_get "is_admin" (jar s') = Some (if admin then "true" else "false").
Proof using CJ.
  intros Hok Hp Hu Hne Ha admin.
  destruct (jar_writes "user_id" (cl_user claims) (cl_exp claims) s) as (s1 & H1 & O1 & J1 & A1);
    [done|by apply plain_cookie_ok|done|].
  destruct (jar_writes "is_admin" (if admin then "true" else "false") (cl_exp claims) s1) as (s2 & H2 & O2 & J2 & _);
    [done|by apply plain_cookie_ok; [..|destruct admin]|by apply A1|].
  exists s2. split_and!.
  - unfold set_cookies_from_jwt, get_claims_from_jwt. rewrite Hp. rewrite (sbind_run _ _ _ claims s) by done.
    apply smap_err_ok. rewrite (sbind_run _ _ _ _ _ H1). fold admin.
    by rewrite (sbind_run _ _ _ (inr tt) s2) by (unfold stry; by rewrite H2).
  - done.
  - rewrite J2, jar_get_put by by destruct admin. by rewrite J1, jar_get_put by done.
  - by rewrite J2, jar_get_put by by destruct admin.
Qed.
End CookieJar.
