(* ===== verification/WebApp.v ===== *)
(** * The application of the web page

    Models [app/src/components/app.rs] and the routes of
    [app/src/components/router.rs]: who is logged in as the cookies say, which page is
    shown for an address, and where a visitor is sent.  The route of the current
    address, as the router recognizes it, is an argument. *)

From S2P Require Import Prelude RustStd Extern Types Concrete Handler Deserialize Db ExampleDb SqlFilters SqlSchema SqlUser SqlGroup SqlBackend SqlTcp SqlOpaque AccessControl LdapHandler LdapSql AuthService AuthSession Clients GraphqlQuery GraphqlMutation WebPage WebApi.
From Stdlib Require Import Ascii String.
From stdpp Require Import strings list gmap.
#[local] Open Scope rust_scope.
#[local] Open Scope string_scope.

(** Source: app/src/components/router.rs#pub enum AppRoute *)
Inductive AppRoute :=
| RouteLogin
| RouteStartResetPassword
| RouteFinishResetPassword (token : string)
| RouteCreateUser
| RouteListUsers
| RouteChangePassword (user_id : string)
| RouteUserDetails (user_id : string)
| RouteCreateGroup
| RouteListGroups
| RouteGroupDetails (group_id : GroupId)
| RouteListUserSchema
| RouteCreateUserAttribute
| RouteListGroupSchema
| RouteCreateGroupAttribute
| RouteIndex.
#[global] Instance app_route_eq_dec : EqDecision AppRoute.
Proof. solve_decision. Defined.

(** The path of each route; a parameter is a segment.
    Source: app/src/components/router.rs#pub enum AppRoute *)
Definition to_path (r : AppRoute) : list string :=
  match r with
  | RouteLogin => ["login"]
  | RouteStartResetPassword => ["reset-password"; "step1"]
  | RouteFinishResetPassword token => ["reset-password"; "step2"; token]
  | RouteCreateUser => ["users"; "create"]
  | RouteListUsers => ["users"]
  | RouteChangePassword user_id => ["user"; user_id; "password"]
  | RouteUserDetails user_id => ["user"; user_id]
  | RouteCreateGroup => ["groups"; "create"]
  | RouteListGroups => ["groups"]
  | RouteGroupDetails group_id => ["group"; i64_to_string group_id]
  | RouteListUserSchema => ["user-attributes"]
  | RouteCreateUserAttribute => ["user-attributes"; "create"]
  | RouteListGroupSchema => ["group-attributes"]
  | RouteCreateGroupAttribute => ["group-attributes"; "create"]
  | RouteIndex => [""]
  end.

(** Source: app/src/components/app.rs#pub struct App *)
Record App := mk_web_app {
  wa_user_info : option (string * bool);
  wa_redirect_to : option AppRoute;
  wa_password_reset_enabled : option bool;
}.

(** Source: app/src/components/app.rs#pub enum Msg *)
Inductive AppMsg :=
| AppLogin (info : string * bool)
| AppLogout
| PasswordResetProbeFinished (r : AnyError + bool).

(** Source: app/src/components/app.rs#fn get_redirect_route *)
Definition get_redirect_route (route : option AppRoute) : option AppRoute :=
  match route with
  | Some (RouteIndex | RouteLogin | RouteStartResetPassword | RouteFinishResetPassword _) => None
  | _ => route
  end.

(** Where a user is sent after a login. *)
Definition home (info : string * bool) : AppRoute :=
  if info.2 then RouteListUsers else RouteUserDetails info.1.

(** The route that is pushed, if any.
    Source: app/src/components/app.rs#fn apply_initial_redirections *)
Definition apply_initial_redirections (app : App) (route : option AppRoute) : option AppRoute :=
  match route, wa_user_info app, wa_redirect_to app with
  | Some (RouteStartResetPassword | RouteFinishResetPassword _), _, _ =>
      if bool_decide (wa_password_reset_enabled app = Some false) then Some RouteLogin else None
  | None, _, _ | _, None, _ => Some RouteLogin
  | _, Some _, Some _ => None
  | _, Some info, None => Some (home info)
  end.

(** Source: app/src/components/app.rs#fn is_admin *)
Definition app_is_admin (app : App) : bool :=
  match wa_user_info app with None => false | Some (_, is_admin) => is_admin end.

(** The state after a message, and the route that is pushed.
    Source: app/src/components/app.rs#fn update *)
Definition app_update (msg : AppMsg) (app : App) : App * option AppRoute :=
  match msg with
  | AppLogin info =>
      (mk_web_app (Some info) None (wa_password_reset_enabled app), Some (default (home info) (wa_redirect_to app)))
  | AppLogout => (mk_web_app None None (wa_password_reset_enabled app), Some RouteLogin)
  | PasswordResetProbeFinished (inr enabled) => (mk_web_app (wa_user_info app) (wa_redirect_to app) (Some enabled), None)
  | PasswordResetProbeFinished (inl _) => (mk_web_app (wa_user_info app) (wa_redirect_to app) (Some false), None)
  end.

(** What is shown below the banner. *)
Inductive Screen :=
| ShowLogin (password_reset_enabled : bool)
| ShowCreateUser
| ShowUserTable
| ShowCreateGroup
| ShowCreateUserAttribute
| ShowCreateGroupAttribute
| ShowGroupTable
| ShowUserSchema
| ShowGroupSchema
| ShowGroupDetails (group_id : GroupId)
| ShowUserDetails (username : string) (is_admin : bool)
| ShowChangePassword (username : string) (is_admin : bool)
| ShowResetStep1
| ShowResetStep2 (token : string)
| RedirectTo (r : AppRoute)
| ShowNothing.

(** Source: app/src/components/app.rs#fn dispatch_route *)
Definition dispatch_route (switch : AppRoute) (is_admin : bool) (password_reset_enabled : option bool) : Screen :=
  match switch with
  | RouteLogin => ShowLogin (default false password_reset_enabled)
  | RouteCreateUser => ShowCreateUser
  | RouteIndex | RouteListUsers => ShowUserTable
  | RouteCreateGroup => ShowCreateGroup
  | RouteCreateUserAttribute => ShowCreateUserAttribute
  | RouteCreateGroupAttribute => ShowCreateGroupAttribute
  | RouteListGroups => ShowGroupTable
  | RouteListUserSchema => ShowUserSchema
  | RouteListGroupSchema => ShowGroupSchema
  | RouteGroupDetails group_id => ShowGroupDetails group_id
  | RouteUserDetails user_id => ShowUserDetails user_id is_admin
  | RouteChangePassword user_id => ShowChangePassword user_id is_admin
  | RouteStartResetPassword =>
      match password_reset_enabled with
      | Some true => ShowResetStep1
      | Some false => RedirectTo RouteLogin
      | None => ShowNothing
      end
  | RouteFinishResetPassword token =>
      match password_reset_enabled with
      | Some true => ShowResetStep2 token
      | Some false => RedirectTo RouteLogin
      | None => ShowNothing
      end
  end.

Section Create.
Context `{OL : OpaqueLib} {S : Type} `{BR : !Browser S}.

(** [get_cookie(..).unwrap_or_else(|e| { error!(..); None })] *)
Definition cookie_or_none {E} (name : string) : stM S E (option string) :=
  let! r := stry (get_cookie name) in
  sret match r with inl _ => None | inr c => c end.

(** The application and the route that is pushed; the probe of the password reset is
    sent in between.
    Source: app/src/components/app.rs#fn create *)
Definition app_create {E} (route : option AppRoute) : stM S E (App * option AppRoute) :=
  let! user_id := cookie_or_none "user_id" in
  let! user_info :=
    match user_id with
    | None => sret None
    | Some u =>
        let! s := cookie_or_none "is_admin" in
        sret (match s with None => None | Some s => Some (u, String.eqb s "true") end)
    end in
  let app := mk_web_app user_info (get_redirect_route route) None in
  sret (app, apply_initial_redirections app route).
End Create.

(* ------------------------------------------------------------------ *)
(** ** The page that was asked for *)

(** Whether a page is shown to visitors that are not logged in. *)
Definition is_reset (r : AppRoute) : bool :=
  match r with RouteStartResetPassword | RouteFinishResetPassword _ => true | _ => false end.
(** Whether a page is worth going back to after the login. *)
Definition is_landing (r : AppRoute) : bool :=
  match r with RouteIndex | RouteLogin => false | _ => negb (is_reset r) end.

Lemma redirect_route_spec route :
  get_redirect_route route = match route with Some r => if is_landing r then Some r else None | None => None end.
Proof. by destruct route as [[]|]. Qed.

(** The redirection for a server without password reset cannot happen here: the
    probe has not been answered when it is looked at. *)
Lemma reset_redirection_dead route app :
  wa_password_reset_enabled app = None -> is_reset route = true -> apply_initial_redirections app (Some route) = None.
Proof. destruct app as [u r p]. cbn. intros ->. by destruct route. Qed.

Section Landing.
Context `{OL : OpaqueLib} {S : Type} `{BR : !Browser S}.

(** The page asked for is the page shown, after a login if need be.  A visitor
    whose cookies name no user is sent to the login page from every address except
    the two of the password reset; the login then leads to the page of the address
    if that is one to go back to, and else to the home of the user, an administrator's
    being the list of users.  It leads there once: after a logout, the next login goes
    home.  A visitor whose cookies name a user stays on the page of the address, is sent
    home from the index and the login page, and to the login page from an address that
    is none. *)
Theorem landing_page route s app pushed s' :
  app_create (E := Empty_set) route s = (Ok (app, pushed), s') ->
  let target := match route with Some r => if is_landing r then Some r else None | None => None end in
  match wa_user_info app with
  | None =>
      pushed = (if match route with Some r => is_reset r | None => false end then None else Some RouteLogin)
      /\ forall info, app_update (AppLogin info) app
           = (mk_web_app (Some info) None None, Some (default (home info) target))
         /\ forall info', snd (app_update (AppLogin info') (fst (app_update AppLogout (fst (app_update (AppLogin info) app)))))
              = Some (home info')
  | Some info =>
      pushed = match route with
               | None => Some RouteLogin
               | Some r => if is_landing r || is_reset r then None else Some (home info)
               end
  end.
Proof.
  unfold app_create. intros (u & s1 & _ & H)%sbind_ok. apply sbind_ok in H as (info & s2 & _ & [[= -> ->] _]%sret_ok).
  cbn [wa_user_info]. rewrite redirect_route_spec. destruct info as [info|].
  - destruct route as [r|]; [|done]. by destruct r.
  - split; [by destruct route as [[]|]|]. intros info. by destruct route as [[]|].
Qed.
End Landing.

Section Reload.
Context `{OL : OpaqueLib} {S : Type} `{BR : !Browser S} `{PL : !PageLib}.
Context {jar : S -> list (string * string)} {alive : NaiveDateTime -> S -> Prop} {ok : S -> Prop}
  {CJ : CookieJar jar alive ok}.

(** What [create] reads. *)
Lemma app_create_run {E} route s :
  ok s ->
  let info := match jar_get "user_id" (jar s), jar_get "is_admin" (jar s) with
              | Some u, Some b => Some (u, String.eqb b "true")
              | _, _ => None
              end in
  let app := mk_web_app info (get_redirect_route route) None in
  app_create (E := E) route s = (Ok (app, apply_initial_redirections app route), s).
Proof using CJ.
  intros Hok. assert (Hc : forall E name, cookie_or_none (E := E) name s = (Ok (jar_get name (jar s)), s)).
  { intros E' name. unfold cookie_or_none. by rewrite (sbind_run _ _ _ (inr (jar_get name (jar s))) s)
      by (unfold stry; by rewrite (get_cookie_run name s Hok)). }
  unfold app_create. rewrite (sbind_run _ _ _ _ _ (Hc _ "user_id")). destruct (jar_get "user_id" (jar s)) as [u|]; [|done].
  rewrite (sbind_run _ _ _ (match jar_get "is_admin" (jar s) with None => None | Some b => Some (u, String.eqb b "true") end) s)
    by (by rewrite (sbind_run _ _ _ _ _ (Hc _ "is_admin"))).
  done.
Qed.

(** C39. A login is remembered until the logout.  When the answer of a login has been
    read, with a name that a cookie can hold, the application that is created next (a
    reload of the page) knows the user and whether the user is an administrator as the
    token says; after [delete_cookie] of a logout, no user is known. *)
Theorem login_survives_reload token claims route s :
  ok s -> parse_unverified token = Some claims -> contains_char ";"%char (cl_user claims) = false -> cl_user claims <> "" ->
  alive (cl_exp claims) s ->
  exists s' app pushed,
    set_cookies_from_jwt token s = (Ok (cl_user claims, existsb (String.eqb "lldap_admin") (cl_groups claims)), s')
    /\ app_create (E := Empty_set) route s' = (Ok (app, pushed), s')
    /\ wa_user_info app = Some (cl_user claims, existsb (String.eqb "lldap_admin") (cl_groups claims))
    /\ exists s'' app' pushed', delete_cookie "user_id" s' = (Ok tt, s'')
         /\ app_create (E := Empty_set) route s'' = (Ok (app', pushed'), s'') /\ wa_user_info app' = None.
Proof using CJ.
  intros Hok Hp Hu Hne Ha. destruct (set_cookies_run token claims s Hok Hp Hu Hne Ha) as (s' & Hs & Hok' & Huser & Hadmin).
  exists s'. do 2 eexists. split; [done|]. split; [by apply app_create_run|]. cbn [wa_user_info]. rewrite Huser, Hadmin.
  split; [by destruct (existsb _ _)|].
  destruct (delete_cookie_run "user_id" s') as (s'' & Hd & Hok'' & Hj); [done|by apply plain_cookie_ok|].
  exists s''. do 2 eexists. split; [done|]. split; [by apply app_create_run|]. cbn [wa_user_info]. by rewrite Hj.
Qed.
End Reload.
