(* ===== verification/WebForms.v ===== *)
(** * The forms of the web page that deal with passwords

    Models [app/src/components/login.rs], [change_password.rs],
    [reset_password_step1.rs], [reset_password_step2.rs], [create_user.rs],
    [create_group.rs] and [logout.rs]: the fields of each form with their
    constraints, every message, the controls that the view offers, and the requests
    that follow one another.  The forms ([yew_form]) are edited in place. *)

From S2P Require Import Prelude RustStd Extern Types Concrete Handler Deserialize Db ExampleDb SqlFilters SqlSchema SqlUser SqlGroup SqlBackend SqlTcp SqlOpaque AccessControl LdapHandler LdapSql AuthService AuthSession Clients GraphqlQuery GraphqlMutation WebPage WebApi WebApp.
From Stdlib Require Import Ascii String.
From stdpp Require Import strings list gmap.
#[local] Open Scope rust_scope.
#[local] Open Scope string_scope.

(** What a component does outside of itself: a route is pushed, a callback of its
    properties is called, a dialog is shown or hidden. *)
Inductive Effect :=
| PushRoute (r : AppRoute)
| OnLoggedIn (info : string * bool)
| OnLoggedOut
| OnError (e : AnyError)
| OnUserDeleted (username : string)
| OnGroupDeleted (group_id : GroupId)
| OnAttributeDeleted (name : string)
| OnUserAddedToGroup (group : WebGroup)
| OnMemberAdded (user : Member)
| OnRemovedFromGroup (username : string) (group_id : GroupId)
| ShowModal
| HideModal.

(** [validate(email)] of the validator crate. *)
Class ValidatorLib : Type := { validate_email : string -> bool }.

(** [validate(length(min = n))] counts characters. *)
Definition length_min (n : nat) (s : string) : bool := (n <=? length (chars s))%nat.

(** It counts bytes.
    Source: app/src/components/change_password.rs#fn empty_or_long *)
Definition empty_or_long (value : string) : bool := String.eqb value "" || (8 <=? length (into_bytes value))%nat.

(* ------------------------------------------------------------------ *)
(** ** The login *)

Section Login.
Context `{OL : OpaqueLib} (rng : nat -> string).

(** The fields of the form, with the constraints.
    Source: app/src/components/login.rs#pub struct FormModel *)
Record LoginModel := mk_login_model { lm_username : string; lm_password : string }.
Definition login_model_valid (m : LoginModel) : bool := length_min 1 (lm_username m) && length_min 8 (lm_password m).

(** Source: app/src/components/login.rs#pub struct LoginForm *)
Record LoginForm := mk_login_form { lf_form : LoginModel; lf_refreshing : bool }.

(** Source: app/src/components/login.rs#pub enum Msg *)
Inductive LoginMsg :=
| LoginUpdate
| LoginSubmit
| AuthenticationRefreshResponse (r : AnyError + (string * bool))
| AuthenticationStartResponse (state : ClientLogin) (r : AnyError + ServerLoginStartResponse)
| AuthenticationFinishResponse (r : AnyError + (string * bool)).

Abbreviation login_page := (Page Call LoginForm LoginMsg Effect).

(** Source: app/src/components/login.rs#fn handle_msg *)
Definition login_handle_msg (msg : LoginMsg) : stM login_page AnyError bool :=
  match msg with
  | LoginUpdate => sret true
  | LoginSubmit =>
      let! com := self in
      if negb (login_model_valid (lf_form com)) then slift (bail "Check the form for errors")
      else
        let '(mk_login_model username password) := lf_form com in
        let! r := draw rng in
        let! '(state, message) := slift (context "Could not initialize login" (client_ke (client_start_login r password))) in
        call_backend (CallLoginStart (mk_login_start (user_id_new username) message))
          (fun r => AuthenticationStartResponse state r) ;;
        sret true
  | AuthenticationStartResponse login_start res =>
      let! res := question_context "Could not log in (invalid response to login start)" res in
      match ke_client_login_finish login_start (lr_credential_response res) with
      | None =>
          smodify (set_error (Some (Message "Invalid username or password"))) ;;
          sret true
      | Some finalization =>
          call_backend (CallLoginFinish (mk_login_finish (lr_server_data res) finalization)) AuthenticationFinishResponse ;;
          sret false
      end
  | AuthenticationFinishResponse user_info =>
      let! info := question_context "Could not log in" user_info in
      output (OnLoggedIn info) ;;
      sret true
  | AuthenticationRefreshResponse user_info =>
      let! com := self in
      put_self (mk_login_form (lf_form com) false) ;;
      match user_info with inr info => output (OnLoggedIn info) | inl _ => sret tt end ;;
      sret true
  end.

(** The controls of the view: the fields and the button, once the refresh is over. *)
Inductive LoginEvent := LoginEditUsername (s : string) | LoginEditPassword (s : string) | LoginClick.
Definition login_edit (f : LoginModel -> LoginModel) (c : LoginForm) : LoginForm := mk_login_form (f (lf_form c)) (lf_refreshing c).

(** Source: app/src/components/login.rs#L153-L197 *)
Definition login_event (ev : LoginEvent) (shown : Shown LoginForm) (c : LoginForm) : option (LoginForm * option LoginMsg) :=
  if lf_refreshing (sh_com shown) then None
  else match ev with
       | LoginEditUsername s => Some (login_edit (fun m => mk_login_model s (lm_password m)) c, Some LoginUpdate)
       | LoginEditPassword s => Some (login_edit (fun m => mk_login_model (lm_username m) s) c, None)
       | LoginClick => if sh_running shown then None else Some (c, Some LoginSubmit)
       end.

(** The refresh is asked for at once.
    Source: app/src/components/login.rs#fn create *)
Definition login_create : login_page :=
  snd (call_backend (E := AnyError) CallRefresh AuthenticationRefreshResponse
         (new_page (mk_login_form (mk_login_model "" "") true))).

#[export] Instance login_component : Component Call LoginForm LoginMsg Effect LoginEvent := {|
  create := login_create;
  component_update := update login_handle_msg;
  on_event := login_event;
|}.
End Login.

(* ------------------------------------------------------------------ *)
(** ** Changing a password *)

Section ChangePassword.
Context `{OL : OpaqueLib} (rng : nat -> string) (username : string) (is_admin : bool).

(** Source: app/src/components/change_password.rs#enum OpaqueData *)
Inductive OpaqueData := NoOpaqueData | OpaqueLogin (l : ClientLogin) | OpaqueRegistration (r : ClientRegistration).

(** Source: app/src/components/change_password.rs#pub struct FormModel *)
Record PasswordModel := mk_password_model { pm_old_password : string; pm_password : string; pm_confirm_password : string }.
Definition password_model_valid (m : PasswordModel) : bool :=
  empty_or_long (pm_old_password m) && length_min 8 (pm_password m) && String.eqb (pm_confirm_password m) (pm_password m).

(** Source: app/src/components/change_password.rs#pub struct ChangePasswordForm *)
Record ChangePasswordForm := mk_change_password { cpf_form : PasswordModel; cpf_opaque_data : OpaqueData }.

(** Source: app/src/components/change_password.rs#pub enum Msg *)
Inductive PasswordMsg :=
| PasswordFormUpdate
| PasswordSubmit
| PasswordAuthenticationStartResponse (r : AnyError + ServerLoginStartResponse)
| SubmitNewPassword
| PasswordRegistrationStartResponse (r : AnyError + ServerRegistrationStartResponse)
| PasswordRegistrationFinishResponse (r : AnyError + unit).

Abbreviation password_page := (Page Call ChangePasswordForm PasswordMsg Effect).
Abbreviation password_handler := (stM password_page AnyError).

(** [self.opaque_data = ..] *)
Definition set_opaque_data (d : OpaqueData) : password_handler unit :=
  let! com := self in put_self (mk_change_password (cpf_form com) d).
(** Source: app/src/components/change_password.rs#fn take *)
Definition take_opaque_data : password_handler OpaqueData :=
  let! com := self in set_opaque_data NoOpaqueData ;; sret (cpf_opaque_data com).

(** The arm of [SubmitNewPassword], which the arms before it call; it reads the new
    password from the form.
    Source: app/src/components/change_password.rs#L131-L150 *)
Definition submit_new_password : password_handler bool :=
  let! com := self in
  let new_password := pm_password (cpf_form com) in
  let! r := draw rng in
  let! '(state, message) := slift (context "Could not initiate password change"
                              (client_ke (client_start_registration r (into_bytes new_password)))) in
  set_opaque_data (OpaqueRegistration state) ;;
  call_backend (CallRegisterStart (mk_registration_start (user_id_new username) message)) PasswordRegistrationStartResponse ;;
  sret true.

(** Source: app/src/components/change_password.rs#fn handle_msg *)
Definition password_handle_msg (msg : PasswordMsg) : password_handler bool :=
  match msg with
  | PasswordFormUpdate => sret true
  | PasswordSubmit =>
      let! com := self in
      if negb (password_model_valid (cpf_form com)) then slift (bail "Check the form for errors")
      else if is_admin then submit_new_password
      else
        let old_password := pm_old_password (cpf_form com) in
        if String.eqb old_password "" then slift (bail "Current password should not be empty")
        else
          let! r := draw rng in
          let! '(state, message) := slift (context "Could not initialize login" (client_ke (client_start_login r old_password))) in
          set_opaque_data (OpaqueLogin state) ;;
          call_backend (CallLoginStart (mk_login_start (user_id_new username) message)) PasswordAuthenticationStartResponse ;;
          sret true
  | PasswordAuthenticationStartResponse res =>
      let! res := question_context "Could not initiate login" res in
      let! d := take_opaque_data in
      match d with
      | OpaqueLogin l =>
          let! _ := slift (ok_or (Message "Invalid username or password") (ke_client_login_finish l (lr_credential_response res))) in
          sret tt
      | _ => spanic "Unexpected data in opaque_data field"
      end ;;
      submit_new_password
  | SubmitNewPassword => submit_new_password
  | PasswordRegistrationStartResponse res =>
      let! res := question_context "Could not initiate password change" res in
      let! d := take_opaque_data in
      match d with
      | OpaqueRegistration registration =>
          let! r := draw rng in
          let! upload := slift (context "Error during password change"
                           (client_ke (ke_client_registration_finish r registration (rr_registration_response res)))) in
          call_backend (CallRegisterFinish (mk_registration_finish (rr_server_data res) upload)) PasswordRegistrationFinishResponse
      | _ => spanic "Unexpected data in opaque_data field"
      end ;;
      sret false
  | PasswordRegistrationFinishResponse response =>
      match response with inr _ => output (PushRoute (RouteUserDetails username)) | inl _ => sret tt end ;;
      question response ;;
      sret true
  end.

(** The fields and the button; the old password is not asked of an administrator. *)
Inductive PasswordEvent := EditOldPassword (s : string) | EditPassword (s : string) | EditConfirmPassword (s : string) | PasswordClick.
Definition password_edit (f : PasswordModel -> PasswordModel) (c : ChangePasswordForm) : ChangePasswordForm :=
  mk_change_password (f (cpf_form c)) (cpf_opaque_data c).

(** Source: app/src/components/change_password.rs#L229-L258 *)
Definition password_event (ev : PasswordEvent) (shown : Shown ChangePasswordForm) (c : ChangePasswordForm) :
    option (ChangePasswordForm * option PasswordMsg) :=
  match ev with
  | EditOldPassword s =>
      if is_admin then None
      else Some (password_edit (fun m => mk_password_model s (pm_password m) (pm_confirm_password m)) c, Some PasswordFormUpdate)
  | EditPassword s =>
      Some (password_edit (fun m => mk_password_model (pm_old_password m) s (pm_confirm_password m)) c, Some PasswordFormUpdate)
  | EditConfirmPassword s =>
      Some (password_edit (fun m => mk_password_model (pm_old_password m) (pm_password m) s) c, Some PasswordFormUpdate)
  | PasswordClick => if sh_running shown then None else Some (c, Some PasswordSubmit)
  end.

(** Source: app/src/components/change_password.rs#fn create *)
Definition password_create : password_page := new_page (mk_change_password (mk_password_model "" "" "") NoOpaqueData).

#[export] Instance password_component : Component Call ChangePasswordForm PasswordMsg Effect PasswordEvent := {|
  create := password_create;
  component_update := update password_handle_msg;
  on_event := password_event;
|}.
End ChangePassword.

(* ------------------------------------------------------------------ *)
(** ** Resetting a password: asking for the mail *)

Section ResetStep1.
Context `{OL : OpaqueLib}.

(** The form is its one field.
    Source: app/src/components/reset_password_step1.rs#pub struct ResetPasswordStep1Form *)
Record ResetPasswordStep1Form := mk_reset_step1 { r1_username : string; r1_just_succeeded : bool }.

(** Source: app/src/components/reset_password_step1.rs#pub enum Msg *)
Inductive ResetStep1Msg := ResetStep1Update | ResetStep1Submit | PasswordResetResponse (r : AnyError + unit).

Abbreviation step1_page := (Page Call ResetPasswordStep1Form ResetStep1Msg Effect).

Definition set_just_succeeded {E} (b : bool) : stM step1_page E unit :=
  smodify (fun p => set_com (mk_reset_step1 (r1_username (pg_com p)) b) p).

(** Source: app/src/components/reset_password_step1.rs#fn handle_msg *)
Definition reset_step1_handle_msg (msg : ResetStep1Msg) : stM step1_page AnyError bool :=
  match msg with
  | ResetStep1Update => sret true
  | ResetStep1Submit =>
      let! com := self in
      if negb (length_min 1 (r1_username com)) then slift (bail "Check the form for errors")
      else
        call_backend (CallResetStep1 (r1_username com)) PasswordResetResponse ;;
        sret true
  | PasswordResetResponse response =>
      question response ;;
      set_just_succeeded true ;;
      sret true
  end.

(** Source: app/src/components/reset_password_step1.rs#fn update *)
Definition reset_step1_update {E} (msg : ResetStep1Msg) : stM step1_page E bool :=
  set_just_succeeded false ;;
  update reset_step1_handle_msg msg.

Inductive ResetStep1Event := ResetStep1Edit (s : string) | ResetStep1Click.
(** Source: app/src/components/reset_password_step1.rs#L95-L120 *)
Definition reset_step1_event (ev : ResetStep1Event) (shown : Shown ResetPasswordStep1Form) (c : ResetPasswordStep1Form) :
    option (ResetPasswordStep1Form * option ResetStep1Msg) :=
  match ev with
  | ResetStep1Edit s => Some (mk_reset_step1 s (r1_just_succeeded c), Some ResetStep1Update)
  | ResetStep1Click =>
      if r1_just_succeeded (sh_com shown) || sh_running shown then None else Some (c, Some ResetStep1Submit)
  end.

#[export] Instance reset_step1_component : Component Call ResetPasswordStep1Form ResetStep1Msg Effect ResetStep1Event := {|
  create := new_page (mk_reset_step1 "" false);
  component_update := reset_step1_update;
  on_event := reset_step1_event;
|}.
End ResetStep1.

(* ------------------------------------------------------------------ *)
(** ** Resetting a password: the link of the mail *)

Section ResetStep2.
Context `{OL : OpaqueLib} (rng : nat -> string) (token : string).

(** Source: app/src/components/reset_password_step2.rs#pub struct FormModel *)
Record ResetModel := mk_reset_model { rm_password : string; rm_confirm_password : string }.
Definition reset_model_valid (m : ResetModel) : bool :=
  length_min 8 (rm_password m) && String.eqb (rm_confirm_password m) (rm_password m).

(** Source: app/src/components/reset_password_step2.rs#pub struct ResetPasswordStep2Form *)
Record ResetPasswordStep2Form := mk_reset_step2 {
  r2_form : ResetModel;
  r2_username : option string;
  r2_opaque_data : option ClientRegistration;
}.

(** Source: app/src/components/reset_password_step2.rs#pub enum Msg *)
Inductive ResetStep2Msg :=
| ValidateTokenResponse (r : AnyError + (string * string))
| ResetFormUpdate
| ResetSubmit
| ResetRegistrationStartResponse (r : AnyError + ServerRegistrationStartResponse)
| ResetRegistrationFinishResponse (r : AnyError + unit).

Abbreviation step2_page := (Page Call ResetPasswordStep2Form ResetStep2Msg Effect).

(** Source: app/src/components/reset_password_step2.rs#fn handle_msg *)
Definition reset_step2_handle_msg (msg : ResetStep2Msg) : stM step2_page AnyError bool :=
  match msg with
  | ValidateTokenResponse response =>
      let! r := question response in
      let! com := self in
      put_self (mk_reset_step2 (r2_form com) (Some r.1) (r2_opaque_data com)) ;;
      sret true
  | ResetFormUpdate => sret true
  | ResetSubmit =>
      let! com := self in
      if negb (reset_model_valid (r2_form com)) then slift (bail "Check the form for errors")
      else
        let new_password := rm_password (r2_form com) in
        let! r := draw rng in
        let! '(state, message) := slift (context "Could not initiate password change"
                                    (client_ke (client_start_registration r (into_bytes new_password)))) in
        let! username := slift (expect "called `Option::unwrap()` on a `None` value" (r2_username com)) in
        put_self (mk_reset_step2 (r2_form com) (r2_username com) (Some state)) ;;
        call_backend (CallRegisterStart (mk_registration_start (user_id_new username) message)) ResetRegistrationStartResponse ;;
        sret true
  | ResetRegistrationStartResponse res =>
      let! res := question_context "Could not initiate password change" res in
      let! com := self in
      put_self (mk_reset_step2 (r2_form com) (r2_username com) None) ;;
      let! registration := slift (expect "Missing registration data" (r2_opaque_data com)) in
      let! r := draw rng in
      let! upload := slift (context "Error during password change"
                       (client_ke (ke_client_registration_finish r registration (rr_registration_response res)))) in
      call_backend (CallRegisterFinish (mk_registration_finish (rr_server_data res) upload)) ResetRegistrationFinishResponse ;;
      sret false
  | ResetRegistrationFinishResponse response =>
      match response with inr _ => output (PushRoute RouteLogin) | inl _ => sret tt end ;;
      question response ;;
      sret true
  end.

Inductive ResetStep2Event := ResetEditPassword (s : string) | ResetEditConfirm (s : string) | ResetClick.
Definition reset_edit (f : ResetModel -> ResetModel) (c : ResetPasswordStep2Form) : ResetPasswordStep2Form :=
  mk_reset_step2 (f (r2_form c)) (r2_username c) (r2_opaque_data c).

(** The form is shown once the token was found valid.
    Source: app/src/components/reset_password_step2.rs#L147-L192 *)
Definition reset_step2_event (ev : ResetStep2Event) (shown : Shown ResetPasswordStep2Form) (c : ResetPasswordStep2Form) :
    option (ResetPasswordStep2Form * option ResetStep2Msg) :=
  match r2_username (sh_com shown) with
  | None => None
  | Some _ =>
      match ev with
      | ResetEditPassword s => Some (reset_edit (fun m => mk_reset_model s (rm_confirm_password m)) c, Some ResetFormUpdate)
      | ResetEditConfirm s => Some (reset_edit (fun m => mk_reset_model (rm_password m) s) c, Some ResetFormUpdate)
      | ResetClick => if sh_running shown then None else Some (c, Some ResetSubmit)
      end
  end.

(** Source: app/src/components/reset_password_step2.rs#fn create *)
Definition reset_step2_create : step2_page :=
  snd (call_backend (E := AnyError) (CallResetStep2 token) ValidateTokenResponse
         (new_page (mk_reset_step2 (mk_reset_model "" "") None None))).

#[export] Instance reset_step2_component :
  Component Call ResetPasswordStep2Form ResetStep2Msg Effect ResetStep2Event := {|
  create := reset_step2_create;
  component_update := update reset_step2_handle_msg;
  on_event := reset_step2_event;
|}.
End ResetStep2.

(* ------------------------------------------------------------------ *)
(** ** Creating a user *)

Section CreateUserForm.
Context `{OL : OpaqueLib} `{V : ValidatorLib} (rng : nat -> string).

(** The form is the component's only field.
    Source: app/src/components/create_user.rs#pub struct CreateUserModel *)
Record CreateUserModel := mk_create_user_model {
  cum_username : string;
  cum_email : string;
  cum_display_name : string;
  cum_first_name : string;
  cum_last_name : string;
  cum_password : string;
  cum_confirm_password : string;
}.
Definition create_user_model_valid (m : CreateUserModel) : bool :=
  length_min 1 (cum_username m) && validate_email (cum_email m) && empty_or_long (cum_password m)
  && String.eqb (cum_confirm_password m) (cum_password m).

(** Source: app/src/components/create_user.rs#pub enum Msg *)
Inductive CreateUserMsg :=
| CreateUserUpdate
| CreateUserSubmit
| CreateUserResponse (r : AnyError + CreatedUser)
| SuccessfulCreation
| CreateUserRegistrationStartResponse (state : ClientRegistration) (r : AnyError + ServerRegistrationStartResponse)
| CreateUserRegistrationFinishResponse (r : AnyError + unit).

Abbreviation create_user_page := (Page Call CreateUserModel CreateUserMsg Effect).

Definition to_option (s : string) : option string := if String.eqb s "" then None else Some s.

(** The arm of [SuccessfulCreation], which other arms reach. *)
Definition successful_creation : stM create_user_page AnyError bool := output (PushRoute RouteListUsers) ;; sret true.

(** The user's name and password are read from the form again when the user has been
    created.  [self.update(ctx, Msg::SuccessfulCreation)] only succeeds.
    Source: app/src/components/create_user.rs#fn handle_msg *)
Definition create_user_handle_msg (msg : CreateUserMsg) : stM create_user_page AnyError bool :=
  match msg with
  | CreateUserUpdate => sret true
  | CreateUserSubmit =>
      let! model := self in
      if negb (create_user_model_valid model) then slift (bail "Check the form for errors")
      else
        let req := mk_create_user_input (cum_username model) (cum_email model) (to_option (cum_display_name model))
          (to_option (cum_first_name model)) (to_option (cum_last_name model)) None None in
        call_backend (CallGraphql (CreateUser req) "Error trying to create user") CreateUserResponse ;;
        sret true
  | CreateUserResponse r =>
      question r ;;
      let! model := self in
      let user_id := cum_username model in
      let password := cum_password model in
      if negb (String.eqb password "") then
        let! rand := draw rng in
        let! '(state, message) := slift (client_ke (client_start_registration rand (into_bytes password))) in
        call_backend (CallRegisterStart (mk_registration_start (user_id_new user_id) message))
          (fun r => CreateUserRegistrationStartResponse state r) ;;
        sret false
      else
        smodify (set_error None) ;; successful_creation ;;
        sret false
  | CreateUserRegistrationStartResponse registration_start response =>
      let! response := question response in
      let! rand := draw rng in
      let! upload := slift (client_ke (ke_client_registration_finish rand registration_start (rr_registration_response response))) in
      call_backend (CallRegisterFinish (mk_registration_finish (rr_server_data response) upload))
        CreateUserRegistrationFinishResponse ;;
      sret false
  | CreateUserRegistrationFinishResponse response =>
      question response ;;
      successful_creation
  | SuccessfulCreation => successful_creation
  end.

Inductive CreateUserEvent := CreateUserEdit (f : CreateUserModel) | CreateUserClick.

(** Editing a field leaves a model that differs from the last one in that field; here
    the model that is left is any.
    Source: app/src/components/create_user.rs#L196-L243 *)
Definition create_user_event (ev : CreateUserEvent) (shown : Shown CreateUserModel) (c : CreateUserModel) :
    option (CreateUserModel * option CreateUserMsg) :=
  match ev with
  | CreateUserEdit m => Some (m, Some CreateUserUpdate)
  | CreateUserClick => if sh_running shown then None else Some (c, Some CreateUserSubmit)
  end.

(** Source: app/src/components/create_user.rs#fn create *)
Definition create_user_create : create_user_page := new_page (mk_create_user_model "" "" "" "" "" "" "").

#[export] Instance create_user_component : Component Call CreateUserModel CreateUserMsg Effect CreateUserEvent := {|
  create := create_user_create;
  component_update := update create_user_handle_msg;
  on_event := create_user_event;
|}.
End CreateUserForm.

(* ------------------------------------------------------------------ *)
(** ** Creating a group, logging out *)

Section CreateGroupForm.
Context `{OL : OpaqueLib}.

(** The form's model is the name.
    Source: app/src/components/create_group.rs#pub enum Msg *)
Inductive CreateGroupMsg := CreateGroupUpdate | CreateGroupSubmit | CreateGroupResponse (r : AnyError + CreatedGroup).

Abbreviation create_group_page := (Page Call string CreateGroupMsg Effect).

(** Source: app/src/components/create_group.rs#fn handle_msg *)
Definition create_group_handle_msg (msg : CreateGroupMsg) : stM create_group_page AnyError bool :=
  match msg with
  | CreateGroupUpdate => sret true
  | CreateGroupSubmit =>
      let! groupname := self in
      if negb (length_min 1 groupname) then slift (bail "Check the form for errors")
      else
        call_backend (CallGraphql (CreateGroup groupname) "Error trying to create group") CreateGroupResponse ;;
        sret true
  | CreateGroupResponse response =>
      question response ;;
      output (PushRoute RouteListGroups) ;;
      sret true
  end.

Inductive CreateGroupEvent := CreateGroupEdit (s : string) | CreateGroupClick.
(** Source: app/src/components/create_group.rs#L105-L113 *)
Definition create_group_event (ev : CreateGroupEvent) (shown : Shown string) (c : string) :
    option (string * option CreateGroupMsg) :=
  match ev with
  | CreateGroupEdit s => Some (s, Some CreateGroupUpdate)
  | CreateGroupClick => if sh_running shown then None else Some (c, Some CreateGroupSubmit)
  end.

#[export] Instance create_group_component : Component Call string CreateGroupMsg Effect CreateGroupEvent := {|
  create := new_page "";
  component_update := update create_group_handle_msg;
  on_event := create_group_event;
|}.
End CreateGroupForm.

Section LogoutButton.
Context `{OL : OpaqueLib} {S : Type} `{BR : !Browser S} `{PL : !PageLib}.

(** Source: app/src/components/logout.rs#pub enum Msg *)
Inductive LogoutMsg := LogoutRequested | LogoutCompleted (r : AnyError + unit).

(** The button has no fields of its own: the state of the component is the browser, whose
    cookies it deletes. *)
Abbreviation logout_page := (Page Call S LogoutMsg Effect).
Definition in_browser {A} (m : stM S AnyError A) : stM logout_page AnyError A := szoom pg_com set_com m.

(** Source: app/src/components/logout.rs#fn handle_msg *)
Definition logout_handle_msg (msg : LogoutMsg) : stM logout_page AnyError bool :=
  match msg with
  | LogoutRequested => call_backend CallLogout LogoutCompleted
  | LogoutCompleted res =>
      question res ;;
      in_browser (delete_cookie "user_id") ;;
      output OnLoggedOut
  end ;;
  sret false.

(** The button is never disabled.
    Source: app/src/components/logout.rs#fn view *)
Definition logout_event (ev : unit) (shown : Shown S) (c : S) : option (S * option LogoutMsg) := Some (c, Some LogoutRequested).

Definition logout_component (browser : S) : Component Call S LogoutMsg Effect unit := {|
  create := new_page browser;
  component_update := update logout_handle_msg;
  on_event := logout_event;
|}.
End LogoutButton.
