(* ===== verification/WebSafety.v ===== *)
(** * The forms never panic

    [call_backend] asserts that no request is running, [update] that an error leaves
    none, and the handlers expect the data of the request that was answered.  For every
    form of [WebForms] an invariant shows that these hold whatever the user does and
    whatever is answered; the buttons that are not guarded are the exceptions. *)

From S2P Require Import Prelude RustStd Extern Types Concrete Handler Deserialize Db ExampleDb SqlFilters SqlSchema SqlUser SqlGroup SqlBackend SqlTcp SqlOpaque AccessControl LdapHandler LdapSql AuthService AuthSession Clients GraphqlQuery GraphqlMutation WebPage WebApi WebApp WebForms.
From Stdlib Require Import Ascii String.
From stdpp Require Import strings list gmap.
#[local] Open Scope rust_scope.
#[local] Open Scope string_scope.

(** The leaves of a handler: the lock and what is waited for. *)
Ltac page_leaf := unfold locked, awaits; cbn; repeat constructor; try congruence; naive_solver.

Section Login.
Context `{OL : OpaqueLib} (rng : nat -> string).

(** While a request is running, the button is shown disabled or not at all. *)
Definition login_inv (p : Page Call LoginForm LoginMsg Effect) : Prop :=
  pg_running p = true -> sh_running (pg_shown p) = true \/ lf_refreshing (sh_com (pg_shown p)) = true.

Lemma login_rule : page_rule (CP := login_component rng) login_inv.
Proof.
  unfold login_inv. constructor.
  - intros m. apply one_request_update. intros m'. unfold login_handle_msg. stm.
  - done.
  - by left.
  - by left.
  - intros p ev c m HI H1. cbn [on_event login_component]. unfold login_event.
    destruct (lf_refreshing _) eqn:Hr; [done|]. unfold delivers. cbn [component_update login_component].
    destruct ev; intros Hev; [|done|destruct (sh_running _); [done|]]; injection Hev as <- <-;
      [|destruct (pg_running p) eqn:Hp; [naive_solver|]]; wp; cbn; naive_solver.
  - intros p ev c HI. cbn [on_event login_component]. unfold login_event.
    destruct (lf_refreshing _) eqn:Hr; [done|]. destruct ev; [done| |by destruct (sh_running _)]. intros [= <-]. cbn. naive_solver.
  - intros p R c cb answer HI Hf Hr. unfold delivers; cbn [component_update login_component].
    destruct (cb answer) eqn:Hcb; wp; cbn; naive_solver.
Qed.
End Login.

Section ChangePassword.
Context `{OL : OpaqueLib} (rng : nat -> string) (username : string) (is_admin : bool).

(** The state of the protocol is the one of the request that is running. *)
Definition password_expected (c : ChangePasswordForm) (m : PasswordMsg) : Prop :=
  match m with
  | PasswordAuthenticationStartResponse _ => exists l, cpf_opaque_data c = OpaqueLogin l
  | PasswordRegistrationStartResponse _ => exists r, cpf_opaque_data c = OpaqueRegistration r
  | PasswordRegistrationFinishResponse _ => True
  | _ => False
  end.

Lemma password_rule :
  page_rule (CP := password_component rng username is_admin) (fun p => locked p /\ awaits password_expected p).
Proof.
  constructor.
  - intros m. apply one_request_update. intros m'.
    unfold password_handle_msg, submit_new_password, take_opaque_data, set_opaque_data. stm.
  - done.
  - split; [auto|constructor].
  - intros p [_ H]. auto.
  - intros p ev c m [HI Ha] H1. unfold delivers. cbn [component_update on_event password_component]. unfold password_event.
    intros Hev. assert (Hcase : (exists f, c = password_edit f (pg_com p) /\ m = PasswordFormUpdate)
      \/ (sh_running (pg_shown p) = false /\ c = pg_com p /\ m = PasswordSubmit)).
    { destruct ev; [destruct is_admin; [done|]|..|destruct (sh_running _)]; simplify_eq; eauto. }
    destruct Hcase as [(f & -> & ->)|(Hs & -> & ->)].
    + wp. cbn. split; [apply locked_render|]. unfold awaits in *. cbn. eapply Forall_impl; [exact Ha|].
      intros fu Hf a. specialize (Hf a). by destruct (fu_callback fu a).
    + pose proof (unlocked_idle p HI Hs) as Hp. pose proof (idle_futures p H1 Hp) as Hfu.
      wp; cbn; unfold locked, awaits; cbn; rewrite ?Hfu; cbn; rewrite ?Hp; page_leaf.
  - intros p ev c [HI Ha]. cbn [on_event password_component]. unfold password_event.
    destruct ev; [destruct is_admin|..|destruct (sh_running _)]; done.
  - intros p R c cb answer [HI Ha] Hf Hr. unfold delivers. cbn [component_update password_component].
    unfold awaits in Ha. rewrite Hf, Forall_singleton in Ha. specialize (Ha answer). cbn in Ha.
    destruct (cb answer); try done; [destruct Ha as [d Hd]..|]; wp; cbn in *; try congruence; page_leaf.
Qed.
End ChangePassword.

Section ResetStep1.
Context `{OL : OpaqueLib}.
Lemma reset_step1_rule : page_rule (CP := reset_step1_component) locked.
Proof.
  constructor; [|done|auto|auto|..].
  - intros m. cbn [component_update reset_step1_component]. unfold reset_step1_update, set_just_succeeded.
    apply preserves_bind; [by apply preserves_modify|]. intros _. apply one_request_update. intros m'.
    unfold reset_step1_handle_msg, set_just_succeeded. stm; by apply preserves_modify.
  - intros p ev c m HI H1 Hev. unfold delivers. cbn [component_update on_event reset_step1_component] in *.
    unfold reset_step1_event in Hev. destruct ev; [|destruct (_ || _) eqn:Hs; [done|]]; injection Hev as <- <-.
    + wp. apply locked_render.
    + apply orb_false_iff in Hs as [_ Hs]. pose proof (unlocked_idle p HI Hs) as Hp. wp; cbn; rewrite ?Hp; page_leaf.
  - intros p ev c HI. cbn [on_event reset_step1_component]. unfold reset_step1_event. by destruct ev; [|destruct (_ || _)].
  - intros p R c cb answer HI Hf Hr. unfold delivers. cbn [component_update reset_step1_component].
    unfold reset_step1_update, set_just_succeeded. destruct (cb answer); wp; page_leaf.
Qed.
End ResetStep1.

Section ResetStep2.
Context `{OL : OpaqueLib} (rng : nat -> string) (token : string).

Definition reset_step2_expected (c : ResetPasswordStep2Form) (m : ResetStep2Msg) : Prop :=
  match m with
  | ResetRegistrationStartResponse _ => is_Some (r2_opaque_data c)
  | ValidateTokenResponse _ | ResetRegistrationFinishResponse _ => True
  | _ => False
  end.
(** The form is only on the screen when the user is known. *)
Definition step2_user (p : Page Call ResetPasswordStep2Form ResetStep2Msg Effect) : Prop :=
  is_Some (r2_username (sh_com (pg_shown p))) -> is_Some (r2_username (pg_com p)).

Lemma reset_step2_rule :
  page_rule (CP := reset_step2_component rng token) (fun p => locked p /\ awaits reset_step2_expected p /\ step2_user p).
Proof.
  constructor.
  - intros m. apply one_request_update. intros m'. unfold reset_step2_handle_msg. stm.
  - done.
  - split_and!; [auto|by apply Forall_singleton|by intros H].
  - intros p (_ & H & _). split_and!; [auto|done|by intros H1].
  - intros p ev c m (HI & Ha & Hu) H1. unfold delivers. cbn [component_update on_event reset_step2_component].
    unfold reset_step2_event. destruct (r2_username (sh_com (pg_shown p))) as [u|] eqn:Hs; [|done]. intros Hev.
    assert (Hcase : (exists f, c = reset_edit f (pg_com p) /\ m = ResetFormUpdate)
      \/ (sh_running (pg_shown p) = false /\ c = pg_com p /\ m = ResetSubmit)).
    { destruct ev; [..|destruct (sh_running _)]; simplify_eq; eauto. }
    destruct Hcase as [(f & -> & ->)|(Hsh & -> & ->)].
    + wp. cbn. split_and!; [apply locked_render| |by intros H]. unfold awaits in *. cbn. eapply Forall_impl; [exact Ha|].
      intros fu Hf a. specialize (Hf a). by destruct (fu_callback fu a).
    + pose proof (unlocked_idle p HI Hsh) as Hp. pose proof (idle_futures p H1 Hp) as Hfu.
      unfold step2_user in Hu. rewrite Hs in Hu. destruct Hu as [u' Hu]; [by eexists|].
      wp; cbn in *; try congruence; unfold locked, awaits, step2_user; cbn; rewrite ?Hfu; cbn; rewrite ?Hp, ?Hu; page_leaf.
  - intros p ev c (HI & Ha & Hu). cbn [on_event reset_step2_component]. unfold reset_step2_event.
    destruct (r2_username _); [|done]. destruct ev; [..|destruct (sh_running _)]; done.
  - intros p R c cb answer (HI & Ha & Hu) Hf Hr. unfold delivers. cbn [component_update reset_step2_component].
    unfold awaits in Ha. rewrite Hf, Forall_singleton in Ha. specialize (Ha answer). cbn in Ha.
    destruct (cb answer); try done; wp; cbn in *; try (match goal with H : is_Some _ |- _ => destruct H end); try congruence.
    all: unfold step2_user in *; cbn; page_leaf.
Qed.
End ResetStep2.

Section CreateForms.
Context `{OL : OpaqueLib} `{V : ValidatorLib} (rng : nat -> string).

Lemma create_user_rule : page_rule (CP := create_user_component rng) locked.
Proof.
  constructor; [|done|auto|auto|..].
  - intros m. apply one_request_update. intros m'. unfold create_user_handle_msg, successful_creation. stm.
  - intros p ev c m HI H1 Hev. unfold delivers. cbn [component_update on_event create_user_component] in *.
    unfold create_user_event in Hev. destruct ev; [|destruct (sh_running _) eqn:Hs; [done|]]; injection Hev as <- <-.
    + wp. apply locked_render.
    + pose proof (unlocked_idle p HI Hs) as Hp. wp; cbn; rewrite ?Hp; page_leaf.
  - intros p ev c HI. cbn [on_event create_user_component]. unfold create_user_event. by destruct ev; [|destruct (sh_running _)].
  - intros p R c cb answer HI Hf Hr. unfold delivers. cbn [component_update create_user_component].
    destruct (cb answer); wp; page_leaf.
Qed.

Lemma create_group_rule : page_rule (CP := create_group_component) locked.
Proof.
  constructor; [|done|auto|auto|..].
  - intros m. apply one_request_update. intros m'. unfold create_group_handle_msg. stm.
  - intros p ev c m HI H1 Hev. unfold delivers. cbn [component_update on_event create_group_component] in *.
    unfold create_group_event in Hev. destruct ev; [|destruct (sh_running _) eqn:Hs; [done|]]; injection Hev as <- <-.
    + wp. apply locked_render.
    + pose proof (unlocked_idle p HI Hs) as Hp. wp; cbn; rewrite ?Hp; page_leaf.
  - intros p ev c HI. cbn [on_event create_group_component]. unfold create_group_event. by destruct ev; [|destruct (sh_running _)].
  - intros p R c cb answer HI Hf Hr. unfold delivers. cbn [component_update create_group_component].
    destruct (cb answer); wp; page_leaf.
Qed.
End CreateForms.

(* ------------------------------------------------------------------ *)
(** ** Together *)

(** Whatever the user does and whatever is answered: at most one request runs at a
    time, and no step panics. *)
Definition page_safe {Call Com Msg Out Event} (CP : Component Call Com Msg Out Event) : Prop :=
  forall p : Page Call Com Msg Out, reachable p -> one_request p /\ forall m, ~ step p (Panic m).

Lemma rule_safe {Call Com Msg Out Event} (CP : Component Call Com Msg Out Event) I : page_rule I -> page_safe CP.
Proof.
  intros HI%rule_invariant p Hp. split; [apply (invariant_reachable _ p HI Hp)|]. intros m. by apply (invariant_safe _ p m HI Hp).
Qed.

(** The same but for the panics that [P] tells of: each is the answer to what the user
    does with a control. *)
Definition panics_only {Call Com Msg Out Event} (P : Event -> Page Call Com Msg Out -> bool) (CP : Component Call Com Msg Out Event) : Prop :=
  forall p : Page Call Com Msg Out, reachable p ->
    one_request p /\ forall m, step p (Panic m) -> exists ev, P ev p = true /\ fire ev p = Some (Panic m).

Lemma rule_but_safe {Call Com Msg Out Event} (CP : Component Call Com Msg Out Event) P I : page_rule_but P I -> panics_only P CP.
Proof.
  intros HI p Hp. pose proof (rule_but_reachable P I p HI Hp) as H. split; [apply H|].
  intros m Hs. exact (rule_but_step P I p _ HI H Hs).
Qed.
