(* ===== verification/WebDirectory.v ===== *)
(** * The pages of users and groups

    Models the components of [app/src/components/] that list, show and edit users,
    groups and attribute schemas: the tables, the details with the members, the
    dialogs that delete, and the buttons that add to and remove from a group. *)

From S2P Require Import Prelude RustStd Extern Types Concrete Handler Deserialize Db ExampleDb SqlFilters SqlSchema SqlUser SqlGroup SqlBackend SqlTcp SqlOpaque AccessControl LdapHandler LdapSql AuthService AuthSession Clients GraphqlQuery GraphqlMutation WebPage WebApi WebApp WebForms.
From Stdlib Require Import Ascii String.
From stdpp Require Import strings list gmap.
#[local] Open Scope rust_scope.
#[local] Open Scope string_scope.

(* ------------------------------------------------------------------ *)
(** ** The dialogs that delete *)

(** [delete_user.rs], [delete_group.rs], [delete_user_attribute.rs] and
    [delete_group_attribute.rs] are the same component but for the request and the
    callback, which are the parameters here.  The component's only state is its dialog
    ([bootstrap.Modal]), made by the first rendering.  It has the class [fade]: Bootstrap
    shows and hides it in a transition, returns to the caller before that is over, and
    ignores what it is asked to do in the meantime. *)
Inductive Modal := ModalHidden | ModalShowing | ModalShown | ModalHiding.
(** Source: app/src/infra/modal.rs#pub fn show *)
Definition modal_show (m : Modal) : Modal := match m with ModalHidden => ModalShowing | m => m end.
(** Source: app/src/infra/modal.rs#pub fn hide *)
Definition modal_hide (m : Modal) : Modal := match m with ModalShown => ModalHiding | m => m end.
Definition transition_end (m : Modal) : option Modal :=
  match m with ModalShowing => Some ModalShown | ModalHiding => Some ModalHidden | _ => None end.

Section DeleteDialog.
Context `{OL : OpaqueLib} (query : Query Success) (error_message : string) (deleted : Effect).

Inductive DeleteMsg := ClickedDelete | ConfirmDelete | DismissModal | DeleteResponse (r : AnyError + Success).

Abbreviation delete_page := (Page Call (option Modal) DeleteMsg Effect).
Abbreviation delete_handler := (stM delete_page AnyError).

(** [self.modal.as_ref().expect("modal not initialized").show()], [.hide()] *)
Definition on_modal (act : Modal -> Modal) (asked : Effect) : delete_handler unit :=
  let! modal := self in
  let! modal := slift (expect "modal not initialized" modal) in
  put_self (Some (act modal)) ;;
  output asked.

(** [self.update(ctx, Msg::DismissModal)] clears the error and asks the dialog to hide. *)
Definition delete_handle_msg (msg : DeleteMsg) : delete_handler bool :=
  match msg with
  | ClickedDelete => on_modal modal_show ShowModal
  | ConfirmDelete =>
      smodify (set_error None) ;; on_modal modal_hide HideModal ;;
      call_backend (CallGraphql query error_message) DeleteResponse
  | DismissModal => on_modal modal_hide HideModal
  | DeleteResponse response =>
      question response ;;
      output deleted
  end ;;
  sret true.

(** The buttons of the dialog, which are never disabled, can be reached until it is hidden;
    the page behind it cannot.  A click beside the dialog closes it without a message. *)
Inductive DeleteEvent := ClickDelete | ClickConfirm | ClickDismiss | ClickBeside | TransitionEnd.
Definition delete_event (ev : DeleteEvent) (shown : Shown (option Modal)) (c : option Modal) : option (option Modal * option DeleteMsg) :=
  match ev, c with
  | ClickDelete, Some ModalHidden => if sh_running shown then None else Some (c, Some ClickedDelete)
  | ClickConfirm, Some (ModalShowing | ModalShown | ModalHiding) => Some (c, Some ConfirmDelete)
  | ClickDismiss, Some (ModalShowing | ModalShown | ModalHiding) => Some (c, Some DismissModal)
  | ClickBeside, Some ModalShown => Some (Some ModalHiding, None)
  | TransitionEnd, Some m => option_map (fun m => (Some m, None)) (transition_end m)
  | _, _ => None
  end.

Definition delete_component : Component Call (option Modal) DeleteMsg Effect DeleteEvent := {|
  create := new_page (Some ModalHidden);
  component_update msg := update_and_report_error delete_handle_msg msg OnError;
  on_event := delete_event;
|}.
End DeleteDialog.

(** Source: app/src/components/delete_user.rs#fn handle_msg *)
Definition delete_user_handle_msg `{OpaqueLib} (username : string) :=
  delete_handle_msg (DeleteUserQuery username) "Error trying to delete user" (OnUserDeleted username).
(** Source: app/src/components/delete_group.rs#fn handle_msg *)
Definition delete_group_handle_msg `{OpaqueLib} (group : ListedGroup) :=
  delete_handle_msg (DeleteGroupQuery (lg_id group)) "Error trying to delete group" (OnGroupDeleted (lg_id group)).
(** Source: app/src/components/delete_user_attribute.rs#fn handle_msg *)
Definition delete_user_attribute_handle_msg `{OpaqueLib} (name : string) :=
  delete_handle_msg (DeleteUserAttributeQuery name) "Error trying to delete user attribute" (OnAttributeDeleted name).
(** Source: app/src/components/delete_group_attribute.rs#fn handle_msg *)
Definition delete_group_attribute_handle_msg `{OpaqueLib} (name : string) :=
  delete_handle_msg (DeleteGroupAttributeQuery name) "Error trying to delete group attribute" (OnAttributeDeleted name).

(* ------------------------------------------------------------------ *)
(** ** Adding to and removing from a group *)

(** Source: app/src/components/select.rs#pub struct SelectOptionProps *)
Record SelectOptionProps := mk_option { so_value : string; so_text : string }.

(** Source: app/src/components/select.rs#fn get_nth_child_props *)
Definition get_nth_child_props (children : list SelectOptionProps) (nth : Z) : option SelectOptionProps :=
  if (nth =? -1)%Z then None else nth_error children (Z.to_nat nth).

(** The index the browser gives for a list of [n] options: one of them, [-1] if there is none. *)
Definition selected_index (n : nat) (i : nat) : Z := if (n =? 0)%nat then -1 else Z.of_nat (i mod n).

Section AddUserToGroup.
Context `{OL : OpaqueLib} (username : string) (groups : list WebGroup).

(** Source: app/src/components/add_user_to_group.rs#pub struct AddUserToGroupComponent *)
Record AddUserToGroupComponent := mk_add_user { au_group_list : option (list WebGroup); au_selected_group : option WebGroup }.

(** Source: app/src/components/add_user_to_group.rs#pub enum Msg *)
Inductive AddUserMsg :=
| GroupListResponse (r : AnyError + list ListedGroup)
| SubmitAddGroup
| AddGroupResponse (r : AnyError + Success)
| GroupSelectionChanged (o : option SelectOptionProps).

Abbreviation add_user_page := (Page Call AddUserToGroupComponent AddUserMsg Effect).

(** Source: app/src/components/add_user_to_group.rs#fn from *)
Definition group_from (g : ListedGroup) : WebGroup := mk_web_group (lg_id g) (lg_display_name g).

(** Source: app/src/components/add_user_to_group.rs#fn submit_add_group *)
Definition submit_add_group : stM add_user_page AnyError bool :=
  let! com := self in
  match au_selected_group com with
  | None => sret false
  | Some group =>
      call_backend (CallGraphql (AddUserToGroup username (wg_id group)) "Error trying to initiate adding the user to a group")
        AddGroupResponse ;;
      sret true
  end.

(** [props.value.parse::<i64>().unwrap()]
    Source: app/src/components/add_user_to_group.rs#fn handle_msg *)
Definition add_user_handle_msg (msg : AddUserMsg) : stM add_user_page AnyError bool :=
  match msg with
  | GroupListResponse response =>
      let! l := question response in
      let! com := self in
      put_self (mk_add_user (Some (map group_from l)) (au_selected_group com)) ;;
      sret true
  | SubmitAddGroup => submit_add_group
  | AddGroupResponse response =>
      question response ;;
      let! com := self in
      let! group := slift (expect "Could not get selected group" (au_selected_group com)) in
      output (OnUserAddedToGroup group) ;;
      sret true
  | GroupSelectionChanged option_props =>
      let! com := self in
      let! selected_group :=
        match option_props with
        | None => sret None
        | Some props =>
            let! id := slift (expect "called `Result::unwrap()` on an `Err` value" (parse_i64 (so_value props))) in
            sret (Some (mk_web_group id (so_text props)))
        end in
      put_self (mk_add_user (au_group_list com) selected_group) ;;
      sret (negb (Bool.eqb (bool_decide (is_Some selected_group)) (bool_decide (is_Some (au_selected_group com)))))
  end.

(** Source: app/src/components/add_user_to_group.rs#fn get_selectable_group_list *)
Definition get_selectable_group_list (group_list : list WebGroup) : list WebGroup :=
  filter (fun g => g ∉ groups) group_list.
Definition make_select_option (g : WebGroup) : SelectOptionProps := mk_option (i64_to_string (wg_id g)) (wg_display_name g).

Inductive AddUserEvent := SelectGroup (i : nat) | ClickAddGroup.
(** Source: app/src/components/add_user_to_group.rs#fn view *)
Definition add_user_event (ev : AddUserEvent) (shown : Shown AddUserToGroupComponent) (c : AddUserToGroupComponent) :
    option (AddUserToGroupComponent * option AddUserMsg) :=
  match au_group_list (sh_com shown) with
  | None => None
  | Some group_list =>
      let children := map make_select_option (get_selectable_group_list group_list) in
      match ev with
      | SelectGroup i => Some (c, Some (GroupSelectionChanged (get_nth_child_props children (selected_index (length children) i))))
      | ClickAddGroup =>
          if bool_decide (au_selected_group (sh_com shown) = None) || sh_running shown then None
          else Some (c, Some SubmitAddGroup)
      end
  end.

(** Source: app/src/components/add_user_to_group.rs#fn create *)
Definition add_user_create : add_user_page :=
  snd (call_backend (E := AnyError) (CallGraphql GetGroupList "Error trying to fetch group list") GroupListResponse
         (new_page (mk_add_user None None))).

Definition add_user_component : Component Call AddUserToGroupComponent AddUserMsg Effect AddUserEvent := {|
  create := add_user_create;
  component_update msg := update_and_report_error add_user_handle_msg msg OnError;
  on_event := add_user_event;
|}.
End AddUserToGroup.

Section AddGroupMember.
Context `{OL : OpaqueLib} (group_id : GroupId) (users : list Member).

(** Source: app/src/components/add_group_member.rs#pub struct AddGroupMemberComponent *)
Record AddGroupMemberComponent := mk_add_member { am_user_list : option (list Member); am_selected_user : option Member }.

(** Source: app/src/components/add_group_member.rs#pub enum Msg *)
Inductive AddMemberMsg :=
| UserListResponse (r : AnyError + list Member)
| SubmitAddMember
| AddMemberResponse (r : AnyError + Success)
| UserSelectionChanged (o : option SelectOptionProps).

Abbreviation add_member_page := (Page Call AddGroupMemberComponent AddMemberMsg Effect).

(** Source: app/src/components/add_group_member.rs#fn submit_add_member *)
Definition submit_add_member : stM add_member_page AnyError bool :=
  let! com := self in
  match am_selected_user com with
  | None => sret false
  | Some user =>
      call_backend (CallGraphql (AddUserToGroup (me_id user) group_id) "Error trying to initiate adding the user to a group")
        AddMemberResponse ;;
      sret true
  end.

(** Source: app/src/components/add_group_member.rs#fn handle_msg *)
Definition add_member_handle_msg (msg : AddMemberMsg) : stM add_member_page AnyError bool :=
  match msg with
  | UserListResponse response =>
      let! l := question response in
      let! com := self in
      put_self (mk_add_member (Some l) (am_selected_user com)) ;;
      sret true
  | SubmitAddMember => submit_add_member
  | AddMemberResponse response =>
      question response ;;
      let! com := self in
      let! user := slift (expect "Could not get selected user" (am_selected_user com)) in
      output (OnMemberAdded user) ;;
      sret true
  | UserSelectionChanged option_props =>
      let! com := self in
      let selected_user := option_map (fun u => mk_member (so_value u) (so_text u)) option_props in
      put_self (mk_add_member (am_user_list com) selected_user) ;;
      sret (negb (Bool.eqb (bool_decide (is_Some selected_user)) (bool_decide (is_Some (am_selected_user com)))))
  end.

(** Source: app/src/components/add_group_member.rs#fn get_selectable_user_list *)
Definition get_selectable_user_list (user_list : list Member) : list Member := filter (fun u => u ∉ users) user_list.
(** Source: app/src/components/add_group_member.rs#L157-L166 *)
Definition make_member_option (u : Member) : SelectOptionProps :=
  mk_option (me_id u) (if String.eqb (me_display_name u) "" then me_id u else me_display_name u).

Inductive AddMemberEvent := SelectMember (i : nat) | ClickAddMember.
(** Source: app/src/components/add_group_member.rs#fn view *)
Definition add_member_event (ev : AddMemberEvent) (shown : Shown AddGroupMemberComponent) (c : AddGroupMemberComponent) :
    option (AddGroupMemberComponent * option AddMemberMsg) :=
  match am_user_list (sh_com shown) with
  | None => None
  | Some user_list =>
      let children := map make_member_option (get_selectable_user_list user_list) in
      match ev with
      | SelectMember i => Some (c, Some (UserSelectionChanged (get_nth_child_props children (selected_index (length children) i))))
      | ClickAddMember =>
          if bool_decide (am_selected_user (sh_com shown) = None) || sh_running shown then None
          else Some (c, Some SubmitAddMember)
      end
  end.

(** Source: app/src/components/add_group_member.rs#fn create *)
Definition add_member_create : add_member_page :=
  snd (call_backend (E := AnyError) (CallGraphql (ListUserNames None) "Error trying to fetch user list") UserListResponse
         (new_page (mk_add_member None None))).

Definition add_member_component : Component Call AddGroupMemberComponent AddMemberMsg Effect AddMemberEvent := {|
  create := add_member_create;
  component_update msg := update_and_report_error add_member_handle_msg msg OnError;
  on_event := add_member_event;
|}.
End AddGroupMember.

Section RemoveUserFromGroup.
Context `{OL : OpaqueLib} (username : string) (group_id : GroupId).

(** Source: app/src/components/remove_user_from_group.rs#pub enum Msg *)
Inductive RemoveUserMsg := SubmitRemoveGroup | RemoveGroupResponse (r : AnyError + Success).

Abbreviation remove_user_page := (Page Call unit RemoveUserMsg Effect).

(** Source: app/src/components/remove_user_from_group.rs#fn handle_msg *)
Definition remove_user_handle_msg (msg : RemoveUserMsg) : stM remove_user_page AnyError bool :=
  match msg with
  | SubmitRemoveGroup =>
      call_backend (CallGraphql (RemoveUserFromGroup username group_id)
        "Error trying to initiate removing the user from a group") RemoveGroupResponse
  | RemoveGroupResponse response =>
      question response ;;
      output (OnRemovedFromGroup username group_id)
  end ;;
  sret true.

(** Source: app/src/components/remove_user_from_group.rs#fn view *)
Definition remove_user_event (ev : unit) (shown : Shown unit) (c : unit) : option (unit * option RemoveUserMsg) :=
  if sh_running shown then None else Some (c, Some SubmitRemoveGroup).

Definition remove_user_component : Component Call unit RemoveUserMsg Effect unit := {|
  create := new_page tt;
  component_update msg := update_and_report_error remove_user_handle_msg msg OnError;
  on_event := remove_user_event;
|}.
End RemoveUserFromGroup.

(* ------------------------------------------------------------------ *)
(** ** Details *)

(** [bail!("Error getting user details: {}", e)]; [text] is the [Display] of errors. *)
Definition details_error (text : AnyError -> string) (e : AnyError) : AnyError :=
  Message ("Error getting user details: " +:+ text e).

Section UserDetails.
Context `{OL : OpaqueLib} (text : AnyError -> string) (username : string).

(** Source: app/src/components/user_details.rs#pub enum Msg *)
Inductive UserDetailsMsg :=
| UserDetailsResponse (r : AnyError + UserPage)
| UserDetailsError (e : AnyError)
| UserAddedToGroup (group : WebGroup)
| UserRemovedFromGroup (username : string) (group_id : GroupId).

(** The component's field is the user, once it is there. *)
Abbreviation user_details_page := (Page Call (option UserPage) UserDetailsMsg Effect).

Definition set_groups (l : list WebGroup) (u : UserPage) : UserPage :=
  mk_user_page (up_id u) (up_email u) (up_display_name u) (up_first_name u) (up_last_name u) (up_avatar u)
    (up_creation_date u) (up_uuid u) l.
(** [self.user.as_mut().unwrap().groups] *)
Definition change_groups (f : list WebGroup -> list WebGroup) : stM user_details_page AnyError unit :=
  let! user := self in
  let! u := slift (expect "called `Option::unwrap()` on a `None` value" user) in
  put_self (Some (set_groups (f (up_groups u)) u)).

(** Source: app/src/components/user_details.rs#fn handle_msg *)
Definition user_details_handle_msg (msg : UserDetailsMsg) : stM user_details_page AnyError bool :=
  match msg with
  | UserDetailsResponse (inr user) => put_self (Some user)
  | UserDetailsResponse (inl e) => put_self None ;; sthrow (details_error text e)
  | UserDetailsError e => sthrow e
  | UserAddedToGroup group => change_groups (fun l => l ++ [group])%list
  | UserRemovedFromGroup _ group_id => change_groups (filter (fun g => wg_id g <> group_id))
  end ;;
  sret true.

(** The messages come from the children, which are there once the user is. *)
Inductive UserDetailsEvent := ChildError (e : AnyError) | ChildAdded (g : WebGroup) | ChildRemoved (u : string) (g : GroupId).
(** Source: app/src/components/user_details.rs#fn view *)
Definition user_details_event (ev : UserDetailsEvent) (shown : Shown (option UserPage)) (c : option UserPage) :
    option (option UserPage * option UserDetailsMsg) :=
  match sh_com shown with
  | None => None
  | Some _ => Some (c, Some (match ev with
                             | ChildError e => UserDetailsError e
                             | ChildAdded g => UserAddedToGroup g
                             | ChildRemoved u g => UserRemovedFromGroup u g
                             end))
  end.

(** Source: app/src/components/user_details.rs#fn create *)
Definition user_details_create : user_details_page :=
  snd (call_backend (E := AnyError) (CallGraphql (GetUserDetails username) "Error trying to fetch user details")
         UserDetailsResponse (new_page None)).

Definition user_details_component : Component Call (option UserPage) UserDetailsMsg Effect UserDetailsEvent := {|
  create := user_details_create;
  component_update := update user_details_handle_msg;
  on_event := user_details_event;
|}.
End UserDetails.

Section GroupDetails.
Context `{OL : OpaqueLib} (text : AnyError -> string) (group_id : GroupId).

(** Source: app/src/components/group_details.rs#pub enum Msg *)
Inductive GroupDetailsMsg :=
| GroupDetailsResponse (r : AnyError + GroupPage)
| GroupDetailsError (e : AnyError)
| GroupUserAdded (user : Member)
| GroupUserRemoved (user_id : string) (group_id : GroupId).

Abbreviation group_details_page := (Page Call (option GroupPage) GroupDetailsMsg Effect).

Definition change_users (f : list Member -> list Member) : stM group_details_page AnyError unit :=
  let! group := self in
  let! g := slift (expect "called `Option::unwrap()` on a `None` value" group) in
  put_self (Some (mk_group_page (gp_id g) (gp_display_name g) (gp_creation_date g) (gp_uuid g) (f (gp_users g)))).

(** Source: app/src/components/group_details.rs#fn handle_msg *)
Definition group_details_handle_msg (msg : GroupDetailsMsg) : stM group_details_page AnyError bool :=
  match msg with
  | GroupDetailsResponse (inr group) => put_self (Some group)
  | GroupDetailsResponse (inl e) => put_self None ;; sthrow (details_error text e)
  | GroupDetailsError e => sthrow e
  | GroupUserAdded user => change_users (fun l => l ++ [user])%list
  | GroupUserRemoved user_id _ => change_users (filter (fun u => me_id u <> user_id))
  end ;;
  sret true.

Inductive GroupDetailsEvent := MemberChildError (e : AnyError) | MemberChildAdded (u : Member) | MemberChildRemoved (u : string) (g : GroupId).
(** Source: app/src/components/group_details.rs#fn view *)
Definition group_details_event (ev : GroupDetailsEvent) (shown : Shown (option GroupPage)) (c : option GroupPage) :
    option (option GroupPage * option GroupDetailsMsg) :=
  match sh_com shown with
  | None => None
  | Some _ => Some (c, Some (match ev with
                             | MemberChildError e => GroupDetailsError e
                             | MemberChildAdded u => GroupUserAdded u
                             | MemberChildRemoved u g => GroupUserRemoved u g
                             end))
  end.

(** Source: app/src/components/group_details.rs#fn create *)
Definition group_details_create : group_details_page :=
  snd (call_backend (E := AnyError) (CallGraphql (GetGroupDetails group_id) "Error trying to fetch group details")
         GroupDetailsResponse (new_page None)).

Definition group_details_component : Component Call (option GroupPage) GroupDetailsMsg Effect GroupDetailsEvent := {|
  create := group_details_create;
  component_update := update group_details_handle_msg;
  on_event := group_details_event;
|}.
End GroupDetails.

(* ------------------------------------------------------------------ *)
(** ** Tables *)

(** [user_table.rs], [group_table.rs] and the two schema tables: a list that is fetched
    when the table is created, and from which the deleted row is removed.  They differ in
    the request, the key of a row, and what a deletion does when the list is not there:
    the first two unwrap, the others make an error. *)
Section Table.
Context `{OL : OpaqueLib} {Row K : Type} `{!EqDecision K}.
Context (query : Query (list Row)) (error_message : string) (key : Row -> K) (not_loaded : string + AnyError).

Inductive TableMsg := ListResponse (r : AnyError + list Row) | OnRowDeleted (k : K) | TableError (e : AnyError).

Abbreviation table_page := (Page Call (option (list Row)) TableMsg Effect).

Definition table_handle_msg (msg : TableMsg) : stM table_page AnyError bool :=
  match msg with
  | ListResponse rows =>
      let! l := question rows in
      put_self (Some l) ;;
      sret true
  | TableError e => sthrow e
  | OnRowDeleted k =>
      let! rows := self in
      match rows, not_loaded with
      | Some l, _ => put_self (Some (filter (fun r => key r <> k) l)) ;; sret true
      | None, inl m => spanic m
      | None, inr e => sthrow e
      end
  end.

Inductive TableEvent := RowDeleted (k : K) | RowError (e : AnyError).
(** The messages come from the rows that are shown. *)
Definition table_event (ev : TableEvent) (shown : Shown (option (list Row))) (c : option (list Row)) :
    option (option (list Row) * option TableMsg) :=
  match sh_com shown with
  | None => None
  | Some _ => Some (c, Some (match ev with RowDeleted k => OnRowDeleted k | RowError e => TableError e end))
  end.

Definition table_component : Component Call (option (list Row)) TableMsg Effect TableEvent := {|
  create := snd (call_backend (E := AnyError) (CallGraphql query error_message) ListResponse (new_page None));
  component_update := update table_handle_msg;
  on_event := table_event;
|}.
End Table.
Arguments TableMsg : clear implicits.
Arguments TableEvent : clear implicits.

Section Tables.
Context `{OL : OpaqueLib}.
Definition unwrap_none : string + AnyError := inl "called `Option::unwrap()` on a `None` value".
Definition invalid_state : string + AnyError := inr (Message "invalid state").

(** Source: app/src/components/user_table.rs#fn handle_msg *)
Definition user_table_handle_msg := table_handle_msg (K := string) lu_id unwrap_none.
(** Source: app/src/components/group_table.rs#fn handle_msg *)
Definition group_table_handle_msg := table_handle_msg (K := GroupId) lg_id unwrap_none.
(** Source: app/src/components/user_schema_table.rs#fn handle_msg *)
Definition user_schema_table_handle_msg := table_handle_msg (K := string) sr_name invalid_state.
(** Source: app/src/components/group_schema_table.rs#fn handle_msg *)
Definition group_schema_table_handle_msg := table_handle_msg (K := string) gsr_name invalid_state.

(** Source: app/src/components/user_table.rs#fn create *)
Definition user_table := table_component (ListUsersQuery None) "Error trying to fetch users" lu_id unwrap_none.
(** Source: app/src/components/group_table.rs#fn create *)
Definition group_table := table_component GetGroupList "Error trying to fetch groups" lg_id unwrap_none.
(** Source: app/src/components/user_schema_table.rs#fn create *)
Definition user_schema_table := table_component GetUserAttributesSchema "Error trying to fetch user schema" sr_name invalid_state.
(** Source: app/src/components/group_schema_table.rs#fn create *)
Definition group_schema_table :=
  table_component GetGroupAttributesSchema "Error trying to fetch group schema" gsr_name invalid_state.

(** The rows of one of the two schema tables of a page.
    Source: app/src/components/user_schema_table.rs#L135-L143 *)
Definition shown_attributes (hardcoded : bool) (attributes : list UserSchemaRow) : list UserSchemaRow :=
  filter (fun a => sr_is_hardcoded a = hardcoded) attributes.
End Tables.
