(* ===== verification/WebEdit.v ===== *)
(** * The forms of the user's details and of attributes

    Models [app/src/components/user_details_form.rs] with its picture, read from a file
    in the background, [create_user_attribute.rs] and [create_group_attribute.rs], and
    the attribute types of [app/src/infra/schema.rs]. *)

From S2P Require Import Prelude RustStd Extern Types Concrete Handler Deserialize Db ExampleDb SqlFilters SqlSchema SqlUser SqlGroup SqlBackend SqlTcp SqlOpaque AccessControl LdapHandler LdapSql AuthService AuthSession Clients GraphqlQuery GraphqlMutation WebPage WebApi WebApp WebForms WebSafety.
From Stdlib Require Import Ascii String.
From stdpp Require Import strings list gmap.
#[local] Open Scope rust_scope.
#[local] Open Scope string_scope.

(* ------------------------------------------------------------------ *)
(** ** The user's details *)

(** A file of the browser: its name, and its bytes once they are read. *)
Record WebFile := mk_web_file { wf_name : string; wf_bytes : bytes }.

(** Source: app/src/components/user_details_form.rs#struct JsFile *)
Record JsFile := mk_js_file { jf_file : option WebFile; jf_contents : option bytes }.
Definition js_file_default : JsFile := mk_js_file None None.

Section UserDetailsForm.
Context `{OL : OpaqueLib} `{V : ValidatorLib} `{IL : ImageLib} `{B6 : Base64}.

(** Source: app/src/components/user_details_form.rs#fn is_valid_jpeg *)
Definition web_is_valid_jpeg (b : bytes) : bool := jpeg_decodes b.

(** Source: app/src/components/user_details_form.rs#fn to_base64 *)
Definition to_base64 (file : JsFile) : outcome AnyError string :=
  match file with
  | mk_js_file None _ => Ok ""
  | mk_js_file (Some _) None => bail "Image file hasn't finished loading, try again"
  | mk_js_file (Some _) (Some data) =>
      if negb (web_is_valid_jpeg data) then bail "Chosen image is not a valid JPEG" else Ok (base64_encode data)
  end.

(** Source: app/src/components/user_details_form.rs#pub struct UserModel *)
Record UserModel := mk_user_model { um_email : string; um_display_name : string; um_first_name : string; um_last_name : string }.
Definition user_model_valid (m : UserModel) : bool := validate_email (um_email m).

(** [udf_reader] is the file that is being read.
    Source: app/src/components/user_details_form.rs#pub struct UserDetailsForm *)
Record UserDetailsForm := mk_user_details_form {
  udf_form : UserModel;
  udf_avatar : option JsFile;
  udf_reader : option WebFile;
  udf_just_updated : bool;
  udf_user : UserPage;
}.
Definition set_form (m : UserModel) (c : UserDetailsForm) : UserDetailsForm :=
  mk_user_details_form m (udf_avatar c) (udf_reader c) (udf_just_updated c) (udf_user c).
Definition set_avatar (a : option JsFile) (c : UserDetailsForm) : UserDetailsForm :=
  mk_user_details_form (udf_form c) a (udf_reader c) (udf_just_updated c) (udf_user c).
Definition set_reader (r : option WebFile) (c : UserDetailsForm) : UserDetailsForm :=
  mk_user_details_form (udf_form c) (udf_avatar c) r (udf_just_updated c) (udf_user c).
Definition set_just_updated (b : bool) (c : UserDetailsForm) : UserDetailsForm :=
  mk_user_details_form (udf_form c) (udf_avatar c) (udf_reader c) b (udf_user c).
Definition set_user (u : UserPage) (c : UserDetailsForm) : UserDetailsForm :=
  mk_user_details_form (udf_form c) (udf_avatar c) (udf_reader c) (udf_just_updated c) u.

(** Source: app/src/components/user_details_form.rs#pub enum Msg *)
Inductive UserFormMsg :=
| UserFormUpdate
| FileSelected (f : WebFile)
| SubmitClicked
| ClearAvatarClicked
| FileLoaded (name : string) (data : AnyError + bytes)
| UserUpdated (r : AnyError + Success).

Abbreviation user_form_page := (Page Call UserDetailsForm UserFormMsg Effect).
Abbreviation user_form_handler := (stM user_form_page AnyError).
Definition change_self (f : UserDetailsForm -> UserDetailsForm) : user_form_handler unit :=
  let! c := self in put_self (f c).

(** A field that is sent: the new text if it is not the old one. *)
Definition changed (old new : string) : option string := if String.eqb old new then None else Some new.

(** The request for the difference between the user and the form; [avatar] is the new
    picture, as text. *)
Definition user_input (base_user : UserPage) (model : UserModel) (avatar : option string) : UpdateUserInput :=
  mk_update_user_input (up_id base_user) (changed (up_email base_user) (um_email model))
    (changed (up_display_name base_user) (um_display_name model)) (changed (up_first_name base_user) (um_first_name model))
    (changed (up_last_name base_user) (um_last_name model)) avatar None None.
Definition is_default_input (i : UpdateUserInput) : bool :=
  match i with
  | mk_update_user_input _ None None None None None None None => true
  | _ => false
  end.

(** Source: app/src/components/user_details_form.rs#fn submit_user_update_form *)
Definition submit_user_update_form : user_form_handler bool :=
  let! c := self in
  if negb (user_model_valid (udf_form c)) then slift (bail "Invalid inputs")
  else
    match udf_avatar c with
    | Some (mk_js_file (Some _) None) => slift (bail "Image file hasn't finished loading, try again")
    | avatar =>
        let! avatar := match avatar with
                       | Some a => let! t := slift (to_base64 a) in sret (Some t)
                       | None => sret None
                       end in
        let input := user_input (udf_user c) (udf_form c) avatar in
        if is_default_input input then sret false
        else
          call_backend (CallGraphql (UpdateUser input) "Error trying to update user") UserUpdated ;;
          sret false
    end.

(** The user as the form has it now.
    Source: app/src/components/user_details_form.rs#fn user_update_finished *)
Definition user_update_finished (r : AnyError + Success) : user_form_handler bool :=
  question r ;;
  let! c := self in
  let model := udf_form c in
  let user avatar := mk_user_page (up_id (udf_user c)) (um_email model) (um_display_name model) (um_first_name model)
    (um_last_name model) avatar (up_creation_date (udf_user c)) (up_uuid (udf_user c)) (up_groups (udf_user c)) in
  change_self (set_user (user (up_avatar (udf_user c)))) ;;
  match udf_avatar c with
  | Some a => let! t := slift (to_base64 a) in change_self (set_user (user (Some t)))
  | None => sret tt
  end ;;
  change_self (set_just_updated true) ;;
  sret true.

(** Source: app/src/components/user_details_form.rs#fn handle_msg *)
Definition user_form_handle_msg (msg : UserFormMsg) : user_form_handler bool :=
  match msg with
  | UserFormUpdate => sret true
  | FileSelected new_avatar =>
      let! c := self in
      (if bool_decide ((udf_avatar c ≫= fun f => wf_name <$> jf_file f) <> Some (wf_name new_avatar)) then
         change_self (set_reader (Some new_avatar)) ;;
         change_self (set_avatar (Some (mk_js_file (Some new_avatar) None)))
       else sret tt) ;;
      sret true
  | SubmitClicked => submit_user_update_form
  | ClearAvatarClicked =>
      change_self (set_avatar (Some js_file_default)) ;;
      sret true
  | UserUpdated response => user_update_finished response
  | FileLoaded file_name data =>
      let! c := self in
      match udf_avatar c with
      | Some (mk_js_file (Some file) contents) =>
          if String.eqb (wf_name file) file_name then
            let! data := question data in
            if negb (web_is_valid_jpeg data) then
              change_self (set_avatar None) ;;
              slift (bail "Chosen image is not a valid JPEG")
            else
              change_self (set_avatar (Some (mk_js_file (Some file) (Some data)))) ;;
              sret true
          else change_self (set_reader None) ;; sret false
      | _ => change_self (set_reader None) ;; sret false
      end
  end.

(** Source: app/src/components/user_details_form.rs#fn update *)
Definition user_form_update {E} (msg : UserFormMsg) : stM user_form_page E bool :=
  smodify (fun p => set_com (set_just_updated false (pg_com p)) p) ;;
  update user_form_handle_msg msg.

(** The controls, and the end of a file's reading: its bytes or an error. *)
Inductive UserFormEvent :=
| EditUser (m : UserModel)
| PickFile (f : WebFile)
| ClickClear
| ClickSubmit
| FileRead (failed : option AnyError).

(** A reading that is over does not end a second time.
    Source: app/src/components/user_details_form.rs#L214-L285 *)
Definition user_form_event (ev : UserFormEvent) (shown : Shown UserDetailsForm) (c : UserDetailsForm) :
    option (UserDetailsForm * option UserFormMsg) :=
  match ev with
  | EditUser m => Some (set_form m c, Some UserFormUpdate)
  | PickFile f => Some (c, Some (FileSelected f))
  | ClickClear => if sh_running shown then None else Some (c, Some ClearAvatarClicked)
  | ClickSubmit => if sh_running shown then None else Some (c, Some SubmitClicked)
  | FileRead failed =>
      match udf_reader c with
      | None => None
      | Some f => Some (set_reader None c, Some (FileLoaded (wf_name f)
                    match failed with Some e => inl e | None => inr (wf_bytes f) end))
      end
  end.

(** Source: app/src/components/user_details_form.rs#fn create *)
Definition user_form_create (user : UserPage) : user_form_page :=
  new_page (mk_user_details_form
    (mk_user_model (up_email user) (up_display_name user) (up_first_name user) (up_last_name user)) None None false user).

Definition user_form_component (user : UserPage) : Component Call UserDetailsForm UserFormMsg Effect UserFormEvent := {|
  create := user_form_create user;
  component_update := user_form_update;
  on_event := user_form_event;
|}.
End UserDetailsForm.

(* ------------------------------------------------------------------ *)
(** ** Creating an attribute *)

(** [AttributeType]'s [Display] is the name of the variant.
    Source: app/src/infra/schema.rs#fn fmt *)
Definition web_attribute_type_to_string (t : AttributeType) : string :=
  match t with AString => "String" | AInteger => "Integer" | ADateTime => "DateTime" | AJpegPhoto => "Jpeg" end.
(** Source: app/src/infra/schema.rs#fn from_str *)
Definition web_attribute_type_from_str (value : string) : option AttributeType :=
  if String.eqb value "String" then Some AString
  else if String.eqb value "Integer" then Some AInteger
  else if String.eqb value "DateTime" then Some ADateTime
  else if String.eqb value "Jpeg" then Some AJpegPhoto
  else None.
(** Source: app/src/infra/schema.rs#pub fn validate_attribute_type *)
Definition validate_attribute_type (attribute_type : string) : bool :=
  match web_attribute_type_from_str attribute_type with Some _ => true | None => false end.

Section CreateAttribute.
Context `{OL : OpaqueLib}.

(** The form is the component's only field.
    Source: app/src/components/create_user_attribute.rs#pub struct CreateUserAttributeModel *)
Record UserAttributeModel := mk_user_attribute_model {
  uam_attribute_name : string;
  uam_attribute_type : string;
  uam_is_editable : bool;
  uam_is_list : bool;
  uam_is_visible : bool;
}.
Definition user_attribute_model_valid (m : UserAttributeModel) : bool :=
  length_min 1 (uam_attribute_name m) && validate_attribute_type (uam_attribute_type m).

(** Source: app/src/components/create_user_attribute.rs#pub enum Msg *)
Inductive UserAttributeMsg := UserAttributeUpdate | UserAttributeSubmit | CreateUserAttributeResponse (r : AnyError + Success).
Abbreviation user_attribute_page := (Page Call UserAttributeModel UserAttributeMsg Effect).

(** Source: app/src/components/create_user_attribute.rs#fn handle_msg *)
Definition user_attribute_handle_msg (msg : UserAttributeMsg) : stM user_attribute_page AnyError bool :=
  match msg with
  | UserAttributeUpdate => sret true
  | UserAttributeSubmit =>
      let! model := self in
      if negb (user_attribute_model_valid model) then slift (bail "Check the form for errors")
      else if uam_is_editable model && negb (uam_is_visible model) then
        slift (bail "Editable attributes must also be visible")
      else
        let! attribute_type := slift (expect "called `Result::unwrap()` on an `Err` value"
                                 (web_attribute_type_from_str (uam_attribute_type model))) in
        call_backend (CallGraphql (CreateUserAttribute (uam_attribute_name model) attribute_type (uam_is_list model)
          (uam_is_visible model) (uam_is_editable model)) "Error trying to create user attribute") CreateUserAttributeResponse ;;
        sret true
  | CreateUserAttributeResponse response =>
      question response ;;
      output (PushRoute RouteListUserSchema) ;;
      sret true
  end.

Inductive UserAttributeEvent := EditUserAttribute (m : UserAttributeModel) | ClickUserAttribute.
(** Source: app/src/components/create_user_attribute.rs#L126-L162 *)
Definition user_attribute_event (ev : UserAttributeEvent) (shown : Shown UserAttributeModel) (c : UserAttributeModel) :
    option (UserAttributeModel * option UserAttributeMsg) :=
  match ev with
  | EditUserAttribute m => Some (m, Some UserAttributeUpdate)
  | ClickUserAttribute => if sh_running shown then None else Some (c, Some UserAttributeSubmit)
  end.

(** Source: app/src/components/create_user_attribute.rs#fn create *)
Definition user_attribute_create : user_attribute_page := new_page (mk_user_attribute_model "" "String" false false false).

#[export] Instance user_attribute_component : Component Call UserAttributeModel UserAttributeMsg Effect UserAttributeEvent := {|
  create := user_attribute_create;
  component_update := update user_attribute_handle_msg;
  on_event := user_attribute_event;
|}.

(** Source: app/src/components/create_group_attribute.rs#pub struct CreateGroupAttributeModel *)
Record GroupAttributeModel := mk_group_attribute_model {
  gam_attribute_name : string;
  gam_attribute_type : string;
  gam_is_list : bool;
  gam_is_visible : bool;
}.
Definition group_attribute_model_valid (m : GroupAttributeModel) : bool :=
  length_min 1 (gam_attribute_name m) && validate_attribute_type (gam_attribute_type m).

(** Source: app/src/components/create_group_attribute.rs#pub enum Msg *)
Inductive GroupAttributeMsg := GroupAttributeUpdate | GroupAttributeSubmit | CreateGroupAttributeResponse (r : AnyError + Success).
Abbreviation group_attribute_page := (Page Call GroupAttributeModel GroupAttributeMsg Effect).

(** Source: app/src/components/create_group_attribute.rs#fn handle_msg *)
Definition group_attribute_handle_msg (msg : GroupAttributeMsg) : stM group_attribute_page AnyError bool :=
  match msg with
  | GroupAttributeUpdate => sret true
  | GroupAttributeSubmit =>
      let! model := self in
      if negb (group_attribute_model_valid model) then slift (bail "Check the form for errors")
      else
        let! attribute_type := slift (expect "called `Result::unwrap()` on an `Err` value"
                                 (web_attribute_type_from_str (gam_attribute_type model))) in
        call_backend (CallGraphql (CreateGroupAttribute (gam_attribute_name model) attribute_type (gam_is_list model)
          (gam_is_visible model)) "Error trying to create group attribute") CreateGroupAttributeResponse ;;
        sret true
  | CreateGroupAttributeResponse response =>
      question response ;;
      output (PushRoute RouteListGroupSchema) ;;
      sret true
  end.

Inductive GroupAttributeEvent := EditGroupAttribute (m : GroupAttributeModel) | ClickGroupAttribute.
(** Source: app/src/components/create_group_attribute.rs#L126-L155 *)
Definition group_attribute_event (ev : GroupAttributeEvent) (shown : Shown GroupAttributeModel) (c : GroupAttributeModel) :
    option (GroupAttributeModel * option GroupAttributeMsg) :=
  match ev with
  | EditGroupAttribute m => Some (m, Some GroupAttributeUpdate)
  | ClickGroupAttribute => if sh_running shown then None else Some (c, Some GroupAttributeSubmit)
  end.

(** Source: app/src/components/create_group_attribute.rs#fn create *)
Definition group_attribute_create : group_attribute_page := new_page (mk_group_attribute_model "" "String" false false).

#[export] Instance group_attribute_component :
  Component Call GroupAttributeModel GroupAttributeMsg Effect GroupAttributeEvent := {|
  create := group_attribute_create;
  component_update := update group_attribute_handle_msg;
  on_event := group_attribute_event;
|}.
End CreateAttribute.
