(* ===== verification/WebPages.v ===== *)
(** * The pages of the directory never panic

    The invariants of the components of [WebDirectory] and [WebEdit], and the theorem
    on all the components of the web page; the buttons that are not guarded, and the
    pages that show what is not so. *)

From S2P Require Import Prelude RustStd Extern Types Concrete Handler Deserialize Db ExampleDb SqlFilters SqlSchema SqlUser SqlGroup SqlBackend SqlTcp SqlOpaque AccessControl LdapHandler LdapSql AuthService AuthSession Clients GraphqlQuery GraphqlMutation WebPage WebApi WebApp WebForms WebSafety WebDirectory WebEdit.
From Stdlib Require Import Ascii String.
From stdpp Require Import strings list gmap.
#[local] Open Scope rust_scope.
#[local] Open Scope string_scope.

Section DeleteDialog.
Context `{OL : OpaqueLib} (query : Query Success) (error_message : string) (deleted : Effect).

(** The deletion is confirmed while the request of the first confirmation runs: the dialog
    that fades away has its buttons still. *)
Definition confirms_again (ev : DeleteEvent) (p : Page Call (option Modal) DeleteMsg Effect) : bool :=
  match ev with ClickConfirm => pg_running p | _ => false end.

Lemma delete_rule :
  page_rule_but (CP := delete_component query error_message deleted) confirms_again (fun p => is_Some (pg_com p)).
Proof.
  assert (Hdel : forall m p, is_Some (pg_com p) -> (pg_running p = true -> m = ClickedDelete \/ m = DismissModal) ->
    delivers (CP := delete_component query error_message deleted) (fun p => is_Some (pg_com p)) m p).
  { intros m p [md Hm] Hr. assert (Hr' : pg_running p = false \/ m = ClickedDelete \/ m = DismissModal) by (destruct (pg_running p); auto).
    clear Hr. unfold delivers. cbn [component_update delete_component].
    destruct m; wp; cbn in *; simplify_eq; try done; try (by eexists); destruct Hr' as [?|[?|?]]; done. }
  constructor.
  - intros m. apply one_request_update_report. intros m'. unfold delete_handle_msg, on_modal. stm.
  - done.
  - by eexists.
  - done.
  - intros p ev c m [md Hm] H1 Hev. cbn [on_event delete_component] in Hev. unfold delete_event in Hev. rewrite Hm in Hev.
    assert (Hcm : c = Some md /\ (m = ConfirmDelete /\ ev = ClickConfirm \/ (m = ClickedDelete \/ m = DismissModal) /\ ev <> ClickConfirm)).
    { destruct ev, md; try destruct (sh_running _); cbn in Hev; simplify_eq; naive_solver. }
    destruct Hcm as [-> [[-> ->]|[Hd Hev']]].
    + cbn. destruct (pg_running p) eqn:Hp; [|apply Hdel; cbn; [by eexists|congruence]].
      intros p'. unfold deliver. cbn [component_update delete_component]. unfold update_and_report_error, update, delete_handle_msg, on_modal, self,
        put_self, output, call_backend, sbind, stry, smodify, sget, slift. cbn. by rewrite Hp.
    + destruct (confirms_again ev p) eqn:Hc; [by destruct ev|]. apply Hdel; [by eexists|done].
  - intros p ev c [md Hm]. cbn [on_event delete_component]. unfold delete_event. rewrite Hm.
    destruct ev, md; try destruct (sh_running _); cbn; intros; simplify_eq; by eexists.
  - intros p R c cb answer Hm Hf Hr. by apply Hdel.
Qed.
End DeleteDialog.

Section Members.
Context `{OL : OpaqueLib} (group_id : GroupId) (users : list Member).

Lemma nth_child_some children i :
  children <> [] -> is_Some (get_nth_child_props children (selected_index (length children) i)).
Proof.
  intros Hc. unfold get_nth_child_props, selected_index.
  assert (Hl : length children <> 0%nat) by by destruct children.
  destruct (Nat.eqb_spec (length children) 0) as [|_]; [done|].
  destruct (Z.eqb_spec (Z.of_nat (i mod length children)) (-1)); [lia|]. rewrite Nat2Z.id.
  destruct (nth_error _ _) eqn:Hn; [by eexists|]. apply nth_error_None in Hn.
  pose proof (Nat.mod_upper_bound i (length children) Hl). lia.
Qed.

(** The users that can be chosen do not change once they are there, one is chosen only if
    there is one, and an addition runs only when one is chosen. *)
Definition choosable (c : AddGroupMemberComponent) : Prop :=
  exists l, am_user_list c = Some l /\ get_selectable_user_list users l <> [].
Definition add_member_expected (c : AddGroupMemberComponent) (m : AddMemberMsg) : Prop :=
  match m with
  | UserListResponse _ => am_user_list c = None
  | AddMemberResponse _ => is_Some (am_selected_user c)
  | _ => False
  end.
Definition add_member_inv (p : Page Call AddGroupMemberComponent AddMemberMsg Effect) : Prop :=
  locked p /\ awaits add_member_expected p
  /\ (forall l, am_user_list (sh_com (pg_shown p)) = Some l -> am_user_list (pg_com p) = Some l)
  /\ (is_Some (am_selected_user (pg_com p)) -> choosable (pg_com p)).

Lemma add_member_rule : page_rule (CP := add_member_component group_id users) add_member_inv.
Proof.
  constructor.
  - intros m. apply one_request_update_report. intros m'. unfold add_member_handle_msg, submit_add_member. stm.
  - done.
  - split_and!; [auto|by apply Forall_singleton|done|by intros []].
  - intros p (H & Ha & Hs & Hc). split_and!; [auto|done|by intros l|done].
  - intros p ev c m (HI & Ha & Hs & Hc) H1 Hev. unfold delivers. cbn [component_update on_event add_member_component] in *.
    unfold add_member_event in Hev. destruct (am_user_list (sh_com (pg_shown p))) as [l|] eqn:Hl; [|done].
    specialize (Hs l eq_refl). destruct ev as [i|].
    + injection Hev as <- <-. set (o := get_nth_child_props _ _).
      assert (Hex : forall fu : Future Call AddMemberMsg, (forall a, add_member_expected (pg_com p) (fu_callback fu a)) -> forall a,
        add_member_expected (mk_add_member (Some l) (option_map (fun u => mk_member (so_value u) (so_text u)) o)) (fu_callback fu a)).
      { intros fu Hf a. specialize (Hf a). destruct (fu_callback fu a); cbn in *; [congruence|done| |done].
        destruct (Hc Hf) as (l' & Hl' & Hne). assert (is_Some o) as [? ->]; [|by eexists].
        unfold o. apply nth_child_some. intros H%map_eq_nil. naive_solver. }
      assert (Hch : is_Some (option_map (fun u => mk_member (so_value u) (so_text u)) o) ->
        choosable (mk_add_member (Some l) (option_map (fun u => mk_member (so_value u) (so_text u)) o))).
      { intros Ho. exists l. split; [done|]. intros Hn. revert Ho. unfold o. rewrite Hn. cbn. by intros []. }
      wp; cbn in *; try discriminate; rewrite ?Hs in *; destruct (negb _); unfold add_member_inv, locked, awaits; cbn; rewrite ?Hl; cbn; split_and!; try done;
        try (by intros; simplify_eq); by eapply Forall_impl; [exact Ha|].
    + destruct (bool_decide_reflect (am_selected_user (sh_com (pg_shown p)) = None)); [done|]. cbn in Hev.
      destruct (sh_running _) eqn:Hsh; [done|]. injection Hev as <- <-.
      pose proof (unlocked_idle p HI Hsh) as Hp. pose proof (idle_futures p H1 Hp) as Hfu.
      wp; cbn in *; try discriminate; unfold add_member_inv, locked, awaits; cbn; rewrite ?Hfu, ?Hp; cbn; try split_and!; try done.
      all: try (apply Forall_singleton; intros a; cbn; by eexists); naive_solver.
  - intros p ev c _. cbn [on_event add_member_component]. unfold add_member_event.
    destruct (am_user_list _); [|done]. destruct ev; [done|]. by destruct (_ || _).
  - intros p R c cb answer (HI & Ha & Hs & Hc) Hf Hr. unfold delivers. cbn [component_update add_member_component].
    unfold awaits in Ha. rewrite Hf, Forall_singleton in Ha. specialize (Ha answer). cbn in Ha.
    destruct (cb answer); try done; wp; cbn in *; try (destruct Ha; congruence).
    all: unfold add_member_inv, locked, awaits; cbn; split_and!; try done; try constructor; try naive_solver.
    all: intros Hsel; destruct (Hc Hsel) as (? & ? & _); congruence.
Qed.
End Members.

Section UserGroups.
Context `{OL : OpaqueLib} (username : string) (groups : list WebGroup).

(** The group that is chosen has an id that is not an [i64]: its text is not parsed back.
    A type of the code keeps that out, [GroupId] of the model does not. *)
Definition chooses_beyond_i64 (ev : AddUserEvent) (p : Page Call AddUserToGroupComponent AddUserMsg Effect) : bool :=
  match ev, au_group_list (sh_com (pg_shown p)) with
  | SelectGroup i, Some l =>
      let children := map make_select_option (get_selectable_group_list groups l) in
      match get_nth_child_props children (selected_index (length children) i) with
      | Some o => bool_decide (parse_i64 (so_value o) = None)
      | None => false
      end
  | _, _ => false
  end.

Definition group_choosable (c : AddUserToGroupComponent) : Prop :=
  exists l, au_group_list c = Some l /\ get_selectable_group_list groups l <> [].
Definition add_user_expected (c : AddUserToGroupComponent) (m : AddUserMsg) : Prop :=
  match m with
  | GroupListResponse _ => au_group_list c = None
  | AddGroupResponse _ => is_Some (au_selected_group c)
  | _ => False
  end.
Definition add_user_inv (p : Page Call AddUserToGroupComponent AddUserMsg Effect) : Prop :=
  locked p /\ awaits add_user_expected p
  /\ (forall l, au_group_list (sh_com (pg_shown p)) = Some l -> au_group_list (pg_com p) = Some l)
  /\ (is_Some (au_selected_group (pg_com p)) -> group_choosable (pg_com p)).

Lemma add_user_rule : page_rule_but (CP := add_user_component username groups) chooses_beyond_i64 add_user_inv.
Proof.
  constructor.
  - intros m. apply one_request_update_report. intros m'. unfold add_user_handle_msg, submit_add_group. stm.
  - done.
  - split_and!; [auto|by apply Forall_singleton|done|by intros []].
  - intros p (H & Ha & Hs & Hc). split_and!; [auto|done|by intros l|done].
  - intros p ev c m (HI & Ha & Hs & Hc) H1 Hev. unfold delivers. cbn [component_update on_event add_user_component] in *.
    unfold add_user_event in Hev. unfold chooses_beyond_i64. destruct (au_group_list (sh_com (pg_shown p))) as [l|] eqn:Hl; [|done].
    specialize (Hs l eq_refl). destruct ev as [i|].
    + injection Hev as <- <-. set (o := get_nth_child_props _ _).
      assert (Hok : forall sel, match o with
                   | None => sel = None
                   | Some x => exists id, parse_i64 (so_value x) = Some id /\ sel = Some (mk_web_group id (so_text x))
                   end -> add_user_inv (render (set_com (mk_add_user (Some l) sel) p))
                   /\ (negb (Bool.eqb (bool_decide (is_Some sel)) (bool_decide (is_Some (au_selected_group (pg_com p))))) = false ->
                        add_user_inv (set_com (mk_add_user (Some l) sel) p))).
      { intros sel Hsel. assert (Hso : is_Some sel <-> is_Some o) by (destruct o; [destruct Hsel as (? & _ & ->)|rewrite Hsel]; naive_solver).
        assert (Hch : is_Some sel -> group_choosable (mk_add_user (Some l) sel)).
        { intros Ho%Hso. exists l. split; [done|]. intros Hn. revert Ho. unfold o. rewrite Hn. cbn. by intros []. }
        assert (Hex : Forall (fun fu => forall a, add_user_expected (mk_add_user (Some l) sel) (fu_callback fu a)) (pg_futures p)).
        { eapply Forall_impl; [exact Ha|]. intros fu Hf a. specialize (Hf a). destruct (fu_callback fu a); cbn in *; [congruence|done| |done].
          apply Hso. destruct (Hc Hf) as (l' & Hl' & Hne). unfold o. apply nth_child_some. intros H%map_eq_nil. naive_solver. }
        split; intros; unfold add_user_inv, locked, awaits; cbn; rewrite ?Hl; cbn; split_and!; try done; by intros; simplify_eq. }
      clearbody o. destruct o as [x|].
      * destruct (parse_i64 (so_value x)) as [id|] eqn:Hid.
        -- destruct (Hok _ (ex_intro _ id (conj eq_refl eq_refl))) as [H H'].
           rewrite bool_decide_false by congruence. wp; cbn in *; rewrite ?Hs in *; simplify_eq; try done. all: destruct (negb _) eqn:Hn; auto.
        -- rewrite bool_decide_true by done. intros p'. unfold deliver.
           cbn [component_update add_user_component]. unfold update_and_report_error, update, add_user_handle_msg, self,
             sbind, stry, smodify, sget, slift. cbn. rewrite Hid. done.
      * destruct (Hok None eq_refl) as [H H']. wp; cbn in *; rewrite ?Hs in *; simplify_eq; try done. all: destruct (negb _) eqn:Hn; auto.
    + destruct (bool_decide_reflect (au_selected_group (sh_com (pg_shown p)) = None)); [done|]. cbn in Hev.
      destruct (sh_running _) eqn:Hsh; [done|]. injection Hev as <- <-.
      pose proof (unlocked_idle p HI Hsh) as Hp. pose proof (idle_futures p H1 Hp) as Hfu.
      wp; cbn in *; try discriminate; unfold add_user_inv, locked, awaits; cbn; rewrite ?Hfu, ?Hp; cbn; try split_and!; try done.
      all: try (apply Forall_singleton; intros a; cbn; by eexists); naive_solver.
  - intros p ev c _. cbn [on_event add_user_component]. unfold add_user_event.
    destruct (au_group_list _); [|done]. destruct ev; [done|]. by destruct (_ || _).
  - intros p R c cb answer (HI & Ha & Hs & Hc) Hf Hr. unfold delivers. cbn [component_update add_user_component].
    unfold awaits in Ha. rewrite Hf, Forall_singleton in Ha. specialize (Ha answer). cbn in Ha.
    destruct (cb answer); try done; wp; cbn in *; try (destruct Ha; congruence).
    all: unfold add_user_inv, locked, awaits; cbn; split_and!; try done; try constructor; try naive_solver.
    all: intros Hsel; destruct (Hc Hsel) as (? & ? & _); congruence.
Qed.
End UserGroups.

Section Others.
Context `{OL : OpaqueLib}.

Lemma remove_user_rule username group_id : page_rule (CP := remove_user_component username group_id) locked.
Proof.
  constructor; [|done|auto|auto|..].
  - intros m. apply one_request_update_report. intros m'. unfold remove_user_handle_msg. stm.
  - intros p ev c m HI H1 Hev. unfold delivers. cbn [component_update on_event remove_user_component] in *.
    unfold remove_user_event in Hev. destruct (sh_running _) eqn:Hs; [done|]. injection Hev as <- <-.
    pose proof (unlocked_idle p HI Hs) as Hp. wp; cbn in *; rewrite ?Hp; page_leaf.
  - intros p ev c HI. cbn [on_event remove_user_component]. unfold remove_user_event. by destruct (sh_running _).
  - intros p R c cb answer HI Hf Hr. unfold delivers. cbn [component_update remove_user_component].
    destruct (cb answer); wp; cbn in *; page_leaf.
Qed.

(** A page that fetches its data when it is created: the children that send messages are
    there once the data is, and then no request runs. *)
Definition fetched {Com Msg} (answer : Msg -> Prop) (p : Page Call (option Com) Msg Effect) : Prop :=
  (is_Some (sh_com (pg_shown p)) -> is_Some (pg_com p)) /\ (is_Some (pg_com p) -> pg_running p = false)
  /\ awaits (fun _ => answer) p.
Lemma fetched_idle {Com Msg} (answer : Msg -> Prop) (p : Page Call (option Com) Msg Effect) c :
  one_request p -> fetched answer p -> sh_com (pg_shown p) = Some c ->
  exists c', pg_com p = Some c' /\ pg_running p = false /\ pg_futures p = [].
Proof.
  intros H1 (Hs & Hc & _) H. rewrite H in Hs. destruct Hs as [c' Hc']; [by eexists|]. exists c'. split; [done|].
  assert (Hp : pg_running p = false) by (apply Hc; by rewrite Hc'). split; [done|]. by apply idle_futures.
Qed.
Lemma fetched_answer {Com Msg R} (answer : Msg -> Prop) (p : Page Call (option Com) Msg Effect) (c : Call R) cb a :
  fetched answer p -> pg_futures p = [mk_future c cb] -> answer (cb a).
Proof. intros (_ & _ & H) Hf. unfold awaits in H. rewrite Hf, Forall_singleton in H. apply H. Qed.

Lemma user_details_rule text username :
  page_rule (CP := user_details_component text username) (fetched (fun m => match m with UserDetailsResponse _ => True | _ => False end)).
Proof.
  constructor; [|done|by split_and!; [intros []|intros []|apply Forall_singleton]| | | |].
  - intros m. apply one_request_update. intros m'. unfold user_details_handle_msg, change_groups. stm.
  - intros p (_ & H & Ha). by split_and!.
  - intros p ev c m HI H1 Hev. unfold delivers. cbn [component_update on_event user_details_component] in *.
    unfold user_details_event in Hev. destruct (sh_com (pg_shown p)) as [u|] eqn:Hu; [|done]. injection Hev as <- <-.
    destruct (fetched_idle _ p u H1 HI Hu) as (u' & Hu' & Hp & Hf).
    destruct ev; wp; cbn in *; simplify_eq; unfold fetched, awaits; cbn; rewrite ?Hp, ?Hf; page_leaf.
  - intros p ev c _. cbn [on_event user_details_component]. unfold user_details_event. by destruct (sh_com _).
  - intros p R c cb answer HI Hf Hr. unfold delivers. cbn [component_update user_details_component].
    pose proof (fetched_answer _ p c cb answer HI Hf) as Ha. destruct (cb answer) as [[]| | |]; try done.
    all: wp; cbn in *; unfold fetched, awaits; cbn; page_leaf.
Qed.

Lemma group_details_rule text group_id :
  page_rule (CP := group_details_component text group_id) (fetched (fun m => match m with GroupDetailsResponse _ => True | _ => False end)).
Proof.
  constructor; [|done|by split_and!; [intros []|intros []|apply Forall_singleton]| | | |].
  - intros m. apply one_request_update. intros m'. unfold group_details_handle_msg, change_users. stm.
  - intros p (_ & H & Ha). by split_and!.
  - intros p ev c m HI H1 Hev. unfold delivers. cbn [component_update on_event group_details_component] in *.
    unfold group_details_event in Hev. destruct (sh_com (pg_shown p)) as [u|] eqn:Hu; [|done]. injection Hev as <- <-.
    destruct (fetched_idle _ p u H1 HI Hu) as (u' & Hu' & Hp & Hf).
    destruct ev; wp; cbn in *; simplify_eq; unfold fetched, awaits; cbn; rewrite ?Hp, ?Hf; page_leaf.
  - intros p ev c _. cbn [on_event group_details_component]. unfold group_details_event. by destruct (sh_com _).
  - intros p R c cb answer HI Hf Hr. unfold delivers. cbn [component_update group_details_component].
    pose proof (fetched_answer _ p c cb answer HI Hf) as Ha. destruct (cb answer) as [[]| | |]; try done.
    all: wp; cbn in *; unfold fetched, awaits; cbn; page_leaf.
Qed.

Lemma table_rule {Row K} `{!EqDecision K} (query : Query (list Row)) message (key : Row -> K) not_loaded :
  page_rule (CP := table_component query message key not_loaded) (fetched (fun m => match m with ListResponse _ => True | _ => False end)).
Proof.
  constructor; [|done|by split_and!; [intros []|intros []|apply Forall_singleton]| | | |].
  - intros m. apply one_request_update. intros m'. unfold table_handle_msg. stm.
  - intros p (_ & H & Ha). by split_and!.
  - intros p ev c m HI H1 Hev. unfold delivers. cbn [component_update on_event table_component] in *.
    unfold table_event in Hev. destruct (sh_com (pg_shown p)) as [u|] eqn:Hu; [|done]. injection Hev as <- <-.
    destruct (fetched_idle _ p u H1 HI Hu) as (u' & Hu' & Hp & Hf).
    destruct ev; wp; cbn in *; simplify_eq; unfold fetched, awaits; cbn; rewrite ?Hp, ?Hf; page_leaf.
  - intros p ev c _. cbn [on_event table_component]. unfold table_event. by destruct (sh_com _).
  - intros p R c cb answer HI Hf Hr. unfold delivers. cbn [component_update table_component].
    pose proof (fetched_answer _ p c cb answer HI Hf) as Ha. destruct (cb answer); try done.
    wp; cbn in *; unfold fetched, awaits; cbn; page_leaf.
Qed.
End Others.

Section AttributeForms.
Context `{OL : OpaqueLib}.

(** The type of a valid form is one: [unwrap] does not panic. *)
Lemma valid_type_parses b t : negb (b && validate_attribute_type t) = false -> web_attribute_type_from_str t <> None.
Proof. unfold validate_attribute_type. destruct (web_attribute_type_from_str t); [done|]. by rewrite andb_false_r. Qed.

Lemma user_attribute_rule : page_rule (CP := user_attribute_component) locked.
Proof.
  assert (Hall : forall m p, pg_running p = false -> delivers (CP := user_attribute_component) locked m p).
  { intros m p Hp. unfold delivers. cbn [component_update user_attribute_component].
    destruct m; wp; cbn in *; try rewrite Hp; try page_leaf. by eapply valid_type_parses. }
  constructor; [|done|auto|auto|..].
  - intros m. apply one_request_update. intros m'. unfold user_attribute_handle_msg. stm.
  - intros p ev c m HI H1 Hev. cbn [on_event user_attribute_component] in Hev.
    unfold user_attribute_event in Hev. destruct ev; [|destruct (sh_running _) eqn:Hs; [done|]]; injection Hev as <- <-.
    + unfold delivers. cbn [component_update user_attribute_component]. wp. apply locked_render.
    + by apply Hall, unlocked_idle.
  - intros p ev c HI. cbn [on_event user_attribute_component]. unfold user_attribute_event. by destruct ev; [|destruct (sh_running _)].
  - intros p R c cb answer HI Hf Hr. by apply Hall.
Qed.

Lemma group_attribute_rule : page_rule (CP := group_attribute_component) locked.
Proof.
  assert (Hall : forall m p, pg_running p = false -> delivers (CP := group_attribute_component) locked m p).
  { intros m p Hp. unfold delivers. cbn [component_update group_attribute_component].
    destruct m; wp; cbn in *; try rewrite Hp; try page_leaf. by eapply valid_type_parses. }
  constructor; [|done|auto|auto|..].
  - intros m. apply one_request_update. intros m'. unfold group_attribute_handle_msg. stm.
  - intros p ev c m HI H1 Hev. cbn [on_event group_attribute_component] in Hev.
    unfold group_attribute_event in Hev. destruct ev; [|destruct (sh_running _) eqn:Hs; [done|]]; injection Hev as <- <-.
    + unfold delivers. cbn [component_update group_attribute_component]. wp. apply locked_render.
    + by apply Hall, unlocked_idle.
  - intros p ev c HI. cbn [on_event group_attribute_component]. unfold group_attribute_event. by destruct ev; [|destruct (sh_running _)].
  - intros p R c cb answer HI Hf Hr. by apply Hall.
Qed.
End AttributeForms.

Section UserForm.
Context `{OL : OpaqueLib} `{V : ValidatorLib} `{IL : ImageLib} `{B6 : Base64} (user : UserPage).

(** The details are saved, or a picture is read to its end, while a request runs. *)
Definition saves_again (ev : UserFormEvent) (p : Page Call UserDetailsForm UserFormMsg Effect) : bool :=
  match ev with ClickSubmit | FileRead _ => pg_running p | _ => false end.
Definition only_updates : Page Call UserDetailsForm UserFormMsg Effect -> Prop :=
  awaits (fun _ m => match m with UserUpdated _ => True | _ => False end).

Lemma only_updates_run m : preserves only_updates (user_form_update (E := Empty_set) m).
Proof.
  assert (Hput : forall c, preserves only_updates (put_self c)) by by intros c p.
  assert (Hself : preserves only_updates self) by by intros p.
  assert (Hset : forall e, preserves only_updates (smodify (E := Empty_set) (set_error e))) by by intros e p.
  assert (Hcall : forall c, preserves only_updates (call_backend (E := AnyError) c UserUpdated)).
  { intros c p Hp. unfold call_backend, sbind, sget, slift, assert_. destruct (pg_running p); cbn; [done|].
    unfold only_updates, awaits. cbn. apply Forall_app. split; [exact Hp|by apply Forall_singleton]. }
  assert (Hq : forall r : AnyError + Success, preserves only_updates (question r)) by by intros [] p.
  assert (Hq' : forall r : AnyError + bytes, preserves only_updates (question r)) by by intros [] p.
  unfold user_form_update, update. apply preserves_bind; [by intros p|intros _].
  apply preserves_bind; [done|intros _]. apply preserves_bind; [|stm]. apply preserves_try.
  unfold user_form_handle_msg, submit_user_update_form, user_update_finished, change_self. stm.
Qed.

Lemma wp_to_base64 f Q (p : Page Call UserDetailsForm UserFormMsg Effect) :
  (forall t, Q (inr t) p) -> (forall e, Q (inl e) p) -> wp (slift (to_base64 f)) Q p.
Proof.
  intros H H'. unfold wp, slift, to_base64. destruct f as [[f|] [d|]]; cbn; try apply H; try apply H'.
  destruct (negb _); [apply H'|apply H].
Qed.

Lemma user_form_rule : page_rule_but (CP := user_form_component user) saves_again only_updates.
Proof.
  assert (Hdel : forall m p, only_updates p ->
    (pg_running p = true -> match m with UserFormUpdate | FileSelected _ | ClearAvatarClicked => True | _ => False end) ->
    delivers (CP := user_form_component user) only_updates m p).
  { intros m p Hp Hr.
    assert (Hw : wp (user_form_update (E := Empty_set) m) (fun r _ => match r with inr _ => True | inl _ => False end) p).
    { unfold user_form_update. destruct (pg_running p) eqn:Hrun; destruct m; try (by destruct Hr);
        repeat first [apply wp_to_base64; intros|wp_step]; cbn; try done. }
    pose proof (only_updates_run m p Hp) as Hu. unfold delivers, wp in *. cbn [component_update user_form_component].
    destruct (user_form_update m p) as [[b|e|]]; [|done..]. cbn in Hu. by destruct b. }
  constructor.
  - intros m. cbn [component_update user_form_component]. unfold user_form_update.
    apply preserves_bind; [by apply preserves_modify|intros _]. apply one_request_update. intros m'.
    unfold user_form_handle_msg, submit_user_update_form, user_update_finished, change_self. stm.
  - done.
  - constructor.
  - done.
  - intros p ev c m Hp H1 Hev. destruct (saves_again ev p) eqn:Hs.
    + intros p'. unfold deliver. cbn [component_update user_form_component]. pose proof (only_updates_run m (set_com c p) Hp) as Hu.
      destruct (user_form_update m _) as [[b|[]|]]; [|done]. intros [= <-]. by destruct b.
    + apply Hdel; [done|]. cbn [on_event user_form_component] in Hev. unfold user_form_event in Hev.
      destruct ev; try destruct (sh_running _); try destruct (udf_reader _); simplify_eq; cbn in *; try done; congruence.
  - intros p ev c Hp Hev. done.
  - intros p R c cb answer Hp Hf Hr. unfold only_updates, awaits in Hp. rewrite Hf, Forall_singleton in Hp. specialize (Hp answer). cbn in Hp.
    apply Hdel; [constructor|done].
Qed.
End UserForm.

(* ------------------------------------------------------------------ *)
(** ** All the pages *)

Section Pages.
Context `{OL : OpaqueLib} `{V : ValidatorLib} `{IL : ImageLib} `{B6 : Base64}.

(** C20. The components of the page panic only where four of them are not guarded.  The
    login, the change of a password, the two pages of its reset, the creation of a user,
    a group and an attribute, the choice of a new member, the removal from a group, the
    details of a user and of a group and the tables never do: whatever the user does with
    the controls that are shown and whatever is answered, none of the assertions and
    [unwrap]s of their handlers fails, and at most one request of a component runs at a
    time.  Of the others that send requests: the dialogs that delete panic only when the
    deletion is confirmed again while its request runs, before they have faded; the form
    of a user's details only when it is saved, or a picture is read to its end, while a
    request runs; the choice of a group to add a user to only when the id of the chosen
    group is not an [i64].  The button of the logout, whose second click panics while the
    request of the first one runs, is not covered. *)
Theorem pages_never_panic rng username is_admin token (query : Query Success) message deleted group_id users text groups user :
  page_safe (login_component rng) /\ page_safe (password_component rng username is_admin)
  /\ page_safe reset_step1_component /\ page_safe (reset_step2_component rng token)
  /\ page_safe (create_user_component rng) /\ page_safe create_group_component
  /\ page_safe user_attribute_component /\ page_safe group_attribute_component
  /\ page_safe (add_member_component group_id users) /\ page_safe (remove_user_component username group_id)
  /\ page_safe (user_details_component text username) /\ page_safe (group_details_component text group_id)
  /\ page_safe user_table /\ page_safe group_table /\ page_safe user_schema_table /\ page_safe group_schema_table
  /\ panics_only confirms_again (delete_component query message deleted)
  /\ panics_only saves_again (user_form_component user)
  /\ panics_only (chooses_beyond_i64 groups) (add_user_component username groups).
Proof.
  split_and!.
  - apply (rule_safe _ _ (login_rule rng)).
  - apply (rule_safe _ _ (password_rule rng username is_admin)).
  - apply (rule_safe _ _ reset_step1_rule).
  - apply (rule_safe _ _ (reset_step2_rule rng token)).
  - apply (rule_safe _ _ (create_user_rule rng)).
  - apply (rule_safe _ _ create_group_rule).
  - apply (rule_safe _ _ user_attribute_rule).
  - apply (rule_safe _ _ group_attribute_rule).
  - apply (rule_safe _ _ (add_member_rule group_id users)).
  - apply (rule_safe _ _ (remove_user_rule username group_id)).
  - apply (rule_safe _ _ (user_details_rule text username)).
  - apply (rule_safe _ _ (group_details_rule text group_id)).
  - apply (rule_safe _ _ (table_rule _ _ _ _)).
  - apply (rule_safe _ _ (table_rule _ _ _ _)).
  - apply (rule_safe _ _ (table_rule _ _ _ _)).
  - apply (rule_safe _ _ (table_rule _ _ _ _)).
  - apply (rule_but_safe _ _ _ (delete_rule query message deleted)).
  - apply (rule_but_safe _ _ _ (user_form_rule user)).
  - apply (rule_but_safe _ _ _ (add_user_rule username groups)).
Qed.

Definition can_panic {Call Com Msg Out Event} (CP : Component Call Com Msg Out Event) : Prop :=
  exists (p : Page Call Com Msg Out) m, reachable p /\ step p (Panic m).

Lemma reach_fire {Call Com Msg Out Event} (CP : Component Call Com Msg Out Event) (p : Page Call Com Msg Out) ev p' :
  reachable p -> fire ev p = Some (Ok p') -> reachable p'.
Proof. intros Hp Hf. eapply reach_step; [exact Hp|]. by eapply step_event. Qed.

(** The button of the logout is never disabled: a second click while the request of the
    first one runs. *)
Theorem logout_twice_panics {S} `{BR : !Browser S} `{PL : !PageLib} browser : can_panic (logout_component browser).
Proof.
  do 2 eexists. split.
  - eapply (reach_fire (logout_component browser) _ tt); [apply reach_create|reflexivity].
  - apply (step_event (CP := logout_component browser) tt). reflexivity.
Qed.

(** The dialog that deletes fades away while the request runs, and its buttons still do
    what they say: a double click on the confirmation. *)
Theorem delete_twice_panics (query : Query Success) message deleted : can_panic (delete_component query message deleted).
Proof.
  set (page := fun m f r (l : list Effect) seen =>
    mk_page (Some m) None r f (mk_shown (Some seen) None r) 0 l : Page Call (option Modal) DeleteMsg Effect).
  set (run := [mk_future (CallGraphql query message) DeleteResponse]).
  exists (page ModalHiding run true [ShowModal; HideModal] ModalHiding). eexists. split.
  - apply (reach_fire (delete_component query message deleted) (page ModalShown [] false [ShowModal] ModalShowing) ClickConfirm); [|reflexivity].
    apply (reach_fire (delete_component query message deleted) (page ModalShowing [] false [ShowModal] ModalShowing) TransitionEnd); [|reflexivity].
    apply (reach_fire (delete_component query message deleted) (page ModalHidden [] false [] ModalHidden) ClickDelete); [|reflexivity].
    apply (reach_create (CP := delete_component query message deleted)).
  - apply (step_event (CP := delete_component query message deleted) ClickConfirm). reflexivity.
Qed.

(** What a click on the button of the details sends: nothing if the form says what the
    user is. *)
Definition handled (p : Page Call UserDetailsForm UserFormMsg Effect) : Page Call UserDetailsForm UserFormMsg Effect :=
  set_error None (set_com (set_just_updated false (pg_com p)) p).
Lemma deliver_submit user p u m :
  udf_user (pg_com p) = u -> udf_form (pg_com p) = m -> user_model_valid m = true -> udf_avatar (pg_com p) = None ->
  let input := user_input u m None in
  deliver (CP := user_form_component user) SubmitClicked p
  = if is_default_input input then Ok (handled p)
    else if pg_running p then Panic "assertion failed: !*running"
    else Ok (set_futures true (pg_futures p ++ [mk_future (CallGraphql (UpdateUser input) "Error trying to update user") UserUpdated])
               (handled p)).
Proof.
  intros <- <- Hv Ha input. unfold deliver. cbn [component_update user_form_component].
  unfold user_form_update, update, user_form_handle_msg, submit_user_update_form, self, sbind, smodify, stry, sget, sret.
  cbn [pg_com set_error set_com set_just_updated udf_form udf_avatar udf_user]. rewrite Hv, Ha. cbn [negb]. fold input.
  destruct (is_default_input input); [done|]. unfold call_backend, sbind, sget, slift, assert_. cbn. by destruct (pg_running p).
Qed.

(** Saving the details of a user does not render the page, so that the button stays
    enabled: a second click. *)
Theorem save_twice_panics user email :
  validate_email email = true -> email <> up_email user -> can_panic (user_form_component user).
Proof.
  intros Hv Hne. set (m := mk_user_model email (up_display_name user) (up_first_name user) (up_last_name user)).
  set (c := set_form m (pg_com (user_form_create user))).
  set (p1 := render (set_error None (set_com (set_just_updated false c) (set_com c (render (user_form_create user)))))).
  assert (H1 : reachable (CP := user_form_component user) p1).
  { eapply (reach_fire (user_form_component user) _ (EditUser m)); [apply (reach_create (CP := user_form_component user))|reflexivity]. }
  assert (Hi : is_default_input (user_input user m None) = false).
  { unfold user_input, changed at 1. cbn. destruct (String.eqb_spec (up_email user) email); [congruence|done]. }
  pose proof (deliver_submit user p1 user m eq_refl eq_refl Hv eq_refl) as H2. cbv zeta in H2. rewrite Hi in H2.
  change (pg_running p1) with false in H2. cbv iota in H2.
  set (p2 := set_futures _ _ _) in H2.
  exists p2. eexists. split.
  - apply (reach_fire (user_form_component user) p1 ClickSubmit); [done|]. unfold fire. cbn. f_equal. exact H2.
  - apply (step_event (CP := user_form_component user) ClickSubmit). unfold fire. cbn. f_equal.
    pose proof (deliver_submit user p2 user m eq_refl eq_refl Hv eq_refl) as H3. cbv zeta in H3. rewrite Hi in H3. exact H3.
Qed.

(** The user with the details of a form, and with the fields that a request names. *)
Definition with_model (m : UserModel) (u : UserPage) : UserPage :=
  mk_user_page (up_id u) (um_email m) (um_display_name m) (um_first_name m) (um_last_name m) (up_avatar u)
    (up_creation_date u) (up_uuid u) (up_groups u).
Definition with_input (i : UpdateUserInput) (u : UserPage) : UserPage :=
  mk_user_page (up_id u) (default (up_email u) (uui_email i)) (default (up_display_name u) (uui_display_name i))
    (default (up_first_name u) (uui_first_name i)) (default (up_last_name u) (uui_last_name i)) (up_avatar u)
    (up_creation_date u) (up_uuid u) (up_groups u).

Lemma changed_default old new : default old (changed old new) = new.
Proof. unfold changed. by destruct (String.eqb_spec old new) as [->|]. Qed.
Lemma changed_same s : changed s s = None.
Proof. unfold changed. by rewrite String.eqb_refl. Qed.
Lemma user_input_applied u m : with_input (user_input u m None) u = with_model m u.
Proof. unfold with_input. cbn. by rewrite !changed_default. Qed.
Lemma user_input_same u m : is_default_input (user_input (with_model m u) m None) = true.
Proof. unfold user_input. cbn. by rewrite !changed_same. Qed.

Lemma deliver_updated user p :
  udf_avatar (pg_com p) = None ->
  deliver (CP := user_form_component user) (UserUpdated (inr success_new)) p
  = Ok (render (set_error None (set_com
      (mk_user_details_form (udf_form (pg_com p)) None (udf_reader (pg_com p)) true
         (with_model (udf_form (pg_com p)) (udf_user (pg_com p)))) p))).
Proof.
  destruct p as [[fm av rd ju us] e r f sh n o]. cbn. intros ->. reflexivity.
Qed.

(** C38. Saving the details of a user sends what changed.  From a page with no request
    running, without a new picture: a valid form that says what the user is sends
    nothing; another one sends one request, whose fields are exactly those that make the
    user what the form says.  When it succeeds, the user of the page is what the form
    says at that time, and a further click sends nothing: what was typed while the
    request was running is not sent, and is taken for saved. *)
Theorem details_saved user p m :
  let u := udf_user (pg_com p) in
  let input := user_input u m None in
  udf_form (pg_com p) = m -> user_model_valid m = true -> udf_avatar (pg_com p) = None ->
  pg_running p = false -> pg_futures p = [] ->
  with_input input u = with_model m u
  /\ if is_default_input input
     then exists p1, deliver (CP := user_form_component user) SubmitClicked p = Ok p1 /\ pg_futures p1 = []
     else exists p1, deliver (CP := user_form_component user) SubmitClicked p = Ok p1
       /\ pg_futures p1 = [mk_future (CallGraphql (UpdateUser input) "Error trying to update user") UserUpdated]
       /\ forall m', user_model_valid m' = true ->
            exists p2 p3, resume (CP := user_form_component user) UserUpdated (inr success_new) []
                            (set_com (set_form m' (pg_com p1)) p1) = Ok p2
              /\ udf_user (pg_com p2) = with_model m' u /\ udf_just_updated (pg_com p2) = true
              /\ deliver (CP := user_form_component user) SubmitClicked p2 = Ok p3 /\ pg_futures p3 = [].
Proof.
  intros u input Hm Hv Ha Hr Hf. split; [apply user_input_applied|].
  pose proof (deliver_submit user p u m eq_refl Hm Hv Ha) as Hd. cbv zeta in Hd. fold input in Hd. rewrite Hr, Hf in Hd.
  destruct (is_default_input input); [by eexists|]. eexists. split; [exact Hd|]. split; [done|].
  intros m' Hv'. unfold resume. rewrite deliver_updated by done. do 2 eexists. split; [done|]. split; [done|]. split; [done|].
  split; [rewrite (deliver_submit user _ (with_model m' u) m') by done; cbv zeta; by rewrite user_input_same|done].
Qed.
End Pages.
