(* ===== verification/WebSql.v ===== *)
(** * The web page and the server together

    The pages of [WebForms] run in a browser that delivers their requests to the login
    service of [AuthService] on the SQL backend: changing a password from the page,
    from the click to the row of the database.  The browser is assumed to deliver a
    request to the route of its address with the cookies of the site, and to keep the
    cookie that an answer sets. *)

From S2P Require Import Prelude RustStd Extern Types Concrete Handler Deserialize Db ExampleDb SqlFilters SqlSchema SqlUser SqlGroup SqlBackend SqlTcp SqlOpaque AccessControl LdapHandler LdapSql AuthService AuthSession Clients GraphqlQuery GraphqlMutation WebPage WebApi WebApp WebForms WebSafety.
From Stdlib Require Import Ascii String.
From stdpp Require Import strings list gmap.
#[local] Open Scope rust_scope.
#[local] Open Scope string_scope.

(* ------------------------------------------------------------------ *)
(** ** Running a page against the server *)

Section Settle.
Context `{OL : OpaqueLib} {S : Type} `{BR : !Browser S} `{PL : !PageLib}.
Context {Com Msg Out Event : Type} {CP : Component Call Com Msg Out Event}.

(** The requests of a page are answered one after the other, until none is running; the
    user does nothing in the meantime. *)
Fixpoint settle (fuel : nat) (p : Page Call Com Msg Out) : stM S Empty_set (Page Call Com Msg Out) :=
  match fuel with
  | O => sret p
  | Datatypes.S fuel =>
      match pg_futures p with
      | [] => sret p
      | mk_future c callback :: rest =>
          let! answer := stry (serve c) in
          let! p' := slift (resume callback answer rest p) in
          settle fuel p'
      end
  end.

Lemma settle_step fuel p R (c : Call R) cb rest s a s' p' :
  pg_futures p = (mk_future c cb :: rest)%list -> serve c s = (Ok a, s') -> resume cb (inr a) rest p = Ok p' ->
  settle (Datatypes.S fuel) p s = settle fuel p' s'.
Proof.
  intros Hf Hs Hr. cbn [settle]. rewrite Hf. rewrite (sbind_run _ _ _ (inr a) s') by (unfold stry; by rewrite Hs).
  by rewrite (sbind_run _ _ _ p' s') by (unfold slift; by rewrite Hr).
Qed.
Lemma settle_step_err fuel p R (c : Call R) cb rest s e s' p' :
  pg_futures p = (mk_future c cb :: rest)%list -> serve c s = (Err e, s') -> resume cb (inl e) rest p = Ok p' ->
  settle (Datatypes.S fuel) p s = settle fuel p' s'.
Proof.
  intros Hf Hs Hr. cbn [settle]. rewrite Hf. rewrite (sbind_run _ _ _ (inl e) s') by (unfold stry; by rewrite Hs).
  by rewrite (sbind_run _ _ _ p' s') by (unfold slift; by rewrite Hr).
Qed.
Lemma settle_more fuel p s p' s' :
  settle fuel p s = (Ok p', s') -> pg_futures p' = [] -> settle (Datatypes.S fuel) p s = (Ok p', s').
Proof.
  revert p s. induction fuel as [|fuel IH]; intros p s.
  - cbn. intros [= <- <-] Hf. by rewrite Hf.
  - cbn [settle]. destruct (pg_futures p) as [|[R c cb] rest]; [done|].
    intros H Hf. apply sbind_ok in H as (a & s1 & Ha & H). apply sbind_ok in H as (p1 & s2 & Hp & H).
    rewrite (sbind_run _ _ _ _ _ Ha), (sbind_run _ _ _ _ _ Hp). by apply IH.
Qed.
Lemma settle_done fuel p s : pg_futures p = [] -> settle fuel p s = (Ok p, s).
Proof. intros Hf. destruct fuel; cbn; [done|]. by rewrite Hf. Qed.
End Settle.

(* ------------------------------------------------------------------ *)
(** ** The requests *)

Section Requests.
Context `{C : Crates} `{B : Bincode} `{SL : SqlLib} `{OL : OpaqueLib} `{O : Orion} `{BS : !BincodeStream}
  `{CF : !OpaqueConfig} `{T : ErrorTexts} `{SH : StdHash} `{J : Jwt} `{ML : !Mailer World}.
Context {S : Type} `{BR : !Browser S} `{PL : !PageLib}.
Context (url_path : string) (enable_password_reset : bool).
#[local] Existing Instance world_clock.

(** A segment of a path that needs no escape. *)
Definition plain_segment (s : string) : bool :=
  negb (String.eqb s "")
  && forallb (fun c => negb (existsb (Ascii.eqb c) ["/"; "?"; "#"; "%"; " "]%char)) (list_ascii_of_string s).

(** What the service receives of a request of the page: the body, and the cookies of the
    site, of which [CookieToHeaderTranslator] makes the [Authorization] header. *)
Inductive sends (token refresh : option string) : string -> RequestType AuthBody -> AuthRequest -> Prop :=
| sends_login_start r : sends token refresh "/auth/opaque/login/start" (Post (LoginStartBody r)) (PostLoginStart r)
| sends_login_finish r : sends token refresh "/auth/opaque/login/finish" (Post (LoginFinishBody r)) (PostLoginFinish r)
| sends_register_start r :
    sends token refresh "/auth/opaque/register/start" (Post (RegisterStartBody r)) (PostRegisterStart token (inr r))
| sends_register_finish r :
    sends token refresh "/auth/opaque/register/finish" (Post (RegisterFinishBody r)) (PostRegisterFinish r)
| sends_refresh : sends token refresh "/auth/refresh" Get (GetRefresh refresh None)
| sends_logout : sends token refresh "/auth/logout" Get (GetLogout refresh None)
| sends_reset_step2 t : enable_password_reset = true -> plain_segment t = true ->
    sends token refresh ("/auth/reset/step2/" +:+ t) Get (GetResetStep2 (Some t)).

(** The cookies of an answer by the name of [token]. *)
Definition token_cookies (a : AuthAnswer) : list Cookie :=
  match a with
  | Response r => List.filter (fun c => String.eqb (ck_name c) "token") (hr_cookies r)
  | _ => []
  end.

(** A browser with [app_of] as the state of the server it talks to, and the cookies
    [token] and [refresh] that it sends to the login service.  Of two cookies [token] the
    one for the path of the login service alone comes first. *)
Class Delivers (app_of : S -> AppState World) (token refresh : S -> option string) : Prop := {
  delivers_request path body r a s s1 :
    sends (token s) (refresh s) path body r ->
    handle_auth_request url_path enable_password_reset r (app_of s) = (Ok a, s1) ->
    exists s', send (base_url +:+ path) body s = (Ok a, s') /\ app_of s' = s1
      /\ (token_cookies a = [] -> token s' = token s)
      /\ (forall t age, t <> "" -> token_cookies a = [token_cookie t age (auth_path url_path)] -> token s' = Some t);
}.
Context {app_of : S -> AppState World} {token refresh : S -> option string} {DL : Delivers app_of token refresh}.

(** A request that is answered with a success, and one that is not. *)
Lemma call_server_ok path body r a s s1 msg :
  sends (token s) (refresh s) path body r ->
  handle_auth_request url_path enable_password_reset r (app_of s) = (Ok a, s1) -> response_ok (answer_status a) = true ->
  exists s', host_call_server (base_url +:+ path) body msg s = (Ok a, s') /\ app_of s' = s1
    /\ (token_cookies a = [] -> token s' = token s)
    /\ (forall t age, t <> "" -> token_cookies a = [token_cookie t age (auth_path url_path)] -> token s' = Some t).
Proof using DL.
  intros Hs Hh Ha. destruct (delivers_request path body r a s s1 Hs Hh) as (s' & Hsend & H). exists s'. split; [|done].
  unfold host_call_server. rewrite (sbind_run _ _ _ _ _ Hsend). by rewrite Ha.
Qed.
Lemma call_server_err path body r e s s1 msg :
  sends (token s) (refresh s) path body r ->
  handle_auth_request url_path enable_password_reset r (app_of s) = (Ok (Response (error_to_http_response e)), s1) ->
  exists err s', host_call_server (base_url +:+ path) body msg s = (Err err, s') /\ app_of s' = s1.
Proof using DL.
  intros Hs Hh. destruct (delivers_request path body r _ s s1 Hs Hh) as (s' & Hsend & H & _).
  eexists. exists s'. split; [|done]. unfold host_call_server. rewrite (sbind_run _ _ _ _ _ Hsend).
  by destruct e as [[]| | | |].
Qed.

Lemma web_login_start r x s w :
  sql_login_start r (app_backend (app_of s)) = (Ok x, w) ->
  exists s', login_start r s = (Ok x, s') /\ app_of s' = mk_app w (jwt_blacklist (app_of s)) /\ token s' = token s.
Proof using DL.
  intros H. destruct (call_server_ok "/auth/opaque/login/start" (Post (LoginStartBody r)) (PostLoginStart r) (LoginStartAnswer x)
    s (mk_app w (jwt_blacklist (app_of s))) "Could not start authentication: ") as (s' & Hc & Ha & Ht & _);
    [constructor|apply answer_run; unfold opaque_login_start; by apply call_run|done|].
  exists s'. split; [|split; [done|by apply Ht]]. unfold login_start, call_server_json. by rewrite (sbind_run _ _ _ _ _ Hc).
Qed.
Lemma web_register_start r x s s1 :
  opaque_register_start (token s) (inr r) (app_of s) = (Ok x, s1) ->
  exists s', host_register_start r s = (Ok x, s') /\ app_of s' = s1 /\ token s' = token s.
Proof using DL.
  intros H. destruct (call_server_ok "/auth/opaque/register/start" (Post (RegisterStartBody r)) (PostRegisterStart (token s) (inr r))
    (RegistrationStartAnswer x) s s1 "Could not start registration: ") as (s' & Hc & Ha & Ht & _);
    [constructor|by apply answer_run|done|].
  exists s'. split; [|split; [done|by apply Ht]]. unfold host_register_start, call_server_json. by rewrite (sbind_run _ _ _ _ _ Hc).
Qed.
Lemma web_register_start_err r e s s1 :
  opaque_register_start (token s) (inr r) (app_of s) = (Err e, s1) ->
  exists err s', host_register_start r s = (Err err, s') /\ app_of s' = s1.
Proof using DL.
  intros H. destruct (call_server_err "/auth/opaque/register/start" (Post (RegisterStartBody r)) (PostRegisterStart (token s) (inr r))
    e s s1 "Could not start registration: ") as (err & s' & Hc & Ha); [constructor|by apply answer_run_err|].
  exists err, s'. split; [|done]. unfold host_register_start, call_server_json. by rewrite (sbind_run_err _ _ _ _ _ Hc).
Qed.
Lemma web_register_finish r s w :
  sql_registration_finish r (app_backend (app_of s)) = (Ok tt, w) ->
  exists s', host_register_finish r s = (Ok tt, s') /\ app_of s' = mk_app w (jwt_blacklist (app_of s)) /\ token s' = token s.
Proof using DL.
  intros H. destruct (call_server_ok "/auth/opaque/register/finish" (Post (RegisterFinishBody r)) (PostRegisterFinish r)
    (Response (mk_response 200 [] NoBody)) s (mk_app w (jwt_blacklist (app_of s))) "Could not finish registration")
    as (s' & Hc & Ha & Ht & _).
  - constructor.
  - apply answer_run. unfold opaque_register_finish. by rewrite (sbind_run _ _ _ _ _ (call_run _ _ _ _ H)).
  - done.
  - exists s'. split; [|split; [done|by apply Ht]]. unfold host_register_finish, call_server_empty. by rewrite (sbind_run _ _ _ _ _ Hc).
Qed.
End Requests.

(* ------------------------------------------------------------------ *)
(** ** The handlers of the password form, run *)

Section PasswordRuns.
Context `{OL : OpaqueLib} (rng : nat -> string) (username : string) (is_admin : bool).
Implicit Types m : PasswordModel.

(** Computes the steps of a handler. *)
#[local] Ltac page_run :=
  unfold self, put_self, output, draw, question, question_context, sbind, smodify, sget, sret, slift;
  cbn [pg_com pg_random pg_running pg_futures pg_error pg_shown pg_out set_com set_error use_random set_futures cpf_form cpf_opaque_data].
#[local] Abbreviation run_message := (deliver (CP := password_component rng username is_admin)).
#[local] Abbreviation page m d e running fs sh n o := (mk_page (mk_change_password m d) e running fs sh n o).

(** The form sends the first message of the registration of its password. *)
Lemma submit_new_password_run m d e sh n o st req :
  ke_client_registration_start (rng n) (into_bytes (pm_password m)) = Some (st, req) ->
  submit_new_password rng username (page m d e false [] sh n o)
  = (Ok true, page m (OpaqueRegistration st) e true
      [mk_future (CallRegisterStart (mk_registration_start (user_id_new username) req)) PasswordRegistrationStartResponse]
      sh (S n) o).
Proof.
  intros H. unfold submit_new_password, set_opaque_data. page_run. unfold client_start_registration. rewrite H. reflexivity.
Qed.

Lemma password_submit_admin m d e sh n o st req :
  is_admin = true -> password_model_valid m = true ->
  ke_client_registration_start (rng n) (into_bytes (pm_password m)) = Some (st, req) ->
  exists sh', run_message PasswordSubmit (page m d e false [] sh n o)
  = Ok (page m (OpaqueRegistration st) None true
      [mk_future (CallRegisterStart (mk_registration_start (user_id_new username) req)) PasswordRegistrationStartResponse]
      sh' (S n) o).
Proof.
  intros Ha Hv H. eexists.
  assert (Hh : password_handle_msg rng username is_admin PasswordSubmit (page m d None false [] sh n o)
    = submit_new_password rng username (page m d None false [] sh n o)).
  { cbn [password_handle_msg]. page_run. rewrite Hv, Ha. reflexivity. }
  rewrite (submit_new_password_run m d None sh n o st req H) in Hh.
  rewrite (deliver_ok (CP := password_component rng username is_admin) _ (fun _ => eq_refl) PasswordSubmit (page m d e false [] sh n o) _ _ Hh).
  reflexivity.
Qed.

(** For the others, the login with the old password comes first. *)
Lemma password_submit_user m d e sh n o st req :
  is_admin = false -> password_model_valid m = true -> pm_old_password m <> "" ->
  ke_client_login_start (rng n) (into_bytes (pm_old_password m)) = Some (st, req) ->
  exists sh', run_message PasswordSubmit (page m d e false [] sh n o)
  = Ok (page m (OpaqueLogin st) None true
      [mk_future (CallLoginStart (mk_login_start (user_id_new username) req)) PasswordAuthenticationStartResponse]
      sh' (S n) o).
Proof.
  intros Ha Hv Hne%String.eqb_neq H. eexists.
  assert (Hh : password_handle_msg rng username is_admin PasswordSubmit (page m d None false [] sh n o)
    = (Ok true, page m (OpaqueLogin st) None true
      [mk_future (CallLoginStart (mk_login_start (user_id_new username) req)) PasswordAuthenticationStartResponse]
      sh (S n) o)).
  { cbn [password_handle_msg]. page_run. rewrite Hv, Ha. cbn [negb]. rewrite Hne. page_run. unfold client_start_login. rewrite H.
    unfold set_opaque_data. page_run. reflexivity. }
  rewrite (deliver_ok (CP := password_component rng username is_admin) _ (fun _ => eq_refl) PasswordSubmit (page m d e false [] sh n o) _ _ Hh).
  reflexivity.
Qed.

(** The answer of the login: the new password is sent if the old one was right. *)
Lemma password_login_answered m l f e sh n o res st req :
  is_Some (ke_client_login_finish l (lr_credential_response res)) ->
  ke_client_registration_start (rng n) (into_bytes (pm_password m)) = Some (st, req) ->
  exists sh', resume (CP := password_component rng username is_admin) PasswordAuthenticationStartResponse (inr res) []
    (page m (OpaqueLogin l) e true f sh n o)
  = Ok (page m (OpaqueRegistration st) None true
      [mk_future (CallRegisterStart (mk_registration_start (user_id_new username) req)) PasswordRegistrationStartResponse]
      sh' (S n) o).
Proof.
  intros [fin Hf] H. eexists. unfold resume. erewrite (deliver_ok (CP := password_component rng username is_admin) (password_handle_msg rng username is_admin)); [|done|].
  2:{ cbn [password_handle_msg]. unfold take_opaque_data, set_opaque_data. page_run. rewrite Hf. cbn [ok_or].
      by apply submit_new_password_run. }
  reflexivity.
Qed.
Lemma password_login_refused m l f e sh n o res :
  ke_client_login_finish l (lr_credential_response res) = None ->
  exists sh', resume (CP := password_component rng username is_admin) PasswordAuthenticationStartResponse (inr res) []
    (page m (OpaqueLogin l) e true f sh n o)
  = Ok (page m NoOpaqueData (Some (Message "Invalid username or password")) false [] sh' n o).
Proof.
  intros Hf. eexists. unfold resume. erewrite (deliver_err (password_handle_msg rng username is_admin)); [|done|..].
  2:{ cbn [password_handle_msg]. unfold take_opaque_data, set_opaque_data. page_run. rewrite Hf. reflexivity. }
  all: reflexivity.
Qed.

(** The answer of the registration's first message. *)
Lemma password_registration_answered m st f e sh n o res upload :
  ke_client_registration_finish (rng n) st (rr_registration_response res) = Some upload ->
  exists sh', resume (CP := password_component rng username is_admin) PasswordRegistrationStartResponse (inr res) []
    (page m (OpaqueRegistration st) e true f sh n o)
  = Ok (page m NoOpaqueData None true
      [mk_future (CallRegisterFinish (mk_registration_finish (rr_server_data res) upload)) PasswordRegistrationFinishResponse]
      sh' (S n) o).
Proof.
  intros H. eexists. unfold resume. erewrite (deliver_ok (CP := password_component rng username is_admin) (password_handle_msg rng username is_admin)); [|done|].
  2:{ cbn [password_handle_msg]. unfold take_opaque_data, set_opaque_data. page_run. rewrite H. reflexivity. }
  reflexivity.
Qed.
Lemma password_registration_refused m d f e sh n o err :
  exists sh', resume (CP := password_component rng username is_admin) PasswordRegistrationStartResponse (inl err) []
    (page m d e true f sh n o)
  = Ok (page m d (Some (WithContext "Could not initiate password change" err)) false [] sh' n o).
Proof.
  eexists. unfold resume. erewrite (deliver_err (password_handle_msg rng username is_admin)); [|done|..].
  2:{ cbn [password_handle_msg]. page_run. reflexivity. }
  all: reflexivity.
Qed.

(** The end. *)
Lemma password_registration_finished m d f e sh n o :
  exists sh', resume (CP := password_component rng username is_admin) PasswordRegistrationFinishResponse (inr tt) []
    (page m d e true f sh n o)
  = Ok (page m d None false [] sh' n (o ++ [PushRoute (RouteUserDetails username)])).
Proof.
  eexists. unfold resume. erewrite (deliver_ok (CP := password_component rng username is_admin) (password_handle_msg rng username is_admin)); [|done|].
  2:{ cbn [password_handle_msg]. page_run. reflexivity. }
  reflexivity.
Qed.
End PasswordRuns.

(* ------------------------------------------------------------------ *)
(** ** Registering a password, over the network *)

Section Registration.
Context `{C : Crates} `{B : Bincode} `{SL : SqlLib} `{OL : OpaqueLib} `{O : Orion} `{BS : !BincodeStream}
  `{CF : !OpaqueConfig} `{T : ErrorTexts} `{SH : StdHash} `{J : Jwt} `{ML : !Mailer World}.
Context {B6 : Base64Laws crates_base64} {LL : OpaqueLaws OL} {OO : OrionLaws O} {BSL : BincodeStreamLaws BS}.
Context {S : Type} `{BR : !Browser S} `{PL : !PageLib} (url_path : string) (enable_password_reset : bool).
Context {app_of : S -> AppState World} {token refresh : S -> option string}
  {DL : Delivers url_path enable_password_reset app_of token refresh}.
#[local] Existing Instance world_clock.
#[local] Abbreviation db s := (w_db (app_backend (app_of s))).

(** The check of a JWT reads the clock and the blacklist. *)
Lemma check_token_same tok s s' :
  w_now (app_backend s') = w_now (app_backend s) -> jwt_blacklist s' = jwt_blacklist s ->
  fst (check_if_token_is_valid tok s') = fst (check_if_token_is_valid tok s).
Proof using Type.
  intros Hn Hb. unfold check_if_token_is_valid, sbind, slift. destruct (verify_with_key tok) as [[a c]|]; [|done].
  destruct s as [w b], s' as [w' b']. cbn in *. subst b'. rewrite Hn. cbn.
  destruct (_ <? _)%Z; [done|]. destruct a; [|done]. by destruct (bool_decide _).
Qed.
Lemma check_token_ok tok v s : fst (check_if_token_is_valid tok s) = Ok v -> check_if_token_is_valid tok s = (Ok v, s).
Proof using Type.
  intros H. pose proof (check_token_keeps tok s) as Hk. destruct (check_if_token_is_valid tok s). cbn in *. by subst.
Qed.

(** After [s'], the user [u] has the password [p] and no other. *)
Definition only_password (u : UserId) (p : string) (s' : S) : Prop :=
  forall q, fst (sql_bind (mk_bind_request u q) (app_backend (app_of s')))
    = if decide (q = p) then Ok tt else Err (AuthenticationError (" for user '" +:+ user_id_str u +:+ "'")).

(** The two messages of the registration of a password are accepted, one after the other. *)
Lemma registration_served u p r1 r2 st req response upload s tok v row k :
  user_id_wf u = true ->
  ke_client_registration_start r1 (into_bytes p) = Some (st, req) ->
  ke_server_registration_start get_server_setup req (opaque_id u) = Some response ->
  ke_client_registration_finish r2 st response = Some upload ->
  token s = Some tok -> fst (check_if_token_is_valid tok (app_of s)) = Ok v -> can_change_password v u (in_admin_group (db s) u) = true ->
  world_ok (app_backend (app_of s)) -> db_users (db s) !! u = Some row -> get_orion_secret_key = Ok k ->
  exists c s1 s2 hash, host_register_start (mk_registration_start u req) s = (Ok (mk_registration_start_response c response), s1)
    /\ host_register_finish (mk_registration_finish c upload) s1 = (Ok tt, s2)
    /\ db s2 = set_users (<[u := set_password_hash hash row]> (db_users (db s))) (db s) /\ only_password u p s2.
Proof using B6 LL OO BSL DL.
  intros Hwf H1 H2 H3 Htok Hv%check_token_ok Hc Hok Hu Hk.
  destruct (register_start_ok tok v u req response row k (app_of s) Hv Hu Hc H2 Hk) as (c & nonce & w & Hseal & Hw & Hs).
  rewrite <- Htok in Hs. destruct (web_register_start url_path enable_password_reset _ _ _ _ Hs) as (s1 & Hr1 & Ha1 & Ht1).
  destruct (web_register_finish url_path enable_password_reset (mk_registration_finish (base64_encode c) upload) s1 _
    ltac:(rewrite Ha1; cbn [app_backend]; eapply sql_registration_finish_run;
          [by unfold world_ok; rewrite Hw|done|by rewrite Hw|done|done])) as (s2 & Hr2 & Ha2 & _).
  do 4 eexists. split; [exact Hr1|]. split; [exact Hr2|]. rewrite Ha2. cbn [app_backend w_db set_db]. rewrite Hw.
  split; [done|]. intros q. rewrite Ha2.
  eapply (sql_bind_registered u p q); [cbn; by rewrite lookup_insert_eq|done|]. unfold registered. eauto 15.
Qed.
End Registration.

(* ------------------------------------------------------------------ *)
(** ** Changing a password from the page *)

Section WebPassword.
Context `{C : Crates} `{B : Bincode} `{SL : SqlLib} `{OL : OpaqueLib} `{O : Orion} `{BS : !BincodeStream}
  `{CF : !OpaqueConfig} `{T : ErrorTexts} `{SH : StdHash} `{J : Jwt} `{ML : !Mailer World}.
Context {B6 : Base64Laws crates_base64} {LL : OpaqueLaws OL} {OO : OrionLaws O} {BSL : BincodeStreamLaws BS}.
Context {S : Type} `{BR : !Browser S} `{PL : !PageLib} (url_path : string) (enable_password_reset : bool).
Context {app_of : S -> AppState World} {token refresh : S -> option string}
  {DL : Delivers url_path enable_password_reset app_of token refresh}.
#[local] Existing Instance world_clock.
Context (rng : nat -> string) (username : string) (is_admin : bool).
#[local] Abbreviation page m d e running fs sh n o := (mk_page (mk_change_password m d) e running fs sh n o).
#[local] Abbreviation settles := (settle (S := S) (CP := password_component rng username is_admin)).
#[local] Abbreviation db s := (w_db (app_backend (app_of s))).
#[local] Abbreviation u := (user_id_new username).

(** What is on the page and in the database when the new password was accepted. *)
Definition password_changed (m : PasswordModel) (row : UserRow) (o : list Effect) (s : S)
    (p' : Page Call ChangePasswordForm PasswordMsg Effect) (s' : S) : Prop :=
  pg_error p' = None /\ pg_out p' = (o ++ [PushRoute (RouteUserDetails username)])%list
  /\ (exists hash, db s' = set_users (<[u := set_password_hash hash row]> (db_users (db s))) (db s))
  /\ only_password (app_of := app_of) u (pm_password m) s'.
(** And when it was not. *)
Definition password_refused (o : list Effect) (s : S) (p' : Page Call ChangePasswordForm PasswordMsg Effect) (s' : S) : Prop :=
  is_Some (pg_error p') /\ pg_out p' = o /\ db s' = db s.

(** From the registration's first message on. *)
Lemma registration_settles m st req response upload sh n o s tok v row k :
  ke_client_registration_start (rng (pred n)) (into_bytes (pm_password m)) = Some (st, req) ->
  ke_server_registration_start get_server_setup req (opaque_id u) = Some response ->
  ke_client_registration_finish (rng n) st response = Some upload ->
  token s = Some tok -> fst (check_if_token_is_valid tok (app_of s)) = Ok v ->
  world_ok (app_backend (app_of s)) -> db_users (db s) !! u = Some row -> get_orion_secret_key = Ok k ->
  exists p' s', settles 2 (page m (OpaqueRegistration st) None true
      [mk_future (CallRegisterStart (mk_registration_start u req)) PasswordRegistrationStartResponse] sh n o) s = (Ok p', s')
    /\ pg_futures p' = []
    /\ if can_change_password v u (in_admin_group (db s) u) then password_changed m row o s p' s' else password_refused o s p' s'.
Proof using B6 LL OO BSL DL.
  intros H1 H2 H3 Htok Hv Hok Hu Hk. destruct (can_change_password v u _) eqn:Hc.
  - destruct (registration_served url_path enable_password_reset u (pm_password m) (rng (pred n)) (rng n) st req response upload s tok v row k)
      as (c & s1 & s2 & hash & Hr1 & Hr2 & Hdb & Hp); try done; [apply user_id_new_wf|].
    destruct (password_registration_answered rng username is_admin m st
      [mk_future (CallRegisterStart (mk_registration_start u req)) PasswordRegistrationStartResponse] None sh n o
      (mk_registration_start_response c response) upload H3) as (sh1 & Hp1).
    destruct (password_registration_finished rng username is_admin m NoOpaqueData
      [mk_future (CallRegisterFinish (mk_registration_finish c upload)) PasswordRegistrationFinishResponse]
      None sh1 (Datatypes.S n) o) as (sh2 & Hp2).
    do 2 eexists. split; [|split; [|]].
    + erewrite settle_step; [|reflexivity|exact Hr1|exact Hp1]. erewrite settle_step; [|reflexivity|exact Hr2|exact Hp2]. done.
    + done.
    + split; [done|]. split; [done|]. by split; [exists hash|].
  - apply check_token_ok in Hv.
    assert (Hs : opaque_register_start (token s) (inr (mk_registration_start u req)) (app_of s) = (Err not_authorized, app_of s))
      by (rewrite Htok, (register_start_steps tok v u req row (app_of s) Hv Hu); by rewrite Hc).
    destruct (web_register_start_err url_path enable_password_reset _ _ _ _ Hs) as (err & s1 & Hr1 & Ha1).
    destruct (password_registration_refused rng username is_admin m (OpaqueRegistration st)
      [mk_future (CallRegisterStart (mk_registration_start u req)) PasswordRegistrationStartResponse] None sh n o err) as (sh1 & Hp1).
    do 2 eexists. split; [|split; [|]].
    + erewrite settle_step_err; [|reflexivity|exact Hr1|exact Hp1]. by apply settle_done.
    + done.
    + split; [by eexists|]. split; [done|]. by rewrite Ha1.
Qed.

(** A user who is not an administrator logs in with the old password first. *)
Lemma user_settles m d e sh n o s tok v row k old file :
  is_admin = false -> password_model_valid m = true -> pm_old_password m <> "" ->
  token s = Some tok -> fst (check_if_token_is_valid tok (app_of s)) = Ok v ->
  world_ok (app_backend (app_of s)) -> db_users (db s) !! u = Some row -> get_orion_secret_key = Ok k ->
  ur_password_hash row = Some (registration_serialize file) -> registered get_server_setup (opaque_id u) (into_bytes old) file ->
  exists p0 p' s', deliver (CP := password_component rng username is_admin) PasswordSubmit (page m d e false [] sh n o) = Ok p0
    /\ settles 3 p0 s = (Ok p', s') /\ pg_futures p' = []
    /\ if String.eqb (pm_old_password m) old && can_change_password v u (in_admin_group (db s) u)
       then password_changed m row o s p' s' else password_refused o s p' s'.
Proof using B6 LL OO BSL DL.
  intros Hadm Hv Hne Htok Hchk Hok Hu Hk Hfile Hreg.
  destruct (login_runs get_server_setup (opaque_id u) file (into_bytes (pm_old_password m)) (rng n) "")
    as (l & lreq & _ & _ & HL1 & _).
  assert (Hsl : forall r2, is_Some (ke_server_login_start r2 get_server_setup (Some file) lreq (opaque_id u))).
  { intros r2. destruct (login_runs get_server_setup (opaque_id u) file (into_bytes (pm_old_password m)) (rng n) r2)
      as (st & rq & sl & rs & H1' & H2'). rewrite HL1 in H1'. injection H1' as <- <-. by eexists. }
  destruct (sql_login_start_run u lreq row file k (app_backend (app_of s)) Hu Hfile Hk Hsl)
    as (w1 & slogin & lresp & c & nonce & r2 & Hrun & HL2 & _ & Hdb & Hnow).
  pose proof (login_iff_password _ _ _ _ _ _ _ _ _ _ _ Hreg HL1 HL2) as Hiff.
  destruct (password_submit_user rng username is_admin m d e sh n o l lreq Hadm Hv Hne HL1) as [sh' Hp0].
  destruct (web_login_start url_path enable_password_reset (mk_login_start u lreq) _ s w1 Hrun) as (s1 & Hr1 & Ha1 & Ht1).
  destruct (ke_client_login_finish l lresp) as [fin|] eqn:Hfin.
  - assert (Hold : pm_old_password m = old) by (apply into_bytes_inj, Hiff; by eexists).
    destruct (registration_runs get_server_setup (opaque_id u) (into_bytes (pm_password m)) (rng (Datatypes.S n))
      (rng (Datatypes.S (Datatypes.S n)))) as (st & req & response & upload & H1 & H2 & H3).
    destruct (password_login_answered rng username is_admin m l
      [mk_future (CallLoginStart (mk_login_start u lreq)) PasswordAuthenticationStartResponse] None sh' (Datatypes.S n) o
      (mk_login_start_response (base64_encode c) lresp) st req ltac:(cbn; rewrite Hfin; by eexists) H1) as [sh1 Hp1].
    destruct (registration_settles m st req response upload sh1 (Datatypes.S (Datatypes.S n)) o s1 tok v row k)
      as (p' & s' & Hs & Hf & Hres); try done; try (rewrite Ha1; cbn [app_backend]).
    + by rewrite Ht1.
    + rewrite <- Hchk. by apply check_token_same.
    + unfold world_ok. by rewrite Hdb.
    + by rewrite Hdb.
    + assert (Hst : settles 3 (page m (OpaqueLogin l) None true
          [mk_future (CallLoginStart (mk_login_start u lreq)) PasswordAuthenticationStartResponse] sh' (Datatypes.S n) o) s = (Ok p', s'))
        by (rewrite <- Hs; eapply settle_step; [reflexivity|exact Hr1|exact Hp1]).
      do 3 eexists. split; [exact Hp0|]. split; [exact Hst|]. split; [done|].
      rewrite Hold, String.eqb_refl. cbn [andb]. revert Hres. unfold password_changed, password_refused. rewrite Ha1. cbn [app_backend].
      by rewrite Hdb.
  - assert (Hold : pm_old_password m <> old).
    { intros Heq. rewrite Heq in Hiff. by destruct (proj2 Hiff eq_refl) as [? [=]]. }
    destruct (password_login_refused rng username is_admin m l
      [mk_future (CallLoginStart (mk_login_start u lreq)) PasswordAuthenticationStartResponse] None sh' (Datatypes.S n) o
      (mk_login_start_response (base64_encode c) lresp) Hfin) as [sh1 Hp1].
    assert (Hst : settles 3 (page m (OpaqueLogin l) None true
          [mk_future (CallLoginStart (mk_login_start u lreq)) PasswordAuthenticationStartResponse] sh' (Datatypes.S n) o) s
        = (Ok (page m NoOpaqueData (Some (Message "Invalid username or password")) false [] sh1 (Datatypes.S n) o), s1)).
    { etransitivity; [eapply settle_step; [reflexivity|exact Hr1|exact Hp1]|by apply settle_done]. }
    do 3 eexists. split; [exact Hp0|]. split; [exact Hst|]. split; [done|].
    apply String.eqb_neq in Hold. rewrite Hold. cbn [andb]. split; [by eexists|]. split; [done|].
    rewrite Ha1. cbn [app_backend]. exact Hdb.
Qed.

(** C15. Changing a password from the web page.  The user submits a valid form and does
    nothing until the page is idle again, which takes at most three answers.  The page
    either is an administrator's or has a current password typed in, and then the user
    has a registered password.  With a cookie that holds a valid JWT: if the JWT lets its user change that password and, for
    a user who is not an administrator, the current password was given, then the page
    goes to the user's details, the row of that user changes in the password only, no
    other row does, and from then on [bind] accepts exactly the new password.  If not,
    the page shows an error and the database is what it was. *)
Theorem web_password_correct p s m tok v row k old :
  cpf_form (pg_com p) = m -> password_model_valid m = true -> pg_running p = false -> pg_futures p = [] ->
  token s = Some tok -> fst (check_if_token_is_valid tok (app_of s)) = Ok v ->
  world_ok (app_backend (app_of s)) -> db_users (db s) !! u = Some row -> get_orion_secret_key = Ok k ->
  is_admin = true \/ (pm_old_password m <> "" /\ exists file, ur_password_hash row = Some (registration_serialize file)
                       /\ registered get_server_setup (opaque_id u) (into_bytes old) file) ->
  exists p0 p' s', deliver (CP := password_component rng username is_admin) PasswordSubmit p = Ok p0
    /\ settles 3 p0 s = (Ok p', s') /\ pg_futures p' = []
    /\ if (is_admin || String.eqb (pm_old_password m) old) && can_change_password v u (in_admin_group (db s) u)
       then password_changed m row (pg_out p) s p' s' else password_refused (pg_out p) s p' s'.
Proof using B6 LL OO BSL DL.
  destruct p as [[m0 d] e running fs sh n o]. cbn. intros -> Hv -> -> Htok Hchk Hok Hu Hk Hcase.
  destruct (Bool.bool_dec is_admin true) as [Hadm|Hadm%not_true_is_false].
  - destruct (registration_runs get_server_setup (opaque_id u) (into_bytes (pm_password m)) (rng n) (rng (Datatypes.S n)))
      as (st & req & response & upload & H1 & H2 & H3).
    destruct (password_submit_admin rng username is_admin m d e sh n o st req Hadm Hv H1) as [sh' Hp0].
    destruct (registration_settles m st req response upload sh' (Datatypes.S n) o s tok v row k H1 H2 H3 Htok Hchk Hok Hu Hk)
      as (p' & s' & Hs & Hf & Hres).
    do 3 eexists. split; [exact Hp0|]. split; [exact (settle_more 2 _ _ _ _ Hs Hf)|]. split; [done|].
    replace (is_admin || _) with true by by rewrite Hadm. exact Hres.
  - destruct Hcase as [?|(Hne & file & Hfile & Hreg)]; [congruence|].
    replace (is_admin || String.eqb (pm_old_password m) old) with (String.eqb (pm_old_password m) old) by by rewrite Hadm.
    by apply (user_settles m d e sh n o s tok v row k old file).
Qed.
End WebPassword.
