(* ===== verification/WebReset.v ===== *)
(** * A forgotten password, from the link to the new password

    The page behind the link of the mail ([reset_password_step2.rs]), run against the
    login service on the SQL backend: the link's token is exchanged for a JWT, the new
    password is registered with it, and from then on it is the one that logs in. *)

From S2P Require Import Prelude RustStd Extern Types Concrete Handler Deserialize Db ExampleDb SqlFilters SqlSchema SqlUser SqlGroup SqlBackend SqlTcp SqlOpaque AccessControl LdapHandler LdapSql AuthService AuthSession Clients GraphqlQuery GraphqlMutation WebPage WebApi WebApp WebForms WebSafety WebSql.
From Stdlib Require Import Ascii String.
From stdpp Require Import strings list gmap.
#[local] Open Scope rust_scope.
#[local] Open Scope string_scope.

(* ------------------------------------------------------------------ *)
(** ** The exchange of the token *)

Section Exchange.
Context `{C : Crates} `{B : Bincode} `{SL : SqlLib} `{OL : OpaqueLib} `{O : Orion} `{BS : !BincodeStream}
  `{CF : !OpaqueConfig} `{T : ErrorTexts} `{SH : StdHash} `{J : Jwt} `{ML : !Mailer World}.
Context (url_path : string) (enable_password_reset : bool).
#[local] Existing Instance world_clock.

(** The JWT that the exchange makes at [now], which must be new. *)
Definition reset_jwt (now : NaiveDateTime) (u : UserId) : string := sign_with_key Hs512 (claims_at now u []).
Definition fresh_jwt (jwt : string) (s : AppState World) : Prop :=
  jwt <> "" /\ db_jwt_storage (w_db (app_backend s)) !! as_i64 (default_hash jwt) = None /\ default_hash jwt ∉ jwt_blacklist s.

(** The database once the token is used. *)
Definition token_used (t : string) (jwt : string) (u : UserId) (w : World) : Db :=
  set_jwt_storage (<[as_i64 (default_hash jwt) := mk_jwt_row u (w_now w + days 1)%Z false]> (db_jwt_storage (w_db w)))
    (set_password_reset_tokens (filter (fun p => p.1 <> t) (db_password_reset_tokens (w_db w))) (w_db w)).

Lemma token_used_ok t jwt u r w :
  world_ok w -> db_users (w_db w) !! u = Some r -> db_jwt_storage (w_db w) !! as_i64 (default_hash jwt) = None ->
  world_ok (set_db (token_used t jwt u w) w).
Proof using Type.
  intros Hok Hu Hn. pose proof (keep_reset_ok (fun p => p.1 <> t) w Hok) as H1.
  pose proof (insert_jwt_ok (as_i64 (default_hash jwt)) (mk_jwt_row u (w_now w + days 1)%Z false) _ H1) as H2.
  unfold insert_jwt, keep_reset, statement, guard_ in H2. cbn in H2. by rewrite !decide_True in H2 by (cbn; eauto).
Qed.

Lemma create_jwt_run {E} u w r :
  db_users (w_db w) !! u = Some r -> db_jwt_storage (w_db w) !! as_i64 (default_hash (reset_jwt (w_now w) u)) = None ->
  create_jwt (E := E) u [] w
  = (Ok (reset_jwt (w_now w) u),
     set_db (set_jwt_storage (<[as_i64 (default_hash (reset_jwt (w_now w) u)) := mk_jwt_row u (w_now w + days 1)%Z false]>
       (db_jwt_storage (w_db w))) (w_db w)) w).
Proof using Type.
  intros Hu Hn. unfold create_jwt, sbind, stry. cbn. unfold sql_register_jwt, insert_jwt, statement, guard_.
  unfold reset_jwt, claims_at in *. cbn [map cl_exp] in *. by rewrite !decide_True by (cbn; eauto).
Qed.

Lemma reset_step2_run t s row r :
  db_password_reset_tokens (w_db (app_backend s)) !! t = Some row -> (w_now (app_backend s) < pr_expiry_date row)%Z ->
  db_users (w_db (app_backend s)) !! pr_user_id row = Some r -> fresh_jwt (reset_jwt (w_now (app_backend s)) (pr_user_id row)) s ->
  let jwt := reset_jwt (w_now (app_backend s)) (pr_user_id row) in
  get_password_reset_step2 url_path (Some t) s
  = (Ok (mk_response 200 [token_cookie jwt 300 (auth_path url_path)] (ServerPasswordResetResponse (user_id_str (pr_user_id row)) jwt)),
     mk_app (set_db (token_used t jwt (pr_user_id row) (app_backend s)) (app_backend s)) (jwt_blacklist s)).
Proof using Type.
  intros Hrow Hexp Hu (_ & Hfresh & _) jwt. unfold get_password_reset_step2. rewrite (sbind_run _ _ s t s) by done.
  rewrite (sbind_run _ _ s (pr_user_id row) s).
  2:{ apply smap_err_ok. rewrite in_backend_run. cbn. unfold sql_get_user_id_for_password_reset_token, sbind, utc_now, query, slift. cbn.
      rewrite Hrow. destruct (Z.ltb_spec (w_now (app_backend s)) (pr_expiry_date row)); [|lia]. cbn. by destruct s. }
  pose proof (delete_reset_run t (app_backend s)) as Hd.
  destruct (sql_delete_password_reset_token t (app_backend s)) as [res w1] eqn:Hdel. cbn in Hd. subst w1.
  assert (Hres : res = Ok tt).
  { unfold sql_delete_password_reset_token, sbind, query, keep_reset, statement in Hdel. cbn in Hdel. rewrite Hrow in Hdel. by injection Hdel. }
  rewrite (sbind_run _ _ s (inr tt) (mk_app (set_db (set_password_reset_tokens (filter (fun p => p.1 <> t)
    (db_password_reset_tokens (w_db (app_backend s)))) (w_db (app_backend s))) (app_backend s)) (jwt_blacklist s))).
  2:{ rewrite in_backend_run. unfold stry. cbn [tcp_delete_password_reset_token SqlTcpHandler]. rewrite Hdel. by subst res. }
  rewrite (sbind_run _ _ _ jwt (mk_app (set_db (token_used t jwt (pr_user_id row) (app_backend s)) (app_backend s)) (jwt_blacklist s)));
    [done|].
  rewrite in_backend_run. cbn [app_backend jwt_blacklist]. by rewrite (create_jwt_run (pr_user_id row) _ r).
Qed.

(** The JWT is accepted, as the user's without any group. *)
Lemma reset_jwt_valid {JL : JwtLaws J} t s u :
  user_id_wf u = true -> fresh_jwt (reset_jwt (w_now (app_backend s)) u) s ->
  fst (check_if_token_is_valid (reset_jwt (w_now (app_backend s)) u)
    (mk_app (set_db (token_used t (reset_jwt (w_now (app_backend s)) u) u (app_backend s)) (app_backend s)) (jwt_blacklist s)))
  = Ok (mk_validation u PermRegular).
Proof using Type.
  intros Hu (_ & _ & Hf). rewrite (check_token_run _ (claims_at (w_now (app_backend s)) u [])) by apply verify_signed.
  cbn [fst app_backend set_db w_now jwt_blacklist]. rewrite bool_decide_eq_false_2 by done. rewrite permissions_of_claims by done.
  destruct (Z.ltb_spec (cl_exp (claims_at (w_now (app_backend s)) u [])) (w_now (app_backend s))) as [Hl|]; [|done].
  cbn in Hl. unfold days in Hl. lia.
Qed.
End Exchange.

(* ------------------------------------------------------------------ *)
(** ** The handlers of the page, run *)

Section ResetRuns.
Context `{OL : OpaqueLib} (rng : nat -> string) (t : string).
Implicit Types m : ResetModel.
#[local] Ltac page_run :=
  unfold self, put_self, output, draw, question, question_context, sbind, smodify, sget, sret, slift;
  cbn [pg_com pg_random pg_running pg_futures pg_error pg_shown pg_out set_com set_error use_random set_futures r2_form r2_username r2_opaque_data].
#[local] Abbreviation CP := (reset_step2_component rng t).
#[local] Abbreviation page m u d e running fs sh n o := (mk_page (mk_reset_step2 m u d) e running fs sh n o).

Lemma reset_token_answered m u0 d f e sh n o u jwt :
  resume (CP := CP) ValidateTokenResponse (inr (u, jwt)) [] (page m u0 d e true f sh n o)
  = Ok (render (page m (Some u) d None false [] sh n o)).
Proof.
  unfold resume. erewrite (deliver_ok (CP := CP) (reset_step2_handle_msg rng)); [|done|].
  2:{ cbn [reset_step2_handle_msg]. page_run. reflexivity. }
  reflexivity.
Qed.
Lemma reset_token_refused m u0 d f e sh n o err :
  resume (CP := CP) ValidateTokenResponse (inl err) [] (page m u0 d e true f sh n o)
  = Ok (render (page m u0 d (Some err) false [] sh n o)).
Proof.
  unfold resume. erewrite (deliver_err (reset_step2_handle_msg rng)); [|done|..].
  2:{ cbn [reset_step2_handle_msg]. page_run. reflexivity. }
  all: reflexivity.
Qed.
Lemma reset_submit m u d e sh n o st req :
  reset_model_valid m = true -> ke_client_registration_start (rng n) (into_bytes (rm_password m)) = Some (st, req) ->
  exists sh', deliver (CP := CP) ResetSubmit (page m (Some u) d e false [] sh n o)
  = Ok (page m (Some u) (Some st) None true
      [mk_future (CallRegisterStart (mk_registration_start (user_id_new u) req)) ResetRegistrationStartResponse] sh' (S n) o).
Proof.
  intros Hv H. eexists. erewrite (deliver_ok (CP := CP) (reset_step2_handle_msg rng)); [|done|].
  2:{ cbn [reset_step2_handle_msg]. page_run. rewrite Hv. cbn [negb]. page_run. unfold client_start_registration. rewrite H.
      page_run. reflexivity. }
  reflexivity.
Qed.
Lemma reset_registration_answered m u st f e sh n o res upload :
  ke_client_registration_finish (rng n) st (rr_registration_response res) = Some upload ->
  exists sh', resume (CP := CP) ResetRegistrationStartResponse (inr res) [] (page m u (Some st) e true f sh n o)
  = Ok (page m u None None true
      [mk_future (CallRegisterFinish (mk_registration_finish (rr_server_data res) upload)) ResetRegistrationFinishResponse] sh' (S n) o).
Proof.
  intros H. eexists. unfold resume. erewrite (deliver_ok (CP := CP) (reset_step2_handle_msg rng)); [|done|].
  2:{ cbn [reset_step2_handle_msg]. page_run. cbn [expect]. rewrite H. reflexivity. }
  reflexivity.
Qed.
Lemma reset_registration_finished m u d f e sh n o :
  exists sh', resume (CP := CP) ResetRegistrationFinishResponse (inr tt) [] (page m u d e true f sh n o)
  = Ok (page m u d None false [] sh' n (o ++ [PushRoute RouteLogin])).
Proof.
  eexists. unfold resume. erewrite (deliver_ok (CP := CP) (reset_step2_handle_msg rng)); [|done|].
  2:{ cbn [reset_step2_handle_msg]. page_run. reflexivity. }
  reflexivity.
Qed.
End ResetRuns.

(* ------------------------------------------------------------------ *)
(** ** From the link to the new password *)

Section WebReset.
Context `{C : Crates} `{B : Bincode} `{SL : SqlLib} `{OL : OpaqueLib} `{O : Orion} `{BS : !BincodeStream}
  `{CF : !OpaqueConfig} `{T : ErrorTexts} `{SH : StdHash} `{J : Jwt} {JL : JwtLaws J} `{ML : !Mailer World}.
Context {B6 : Base64Laws crates_base64} {LL : OpaqueLaws OL} {OO : OrionLaws O} {BSL : BincodeStreamLaws BS}.
Context {S : Type} `{BR : !Browser S} `{PL : !PageLib} (url_path : string).
Context {app_of : S -> AppState World} {token refresh : S -> option string} {DL : Delivers url_path true app_of token refresh}.
#[local] Existing Instance world_clock.
Context (rng : nat -> string) (t : string).
#[local] Abbreviation page m u d e running fs sh n o := (mk_page (mk_reset_step2 m u d) e running fs sh n o).
#[local] Abbreviation settles := (settle (S := S) (CP := reset_step2_component rng t)).
#[local] Abbreviation fires ev p := (fire (CP := reset_step2_component rng t) ev p).
#[local] Abbreviation world s := (app_backend (app_of s)).
#[local] Abbreviation db s := (w_db (app_backend (app_of s))).

(** The link's token names a user, still. *)
Definition link_valid (s : S) (row : ResetRow) : Prop :=
  db_password_reset_tokens (db s) !! t = Some row /\ (w_now (world s) < pr_expiry_date row)%Z.

Lemma web_reset_step2 s row r :
  plain_segment t = true -> let jwt := reset_jwt (w_now (world s)) (pr_user_id row) in
  link_valid s row -> db_users (db s) !! pr_user_id row = Some r -> fresh_jwt jwt (app_of s) ->
  exists s', reset_password_step2 t s = (Ok (user_id_str (pr_user_id row), jwt), s')
    /\ app_of s' = mk_app (set_db (token_used t jwt (pr_user_id row) (world s)) (world s)) (jwt_blacklist (app_of s))
    /\ token s' = Some jwt.
Proof using DL.
  intros Ht jwt [Hrow Hexp] Hu Hf. pose proof (reset_step2_run url_path t (app_of s) row r Hrow Hexp Hu Hf) as Hrun. cbv zeta in Hrun.
  destruct (call_server_ok url_path true ("/auth/reset/step2/" +:+ t) Get (GetResetStep2 (Some t))
    (Response (mk_response 200 [token_cookie jwt 300 (auth_path url_path)] (ServerPasswordResetResponse (user_id_str (pr_user_id row)) jwt)))
    s _ "Could not validate token" ltac:(by constructor) ltac:(by apply answer_run) eq_refl) as (s' & Hc & Ha & _ & Htok).
  exists s'. split; [|split; [exact Ha|]].
  - unfold reset_password_step2, call_server_json. by rewrite (sbind_run _ _ _ _ _ Hc).
  - by apply (Htok jwt 300%Z); [apply Hf|].
Qed.
Lemma web_reset_step2_err s :
  plain_segment t = true -> (forall row, ~ link_valid s row) -> exists e s', reset_password_step2 t s = (Err e, s') /\ app_of s' = app_of s.
Proof using DL.
  intros Ht Hn. assert (Hrun : get_password_reset_step2 url_path (Some t) (app_of s) = (Err (NotFoundError "Wrong or expired reset token"), app_of s)).
  { unfold get_password_reset_step2. rewrite (sbind_run _ _ (app_of s) t (app_of s)) by done. apply sbind_run_err.
    unfold smap_err. rewrite in_backend_run. cbn. unfold sql_get_user_id_for_password_reset_token, sbind, utc_now, query, slift. cbn.
    destruct (db_password_reset_tokens (db s) !! t) as [row|] eqn:Hrow; cbn; [|by destruct (app_of s)].
    destruct (Z.ltb_spec (w_now (world s)) (pr_expiry_date row)); [by destruct (Hn row)|]. by destruct (app_of s). }
  destruct (call_server_err url_path true ("/auth/reset/step2/" +:+ t) Get (GetResetStep2 (Some t)) _ s _ "Could not validate token"
    ltac:(by constructor) ltac:(by apply answer_run_err)) as (e & s' & Hc & Ha).
  exists e, s'. split; [|done]. unfold reset_password_step2, call_server_json. by rewrite (sbind_run_err _ _ _ _ _ Hc).
Qed.

(** The form, once the two fields are filled in and the button is clicked. *)
Lemma reset_clicked p u e sh n o st req :
  length_min 8 p = true -> ke_client_registration_start (rng n) (into_bytes p) = Some (st, req) -> r2_username (sh_com sh) = Some u ->
  exists p2 p3 sh', fires (ResetEditPassword p) (page (mk_reset_model "" "") (Some u) None e false [] sh n o) = Some (Ok p2)
    /\ fires (ResetEditConfirm p) p2 = Some (Ok p3)
    /\ fires ResetClick p3 = Some (Ok (page (mk_reset_model p p) (Some u) (Some st) None true
      [mk_future (CallRegisterStart (mk_registration_start (user_id_new u) req)) ResetRegistrationStartResponse] sh' (Datatypes.S n) o)).
Proof using Type.
  intros Hp H Hu.
  assert (H1 : fires (ResetEditPassword p) (page (mk_reset_model "" "") (Some u) None e false [] sh n o)
    = Some (Ok (render (page (mk_reset_model p "") (Some u) None None false [] sh n o)))).
  { unfold fire. cbn. unfold reset_step2_event. rewrite Hu. reflexivity. }
  destruct (reset_submit rng t (mk_reset_model p p) u None None (mk_shown (mk_reset_step2 (mk_reset_model p p) (Some u) None) None false) n o st req)
    as [sh' Hs]; [|done|].
  { unfold reset_model_valid. cbn [rm_password rm_confirm_password]. by rewrite Hp, String.eqb_refl. }
  do 3 eexists. split; [exact H1|]. split; [reflexivity|]. unfold fire. cbn. f_equal. exact Hs.
Qed.

(** The new password is registered. *)
Lemma reset_settles p u st req response upload sh n o s tok row k :
  user_id_wf u = true ->
  ke_client_registration_start (rng (pred n)) (into_bytes p) = Some (st, req) ->
  ke_server_registration_start get_server_setup req (opaque_id u) = Some response ->
  ke_client_registration_finish (rng n) st response = Some upload ->
  token s = Some tok -> fst (check_if_token_is_valid tok (app_of s)) = Ok (mk_validation u PermRegular) ->
  world_ok (world s) -> db_users (db s) !! u = Some row -> get_orion_secret_key = Ok k ->
  exists p' s', settles 2 (page (mk_reset_model p p) (Some (user_id_str u)) (Some st) None true
      [mk_future (CallRegisterStart (mk_registration_start u req)) ResetRegistrationStartResponse] sh n o) s = (Ok p', s')
    /\ pg_futures p' = [] /\ pg_error p' = None /\ pg_out p' = (o ++ [PushRoute RouteLogin])%list
    /\ (exists hash, db s' = set_users (<[u := set_password_hash hash row]> (db_users (db s))) (db s))
    /\ only_password (app_of := app_of) u p s'.
Proof using B6 LL OO BSL DL.
  intros Hwf H1 H2 H3 Htok Hv Hok Hu Hk.
  destruct (registration_served url_path true u p (rng (pred n)) (rng n) st req response upload s tok (mk_validation u PermRegular) row k)
    as (c & s1 & s2 & hash & Hr1 & Hr2 & Hdb & Hp); try done.
  { unfold can_change_password. cbn. unfold is_user. cbn. by rewrite bool_decide_eq_true_2. }
  destruct (reset_registration_answered rng t (mk_reset_model p p) (Some (user_id_str u)) st
    [mk_future (CallRegisterStart (mk_registration_start u req)) ResetRegistrationStartResponse] None sh n o
    (mk_registration_start_response c response) upload H3) as (sh1 & Hp1).
  destruct (reset_registration_finished rng t (mk_reset_model p p) (Some (user_id_str u)) None
    [mk_future (CallRegisterFinish (mk_registration_finish c upload)) ResetRegistrationFinishResponse] None sh1 (Datatypes.S n) o) as (sh2 & Hp2).
  do 2 eexists. split.
  - erewrite settle_step; [|reflexivity|exact Hr1|exact Hp1]. erewrite settle_step; [|reflexivity|exact Hr2|exact Hp2]. done.
  - split_and!; try done. by exists hash.
Qed.

(** C16. A forgotten password, from the link on.  When the link of the mail is opened, its
    token a segment of a path without escapes, known and not expired, the page asks for
    the new password of the token's user; once one of at least eight characters has been
    typed twice and the button clicked, two answers later the page goes to the login, the
    token is gone, the user's row has changed in the password only, no other row has, and
    the new password is the one that is accepted.  With any other token the page says so,
    shows no form to act on, and the database is what it was. *)
Theorem web_reset_correct s p k :
  get_orion_secret_key = Ok k -> world_ok (world s) -> plain_segment t = true ->
  (forall row r, let u := pr_user_id row in let jwt := reset_jwt (w_now (world s)) u in
     link_valid s row -> db_users (db s) !! u = Some r -> user_id_wf u = true -> fresh_jwt jwt (app_of s) -> length_min 8 p = true ->
     exists p1 s1 p2 p3 p4 p5 s2,
       settles 1 (reset_step2_create t) s = (Ok p1, s1) /\ r2_username (pg_com p1) = Some (user_id_str u)
       /\ fires (ResetEditPassword p) p1 = Some (Ok p2) /\ fires (ResetEditConfirm p) p2 = Some (Ok p3)
       /\ fires ResetClick p3 = Some (Ok p4) /\ settles 2 p4 s1 = (Ok p5, s2)
       /\ pg_futures p5 = [] /\ pg_error p5 = None /\ pg_out p5 = [PushRoute RouteLogin]
       /\ (exists hash, db s2 = set_users (<[u := set_password_hash hash r]> (db_users (db s))) (token_used t jwt u (world s)))
       /\ db_password_reset_tokens (db s2) !! t = None /\ only_password (app_of := app_of) u p s2)
  /\ ((forall row, ~ link_valid s row) ->
     exists p1 s1, settles 1 (reset_step2_create t) s = (Ok p1, s1) /\ is_Some (pg_error p1) /\ db s1 = db s
       /\ forall ev, fires ev p1 = None).
Proof using B6 LL OO BSL DL JL.
  intros Hk Hok Hseg. split.
  - intros row r u jwt Hlink Hu Hwf Hfresh Hp.
    destruct (web_reset_step2 s row r Hseg Hlink Hu Hfresh) as (s1 & Hr1 & Ha1 & Ht1).
    destruct (registration_runs get_server_setup (opaque_id u) (into_bytes p) (rng 0) (rng 1)) as (st & req & response & upload & H1 & H2 & H3).
    pose proof (reset_token_answered rng t (mk_reset_model "" "") None None
      [mk_future (CallResetStep2 t) ValidateTokenResponse] None (pg_shown (reset_step2_create t)) 0 [] (user_id_str u) jwt) as Hp1.
    destruct (reset_clicked p (user_id_str u) None (mk_shown (mk_reset_step2 (mk_reset_model "" "") (Some (user_id_str u)) None) None false)
      0 [] st req Hp H1 eq_refl) as (p2 & p3 & sh2 & Hf1 & Hf2 & Hf3).
    rewrite (user_id_new_str u Hwf) in Hf3.
    destruct (reset_settles p u st req response upload sh2 1 [] s1 jwt r k Hwf H1 H2 H3 Ht1) as (p5 & s2 & Hs & Hfut & Herr & Hout & Hdb & Honly);
      try done; try (rewrite Ha1; cbn [app_backend]).
    + by apply reset_jwt_valid.
    + eapply token_used_ok; [done|exact Hu|apply Hfresh].
    + done.
    + do 7 eexists. split; [by erewrite settle_step; [|reflexivity|exact Hr1|exact Hp1]|]. split; [done|].
      split; [exact Hf1|]. split; [exact Hf2|]. split; [exact Hf3|]. split; [exact Hs|]. split_and!; try done.
      * rewrite Ha1 in Hdb. exact Hdb.
      * destruct Hdb as [hash ->]. rewrite Ha1. cbn. rewrite map_lookup_filter_None. right. naive_solver.
  - intros Hn. destruct (web_reset_step2_err s Hseg Hn) as (e & s1 & Hr & Ha).
    pose proof (reset_token_refused rng t (mk_reset_model "" "") None None
      [mk_future (CallResetStep2 t) ValidateTokenResponse] None (pg_shown (reset_step2_create t)) 0 [] e) as Hp1.
    do 2 eexists. split; [by erewrite settle_step_err; [|reflexivity|exact Hr|exact Hp1]|].
    split; [by eexists|]. split; [by rewrite Ha|]. done.
Qed.

End WebReset.
