(* ===== verification/WebGraphql.v ===== *)
(** * The web page's GraphQL requests on the server

    The documents of [app/queries/], each as the resolvers it selects with the fields of
    the answer; what a browser delivers of them, given the token of its cookie; and what
    [graphql_query] of [app/src/infra/api.rs] then gives back to a component. *)

From S2P Require Import Prelude RustStd Extern Types Concrete Handler Deserialize Db ExampleDb SqlFilters SqlSchema SqlUser SqlGroup SqlBackend SqlTcp SqlOpaque AccessControl LdapHandler LdapSql AuthService AuthSession Clients GraphqlQuery GraphqlMutation WebPage WebApi.
From Stdlib Require Import Ascii String.
From stdpp Require Import strings list gmap.
#[local] Open Scope rust_scope.
#[local] Open Scope string_scope.

(* ------------------------------------------------------------------ *)
(** ** The documents *)

Section Execute.
Context {St : Type} `{BH : !BackendHandler St} `{C : Crates} `{B : Bincode} `{T : ErrorTexts} `{UE : UrlEncoding}.
Context (v : ValidationResults).

(** The selections. *)
Definition select_member (u : GqlUser) : Member := mk_member (user_id_field u) (display_name u).
Definition select_listed_user (u : GqlUser) : outcome string ListedUser :=
  let? first := first_name u in
  let? last := last_name u in
  Ok (mk_listed_user (user_id_field u) (email_field u) (display_name u) first last (user_creation_date_field u)).
Definition select_listed_group (g : GqlGroup) : ListedGroup :=
  mk_listed_group (gg_group_id g) (gg_display_name g) (gg_creation_date g).
Definition select_web_group (g : GqlGroup) : WebGroup := mk_web_group (gg_group_id g) (gg_display_name g).
Definition select_schema_row (a : AttributeSchema) : UserSchemaRow :=
  mk_web_schema_row (attribute_name_str (as_name a)) (as_attribute_type a) (as_is_list a) (as_is_visible a) (as_is_editable a)
    (as_is_hardcoded a).
Definition select_group_schema_row (a : AttributeSchema) : GroupSchemaRow :=
  mk_group_schema_row (attribute_name_str (as_name a)) (as_attribute_type a) (as_is_list a) (as_is_visible a) (as_is_hardcoded a).
Definition select_user_page (u : GqlUser) : stM St string UserPage :=
  let! first := slift (first_name u) in
  let! last := slift (last_name u) in
  let! picture := slift (avatar u) in
  let! groups := user_groups_field v u in
  sret (mk_user_page (user_id_field u) (email_field u) (display_name u) first last picture (user_creation_date_field u)
    (user_uuid_field u) (map select_web_group groups)).
Definition select_group_page (g : GqlGroup) : stM St string GroupPage :=
  let! users := group_users_field v g in
  sret (mk_group_page (gg_group_id g) (gg_display_name g) (gg_creation_date g) (gg_uuid g) (map select_member users)).

(** The execution of a document; the fields below the first one only read, so that their
    order makes no difference. *)
Definition execute {R} (q : Query R) : stM St string R :=
  match q with
  | CreateUser user => let! u := create_user v user in sret (mk_created_user (user_id_field u) (user_creation_date_field u))
  | CreateGroup name => let! g := create_group v name in sret (mk_created_group (gg_group_id g) (gg_display_name g))
  | UpdateUser user => update_user v user
  | DeleteUserQuery user => delete_user v user
  | DeleteGroupQuery group_id => delete_group v group_id
  | AddUserToGroup user group => add_user_to_group v user group
  | RemoveUserFromGroup user group => remove_user_from_group v user group
  | GetGroupList => let! l := query_groups v in sret (map select_listed_group l)
  | GetGroupDetails id => let! g := query_group v id in select_group_page g
  | GetUserDetails id => let! u := query_user v id in select_user_page u
  | ListUsersQuery filters => let! l := query_users v filters in slift (try_map select_listed_user l)
  | ListUserNames filters => let! l := query_users v filters in sret (map select_member l)
  | GetUserAttributesSchema => let! s := query_schema v in sret (map select_schema_row (list_attributes (user_schema s)))
  | GetGroupAttributesSchema => let! s := query_schema v in sret (map select_group_schema_row (list_attributes (group_schema s)))
  | CreateUserAttribute name t is_list is_visible is_editable => add_user_attribute v name t is_list is_visible is_editable
  | CreateGroupAttribute name t is_list is_visible => add_group_attribute v name t is_list is_visible false
  | DeleteUserAttributeQuery name => delete_user_attribute v name
  | DeleteGroupAttributeQuery name => delete_group_attribute v name
  end.
End Execute.

(* ------------------------------------------------------------------ *)
(** ** Their delivery *)

Section Delivery.
Context `{C : Crates} `{B : Bincode} `{SL : SqlLib} `{OL : OpaqueLib} `{O : Orion} `{BS : !BincodeStream}
  `{CF : !OpaqueConfig} `{T : ErrorTexts} `{SH : StdHash} `{J : Jwt} `{ML : !Mailer World} `{UE : UrlEncoding}.
Context {S : Type} `{BR : !Browser S} `{PL : !PageLib}.
#[local] Existing Instance world_clock.

(** A browser with [app_of] as the state of the server it talks to, and the cookie
    [api_token] that it sends to the GraphQL endpoint; [token] is the one that it sends to
    the login service.  The engine answers a
    document that fails with the errors and without data: no field of the API that can
    fail may be null. *)
Class DeliversGraphql (app_of : S -> AppState World) (api_token token : S -> option string) : Prop := {
  delivers_graphql {R} (q : Query R) tok v s r w :
    api_token s = Some tok -> fst (check_if_token_is_valid tok (app_of s)) = Ok v ->
    execute v q (app_backend (app_of s)) = (r, w) -> no_panic r ->
    exists text errors s',
      send_graphql R (base_url +:+ "/api/graphql") q s
      = (Ok (mk_graphql_answer 200 text (Some (match r with
           | Ok a => mk_graphql_response (Some a) None
           | _ => mk_graphql_response None (Some errors)
           end))), s')
      /\ app_of s' = mk_app w (jwt_blacklist (app_of s)) /\ api_token s' = api_token s /\ token s' = token s;
  delivers_unauthorized {R} (q : Query R) s :
    (forall tok v, api_token s = Some tok -> fst (check_if_token_is_valid tok (app_of s)) <> Ok v) ->
    exists text s', send_graphql R (base_url +:+ "/api/graphql") q s = (Ok (mk_graphql_answer 401 text None), s')
      /\ app_of s' = app_of s /\ api_token s' = api_token s /\ token s' = token s;
}.
Context {app_of : S -> AppState World} {api_token token : S -> option string} {DG : DeliversGraphql app_of api_token token}.

Lemma graphql_query_ok {R} (q : Query R) msg tok v s a w :
  api_token s = Some tok -> fst (check_if_token_is_valid tok (app_of s)) = Ok v -> execute v q (app_backend (app_of s)) = (Ok a, w) ->
  exists s', graphql_query q msg s = (Ok a, s') /\ app_of s' = mk_app w (jwt_blacklist (app_of s)) /\ token s' = token s.
Proof using DG.
  intros Ht Hv Hr. destruct (delivers_graphql q tok v s (Ok a) w Ht Hv Hr ltac:(done)) as (text & errors & s' & Hs & Ha & _ & Htk).
  exists s'. split; [|done]. unfold graphql_query. by rewrite (sbind_run _ _ _ _ _ Hs).
Qed.
Lemma graphql_query_err {R} (q : Query R) msg tok v s e w :
  api_token s = Some tok -> fst (check_if_token_is_valid tok (app_of s)) = Ok v -> execute v q (app_backend (app_of s)) = (Err e, w) ->
  exists err s', graphql_query q msg s = (Err err, s') /\ app_of s' = mk_app w (jwt_blacklist (app_of s)) /\ token s' = token s.
Proof using DG.
  intros Ht Hv Hr. destruct (delivers_graphql q tok v s (Err e) w Ht Hv Hr ltac:(done)) as (text & errors & s' & Hs & Ha & _ & Htk).
  do 2 eexists. split; [|done]. unfold graphql_query. by rewrite (sbind_run _ _ _ _ _ Hs).
Qed.
Lemma graphql_query_unauthorized {R} (q : Query R) msg s :
  (forall tok v, api_token s = Some tok -> fst (check_if_token_is_valid tok (app_of s)) <> Ok v) ->
  exists err s', graphql_query q msg s = (Err err, s') /\ app_of s' = app_of s /\ token s' = token s.
Proof using DG.
  intros Hn. destruct (delivers_unauthorized q s Hn) as (text & s' & Hs & Ha & _ & Htk).
  do 2 eexists. split; [|done]. unfold graphql_query. by rewrite (sbind_run _ _ _ _ _ Hs).
Qed.
End Delivery.
