(* ===== verification/WebUsers.v ===== *)
(** * Users, from the page to the rows of the database

    The pages that create a user and that edit one, run by a browser against GraphQL and
    the login service on the SQL backend: what is in the database once the page is idle
    again. *)

From S2P Require Import Prelude RustStd Extern Types Concrete Handler Deserialize Db ExampleDb SqlFilters SqlSchema SqlUser SqlGroup SqlBackend SqlTcp SqlOpaque AccessControl LdapHandler LdapSql AuthService AuthSession Clients GraphqlQuery GraphqlMutation GraphqlSql StoredTypes WebPage WebApi WebApp WebForms WebSafety WebDirectory WebEdit WebPages WebSql WebGraphql.
From Stdlib Require Import Ascii String.
From stdpp Require Import strings list gmap.
#[local] Open Scope rust_scope.
#[local] Open Scope string_scope.

(* ------------------------------------------------------------------ *)
(** ** The mutation that creates a user *)

Section CreateUserRun.
Context `{C : Crates} `{B : Bincode} `{SL : SqlLib} `{T : ErrorTexts}.

(** A user whose values are all of attributes that the schema has is converted. *)
Lemma from_schema_run schema l :
  (forall a, a ∈ l -> is_Some (get_attribute_schema schema (av_name a))) -> exists l', try_map (fun a => from_schema a schema) l = Ok l'.
Proof.
  induction l as [|a l IH]; intros H; [by eexists|]. destruct IH as [l' Hl']; [intros; apply H; by right|].
  destruct (H a) as [row Hrow]; [by left|]. eexists. cbn [try_map]. unfold from_schema at 1. rewrite Hrow. cbn. by rewrite Hl'.
Qed.
Lemma from_user_run db u :
  (forall a, a ∈ user_attributes u -> is_Some (db_user_attribute_schema db !! av_name a)) ->
  exists x, from_user u (public_schema_from (schema_of db)) = Ok x /\ gu_user x = mk_user (user_user_id u) (user_email u)
    (user_display_name u) (user_creation_date u) (user_uuid u) [].
Proof.
  intros H. destruct (from_schema_run (sc_user_attributes (get_schema (public_schema_from (schema_of db)))) (user_attributes u))
    as [l Hl]; [|unfold from_user; rewrite Hl; by eexists].
  intros a [row Hrow]%H. rewrite public_user_attribute, Hrow. by eexists.
Qed.
Lemma attributes_of_schema w u a :
  world_ok w -> a ∈ attributes_of (w_db w) u -> is_Some (db_user_attribute_schema (w_db w) !! av_name a).
Proof.
  intros Hok Ha%elem_of_attributes_of. by apply (ok_user_attributes _ Hok) in Ha as [_ ?].
Qed.

(** What a request without picture and attributes asks of the backend. *)
Definition create_request (r : CreateUserInput) : CreateUserRequest :=
  mk_create_user (user_id_new (cui_id r)) (mk_ci (cui_email r)) (cui_display_name r) (cui_first_name r) (cui_last_name r) None [].

Lemma create_user_run (v : ValidationResults) r w :
  AccessControl.is_admin v = true -> world_ok w -> cui_avatar r = None -> cui_attributes r = None ->
  match sql_create_user (create_request r) w with
  | (Ok _, w') => exists x, create_user v r w = (Ok x, w') /\ gu_user x = user_from_model (user_id_new (cui_id r), created_row (create_request r) (w_now w))
  | (Err _, w') => exists e, create_user v r w = (Err e, w')
  | (Panic _, _) => False
  end.
Proof.
  intros Hv Hok Ha Hl. unfold create_user. rewrite admin_granted by done. rewrite Ha, Hl.
  rewrite (sbind_run _ _ w None w) by done.
  rewrite (sbind_run _ _ w (public_schema_from (schema_of (w_db w))) w) by done. rewrite (sbind_run _ _ w [] w) by done.
  pose proof (sql_create_user_correct (create_request r) w Hok) as Hc.
  pose proof (sql_create_user_preserves (create_request r) w Hok) as Hok'.
  change (ad_create_user admin_view ?q) with (sql_create_user q).
  change (mk_create_user _ _ _ _ _ _ _) with (create_request r).
  destruct (sql_create_user (create_request r) w) as [[[]|e|p] w'] eqn:Hrun; [| |done].
  2:{ eexists. apply sbind_run_err. by rewrite (field_run _ _ _ _ Hrun). }
  destruct Hc as (Hcan & A & Hw & HA). rewrite (sbind_run _ _ w tt w') by by rewrite (field_run _ _ _ _ Hrun).
  cbn in Hok'.
  assert (Hrow : db_users (w_db w') !! user_id_new (cui_id r) = Some (created_row (create_request r) (w_now w)))
    by (rewrite Hw; apply lookup_insert_eq).
  rewrite (sbind_run _ _ w' (full_user (w_db w') (user_id_new (cui_id r), created_row (create_request r) (w_now w))) w').
  2:{ apply (field_run (sql_get_user_details _) _ (Ok _)). by rewrite sql_get_user_details_run, Hrow. }
  destruct (from_user_run (w_db w) (full_user (w_db w') (user_id_new (cui_id r), created_row (create_request r) (w_now w))))
    as (x & Hx & Hu).
  { intros a Hin. apply (attributes_of_schema w') in Hin; [|done]. rewrite Hw in Hin. exact Hin. }
  exists x. split; [|by rewrite Hu]. unfold slift. by rewrite Hx.
Qed.
End CreateUserRun.

(* ------------------------------------------------------------------ *)
(** ** The handlers of the page, run *)

Section CreateUserRuns.
Context `{OL : OpaqueLib} `{V : ValidatorLib} (rng : nat -> string).
Implicit Types m : CreateUserModel.
#[local] Ltac page_run :=
  unfold self, output, draw, question, sbind, smodify, sget, sret, slift;
  cbn [pg_com pg_random pg_running pg_futures pg_error pg_shown pg_out set_com set_error use_random set_futures].
#[local] Abbreviation CP := (create_user_component rng).
#[local] Abbreviation page := (mk_page (Call := Call) (Com := CreateUserModel) (Msg := CreateUserMsg) (Out := Effect)).

(** What the form asks for. *)
Definition form_input m : CreateUserInput :=
  mk_create_user_input (cum_username m) (cum_email m) (to_option (cum_display_name m)) (to_option (cum_first_name m))
    (to_option (cum_last_name m)) None None.
Abbreviation creation m := (mk_future (CallGraphql (CreateUser (form_input m)) "Error trying to create user") CreateUserResponse).
Abbreviation registration u st req :=
  (mk_future (CallRegisterStart (mk_registration_start (user_id_new u) req)) (fun r => CreateUserRegistrationStartResponse st r)).

Lemma create_user_submit m e sh n o :
  create_user_model_valid m = true ->
  exists sh', deliver (CP := CP) CreateUserSubmit (page m e false [] sh n o) = Ok (page m None true [creation m] sh' n o).
Proof.
  intros Hv. eexists. erewrite (deliver_ok (CP := CP) (create_user_handle_msg rng)); [|done|].
  2:{ cbn [create_user_handle_msg]. page_run. rewrite Hv. cbn [negb]. reflexivity. }
  reflexivity.
Qed.
Lemma creation_refused m f e sh n o err :
  exists sh', resume (CP := CP) CreateUserResponse (inl err) [] (page m e true f sh n o) = Ok (page m (Some err) false [] sh' n o).
Proof.
  eexists. unfold resume. erewrite (deliver_err (create_user_handle_msg rng)); [|done|..].
  2:{ cbn [create_user_handle_msg]. page_run. reflexivity. }
  all: reflexivity.
Qed.
Lemma creation_answered m f e sh n o x :
  cum_password m = "" ->
  resume (CP := CP) CreateUserResponse (inr x) [] (page m e true f sh n o)
  = Ok (page m None false [] sh n (o ++ [PushRoute RouteListUsers])).
Proof.
  intros Hp. unfold resume. erewrite (deliver_ok (CP := CP) (create_user_handle_msg rng)); [|done|].
  2:{ cbn [create_user_handle_msg]. unfold successful_creation. page_run. rewrite Hp. reflexivity. }
  reflexivity.
Qed.
Lemma creation_answered_password m f e sh n o x st req :
  cum_password m <> "" -> ke_client_registration_start (rng n) (into_bytes (cum_password m)) = Some (st, req) ->
  resume (CP := CP) CreateUserResponse (inr x) [] (page m e true f sh n o)
  = Ok (page m None true [registration (cum_username m) st req] sh (S n) o).
Proof.
  intros Hp%String.eqb_neq H. unfold resume. erewrite (deliver_ok (CP := CP) (create_user_handle_msg rng)); [|done|].
  2:{ cbn [create_user_handle_msg]. page_run. rewrite Hp. cbn [negb]. page_run. unfold client_start_registration. rewrite H.
      reflexivity. }
  reflexivity.
Qed.
Lemma creation_registration_answered m st f e sh n o res upload :
  ke_client_registration_finish (rng n) st (rr_registration_response res) = Some upload ->
  resume (CP := CP) (fun r => CreateUserRegistrationStartResponse st r) (inr res) [] (page m e true f sh n o)
  = Ok (page m None true
      [mk_future (CallRegisterFinish (mk_registration_finish (rr_server_data res) upload)) CreateUserRegistrationFinishResponse]
      sh (S n) o).
Proof.
  intros H. unfold resume. erewrite (deliver_ok (CP := CP) (create_user_handle_msg rng)); [|done|].
  2:{ cbn [create_user_handle_msg]. page_run. rewrite H. reflexivity. }
  reflexivity.
Qed.
Lemma creation_registration_finished m f e sh n o :
  exists sh', resume (CP := CP) CreateUserRegistrationFinishResponse (inr tt) [] (page m e true f sh n o)
  = Ok (page m None false [] sh' n (o ++ [PushRoute RouteListUsers])).
Proof.
  eexists. unfold resume. erewrite (deliver_ok (CP := CP) (create_user_handle_msg rng)); [|done|].
  2:{ cbn [create_user_handle_msg]. unfold successful_creation. page_run. reflexivity. }
  reflexivity.
Qed.
End CreateUserRuns.

(* ------------------------------------------------------------------ *)
(** ** Creating a user from the page *)

Section WebUsers.
Context `{C : Crates} `{B : Bincode} `{SL : SqlLib} `{OL : OpaqueLib} `{O : Orion} `{BS : !BincodeStream}
  `{CF : !OpaqueConfig} `{T : ErrorTexts} `{SH : StdHash} `{J : Jwt} `{ML : !Mailer World} `{UE : UrlEncoding} `{V : ValidatorLib}.
Context {B6 : Base64Laws crates_base64} {LL : OpaqueLaws OL} {OO : OrionLaws O} {BSL : BincodeStreamLaws BS}.
Context {S : Type} `{BR : !Browser S} `{PL : !PageLib} (url_path : string) (enable_password_reset : bool).
Context {app_of : S -> AppState World} {token refresh api_token : S -> option string}
  {DL : Delivers url_path enable_password_reset app_of token refresh} {DG : DeliversGraphql app_of api_token token}.
#[local] Existing Instance world_clock.
Context (rng : nat -> string).
#[local] Abbreviation CP := (create_user_component rng).
#[local] Abbreviation settles := (settle (S := S) (CP := CP)).
#[local] Abbreviation world s := (app_backend (app_of s)).
#[local] Abbreviation db s := (w_db (app_backend (app_of s))).
Implicit Types (v : ValidationResults) (m : CreateUserModel).

Lemma sql_bind_no_password u q r w :
  db_users (w_db w) !! u = Some r -> ur_password_hash r = None -> exists e, fst (sql_bind (mk_bind_request u q) w) = Err e.
Proof using Type.
  intros Hu Hp. unfold sql_bind, sbind, get_password_file_for_user, query. simpl. rewrite Hu. simpl. rewrite Hp. by eexists.
Qed.

(** What is on the page and in the database when the user was created. *)
Definition user_created m (o : list Effect) (s : S) (p' : Page Call CreateUserModel CreateUserMsg Effect) (s' : S) : Prop :=
  let u := user_id_new (cum_username m) in
  let request := create_request (form_input m) in
  pg_error p' = None /\ pg_out p' = (o ++ [PushRoute RouteListUsers])%list
  /\ (exists A row, db s' = set_user_attributes A (set_users (<[u := row]> (db_users (db s))) (db s))
       /\ (forall u' a, A !! (u', a) = if decide (u' = u) then last_value (created_attributes request) a
                                      else db_user_attributes (db s) !! (u', a))
       /\ if String.eqb (cum_password m) "" then row = created_row request (w_now (world s))
          else exists hash, row = set_password_hash hash (created_row request (w_now (world s))))
  /\ if String.eqb (cum_password m) "" then forall q, exists e, fst (sql_bind (mk_bind_request u q) (world s')) = Err e
     else only_password (app_of := app_of) u (cum_password m) s'.

#[local] Abbreviation page := (mk_page (Call := Call) (Com := CreateUserModel) (Msg := CreateUserMsg) (Out := Effect)).
#[local] Abbreviation waiting m sh n o :=
  (page m None true [mk_future (CallGraphql (CreateUser (form_input m)) "Error trying to create user") CreateUserResponse] sh n o).

(** The request is refused. *)
Lemma creation_fails m sh n o s tok v e :
  api_token s = Some tok -> fst (check_if_token_is_valid tok (app_of s)) = Ok v ->
  GraphqlMutation.create_user v (form_input m) (world s) = (Err e, world s) ->
  exists p' s', settles 3 (waiting m sh n o) s = (Ok p', s') /\ pg_futures p' = []
    /\ is_Some (pg_error p') /\ pg_out p' = o /\ db s' = db s.
Proof using DG.
  intros Htok Hv Hrun.
  destruct (graphql_query_err (CreateUser (form_input m)) "Error trying to create user" tok v s e (world s) Htok Hv)
    as (err & s1 & Hq & Ha & _); [by apply sbind_run_err|].
  destruct (creation_refused rng m [mk_future (CallGraphql (CreateUser (form_input m)) "Error trying to create user") CreateUserResponse]
    None sh n o err) as [sh1 Hp1].
  do 2 eexists. split.
  - erewrite settle_step_err; [|reflexivity|exact Hq|exact Hp1]. by apply settle_done.
  - split; [done|]. split; [by eexists|]. split; [done|]. by rewrite Ha.
Qed.

(** The request is granted: the password, if there is one, comes next. *)
Lemma creation_succeeds m sh n o s tok v k w1 x :
  create_user_model_valid m = true -> api_token s = Some tok -> token s = Some tok -> fst (check_if_token_is_valid tok (app_of s)) = Ok v ->
  AccessControl.is_admin v = true -> world_ok w1 -> w_now w1 = w_now (world s) -> get_orion_secret_key = Ok k ->
  GraphqlMutation.create_user v (form_input m) (world s) = (Ok x, w1) ->
  db_users (w_db w1) !! user_id_new (cum_username m) = Some (created_row (create_request (form_input m)) (w_now (world s))) ->
  exists p' s', settles 3 (waiting m sh n o) s = (Ok p', s') /\ pg_futures p' = []
    /\ pg_error p' = None /\ pg_out p' = (o ++ [PushRoute RouteListUsers])%list
    /\ if String.eqb (cum_password m) "" then world s' = w1
       else (exists hash, db s' = set_users (<[user_id_new (cum_username m) :=
               set_password_hash hash (created_row (create_request (form_input m)) (w_now (world s)))]> (db_users (w_db w1))) (w_db w1))
            /\ only_password (app_of := app_of) (user_id_new (cum_username m)) (cum_password m) s'.
Proof using B6 LL OO BSL DL DG.
  intros Hvalid Hapi Htok Hv Hadm Hok Hnow Hk Hrun Hrow.
  destruct (graphql_query_ok (CreateUser (form_input m)) "Error trying to create user" tok v s
    (mk_created_user (user_id_field x) (user_creation_date_field x)) w1 Hapi Hv) as (s1 & Hq & Ha & Ht);
    [cbn [execute]; by rewrite (sbind_run _ _ _ _ _ Hrun)|].
  destruct (String.eqb_spec (cum_password m) "") as [Hp|Hp].
  - pose proof (creation_answered rng m [mk_future (CallGraphql (CreateUser (form_input m)) "Error trying to create user") CreateUserResponse]
      None sh n o (mk_created_user (user_id_field x) (user_creation_date_field x)) Hp) as Hp1.
    do 2 eexists. split.
    + erewrite settle_step; [|reflexivity|exact Hq|exact Hp1]. by apply settle_done.
    + split; [done|]. split; [done|]. split; [done|]. by rewrite Ha.
  - destruct (registration_runs get_server_setup (opaque_id (user_id_new (cum_username m))) (into_bytes (cum_password m)) (rng n)
      (rng (Datatypes.S n))) as (st & req & response & upload & H1 & H2 & H3).
    destruct (registration_served url_path enable_password_reset (user_id_new (cum_username m)) (cum_password m) (rng n)
      (rng (Datatypes.S n)) st req response upload s1 tok v (created_row (create_request (form_input m)) (w_now (world s))) k)
      as (c & s2 & s3 & hash & Hr1 & Hr2 & Hdb & Honly); try done; try (rewrite Ha; cbn [app_backend]); try done.
    + apply user_id_new_wf.
    + by rewrite Ht.
    + rewrite <- Hv. by apply check_token_same.
    + unfold can_change_password. unfold AccessControl.is_admin in Hadm. by rewrite Hadm.
    + pose proof (creation_answered_password rng m
        [mk_future (CallGraphql (CreateUser (form_input m)) "Error trying to create user") CreateUserResponse]
        None sh n o (mk_created_user (user_id_field x) (user_creation_date_field x)) st req Hp H1) as Hp1.
      pose proof (creation_registration_answered rng m st
        [mk_future (CallRegisterStart (mk_registration_start (user_id_new (cum_username m)) req))
           (fun r => CreateUserRegistrationStartResponse st r)] None sh (Datatypes.S n) o
        (mk_registration_start_response c response) upload H3) as Hp2.
      destruct (creation_registration_finished rng m
        [mk_future (CallRegisterFinish (mk_registration_finish c upload)) CreateUserRegistrationFinishResponse] None sh
        (Datatypes.S (Datatypes.S n)) o) as [sh3 Hp3].
      do 2 eexists. split.
      * erewrite settle_step; [|reflexivity|exact Hq|exact Hp1]. erewrite settle_step; [|reflexivity|exact Hr1|exact Hp2].
        erewrite settle_step; [|reflexivity|exact Hr2|exact Hp3]. done.
      * split; [done|]. split; [done|]. split; [done|]. split; [|done]. exists hash. rewrite Hdb, Ha. done.
Qed.

(** C17. Creating a user from the web page.  The user submits a valid form and does nothing
    until the page is idle again, which takes at most three answers.  With a valid
    JWT in the cookie of the site, and no other for the login service alone: if it is an
    administrator's, the name, the address and the UUID
    are new and the schema has the fields that were filled in, then the page goes to the
    list of users, the database gains the row and the values of the form and nothing
    else, and the password of the form is the one with which the new user logs in; without
    a password none is accepted.  Otherwise the page shows an error and the database is
    what it was. *)
Theorem web_user_created p s m tok v k :
  pg_com p = m -> create_user_model_valid m = true -> pg_running p = false -> pg_futures p = [] ->
  api_token s = Some tok -> token s = Some tok -> fst (check_if_token_is_valid tok (app_of s)) = Ok v ->
  world_ok (world s) -> get_orion_secret_key = Ok k ->
  let allowed := AccessControl.is_admin v = true /\ can_create (create_request (form_input m)) (db s) (w_now (world s)) in
  exists p0 p' s', deliver (CP := CP) CreateUserSubmit p = Ok p0 /\ settles 3 p0 s = (Ok p', s') /\ pg_futures p' = []
    /\ (allowed /\ user_created m (pg_out p) s p' s'
        \/ ~ allowed /\ is_Some (pg_error p') /\ pg_out p' = pg_out p /\ db s' = db s).
Proof using B6 LL OO BSL DL DG.
  destruct p as [m0 e running fs sh n o]. cbn [pg_com pg_running pg_futures pg_out]. intros -> Hv -> -> Hapi Htok Hchk Hok Hk.
  destruct (create_user_submit rng m e sh n o Hv) as [sh0 Hp0].
  destruct (AccessControl.is_admin v) eqn:Hadm.
  2:{ assert (Href : refused (GraphqlMutation.create_user v (form_input m)) (world s)) by exact (admin_refused v _ _ _ Hadm).
      destruct Href as [Hs [e1 He]].
      destruct (creation_fails m sh0 n o s tok v e1 Hapi Hchk) as (p' & s' & Hset & Hf & Hres).
      { rewrite (surjective_pairing (GraphqlMutation.create_user _ _ _)). f_equal; [exact He|exact Hs]. }
      do 3 eexists. split; [exact Hp0|]. split; [exact Hset|]. split; [done|]. right. split; [by intros [? _]|done]. }
  pose proof (create_user_run v (form_input m) (world s) Hadm Hok eq_refl eq_refl) as Hrun.
  pose proof (sql_create_user_correct (create_request (form_input m)) (world s) Hok) as Hc.
  pose proof (sql_create_user_preserves (create_request (form_input m)) (world s) Hok) as Hok1.
  destruct (sql_create_user _ _) as [[[]|e1|pp] w1]; [| |done].
  - destruct Hrun as (x & Hrun & _). destruct Hc as (Hcan & A & -> & HA). 
    destruct (creation_succeeds m sh0 n o s tok v k _ x Hv Hapi Htok Hchk Hadm Hok1 eq_refl Hk Hrun) as (p' & s' & Hset & Hf & He & Ho & Hres);
      [apply lookup_insert_eq|].
    do 3 eexists. split; [exact Hp0|]. split; [exact Hset|]. split; [done|]. left. split; [done|].
    split; [done|]. split; [done|]. destruct (String.eqb_spec (cum_password m) "") as [Hp|Hp].
    + rewrite Hres. split; [do 2 eexists; split; [reflexivity|]; by split|].
      intros q. eapply sql_bind_no_password; [apply lookup_insert_eq|done].
    + destruct Hres as [[hash Hdb] Honly]. split; [|done]. do 2 eexists. split; [|split; [exact HA|by eexists]].
      rewrite Hdb. cbn. by rewrite insert_insert_eq.
  - destruct Hrun as [e2 Hrun]. destruct Hc as [Hno ->]. 
    destruct (creation_fails m sh0 n o s tok v e2 Hapi Hchk Hrun) as (p' & s' & Hset & Hf & Hres).
    do 3 eexists. split; [exact Hp0|]. split; [exact Hset|]. split; [done|]. right. split; [by intros [_ ?]|done].
Qed.
End WebUsers.
