(* ===== verification/WebDetails.v ===== *)
(** * The details of a user, from the page to the rows and back

    The page of a user's details is loaded from the server, edited, saved, and loaded
    again: what the database holds after the saving, and what the page shows before and
    after. *)

From S2P Require Import Prelude RustStd Extern Types Concrete Handler Deserialize Db ExampleDb SqlFilters SqlSchema SqlUser SqlGroup SqlBackend SqlTcp SqlOpaque AccessControl LdapHandler LdapSql AuthService AuthSession Clients GraphqlQuery GraphqlMutation GraphqlSql StoredTypes TypeSafety WebPage WebApi WebApp WebForms WebSafety WebDirectory WebEdit WebPages WebSql WebGraphql WebUsers.
From Stdlib Require Import Ascii String.
From stdpp Require Import strings list gmap.
#[local] Open Scope rust_scope.
#[local] Open Scope string_scope.

(* ------------------------------------------------------------------ *)
(** ** Loading the page *)

Section Loading.
Context `{C : Crates} `{B : Bincode} `{SL : SqlLib} `{T : ErrorTexts} `{UE : UrlEncoding}.
Implicit Types (v : ValidationResults) (w : World).

(** The groups of a user, as the page lists them. *)
Definition gql_group (schema : PublicSchema) (m : GroupId * GroupRow) : GqlGroup :=
  mk_gql_group m.1 (ci_raw (gr_display_name m.2)) (gr_creation_date m.2) (uuid_str (gr_uuid m.2)) [] schema.
Definition shown_groups (schema : PublicSchema) (db : Db) (u : UserId) : list WebGroup :=
  map select_web_group (sort_by group_name_leb (map (gql_group schema) (linked_groups db u))).

(** What the page shows of a row.  The names and the picture are read off a list that is
    always empty. *)
Definition seen_public v (db : Db) : PublicSchema := public_schema_from (seen_schema v db).
Definition shown_user v (db : Db) (u : UserId) (r : UserRow) : UserPage :=
  mk_user_page (user_id_str u) (ci_raw (ur_email r)) (default "" (ur_display_name r)) "" "" None (ur_creation_date r)
    (uuid_str (ur_uuid r)) (shown_groups (seen_public v db) db u).

(** Every value of the user is of an attribute that [v] sees. *)
Definition all_visible v (db : Db) (u : UserId) : Prop :=
  forall a, a ∈ attributes_of db u ->
    is_Some (get_attribute_schema (sc_user_attributes (get_schema (seen_public v db))) (av_name a)).

Lemma user_groups_field_run v u w x r :
  db_users (w_db w) !! u = Some r -> can_read v u = true -> gu_groups x = None -> user_user_id (gu_user x) = u ->
  user_groups_field v x w = (Ok (sort_by group_name_leb (map (gql_group (gu_schema x)) (linked_groups (w_db w) u))), w).
Proof.
  intros Hu Hr Hg Hid. unfold user_groups_field. rewrite Hg, Hid.
  rewrite (sbind_run _ _ w readable_view w) by (unfold slift, get_readable_handler; by rewrite Hr).
  rewrite (sbind_run _ _ w (map group_details_from_model (linked_groups (w_db w) u)) w).
  2:{ apply (field_run (sql_get_user_groups u) _ (Ok _)). unfold sql_get_user_groups, sbind, query, slift. cbn. by rewrite Hu. }
  rewrite (sbind_run _ _ w (map (gql_group (gu_schema x)) (linked_groups (w_db w) u)) w); [done|].
  unfold slift. f_equal. apply try_map_ok. apply Forall2_fmap_l, Forall2_fmap_r, Forall_Forall2_diag, Forall_forall. done.
Qed.

(** The page is loaded for those who may read the user and see all its attributes, and for
    nobody else. *)
Lemma details_run v raw id w r :
  url_decode raw = Some id -> let u := user_id_new id in
  can_read v u = true -> db_users (w_db w) !! u = Some r -> all_visible v (w_db w) u ->
  execute v (GetUserDetails raw) w = (Ok (shown_user v (w_db w) u r), w).
Proof.
  intros Hd u Hr Hu Hall. cbn [execute].
  destruct (from_schema_run _ (attributes_of (w_db w) u) Hall) as [l Hl].
  set (x := mk_gql_user (user_from_model (u, r)) l (seen_public v (w_db w)) None).
  rewrite (sbind_run _ _ w x w).
  - unfold select_user_page. rewrite (sbind_run (slift (first_name x)) _ w "" w) by done.
    rewrite (sbind_run (slift (last_name x)) _ w "" w) by done. rewrite (sbind_run (slift (avatar x)) _ w None w) by done.
    by rewrite (sbind_run _ _ _ _ _ (user_groups_field_run v u w x r Hu Hr eq_refl eq_refl)).
  - unfold query_user. rewrite (sbind_run _ _ w id w) by (unfold slift; by rewrite Hd). fold u.
    rewrite (sbind_run _ _ w readable_view w) by (unfold slift, get_readable_handler; by rewrite Hr).
    rewrite (sbind_run _ _ _ _ _ (query_get_schema_run v w)).
    rewrite (sbind_run _ _ w (full_user (w_db w) (u, r)) w).
    2:{ apply (field_run (sql_get_user_details u) _ (Ok _)). by rewrite sql_get_user_details_run, Hu. }
    unfold slift, from_user. change (user_attributes _) with (attributes_of (w_db w) u). unfold seen_public in Hl. by rewrite Hl.
Qed.
Lemma details_loaded v raw w up w' :
  execute v (GetUserDetails raw) w = (Ok up, w') ->
  exists id r, url_decode raw = Some id /\ let u := user_id_new id in
    can_read v u = true /\ db_users (w_db w) !! u = Some r /\ all_visible v (w_db w) u /\ up = shown_user v (w_db w) u r.
Proof.
  intros H. pose proof H as H0. cbn [execute] in H. apply sbind_ok in H as (x & w1 & H & _). unfold query_user in H.
  apply sbind_ok in H as (id & w2 & [Hd%ok_or_ok ->]%slift_ok & H). cbv zeta in H.
  apply sbind_ok in H as (h & w3 & [Hh%ok_or_ok ->]%slift_ok & H). rewrite (sbind_run _ _ _ _ _ (query_get_schema_run v w)) in H.
  apply sbind_ok in H as (d & w4 & Hdet & [Hx _]%slift_ok). unfold get_readable_handler in Hh.
  destruct (can_read v (user_id_new id)) eqn:Hr; [|done]. injection Hh as <-. apply smap_err_ok in Hdet.
  change (rd_get_user_details readable_view ?i w) with (sql_get_user_details i w) in Hdet. rewrite sql_get_user_details_run in Hdet.
  destruct (db_users (w_db w) !! user_id_new id) as [r|] eqn:Hu; [|done]. injection Hdet as <- <-.
  assert (Hall : all_visible v (w_db w) (user_id_new id)).
  { apply obind_ok in Hx as (l & Hl%try_map_ok & _). intros a Ha. apply list_elem_of_lookup in Ha as [i Hi].
    destruct (Forall2_lookup_l _ _ _ _ _ Hl Hi) as (y & _ & Hy). unfold from_schema in Hy.
    change (get_attribute_schema _ _) with (get_attribute_schema (sc_user_attributes (get_schema (seen_public v (w_db w)))) (av_name a)) in Hy.
    by destruct (get_attribute_schema _ _); [eexists|]. }
  exists id, r. split; [done|]. split_and!; try done.
  rewrite (details_run v raw id w r Hd Hr Hu Hall) in H0. by injection H0.
Qed.

(** An attribute that is visible to all is seen by everyone. *)
Lemma seen_visible v db a r :
  db_user_attribute_schema db !! a = Some r -> Db.sr_is_visible r = true ->
  is_Some (get_attribute_schema (sc_user_attributes (get_schema (seen_public v db))) a).
Proof.
  intros Hr Hvis. unfold seen_public, seen_schema. destruct (get_user_restricted_lister_handler v) as [u|].
  2:{ rewrite public_user_attribute, Hr. by eexists. }
  unfold get_attribute_schema. cbn [get_schema public_schema_from sc_user_attributes al_attributes].
  rewrite find_sorted, find_app. destruct (find _ (List.filter _ _)) as [y|] eqn:Hy; [by eexists|].
  pose proof (List.find_none _ _ Hy (user_attribute_schema_from (a, r))) as Hn. cbn in Hn.
  rewrite bool_decide_eq_true_2 in Hn by done. discriminate Hn. apply List.filter_In. split; [|done].
  apply list_elem_of_In, list_elem_of_fmap. exists (a, r). split; [done|]. by apply elem_of_order_by.
Qed.
End Loading.

(* ------------------------------------------------------------------ *)
(** ** The mutation that updates a user *)

Section UpdateRun.
Context `{C : Crates} `{B : Bincode} `{SL : SqlLib} `{T : ErrorTexts}.

(** What the request of the page asks for. *)
Lemma update_user_run (v : ValidationResults) (input : UpdateUserInput) w :
  can_write v (user_id_new (uui_id input)) = true ->
  uui_avatar input = None -> uui_insert_attributes input = None ->
  update_user v input w = (let! _ := domain (sql_update_user (update_request input None [])) in sret success_new) w.
Proof.
  intros Hw Ha Hi. unfold update_user. rewrite (sbind_run _ _ w writeable_view w)
    by (unfold slift, get_writeable_handler; by rewrite Hw).
  rewrite Ha, Hi. rewrite (sbind_run _ _ w None w) by done.
  rewrite (sbind_run _ _ w (public_schema_from (schema_of (w_db w))) w) by done. by rewrite (sbind_run _ _ w [] w).
Qed.
End UpdateRun.

(* ------------------------------------------------------------------ *)
(** ** The request of the page *)

Section Request.
Context `{C : Crates} `{B : Bincode} `{SL : SqlLib} `{T : ErrorTexts} `{UE : UrlEncoding}.
Implicit Types (v : ValidationResults) (m : UserModel).

(** The names that were typed, as they are stored. *)
Definition name_row (name text : string) : list (AttributeName * Serialized) :=
  if String.eqb text "" then [] else [(attribute_name_new name, serialized_from TyString text)].
Definition typed_names m : list (AttributeName * Serialized) :=
  (name_row "first_name" (um_first_name m) ++ name_row "last_name" (um_last_name m))%list.

(** Everyone sees the names, as after the migrations. *)
Definition names_visible (d : Db) : Prop := forall name, name = "first_name" \/ name = "last_name" ->
  exists r, db_user_attribute_schema d !! attribute_name_new name = Some r /\ Db.sr_is_visible r = true.

(** The row with what the form says. *)
Definition row_says m (row row' : UserRow) : Prop :=
  ci_raw (ur_email row') = um_email m /\ ur_lowercase_email row' = to_lowercase (um_email m)
  /\ default "" (ur_display_name row') = um_display_name m
  /\ (ur_creation_date row', ur_password_hash row', ur_totp_secret row', ur_mfa_type row', ur_uuid row')
     = (ur_creation_date row, ur_password_hash row, ur_totp_secret row, ur_mfa_type row, ur_uuid row).

(** What the server makes of the request of the page. *)
Definition page_request v (d : Db) (u : UserId) (r : UserRow) m : UpdateUserRequest :=
  update_request (user_input (shown_user v d u r) m None) None [].

Lemma page_row_says v d u r m : user_row_ok r -> row_says m r (row_after (page_request v d u r m) r).
Proof.
  intros Hr. unfold row_says, row_after, updated_row, page_request, update_request, user_input. cbn. unfold changed.
  split; [|split; [|split; [|done]]].
  - by destruct (String.eqb_spec (ci_raw (ur_email r)) (um_email m)).
  - destruct (String.eqb_spec (ci_raw (ur_email r)) (um_email m)) as [<-|]; [|done]. cbn. apply Hr.
  - destruct (String.eqb_spec (default "" (ur_display_name r)) (um_display_name m)) as [<-|]; [done|].
    by destruct (um_display_name m).
Qed.
(** Whether it collides with another row is a matter of the address and the UUID. *)
Lemma row_says_unique m row row' u d :
  row_says m row row' ->
  user_unique u row' d <-> user_unique u (mk_user_row (mk_ci (um_email m)) (to_lowercase (um_email m)) None 0%Z None None None (ur_uuid row)) d.
Proof.
  destruct row' as [[e] l dn cr pw tt mf uu]. intros (He & Hl & _ & Hk). cbn in He, Hl, Hk. subst e l.
  assert (uu = ur_uuid row) as -> by congruence. done.
Qed.
Lemma page_updates v d u r m :
  updated_attributes (page_request v d u r m) = typed_names m /\ removed_attributes (page_request v d u r m) = [].
Proof.
  unfold updated_attributes, removed_attributes, named_values, page_request, update_request, user_input, typed_names, name_row. cbn. unfold changed.
  by destruct (um_first_name m), (um_last_name m).
Qed.
Lemma typed_names_elem m a x : (a, x) ∈ typed_names m -> a = attribute_name_new "first_name" \/ a = attribute_name_new "last_name".
Proof.
  unfold typed_names, name_row. destruct (String.eqb (um_first_name m) ""), (String.eqb (um_last_name m) ""); set_solver.
Qed.

(** What is written is visible. *)
Definition stored_names m (a : AttributeName) (old : option Serialized) : option Serialized :=
  match last_value (typed_names m) a with Some x => Some x | None => old end.
Lemma saved_visible v d u A U m :
  all_visible v d u -> names_visible d -> (forall a, A !! (u, a) = stored_names m a (db_user_attributes d !! (u, a))) ->
  all_visible v (set_user_attributes A (set_users U d)) u.
Proof.
  intros Hall Hn HA a Ha%elem_of_attributes_of. cbn in Ha. rewrite HA in Ha. unfold stored_names in Ha.
  change (seen_public v (set_user_attributes A (set_users U d))) with (seen_public v d).
  destruct (last_value (typed_names m) (av_name a)) as [x|] eqn:Hl.
  - apply last_value_elem in Hl. apply typed_names_elem in Hl.
    assert (Hname : exists name, (name = "first_name" \/ name = "last_name") /\ av_name a = attribute_name_new name)
      by (destruct Hl; eauto).
    destruct Hname as (name & Hname & ->). destruct (Hn name Hname) as (r & Hr & Hvis). by eapply seen_visible.
  - apply (Hall (mk_attribute_value (av_name a) (av_value a))). by apply elem_of_attributes_of.
Qed.

(** The mutation: refused to those who may not write the user, and when the address is
    another user's. *)
Lemma page_update v d u r m w :
  d = w_db w -> user_id_wf u = true -> db_users d !! u = Some r -> names_visible d ->
  let request := page_request v d u r m in
  let input := user_input (shown_user v d u r) m None in
  if decide (can_write v u = true /\ user_unique u (row_after request r) d)
  then exists A, update_user v input w = (Ok success_new, set_db (set_user_attributes A
         (set_users (<[u := row_after request r]> (db_users d)) d)) w)
       /\ forall u' a, A !! (u', a) = if decide (u' = u) then stored_names m a (db_user_attributes d !! (u', a))
                                     else db_user_attributes d !! (u', a)
  else exists e, update_user v input w = (Err e, w).
Proof.
  intros -> Hwf Hu Hn request input.
  assert (Hid : uu_user_id request = u) by (by apply user_id_new_str).
  destruct (can_write v u) eqn:Hw.
  2:{ rewrite decide_False by (by intros [? _]). eexists. unfold update_user. apply sbind_run_err.
      unfold slift, get_writeable_handler. change (user_id_new (uui_id input)) with (uu_user_id request). by rewrite Hid, Hw. }
  assert (Hrun : update_user v input w = (let! _ := domain (sql_update_user request) in sret success_new) w).
  { apply update_user_run; [|done..]. change (user_id_new (uui_id input)) with (uu_user_id request). by rewrite Hid. }
  destruct (page_updates v (w_db w) u r m) as [Hup Hrem]. fold request in Hup, Hrem.
  pose proof (sql_update_user_decided request w r) as Hdec. rewrite Hid in Hdec. specialize (Hdec Hu eq_refl eq_refl).
  rewrite Hup in Hdec. destruct (decide (user_unique u (row_after request r) (w_db w))) as [Huniq|Huniq].
  - rewrite decide_True by done. destruct Hdec as [w' Hsql].
    { apply Forall_fmap, Forall_forall. intros [a x] Hin%typed_names_elem. cbn. destruct Hin as [-> | ->];
        [destruct (Hn "first_name") as (row & -> & _)|destruct (Hn "last_name") as (row & -> & _)]; eauto. }
    pose proof (sql_update_user_correct request w) as Hc. rewrite Hsql in Hc. rewrite Hid in Hc.
    destruct Hc as (r' & A & Hr' & _ & _ & -> & HA). rewrite Hu in Hr'. injection Hr' as <-. exists A. split.
    + rewrite Hrun. by rewrite (sbind_run _ _ _ _ _ (field_run _ _ _ _ Hsql)).
    + intros u' a. rewrite HA. case_decide; [|done]. unfold attribute_after, stored_names. rewrite Hup, Hrem.
      destruct (last_value _ _); [done|]. by rewrite decide_False by apply not_elem_of_nil.
  - rewrite decide_False by (by intros [_ ?]). destruct Hdec as [e Hsql].
    { apply Forall_fmap, Forall_forall. intros [a x] Hin%typed_names_elem. cbn. destruct Hin as [-> | ->];
        [destruct (Hn "first_name") as (row & -> & _)|destruct (Hn "last_name") as (row & -> & _)]; eauto. }
    eexists. rewrite Hrun. apply sbind_run_err. by rewrite (field_run _ _ _ _ Hsql).
Qed.
End Request.

(* ------------------------------------------------------------------ *)
(** ** Saving the page *)

Section WebDetails.
Context `{C : Crates} `{B : Bincode} `{SL : SqlLib} `{OL : OpaqueLib} `{O : Orion} `{BS : !BincodeStream}
  `{CF : !OpaqueConfig} `{T : ErrorTexts} `{SH : StdHash} `{J : Jwt} `{ML : !Mailer World} `{UE : UrlEncoding} `{V : ValidatorLib}
  `{IL : ImageLib} `{B6 : Base64}.
Context {S : Type} `{BR : !Browser S} `{PL : !PageLib}.
Context {app_of : S -> AppState World} {api_token token : S -> option string} {DG : DeliversGraphql app_of api_token token}.
#[local] Existing Instance world_clock.
Context (user : UserPage).
#[local] Abbreviation CP := (user_form_component user).
#[local] Abbreviation settles := (settle (S := S) (CP := CP)).
#[local] Abbreviation world s := (app_backend (app_of s)).
#[local] Abbreviation db s := (w_db (app_backend (app_of s))).
Implicit Types (v : ValidationResults) (m : UserModel).

Lemma deliver_update_failed p e :
  pg_running p = false ->
  deliver (CP := CP) (UserUpdated (inl e)) p = Ok (render (set_error (Some e) (set_com (set_just_updated false (pg_com p)) p))).
Proof using Type. destruct p as [[fm av rd ju us] e0 r f sh n o]. cbn. intros ->. reflexivity. Qed.

(** C18. Saving the details of a user, end to end.  The page shows what loading it gave, the
    form is valid and says something else, no new picture is chosen, and the user clicks
    and waits for the one answer.  If the JWT of the cookie may write that user and the
    address of the form is nobody else's, then the row has the address and the display
    name of the form, a first or last name that is not empty is stored, and nothing else
    of the database changes; the page shows the form's values as the user's.  Otherwise
    the page shows an error, its user and the database are what they were.  Loading the
    page again gives what the form said, except for the first and the last name, which are
    empty although they are stored. *)
Theorem web_details_saved p s tok v raw m :
  let up := udf_user (pg_com p) in
  let u := user_id_new (up_id up) in
  udf_form (pg_com p) = m -> user_model_valid m = true -> udf_avatar (pg_com p) = None ->
  pg_running p = false -> pg_futures p = [] -> is_default_input (user_input up m None) = false ->
  api_token s = Some tok -> fst (check_if_token_is_valid tok (app_of s)) = Ok v ->
  execute v (GetUserDetails raw) (world s) = (Ok up, world s) -> world_ok (world s) -> names_visible (db s) ->
  exists row row' p0 p' s', db_users (db s) !! u = Some row /\ row_says m row row'
    /\ deliver (CP := CP) SubmitClicked p = Ok p0 /\ settles 1 p0 s = (Ok p', s') /\ pg_futures p' = []
    /\ if decide (can_write v u = true /\ user_unique u row' (db s))
       then pg_error p' = None /\ udf_user (pg_com p') = with_model m up
            /\ (exists A, db s' = set_user_attributes A (set_users (<[u := row']> (db_users (db s))) (db s))
                 /\ forall u' a, A !! (u', a) = if decide (u' = u) then stored_names m a (db_user_attributes (db s) !! (u', a))
                                               else db_user_attributes (db s) !! (u', a))
            /\ execute v (GetUserDetails raw) (world s')
               = (Ok (with_model (mk_user_model (um_email m) (um_display_name m) "" "") up), world s')
       else is_Some (pg_error p') /\ udf_user (pg_com p') = up /\ db s' = db s.
Proof using DG.
  intros up u Hm Hv Hav Hrun Hfut Hne Htok Hchk Hload Hok Hn.
  destruct (details_loaded v raw (world s) up (world s) Hload) as (id & row & Hraw & Hread & Hu & Hall & Hup).
  assert (Hid : u = user_id_new id) by (unfold u; rewrite Hup; apply user_id_new_str, user_id_new_wf).
  rewrite <- Hid in *.
  set (row' := row_after (page_request v (db s) u row m) row).
  pose proof (page_row_says v (db s) u row m (ok_user_rows _ Hok _ _ Hu)) as Hsays. fold row' in Hsays.
  pose proof (deliver_submit user p up m eq_refl Hm Hv Hav) as Hp0. cbv zeta in Hp0. rewrite Hne, Hrun, Hfut in Hp0.
  pose proof (page_update v (db s) u row m (world s) eq_refl ltac:(rewrite Hid; apply user_id_new_wf) Hu Hn) as Hupd. cbv zeta in Hupd. rewrite <- Hup in Hupd. fold row' in Hupd.
  set (p0 := set_futures true _ _) in Hp0.
  assert (Hout : exists p' s', settles 1 p0 s = (Ok p', s') /\ pg_futures p' = []
    /\ if decide (can_write v u = true /\ user_unique u row' (db s))
       then pg_error p' = None /\ udf_user (pg_com p') = with_model m up
            /\ app_of s' = mk_app (snd (update_user v (user_input up m None) (world s))) (jwt_blacklist (app_of s))
       else is_Some (pg_error p') /\ udf_user (pg_com p') = up /\ db s' = db s).
  { case_decide.
    - destruct Hupd as (A & Hq & _).
      destruct (graphql_query_ok (UpdateUser (user_input up m None)) "Error trying to update user" tok v s _ _ Htok Hchk Hq)
        as (s' & Hs & Ha & _).
      do 2 eexists. split; [erewrite settle_step; [|reflexivity|exact Hs|apply (deliver_updated user (set_futures false [] p0)); exact Hav];
        by apply settle_done|]. split; [done|]. split; [done|]. split; [cbn; by rewrite Hm|]. by rewrite Ha, Hq.
    - destruct Hupd as (e & Hq).
      destruct (graphql_query_err (UpdateUser (user_input up m None)) "Error trying to update user" tok v s _ _ Htok Hchk Hq)
        as (err & s' & Hs & Ha & _).
      do 2 eexists. split; [erewrite settle_step_err; [|reflexivity|exact Hs|by apply (deliver_update_failed (set_futures false [] p0))];
        by apply settle_done|]. split; [done|]. split; [by eexists|]. split; [done|]. by rewrite Ha. }
  destruct Hout as (p' & s' & Hset & Hf & Hout). exists row, row', p0, p', s'. split_and!; try done.
  case_decide; [|done]. destruct Hout as (He & Hus & Ha), Hupd as (A & Hq & HA). rewrite Hq in Ha. cbn [snd] in Ha.
  split; [done|]. split; [done|]. rewrite Ha. split; [by exists A|]. cbn [app_backend].
  rewrite (details_run v raw id _ row' Hraw); rewrite <- ?Hid; [|done|apply lookup_insert_eq|].
  - do 2 f_equal. rewrite Hup. destruct Hsays as (H1 & _ & H2 & _).
    unfold shown_user, with_model. cbn [up_id up_email up_display_name up_first_name up_last_name up_avatar up_creation_date up_uuid up_groups
      um_email um_display_name um_first_name um_last_name]. by rewrite H1, H2.
  - eapply saved_visible; [done..|]. intros a. rewrite HA. by rewrite decide_True.
Qed.
End WebDetails.
