(* ===== verification/Mail.v ===== *)
(** * Mail

    Models [server/src/infra/mail.rs] and the command of [server/src/main.rs] that sends
    a test mail: what is sent to whom with which transport, and what becomes of the
    errors.  lettre, uuid and url are parameters; sending is an effect on the state. *)

From S2P Require Import Prelude RustStd Extern Types Concrete Handler Deserialize Db ExampleDb SqlFilters SqlSchema SqlUser SqlGroup SqlBackend SqlTcp SqlOpaque Configuration AccessControl LdapHandler LdapSql AuthService AuthSession MigrationTool WebApp.
From Stdlib Require Import Ascii String.
From stdpp Require Import strings list gmap.
#[local] Open Scope rust_scope.
#[local] Open Scope string_scope.

(** An [anyhow::Error]: its text, and those of what caused it. *)
Record MailError := mk_mail_error { me_text : string; me_causes : list string }.
Definition mail_error (text : string) : MailError := mk_mail_error text [].
Definition mail_context (text : string) (e : MailError) : MailError := mk_mail_error text (me_text e :: me_causes e).

Section Mail.
Context `{CT : ConfigTypes}.

(** What a message is built from, and how it is sent. *)
Record Mail := mk_mail {
  ml_message_id : string;
  ml_from : Mailbox;
  ml_reply_to : Mailbox;
  ml_to : Mailbox;
  ml_subject : string;
  ml_body : string;
}.
Record Transport := mk_transport {
  tr_encryption : SmtpEncryption;
  tr_server : string;
  tr_port : Z;
  tr_credentials : option (string * string);
}.

(** lettre, the generator of message ids, and addresses; an error is its text.
    [check_message] is the builder's check, [check_relay] the TLS parameters of a host,
    [url_extend] fails for an address that cannot be a base. *)
Class MailLib (St : Type) : Type := {
  parse_mailbox : string -> string + Mailbox;
  check_message : Mail -> option string;
  check_relay : string -> option string;
  new_v1_uuid : forall E, stM St E string;
  smtp_send : Transport -> Mail -> stM St string unit;
  url_parse : string -> option Url;
  url_domain : Url -> option string;
  url_extend : Url -> list string -> option Url;
  url_text : Url -> string;
}.
End Mail.
Arguments new_v1_uuid {CT St _ E}.

Section SendMail.
Context `{CT : ConfigTypes} {St : Type} `{LM : !MailLib St}.

Abbreviation mailing A := (stM St MailError A).

(** [?] on an error of lettre. *)
Definition checked_by (e : option string) : mailing unit :=
  match e with Some text => sthrow (mail_error text) | None => sret tt end.

Definition new_line : string := String "010"%char "".

(** The transport for the options.
    Source: server/src/infra/mail.rs#L43-60 *)
Definition transport_for (options : MailOptions) : mailing Transport :=
  match smtp_encryption options with
  | EncryptionNone => sret tt
  | EncryptionTls | EncryptionStartTls => checked_by (check_relay (mail_server options))
  end ;;
  sret (mk_transport (smtp_encryption options) (mail_server options) (mail_port options)
    (if negb (String.eqb (mail_user options) "") then Some (mail_user options, mail_password options) else None)).

(** Source: server/src/infra/mail.rs#async fn send_email *)
Definition send_email (to : Mailbox) (subject body : string) (options : MailOptions) (server_url : Url) : mailing unit :=
  let! from := match mail_from options with
               | Some from => sret from
               | None => slift (expect "called `Result::unwrap()` on an `Err` value"
                           match parse_mailbox "LLDAP <nobody@lldap>" with inr m => Some m | inl _ => None end)
               end in
  let reply_to := default from (reply_to options) in
  let! uuid := new_v1_uuid in
  let email := mk_mail ("<" +:+ uuid +:+ "@" +:+ default "" (url_domain server_url) +:+ ">") from reply_to to subject body in
  checked_by (check_message email) ;;
  let! mailer := transport_for options in
  let! r := stry (smtp_send mailer email) in
  match r with
  | inl e =>
      if str_contains "CorruptMessage" e then
        sthrow (mail_context e
          (mail_error "CorruptMessage returned by lettre, this usually means the SMTP encryption setting is wrong."))
      else sthrow (mail_error e)
  | inr _ => sret tt
  end.

Definition reset_body (username link : string) : string :=
  "Hello " +:+ username +:+ "," +:+ new_line
  +:+ "This email has been sent to you in order to validate your identity." +:+ new_line
  +:+ "If you did not initiate the process your credentials might have been" +:+ new_line
  +:+ "compromised. You should reset your password and contact an administrator." +:+ new_line
  +:+ new_line
  +:+ "To reset your password please visit the following URL: " +:+ link +:+ new_line
  +:+ new_line
  +:+ "Please contact an administrator if you did not initiate the process.".

(** Source: server/src/infra/mail.rs#pub async fn send_password_reset_email *)
Definition mail_password_reset (username to token : string) (server_url : Url) (options : MailOptions) : mailing unit :=
  let! to := match parse_mailbox to with inl e => sthrow (mail_error e) | inr m => sret m end in
  let! reset_url := slift (expect "called `Result::unwrap()` on an `Err` value"
                      (url_extend server_url ["reset-password"; "step2"; token])) in
  send_email to "[LLDAP] Password reset requested" (reset_body username (url_text reset_url)) options server_url.

(** Source: server/src/infra/mail.rs#pub async fn send_test_email *)
Definition send_test_email (to : Mailbox) (options : MailOptions) : mailing unit :=
  let! url := slift (expect "called `Result::unwrap()` on an `Err` value" (url_parse "http://localhost")) in
  send_email to "LLDAP test email" "The test is successful! You can send emails from LLDAP" options url.

(** The text of the context is a literal.
    Source: server/src/main.rs#async fn send_test_email_command *)
Definition send_test_email_command (to : string) (options : MailOptions) : mailing unit :=
  let! to := match parse_mailbox to with inl e => sthrow (mail_error e) | inr m => sret m end in
  smap_err (mail_context "Could not send email: {:#}") (send_test_email to options).

(** The mailer of the login service; an error is shown by its text alone. *)
Definition mail_service (server_url : Url) (options : MailOptions) : Mailer St := {|
  send_password_reset_email username to token := smap_err me_text (mail_password_reset username to token server_url options);
|}.
End SendMail.

(* ------------------------------------------------------------------ *)
(** ** The mail with the link *)

Section ResetMail.
Context `{C : Crates} `{B : Bincode} `{SL : SqlLib} `{OL : OpaqueLib} `{O : Orion} `{BS : !BincodeStream}
  `{CF : !OpaqueConfig} `{T : ErrorTexts} `{SH : StdHash} `{J : Jwt} `{CT : ConfigTypes} `{LM : !MailLib World}.
Context (server_url : Url) (options : MailOptions).
#[local] Existing Instance world_clock.
#[local] Instance service : Mailer World := mail_service server_url options.
Implicit Type s : AppState World.

(** The address that mails come from, if the default is one. *)
Definition sender : option Mailbox :=
  match mail_from options with
  | Some m => Some m
  | None => match parse_mailbox "LLDAP <nobody@lldap>" with inr m => Some m | inl _ => None end
  end.

(** Sending a mail is building it and handing it over once. *)
Lemma send_email_run to subject body from transport uuid w w1 :
  new_v1_uuid (E := MailError) w = (Ok uuid, w1) -> sender = Some from ->
  let mail := mk_mail ("<" +:+ uuid +:+ "@" +:+ default "" (url_domain server_url) +:+ ">") from (default from (reply_to options)) to subject body in
  check_message mail = None -> transport_for options w1 = (Ok transport, w1) ->
  snd (send_email to subject body options server_url w) = snd (smtp_send transport mail w1)
  /\ omap_err me_text (fst (send_email to subject body options server_url w)) = fst (smtp_send transport mail w1).
Proof using Type.
  intros Hu Hf mail Hm Ht. unfold send_email. rewrite (sbind_run _ _ w from w).
  2:{ unfold slift. unfold sender in Hf. destruct (mail_from options); [by injection Hf as ->|]. by rewrite Hf. }
  cbv zeta. rewrite (sbind_run _ _ _ _ _ Hu). fold mail. unfold checked_by. rewrite Hm. rewrite (sbind_run _ _ w1 tt w1) by done.
  rewrite (sbind_run _ _ _ _ _ Ht). unfold sbind, stry. destruct (smtp_send transport mail w1) as [[[]|e|p] w2]; [done| |done].
  by destruct (str_contains "CorruptMessage" e).
Qed.

Lemma reset_mail_run username email token to from link transport uuid w w1 :
  parse_mailbox email = inr to -> url_extend server_url ["reset-password"; "step2"; token] = Some link ->
  new_v1_uuid (E := MailError) w = (Ok uuid, w1) -> sender = Some from ->
  let mail := mk_mail ("<" +:+ uuid +:+ "@" +:+ default "" (url_domain server_url) +:+ ">") from (default from (reply_to options)) to
    "[LLDAP] Password reset requested" (reset_body username (url_text link)) in
  check_message mail = None -> transport_for options w1 = (Ok transport, w1) ->
  send_password_reset_email username email token w = smtp_send transport mail w1.
Proof using Type.
  intros Hto Hlink Huuid Hfrom mail Hm Htr.
  destruct (send_email_run to "[LLDAP] Password reset requested" (reset_body username (url_text link)) from transport uuid w w1
    Huuid Hfrom Hm Htr) as [Hstate Hres].
  change (send_password_reset_email username email token w)
    with (smap_err me_text (mail_password_reset username email token server_url options) w).
  unfold mail_password_reset, smap_err. rewrite Hto. rewrite (sbind_run _ _ w to w) by done.
  rewrite (sbind_run _ _ w link w) by (unfold slift; by rewrite Hlink).
  rewrite (surjective_pairing (send_email _ _ _ _ _ w)). rewrite Hres, Hstate. by rewrite <- surjective_pairing.
Qed.

(** The user that a name or an address stands for. *)
Definition reset_filter (name : string) : UserRequestFilter := UOr [UUserId (user_id_new name); UEquality ColEmail name].
(** The token that is made next, and the database with it. *)
Definition next_token (w : World) : string := w_rng w (w_rng_pos w).
Definition token_made (u : UserId) (w : World) : World :=
  mk_world (set_password_reset_tokens (<[next_token w := mk_reset_row u (w_now w + minutes 10)%Z]> (db_password_reset_tokens (w_db w))) (w_db w))
    (w_now w) (w_rng w) (S (w_rng_pos w)).

Lemma start_password_reset_run u r w :
  db_users (w_db w) !! u = Some r -> db_password_reset_tokens (w_db w) !! next_token w = None ->
  sql_start_password_reset u w = (Ok (Some (next_token w)), token_made u w).
Proof using Type.
  intros Hu Hn. unfold sql_start_password_reset, gen_random_string, sbind, utc_now, insert_reset_token, statement, guard_, query.
  cbn. rewrite Hu. cbn. rewrite !decide_True by (cbn; eauto). done.
Qed.

(** C19. Asking for a reset sends one mail, with the page's link.  When exactly one user
    has the name or the address that was typed, and the mail can be built, a new token
    for that user is stored, good for ten minutes; one message is handed to the
    transport that the options ask for, addressed to the user's address, whose text has
    the link with the token under the server's URL; the path of the link is the route
    that the web page has for the second step.  Success is answered if the message was
    accepted, and an error that tells the transport's text if not.  When nobody is
    found, success is answered as well, and nothing happens. *)
Theorem reset_mail_correct name s :
  let w := app_backend s in
  let found := fst (sql_list_users (Some (reset_filter name)) false w) in
  (forall x r to from link uuid w2 transport,
     let token := next_token w in
     let user := uag_user x in
     found = Ok [x] -> db_users (w_db w) !! user_user_id user = Some r -> db_password_reset_tokens (w_db w) !! token = None ->
     parse_mailbox (ci_raw (user_email user)) = inr to ->
     url_extend server_url (to_path (RouteFinishResetPassword token)) = Some link -> sender = Some from ->
     new_v1_uuid (E := MailError) (token_made (user_user_id user) w) = (Ok uuid, w2) -> transport_for options w2 = (Ok transport, w2) ->
     let mail := mk_mail ("<" +:+ uuid +:+ "@" +:+ default "" (url_domain server_url) +:+ ">") from (default from (reply_to options)) to
       "[LLDAP] Password reset requested"
       (reset_body (default (user_id_str (user_user_id user)) (user_display_name user)) (url_text link)) in
     check_message mail = None ->
     get_password_reset_step1 (Some name) s
     = (match fst (smtp_send transport mail w2) with
        | Ok _ => Ok tt
        | Err e => Err (InternalServerError ("Could not send email: " +:+ e))
        | Panic p => Panic p
        end, mk_app (snd (smtp_send transport mail w2)) (jwt_blacklist s)))
  /\ (found = Ok [] -> get_password_reset_step1 (Some name) s = (Ok tt, s)).
Proof using Type.
  cbv zeta. destruct (get_user_filter_expr (E := DomainError) (reset_filter name)) as [c|e|p] eqn:Hc; [|done..].
  pose proof (sql_list_users_run (reset_filter name) false (app_backend s) c Hc) as Hlist. rewrite Hlist. cbn [fst].
  assert (Hcall : forall l, map (full_user_and_groups (w_db (app_backend s))) (select_users c (w_db (app_backend s))) = l ->
    call (bh_list_users (Some (reset_filter name)) false) s = (Ok l, s)).
  { intros l Hl. rewrite Hl in Hlist. change (sql_list_users (Some (reset_filter name)) false) with (bh_list_users (Some (reset_filter name)) false) in Hlist.
    rewrite (call_run _ _ _ _ Hlist). by destruct s. }
  split.
  - intros x r to from link uuid w2 transport [= Hl] Hu Hn Hto Hlink Hfrom Huuid Htr Hm.
    unfold get_password_reset_step1. rewrite (sbind_run _ _ s name s) by done. fold (reset_filter name). rewrite (sbind_run _ _ _ _ _ (Hcall _ Hl)).
    pose proof (start_password_reset_run _ r (app_backend s) Hu Hn) as Hstart.
    change (sql_start_password_reset (user_user_id (uag_user x))) with (tcp_start_password_reset (user_user_id (uag_user x))) in Hstart.
    rewrite (sbind_run _ _ _ _ _ (call_run _ s _ _ Hstart)).
    pose proof (reset_mail_run (default (user_id_str (user_user_id (uag_user x))) (user_display_name (uag_user x))) _ _
      to from link transport uuid _ w2 Hto Hlink Huuid Hfrom Hm Htr) as Hmail. cbn [app_backend].
    unfold sbind at 1. rewrite in_backend_run. unfold stry. cbn [app_backend jwt_blacklist]. rewrite Hmail.
    by destruct (smtp_send _ _ w2) as [[[]|e|p] w3].
  - intros [= Hl]. unfold get_password_reset_step1. rewrite (sbind_run _ _ s name s) by done. fold (reset_filter name).
    by rewrite (sbind_run _ _ _ _ _ (Hcall _ Hl)).
Qed.
End ResetMail.

(* ------------------------------------------------------------------ *)
(** ** Examples *)

Section Examples.
#[local] Existing Instances concrete_crates concrete_bincode concrete_sql concrete_hash toy_opaque toy_orion toy_stream
  toy_config toy_texts toy_jwt world_clock.

Definition mail_types : ConfigTypes := {| Mailbox := string; Url := string |}.
#[local] Existing Instance mail_types.
(** A relay that refuses what is not for [Example.com]. *)
Definition toy_mail : MailLib World := {|
  parse_mailbox s := if str_contains "@" s then inr s else inl "no address";
  check_message _ := None;
  check_relay _ := None;
  new_v1_uuid E := sret "1";
  smtp_send tr m := if str_contains "@Example.com" (ml_to m) then sret tt else sthrow "permanent error (550)";
  url_parse s := Some s;
  url_domain s := Some s;
  url_extend u l := Some (String.concat "/" (u :: l));
  url_text u := u;
|}.
#[local] Existing Instance toy_mail.
#[local] Instance toy_service : Mailer World := mail_service "https://lldap" mail_options_default.

Definition bob_token_made : World := token_made uid_bob example_world.
Lemma reset_mail_correct_witness :
  get_password_reset_step1 (Some "bob") example_app
  = (match fst (smtp_send (mk_transport EncryptionTls "localhost" 587 None)
         (mk_mail "<1@https://lldap>" "LLDAP <nobody@lldap>" "LLDAP <nobody@lldap>" "Bob@Example.com" "[LLDAP] Password reset requested"
            (reset_body "Bob" ("https://lldap/reset-password/step2/" +:+ next_token example_world))) bob_token_made) with
     | Ok _ => Ok tt
     | Err e => Err (InternalServerError ("Could not send email: " +:+ e))
     | Panic p => Panic p
     end, mk_app bob_token_made ∅)
  /\ get_password_reset_step1 (Some "nobody") example_app = (Ok tt, example_app).
Proof.
  split.
  - destruct (fst (sql_list_users (Some (reset_filter "bob")) false example_world)) as [[|x [|]]|e|p] eqn:Hx; try (vm_compute in Hx; discriminate Hx).
    destruct (reset_mail_correct (CT := mail_types) "https://lldap" mail_options_default "bob" example_app) as [H _].
    assert (Hu : user_user_id (uag_user x) = uid_bob /\ user_email (uag_user x) = mk_ci "Bob@Example.com" /\ user_display_name (uag_user x) = Some "Bob")
      by (vm_compute in Hx; injection Hx as <-; split_and!; vm_compute; reflexivity).
    destruct Hu as (Hu & He & Hd).
    specialize (H x example_bob_row "Bob@Example.com" "LLDAP <nobody@lldap>"
      ("https://lldap/reset-password/step2/" +:+ next_token example_world) "1" bob_token_made (mk_transport EncryptionTls "localhost" 587 None)).
    cbv zeta in H. rewrite Hu, He, Hd in H. apply H; try (vm_compute; reflexivity). exact Hx.
  - apply (reset_mail_correct (CT := mail_types) "https://lldap" mail_options_default "nobody" example_app). vm_compute. reflexivity.
Defined.

(** The text that the command for a test mail fails with. *)
Example test_mail_placeholder :
  fst (send_test_email_command "bob@elsewhere.org" mail_options_default example_world)
  = Err (mk_mail_error "Could not send email: {:#}" ["permanent error (550)"]).
Proof. vm_compute. reflexivity. Qed.
End Examples.
