(* ===== verification/WebExamples.v ===== *)
(** * A small browser, and the pages run in it

    A browser that keeps the cookies of the document and of the site, and delivers the
    requests to the login service of the example; the theorems on the web page applied
    to it, and runs of what the pages do that they do not mean to. *)

From S2P Require Import Prelude RustStd Extern Types Concrete Handler Deserialize LdapUtils Db ExampleDb SqlFilters SqlSchema SqlUser SqlGroup SqlBackend SqlTcp SqlOpaque AccessControl LdapHandler LdapSql AuthService AuthSession Clients GraphqlQuery GraphqlMutation GraphqlSql SqlMachine WebPage WebApi WebApp WebForms WebSafety WebDirectory WebEdit WebPages WebSql WebReset WebGraphql WebUsers WebDetails.
From Stdlib Require Import Ascii String.
From stdpp Require Import strings list gmap.
#[local] Open Scope rust_scope.
#[local] Open Scope string_scope.

Section Examples.
#[local] Existing Instances concrete_crates concrete_bincode concrete_sql concrete_hash toy_opaque toy_orion toy_stream
  toy_config toy_texts toy_jwt toy_mailer world_clock toy_jwt_laws toy_opaque_laws toy_orion_laws toy_stream_laws
  concrete_base64_laws plain_url.

(** The server, the cookies of the document, and the two that scripts do not see. *)
Record ToyBrowser := mk_toy_browser {
  tb_app : AppState World;
  tb_jar : list (string * string);
  tb_token : option string;
  tb_refresh : option string;
}.

(** What is left of a text after a prefix. *)
Fixpoint after_prefix (prefix s : string) : option string :=
  match prefix, s with
  | EmptyString, _ => Some s
  | String a prefix, String b s => if Ascii.eqb a b then after_prefix prefix s else None
  | String _ _, EmptyString => None
  end.

(** The request of an address and a body. *)
Definition toy_request (s : ToyBrowser) (url : string) (body : RequestType AuthBody) : option AuthRequest :=
  match body with
  | Post (LoginStartBody r) => if String.eqb url "/auth/opaque/login/start" then Some (PostLoginStart r) else None
  | Post (LoginFinishBody r) => if String.eqb url "/auth/opaque/login/finish" then Some (PostLoginFinish r) else None
  | Post (RegisterStartBody r) =>
      if String.eqb url "/auth/opaque/register/start" then Some (PostRegisterStart (tb_token s) (inr r)) else None
  | Post (RegisterFinishBody r) => if String.eqb url "/auth/opaque/register/finish" then Some (PostRegisterFinish r) else None
  | Post (TextJson _) => None
  | Get =>
      if String.eqb url "/auth/refresh" then Some (GetRefresh (tb_refresh s) None)
      else if String.eqb url "/auth/logout" then Some (GetLogout (tb_refresh s) None)
      else match after_prefix "/auth/reset/step2/" url with
           | Some t => Some (GetResetStep2 (Some t))
           | None => None
           end
  end.
(** The last value an answer gives a cookie, whatever its path; an empty one removes it. *)
Definition cookie_after (name : string) (a : AuthAnswer) (old : option string) : option string :=
  match a with
  | Response r =>
      match find (fun c => String.eqb (ck_name c) name) (rev (hr_cookies r)) with
      | Some c => if String.eqb (ck_value c) "" then None else Some (ck_value c)
      | None => old
      end
  | _ => old
  end.
Lemma cookie_after_token a old :
  (token_cookies a = [] -> cookie_after "token" a old = old)
  /\ (forall t age path, t <> "" -> token_cookies a = [token_cookie t age path] -> cookie_after "token" a old = Some t).
Proof.
  destruct a as [[st l b]| |]; [|by split..]. cbn [cookie_after token_cookies hr_cookies].
  assert (Hf : find (fun c => String.eqb (ck_name c) "token") (rev l) = head (rev (List.filter (fun c => String.eqb (ck_name c) "token") l))).
  { rewrite <- List.filter_rev. induction (rev l) as [|c l' IH]; [done|]. cbn. by destruct (String.eqb (ck_name c) "token"). }
  rewrite Hf. split; [by intros ->|]. intros t age path Hne%String.eqb_neq ->. cbn. by rewrite Hne.
Qed.

Definition toy_send (url : string) (body : RequestType AuthBody) : stM ToyBrowser AnyError AuthAnswer := fun s =>
  match toy_request s url body with
  | None => (Ok (Response (mk_response 404 [] NoBody)), s)
  | Some r =>
      match handle_auth_request "" true r (tb_app s) with
      | (Ok a, app) =>
          (Ok a, mk_toy_browser app (tb_jar s) (cookie_after "token" a (tb_token s)) (cookie_after "refresh_token" a (tb_refresh s)))
      | (Err e, _) => match e with end
      | (Panic _, app) => (bail "connection closed", mk_toy_browser app (tb_jar s) (tb_token s) (tb_refresh s))
      end
  end.

(** The text of a cookie that is set: its name and value, and whether its date is past. *)
Definition toy_set_cookie (text : string) : stM ToyBrowser AnyError unit := fun s =>
  (Ok tt,
   match RustStd.split ";"%char text with
   | piece :: attributes =>
       match split_once "="%char piece with
       | Some (n, v) =>
           mk_toy_browser (tb_app s) (if existsb (String.eqb " expires=later") attributes then jar_put n v (tb_jar s) else jar_remove n (tb_jar s))
             (tb_token s) (tb_refresh s)
       | None => s
       end
   | [] => s
   end).

(** A document is executed with the rights of the token; its errors are sent as texts. *)
Definition toy_send_graphql {R} (q : Query R) : stM ToyBrowser AnyError (GraphqlAnswer R) := fun s =>
  match tb_token s with
  | None => (Ok (mk_graphql_answer 401 "" None), s)
  | Some tok =>
      match fst (check_if_token_is_valid tok (tb_app s)) with
      | Ok v =>
          let '(r, w) := execute v q (app_backend (tb_app s)) in
          let s' := mk_toy_browser (mk_app w (jwt_blacklist (tb_app s))) (tb_jar s) (tb_token s) (tb_refresh s) in
          match r with
          | Ok a => (Ok (mk_graphql_answer 200 "" (Some (mk_graphql_response (Some a) None))), s')
          | Err e => (Ok (mk_graphql_answer 200 "" (Some (mk_graphql_response None (Some [e])))), s')
          | Panic _ => (bail "connection closed", s')
          end
      | _ => (Ok (mk_graphql_answer 401 "" None), s)
      end
  end.

Definition toy_browser : Browser ToyBrowser := {|
  send := toy_send;
  send_graphql R _ q := toy_send_graphql q;
  document_cookie := fun s => (Ok (cookie_text (tb_jar s)), s);
  set_document_cookie := toy_set_cookie;
|}.
Definition toy_page : PageLib := {|
  base_url := "";
  encode_query s := s;
  to_rfc2822 d := if (0 <? d)%Z then "later" else "past";
  status_text _ := "";
  answer_text _ := "";
  parse_unverified t := option_map snd (verify_with_key t);
|}.
#[local] Existing Instances toy_browser toy_page.

Lemma toy_delivers : Delivers "" true tb_app tb_token tb_refresh.
Proof.
  constructor. intros path body r a s s1 Hs Hh.
  assert (Hr : toy_request s path body = Some r) by (by destruct Hs).
  exists (mk_toy_browser s1 (tb_jar s) (cookie_after "token" a (tb_token s)) (cookie_after "refresh_token" a (tb_refresh s))).
  split; [|split; [done|]].
  - change (send (base_url +:+ path) body s) with (toy_send path body s). unfold toy_send. by rewrite Hr, Hh.
  - destruct (cookie_after_token a (tb_token s)) as [H1 H2]. split; [exact H1|]. intros t age. by apply H2.
Qed.

Lemma toy_delivers_graphql : DeliversGraphql tb_app tb_token tb_token.
Proof.
  constructor.
  - intros R q tok v s r w Ht Hv Hr Hp. cbn [send_graphql toy_browser]. unfold toy_send_graphql. rewrite Ht, Hv, Hr.
    exists "", (match r with Err e => [e] | _ => [] end).
    exists (mk_toy_browser (mk_app w (jwt_blacklist (tb_app s))) (tb_jar s) (tb_token s) (tb_refresh s)).
    destruct r as [a|e|p]; [by rewrite Ht..|]. by destruct (Hp p).
  - intros R q s Hn. exists "", s. cbn [send_graphql toy_browser]. unfold toy_send_graphql. destruct (tb_token s) as [tok|]; [|done].
    specialize (Hn tok). destruct (fst _) as [v|e|p]; [by destruct (Hn v)|done..].
Qed.

(** The document's cookies can be written and read. *)
Definition toy_alive (d : NaiveDateTime) (s : ToyBrowser) : Prop := (0 < d)%Z.
Definition toy_jar_ok (s : ToyBrowser) : Prop := Forall cookie_ok (tb_jar s) /\ NoDup (tb_jar s).*1.

Lemma jar_remove_ok n l : Forall cookie_ok l /\ NoDup l.*1 -> Forall cookie_ok (jar_remove n l) /\ NoDup (jar_remove n l).*1.
Proof.
  intros [H1 H2]. unfold jar_remove. split.
  { apply Forall_forall. intros c [_ Hc]%list_elem_of_filter. by eapply Forall_forall in H1. }
  induction l as [|c l IH]; [done|].
  apply Forall_cons in H1 as [_ H1]. apply NoDup_cons in H2 as [Hn H2]. rewrite filter_cons. case_decide; [|by apply IH].
  cbn. apply NoDup_cons. split; [|by apply IH]. intros Hin. apply Hn. apply list_elem_of_fmap in Hin as (x & Hx & Hf).
  apply list_elem_of_filter in Hf as [_ Hf]. rewrite Hx. by apply list_elem_of_fmap_2.
Qed.
Lemma jar_put_ok n v l :
  cookie_ok (n, v) -> Forall cookie_ok l /\ NoDup l.*1 -> Forall cookie_ok (jar_put n v l) /\ NoDup (jar_put n v l).*1.
Proof.
  intros Hc H. destruct (jar_remove_ok n l H) as [H1 H2]. unfold jar_put. split.
  - apply Forall_app. split; [done|]. by apply Forall_singleton.
  - rewrite fmap_app. apply NoDup_app. split; [done|]. split; [|apply NoDup_singleton]. intros x Hx Hn. cbn in Hn.
    apply list_elem_of_singleton in Hn as ->. apply list_elem_of_fmap in Hx as ([m w] & Hm & Hf). cbn in Hm. subst.
    unfold jar_remove in Hf. by apply list_elem_of_filter in Hf as [Hne _].
Qed.

(** The text of a cookie, cut at its semicolons. *)
Lemma toy_set_cookie_run name value d s :
  cookie_ok (name, value) ->
  set_cookie name value d s
  = (Ok tt, mk_toy_browser (tb_app s) (if (0 <? d)%Z then jar_put name value (tb_jar s) else jar_remove name (tb_jar s))
              (tb_token s) (tb_refresh s)).
Proof.
  intros Hc. pose proof (cookie_piece_plain _ Hc) as Hp. destruct Hc as [[Hn _] _ _]. cbn [fst snd] in *.
  unfold set_cookie. cbn [set_document_cookie toy_browser to_rfc2822 base_url toy_page].
  set (date := if (0 <? d)%Z then "later" else "past").
  replace (name +:+ "=" +:+ value +:+ "; expires=" +:+ date +:+ "; sameSite=Strict; path=" +:+ "" +:+ "/")
    with ((name +:+ "=" +:+ value) +:+ String ";"%char ((" expires=" +:+ date) +:+ String ";"%char " sameSite=Strict; path=/"))
    by (rewrite !string_app_assoc; by destruct (0 <? d)%Z).
  unfold toy_set_cookie. rewrite !split_app_sep; [|by subst date; destruct (0 <? d)%Z|done].
  change (name +:+ "=" +:+ value) with (name +:+ String "="%char value). rewrite split_once_app by done.
  by subst date; destruct (0 <? d)%Z.
Qed.
#[local] Instance toy_jar : CookieJar tb_jar toy_alive toy_jar_ok.
Proof.
  constructor.
  - done.
  - done.
  - intros name value d s Hok Hc Ha%Z.ltb_lt. eexists. rewrite toy_set_cookie_run by done. rewrite Ha.
    split; [done|]. split; [by apply jar_put_ok|done].
  - intros name s Hok Hc. eexists. rewrite toy_set_cookie_run by done. split; [done|]. split; [by apply jar_remove_ok|done].
Qed.

(** The browser of a user with the token [t]. *)
Definition browser_with (app : AppState World) (t : option string) : ToyBrowser := mk_toy_browser app [] t None.

Lemma login_survives_reload_witness :
  exists s' app, set_cookies_from_jwt example_token (browser_with example_app None) = (Ok ("admin", true), s')
    /\ wa_user_info app = Some ("admin", true).
Proof.
  destruct (login_survives_reload (jar := tb_jar) (alive := toy_alive) (ok := toy_jar_ok) example_token
    (default (mk_claims 0 0 "" []) (parse_unverified example_token)) (Some RouteIndex) (browser_with example_app None))
    as (s' & app & pushed & H1 & H2 & H3 & H4).
  - split; constructor.
  - vm_compute. reflexivity.
  - vm_compute. reflexivity.
  - vm_compute. discriminate.
  - vm_compute. reflexivity.
  - exists s', app. split; [exact H1|exact H3].
Defined.

Lemma landing_page_witness :
  app_create (E := Empty_set) (Some RouteListGroups) (browser_with example_app None)
    = (Ok (mk_web_app None (Some RouteListGroups) None, Some RouteLogin), browser_with example_app None)
  /\ app_update (AppLogin ("bob", false)) (mk_web_app None (Some RouteListGroups) None)
     = (mk_web_app (Some ("bob", false)) None None, Some RouteListGroups).
Proof.
  assert (H : app_create (E := Empty_set) (Some RouteListGroups) (browser_with example_app None)
    = (Ok (mk_web_app None (Some RouteListGroups) None, Some RouteLogin), browser_with example_app None))
    by (vm_compute; reflexivity).
  split; [exact H|]. destruct (landing_page _ _ _ _ _ H) as [_ Hl]. apply (proj1 (Hl ("bob", false))).
Defined.

(** The details of bob, whose name is edited, and edited again while it is saved. *)
Definition toy_validator : ValidatorLib := {| validate_email s := contains_char "@"%char s |}.
#[local] Existing Instance toy_validator.
Definition bob_page : UserPage := mk_user_page "bob" "bob@example.com" "Bob" "" "" None 0%Z "" [].
Definition bob_model (name : string) : UserModel := mk_user_model "bob@example.com" name "" "".
Definition bob_edited (name : string) : Page Call UserDetailsForm UserFormMsg Effect :=
  set_com (set_form (bob_model name) (pg_com (user_form_create bob_page))) (user_form_create bob_page).

Lemma details_saved_witness :
  exists p1 p2 p3,
    deliver (CP := user_form_component bob_page) SubmitClicked (bob_edited "Bobby") = Ok p1
    /\ pg_futures p1 = [mk_future (CallGraphql (UpdateUser
         (mk_update_user_input "bob" None (Some "Bobby") None None None None None)) "Error trying to update user") UserUpdated]
    /\ resume (CP := user_form_component bob_page) UserUpdated (inr success_new) []
         (set_com (set_form (bob_model "Robert") (pg_com p1)) p1) = Ok p2
    /\ up_display_name (udf_user (pg_com p2)) = "Robert"
    /\ deliver (CP := user_form_component bob_page) SubmitClicked p2 = Ok p3 /\ pg_futures p3 = [].
Proof.
  destruct (details_saved bob_page (bob_edited "Bobby") (bob_model "Bobby")) as [_ (p1 & H1 & Hf & H)]; [done..|].
  destruct (H (bob_model "Robert")) as (p2 & p3 & H2 & Hu & _ & H3 & H3'); [done|].
  exists p1, p2, p3. split_and!; try done. by rewrite Hu.
Defined.

(** An administrator gives bob a new password; bob gives himself one, with the password he
    has and with another one. *)
Definition admin_browser : ToyBrowser := browser_with example_app (Some example_token).
Definition bob_token : string :=
  response_token (fst (get_login_successful_response "" uid_bob bob_app)).
Definition bob_browser : ToyBrowser := browser_with bob_app (Some bob_token).
Lemma bob_world_ok : world_ok (app_backend bob_app).
Proof.
  pose proof (set_password_preserves uid_bob bob_file example_world example_world_ok) as H.
  rewrite (set_password_hash_run uid_bob bob_file example_bob_row) in H;
    [exact H|exact example_world_ok|vm_compute; reflexivity].
Qed.
Definition toy_rng (n : nat) : string := "random".
Definition password_page (m : PasswordModel) : Page Call ChangePasswordForm PasswordMsg Effect :=
  new_page (mk_change_password m NoOpaqueData).

Lemma web_password_correct_witness :
  (exists p0 p' s',
     deliver (CP := password_component toy_rng "bob" true) PasswordSubmit
       (password_page (mk_password_model "" "a new password" "a new password")) = Ok p0
     /\ settle (CP := password_component toy_rng "bob" true) 3 p0 admin_browser = (Ok p', s')
     /\ fst (sql_bind (mk_bind_request uid_bob "a new password") (app_backend (tb_app s'))) = Ok tt)
  /\ forall old, old = "new password" \/ old = "old password" -> exists p0 p' s',
     deliver (CP := password_component toy_rng "bob" false) PasswordSubmit
       (password_page (mk_password_model old "a new password" "a new password")) = Ok p0
     /\ settle (CP := password_component toy_rng "bob" false) 3 p0 bob_browser = (Ok p', s')
     /\ (is_Some (pg_error p') <-> old = "old password").
Proof.
  split.
  - destruct (web_password_correct (S := ToyBrowser) (DL := toy_delivers) "" true toy_rng "bob" true
      (password_page (mk_password_model "" "a new password" "a new password")) admin_browser
      (mk_password_model "" "a new password" "a new password") example_token (mk_validation uid_admin PermAdmin)
      example_bob_row [] "" eq_refl eq_refl eq_refl eq_refl eq_refl) as (p0 & p' & s' & H1 & H2 & _ & H3).
    + vm_compute. reflexivity.
    + exact example_world_ok.
    + vm_compute. reflexivity.
    + reflexivity.
    + by left.
    + exists p0, p', s'. split; [exact H1|]. split; [exact H2|].
      replace (can_change_password _ _ _) with true in H3 by (vm_compute; reflexivity).
      destruct H3 as (_ & _ & _ & Hb). rewrite Hb. by rewrite decide_True.
  - intros old Hold.
    destruct (web_password_correct (S := ToyBrowser) (DL := toy_delivers) "" true toy_rng "bob" false
      (password_page (mk_password_model old "a new password" "a new password")) bob_browser
      (mk_password_model old "a new password" "a new password") bob_token bob_regular
      (set_password_hash bob_file example_bob_row) [] "new password" eq_refl) as (p0 & p' & s' & H1 & H2 & _ & H3).
    + by destruct Hold as [->| ->].
    + done.
    + done.
    + done.
    + vm_compute. reflexivity.
    + exact bob_world_ok.
    + vm_compute. reflexivity.
    + reflexivity.
    + right. split; [by destruct Hold as [->| ->]|]. exists bob_file. split; [done|]. exists "r1", "r2". by repeat eexists.
    + exists p0, p', s'. split; [exact H1|]. split; [exact H2|].
      replace (can_change_password _ _ _) with true in H3 by (vm_compute; reflexivity).
      destruct Hold as [->| ->]; destruct H3 as [He _].
      * rewrite He. split; [by intros [? [=]]|done].
      * by split.
Defined.

(** Carol is created, with a password; bob cannot be created again. *)
Definition carol_model (name : string) : CreateUserModel :=
  mk_create_user_model name (name +:+ "@example.com") "" "Carol" "" "password" "password".
Lemma web_user_created_witness :
  (exists p0 p' s',
     deliver (CP := create_user_component toy_rng) CreateUserSubmit (new_page (carol_model "carol")) = Ok p0
     /\ settle (CP := create_user_component toy_rng) 3 p0 admin_browser = (Ok p', s')
     /\ fst (sql_bind (mk_bind_request (user_id_new "carol") "password") (app_backend (tb_app s'))) = Ok tt)
  /\ exists p0 p' s',
     deliver (CP := create_user_component toy_rng) CreateUserSubmit (new_page (carol_model "bob")) = Ok p0
     /\ settle (CP := create_user_component toy_rng) 3 p0 admin_browser = (Ok p', s')
     /\ is_Some (pg_error p').
Proof.
  split.
  - destruct (web_user_created (V := toy_validator) (S := ToyBrowser) (DL := toy_delivers) (DG := toy_delivers_graphql) "" true toy_rng
      (new_page (carol_model "carol")) admin_browser (carol_model "carol") example_token (mk_validation uid_admin PermAdmin) []
      eq_refl eq_refl eq_refl eq_refl eq_refl eq_refl) as (p0 & p' & s' & H1 & H2 & _ & H3).
    + vm_compute. reflexivity.
    + exact example_world_ok.
    + reflexivity.
    + exists p0, p', s'. split; [exact H1|]. split; [exact H2|]. destruct H3 as [[_ (_ & _ & _ & Hb)]|[Hno _]].
      * cbn in Hb. rewrite Hb. by rewrite decide_True.
      * destruct Hno. split; [reflexivity|]. split_and!; apply (bool_decide_unpack _); vm_compute; exact I.
  - destruct (web_user_created (V := toy_validator) (S := ToyBrowser) (DL := toy_delivers) (DG := toy_delivers_graphql) "" true toy_rng
      (new_page (carol_model "bob")) admin_browser (carol_model "bob") example_token (mk_validation uid_admin PermAdmin) []
      eq_refl eq_refl eq_refl eq_refl eq_refl eq_refl) as (p0 & p' & s' & H1 & H2 & _ & H3).
    + vm_compute. reflexivity.
    + exact example_world_ok.
    + reflexivity.
    + exists p0, p', s'. split; [exact H1|]. split; [exact H2|]. destruct H3 as [[[_ [Hno _]] _]|(_ & He & _)]; [|exact He].
      exfalso. vm_compute in Hno. discriminate Hno.
Defined.

(** Bob, who has a first name, loads his page, types another one and a display name, and
    saves: both are stored, the first name is not shown. *)
Definition bob_loaded : UserPage :=
  match fst (execute bob_regular (GetUserDetails "bob") (app_backend bob_app)) with Ok up => up | _ => bob_page end.
Definition bob_typed : UserModel := mk_user_model "bob@example.org" "Robert" "Bobby" "".
Definition bob_typing : Page Call UserDetailsForm UserFormMsg Effect :=
  set_com (set_form bob_typed (pg_com (user_form_create bob_loaded))) (user_form_create bob_loaded).
Lemma web_details_saved_witness :
  exists p0 p' s',
    deliver (CP := user_form_component bob_loaded) SubmitClicked bob_typing = Ok p0
    /\ settle (CP := user_form_component bob_loaded) 1 p0 bob_browser = (Ok p', s')
    /\ up_first_name (udf_user (pg_com p')) = "Bobby"
    /\ db_user_attributes (w_db (app_backend (tb_app s'))) !! (uid_bob, attribute_name_new "first_name")
       = Some (serialized_from TyString "Bobby")
    /\ exists up, execute bob_regular (GetUserDetails "bob") (app_backend (tb_app s')) = (Ok up, app_backend (tb_app s'))
       /\ up_display_name up = "Robert" /\ up_first_name up = "".
Proof.
  destruct (web_details_saved (V := toy_validator) (S := ToyBrowser) (DG := toy_delivers_graphql) bob_loaded bob_typing bob_browser bob_token bob_regular
    "bob" bob_typed) as (row & row' & p0 & p' & s' & Hrow & Hsays & H1 & H2 & _ & H3).
  - reflexivity.
  - reflexivity.
  - reflexivity.
  - reflexivity.
  - reflexivity.
  - vm_compute. reflexivity.
  - reflexivity.
  - vm_compute. reflexivity.
  - vm_compute. reflexivity.
  - exact bob_world_ok.
  - intros name [-> | ->]; eexists; split; [vm_compute; reflexivity|reflexivity|vm_compute; reflexivity|reflexivity].
  - exists p0, p', s'. split; [exact H1|]. split; [exact H2|].
    assert (row = set_password_hash bob_file example_bob_row) as ->
      by (apply Some_inj; rewrite <- Hrow; vm_compute; reflexivity).
    rewrite decide_True in H3; [|split; [reflexivity|]].
    2:{ apply (row_says_unique _ _ _ _ _ Hsays). apply (bool_decide_unpack _). vm_compute. exact I. }
    destruct H3 as (_ & Hus & (A & Hdb & HA) & Hload). split; [by rewrite Hus|]. split.
    + rewrite Hdb.
      change (A !! (uid_bob, attribute_name_new "first_name") = Some (serialized_from TyString "Bobby")).
      rewrite HA. vm_compute. reflexivity.
    + eexists. split; [exact Hload|]. split; reflexivity.
Defined.

(* ------------------------------------------------------------------ *)
(** ** What the pages do that they do not mean to *)

(** A run of a page: each step from where the last one led. *)
#[local] Infix "|>" := obind (at level 40, left associativity).
Definition seen {A B} (f : A -> B) (a : A) : outcome Empty_set B := Ok (f a).
Definition user {Call Com Msg Out Event} (CP : Component Call Com Msg Out Event) (ev : Event)
    (p : Page Call Com Msg Out) : outcome Empty_set (Page Call Com Msg Out) :=
  match fire ev p with Some r => r | None => Panic "no such control" end.
Definition answer {Call Com Msg Out Event} (CP : Component Call Com Msg Out Event) {R} (callback : AnyError + R -> Msg)
    (r : AnyError + R) (p : Page Call Com Msg Out) : outcome Empty_set (Page Call Com Msg Out) :=
  resume callback r [] p.

(** The new password is read from the form when the old one has been checked, and is not
    looked at again: bob types another one while the request runs, too short and not
    confirmed, and that is his password then. *)
Definition bob_changes : Component Call ChangePasswordForm PasswordMsg Effect PasswordEvent := password_component toy_rng "bob" false.
Definition edited_password : outcome Empty_set (Page Call ChangePasswordForm PasswordMsg Effect) :=
  Ok (password_page (mk_password_model "new password" "a new password" "a new password"))
  |> user bob_changes PasswordClick |> user bob_changes (EditPassword "short").
Definition edited_password_settled : outcome Empty_set (bool * outcome DomainError unit) :=
  edited_password |> fun p =>
    match settle (CP := bob_changes) 3 p bob_browser with
    | (Ok p', s') => Ok (bool_decide (pg_error p' = None), fst (sql_bind (mk_bind_request uid_bob "short") (app_backend (tb_app s'))))
    | _ => Panic "panic"
    end.
Example edited_password_unchecked :
  (edited_password |> seen (fun p => password_model_valid (cpf_form (pg_com p)))) = Ok false
  /\ edited_password_settled = Ok (true, Ok tt).
Proof. split; vm_compute; reflexivity. Qed.

(** The name is read from the form when the user has been created: the password of the
    user whose name is there then is the one that is registered. *)
Definition new_user (name : string) : CreateUserModel := mk_create_user_model name "new@example.com" "" "" "" "password" "password".
Definition registered_name (p : Page Call CreateUserModel CreateUserMsg Effect) : option UserId :=
  match pg_futures p with
  | mk_future (CallRegisterStart r) _ :: _ => Some (rs_username r)
  | _ => None
  end.
Example edited_name_registered :
  let CP := create_user_component toy_rng in
  (Ok (new_page (new_user "carol")) |> user CP CreateUserClick |> user CP (CreateUserEdit (new_user "admin"))
   |> answer CP CreateUserResponse (inr (mk_created_user "carol" 0%Z)) |> seen registered_name) = Ok (Some uid_admin).
Proof. vm_compute. reflexivity. Qed.

(** The group that is told to the page around is the one that is selected when the
    answer arrives, not the one the user was added to. *)
Definition added_to (p : Page Call AddUserToGroupComponent AddUserMsg Effect) : option (string * GroupId) :=
  match pg_futures p with
  | mk_future (CallGraphql (AddUserToGroup u g) _) _ :: _ => Some (u, g)
  | _ => None
  end.
Example selected_group_reported :
  let CP := add_user_component "bob" [] in
  let clicked := Ok add_user_create
    |> answer CP GroupListResponse (inr [mk_listed_group 1 "one" 0%Z; mk_listed_group 2 "two" 0%Z])
    |> user CP (SelectGroup 0) |> user CP ClickAddGroup in
  (clicked |> seen added_to) = Ok (Some ("bob", 1%Z))
  /\ (clicked |> user CP (SelectGroup 1) |> answer CP AddGroupResponse (inr success_new) |> seen pg_out)
     = Ok [OnUserAddedToGroup (mk_web_group 2 "two")].
Proof. split; vm_compute; reflexivity. Qed.

(** A member without a display name is offered again after being added: the text of the
    option is taken for the display name. *)
Example nameless_member_offered_again :
  let CP := add_member_component 1 [] in
  let bob := mk_member "bob" "" in
  (Ok add_member_create |> answer CP UserListResponse (inr [bob]) |> user CP (SelectMember 0) |> user CP ClickAddMember
   |> answer CP AddMemberResponse (inr success_new) |> seen pg_out) = Ok [OnMemberAdded (mk_member "bob" "bob")]
  /\ get_selectable_user_list [mk_member "bob" "bob"] [bob] = [bob].
Proof. split; vm_compute; reflexivity. Qed.

(** A picture that is none, read while the update runs. *)
Example bad_picture_panics :
  let CP := user_form_component bob_page in
  (Ok (bob_edited "Bobby") |> user CP ClickSubmit |> user CP (PickFile (mk_web_file "picture" (into_bytes "")))
   |> user CP (FileRead None) |> seen pg_error) = Panic "assertion failed: !*com.mut_common().is_task_running".
Proof. vm_compute. reflexivity. Qed.

(** A name with a semicolon does not survive a reload. *)
Example semicolon_truncated :
  let r := set_cookies_from_jwt (sign_with_key Hs512 (mk_claims 2000 0 "a;b" [])) (browser_with example_app None) in
  fst r = Ok ("a;b", false)
  /\ (fst (app_create None (snd r)) |> seen (fun x => wa_user_info (fst x))) = Ok (Some ("a", false)).
Proof. split; vm_compute; reflexivity. Qed.

(** A group named otherwise than in lower case makes an administrator on the server and
    none on the page. *)
Example admin_in_another_case :
  vr_permission (get_permissions_from_groups uid_bob [mk_ci "LLDAP_Admin"]) = PermAdmin
  /\ fst (set_cookies_from_jwt (sign_with_key Hs512 (mk_claims 2000 0 "bob" ["LLDAP_Admin"])) (browser_with example_app None))
     = Ok ("bob", false).
Proof. split; vm_compute; reflexivity. Qed.

(** Bob has asked for a new password; the link is opened, and one is that nobody sent. *)
Definition reset_token : string := w_rng example_world (w_rng_pos example_world).
Definition forgetful_browser : ToyBrowser :=
  browser_with (mk_app (snd (sql_start_password_reset uid_bob example_world)) ∅) None.

Lemma web_reset_correct_witness :
  (exists p1 s1 p2 p3 p4 p5 s2,
     settle (CP := reset_step2_component toy_rng reset_token) 1 (reset_step2_create reset_token) forgetful_browser = (Ok p1, s1)
     /\ fire (CP := reset_step2_component toy_rng reset_token) (ResetEditPassword "a new password") p1 = Some (Ok p2)
     /\ fire (CP := reset_step2_component toy_rng reset_token) (ResetEditConfirm "a new password") p2 = Some (Ok p3)
     /\ fire (CP := reset_step2_component toy_rng reset_token) ResetClick p3 = Some (Ok p4)
     /\ settle (CP := reset_step2_component toy_rng reset_token) 2 p4 s1 = (Ok p5, s2)
     /\ fst (sql_bind (mk_bind_request uid_bob "a new password") (app_backend (tb_app s2))) = Ok tt)
  /\ exists p1 s1, settle (CP := reset_step2_component toy_rng "forged") 1 (reset_step2_create "forged") forgetful_browser = (Ok p1, s1)
     /\ forall ev, fire (CP := reset_step2_component toy_rng "forged") ev p1 = None.
Proof.
  assert (Hok : world_ok (app_backend (tb_app forgetful_browser))).
  { change (world_ok (snd (sql_start_password_reset uid_bob example_world))).
    pose proof world_gen_random_string as Hr. generalize example_world, example_world_ok. unfold sql_start_password_reset. intros w Hw. revert w Hw.
    change (preserves world_ok (sql_start_password_reset uid_bob)). unfold sql_start_password_reset. stm. }
  split.
  - destruct (web_reset_correct (S := ToyBrowser) (DL := toy_delivers) "" toy_rng reset_token forgetful_browser "a new password" [] eq_refl Hok eq_refl)
      as [H _].
    destruct (H (mk_reset_row uid_bob (w_now example_world + minutes 10)%Z) example_bob_row)
      as (p1 & s1 & p2 & p3 & p4 & p5 & s2 & H1 & _ & H2 & H3 & H4 & H5 & _ & _ & _ & _ & _ & Hb).
    + split; vm_compute; reflexivity.
    + vm_compute. reflexivity.
    + vm_compute. reflexivity.
    + split; [vm_compute; discriminate|]. split; [vm_compute; reflexivity|]. apply not_elem_of_empty.
    + vm_compute. reflexivity.
    + exists p1, s1, p2, p3, p4, p5, s2. split; [exact H1|]. split; [exact H2|]. split; [exact H3|]. split; [exact H4|].
      split; [exact H5|]. rewrite Hb. by rewrite decide_True.
  - destruct (web_reset_correct (S := ToyBrowser) (DL := toy_delivers) "" toy_rng "forged" forgetful_browser "" [] eq_refl Hok eq_refl) as [_ H].
    destruct H as (p1 & s1 & H1 & _ & _ & H2).
    + intros row [Hrow _]. vm_compute in Hrow. discriminate Hrow.
    + exists p1, s1. split; [exact H1|exact H2].
Defined.
End Examples.
