(* ===== verification/WebHttp.v ===== *)
(** * The web page on the HTTP server

    A browser that sends the page's requests to [HttpServer.serve], with the cookies that
    it keeps for the paths of the site, and the GraphQL engine as the plans of the page's
    documents: what [WebSql] and [WebGraphql] ask of a browser, it does. *)

From S2P Require Import Prelude RustStd Extern Types Concrete Handler Deserialize Db ExampleDb SqlFilters SqlSchema SqlUser SqlGroup SqlBackend SqlTcp SqlOpaque AccessControl LdapHandler LdapSql AuthService AuthSession Clients GraphqlQuery GraphqlMutation GraphqlSql StoredTypes TypeSafety HttpServer HttpSql WebPage WebApi WebApp WebForms WebSafety WebSql WebGraphql.
From Stdlib Require Import Ascii String.
From stdpp Require Import strings list gmap.
#[local] Open Scope rust_scope.
#[local] Open Scope string_scope.

(* ------------------------------------------------------------------ *)
(** ** The plans of the documents *)

(** A part of a plan: what follows depends on its error or its value.  At most one field
    of each document can fail, so that the first error is the only one. *)
Definition Exec (A : Type) : Type := (string + A -> Plan) -> Plan.
Definition exec_call {A} (r : Resolver A) : Exec A := fun k => Resolve r k.
Definition exec_ret {A} (a : A) : Exec A := fun k => k (inr a).
Definition exec_bind {A B} (e : Exec A) (f : A -> Exec B) : Exec B :=
  fun k => e (fun x => match x with inl err => k (inl err) | inr a => f a k end).
Fixpoint exec_map {A B} (f : A -> Exec B) (l : list A) : Exec (list B) :=
  match l with
  | [] => exec_ret []
  | a :: l => exec_bind (f a) (fun b => exec_bind (exec_map f l) (fun bs => exec_ret (b :: bs)))
  end.

(** The object of a mutation is the one of its field's type. *)
Definition as_user (r : MutationResult) : option GqlUser := match r with MutationUser u => Some u | _ => None end.
Definition as_group (r : MutationResult) : option GqlGroup := match r with MutationGroup g => Some g | _ => None end.
Definition as_success (r : MutationResult) : option Success := match r with MutationSuccess s => Some s | _ => None end.
Definition exec_mutation {A} (as_object : MutationResult -> option A) (m : Mutation) : Exec A := fun k =>
  Resolve (RMutation m) (fun x =>
    match x with
    | inl e => k (inl e)
    | inr r => match as_object r with Some a => k (inr a) | None => k (inl "") end
    end).
Abbreviation exec_user := (exec_mutation as_user).
Abbreviation exec_group := (exec_mutation as_group).
Abbreviation exec_success := (exec_mutation as_success).

#[local] Notation "'do' x <- e ; f" := (exec_bind e (fun x => f)) (at level 100, x name, e at level 99, f at level 100).

Definition listed_user_plan (u : GqlUser) : Exec ListedUser :=
  do first <- exec_call (RFirstName u);
  do last <- exec_call (RLastName u);
  exec_ret (mk_listed_user (user_id_field u) (email_field u) (display_name u) first last (user_creation_date_field u)).

(** The documents of [app/queries/]. *)
Definition document {R} (q : Query R) : Exec R :=
  match q with
  | CreateUser user => do u <- exec_user (MCreateUser user); exec_ret (mk_created_user (user_id_field u) (user_creation_date_field u))
  | CreateGroup name => do g <- exec_group (MCreateGroup name); exec_ret (mk_created_group (gg_group_id g) (gg_display_name g))
  | UpdateUser user => exec_success (MUpdateUser user)
  | DeleteUserQuery user => exec_success (MDeleteUser user)
  | DeleteGroupQuery group_id => exec_success (MDeleteGroup group_id)
  | AddUserToGroup user group => exec_success (MAddUserToGroup user group)
  | RemoveUserFromGroup user group => exec_success (MRemoveUserFromGroup user group)
  | GetGroupList => do l <- exec_call RGroups; exec_ret (map select_listed_group l)
  | GetGroupDetails id =>
      do g <- exec_call (RGroup id);
      do users <- exec_call (RGroupUsers g);
      exec_ret (mk_group_page (gg_group_id g) (gg_display_name g) (gg_creation_date g) (gg_uuid g) (map select_member users))
  | GetUserDetails id =>
      do u <- exec_call (RUser id);
      do first <- exec_call (RFirstName u);
      do last <- exec_call (RLastName u);
      do picture <- exec_call (RAvatar u);
      do groups <- exec_call (RUserGroups u);
      exec_ret (mk_user_page (user_id_field u) (email_field u) (display_name u) first last picture (user_creation_date_field u)
        (user_uuid_field u) (map select_web_group groups))
  | ListUsersQuery filters => do l <- exec_call (RUsers filters); exec_map listed_user_plan l
  | ListUserNames filters => do l <- exec_call (RUsers filters); exec_ret (map select_member l)
  | GetUserAttributesSchema => do s <- exec_call RSchema; exec_ret (map select_schema_row (list_attributes (user_schema s)))
  | GetGroupAttributesSchema => do s <- exec_call RSchema; exec_ret (map select_group_schema_row (list_attributes (group_schema s)))
  | CreateUserAttribute name t is_list is_visible is_editable =>
      exec_success (MAddUserAttribute name t is_list is_visible is_editable)
  | CreateGroupAttribute name t is_list is_visible => exec_success (MAddGroupAttribute name t is_list is_visible false)
  | DeleteUserAttributeQuery name => exec_success (MDeleteUserAttribute name)
  | DeleteGroupAttributeQuery name => exec_success (MDeleteGroupAttribute name)
  end.

Section Plans.
Context {St : Type} `{BH : !BackendHandler St} `{C : Crates} `{B : Bincode} `{T : ErrorTexts} `{UE : UrlEncoding}.
Context (v : ValidationResults).

(** Running the part is running [m]. *)
Definition executes {A} (e : Exec A) (m : stM St string A) : Prop := forall k s,
  run_plan (mk_context v) (e k) s = (let! x := stry m in run_plan (mk_context v) (k x)) s.

Lemma executes_call {A} (r : Resolver A) : executes (exec_call r) (run_resolver (mk_context v) r).
Proof. by intros k s. Qed.
Lemma executes_ret {A} (a : A) : executes (exec_ret a) (sret a).
Proof. by intros k s. Qed.
Lemma executes_bind {A D} (e : Exec A) (f : A -> Exec D) m n :
  executes e m -> (forall a, executes (f a) (n a)) -> executes (exec_bind e f) (sbind m n).
Proof.
  intros He Hf k s. unfold exec_bind. rewrite He. unfold sbind, stry. destruct (m s) as [[a|err|p] s']; [|done..].
  rewrite Hf. unfold sbind, stry. by destruct (n a s') as [[] ?].
Qed.
Lemma executes_eq {A} (e : Exec A) m n : (forall s, m s = n s) -> executes e m -> executes e n.
Proof. intros H He k s. rewrite He. unfold sbind, stry. by rewrite H. Qed.
Lemma executes_map {A D} (f : A -> Exec D) (g : A -> outcome string D) l :
  (forall a, executes (f a) (slift (g a))) -> executes (exec_map f l) (slift (try_map g l)).
Proof.
  intros Hf. induction l as [|a l IH]; [apply executes_ret|]. cbn [exec_map].
  eapply executes_eq; [|apply executes_bind; [apply Hf|intros b; apply executes_bind; [exact IH|intros bs; apply executes_ret]]].
  intros s. unfold sbind, slift. cbn [try_map]. destruct (g a); [|done..]. cbn. by destruct (try_map g l).
Qed.

(** A mutation's object. *)
Lemma executes_mutation {A} (m : Mutation) (f : MutationResult -> option A) (x : stM St string A) (inj : A -> MutationResult) :
  (forall a, f (inj a) = Some a) ->
  (forall s, run_mutation v m s = (let! a := x in sret (inj a)) s) -> executes (exec_mutation f m) x.
Proof.
  intros Hf Hm k s. cbn [exec_mutation run_plan run_resolver cx_validation_result]. unfold sbind, stry. rewrite Hm. unfold sbind.
  destruct (x s) as [[a|err|p] s']; [|done..]. cbn. by rewrite Hf.
Qed.
#[local] Ltac mutation j := refine (executes_mutation _ _ _ j _ _); done.
#[local] Ltac parts := repeat (apply executes_bind; [|intros ?]); try apply executes_call; try apply executes_ret.

(** The plan of a document runs its resolvers. *)
Lemma document_executes {R} (q : Query R) : executes (document q) (execute v q).
Proof.
  destruct q; cbn [document execute];
    try match goal with |- executes (exec_mutation as_success _) _ => mutation MutationSuccess end; try solve [parts].
  - apply executes_bind; [mutation MutationUser|intros u; apply executes_ret].
  - apply executes_bind; [mutation MutationGroup|intros g; apply executes_ret].
  - apply executes_bind; [apply executes_call|]. intros l. apply executes_map. intros u. unfold listed_user_plan.
    eapply executes_eq; [|parts]. intros s. unfold select_listed_user. cbn. unfold sbind, slift.
    destruct (first_name u); [|done..]. cbn. by destruct (last_name u).
Qed.
End Plans.

(* ------------------------------------------------------------------ *)
(** ** The browser *)

(** The characters of a cookie's value (RFC 6265, cookie-octet). *)
Definition cookie_octet (c : ascii) : bool :=
  let n := N_of_ascii c in
  (33 <=? n)%N && (n <=? 126)%N && negb (existsb (Ascii.eqb c) ["034"; ","; ";"; "\"]%char).
Definition cookie_value (s : string) : bool := negb (String.eqb s "") && forallb cookie_octet (list_ascii_of_string s).
Definition value_ok (o : option string) : Prop := match o with Some t => cookie_value t = true | None => True end.

Section HttpBrowser.
Context `{C : Crates} `{B : Bincode} `{SL : SqlLib} `{OL : OpaqueLib} `{O : Orion} `{BS : !BincodeStream}
  `{CF : !OpaqueConfig} `{T : ErrorTexts} `{SH : StdHash} `{J : Jwt} `{ML : !Mailer World} `{UE : UrlEncoding}
  `{GJ : GraphqlJson} `{JP : !Juniper} `{HL : !HttpLib} `{PL : !PageLib}.
#[local] Existing Instance world_clock.
Context (url_path : string) (enable_password_reset : bool).

(** The encoders of the page, and what the server sees of an address: the segments of its
    path, below the path that the site is served under. *)
Class WebCodec : Type := {
  encode_auth : AuthBody -> string;
  encode_query : forall R, Query R -> string;
  decode_response : forall R, Query R -> string -> option (GraphqlResponse R);
  engine_reply : forall R, Query R -> string + R -> GraphqlReply;
  url_segments : string -> list string;
}.
(** The decoders read what the encoders write; the engine plans a document as its fields
    say, and its reply, which is a success even when a field has failed, is decoded to the
    data or to errors; the header that the middleware makes of a cookie is read as its
    value, a missing one is answered by 401; a JWT is made of the characters of a cookie. *)
Class WebCodecLaws (WC : WebCodec) : Prop := {
  decode_login_start r req : rq_content_type req = "application/json" -> rq_payload req = encode_auth (LoginStartBody r) ->
    json_login_start req = inr r;
  decode_login_finish r req : rq_content_type req = "application/json" -> rq_payload req = encode_auth (LoginFinishBody r) ->
    json_login_finish req = inr r;
  decode_register_start r req : rq_content_type req = "application/json" -> rq_payload req = encode_auth (RegisterStartBody r) ->
    json_registration_start req = inr r;
  decode_register_finish r req : rq_content_type req = "application/json" -> rq_payload req = encode_auth (RegisterFinishBody r) ->
    json_registration_finish req = inr r;
  decode_text R (q : Query R) req : rq_payload req = encode_query R q -> payload_text req = inr (rq_payload req);
  decode_query R (q : Query R) : exists b, json_graphql (encode_query R q) = inr b
    /\ plan_batch b = document q (fun x => Reply (engine_reply R q x));
  decode_reply R (q : Query R) x : gp_is_ok (engine_reply R q x) = true
    /\ exists json errors, gp_json (engine_reply R q x) = Some json
      /\ decode_response R q json = Some match x with
           | inr a => mk_graphql_response (Some a) None
           | inl _ => mk_graphql_response None (Some errors)
           end;
  bearer_of_value c : cookie_value c = true ->
    exists h, header_value_from_str ("Bearer " +:+ c) = Some h /\ bearer_from_request (Some h) = inr c;
  bearer_missing : exists e, bearer_from_request None = inl e /\ hr_status e = 401%Z /\ hr_cookies e = [];
  signed_value claims : cookie_value (sign_with_key Hs512 claims) = true;
  segments_of l : Forall (fun s => plain_segment s = true) l -> url_segments (base_url +:+ "/" +:+ String.concat "/" l) = l;
}.
Context {WC : WebCodec} {WL : WebCodecLaws WC}.

(** The server behind the site, the cookies [token] for the whole site and for the paths
    of the login service, the cookie [refresh_token], which is only for these, and the
    cookies of the document, which the server does not look at. *)
Record HttpBrowser := mk_http_browser {
  hb_app : AppState World;
  hb_site_token : option string;
  hb_auth_token : option string;
  hb_refresh : option string;
  hb_document : list (string * string);
  hb_values_ok : value_ok hb_site_token /\ value_ok hb_auth_token;
}.

(** Storing a cookie: an empty value removes it, and one that is no cookie value is not
    stored. *)
Definition stored (old : option string) (value : string) : option string :=
  if String.eqb value "" then None else if cookie_value value then Some value else old.
Lemma stored_ok old value : value_ok old -> value_ok (stored old value).
Proof using Type. unfold stored. destruct (String.eqb value ""); [done|]. by destruct (cookie_value value) eqn:Hv. Qed.
Definition set_app (app : AppState World) (s : HttpBrowser) : HttpBrowser :=
  mk_http_browser app (hb_site_token s) (hb_auth_token s) (hb_refresh s) (hb_document s) (hb_values_ok s).
Definition set_site_token (value : string) (s : HttpBrowser) : HttpBrowser :=
  mk_http_browser (hb_app s) (stored (hb_site_token s) value) (hb_auth_token s) (hb_refresh s) (hb_document s)
    (conj (stored_ok _ value (proj1 (hb_values_ok s))) (proj2 (hb_values_ok s))).
Definition set_auth_token (value : string) (s : HttpBrowser) : HttpBrowser :=
  mk_http_browser (hb_app s) (hb_site_token s) (stored (hb_auth_token s) value) (hb_refresh s) (hb_document s)
    (conj (proj1 (hb_values_ok s)) (stored_ok _ value (proj2 (hb_values_ok s)))).
Definition set_refresh (value : string) (s : HttpBrowser) : HttpBrowser :=
  mk_http_browser (hb_app s) (hb_site_token s) (hb_auth_token s) (stored (hb_refresh s) value) (hb_document s) (hb_values_ok s).
Definition store_cookie (s : HttpBrowser) (c : Cookie) : HttpBrowser :=
  if String.eqb (ck_name c) "token" then
    if String.eqb (ck_path c) (auth_path url_path) then set_auth_token (ck_value c) s
    else if String.eqb (ck_path c) (server_path url_path) then set_site_token (ck_value c) s else s
  else if String.eqb (ck_name c) "refresh_token" then set_refresh (ck_value c) s else s.

(** The cookies of a request: of two with the same name, the one with the longer path is
    the first (RFC 6265, 5.4). *)
Definition named (name : string) (o : option string) : list (string * string) :=
  match o with Some value => [(name, value)] | None => [] end.
Definition cookies_sent (path : list string) (s : HttpBrowser) : list (string * string) :=
  (if bool_decide (head path = Some "auth")
   then named "token" (hb_auth_token s) ++ named "token" (hb_site_token s) ++ named "refresh_token" (hb_refresh s)
   else named "token" (hb_site_token s))%list.
Definition request_of (m : Method) (url payload : string) (s : HttpBrowser) : HttpRequest :=
  let path := url_segments url in
  mk_http_request m path "" None None "application/json" (cookies_sent path s) payload.

Definition served (req : HttpRequest) (s : HttpBrowser) : outcome AnyError HttpAnswer * HttpBrowser :=
  match HttpServer.serve url_path enable_password_reset req (hb_app s) with
  | (Ok a, app) =>
      let s := set_app app s in
      (Ok a, match a with
             | AuthAnswered (Response r) | Failed r => fold_left store_cookie (hr_cookies r) s
             | _ => s
             end)
  | (Err e, _) => match e : Empty_set with end
  | (Panic _, app) => (bail "connection closed", set_app app s)
  end.

(** A text that is no answer of the login service is none of its messages. *)
Definition answer_of (a : HttpAnswer) : AuthAnswer :=
  match a with
  | AuthAnswered a => a
  | Failed r => Response r
  | Answered status _ text => Response (mk_response status [] (TextBody text))
  | FileAnswer file => Response (mk_response 200 [] (TextBody file))
  end.
Definition http_send (url : string) (body : RequestType AuthBody) : stM HttpBrowser AnyError AuthAnswer := fun s =>
  let req := match body with Get => request_of GET url "" s | Post b => request_of POST url (encode_auth b) s end in
  let '(r, s') := served req s in (omap_ok answer_of r, s').
Definition http_send_graphql (R : Type) (url : string) (q : Query R) : stM HttpBrowser AnyError (GraphqlAnswer R) := fun s =>
  let '(r, s') := served (request_of POST url (encode_query R q) s) s in
  (omap_ok (fun a => match a with
                     | Answered status _ text => mk_graphql_answer status text (decode_response R q text)
                     | a => mk_graphql_answer (default 200%Z (http_status a)) "" None
                     end) r, s').

(** The cookies of the document, one that is set being put in the place of its name. *)
Definition http_set_document (text : string) : stM HttpBrowser AnyError unit := fun s =>
  let document := match split_once "="%char (default "" (head (RustStd.split ";"%char text))) with
                  | Some (n, v) => jar_put n v (hb_document s)
                  | None => hb_document s
                  end in
  (Ok tt, mk_http_browser (hb_app s) (hb_site_token s) (hb_auth_token s) (hb_refresh s) document (hb_values_ok s)).
#[local] Instance http_browser : Browser HttpBrowser := {|
  send := http_send;
  send_graphql := http_send_graphql;
  document_cookie := fun s => (Ok (cookie_text (hb_document s)), s);
  set_document_cookie := http_set_document;
|}.

(** The token that is sent to the login service, and the one that is sent elsewhere. *)
Definition login_token (s : HttpBrowser) : option string :=
  match hb_auth_token s with Some t => Some t | None => hb_site_token s end.

Lemma request_tokens m l url payload s :
  url_segments url = l -> head l = Some "auth" ->
  let req := request_of m url payload s in
  rq_path req = l /\ request_cookie "token" req = login_token s /\ request_cookie "refresh_token" req = hb_refresh s.
Proof using Type.
  intros Hl Hh. unfold request_of, cookies_sent. rewrite Hl, bool_decide_eq_true_2 by done. unfold request_cookie, login_token. cbn [rq_cookies rq_path].
  split; [done|]. by destruct (hb_auth_token s), (hb_site_token s), (hb_refresh s).
Qed.
Lemma login_token_ok s : value_ok (login_token s).
Proof using Type. unfold login_token. pose proof (hb_values_ok s) as [? ?]. by destruct (hb_auth_token s). Qed.

(** What a handler answers is what is served. *)
Lemma auth_served {A} (f : A -> AuthAnswer) (m : stM (AppState World) TcpError A) req app a s1 :
  http_config url_path enable_password_reset req app = auth_answer f m app ->
  answer (E := Empty_set) f m app = (Ok a, s1) ->
  HttpServer.serve url_path enable_password_reset req app = (Ok (AuthAnswered a), s1).
Proof using Type.
  intros Hc. unfold HttpServer.serve, sbind at 1, stry at 1. rewrite Hc. unfold auth_answer, answer, sbind, stry.
  destruct (m app) as [[x|e|p] s']; [by intros [= <- <-]..|done].
Qed.

(** The routes of the login service that the page uses. *)
#[local] Ltac auth_route Hp Hm :=
  unfold http_config; rewrite Hp; cbn [dispatch]; rewrite bool_decide_eq_false_2 by naive_solver;
  unfold scope at 1; cbn; rewrite ?Hm, ?bool_decide_eq_true_2 by auto.
Abbreviation config := (http_config url_path enable_password_reset).
Lemma config_login_start req app r :
  rq_path req = ["auth"; "opaque"; "login"; "start"] -> rq_method req = POST -> json_login_start req = inr r ->
  config req app = auth_answer LoginStartAnswer (opaque_login_start r) app.
Proof using Type. intros Hp Hm Hr. auth_route Hp Hm. unfold opaque_login_start_handler. by rewrite Hr. Qed.
Lemma config_login_finish req app r :
  rq_path req = ["auth"; "opaque"; "login"; "finish"] -> rq_method req = POST -> json_login_finish req = inr r ->
  config req app = auth_answer Response (opaque_login_finish url_path r) app.
Proof using Type. intros Hp Hm Hr. auth_route Hp Hm. unfold opaque_login_finish_handler. by rewrite Hr. Qed.
Lemma config_refresh req app :
  rq_path req = ["auth"; "refresh"] -> rq_method req = GET -> rq_refresh_token req = None ->
  config req app = auth_answer Response (get_refresh url_path (request_cookie "refresh_token" req) None) app.
Proof using Type. intros Hp Hm Hr. auth_route Hp Hm. unfold get_refresh_handler. by rewrite Hr. Qed.
Lemma config_logout req app :
  rq_path req = ["auth"; "logout"] -> rq_method req = GET -> rq_refresh_token req = None ->
  config req app = auth_answer Response (get_logout url_path (request_cookie "refresh_token" req) None) app.
Proof using Type. intros Hp Hm Hr. auth_route Hp Hm. unfold get_logout_handler. by rewrite Hr. Qed.
Lemma config_reset_step2 req app t :
  enable_password_reset = true -> t <> "" -> rq_path req = ["auth"; "reset"; "step2"; t] -> rq_method req = GET ->
  config req app = auth_answer Response (get_password_reset_step2 url_path (Some t)) app.
Proof using Type.
  intros He Ht%String.eqb_neq Hp Hm. rewrite He. auth_route Hp Hm. rewrite Ht. cbn. rewrite ?Hm, ?bool_decide_eq_true_2 by auto. done.
Qed.
Lemma config_register req app (rest : string) (f : HttpRequest -> stM (AppState World) HttpResponse HttpAnswer) :
  (rest = "start" /\ f = opaque_register_start_handler \/ rest = "finish" /\ f = opaque_register_finish_handler) ->
  rq_path req = ["auth"; "opaque"; "register"; rest] -> rq_method req = POST ->
  config req app = cookie_to_header f req app.
Proof using Type.
  intros Hf Hp Hm. unfold http_config. rewrite Hp. cbn [dispatch]. rewrite bool_decide_eq_false_2 by naive_solver.
  unfold scope at 1. cbn. unfold cookie_to_header.
  destruct Hf as [[-> ->]|[-> ->]]; cbn; (destruct (request_cookie "token" req) as [c|]; [destruct (header_value_from_str _); [|done]|]);
    cbn; rewrite ?Hm, bool_decide_eq_true_2 by auto; done.
Qed.

(** The middleware, on the requests of the page: the token of the cookie is the one in
    the header, if there is one. *)
Lemma cookie_bearer (f : HttpRequest -> stM (AppState World) HttpResponse HttpAnswer) req s app :
  request_cookie "token" req = login_token s -> rq_authorization req = None ->
  exists req', cookie_to_header f req app = f req' app /\ rq_content_type req' = rq_content_type req /\ rq_payload req' = rq_payload req
    /\ match bearer_from_request (rq_authorization req') with inl _ => None | inr t => Some t end = login_token s.
Proof using WL.
  intros Hc Ha. unfold cookie_to_header. rewrite Hc. pose proof (login_token_ok s) as Hok. destruct (login_token s) as [c|].
  - destruct (bearer_of_value c Hok) as (h & -> & Hh). exists (set_authorization h req). cbn. by rewrite Hh.
  - exists req. rewrite Ha. destruct bearer_missing as (e & -> & _). done.
Qed.

Lemma page_request_config s path body r :
  sends enable_password_reset (login_token s) (hb_refresh s) path body r ->
  let req := match body with
             | Get => request_of GET (base_url +:+ path) "" s
             | Post b => request_of POST (base_url +:+ path) (encode_auth b) s
             end in
  forall app a s1, handle_auth_request url_path enable_password_reset r app = (Ok a, s1) ->
    HttpServer.serve url_path enable_password_reset req app = (Ok (AuthAnswered a), s1).
Proof using WL.
  intros Hs req app a s1. subst req.
  assert (Hseg : forall l m payload, Forall (fun x => plain_segment x = true) l -> head l = Some "auth" ->
    let req := request_of m (base_url +:+ "/" +:+ String.concat "/" l) payload s in
    rq_path req = l /\ request_cookie "token" req = login_token s /\ request_cookie "refresh_token" req = hb_refresh s).
  { intros l m payload Hl Hh. apply request_tokens; [by apply segments_of|done]. }
  destruct Hs as [r|r|r|r| | |t He Ht]; cbn [handle_auth_request]; intros Hrun.
  - destruct (Hseg ["auth"; "opaque"; "login"; "start"] POST (encode_auth (LoginStartBody r))) as (Hp & _); [by repeat constructor|done|].
    eapply auth_served; [|exact Hrun]. by apply config_login_start; [exact Hp|..|by apply decode_login_start].
  - destruct (Hseg ["auth"; "opaque"; "login"; "finish"] POST (encode_auth (LoginFinishBody r))) as (Hp & _); [by repeat constructor|done|].
    eapply auth_served; [|exact Hrun]. by apply config_login_finish; [exact Hp|..|by apply decode_login_finish].
  - destruct (Hseg ["auth"; "opaque"; "register"; "start"] POST (encode_auth (RegisterStartBody r))) as (Hp & Hc & _); [by repeat constructor|done|].
    eapply auth_served; [|exact Hrun]. rewrite (config_register _ _ "start" opaque_register_start_handler); [|auto|exact Hp|done].
    destruct (cookie_bearer opaque_register_start_handler _ s app Hc eq_refl) as (req' & Hh & Hct & Hpay & Hb). etrans; [exact Hh|].
    unfold opaque_register_start_handler. rewrite Hb. by rewrite (decode_register_start r).
  - destruct (Hseg ["auth"; "opaque"; "register"; "finish"] POST (encode_auth (RegisterFinishBody r))) as (Hp & Hc & _); [by repeat constructor|done|].
    eapply auth_served; [|exact Hrun]. rewrite (config_register _ _ "finish" opaque_register_finish_handler); [|auto|exact Hp|done].
    destruct (cookie_bearer opaque_register_finish_handler _ s app Hc eq_refl) as (req' & Hh & Hct & Hpay & Hb). etrans; [exact Hh|].
    unfold opaque_register_finish_handler. by rewrite (decode_register_finish r).
  - destruct (Hseg ["auth"; "refresh"] GET "") as (Hp & _ & Hr); [by repeat constructor|done|].
    eapply auth_served; [|rewrite <- Hr in Hrun; exact Hrun]. by apply config_refresh; [exact Hp|..].
  - destruct (Hseg ["auth"; "logout"] GET "") as (Hp & _ & Hr); [by repeat constructor|done|].
    eapply auth_served; [|rewrite <- Hr in Hrun; exact Hrun]. by apply config_logout; [exact Hp|..].
  - destruct (Hseg ["auth"; "reset"; "step2"; t] GET "") as (Hp & _ & Hr); [by repeat constructor|done|].
    rewrite He in Hrun. eapply auth_served; [|exact Hrun]. apply config_reset_step2; [done| |exact Hp|done].
    intros ->. done.
Qed.

(** The tokens in the cookies of an answer are JWTs. *)
Definition signs {A} (f : A -> AuthAnswer) (m : stM (AppState World) TcpError A) : Prop := forall s x s',
  m s = (Ok x, s') -> forall c, c ∈ token_cookies (f x) -> ck_value c = "" \/ cookie_value (ck_value c) = true.
Lemma signs_none {A} (f : A -> AuthAnswer) m : (forall x, token_cookies (f x) = []) -> signs f m.
Proof using Type. intros H s x s' _ c. rewrite H. by intros ?%not_elem_of_nil. Qed.
Lemma signs_bind {A D} (f : D -> AuthAnswer) (m : stM (AppState World) TcpError A) k : (forall a, signs f (k a)) -> signs f (sbind m k).
Proof using Type. intros Hk s x s' (a & s1 & _ & H)%sbind_ok. by eapply Hk. Qed.
Lemma signs_ret st l b :
  Forall (fun c => ck_value c = "" \/ cookie_value (ck_value c) = true) (token_cookies (Response (mk_response st l b))) ->
  signs Response (sret (mk_response st l b)).
Proof using Type. intros H s x s' [= <- <-]. by apply Forall_forall. Qed.
Lemma signs_throw {A} (f : A -> AuthAnswer) e : signs f (sthrow e).
Proof using Type. done. Qed.
Lemma signs_jwt u groups (k : string -> stM (AppState World) TcpError HttpResponse) :
  (forall jwt, cookie_value jwt = true -> signs Response (k jwt)) ->
  signs Response (let! jwt := in_backend (create_jwt u groups) in k jwt).
Proof using WL.
  intros Hk s x s' (jwt & s1 & Hj & H)%sbind_ok. eapply Hk, H. rewrite in_backend_run in Hj. unfold create_jwt, sbind, stry in Hj. cbn in Hj.
  destruct (sql_register_jwt _ _ _ _) as [[]]; cbn in Hj; [|done|done].
  injection Hj as <- _. apply signed_value.
Qed.
#[local] Ltac signs_step :=
  lazymatch goal with
  | |- signs _ (sbind (in_backend (create_jwt _ _)) _) => apply signs_jwt; intros ? ?
  | |- signs _ (sbind _ _) => apply signs_bind; intros ?
  | |- signs _ (sthrow _) => apply signs_throw
  | |- signs _ (sret (mk_response _ _ _)) => apply signs_ret; cbn
  | |- signs _ (if ?b then _ else _) => destruct b
  | |- signs _ (let '(_, _) := ?p in _) => destruct p
  end.
Lemma answers_signed s path body r app a s1 :
  sends enable_password_reset (login_token s) (hb_refresh s) path body r ->
  handle_auth_request url_path enable_password_reset r app = (Ok a, s1) ->
  forall c, c ∈ token_cookies a -> ck_value c = "" \/ cookie_value (ck_value c) = true.
Proof using WL.
  assert (Ha : forall A (f : A -> AuthAnswer) m, signs f m -> answer (E := Empty_set) f m app = (Ok a, s1) ->
    forall c, c ∈ token_cookies a -> ck_value c = "" \/ cookie_value (ck_value c) = true).
  { intros A f m Hm. unfold answer, sbind, stry. destruct (m app) as [[x|e|p] s'] eqn:Hr; [| |done].
    - intros [= <- _]. by eapply Hm.
    - intros [= <- _] c. by destruct e as [[]| | | |]; intros ?%not_elem_of_nil. }
  intros Hs. destruct Hs as [r|r|r|r| | |t He Ht]; cbn [handle_auth_request]; try (rewrite He); apply Ha.
  - by apply signs_none.
  - unfold opaque_login_finish, get_login_successful_response. repeat signs_step. apply Forall_singleton. by right.
  - by apply signs_none.
  - unfold opaque_register_finish. repeat signs_step. constructor.
  - unfold get_refresh. repeat signs_step. apply Forall_singleton. by right.
  - unfold get_logout. repeat signs_step. apply Forall_singleton. by left.
  - unfold get_password_reset_step2. repeat signs_step. apply Forall_singleton. by right.
Qed.

(** What storing the cookies of an answer does. *)
Lemma store_app l s : hb_app (fold_left store_cookie l s) = hb_app s.
Proof using Type.
  revert s. induction l as [|c l IH]; intros s; [done|]. cbn [fold_left]. rewrite IH. unfold store_cookie.
  by repeat case_match.
Qed.
Lemma store_other_token l s :
  List.filter (fun c => String.eqb (ck_name c) "token") l = [] ->
  hb_site_token (fold_left store_cookie l s) = hb_site_token s /\ hb_auth_token (fold_left store_cookie l s) = hb_auth_token s.
Proof using Type.
  revert s. induction l as [|c l IH]; intros s; [done|]. cbn [List.filter fold_left]. destruct (String.eqb (ck_name c) "token") eqn:Hn; [done|].
  intros Hl. destruct (IH (store_cookie s c) Hl) as [-> ->]. unfold store_cookie. rewrite Hn. by case_match.
Qed.
Lemma store_auth_token l s t age :
  List.filter (fun c => String.eqb (ck_name c) "token") l = [token_cookie t age (auth_path url_path)] ->
  t <> "" -> cookie_value t = true -> hb_auth_token (fold_left store_cookie l s) = Some t.
Proof using Type.
  intros Hl Hne%String.eqb_neq Hv. revert s Hl. induction l as [|c l IH]; intros s; [done|]. cbn [List.filter fold_left].
  destruct (String.eqb (ck_name c) "token") eqn:Hn; [|apply IH]. intros [= -> Hl].
  destruct (store_other_token l (store_cookie s (token_cookie t age (auth_path url_path))) Hl) as [_ ->].
  unfold store_cookie. cbn. rewrite String.eqb_refl. cbn. unfold stored. by rewrite Hne, Hv.
Qed.

(** What [WebSql] asks of a browser. *)
Lemma http_delivers : Delivers url_path enable_password_reset hb_app login_token hb_refresh.
Proof using WL.
  constructor. intros path body r a s s1 Hs Hrun.
  pose proof (page_request_config s path body r Hs (hb_app s) a s1 Hrun) as Hserve. cbv zeta in Hserve.
  pose proof (answers_signed s path body r (hb_app s) a s1 Hs Hrun) as Hsigned.
  set (s2 := match a with Response r => fold_left store_cookie (hr_cookies r) (set_app s1 s) | _ => set_app s1 s end).
  exists s2. split_and!.
  - cbn [send http_browser]. unfold http_send, served. destruct body as [|b]; cbn [hb_app]; rewrite Hserve; by destruct a.
  - subst s2. destruct a; [|done..]. by rewrite store_app.
  - intros Ha. subst s2. destruct a as [x| |]; [|done..]. unfold login_token.
    by destruct (store_other_token (hr_cookies x) (set_app s1 s) Ha) as [-> ->].
  - intros t age Hne Ha. subst s2. destruct a as [x| |]; [|done..]. unfold login_token.
    rewrite (store_auth_token (hr_cookies x) (set_app s1 s) t age Ha Hne); [done|].
    destruct (Hsigned (token_cookie t age (auth_path url_path))) as [Ht|Ht]; [rewrite Ha; by left|done|done].
Qed.

(** A request to the GraphQL endpoint. *)
Definition graphql_request {R} (q : Query R) (s : HttpBrowser) : HttpRequest :=
  request_of POST (base_url +:+ "/api/graphql") (encode_query R q) s.
Lemma graphql_request_fields {R} (q : Query R) s :
  rq_path (graphql_request q s) = ["api"; "graphql"] /\ request_cookie "token" (graphql_request q s) = hb_site_token s.
Proof using WL.
  unfold graphql_request, request_of, cookies_sent.
  assert (Hseg : url_segments (base_url +:+ "/api/graphql") = ["api"; "graphql"]) by (apply (segments_of ["api"; "graphql"]); by repeat constructor).
  rewrite Hseg. rewrite bool_decide_eq_false_2 by done. split; [done|]. unfold request_cookie. cbn. by destruct (hb_site_token s).
Qed.

(** The handler runs the document. *)
Lemma document_served {R} (q : Query R) v req w r w' :
  rq_content_type req = "application/json" -> rq_payload req = encode_query R q ->
  execute v q w = (r, w') -> no_panic r ->
  let x := match r with Ok a => inr a | Err e => inl e | Panic _ => inl "" end in
  exists json errors, post_graphql_handler (mk_context v) req w = (Ok (Answered 200 "application/json" json), w')
    /\ decode_response R q json = Some match r with
         | Ok a => mk_graphql_response (Some a) None
         | _ => mk_graphql_response None (Some errors)
         end.
Proof using WL.
  intros Hct Hpay Hrun Hp x. destruct (decode_query R q) as (b & Hb & Hplan).
  destruct (decode_reply R q x) as (Hok & json & errors & Hj & Hdec). exists json, errors. split.
  - unfold post_graphql_handler. rewrite Hct. cbn [String.eqb Ascii.eqb Bool.eqb].
    rewrite (sbind_run _ _ w b w); [|rewrite (decode_text R q req Hpay), Hpay; cbn; by rewrite Hb].
    rewrite (sbind_run _ _ w (engine_reply R q x) w'); [unfold graphql_answer; by rewrite Hj, Hok|].
    rewrite Hplan, document_executes. unfold sbind, stry. rewrite Hrun. subst x. destruct r as [a|e|p]; [done..|by destruct (Hp p)].
  - rewrite Hdec. subst x. by destruct r as [a|e|p]; [..|destruct (Hp p)].
Qed.

(** Without a valid token the request is refused. *)
Lemma graphql_refused {R} (q : Query R) s :
  (forall tok v, hb_site_token s = Some tok -> fst (check_if_token_is_valid tok (hb_app s)) <> Ok v) ->
  exists e, HttpServer.serve url_path enable_password_reset (graphql_request q s) (hb_app s) = (Ok (Failed e), hb_app s)
    /\ hr_status e = 401%Z /\ hr_cookies e = [].
Proof using WL.
  intros Hn. destruct (graphql_request_fields q s) as [Hpath Hc]. unfold HttpServer.serve, sbind at 1, stry.
  rewrite (serve_graphql _ _ _ _ Hpath). unfold cookie_to_header. rewrite Hc. pose proof (proj1 (hb_values_ok s)) as Hval.
  destruct (hb_site_token s) as [tok|].
  - destruct (bearer_of_value tok Hval) as (h & -> & Hb). cbn [rq_method set_authorization graphql_request request_of].
    unfold graphql_route. cbn [rq_authorization set_authorization]. rewrite Hb. unfold sbind at 1. cbn [lift_error sret]. unfold sbind at 1, smap_err.
    specialize (Hn tok). pose proof (check_token_keeps tok (hb_app s)) as Hk. pose proof (check_token_no_panic tok (hb_app s)) as Hp.
    destruct (check_if_token_is_valid tok (hb_app s)) as [[v|e|p] s1]; cbn in *; subst s1; [by destruct (Hn v)|by eexists|by destruct (Hp p)].
  - cbn [rq_method graphql_request request_of]. unfold graphql_route. destruct bearer_missing as (e & He & ? & ?).
    cbn [rq_authorization graphql_request request_of]. rewrite He. by exists e.
Qed.

(** What [WebGraphql] asks of a browser. *)
Lemma http_delivers_graphql : DeliversGraphql hb_app hb_site_token login_token.
Proof using WL.
  constructor.
  - intros R q tok v s r w Htok Hv Hrun Hp. destruct (graphql_request_fields q s) as [Hpath Hc].
    pose proof (proj1 (hb_values_ok s)) as Hval. rewrite Htok in Hval. destruct (bearer_of_value tok Hval) as (h & Hh & Hb).
    destruct (document_served q v (set_authorization h (graphql_request q s)) (app_backend (hb_app s)) r w eq_refl eq_refl Hrun Hp)
      as (json & errors & Hpost & Hdec).
    exists json, errors, (set_app (mk_app w (jwt_blacklist (hb_app s))) s). split; [|done].
    change (send_graphql R ?url q s) with (http_send_graphql R url q s). unfold http_send_graphql, served. fold (graphql_request q s).
    assert (Hserve : HttpServer.serve url_path enable_password_reset (graphql_request q s) (hb_app s)
      = (Ok (Answered 200 "application/json" json), mk_app w (jwt_blacklist (hb_app s)))).
    { unfold HttpServer.serve, sbind at 1, stry. rewrite (serve_graphql _ _ _ _ Hpath). unfold cookie_to_header. rewrite Hc, Htok, Hh.
      cbn [rq_method set_authorization graphql_request request_of].
      rewrite (graphql_route_run _ (hb_app s) tok v) by (done || unfold header_token; cbn; by rewrite Hb).
      cbn [rq_method set_authorization graphql_request request_of]. rewrite in_backend_run. by rewrite Hpost. }
    rewrite Hserve. cbn. by rewrite Hdec.
  - intros R q s Hn. destruct (graphql_refused q s Hn) as (e & Hserve & He & Hl).
    exists "", (set_app (hb_app s) s). split; [|done].
    change (send_graphql R ?url q s) with (http_send_graphql R url q s). unfold http_send_graphql, served. fold (graphql_request q s).
    rewrite Hserve, Hl. cbn. by rewrite He.
Qed.

(** C8. The server is what the page counts on.  Given decoders that read what the
    encoders of the page write and an engine that plans its documents as their fields
    say, the browser that sends every request to [serve], through the routes, the cookie
    that becomes a header and the decoders, and keeps the cookies of the answers, is one
    that the theorems on the page ask for: a request to the login service is answered as
    [handle_auth_request] does, with the cookie of the login paths first; a document sent
    to the GraphQL endpoint with a valid site token runs with the rights of the token and
    is answered with its data or its error, and without one it is answered by 401 and
    changes nothing. *)
Theorem http_serves_page :
  Delivers url_path enable_password_reset hb_app login_token hb_refresh
  /\ DeliversGraphql hb_app hb_site_token login_token.
Proof using WL. split; [apply http_delivers|apply http_delivers_graphql]. Qed.
End HttpBrowser.
