(* ===== verification/WebHttpExamples.v ===== *)
(** * A server that reads the page's requests

    Encoders and decoders in binary text that satisfy the laws of [WebHttp], an engine
    that plans the documents of the page, and runs of the page on the server behind them. *)

From S2P Require Import Prelude RustStd Extern Types Concrete Handler Deserialize Db ExampleDb SqlFilters SqlSchema SqlUser SqlGroup SqlBackend SqlTcp SqlOpaque AccessControl LdapHandler LdapSql AuthService AuthSession Clients GraphqlQuery GraphqlMutation GraphqlSql StoredTypes TypeSafety HttpServer HttpSql WebPage WebApi WebApp WebForms WebSafety WebSql WebGraphql WebExamples WebHttp.
From Stdlib Require Import Ascii String.
From stdpp Require Import strings list gmap countable.
#[local] Open Scope rust_scope.
#[local] Open Scope string_scope.

(* ------------------------------------------------------------------ *)
(** ** Binary text *)

Fixpoint text_of_pos (p : positive) : string :=
  match p with xH => "e" | xO p => String "0" (text_of_pos p) | xI p => String "1" (text_of_pos p) end.
Fixpoint pos_of_text (s : string) : positive :=
  match s with
  | String c s => if Ascii.eqb c "0" then xO (pos_of_text s) else if Ascii.eqb c "1" then xI (pos_of_text s) else xH
  | EmptyString => xH
  end.
Lemma pos_of_text_of_pos p : pos_of_text (text_of_pos p) = p.
Proof. induction p as [p IH|p IH|]; [cbn; by rewrite IH..|done]. Qed.
Lemma text_of_pos_value p : cookie_value (text_of_pos p) = true.
Proof.
  assert (H : forallb cookie_octet (list_ascii_of_string (text_of_pos p)) = true) by (by induction p).
  unfold cookie_value. rewrite H. by destruct p.
Qed.

Definition write `{Countable A} (a : A) : string := text_of_pos (encode a).
Definition read (A : Type) `{Countable A} (s : string) : option A := decode (pos_of_text s).
Lemma read_write `{Countable A} (a : A) : read A (write a) = Some a.
Proof. unfold read, write. by rewrite pos_of_text_of_pos, decode_encode. Qed.

(** What is read, or the error. *)
Definition read_or {E} (A : Type) `{Countable A} {B} (e : E) (f : A -> B) (s : string) : E + B :=
  match read A s with Some a => inr (f a) | None => inl e end.
Lemma read_or_write {E} `{Countable A} {B} (e : E) (f : A -> B) a b : f a = b -> read_or A e f (write a) = inr b.
Proof. intros <-. unfold read_or. by rewrite read_write. Qed.

(* ------------------------------------------------------------------ *)
(** ** Queries *)

(** A filter is a tree with the constraints at its leaves. *)
Definition FilterLeaf : Type := option (string * string) * option string * option GroupId.
Definition constraint_code (c : EqualityConstraint) := (ec_field c, ec_value c).
Fixpoint filter_tree (f : RequestFilter) : gen_tree FilterLeaf :=
  match f with
  | mk_request_filter any all not eq m i =>
      let tree_list l := match l with None => GenNode 0 [] | Some l => GenNode 1 (map filter_tree l) end in
      GenNode 0 [tree_list any; tree_list all; match not with None => GenNode 0 [] | Some f => GenNode 1 [filter_tree f] end;
                 GenLeaf (constraint_code <$> eq, m, i)]
  end.
Fixpoint tree_filter (t : gen_tree FilterLeaf) : RequestFilter :=
  match t with
  | GenNode _ [any; all; not; GenLeaf (eq, m, i)] =>
      let list_of t := match t with GenNode 1 l => Some (map tree_filter l) | _ => None end in
      mk_request_filter (list_of any) (list_of all) (match not with GenNode 1 [f] => Some (tree_filter f) | _ => None end)
        ((fun '(n, v) => mk_equality n v) <$> eq) m i
  | _ => mk_request_filter None None None None None None
  end.
Lemma tree_filter_tree f : tree_filter (filter_tree f) = f.
Proof.
  induction f as [any all not eq m i Hany Hall Hnot] using request_filter_ind.
  assert (Hl : forall l, Forall (fun f => tree_filter (filter_tree f) = f) l -> map tree_filter (map filter_tree l) = l).
  { intros l Hf. rewrite map_map. induction Hf as [|f l Hf _ IH]; [done|]. cbn [map]. by rewrite Hf, IH. }
  cbn. f_equal.
  - destruct any as [l|]; [|done]. by rewrite Hl by auto.
  - destruct all as [l|]; [|done]. by rewrite Hl by auto.
  - destruct not as [f|]; [|done]. by rewrite Hnot.
  - by destruct eq as [[]|].
Qed.

Definition attribute_code (a : AttributeValueInput) := (ai_name a, ai_value a).
Definition code_attribute '(n, v) := mk_attribute_input n v.
Lemma code_attributes o : fmap (map code_attribute) (fmap (map attribute_code) o) = (o : option (list AttributeValueInput)).
Proof. destruct o as [l|]; [|done]. cbn. f_equal. rewrite map_map. induction l as [|[] l IH]; [done|]. cbn. by f_equal. Qed.
Definition type_code (t : AttributeType) : nat := match t with AString => 0 | AInteger => 1 | AJpegPhoto => 2 | ADateTime => 3 end.
Definition code_type (n : nat) : AttributeType := match n with 0 => AString | 1 => AInteger | 2 => AJpegPhoto | _ => ADateTime end.
Lemma code_type_code t : code_type (type_code t) = t.
Proof. by destruct t. Qed.

(** The document, its strings and numbers, and its inputs. *)
Definition InputCode : Type :=
  string * list (option string) * option (list string) * option (list (string * list string)).
Definition QueryCode : Type := (nat * string * GroupId * (nat * bool * bool * bool)) + InputCode + InputCode + (bool * option (gen_tree FilterLeaf)).
Definition create_user_code (u : CreateUserInput) : InputCode :=
  (cui_id u, [Some (cui_email u); cui_display_name u; cui_first_name u; cui_last_name u; cui_avatar u], None,
   map attribute_code <$> cui_attributes u).
Definition update_user_code (u : UpdateUserInput) : InputCode :=
  (uui_id u, [uui_email u; uui_display_name u; uui_first_name u; uui_last_name u; uui_avatar u], uui_remove_attributes u,
   map attribute_code <$> uui_insert_attributes u).
Definition code_create_user (c : InputCode) : CreateUserInput :=
  match c with
  | (i, [email; name; first; last; avatar], _, l) => mk_create_user_input i (default "" email) name first last avatar (map code_attribute <$> l)
  | (i, _, _, _) => mk_create_user_input i "" None None None None None
  end.
Definition code_update_user (c : InputCode) : UpdateUserInput :=
  match c with
  | (i, [email; name; first; last; avatar], r, l) => mk_update_user_input i email name first last avatar r (map code_attribute <$> l)
  | (i, _, _, _) => mk_update_user_input i None None None None None None None
  end.

Definition plain_code (tag : nat) (s : string) (g : GroupId) : QueryCode := inl (inl (inl (tag, s, g, (0, false, false, false)))).
Definition query_code {R} (q : Query R) : QueryCode :=
  match q with
  | CreateUser user => inl (inl (inr (create_user_code user)))
  | UpdateUser user => inl (inr (update_user_code user))
  | ListUsersQuery filters => inr (true, filter_tree <$> filters)
  | ListUserNames filters => inr (false, filter_tree <$> filters)
  | CreateGroup name => plain_code 0 name 0%Z
  | DeleteUserQuery user => plain_code 1 user 0%Z
  | DeleteGroupQuery id => plain_code 2 "" id
  | AddUserToGroup user id => plain_code 3 user id
  | RemoveUserFromGroup user id => plain_code 4 user id
  | GetGroupList => plain_code 5 "" 0%Z
  | GetGroupDetails id => plain_code 6 "" id
  | GetUserDetails id => plain_code 7 id 0%Z
  | GetUserAttributesSchema => plain_code 8 "" 0%Z
  | GetGroupAttributesSchema => plain_code 9 "" 0%Z
  | DeleteUserAttributeQuery name => plain_code 10 name 0%Z
  | DeleteGroupAttributeQuery name => plain_code 11 name 0%Z
  | CreateGroupAttribute name t l v => inl (inl (inl (12, name, 0%Z, (type_code t, l, v, false))))
  | CreateUserAttribute name t l v e => inl (inl (inl (13, name, 0%Z, (type_code t, l, v, e))))
  end.
Definition AnyQuery : Type := { R : Type & Query R }.
Definition any {R} (q : Query R) : AnyQuery := existT R q.
Definition code_query (c : QueryCode) : AnyQuery :=
  match c with
  | inl (inl (inr c)) => any (CreateUser (code_create_user c))
  | inl (inr c) => any (UpdateUser (code_update_user c))
  | inr (true, f) => any (ListUsersQuery (tree_filter <$> f))
  | inr (false, f) => any (ListUserNames (tree_filter <$> f))
  | inl (inl (inl (tag, s, g, (t, l, v, e)))) =>
      match tag with
      | 0 => any (CreateGroup s)
      | 1 => any (DeleteUserQuery s)
      | 2 => any (DeleteGroupQuery g)
      | 3 => any (AddUserToGroup s g)
      | 4 => any (RemoveUserFromGroup s g)
      | 5 => any GetGroupList
      | 6 => any (GetGroupDetails g)
      | 7 => any (GetUserDetails s)
      | 8 => any GetUserAttributesSchema
      | 9 => any GetGroupAttributesSchema
      | 10 => any (DeleteUserAttributeQuery s)
      | 11 => any (DeleteGroupAttributeQuery s)
      | 12 => any (CreateGroupAttribute s (code_type t) l v)
      | _ => any (CreateUserAttribute s (code_type t) l v e)
      end
  end.
Lemma code_query_code {R} (q : Query R) : code_query (query_code q) = any q.
Proof.
  destruct q as [[]| |[]| | | | | | | |f|f| | | | | |]; cbn -[fmap]; rewrite ?code_attributes, ?code_type_code; try done.
  all: destruct f as [f|]; [|done]; cbn; by rewrite tree_filter_tree.
Qed.

(* ------------------------------------------------------------------ *)
(** ** Replies *)

(** What a document answers with, as something that can be written. *)
Record Codec (A : Type) := mk_codec { put : A -> positive; get : positive -> option A; get_put a : get (put a) = Some a }.
Arguments put {A} _ _.
Arguments get {A} _ _.
Arguments get_put {A} _ _.
Definition coded {A B} `{Countable B} (f : A -> B) (g : B -> A) (E : forall a, g (f a) = a) : Codec A.
Proof. refine (mk_codec A (fun a => encode (f a)) (fun p => g <$> decode p) _). intros a. by rewrite decode_encode; cbn; rewrite E. Defined.
Definition coded_list {A B} `{Countable B} (f : A -> B) (g : B -> A) (E : forall a, g (f a) = a) : Codec (list A).
Proof.
  refine (coded (map f) (map g) _). intros l. induction l as [|a l IH]; [done|]. cbn. by rewrite E, IH.
Defined.
Definition page_code (u : UserPage) :=
  (up_id u, up_email u, up_display_name u, up_first_name u, up_last_name u, up_avatar u, up_creation_date u, up_uuid u,
   map (fun g => (wg_id g, wg_display_name g)) (up_groups u)).
Definition code_page '(i, e, d, f, l, a, c, u, g) :=
  mk_user_page i e d f l a c u (map (fun '(i, n) => mk_web_group i n) g).
Lemma code_page_code u : code_page (page_code u) = u.
Proof.
  destruct u as [i e d f l a c u g]. cbn. f_equal. rewrite map_map. induction g as [|[] g IH]; [done|]. cbn. by f_equal.
Qed.
Definition member_code (m : Member) := (me_id m, me_display_name m).
Definition code_member '(i, n) := mk_member i n.
Definition group_page_code (g : GroupPage) :=
  (gp_id g, gp_display_name g, gp_creation_date g, gp_uuid g, map member_code (gp_users g)).
Definition code_group_page '(i, d, c, u, l) := mk_group_page i d c u (map code_member l).
Lemma code_group_page_code g : code_group_page (group_page_code g) = g.
Proof.
  destruct g as [i d c u l]. cbn. f_equal. rewrite map_map. induction l as [|[] l IH]; [done|]. cbn. by f_equal.
Qed.
#[local] Ltac fields := by intros [].
Definition reply_codec {R} (q : Query R) : Codec R.
Proof.
  refine (match q in Query R return Codec R with CreateUser _ => _ | _ => _ end);
    lazymatch goal with
    | |- Codec Success => refine (coded su_ok mk_success _); fields
    | |- Codec CreatedUser => refine (coded (fun u => (cu_id u, cu_creation_date u)) (fun '(i, d) => mk_created_user i d) _); fields
    | |- Codec CreatedGroup => refine (coded (fun g => (cg_id g, cg_display_name g)) (fun '(i, d) => mk_created_group i d) _); fields
    | |- Codec UserPage => refine (coded page_code code_page code_page_code)
    | |- Codec GroupPage => refine (coded group_page_code code_group_page code_group_page_code)
    | |- Codec (list Member) => refine (coded_list member_code code_member _); fields
    | |- Codec (list ListedGroup) =>
        refine (coded_list (fun g => (lg_id g, lg_display_name g, lg_creation_date g)) (fun '(i, n, d) => mk_listed_group i n d) _); fields
    | |- Codec (list ListedUser) =>
        refine (coded_list (fun u => (lu_id u, lu_email u, lu_display_name u, lu_first_name u, lu_last_name u, lu_creation_date u))
          (fun '(i, e, d, f, l, c) => mk_listed_user i e d f l c) _); fields
    | |- Codec (list UserSchemaRow) =>
        refine (coded_list (fun r => (sr_name r, type_code (sr_type r), sr_is_list r, sr_is_visible r, sr_is_editable r, sr_is_hardcoded r))
          (fun '(n, t, l, v, e, h) => mk_web_schema_row n (code_type t) l v e h) _); intros []; cbn; by rewrite code_type_code
    | |- Codec (list GroupSchemaRow) =>
        refine (coded_list (fun r => (gsr_name r, type_code (gsr_type r), gsr_is_list r, gsr_is_visible r, gsr_is_hardcoded r))
          (fun '(n, t, l, v, h) => mk_group_schema_row n (code_type t) l v h) _); intros []; cbn; by rewrite code_type_code
    end.
Defined.

(** The data, or the text of the error. *)
Definition write_reply {R} (q : Query R) (x : string + R) : string :=
  match x with
  | inl e => String "E" (write e)
  | inr a => String "D" (text_of_pos (put (reply_codec q) a))
  end.
Definition read_reply (R : Type) (q : Query R) (s : string) : option (GraphqlResponse R) :=
  match s with
  | String "E" s => e ← read string s; Some (mk_graphql_response None (Some [e]))
  | String "D" s => a ← get (reply_codec q) (pos_of_text s); Some (mk_graphql_response (Some a) None)
  | _ => None
  end.
Lemma read_write_reply {R} (q : Query R) x :
  exists errors, read_reply R q (write_reply q x) = Some match x with
    | inr a => mk_graphql_response (Some a) None
    | inl _ => mk_graphql_response None (Some errors)
    end.
Proof.
  destruct x as [e|a]; [exists [e]|exists []]; unfold write_reply, read_reply.
  - by rewrite read_write.
  - by rewrite pos_of_text_of_pos, get_put.
Qed.

(* ------------------------------------------------------------------ *)
(** ** The server *)

Section Examples.
#[local] Existing Instances concrete_crates concrete_bincode concrete_sql concrete_hash toy_opaque toy_orion toy_stream
  toy_config toy_texts toy_mailer world_clock toy_opaque_laws toy_orion_laws toy_stream_laws
  concrete_base64_laws plain_url toy_page.

(** A signature that is only an encoding, in the characters of a cookie. *)
Definition text_jwt : Jwt := {|
  sign_with_key a c := match a with Hs512 => write (claims_tuple c) | OtherAlgorithm _ => EmptyString end;
  verify_with_key s := '(e, i, u, g) ← read (Z * Z * string * list string) s; Some (Hs512, mk_claims e i u g);
|}.
#[local] Existing Instance text_jwt.

(** The variables of a request are the document that it asks for. *)
Definition query_json : GraphqlJson := {| InputValue := AnyQuery; variables_from_str s := code_query <$> read QueryCode s |}.
#[local] Existing Instance query_json.
Definition reply_to {R} (q : Query R) (x : string + R) : GraphqlReply := mk_graphql_reply (Some (write_reply q x)) true.
Definition document_plan (r : GraphQLRequest) : Plan :=
  match gq_variables r with
  | Some (existT _ q) => document q (fun x => Reply (reply_to q x))
  | None => Reply (mk_graphql_reply None false)
  end.
Definition document_engine : Juniper := {|
  plan_request := document_plan;
  plan_batch b := match b with Single r => document_plan r | Batch _ => Reply (mk_graphql_reply None false) end;
  playground_source url := url;
  graphiql_source url := url;
|}.
#[local] Existing Instance document_engine.

Definition text_http : HttpLib := {|
  header_value_from_str s := Some s;
  bearer_from_request h := match h ≫= strip_text "Bearer " with Some t => inr t | None => inl (mk_response 401 [] NoBody) end;
  json_bind _ := inl toy_error;
  json_simple_login _ := inl toy_error;
  json_login_start req :=
    read_or (UserId * unit) toy_error (fun '(u, r) => mk_login_start u r) (rq_payload req);
  json_login_finish req :=
    read_or (string * unit) toy_error (fun '(d, f) => mk_login_finish d f) (rq_payload req);
  json_registration_start req :=
    read_or (UserId * bytes) "no JSON" (fun '(u, r) => mk_registration_start u r) (rq_payload req);
  json_registration_finish req :=
    read_or (string * bytes) toy_error (fun '(d, u) => mk_registration_finish d u) (rq_payload req);
  payload_text req := inr (rq_payload req);
  json_graphql s := read_or QueryCode toy_error (fun c => Single (mk_graphql_request "" None (Some (code_query c)))) s;
  query_graphql s := inr (mk_get_graphql s None None);
  content_type_error := toy_error;
  serialize_error := toy_error;
  method_not_allowed := mk_response 405 [] NoBody;
  resource_not_found := mk_response 404 [] NoBody;
  not_routed _ := mk_response 404 [] NoBody;
  read_file := toy_pages;
  serve_directory _ _ _ := Failed toy_error;
|}.
#[local] Existing Instance text_http.

Definition text_codec : WebCodec := {|
  encode_auth b := match b with
    | LoginStartBody r => write (ls_username r, ls_login_start_request r : unit)
    | LoginFinishBody r => write (lf_server_data r, lf_credential_finalization r : unit)
    | RegisterStartBody r => write (rs_username r, rs_registration_start_request r : bytes)
    | RegisterFinishBody r => write (rf_server_data r, rf_registration_upload r : bytes)
    | TextJson s => s
    end;
  encode_query R q := write (query_code q);
  decode_response R q s := read_reply R q s;
  engine_reply R q x := reply_to q x;
  url_segments s := match s with String "/" (String c s) => RustStd.split "/"%char (String c s) | _ => [] end;
|}.
#[local] Existing Instance text_codec.

(** The segments of a path. *)
Lemma plain_no_slash s : plain_segment s = true -> contains_char "/"%char s = false.
Proof.
  unfold plain_segment. intros [_ H]%andb_true_iff. induction s as [|c s IH]; [done|].
  cbn [list_ascii_of_string forallb] in H. apply andb_true_iff in H as [Hc H]. cbn. rewrite IH by done.
  cbn in Hc. by destruct (Ascii.eqb c "/").
Qed.
Lemma split_segments x l :
  Forall (fun s => plain_segment s = true) (x :: l) -> RustStd.split "/"%char (String.concat "/" (x :: l)) = x :: l.
Proof.
  revert x. induction l as [|y l IH]; intros x [Hx Hl]%Forall_cons_1; [cbn; by rewrite (split_no_sep _ x) by by apply plain_no_slash|].
  change (String.concat "/" (x :: y :: l)) with (x +:+ String "/" (String.concat "/" (y :: l))).
  rewrite split_app_sep by by apply plain_no_slash. by rewrite IH.
Qed.

Lemma text_codec_laws : WebCodecLaws text_codec.
Proof.
  constructor.
  - intros [u r] req _ Hp. cbn. rewrite Hp. by apply read_or_write.
  - intros [d f] req _ Hp. cbn. rewrite Hp. by apply read_or_write.
  - intros [u r] req _ Hp. cbn. rewrite Hp. by apply read_or_write.
  - intros [d r] req _ Hp. cbn. rewrite Hp. by apply read_or_write.
  - done.
  - intros R q. exists (Single (@mk_graphql_request query_json "" None (Some (any q)))). split; [|done].
    cbn. apply read_or_write. by rewrite code_query_code.
  - intros R q x. split; [done|]. destruct (read_write_reply q x) as [errors He]. by exists (write_reply q x), errors.
  - intros c _. exists ("Bearer " +:+ c). split; [done|].
    change (bearer_from_request (HttpLib := text_http) (Some ("Bearer " +:+ c)))
      with (match strip_text "Bearer " ("Bearer " +:+ c) with Some t => inr t | None => inl (mk_response 401 [] NoBody) end).
    by rewrite strip_text_app.
  - by eexists.
  - intros claims. apply text_of_pos_value.
  - intros [|x l] H; [done|]. change (url_segments ("" +:+ "/" +:+ String.concat "/" (x :: l)) = x :: l).
    pose proof (split_segments x l H) as Hs. destruct (String.concat "/" (x :: l)) as [|c s] eqn:Hc; [|exact Hs].
    apply Forall_cons_1 in H as [Hx _]. destruct x; [done|]. by destruct l.
Qed.
#[local] Existing Instance text_codec_laws.

Lemma http_serves_page_witness :
  WebCodecLaws text_codec
  /\ Delivers (BR := http_browser "" true) "" true hb_app login_token hb_refresh
  /\ DeliversGraphql (BR := http_browser "" true) hb_app hb_site_token login_token.
Proof. split; [exact text_codec_laws|]. apply (http_serves_page "" true). Defined.

(** An administrator resets his password with the link of the mail and logs in with it.
    The page then creates users, as an administrator does, but cannot give them passwords:
    to the paths of the login service the browser still sends the token of the reset, which
    gives no rights over others, before the one of the login.  It expires in five minutes;
    neither the login nor a logout removes it. *)
#[local] Instance site : Browser HttpBrowser := http_browser "" true.
Definition mailed_token : string := match fst example_reset with Ok (Some t) => t | _ => "" end.
Definition mailed_browser : HttpBrowser :=
  mk_http_browser (mk_app (snd example_reset) ∅) None None None [] (conj I I).
Definition log_in (password : string) : stM HttpBrowser AnyError unit :=
  let! started := login_start (mk_login_start uid_admin tt) in
  let! _ := login_finish (mk_login_finish (lr_server_data started) tt) in
  sret tt.
Definition give_password (u : UserId) (password : string) : stM HttpBrowser AnyError unit :=
  let! started := host_register_start (mk_registration_start u (into_bytes password)) in
  host_register_finish (mk_registration_finish (rr_server_data started) (into_bytes password)).
Definition reset_and_log_in : stM HttpBrowser AnyError unit :=
  let! _ := reset_password_step2 mailed_token in
  let! _ := give_password uid_admin "correct horse" in
  log_in "correct horse".
Example reset_cookie_shadows :
  let '(r, s) := reset_and_log_in mailed_browser in
  let logged_out := snd (logout s) in
  r = Ok tt
  /\ omap_ok cg_display_name (fst (graphql_query (CreateGroup "Staff") "" s)) = Ok "Staff"
  /\ (exists e, fst (give_password uid_bob "battery staple" s) = Err e)
  /\ fst (give_password uid_bob "battery staple" (set_auth_token "" s)) = Ok tt
  /\ hb_site_token logged_out = None /\ hb_auth_token logged_out = hb_auth_token s.
Proof. vm_compute. repeat split; try (eexists; reflexivity); reflexivity. Qed.
End Examples.
